(* ===== verification/_CoqProject ===== *)
-Q . S2P
Prelude.v
RingBuffer.v
RingBufferSpec.v
TraceLoad.v
TraceLoadSpec.v
Protocol.v
Ids.v
Message.v
MessageSpec.v
Filter.v
FilterSpec.v
Receiver.v
ReceiverSpec.v
DltFile.v
DltFileSpec.v
MultipleFiles.v
MultipleFilesSpec.v
ConfigFile.v
ConfigFileSpec.v
SortedTable.v
DaemonTables.v
DaemonTablesSpec.v
DaemonContextsSpec.v
EnvLL.v
EnvLLSpec.v
UserLog.v
UserLogSpec.v
Payload.v
PayloadSpec.v
MessageQueue.v
UserShared.v
UserSend.v
UserSendSpec.v
EventHandler.v
EventHandlerSpec.v
DaemonSend.v
DaemonKeptSpec.v
DaemonMessagesSpec.v
DaemonSendSpec.v
DaemonDeliverySpec.v
DaemonEventsSpec.v
DaemonControl.v
DaemonControlSpec.v
DaemonLogInfoSpec.v
DaemonRequestsSpec.v
DaemonLevelsSpec.v
DaemonUser.v
DaemonRegistrySpec.v
DaemonForwardSpec.v
DaemonHandlersSpec.v
DaemonUserSpec.v
DaemonLogSpec.v
DaemonClient.v
DaemonClientSpec.v
DaemonChecksSpec.v
LogInfoText.v
LogInfoTextSpec.v
Client.v
ClientSpec.v
ClientRequestsSpec.v
ClientTablesSpec.v
UserContexts.v
UserControl.v
UserContextsSpec.v
UserLifeSpec.v
UserControlSpec.v
UserDaemonSpec.v
DaemonRuntime.v
DaemonRuntimeSpec.v
LogStorage.v
LogStorageSpec.v
