(* ===== verification/Prelude.v ===== *)
(** * Verification of the COVESA dlt-daemon (root file)

    The program records log and trace messages ("DLT", Diagnostic Log and Trace).
    Applications link the user library, encode messages and write them to the
    daemon over pipes or sockets; when the daemon cannot take them they wait in
    a ring buffer.  The daemon keeps tables of the applications and contexts of
    every ECU, forwards messages to its clients (or into its own ring buffer while
    there is none) and answers control messages.  Clients parse the received
    byte stream, filter messages and store them in DLT files.  Most of the logic
    that all parts share is [src/src/shared/dlt_common.c].

    ** Files and what they model

    Shared code ([src/src/shared]):

    - [Prelude]: C integers as [Z] with explicit conversions ([wrapu], [wraps]),
      memory as lists with checked access ([mread], [mwrite]: [None] is an access
      outside of the object), the allocator (an argument, as it may fail),
      strings, return codes, and the shared lemmas and tactics.
    - [RingBuffer], [RingBufferSpec]: [DltBuffer] and [dlt_buffer_*]
      (dlt_common.c): initialisation, growing and shrinking, [push3], [get].
      The head is a record, the data area a byte list; a block is a 12-byte
      head and the message.  The specification is a FIFO queue of messages.
    - [TraceLoad], [TraceLoadSpec]: the trace load limiter [dlt_check_trace_load]
      with its window of 60 slots, and the search of its settings.  The
      specification is the sum over the history of accepted messages.
    - [Protocol]: flags, sizes and byte order of headers (dlt_protocol.h, dlt_common.h).
    - [Ids]: [dlt_set_id], [dlt_print_id] and the string helpers.
    - [Message], [MessageSpec]: [DltMessage] and [dlt_message_read] with the
      extra header parameters, specified by an encoder of messages.
    - [Filter], [FilterSpec]: [DltFilter], its operations, its file format and
      [dlt_message_filter_check].
    - [Receiver], [ReceiverSpec]: [DltReceiver]; the specification is a byte queue.
    - [DltFile], [DltFileSpec]: reading and indexing of DLT files over [Message]
      and [Filter], specified by the layout of a sequence of encoded messages.
    - [MultipleFiles], [MultipleFilesSpec]: the ring of output files of
      dlt_multiple_files.c and dlt_offline_trace.c over a directory, specified by
      the files that are kept.
    - [ConfigFile], [ConfigFileSpec]: the parser of configuration files
      (dlt_config_file_parser.c), specified by finite maps of sections and keys.
    - [UserShared]: the framing of messages between the library and the daemon
      (dlt_user_shared.c).

    User library ([src/src/lib/dlt_user.c]):

    - [UserLog], [UserLogSpec]: [DltContextData] and the [dlt_user_log_write_*]
      functions that append typed arguments to a message of bounded size.
    - [Payload], [PayloadSpec]: [dlt_message_argument_print] and
      [dlt_message_payload] (dlt_common.c), the decoder of these arguments.
    - [MessageQueue]: a view of the ring buffer as a message queue, as a type class
      with the laws its clients use; [RingBufferSpec] discharges them.
    - [UserSend], [UserSendSpec]: [dlt_user_log_send_log], the buffering of refused
      messages, their resending and the report of lost messages.
    - [UserContexts]: registration of applications and contexts.  The table
      [dlt_ll_ts] shares a byte for the level and one for the trace status with each
      handle: these cells are a memory of their own, in which a freed cell is not
      accessible.  [UserControl]: callbacks, the messages of the daemon
      ([dlt_user_log_check_user_message]), attaching to a daemon that was started
      again, one round of the housekeeping thread and the freeing of the contexts.
      [UserContextsSpec] has the invariant of the table and what each function
      writes to the daemon, [UserLifeSpec] any sequence of operations,
      [UserControlSpec] any stream of messages of the daemon, and [UserDaemonSpec]
      the library together with the daemon.

    - [EnvLL], [EnvLLSpec]: the initial log levels that the environment variable
      gives (dlt_env_ll.c), parser and choice of the level, specified by a printer
      of settings and by the best match.

    Client library ([src/src/lib/dlt_client.c]):

    - [LogInfoText], [LogInfoTextSpec]: the text of the payload of control messages
      (dlt_common.c) and the reading of the log info answer from this text
      ([dlt_client_parse_get_log_info_resp_text]).
    - [Client], [ClientSpec]: [DltClient], its connections ([dlt_client_connect] over
      scripts of the system calls), the thirteen requests and the main loop.
      [ClientRequestsSpec] follows a request into the daemon, [ClientTablesSpec] the
      list of applications from the tables of the daemon back to the client.

    Daemon ([src/src/daemon]):

    - [SortedTable]: [memcmp], [qsort] and [bsearch], and that a sorted array with
      unique keys is a finite map.
    - [DaemonTables], [DaemonTablesSpec], [DaemonContextsSpec]: the application and
      context tables of dlt_daemon_common.c, specified by finite maps ([gmap]).
    - [EventHandler], [EventHandlerSpec]: the poll table and the list of
      connections (dlt_daemon_event_handler.c, dlt_daemon_connection.c).
    - [DaemonSend]: the daemon's own messages, their way to every client or into
      the ring buffer, the flush of the ring buffer, the states of
      the daemon and the event loop.  [DaemonMessagesSpec] gives the bytes of the
      messages, [DaemonSendSpec] the invariant of the sending functions,
      [DaemonDeliverySpec] what arrives, [DaemonEventsSpec] the event loop.
    - [DaemonControl]: the control requests of clients
      ([dlt_daemon_client_process_control]): log levels and trace status, also by
      pattern, the list of the tables ([dlt_daemon_control_get_log_info]),
      injection.  [DaemonControlSpec] has what every request leaves in place,
      [DaemonLogInfoSpec] the list as a function of the tables,
      [DaemonRequestsSpec] the whole dispatch, [DaemonLevelsSpec] the levels.
    - [DaemonUser]: the messages of applications
      ([dlt_daemon_process_user_messages]) of version 1: registration of
      applications and contexts, log messages, lost messages, levels.
      [DaemonKeptSpec] has what sending leaves in place in the tables,
      [DaemonRegistrySpec] the registry that the tables show and its operations,
      [DaemonForwardSpec] the log message on its way to the clients,
      [DaemonHandlersSpec] each handler against the registry, [DaemonUserSpec] the
      loop over the received bytes, [DaemonLogSpec] the delivery to the clients.
    - [DaemonClient]: the loops over the bytes that clients, the serial line and
      the control socket send, the connection of new clients and the check of a
      path in a request.  [DaemonClientSpec] has the loops over whole messages,
      [DaemonChecksSpec] the path check and the requests that block the loop.
    - [DaemonRuntime], [DaemonRuntimeSpec]: the runtime configuration of
      dlt_daemon_common.c, which keeps the tables and the log mode in files.
    - [LogStorage], [LogStorageSpec]: the filters of the offline logstorage
      ([src/src/offlinelogstorage/dlt_offline_logstorage.c]): their configuration
      file, their keys, and the filters that get a message.

    ** What the theorems show

    - Refinement: every sequence of buffer operations behaves as the bounded FIFO
      queue, up to the first push of a message that is larger than the buffer while
      that is empty; a message that is not debug or verbose is limited by the history
      of the last 60 seconds, as long as timestamps do not wrap around; rounds that
      receive at least a byte into a buffer of their own behave as the byte queue;
      registration and removal of
      applications and contexts as insertion and deletion in finite maps, where
      every table stays sorted, free of duplicates and inside its array; every
      sequence of operations of the event handler as a map of watched descriptors.
    - Memory safety: the models return [None] for an access out of bounds, so each
      theorem that gives a result shows its absence; [message_read_sound] and
      [get_in_bounds] state it for arbitrary input bytes.
    - Round trips: encode and read a message, set and get the extra parameters,
      save and load a filter file, index and load the messages of a file, write an
      argument with the user library and print it, frame a control message and
      read it at the client, answer the tables of the daemon and read the list of
      applications and contexts from the answer, save the tables of the daemon and
      load them at its next start.
    - Delivery: a message the daemon accepts reaches every client that stays
      connected or is stored in the ring buffer; the ring buffer is flushed in
      order while no connection fails; what the user library buffers for an
      application of version 2 is sent later in order, changed only in four bytes.
    - Termination and liveness: one event is always handled, whatever fails, for
      messages of at most 10024 bytes that fit the empty ring buffer.
    - Every branch of the filter operations, refusals included.
    - Errors of the code, each proved on a concrete class of inputs: a first
      message that grows the empty ring buffer is lost; a small dynamic buffer is
      written out of bounds; after a wrap of the timestamp the limiter never
      advances; settings of all but the first application are not found;
      deletion from a version 2 filter leaves an accepting row; a failed receive
      drops kept bytes; receivers that share a buffer overwrite each other; the
      overflow of the daemon's ring buffer is never announced; the end of a long
      comment of a configuration file is parsed as a line; a log info answer of
      the options 3 and 4 is not readable, and a wrong count in it is read behind
      the text; a message behind skipped bytes is handed to a client twice; a client
      closes a descriptor twice and joins only one group when it connects again; a
      request that was written in part is reported as sent; an application does not
      check the position of an injection, calls a callback for levels once too
      often, and gives up registering when there is no room for the messages; an
      application without a description or with a long one is not loaded as it was
      saved.
    - Messages of applications: a received sequence of well-formed messages is
      consumed message by message and changes the registry of applications and
      contexts as the messages say; it is interrupted only behind a registration of a
      context whose answer the operating system did not take.  Log messages reach
      every client in order.  Cut registrations, markers and messages behind a message
      with a higher level are shown to be lost.
    - Control requests: a request that the daemon serves itself (not one for offline
      storage, passive nodes or the gateway) is handled without an access out of
      bounds and keeps the invariant of the tables and connections, if an injection
      has the data it announces and a list of the tables fits into a message; the list
      of applications and contexts is the contents of the tables; a log level
      request changes exactly the contexts its pattern names and answers with
      an error exactly when nothing was changed; any sequence of such requests
      is handled one by one; a path is accepted exactly when it is absolute, made of
      letters, digits and "/-_.", and has neither ".." nor "//".  A rejected request is
      shown to stop the loop for ever, a short one to block what follows it, and an
      injection that announces too much to read behind the buffer.
    - Initial log levels: what a printer of settings writes is read back; the level
      chosen for a context is that of the best match.
    - Client and daemon together: every request of the client library is served by
      the daemon that receives its bytes; a log level set by a client is the level
      in the tables; a client that asks for the log info reads exactly the tables,
      however the answer is cut, if it has at most 21836 bytes; the main loop hands
      every complete message to the callback, unless it searches for serial headers.
    - Contexts of an application: whatever an application and its daemon do, no
      level is read or written through a freed cell, no cell is freed twice and none
      is left at the end; any stream of messages of the daemon is obeyed message by
      message, and a level reaches exactly the handles of its context.
    - Library and daemon together: the level that a client sets for contexts is the
      one up to which their handles let messages pass, and other handles keep
      theirs; when a daemon is started again, what an application writes restores
      it and its contexts in the registry that the daemon holds, except for
      registrations that wait behind a failed answer.
    - Configuration files: the parser returns for any file, and the values it finds
      are those of the finite maps that the file describes, if it keeps the limits of
      lines, names and settings.
    - Offline logstorage: any configuration file is loaded within bounds; a message is
      handed to exactly the filters that are configured for it.  Filters whose names
      overlap, messages without an ECU and unterminated identifiers are shown to
      break this.
    - Files in a ring: the files together never have more bytes than the limit, and
      only the oldest are deleted, no more than needed.

    ** Fuel

    Loops that are not structural have fuel, and the theorems that give a result
    show that it is enough: [resync_loop] and the loops over files move at least one
    byte per round and get the length of the input; [load_loop] consumes a word
    per round; [bsearch] halves its range and gets its length; [grow] enlarges the
    buffer by the step up to the maximal size.  Sending to the clients and closing
    a failed connection call each other; each close removes a connection, so
    twice their number and two bounds the depth of the calls.  A flush removes a
    message per round: the number of stored messages with the clients is its
    measure ([work]), and an event needs [work] with a constant.  The receive loops of
    the daemon remove a message per round, the loop over level settings consumes
    two colons per round, and the loop over the files of a ring deletes one.  Each
    line of a configuration file, also of the runtime configuration, has a byte, so the length of the file and one is
    enough for its loop.  The main loop of a client removes bytes with each message,
    as does the loop of an application over the messages of its daemon ([listen]).
    Each name in a list of the logstorage has a character.

    ** Conventions and parameters

    A definition that returns [option] is undefined behaviour for [None]; error
    codes are values.  Memory from [malloc] has arbitrary content (the contents
    are the allocator's).  Results of system calls (read, recv, send, open, the
    clock) are arguments or a script that is consumed call by call; the bytes
    handed to [send] and [write] are recorded.  Logging to the console is left out.
    Offline logstorage, gateway and UDP multicast are arguments or switched off
    where the daemon's functions call them, as the definitions say; the functions
    that the logstorage calls to write files are a record of operations
    ([storage_ops]).

    ** Not modelled

    Protocol version 2, which repeats these parts with identifiers of any length
    (where version 1 code reaches it, the definitions say what they do); the gateway,
    an optional part of the daemon over its own sockets, and the files and caches of the
    offline logstorage; shared memory, vsock and socket variants of the pipe,
    which are other builds; start-up, threads and locks: the critical sections of
    the library are taken as steps.
    Console tools, adaptors and platform programs are glue around these parts. *)

From stdpp Require Import base list list_numbers numbers option.
From Stdlib Require Import ZArith Lia Bool.

Declare Scope dlt_scope.
Delimit Scope dlt_scope with dlt.

Local Open Scope Z_scope.

(** ** Machine integers

    A C integer of width [w] is a [Z]; conversions are explicit. *)

(** Conversion to an unsigned type of [w] bits. *)
Definition wrapu (w z : Z) : Z := z mod 2 ^ w.

(** Conversion to a signed (two's complement) type of [w] bits. *)
Definition wraps (w z : Z) : Z := (z + 2 ^ (w - 1)) mod 2 ^ w - 2 ^ (w - 1).

Abbreviation u8 := (wrapu 8).
Abbreviation u16 := (wrapu 16).
Abbreviation u32 := (wrapu 32).
Abbreviation u64 := (wrapu 64).
Abbreviation i8 := (wraps 8).
Abbreviation i16 := (wraps 16).
Abbreviation i32 := (wraps 32).
Abbreviation i64 := (wraps 64).

Definition INT32_MAX : Z := 2147483647.
Definition UINT16_MAX : Z := 65535.
Definition UINT32_MAX : Z := 4294967295.

Lemma wrapu_small (w z : Z) : 0 <= z < 2 ^ w -> wrapu w z = z.
Proof. intros H. unfold wrapu. by apply Z.mod_small. Qed.

Lemma wraps_small (w z : Z) :
  0 < w -> - 2 ^ (w - 1) <= z < 2 ^ (w - 1) -> wraps w z = z.
Proof.
  intros Hw H. unfold wraps.
  assert (2 ^ w = 2 * 2 ^ (w - 1)) as Hp.
  { rewrite <-Z.pow_succ_r by lia. f_equal. lia. }
  rewrite Z.mod_small; lia.
Qed.

Lemma wrapu_range (w z : Z) : 0 <= w -> 0 <= wrapu w z < 2 ^ w.
Proof. intros. unfold wrapu. apply Z.mod_pos_bound. lia. Qed.

Lemma wraps_range (w z : Z) : 0 < w -> - 2 ^ (w - 1) <= wraps w z < 2 ^ (w - 1).
Proof.
  intros Hw. unfold wraps.
  assert (2 ^ w = 2 * 2 ^ (w - 1)) as Hp.
  { rewrite <-Z.pow_succ_r by lia. f_equal. lia. }
  pose proof (Z.mod_pos_bound (z + 2 ^ (w - 1)) (2 ^ w) ltac:(lia)). lia.
Qed.

Lemma wrapu_idemp (w z : Z) : wrapu w (wrapu w z) = wrapu w z.
Proof. unfold wrapu. apply Zmod_mod. Qed.

Lemma wraps_wrapu (w z : Z) : 0 < w -> wraps w (wrapu w z) = wraps w z.
Proof. intros. unfold wraps, wrapu. by rewrite Zplus_mod_idemp_l. Qed.

Lemma u32_small (z : Z) : 0 <= z < 4294967296 -> u32 z = z.
Proof. apply (wrapu_small 32). Qed.
Lemma u16_small (z : Z) : 0 <= z < 65536 -> u16 z = z.
Proof. apply (wrapu_small 16). Qed.
Lemma u8_small (z : Z) : 0 <= z < 256 -> u8 z = z.
Proof. apply (wrapu_small 8). Qed.
Lemma u64_small (z : Z) : 0 <= z < 18446744073709551616 -> u64 z = z.
Proof. apply (wrapu_small 64). Qed.
Lemma i32_small (z : Z) : -2147483648 <= z < 2147483648 -> i32 z = z.
Proof. apply (wraps_small 32); lia. Qed.
Lemma i8_small (z : Z) : -128 <= z < 128 -> i8 z = z.
Proof. apply (wraps_small 8); lia. Qed.
Lemma i16_small (z : Z) : -32768 <= z < 32768 -> i16 z = z.
Proof. apply (wraps_small 16); lia. Qed.

(** [cint] drops every conversion whose argument is in range ([lia] decides),
    innermost conversions included. *)
Ltac cint :=
  repeat match goal with
  | |- context [wrapu 32 ?z] => rewrite (u32_small z) by lia
  | |- context [wraps 32 ?z] => rewrite (i32_small z) by lia
  | |- context [wrapu 8 ?z] => rewrite (u8_small z) by lia
  | |- context [wrapu 16 ?z] => rewrite (u16_small z) by lia
  | |- context [wrapu 64 ?z] => rewrite (u64_small z) by lia
  | |- context [wraps 8 ?z] => rewrite (i8_small z) by lia
  | |- context [wraps 16 ?z] => rewrite (i16_small z) by lia
  end.

(** ** Lengths as [Z] *)

Abbreviation zlen l := (Z.of_nat (length l)).

Create Rewrite HintDb zlen.
#[export] Hint Rewrite @length_app @length_take @length_drop @length_replicate
  @length_insert @length_reverse @length_fmap @length_nil @length_cons : zlen.

(** Normalise lengths, then linear arithmetic. *)
Ltac len := autorewrite with zlen in *; simpl length in *; lia.

(** Case analysis on the boolean tests of the code. *)
Ltac zb :=
  repeat match goal with
  | H : (_ <? _) = true |- _ => apply Z.ltb_lt in H
  | H : (_ <? _) = false |- _ => apply Z.ltb_ge in H
  | H : (_ <=? _) = true |- _ => apply Z.leb_le in H
  | H : (_ <=? _) = false |- _ => apply Z.leb_gt in H
  | H : (_ =? _) = true |- _ => apply Z.eqb_eq in H
  | H : (_ =? _) = false |- _ => apply Z.eqb_neq in H
  | H : _ && _ = true |- _ => apply andb_true_iff in H as [? ?]
  | H : _ || _ = false |- _ => apply orb_false_iff in H as [? ?]
  | H : negb _ = true |- _ => apply negb_true_iff in H
  | H : negb _ = false |- _ => apply negb_false_iff in H
  end.

(** Decide the boolean tests of the goal by arithmetic. *)
Lemma ltb_true (a b : Z) : a < b -> (a <? b) = true.
Proof. lia. Qed.
Lemma ltb_false (a b : Z) : b <= a -> (a <? b) = false.
Proof. lia. Qed.
Lemma leb_true (a b : Z) : a <= b -> (a <=? b) = true.
Proof. lia. Qed.
Lemma leb_false (a b : Z) : b < a -> (a <=? b) = false.
Proof. lia. Qed.
Lemma eqb_true (a b : Z) : a = b -> (a =? b) = true.
Proof. lia. Qed.
Lemma eqb_false (a b : Z) : a <> b -> (a =? b) = false.
Proof. lia. Qed.

Create Rewrite HintDb ctest.
#[export] Hint Rewrite ltb_true ltb_false leb_true leb_false eqb_true eqb_false
  using lia : ctest.

(** [csimp]: drop the in-range conversions and decide the tests. *)
Ltac csimp := cint; autorewrite with ctest; cbn [andb orb negb].

(** Linear arithmetic with division and remainder by constants. *)
Ltac zdiv := intros; Z.to_euclidean_division_equations; lia.

(** [bsimp]: reduce the binds of the fault monad (stdpp's [option]). *)
Ltac bsimp := cbn [mbind option_bind].

(** Take the first step of a computation that returns: its value and equation. *)
Tactic Notation "unbind" hyp(H) "as" ident(x) ident(E) :=
  match type of H with mbind _ ?e = Some _ => destruct e as [x|] eqn:E; [|done]; cbn [mbind option_bind] in H end.

(** ** Memory

    A memory region is a list of bytes (each a [Z]), an array a list of its
    elements; an access outside of the
    region is undefined behaviour in C and is the value [None] here, so a
    theorem that an operation returns [Some] is a memory-safety theorem. *)

Abbreviation bytes := (list Z).

Definition byteb (b : Z) : bool := (0 <=? b) && (b <? 256).
Definition is_bytes (l : bytes) : Prop := Forall (λ b, 0 <= b < 256) l.

Lemma is_bytes_forallb (l : bytes) : forallb byteb l = true -> is_bytes l.
Proof.
  induction l as [|b l IH]; cbn [forallb]; intros H; [by constructor|]. zb.
  constructor; [unfold byteb in *; zb; lia|by apply IH].
Qed.

(** [memcpy(dst, m + off, n)] as a read. *)
Definition mread {A} (m : list A) (off n : Z) : option (list A) :=
  if (0 <=? off) && (0 <=? n) && (off + n <=? zlen m)
  then Some (take (Z.to_nat n) (drop (Z.to_nat off) m)) else None.

(** [memcpy(m + off, d, length d)] as a write. *)
Definition mwrite {A} (m : list A) (off : Z) (d : list A) : option (list A) :=
  if (0 <=? off) && (off + zlen d <=? zlen m)
  then Some (take (Z.to_nat off) m ++ d ++ drop (Z.to_nat off + length d) m) else None.

Lemma mread_Some {A} (m : list A) (off n : Z) :
  0 <= off -> 0 <= n -> off + n <= zlen m ->
  mread m off n = Some (take (Z.to_nat n) (drop (Z.to_nat off) m)).
Proof. intros. unfold mread. by csimp. Qed.

Lemma mwrite_Some {A} (m : list A) (off : Z) (d : list A) :
  0 <= off -> off + zlen d <= zlen m ->
  mwrite m off d = Some (take (Z.to_nat off) m ++ d ++ drop (Z.to_nat off + length d) m).
Proof. intros. unfold mwrite. by csimp. Qed.

Lemma mread_length {A} (m d : list A) (off n : Z) : mread m off n = Some d -> zlen d = n.
Proof.
  unfold mread. destruct (_ && _) eqn:E; [|done]. zb. intros [= <-]. len.
Qed.

Lemma mwrite_length {A} (m m' d : list A) (off : Z) :
  mwrite m off d = Some m' -> length m' = length m.
Proof.
  unfold mwrite. destruct (_ && _) eqn:E; [|done]. zb. intros [= <-]. len.
Qed.

(** An access inside of the region succeeds. *)
Lemma mread_total {A} (m : list A) (off n : Z) :
  0 <= off -> 0 <= n -> off + n <= zlen m -> ∃ d, mread m off n = Some d ∧ zlen d = n.
Proof. intros. eexists. split; [by apply mread_Some|]. len. Qed.
Lemma mwrite_total {A} (m : list A) (off : Z) (d : list A) :
  0 <= off -> off + zlen d <= zlen m -> ∃ m', mwrite m off d = Some m' ∧ length m' = length m.
Proof. intros. eexists. split; [by apply mwrite_Some|]. len. Qed.

(** An access to the front of a region does not depend on what follows. *)
Lemma mread_app_l {A} (m r : list A) (off n : Z) :
  off + n <= zlen m -> mread (m ++ r) off n = mread m off n.
Proof.
  intros H. unfold mread. rewrite length_app. destruct (Z.leb_spec 0 off), (Z.leb_spec 0 n); cbn [andb]; try done.
  rewrite !leb_true by lia. f_equal. rewrite drop_app_le by lia. apply take_app_le. rewrite length_drop. lia.
Qed.
Lemma mwrite_app_l {A} (m r d : list A) (off : Z) :
  off + zlen d <= zlen m -> mwrite (m ++ r) off d = m' ← mwrite m off d; Some (m' ++ r).
Proof.
  intros H. unfold mwrite. rewrite length_app. destruct (Z.leb_spec 0 off); cbn [andb]; [|done].
  rewrite !leb_true by lia. bsimp. f_equal. rewrite take_app_le, drop_app_le by lia. by rewrite <-!app_assoc.
Qed.

(** A read of what was just written. *)
Lemma mread_mwrite {A} (m m' d : list A) (off : Z) :
  mwrite m off d = Some m' -> mread m' off (zlen d) = Some d.
Proof.
  intros H. pose proof (mwrite_length _ _ _ _ H) as Hl. revert H.
  unfold mwrite. destruct (_ && _) eqn:E; [|done]. zb. intros [= <-].
  rewrite mread_Some by lia. f_equal.
  rewrite drop_app_length' by len. rewrite take_app_length' by lia. done.
Qed.

(** ** Integers in memory (little-endian host) *)

Fixpoint le_bytes (n : nat) (z : Z) : bytes :=
  match n with
  | O => []
  | S n => z mod 256 :: le_bytes n (z / 256)
  end.

Fixpoint le_Z (l : bytes) : Z :=
  match l with
  | [] => 0
  | b :: l => b + 256 * le_Z l
  end.

(** The network (big-endian) layout of the DLT headers. *)
Definition be_bytes (n : nat) (z : Z) : bytes := reverse (le_bytes n z).
Definition be_Z (l : bytes) : Z := le_Z (reverse l).

Lemma length_le_bytes (n : nat) (z : Z) : length (le_bytes n z) = n.
Proof. revert z. induction n; intros; simpl; [done|]. by rewrite IHn. Qed.
Lemma length_be_bytes (n : nat) (z : Z) : length (be_bytes n z) = n.
Proof. unfold be_bytes. by rewrite length_reverse, length_le_bytes. Qed.
#[export] Hint Rewrite length_le_bytes length_be_bytes : zlen.

Lemma le_Z_le_bytes (n : nat) (z : Z) :
  0 <= z < 256 ^ Z.of_nat n -> le_Z (le_bytes n z) = z.
Proof.
  revert z. induction n as [|n IH]; intros z Hz.
  - simpl in *. lia.
  - cbn [le_bytes le_Z]. rewrite IH.
    + pose proof (Z.div_mod z 256 ltac:(lia)). lia.
    + rewrite Nat2Z.inj_succ, Z.pow_succ_r in Hz by lia.
      split; [apply Z.div_pos; lia|]. apply Z.div_lt_upper_bound; lia.
Qed.

Lemma le_bytes_is_bytes (n : nat) (z : Z) : is_bytes (le_bytes n z).
Proof.
  revert z. induction n; intros; constructor; [|apply IHn].
  apply Z.mod_pos_bound. lia.
Qed.

Lemma be_Z_be_bytes (n : nat) (z : Z) :
  0 <= z < 256 ^ Z.of_nat n -> be_Z (be_bytes n z) = z.
Proof. intros. unfold be_Z, be_bytes. rewrite reverse_involutive. by apply le_Z_le_bytes. Qed.

Lemma le_bytes_le_Z (l : bytes) : is_bytes l -> le_bytes (length l) (le_Z l) = l.
Proof.
  induction 1 as [|b l Hb Hl IH]; [done|]. cbn [le_Z length le_bytes].
  rewrite (Z.mul_comm 256), Z.mod_add, Z.mod_small, Z.div_add, Z.div_small by lia.
  by rewrite Z.add_0_l, IH.
Qed.

Lemma le_Z_range (l : bytes) : is_bytes l -> 0 <= le_Z l < 256 ^ zlen l.
Proof.
  induction 1 as [|b l Hb Hl IH]; [simpl; lia|].
  cbn [le_Z length]. rewrite Nat2Z.inj_succ, Z.pow_succ_r by lia. lia.
Qed.

(** ** Return codes

    [DltReturnValue] of [include/dlt/dlt_types.h]. *)

Definition DLT_RETURN_LOAD_EXCEEDED : Z := -9.
Definition DLT_RETURN_FILESZERR : Z := -8.
Definition DLT_RETURN_LOGGING_DISABLED : Z := -7.
Definition DLT_RETURN_USER_BUFFER_FULL : Z := -6.
Definition DLT_RETURN_WRONG_PARAMETER : Z := -5.
Definition DLT_RETURN_BUFFER_FULL : Z := -4.
Definition DLT_RETURN_PIPE_FULL : Z := -3.
Definition DLT_RETURN_PIPE_ERROR : Z := -2.
Definition DLT_RETURN_ERROR : Z := -1.
Definition DLT_RETURN_OK : Z := 0.
Definition DLT_RETURN_TRUE : Z := 1.

(** ** The heap

    [malloc] either fails or returns a region of the requested size whose
    bytes are arbitrary.  An operation takes the allocator as an argument, so
    every theorem holds for every behaviour of the heap. *)
Record allocator := {
  malloc : Z -> option bytes;
  malloc_length : ∀ n m, malloc n = Some m -> zlen m = Z.max 0 n
}.

(** A heap that is never exhausted. *)
Definition heap_ok (A : allocator) : Prop := ∀ n, malloc A n <> None.

(** A heap that always succeeds, with zeroed or poisoned memory. *)
Program Definition heap_filled (b : Z) : allocator :=
  {| malloc n := Some (replicate (Z.to_nat n) b) |}.
Next Obligation. intros b n m [= <-]. len. Qed.

(** An exhausted heap. *)
Program Definition heap_empty : allocator := {| malloc _ := None |}.
Next Obligation. done. Qed.

(** ** Pointwise view of the memory operations *)

Lemma lookup_mwrite {A} (m m' d : list A) (off j : Z) :
  mwrite m off d = Some m' -> 0 <= j ->
  m' !! Z.to_nat j =
    if (off <=? j) && (j <? off + zlen d) then d !! Z.to_nat (j - off) else m !! Z.to_nat j.
Proof.
  unfold mwrite. destruct (_ && _) eqn:E; [|done]. zb. intros [= <-] Hj.
  destruct (decide (j < off)).
  - rewrite leb_false by lia. cbn [andb].
    rewrite lookup_app_l by len. rewrite lookup_take_lt by lia. done.
  - rewrite leb_true by lia. rewrite lookup_app_r by len.
    rewrite length_take, Nat.min_l by lia.
    destruct (decide (j < off + zlen d)).
    + rewrite ltb_true by lia. cbn [andb].
      rewrite lookup_app_l by lia. f_equal. lia.
    + rewrite ltb_false by lia. cbn [andb].
      rewrite lookup_app_r by lia. rewrite lookup_drop. f_equal. lia.
Qed.

Lemma lookup_mread {A} (m d : list A) (off n j : Z) :
  mread m off n = Some d -> 0 <= j < n -> d !! Z.to_nat j = m !! Z.to_nat (off + j).
Proof.
  unfold mread. destruct (_ && _) eqn:E; [|done]. zb. intros [= <-] Hj.
  rewrite lookup_take_lt by lia. rewrite lookup_drop. f_equal. lia.
Qed.

(** Extensionality of byte strings with [Z] indices. *)
Lemma bytes_ext (a b : bytes) :
  length a = length b ->
  (∀ i, 0 <= i < zlen a -> a !! Z.to_nat i = b !! Z.to_nat i) -> a = b.
Proof.
  intros Hl Hi. apply list_eq. intros k. destruct (decide (k < length a)%nat).
  - specialize (Hi (Z.of_nat k) ltac:(lia)). by rewrite Nat2Z.id in Hi.
  - rewrite !lookup_ge_None_2 by lia. done.
Qed.

(** ** C strings *)

(** The characters of a [char] array before its terminator, at most [n]:
    [strncmp(a, b, n) == 0] holds exactly when [cstr n a = cstr n b], and
    [strnlen(a, n)] is the length of [cstr n a]. *)
Fixpoint cstr (n : nat) (l : bytes) : bytes :=
  match n, l with
  | S n, b :: l => if b =? 0 then [] else b :: cstr n l
  | _, _ => []
  end.

Definition strncmp_eq (n : nat) (a b : bytes) : bool := bool_decide (cstr n a = cstr n b).
Definition strnlen (n : nat) (a : bytes) : Z := zlen (cstr n a).

(** [memcmp(a, b, n) == 0] on arrays that hold at least [n] bytes. *)
Definition memcmp_eq (n : nat) (a b : bytes) : bool := bool_decide (take n a = take n b).

Definition DLT_ID_SIZE : nat := 4.
Definition DLT_V2_ID_SIZE : nat := 255.

(** ** Sums *)

Definition sumZ (l : list Z) : Z := foldr Z.add 0 l.

Lemma sumZ_cons x l : sumZ (x :: l) = x + sumZ l.
Proof. done. Qed.

Lemma sumZ_app l l' : sumZ (l ++ l') = sumZ l + sumZ l'.
Proof. induction l as [|x l IH]; [done|]. cbn [app]. rewrite !sumZ_cons, IH. lia. Qed.

Lemma sumZ_insert (l : list Z) (i : nat) (x y : Z) :
  l !! i = Some x -> sumZ (<[i:=y]> l) = sumZ l - x + y.
Proof.
  revert i. induction l as [|z l IH]; intros [|i] H; try done; cbn in H.
  - injection H as ->. change (<[0%nat:=y]> (x :: l)) with (y :: l). rewrite !sumZ_cons. lia.
  - change (<[S i:=y]> (z :: l)) with (z :: <[i:=y]> l).
    rewrite !sumZ_cons, (IH i) by done. lia.
Qed.

Lemma sumZ_nonneg (l : list Z) : Forall (λ z, 0 <= z) l -> 0 <= sumZ l.
Proof. induction 1; [done|]. rewrite sumZ_cons. lia. Qed.

Lemma sumZ_lookup_le (l : list Z) (i : nat) (x : Z) :
  Forall (λ z, 0 <= z) l -> l !! i = Some x -> 0 <= x <= sumZ l.
Proof.
  intros Hl. revert i. induction Hl as [|z l Hz Hl IH]; intros [|i] H; try done;
    cbn in H; rewrite sumZ_cons; pose proof (sumZ_nonneg _ Hl).
  - injection H as ->. lia.
  - specialize (IH i H). lia.
Qed.

Lemma sumZ_Permutation (l l' : list Z) : l ≡ₚ l' -> sumZ l = sumZ l'.
Proof. induction 1; rewrite ?sumZ_cons; lia. Qed.

Lemma sumZ_replicate_0 n : sumZ (replicate n 0) = 0.
Proof. induction n; [done|]. cbn [replicate]. rewrite sumZ_cons. lia. Qed.

(** ** Reads and writes at a known place *)

Lemma mread_mid {A} (a d c : list A) (off n : Z) :
  off = zlen a -> n = zlen d -> mread (a ++ d ++ c) off n = Some d.
Proof.
  intros -> ->. rewrite mread_Some by len. f_equal.
  by rewrite !Nat2Z.id, drop_app_length, take_app_length.
Qed.

Lemma mwrite_mid {A} (a d d' c : list A) (off : Z) :
  off = zlen a -> length d' = length d -> mwrite (a ++ d ++ c) off d' = Some (a ++ d' ++ c).
Proof.
  intros -> Hl. rewrite mwrite_Some by len. f_equal.
  rewrite Nat2Z.id, take_app_length, Hl, (app_assoc a d c).
  rewrite (drop_app_length' (a ++ d)) by len. done.
Qed.

Lemma mread_mid2 {A} (a a' d c : list A) (off n : Z) :
  off = zlen a + zlen a' -> n = zlen d -> mread (a ++ a' ++ d ++ c) off n = Some d.
Proof. intros. rewrite app_assoc. apply mread_mid; len. Qed.
Lemma mread_mid3 {A} (a a' a'' d c : list A) (off n : Z) :
  off = zlen a + zlen a' + zlen a'' -> n = zlen d ->
  mread (a ++ a' ++ a'' ++ d ++ c) off n = Some d.
Proof. intros. rewrite app_assoc. apply mread_mid2; len. Qed.

Lemma mwrite_mid2 {A} (a a' d d' c : list A) (off : Z) :
  off = zlen a + zlen a' -> length d' = length d ->
  mwrite (a ++ a' ++ d ++ c) off d' = Some (a ++ a' ++ d' ++ c).
Proof. intros. rewrite !(app_assoc a). apply mwrite_mid; len. Qed.
Lemma mwrite_mid3 {A} (a a' a'' d d' c : list A) (off : Z) :
  off = zlen a + zlen a' + zlen a'' -> length d' = length d ->
  mwrite (a ++ a' ++ a'' ++ d ++ c) off d' = Some (a ++ a' ++ a'' ++ d' ++ c).
Proof. intros. rewrite !(app_assoc a). apply mwrite_mid2; len. Qed.

(** [maccess]: perform the reads and writes whose place [lia] can find. *)
Ltac maccess :=
  first [ rewrite mread_mid by len | rewrite mread_mid2 by len | rewrite mread_mid3 by len
        | rewrite mwrite_mid by len | rewrite mwrite_mid2 by len | rewrite mwrite_mid3 by len ].

(** An empty piece. *)
Ltac nils :=
  repeat match goal with
  | H : zlen ?o = 0 |- _ =>
      is_var o; assert (o = []) by (apply nil_length_inv; lia); subst o; clear H
  end.

(** Any region splits around a range inside of it. *)
Lemma split_region {A} (m : list A) (off n : Z) :
  0 <= off -> 0 <= n -> off + n <= zlen m ->
  ∃ a d c, m = a ++ d ++ c ∧ zlen a = off ∧ zlen d = n.
Proof.
  intros. exists (take (Z.to_nat off) m), (take (Z.to_nat n) (drop (Z.to_nat off) m)),
    (drop (Z.to_nat n) (drop (Z.to_nat off) m)).
  rewrite !take_drop. split; [done|]. split; len.
Qed.

Lemma is_bytes_app (a b : bytes) : is_bytes (a ++ b) <-> is_bytes a ∧ is_bytes b.
Proof. apply Forall_app. Qed.

Lemma is_bytes_le (n : nat) (z : Z) : is_bytes (le_bytes n z).
Proof. apply le_bytes_is_bytes. Qed.
Lemma is_bytes_be (n : nat) (z : Z) : is_bytes (be_bytes n z).
Proof. apply Forall_reverse, le_bytes_is_bytes. Qed.

Lemma be_bytes_be_Z (l : bytes) : is_bytes l -> be_bytes (length l) (be_Z l) = l.
Proof.
  intros. unfold be_bytes, be_Z. rewrite <-(length_reverse l), le_bytes_le_Z.
  - apply reverse_involutive.
  - by apply Forall_reverse.
Qed.

Lemma be_Z_range (l : bytes) : is_bytes l -> 0 <= be_Z l < 256 ^ zlen l.
Proof.
  intros. unfold be_Z. rewrite <-(length_reverse l). apply le_Z_range. by apply Forall_reverse.
Qed.
