(* ===== verification/RingBuffer.v ===== *)
(** * The message ring buffer ([src/shared/dlt_common.c], [DltBuffer])

    The buffer both the user library and the daemon keep while nobody reads
    their messages: a byte ring inside one memory region that starts with the
    [DltBufferHead] (write, read, count) and that grows by [step_size] up to
    [max_size].  This file holds the data and the operations; [RingBufferSpec]
    proves that they implement a bounded FIFO of messages. *)

From stdpp Require Import base list numbers option.
From Stdlib Require Import ZArith Lia Bool.
From S2P Require Import Prelude.

Local Open Scope Z_scope.

Module RingBuffer.

(** ** Data *)

(** The head at the beginning of the region; the code also accesses its three
    ints as [((int * )(buf->shm))[0..2]]. *)
Record DltBufferHead := { write : Z; read : Z; count : Z }.

Definition sizeof_DltBufferHead : Z := 12.

(** A region: its head and the [mem] that follows it. *)
Record region := { head : DltBufferHead; mem : bytes }.

Record DltBuffer := {
  shm : option region;   (* [NULL] when the buffer is not initialised *)
  size : Z;              (* unsigned int *)
  min_size : Z;          (* uint32_t *)
  max_size : Z;          (* uint32_t *)
  step_size : Z          (* uint32_t *)
}.

(** Layout of [DltBufferBlockHead] on the supported ABIs: [char head[4]],
    [unsigned char status], three bytes of padding, [int size]. *)
Definition sizeof_DltBufferBlockHead : Z := 12.
Definition DLT_BUFFER_HEAD : bytes := [83; 72; 77; 0].   (* SHM and its final 0 *)

Definition block_head (pad : bytes) (sz : Z) : bytes :=
  DLT_BUFFER_HEAD ++ [2] ++ pad ++ le_bytes 4 (u32 sz).

Definition set_shm (b : DltBuffer) (r : region) : DltBuffer :=
  {| shm := Some r; size := size b; min_size := min_size b;
     max_size := max_size b; step_size := step_size b |}.

Definition zero_head : DltBufferHead := {| write := 0; read := 0; count := 0 |}.

(** Reinterpret [n] allocated bytes as a region: the accesses to the head are
    in bounds only when the allocation holds a head. *)
Definition as_region (m : bytes) (h : DltBufferHead) : option region :=
  if zlen m <? sizeof_DltBufferHead then None
  else Some {| head := h; mem := drop (Z.to_nat sizeof_DltBufferHead) m |}.

(** [memset(m, 0, n)]. *)
Definition mzero (m : bytes) (n : Z) : option bytes :=
  mwrite m 0 (replicate (Z.to_nat n) 0).

(** ** Initialisation *)

(** [ptr] is the caller's memory ([NULL] is [None]). *)
Definition dlt_buffer_init_static_server (buf : DltBuffer) (ptr : option bytes) (sz : Z)
  : option (DltBuffer * Z) :=
  match ptr with
  | None => Some (buf, DLT_RETURN_WRONG_PARAMETER)
  | Some m =>
      r ← as_region m zero_head;
      let bsize := u32 (sz - sizeof_DltBufferHead) in
      m' ← mzero (mem r) bsize;
      Some ({| shm := Some {| head := zero_head; mem := m' |}; size := bsize;
               min_size := sz; max_size := sz; step_size := 0 |}, DLT_RETURN_OK)
  end.

(** A client attaches to a region that a server has initialised. *)
Definition dlt_buffer_init_static_client (buf : DltBuffer) (ptr : option region) (sz : Z)
  : DltBuffer * Z :=
  match ptr with
  | None => (buf, DLT_RETURN_WRONG_PARAMETER)
  | Some r =>
      ({| shm := Some r; size := u32 (sz - sizeof_DltBufferHead);
          min_size := sz; max_size := sz; step_size := 0 |}, DLT_RETURN_OK)
  end.

Definition dlt_buffer_init_dynamic (hp : allocator) (buf : DltBuffer) (mins maxs step : Z)
  : option (DltBuffer * Z) :=
  if (mins =? 0) || (maxs =? 0) || (step =? 0) then Some (buf, DLT_RETURN_WRONG_PARAMETER)
  else if maxs <? mins then Some (buf, DLT_RETURN_WRONG_PARAMETER)
  else if maxs <? step then Some (buf, DLT_RETURN_WRONG_PARAMETER)
  else
    match malloc hp mins with
    | None =>
        Some ({| shm := None; size := size buf;
                 min_size := mins; max_size := maxs; step_size := step |}, DLT_RETURN_ERROR)
    | Some m =>
        (* the head is written before the size is checked *)
        r ← as_region m zero_head;
        if mins <? sizeof_DltBufferHead then
          Some ({| shm := Some r; size := size buf;
                   min_size := mins; max_size := maxs; step_size := step |},
                DLT_RETURN_WRONG_PARAMETER)
        else
          let bsize := u32 (mins - sizeof_DltBufferHead) in
          m' ← mzero (mem r) bsize;
          Some ({| shm := Some {| head := zero_head; mem := m' |}; size := bsize;
                   min_size := mins; max_size := maxs; step_size := step |}, DLT_RETURN_OK)
    end.

Definition dlt_buffer_free_static (buf : DltBuffer) : Z :=
  match shm buf with None => DLT_RETURN_ERROR | Some _ => DLT_RETURN_OK end.

Definition dlt_buffer_free_dynamic (buf : DltBuffer) : DltBuffer * Z :=
  match shm buf with
  | None => (buf, DLT_RETURN_ERROR)
  | Some _ =>
      ({| shm := None; size := size buf; min_size := min_size buf;
          max_size := max_size buf; step_size := step_size buf |}, DLT_RETURN_OK)
  end.

(** ** Block transfer *)

(** Copy [sz] bytes of [data] at position [w], wrapping once at the end of the
    ring.  Returns the memory and the new position. *)
Definition dlt_buffer_write_block (bsize : Z) (m : bytes) (w : Z) (data : option bytes) (sz : Z)
  : option (bytes * Z) :=
  match data with
  | None => Some (m, w)
  | Some d =>
      if sz <=? bsize then
        if u32 (u32 w + sz) <=? bsize then
          d1 ← mread d 0 sz;
          m' ← mwrite m w d1;
          Some (m', i32 (w + i32 sz))
        else if u32 w <=? bsize then
          d1 ← mread d 0 (u32 (bsize - u32 w));
          m1 ← mwrite m w d1;
          d2 ← mread d (bsize - w) (u32 (u32 (sz - bsize) + u32 w));
          m2 ← mwrite m1 0 d2;
          Some (m2, i32 (w + i32 (u32 (sz - bsize))))
        else Some (m, w)
      else Some (m, w)
  end.

(** Copy [sz] bytes at position [r] out of the ring.  Returns the bytes (none
    when the position is out of range) and the new position. *)
Definition dlt_buffer_read_block (bsize : Z) (m : bytes) (r : Z) (sz : Z)
  : option (bytes * Z) :=
  if u32 (u32 r + sz) <=? bsize then
    d ← mread m r sz;
    Some (d, i32 (r + i32 sz))
  else if u32 r <=? bsize then
    d1 ← mread m r (u32 (bsize - u32 r));
    d2 ← mread m 0 (u32 (u32 (sz - bsize) + u32 r));
    Some (d1 ++ d2, i32 (r + i32 (u32 (sz - bsize))))
  else Some ([], r).

(** ** Resizing *)

Definition dlt_buffer_check_size (buf : DltBuffer) (needed : Z) : Z :=
  if max_size buf <? u64 (size buf + sizeof_DltBufferHead + u64 needed)
  then DLT_RETURN_ERROR else DLT_RETURN_OK.

(** Grow by one step: the used bytes move to the beginning of the new region. *)
Definition dlt_buffer_increase_size (hp : allocator) (buf : DltBuffer)
  : option (DltBuffer * Z) :=
  if step_size buf =? 0 then Some (buf, DLT_RETURN_ERROR)
  else if max_size buf <? size buf + sizeof_DltBufferHead + step_size buf
  then Some (buf, DLT_RETURN_ERROR)
  else
    match malloc hp (size buf + sizeof_DltBufferHead + step_size buf) with
    | None => Some (buf, DLT_RETURN_ERROR)
    | Some new_ptr =>
        r ← shm buf;
        let h := head r in
        nr ← as_region new_ptr zero_head;
        '(nmem, nwrite) ←
          (if read h <? write h then
             d ← mread (mem r) (read h) (write h - read h);
             m1 ← mwrite (mem nr) 0 d;
             Some (m1, write h - read h)
           else
             d1 ← mread (mem r) (read h) (u32 (size buf - u32 (read h)));
             m1 ← mwrite (mem nr) 0 d1;
             d2 ← mread (mem r) 0 (write h);
             m2 ← mwrite m1 (size buf - read h) d2;
             Some (m2, i32 (i32 (size buf) + write h - read h)));
        Some ({| shm := Some {| head := {| write := nwrite; read := 0; count := count h |};
                                mem := nmem |};
                 size := u32 (size buf + step_size buf);
                 min_size := min_size buf; max_size := max_size buf;
                 step_size := step_size buf |}, DLT_RETURN_OK)
    end.

Definition dlt_buffer_minimize_size (hp : allocator) (buf : DltBuffer)
  : option (DltBuffer * Z) :=
  if size buf + sizeof_DltBufferHead =? min_size buf then Some (buf, DLT_RETURN_OK)
  else
    match malloc hp (min_size buf) with
    | None => Some (buf, DLT_RETURN_ERROR)
    | Some new_ptr =>
        r ← as_region new_ptr zero_head;
        let bsize := u32 (min_size buf - sizeof_DltBufferHead) in
        m' ← mzero (mem r) bsize;
        Some ({| shm := Some {| head := zero_head; mem := m' |}; size := bsize;
                 min_size := min_size buf; max_size := max_size buf;
                 step_size := step_size buf |}, DLT_RETURN_OK)
    end.

Definition dlt_buffer_reset (buf : DltBuffer) : option (DltBuffer * Z) :=
  r ← shm buf;
  m' ← mzero (mem r) (size buf);
  Some (set_shm buf {| head := zero_head; mem := m' |}, DLT_RETURN_OK).

(** ** Writing *)

(** The two (identical) computations of the free size in [dlt_buffer_push3]. *)
Definition free_size_of (bsize : Z) (w r c : Z) : Z :=
  if w <? r then r - w
  else if negb (c =? 0) && (w =? r) then 0
  else i32 (bsize - w + r).

(** The loop that grows the buffer until the message fits.  [inl] is the
    error return; every iteration adds [step_size > 0] bytes, so
    [push3_fuel] iterations are enough. *)
Fixpoint grow (fuel : nat) (hp : allocator) (buf : DltBuffer) (c fr needed : Z)
  : option (DltBuffer * bool) :=
  match fuel with
  | O => None
  | S fuel =>
      if fr <? needed then
        '(buf', ret) ← dlt_buffer_increase_size hp buf;
        if negb (ret =? 0) then Some (buf', false)
        else
          r ← shm buf';
          grow fuel hp buf' c (free_size_of (size buf') (write (head r)) (read (head r)) c) needed
      else Some (buf, true)
  end.

Definition push3_fuel (buf : DltBuffer) : nat :=
  Z.to_nat ((max_size buf - size buf) / step_size buf + 2).

(** One [if (size) dlt_buffer_write_block(...)]. *)
Definition write_part (bsize : Z) (m : bytes) (w : Z) (data : option bytes) (sz : Z)
  : option (bytes * Z) :=
  if sz =? 0 then Some (m, w) else dlt_buffer_write_block bsize m w data sz.

(** [pad] is what the stack holds in the padding of the block head. *)
Definition dlt_buffer_push3 (hp : allocator) (pad : bytes) (buf : DltBuffer)
    (data1 : option bytes) (size1 : Z) (data2 : option bytes) (size2 : Z)
    (data3 : option bytes) (size3 : Z) : option (DltBuffer * Z) :=
  match shm buf with
  | None => Some (buf, DLT_RETURN_ERROR)
  | Some r =>
      let w := write (head r) in
      let rd := read (head r) in
      let c := count (head r) in
      if (size buf <? u32 rd) || (size buf <? u32 w) then
        '(buf', _) ← dlt_buffer_reset buf;
        Some (buf', DLT_RETURN_ERROR)
      else
        '(buf', ok) ← grow (push3_fuel buf) hp buf c (free_size_of (size buf) w rd c)
                        (i32 (sizeof_DltBufferBlockHead + size1 + size2 + size3));
        if (ok : bool) then
          r' ← shm buf';
          let hd := block_head pad (i32 (u32 (size1 + size2 + size3))) in
          '(m0, w0) ← dlt_buffer_write_block (size buf') (mem r') (write (head r'))
                        (Some hd) sizeof_DltBufferBlockHead;
          '(m1, w1) ← write_part (size buf') m0 w0 data1 size1;
          '(m2, w2) ← write_part (size buf') m1 w1 data2 size2;
          '(m3, w3) ← write_part (size buf') m2 w2 data3 size3;
          Some (set_shm buf'
                  {| head := {| write := w3; read := read (head r');
                                count := i32 (count (head r') + 1) |};
                     mem := m3 |}, DLT_RETURN_OK)
        else Some (buf', DLT_RETURN_ERROR)
  end.

Definition dlt_buffer_push (hp : allocator) (pad : bytes) (buf : DltBuffer)
    (data : option bytes) (sz : Z) : option (DltBuffer * Z) :=
  dlt_buffer_push3 hp pad buf data sz None 0 None 0.

(** ** Reading *)

(** Every failed check of [dlt_buffer_get] resets the buffer. *)
Definition reset_error (buf : DltBuffer) : option (DltBuffer * Z * bytes) :=
  '(buf', _) ← dlt_buffer_reset buf;
  Some (buf', DLT_RETURN_ERROR, []).

(** What [delete] does to the head once the message has been read or skipped. *)
Definition delete_message (hp : allocator) (buf : DltBuffer) (rd : Z) : option DltBuffer :=
  r ← shm buf;
  let c := i32 (count (head r) - 1) in
  let buf' := set_shm buf {| head := {| write := write (head r); read := rd; count := c |};
                             mem := mem r |} in
  if c =? 0 then '(buf'', _) ← dlt_buffer_minimize_size hp buf'; Some buf''
  else Some buf'.

(** Returns the buffer, the return value and the bytes copied to [data];
    [data = false] is the [NULL] destination. *)
Definition dlt_buffer_get (hp : allocator) (buf : DltBuffer) (data : bool) (maxs : Z) (delete : bool)
  : option (DltBuffer * Z * bytes) :=
  match shm buf with
  | None => Some (buf, DLT_RETURN_ERROR, [])
  | Some r =>
      let w := write (head r) in
      let rd := read (head r) in
      let c := count (head r) in
      if (size buf <? u32 rd) || (size buf <? u32 w) || (c <? 0) then reset_error buf
      else if c =? 0 then
        if negb (w =? rd) then reset_error buf else Some (buf, DLT_RETURN_ERROR, [])
      else
        let used_size := if rd <? w then w - rd else i32 (size buf) - rd + w in
        if used_size <? sizeof_DltBufferBlockHead then reset_error buf
        else
          '(hd, rd1) ← dlt_buffer_read_block (size buf) (mem r) rd sizeof_DltBufferBlockHead;
          magic ← mread hd 0 4;
          status ← mread hd 4 1;
          szb ← mread hd 8 4;
          let hsize := i32 (le_Z szb) in
          if negb (bool_decide (magic = DLT_BUFFER_HEAD)) then reset_error buf
          else if negb (bool_decide (status = [2])) then reset_error buf
          else if used_size <? i32 (sizeof_DltBufferBlockHead + hsize) then reset_error buf
          else
            if data && negb (maxs =? 0) then
              '(out, rd2) ← dlt_buffer_read_block (size buf) (mem r) rd1 (u32 hsize);
              if delete then
                buf' ← delete_message hp buf rd2; Some (buf', hsize, out)
              else Some (buf, hsize, out)
            else if delete then
              let rd2 := if u32 (rd1 + hsize) <=? size buf then rd1 + hsize
                         else i32 (rd1 + hsize - i32 (size buf)) in
              buf' ← delete_message hp buf rd2; Some (buf', hsize, [])
            else Some (buf, hsize, [])
  end.

Definition dlt_buffer_pull (hp : allocator) (buf : DltBuffer) (data : bool) (maxs : Z) :=
  dlt_buffer_get hp buf data maxs true.
Definition dlt_buffer_copy (hp : allocator) (buf : DltBuffer) (data : bool) (maxs : Z) :=
  dlt_buffer_get hp buf data maxs false.
Definition dlt_buffer_remove (hp : allocator) (buf : DltBuffer) :=
  dlt_buffer_get hp buf false 0 true.

(** ** Queries *)

Definition dlt_buffer_get_total_size (buf : DltBuffer) : Z := max_size buf.

Definition dlt_buffer_get_used_size (buf : DltBuffer) : Z :=
  match shm buf with
  | None => DLT_RETURN_OK
  | Some r =>
      let w := write (head r) in
      let rd := read (head r) in
      if count (head r) =? 0 then DLT_RETURN_OK
      else if rd <? w then w - rd
      else i32 (size buf) - rd + w
  end.

Definition dlt_buffer_get_message_count (buf : DltBuffer) : Z :=
  match shm buf with None => DLT_RETURN_OK | Some r => count (head r) end.

End RingBuffer.
