(* ===== verification/RingBufferSpec.v ===== *)
(** * The ring buffer implements a FIFO of messages

    [RB buf q] is the representation relation between the concrete ring and
    the abstract queue [q] of messages, oldest first.  The theorems show that
    every operation of [RingBuffer] stays inside the region (it returns
    [Some]) and acts on the queue as the FIFO operation it stands for. *)

From stdpp Require Import base list numbers option.
From Stdlib Require Import ZArith Lia Bool.
From S2P Require Import Prelude RingBuffer.
Import RingBuffer.

Local Open Scope Z_scope.

Module RingBufferSpec.

(** ** The cyclic byte string between [read] and [write] *)

(** Position [j] of the unrolled ring, for [0 <= j < 2 * bsize]. *)
Definition cyc (bsize j : Z) : Z := if j <? bsize then j else j - bsize.

(** The ring of [bsize] bytes holds exactly the byte string [s] from [r] to [w]. *)
Record ring (bsize : Z) (m : bytes) (r w : Z) (s : bytes) : Prop := {
  ring_len : zlen m = bsize;
  ring_r : 0 <= r <= bsize;
  ring_w : 0 <= w <= bsize;
  ring_fits : zlen s <= bsize;
  ring_pos : w = r + zlen s ∨ w = r + zlen s - bsize;
  ring_data : ∀ i, 0 <= i < zlen s -> m !! Z.to_nat (cyc bsize (r + i)) = s !! Z.to_nat i
}.

Ltac cyc_cases :=
  unfold cyc in *;
  repeat match goal with
  | |- context [if ?a <? ?b then _ else _] =>
      destruct (Z.ltb_spec a b); [try lia|try lia]
  | |- context [?a <=? ?b] => destruct (Z.leb_spec a b); cbn [andb]; try lia
  | |- context [?a <? ?b] => destruct (Z.ltb_spec a b); cbn [andb]; try lia
  end.

Lemma lookup_app_Z (a b : bytes) (i : Z) :
  0 <= i ->
  (a ++ b) !! Z.to_nat i =
    if i <? zlen a then a !! Z.to_nat i else b !! Z.to_nat (i - zlen a).
Proof.
  intros. destruct (Z.ltb_spec i (zlen a)).
  - by rewrite lookup_app_l by lia.
  - rewrite lookup_app_r by lia. f_equal. lia.
Qed.

(** One [memcpy] into the free part of the ring, not crossing its end. *)
Lemma ring_mwrite (bsize : Z) (m m' : bytes) (r w w' : Z) (s d : bytes) :
  ring bsize m r w s -> zlen s + zlen d <= bsize ->
  mwrite m (cyc bsize w) d = Some m' ->
  w' = cyc bsize w + zlen d ->
  (w = bsize -> 0 < zlen d) ->
  ring bsize m' r w' (s ++ d).
Proof.
  intros [Hl Hr Hw Hf Hp Hd] Hfit Hm -> Hz.
  pose proof (mwrite_length _ _ _ _ Hm) as Hl'.
  assert (cyc bsize w + zlen d <= bsize) as Hin.
  { revert Hm. unfold mwrite. destruct (_ && _) eqn:E; [|done]. zb. lia. }
  split; try len.
  - unfold cyc in *. destruct (w <? bsize) eqn:E; zb; lia.
  - autorewrite with zlen. unfold cyc in *. destruct (w <? bsize) eqn:E; zb; lia.
  - intros i Hi. autorewrite with zlen in Hi.
    rewrite (lookup_mwrite _ _ _ _ _ Hm) by (cyc_cases; lia).
    rewrite lookup_app_Z by lia.
    destruct (Z.ltb_spec i (zlen s)).
    + rewrite <-(Hd i) by lia. cyc_cases; done.
    + cyc_cases; f_equal; lia.
Qed.

(** [dlt_buffer_write_block] appends to the byte string of the ring. *)
Lemma write_block_ring (bsize : Z) (m : bytes) (r w : Z) (s d : bytes) :
  ring bsize m r w s -> bsize < 2147483648 -> 0 < zlen d -> zlen s + zlen d <= bsize ->
  ∃ m' w', dlt_buffer_write_block bsize m w (Some d) (zlen d) = Some (m', w') ∧
           ring bsize m' r w' (s ++ d) ∧ 0 < w'.
Proof.
  intros Hring Hb Hd0 Hfit. pose proof Hring as [Hl Hr Hw Hf Hp _].
  unfold dlt_buffer_write_block. rewrite leb_true by lia.
  rewrite (u32_small w), (u32_small (w + zlen d)) by lia.
  destruct (Z.leb_spec (w + zlen d) bsize).
  - rewrite mread_Some by lia. bsimp. rewrite drop_0, take_ge by lia.
    rewrite mwrite_Some by lia. bsimp. do 2 eexists. split; [reflexivity|].
    cint. split; [|lia].
    eapply ring_mwrite; [done|lia| |unfold cyc; destruct (w <? bsize) eqn:?; zb; lia|lia].
    unfold cyc. rewrite ltb_true by lia. by rewrite mwrite_Some by lia.
  - rewrite leb_true by lia. rewrite (u32_small (bsize - w)) by lia.
    rewrite (mread_Some d 0) by lia. bsimp. rewrite drop_0.
    set (d1 := take (Z.to_nat (bsize - w)) d).
    assert (zlen d1 = bsize - w) as Hd1 by (subst d1; len).
    destruct (mwrite m w d1) as [m1|] eqn:Hm1;
      [bsimp|by rewrite mwrite_Some in Hm1 by lia].
    assert (u32 (u32 (zlen d - bsize) + w) = zlen d - bsize + w) as ->.
    { unfold wrapu. rewrite Zplus_mod_idemp_l. rewrite Z.mod_small; lia. }
    rewrite mread_Some by lia. bsimp.
    rewrite take_ge by len.
    set (d2 := drop (Z.to_nat (bsize - w)) d).
    assert (zlen d2 = zlen d - (bsize - w)) as Hd2 by (subst d2; len).
    pose proof (mwrite_length _ _ _ _ Hm1) as Hlm1.
    destruct (mwrite m1 0 d2) as [m2|] eqn:Hm2;
      [bsimp|by rewrite mwrite_Some in Hm2 by lia].
    do 2 eexists. split; [reflexivity|].
    assert (i32 (w + i32 (u32 (zlen d - bsize))) = w + zlen d - bsize) as ->.
    { rewrite wraps_wrapu by lia. rewrite (i32_small (zlen d - bsize)) by lia.
      rewrite i32_small; lia. }
    split; [|lia].
    assert (ring bsize m1 r bsize (s ++ d1)) as Hring1.
    { destruct (decide (w = bsize)) as [->|].
      - assert (d1 = []) as -> by (destruct d1; [done|simpl in Hd1; lia]).
        rewrite app_nil_r. revert Hm1. rewrite mwrite_Some by (simpl; lia).
        intros [= <-]. cbn [length app].
        rewrite Nat.add_0_r, take_drop. done.
      - eapply ring_mwrite; [done|lia| | |lia].
        + unfold cyc. by rewrite ltb_true by lia.
        + unfold cyc. rewrite ltb_true by lia. lia. }
    assert (s ++ d = (s ++ d1) ++ d2) as ->
      by (subst d1 d2; by rewrite <-app_assoc, take_drop).
    eapply (ring_mwrite bsize m1 m2 r bsize); [done|len| | |lia].
    + unfold cyc. rewrite ltb_false by lia. by rewrite Z.sub_diag.
    + unfold cyc. rewrite ltb_false by lia. lia.
Qed.

(** [dlt_buffer_read_block] takes a prefix of the byte string of the ring. *)
Lemma read_block_ring (bsize : Z) (m : bytes) (r w : Z) (d s : bytes) :
  ring bsize m r w (d ++ s) -> bsize < 2147483648 ->
  ∃ r', dlt_buffer_read_block bsize m r (zlen d) = Some (d, r') ∧
        ring bsize m r' w s ∧ (r' = r + zlen d ∨ r' = r + zlen d - bsize) ∧
        (0 < r ∨ 0 < zlen d -> 0 < r').
Proof.
  intros [Hl Hr Hw Hf Hp Hd] Hb. autorewrite with zlen in *.
  assert (∀ i, 0 <= i < zlen d -> m !! Z.to_nat (cyc bsize (r + i)) = d !! Z.to_nat i) as Hdd.
  { intros i Hi. rewrite Hd by lia. by rewrite lookup_app_Z, ltb_true by lia. }
  assert (∀ i, 0 <= i < zlen s ->
            m !! Z.to_nat (cyc bsize (r + (zlen d + i))) = s !! Z.to_nat i) as Hds.
  { intros i Hi. rewrite Hd by lia. rewrite lookup_app_Z, ltb_false by lia. f_equal. lia. }
  unfold dlt_buffer_read_block. rewrite (u32_small r), (u32_small (r + zlen d)) by lia.
  destruct (Z.leb_spec (r + zlen d) bsize).
  - destruct (mread m r (zlen d)) as [d'|] eqn:Hrd; [bsimp|by rewrite mread_Some in Hrd by lia].
    assert (d' = d) as ->.
    { pose proof (mread_length _ _ _ _ Hrd). apply bytes_ext; [lia|]. intros i Hi.
      rewrite (lookup_mread _ _ _ _ _ Hrd) by lia. rewrite <-Hdd by lia. cyc_cases; done. }
    eexists. split; [reflexivity|]. cint.
    split; [|lia]. split; try lia.
    intros i Hi. rewrite <-Hds by lia. f_equal. cyc_cases; lia.
  - rewrite leb_true by lia. rewrite (u32_small (bsize - r)) by lia.
    destruct (mread m r (bsize - r)) as [d1|] eqn:Hr1; [bsimp|by rewrite mread_Some in Hr1 by lia].
    assert (u32 (u32 (zlen d - bsize) + r) = zlen d - bsize + r) as ->.
    { unfold wrapu. rewrite Zplus_mod_idemp_l. rewrite Z.mod_small; lia. }
    destruct (mread m 0 (zlen d - bsize + r)) as [d2|] eqn:Hr2;
      [bsimp|by rewrite mread_Some in Hr2 by lia].
    pose proof (mread_length _ _ _ _ Hr1). pose proof (mread_length _ _ _ _ Hr2).
    assert (d1 ++ d2 = d) as ->.
    { apply bytes_ext; [len|]. intros i Hi. autorewrite with zlen in Hi.
      rewrite lookup_app_Z by lia. rewrite <-Hdd by lia. destruct (Z.ltb_spec i (zlen d1)).
      - rewrite (lookup_mread _ _ _ _ _ Hr1) by lia. cyc_cases; done.
      - rewrite (lookup_mread _ _ _ _ _ Hr2) by lia. cyc_cases; f_equal; lia. }
    eexists. split; [reflexivity|].
    assert (i32 (r + i32 (u32 (zlen d - bsize))) = r + zlen d - bsize) as ->.
    { rewrite wraps_wrapu by lia. rewrite (i32_small (zlen d - bsize)) by lia.
      rewrite i32_small; lia. }
    split; [|lia]. split; try lia.
    intros i Hi. rewrite <-Hds by lia. f_equal. cyc_cases; lia.
Qed.

(** ** The message queue *)

(** The byte string of a queue: every message behind its block head. *)
Inductive encodes : list bytes -> bytes -> Prop :=
| encodes_nil : encodes [] []
| encodes_cons pad m q s :
    length pad = 3%nat -> zlen m < 2147483648 -> encodes q s ->
    encodes (m :: q) (block_head pad (zlen m) ++ m ++ s).

Lemma encodes_app q s q' s' : encodes q s -> encodes q' s' -> encodes (q ++ q') (s ++ s').
Proof.
  induction 1 as [|pad m q s Hp Hm He IH]; intros H; [done|].
  cbn [app]. rewrite <-!app_assoc. constructor; auto.
Qed.

Lemma encodes_snoc q s pad m :
  encodes q s -> length pad = 3%nat -> zlen m < 2147483648 ->
  encodes (q ++ [m]) (s ++ block_head pad (zlen m) ++ m).
Proof.
  intros He Hp Hm. apply encodes_app; [done|]. rewrite <-(app_nil_r m) at 3.
  by repeat constructor.
Qed.

Lemma length_block_head pad sz : length pad = 3%nat -> length (block_head pad sz) = 12%nat.
Proof. intros H. unfold block_head, DLT_BUFFER_HEAD. autorewrite with zlen. rewrite H. done. Qed.

Lemma encodes_length q s : encodes q s -> 12 * zlen q <= zlen s.
Proof.
  induction 1 as [|pad m q s Hp Hm He IH]; [done|].
  autorewrite with zlen. rewrite length_block_head by done. lia.
Qed.

Lemma encodes_nil_inv s : encodes [] s -> s = [].
Proof. by inversion 1. Qed.

(** What [dlt_buffer_get] reads in a block head that [dlt_buffer_push3] wrote. *)
Lemma block_head_fields pad sz :
  length pad = 3%nat ->
  mread (block_head pad sz) 0 4 = Some DLT_BUFFER_HEAD ∧
  mread (block_head pad sz) 4 1 = Some [2] ∧
  mread (block_head pad sz) 8 4 = Some (le_bytes 4 (u32 sz)).
Proof.
  intros H. destruct pad as [|a [|b [|c [|? ?]]]]; try done; by repeat split.
Qed.

(** The representation relation, with the region and the byte string named. *)
Record RBs (buf : DltBuffer) (q : list bytes) (r : region) (s : bytes) : Prop := {
  rb_shm : shm buf = Some r;
  rb_ring : ring (size buf) (mem r) (read (head r)) (write (head r)) s;
  rb_enc : encodes q s;
  rb_count : count (head r) = zlen q;
  rb_empty : q = [] -> read (head r) = write (head r);
  rb_write : q <> [] -> 0 < write (head r);
  rb_size : size buf + sizeof_DltBufferHead <= max_size buf < 2147483648;
  rb_min : sizeof_DltBufferHead <= min_size buf <= size buf + sizeof_DltBufferHead;
  rb_step : 0 <= step_size buf
}.

Definition RB (buf : DltBuffer) (q : list bytes) : Prop := ∃ r s, RBs buf q r s.

(** Bytes taken by the queue, block heads included. *)
Definition stream_len (q : list bytes) : Z :=
  foldr (λ m n, sizeof_DltBufferBlockHead + zlen m + n) 0 q.

Lemma encodes_stream_len q s : encodes q s -> zlen s = stream_len q.
Proof.
  induction 1 as [|pad m q s Hp Hm He IH]; [done|].
  autorewrite with zlen. rewrite length_block_head by done.
  change (stream_len (m :: q)) with (12 + zlen m + stream_len q). lia.
Qed.

Lemma stream_len_app q q' : stream_len (q ++ q') = stream_len q + stream_len q'.
Proof.
  induction q as [|m q IH]; [done|]. cbn [app].
  change (stream_len (m :: q ++ q')) with (12 + zlen m + stream_len (q ++ q')).
  change (stream_len (m :: q)) with (12 + zlen m + stream_len q). lia.
Qed.

Definition same_config (b b' : DltBuffer) : Prop :=
  min_size b' = min_size b ∧ max_size b' = max_size b ∧ step_size b' = step_size b.

Lemma same_config_refl b : same_config b b.
Proof. done. Qed.

(** The free size that [dlt_buffer_push3] computes is exact. *)
Lemma free_size_RB buf q r s :
  RBs buf q r s ->
  free_size_of (size buf) (write (head r)) (read (head r)) (zlen q) = size buf - zlen s.
Proof.
  intros [Hs [Hl Hr Hw Hf Hp _] He Hc Hem Hwr Hsz Hmin Hst].
  unfold sizeof_DltBufferHead in *. pose proof (encodes_length _ _ He) as Hel.
  unfold free_size_of. destruct q as [|m q].
  - apply encodes_nil_inv in He as ->. rewrite (Hem eq_refl) in *.
    cbn [length] in *. csimp. cint. lia.
  - specialize (Hwr ltac:(done)). cbn [length] in *.
    destruct (Z.ltb_spec (write (head r)) (read (head r))); [lia|].
    rewrite (eqb_false (Z.of_nat _)) by lia. cbn [negb andb].
    destruct (Z.eqb_spec (write (head r)) (read (head r))); [lia|]. cint. lia.
Qed.

(** A memory that starts with [s] is the ring that holds [s] from 0. *)
Lemma ring_prefix bsize s t :
  zlen (s ++ t) = bsize -> ring bsize (s ++ t) 0 (zlen s) s.
Proof.
  intros H. autorewrite with zlen in *. split; try (autorewrite with zlen; lia).
  intros i Hi. unfold cyc. rewrite ltb_true by lia.
  rewrite Z.add_0_l. by rewrite lookup_app_Z, ltb_true by lia.
Qed.

(** What [dlt_buffer_increase_size] copies: the used bytes, in one or two
    pieces. *)
Lemma ring_copy_1 bsize m r w s :
  ring bsize m r w s -> r < w -> mread m r (w - r) = Some s.
Proof.
  intros [Hl Hr Hw Hf Hp Hd] Hrw.
  destruct (mread m r (w - r)) as [d|] eqn:E; [|by rewrite mread_Some in E by lia].
  f_equal. pose proof (mread_length _ _ _ _ E). apply bytes_ext; [lia|]. intros i Hi.
  rewrite (lookup_mread _ _ _ _ _ E), <-Hd by lia. f_equal. cyc_cases; done.
Qed.

Lemma ring_copy_2 bsize m r w s :
  ring bsize m r w s -> w <= r -> s <> [] ->
  ∃ d1 d2, mread m r (bsize - r) = Some d1 ∧ mread m 0 w = Some d2 ∧ s = d1 ++ d2.
Proof.
  intros [Hl Hr Hw Hf Hp Hd] Hrw Hs. assert (0 < zlen s) by (destruct s; [done|simpl; lia]).
  destruct (mread m r (bsize - r)) as [d1|] eqn:E1; [|by rewrite mread_Some in E1 by lia].
  destruct (mread m 0 w) as [d2|] eqn:E2; [|by rewrite mread_Some in E2 by lia].
  do 2 eexists. split_and!; [done..|].
  pose proof (mread_length _ _ _ _ E1). pose proof (mread_length _ _ _ _ E2).
  apply bytes_ext; [len|]. intros i Hi. rewrite <-Hd, lookup_app_Z by lia.
  destruct (Z.ltb_spec i (zlen d1)).
  - rewrite (lookup_mread _ _ _ _ _ E1) by lia. f_equal. cyc_cases; done.
  - rewrite (lookup_mread _ _ _ _ _ E2) by lia. f_equal. cyc_cases; lia.
Qed.

(** [mwrite] at the beginning of a fresh region, and right behind it. *)
Lemma mwrite_prefix (m d : bytes) :
  zlen d <= zlen m -> mwrite m 0 d = Some (d ++ drop (length d) m).
Proof. intros. by rewrite mwrite_Some by lia. Qed.

Lemma mwrite_behind (d m d' : bytes) :
  zlen d' <= zlen m -> mwrite (d ++ m) (zlen d) d' = Some (d ++ d' ++ drop (length d') m).
Proof.
  intros. rewrite mwrite_Some by (try autorewrite with zlen; lia).
  rewrite Nat2Z.id, take_app_length, drop_app_add. done.
Qed.

(** ** Growing *)

Lemma as_region_Some (m : bytes) h :
  12 <= zlen m -> as_region m h = Some {| head := h; mem := drop 12 m |}.
Proof. intros. unfold as_region, sizeof_DltBufferHead. by csimp. Qed.

(** [dlt_buffer_increase_size] on a buffer that holds messages. *)
Lemma increase_size_RB hp buf q r s :
  RBs buf q r s -> q <> [] ->
  (∃ buf' r', dlt_buffer_increase_size hp buf = Some (buf', DLT_RETURN_OK) ∧
     RBs buf' q r' s ∧ same_config buf buf' ∧ size buf' = size buf + step_size buf ∧
     0 < step_size buf) ∨
  (dlt_buffer_increase_size hp buf = Some (buf, DLT_RETURN_ERROR) ∧
     (step_size buf = 0 ∨ max_size buf < size buf + sizeof_DltBufferHead + step_size buf ∨
      malloc hp (size buf + sizeof_DltBufferHead + step_size buf) = None)).
Proof.
  intros [Hs Hring He Hc Hem Hwr Hsz Hmin Hst] Hq.
  pose proof Hring as [Hl Hr Hw Hf Hp _].
  unfold sizeof_DltBufferHead in *. unfold dlt_buffer_increase_size, sizeof_DltBufferHead.
  destruct (Z.eqb_spec (step_size buf) 0); [right; eauto|].
  destruct (Z.ltb_spec (max_size buf) (size buf + 12 + step_size buf)); [right; eauto|].
  destruct (malloc hp (size buf + 12 + step_size buf)) as [np|] eqn:Hm; [|right; eauto].
  left. apply malloc_length in Hm. rewrite Z.max_r in Hm by lia.
  rewrite Hs. bsimp. rewrite as_region_Some by lia. bsimp. cbn [mem].
  assert (s <> []) as Hsne.
  { intros ->. apply encodes_length in He. destruct q; [done|]. simpl in *. lia. }
  assert (0 < zlen s) as Hs0 by (destruct s; [done|simpl; lia]).
  destruct (Z.ltb_spec (read (head r)) (write (head r))).
  - rewrite (ring_copy_1 _ _ _ _ _ Hring) by lia. bsimp.
    rewrite mwrite_prefix by len. bsimp.
    do 2 eexists. split; [reflexivity|]. cbn. split; [|unfold same_config; cbn; cint; lia].
    split; [reflexivity|..]; cbn; try done;
      try (intros; cint; unfold sizeof_DltBufferHead; lia).
    cint. replace (write (head r) - read (head r)) with (zlen s) by lia.
    apply ring_prefix. len.
  - destruct (ring_copy_2 _ _ _ _ _ Hring) as (d1 & d2 & H1 & H2 & Hs12); [lia|done|].
    pose proof (mread_length _ _ _ _ H1). pose proof (mread_length _ _ _ _ H2).
    assert (zlen s = zlen d1 + zlen d2) by (subst s; len).
    cint. rewrite H1. bsimp. rewrite mwrite_prefix by len. bsimp. rewrite H2. bsimp.
    replace (size buf - read (head r)) with (zlen d1) by lia.
    rewrite mwrite_behind by len. bsimp. rewrite app_assoc, <-Hs12.
    do 2 eexists. split; [reflexivity|]. cbn. split; [|unfold same_config; cbn; cint; lia].
    split; [reflexivity|..]; cbn; try done;
      try (intros; cint; unfold sizeof_DltBufferHead; lia).
    cint. replace (size buf + write (head r) - read (head r)) with (zlen s) by lia.
    apply ring_prefix. len.
Qed.

(** The growing loop of [dlt_buffer_push3] terminates within its fuel and keeps
    the queue. *)
Lemma grow_RB hp fuel buf q r s needed :
  RBs buf q r s -> q <> [] ->
  ((max_size buf - size buf) / step_size buf + 1 < Z.of_nat fuel) ->
  ∃ buf' r' ok,
    grow fuel hp buf (zlen q) (size buf - zlen s) needed = Some (buf', ok) ∧
    RBs buf' q r' s ∧ same_config buf buf' ∧ size buf <= size buf' ∧
    (ok = true -> needed <= size buf' - zlen s) ∧
    (ok = false -> size buf' - zlen s < needed ∧
       (step_size buf = 0 ∨ max_size buf < size buf' + sizeof_DltBufferHead + step_size buf ∨
        malloc hp (size buf' + sizeof_DltBufferHead + step_size buf) = None)).
Proof.
  revert buf r. induction fuel as [|fuel IH]; intros buf r HR Hq Hfuel.
  { pose proof (rb_size _ _ _ _ HR). pose proof (rb_step _ _ _ _ HR).
    unfold sizeof_DltBufferHead in *.
    assert (0 <= (max_size buf - size buf) / step_size buf); [|lia].
    destruct (decide (step_size buf = 0)) as [->|]; [by rewrite Z.div_0_r|].
    apply Z.div_pos; lia. }
  cbn [grow]. destruct (Z.ltb_spec (size buf - zlen s) needed).
  2: { exists buf, r, true. split_and!; try done; unfold same_config; lia. }
  destruct (increase_size_RB hp buf q r s HR Hq)
    as [(buf1 & r1 & -> & HR1 & (Hc1 & Hc2 & Hc3) & Hsz & Hst)|[-> Hwhy]]; bsimp.
  - cbn [DLT_RETURN_OK Z.eqb negb]. rewrite (rb_shm _ _ _ _ HR1). bsimp.
    rewrite (free_size_RB _ _ _ _ HR1).
    destruct (IH buf1 r1) as (buf2 & r2 & ok & Hg & HR2 & (Hd1 & Hd2 & Hd3) & Hle & Hok & Hno);
      [done|done| |].
    { rewrite Hc2, Hc3, Hsz.
      replace (max_size buf - (size buf + step_size buf))
        with (max_size buf - size buf + (-1) * step_size buf) by lia.
      rewrite Z.div_add by lia. lia. }
    exists buf2, r2, ok. rewrite Hc2, Hc3 in *. unfold same_config. split_and!; try done; lia.
  - exists buf, r, false. split_and!; try done; unfold same_config; lia.
Qed.

(** ** Pushing *)

(** A part of the message as the callers pass it: a pointer and its size. *)
Definition part_ok (p : option bytes) (sz : Z) (d : bytes) : Prop :=
  sz = zlen d ∧ (p = Some d ∨ d = []).

Lemma part_ok_some d : part_ok (Some d) (zlen d) d.
Proof. split; auto. Qed.
Lemma part_ok_none : part_ok None 0 [].
Proof. split; auto. Qed.

Create HintDb ringdb.
#[export] Hint Resolve part_ok_some part_ok_none same_config_refl : ringdb.

Lemma write_part_ring bsize m r w s p sz d :
  ring bsize m r w s -> 0 < w -> bsize < 2147483648 -> part_ok p sz d ->
  zlen s + zlen d <= bsize ->
  ∃ m' w', write_part bsize m w p sz = Some (m', w') ∧ ring bsize m' r w' (s ++ d) ∧ 0 < w'.
Proof.
  intros Hring Hw Hb [-> Hp] Hfit. unfold write_part.
  destruct (Z.eqb_spec (zlen d) 0) as [Hz|].
  - assert (d = []) as -> by (destruct d; [done|simpl in Hz; lia]).
    rewrite app_nil_r. eauto.
  - destruct Hp as [->| ->]; [|done].
    by apply write_block_ring; try lia.
Qed.

(** The write phase of [dlt_buffer_push3], once the message fits. *)
Lemma push3_write bsize m r w s pad p1 p2 p3 s1 s2 s3 d1 d2 d3 :
  ring bsize m r w s -> bsize < 2147483648 -> length pad = 3%nat ->
  part_ok p1 s1 d1 -> part_ok p2 s2 d2 -> part_ok p3 s3 d3 ->
  zlen s + 12 + zlen (d1 ++ d2 ++ d3) <= bsize ->
  ∃ m' w',
    ('(m0, w0) ← dlt_buffer_write_block bsize m w
        (Some (block_head pad (i32 (u32 (s1 + s2 + s3))))) sizeof_DltBufferBlockHead;
     '(m1, w1) ← write_part bsize m0 w0 p1 s1;
     '(m2, w2) ← write_part bsize m1 w1 p2 s2;
     write_part bsize m2 w2 p3 s3) = Some (m', w') ∧
    ring bsize m' r w'
      (s ++ block_head pad (zlen (d1 ++ d2 ++ d3)) ++ d1 ++ d2 ++ d3) ∧ 0 < w'.
Proof.
  intros Hring Hb Hpad H1 H2 H3 Hfit. autorewrite with zlen in Hfit.
  assert (i32 (u32 (s1 + s2 + s3)) = zlen (d1 ++ d2 ++ d3)) as ->.
  { destruct H1 as [-> _], H2 as [-> _], H3 as [-> _]. cint. len. }
  set (hd := block_head pad _).
  assert (length hd = 12%nat) as Hhd by by apply length_block_head.
  replace sizeof_DltBufferBlockHead with (zlen hd) by (rewrite Hhd; done).
  destruct (write_block_ring bsize m r w s hd) as (m0 & w0 & -> & Hr0 & Hw0); [done|lia..|].
  bsimp. destruct (write_part_ring bsize m0 r w0 (s ++ hd) p1 s1 d1)
    as (m1 & w1 & -> & Hr1 & Hw1); [done..|len|]. bsimp.
  destruct (write_part_ring bsize m1 r w1 ((s ++ hd) ++ d1) p2 s2 d2)
    as (m2 & w2 & -> & Hr2 & Hw2); [done..|len|]. bsimp.
  destruct (write_part_ring bsize m2 r w2 (((s ++ hd) ++ d1) ++ d2) p3 s3 d3)
    as (m3 & w3 & -> & Hr3 & Hw3); [done..|len|].
  exists m3, w3. split; [done|]. rewrite <-!app_assoc in Hr3. done.
Qed.

(** Why a buffer cannot take one more step. *)
Definition cannot_grow (hp : allocator) (buf : DltBuffer) : Prop :=
  step_size buf = 0 ∨
  max_size buf < size buf + sizeof_DltBufferHead + step_size buf ∨
  malloc hp (size buf + sizeof_DltBufferHead + step_size buf) = None.

Lemma push3_fuel_enough buf q r s :
  RBs buf q r s ->
  (max_size buf - size buf) / step_size buf + 1 < Z.of_nat (push3_fuel buf).
Proof.
  intros HR. pose proof (rb_size _ _ _ _ HR). pose proof (rb_step _ _ _ _ HR).
  unfold sizeof_DltBufferHead in *. unfold push3_fuel.
  assert (0 <= (max_size buf - size buf) / step_size buf); [|lia].
  destruct (decide (step_size buf = 0)) as [->|]; [by rewrite Z.div_0_r|].
  apply Z.div_pos; lia.
Qed.

(** The growing phase, whether the message already fits or not. *)
Lemma grow_phase hp buf q r s needed :
  RBs buf q r s -> q <> [] ∨ needed <= size buf - zlen s ->
  ∃ buf' r' ok,
    grow (push3_fuel buf) hp buf (zlen q) (size buf - zlen s) needed = Some (buf', ok) ∧
    RBs buf' q r' s ∧ same_config buf buf' ∧
    (needed <= size buf - zlen s -> buf' = buf ∧ ok = true) ∧
    (ok = true -> needed <= size buf' - zlen s) ∧
    (ok = false -> size buf' - zlen s < needed ∧ cannot_grow hp buf').
Proof.
  intros HR Hcase. pose proof (push3_fuel_enough _ _ _ _ HR) as Hfuel.
  destruct (decide (needed <= size buf - zlen s)) as [Hfit|Hnofit].
  - exists buf, r, true. unfold push3_fuel.
    assert (∃ n, Z.to_nat ((max_size buf - size buf) / step_size buf + 2) = S n) as [n ->].
    { destruct (Z.to_nat _) eqn:E; [|eauto]. unfold push3_fuel in Hfuel.
      pose proof (rb_size _ _ _ _ HR). pose proof (rb_step _ _ _ _ HR).
      unfold sizeof_DltBufferHead in *.
      assert (0 <= (max_size buf - size buf) / step_size buf); [|lia].
      destruct (decide (step_size buf = 0)) as [->|]; [by rewrite Z.div_0_r|].
      apply Z.div_pos; lia. }
    cbn [grow]. rewrite ltb_false by lia. by split_and!.
  - destruct Hcase as [Hq|]; [|lia].
    destruct (grow_RB hp (push3_fuel buf) buf q r s needed)
      as (buf' & r' & ok & Hg & HR' & (H1 & H2 & H3) & Hle & Hok & Hno); [done..|].
    exists buf', r', ok. split_and!; try done.
    intros ?. destruct Hno as [? Hw]; [done|]. split; [done|].
    unfold cannot_grow. rewrite H2, H3. done.
Qed.

Lemma push3_RB hp pad buf q p1 s1 d1 p2 s2 d2 p3 s3 d3 :
  RB buf q -> length pad = 3%nat ->
  part_ok p1 s1 d1 -> part_ok p2 s2 d2 -> part_ok p3 s3 d3 ->
  12 + zlen (d1 ++ d2 ++ d3) < 2147483648 ->
  q <> [] ∨ 12 + zlen (d1 ++ d2 ++ d3) <= size buf ->
  ∃ buf' ret,
    dlt_buffer_push3 hp pad buf p1 s1 p2 s2 p3 s3 = Some (buf', ret) ∧
    same_config buf buf' ∧
    ((ret = DLT_RETURN_OK ∧ RB buf' (q ++ [d1 ++ d2 ++ d3]) ∧
       (stream_len q + 12 + zlen (d1 ++ d2 ++ d3) <= size buf -> size buf' = size buf)) ∨
     (ret = DLT_RETURN_ERROR ∧ RB buf' q ∧
       size buf' < stream_len q + 12 + zlen (d1 ++ d2 ++ d3) ∧
       size buf < stream_len q + 12 + zlen (d1 ++ d2 ++ d3) ∧ cannot_grow hp buf')).
Proof.
  intros (r & s & HR) Hpad P1 P2 P3 Hlen Hcase.
  pose proof (encodes_stream_len _ _ (rb_enc _ _ _ _ HR)) as Hsl.
  pose proof HR as [Hs [Hl Hr Hw Hf Hp _] He Hc Hem Hwr Hsz Hmin Hst].
  unfold sizeof_DltBufferHead in *.
  unfold dlt_buffer_push3. rewrite Hs. cint.
  rewrite !ltb_false by lia. cbn [orb]. rewrite Hc.
  rewrite (free_size_RB _ _ _ _ HR).
  assert (i32 (sizeof_DltBufferBlockHead + s1 + s2 + s3) = 12 + zlen (d1 ++ d2 ++ d3)) as ->.
  { destruct P1 as [-> _], P2 as [-> _], P3 as [-> _].
    unfold sizeof_DltBufferBlockHead. autorewrite with zlen in *. cint. lia. }
  destruct (grow_phase hp buf q r s (12 + zlen (d1 ++ d2 ++ d3)) HR)
    as (buf' & r' & ok & -> & HR' & Hconf & Hsame & Hok & Hno).
  { destruct Hcase as [?|?]; [by left|]. destruct q; [|by left].
    right. cbn in Hsl. lia. }
  bsimp. destruct ok; cycle 1.
  { do 2 eexists. split; [reflexivity|]. split; [done|]. right.
    destruct Hno as [? ?]; [done|]. split; [done|]. split; [by exists r', s|].
    split_and!; try done; [lia|].
    destruct (decide (12 + zlen (d1 ++ d2 ++ d3) <= size buf - zlen s)); [|lia].
    destruct Hsame as [? ?]; [lia|done]. }
  specialize (Hok eq_refl).
  pose proof HR' as [Hs' Hring' He' Hc' Hem' Hwr' Hsz' Hmin' Hst'].
  unfold sizeof_DltBufferHead in *.
  rewrite Hs'. bsimp.
  destruct (push3_write (size buf') (mem r') (read (head r')) (write (head r')) s pad
              p1 p2 p3 s1 s2 s3 d1 d2 d3) as (m' & w' & Hwrite & Hring'' & Hw'); try done; [lia..|].
  revert Hwrite. destruct (dlt_buffer_write_block _ _ _ _ _) as [[m0 w0]|]; [bsimp|done].
  destruct (write_part _ m0 w0 _ _) as [[m1 w1]|]; [bsimp|done].
  destruct (write_part _ m1 w1 _ _) as [[m2 w2]|]; [bsimp|done].
  intros ->. bsimp. do 2 eexists. split; [reflexivity|].
  split; [done|]. left. split; [done|]. pose proof (encodes_length _ _ He').
  pose proof (encodes_snoc _ _ pad (d1 ++ d2 ++ d3) He' Hpad ltac:(lia)) as Henc.
  pose proof (ring_fits _ _ _ _ _ Hring'').
  autorewrite with zlen in *. rewrite length_block_head in * by done.
  split; [|intros; destruct Hsame; [lia|by subst]].
  do 2 eexists. split; [reflexivity|..]; cbn; try done.
  - rewrite Hc'. autorewrite with zlen. cint. simpl. lia.
  - by destruct q.
Qed.

(** ** Reading *)

Lemma mzero_all (m : bytes) (n : Z) : zlen m = n -> mzero m n = Some (replicate (length m) 0).
Proof.
  intros <-. unfold mzero. rewrite Nat2Z.id, mwrite_prefix by len.
  by rewrite length_replicate, drop_all, app_nil_r.
Qed.

(** An empty ring: both positions at 0, whatever the memory. *)
Lemma ring_nil bsize m r : zlen m = bsize -> 0 <= r <= bsize -> ring bsize m r r [].
Proof. intros. split; simpl; intros; lia. Qed.

Lemma minimize_RB hp buf :
  RB buf [] ->
  ∃ buf' ret, dlt_buffer_minimize_size hp buf = Some (buf', ret) ∧
              same_config buf buf' ∧ RB buf' [].
Proof.
  intros (r & s & HR). pose proof HR as [Hs Hring He Hc Hem Hwr Hsz Hmin Hst].
  unfold sizeof_DltBufferHead in *. unfold dlt_buffer_minimize_size, sizeof_DltBufferHead.
  destruct (Z.eqb_spec (size buf + 12) (min_size buf)).
  { do 2 eexists. split_and!; [done..|by exists r, s]. }
  destruct (malloc hp (min_size buf)) as [np|] eqn:Hm.
  2: { do 2 eexists. split_and!; [done..|by exists r, s]. }
  apply malloc_length in Hm. rewrite Z.max_r in Hm by lia.
  rewrite as_region_Some by lia. bsimp. cbn [mem]. cint.
  rewrite mzero_all by len. bsimp.
  do 2 eexists. split; [reflexivity|]. split; [done|].
  eexists _, []. split; [reflexivity|..]; cbn; try done; try constructor;
    try (unfold sizeof_DltBufferHead; lia); try len.
Qed.

(** The size of the used part that [dlt_buffer_get] and
    [dlt_buffer_get_used_size] compute is exact. *)
Lemma used_size_RB buf q r s :
  RBs buf q r s -> q <> [] ->
  (if read (head r) <? write (head r) then write (head r) - read (head r)
   else i32 (size buf) - read (head r) + write (head r)) = zlen s.
Proof.
  intros [Hs [Hl Hr Hw Hf Hp _] He Hc Hem Hwr Hsz Hmin Hst] Hq.
  unfold sizeof_DltBufferHead in *. pose proof (encodes_length _ _ He) as Hel.
  destruct q as [|m q]; [done|]. specialize (Hwr ltac:(done)). cbn [length] in Hel.
  cint. destruct (Z.ltb_spec (read (head r)) (write (head r))); lia.
Qed.

Lemma block_size_RB sz : 0 <= sz < 2147483648 -> i32 (le_Z (le_bytes 4 (u32 sz))) = sz.
Proof.
  intros. cint. rewrite le_Z_le_bytes by (change (256 ^ Z.of_nat 4) with 4294967296; lia).
  cint. done.
Qed.

(** [delete_message] drops the oldest message once the read position has moved
    behind it. *)
Lemma delete_message_RB hp buf m q r s s' rd :
  RBs buf (m :: q) r s -> encodes q s' ->
  ring (size buf) (mem r) rd (write (head r)) s' -> 0 < rd ->
  ∃ buf', delete_message hp buf rd = Some buf' ∧ same_config buf buf' ∧ RB buf' q.
Proof.
  intros HR He' Hring' Hrd.
  pose proof HR as [Hs [Hl Hr Hw Hf Hp _] He Hc Hem Hwr Hsz Hmin Hst].
  unfold sizeof_DltBufferHead in *. pose proof (encodes_length _ _ He) as Hel.
  unfold delete_message. rewrite Hs. bsimp. cbn [length] in *.
  assert (i32 (count (head r) - 1) = zlen q) as -> by (rewrite Hc; cint; lia).
  specialize (Hwr ltac:(done)).
  set (buf1 := set_shm buf _).
  assert (RB buf1 q) as HRB.
  { exists {| head := {| write := write (head r); read := rd; count := zlen q |};
              mem := mem r |}, s'.
    split; cbn; try done; try (unfold sizeof_DltBufferHead; lia).
    intros ->. apply encodes_nil_inv in He' as ->. destruct Hring' as [_ ? _ _ Hp' _].
    cbn in Hp'. lia. }
  destruct (Z.eqb_spec (zlen q) 0) as [Hz|].
  - destruct q; [|simpl in Hz; lia].
    destruct (minimize_RB hp buf1 HRB) as (buf' & ret & -> & Hcf & HR'). bsimp. eauto.
  - by exists buf1.
Qed.

Lemma get_RB hp buf m q data maxs delete :
  RB buf (m :: q) ->
  ∃ buf', dlt_buffer_get hp buf data maxs delete =
            Some (buf', zlen m, if data && negb (maxs =? 0) then m else []) ∧
          same_config buf buf' ∧
          RB buf' (if delete then q else m :: q) ∧ (delete = false -> buf' = buf).
Proof.
  intros (r & s & HR). pose proof (used_size_RB _ _ _ _ HR ltac:(done)) as Hused.
  pose proof HR as [Hs Hring He Hc Hem Hwr Hsz Hmin Hst].
  pose proof Hring as [Hl Hr Hw Hf Hp _].
  unfold sizeof_DltBufferHead in *. pose proof (encodes_length _ _ He) as Hel.
  inversion He as [|pad ? ? s' Hpad Hm He']; subst.
  unfold dlt_buffer_get, sizeof_DltBufferBlockHead. rewrite Hs. cint.
  rewrite (i32_small (size buf)) in Hused by lia. rewrite Hused.
  cbn [length] in *. autorewrite with zlen in *. rewrite length_block_head in * by done.
  rewrite Hc. rewrite !ltb_false by lia. cbn [orb]. rewrite eqb_false by lia.
  destruct (read_block_ring (size buf) (mem r) (read (head r)) (write (head r))
              (block_head pad (zlen m)) (m ++ s') Hring) as (rd1 & Hrb & Hring1 & _ & Hrd1); [lia|].
  rewrite length_block_head in Hrb, Hrd1 by done. specialize (Hrd1 ltac:(lia)).
  change (Z.of_nat 12) with 12 in Hrb. rewrite Hrb. bsimp.
  destruct (block_head_fields pad (zlen m) Hpad) as (-> & -> & ->). bsimp.
  rewrite block_size_RB by lia. rewrite !bool_decide_true by done. cbn [negb].
  rewrite (i32_small (12 + _)) by lia. rewrite ltb_false by lia.
  destruct (read_block_ring (size buf) (mem r) rd1 (write (head r)) m s' Hring1)
    as (rd2 & Hrb2 & Hring2 & Hpos & Hrd2); [lia|]. specialize (Hrd2 ltac:(lia)).
  destruct (delete_message_RB hp buf m q r _ s' rd2 HR He' Hring2 Hrd2)
    as (buf' & Hdel & Hcf & HRB').
  assert (RB buf (m :: q)) as HRB by (by do 2 eexists).
  rewrite (u32_small (zlen m)) by lia. rewrite Hrb2. bsimp.
  destruct (data && negb (maxs =? 0)), delete; rewrite ?Hdel; bsimp;
    try (eexists; by split_and!).
  assert ((if u32 (rd1 + zlen m) <=? size buf then rd1 + zlen m
           else i32 (rd1 + zlen m - size buf)) = rd2) as ->.
  { pose proof (ring_r _ _ _ _ _ Hring1). pose proof (ring_r _ _ _ _ _ Hring2). cint.
    destruct (Z.leb_spec (rd1 + zlen m) (size buf)); cint; lia. }
  rewrite Hdel. bsimp. eexists. by split_and!.
Qed.

Lemma get_empty_RB hp buf data maxs delete :
  RB buf [] -> dlt_buffer_get hp buf data maxs delete = Some (buf, DLT_RETURN_ERROR, []).
Proof.
  intros (r & s & [Hs [Hl Hr Hw Hf Hp _] He Hc Hem Hwr Hsz Hmin Hst]).
  unfold sizeof_DltBufferHead in *. specialize (Hem eq_refl). cbn in Hc.
  unfold dlt_buffer_get. rewrite Hs. cint. rewrite Hc, !ltb_false by lia. cbn [orb].
  rewrite Z.eqb_refl, eqb_true by lia. done.
Qed.

(** ** Initialisation *)

(** A configuration that [dlt_buffer_init_dynamic] accepts. *)
Definition good_config (mins maxs step : Z) : Prop :=
  sizeof_DltBufferHead <= mins <= maxs ∧ 0 < step <= maxs ∧ maxs < 2147483648.

Lemma init_dynamic_RB hp buf mins maxs step m :
  good_config mins maxs step -> malloc hp mins = Some m ->
  ∃ buf', dlt_buffer_init_dynamic hp buf mins maxs step = Some (buf', DLT_RETURN_OK) ∧
          RB buf' [] ∧ min_size buf' = mins ∧ max_size buf' = maxs ∧ step_size buf' = step.
Proof.
  unfold good_config, sizeof_DltBufferHead. intros (Hm & Hst & Hmax) Hal.
  unfold dlt_buffer_init_dynamic, sizeof_DltBufferHead.
  rewrite !eqb_false, !ltb_false by lia. cbn [orb]. rewrite Hal.
  apply malloc_length in Hal. rewrite Z.max_r in Hal by lia.
  rewrite as_region_Some by lia. bsimp. cbn [mem]. cint.
  rewrite mzero_all by len. bsimp. eexists. split; [reflexivity|]. split_and!; try done.
  eexists _, []. split; [reflexivity|..]; cbn; try done; try constructor;
    try (unfold sizeof_DltBufferHead; lia); try len.
Qed.

(** ** The buffer as a labelled transition system *)

Inductive buffer_op := Push (d : bytes) | Pull | Copy | Remove.

(** One call of the API by a client whose destination is large enough. *)
Definition exec_op (hp : allocator) (pad : bytes) (buf : DltBuffer) (o : buffer_op)
  : option (DltBuffer * Z * bytes) :=
  match o with
  | Push d => '(buf', ret) ← dlt_buffer_push hp pad buf (Some d) (zlen d); Some (buf', ret, [])
  | Pull => dlt_buffer_pull hp buf true INT32_MAX
  | Copy => dlt_buffer_copy hp buf true INT32_MAX
  | Remove => dlt_buffer_remove hp buf
  end.

(** The abstract FIFO with a guaranteed capacity of [lo] bytes and a limit of
    [hi] bytes, block heads included: what an operation may return and the
    queue it leaves. *)
Inductive fifo_step (lo hi : Z) : list bytes -> buffer_op -> Z * bytes -> list bytes -> Prop :=
| fifo_push q d :
    stream_len (q ++ [d]) <= hi -> fifo_step lo hi q (Push d) (DLT_RETURN_OK, []) (q ++ [d])
| fifo_full q d :
    lo < stream_len (q ++ [d]) -> fifo_step lo hi q (Push d) (DLT_RETURN_ERROR, []) q
| fifo_pull m q : fifo_step lo hi (m :: q) Pull (zlen m, m) q
| fifo_copy m q : fifo_step lo hi (m :: q) Copy (zlen m, m) (m :: q)
| fifo_remove m q : fifo_step lo hi (m :: q) Remove (zlen m, []) q
| fifo_pull_empty : fifo_step lo hi [] Pull (DLT_RETURN_ERROR, []) []
| fifo_copy_empty : fifo_step lo hi [] Copy (DLT_RETURN_ERROR, []) []
| fifo_remove_empty : fifo_step lo hi [] Remove (DLT_RETURN_ERROR, []) [].

Inductive fifo_trace (lo hi : Z)
  : list bytes -> list (buffer_op * (Z * bytes)) -> list bytes -> Prop :=
| fifo_trace_nil q : fifo_trace lo hi q [] q
| fifo_trace_cons q o res q' t q'' :
    fifo_step lo hi q o res q' -> fifo_trace lo hi q' t q'' ->
    fifo_trace lo hi q ((o, res) :: t) q''.

(** A run of the code: every call comes with the heap and the stack padding it
    meets. *)
Fixpoint exec_ops (buf : DltBuffer) (os : list (allocator * bytes * buffer_op))
  : option (DltBuffer * list (buffer_op * (Z * bytes))) :=
  match os with
  | [] => Some (buf, [])
  | (hp, pad, o) :: os =>
      '(buf1, ret, out) ← exec_op hp pad buf o;
      '(buf2, t) ← exec_ops buf1 os;
      Some (buf2, (o, (ret, out)) :: t)
  end.

(** Calls whose padding is three bytes and whose messages have a size, with the block
    head, that is an [int]. *)
Definition call_ok (c : allocator * bytes * buffer_op) : Prop :=
  length c.1.2 = 3%nat ∧
  match c.2 with Push d => 12 + zlen d < 2147483648 | _ => True end.

(** The next call pushes a message for which the empty buffer would have to grow. *)
Definition outgrows (buf : DltBuffer) (q : list bytes) (os : list (allocator * bytes * buffer_op)) : Prop :=
  q = [] ∧ ∃ hp pad d os', os = (hp, pad, Push d) :: os' ∧ size buf < 12 + zlen d.

Lemma RB_stream_le buf q : RB buf q -> stream_len q <= max_size buf - sizeof_DltBufferHead.
Proof.
  intros (r & s & [Hs [Hl Hr Hw Hf Hp _] He Hc Hem Hwr Hsz Hmin Hst]).
  rewrite <-(encodes_stream_len _ _ He). lia.
Qed.

Lemma RB_min_le buf q :
  RB buf q -> min_size buf <= size buf + sizeof_DltBufferHead ∧
              size buf + sizeof_DltBufferHead <= max_size buf < 2147483648.
Proof. intros (r & s & HR). destruct HR. lia. Qed.

Lemma stream_len_snoc q d : stream_len (q ++ [d]) = stream_len q + 12 + zlen d.
Proof. rewrite stream_len_app. cbn. unfold sizeof_DltBufferBlockHead. lia. Qed.

Lemma exec_op_refines hp pad buf q o :
  RB buf q -> call_ok (hp, pad, o) -> (∀ d, o = Push d -> q <> [] ∨ 12 + zlen d <= size buf) ->
  ∃ buf' res q', exec_op hp pad buf o = Some (buf', res.1, res.2) ∧ RB buf' q' ∧
    same_config buf buf' ∧
    fifo_step (min_size buf - sizeof_DltBufferHead) (max_size buf - sizeof_DltBufferHead)
      q o res q'.
Proof.
  intros HR [Hpad Hd] Hroom. cbn in Hpad, Hd. pose proof (RB_min_le _ _ HR) as Hb.
  destruct o as [d| | |]; cbn [exec_op].
  - destruct (push3_RB hp pad buf q (Some d) (zlen d) d None 0 [] None 0 [])
      as (buf' & ret & Hpush & Hcf & Hres); auto with ringdb;
      [rewrite !app_nil_r; lia|rewrite !app_nil_r; by apply Hroom|].
    unfold dlt_buffer_push. rewrite Hpush. bsimp. rewrite !app_nil_r in Hres.
    destruct Hres as [(-> & HR' & _)|(-> & HR' & Hfull & Hfull2 & _)].
    + eexists buf', (DLT_RETURN_OK, []), _. split_and!; [done..|]. constructor.
      pose proof (RB_stream_le _ _ HR'). destruct Hcf as (_ & <- & _). lia.
    + eexists buf', (DLT_RETURN_ERROR, []), _. split_and!; [done..|]. constructor.
      rewrite stream_len_snoc. lia.
  - destruct q as [|m q]; unfold dlt_buffer_pull.
    + rewrite get_empty_RB by done. eexists buf, (DLT_RETURN_ERROR, []), _.
      split_and!; [done..|constructor].
    + destruct (get_RB hp buf m q true INT32_MAX true HR) as (buf' & -> & Hcf & HR' & _).
      eexists buf', (zlen m, m), _. split_and!; [done..|constructor].
  - destruct q as [|m q]; unfold dlt_buffer_copy.
    + rewrite get_empty_RB by done. eexists buf, (DLT_RETURN_ERROR, []), _.
      split_and!; [done..|constructor].
    + destruct (get_RB hp buf m q true INT32_MAX false HR) as (buf' & -> & Hcf & HR' & _).
      eexists buf', (zlen m, m), _. split_and!; [done..|constructor].
  - destruct q as [|m q]; unfold dlt_buffer_remove.
    + rewrite get_empty_RB by done. eexists buf, (DLT_RETURN_ERROR, []), _.
      split_and!; [done..|constructor].
    + destruct (get_RB hp buf m q false 0 true HR) as (buf' & -> & Hcf & HR' & _).
      eexists buf', (zlen m, []), _. split_and!; [done..|constructor].
Qed.

Lemma exec_ops_refines os buf q :
  RB buf q -> Forall call_ok os ->
  ∃ done rest buf' t q', os = done ++ rest ∧ exec_ops buf done = Some (buf', t) ∧ RB buf' q' ∧
    fifo_trace (min_size buf - sizeof_DltBufferHead) (max_size buf - sizeof_DltBufferHead) q t q' ∧
    (rest = [] ∨ outgrows buf' q' rest) ∧ same_config buf buf'.
Proof.
  revert buf q. induction os as [|[[hp pad] o] os IH]; intros buf q HR Hos.
  { exists [], [], buf, [], q. split_and!; [done..|constructor|by left|done]. }
  destruct (decide (q = [] ∧ (if o is Push d then size buf <? 12 + zlen d else false) = true)) as [[-> Hbig]|Hfit].
  { exists [], ((hp, pad, o) :: os), buf, [], []. split_and!; [done..|constructor| |done]. right. split; [done|].
    destruct o as [d| | |]; [|done..]. exists hp, pad, d, os. split; [done|lia]. }
  inversion_clear Hos as [|? ? Ho Hos'].
  destruct (exec_op_refines hp pad buf q o HR Ho) as (b1 & res & q1 & Ex & HR1 & Hcf & Hst).
  { intros d ->. destruct (decide (q = [])); [right|by left].
    destruct (Z.ltb_spec (size buf) (12 + zlen d)); [by destruct Hfit|done]. }
  destruct Hcf as (H1 & H2 & H3). destruct (IH b1 q1 HR1 Hos') as (dn & rest & b2 & t & q2 & -> & Er & HR2 & Htr & Hend & (H4 & H5 & H6)).
  rewrite H1, H2 in Htr. destruct res as [ret out].
  exists ((hp, pad, o) :: dn), rest. do 3 eexists. split; [done|]. cbn [exec_ops]. rewrite Ex. bsimp. rewrite Er. bsimp.
  split_and!; [done..|by econstructor|done|]. unfold same_config. split_and!; congruence.
Qed.

(** ** Robustness: reading a region whose content is arbitrary *)

(** [dlt_buffer_read_block] stays in bounds from any position in range. *)
Lemma read_block_safe bsize m r sz :
  zlen m = bsize -> bsize < 2147483648 -> 0 <= r <= bsize -> 0 <= sz <= bsize ->
  ∃ d r', dlt_buffer_read_block bsize m r sz = Some (d, r') ∧ zlen d = sz ∧ 0 <= r' <= bsize.
Proof.
  intros Hl Hb Hr Hsz. unfold dlt_buffer_read_block. cint.
  destruct (Z.leb_spec (r + sz) bsize).
  - rewrite mread_Some by lia. bsimp. do 2 eexists. split; [done|]. cint. len.
  - rewrite leb_true by lia. rewrite (mread_Some m r) by lia. bsimp.
    assert (u32 (u32 (sz - bsize) + r) = sz - bsize + r) as ->.
    { unfold wrapu. rewrite Zplus_mod_idemp_l. rewrite Z.mod_small; lia. }
    rewrite mread_Some by lia. bsimp. do 2 eexists. split; [done|].
    rewrite wraps_wrapu by lia. cint. len.
Qed.

Lemma reset_safe buf r :
  shm buf = Some r -> zlen (mem r) = size buf -> is_Some (reset_error buf).
Proof.
  intros Hs Hl. unfold reset_error, dlt_buffer_reset. rewrite Hs. bsimp.
  rewrite mzero_all by done. bsimp. eauto.
Qed.

Lemma delete_message_safe hp buf r rd :
  shm buf = Some r -> 12 <= min_size buf < 2147483648 -> is_Some (delete_message hp buf rd).
Proof.
  intros Hs Hmin. unfold delete_message. rewrite Hs. bsimp.
  destruct (_ =? 0); [|eauto].
  unfold dlt_buffer_minimize_size, sizeof_DltBufferHead. cbn [size min_size set_shm].
  destruct (_ =? _); [bsimp; eauto|].
  destruct (malloc hp (min_size buf)) as [np|] eqn:Hm; [|bsimp; eauto].
  apply malloc_length in Hm. rewrite as_region_Some by lia. bsimp. cbn [mem]. cint.
  rewrite mzero_all by len. bsimp. eauto.
Qed.

(** The message size stored in the block head at position [rd]. *)
Definition block_size_at (bsize : Z) (m : bytes) (rd : Z) : option Z :=
  '(hd, _) ← dlt_buffer_read_block bsize m rd sizeof_DltBufferBlockHead;
  szb ← mread hd 8 4;
  Some (i32 (le_Z szb)).

(** ** Theorems *)

(** C1: push, pull, copy and remove calls on a freshly initialised dynamic buffer
    run inside its memory and return exactly what a FIFO queue would return: a push
    is refused only when the queue with the message exceeds the guaranteed minimal
    size, and accepted messages never exceed the maximal size.  It holds whatever
    the heap does at each call, for every sequence of calls, with messages of any
    size, up to the first push of a message into the empty buffer that is larger
    than the buffer is then: such a message is accepted but can be lost
    ([oversized_first_message_is_lost]). *)
Theorem ring_buffer_refines_fifo (hp : allocator) (buf0 : DltBuffer) (mins maxs step : Z)
    (m : bytes) (os : list (allocator * bytes * buffer_op)) :
  good_config mins maxs step -> malloc hp mins = Some m -> Forall call_ok os ->
  ∃ buf done rest buf' t q, os = done ++ rest ∧
    dlt_buffer_init_dynamic hp buf0 mins maxs step = Some (buf, DLT_RETURN_OK) ∧
    exec_ops buf done = Some (buf', t) ∧ RB buf' q ∧
    fifo_trace (mins - sizeof_DltBufferHead) (maxs - sizeof_DltBufferHead) [] t q ∧
    (rest = [] ∨ outgrows buf' q rest) ∧
    mins - sizeof_DltBufferHead <= size buf'.
Proof.
  intros Hc Hm Hos.
  destruct (init_dynamic_RB hp buf0 mins maxs step m Hc Hm) as (buf & Hi & HR & <- & <- & _).
  destruct (exec_ops_refines os buf [] HR Hos) as (dn & rest & buf' & t & q & -> & Ex & HR' & Ht & Hend & (Hmin & _)).
  exists buf, dn, rest, buf', t, q. pose proof (RB_min_le _ _ HR'). split_and!; try done. rewrite <-Hmin. lia.
Qed.

Lemma ring_buffer_refines_fifo_witness :
  let os := [(heap_filled 1, [9; 9; 9], Push [1; 2; 3]); (heap_empty, [0; 0; 0], Push [4]);
             (heap_filled 7, [0; 0; 0], Push (replicate 60 65));
             (heap_filled 7, [0; 0; 0], Pull); (heap_filled 7, [0; 0; 0], Copy);
             (heap_filled 7, [0; 0; 0], Remove)] in
  ∃ buf done rest buf' t q, os = done ++ rest ∧
    dlt_buffer_init_dynamic (heap_filled 170)
      {| shm := None; size := 0; min_size := 0; max_size := 0; step_size := 0 |} 50 200 50
      = Some (buf, DLT_RETURN_OK) ∧
    exec_ops buf done = Some (buf', t) ∧ RB buf' q ∧
    fifo_trace (50 - sizeof_DltBufferHead) (200 - sizeof_DltBufferHead) [] t q ∧
    (rest = [] ∨ outgrows buf' q rest) ∧ 50 - sizeof_DltBufferHead <= size buf'.
Proof.
  apply (ring_buffer_refines_fifo _ _ 50 200 50 (replicate 50 170)).
  - unfold good_config, sizeof_DltBufferHead. lia.
  - reflexivity.
  - repeat constructor; cbn; unfold sizeof_DltBufferHead; lia.
Defined.

(** [dlt_buffer_push3] on a buffer that represents the queue [q] appends
    the concatenation of its three parts behind [q], or refuses it with
    [DLT_RETURN_ERROR] and leaves [q]; it refuses only when the message does
    not fit and the buffer can take no further step (no step size, maximal size
    reached, or no memory). *)
Theorem push3_appends (hp : allocator) (pad : bytes) (buf : DltBuffer) (q : list bytes)
    (p1 : option bytes) (s1 : Z) (d1 : bytes) (p2 : option bytes) (s2 : Z) (d2 : bytes)
    (p3 : option bytes) (s3 : Z) (d3 : bytes) :
  RB buf q -> length pad = 3%nat ->
  part_ok p1 s1 d1 -> part_ok p2 s2 d2 -> part_ok p3 s3 d3 ->
  12 + zlen (d1 ++ d2 ++ d3) < 2147483648 ->
  q <> [] ∨ 12 + zlen (d1 ++ d2 ++ d3) <= size buf ->
  ∃ buf' ret,
    dlt_buffer_push3 hp pad buf p1 s1 p2 s2 p3 s3 = Some (buf', ret) ∧
    same_config buf buf' ∧
    ((ret = DLT_RETURN_OK ∧ RB buf' (q ++ [d1 ++ d2 ++ d3]) ∧
       (stream_len q + 12 + zlen (d1 ++ d2 ++ d3) <= size buf -> size buf' = size buf)) ∨
     (ret = DLT_RETURN_ERROR ∧ RB buf' q ∧
       size buf' < stream_len q + 12 + zlen (d1 ++ d2 ++ d3) ∧
       size buf < stream_len q + 12 + zlen (d1 ++ d2 ++ d3) ∧ cannot_grow hp buf')).
Proof. apply push3_RB. Qed.

(** A buffer of 38 bytes that holds the message 1 2 3, split over its end. *)
Definition wrapped_buffer : DltBuffer :=
  {| shm := Some {| head := {| write := 5; read := 28; count := 1 |};
                    mem := [0; 0; 1; 2; 3] ++ replicate 23 0
                             ++ [83; 72; 77; 0; 2; 7; 7; 7; 3; 0] |};
     size := 38; min_size := 50; max_size := 100; step_size := 20 |}.

Lemma wrapped_buffer_RB : RB wrapped_buffer [[1; 2; 3]].
Proof.
  exists {| head := {| write := 5; read := 28; count := 1 |};
            mem := [0; 0; 1; 2; 3] ++ replicate 23 0
                     ++ [83; 72; 77; 0; 2; 7; 7; 7; 3; 0] |},
    (block_head [7; 7; 7] 3 ++ [1; 2; 3] ++ []).
  split; try done; try (cbn; lia).
  - split; try (cbn; lia). intros i Hi. change (zlen _) with 15 in Hi.
    assert (i ∈ seqZ 0 15) as Hin by (apply elem_of_seqZ; lia).
    cbn in Hin. repeat (apply elem_of_cons in Hin as [->|Hin]; [reflexivity|]).
    by apply elem_of_nil in Hin.
  - by repeat constructor.
Qed.

Lemma push3_appends_witness :
  ∃ buf' ret,
    dlt_buffer_push3 heap_empty [1; 1; 1] wrapped_buffer (Some [4; 5]) 2 (Some [6]) 1 None 0
      = Some (buf', ret) ∧
    same_config wrapped_buffer buf' ∧
    ((ret = DLT_RETURN_OK ∧ RB buf' ([[1; 2; 3]] ++ [[4; 5] ++ [6] ++ []]) ∧
       (stream_len [[1; 2; 3]] + 12 + zlen ([4; 5] ++ [6] ++ []) <= 38 -> size buf' = 38)) ∨
     (ret = DLT_RETURN_ERROR ∧ RB buf' [[1; 2; 3]] ∧
       size buf' < stream_len [[1; 2; 3]] + 12 + zlen ([4; 5] ++ [6] ++ []) ∧
       38 < stream_len [[1; 2; 3]] + 12 + zlen ([4; 5] ++ [6] ++ []) ∧
       cannot_grow heap_empty buf')).
Proof.
  apply (push3_appends heap_empty [1; 1; 1] wrapped_buffer [[1; 2; 3]]
           (Some [4; 5]) 2 [4; 5] (Some [6]) 1 [6] None 0 []).
  - apply wrapped_buffer_RB.
  - reflexivity.
  - apply part_ok_some.
  - apply (part_ok_some [6]).
  - apply part_ok_none.
  - cbn. lia.
  - left. discriminate.
Defined.

(** [dlt_buffer_get] on a non-empty buffer returns the size of the oldest
    message and copies exactly its bytes (nothing when there is no
    destination); with [delete] the queue loses that message, without it the
    buffer does not change. *)
Theorem get_returns_oldest (hp : allocator) (buf : DltBuffer) (m : bytes) (q : list bytes)
    (data : bool) (maxs : Z) (delete : bool) :
  RB buf (m :: q) ->
  ∃ buf', dlt_buffer_get hp buf data maxs delete =
            Some (buf', zlen m, if data && negb (maxs =? 0) then m else []) ∧
          same_config buf buf' ∧
          RB buf' (if delete then q else m :: q) ∧ (delete = false -> buf' = buf).
Proof. apply get_RB. Qed.

Lemma get_returns_oldest_witness :
  ∃ buf', dlt_buffer_get (heap_filled 0) wrapped_buffer true 100 true =
            Some (buf', 3, [1; 2; 3]) ∧
          same_config wrapped_buffer buf' ∧ RB buf' [] ∧ (true = false -> buf' = wrapped_buffer).
Proof.
  apply (get_returns_oldest (heap_filled 0) wrapped_buffer [1; 2; 3] [] true 100 true).
  apply wrapped_buffer_RB.
Defined.

(** the bookkeeping queries are exact: [dlt_buffer_get_message_count] is
    the number of queued messages and [dlt_buffer_get_used_size] the bytes they
    take with their block heads. *)
Theorem queries_exact (buf : DltBuffer) (q : list bytes) :
  RB buf q ->
  dlt_buffer_get_message_count buf = zlen q ∧ dlt_buffer_get_used_size buf = stream_len q.
Proof.
  intros (r & s & HR). pose proof (rb_shm _ _ _ _ HR) as Hs.
  pose proof (rb_count _ _ _ _ HR) as Hc.
  unfold dlt_buffer_get_message_count, dlt_buffer_get_used_size. rewrite Hs, Hc.
  split; [done|]. destruct q as [|m q]; [done|].
  rewrite eqb_false by (simpl; lia). rewrite (used_size_RB _ _ _ _ HR) by done.
  apply encodes_stream_len, (rb_enc _ _ _ _ HR).
Qed.

Lemma queries_exact_witness :
  dlt_buffer_get_message_count wrapped_buffer = 1 ∧ dlt_buffer_get_used_size wrapped_buffer = 15.
Proof. apply (queries_exact wrapped_buffer [[1; 2; 3]]). apply wrapped_buffer_RB. Defined.

(** robustness against a corrupted region: whatever the three ints of the
    head and the bytes of the ring are, [dlt_buffer_get] stays in bounds, as
    long as the size stored in the block head at the read position is neither
    negative nor within 12 of [INT32_MAX] (the checks of the code do not reject
    those). *)
Theorem get_in_bounds (hp : allocator) (buf : DltBuffer) (r : region)
    (data : bool) (maxs : Z) (delete : bool) :
  shm buf = Some r -> zlen (mem r) = size buf -> size buf < 2147483648 ->
  -2147483648 <= write (head r) < 2147483648 -> -2147483648 <= read (head r) < 2147483648 ->
  12 <= min_size buf < 2147483648 ->
  (∀ hs, block_size_at (size buf) (mem r) (read (head r)) = Some hs ->
         0 <= hs <= INT32_MAX - sizeof_DltBufferBlockHead) ->
  is_Some (dlt_buffer_get hp buf data maxs delete).
Proof.
  intros Hs Hl Hsz Hw Hrd Hmin Hhs. pose proof (reset_safe _ _ Hs Hl) as Hreset.
  unfold dlt_buffer_get. rewrite Hs. unfold block_size_at in Hhs.
  destruct (_ || _ || _) eqn:Erange; [done|]. zb.
  destruct (count (head r) =? 0); [destruct (negb _); eauto|].
  assert (∀ z, -2147483648 <= z < 2147483648 -> u32 z <= size buf -> 0 <= z <= size buf) as Hpos.
  { intros z Hz Hu. unfold wrapu in Hu. change (2 ^ 32) with 4294967296 in Hu.
    destruct (decide (0 <= z)); [rewrite Z.mod_small in Hu; lia|].
    rewrite <-(Z_mod_plus_full z 1), Z.mod_small in Hu; lia. }
  pose proof (Hpos _ Hw ltac:(lia)). pose proof (Hpos _ Hrd ltac:(lia)).
  set (used := if read (head r) <? write (head r) then _ else _).
  assert (used <= size buf) as Hu.
  { subst used. cint. destruct (Z.ltb_spec (read (head r)) (write (head r))); lia. }
  unfold sizeof_DltBufferBlockHead in *.
  destruct (Z.ltb_spec used 12); [done|].
  destruct (read_block_safe (size buf) (mem r) (read (head r)) 12)
    as (hd & rd1 & Hrb & Hhd & Hrd1); [lia..|].
  rewrite Hrb in *. revert Hhs. bsimp. rewrite !(mread_Some hd) by lia. bsimp.
  intros Hhs. specialize (Hhs _ eq_refl).
  set (hs := i32 (le_Z _)) in *.
  destruct (negb _); [done|]. destruct (negb _); [done|].
  destruct (Z.ltb_spec used (i32 (12 + hs))) as [|Hfit]; [done|].
  unfold INT32_MAX in Hhs. rewrite i32_small in Hfit by lia.
  assert (∀ rd2 (out : bytes), is_Some (buf' ← delete_message hp buf rd2; Some (buf', hs, out))) as Hd.
  { intros rd2 out. by destruct (delete_message_safe hp buf r rd2 Hs Hmin) as [b ->]; bsimp; eauto. }
  destruct (data && negb (maxs =? 0)); [|destruct delete; eauto].
  rewrite u32_small by lia.
  destruct (read_block_safe (size buf) (mem r) rd1 hs) as (o & rd2 & -> & _ & _); [lia..|].
  bsimp. destruct delete; eauto.
Qed.

Lemma get_in_bounds_witness :
  is_Some (dlt_buffer_get heap_empty
             {| shm := Some {| head := {| write := 30; read := 4; count := 3 |};
                               mem := replicate 38 77 |};
                size := 38; min_size := 50; max_size := 100; step_size := 20 |} true 10 true).
Proof.
  apply (get_in_bounds heap_empty _ {| head := {| write := 30; read := 4; count := 3 |};
                                       mem := replicate 38 77 |}); try reflexivity; try (cbn; lia).
  intros hs Hhs. vm_compute in Hhs. injection Hhs as <-.
  unfold INT32_MAX, sizeof_DltBufferBlockHead. lia.
Defined.

(** the first message of an empty buffer is accepted and then lost when it
    forces the buffer to grow: [dlt_buffer_increase_size] treats the empty
    buffer ([read = write], [count = 0]) as a full one and leaves [write] at the
    old end while [read] is 0, so the next [dlt_buffer_pull] finds no block
    head, resets the buffer and reports an error. *)
Theorem oversized_first_message_is_lost (hp := heap_filled 0)
    (buf0 := {| shm := None; size := 0; min_size := 0; max_size := 0; step_size := 0 |}) :
  ('(b1, r1) ← dlt_buffer_init_dynamic hp buf0 50 200 50;
   '(b2, r2) ← dlt_buffer_push hp [0; 0; 0] b1 (Some (replicate 60 65)) 60;
   '(b3, r3, out) ← dlt_buffer_pull hp b2 true INT32_MAX;
   Some (r1, r2, dlt_buffer_get_message_count b2, r3, out, dlt_buffer_get_message_count b3))
  = Some (DLT_RETURN_OK, DLT_RETURN_OK, 1, DLT_RETURN_ERROR, [], 0).
Proof. vm_compute. reflexivity. Qed.

(** [dlt_buffer_init_dynamic] writes the head before it checks that the
    region can hold one: with a minimal size below the size of the head the
    writes are out of the allocated memory. *)
Theorem init_dynamic_small_out_of_bounds (hp : allocator) (buf : DltBuffer)
    (mins maxs step : Z) (m : bytes) :
  0 < mins < sizeof_DltBufferHead -> mins <= maxs -> 0 < step <= maxs ->
  malloc hp mins = Some m ->
  dlt_buffer_init_dynamic hp buf mins maxs step = None.
Proof.
  unfold sizeof_DltBufferHead. intros Hm Hmm Hst Hal. unfold dlt_buffer_init_dynamic.
  rewrite !eqb_false, !ltb_false by lia. cbn [orb]. rewrite Hal.
  apply malloc_length in Hal. unfold as_region, sizeof_DltBufferHead.
  rewrite (ltb_true (zlen m)) by lia. reflexivity.
Qed.

Lemma init_dynamic_small_witness :
  dlt_buffer_init_dynamic (heap_filled 0) wrapped_buffer 8 100 10 = None.
Proof.
  apply (init_dynamic_small_out_of_bounds (heap_filled 0) wrapped_buffer 8 100 10 (replicate 8 0));
    unfold sizeof_DltBufferHead; try lia; reflexivity.
Defined.

End RingBufferSpec.
