(* ===== verification/TraceLoadSpec.v ===== *)
(** * Trace load control is a sliding window

    [TL H s]: the statistics [s] represent the history [H], which gives the
    bytes recorded in every absolute one-second slot.  The theorems relate the
    decision of [dlt_check_trace_load] to the sum of the last 60 slots of that
    history. *)

From stdpp Require Import base list list_numbers numbers option.
From Stdlib Require Import ZArith Lia Bool.
From S2P Require Import Prelude TraceLoad.
Import TraceLoad.

Local Open Scope Z_scope.

Module TraceLoadSpec.

(** ** The window as a function of the history *)

(** The absolute slot that index [i] of the ring stands for when the current
    absolute slot is [a]: the one of the last 60 that is [i] modulo 60. *)
Definition slot_abs (a i : Z) : Z := a - (a - i) mod 60.

(** The bytes of the last 60 slots. *)
Definition window_sum (H : Z -> Z) (a : Z) : Z := sumZ ((λ k, H (a - k)) <$> seqZ 0 60).

Record W (H : Z -> Z) (a : Z) (w : list Z) (total : Z) : Prop := {
  W_len : length w = 60%nat;
  W_slots : ∀ i, 0 <= i < 60 -> w !! Z.to_nat i = Some (H (slot_abs a i));
  W_total : total = sumZ w
}.

Lemma W_list H a w total :
  W H a w total -> w = (λ i, H (slot_abs a i)) <$> seqZ 0 60.
Proof.
  intros [Hl Hw _]. apply list_eq. intros k. destruct (decide (k < 60)%nat).
  - pose proof (Hw (Z.of_nat k) ltac:(lia)) as E. rewrite Nat2Z.id in E. rewrite E.
    rewrite list_lookup_fmap, lookup_seqZ_lt by lia. simpl. done.
  - rewrite !lookup_ge_None_2; [done| |lia]. rewrite length_fmap, length_seqZ. lia.
Qed.

(** The ring holds each of the last 60 slots exactly once. *)
Lemma slot_abs_permutation a :
  slot_abs a <$> seqZ 0 60 ≡ₚ (λ k, a - k) <$> seqZ 0 60.
Proof.
  apply NoDup_Permutation.
  - apply NoDup_fmap_2_strong; [|apply NoDup_seqZ].
    intros x y Hx Hy. apply elem_of_seqZ in Hx, Hy. unfold slot_abs. zdiv.
  - apply NoDup_fmap_2_strong; [|apply NoDup_seqZ]. intros x y _ _. lia.
  - intros b. rewrite !list_elem_of_fmap. split.
    + intros (i & -> & Hi). apply elem_of_seqZ in Hi.
      exists ((a - i) mod 60). split; [done|]. apply elem_of_seqZ. zdiv.
    + intros (k & -> & Hk). apply elem_of_seqZ in Hk.
      exists ((a - k) mod 60). split; [unfold slot_abs; zdiv|]. apply elem_of_seqZ. zdiv.
Qed.

Lemma W_sum H a w total : W H a w total -> total = window_sum H a.
Proof.
  intros HW. rewrite (W_total _ _ _ _ HW), (W_list _ _ _ _ HW). unfold window_sum.
  apply sumZ_Permutation.
  replace ((λ i, H (slot_abs a i)) <$> seqZ 0 60) with (H <$> (slot_abs a <$> seqZ 0 60))
    by (rewrite <-list_fmap_compose; done).
  replace ((λ k, H (a - k)) <$> seqZ 0 60) with (H <$> ((λ k, a - k) <$> seqZ 0 60))
    by (rewrite <-list_fmap_compose; done).
  by rewrite slot_abs_permutation.
Qed.

Lemma W_nonneg H a w total :
  W H a w total -> (∀ b, 0 <= H b) -> Forall (λ z, 0 <= z) w.
Proof.
  intros HW HH. rewrite (W_list _ _ _ _ HW). apply Forall_fmap, Forall_true. intros; apply HH.
Qed.

Lemma W_lookup H a w total i :
  W H a w total -> 0 <= i < 60 ->
  w !! Z.to_nat i = Some (H (slot_abs a i)).
Proof. intros []; auto. Qed.

(** Writing one slot of the ring, seen on the history. *)
Lemma W_insert H H' a a' w total i x y :
  W H a w total -> 0 <= i < 60 -> w !! Z.to_nat i = Some x ->
  y = H' (slot_abs a' i) ->
  (∀ j, 0 <= j < 60 -> j <> i -> H' (slot_abs a' j) = H (slot_abs a j)) ->
  W H' a' (<[Z.to_nat i := y]> w) (total - x + y).
Proof.
  intros [Hl Hw Ht] Hi Hx -> Hj. split.
  - by rewrite length_insert.
  - intros j Hj'. destruct (decide (i = j)) as [->|].
    + by rewrite list_lookup_insert_eq by lia.
    + rewrite list_lookup_insert_ne by lia. rewrite Hw by done. by rewrite Hj by done.
  - by rewrite (sumZ_insert _ _ _ _ Hx), Ht.
Qed.

(** ** Advancing the window *)

(** One step of [clear_slots] moves the window by one absolute slot. *)
Lemma W_advance H a w total x :
  W H a w total -> H (a + 1) = 0 -> w !! Z.to_nat ((a + 1) mod 60) = Some x ->
  W H (a + 1) (<[Z.to_nat ((a + 1) mod 60) := 0]> w) (total - x).
Proof.
  intros HW H0 Hx. replace (total - x) with (total - x + 0) by lia.
  eapply W_insert; [done|zdiv|done| |].
  - rewrite <-H0. f_equal. unfold slot_abs. zdiv.
  - intros j Hj Hne. f_equal. unfold slot_abs. zdiv.
Qed.

Lemma clear_slots_advance H fuel a n w total :
  W H a w total -> (∀ b, 0 <= H b) -> (∀ b, a < b -> H b = 0) ->
  total < 18446744073709551616 -> 0 <= a -> a + Z.of_nat n < 4294967295 ->
  (n < 60)%nat -> (n < fuel)%nat ->
  ∃ w' total', clear_slots fuel (a mod 60) ((a + Z.of_nat n) mod 60) w total = Some (w', total') ∧
               W H (a + Z.of_nat n) w' total'.
Proof.
  revert a n w total. induction fuel as [|fuel IH]; intros a n w total HW HH H0 Ht Ha Hb Hn Hf;
    [lia|].
  cbn [clear_slots]. destruct n as [|n].
  - rewrite Z.add_0_r, Z.eqb_refl. eauto.
  - unfold DLT_TRACE_LOAD_WINDOW_SIZE.
    assert (a mod 60 <> (a + Z.of_nat (S n)) mod 60) as Hne by zdiv.
    rewrite eqb_false by done. rewrite (u32_small (_ + 1)) by zdiv.
    replace ((a mod 60 + 1) mod 60) with ((a + 1) mod 60) by zdiv.
    pose proof (W_lookup _ _ _ _ ((a + 1) mod 60) HW ltac:(zdiv)) as Hx.
    rewrite Hx. bsimp.
    pose proof (sumZ_lookup_le _ _ _ (W_nonneg _ _ _ _ HW HH) Hx) as Hle.
    rewrite <-(W_total _ _ _ _ HW) in Hle. cint.
    destruct (IH (a + 1) n (<[Z.to_nat ((a + 1) mod 60) := 0]> w)
                (total - H (slot_abs a ((a + 1) mod 60))))
      as (w' & total' & Heq & HW'); try lia; [|done|intros; apply H0; lia|].
    { apply W_advance; [done|apply H0; lia|done]. }
    replace (a + 1 + Z.of_nat n) with (a + Z.of_nat (S n)) in * by lia. eauto.
Qed.

(** A gap of at least 60 slots empties the window. *)
Lemma W_far H a a' n : (∀ b, a < b -> H b = 0) -> a + 60 <= a' -> n = 60%nat ->
  W H a' (replicate n 0) 0.
Proof.
  intros H0 Hge ->. split; [done| |done].
  intros i Hi. rewrite lookup_replicate_2 by lia. f_equal. symmetry. apply H0.
  unfold slot_abs. zdiv.
Qed.

(** ** The invariant of the statistics *)

Record TL (H : Z -> Z) (s : DltTraceLoadStat) : Prop := {
  TL_window : W H (last_abs_slot s) (window s) (total_bytes_of_window s);
  TL_slot : last_slot s = last_abs_slot s mod 60;
  TL_abs : 0 <= last_abs_slot s < 429497;
  TL_hist : ∀ b, 0 <= H b;
  TL_future : ∀ b, last_abs_slot s < b -> H b = 0
}.

Lemma set_window_id s :
  set_window s (window s) (total_bytes_of_window s) (slot_left_soft_limit_warn s)
    (slot_left_hard_limit_warn s) = s.
Proof. by destruct s. Qed.

Lemma cleanup_window_advance H s a :
  TL H s -> total_bytes_of_window s < 18446744073709551616 ->
  last_abs_slot s <= a < 429497 ->
  ∃ w total sl hl sw,
    dlt_user_cleanup_window (set_curr s a (a mod 60)) =
      Some (set_window (set_curr s a (a mod 60)) w total sl hl, sw) ∧
    W H a w total.
Proof.
  intros [HW Hs Ha HH H0] Ht Hge. unfold dlt_user_cleanup_window, elapsed_slots.
  cbn [curr_abs_slot last_abs_slot set_curr]. rewrite ltb_false by lia. cint.
  destruct (Z.eqb_spec (a - last_abs_slot s) 0).
  - assert (a = last_abs_slot s) as -> by lia.
    do 5 eexists. split; [|done]. by rewrite <-set_window_id at 1.
  - unfold DLT_TRACE_LOAD_WINDOW_SIZE. cbn [window set_curr].
    destruct (Z.leb_spec 60 (a - last_abs_slot s)).
    + do 5 eexists. split; [done|]. eapply W_far; [done|lia|]. apply HW.
    + cbn [last_slot curr_slot window total_bytes_of_window set_curr]. rewrite Hs.
      destruct (clear_slots_advance H clear_fuel (last_abs_slot s)
                  (Z.to_nat (a - last_abs_slot s)) (window s) (total_bytes_of_window s))
        as (w' & total' & Heq & HW'); try done; try (unfold clear_fuel; lia).
      rewrite Z2Nat.id in Heq, HW' by lia.
      replace (last_abs_slot s + (a - last_abs_slot s)) with a in * by lia.
      rewrite Heq. bsimp. by do 5 eexists.
Qed.

(** ** The warnings leave the window alone *)

Definition same_window (s s' : DltTraceLoadStat) : Prop :=
  window s' = window s ∧ total_bytes_of_window s' = total_bytes_of_window s ∧
  curr_slot s' = curr_slot s ∧ curr_abs_slot s' = curr_abs_slot s ∧
  last_slot s' = last_slot s ∧ last_abs_slot s' = last_abs_slot s.

(** A callback that sends at most [B] bytes per warning. *)
Definition log_bounded (log : warning -> Z) (B : Z) : Prop := ∀ w, log w <= B.

Section Frames.
Context (log : warning -> Z) (B : Z) (Hlog : log_bounded log B) (HB : 0 <= B).

Lemma set_stat_id t : set_stat t (tl_stat t) = t.
Proof. by destruct t. Qed.

Lemma send_warning_bounded w : 0 <= (send_warning log w).1 <= B.
Proof.
  unfold send_warning, DLT_RETURN_OK. destruct (Z.ltb_spec (log w) 0); simpl; [lia|].
  specialize (Hlog w). lia.
Qed.

Lemma soft_warning_frame t :
  ∃ s' n em, dlt_output_soft_limit_over_warning log t = (set_stat t s', n, em) ∧
             same_window (tl_stat t) s' ∧ 0 <= n <= B.
Proof.
  unfold dlt_output_soft_limit_over_warning.
  destruct (_ || _); [eexists (tl_stat t), 0, []; by rewrite set_stat_id|].
  destruct (_ <=? _); [eexists (tl_stat t), 0, []; by rewrite set_stat_id|].
  pose proof (send_warning_bounded
    (SoftLimitExceeded (apid t) (opt_ctid t) (soft_limit t) (curr_trace_load (tl_stat t)))).
  destruct (send_warning log _) as [n em].
  exists (clear_soft (tl_stat t)), n, em. unfold same_window.
  simpl in *. split_and!; try done; lia.
Qed.

Lemma hard_warning_frame t :
  ∃ s' n em, dlt_output_hard_limit_warning log t = (set_stat t s', n, em) ∧
             same_window (tl_stat t) s' ∧ 0 <= n <= B.
Proof.
  unfold dlt_output_hard_limit_warning.
  destruct (_ || _); [eexists (tl_stat t), 0, []; by rewrite set_stat_id|].
  destruct (_ <=? _); [eexists (tl_stat t), 0, []; by rewrite set_stat_id|].
  pose proof (send_warning_bounded
    (HardLimitExceeded (apid t) (opt_ctid t) (hard_limit t) (curr_trace_load (tl_stat t))
       (hard_limit_over_counter (tl_stat t)))).
  destruct (send_warning log _) as [n em].
  exists (clear_hard (tl_stat t)), n, em. unfold same_window.
  simpl in *. split_and!; try done; lia.
Qed.

(** Switching the slot advances the window to the slot of the timestamp. *)
Lemma switch_slot_spec H t ts :
  TL H (tl_stat t) -> 2 * B < 2147483648 ->
  total_bytes_of_window (tl_stat t) < 18446744073709551616 ->
  0 <= ts < 4294967296 -> last_abs_slot (tl_stat t) <= ts / 10000 ->
  ∃ s' sent em,
    dlt_switch_slot_if_needed log t ts = Some (set_stat t s', sent, em) ∧
    0 <= sent <= 2 * B ∧
    W H (ts / 10000) (window s') (total_bytes_of_window s') ∧
    curr_slot s' = (ts / 10000) mod 60 ∧ curr_abs_slot s' = ts / 10000.
Proof.
  intros HTL HB2 Htot Hts Hlast.
  unfold dlt_switch_slot_if_needed, DLT_TRACE_LOAD_WINDOW_RESOLUTION, DLT_TRACE_LOAD_WINDOW_SIZE.
  cbn [tl_stat set_stat].
  destruct (cleanup_window_advance H (tl_stat t) (ts / 10000))
    as (w & total & sl & hl & sw & -> & HW); [done|done|split; [done|zdiv]|].
  bsimp. set (s1 := set_window _ _ _ _ _).
  assert (window s1 = w ∧ total_bytes_of_window s1 = total) as [Ew Et] by done.
  destruct sw; cbn [negb].
  2: { exists s1, 0, []. split; [done|]. rewrite Ew, Et. by split_and!; [lia|lia|..]. }
  destruct (soft_warning_frame (set_stat (set_stat t (set_curr (tl_stat t) (ts / 10000)
              ((ts / 10000) mod 60))) s1)) as (s2 & n1 & em1 & -> & Hf1 & Hn1).
  destruct (hard_warning_frame (set_stat (set_stat (set_stat t (set_curr (tl_stat t) (ts / 10000)
              ((ts / 10000) mod 60))) s1) s2)) as (s3 & n2 & em2 & -> & Hf2 & Hn2).
  destruct Hf1 as (A1 & A2 & A3 & A4 & _), Hf2 as (B1 & B2 & B3 & B4 & _).
  cbn [tl_stat set_stat] in *.
  exists s3, (i32 (n1 + n2)), (em1 ++ em2). split; [done|]. cint. split; [lia|].
  rewrite B1, B2, B3, B4, A1, A2, A3, A4, Ew, Et. done.
Qed.

End Frames.

(** ** Recording *)

(** The history after [v] more bytes in slot [a]. *)
Definition record_hist (H : Z -> Z) (a v : Z) : Z -> Z :=
  λ b, if b =? a then H b + v else H b.

Lemma slot_abs_self a : slot_abs a (a mod 60) = a.
Proof. unfold slot_abs. zdiv. Qed.

Lemma W_record H a w total v x :
  W H a w total -> w !! Z.to_nat (a mod 60) = Some x ->
  W (record_hist H a v) a (<[Z.to_nat (a mod 60) := x + v]> w) (total + v).
Proof.
  intros HW Hx. replace (total + v) with (total - x + (x + v)) by lia.
  pose proof (W_lookup _ _ _ _ (a mod 60) HW ltac:(zdiv)) as Hx'.
  rewrite Hx in Hx'. injection Hx' as ->. rewrite slot_abs_self.
  eapply W_insert; [done|zdiv|by rewrite Hx, slot_abs_self| |].
  - unfold record_hist. rewrite slot_abs_self, Z.eqb_refl. done.
  - intros j Hj Hne. unfold record_hist. rewrite eqb_false; [done|].
    unfold slot_abs. zdiv.
Qed.

Lemma record_hist_same H a v w b :
  record_hist (record_hist H a v) a w b = record_hist H a (v + w) b.
Proof. unfold record_hist. destruct (b =? a); lia. Qed.

Lemma W_ext H H' a w total : (∀ b, H b = H' b) -> W H a w total -> W H' a w total.
Proof. intros He [Hl Hw Ht]. split; [done| |done]. intros. rewrite Hw by done. by rewrite He. Qed.

Lemma window_sum_record H a v : window_sum (record_hist H a v) a = window_sum H a + v.
Proof.
  unfold window_sum. rewrite (seqZ_cons 0 60) by lia. rewrite !fmap_cons, !sumZ_cons.
  cbv beta. rewrite Z.sub_0_r.
  assert (record_hist H a v a = H a + v) as -> by (unfold record_hist; by rewrite Z.eqb_refl).
  assert ((λ k, record_hist H a v (a - k)) <$> seqZ (Z.succ 0) (Z.pred 60) =
          (λ k, H (a - k)) <$> seqZ (Z.succ 0) (Z.pred 60)) as ->; [|lia].
  apply list_fmap_ext. intros i k Hk. apply list_elem_of_lookup_2, elem_of_seqZ in Hk.
  unfold record_hist. by rewrite eqb_false by lia.
Qed.

Lemma window_sum_succ H a : window_sum H (a + 1) = window_sum H a + H (a + 1) - H (a - 59).
Proof.
  unfold window_sum.
  assert (sumZ ((λ k, H (a + 1 - k)) <$> seqZ 0 60) =
          H (a + 1) + sumZ ((λ k, H (a - k)) <$> seqZ 0 59)) as ->.
  { rewrite seqZ_cons by lia. rewrite fmap_cons, sumZ_cons. f_equal; [f_equal; lia|].
    f_equal. replace (seqZ (Z.succ 0) (Z.pred 60)) with (Z.add 1 <$> seqZ 0 59)
      by (rewrite fmap_add_seqZ; done).
    rewrite <-list_fmap_compose. apply list_fmap_ext. intros i k Hk. simpl. f_equal. lia. }
  change 60 with (59 + 1) at 1. rewrite seqZ_app by lia.
  rewrite fmap_app, sumZ_app. change (seqZ (0 + 59) 1) with [59].
  change ((λ k, H (a - k)) <$> [59]) with [H (a - 59)]. rewrite sumZ_cons.
  change (sumZ []) with 0. lia.
Qed.

Lemma window_sum_le H a b :
  (∀ c, 0 <= H c) -> (∀ c, a < c -> H c = 0) -> a <= b -> window_sum H b <= window_sum H a.
Proof.
  intros HH H0 Hab. replace b with (a + Z.of_nat (Z.to_nat (b - a))) by lia.
  generalize (Z.to_nat (b - a)) as n. intros n. induction n as [|n IH].
  - rewrite Z.add_0_r. lia.
  - replace (a + Z.of_nat (S n)) with (a + Z.of_nat n + 1) by lia.
    rewrite window_sum_succ. rewrite (H0 (a + Z.of_nat n + 1)) by lia.
    specialize (HH (a + Z.of_nat n - 59)). lia.
Qed.

(** The bytes that stay in the history: an allowed message and the warnings, or
    only the warnings. *)
Definition kept (allowed : bool) (size sent : Z) : Z := if allowed then size + sent else sent.

(** ** The limits *)

Lemma soft_limit_frame t :
  ∃ s' b, dlt_is_over_trace_load_soft_limit t = (set_stat t s', b) ∧
          same_window (tl_stat t) s' ∧ avg_trace_load s' = avg_trace_load (tl_stat t).
Proof.
  unfold dlt_is_over_trace_load_soft_limit. destruct (_ || _).
  - by exists (mark_soft (tl_stat t)), true.
  - exists (tl_stat t), false. by rewrite set_stat_id.
Qed.

(** A message over the hard limit is taken out of the window again. *)
Lemma hard_limit_spec H a t size sent :
  W (record_hist H a (size + sent)) a (window (tl_stat t)) (total_bytes_of_window (tl_stat t)) ->
  curr_slot (tl_stat t) = a mod 60 -> (∀ b, 0 <= H b) -> 0 <= size -> 0 <= sent ->
  total_bytes_of_window (tl_stat t) < 18446744073709551616 ->
  ∃ s' over,
    dlt_is_over_trace_load_hard_limit t size = Some (set_stat t s', over) ∧
    over = (hard_limit t <? avg_trace_load (tl_stat t)) || (hard_limit t =? 0) ∧
    W (record_hist H a (kept (negb over) size sent)) a (window s') (total_bytes_of_window s') ∧
    avg_trace_load s' = avg_trace_load (tl_stat t) ∧
    last_slot s' = last_slot (tl_stat t) ∧ last_abs_slot s' = last_abs_slot (tl_stat t).
Proof.
  intros HW Hc HH Hsz Hsent Ht. unfold dlt_is_over_trace_load_hard_limit.
  destruct ((hard_limit t <? _) || _) eqn:E.
  - rewrite Hc. pose proof (W_lookup _ _ _ _ (a mod 60) HW ltac:(zdiv)) as Hx.
    rewrite slot_abs_self in Hx. rewrite Hx. bsimp.
    assert (Forall (λ z, 0 <= z) (window (tl_stat t))) as Hnn.
    { eapply W_nonneg; [done|]. intros b. unfold record_hist. specialize (HH b).
      destruct (b =? a); lia. }
    pose proof (sumZ_lookup_le _ _ _ Hnn Hx) as Hle. rewrite <-(W_total _ _ _ _ HW) in Hle.
    pose proof (W_record _ _ _ _ (- size) _ HW Hx) as HW2.
    assert (record_hist H a (size + sent) a = H a + size + sent) as Ea.
    { unfold record_hist. rewrite Z.eqb_refl. lia. }
    rewrite Ea in *. specialize (HH a).
    eexists _, true. split; [reflexivity|]. cbn. cint. split_and!; try done.
    eapply W_ext; [|exact HW2]. intros b. rewrite record_hist_same. f_equal. lia.
  - exists (tl_stat t), false. by rewrite set_stat_id.
Qed.

Lemma check_trace_load_window log B H t lvl ts size :
  log_bounded log B -> 0 <= B -> TL H (tl_stat t) ->
  lvl <> DLT_LOG_DEBUG -> lvl <> DLT_LOG_VERBOSE ->
  0 <= ts < 4294967296 -> last_abs_slot (tl_stat t) <= ts / 10000 ->
  0 <= size -> size + 2 * B < 2147483648 ->
  window_sum H (last_abs_slot (tl_stat t)) + size + 2 * B < 2 ^ 50 ->
  ∃ t' allowed sent em,
    dlt_check_trace_load log (Some t) lvl ts size = Some (Some t', allowed, em) ∧
    0 <= sent <= 2 * B ∧
    let load := (window_sum H (ts / 10000) + size + sent) / 60 in
    avg_trace_load (tl_stat t') = load ∧
    allowed = negb ((hard_limit t <? load) || (hard_limit t =? 0)) ∧
    last_abs_slot (tl_stat t') = ts / 10000 ∧ hard_limit t' = hard_limit t ∧
    TL (record_hist H (ts / 10000) (kept allowed size sent)) (tl_stat t').
Proof.
  intros Hlog HB HTL Hl1 Hl2 Hts Hlast Hsz Hsz2 Hsum.
  assert (window_sum H (ts / 10000) <= window_sum H (last_abs_slot (tl_stat t))) as Hmono
    by (apply window_sum_le; [apply HTL|apply HTL|done]).
  pose proof (W_sum _ _ _ _ (TL_window _ _ HTL)) as Htot.
  unfold dlt_check_trace_load. rewrite !eqb_false, ltb_false by done. cbn [orb].
  destruct (switch_slot_spec log B Hlog HB H t ts) as (s1 & sent & em & -> & Hsent & HW & Hc & Hca);
    [done|lia|lia|done|done|].
  bsimp. cint. set (a := ts / 10000) in *.
  assert (0 <= a < 429497) as Ha by (subst a; zdiv).
  pose proof (W_lookup _ _ _ _ (a mod 60) HW ltac:(zdiv)) as Hx. rewrite slot_abs_self in Hx.
  pose proof (W_sum _ _ _ _ HW) as Ht1.
  assert (Hnn : Forall (λ z, 0 <= z) (window s1)) by (eapply W_nonneg; [done|apply HTL]).
  pose proof (sumZ_lookup_le _ _ _ Hnn Hx) as Hxle. rewrite <-(W_total _ _ _ _ HW) in Hxle.
  pose proof (TL_hist _ _ HTL) as HH. pose proof (TL_future _ _ HTL) as Hfut.
  unfold dlt_record_trace_load. cbn [tl_stat set_stat]. rewrite Hc, Hx. bsimp.
  pose proof (W_record _ _ _ _ (size + sent) _ HW Hx) as HW2.
  change (2 ^ 50) with 1125899906842624 in Hsum.
  unfold DLT_TIMESTAMP_RESOLUTION, TIMESTAMP_BASED_WINDOW_SIZE. cint.
  set (total2 := total_bytes_of_window s1 + (size + sent)) in *.
  assert (total2 * 10000 / 600000 = total2 / 60) as ->.
  { change 600000 with (60 * 10000). rewrite Z.div_mul_cancel_r; lia. }
  assert (total2 = window_sum H a + size + sent) as Ht2 by (subst total2; lia).
  match goal with |- context [dlt_is_over_trace_load_soft_limit ?t2] =>
    destruct (soft_limit_frame t2) as (s3 & b3 & -> & (E1 & E2 & E3 & E4 & E5 & E6) & E7) end.
  cbn [tl_stat set_stat window total_bytes_of_window curr_slot curr_abs_slot last_slot
       last_abs_slot avg_trace_load] in *.
  match goal with |- context [dlt_is_over_trace_load_hard_limit ?t3 size] =>
    destruct (hard_limit_spec H a t3 size sent)
      as (s4 & over & -> & -> & HW4 & F1 & F2 & F3) end;
    cbn [tl_stat set_stat hard_limit] in *;
    [by rewrite E1, E2|congruence|done|lia|lia|lia|].
  bsimp. do 4 eexists. split; [reflexivity|]. cbn [tl_stat set_stat hard_limit].
  rewrite F1, E7. split; [exact Hsent|]. cbn zeta. rewrite <-Ht2. split; [done|].
  rewrite E7 in HW4. split; [done|]. rewrite F3, E6, Hca. split; [done|]. split; [done|].
  split; rewrite ?F2, ?F3, ?E5, ?E6, ?Hca; [exact HW4|done|done| |].
  - intros b. specialize (HH b). unfold record_hist, kept.
    destruct (b =? a), (negb _); lia.
  - intros b Hb. unfold record_hist. rewrite eqb_false by lia. apply Hfut. lia.
Qed.

(** ** Runs of the limiter *)

(** The messages of one source in the order they are checked: level,
    timestamp, size.  The result lists the decision taken for each. *)
Fixpoint run_checks (log : warning -> Z) (t : DltTraceLoadSettings) (ms : list (Z * Z * Z))
  : option (DltTraceLoadSettings * list bool) :=
  match ms with
  | [] => Some (t, [])
  | (lvl, ts, sz) :: ms =>
      '(t1, allowed, _) ← dlt_check_trace_load log (Some t) lvl ts sz;
      t1' ← t1;
      '(t2, ds) ← run_checks log t1' ms;
      Some (t2, allowed :: ds)
  end.

(** Timestamps that fit 32 bits and do not go back by a slot. *)
Fixpoint ordered_from (a : Z) (ms : list (Z * Z * Z)) : Prop :=
  match ms with
  | [] => True
  | (lvl, ts, sz) :: ms =>
      0 <= ts < 4294967296 ∧ a <= ts / 10000 ∧ 0 <= sz ∧
      lvl <> DLT_LOG_DEBUG ∧ lvl <> DLT_LOG_VERBOSE ∧ ordered_from (ts / 10000) ms
  end.

Definition sizes (ms : list (Z * Z * Z)) : list Z := (λ m, m.2) <$> ms.

(** The limiter seen on histories alone: after each message the history gains
    what [kept] says, and an allowed message leaves the average of the window
    within the hard limit. *)
Inductive limited (hard B : Z) : (Z -> Z) -> list (Z * Z * Z) -> list bool -> (Z -> Z) -> Prop :=
| limited_nil H : limited hard B H [] [] H
| limited_cons H lvl ts sz sent ms allowed ds H' :
    0 <= sent <= 2 * B ->
    allowed = negb ((hard <? (window_sum H (ts / 10000) + sz + sent) / 60) || (hard =? 0)) ->
    limited hard B (record_hist H (ts / 10000) (kept allowed sz sent)) ms ds H' ->
    limited hard B H ((lvl, ts, sz) :: ms) (allowed :: ds) H'.

Lemma run_checks_limited log B ms H t :
  log_bounded log B -> 0 <= B -> TL H (tl_stat t) -> ordered_from (last_abs_slot (tl_stat t)) ms ->
  sumZ (sizes ms) + 2 * B < 2147483648 ->
  window_sum H (last_abs_slot (tl_stat t)) + sumZ (sizes ms) + 2 * B * zlen ms < 2 ^ 50 ->
  ∃ t' ds H', run_checks log t ms = Some (t', ds) ∧ TL H' (tl_stat t') ∧
              limited (hard_limit t) B H ms ds H'.
Proof.
  intros Hlog HB. revert H t. induction ms as [|[[lvl ts] sz] ms IH];
    intros H t HTL Hord Hsz Hsum; cbn [run_checks].
  { do 3 eexists. split_and!; [done..|constructor]. }
  cbn [ordered_from] in Hord. destruct Hord as (Hts & Hge & Hs0 & Hl1 & Hl2 & Hord).
  change (sizes ((lvl, ts, sz) :: ms)) with (sz :: sizes ms) in *. rewrite sumZ_cons in *.
  assert (0 <= sumZ (sizes ms)) as Hnn.
  { clear -Hord. revert Hord. generalize (ts / 10000) as a.
    induction ms as [|[[l u] z] ms IH]; intros a Ho; [done|].
    cbn [ordered_from] in Ho. destruct Ho as (_ & _ & ? & _ & _ & Ho).
    change (sizes ((l, u, z) :: ms)) with (z :: sizes ms). rewrite sumZ_cons.
    specialize (IH _ Ho). lia. }
  autorewrite with zlen in Hsum.
  destruct (check_trace_load_window log B H t lvl ts sz)
    as (t1 & allowed & sent & em & Hck & Hsent & Havg & Hal & Hla & Hhl & HTL1); try done; try nia.
  rewrite Hck. bsimp.
  assert (window_sum (record_hist H (ts / 10000) (kept allowed sz sent)) (ts / 10000) <=
          window_sum H (last_abs_slot (tl_stat t)) + sz + 2 * B) as Hle.
  { rewrite window_sum_record.
    pose proof (window_sum_le H _ _ (TL_hist _ _ HTL) (TL_future _ _ HTL) Hge).
    unfold kept. destruct allowed; lia. }
  destruct (IH _ t1 HTL1) as (t2 & ds & H2 & -> & HTL2 & Hlim);
    [by rewrite Hla|lia|rewrite Hla; nia|].
  bsimp. do 3 eexists. split_and!; [done..|]. econstructor; [exact Hsent|done|].
  by rewrite <-Hhl.
Qed.

(** The statistics of freshly loaded settings. *)
Definition stat_zero : DltTraceLoadStat :=
  {| window := replicate 60 0; total_bytes_of_window := 0; curr_slot := 0; last_slot := 0;
     curr_abs_slot := 0; last_abs_slot := 0; avg_trace_load := 0; hard_limit_over_counter := 0;
     hard_limit_over_bytes := 0; slot_left_soft_limit_warn := 0; slot_left_hard_limit_warn := 0;
     is_over_soft_limit := false; is_over_hard_limit := false |}.

Lemma stat_zero_TL : TL (λ _, 0) stat_zero.
Proof.
  split; try done; try (cbn; lia). split; try done.
  intros i Hi. change (window stat_zero) with (replicate 60 0).
  by rewrite lookup_replicate_2 by lia.
Qed.

(** ** Theorems *)

(** Debug and verbose messages are not limited. *)
Definition exempt (lvl : Z) : bool := (lvl =? DLT_LOG_DEBUG) || (lvl =? DLT_LOG_VERBOSE).

(** C24: A debug or verbose message is always allowed and changes nothing.  For any
    other message, whose timestamp is not before the slot of the last one, the
    average that [dlt_check_trace_load] computes is the number of bytes recorded in
    the last 60 one-second slots (this message and the warnings it triggered
    included) divided by 60; the message is allowed exactly when that average does
    not exceed a non-zero hard limit, and the statistics afterwards represent the
    history with an allowed message counted and a discarded one not counted.  A
    timestamp that wrapped around is not meant ([rollover_never_elapses]). *)
Theorem check_trace_load_is_sliding_window (log : warning -> Z) (B : Z) (H : Z -> Z)
    (t : DltTraceLoadSettings) (lvl ts size : Z) :
  log_bounded log B -> 0 <= B -> TL H (tl_stat t) ->
  0 <= ts < 4294967296 -> last_abs_slot (tl_stat t) <= ts / 10000 ->
  0 <= size -> size + 2 * B < 2147483648 ->
  window_sum H (last_abs_slot (tl_stat t)) + size + 2 * B < 2 ^ 50 ->
  ∃ t' allowed sent em,
    dlt_check_trace_load log (Some t) lvl ts size = Some (Some t', allowed, em) ∧
    if exempt lvl then t' = t ∧ allowed = true ∧ em = [] else
    0 <= sent <= 2 * B ∧
    let load := (window_sum H (ts / 10000) + size + sent) / 60 in
    avg_trace_load (tl_stat t') = load ∧
    allowed = negb ((hard_limit t <? load) || (hard_limit t =? 0)) ∧
    last_abs_slot (tl_stat t') = ts / 10000 ∧ hard_limit t' = hard_limit t ∧
    TL (record_hist H (ts / 10000) (kept allowed size sent)) (tl_stat t').
Proof.
  intros Hlog HB HT Hts Hord Hs Hi Hb. destruct (exempt lvl) eqn:Ex.
  - exists t, true, 0, []. split; [|done]. unfold dlt_check_trace_load. fold (exempt lvl). by rewrite Ex.
  - apply orb_false_iff in Ex as [H1%Z.eqb_neq H2%Z.eqb_neq]. by apply check_trace_load_window.
Qed.

Definition settings_ex : DltTraceLoadSettings :=
  {| apid := [65; 80; 80; 49]; ctid := [0; 0; 0; 0]; soft_limit := 100; hard_limit := 200;
     tl_stat := stat_zero |}.

Lemma check_trace_load_witness :
  ∃ t' allowed sent em,
    dlt_check_trace_load (λ _, 7) (Some settings_ex) 4 50000 1000 = Some (Some t', allowed, em) ∧
    0 <= sent <= 2 * 7 ∧
    let load := (window_sum (λ _, 0) (50000 / 10000) + 1000 + sent) / 60 in
    avg_trace_load (tl_stat t') = load ∧
    allowed = negb ((hard_limit settings_ex <? load) || (hard_limit settings_ex =? 0)) ∧
    last_abs_slot (tl_stat t') = 50000 / 10000 ∧ hard_limit t' = hard_limit settings_ex ∧
    TL (record_hist (λ _, 0) (50000 / 10000) (kept allowed 1000 sent)) (tl_stat t').
Proof.
  apply (check_trace_load_is_sliding_window (λ _, 7) 7 (λ _, 0) settings_ex 4 50000 1000);
    [intros w; lia|lia|apply stat_zero_TL|lia| |lia|lia|].
  - vm_compute. discriminate.
  - vm_compute. reflexivity.
Defined.

(** on every run of checks with ordered timestamps the code follows the
    abstract limiter: the decisions are those of the sliding window over the
    history, for any number of messages and any behaviour of the warning
    callback within its bound. *)
Theorem run_checks_refines_limiter (log : warning -> Z) (B : Z) (ms : list (Z * Z * Z))
    (H : Z -> Z) (t : DltTraceLoadSettings) :
  log_bounded log B -> 0 <= B -> TL H (tl_stat t) ->
  ordered_from (last_abs_slot (tl_stat t)) ms ->
  sumZ (sizes ms) + 2 * B < 2147483648 ->
  window_sum H (last_abs_slot (tl_stat t)) + sumZ (sizes ms) + 2 * B * zlen ms < 2 ^ 50 ->
  ∃ t' ds H', run_checks log t ms = Some (t', ds) ∧ TL H' (tl_stat t') ∧
              limited (hard_limit t) B H ms ds H'.
Proof. intros. by apply run_checks_limited. Qed.

Lemma run_checks_witness :
  ∃ t' ds H', run_checks (λ _, -1) settings_ex [(4, 10000, 9000); (3, 25000, 5000); (4, 700000, 50)]
                = Some (t', ds) ∧ TL H' (tl_stat t') ∧
              limited 200 0 (λ _, 0) [(4, 10000, 9000); (3, 25000, 5000); (4, 700000, 50)] ds H'.
Proof.
  apply (run_checks_refines_limiter (λ _, -1) 0 _ (λ _, 0) settings_ex).
  - intros w. lia.
  - lia.
  - apply stat_zero_TL.
  - cbn [ordered_from]. repeat split; vm_compute; first [reflexivity|discriminate].
  - vm_compute. reflexivity.
  - vm_compute. reflexivity.
Defined.

(** the branch of [dlt_user_cleanup_window] for a wrapped timestamp never
    finds an elapsed slot: it compares slot numbers with a start computed in
    timestamp units, so for every pair of 32-bit timestamps the slots skipped
    by the wrap are not cleared. *)
Theorem rollover_never_elapses (s : DltTraceLoadStat) (ts last_ts : Z) :
  0 <= ts < 4294967296 -> 0 <= last_ts < 4294967296 ->
  curr_abs_slot s = ts / DLT_TRACE_LOAD_WINDOW_RESOLUTION ->
  last_abs_slot s = last_ts / DLT_TRACE_LOAD_WINDOW_RESOLUTION ->
  curr_abs_slot s < last_abs_slot s ->
  dlt_user_cleanup_window s = Some (s, false).
Proof.
  unfold DLT_TRACE_LOAD_WINDOW_RESOLUTION. intros Hts Hlts Hc Hl Hlt.
  assert (0 <= ts / 10000 < 429497) by zdiv. assert (0 <= last_ts / 10000 < 429497) by zdiv.
  unfold dlt_user_cleanup_window, elapsed_slots, DLT_TIMESTAMP_RESOLUTION.
  rewrite ltb_true by lia. rewrite u32_small by lia. rewrite leb_false by lia. done.
Qed.

Lemma rollover_witness :
  dlt_user_cleanup_window
    {| window := replicate 60 5; total_bytes_of_window := 300; curr_slot := 10; last_slot := 16;
       curr_abs_slot := 70; last_abs_slot := 429496; avg_trace_load := 5;
       hard_limit_over_counter := 0; hard_limit_over_bytes := 0; slot_left_soft_limit_warn := 3;
       slot_left_hard_limit_warn := 3; is_over_soft_limit := false; is_over_hard_limit := false |}
  = Some
    ({| window := replicate 60 5; total_bytes_of_window := 300; curr_slot := 10; last_slot := 16;
       curr_abs_slot := 70; last_abs_slot := 429496; avg_trace_load := 5;
       hard_limit_over_counter := 0; hard_limit_over_bytes := 0; slot_left_soft_limit_warn := 3;
       slot_left_hard_limit_warn := 3; is_over_soft_limit := false; is_over_hard_limit := false |},
     false).
Proof. apply (rollover_never_elapses _ 700000 4294967295); try lia; reflexivity. Defined.

Lemma find_loop_other first l i ap ct :
  strncmp_eq DLT_ID_SIZE ap first = false -> find_loop first l i None ap ct = None.
Proof.
  intros E. revert i. induction l as [|s l IH]; intros i; [done|]. cbn [find_loop].
  rewrite E. cbn [negb]. apply IH.
Qed.

(** [dlt_find_runtime_trace_load_settings] compares the application id
    with the first configured entry only: for every other application it finds
    nothing, whatever entries follow. *)
Theorem find_settings_first_app_only (f : DltTraceLoadSettings) (l : list DltTraceLoadSettings)
    (ap : bytes) (ct : option bytes) :
  strncmp_eq DLT_ID_SIZE ap (apid f) = false ->
  dlt_find_runtime_trace_load_settings (f :: l) (Some ap) ct = None.
Proof.
  intros E. unfold dlt_find_runtime_trace_load_settings.
  destruct (_ =? 0); [done|]. by apply find_loop_other.
Qed.

Lemma find_settings_witness :
  dlt_find_runtime_trace_load_settings
    [settings_ex;
     {| apid := [65; 80; 80; 50]; ctid := [0; 0; 0; 0]; soft_limit := 1; hard_limit := 2;
        tl_stat := stat_zero |}] (Some [65; 80; 80; 50]) None = None.
Proof. apply find_settings_first_app_only. reflexivity. Defined.

End TraceLoadSpec.
