(* ===== verification/Protocol.v ===== *)
(** * The DLT protocol, version 1: flags, byte order and header layout

    [include/dlt/dlt_protocol.h] and the macros and packed structs of
    [include/dlt/dlt_common.h].  The host is little-endian, as on the supported
    targets ([DLT_HTOBE_32] and the like swap). *)

From stdpp Require Import base list numbers option.
From Stdlib Require Import ZArith Lia Bool.
From S2P Require Import Prelude.

Local Open Scope Z_scope.

Module Protocol.

(** ** Flags of the header type and of the message info *)

Definition DLT_HTYP_UEH : Z := 1.
Definition DLT_HTYP_MSBF : Z := 2.
Definition DLT_HTYP_WEID : Z := 4.
Definition DLT_HTYP_WSID : Z := 8.
Definition DLT_HTYP_WTMS : Z := 16.
Definition DLT_HTYP_VERS : Z := 224.
Definition DLT_HTYP_PROTOCOL_VERSION1 : Z := 32.

Definition flag (x mask : Z) : bool := negb (Z.land x mask =? 0).

Definition DLT_IS_HTYP_UEH (htyp : Z) : bool := flag htyp DLT_HTYP_UEH.
Definition DLT_IS_HTYP_MSBF (htyp : Z) : bool := flag htyp DLT_HTYP_MSBF.
Definition DLT_IS_HTYP_WEID (htyp : Z) : bool := flag htyp DLT_HTYP_WEID.
Definition DLT_IS_HTYP_WSID (htyp : Z) : bool := flag htyp DLT_HTYP_WSID.
Definition DLT_IS_HTYP_WTMS (htyp : Z) : bool := flag htyp DLT_HTYP_WTMS.

Definition DLT_MSIN_VERB : Z := 1.
Definition DLT_MSIN_MSTP : Z := 14.
Definition DLT_MSIN_MTIN : Z := 240.
Definition DLT_IS_MSIN_VERB (msin : Z) : bool := flag msin DLT_MSIN_VERB.
Definition DLT_GET_MSIN_MSTP (msin : Z) : Z := Z.shiftr (Z.land msin DLT_MSIN_MSTP) 1.
Definition DLT_GET_MSIN_MTIN (msin : Z) : Z := Z.shiftr (Z.land msin DLT_MSIN_MTIN) 4.

Definition DLT_TYPE_LOG : Z := 0.
Definition DLT_TYPE_APP_TRACE : Z := 1.
Definition DLT_TYPE_NW_TRACE : Z := 2.
Definition DLT_TYPE_CONTROL : Z := 3.
Definition DLT_CONTROL_REQUEST : Z := 1.
Definition DLT_CONTROL_RESPONSE : Z := 2.
Definition DLT_CONTROL_TIME : Z := 3.

(** ** Byte order *)

Definition DLT_SWAP_16 (v : Z) : Z :=
  u16 (Z.lor (Z.land (Z.shiftr v 8) 255) (Z.land (Z.shiftl v 8) 65280)).

(** On a [uint32_t] the shifts to the left drop what leaves 32 bits. *)
Definition DLT_SWAP_32 (v : Z) : Z :=
  Z.lor (Z.lor (Z.lor (Z.land (Z.shiftr v 24) 255) (Z.land (u32 (Z.shiftl v 8)) 16711680))
               (Z.land (Z.shiftr v 8) 65280))
        (Z.land (u32 (Z.shiftl v 24)) 4278190080).

Definition DLT_SWAP_64 (v : Z) : Z :=
  Z.lor (u64 (Z.shiftl (DLT_SWAP_32 (Z.land v 4294967295)) 32))
        (DLT_SWAP_32 (Z.shiftr v 32)).

Definition DLT_HTOBE_16 := DLT_SWAP_16.
Definition DLT_BETOH_16 := DLT_SWAP_16.
Definition DLT_HTOBE_32 := DLT_SWAP_32.
Definition DLT_BETOH_32 := DLT_SWAP_32.
Definition DLT_LETOH_16 (v : Z) := v.
Definition DLT_LETOH_32 (v : Z) := v.

Definition DLT_ENDIAN_GET_16 (htyp v : Z) : Z :=
  u16 (if DLT_IS_HTYP_MSBF htyp then DLT_BETOH_16 v else DLT_LETOH_16 v).
Definition DLT_ENDIAN_GET_32 (htyp v : Z) : Z :=
  u32 (if DLT_IS_HTYP_MSBF htyp then DLT_BETOH_32 v else DLT_LETOH_32 v).

(** ** Sizes of the packed structs *)

Definition sizeof_DltStorageHeader : Z := 16.
Definition sizeof_DltStandardHeader : Z := 4.
Definition sizeof_DltStandardHeaderExtra : Z := 12.
Definition sizeof_DltExtendedHeader : Z := 10.
Definition DLT_SIZE_WEID : Z := 4.
Definition DLT_SIZE_WSID : Z := 4.
Definition DLT_SIZE_WTMS : Z := 4.

Definition DLT_STANDARD_HEADER_EXTRA_SIZE (htyp : Z) : Z :=
  (if DLT_IS_HTYP_WEID htyp then DLT_SIZE_WEID else 0) +
  (if DLT_IS_HTYP_WSID htyp then DLT_SIZE_WSID else 0) +
  (if DLT_IS_HTYP_WTMS htyp then DLT_SIZE_WTMS else 0).

Definition DLT_EXTENDED_SIZE (htyp : Z) : Z :=
  if DLT_IS_HTYP_UEH htyp then sizeof_DltExtendedHeader else 0.

Lemma extra_size_range htyp : 0 <= DLT_STANDARD_HEADER_EXTRA_SIZE htyp <= 12.
Proof.
  unfold DLT_STANDARD_HEADER_EXTRA_SIZE, DLT_SIZE_WEID, DLT_SIZE_WSID, DLT_SIZE_WTMS.
  repeat case_match; lia.
Qed.

Lemma extended_size_range htyp : 0 <= DLT_EXTENDED_SIZE htyp <= 10.
Proof. unfold DLT_EXTENDED_SIZE, sizeof_DltExtendedHeader. case_match; lia. Qed.

(** ** Swapping is reversing the bytes *)

(** The masks of the macros select bytes. *)
Lemma land_byte (x k : Z) :
  0 <= k -> Z.land x (255 * 2 ^ k) = ((x / 2 ^ k) mod 256) * 2 ^ k.
Proof.
  intros Hk. rewrite <-Z.shiftr_div_pow2, <-!Z.shiftl_mul_pow2 by done.
  change 256 with (2 ^ 8). rewrite <-Z.land_ones by lia. change (Z.ones 8) with 255.
  apply Z.bits_inj'. intros n Hn. rewrite Z.land_spec, !Z.shiftl_spec by done.
  destruct (Z.ltb_spec n k).
  - rewrite !(Z.testbit_neg_r _ (n - k)) by lia. by rewrite andb_false_r.
  - rewrite Z.land_spec, Z.shiftr_spec by lia. do 2 f_equal. lia.
Qed.

(** Bytes at different positions do not overlap. *)
Lemma lor_disjoint (a b k : Z) : 0 <= a < 2 ^ k -> 0 <= k -> Z.lor a (b * 2 ^ k) = a + b * 2 ^ k.
Proof.
  intros Ha Hk. assert (Z.land a (b * 2 ^ k) = 0) as Hl.
  { apply Z.bits_inj'. intros n Hn. rewrite Z.land_spec, Z.bits_0.
    rewrite <-Z.shiftl_mul_pow2 by done. rewrite Z.shiftl_spec by done.
    destruct (Z.ltb_spec n k).
    - rewrite (Z.testbit_neg_r b) by lia. by rewrite andb_false_r.
    - rewrite <-(Z.mod_small a (2 ^ k)) by done. by rewrite Z.mod_pow2_bits_high by lia. }
  by rewrite <-Z.lxor_lor, <-Z.add_nocarry_lxor by done.
Qed.

(** Bit operations stay in range. *)
Lemma lor_range (k a b : Z) : 0 <= k -> 0 <= a < 2 ^ k -> 0 <= b < 2 ^ k -> 0 <= Z.lor a b < 2 ^ k.
Proof.
  intros Hk Ha Hb. rewrite <-(Z.mod_small a (2 ^ k)), <-(Z.mod_small b (2 ^ k)) by done.
  rewrite <-!Z.land_ones, <-Z.land_lor_distr_l, Z.land_ones by done. apply Z.mod_pos_bound. lia.
Qed.

(** A 32-bit word as its four bytes. *)
Definition byte_of (v k : Z) : Z := (v / 2 ^ (8 * k)) mod 256.

Lemma byte_of_range v k : 0 <= byte_of v k < 256.
Proof. apply Z.mod_pos_bound. lia. Qed.

Lemma swap_16_bytes v :
  0 <= v < 65536 -> DLT_SWAP_16 v = byte_of v 1 + byte_of v 0 * 2 ^ 8.
Proof.
  intros Hv. unfold DLT_SWAP_16.
  rewrite Z.shiftr_div_pow2, Z.shiftl_mul_pow2 by lia.
  change 255 with (255 * 2 ^ 0) at 1. change 65280 with (255 * 2 ^ 8).
  rewrite !land_byte by lia. rewrite Z.div_mul by lia.
  change (2 ^ 0) with 1. rewrite Z.div_1_r, Z.mul_1_r.
  pose proof (byte_of_range v 0). pose proof (byte_of_range v 1).
  change ((v / 2 ^ 8) mod 256) with (byte_of v 1).
  replace (v mod 256) with (byte_of v 0) by (unfold byte_of; by rewrite Z.div_1_r).
  rewrite lor_disjoint by lia. cint. done.
Qed.

Lemma swap_32_bytes v :
  0 <= v < 4294967296 ->
  DLT_SWAP_32 v = byte_of v 3 + byte_of v 2 * 2 ^ 8 + byte_of v 1 * 2 ^ 16 + byte_of v 0 * 2 ^ 24.
Proof.
  intros Hv. unfold DLT_SWAP_32.
  rewrite !Z.shiftr_div_pow2, !Z.shiftl_mul_pow2 by lia.
  change 255 with (255 * 2 ^ 0) at 1. change 65280 with (255 * 2 ^ 8).
  change 16711680 with (255 * 2 ^ 16). change 4278190080 with (255 * 2 ^ 24).
  rewrite !land_byte by lia. change (2 ^ 0) with 1. rewrite Z.div_1_r, Z.mul_1_r.
  replace ((u32 (v * 2 ^ 8) / 2 ^ 16) mod 256) with (byte_of v 1) by
    (unfold byte_of, wrapu; change (2 ^ (8 * 1)) with 256; change (2 ^ 8) with 256;
     change (2 ^ 16) with 65536; change (2 ^ 32) with 4294967296; zdiv).
  replace ((u32 (v * 2 ^ 24) / 2 ^ 24) mod 256) with (byte_of v 0) by
    (unfold byte_of, wrapu; change (2 ^ (8 * 0)) with 1; change (2 ^ 24) with 16777216;
     change (2 ^ 32) with 4294967296; zdiv).
  change ((v / 2 ^ 24) mod 256) with (byte_of v 3).
  replace ((v / 2 ^ 8 / 2 ^ 8) mod 256) with (byte_of v 2) by
    (unfold byte_of; change (2 ^ (8 * 2)) with 65536; change (2 ^ 8) with 256; zdiv).
  pose proof (byte_of_range v 0). pose proof (byte_of_range v 1).
  pose proof (byte_of_range v 2). pose proof (byte_of_range v 3).
  rewrite <-(Z.lor_assoc (byte_of v 3)), (Z.lor_comm (byte_of v 1 * _)), (Z.lor_assoc (byte_of v 3)).
  rewrite (lor_disjoint (byte_of v 3)) by lia.
  rewrite (lor_disjoint (byte_of v 3 + _)) by lia.
  rewrite lor_disjoint by lia. done.
Qed.

Lemma be_bytes_2 v : be_bytes 2 v = [byte_of v 1; byte_of v 0].
Proof.
  unfold be_bytes, byte_of. cbn [le_bytes]. change (2 ^ (8 * 1)) with 256.
  change (2 ^ (8 * 0)) with 1. by rewrite Z.div_1_r.
Qed.

Lemma be_bytes_4 v : be_bytes 4 v = [byte_of v 3; byte_of v 2; byte_of v 1; byte_of v 0].
Proof.
  unfold be_bytes, byte_of. cbn [le_bytes]. change (2 ^ (8 * 1)) with 256.
  change (2 ^ (8 * 0)) with 1. change (2 ^ (8 * 2)) with (256 * 256).
  change (2 ^ (8 * 3)) with (256 * 256 * 256).
  rewrite Z.div_1_r. rewrite <-!Z.div_div by lia. done.
Qed.

(** Storing a swapped word on the little-endian host writes it in network
    order. *)
Lemma le_bytes_swap_32 v : 0 <= v < 4294967296 -> le_bytes 4 (DLT_SWAP_32 v) = be_bytes 4 v.
Proof.
  intros Hv. rewrite swap_32_bytes by done. rewrite be_bytes_4.
  pose proof (byte_of_range v 0). pose proof (byte_of_range v 1).
  pose proof (byte_of_range v 2). pose proof (byte_of_range v 3).
  change (2 ^ 8) with 256. change (2 ^ 16) with 65536. change (2 ^ 24) with 16777216.
  cbn [le_bytes]. repeat f_equal; zdiv.
Qed.

Lemma le_bytes_swap_16 v : 0 <= v < 65536 -> le_bytes 2 (DLT_SWAP_16 v) = be_bytes 2 v.
Proof.
  intros Hv. rewrite swap_16_bytes by done. rewrite be_bytes_2.
  pose proof (byte_of_range v 0). pose proof (byte_of_range v 1).
  change (2 ^ 8) with 256. cbn [le_bytes]. repeat f_equal; zdiv.
Qed.

Lemma swap_32_range v : 0 <= v < 4294967296 -> 0 <= DLT_SWAP_32 v < 4294967296.
Proof.
  intros Hv. rewrite swap_32_bytes by done.
  pose proof (byte_of_range v 0). pose proof (byte_of_range v 1).
  pose proof (byte_of_range v 2). pose proof (byte_of_range v 3). lia.
Qed.

(** Loading four network-order bytes and swapping gives the value. *)
Lemma swap_32_le_Z (b : bytes) :
  is_bytes b -> length b = 4%nat -> DLT_SWAP_32 (le_Z b) = be_Z b.
Proof.
  intros Hb Hl. pose proof (le_Z_range _ Hb) as Hr. rewrite Hl in Hr.
  change (256 ^ Z.of_nat 4) with 4294967296 in Hr.
  pose proof (le_bytes_swap_32 _ Hr) as E. apply (f_equal le_Z) in E.
  rewrite le_Z_le_bytes in E
    by (change (256 ^ Z.of_nat 4) with 4294967296; by apply swap_32_range).
  rewrite E. unfold be_bytes, be_Z. rewrite <-Hl at 1. by rewrite le_bytes_le_Z.
Qed.

Lemma swap_16_range v : 0 <= v < 65536 -> 0 <= DLT_SWAP_16 v < 65536.
Proof.
  intros Hv. rewrite swap_16_bytes by done.
  pose proof (byte_of_range v 0). pose proof (byte_of_range v 1). lia.
Qed.

Lemma swap_16_le_Z (b : bytes) :
  is_bytes b -> length b = 2%nat -> DLT_SWAP_16 (le_Z b) = be_Z b.
Proof.
  intros Hb Hl. pose proof (le_Z_range _ Hb) as Hr. rewrite Hl in Hr.
  change (256 ^ Z.of_nat 2) with 65536 in Hr.
  pose proof (le_bytes_swap_16 _ Hr) as E. apply (f_equal le_Z) in E.
  rewrite le_Z_le_bytes in E
    by (change (256 ^ Z.of_nat 2) with 65536; by apply swap_16_range).
  rewrite E. unfold be_bytes, be_Z. rewrite <-Hl at 1. by rewrite le_bytes_le_Z.
Qed.

End Protocol.
