(* ===== verification/Ids.v ===== *)
(** * Identifiers ([src/shared/dlt_common.c])

    The four-character application, context and ECU identifiers: an array of
    four bytes, padded with zeros, without a terminator when all four are used.
    Reading behind the end of an array is undefined and gives [None]. *)

From stdpp Require Import base list numbers option.
From Stdlib Require Import ZArith Lia Bool.
From S2P Require Import Prelude.

Local Open Scope Z_scope.

Module Ids.

(** ** Operations *)

(** The scan of [dlt_strnlen_s]. *)
Fixpoint strnlen_loop (n : nat) (str : bytes) : option Z :=
  match n with
  | O => Some 0
  | S n =>
      match str with
      | [] => None
      | c :: str => if c =? 0 then Some 0 else k ← strnlen_loop n str; Some (k + 1)
      end
  end.

Definition dlt_strnlen_s (str : option bytes) (maxsize : nat) : option Z :=
  match str with None => Some 0 | Some s => strnlen_loop maxsize s end.

(** [text] is the destination array; the result is its new content. *)
Definition dlt_print_id (text : option bytes) (id : option bytes) : option (option bytes) :=
  match text, id with
  | Some t, Some i =>
      t1 ← mwrite t 0 (replicate DLT_ID_SIZE 45);
      t2 ← mwrite t1 4 [0];
      len ← dlt_strnlen_s (Some i) DLT_ID_SIZE;
      d ← mread i 0 len;
      t3 ← mwrite t2 0 d;
      Some (Some t3)
  | _, _ => Some text
  end.

Definition dlt_print_id_v2 (text : option bytes) (id : option bytes) (length : Z)
  : option (option bytes) :=
  match text, id with
  | Some t, Some i =>
      if length =? 0 then Some text
      else
        t1 ← mwrite t 0 (replicate (Z.to_nat length) 45);
        t2 ← mwrite t1 length [0];
        len ← dlt_strnlen_s (Some i) (Z.to_nat length);
        d ← mread i 0 len;
        t3 ← mwrite t2 0 d;
        Some (Some t3)
  | _, _ => Some text
  end.

(** The chain of [if (text[k] != 0) id[k] = text[k]; else return;]: at most [n]
    characters from position [k] on. *)
Fixpoint set_id_chars (n : nat) (k : Z) (id text : bytes) : option bytes :=
  match n with
  | O => Some id
  | S n =>
      c ← text !! Z.to_nat k;
      if c =? 0 then Some id
      else id' ← mwrite id k [c]; set_id_chars n (k + 1) id' text
  end.

Definition dlt_set_id (id : option bytes) (text : option bytes) : option (option bytes) :=
  match id, text with
  | Some i, Some t =>
      i0 ← mwrite i 0 (replicate DLT_ID_SIZE 0);
      i' ← set_id_chars DLT_ID_SIZE 0 i0 t;
      Some (Some i')
  | _, _ => Some id
  end.

(** [len] is a [uint8_t], so the cap at [DLT_V2_ID_SIZE] (255) is its maximum. *)
Definition dlt_set_id_v2 (id : option bytes) (text : option bytes) (len : Z)
  : option (option bytes) :=
  match id, text with
  | Some i, Some t =>
      if len =? 0 then Some id
      else
        let len := if Z.of_nat DLT_V2_ID_SIZE <=? len then Z.of_nat DLT_V2_ID_SIZE else len in
        i0 ← mwrite i 0 (replicate DLT_V2_ID_SIZE 0);
        copy_len ← dlt_strnlen_s (Some t) (Z.to_nat len);
        if 0 <? copy_len then
          d ← mread t 0 copy_len;
          i' ← mwrite i0 0 d;
          Some (Some i')
        else Some (Some i0)
  | _, _ => Some id
  end.

(** Line breaks become blanks. *)
Fixpoint clean_loop (n : nat) (num : nat) (text : bytes) : option bytes :=
  match n with
  | O => Some text
  | S n =>
      c ← text !! num;
      clean_loop n (S num) (if (c =? 13) || (c =? 10) then <[num := 32]> text else text)
  end.

Definition dlt_clean_string (text : option bytes) (length : Z) : option (option bytes) :=
  match text with
  | None => Some None
  | Some t => t' ← clean_loop (Z.to_nat length) 0 t; Some (Some t')
  end.

(** ** The identifier as a padded string *)

(** A [char] array that can be scanned for [n] characters: it holds [n] of them
    or a terminator among those it holds. *)
Definition scannable (n : nat) (t : bytes) : Prop := (n <= length t)%nat ∨ 0 ∈ t.

(** [s] filled up with [c] to [n] characters. *)
Definition pad_to (n : nat) (c : Z) (s : bytes) : bytes := s ++ replicate (n - length s) c.

Lemma length_cstr n t : (length (cstr n t) <= n)%nat.
Proof.
  revert t. induction n as [|n IH]; intros [|c t]; cbn [cstr]; try (simpl; lia).
  destruct (c =? 0); [simpl; lia|]. specialize (IH t). simpl. lia.
Qed.

(** It holds no terminator. *)
Lemma cstr_no_zero n (t : bytes) : 0 ∉ cstr n t.
Proof.
  revert t. induction n as [|n IH]; intros [|b t]; cbn [cstr]; try apply not_elem_of_nil. destruct (Z.eqb_spec b 0); [apply not_elem_of_nil|].
  apply not_elem_of_cons. by split; [|apply IH].
Qed.

Lemma length_cstr_le n t : (length (cstr n t) <= length t)%nat.
Proof.
  revert t. induction n as [|n IH]; intros [|c t]; cbn [cstr]; try (simpl; lia).
  destruct (c =? 0); [simpl; lia|]. specialize (IH t). simpl. lia.
Qed.

Lemma length_pad_to n c s : (length s <= n)%nat -> length (pad_to n c s) = n.
Proof. intros. unfold pad_to. len. Qed.

Lemma take_cstr n t : take (length (cstr n t)) t = cstr n t.
Proof.
  revert t. induction n as [|n IH]; intros [|c t]; cbn [cstr]; try done.
  destruct (c =? 0); [done|]. cbn [length take]. by rewrite IH.
Qed.

Lemma strnlen_loop_spec n t : scannable n t -> strnlen_loop n t = Some (zlen (cstr n t)).
Proof.
  revert t. induction n as [|n IH]; intros t Ht; cbn [strnlen_loop]; [done|].
  destruct t as [|c t].
  - destruct Ht as [Ht|Ht]; [simpl in Ht; lia|by apply elem_of_nil in Ht].
  - cbn [cstr]. destruct (Z.eqb_spec c 0); [done|].
    rewrite IH; [bsimp; f_equal; simpl length; lia|].
    destruct Ht as [Ht|Ht]; [left; simpl in Ht; lia|right].
    apply elem_of_cons in Ht as [|]; [lia|done].
Qed.

Lemma set_id_chars_spec n t i k :
  scannable n (drop k t) -> (k + n <= length i)%nat ->
  set_id_chars n (Z.of_nat k) i t =
    Some (take k i ++ cstr n (drop k t) ++ drop (k + length (cstr n (drop k t))) i).
Proof.
  revert k i. induction n as [|n IH]; intros k i Ht Hi; cbn [set_id_chars].
  { cbn [cstr]. cbn [length app]. by rewrite Nat.add_0_r, take_drop. }
  rewrite Nat2Z.id. destruct (drop k t) as [|c t'] eqn:Ed.
  { destruct Ht as [Ht|Ht]; [simpl in Ht; lia|by apply elem_of_nil in Ht]. }
  assert (t !! k = Some c) as ->.
  { rewrite <-(Nat.add_0_r k), <-lookup_drop, Ed. done. }
  bsimp. cbn [cstr]. destruct (Z.eqb_spec c 0) as [->|Hc].
  { cbn [length app]. by rewrite Nat.add_0_r, take_drop. }
  rewrite mwrite_Some by (simpl; lia). bsimp. rewrite Nat2Z.id.
  replace (Z.of_nat k + 1) with (Z.of_nat (S k)) by lia.
  assert (drop (S k) t = t') as Ed'.
  { replace (S k) with (k + 1)%nat by lia. rewrite <-drop_drop, Ed. done. }
  rewrite IH; rewrite ?Ed'.
  - f_equal. cbn [length]. rewrite (app_assoc (take k i)).
    rewrite take_app_length' by len.
    rewrite (drop_app_ge (take k i ++ [c])) by len.
    replace (S k + length (cstr n t') - length (take k i ++ [c]))%nat
      with (length (cstr n t')) by len.
    rewrite drop_drop, <-app_assoc. cbn [app]. do 4 f_equal. lia.
  - destruct Ht as [Ht|Ht]; [left; simpl in Ht; lia|right].
    apply elem_of_cons in Ht as [|]; [lia|done].
  - len.
Qed.

(** The value that [dlt_set_id] leaves in the identifier. *)
Lemma set_id_spec i t :
  length i = 4%nat -> scannable 4 t ->
  dlt_set_id (Some i) (Some t) = Some (Some (pad_to 4 0 (cstr 4 t))).
Proof.
  intros Hi Ht. unfold dlt_set_id, DLT_ID_SIZE.
  rewrite mwrite_Some by (rewrite ?length_replicate; lia). bsimp.
  rewrite drop_ge by (rewrite length_replicate; simpl; lia).
  change (Z.to_nat 0) with 0%nat. rewrite app_nil_r, take_0, app_nil_l.
  rewrite (set_id_chars_spec 4 t _ 0) by (rewrite ?length_replicate; done || lia).
  bsimp. rewrite take_0, drop_0, app_nil_l, Nat.add_0_l.
  unfold pad_to. by rewrite drop_replicate.
Qed.

(** A prefix without terminator followed by zeros reads back as the prefix. *)
Lemma cstr_pad n t : cstr n (pad_to n 0 (cstr n t)) = cstr n t.
Proof.
  revert t. induction n as [|n IH]; intros t; [done|].
  destruct t as [|c t]; cbn [cstr]; [done|].
  destruct (Z.eqb_spec c 0); [done|]. cbn [pad_to app length Nat.sub].
  rewrite eqb_false by done. f_equal. apply (IH t).
Qed.

Lemma scannable_len n t : length t = n -> scannable n t.
Proof. intros <-. by left. Qed.

Lemma set_id_length i t r :
  length i = 4%nat -> scannable 4 t -> dlt_set_id (Some i) (Some t) = Some (Some r) ->
  length r = 4%nat.
Proof.
  intros Hi Ht. rewrite set_id_spec by done. intros H. do 2 apply (inj Some) in H.
  subst r. apply length_pad_to, length_cstr.
Qed.

(** Identifiers as the tables store them. *)
Definition is_id (i : bytes) : Prop := i = pad_to 4 0 (cstr 4 i).

Lemma is_id_length i : is_id i -> length i = 4%nat.
Proof. intros ->. apply length_pad_to, length_cstr. Qed.

Lemma is_id_pad t : is_id (pad_to 4 0 (cstr 4 t)).
Proof. unfold is_id. by rewrite cstr_pad. Qed.

(** Copying a stored identifier copies it exactly. *)
Lemma set_id_copy i j :
  length i = 4%nat -> is_id j -> dlt_set_id (Some i) (Some j) = Some (Some j).
Proof.
  intros Hi Hj. rewrite set_id_spec by (done || apply scannable_len, is_id_length, Hj).
  by rewrite <-Hj.
Qed.

Lemma print_id_spec t i :
  (5 <= length t)%nat -> scannable 4 i ->
  dlt_print_id (Some t) (Some i) = Some (Some (pad_to 4 45 (cstr 4 i) ++ 0 :: drop 5 t)).
Proof.
  intros Ht Hi. unfold dlt_print_id, dlt_strnlen_s, DLT_ID_SIZE.
  pose proof (length_cstr 4 i) as Hc. pose proof (length_cstr_le 4 i) as Hc2.
  rewrite mwrite_Some by (rewrite ?length_replicate; lia). bsimp.
  change (Z.to_nat 0) with 0%nat. rewrite take_0, app_nil_l, length_replicate, Nat.add_0_l.
  rewrite mwrite_Some by (rewrite ?length_app, ?length_replicate, ?length_drop; simpl; lia).
  bsimp. change (Z.to_nat 4) with 4%nat. rewrite take_app_length' by (by rewrite length_replicate).
  rewrite drop_app_ge by (rewrite length_replicate; simpl; lia).
  rewrite length_replicate, drop_drop. cbn [length].
  rewrite strnlen_loop_spec by done. bsimp.
  rewrite mread_Some by lia. bsimp. change (Z.to_nat 0) with 0%nat.
  rewrite drop_0, Nat2Z.id, take_cstr.
  rewrite mwrite_Some by (autorewrite with zlen; lia). bsimp.
  change (Z.to_nat 0) with 0%nat. rewrite take_0, app_nil_l, Nat.add_0_l.
  rewrite drop_app_le by (rewrite length_replicate; lia). rewrite drop_replicate.
  unfold pad_to. rewrite <-app_assoc. done.
Qed.

Lemma set_id_v2_spec i t len :
  length i = 255%nat -> 0 < len < 256 -> scannable (Z.to_nat len) t ->
  dlt_set_id_v2 (Some i) (Some t) len = Some (Some (pad_to 255 0 (cstr (Z.to_nat len) t))).
Proof.
  intros Hi Hl Ht. unfold dlt_set_id_v2, dlt_strnlen_s, DLT_V2_ID_SIZE. rewrite eqb_false by lia.
  assert ((if Z.of_nat 255 <=? len then Z.of_nat 255 else len) = len) as ->
    by (destruct (Z.leb_spec (Z.of_nat 255) len); lia).
  pose proof (length_cstr (Z.to_nat len) t) as Hc.
  pose proof (length_cstr_le (Z.to_nat len) t) as Hc2.
  rewrite mwrite_Some by (rewrite ?length_replicate; lia). bsimp.
  rewrite drop_ge by (rewrite length_replicate; simpl; lia).
  change (Z.to_nat 0) with 0%nat. rewrite app_nil_r, take_0, app_nil_l.
  rewrite strnlen_loop_spec by done. bsimp. set (s := cstr (Z.to_nat len) t) in *.
  unfold pad_to. destruct (Z.ltb_spec 0 (zlen s)) as [Hs|Hs].
  - rewrite mread_Some by lia. bsimp. change (Z.to_nat 0) with 0%nat.
    rewrite drop_0, Nat2Z.id. subst s. rewrite take_cstr.
    rewrite mwrite_Some by (rewrite ?length_replicate; lia). bsimp.
    change (Z.to_nat 0) with 0%nat. by rewrite take_0, app_nil_l, Nat.add_0_l, drop_replicate.
  - assert (length s = 0%nat) as Hs0 by lia. apply nil_length_inv in Hs0. by rewrite Hs0.
Qed.

(** [dlt_clean_string] rewrites the line breaks among the first [n] characters
    and nothing else. *)
Definition clean_char (c : Z) : Z := if (c =? 13) || (c =? 10) then 32 else c.

Lemma clean_loop_spec n k t :
  (k + n <= length t)%nat ->
  clean_loop n k t = Some (take k t ++ (clean_char <$> take n (drop k t)) ++ drop (k + n) t).
Proof.
  revert k t. induction n as [|n IH]; intros k t Hl; cbn [clean_loop].
  { rewrite take_0, Nat.add_0_r. cbn [fmap list_fmap app]. by rewrite take_drop. }
  destruct (lookup_lt_is_Some_2 t k) as [c Hc]; [lia|]. rewrite Hc. bsimp.
  assert ((if (c =? 13) || (c =? 10) then <[k:=32]> t else t) = <[k:=clean_char c]> t) as ->.
  { unfold clean_char. destruct (_ || _); [done|]. by rewrite list_insert_id. }
  rewrite IH by (rewrite length_insert; lia). f_equal.
  rewrite (drop_S t c k) by done. cbn [take]. rewrite fmap_cons.
  rewrite (take_S_r _ _ (clean_char c)) by (apply list_lookup_insert_eq; lia).
  rewrite take_insert_ge, !drop_insert_lt by lia. rewrite <-app_assoc. cbn [app].
  do 3 f_equal. f_equal. lia.
Qed.

(** ** Theorems *)

(** setting an identifier from a string and printing it shows the first
    four characters of the string, filled up with dashes; nothing is read or
    written outside of the arrays. *)
Theorem set_then_print_id (id text out : bytes) :
  length id = 4%nat -> scannable 4 text -> (5 <= length out)%nat ->
  (id' ← dlt_set_id (Some id) (Some text); dlt_print_id (Some out) id') =
    Some (Some (pad_to 4 45 (cstr 4 text) ++ 0 :: drop 5 out)).
Proof.
  intros Hi Ht Ho. rewrite set_id_spec by done. bsimp.
  rewrite print_id_spec, cstr_pad; [done|done|].
  apply scannable_len, length_pad_to, length_cstr.
Qed.

Lemma set_then_print_id_witness :
  (id' ← dlt_set_id (Some [1; 2; 3; 4]) (Some [65; 66; 0]);
   dlt_print_id (Some [9; 9; 9; 9; 9; 7]) id') =
    Some (Some [65; 66; 45; 45; 0; 7]).
Proof.
  apply (set_then_print_id [1; 2; 3; 4] [65; 66; 0] [9; 9; 9; 9; 9; 7]);
    [reflexivity|right; repeat constructor|simpl; lia].
Defined.

End Ids.
