(* ===== verification/Message.v ===== *)
(** * Messages ([src/shared/dlt_common.c])

    [DltMessage], the extra header parameters and the parser
    [dlt_message_read], which finds a message in a receive buffer,
    resynchronises on the serial header and loads header and payload.

    The pointers [storageheader], [standardheader] and [extendedheader] point
    into the [headerbuffer] of the same message: they are offsets into it. *)

From stdpp Require Import base list numbers option.
From Stdlib Require Import ZArith Lia Bool.
From S2P Require Import Prelude Protocol.
Import Protocol.

Local Open Scope Z_scope.

Module Message.

(** ** Data *)

Record DltStandardHeaderExtra := {
  ecu : bytes;
  seid : Z;
  tmsp : Z
}.

Record DltMessage := {
  found_serialheader : Z;
  resync_offset : Z;
  headersize : Z;
  datasize : Z;
  headerbuffer : bytes;
  databuffer : option bytes;
  databuffersize : Z;
  storageheader : option Z;
  standardheader : option Z;
  headerextra : DltStandardHeaderExtra;
  extendedheader : option Z
}.

Definition HEADERBUFFER_SIZE : Z :=
  sizeof_DltStorageHeader + sizeof_DltStandardHeader + sizeof_DltStandardHeaderExtra +
  sizeof_DltExtendedHeader.

Definition dltSerialHeader : bytes := [68; 76; 83; 1].

Definition DLT_MESSAGE_ERROR_OK : Z := 0.
Definition DLT_MESSAGE_ERROR_UNKNOWN : Z := -1.
Definition DLT_MESSAGE_ERROR_SIZE : Z := -2.
Definition DLT_MESSAGE_ERROR_CONTENT : Z := -3.

(** Assignments to single fields. *)
Definition set_sync (m : DltMessage) (f r : Z) : DltMessage :=
  {| found_serialheader := f; resync_offset := r; headersize := headersize m;
     datasize := datasize m; headerbuffer := headerbuffer m; databuffer := databuffer m;
     databuffersize := databuffersize m; storageheader := storageheader m;
     standardheader := standardheader m; headerextra := headerextra m;
     extendedheader := extendedheader m |}.
Definition set_sizes (m : DltMessage) (h d : Z) : DltMessage :=
  {| found_serialheader := found_serialheader m; resync_offset := resync_offset m;
     headersize := h; datasize := d; headerbuffer := headerbuffer m;
     databuffer := databuffer m; databuffersize := databuffersize m;
     storageheader := storageheader m; standardheader := standardheader m;
     headerextra := headerextra m; extendedheader := extendedheader m |}.
Definition set_headerbuffer (m : DltMessage) (b : bytes) : DltMessage :=
  {| found_serialheader := found_serialheader m; resync_offset := resync_offset m;
     headersize := headersize m; datasize := datasize m; headerbuffer := b;
     databuffer := databuffer m; databuffersize := databuffersize m;
     storageheader := storageheader m; standardheader := standardheader m;
     headerextra := headerextra m; extendedheader := extendedheader m |}.
Definition set_databuffer (m : DltMessage) (b : option bytes) (n : Z) : DltMessage :=
  {| found_serialheader := found_serialheader m; resync_offset := resync_offset m;
     headersize := headersize m; datasize := datasize m; headerbuffer := headerbuffer m;
     databuffer := b; databuffersize := n;
     storageheader := storageheader m; standardheader := standardheader m;
     headerextra := headerextra m; extendedheader := extendedheader m |}.
Definition set_pointers (m : DltMessage) (sto sta ext : option Z) : DltMessage :=
  {| found_serialheader := found_serialheader m; resync_offset := resync_offset m;
     headersize := headersize m; datasize := datasize m; headerbuffer := headerbuffer m;
     databuffer := databuffer m; databuffersize := databuffersize m;
     storageheader := sto; standardheader := sta;
     headerextra := headerextra m; extendedheader := ext |}.
Definition set_headerextra (m : DltMessage) (x : DltStandardHeaderExtra) : DltMessage :=
  {| found_serialheader := found_serialheader m; resync_offset := resync_offset m;
     headersize := headersize m; datasize := datasize m; headerbuffer := headerbuffer m;
     databuffer := databuffer m; databuffersize := databuffersize m;
     storageheader := storageheader m; standardheader := standardheader m;
     headerextra := x; extendedheader := extendedheader m |}.

Definition set_ecu (x : DltStandardHeaderExtra) (e : bytes) : DltStandardHeaderExtra :=
  {| ecu := e; seid := seid x; tmsp := tmsp x |}.
Definition set_seid (x : DltStandardHeaderExtra) (s : Z) : DltStandardHeaderExtra :=
  {| ecu := ecu x; seid := s; tmsp := tmsp x |}.
Definition set_tmsp (x : DltStandardHeaderExtra) (t : Z) : DltStandardHeaderExtra :=
  {| ecu := ecu x; seid := seid x; tmsp := t |}.

(** Fields behind the header pointers: [msg->standardheader->htyp] and so on. *)
Definition std_htyp (m : DltMessage) : option Z :=
  o ← standardheader m; headerbuffer m !! Z.to_nat o.
Definition std_mcnt (m : DltMessage) : option Z :=
  o ← standardheader m; headerbuffer m !! Z.to_nat (o + 1).
Definition std_len (m : DltMessage) : option Z :=
  o ← standardheader m; b ← mread (headerbuffer m) (o + 2) 2; Some (le_Z b).
Definition ext_msin (m : DltMessage) : option Z :=
  o ← extendedheader m; headerbuffer m !! Z.to_nat o.
Definition ext_noar (m : DltMessage) : option Z :=
  o ← extendedheader m; headerbuffer m !! Z.to_nat (o + 1).
Definition ext_apid (m : DltMessage) : option bytes :=
  o ← extendedheader m; mread (headerbuffer m) (o + 2) 4.
Definition ext_ctid (m : DltMessage) : option bytes :=
  o ← extendedheader m; mread (headerbuffer m) (o + 6) 4.

(** ** Operations *)

Definition dlt_message_init (m : DltMessage) : Z * DltMessage :=
  (DLT_RETURN_OK,
   set_pointers (set_databuffer (set_sizes (set_sync m 0 (resync_offset m)) 0 0) None 0)
     None None None).

Definition dlt_message_free (m : DltMessage) : Z * DltMessage :=
  (DLT_RETURN_OK,
   match databuffer m with Some _ => set_databuffer m None 0 | None => m end).

(** [if (c) m = f(m)] in the fault monad. *)
Definition when (c : bool) (m : DltMessage) (f : DltMessage -> option DltMessage)
  : option DltMessage := if c then f m else Some m.

Definition extra_offset : Z := sizeof_DltStorageHeader + sizeof_DltStandardHeader.
Definition seid_offset (htyp : Z) : Z :=
  extra_offset + (if DLT_IS_HTYP_WEID htyp then DLT_SIZE_WEID else 0).
Definition tmsp_offset (htyp : Z) : Z :=
  extra_offset + (if DLT_IS_HTYP_WEID htyp then DLT_SIZE_WEID else 0)
  + (if DLT_IS_HTYP_WSID htyp then DLT_SIZE_WSID else 0).

Definition dlt_message_get_extraparameters (m : DltMessage) : option (Z * DltMessage) :=
  htyp ← std_htyp m;
  m1 ← when (DLT_IS_HTYP_WEID htyp) m (λ m,
    d ← mread (headerbuffer m) extra_offset 4;
    Some (set_headerextra m (set_ecu (headerextra m) d)));
  m2 ← when (DLT_IS_HTYP_WSID htyp) m1 (λ m,
    d ← mread (headerbuffer m) (seid_offset htyp) DLT_SIZE_WSID;
    Some (set_headerextra m (set_seid (headerextra m) (DLT_BETOH_32 (le_Z d)))));
  m3 ← when (DLT_IS_HTYP_WTMS htyp) m2 (λ m,
    d ← mread (headerbuffer m) (tmsp_offset htyp) DLT_SIZE_WTMS;
    Some (set_headerextra m (set_tmsp (headerextra m) (DLT_BETOH_32 (le_Z d)))));
  Some (DLT_RETURN_OK, m3).

(** The byte order of [seid] and [tmsp] is changed in the message itself. *)
Definition dlt_message_set_extraparameters (m : DltMessage) : option (Z * DltMessage) :=
  htyp ← std_htyp m;
  m1 ← when (DLT_IS_HTYP_WEID htyp) m (λ m,
    hb ← mwrite (headerbuffer m) extra_offset (ecu (headerextra m));
    Some (set_headerbuffer m hb));
  m2 ← when (DLT_IS_HTYP_WSID htyp) m1 (λ m,
    let m := set_headerextra m
               (set_seid (headerextra m) (DLT_HTOBE_32 (seid (headerextra m)))) in
    hb ← mwrite (headerbuffer m) (seid_offset htyp) (le_bytes 4 (seid (headerextra m)));
    Some (set_headerbuffer m hb));
  m3 ← when (DLT_IS_HTYP_WTMS htyp) m2 (λ m,
    let m := set_headerextra m
               (set_tmsp (headerextra m) (DLT_HTOBE_32 (tmsp (headerextra m)))) in
    hb ← mwrite (headerbuffer m) (tmsp_offset htyp) (le_bytes 4 (tmsp (headerextra m)));
    Some (set_headerbuffer m hb));
  Some (DLT_RETURN_OK, m3).

(** The [do ... while] search for the serial header from offset [off] on:
    whether it was found, and the offset the loop ends with. *)
Fixpoint resync_loop (fuel : nat) (buffer : bytes) (length off : Z) : option (bool * Z) :=
  match fuel with
  | O => None
  | S fuel =>
      h ← mread buffer off 4;
      if bool_decide (h = dltSerialHeader) then Some (true, off)
      else
        let off := i32 (off + 1) in
        if 4 + off <=? length then resync_loop fuel buffer length off else Some (false, off)
  end.

(** First part of [dlt_message_read]: the message with its sync fields, the
    new start [pos] in the buffer and the remaining length. *)
Definition read_sync (m : DltMessage) (buffer : bytes) (length : Z) (resync : bool)
  : option (DltMessage * Z * Z) :=
  h ← mread buffer 0 4;
  if bool_decide (h = dltSerialHeader) then Some (set_sync m 1 (resync_offset m), 4, u32 (length - 4))
  else
    let m := set_sync m 0 (resync_offset m) in
    if resync then
      '(found, off) ← resync_loop (S (Z.to_nat length)) buffer length 0;
      let m := set_sync m (if (found : bool) then 1 else 0) off in
      let pos := if found then 4 else 0 in
      let length := if found then u32 (length - 4) else length in
      if 0 <? off then Some (m, pos + off, u32 (length - u32 off)) else Some (m, pos, length)
    else Some (m, 0, length).

(** Second part: standard header, sizes, extra parameters, extended header. *)
Definition read_headers (m : DltMessage) (buffer : bytes) (pos length : Z)
  : option (Z * DltMessage) :=
  if length <? sizeof_DltStandardHeader then Some (DLT_MESSAGE_ERROR_SIZE, m) else
  d ← mread buffer pos sizeof_DltStandardHeader;
  hb ← mwrite (headerbuffer m) sizeof_DltStorageHeader d;
  let m := set_pointers (set_headerbuffer m hb) (Some 0) (Some sizeof_DltStorageHeader)
             (extendedheader m) in
  htyp ← std_htyp m;
  len ← std_len m;
  let extra_size := u32 (DLT_STANDARD_HEADER_EXTRA_SIZE htyp + DLT_EXTENDED_SIZE htyp) in
  let hs := i32 (sizeof_DltStorageHeader + sizeof_DltStandardHeader + extra_size) in
  let m := set_sizes m hs (i32 (u32 (DLT_BETOH_16 len - u32 hs + sizeof_DltStorageHeader))) in
  let temp_datasize := DLT_BETOH_16 len - hs + sizeof_DltStorageHeader in
  if temp_datasize <? 0 then Some (DLT_MESSAGE_ERROR_CONTENT, m) else
  let m := set_sizes m hs temp_datasize in
  if 0 <? extra_size then
    if length <? hs - sizeof_DltStorageHeader then Some (DLT_MESSAGE_ERROR_SIZE, m) else
    d ← mread buffer (pos + sizeof_DltStandardHeader) extra_size;
    hb ← mwrite (headerbuffer m) (sizeof_DltStorageHeader + sizeof_DltStandardHeader) d;
    let m := set_headerbuffer m hb in
    let m := set_pointers m (storageheader m) (standardheader m)
               (if DLT_IS_HTYP_UEH htyp
                then Some (sizeof_DltStorageHeader + sizeof_DltStandardHeader +
                           DLT_STANDARD_HEADER_EXTRA_SIZE htyp)
                else None) in
    '(_, m) ← dlt_message_get_extraparameters m;
    Some (DLT_MESSAGE_ERROR_OK, m)
  else Some (DLT_MESSAGE_ERROR_OK, m).

(** The (re)allocation of the payload buffer of [dlt_message_read]. *)
Definition payload_buffer (A : allocator) (m : DltMessage) : DltMessage :=
  match databuffer m with
  | Some _ =>
      if databuffersize m <? datasize m
      then set_databuffer m (malloc A (datasize m)) (datasize m) else m
  | None => set_databuffer m (malloc A (datasize m)) (datasize m)
  end.

(** Third part: the payload. *)
Definition read_payload (A : allocator) (m : DltMessage) (buffer : bytes) (pos length : Z)
  : option (Z * DltMessage) :=
  if length <? headersize m - sizeof_DltStorageHeader + datasize m
  then Some (DLT_MESSAGE_ERROR_SIZE, m) else
  let m := payload_buffer A m in
  match databuffer m with
  | None => Some (DLT_MESSAGE_ERROR_UNKNOWN, m)
  | Some db =>
      d ← mread buffer (pos + (headersize m - sizeof_DltStorageHeader)) (datasize m);
      db' ← mwrite db 0 d;
      Some (DLT_MESSAGE_ERROR_OK, set_databuffer m (Some db') (databuffersize m))
  end.

Definition dlt_message_read (A : allocator) (m : DltMessage) (buffer : option bytes)
  (length : Z) (resync : bool) : option (Z * DltMessage) :=
  match buffer with
  | None => Some (DLT_MESSAGE_ERROR_UNKNOWN, m)
  | Some buffer =>
      if length <=? 0 then Some (DLT_MESSAGE_ERROR_UNKNOWN, m) else
      let m := set_sync m (found_serialheader m) 0 in
      if length <? 4 then Some (DLT_MESSAGE_ERROR_SIZE, m) else
      '(m, pos, length) ← read_sync m buffer length resync;
      '(rc, m) ← read_headers m buffer pos length;
      if rc =? DLT_MESSAGE_ERROR_OK then read_payload A m buffer pos length else Some (rc, m)
  end.

End Message.
