(* ===== verification/MessageSpec.v ===== *)
(** * Messages: wire format, parser correctness

    An abstract message and its encoding on the wire; [dlt_message_read]
    loads exactly the encoded message, and whatever it accepts is an encoding. *)

From stdpp Require Import base list numbers option.
From Stdlib Require Import ZArith Lia Bool.
From S2P Require Import Prelude Protocol Message.
Import Protocol Message.

Local Open Scope Z_scope.

Module MessageSpec.

(** ** The wire format *)

Record message := {
  m_htyp : Z;
  m_mcnt : Z;
  m_ecu : bytes;
  m_seid : Z;
  m_tmsp : Z;
  m_ext : bytes;
  m_payload : bytes
}.

Definition extra (M : message) : bytes :=
  (if DLT_IS_HTYP_WEID (m_htyp M) then m_ecu M else []) ++
  (if DLT_IS_HTYP_WSID (m_htyp M) then be_bytes 4 (m_seid M) else []) ++
  (if DLT_IS_HTYP_WTMS (m_htyp M) then be_bytes 4 (m_tmsp M) else []).
Definition ext (M : message) : bytes :=
  if DLT_IS_HTYP_UEH (m_htyp M) then m_ext M else [].
Definition message_len (M : message) : Z :=
  4 + zlen (extra M) + zlen (ext M) + zlen (m_payload M).
Definition std (M : message) : bytes :=
  [m_htyp M; m_mcnt M] ++ be_bytes 2 (message_len M).
Definition encode (M : message) : bytes := std M ++ extra M ++ ext M ++ m_payload M.

Record wf_message (M : message) : Prop := {
  wm_htyp : 0 <= m_htyp M < 256;
  wm_mcnt : 0 <= m_mcnt M < 256;
  wm_ecu : length (m_ecu M) = 4%nat;
  wm_seid : 0 <= m_seid M < 4294967296;
  wm_tmsp : 0 <= m_tmsp M < 4294967296;
  wm_ext : length (m_ext M) = 10%nat;
  wm_bytes : is_bytes (encode M);
  wm_len : message_len M < 65536
}.

Lemma length_extra M : wf_message M -> zlen (extra M) = DLT_STANDARD_HEADER_EXTRA_SIZE (m_htyp M).
Proof.
  intros W. pose proof (wm_ecu _ W).
  unfold extra, DLT_STANDARD_HEADER_EXTRA_SIZE, DLT_SIZE_WEID, DLT_SIZE_WSID, DLT_SIZE_WTMS.
  repeat case_match; len.
Qed.
Lemma length_ext M : wf_message M -> zlen (ext M) = DLT_EXTENDED_SIZE (m_htyp M).
Proof.
  intros W. pose proof (wm_ext _ W). unfold ext, DLT_EXTENDED_SIZE, sizeof_DltExtendedHeader.
  case_match; len.
Qed.
Lemma length_std M : zlen (std M) = 4.
Proof. unfold std. len. Qed.
Lemma length_encode M : zlen (encode M) = message_len M.
Proof. unfold encode, message_len. pose proof (length_std M). len. Qed.

(** ** What a loaded [DltMessage] holds *)

(** Well-formed message objects: the header buffer has its size, the payload
    buffer is as long as recorded. *)
Record wf (m : DltMessage) : Prop := {
  wf_hb : zlen (headerbuffer m) = HEADERBUFFER_SIZE;
  wf_hb_bytes : is_bytes (headerbuffer m);
  wf_db : ∀ d, databuffer m = Some d -> databuffersize m <= zlen d
}.

(** The extra parameters after loading: fields not sent keep their value. *)
Definition load_extra (M : message) (x : DltStandardHeaderExtra) : DltStandardHeaderExtra :=
  {| ecu := if DLT_IS_HTYP_WEID (m_htyp M) then m_ecu M else ecu x;
     seid := if DLT_IS_HTYP_WSID (m_htyp M) then m_seid M else seid x;
     tmsp := if DLT_IS_HTYP_WTMS (m_htyp M) then m_tmsp M else tmsp x |}.

(** The headers of [M] are in the header buffer, and the pointers and sizes
    describe them. *)
Record holds_headers (m : DltMessage) (M : message) : Prop := {
  hh_hb : ∃ sh rest, headerbuffer m = sh ++ std M ++ extra M ++ ext M ++ rest ∧ zlen sh = 16;
  hh_hs : headersize m = 20 + zlen (extra M) + zlen (ext M);
  hh_ds : datasize m = zlen (m_payload M);
  hh_std : standardheader m = Some 16;
  hh_ext : DLT_IS_HTYP_UEH (m_htyp M) = true -> extendedheader m = Some (20 + zlen (extra M));
  hh_extra : headerextra m = load_extra M (headerextra m)
}.

Record holds (m : DltMessage) (M : message) : Prop := {
  h_headers : holds_headers m M;
  h_payload : ∃ db, databuffer m = Some db ∧ mread db 0 (datasize m) = Some (m_payload M)
}.

(** ** Header fields *)

Ltac hdr := unfold seid_offset, tmsp_offset, extra_offset, HEADERBUFFER_SIZE,
  sizeof_DltStorageHeader, sizeof_DltStandardHeader, sizeof_DltExtendedHeader,
  sizeof_DltStandardHeaderExtra, DLT_SIZE_WEID, DLT_SIZE_WSID, DLT_SIZE_WTMS in *.

Lemma std_htyp_at m M sh rest :
  standardheader m = Some 16 -> headerbuffer m = sh ++ std M ++ rest -> zlen sh = 16 ->
  std_htyp m = Some (m_htyp M).
Proof.
  intros Hs Hb Hl. unfold std_htyp. rewrite Hs, Hb. bsimp.
  rewrite lookup_app_r by lia. replace (Z.to_nat 16 - length sh)%nat with 0%nat by lia. done.
Qed.

Lemma std_len_at m M sh rest :
  standardheader m = Some 16 -> headerbuffer m = sh ++ std M ++ rest -> zlen sh = 16 ->
  wf_message M -> std_len m = Some (DLT_SWAP_16 (message_len M)).
Proof.
  intros Hs Hb Hl W. unfold std_len. rewrite Hs, Hb. bsimp.
  unfold std. rewrite <-!app_assoc, (app_assoc sh). rewrite mread_mid by len. bsimp.
  pose proof (wm_len _ W) as Hm. assert (0 <= message_len M) by (unfold message_len; lia).
  rewrite <-le_bytes_swap_16 by lia. f_equal. apply le_Z_le_bytes.
  change (256 ^ Z.of_nat 2) with 65536. apply swap_16_range. lia.
Qed.

Lemma swap_16_invol v : 0 <= v < 65536 -> DLT_SWAP_16 (DLT_SWAP_16 v) = v.
Proof.
  intros Hv. pose proof (le_bytes_swap_16 v Hv) as E. apply (f_equal le_Z) in E.
  pose proof (swap_16_range v Hv). change 65536 with (256 ^ Z.of_nat 2) in H, Hv.
  rewrite le_Z_le_bytes in E by done. rewrite E.
  rewrite swap_16_le_Z by (apply is_bytes_be || apply length_be_bytes).
  by apply be_Z_be_bytes.
Qed.

Lemma swap_32_invol v : 0 <= v < 4294967296 -> DLT_SWAP_32 (DLT_SWAP_32 v) = v.
Proof.
  intros Hv. pose proof (le_bytes_swap_32 v Hv) as E. apply (f_equal le_Z) in E.
  pose proof (swap_32_range v Hv). change 4294967296 with (256 ^ Z.of_nat 4) in H, Hv.
  rewrite le_Z_le_bytes in E by done. rewrite E.
  rewrite swap_32_le_Z by (apply is_bytes_be || apply length_be_bytes).
  by apply be_Z_be_bytes.
Qed.

Lemma betoh_be_bytes v : 0 <= v < 4294967296 -> DLT_BETOH_32 (le_Z (be_bytes 4 v)) = v.
Proof.
  intros Hv. unfold DLT_BETOH_32.
  rewrite swap_32_le_Z by (apply is_bytes_be || apply length_be_bytes).
  by apply be_Z_be_bytes.
Qed.

(** ** Extra parameters *)

Lemma get_extraparameters_spec m M p rest :
  wf_message M -> std_htyp m = Some (m_htyp M) ->
  headerbuffer m = p ++ extra M ++ rest -> zlen p = 20 ->
  dlt_message_get_extraparameters m =
    Some (DLT_RETURN_OK, set_headerextra m (load_extra M (headerextra m))).
Proof.
  intros W Hs Hb Lp. unfold dlt_message_get_extraparameters. rewrite Hs. bsimp.
  pose proof (wm_ecu _ W) as Le. pose proof (wm_seid _ W). pose proof (wm_tmsp _ W).
  unfold extra in Hb. rewrite <-!app_assoc in Hb. unfold load_extra, when. hdr.
  destruct (DLT_IS_HTYP_WEID (m_htyp M)), (DLT_IS_HTYP_WSID (m_htyp M)),
    (DLT_IS_HTYP_WTMS (m_htyp M)); cbn [app] in Hb; bsimp;
    cbn [headerbuffer set_headerextra headerextra]; rewrite ?Hb;
    repeat (maccess;
      bsimp; cbn [headerbuffer set_headerextra headerextra]; rewrite ?Hb);
    rewrite ?betoh_be_bytes by done; by destruct m as [? ? ? ? ? ? ? ? ? [] ?].
Qed.

(** The extra parameters of the wire, as a region to be overwritten, in three
    pieces. *)
Lemma split_extra (old : bytes) (htyp : Z) :
  zlen old = DLT_STANDARD_HEADER_EXTRA_SIZE htyp ->
  ∃ o1 o2 o3, old = o1 ++ o2 ++ o3 ∧
    zlen o1 = (if DLT_IS_HTYP_WEID htyp then 4 else 0) ∧
    zlen o2 = (if DLT_IS_HTYP_WSID htyp then 4 else 0) ∧
    zlen o3 = (if DLT_IS_HTYP_WTMS htyp then 4 else 0).
Proof.
  unfold DLT_STANDARD_HEADER_EXTRA_SIZE. hdr. intros Hl.
  destruct (split_region old (if DLT_IS_HTYP_WEID htyp then 4 else 0)
              (if DLT_IS_HTYP_WSID htyp then 4 else 0)) as (a & d & c & -> & Ha & Hd);
    [repeat case_match; lia..|].
  exists a, d, c. split; [done|]. len.
Qed.

(** The extra parameters as [dlt_message_set_extraparameters] leaves them. *)
Definition swap_extra (htyp : Z) (x : DltStandardHeaderExtra) : DltStandardHeaderExtra :=
  {| ecu := ecu x;
     seid := if DLT_IS_HTYP_WSID htyp then DLT_SWAP_32 (seid x) else seid x;
     tmsp := if DLT_IS_HTYP_WTMS htyp then DLT_SWAP_32 (tmsp x) else tmsp x |}.

Lemma set_extraparameters_spec m M p old rest :
  wf_message M -> std_htyp m = Some (m_htyp M) ->
  headerextra m = {| ecu := m_ecu M; seid := m_seid M; tmsp := m_tmsp M |} ->
  headerbuffer m = p ++ old ++ rest -> zlen p = 20 -> zlen old = zlen (extra M) ->
  dlt_message_set_extraparameters m =
    Some (DLT_RETURN_OK,
          set_headerextra (set_headerbuffer m (p ++ extra M ++ rest))
            (swap_extra (m_htyp M) (headerextra m))).
Proof.
  intros W Hs Hx Hb Lp Lo. rewrite (length_extra _ W) in Lo.
  apply split_extra in Lo as (o1 & o2 & o3 & -> & L1 & L2 & L3).
  unfold dlt_message_set_extraparameters. rewrite Hs, Hx. bsimp.
  pose proof (wm_ecu _ W) as Le. pose proof (wm_seid _ W). pose proof (wm_tmsp _ W).
  rewrite <-!app_assoc in Hb. unfold extra, swap_extra, when, DLT_HTOBE_32. hdr.
  destruct (DLT_IS_HTYP_WEID (m_htyp M)), (DLT_IS_HTYP_WSID (m_htyp M)),
    (DLT_IS_HTYP_WTMS (m_htyp M));
    nils; cbn [app] in *; bsimp;
    cbn [headerbuffer set_headerextra headerextra set_headerbuffer set_seid set_tmsp ecu seid tmsp];
    rewrite ?Hx, ?Hb; cbn [seid tmsp ecu]; rewrite ?le_bytes_swap_32 by done;
    repeat (maccess; bsimp;
      cbn [headerbuffer set_headerextra headerextra set_headerbuffer set_seid set_tmsp
           ecu seid tmsp];
      rewrite ?Hx; cbn [seid tmsp ecu]; rewrite ?le_bytes_swap_32 by done);
    destruct m; cbn in Hx, Hb; subst; by rewrite <-?app_assoc.
Qed.

(** ** Loading the headers *)

(** Field access on updated messages. *)
Ltac mfields := cbn [found_serialheader resync_offset headersize datasize headerbuffer
  databuffer databuffersize storageheader standardheader headerextra extendedheader
  set_sync set_sizes set_headerbuffer set_databuffer set_pointers set_headerextra
  ecu seid tmsp load_extra].

Definition headers (M : message) : bytes := std M ++ extra M ++ ext M.

Lemma encode_headers M : encode M = headers M ++ m_payload M.
Proof. unfold encode, headers. by rewrite <-!app_assoc. Qed.

Lemma length_headers M : zlen (headers M) = 4 + zlen (extra M) + zlen (ext M).
Proof. unfold headers. pose proof (length_std M). len. Qed.

(** The state after the standard header [d] was copied. *)
Definition with_std (m : DltMessage) (hb : bytes) : DltMessage :=
  set_pointers (set_headerbuffer m hb) (Some 0) (Some 16) (extendedheader m).

Lemma split_hb m : wf m -> ∃ sh old rest, headerbuffer m = sh ++ old ++ rest ∧
  zlen sh = 16 ∧ zlen old = 4 ∧ zlen rest = 22.
Proof.
  intros W. pose proof (wf_hb _ W) as Hl. hdr.
  destruct (split_region (headerbuffer m) 16 4) as (sh & old & rest & E & ? & ?); [lia..|].
  exists sh, old, rest. split; [done|]. rewrite E in Hl. len.
Qed.

Definition same_buffers (m m' : DltMessage) : Prop :=
  databuffer m' = databuffer m ∧ databuffersize m' = databuffersize m ∧
  found_serialheader m' = found_serialheader m ∧ resync_offset m' = resync_offset m.

Lemma read_headers_spec m M pre post pos n :
  wf m -> wf_message M -> pos = zlen pre -> zlen (headers M) <= n ->
  ∃ m', read_headers m (pre ++ headers M ++ post) pos n = Some (DLT_MESSAGE_ERROR_OK, m') ∧
    holds_headers m' M ∧ wf m' ∧ same_buffers m m'.
Proof.
  intros W WM -> Hlen. pose proof (length_headers M) as Lh. pose proof (length_std M) as Ls.
  pose proof (length_extra M WM) as Lx. pose proof (length_ext M WM) as Le.
  pose proof (extra_size_range (m_htyp M)). pose proof (extended_size_range (m_htyp M)).
  destruct (split_hb m W) as (sh & old & rest & Hb & L1 & L2 & L3).
  pose proof (wf_hb_bytes _ W) as Bm. rewrite Hb, !is_bytes_app in Bm. destruct Bm as (B1 & _ & B3).
  pose proof (wm_bytes _ WM) as BM. rewrite encode_headers, is_bytes_app in BM.
  destruct BM as [BM _]. unfold headers in BM. rewrite !is_bytes_app in BM.
  destruct BM as (B4 & B5 & B6).
  pose proof (wm_len _ WM) as Hml. assert (0 <= message_len M) by (unfold message_len; lia).
  unfold read_headers. hdr. rewrite ltb_false by lia.
  unfold headers. rewrite <-!app_assoc, mread_mid by lia. bsimp.
  rewrite Hb, mwrite_mid by lia. bsimp.
  rewrite (std_htyp_at _ M sh rest) by done. bsimp.
  rewrite (std_len_at _ M sh rest) by done. bsimp.
  unfold DLT_BETOH_16. rewrite swap_16_invol by lia. cint.
  replace (message_len M - (16 + 4 + (DLT_STANDARD_HEADER_EXTRA_SIZE (m_htyp M) +
    DLT_EXTENDED_SIZE (m_htyp M))) + 16) with (zlen (m_payload M)) by (unfold message_len; lia).
  csimp. rewrite <-Lx, <-Le.
  destruct (Z.ltb_spec 0 (zlen (extra M) + zlen (ext M))) as [Hex|Hex].
  - rewrite ltb_false by lia.
    rewrite (app_assoc (extra M)), mread_mid2 by len. bsimp.
    cbn [headerbuffer set_sizes set_pointers set_headerbuffer].
    destruct (split_region rest 0 (zlen (extra M) + zlen (ext M))) as (z & o & r & -> & Lz & Lo);
      [lia..|]. nils. cbn [app] in *. rewrite mwrite_mid2 by len. bsimp.
    rewrite !is_bytes_app in B3. destruct B3 as [_ B3].
    match goal with |- context [dlt_message_get_extraparameters ?x] => set (m1 := x) end.
    rewrite (get_extraparameters_spec m1 M (sh ++ std M) (ext M ++ r)); [..|len]; [|done| |].
    2: { apply (std_htyp_at _ M sh ((extra M ++ ext M) ++ r)); done. }
    2: { subst m1. cbn [headerbuffer set_sizes set_pointers set_headerbuffer].
         by rewrite <-!app_assoc. }
    bsimp. eexists. split; [reflexivity|]. split_and!; subst m1.
    + split; mfields; [|lia|done|done| |].
      * exists sh, r. by rewrite <-!app_assoc.
      * by intros ->.
      * unfold load_extra. mfields. repeat case_match; done.
    + split; mfields; [hdr; len| |apply W]. rewrite !is_bytes_app. tauto.
    + done.
  - assert (zlen (extra M) = 0 ∧ zlen (ext M) = 0) as [E1 E2] by lia.
    assert (extra M = []) as Ex by (apply nil_length_inv; lia).
    assert (ext M = []) as Ee by (apply nil_length_inv; lia).
    eexists. split; [reflexivity|]. split_and!.
    + split; mfields; rewrite ?Ex, ?Ee; cbn [length]; [|lia|done|done| |].
      * by exists sh, rest.
      * intros HU. unfold ext in Ee. rewrite HU in Ee. pose proof (wm_ext _ WM). by rewrite Ee in *.
      * unfold load_extra. unfold DLT_STANDARD_HEADER_EXTRA_SIZE in Lx. hdr.
        destruct (headerextra m). repeat case_match; lia || done.
    + split; mfields; [hdr; len| |apply W]. rewrite !is_bytes_app. tauto.
    + done.
Qed.

(** ** Every byte string with a plausible header is an encoding *)

Definition announced (r : bytes) : Z := be_Z (take 2 (drop 2 r)).
Definition head_len (htyp : Z) : Z :=
  4 + DLT_STANDARD_HEADER_EXTRA_SIZE htyp + DLT_EXTENDED_SIZE htyp.

(** The message with the given pieces; absent fields get a default. *)
Definition message_of (h c : Z) (o1 o2 o3 xh pl : bytes) : message :=
  {| m_htyp := h; m_mcnt := c;
     m_ecu := if DLT_IS_HTYP_WEID h then o1 else [0; 0; 0; 0];
     m_seid := if DLT_IS_HTYP_WSID h then be_Z o2 else 0;
     m_tmsp := if DLT_IS_HTYP_WTMS h then be_Z o3 else 0;
     m_ext := if DLT_IS_HTYP_UEH h then xh else replicate 10 0;
     m_payload := pl |}.

Lemma be_piece (o : bytes) : is_bytes o -> zlen o = 4 -> be_bytes 4 (be_Z o) = o.
Proof. intros B L. replace 4%nat with (length o) by lia. by apply be_bytes_be_Z. Qed.

Lemma is_bytes_2 (a b : Z) : 0 <= a < 256 -> 0 <= b < 256 -> is_bytes [a; b].
Proof. intros. apply Forall_cons_2; [done|]. apply Forall_cons_2; [done|]. apply Forall_nil_2. Qed.

Section message_of.
Context (h c : Z) (o1 o2 o3 xh pl : bytes).
Context (L1 : zlen o1 = if DLT_IS_HTYP_WEID h then 4 else 0)
        (L2 : zlen o2 = if DLT_IS_HTYP_WSID h then 4 else 0)
        (L3 : zlen o3 = if DLT_IS_HTYP_WTMS h then 4 else 0)
        (Lx : zlen xh = DLT_EXTENDED_SIZE h)
        (Bh : 0 <= h < 256) (Bc : 0 <= c < 256)
        (B1 : is_bytes o1) (B2 : is_bytes o2) (B3 : is_bytes o3) (B4 : is_bytes xh)
        (B5 : is_bytes pl).

Lemma extra_message_of : extra (message_of h c o1 o2 o3 xh pl) = o1 ++ o2 ++ o3.
Proof using All.
  unfold extra, message_of. cbn [m_htyp m_ecu m_seid m_tmsp].
  destruct (DLT_IS_HTYP_WEID h), (DLT_IS_HTYP_WSID h), (DLT_IS_HTYP_WTMS h); nils;
    rewrite ?be_piece by done; done.
Qed.

Lemma ext_message_of : ext (message_of h c o1 o2 o3 xh pl) = xh.
Proof using All.
  unfold ext, message_of, DLT_EXTENDED_SIZE in *. cbn [m_htyp m_ext].
  destruct (DLT_IS_HTYP_UEH h); [done|]. symmetry. apply nil_length_inv. lia.
Qed.

Lemma wf_message_of :
  4 + zlen (o1 ++ o2 ++ o3) + zlen xh + zlen pl < 65536 ->
  wf_message (message_of h c o1 o2 o3 xh pl).
Proof using All.
  assert (∀ o, is_bytes o -> zlen o = 4 -> 0 <= be_Z o < 4294967296) as Hr.
  { intros o Bo Lo. pose proof (be_Z_range o Bo) as Hr. rewrite Lo in Hr.
    by change (256 ^ 4) with 4294967296 in Hr. }
  intros Hl. split; cbn [message_of m_htyp m_mcnt m_ecu m_seid m_tmsp m_ext]; try done.
  - destruct (DLT_IS_HTYP_WEID h); [lia|done].
  - destruct (DLT_IS_HTYP_WSID h); [by apply Hr|lia].
  - destruct (DLT_IS_HTYP_WTMS h); [by apply Hr|lia].
  - unfold DLT_EXTENDED_SIZE, sizeof_DltExtendedHeader in Lx.
    destruct (DLT_IS_HTYP_UEH h); [lia|by rewrite length_replicate].
  - unfold encode, std. rewrite !is_bytes_app, extra_message_of, ext_message_of, !is_bytes_app.
    split_and!; try done; [by apply is_bytes_2|apply is_bytes_be].
  - unfold message_len. rewrite extra_message_of, ext_message_of. done.
Qed.
End message_of.

(** [b] starts with the headers of a well-formed message; the payload is there
    too when [b] is as long as the header announces. *)
Lemma parse_headers (h c l1 l2 : Z) (r : bytes) :
  let b := h :: c :: l1 :: l2 :: r in
  is_bytes b -> head_len h <= zlen b -> head_len h <= announced b ->
  ∃ M post, wf_message M ∧ b = headers M ++ post ∧ m_htyp M = h ∧
    message_len M = announced b ∧
    (announced b <= zlen b -> ∃ post', b = encode M ++ post').
Proof.
  intros b Hb Hl Ha. unfold head_len in *. set (n1 := DLT_STANDARD_HEADER_EXTRA_SIZE h) in *.
  pose proof (extra_size_range h). pose proof (extended_size_range h).
  assert (announced b = be_Z [l1; l2]) as Hann by done.
  unfold is_bytes, b in Hb. rewrite !Forall_cons_iff in Hb.
  destruct Hb as (Bh & Bc & Bl1 & Bl2 & Br).
  assert (is_bytes [l1; l2]) as Bl by (by apply is_bytes_2).
  pose proof (be_Z_range _ Bl) as Hr. change (256 ^ zlen [l1; l2]) with 65536 in Hr.
  assert (zlen b = 4 + zlen r) as Lb by (unfold b; len).
  destruct (split_region r 0 n1) as (z & ex & r1 & -> & Lz & Lex); [lia..|]. nils.
  cbn [app] in *. pose proof Lex as Lex'.
  apply (split_extra ex h) in Lex' as (o1 & o2 & o3 & -> & L1 & L2 & L3).
  destruct (split_region r1 0 (DLT_EXTENDED_SIZE h)) as (z & xh & pl & -> & Lz' & Lxh); [len..|].
  nils. cbn [app] in *. change (Forall (λ b, 0 <= b < 256)) with is_bytes in Br.
  rewrite !is_bytes_app in Br. destruct Br as ((B1 & B2 & B3) & B4 & B5).
  set (np := Z.to_nat (announced b - 4 - n1 - DLT_EXTENDED_SIZE h)).
  set (p := take np (pl ++ replicate np 0)).
  assert (zlen p = announced b - 4 - n1 - DLT_EXTENDED_SIZE h) as Lp by (subst p; len).
  assert (is_bytes p) as Bp.
  { apply Forall_take, is_bytes_app. split; [done|]. apply Forall_replicate. lia. }
  pose proof (extra_message_of h c o1 o2 o3 xh p L1 L2 L3 Lxh Bh Bc B1 B2 B3 B4 Bp) as Eex.
  pose proof (ext_message_of h c o1 o2 o3 xh p L1 L2 L3 Lxh Bh Bc B1 B2 B3 B4 Bp) as Eext.
  pose proof (wf_message_of h c o1 o2 o3 xh p L1 L2 L3 Lxh Bh Bc B1 B2 B3 B4 Bp ltac:(lia)) as WM.
  set (M := message_of h c o1 o2 o3 xh p) in *.
  assert (message_len M = announced b) as Lm
    by (unfold message_len; rewrite Eex, Eext, Lex, Lxh; cbn [m_payload M message_of]; lia).
  assert (std M = [h; c; l1; l2]) as Estd.
  { unfold std. rewrite Lm, Hann. change 2%nat with (length [l1; l2]).
    by rewrite be_bytes_be_Z by done. }
  exists M, pl. split_and!; [done| |done|done|].
  - unfold headers. rewrite Estd, Eex, Eext. unfold b. by rewrite <-!app_assoc.
  - intros Hle. exists (drop np pl). unfold encode. rewrite Estd, Eex, Eext.
    assert (m_payload M = take np pl) as Epl.
    { cbn [M message_of m_payload]. subst p. apply take_app_le. rewrite Lb in Hle. subst np. len. }
    rewrite Epl. unfold b. by rewrite <-!app_assoc, take_drop.
Qed.

(** The first four bytes behind [pos]. *)
Lemma four_bytes (b : bytes) : 4 <= zlen b -> ∃ h c l1 l2 r, b = h :: c :: l1 :: l2 :: r.
Proof. destruct b as [|h [|c [|l1 [|l2 r]]]]; simpl; try lia. intros _. by exists h, c, l1, l2, r. Qed.

(** Well-formedness only depends on the buffers. *)
Lemma wf_same (m m' : DltMessage) :
  wf m -> headerbuffer m' = headerbuffer m -> same_buffers m m' -> wf m'.
Proof. intros [H1 H2 H3] E (E1 & E2 & _). split; rewrite ?E, ?E1, ?E2; done. Qed.

Lemma wf_set_hb (m : DltMessage) (sh d rest : bytes) :
  wf m -> is_bytes sh -> is_bytes d -> is_bytes rest -> zlen sh + zlen d + zlen rest = 42 ->
  wf (set_headerbuffer m (sh ++ d ++ rest)).
Proof.
  intros W B1 B2 B3 Hl. split; mfields; [hdr; len|by rewrite !is_bytes_app|apply W].
Qed.

(** Messages rejected by their header: too short for what it announces, or
    announcing less than its own header. *)
Lemma read_headers_rejects m pre h c l1 l2 r pos n :
  let b := h :: c :: l1 :: l2 :: r in
  wf m -> is_bytes b -> pos = zlen pre -> 4 <= n <= zlen b ->
  announced b < head_len h ∨ n < head_len h ->
  ∃ rc m', read_headers m (pre ++ b) pos n = Some (rc, m') ∧ rc <> DLT_MESSAGE_ERROR_OK ∧
    wf m' ∧ same_buffers m m'.
Proof.
  intros b W Hb -> Hn Hrej. pose proof (extra_size_range h). pose proof (extended_size_range h).
  destruct (split_hb m W) as (sh & old & rest & Hhb & L1 & L2 & L3).
  pose proof (wf_hb_bytes _ W) as Bm. rewrite Hhb, !is_bytes_app in Bm. destruct Bm as (B1 & _ & B3).
  unfold is_bytes, b in Hb. rewrite !Forall_cons_iff in Hb. destruct Hb as (Bh & Bc & Bl1 & Bl2 & _).
  assert (is_bytes [l1; l2]) as Bl by (by apply is_bytes_2).
  assert (announced b = be_Z [l1; l2]) as Ha by done.
  pose proof (be_Z_range _ Bl) as Hr. change (256 ^ zlen [l1; l2]) with 65536 in Hr.
  assert (wf (set_headerbuffer m (sh ++ [h; c; l1; l2] ++ rest))) as W1.
  { apply wf_set_hb; try done; [|simpl length; lia].
    change [h; c; l1; l2] with ([h; c] ++ [l1; l2]). apply is_bytes_app.
    split; by apply is_bytes_2. }
  unfold read_headers. hdr. rewrite ltb_false by lia.
  change b with ([h; c; l1; l2] ++ r). rewrite mread_mid by done. bsimp.
  rewrite Hhb, mwrite_mid by (simpl length; lia). bsimp.
  unfold std_htyp, std_len. mfields. bsimp.
  rewrite lookup_app_r by lia. replace (Z.to_nat 16 - length sh)%nat with 0%nat by lia.
  cbn [app lookup list_lookup]. bsimp. change (h :: c :: l1 :: l2 :: rest) with ([h; c] ++ [l1; l2] ++ rest).
  rewrite mread_mid2 by (simpl length; lia). bsimp.
  unfold DLT_BETOH_16. rewrite swap_16_le_Z by done. cint. unfold head_len in Hrej.
  destruct (Z.ltb_spec (be_Z [l1; l2] - (16 + 4 + (DLT_STANDARD_HEADER_EXTRA_SIZE h +
    DLT_EXTENDED_SIZE h)) + 16) 0).
  - eexists _, _. split; [reflexivity|]. split; [done|]. split; [|done]. by apply (wf_same _ _ W1).
  - rewrite ltb_true by lia. rewrite ltb_true by lia.
    eexists _, _. split; [reflexivity|]. split; [done|]. split; [|done]. by apply (wf_same _ _ W1).
Qed.

Lemma read_headers_total m pre b pos n :
  wf m -> is_bytes b -> pos = zlen pre -> 0 <= n <= zlen b ->
  ∃ rc m', read_headers m (pre ++ b) pos n = Some (rc, m') ∧ wf m' ∧ same_buffers m m' ∧
    (rc = DLT_MESSAGE_ERROR_OK ->
     ∃ M, wf_message M ∧ holds_headers m' M ∧
       (message_len M <= zlen b -> ∃ post, b = encode M ++ post)).
Proof.
  intros W Bb Hp Hn. destruct (Z.lt_ge_cases n 4).
  { exists DLT_MESSAGE_ERROR_SIZE, m. unfold read_headers. hdr. rewrite ltb_true by lia.
    split_and!; done. }
  destruct (four_bytes b) as (h & c & l1 & l2 & r & ->); [lia|].
  set (b := h :: c :: l1 :: l2 :: r) in *.
  destruct (Z.lt_ge_cases (announced b) (head_len h)).
  { destruct (read_headers_rejects m pre h c l1 l2 r pos n) as (rc & m' & ? & ? & ? & ?);
      [done|done|done|fold b; lia|by left|]. exists rc, m'. split_and!; done. }
  destruct (Z.lt_ge_cases n (head_len h)).
  { destruct (read_headers_rejects m pre h c l1 l2 r pos n) as (rc & m' & ? & ? & ? & ?);
      [done|done|done|fold b; lia|by right|]. exists rc, m'. split_and!; done. }
  destruct (parse_headers h c l1 l2 r) as (M & post & WM & Eb & Eh & El & Hfull);
    [done|fold b; lia|fold b; lia|]. fold b in Eb, El, Hfull.
  destruct (read_headers_spec m M pre post pos n W WM Hp) as (m' & E & Hh & W' & Hs).
  { rewrite length_headers, length_extra, length_ext, Eh by done. unfold head_len in *. lia. }
  exists DLT_MESSAGE_ERROR_OK, m'. rewrite Eb. split_and!; try done. intros _.
  exists M. split_and!; [done|done|]. rewrite <-Eb, El. done.
Qed.

(** ** Loading the payload *)

Lemma holds_headers_databuffer m M db n :
  holds_headers m M -> holds_headers (set_databuffer m db n) M.
Proof. intros [? ? ? ? ? ?]. by split. Qed.

Lemma payload_buffer_shape A m :
  ∃ db n, payload_buffer A m = set_databuffer m db n.
Proof.
  unfold payload_buffer. destruct (databuffer m) eqn:E; [case_match|]; [by eexists _, _| |by eexists _, _].
  exists (databuffer m), (databuffersize m). by destruct m.
Qed.

(** The buffer chosen for the payload is large enough. *)
Lemma payload_buffer_room A m :
  wf m -> 0 <= datasize m ->
  wf (payload_buffer A m) ∧
  (∀ db, databuffer (payload_buffer A m) = Some db -> datasize m <= zlen db) ∧
  (databuffer (payload_buffer A m) = None -> malloc A (datasize m) = None).
Proof.
  intros W Hd. pose proof (malloc_length A (datasize m)) as Hm.
  unfold payload_buffer. destruct (databuffer m) as [db0|] eqn:E.
  - destruct (Z.ltb_spec (databuffersize m) (datasize m)).
    + split; [|split]; mfields; [|intros db Hdb; apply Hm in Hdb; lia|done].
      split; mfields; [apply W|apply W|]. intros d Hdb. apply Hm in Hdb. lia.
    + rewrite E. split; [done|]. split; [|done]. intros db [= <-].
      pose proof (wf_db _ W _ E). lia.
  - split; [|split]; mfields; [|intros db Hdb; apply Hm in Hdb; lia|done].
    split; mfields; [apply W|apply W|]. intros d Hdb. apply Hm in Hdb. lia.
Qed.

Lemma read_payload_short A m M b pos n :
  holds_headers m M -> n < message_len M ->
  read_payload A m b pos n = Some (DLT_MESSAGE_ERROR_SIZE, m).
Proof.
  intros Hh Hn. unfold read_payload. hdr. rewrite (hh_hs _ _ Hh), (hh_ds _ _ Hh).
  unfold message_len in Hn. by rewrite ltb_true by lia.
Qed.

Lemma read_payload_spec A m M pre post pos n :
  wf m -> wf_message M -> holds_headers m M -> pos = zlen pre -> message_len M <= n ->
  ∃ rc m', read_payload A m (pre ++ encode M ++ post) pos n = Some (rc, m') ∧ wf m' ∧
    ((rc = DLT_MESSAGE_ERROR_OK ∧ holds m' M) ∨
     (rc = DLT_MESSAGE_ERROR_UNKNOWN ∧ malloc A (zlen (m_payload M)) = None)).
Proof.
  intros W WM Hh -> Hn. unfold read_payload. hdr. rewrite (hh_hs _ _ Hh), (hh_ds _ _ Hh).
  unfold message_len in Hn. rewrite ltb_false by lia.
  destruct (payload_buffer_room A m W) as (W1 & Hroom & Hnone);
    [rewrite (hh_ds _ _ Hh); lia|].
  destruct (payload_buffer_shape A m) as (db & sz & E). rewrite E in *. mfields.
  rewrite (hh_hs _ _ Hh), (hh_ds _ _ Hh) in *. mfields. destruct db as [db|].
  - rewrite encode_headers, <-app_assoc, mread_mid2 by (pose proof (length_headers M); lia). bsimp.
    specialize (Hroom db eq_refl).
    destruct (split_region db 0 (zlen (m_payload M))) as (z & o & r & -> & Lz & Lo); [lia..|].
    nils. cbn [app]. rewrite (mwrite_mid [] o _ r) by (simpl; lia). bsimp.
    eexists _, _. split; [reflexivity|]. split.
    + split; mfields; [apply W|apply W|]. intros d [= <-].
      pose proof (wf_db _ W1 (o ++ r) eq_refl) as Hr. cbn [set_databuffer databuffersize] in Hr. len.
    + left. split; [done|]. split; [by apply (holds_headers_databuffer _ _ _ _ Hh)|].
      eexists. split; [reflexivity|]. mfields. rewrite (hh_ds _ _ Hh).
      by rewrite (mread_mid [] (m_payload M) r) by (simpl; lia).
  - eexists _, _. split; [reflexivity|]. split; [done|]. right. by split; [|apply Hnone].
Qed.

(** ** Synchronisation *)

Definition serial_at (b : bytes) (k : Z) : Prop := mread b k 4 = Some dltSerialHeader.

Lemma resync_loop_total fuel b n off :
  0 <= off -> off + 4 <= n <= zlen b -> n < 2147483648 -> n - off < Z.of_nat fuel ->
  ∃ f o, resync_loop fuel b n off = Some (f, o) ∧
    (if f : bool then off <= o ∧ o + 4 <= n ∧ serial_at b o else o = n - 3) ∧
    (∀ k, off <= k < o -> ¬ serial_at b k).
Proof.
  revert off. induction fuel as [|fuel IH]; intros off H0 H1 H2 Hf; [lia|].
  cbn [resync_loop]. destruct (mread b off 4) as [h|] eqn:E;
    [|unfold mread in E; by rewrite !leb_true in E by lia]. bsimp.
  destruct (bool_decide_reflect (h = dltSerialHeader)) as [->|Hne].
  { exists true, off. split; [done|]. split; [|lia]. split; [lia|]. by split; [lia|]. }
  assert (¬ serial_at b off) as Hno by (unfold serial_at; congruence).
  cint. destruct (Z.leb_spec (4 + (off + 1)) n).
  - destruct (IH (off + 1)) as (f & o & -> & Hfo & Hk); [lia..|]. exists f, o.
    split; [done|]. split; [destruct f; [intuition lia|done]|].
    intros k Hk'. destruct (decide (k = off)) as [->|]; [done|]. apply Hk. lia.
  - exists false, (off + 1). split; [done|]. split; [lia|]. intros k Hk.
    by replace k with off by lia.
Qed.

(** Where the parser looks for the standard header. *)
Inductive sync_point (b : bytes) : bool -> Z -> Prop :=
| sp_serial resync : serial_at b 0 -> sync_point b resync 4
| sp_plain : ¬ serial_at b 0 -> sync_point b false 0
| sp_resync o : serial_at b o -> 0 < o -> (∀ k, 0 <= k < o -> ¬ serial_at b k) ->
    sync_point b true (o + 4).

Definition same_memory (m m' : DltMessage) : Prop :=
  headerbuffer m' = headerbuffer m ∧ databuffer m' = databuffer m ∧
  databuffersize m' = databuffersize m.

Lemma read_sync_total m b n resync :
  4 <= n <= zlen b -> n < 2147483648 ->
  ∃ m' k, read_sync m b n resync = Some (m', k, n - k) ∧ same_memory m m' ∧ 0 <= k <= n ∧
    (sync_point b resync k ∨ n - k = 3 ∧ resync = true ∧ ∀ o, 0 <= o < n - 3 -> ¬ serial_at b o).
Proof.
  intros Hn Hn2. unfold read_sync.
  destruct (mread b 0 4) as [h|] eqn:E; [|unfold mread in E; by rewrite !leb_true in E by lia].
  bsimp. destruct (bool_decide_reflect (h = dltSerialHeader)) as [->|Hne].
  { cint. eexists _, 4. split; [reflexivity|]. split; [done|]. split; [lia|]. left. by constructor. }
  assert (¬ serial_at b 0) as Hno by (unfold serial_at; congruence).
  destruct resync.
  2: { eexists _, 0. rewrite Z.sub_0_r. split; [reflexivity|]. split; [done|].
       split; [lia|]. left. by constructor. }
  destruct (resync_loop_total (S (Z.to_nat n)) b n 0) as (f & o & -> & Hfo & Hk); [lia..|]. bsimp.
  destruct f.
  - destruct Hfo as (? & ? & Hs). destruct (decide (o = 0)) as [->|Ho]; [done|].
    rewrite ltb_true by lia. cint. eexists _, (o + 4).
    replace (n - (o + 4)) with (n - 4 - o) by lia. rewrite (Z.add_comm 4).
    split; [reflexivity|]. split; [done|]. split; [lia|]. left. constructor; [done|lia|done].
  - subst o. rewrite ltb_true by lia. cint. eexists _, (n - 3). rewrite Z.add_0_l.
    split; [reflexivity|]. split; [done|]. split; [lia|]. right. split; [lia|]. by split.
Qed.

Lemma sync_point_unique b resync k k' :
  sync_point b resync k -> sync_point b resync k' -> k = k'.
Proof.
  destruct 1 as [r Hs|Hn|o Hs Ho Hk]; inversion 1 as [r' Hs'|Hn'|o' Hs' Ho' Hk']; subst;
    try done; try (by destruct (Hk' 0); [lia|]); try (by destruct (Hk 0); [lia|]).
  destruct (Z.lt_trichotomy o o') as [|[->|]]; [|done|];
    [by destruct (Hk' o); [lia|]|by destruct (Hk o'); [lia|]].
Qed.

Lemma wf_same_memory m m' : wf m -> same_memory m m' -> wf m'.
Proof. intros [H1 H2 H3] (E & E1 & E2). split; rewrite ?E, ?E1, ?E2; done. Qed.

(** ** Theorems *)

Lemma read_sound (A : allocator) (m : DltMessage) (b : bytes) (n : Z) (resync : bool) :
  wf m -> is_bytes b -> 0 <= n <= zlen b -> n < 2147483648 ->
  ∃ rc m', dlt_message_read A m (Some b) n resync = Some (rc, m') ∧ wf m' ∧
    (rc = DLT_MESSAGE_ERROR_OK ->
     ∃ pre M post, b = pre ++ encode M ++ post ∧ sync_point b resync (zlen pre) ∧
       zlen pre + message_len M <= n ∧ wf_message M ∧ holds m' M).
Proof.
  intros W Bb Hn Hn2. unfold dlt_message_read. destruct (Z.leb_spec n 0).
  { eexists _, _. split; [reflexivity|]. split; [done|]. intros [=]. }
  set (m0 := set_sync m (found_serialheader m) 0).
  assert (wf m0) as W0 by (by apply (wf_same_memory m)).
  destruct (Z.ltb_spec n 4).
  { eexists _, _. split; [reflexivity|]. split; [done|]. intros [=]. }
  destruct (read_sync_total m0 b n resync) as (m1 & k & -> & Hmem & Hk & Hsp); [lia..|]. bsimp.
  pose proof (wf_same_memory _ _ W0 Hmem) as W1.
  pose proof (take_drop (Z.to_nat k) b) as Eb.
  set (pre := take (Z.to_nat k) b) in *. set (r := drop (Z.to_nat k) b) in *.
  assert (zlen pre = k) as Lpre by (subst pre; len).
  assert (is_bytes r) as Br by (by apply Forall_drop).
  destruct (read_headers_total m1 pre r k (n - k)) as (rc & m2 & E & W2 & _ & Hok);
    [done|done|done|subst r; len|]. rewrite Eb in E. rewrite E. bsimp.
  destruct (Z.eqb_spec rc DLT_MESSAGE_ERROR_OK) as [->|Hne].
  2: { eexists _, _. by split. }
  destruct Hok as (M & WM & Hh & Hfull); [done|].
  destruct (Z.lt_ge_cases (n - k) (message_len M)) as [Hlt|Hge].
  { rewrite (read_payload_short A m2 M) by done. eexists _, _. split; [reflexivity|].
    split; [done|]. intros [=]. }
  destruct Hfull as (post & Er); [subst r; len|]. rewrite Er in Eb.
  destruct (read_payload_spec A m2 M pre post k (n - k)) as (rc & m3 & E' & W3 & Hrc); try done.
  rewrite Eb in E'. rewrite E'.
  exists rc, m3. split; [done|]. split; [done|]. intros ->.
  destruct Hrc as [[_ Hm]|[[=] _]]. exists pre, M, post. rewrite Lpre.
  split; [done|]. split; [|split; [lia|done]].
  destruct Hsp as [|(H3 & _)]; [done|]. exfalso.
  assert (4 <= message_len M) by (unfold message_len; lia). lia.
Qed.

(** C2: [dlt_message_read] never leaves the receive buffer, the header buffer
    or the payload buffer, whatever bytes were received, and what it accepts is
    the encoding of a message that starts at the synchronisation point and lies
    completely in the buffer; the message object then holds that message. *)
Theorem message_read_sound (A : allocator) (m : DltMessage) (b : bytes) (n : Z) (resync : bool) :
  wf m -> is_bytes b -> 0 <= n <= zlen b -> n < 2147483648 ->
  ∃ rc m', dlt_message_read A m (Some b) n resync = Some (rc, m') ∧ wf m' ∧
    (rc = DLT_MESSAGE_ERROR_OK ->
     ∃ pre M post, b = pre ++ encode M ++ post ∧ sync_point b resync (zlen pre) ∧
       zlen pre + message_len M <= n ∧ wf_message M ∧ holds m' M).
Proof. apply read_sound. Qed.

(** A message object that was never used. *)
Definition fresh : DltMessage :=
  {| found_serialheader := 0; resync_offset := 0; headersize := 0; datasize := 0;
     headerbuffer := replicate 42 0; databuffer := None; databuffersize := 0;
     storageheader := None; standardheader := None;
     headerextra := {| ecu := [0; 0; 0; 0]; seid := 0; tmsp := 0 |}; extendedheader := None |}.

Lemma wf_fresh : wf fresh.
Proof. split; [done| |done]. by apply is_bytes_forallb. Qed.

(** A verbose log message with all header parameters and a payload of three
    bytes. *)
Definition sample : message :=
  {| m_htyp := 61; m_mcnt := 7; m_ecu := [69; 67; 85; 49]; m_seid := 4711; m_tmsp := 123456;
     m_ext := [65; 1; 65; 80; 80; 49; 67; 84; 88; 49]; m_payload := [1; 2; 3] |}.

Lemma wf_sample : wf_message sample.
Proof.
  split; try (vm_compute; intuition congruence).
  by apply is_bytes_forallb.
Qed.

Lemma message_read_sound_witness :
  ∃ rc m', dlt_message_read (heap_filled 0) fresh (Some [1; 2; 68; 76; 83; 1; 32; 0; 0; 4]) 10 true
             = Some (rc, m') ∧ wf m' ∧
    (rc = DLT_MESSAGE_ERROR_OK ->
     ∃ pre M post, [1; 2; 68; 76; 83; 1; 32; 0; 0; 4] = pre ++ encode M ++ post ∧
       sync_point [1; 2; 68; 76; 83; 1; 32; 0; 0; 4] true (zlen pre) ∧
       zlen pre + message_len M <= 10 ∧ wf_message M ∧ holds m' M).
Proof.
  apply (message_read_sound (heap_filled 0) fresh [1; 2; 68; 76; 83; 1; 32; 0; 0; 4] 10 true).
  - apply wf_fresh.
  - by apply is_bytes_forallb.
  - simpl. lia.
  - lia.
Defined.

Lemma read_complete (A : allocator) (m : DltMessage) (pre post : bytes) (M : message)
  (n : Z) (resync : bool) :
  wf m -> wf_message M -> is_bytes pre -> is_bytes post ->
  sync_point (pre ++ encode M ++ post) resync (zlen pre) ->
  zlen pre + message_len M <= n <= zlen (pre ++ encode M ++ post) -> n < 2147483648 ->
  malloc A (zlen (m_payload M)) <> None ->
  ∃ m', dlt_message_read A m (Some (pre ++ encode M ++ post)) n resync =
          Some (DLT_MESSAGE_ERROR_OK, m') ∧ wf m' ∧ holds m' M.
Proof.
  intros W WM Bpre Bpost Hsp Hn Hn2 HA. unfold dlt_message_read.
  assert (4 <= message_len M) by (unfold message_len; lia).
  rewrite leb_false, ltb_false by lia. set (b := pre ++ encode M ++ post) in *.
  set (m0 := set_sync m (found_serialheader m) 0).
  assert (wf m0) as W0 by (by apply (wf_same_memory m)).
  destruct (read_sync_total m0 b n resync) as (m1 & k & -> & Hmem & Hk & Hsp'); [lia..|]. bsimp.
  pose proof (wf_same_memory _ _ W0 Hmem) as W1.
  assert (k = zlen pre) as ->.
  { destruct Hsp' as [Hsp'|(H3 & -> & Hnone)]; [by apply (sync_point_unique b resync)|].
    inversion Hsp as [r Hs Hr E|Hs Hr E|o Hs Ho Hko Hr E]; subst; [|destruct (Hnone o); [lia|done]].
    by destruct (Hnone 0); [lia|]. }
  unfold b. rewrite encode_headers, <-app_assoc.
  destruct (read_headers_spec m1 M pre (m_payload M ++ post) (zlen pre) (n - zlen pre))
    as (m2 & -> & Hh & W2 & _); [done|done|done|rewrite length_headers; unfold message_len in *; lia|].
  bsimp. rewrite Z.eqb_refl, (app_assoc (headers M)), <-encode_headers.
  destruct (read_payload_spec A m2 M pre post (zlen pre) (n - zlen pre))
    as (rc & m3 & -> & W3 & [[-> Hm]|[_ HA']]); [done|done|done|done|lia| |done].
  by exists m3.
Qed.

(** C23: round trip.  A message encoded anywhere in the receive buffer is read
    back exactly, provided that it starts at the synchronisation point, is
    complete and the payload buffer can be allocated. *)
Theorem message_read_complete (A : allocator) (m : DltMessage) (pre post : bytes) (M : message)
  (n : Z) (resync : bool) :
  wf m -> wf_message M -> is_bytes pre -> is_bytes post ->
  sync_point (pre ++ encode M ++ post) resync (zlen pre) ->
  zlen pre + message_len M <= n <= zlen (pre ++ encode M ++ post) -> n < 2147483648 ->
  malloc A (zlen (m_payload M)) <> None ->
  ∃ m', dlt_message_read A m (Some (pre ++ encode M ++ post)) n resync =
          Some (DLT_MESSAGE_ERROR_OK, m') ∧ wf m' ∧ holds m' M.
Proof. apply read_complete. Qed.

Lemma message_read_complete_witness :
  ∃ m', dlt_message_read (heap_filled 0) fresh
          (Some ([9; 68; 76; 83; 1] ++ encode sample ++ [5])) 35 true =
          Some (DLT_MESSAGE_ERROR_OK, m') ∧ wf m' ∧ holds m' sample.
Proof.
  apply (message_read_complete (heap_filled 0) fresh [9; 68; 76; 83; 1] [5] sample 35 true).
  - apply wf_fresh.
  - apply wf_sample.
  - by apply is_bytes_forallb.
  - by apply is_bytes_forallb.
  - apply (sp_resync _ 1); [reflexivity|lia|]. intros k Hk. replace k with 0 by lia. discriminate.
  - vm_compute. intuition congruence.
  - lia.
  - discriminate.
Defined.

(** writing the extra header parameters into the header buffer and reading
    them back restores [headerextra]; only the bytes of the parameters that the
    header type announces are written. *)
Theorem extraparameters_roundtrip (m : DltMessage) (M : message) (p old rest : bytes) :
  wf_message M -> standardheader m = Some 16 -> std_htyp m = Some (m_htyp M) ->
  headerextra m = {| ecu := m_ecu M; seid := m_seid M; tmsp := m_tmsp M |} ->
  headerbuffer m = p ++ old ++ rest -> zlen p = 20 -> zlen old = zlen (extra M) ->
  ∃ m', dlt_message_set_extraparameters m = Some (DLT_RETURN_OK, m') ∧
    headerbuffer m' = p ++ extra M ++ rest ∧
    dlt_message_get_extraparameters m' =
      Some (DLT_RETURN_OK, set_headerbuffer m (p ++ extra M ++ rest)).
Proof.
  intros WM Hstd Hs Hx Hb Lp Lo. eexists. split; [by apply (set_extraparameters_spec m M p old rest)|].
  split; [done|]. rewrite (get_extraparameters_spec _ M p rest); [|done| |done|done].
  - do 2 f_equal. rewrite Hx. unfold load_extra, swap_extra, set_headerextra, set_headerbuffer.
    mfields. rewrite Hx. repeat case_match; done.
  - rewrite <-Hs. unfold std_htyp. mfields. rewrite Hstd, Hb. bsimp.
    by rewrite !lookup_app_l by lia.
Qed.

Lemma extraparameters_roundtrip_witness :
  let m := {| found_serialheader := 0; resync_offset := 0; headersize := 0; datasize := 0;
     headerbuffer := replicate 16 0 ++ std sample ++ replicate 22 0; databuffer := None;
     databuffersize := 0; storageheader := Some 0; standardheader := Some 16;
     headerextra := {| ecu := m_ecu sample; seid := m_seid sample; tmsp := m_tmsp sample |};
     extendedheader := None |} in
  ∃ m', dlt_message_set_extraparameters m = Some (DLT_RETURN_OK, m') ∧
    headerbuffer m' = (replicate 16 0 ++ std sample) ++ extra sample ++ replicate 10 0 ∧
    dlt_message_get_extraparameters m' =
      Some (DLT_RETURN_OK,
            set_headerbuffer m ((replicate 16 0 ++ std sample) ++ extra sample ++ replicate 10 0)).
Proof.
  intros m. apply (extraparameters_roundtrip m sample (replicate 16 0 ++ std sample)
    (replicate 12 0) (replicate 10 0)); [apply wf_sample|reflexivity..].
Defined.

End MessageSpec.
