(* ===== verification/Filter.v ===== *)
(** * Message filters ([src/shared/dlt_common.c])

    [DltFilter] is a table of at most [DLT_FILTER_MAX] entries.  The struct
    keeps one array per attribute, all of [DLT_FILTER_MAX] elements and all
    accessed with the same index: here it is the list of the rows.  Accessing
    a row that does not exist is undefined and gives [None], as does comparing
    through a null pointer. *)

From stdpp Require Import base list numbers option.
From Stdlib Require Import ZArith Lia Bool.
From S2P Require Import Prelude Protocol Ids Message.
Import Protocol Ids Message.

Local Open Scope Z_scope.

Module Filter.

(** ** Data *)

Definition DLT_FILTER_MAX : Z := 30.
Definition DLT_COMMON_BUFFER_LENGTH : nat := 255.

Record slot := {
  apid : bytes;
  ctid : bytes;
  apid2len : Z;
  apid2 : option bytes;
  ctid2len : Z;
  ctid2 : option bytes;
  log_level : Z;
  payload_max : Z;
  payload_min : Z
}.

Record DltFilter := {
  slots : list slot;
  counter : Z
}.

(** Assignments to the attributes of a row. *)
Definition set_ids (s : slot) (a c : bytes) : slot :=
  {| apid := a; ctid := c; apid2len := apid2len s; apid2 := apid2 s; ctid2len := ctid2len s;
     ctid2 := ctid2 s; log_level := log_level s; payload_max := payload_max s;
     payload_min := payload_min s |}.
Definition set_ids2 (s : slot) (al : Z) (a : option bytes) (cl : Z) (c : option bytes) : slot :=
  {| apid := apid s; ctid := ctid s; apid2len := al; apid2 := a; ctid2len := cl;
     ctid2 := c; log_level := log_level s; payload_max := payload_max s;
     payload_min := payload_min s |}.
Definition set_bounds (s : slot) (ll pmin pmax : Z) : slot :=
  {| apid := apid s; ctid := ctid s; apid2len := apid2len s; apid2 := apid2 s;
     ctid2len := ctid2len s; ctid2 := ctid2 s; log_level := ll; payload_max := pmax;
     payload_min := pmin |}.

Definition row (f : DltFilter) (i : Z) : option slot :=
  if 0 <=? i then slots f !! Z.to_nat i else None.
Definition set_row (f : DltFilter) (i : Z) (s : slot) : DltFilter :=
  {| slots := <[Z.to_nat i := s]> (slots f); counter := counter f |}.
Definition set_counter (f : DltFilter) (n : Z) : DltFilter :=
  {| slots := slots f; counter := n |}.

(** [memcmp(a, b, n) == 0]: both arrays must hold [n] bytes. *)
Definition memcmp (a b : bytes) (n : Z) : option bool :=
  x ← mread a 0 n; y ← mread b 0 n; Some (bool_decide (x = y)).

(** [dlt_set_id] on an array. *)
Definition set_id (dst : bytes) (src : bytes) : option bytes :=
  r ← dlt_set_id (Some dst) (Some src); r.

(** Lazy connectives over comparisons that may fault. *)
Definition or_else (a : bool) (b : option bool) : option bool := if a then Some true else b.
Definition and_then (a : option bool) (b : option bool) : option bool :=
  x ← a; if (x : bool) then b else Some false.

(** The [for] loops over the table that stop at the first row for which [test]
    holds: row [num] and the [n - 1] following ones. *)
Fixpoint search (test : slot -> option bool) (n : nat) (num : Z) (f : DltFilter)
  : option (option Z) :=
  match n with
  | O => Some None
  | S n =>
      s ← row f num;
      m ← test s;
      if (m : bool) then Some (Some num) else search test n (num + 1) f
  end.

(** ** Version 1 *)

Definition dlt_filter_init (f : DltFilter) : Z * DltFilter := (DLT_RETURN_OK, set_counter f 0).
Definition dlt_filter_free (f : DltFilter) : Z * DltFilter := (DLT_RETURN_OK, f).

(** The nested conditions on log level and payload size of [dlt_filter_find]. *)
Definition bounds_match (s : slot) (ll pmin pmax : Z) : bool :=
  ((log_level s =? ll) || (log_level s =? 0)) && (payload_min s <=? pmin) &&
  (pmax <=? payload_max s).

(** The body of the loop of [dlt_filter_find]. *)
Definition find_test (a : bytes) (c : option bytes) (ll pmin pmax : Z) (s : slot) : option bool :=
  and_then (memcmp (apid s) a 4)
    (and_then (match c with
               | None => memcmp (ctid s) [0; 0; 0; 0] 4
               | Some c => memcmp (ctid s) c 4
               end)
              (Some (bounds_match s ll pmin pmax))).

Definition dlt_filter_find (f : DltFilter) (a c : option bytes) (ll pmin pmax : Z) : option Z :=
  match a with
  | None => Some (-1)
  | Some a =>
      r ← search (find_test a c ll pmin pmax) (Z.to_nat (counter f)) 0 f;
      Some (default (-1) r)
  end.

Definition dlt_filter_add (f : DltFilter) (a c : option bytes) (ll pmin pmax : Z)
  : option (Z * DltFilter) :=
  match a with
  | None => Some (DLT_RETURN_WRONG_PARAMETER, f)
  | Some a' =>
      if DLT_FILTER_MAX <=? counter f then Some (DLT_RETURN_ERROR, f) else
      num ← dlt_filter_find f a c ll pmin pmax;
      if num <? 0 then
        s ← row f (counter f);
        a1 ← set_id (apid s) a';
        c1 ← set_id (ctid s) (default [0] c);
        let f := set_row f (counter f) (set_bounds (set_ids s a1 c1) ll pmin pmax) in
        Some (DLT_RETURN_OK, set_counter f (counter f + 1))
      else Some (DLT_RETURN_ERROR, f)
  end.

(** The condition of the loop of [dlt_filter_delete]. *)
Definition delete_test (a c : bytes) (ll pmin pmax : Z) (s : slot) : option bool :=
  and_then (memcmp (apid s) a 4)
    (and_then (memcmp (ctid s) c 4)
       (Some (((log_level s =? ll) || (log_level s =? 0)) &&
              (payload_min s =? pmin) && (payload_max s =? pmax)))).

(** Copy row [k + 1] to row [k], [n] times. *)
Fixpoint shift_loop (n : nat) (k : Z) (f : DltFilter) : option DltFilter :=
  match n with
  | O => Some f
  | S n =>
      s ← row f k;
      t ← row f (k + 1);
      a ← set_id (apid s) (apid t);
      c ← set_id (ctid s) (ctid t);
      shift_loop n (k + 1)
        (set_row f k (set_bounds (set_ids s a c) (log_level t) (payload_min t) (payload_max t)))
  end.

Definition dlt_filter_delete (f : DltFilter) (a c : option bytes) (ll pmin pmax : Z)
  : option (Z * DltFilter) :=
  match a, c with
  | Some a, Some c =>
      if 0 <? counter f then
        j ← search (delete_test a c ll pmin pmax) (Z.to_nat (counter f)) 0 f;
        match j with
        | Some j =>
            s ← row f j;
            a1 ← set_id (apid s) [0];
            c1 ← set_id (ctid s) [0];
            f1 ← shift_loop (Z.to_nat (counter f - 1 - j)) j
                   (set_row f j (set_bounds (set_ids s a1 c1) 0 0 INT32_MAX));
            Some (DLT_RETURN_OK, set_counter f1 (counter f1 - 1))
        | None => Some (DLT_RETURN_ERROR, f)
        end
      else Some (DLT_RETURN_ERROR, f)
  | _, _ => Some (DLT_RETURN_WRONG_PARAMETER, f)
  end.

(** The filter check of one row against the message. *)
Definition row_accepts (m : DltMessage) (s : slot) : option bool :=
  a0 ← apid s !! 0%nat;
  c0 ← ctid s !! 0%nat;
  and_then (or_else (a0 =? 0) (x ← ext_apid m; memcmp (apid s) x 4))
    (and_then (or_else (c0 =? 0) (x ← ext_ctid m; memcmp (ctid s) x 4))
      (and_then (or_else (log_level s =? 0)
                   (msin ← ext_msin m; Some (log_level s =? DLT_GET_MSIN_MTIN msin)))
        (Some (((payload_min s =? 0) || (payload_min s <=? datasize m)) &&
               ((payload_max s =? 0) || (datasize m <=? payload_max s)))))).

Definition dlt_message_filter_check (m : DltMessage) (f : DltFilter) : option Z :=
  if counter f =? 0 then Some DLT_RETURN_TRUE else
  htyp ← std_htyp m;
  if DLT_IS_HTYP_UEH htyp then
    r ← search (row_accepts m) (Z.to_nat (counter f)) 0 f;
    Some (if r is Some _ then DLT_RETURN_TRUE else DLT_RETURN_OK)
  else Some DLT_RETURN_TRUE.

(** ** Filter files *)

Definition is_space (c : Z) : bool := (c =? 32) || ((9 <=? c) && (c <=? 13)).

(** A stream open for reading: what is left and the end-of-file indicator. *)
Record stream := { left : bytes; eof : bool }.

Fixpoint skip_space (b : bytes) : bytes :=
  match b with c :: b' => if is_space c then skip_space b' else b | [] => [] end.

(** At most [n] characters up to the next white space: the characters, the
    rest, and whether the end of the file stopped the scan. *)
Fixpoint scan_word (n : nat) (b : bytes) : bytes * bytes * bool :=
  match n with
  | O => ([], b, false)
  | S n =>
      match b with
      | [] => ([], [], true)
      | c :: b' =>
          if is_space c then ([], b, false)
          else let '(w, r, e) := scan_word n b' in (c :: w, r, e)
      end
  end.

(** [fscanf(handle, "%255s", str)]: [None] when it does not return 1. *)
Definition fscanf_s (n : nat) (h : stream) : option bytes * stream :=
  match skip_space (left h) with
  | [] => (None, {| left := []; eof := true |})
  | b => let '(w, r, e) := scan_word n b in (Some w, {| left := r; eof := e || eof h |})
  end.

(** [strcmp(str, s) == 0] on a scanned word. *)
Definition streq (w s : bytes) : bool := bool_decide (cstr (length w) w = s).

Definition DASHES : bytes := [45; 45; 45; 45].

(** The loop of [dlt_filter_load].  A word is followed by its terminator in
    [str1]; an iteration consumes at least one character, so the length of the
    file bounds their number. *)
Fixpoint load_loop (fuel : nat) (h : stream) (f : DltFilter) : option DltFilter :=
  match fuel with
  | O => None
  | S fuel =>
      if eof h then Some f else
      match fscanf_s DLT_COMMON_BUFFER_LENGTH h with
      | (None, _) => Some f
      | (Some w1, h1) =>
          if streq w1 [] then Some f else
          a ← set_id [0; 0; 0; 0] (if streq w1 DASHES || streq w1 [42] then [0] else w1 ++ [0]);
          match fscanf_s DLT_COMMON_BUFFER_LENGTH h1 with
          | (None, _) => Some f
          | (Some w2, h2) =>
              if streq w2 [] then Some f else
              c ← set_id [0; 0; 0; 0] (if streq w2 DASHES then [0] else w2 ++ [0]);
              if counter f <? DLT_FILTER_MAX then
                '(_, f1) ← dlt_filter_add f (Some a) (Some c) 0 0 INT32_MAX;
                load_loop fuel h2 f1
              else load_loop fuel h2 f
          end
      end
  end.

(** [file] is the content of the file, or [None] when it cannot be opened. *)
Definition dlt_filter_load (f : DltFilter) (file : option bytes) : option (Z * DltFilter) :=
  match file with
  | None => Some (DLT_RETURN_ERROR, f)
  | Some b =>
      f1 ← load_loop (S (length b)) {| left := b; eof := false |} (set_counter f 0);
      Some (DLT_RETURN_OK, f1)
  end.

(** One identifier of [dlt_filter_save], with the blank behind it. *)
Definition save_id (id : bytes) : option bytes :=
  c0 ← id !! 0%nat;
  if c0 =? 0 then Some (DASHES ++ [32])
  else
    buf ← dlt_print_id (Some (replicate DLT_COMMON_BUFFER_LENGTH 0)) (Some id);
    buf ← buf;
    Some (cstr (length buf) buf ++ [32]).

Fixpoint save_loop (n : nat) (num : Z) (f : DltFilter) : option bytes :=
  match n with
  | O => Some []
  | S n =>
      s ← row f num;
      a ← save_id (apid s);
      c ← save_id (ctid s);
      rest ← save_loop n (num + 1) f;
      Some (a ++ c ++ rest)
  end.

(** The bytes written to the file that was opened; [None] when it cannot be. *)
Definition dlt_filter_save (f : DltFilter) (opened : bool) : option (Z * bytes) :=
  if opened then b ← save_loop (Z.to_nat (counter f)) 0 f; Some (DLT_RETURN_OK, b)
  else Some (DLT_RETURN_ERROR, []).

(** ** Version 2

    The identifiers of version 2 live on the heap.  Comparing through a null
    pointer faults even where the C library happens to accept a length of 0. *)

Definition memcmp_ptr (a : option bytes) (b : bytes) (n : Z) : option bool :=
  a ← a; memcmp a b n.

Definition find_test_v2 (a : bytes) (c : option bytes) (ll pmin pmax : Z) (s : slot)
  : option bool :=
  and_then (memcmp_ptr (apid2 s) a (apid2len s))
    (and_then (match c with
               | None => Some (bool_decide (ctid2 s = None))
               | Some c => memcmp_ptr (ctid2 s) c (ctid2len s)
               end)
              (Some (bounds_match s ll pmin pmax))).

Definition dlt_filter_find_v2 (f : DltFilter) (a c : option bytes) (ll pmin pmax : Z) : option Z :=
  match a with
  | None => Some (-1)
  | Some a =>
      r ← search (find_test_v2 a c ll pmin pmax) (Z.to_nat (counter f)) 0 f;
      Some (default (-1) r)
  end.

(** [strlen(s)]: the string must be terminated. *)
Definition strlen (s : option bytes) : option Z :=
  s ← s; if bool_decide (0 ∈ s) then Some (zlen (cstr (length s) s)) else None.

(** The duplicate check uses [dlt_filter_find], the search of version 1;
    [A1] and [A2] answer the two allocations. *)
Definition dlt_filter_add_v2 (A1 A2 : allocator) (f : DltFilter) (a c : option bytes)
  (ll pmin pmax : Z) : option (Z * DltFilter) :=
  match a with
  | None => Some (DLT_RETURN_WRONG_PARAMETER, f)
  | Some _ =>
      if DLT_FILTER_MAX <=? counter f then Some (DLT_RETURN_ERROR, f) else
      num ← dlt_filter_find f a c ll pmin pmax;
      if num <? 0 then
        s ← row f (counter f);
        match malloc A1 (Z.of_nat DLT_V2_ID_SIZE) with
        | None => Some (DLT_RETURN_ERROR, set_row f (counter f)
                          (set_ids2 s (apid2len s) None (ctid2len s) (ctid2 s)))
        | Some ma =>
            match malloc A2 (Z.of_nat DLT_V2_ID_SIZE) with
            | None => Some (DLT_RETURN_ERROR, set_row f (counter f)
                              (set_ids2 s (apid2len s) None (ctid2len s) None))
            | Some mc =>
                al ← strlen a;
                a1 ← dlt_set_id_v2 (Some ma) a (u8 al);
                cl ← strlen c;
                c1 ← dlt_set_id_v2 (Some mc) c (u8 cl);
                let f := set_row f (counter f)
                           (set_bounds (set_ids2 s (u8 al) a1 (u8 cl) c1) ll pmin pmax) in
                Some (DLT_RETURN_OK, set_counter f (counter f + 1))
            end
        end
      else Some (DLT_RETURN_ERROR, f)
  end.

Definition delete_test_v2 (a c : bytes) (ll pmin pmax : Z) (s : slot) : option bool :=
  and_then (memcmp_ptr (apid2 s) a (apid2len s))
    (and_then (memcmp_ptr (ctid2 s) c (ctid2len s))
       (Some (((log_level s =? ll) || (log_level s =? 0)) &&
              (payload_min s =? pmin) && (payload_max s =? pmax)))).

Fixpoint shift_loop_v2 (n : nat) (k : Z) (f : DltFilter) : option DltFilter :=
  match n with
  | O => Some f
  | S n =>
      s ← row f k;
      t ← row f (k + 1);
      a ← dlt_set_id_v2 (apid2 s) (apid2 t) (apid2len t);
      c ← dlt_set_id_v2 (ctid2 s) (ctid2 t) (ctid2len t);
      shift_loop_v2 n (k + 1)
        (set_row f k (set_bounds (set_ids2 s (apid2len t) a (ctid2len t) c)
                        (log_level t) (payload_min t) (payload_max t)))
  end.

Definition dlt_filter_delete_v2 (f : DltFilter) (a c : option bytes) (ll pmin pmax : Z)
  : option (Z * DltFilter) :=
  match a, c with
  | Some a, Some c =>
      if 0 <? counter f then
        j ← search (delete_test_v2 a c ll pmin pmax) (Z.to_nat (counter f)) 0 f;
        match j with
        | Some j =>
            s ← row f j;
            f1 ← shift_loop_v2 (Z.to_nat (counter f - 1 - j)) j
                   (set_row f j (set_bounds (set_ids2 s 0 None 0 None) 0 0 INT32_MAX));
            e ← row f1 (counter f1);
            let f2 := set_row f1 (counter f1) (set_ids2 e 0 None 0 None) in
            Some (DLT_RETURN_OK, set_counter f2 (counter f2 - 1))
        | None => Some (DLT_RETURN_ERROR, f)
        end
      else Some (DLT_RETURN_ERROR, f)
  | _, _ => Some (DLT_RETURN_WRONG_PARAMETER, f)
  end.

End Filter.
