(* ===== verification/FilterSpec.v ===== *)
(** * Message filters: the table as a list of distinct entries

    The rows below the counter are the filter; finding, adding and deleting
    are the corresponding list operations, the check is an existential over
    the entries, and filter files round-trip. *)

From stdpp Require Import base list numbers option.
From Stdlib Require Import ZArith Lia Bool.
From S2P Require Import Prelude Protocol Ids Message Filter.
Import Protocol Ids Message Filter.

Local Open Scope Z_scope.

Module FilterSpec.

(** ** The abstract filter *)

Definition live (f : DltFilter) : list slot := take (Z.to_nat (counter f)) (slots f).

Record inv (f : DltFilter) : Prop := {
  inv_len : zlen (slots f) = DLT_FILTER_MAX;
  inv_counter : 0 <= counter f <= DLT_FILTER_MAX;
  inv_sizes : Forall (λ s, length (apid s) = 4%nat ∧ length (ctid s) = 4%nat) (slots f);
  inv_ids : Forall (λ s, is_id (apid s) ∧ is_id (ctid s)) (live f)
}.

(** Index of the first element that satisfies a test. *)
Fixpoint first_index {A} (p : A -> bool) (l : list A) : option nat :=
  match l with
  | [] => None
  | x :: l => if p x then Some 0%nat else S <$> first_index p l
  end.

Lemma first_index_Some {A} (p : A -> bool) l i :
  first_index p l = Some i ->
  ∃ a x b, l = a ++ x :: b ∧ length a = i ∧ p x = true ∧ Forall (λ y, p y = false) a.
Proof.
  revert i. induction l as [|y l IH]; cbn [first_index]; intros i H; [done|].
  destruct (p y) eqn:E.
  - injection H as <-. by exists [], y, l.
  - apply fmap_Some in H as (j & H & ->). destruct (IH j H) as (a & x & b & -> & <- & ? & ?).
    exists (y :: a), x, b. split_and!; try done. by constructor.
Qed.

Lemma first_index_existsb {A} (p : A -> bool) l :
  (if first_index p l is Some _ then true else false) = existsb p l.
Proof.
  induction l as [|x l IH]; [done|]. cbn [first_index existsb]. destruct (p x); [done|].
  rewrite <-IH. by destruct (first_index p l).
Qed.

(** The table after the entries changed: the rows behind the counter are free. *)
Lemma row_live f i :
  inv f -> 0 <= i < counter f -> row f i = live f !! Z.to_nat i.
Proof.
  intros I Hi. unfold row, live. rewrite leb_true by lia. by rewrite lookup_take_lt by lia.
Qed.

Lemma length_live f : inv f -> zlen (live f) = counter f.
Proof. intros [H1 H2 _ _]. unfold live. unfold DLT_FILTER_MAX in *. len. Qed.

(** A loop over the table finds the first entry for which its test holds. *)
Lemma search_spec (test : slot -> option bool) (p : slot -> bool) f :
  inv f -> Forall (λ s, test s = Some (p s)) (live f) ->
  search test (Z.to_nat (counter f)) 0 f = Some (Z.of_nat <$> first_index p (live f)).
Proof.
  intros I Ht. pose proof (length_live f I) as Hl.
  assert (∀ n k, Z.of_nat k + Z.of_nat n = counter f ->
    search test n (Z.of_nat k) f =
      Some ((λ i, Z.of_nat (k + i)) <$> first_index p (drop k (live f)))) as H.
  { induction n as [|n IH]; intros k Hk; cbn [search].
    - by rewrite drop_ge by lia.
    - rewrite row_live by (done || lia). rewrite Nat2Z.id.
      destruct (lookup_lt_is_Some_2 (live f) k) as [s Hs]; [lia|]. rewrite Hs. bsimp.
      pose proof (Forall_lookup_1 _ _ _ _ Ht Hs) as Hts. cbn beta in Hts. rewrite Hts. bsimp.
      rewrite (drop_S _ _ _ Hs). cbn [first_index]. destruct (p s).
      + cbn. by rewrite Nat.add_0_r.
      + replace (Z.of_nat k + 1) with (Z.of_nat (S k)) by lia. rewrite IH by lia. f_equal.
        destruct (first_index p (drop (S k) (live f))); [|done]. cbn. do 2 f_equal. lia. }
  specialize (H (Z.to_nat (counter f)) 0%nat). rewrite drop_0 in H.
  apply H. pose proof (inv_counter _ I). lia.
Qed.

Lemma memcmp_id (a b : bytes) :
  length a = 4%nat -> (4 <= length b)%nat -> memcmp a b 4 = Some (bool_decide (a = take 4 b)).
Proof.
  intros Ha Hb. unfold memcmp. rewrite !mread_Some by lia. bsimp.
  change (Z.to_nat 0) with 0%nat. change (Z.to_nat 4) with 4%nat. rewrite !drop_0.
  by rewrite (take_ge a) by lia.
Qed.

(** ** Looking up *)

(** An absent context identifier is the empty one. *)
Definition ctid_of (c : option bytes) : bytes := default [0; 0; 0; 0] c.

Definition find_match (a c : bytes) (ll pmin pmax : Z) (s : slot) : bool :=
  bool_decide (apid s = take 4 a) && bool_decide (ctid s = take 4 c) && bounds_match s ll pmin pmax.
Definition delete_match (a c : bytes) (ll pmin pmax : Z) (s : slot) : bool :=
  bool_decide (apid s = take 4 a) && bool_decide (ctid s = take 4 c) &&
  (((log_level s =? ll) || (log_level s =? 0)) && (payload_min s =? pmin) &&
   (payload_max s =? pmax)).

Lemma live_sizes f : inv f -> Forall (λ s, length (apid s) = 4%nat ∧ length (ctid s) = 4%nat) (live f).
Proof. intros I. apply Forall_take, I. Qed.

Lemma find_spec f a c ll pmin pmax :
  inv f -> (4 <= length a)%nat -> (4 <= length (ctid_of c))%nat ->
  dlt_filter_find f (Some a) c ll pmin pmax =
    Some (match first_index (find_match a (ctid_of c) ll pmin pmax) (live f) with
          | Some i => Z.of_nat i | None => -1 end).
Proof.
  intros I Ha Hc. unfold dlt_filter_find.
  rewrite (search_spec _ (find_match a (ctid_of c) ll pmin pmax) f I).
  { bsimp. by destruct (first_index _ _). }
  eapply Forall_impl; [|by apply live_sizes]. intros s [La Lc]. cbn beta.
  unfold find_test, find_match, and_then.
  destruct c as [c|]; unfold ctid_of in *; cbn [default from_option id] in *;
    rewrite !memcmp_id by (done || simpl; lia); bsimp;
    (destruct (bool_decide (apid s = _)); [|done]); bsimp; by destruct (bool_decide (ctid s = _)).
Qed.

Lemma delete_find_spec f a c ll pmin pmax :
  inv f -> (4 <= length a)%nat -> (4 <= length c)%nat ->
  search (delete_test a c ll pmin pmax) (Z.to_nat (counter f)) 0 f =
    Some (Z.of_nat <$> first_index (delete_match a c ll pmin pmax) (live f)).
Proof.
  intros I Ha Hc. apply search_spec; [done|].
  eapply Forall_impl; [|by apply live_sizes]. intros s [La Lc]. cbn beta.
  unfold delete_test, delete_match, and_then. rewrite !memcmp_id by done. bsimp.
  destruct (bool_decide (apid s = _)); [|done]. bsimp. by destruct (bool_decide (ctid s = _)).
Qed.

(** ** Entries *)

(** What a row contributes to the filter. *)
Definition entry (s : slot) : bytes * bytes * Z * Z * Z :=
  (apid s, ctid s, log_level s, payload_min s, payload_max s).
Definition entries (f : DltFilter) := entry <$> live f.

Abbreviation sized s := (length (apid s) = 4%nat ∧ length (ctid s) = 4%nat).
Abbreviation named s := (is_id (apid s) ∧ is_id (ctid s)).

Lemma set_id_pad dst t :
  length dst = 4%nat -> scannable 4 t -> set_id dst t = Some (pad_to 4 0 (cstr 4 t)).
Proof. intros. unfold set_id. by rewrite set_id_spec by done. Qed.

Lemma set_id_id dst j : length dst = 4%nat -> is_id j -> set_id dst j = Some j.
Proof. intros. unfold set_id. by rewrite set_id_copy by done. Qed.

Lemma live_app f a b : slots f = a ++ b -> counter f = zlen a -> live f = a.
Proof. intros E Hc. unfold live. by rewrite E, Hc, Nat2Z.id, take_app_length. Qed.

Lemma split_live f : inv f -> ∃ rest, slots f = live f ++ rest ∧ zlen rest = 30 - counter f.
Proof.
  intros I. exists (drop (Z.to_nat (counter f)) (slots f)). unfold live. rewrite take_drop.
  split; [done|]. destruct I as [H1 H2 _ _]. unfold DLT_FILTER_MAX in *. len.
Qed.

Lemma add_new f a c ll pmin pmax :
  inv f -> counter f < DLT_FILTER_MAX -> (4 <= length a)%nat -> (4 <= length (ctid_of c))%nat ->
  first_index (find_match a (ctid_of c) ll pmin pmax) (live f) = None ->
  ∃ f', dlt_filter_add f (Some a) c ll pmin pmax = Some (DLT_RETURN_OK, f') ∧ inv f' ∧
    entries f' = entries f ++
      [(pad_to 4 0 (cstr 4 a), pad_to 4 0 (cstr 4 (ctid_of c)), ll, pmin, pmax)].
Proof.
  intros I Hc Ha Hcl Hf. pose proof (find_spec f a c ll pmin pmax I Ha Hcl) as Efind.
  rewrite Hf in Efind. unfold dlt_filter_add. rewrite leb_false by lia. rewrite Efind. bsimp.
  destruct (split_live f I) as (rest & Es & Lr). pose proof (length_live f I) as Ll.
  pose proof (inv_counter _ I) as Hcr. unfold DLT_FILTER_MAX in *.
  destruct rest as [|s rest]; [simpl in Lr; lia|].
  unfold row. rewrite leb_true by lia.
  assert (slots f !! Z.to_nat (counter f) = Some s) as ->.
  { rewrite Es, lookup_app_r by lia. by replace (_ - _)%nat with 0%nat by lia. }
  bsimp. pose proof (inv_sizes _ I) as Hsz. rewrite Es, Forall_app, Forall_cons_iff in Hsz.
  destruct Hsz as (Hsz1 & [La Lc] & Hsz2).
  rewrite (set_id_pad (apid s) a La (or_introl Ha)). bsimp.
  assert (set_id (ctid s) (default [0] c) = Some (pad_to 4 0 (cstr 4 (ctid_of c)))) as ->.
  { destruct c; unfold ctid_of in *; cbn [default from_option id] in *; (rewrite set_id_pad; [done|done|]); [by left|right; constructor]. }
  bsimp. set (s' := set_bounds _ _ _ _).
  assert (slots (set_row f (counter f) s') = live f ++ s' :: rest) as Es'.
  { cbn [slots set_row]. rewrite Es, insert_app_r_alt by lia.
    by replace (_ - _)%nat with 0%nat by lia. }
  eexists. split; [reflexivity|].
  set (f1 := set_row f (counter f) s') in *. change (counter f1) with (counter f).
  assert (live (set_counter f1 (counter f + 1)) = live f ++ [s']) as El.
  { apply (live_app _ _ rest); [by rewrite <-app_assoc|]. cbn [counter set_counter]. len. }
  split.
  - split; unfold DLT_FILTER_MAX; cbn [slots set_counter counter]; rewrite ?Es'.
    + pose proof (inv_len _ I) as HL. rewrite Es in HL.
      unfold DLT_FILTER_MAX in HL. len.
    + lia.
    + rewrite Forall_app, Forall_cons_iff. split; [done|]. split; [|done].
      split; apply length_pad_to, length_cstr.
    + rewrite El, Forall_app, Forall_cons_iff. split; [apply I|]. split; [|by constructor].
      split; apply is_id_pad.
  - unfold entries. rewrite El, fmap_app. done.
Qed.

(** ** Deleting *)

Lemma set_row_at f a s b s' :
  slots f = a ++ s :: b -> slots (set_row f (zlen a) s') = a ++ s' :: b.
Proof.
  intros E. cbn [slots set_row]. rewrite E, Nat2Z.id.
  rewrite insert_app_r_alt by lia. by rewrite Nat.sub_diag.
Qed.

Lemma row_at f a s b k : slots f = a ++ s :: b -> k = zlen a -> row f k = Some s.
Proof.
  intros E ->. unfold row. rewrite leb_true, Nat2Z.id, E by lia. by apply list_lookup_middle.
Qed.

(** The copy loop moves the entries of [b] one row up. *)
Lemma shift_loop_spec b f a s rest :
  slots f = a ++ s :: b ++ rest -> sized s -> Forall (λ s, sized s) b -> Forall (λ s, named s) b ->
  ∃ f' b' t, shift_loop (length b) (zlen a) f = Some f' ∧ slots f' = a ++ b' ++ t :: rest ∧
    counter f' = counter f ∧ entry <$> b' = entry <$> b ∧ sized t.
Proof.
  revert f a s. induction b as [|t b IH]; intros f a s Es Hs Hsz Hn; cbn [length shift_loop].
  { by exists f, [], s. }
  apply Forall_cons_iff in Hsz as [Ht Hsz]. apply Forall_cons_iff in Hn as [Hnt Hn].
  rewrite (row_at f a s (t :: b ++ rest) (zlen a)) by done. bsimp.
  rewrite (row_at f (a ++ [s]) t (b ++ rest) (zlen a + 1)); [|by rewrite Es, <-app_assoc|len]. bsimp.
  rewrite (set_id_id (apid s) (apid t)) by (apply Hs || apply Hnt). bsimp.
  rewrite (set_id_id (ctid s) (ctid t)) by (apply Hs || apply Hnt). bsimp.
  set (s' := set_bounds _ _ _ _).
  pose proof (set_row_at f a s (t :: b ++ rest) s' Es) as Es'.
  replace (zlen a + 1) with (zlen (a ++ [s'])) by len.
  destruct (IH (set_row f (zlen a) s') (a ++ [s']) t) as (f' & b' & u & -> & E & Hc & He & Hu);
    [by rewrite Es', <-app_assoc|done..|].
  exists f', (s' :: b'), u. split; [done|]. rewrite E, <-app_assoc. split; [done|].
  split; [done|]. split; [|done]. rewrite !fmap_cons, He. done.
Qed.

Lemma entries_sized (b b' : list slot) :
  entry <$> b' = entry <$> b -> Forall (λ s, sized s) b -> Forall (λ s, sized s) b'.
Proof.
  revert b'. induction b as [|s b IH]; intros [|s' b'] E H; try done.
  rewrite !fmap_cons in E. apply Forall_cons_iff in H as [H1 H2]. injection E as Ea Ec _ _ _ E.
  constructor; [by rewrite Ea, Ec|by apply IH].
Qed.
Lemma entries_named (b b' : list slot) :
  entry <$> b' = entry <$> b -> Forall (λ s, named s) b -> Forall (λ s, named s) b'.
Proof.
  revert b'. induction b as [|s b IH]; intros [|s' b'] E H; try done.
  rewrite !fmap_cons in E. apply Forall_cons_iff in H as [H1 H2]. injection E as Ea Ec _ _ _ E.
  constructor; [by rewrite Ea, Ec|by apply IH].
Qed.

Lemma delete_found f a c ll pmin pmax i :
  inv f -> (4 <= length a)%nat -> (4 <= length c)%nat ->
  first_index (delete_match a c ll pmin pmax) (live f) = Some i ->
  ∃ f', dlt_filter_delete f (Some a) (Some c) ll pmin pmax = Some (DLT_RETURN_OK, f') ∧ inv f' ∧
    entries f' = take i (entries f) ++ drop (S i) (entries f).
Proof.
  intros I Ha Hc Hf. pose proof (delete_find_spec f a c ll pmin pmax I Ha Hc) as Ed.
  rewrite Hf in Ed. apply first_index_Some in Hf as (l1 & s & l2 & El & Li & _ & _).
  destruct (split_live f I) as (rest & Es & Lr). pose proof (length_live f I) as Ll.
  pose proof (inv_counter _ I) as Hcr. pose proof (inv_len _ I) as Hlen.
  pose proof (inv_sizes _ I) as Hsz. pose proof (inv_ids _ I) as Hid. unfold DLT_FILTER_MAX in *.
  rewrite Es in Hlen, Hsz. rewrite El in Es, Hsz, Hid, Ll, Hlen. rewrite <-app_assoc in Es. cbn [app] in Es.
  rewrite !Forall_app, !Forall_cons_iff in Hsz. destruct Hsz as ((Hz1 & Hzs & Hz2) & Hz3).
  rewrite Forall_app, Forall_cons_iff in Hid. destruct Hid as (Hn1 & Hns & Hn2).
  unfold dlt_filter_delete. rewrite ltb_true by len. rewrite Ed. cbn [fmap option_fmap option_map]. bsimp.
  rewrite (row_at f l1 s (l2 ++ rest)) by (done || lia). bsimp.
  rewrite !set_id_pad by (apply Hzs || (right; constructor)). bsimp.
  set (s' := set_bounds _ _ _ _). assert (sized s') as Hs' by (split; done).
  replace (Z.of_nat i) with (zlen l1) by lia.
  pose proof (set_row_at f l1 s (l2 ++ rest) s' Es) as Es'.
  replace (Z.to_nat (counter f - 1 - zlen l1)) with (length l2) by len.
  destruct (shift_loop_spec l2 _ l1 s' rest Es' Hs' Hz2 Hn2) as (f1 & b' & t & -> & E & Hc1 & He & Ht).
  bsimp. eexists. split; [reflexivity|]. cbn [counter set_row] in Hc1. rewrite Hc1.
  assert (length b' = length l2) as Lb.
  { apply (f_equal length) in He. by rewrite !length_fmap in He. }
  assert (live (set_counter f1 (counter f - 1)) = l1 ++ b') as El'.
  { apply (live_app _ _ (t :: rest)); [by rewrite <-app_assoc|]. cbn [counter set_counter]. len. }
  split.
  - split; unfold DLT_FILTER_MAX; cbn [slots set_counter counter]; rewrite ?E.
    + len.
    + len.
    + rewrite !Forall_app, Forall_cons_iff. split; [done|]. split; [by apply (entries_sized l2)|done].
    + rewrite El', Forall_app. split; [done|]. by apply (entries_named l2).
  - unfold entries. rewrite El', El, !fmap_app, fmap_cons, He.
    rewrite take_app_length' by (rewrite length_fmap; lia).
    rewrite drop_app_ge by (rewrite length_fmap; lia).
    rewrite length_fmap. replace (S i - length l1)%nat with 1%nat by lia. done.
Qed.

(** ** The filter check *)

(** Does an entry accept a message with these identifiers, log level and
    payload size?  Empty identifiers and zero limits accept everything. *)
Definition accepts (a c : bytes) (level size : Z) (s : slot) : bool :=
  (bool_decide (cstr 4 (apid s) = []) || bool_decide (apid s = a)) &&
  (bool_decide (cstr 4 (ctid s) = []) || bool_decide (ctid s = c)) &&
  ((log_level s =? 0) || (log_level s =? level)) &&
  (((payload_min s =? 0) || (payload_min s <=? size)) &&
   ((payload_max s =? 0) || (size <=? payload_max s))).

Lemma first_char (i : bytes) :
  length i = 4%nat -> ∃ c0, i !! 0%nat = Some c0 ∧ (c0 =? 0) = bool_decide (cstr 4 i = []).
Proof.
  destruct i as [|c0 i]; [done|]. intros _. exists c0. split; [done|]. cbn [cstr].
  by destruct (c0 =? 0).
Qed.

Lemma ext_id_length m k a :
  (o ← extendedheader m; mread (headerbuffer m) (o + k) 4) = Some a -> length a = 4%nat.
Proof. destruct (extendedheader m); [|done]. bsimp. intros H. apply mread_length in H. lia. Qed.

Lemma row_accepts_spec m s a c msin :
  sized s -> ext_apid m = Some a -> ext_ctid m = Some c -> ext_msin m = Some msin ->
  length a = 4%nat -> length c = 4%nat ->
  row_accepts m s = Some (accepts a c (DLT_GET_MSIN_MTIN msin) (datasize m) s).
Proof.
  intros [La Lc] Ea Ec Em La' Lc'. unfold row_accepts, accepts, and_then, or_else.
  destruct (first_char (apid s) La) as (a0 & -> & Ha0).
  destruct (first_char (ctid s) Lc) as (c0 & -> & Hc0). bsimp. rewrite Ha0, Hc0, Ea, Ec, Em. bsimp.
  rewrite !memcmp_id by (done || lia). rewrite !take_ge by lia.
  destruct (bool_decide (cstr 4 (apid s) = [])), (bool_decide (apid s = a)),
    (bool_decide (cstr 4 (ctid s) = [])), (bool_decide (ctid s = c)), (log_level s =? 0),
    (log_level s =? DLT_GET_MSIN_MTIN msin); reflexivity.
Qed.

(** The verdict of the filter on a message with the given header fields. *)
Definition passes (f : DltFilter) (htyp : Z) (a c : bytes) (level size : Z) : bool :=
  bool_decide (live f = []) || negb (DLT_IS_HTYP_UEH htyp) || existsb (accepts a c level size) (live f).

Lemma filter_check_spec (f : DltFilter) (m : DltMessage) (htyp msin : Z) (a c : bytes) :
  inv f -> std_htyp m = Some htyp ->
  (DLT_IS_HTYP_UEH htyp = true ->
   ext_apid m = Some a ∧ ext_ctid m = Some c ∧ ext_msin m = Some msin) ->
  dlt_message_filter_check m f =
    Some (if passes f htyp a c (DLT_GET_MSIN_MTIN msin) (datasize m)
          then DLT_RETURN_TRUE else DLT_RETURN_OK).
Proof.
  intros I Hh Hx. unfold dlt_message_filter_check, passes. pose proof (length_live f I) as Ll.
  destruct (Z.eqb_spec (counter f) 0) as [E0|E0].
  { rewrite bool_decide_eq_true_2; [done|]. apply nil_length_inv. lia. }
  rewrite bool_decide_eq_false_2 by (intros E; rewrite E in Ll; simpl in Ll; lia). cbn [orb].
  rewrite Hh. bsimp. destruct (DLT_IS_HTYP_UEH htyp); [|done]. cbn [negb orb].
  destruct Hx as (Ha & Hc & Hm); [done|].
  rewrite (search_spec _ (accepts a c (DLT_GET_MSIN_MTIN msin) (datasize m)) f I).
  - bsimp. rewrite <-first_index_existsb. by destruct (first_index _ _).
  - eapply Forall_impl; [|by apply live_sizes]. intros s Hs. cbn beta.
    apply row_accepts_spec; try done; [by apply (ext_id_length m 2)|by apply (ext_id_length m 6)].
Qed.

(** ** Filter files *)

(** An identifier as it is written, and as it is read again. *)
Definition word (i : bytes) : bytes :=
  if bool_decide (cstr 4 i = []) then DASHES else pad_to 4 45 (cstr 4 i).
Definition reread (i : bytes) : bytes :=
  if bool_decide (word i = DASHES) then [0; 0; 0; 0] else word i.

Definition printable (i : bytes) : Prop := Forall (λ c, is_space c = false) (cstr 4 i).

Lemma cstr_nonzero n t : Forall (λ c, c <> 0) (cstr n t).
Proof.
  revert t. induction n as [|n IH]; intros [|c t]; cbn [cstr]; try by constructor.
  destruct (Z.eqb_spec c 0); [constructor|]. by constructor.
Qed.

Lemma length_word i : length (word i) = 4%nat.
Proof. unfold word. case_bool_decide; [done|]. apply length_pad_to, length_cstr. Qed.

Lemma word_nonzero i : Forall (λ c, c <> 0) (word i).
Proof.
  unfold word. case_bool_decide; [by repeat constructor|].
  unfold pad_to. apply Forall_app. split; [apply cstr_nonzero|]. by apply Forall_replicate.
Qed.

Lemma word_printable i : printable i -> Forall (λ c, is_space c = false) (word i).
Proof.
  intros H. unfold word. case_bool_decide; [by repeat constructor|].
  unfold pad_to. apply Forall_app. split; [done|]. by apply Forall_replicate.
Qed.

(** A string without terminator is read completely. *)
Lemma cstr_full (w t : bytes) n :
  Forall (λ c, c <> 0) w -> (length w <= n)%nat -> cstr n (w ++ 0 :: t) = w.
Proof.
  revert n. induction w as [|c w IH]; intros n Hw Hn; cbn [app].
  - by destruct n.
  - destruct n as [|n]; [simpl in Hn; lia|]. cbn [cstr]. apply Forall_cons_iff in Hw as [Hc Hw].
    rewrite eqb_false by done. f_equal. apply IH; [done|]. simpl in Hn. lia.
Qed.
Lemma cstr_exact (w : bytes) : Forall (λ c, c <> 0) w -> cstr (length w) w = w.
Proof.
  induction 1 as [|c w Hc Hw IH]; [done|]. cbn [length cstr]. by rewrite eqb_false, IH by done.
Qed.

Lemma save_id_spec i : length i = 4%nat -> save_id i = Some (word i ++ [32]).
Proof.
  intros Hi. unfold save_id. destruct (first_char i Hi) as (c0 & -> & E). bsimp. rewrite E.
  unfold word. case_bool_decide; [done|].
  rewrite print_id_spec; [|unfold DLT_COMMON_BUFFER_LENGTH; rewrite length_replicate; lia|
                          by apply scannable_len]. bsimp.
  pose proof (length_cstr 4 i) as Hc.
  rewrite cstr_full; [done| |rewrite length_app; lia].
  apply Forall_app. split; [apply cstr_nonzero|]. by apply Forall_replicate.
Qed.

Lemma reread_length i : length (reread i) = 4%nat.
Proof. unfold reread. case_bool_decide; [done|apply length_word]. Qed.

Lemma reread_spec i :
  set_id [0; 0; 0; 0] (if bool_decide (word i = DASHES) then [0] else word i ++ [0]) =
    Some (reread i).
Proof.
  unfold reread. case_bool_decide.
  - by rewrite set_id_pad by (done || right; constructor).
  - rewrite set_id_pad; [|done|left; rewrite length_app, length_word; lia].
    pose proof (length_word i) as L. rewrite cstr_full by (apply word_nonzero || lia).
    unfold pad_to. by rewrite L, app_nil_r.
Qed.

Lemma reread_nonpad i : cstr 4 (reread i) ++ replicate (4 - length (cstr 4 (reread i))) 0 = reread i.
Proof.
  unfold reread. case_bool_decide; [done|]. pose proof (length_word i) as L.
  pose proof (cstr_exact (word i) (word_nonzero i)) as E. rewrite L in E. rewrite E, L.
  by rewrite app_nil_r.
Qed.
Lemma pad_reread i : pad_to 4 0 (cstr 4 (reread i)) = reread i.
Proof. apply reread_nonpad. Qed.

(** A printed word followed by a blank is scanned as one word. *)
Lemma scan_word_spec n w r :
  Forall (λ c, is_space c = false) w -> (length w < n)%nat ->
  scan_word n (w ++ 32 :: r) = (w, 32 :: r, false).
Proof.
  revert n. induction w as [|c w IH]; intros [|n] Hw Hn; simpl in Hn; try lia; [done|].
  cbn [app scan_word]. apply Forall_cons_iff in Hw as [-> Hw]. by rewrite IH by (done || lia).
Qed.

Lemma fscanf_word i pad r h :
  printable i -> left h = pad ++ word i ++ 32 :: r -> pad = [] ∨ pad = [32] ->
  fscanf_s DLT_COMMON_BUFFER_LENGTH h = (Some (word i), {| left := 32 :: r; eof := eof h |}).
Proof.
  intros Hp E Hpad. unfold fscanf_s. rewrite E. pose proof (word_printable i Hp) as Hw.
  pose proof (length_word i) as Lw.
  assert (skip_space (pad ++ word i ++ 32 :: r) = word i ++ 32 :: r) as ->.
  { assert (skip_space (word i ++ 32 :: r) = word i ++ 32 :: r) as H.
    { destruct (word i); [done|]. apply Forall_cons_iff in Hw as [Hc _].
      cbn [app skip_space]. by rewrite Hc. }
    by destruct Hpad as [-> | ->]. }
  destruct (word i) as [|c w]; [done|]. cbn [app]. change (c :: w ++ 32 :: r) with ((c :: w) ++ 32 :: r).
  by rewrite scan_word_spec by (done || unfold DLT_COMMON_BUFFER_LENGTH; lia).
Qed.

Lemma streq_word i s : streq (word i) s = bool_decide (word i = s).
Proof. unfold streq. by rewrite cstr_exact by apply word_nonzero. Qed.

Definition saved (l : list slot) : bytes :=
  l ≫= λ s, word (apid s) ++ [32] ++ word (ctid s) ++ [32].

Lemma saved_cons s l :
  saved (s :: l) = word (apid s) ++ 32 :: word (ctid s) ++ 32 :: saved l.
Proof. unfold saved. rewrite bind_cons, <-!app_assoc. done. Qed.

Lemma save_loop_spec f l : ∀ a, slots f = a ++ l ++ drop (length a + length l) (slots f) ->
  Forall (λ s, sized s) l -> save_loop (length l) (zlen a) f = Some (saved l).
Proof.
  induction l as [|s l IH]; intros a E Hs; cbn [length save_loop]; [done|].
  apply Forall_cons_iff in Hs as [[La Lc] Hs].
  rewrite (row_at f a s (l ++ drop (length a + length (s :: l)) (slots f)) (zlen a)) by done. bsimp.
  rewrite !save_id_spec by done. bsimp.
  replace (zlen a + 1) with (zlen (a ++ [s])) by len. rewrite (IH (a ++ [s])); [|..|done].
  - bsimp. rewrite saved_cons, <-!app_assoc. done.
  - rewrite E at 1. rewrite <-app_assoc. cbn [app]. do 4 f_equal. len.
Qed.

Definition reread_entry (s : slot) : bytes * bytes * Z * Z * Z :=
  (reread (apid s), reread (ctid s), 0, 0, INT32_MAX).

(** No entry with these identifiers and open bounds: the search fails. *)
Lemma not_found f a c prev :
  entries f = reread_entry <$> prev -> length a = 4%nat -> length c = 4%nat ->
  (a, c, 0, 0, INT32_MAX) ∉ reread_entry <$> prev ->
  first_index (find_match a c 0 0 INT32_MAX) (live f) = None.
Proof.
  intros He La Lc Hn. destruct (first_index _ _) as [i|] eqn:E; [|done]. exfalso. apply Hn.
  apply first_index_Some in E as (l1 & x & l2 & El & _ & Hm & _).
  unfold find_match in Hm. zb. repeat case_bool_decide; try done.
  rewrite take_ge in * by lia. rewrite <-He. unfold entries.
  assert (entry x ∈ reread_entry <$> prev) as Hx.
  { rewrite <-He. unfold entries. rewrite El, fmap_app, fmap_cons.
    apply elem_of_app. right. apply elem_of_cons. by left. }
  pose proof Hx as Hx'. apply list_elem_of_fmap in Hx' as (y & Ey & _).
  rewrite <-He in Hx. unfold entries in Hx. unfold entry in Ey at 1. unfold reread_entry in Ey.
  injection Ey as _ _ E1 E2 E3. replace (a, c, 0, 0, INT32_MAX) with (entry x); [done|].
  unfold entry. congruence.
Qed.

(** Reading the saved entries [l] after the entries [prev]. *)
Lemma load_loop_spec l : ∀ fuel pad f prev,
  inv f -> entries f = reread_entry <$> prev -> NoDup (reread_entry <$> (prev ++ l)) ->
  (length prev + length l <= 30)%nat -> Forall (λ s, printable (apid s) ∧ printable (ctid s)) l ->
  (length l < fuel)%nat -> pad = [] ∨ pad = [32] ->
  ∃ f', load_loop fuel {| left := pad ++ saved l; eof := false |} f = Some f' ∧ inv f' ∧
    entries f' = reread_entry <$> (prev ++ l).
Proof.
  induction l as [|s l IH]; intros fuel pad f prev I He Hnd Hlen Hp Hf Hpad;
    (destruct fuel as [|fuel]; [simpl in Hf; lia|]); cbn [load_loop].
  { exists f. rewrite (app_nil_r prev). split; [|by split]. by destruct Hpad as [-> | ->]. }
  apply Forall_cons_iff in Hp as [[Hpa Hpc] Hp]. cbn [left eof].
  rewrite (fscanf_word (apid s) pad (word (ctid s) ++ 32 :: saved l)); [|done| |done].
  2: { by rewrite saved_cons. }
  rewrite !streq_word. rewrite (bool_decide_eq_false_2 (word (apid s) = []));
    [|intros E; pose proof (length_word (apid s)) as L; by rewrite E in L].
  rewrite (bool_decide_eq_false_2 (word (apid s) = [42]));
    [|intros E; pose proof (length_word (apid s)) as L; by rewrite E in L].
  rewrite orb_false_r, reread_spec. bsimp.
  rewrite (fscanf_word (ctid s) [32] (saved l)); [|done|done|by right].
  rewrite !streq_word. rewrite (bool_decide_eq_false_2 (word (ctid s) = []));
    [|intros E; pose proof (length_word (ctid s)) as L; by rewrite E in L].
  rewrite reread_spec. bsimp.
  assert (zlen (entries f) = counter f) as Lc.
  { unfold entries. rewrite length_fmap. by apply length_live. }
  rewrite He, length_fmap in Lc. simpl in Hlen. rewrite ltb_true by (unfold DLT_FILTER_MAX; lia).
  pose proof (reread_length (apid s)) as L1. pose proof (reread_length (ctid s)) as L2.
  destruct (add_new f (reread (apid s)) (Some (reread (ctid s))) 0 0 INT32_MAX)
    as (f1 & -> & I1 & E1); [done|unfold DLT_FILTER_MAX; lia|lia|cbn; lia| |].
  { apply (not_found f _ _ prev); [done..|]. rewrite fmap_app, fmap_cons in Hnd.
    apply list.NoDup_app in Hnd as (_ & Hnd & _). intros Hin. apply (Hnd _ Hin).
    apply elem_of_cons. by left. }
  bsimp. destruct (IH fuel [32] f1 (prev ++ [s])) as (f2 & El & I2 & E2).
  - done.
  - rewrite E1, He, fmap_app. cbn [ctid_of default from_option id]. unfold ctid_of.
    cbn [default from_option id]. by rewrite !pad_reread.
  - by rewrite <-app_assoc.
  - len.
  - done.
  - simpl in Hf. lia.
  - by right.
  - exists f2. split; [exact El|]. by rewrite E2, <-app_assoc.
Qed.

(** ** Version 2 *)

Lemma row_set_counter f n i : row (set_counter f n) i = row f i.
Proof. done. Qed.

Lemma row_set_row_ne f i k s : 0 <= k -> i <> k -> row (set_row f k s) i = row f i.
Proof.
  intros Hk Hi. unfold row, set_row. cbn [slots]. destruct (Z.leb_spec 0 i); [|done].
  apply list_lookup_insert_ne. lia.
Qed.

Lemma row_set_row_eq f k s t : row f k = Some t -> row (set_row f k s) k = Some s.
Proof.
  unfold row, set_row. cbn [slots]. destruct (Z.leb_spec 0 k); [|done]. intros H'.
  apply list_lookup_insert_eq. by eapply lookup_lt_Some.
Qed.

(** The copy loop of version 2 does not touch the rows before its start. *)
Lemma shift_loop_v2_low n k f f' i :
  0 <= k -> shift_loop_v2 n k f = Some f' -> i < k -> row f' i = row f i ∧ counter f' = counter f.
Proof.
  revert k f. induction n as [|n IH]; intros k f Hk; cbn [shift_loop_v2].
  { by intros [= <-]. }
  intros H Hi. do 4 (apply bind_Some in H as (? & _ & H)).
  apply IH in H as [-> ->]; [|lia..]. by rewrite row_set_row_ne by lia.
Qed.

(** ** Theorems *)

(** on every table, [dlt_filter_add] refuses a missing application
    identifier, a full table and an entry that is already there without any
    change, and otherwise appends exactly the new entry; it stays in the table
    and keeps its invariant. *)
Theorem filter_add_correct (f : DltFilter) (a c : option bytes) (ll pmin pmax : Z) :
  inv f -> (∀ a', a = Some a' -> (4 <= length a')%nat) -> (4 <= length (ctid_of c))%nat ->
  ∃ rc f', dlt_filter_add f a c ll pmin pmax = Some (rc, f') ∧ inv f' ∧
    match a with
    | None => rc = DLT_RETURN_WRONG_PARAMETER ∧ f' = f
    | Some a =>
        if (DLT_FILTER_MAX <=? counter f) ||
           existsb (find_match a (ctid_of c) ll pmin pmax) (live f)
        then rc = DLT_RETURN_ERROR ∧ f' = f
        else rc = DLT_RETURN_OK ∧ entries f' = entries f ++
               [(pad_to 4 0 (cstr 4 a), pad_to 4 0 (cstr 4 (ctid_of c)), ll, pmin, pmax)]
    end.
Proof.
  intros I Ha Hc. destruct a as [a|]; [|by eexists _, f]. specialize (Ha a eq_refl).
  destruct (Z.leb_spec DLT_FILTER_MAX (counter f)); cbn [orb].
  { exists DLT_RETURN_ERROR, f. unfold dlt_filter_add. by rewrite leb_true by done. }
  rewrite <-first_index_existsb.
  destruct (first_index (find_match a (ctid_of c) ll pmin pmax) (live f)) as [i|] eqn:E.
  - exists DLT_RETURN_ERROR, f. unfold dlt_filter_add. rewrite leb_false by done.
    rewrite find_spec, E by done. bsimp. by rewrite ltb_false by lia.
  - destruct (add_new f a c ll pmin pmax) as (f' & -> & I' & E'); try done.
    by exists DLT_RETURN_OK, f'.
Qed.

(** [dlt_filter_delete] removes the first entry that matches and moves the
    following ones up, and changes nothing when none matches. *)
Theorem filter_delete_correct (f : DltFilter) (a c : bytes) (ll pmin pmax : Z) :
  inv f -> (4 <= length a)%nat -> (4 <= length c)%nat ->
  ∃ rc f', dlt_filter_delete f (Some a) (Some c) ll pmin pmax = Some (rc, f') ∧ inv f' ∧
    match first_index (delete_match a c ll pmin pmax) (live f) with
    | Some i => rc = DLT_RETURN_OK ∧ entries f' = take i (entries f) ++ drop (S i) (entries f)
    | None => rc = DLT_RETURN_ERROR ∧ f' = f
    end.
Proof.
  intros I Ha Hc. destruct (first_index _ _) as [i|] eqn:E.
  - destruct (delete_found f a c ll pmin pmax i) as (f' & -> & I' & E'); try done.
    by exists DLT_RETURN_OK, f'.
  - exists DLT_RETURN_ERROR, f. unfold dlt_filter_delete.
    rewrite delete_find_spec, E by done. by destruct (0 <? counter f).
Qed.

(** C38: a message passes the filter exactly when the filter is empty, the
    message has no extended header, or some entry accepts its identifiers, log
    level and payload size. *)
Theorem filter_check_correct (f : DltFilter) (m : DltMessage) (htyp msin : Z) (a c : bytes) :
  inv f -> std_htyp m = Some htyp ->
  (DLT_IS_HTYP_UEH htyp = true ->
   ext_apid m = Some a ∧ ext_ctid m = Some c ∧ ext_msin m = Some msin) ->
  dlt_message_filter_check m f =
    Some (if bool_decide (live f = []) || negb (DLT_IS_HTYP_UEH htyp) ||
             existsb (accepts a c (DLT_GET_MSIN_MTIN msin) (datasize m)) (live f)
          then DLT_RETURN_TRUE else DLT_RETURN_OK).
Proof. apply filter_check_spec. Qed.

(** C39: saving a filter and loading the file gives the same entries with open
    bounds, each identifier as its printed word: the identifiers survive when
    they use all four characters, shorter ones come back filled up with dashes. *)
Theorem filter_file_roundtrip (f g : DltFilter) :
  inv f -> inv g -> Forall (λ s, printable (apid s) ∧ printable (ctid s)) (live f) ->
  NoDup (reread_entry <$> live f) ->
  ∃ b g', dlt_filter_save f true = Some (DLT_RETURN_OK, b) ∧
    dlt_filter_load g (Some b) = Some (DLT_RETURN_OK, g') ∧ inv g' ∧
    entries g' = reread_entry <$> live f.
Proof.
  intros I Ig Hp Hnd. pose proof (length_live f I) as Ll. pose proof (inv_counter _ I) as Hc.
  destruct (split_live f I) as (rest & Es & _). exists (saved (live f)).
  unfold dlt_filter_save. replace (Z.to_nat (counter f)) with (length (live f)) by lia.
  pose proof (save_loop_spec f (live f) []) as Hsave. change (zlen []) with 0 in Hsave.
  rewrite Hsave; [|cbn [app length Nat.add]; by rewrite Es at 2; rewrite drop_app_length|by apply live_sizes].
  bsimp. unfold dlt_filter_load. unfold DLT_FILTER_MAX in *.
  destruct (load_loop_spec (live f) (S (length (saved (live f)))) [] (set_counter g 0) [])
    as (g' & El & I' & E'); try done.
  - destruct Ig as [G1 G2 G3 G4]. by split; [|unfold DLT_FILTER_MAX; cbn; lia| |constructor].
  - simpl. lia.
  - clear. induction (live f) as [|s l IH]; [simpl; lia|]. rewrite saved_cons. len.
  - by left.
  - exists g'. cbn [app] in El. by rewrite El.
Qed.

(** after [dlt_filter_delete_v2] removed an entry that is not the last one,
    the table keeps a row without identifiers at its place: the copy of the next
    row into the freed identifiers does nothing.  ([dlt_message_filter_check_v2]
    takes such a row as matching every message.) *)
Theorem filter_delete_v2_leaves_hole (f f' : DltFilter) (a c : bytes) (ll pmin pmax rc j : Z) :
  search (delete_test_v2 a c ll pmin pmax) (Z.to_nat (counter f)) 0 f = Some (Some j) ->
  j + 1 < counter f ->
  dlt_filter_delete_v2 f (Some a) (Some c) ll pmin pmax = Some (rc, f') ->
  counter f' = counter f - 1 ∧ ∃ s, row f' j = Some s ∧ apid2 s = None ∧ ctid2 s = None.
Proof.
  intros Hs Hj. unfold dlt_filter_delete_v2. destruct (Z.ltb_spec 0 (counter f)) as [H0|H0].
  2: { by replace (Z.to_nat (counter f)) with 0%nat in Hs by lia. }
  rewrite Hs. bsimp. intros H.
  apply bind_Some in H as (s & Hrow & H). apply bind_Some in H as (f1 & Hshift & H).
  apply bind_Some in H as (e & He & H). injection H as <- <-.
  assert (0 <= j) as Hj0 by (unfold row in Hrow; by destruct (Z.leb_spec 0 j)).
  replace (Z.to_nat (counter f - 1 - j)) with (S (Z.to_nat (counter f - 2 - j))) in Hshift by lia.
  cbn [shift_loop_v2] in Hshift. rewrite (row_set_row_eq _ _ _ s Hrow) in Hshift.
  bsimp. cbn [mbind option_bind] in Hshift.
  apply bind_Some in Hshift as (t & Ht & Hshift). cbn [set_bounds set_ids2 apid2 ctid2] in Hshift.
  cbn [dlt_set_id_v2 mbind option_bind] in Hshift.
  apply (shift_loop_v2_low _ _ _ _ j) in Hshift as [E1 E2]; [|lia..].
  assert (counter f1 = counter f) as E3 by done. rewrite E3. split; [done|].
  rewrite row_set_counter, row_set_row_ne by lia. rewrite E1.
  rewrite (row_set_row_eq _ _ _ _ (row_set_row_eq _ _ _ _ Hrow)). by eexists.
Qed.

(** ** Examples *)

(** A table with the given entries in front of empty rows. *)
Definition empty_slot : slot :=
  {| apid := [0; 0; 0; 0]; ctid := [0; 0; 0; 0]; apid2len := 0; apid2 := None; ctid2len := 0;
     ctid2 := None; log_level := 0; payload_max := 0; payload_min := 0 |}.
Definition mk_slot (a c : bytes) (ll pmin pmax : Z) : slot :=
  set_bounds (set_ids2 (set_ids empty_slot a c) 4 (Some a) 4 (Some c)) ll pmin pmax.
Definition mk_filter (l : list slot) : DltFilter :=
  {| slots := l ++ replicate (30 - length l) empty_slot; counter := zlen l |}.

Definition APP1 : bytes := [65; 80; 80; 49].
Definition CTX1 : bytes := [67; 84; 88; 49].
Definition CTX2 : bytes := [67; 84; 88; 50].
Definition two : DltFilter :=
  mk_filter [mk_slot APP1 CTX1 0 0 INT32_MAX; mk_slot APP1 CTX2 4 0 100].

Lemma inv_two : inv two.
Proof.
  split; [done|done| |].
  - apply Forall_app. split; [by repeat constructor|]. by apply Forall_replicate.
  - by repeat constructor.
Qed.

Lemma filter_add_correct_witness :
  ∃ rc f', dlt_filter_add two (Some [88; 89; 0; 0]) None 0 0 10 = Some (rc, f') ∧ inv f' ∧
    rc = DLT_RETURN_OK ∧ entries f' = entries two ++ [([88; 89; 0; 0], [0; 0; 0; 0], 0, 0, 10)].
Proof.
  apply (filter_add_correct two (Some [88; 89; 0; 0]) None 0 0 10).
  - apply inv_two.
  - intros a [= <-]. simpl. lia.
  - simpl. lia.
Defined.

Lemma filter_delete_correct_witness :
  ∃ rc f', dlt_filter_delete two (Some APP1) (Some CTX1) 0 0 INT32_MAX = Some (rc, f') ∧ inv f' ∧
    rc = DLT_RETURN_OK ∧ entries f' = [(APP1, CTX2, 4, 0, 100)].
Proof.
  apply (filter_delete_correct two APP1 CTX1 0 0 INT32_MAX); [apply inv_two|simpl; lia..].
Defined.

(** A message with the extended header [msin, noar, apid, ctid] at offset 20. *)
Definition message_with (htyp msin : Z) (a c : bytes) (size : Z) : DltMessage :=
  {| found_serialheader := 0; resync_offset := 0; headersize := 30; datasize := size;
     headerbuffer := replicate 16 0 ++ [htyp; 0; 0; 0] ++ [msin; 0] ++ a ++ c ++ replicate 12 0;
     databuffer := None; databuffersize := 0; storageheader := Some 0; standardheader := Some 16;
     headerextra := {| ecu := []; seid := 0; tmsp := 0 |}; extendedheader := Some 20 |}.

Lemma filter_check_correct_witness :
  dlt_message_filter_check (message_with 33 65 APP1 CTX2 50) two = Some DLT_RETURN_TRUE.
Proof.
  apply (filter_check_correct two (message_with 33 65 APP1 CTX2 50) 33 65 APP1 CTX2);
    [apply inv_two|reflexivity|intros _; split; [reflexivity|split; reflexivity]].
Defined.

Lemma filter_file_roundtrip_witness :
  ∃ b g', dlt_filter_save two true = Some (DLT_RETURN_OK, b) ∧
    dlt_filter_load two (Some b) = Some (DLT_RETURN_OK, g') ∧ inv g' ∧
    entries g' = [(APP1, CTX1, 0, 0, INT32_MAX); (APP1, CTX2, 0, 0, INT32_MAX)].
Proof.
  apply (filter_file_roundtrip two two); [apply inv_two|apply inv_two|by repeat constructor|].
  apply (bool_decide_unpack _). reflexivity.
Defined.

Lemma filter_delete_v2_leaves_hole_witness :
  let f' := {| slots := [set_bounds (set_ids2 (mk_slot APP1 CTX1 0 0 INT32_MAX) 4 None 4 None) 4 0 100]
                 ++ [mk_slot APP1 CTX2 4 0 100] ++ replicate 28 empty_slot; counter := 1 |} in
  counter f' = counter two - 1 ∧ ∃ s, row f' 0 = Some s ∧ apid2 s = None ∧ ctid2 s = None.
Proof.
  intros f'.
  apply (filter_delete_v2_leaves_hole two f' APP1 CTX1 0 0 INT32_MAX DLT_RETURN_OK 0);
    [reflexivity|reflexivity|reflexivity].
Defined.

End FilterSpec.
