(* ===== verification/Receiver.v ===== *)
(** * Receivers ([src/shared/dlt_common.c])

    A [DltReceiver] collects the bytes of a connection in a buffer and hands
    them out from the front.  The buffer is a memory region that is passed
    along with the receiver, because the daemon lets all application receivers
    share one region ([dlt_receiver_init_global_buffer]); [buf] is an offset
    into it, [None] for a null pointer.  What the operating system delivers is
    an argument. *)

From stdpp Require Import base list numbers option.
From Stdlib Require Import ZArith Lia Bool.
From S2P Require Import Prelude.

Local Open Scope Z_scope.

Module Receiver.

(** ** Data *)

Inductive DltReceiverType := DLT_RECEIVE_SOCKET | DLT_RECEIVE_UDP_SOCKET | DLT_RECEIVE_FD.

Definition DLT_RECEIVE_BUFSIZE : Z := 65535.
Definition sizeof_DltUserHeader : Z := 8.
Definition DLT_RCV_SKIP_HEADER : Z := 1.
Definition DLT_RCV_REMOVE : Z := 2.

Record DltReceiver := {
  lastBytesRcvd : Z;
  bytesRcvd : Z;
  totalBytesRcvd : Z;
  buffer : bool;               (** the pointer is not null *)
  buf : option Z;
  backup_buf : option bytes;
  fd : Z;
  type : DltReceiverType;
  buffersize : Z
}.

Definition set_counts (r : DltReceiver) (last rcvd total : Z) : DltReceiver :=
  {| lastBytesRcvd := last; bytesRcvd := rcvd; totalBytesRcvd := total; buffer := buffer r;
     buf := buf r; backup_buf := backup_buf r; fd := fd r; type := type r;
     buffersize := buffersize r |}.
Definition set_buf (r : DltReceiver) (b : option Z) : DltReceiver :=
  {| lastBytesRcvd := lastBytesRcvd r; bytesRcvd := bytesRcvd r;
     totalBytesRcvd := totalBytesRcvd r; buffer := buffer r; buf := b;
     backup_buf := backup_buf r; fd := fd r; type := type r; buffersize := buffersize r |}.
Definition set_backup (r : DltReceiver) (b : option bytes) : DltReceiver :=
  {| lastBytesRcvd := lastBytesRcvd r; bytesRcvd := bytesRcvd r;
     totalBytesRcvd := totalBytesRcvd r; buffer := buffer r; buf := buf r;
     backup_buf := b; fd := fd r; type := type r; buffersize := buffersize r |}.

(** [calloc]: zeroed memory where [malloc] succeeds. *)
Definition calloc (A : allocator) (n : Z) : option bytes :=
  match malloc A n with Some _ => Some (replicate (Z.to_nat n) 0) | None => None end.

(** ** Operations *)

(** [mem] is the region behind [receiver->buffer]; the result has the region
    the pointer refers to afterwards. *)
Definition dlt_receiver_init (A : allocator) (r : DltReceiver) (mem : bytes) (f : Z)
  (t : DltReceiverType) (size : Z) : Z * DltReceiver * bytes :=
  let keep := buffer r && (size =? buffersize r) in
  let fresh := calloc A size in
  let have := if keep then true else if fresh is Some _ then true else false in
  let mem' := if keep then mem else default [] fresh in
  let r1 :=
    if keep then
      {| lastBytesRcvd := lastBytesRcvd r; bytesRcvd := bytesRcvd r;
         totalBytesRcvd := totalBytesRcvd r; buffer := true; buf := buf r;
         backup_buf := backup_buf r; fd := f; type := t; buffersize := buffersize r |}
    else
      {| lastBytesRcvd := 0; bytesRcvd := 0; totalBytesRcvd := 0; buffer := have; buf := None;
         backup_buf := None; fd := f; type := t; buffersize := size |} in
  if have then (DLT_RETURN_OK, set_buf r1 (Some 0), mem') else (DLT_RETURN_ERROR, r1, mem').

(** [global] is the shared region, allocated by the first receiver. *)
Definition dlt_receiver_init_global_buffer (A : allocator) (r : DltReceiver) (f : Z)
  (t : DltReceiverType) (global : option bytes) : Z * DltReceiver * option bytes :=
  let global := match global with None => malloc A DLT_RECEIVE_BUFSIZE | _ => global end in
  match global with
  | None => (DLT_RETURN_ERROR, r, None)
  | Some _ =>
      (DLT_RETURN_OK,
       {| lastBytesRcvd := 0; bytesRcvd := 0; totalBytesRcvd := 0; buffer := true; buf := Some 0;
          backup_buf := None; fd := f; type := t; buffersize := DLT_RECEIVE_BUFSIZE |}, global)
  end.

(** The pointers after [dlt_receiver_free] and [dlt_receiver_free_global_buffer],
    which differ in whether the region is released. *)
Definition dlt_receiver_free (r : DltReceiver) : Z * DltReceiver :=
  (DLT_RETURN_OK,
   {| lastBytesRcvd := lastBytesRcvd r; bytesRcvd := bytesRcvd r;
      totalBytesRcvd := totalBytesRcvd r; buffer := false; buf := None; backup_buf := None;
      fd := fd r; type := type r; buffersize := buffersize r |}).
Definition dlt_receiver_free_global_buffer (r : DltReceiver) : Z * DltReceiver :=
  dlt_receiver_free r.

(** The part of [dlt_receiver_receive] that puts the kept bytes in front. *)
Definition restore_backup (r : DltReceiver) (mem : bytes) : option (DltReceiver * bytes) :=
  match backup_buf r with
  | Some b =>
      if lastBytesRcvd r =? 0 then Some (r, mem)
      else
        d ← mread b 0 (lastBytesRcvd r);
        mem' ← mwrite mem 0 d;
        Some (set_backup r None, mem')
  | None => Some (r, mem)
  end.

(** [input] is what [recv], [read] or [recvfrom] stored, [None] for an error.
    The three system calls store into the same place. *)
Definition dlt_receiver_receive (r : DltReceiver) (mem : bytes) (input : option bytes)
  : option (Z * DltReceiver * bytes) :=
  if negb (buffer r) then Some (-1, r, mem) else
  let r := set_counts (set_buf r (Some 0)) (bytesRcvd r) (bytesRcvd r) (totalBytesRcvd r) in
  '(r, mem) ← restore_backup r mem;
  '(bytes, mem) ←
    match input with
    | None => Some (-1, mem)
    | Some d => mem' ← mwrite mem (lastBytesRcvd r) d; Some (zlen d, mem')
    end;
  let rcvd := if (0 <=? bytes) && (bytes <=? INT32_MAX) then bytes else 0 in
  if rcvd <=? 0 then Some (0, set_counts r (lastBytesRcvd r) 0 (totalBytesRcvd r), mem)
  else
    let n := i32 (rcvd + lastBytesRcvd r) in
    Some (n, set_counts r (lastBytesRcvd r) n (i32 (totalBytesRcvd r + rcvd)), mem).

Definition dlt_receiver_remove (r : DltReceiver) (size : Z) : Z * DltReceiver :=
  match buf r with
  | None => (DLT_RETURN_ERROR, r)
  | Some b =>
      if (bytesRcvd r <? size) || (size <=? 0) then
        (DLT_RETURN_WRONG_PARAMETER,
         set_counts (set_buf r (Some (b + bytesRcvd r))) (lastBytesRcvd r) 0 (totalBytesRcvd r))
      else
        (DLT_RETURN_OK,
         set_counts (set_buf r (Some (b + size))) (lastBytesRcvd r) (bytesRcvd r - size)
           (totalBytesRcvd r))
  end.

(** Keeps the bytes that were not consumed in the backup buffer. *)
Definition dlt_receiver_move_to_begin (A : allocator) (r : DltReceiver) (mem : bytes)
  : option (Z * DltReceiver) :=
  match buffer r, buf r with
  | true, Some b =>
      if negb (b =? 0) && negb (bytesRcvd r =? 0) then
        match calloc A (bytesRcvd r + 1) with
        | None => Some (DLT_RETURN_OK, set_backup r None)
        | Some m =>
            d ← mread mem b (bytesRcvd r);
            m' ← mwrite m 0 d;
            Some (DLT_RETURN_OK, set_backup r (Some m'))
        end
      else Some (DLT_RETURN_OK, r)
  | _, _ => Some (DLT_RETURN_ERROR, r)
  end.

(** The destination holds [to_get] bytes; the result is what was copied. *)
Definition dlt_receiver_check_and_get (r : DltReceiver) (mem : bytes) (dest : bool)
  (to_get flags : Z) : option (Z * bytes * DltReceiver) :=
  let skip := negb (Z.land flags DLT_RCV_SKIP_HEADER =? 0) in
  let min_size := to_get + (if skip then sizeof_DltUserHeader else 0) in
  if (bytesRcvd r <? i32 min_size) || negb dest then Some (DLT_RETURN_WRONG_PARAMETER, [], r) else
  match buf r with
  | None => Some (DLT_RETURN_WRONG_PARAMETER, [], r)
  | Some b =>
      d ← mread mem (if skip then b + sizeof_DltUserHeader else b) to_get;
      if negb (Z.land flags DLT_RCV_REMOVE =? 0) then
        let '(rc, r') := dlt_receiver_remove r (i32 min_size) in
        Some (if rc =? DLT_RETURN_OK then i32 to_get else DLT_RETURN_ERROR, d, r')
      else Some (i32 to_get, d, r)
  end.

End Receiver.
