(* ===== verification/ReceiverSpec.v ===== *)
(** * Receivers: a byte stream

    A receiver that is driven as the daemon drives it (receive, take messages
    from the front, keep the rest), with a buffer of its own and receives that deliver
    something, hands out the received bytes in order. *)

From stdpp Require Import base list numbers option.
From Stdlib Require Import ZArith Lia Bool.
From S2P Require Import Prelude Receiver.
Import Receiver.

Local Open Scope Z_scope.

Module ReceiverSpec.

(** ** States *)

Record inv (r : DltReceiver) (mem : bytes) : Prop := {
  i_buffer : buffer r = true;
  i_mem : zlen mem = buffersize r;
  i_size : 0 <= buffersize r < 2147483648
}.

(** Between a receive and the next: [p] is ready to be taken. *)
Record pending (r : DltReceiver) (mem p : bytes) : Prop := {
  p_inv : inv r mem;
  p_buf : ∃ b, buf r = Some b ∧ mread mem b (bytesRcvd r) = Some p;
  p_backup : backup_buf r = None
}.

(** Before a receive: [p] is kept at the front of the buffer or as a backup. *)
Record carried (r : DltReceiver) (mem p : bytes) : Prop := {
  c_inv : inv r mem;
  c_len : bytesRcvd r = zlen p;
  c_fits : zlen p <= buffersize r;
  c_data : match backup_buf r with
           | Some m => mread m 0 (zlen p) = Some p ∧ p <> []
           | None => mread mem 0 (zlen p) = Some p
           end
}.

Lemma pending_len r mem p : pending r mem p -> bytesRcvd r = zlen p.
Proof. intros [_ (b & _ & H) _]. by apply mread_length in H. Qed.

(** An access in the middle of a read region. *)
Lemma mread_sub (m p : bytes) (b n k : Z) :
  mread m b (zlen p) = Some p -> 0 <= k -> 0 <= n -> k + n <= zlen p ->
  mread m (b + k) n = Some (take (Z.to_nat n) (drop (Z.to_nat k) p)).
Proof.
  intros H Hk Hn Hl. unfold mread in H. destruct (_ && _) eqn:E; [|done]. zb.
  injection H as H. rewrite mread_Some by lia. f_equal.
  assert (take (Z.to_nat n) (drop (Z.to_nat k) p) =
    take (Z.to_nat n) (drop (Z.to_nat k) (take (Z.to_nat (zlen p)) (drop (Z.to_nat b) m)))) as ->
    by (by rewrite H).
  rewrite skipn_firstn_comm, take_take, drop_drop.
  replace (Z.to_nat (b + k)) with (Z.to_nat b + Z.to_nat k)%nat by lia. f_equal. lia.
Qed.

(** ** The operations *)

Lemma calloc_ok A n : heap_ok A -> calloc A n = Some (replicate (Z.to_nat n) 0).
Proof. intros H. unfold calloc. specialize (H n). by destruct (malloc A n). Qed.

Lemma move_carried A r mem p :
  heap_ok A -> pending r mem p -> zlen p < 2147483647 ->
  ∃ r', dlt_receiver_move_to_begin A r mem = Some (DLT_RETURN_OK, r') ∧ carried r' mem p ∧
    buffersize r' = buffersize r.
Proof.
  intros HA P Hp. pose proof (pending_len _ _ _ P) as Hl. destruct P as [I (b & Hb & Hr) Hbk].
  assert (0 <= b ∧ b + zlen p <= zlen mem) as [Hb0 Hbp].
  { rewrite Hl in Hr. unfold mread in Hr. destruct (_ && _) eqn:E; [|done]. zb. lia. }
  pose proof (i_mem _ _ I) as Hm.
  unfold dlt_receiver_move_to_begin. rewrite (i_buffer _ _ I), Hb.
  destruct (Z.eqb_spec b 0) as [->|Hb1]; [cbn [negb andb]|].
  { exists r. split; [done|]. split; [|done]. split; [done|done|lia|]. rewrite Hbk. by rewrite <-Hl. }
  destruct (Z.eqb_spec (bytesRcvd r) 0) as [E0|E0]; cbn [negb andb].
  { exists r. split; [done|]. split; [|done]. split; [done|done|lia|]. rewrite Hbk.
    assert (p = []) as -> by (apply nil_length_inv; lia).
    rewrite mread_Some by (simpl; lia). done. }
  rewrite calloc_ok by done. rewrite Hr. bsimp.
  destruct (split_region (replicate (Z.to_nat (bytesRcvd r + 1)) 0) 0 (zlen p))
    as (z & o & c & -> & Lz & Lo); [len..|]. nils. cbn [app].
  rewrite (mwrite_mid [] o p c) by (simpl; lia). bsimp.
  eexists. split; [reflexivity|]. split; [|done].
  split; [by destruct I; split|done|cbn [buffersize set_backup]; lia|]. cbn [backup_buf set_backup].
  split; [by apply (mread_mid [] p c)|]. intros ->. simpl in *. lia.
Qed.

Lemma restore_carried r mem p :
  carried r mem p -> lastBytesRcvd r = zlen p ->
  ∃ mem', restore_backup r mem = Some (set_backup r None, mem') ∧ zlen mem' = zlen mem ∧
    mread mem' 0 (zlen p) = Some p.
Proof.
  intros [I Hl Hf Hd] Hlast. pose proof (i_mem _ _ I) as Hm. unfold restore_backup.
  destruct (backup_buf r) as [m|] eqn:E.
  - destruct Hd as [Hd Hne]. assert (zlen p <> 0) by (destruct p; [done|simpl; lia]).
    rewrite eqb_false, Hlast, Hd by lia. bsimp.
    destruct (split_region mem 0 (zlen p)) as (z & o & c & -> & Lz & Lo); [lia..|]. nils.
    cbn [app]. rewrite (mwrite_mid [] o p c) by (simpl; lia). bsimp.
    exists (p ++ c). split; [done|]. split; [len|]. by apply (mread_mid [] p c).
  - exists mem. split; [|done]. destruct r. cbn in *. by subst.
Qed.

Lemma receive_pending r mem p d :
  carried r mem p -> 0 < zlen d -> zlen p + zlen d <= buffersize r ->
  ∃ r' mem', dlt_receiver_receive r mem (Some d) = Some (zlen p + zlen d, r', mem') ∧
    pending r' mem' (p ++ d) ∧ buffersize r' = buffersize r.
Proof.
  intros C Hd0 Hfit. pose proof (c_inv _ _ _ C) as I. pose proof (i_size _ _ I) as Hs.
  unfold dlt_receiver_receive. rewrite (i_buffer _ _ I). cbn [negb].
  set (r1 := set_counts _ _ _ _).
  assert (carried r1 mem p) as C1 by (by destruct C as [[] ? ? ?]; split).
  destruct (restore_carried r1 mem p C1) as (mem1 & -> & Hl1 & Hp1); [by apply C|]. bsimp.
  cbn [lastBytesRcvd set_backup set_counts r1]. rewrite (c_len _ _ _ C).
  pose proof (i_mem _ _ I) as Hm.
  destruct (split_region mem1 (zlen p) (zlen d)) as (a & o & c & -> & La & Lo); [lia..|].
  assert (a = p) as ->.
  { rewrite (mread_mid [] a (o ++ c)) in Hp1 by (simpl; lia). by injection Hp1. }
  rewrite mwrite_mid by lia. bsimp. unfold INT32_MAX.
  rewrite (leb_true 0 (zlen d)), (leb_true (zlen d)) by lia. cbn [andb].
  rewrite (leb_false (zlen d) 0) by lia.
  cint. rewrite (Z.add_comm (zlen d)). eexists _, _. split; [reflexivity|]. split; [|done].
  split; [split|..]; cbn [buffer buf backup_buf buffersize bytesRcvd set_counts set_backup set_buf r1].
  - apply I.
  - len.
  - done.
  - exists 0. split; [done|]. rewrite app_assoc. apply (mread_mid [] (p ++ d) c); simpl; len.
  - done.
Qed.

Lemma get_pending r mem p n :
  pending r mem p -> 0 < n < 2147483648 ->
  ∃ rc d r', dlt_receiver_check_and_get r mem true n DLT_RCV_REMOVE = Some (rc, d, r') ∧
    buffersize r' = buffersize r ∧
    if n <=? zlen p
    then rc = n ∧ d = take (Z.to_nat n) p ∧ pending r' mem (drop (Z.to_nat n) p)
    else rc = DLT_RETURN_WRONG_PARAMETER ∧ d = [] ∧ r' = r.
Proof.
  intros P Hn. pose proof (pending_len _ _ _ P) as Hl. destruct P as [I (b & Hb & Hr) Hbk].
  unfold dlt_receiver_check_and_get. unfold DLT_RCV_REMOVE, DLT_RCV_SKIP_HEADER.
  change (Z.land 2 1 =? 0) with true. change (Z.land 2 2 =? 0) with false. cbn [negb].
  rewrite Z.add_0_r, Hl. cint. destruct (Z.leb_spec n (zlen p)) as [Hle|Hgt].
  - rewrite ltb_false by lia. cbn [orb]. rewrite Hb. rewrite Hl in Hr.
    pose proof (mread_sub mem p b n 0 Hr) as Hread. rewrite Z.add_0_r in Hread.
    rewrite Hread by lia. bsimp. unfold dlt_receiver_remove. rewrite Hb, Hl.
    rewrite ltb_false, leb_false by lia. cbn [orb]. rewrite Z.eqb_refl.
    eexists _, _, _. split; [reflexivity|]. split; [done|]. split; [done|].
    change (Z.to_nat 0) with 0%nat. rewrite drop_0. split; [done|].
    split; [by destruct I; split| |done]. exists (b + n). split; [done|].
    cbn [bytesRcvd set_counts]. rewrite (mread_sub mem p b (zlen p - n) n) by (done || lia).
    f_equal. apply take_ge. len.
  - rewrite ltb_true by lia. cbn [orb]. by eexists _, _, _.
Qed.

(** ** Rounds *)

(** Take messages of the given sizes from the front, as far as they arrived. *)
Fixpoint take_all (r : DltReceiver) (mem : bytes) (sizes : list Z)
  : option (DltReceiver * bytes) :=
  match sizes with
  | [] => Some (r, [])
  | n :: sizes =>
      '(_, d, r1) ← dlt_receiver_check_and_get r mem true n DLT_RCV_REMOVE;
      '(r2, ds) ← take_all r1 mem sizes;
      Some (r2, d ++ ds)
  end.

(** One call per event: receive a chunk, take messages, keep the rest. *)
Fixpoint rounds (A : allocator) (r : DltReceiver) (mem : bytes) (l : list (bytes * list Z))
  : option (DltReceiver * bytes * bytes) :=
  match l with
  | [] => Some (r, mem, [])
  | (chunk, sizes) :: l =>
      '(_, r1, mem1) ← dlt_receiver_receive r mem (Some chunk);
      '(r2, d) ← take_all r1 mem1 sizes;
      '(_, r3) ← dlt_receiver_move_to_begin A r2 mem1;
      '(r4, mem2, ds) ← rounds A r3 mem1 l;
      Some (r4, mem2, d ++ ds)
  end.

(** The same on a queue of bytes: what was taken and what remains; [None] when
    a chunk does not fit into the space that is left. *)
Fixpoint q_take (p : bytes) (sizes : list Z) : bytes * bytes :=
  match sizes with
  | [] => ([], p)
  | n :: sizes =>
      if n <=? zlen p
      then let '(d, p') := q_take (drop (Z.to_nat n) p) sizes in (take (Z.to_nat n) p ++ d, p')
      else q_take p sizes
  end.

Fixpoint q_rounds (size : Z) (p : bytes) (l : list (bytes * list Z)) : option (bytes * bytes) :=
  match l with
  | [] => Some ([], p)
  | (chunk, sizes) :: l =>
      if zlen p + zlen chunk <=? size then
        let '(d, p') := q_take (p ++ chunk) sizes in
        '(ds, p'') ← q_rounds size p' l;
        Some (d ++ ds, p'')
      else None
  end.

Lemma take_all_refines sizes : ∀ r mem p,
  pending r mem p -> Forall (λ n, 0 < n < 2147483648) sizes ->
  ∃ r', take_all r mem sizes = Some (r', (q_take p sizes).1) ∧
    pending r' mem (q_take p sizes).2 ∧ buffersize r' = buffersize r.
Proof.
  induction sizes as [|n sizes IH]; intros r mem p P Hs; cbn [take_all q_take].
  { by exists r. }
  apply Forall_cons_iff in Hs as [Hn Hs].
  destruct (get_pending r mem p n P Hn) as (rc & d & r1 & -> & Hbs & H). bsimp.
  destruct (n <=? zlen p); destruct H as (_ & -> & H).
  - destruct (IH r1 mem _ H Hs) as (r2 & -> & P2 & E2). bsimp.
    destruct (q_take (drop (Z.to_nat n) p) sizes) as [ds p']. exists r2.
    split; [done|]. split; [done|]. congruence.
  - subst r1. destruct (IH r mem p P Hs) as (r2 & -> & P2 & E2). bsimp. by exists r2.
Qed.

Lemma q_take_length p sizes : (length (q_take p sizes).2 <= length p)%nat.
Proof.
  revert p. induction sizes as [|n sizes IH]; intros p; cbn [q_take]; [done|].
  destruct (n <=? zlen p); [|apply IH]. specialize (IH (drop (Z.to_nat n) p)).
  destruct (q_take _ _) as [d p']. cbn [snd] in *. len.
Qed.

Lemma q_take_conserve p sizes : (q_take p sizes).1 ++ (q_take p sizes).2 = p.
Proof.
  revert p. induction sizes as [|n sizes IH]; intros p; cbn [q_take]; [done|].
  destruct (n <=? zlen p); [|apply IH]. specialize (IH (drop (Z.to_nat n) p)).
  destruct (q_take _ _) as [d p']. cbn [fst snd] in *.
  by rewrite <-app_assoc, IH, take_drop.
Qed.

Lemma q_rounds_conserve size l : ∀ p d p', q_rounds size p l = Some (d, p') ->
  d ++ p' = p ++ concat (fst <$> l).
Proof.
  induction l as [|[chunk sizes] l IH]; intros p d p'; cbn [q_rounds].
  { intros [= <- <-]. by rewrite app_nil_r. }
  destruct (_ <=? _); [|done]. pose proof (q_take_conserve (p ++ chunk) sizes) as Hc.
  destruct (q_take (p ++ chunk) sizes) as [d1 p1]. cbn [fst snd] in Hc.
  intros H. apply bind_Some in H as ([ds p2] & H & [= <- <-]).
  apply IH in H. rewrite fmap_cons. cbn [fst concat].
  by rewrite <-app_assoc, H, app_assoc, Hc, app_assoc.
Qed.

Lemma rounds_refines A l : ∀ r mem p d p',
  heap_ok A -> carried r mem p -> buffersize r < 2147483647 ->
  Forall (λ x, 0 < zlen x.1 ∧ Forall (λ n, 0 < n < 2147483648) x.2) l ->
  q_rounds (buffersize r) p l = Some (d, p') ->
  ∃ r' mem', rounds A r mem l = Some (r', mem', d) ∧ carried r' mem' p'.
Proof.
  induction l as [|[chunk sizes] l IH]; intros r mem p d p' HA C Hbs Hl; cbn [rounds q_rounds].
  { intros [= <- <-]. by exists r, mem. }
  apply Forall_cons_iff in Hl as [[Hc Hn] Hl]. cbn [fst snd] in *.
  destruct (Z.leb_spec (zlen p + zlen chunk) (buffersize r)) as [Hfit|]; [|done].
  destruct (receive_pending r mem p chunk C Hc Hfit) as (r1 & mem1 & -> & P1 & E1). bsimp.
  destruct (take_all_refines sizes r1 mem1 _ P1 Hn) as (r2 & -> & P2 & E2). bsimp.
  pose proof (q_take_length (p ++ chunk) sizes) as Hlen.
  destruct (q_take (p ++ chunk) sizes) as [d1 p1]. cbn [fst snd] in *.
  destruct (move_carried A r2 mem1 p1 HA P2) as (r3 & -> & C3 & E3); [len|]. bsimp.
  intros H. apply bind_Some in H as ([ds p2] & H & [= <- <-]).
  destruct (IH r3 mem1 p1 ds p2 HA C3) as (r4 & mem2 & -> & C4); [lia|done| |].
  { by replace (buffersize r3) with (buffersize r) by congruence. }
  bsimp. by exists r4, mem2.
Qed.

(** ** Theorems *)

(** C31: A receiver that has its buffer for itself hands out, over any number of
    rounds of receiving a chunk of at least one byte that fits, taking messages and
    keeping the rest, exactly what a byte queue hands out: what was taken followed by
    what is kept is what was received, nothing is lost, repeated or reordered, and no
    access leaves the buffer.  (A receive that delivers nothing drops what was kept:
    [empty_receive_loses_data]; receivers with a common buffer overwrite it:
    [shared_buffer_is_overwritten].) *)
Theorem receiver_is_stream (A : allocator) (r : DltReceiver) (mem p d p' : bytes)
  (l : list (bytes * list Z)) :
  heap_ok A -> carried r mem p -> buffersize r < 2147483647 ->
  Forall (λ x, 0 < zlen x.1 ∧ Forall (λ n, 0 < n < 2147483648) x.2) l ->
  q_rounds (buffersize r) p l = Some (d, p') ->
  (∃ r' mem', rounds A r mem l = Some (r', mem', d) ∧ carried r' mem' p') ∧
  d ++ p' = p ++ concat (fst <$> l).
Proof.
  intros HA C Hbs Hl Hq. split; [by apply (rounds_refines A l r mem p)|].
  by apply (q_rounds_conserve (buffersize r) l).
Qed.

(** a receive that delivers nothing (an error, an interrupted call, or a
    buffer without room) drops the bytes that were kept from earlier. *)
Theorem empty_receive_loses_data (r : DltReceiver) (mem p : bytes) (input : option bytes) :
  carried r mem p -> input = None ∨ input = Some [] ->
  ∃ r' mem', dlt_receiver_receive r mem input = Some (0, r', mem') ∧ carried r' mem' [].
Proof.
  intros C Hin. pose proof (c_inv _ _ _ C) as I. pose proof (i_size _ _ I) as Hs.
  unfold dlt_receiver_receive. rewrite (i_buffer _ _ I). cbn [negb].
  set (r1 := set_counts _ _ _ _).
  assert (carried r1 mem p) as C1 by (by destruct C as [[] ? ? ?]; split).
  destruct (restore_carried r1 mem p C1) as (mem1 & -> & Hl1 & Hp1); [by apply C|]. bsimp.
  cbn [lastBytesRcvd set_backup set_counts r1]. rewrite (c_len _ _ _ C).
  pose proof (i_mem _ _ I) as Hm. pose proof (c_fits _ _ _ C) as Hf.
  assert (carried (set_counts (set_backup r1 None) (zlen p) 0 (totalBytesRcvd r)) mem1 []) as C2.
  { split; [split; [apply I|cbn; lia|done]|done|cbn; lia|].
    cbn [backup_buf set_counts set_backup]. by rewrite mread_Some by (simpl; lia). }
  destruct Hin as [-> | ->]; bsimp.
  - by eexists _, _.
  - rewrite mwrite_Some by (simpl; lia). bsimp. cbn [length Nat.add app].
    rewrite Nat.add_0_r, take_drop. by eexists _, _.
Qed.

(** receivers that share the global buffer overwrite each other's kept
    bytes.  When the bytes of receiver 1 were not touched at all (an incomplete
    message at the front), [dlt_receiver_move_to_begin] makes no backup; after
    receiver 2 received [d2] into the same buffer, receiver 1 continues with
    bytes of [d2] in place of its own. *)
Theorem shared_buffer_is_overwritten (A : allocator) (r1 r2 : DltReceiver) (mem p d1 d2 : bytes) :
  pending r1 mem p -> buf r1 = Some 0 -> carried r2 mem [] -> backup_buf r2 = None ->
  0 < zlen d1 -> 0 < zlen p <= zlen d2 -> zlen p + zlen d1 <= buffersize r1 ->
  zlen d2 <= buffersize r2 ->
  ∃ r1' r2' r1'' mem' mem'',
    dlt_receiver_move_to_begin A r1 mem = Some (DLT_RETURN_OK, r1') ∧
    dlt_receiver_receive r2 mem (Some d2) = Some (zlen d2, r2', mem') ∧
    dlt_receiver_receive r1' mem' (Some d1) = Some (zlen p + zlen d1, r1'', mem'') ∧
    pending r1'' mem'' (take (length p) d2 ++ d1).
Proof.
  intros P1 Hb1 C2 Hbk Hd1 Hd2 Hfit1 Hfit2. pose proof (pending_len _ _ _ P1) as Hl.
  destruct P1 as [I1 (b & Hb & Hr) Hbk1]. rewrite Hb1 in Hb. injection Hb as <-.
  pose proof (i_mem _ _ I1) as Hm1. pose proof (i_mem _ _ (c_inv _ _ _ C2)) as Hm2.
  destruct (receive_pending r2 mem [] d2 C2) as (r2' & mem' & E2 & P2 & Ebs); [lia|simpl; lia|].
  pose proof (i_mem _ _ (p_inv _ _ _ P2)) as Hm'. destruct (p_buf _ _ _ P2) as (b2 & Hb2 & Hr2).
  set (q := take (length p) d2). assert (zlen q = zlen p) as Lq by (subst q; len).
  assert (b2 = 0) as ->.
  { revert E2. unfold dlt_receiver_receive. rewrite (i_buffer _ _ (c_inv _ _ _ C2)). cbn [negb].
    unfold restore_backup. cbn [backup_buf set_counts set_buf]. rewrite Hbk. bsimp.
    intros H. apply bind_Some in H as ([bs mm] & _ & H).
    case_match; injection H as _ <- _; cbn in Hb2; congruence. }
  assert (carried r1 mem' q) as C1'.
  { split; [split; [apply I1|lia|apply I1]|lia|lia|]. rewrite Hbk1.
    pose proof (mread_sub mem' ([] ++ d2) 0 (zlen q) 0) as Hsub. cbn [app] in Hsub.
    change 0 with (0 + 0) at 1. rewrite Hsub; [|change d2 with ([] ++ d2); by rewrite <-(pending_len _ _ _ P2)|lia..]. f_equal.
    change (Z.to_nat 0) with 0%nat. rewrite drop_0, Nat2Z.id. subst q. f_equal. len. }
  destruct (receive_pending r1 mem' q d1 C1') as (r1'' & mem'' & E1 & P1'' & _); [done|lia|].
  exists r1, r2', r1'', mem', mem''. split.
  { unfold dlt_receiver_move_to_begin. by rewrite (i_buffer _ _ I1), Hb1. }
  split; [exact E2|]. rewrite <-Lq. done.
Qed.

(** ** Examples *)

Definition mk_receiver (n : Z) : DltReceiver :=
  {| lastBytesRcvd := 0; bytesRcvd := n; totalBytesRcvd := 0; buffer := true; buf := Some 0;
     backup_buf := None; fd := 3; type := DLT_RECEIVE_SOCKET; buffersize := 8 |}.

Lemma mk_carried p : zlen p <= 8 -> carried (mk_receiver (zlen p)) (p ++ replicate (8 - length p) 0) p.
Proof.
  intros H. split; [split; cbn [buffersize mk_receiver]; [done|len|lia]|done|done|].
  by apply (mread_mid [] p).
Qed.

Lemma mk_pending p : zlen p <= 8 -> pending (mk_receiver (zlen p)) (p ++ replicate (8 - length p) 0) p.
Proof.
  intros H. split; [apply (mk_carried p H)| |done]. exists 0. split; [done|]. by apply (mread_mid [] p).
Qed.

Lemma receiver_is_stream_witness :
  (∃ r' mem', rounds (heap_filled 7) (mk_receiver 0) (replicate 8 0)
       [([1; 2; 3], [2]); ([4; 5; 6; 7; 8], [3; 5])] = Some (r', mem', [1; 2; 3; 4; 5]) ∧
     carried r' mem' [6; 7; 8]) ∧
  [1; 2; 3; 4; 5] ++ [6; 7; 8] = [] ++ concat (fst <$> [([1; 2; 3], [2]); ([4; 5; 6; 7; 8], [3; 5])]).
Proof.
  apply (receiver_is_stream (heap_filled 7) (mk_receiver 0) (replicate 8 0) []
    [1; 2; 3; 4; 5] [6; 7; 8]).
  - intros n. discriminate.
  - apply (mk_carried []). simpl. lia.
  - simpl. lia.
  - repeat (apply Forall_cons_2; [split; [simpl; lia|repeat (apply Forall_cons_2; [lia|]); apply Forall_nil_2]|]).
    apply Forall_nil_2.
  - reflexivity.
Defined.

Lemma empty_receive_witness :
  ∃ r' mem', dlt_receiver_receive (mk_receiver 2) [1; 2; 0; 0; 0; 0; 0; 0] None = Some (0, r', mem') ∧
    carried r' mem' [].
Proof.
  apply (empty_receive_loses_data (mk_receiver 2) [1; 2; 0; 0; 0; 0; 0; 0] [1; 2]);
    [apply (mk_carried [1; 2]); simpl; lia|by left].
Defined.

Lemma shared_buffer_witness :
  ∃ r1' r2' r1'' mem' mem'',
    dlt_receiver_move_to_begin (heap_filled 0) (mk_receiver 2) [1; 2; 0; 0; 0; 0; 0; 0] =
      Some (DLT_RETURN_OK, r1') ∧
    dlt_receiver_receive (mk_receiver 0) [1; 2; 0; 0; 0; 0; 0; 0] (Some [9; 9; 9]) =
      Some (3, r2', mem') ∧
    dlt_receiver_receive r1' mem' (Some [3; 4]) = Some (4, r1'', mem'') ∧
    pending r1'' mem'' [9; 9; 3; 4].
Proof.
  apply (shared_buffer_is_overwritten (heap_filled 0) (mk_receiver 2) (mk_receiver 0)
    [1; 2; 0; 0; 0; 0; 0; 0] [1; 2] [3; 4] [9; 9; 9]); try reflexivity; try (simpl; lia).
  - apply (mk_pending [1; 2]). simpl. lia.
  - split; [split; [done|done|simpl; lia]|done|done|done].
Defined.

End ReceiverSpec.
