(* ===== verification/DltFile.v ===== *)
(** * DLT files ([src/shared/dlt_common.c])

    A DLT file is a sequence of messages, each behind a storage header.
    [dlt_file_read] walks over the messages and builds an index of the ones the
    filter accepts; [dlt_file_message] loads one of them by its index.

    A stream is the content of the file and the position; [fread], [fseek] and
    [ftell] are those of the C library on a regular file. *)

From stdpp Require Import base list numbers option.
From Stdlib Require Import ZArith Lia Bool.
From S2P Require Import Prelude Protocol Ids Message Filter.
Import Protocol Ids Message Filter.

Local Open Scope Z_scope.

Module DltFile.

(** ** Storage headers *)

Definition storage_pattern : bytes := [68; 76; 84; 1].

(** The 16 bytes of a [DltStorageHeader]; [sec] and [usec] are the current
    time. *)
Definition dlt_set_storageheader (hdr : bytes) (ecu : option bytes) (sec usec : Z)
  : option (Z * bytes) :=
  match ecu with
  | None => Some (DLT_RETURN_WRONG_PARAMETER, hdr)
  | Some ecu =>
      h1 ← mwrite hdr 0 storage_pattern;
      old ← mread h1 12 4;
      e ← set_id old ecu;
      h2 ← mwrite h1 12 e;
      h3 ← mwrite h2 4 (le_bytes 4 (u32 sec));
      h4 ← mwrite h3 8 (le_bytes 4 (u32 usec));
      Some (DLT_RETURN_OK, h4)
  end.

Definition dlt_check_storageheader (hdr : bytes) : option Z :=
  p ← mread hdr 0 4;
  Some (if bool_decide (p = storage_pattern) then DLT_RETURN_TRUE else DLT_RETURN_OK).

Definition dlt_check_rcv_data_size (received required : Z) : Z :=
  if received <? required then DLT_RETURN_ERROR else DLT_RETURN_OK.

(** ** Streams *)

Record FILE := { content : bytes; fpos : Z }.

Definition avail (h : FILE) (size : Z) : Z := Z.max 0 (Z.min size (zlen (content h) - fpos h)).

(** [fread(dst + off, size, 1, h)]: whether it returns 1, the destination (a
    short read fills it partly) and the stream. *)
Definition fread (dst : bytes) (off size : Z) (h : FILE) : option (bool * bytes * FILE) :=
  let n := avail h size in
  d ← (if n =? 0 then Some [] else mread (content h) (fpos h) n);
  dst' ← mwrite dst off d;
  Some ((n =? size) && negb (size =? 0), dst', {| content := content h; fpos := fpos h + n |}).

(** [fseek] fails when the new position would be negative. *)
Definition fseek_to (h : FILE) (p : Z) : bool * FILE :=
  if p <? 0 then (false, h) else (true, {| content := content h; fpos := p |}).
Definition fseek_set (h : FILE) (p : Z) : bool * FILE := fseek_to h p.
Definition fseek_cur (h : FILE) (o : Z) : bool * FILE := fseek_to h (fpos h + o).

(** ** Data *)

Definition DLT_COMMON_INDEX_ALLOC : Z := 1000.
Definition DLT_COMMON_DUMMY_ECUID : bytes := [69; 67; 85; 0].

Record DltFile := {
  handle : option FILE;
  index : option (list Z);
  counter : Z;
  counter_total : Z;
  position : Z;
  file_length : Z;
  file_position : Z;
  error_messages : Z;
  filter : option DltFilter;
  filter_counter : Z;
  msg : DltMessage
}.

Definition set_handle (f : DltFile) (h : option FILE) : DltFile :=
  {| handle := h; index := index f; counter := counter f; counter_total := counter_total f;
     position := position f; file_length := file_length f; file_position := file_position f;
     error_messages := error_messages f; filter := filter f; filter_counter := filter_counter f;
     msg := msg f |}.
Definition set_msg (f : DltFile) (m : DltMessage) : DltFile :=
  {| handle := handle f; index := index f; counter := counter f; counter_total := counter_total f;
     position := position f; file_length := file_length f; file_position := file_position f;
     error_messages := error_messages f; filter := filter f; filter_counter := filter_counter f;
     msg := m |}.
Definition set_index (f : DltFile) (i : option (list Z)) (n p : Z) : DltFile :=
  {| handle := handle f; index := i; counter := n; counter_total := counter_total f;
     position := p; file_length := file_length f; file_position := file_position f;
     error_messages := error_messages f; filter := filter f; filter_counter := filter_counter f;
     msg := msg f |}.
Definition set_total (f : DltFile) (n p e : Z) : DltFile :=
  {| handle := handle f; index := index f; counter := counter f; counter_total := n;
     position := position f; file_length := file_length f; file_position := p;
     error_messages := e; filter := filter f; filter_counter := filter_counter f;
     msg := msg f |}.
Definition set_filter (f : DltFile) (x : option DltFilter) : DltFile :=
  {| handle := handle f; index := index f; counter := counter f; counter_total := counter_total f;
     position := position f; file_length := file_length f; file_position := file_position f;
     error_messages := error_messages f; filter := x; filter_counter := filter_counter f;
     msg := msg f |}.

(** A read into the header buffer of the message. *)
Definition fread_header (f : DltFile) (off size : Z) : option (bool * DltFile) :=
  h ← handle f;
  '(ok, hb, h') ← fread (headerbuffer (msg f)) off size h;
  Some (ok, set_msg (set_handle f (Some h')) (set_headerbuffer (msg f) hb)).

Definition seek_set (f : DltFile) (p : Z) : option (bool * DltFile) :=
  h ← handle f; let '(ok, h') := fseek_set h p in Some (ok, set_handle f (Some h')).
Definition seek_cur (f : DltFile) (o : Z) : option (bool * DltFile) :=
  h ← handle f; let '(ok, h') := fseek_cur h o in Some (ok, set_handle f (Some h')).
Definition tell (f : DltFile) : option Z := h ← handle f; Some (fpos h).

(** Return an error from a read: the stream goes back to [file_position]. *)
Definition go_back (f : DltFile) : option (Z * DltFile) :=
  '(_, f') ← seek_set f (file_position f); Some (DLT_RETURN_ERROR, f').

(** ** Operations *)

Definition dlt_file_init (f : DltFile) : Z * DltFile :=
  let '(rc, m) := dlt_message_init (msg f) in
  (rc, {| handle := None; index := None; counter := 0; counter_total := 0; position := 0;
          file_length := file_length f; file_position := 0; error_messages := 0; filter := None;
          filter_counter := 0; msg := m |}).

Definition dlt_file_set_filter (f : DltFile) (x : option DltFilter) : Z * DltFile :=
  (DLT_RETURN_OK, set_filter f x).

(** [file] is the content of the named file, [None] when it cannot be opened. *)
Definition dlt_file_open (f : DltFile) (file : option bytes) : Z * DltFile :=
  let f0 := {| handle := None; index := index f; counter := 0; counter_total := 0; position := 0;
               file_length := 0; file_position := 0; error_messages := 0; filter := filter f;
               filter_counter := filter_counter f; msg := msg f |} in
  match file with
  | None => (DLT_RETURN_ERROR, f0)
  | Some b =>
      (DLT_RETURN_OK,
       {| handle := Some {| content := b; fpos := 0 |}; index := index f; counter := 0;
          counter_total := 0; position := 0; file_length := zlen b; file_position := 0;
          error_messages := 0; filter := filter f; filter_counter := filter_counter f;
          msg := msg f |})
  end.

(** Loop until a storage header is found; every round moves one byte on, so the
    length of the file bounds the rounds.  The result tells whether it was
    found. *)
Fixpoint header_loop (fuel : nat) (f : DltFile) : option (bool * DltFile) :=
  match fuel with
  | O => None
  | S fuel =>
      '(ok, f) ← fread_header f 0 (sizeof_DltStorageHeader + sizeof_DltStandardHeader);
      if negb ok then Some (false, f) else
      let f := set_msg f (set_pointers (msg f) (Some 0) (Some sizeof_DltStorageHeader)
                            (extendedheader (msg f))) in
      rc ← dlt_check_storageheader (headerbuffer (msg f));
      if negb (rc =? DLT_RETURN_TRUE) then
        '(ok, f) ← seek_cur f (1 - (sizeof_DltStorageHeader + sizeof_DltStandardHeader));
        if (ok : bool) then header_loop fuel f else Some (false, f)
      else Some (true, f)
  end.

(** The sizes of headers and payload, from the standard header. *)
Definition header_sizes (f : DltFile) : option (Z * DltFile) :=
  htyp ← std_htyp (msg f);
  len ← std_len (msg f);
  let hs := i32 (sizeof_DltStorageHeader + sizeof_DltStandardHeader
                 + DLT_STANDARD_HEADER_EXTRA_SIZE htyp + DLT_EXTENDED_SIZE htyp) in
  let temp_datasize := DLT_BETOH_16 len + sizeof_DltStorageHeader - hs in
  if temp_datasize <? 0
  then Some (DLT_RETURN_ERROR, set_msg f (set_sizes (msg f) hs (datasize (msg f))))
  else Some (DLT_RETURN_OK, set_msg f (set_sizes (msg f) hs temp_datasize)).

Definition dlt_file_read_header (f : DltFile) : option (Z * DltFile) :=
  h ← handle f;
  '(found, f) ← header_loop (S (length (content h))) f;
  if (found : bool) then header_sizes f else Some (DLT_RETURN_ERROR, f).

(** The resynchronisation of [dlt_file_read_header_raw] on the serial header:
    [w] is the window of four bytes. *)
Fixpoint serial_loop (fuel : nat) (w : bytes) (f : DltFile) : option (bool * DltFile) :=
  match fuel with
  | O => None
  | S fuel =>
      h ← handle f;
      '(ok, w', h') ← fread (drop 1 w ++ drop 3 w) 3 1 h;
      let f := set_handle f (Some h') in
      if negb ok then Some (false, f)
      else if bool_decide (w' = dltSerialHeader) then Some (true, f)
      else serial_loop fuel w' f
  end.

(** The part of [dlt_file_read_header_raw] before the standard header; [w0] is
    the initial content of the local window. *)
Definition raw_sync (f : DltFile) (w0 : bytes) (resync : bool) : option (bool * DltFile) :=
  h ← handle f;
  '(ok, w, h') ← fread w0 0 4 h;
  let f := set_handle f (Some h') in
  if negb ok then Some (false, f)
  else if bool_decide (w = dltSerialHeader) then Some (true, f)
  else if resync then
    serial_loop (S (length (content h)))
      w (set_total f (counter_total f) (file_position f) (i32 (error_messages f + 1)))
  else seek_set f (file_position f).

Definition dlt_file_read_header_raw (f : DltFile) (w0 : bytes) (resync : bool) (sec usec : Z)
  : option (Z * DltFile) :=
  '(ok, f) ← raw_sync f w0 resync;
  if negb ok then Some (DLT_RETURN_ERROR, f) else
  '(ok, f) ← fread_header f sizeof_DltStorageHeader sizeof_DltStandardHeader;
  if negb ok then Some (DLT_RETURN_ERROR, f) else
  let f := set_msg f (set_pointers (msg f) (Some 0) (Some sizeof_DltStorageHeader)
                        (extendedheader (msg f))) in
  hb0 ← mwrite (headerbuffer (msg f)) 0 (replicate 16 0);
  sh ← mread hb0 0 16;
  '(_, sh') ← dlt_set_storageheader sh (Some DLT_COMMON_DUMMY_ECUID) sec usec;
  hb1 ← mwrite hb0 0 sh';
  header_sizes (set_msg f (set_headerbuffer (msg f) hb1)).

Definition dlt_file_read_header_extended (f : DltFile) : option (Z * DltFile) :=
  htyp ← std_htyp (msg f);
  let extra := DLT_STANDARD_HEADER_EXTRA_SIZE htyp in
  '(ok, f) ←
    (if negb (extra =? 0) then
       '(ok, f) ← fread_header f (sizeof_DltStorageHeader + sizeof_DltStandardHeader) extra;
       if negb ok then Some (false, f)
       else '(_, m) ← dlt_message_get_extraparameters (msg f); Some (true, set_msg f m)
     else Some (true, f));
  if negb ok then Some (DLT_RETURN_ERROR, f)
  else if negb (DLT_IS_HTYP_UEH htyp) then Some (DLT_RETURN_OK, f)
  else
    '(ok, f) ← fread_header f (sizeof_DltStorageHeader + sizeof_DltStandardHeader + extra)
                 sizeof_DltExtendedHeader;
    if negb ok then Some (DLT_RETURN_ERROR, f)
    else
      Some (DLT_RETURN_OK,
            set_msg f (set_pointers (msg f) (storageheader (msg f)) (standardheader (msg f))
                         (Some (sizeof_DltStorageHeader + sizeof_DltStandardHeader + extra)))).

(** The payload buffer of [dlt_file_read_data]. *)
Definition data_buffer (A : allocator) (m : DltMessage) : DltMessage :=
  let m := match databuffer m with
           | Some _ => if databuffersize m <? datasize m
                       then set_databuffer m None (databuffersize m) else m
           | None => m
           end in
  match databuffer m with
  | None => set_databuffer m (malloc A (datasize m)) (datasize m)
  | Some _ => m
  end.

Definition dlt_file_read_data (A : allocator) (f : DltFile) : option (Z * DltFile) :=
  let f := set_msg f (data_buffer A (msg f)) in
  match databuffer (msg f) with
  | None => Some (DLT_RETURN_ERROR, f)
  | Some db =>
      h ← handle f;
      '(ok, db', h') ← fread db 0 (datasize (msg f)) h;
      let f := set_msg (set_handle f (Some h'))
                 (set_databuffer (msg f) (Some db') (databuffersize (msg f))) in
      Some (if negb ok && negb (datasize (msg f) =? 0) then DLT_RETURN_ERROR else DLT_RETURN_OK, f)
  end.

(** An array of [n] longs in fresh memory. *)
Definition malloc_longs (A : allocator) (n : Z) : option (list Z) :=
  match malloc A (8 * n) with
  | None => None
  | Some b => Some ((λ i, le_Z (take 8 (drop (8 * i) b))) <$> seq 0 (Z.to_nat n))
  end.

(** The index grows by [DLT_COMMON_INDEX_ALLOC] entries when it is full. *)
Definition grow_index (A : allocator) (f : DltFile) : option (bool * DltFile) :=
  if counter f mod DLT_COMMON_INDEX_ALLOC =? 0 then
    match malloc_longs A ((counter f / DLT_COMMON_INDEX_ALLOC + 1) * DLT_COMMON_INDEX_ALLOC) with
    | None => Some (false, f)
    | Some ptr =>
        match index f with
        | None => Some (true, set_index f (Some ptr) (counter f) (position f))
        | Some old =>
            d ← mread old 0 (counter f);
            p ← mwrite ptr 0 d;
            Some (true, set_index f (Some p) (counter f) (position f))
        end
    end
  else Some (true, f).

(** [file->index[file->counter] = pos; file->counter++; ...]. *)
Definition store_index (f : DltFile) (pos : Z) : option DltFile :=
  i ← index f;
  i' ← mwrite i (counter f) [pos];
  Some (set_index f (Some i') (counter f + 1) (counter f)).

(** The last statements of a successful read. *)
Definition next_message (f : DltFile) : option DltFile :=
  p ← tell f; Some (set_total f (counter_total f + 1) p (error_messages f)).

Definition dlt_file_read (A : allocator) (f : DltFile) : option (Z * DltFile) :=
  '(ok, f) ← grow_index A f;
  if negb ok then Some (DLT_RETURN_ERROR, f) else
  '(ok, f) ← seek_set f (file_position f);
  if negb ok then Some (DLT_RETURN_ERROR, f) else
  '(rc, f) ← dlt_file_read_header f;
  if rc <? DLT_RETURN_OK then go_back f else
  match filter f with
  | Some flt =>
      '(rc, f) ← dlt_file_read_header_extended f;
      if rc <? DLT_RETURN_OK then go_back f else
      c ← dlt_message_filter_check (msg f) flt;
      f1 ← (if c =? DLT_RETURN_TRUE then store_index f (file_position f) else Some f);
      '(ok, f2) ← seek_cur f1 (datasize (msg f1));
      if negb ok then go_back f2 else
      f3 ← next_message f2;
      Some (if c =? DLT_RETURN_TRUE then DLT_RETURN_TRUE else DLT_RETURN_OK, f3)
  | None =>
      '(ok, f1) ← seek_cur f (headersize (msg f) - sizeof_DltStorageHeader
                              - sizeof_DltStandardHeader + datasize (msg f));
      if negb ok then go_back f1 else
      f2 ← store_index f1 (file_position f1);
      f3 ← next_message f2;
      Some (DLT_RETURN_TRUE, f3)
  end.

Definition dlt_file_read_raw (A : allocator) (f : DltFile) (w0 : bytes) (resync : bool)
  (sec usec : Z) : option (Z * DltFile) :=
  '(ok, f) ← grow_index A f;
  if negb ok then Some (DLT_RETURN_ERROR, f) else
  '(ok, f) ← seek_set f (file_position f);
  if negb ok then Some (DLT_RETURN_ERROR, f) else
  '(rc, f) ← dlt_file_read_header_raw f w0 resync sec usec;
  if rc <? DLT_RETURN_OK then go_back f else
  '(rc, f) ← dlt_file_read_header_extended f;
  if rc <? DLT_RETURN_OK then go_back f else
  '(rc, f) ← dlt_file_read_data A f;
  if rc <? DLT_RETURN_OK then go_back f else
  f2 ← store_index f (file_position f);
  f3 ← next_message f2;
  Some (DLT_RETURN_TRUE, f3).

Definition dlt_file_close (f : DltFile) : Z * DltFile := (DLT_RETURN_OK, set_handle f None).

Definition dlt_file_message (A : allocator) (f : DltFile) (i : Z) : option (Z * DltFile) :=
  if (i <? 0) || (counter f <=? i) then Some (DLT_RETURN_WRONG_PARAMETER, f) else
  idx ← index f;
  p ← idx !! Z.to_nat i;
  '(ok, f) ← seek_set f p;
  if negb ok then Some (DLT_RETURN_ERROR, f) else
  '(rc, f) ← dlt_file_read_header f;
  if rc <? DLT_RETURN_OK then Some (DLT_RETURN_ERROR, f) else
  '(rc, f) ← dlt_file_read_header_extended f;
  if rc <? DLT_RETURN_OK then Some (DLT_RETURN_ERROR, f) else
  '(rc, f) ← dlt_file_read_data A f;
  if rc <? DLT_RETURN_OK then Some (DLT_RETURN_ERROR, f) else
  Some (DLT_RETURN_OK, set_index f (index f) (counter f) i).

Definition dlt_file_free (f : DltFile) : Z * DltFile :=
  let '(rc, m) := dlt_message_free (msg f) in
  (rc, set_msg (set_handle (set_index f None (counter f) (position f)) None) m).

End DltFile.
