(* ===== verification/DltFileSpec.v ===== *)
(** * DLT files: the index is complete and random access is correct *)

From stdpp Require Import base list numbers option.
From Stdlib Require Import ZArith Lia Bool.
From S2P Require Import Prelude Protocol Ids Message MessageSpec Filter FilterSpec DltFile.
Import Protocol Ids Message MessageSpec DltFile.

Local Open Scope Z_scope.

Module DltFileSpec.

(** ** Streams *)

Lemma fread_mid (dst a d c : bytes) (off size p : Z) :
  p = zlen a -> size = zlen d -> 0 < size ->
  fread dst off size {| content := a ++ d ++ c; fpos := p |} =
    (dst' ← mwrite dst off d; Some (true, dst', {| content := a ++ d ++ c; fpos := p + size |})).
Proof.
  intros -> -> Hs. unfold fread, avail. cbn [content fpos].
  replace (Z.max 0 (Z.min (zlen d) (zlen (a ++ d ++ c) - zlen a))) with (zlen d) by len.
  rewrite (eqb_false (zlen d) 0) by lia. rewrite mread_mid by done. bsimp. by rewrite Z.eqb_refl.
Qed.

Lemma fread_short (dst : bytes) (off size : Z) (h : FILE) :
  zlen (content h) <= fpos h -> 0 <= off <= zlen dst -> 0 <= size ->
  fread dst off size h = Some (false, dst, h).
Proof.
  intros Hp Ho Hs. unfold fread, avail.
  replace (Z.max 0 (Z.min size (zlen (content h) - fpos h))) with 0 by lia.
  change (0 =? 0) with true. bsimp. rewrite mwrite_Some by (simpl; lia). bsimp.
  rewrite Z.add_0_r. cbn [length app]. rewrite Nat.add_0_r, take_drop.
  assert ((0 =? size) && negb (size =? 0) = false) as ->
    by (destruct (Z.eqb_spec size 0) as [->|]; [done|by rewrite eqb_false by lia]).
  by destruct h.
Qed.

(** ** The file object *)

(** The file with a stream position and a loaded message. *)
Definition at_ (f : DltFile) (h : FILE) (m : DltMessage) : DltFile :=
  set_msg (set_handle f (Some h)) m.

Abbreviation stream b p := {| content := b; fpos := p |}.

(** A message as it is stored. *)
Definition storage_header (sh : bytes) : Prop :=
  zlen sh = 16 ∧ is_bytes sh ∧ take 4 sh = storage_pattern.

Lemma check_storage sh r : storage_header sh -> dlt_check_storageheader (sh ++ r) = Some DLT_RETURN_TRUE.
Proof.
  intros (Lsh & _ & Psh). unfold dlt_check_storageheader. rewrite <-(take_drop 4 sh), <-app_assoc.
  rewrite (mread_mid [] (take 4 sh) (drop 4 sh ++ r)) by (done || len). bsimp. by rewrite Psh.
Qed.

Lemma fread_header_mid f m a d c off p q old rest :
  headerbuffer m = q ++ old ++ rest -> zlen q = off -> zlen old = zlen d ->
  p = zlen a -> 0 < zlen d ->
  fread_header (at_ f (stream (a ++ d ++ c) p) m) off (zlen d) =
    Some (true, at_ f (stream (a ++ d ++ c) (p + zlen d)) (set_headerbuffer m (q ++ d ++ rest))).
Proof.
  intros Hb Hq Ho Hp Hd. unfold fread_header, at_. cbn [handle set_msg set_handle msg]. bsimp.
  rewrite fread_mid by done. rewrite Hb, mwrite_mid by lia. done.
Qed.

Lemma wf_pointers m a b c : wf m -> wf (set_pointers m a b c).
Proof. intros [? ? ?]. by split. Qed.
Lemma wf_sizes m a b : wf m -> wf (set_sizes m a b).
Proof. intros [? ? ?]. by split. Qed.
Lemma wf_extra m x : wf m -> wf (set_headerextra m x).
Proof. intros [? ? ?]. by split. Qed.

(** The message after its storage and standard header were read. *)
Record holds_std (m : DltMessage) (M : message) (sh : bytes) : Prop := {
  hs_hb : ∃ rest, headerbuffer m = sh ++ std M ++ rest ∧ zlen rest = 22;
  hs_hs : headersize m = 20 + zlen (extra M) + zlen (ext M);
  hs_ds : datasize m = zlen (m_payload M);
  hs_std : standardheader m = Some 16
}.

Lemma holds_std_htyp m M sh : holds_std m M sh -> zlen sh = 16 -> std_htyp m = Some (m_htyp M).
Proof. intros [(r & Hb & _) _ _ Hs] Hl. by apply (std_htyp_at m M sh r). Qed.

Lemma std_bytes M : wf_message M -> is_bytes (std M).
Proof. intros WM. pose proof (wm_bytes _ WM) as B. unfold encode in B. by apply is_bytes_app in B as [? _]. Qed.

(** The message with storage header [sh] and the standard header of [M] in its
    buffer. *)
Definition std_loaded (m : DltMessage) (hb : bytes) : DltMessage :=
  set_pointers (set_headerbuffer m hb) (Some 0) (Some 16) (extendedheader m).

Lemma header_loop_at fuel f m a c p sh M :
  wf m -> wf_message M -> storage_header sh -> p = zlen a ->
  ∃ rest, zlen rest = 22 ∧ wf (std_loaded m (sh ++ std M ++ rest)) ∧
    header_loop (S fuel) (at_ f (stream (a ++ sh ++ std M ++ c) p) m) =
      Some (true, at_ f (stream (a ++ sh ++ std M ++ c) (p + 20)) (std_loaded m (sh ++ std M ++ rest))).
Proof.
  intros W WM Hsh Hp. pose proof Hsh as (Lsh & Bsh & _). pose proof (length_std M) as Ls.
  pose proof (wf_hb_bytes _ W) as Bhb. pose proof (wf_hb _ W) as Lhb.
  change HEADERBUFFER_SIZE with 42 in Lhb.
  destruct (split_region (headerbuffer m) 0 20) as (z & old & rest & Hb & Lz & Lo); [lia..|]. nils.
  cbn [app] in Hb. rewrite Hb, is_bytes_app in Bhb. destruct Bhb as [_ Brest].
  rewrite Hb in Lhb. exists rest. assert (zlen rest = 22) as Lr by len. split; [done|]. split.
  { apply wf_pointers, wf_set_hb; try done; [by apply std_bytes|lia]. }
  cbn [header_loop]. unfold sizeof_DltStorageHeader, sizeof_DltStandardHeader.
  rewrite (app_assoc sh (std M) c). change (16 + 4) with 20. replace 20 with (zlen (sh ++ std M)) by len.
  rewrite (fread_header_mid f m a (sh ++ std M) c 0 p [] old rest) by (done || len). bsimp.
  cbn [negb]. cbn [msg at_ set_msg set_handle headerbuffer set_headerbuffer set_pointers app].
  rewrite <-(app_assoc sh (std M) rest), (check_storage sh) by done. done.
Qed.

Lemma header_sizes_at f h m M sh rest :
  wf_message M -> headerbuffer m = sh ++ std M ++ rest -> zlen sh = 16 ->
  standardheader m = Some 16 ->
  header_sizes (at_ f h m) =
    Some (DLT_RETURN_OK,
          at_ f h (set_sizes m (20 + zlen (extra M) + zlen (ext M)) (zlen (m_payload M)))).
Proof.
  intros WM Hb Hsh Hs. pose proof (length_extra M WM) as Lx. pose proof (length_ext M WM) as Le.
  pose proof (extra_size_range (m_htyp M)). pose proof (extended_size_range (m_htyp M)).
  pose proof (wm_len _ WM) as Hml. assert (0 <= message_len M) by (unfold message_len; lia).
  unfold header_sizes. cbn [msg at_ set_msg].
  rewrite (std_htyp_at m M sh rest) by done. bsimp. rewrite (std_len_at m M sh rest) by done. bsimp.
  unfold DLT_BETOH_16, sizeof_DltStorageHeader, sizeof_DltStandardHeader.
  rewrite swap_16_invol by lia. rewrite <-Lx, <-Le. cint.
  unfold message_len. rewrite ltb_false by lia. unfold at_, set_msg. cbn [handle set_handle].
  do 4 f_equal. lia.
Qed.

Lemma read_header_at f m a c p sh M :
  wf m -> wf_message M -> storage_header sh -> p = zlen a ->
  ∃ m', dlt_file_read_header (at_ f (stream (a ++ sh ++ std M ++ c) p) m) =
      Some (DLT_RETURN_OK, at_ f (stream (a ++ sh ++ std M ++ c) (p + 20)) m') ∧
    holds_std m' M sh ∧ wf m'.
Proof.
  intros W WM Hsh Hp. unfold dlt_file_read_header. cbn [handle at_ set_msg set_handle]. bsimp.
  destruct (header_loop_at (length (content (stream (a ++ sh ++ std M ++ c) p))) f m a c p sh M)
    as (rest & Lr & W' & E); [done..|]. rewrite E. bsimp. destruct Hsh as (Lsh & _ & _).
  rewrite (header_sizes_at f _ _ M sh rest) by done.
  eexists. split; [reflexivity|]. split; [|by apply wf_sizes]. split; try done. by exists rest.
Qed.

(** ** The rest of the headers and the payload *)

Lemma load_extra_none M x :
  wf_message M -> DLT_STANDARD_HEADER_EXTRA_SIZE (m_htyp M) = 0 -> load_extra M x = x.
Proof.
  intros WM H. unfold DLT_STANDARD_HEADER_EXTRA_SIZE, DLT_SIZE_WEID, DLT_SIZE_WSID, DLT_SIZE_WTMS in H.
  unfold load_extra. destruct x. repeat case_match; lia || done.
Qed.

Lemma set_headerbuffer_id m : set_headerbuffer m (headerbuffer m) = m.
Proof. by destruct m. Qed.
Lemma set_headerextra_id m : set_headerextra m (headerextra m) = m.
Proof. by destruct m. Qed.

(** After the standard header, the pieces [extra M] and [ext M] are read. *)
Lemma read_extra_step f m M sh rest a c p :
  wf_message M -> standardheader m = Some 16 -> headerbuffer m = sh ++ std M ++ rest ->
  zlen sh = 16 -> zlen rest = 22 -> p = zlen a ->
  ∃ rest',  zlen (extra M) + zlen rest' = 22 ∧ (is_bytes rest -> is_bytes rest') ∧
    (if negb (DLT_STANDARD_HEADER_EXTRA_SIZE (m_htyp M) =? 0) then
       '(ok, f) ← fread_header (at_ f (stream (a ++ extra M ++ c) p) m) 20
                    (DLT_STANDARD_HEADER_EXTRA_SIZE (m_htyp M));
       if negb ok then Some (false, f)
       else '(_, m) ← dlt_message_get_extraparameters (msg f); Some (true, set_msg f m)
     else Some (true, at_ f (stream (a ++ extra M ++ c) p) m)) =
    Some (true, at_ f (stream (a ++ extra M ++ c) (p + zlen (extra M)))
            (set_headerextra (set_headerbuffer m (sh ++ std M ++ extra M ++ rest'))
               (load_extra M (headerextra m)))).
Proof.
  intros WM Hs Hb Lsh Lr Hp. pose proof (length_extra M WM) as Lx. pose proof (length_std M) as Ls.
  pose proof (extra_size_range (m_htyp M)). rewrite <-Lx.
  destruct (Z.eqb_spec (zlen (extra M)) 0) as [E|E]; cbn [negb].
  - exists rest. split; [lia|]. split; [done|]. rewrite load_extra_none by (done || lia).
    assert (extra M = []) as Ex by (apply nil_length_inv; lia). rewrite Ex. cbn [app length].
    rewrite <-Hb, set_headerbuffer_id, set_headerextra_id. by rewrite Z.add_0_r.
  - destruct (split_region rest 0 (zlen (extra M))) as (z & old & r & -> & Lz & Lo); [lia..|]. nils.
    cbn [app] in *. exists r. split; [len|]. split; [by intros [_ ?]%is_bytes_app|].
    rewrite (fread_header_mid f m a (extra M) c 20 p (sh ++ std M) old r) by (by rewrite <-?app_assoc || len).
    bsimp. cbn [negb msg at_ set_msg].
    rewrite (get_extraparameters_spec _ M (sh ++ std M) r); [| done | | done | len].
    + bsimp. rewrite <-app_assoc. done.
    + apply (std_htyp_at _ M sh (extra M ++ r)); [done| |done]. mfields. by rewrite <-app_assoc.
Qed.

Lemma read_header_extended_at f m M sh a c p :
  wf m -> wf_message M -> storage_header sh -> holds_std m M sh -> p = zlen a ->
  ∃ m', dlt_file_read_header_extended (at_ f (stream (a ++ extra M ++ ext M ++ c) p) m) =
      Some (DLT_RETURN_OK, at_ f (stream (a ++ extra M ++ ext M ++ c)
                                    (p + zlen (extra M) + zlen (ext M))) m') ∧
    holds_headers m' M ∧ wf m'.
Proof.
  intros W WM (Lsh & Bsh & _) Hm Hp. pose proof (holds_std_htyp m M sh Hm Lsh) as Hh.
  destruct Hm as [(rest & Hb & Lr) Hhs Hds Hstd].
  pose proof (length_ext M WM) as Le. pose proof (length_std M) as Ls.
  pose proof (wf_hb_bytes _ W) as B. rewrite Hb, !is_bytes_app in B. destruct B as (_ & B2 & B3).
  pose proof (wm_bytes _ WM) as BM. rewrite encode_headers in BM. unfold headers in BM.
  rewrite !is_bytes_app in BM. destruct BM as ((_ & Bx & Be) & _).
  unfold dlt_file_read_header_extended. cbn [msg at_ set_msg]. rewrite Hh. bsimp.
  fold (at_ f (stream (a ++ extra M ++ ext M ++ c) p) m).
  destruct (read_extra_step f m M sh rest a (ext M ++ c) p) as (r & Lr' & Br & E); try done.
  change (sizeof_DltStorageHeader + sizeof_DltStandardHeader) with 20. rewrite E. bsimp. cbn [negb].
  set (m1 := set_headerextra _ _).
  assert (zlen (extra M) = DLT_STANDARD_HEADER_EXTRA_SIZE (m_htyp M)) as Lx by (by apply length_extra).
  pose proof (extra_size_range (m_htyp M)).
  destruct (DLT_IS_HTYP_UEH (m_htyp M)) eqn:HU; cbn [negb].
  - assert (zlen (ext M) = 10) as Le' by (rewrite Le; unfold DLT_EXTENDED_SIZE; by rewrite HU).
    destruct (split_region r 0 10) as (z & old & r' & -> & Lz & Lo); [lia..|]. nils. cbn [app] in *.
    rewrite (app_assoc a (extra M)). change sizeof_DltExtendedHeader with 10. rewrite <-Le'.
    rewrite (fread_header_mid f m1 (a ++ extra M) (ext M) c _ _ (sh ++ std M ++ extra M) old r');
      [| subst m1; mfields; by rewrite <-!app_assoc | len | lia | len | lia ].
    bsimp. cbn [negb]. eexists. split; [reflexivity|]. subst m1. mfields.
    cbn [msg at_ set_msg]. mfields. split.
    + split; mfields; try done.
      * exists sh, r'. by rewrite <-!app_assoc.
      * intros _. f_equal. lia.
      * unfold load_extra. mfields. repeat case_match; done.
    + apply wf_pointers. split; mfields; [change HEADERBUFFER_SIZE with 42; len| |apply W].
      rewrite !is_bytes_app in *. tauto.
  - assert (ext M = []) as Ex.
    { apply nil_length_inv. unfold DLT_EXTENDED_SIZE in Le. rewrite HU in Le. lia. }
    rewrite Ex in *. cbn [app length Z.of_nat] in *. rewrite Z.add_0_r.
    eexists. split; [reflexivity|]. subst m1. split.
    + split; mfields; try done.
      * exists sh, r. by rewrite Ex.
      * by rewrite Ex.
      * by rewrite HU.
      * unfold load_extra. mfields. repeat case_match; done.
    + split; mfields; [change HEADERBUFFER_SIZE with 42; len| |apply W].
      rewrite !is_bytes_app in *. tauto.
Qed.

Lemma data_buffer_payload A m : data_buffer A m = payload_buffer A m.
Proof.
  unfold data_buffer, payload_buffer. destruct (databuffer m) eqn:E; [|by rewrite E].
  destruct (_ <? _); [done|]. by rewrite E.
Qed.

Lemma read_data_at A f m M a c p :
  heap_ok A -> wf m -> wf_message M -> holds_headers m M -> p = zlen a ->
  ∃ m', dlt_file_read_data A (at_ f (stream (a ++ m_payload M ++ c) p) m) =
      Some (DLT_RETURN_OK, at_ f (stream (a ++ m_payload M ++ c) (p + zlen (m_payload M))) m') ∧
    holds m' M ∧ wf m'.
Proof.
  intros HA W WM Hh Hp. unfold dlt_file_read_data. cbn [msg at_ set_msg].
  rewrite data_buffer_payload. pose proof (hh_ds _ _ Hh) as Hds.
  destruct (payload_buffer_room A m W) as (W1 & Hroom & Hnone); [lia|].
  destruct (payload_buffer_shape A m) as (db & sz & E). rewrite E in *. mfields.
  destruct db as [db|]; [|by destruct (HA (datasize m)); apply Hnone].
  specialize (Hroom db eq_refl). rewrite Hds in *. cbn [handle set_msg set_handle]. bsimp.
  destruct (split_region db 0 (zlen (m_payload M))) as (z & o & r & -> & Lz & Lo); [lia..|]. nils.
  cbn [app] in *.
  assert (fread (o ++ r) 0 (zlen (m_payload M)) (stream (a ++ m_payload M ++ c) p) =
    Some (negb (zlen (m_payload M) =? 0), m_payload M ++ r,
          stream (a ++ m_payload M ++ c) (p + zlen (m_payload M)))) as Ef.
  { destruct (Z.eqb_spec (zlen (m_payload M)) 0) as [E0|E0].
    - assert (m_payload M = []) as Ep by (apply nil_length_inv; lia). rewrite Ep in *. cbn [length app] in *.
      assert (o = []) as -> by (apply nil_length_inv; lia). unfold fread, avail. cbn [content fpos].
      change (Z.of_nat 0) with 0. replace (Z.max 0 _) with 0 by lia. change (0 =? 0) with true. bsimp.
      rewrite mwrite_Some by (simpl; lia). bsimp. cbn [app length]. by rewrite take_drop.
    - rewrite fread_mid by (done || lia). by rewrite (mwrite_mid [] o (m_payload M) r) by (simpl; lia). }
  change (handle (at_ f (stream (a ++ m_payload M ++ c) p) m)) with (Some (stream (a ++ m_payload M ++ c) p)).
  bsimp. rewrite Ef. bsimp.
  rewrite ?Hds.
  assert (negb (negb (zlen (m_payload M) =? 0)) && negb (zlen (m_payload M) =? 0) = false) as ->
    by (by destruct (_ =? _)).
  eexists. split; [reflexivity|]. split.
  - split; [by apply (holds_headers_databuffer _ _ _ _ Hh)|]. eexists. split; [reflexivity|]. mfields.
    rewrite Hds. by apply (mread_mid [] (m_payload M) r).
  - split; mfields; [apply W|apply W|]. intros d [= <-].
    pose proof (wf_db _ W1 (o ++ r) eq_refl) as Hr. mfields. cbn [set_databuffer databuffersize] in Hr. len.
Qed.

(** ** The index *)

(** The entries [l] of the index, in an array of whole blocks. *)
Record indexed (f : DltFile) (l : list Z) : Prop := {
  ix_counter : counter f = zlen l;
  ix_array : match index f with
             | None => l = []
             | Some idx => ∃ rest, idx = l ++ rest ∧ zlen idx mod 1000 = 0
             end
}.

Lemma malloc_longs_ok A n : heap_ok A -> 0 <= n -> ∃ p, malloc_longs A n = Some p ∧ zlen p = n.
Proof.
  intros HA Hn. unfold malloc_longs. specialize (HA (8 * n)). destruct (malloc A (8 * n)); [|done].
  eexists. split; [reflexivity|]. rewrite length_fmap, length_seq. lia.
Qed.

Lemma grow_index_ok A f l :
  heap_ok A -> indexed f l ->
  ∃ rest, rest <> [] ∧ zlen (l ++ rest) mod 1000 = 0 ∧
    grow_index A f = Some (true, set_index f (Some (l ++ rest)) (counter f) (position f)).
Proof.
  intros HA [Hc Hi]. unfold grow_index, DLT_COMMON_INDEX_ALLOC. rewrite Hc.
  destruct (Z.eqb_spec (zlen l mod 1000) 0) as [E|E].
  - destruct (malloc_longs_ok A ((zlen l / 1000 + 1) * 1000)) as (p & -> & Lp); [done|zdiv|].
    assert (zlen l < zlen p) by (rewrite Lp; zdiv).
    assert (zlen p mod 1000 = 0) by (rewrite Lp; apply Z.mod_mul; lia).
    destruct (split_region p 0 (zlen l)) as (z & o & r & -> & Lz & Lo); [lia..|]. nils. cbn [app] in *.
    assert (r <> []) as Hr by (intros ->; rewrite app_nil_r in *; lia).
    assert (zlen (l ++ r) mod 1000 = 0).
    { replace (zlen (l ++ r)) with (zlen (o ++ r)); [done|]. rewrite !length_app. lia. }
    destruct (index f) as [idx|].
    + destruct Hi as (rest & -> & _). rewrite (mread_mid [] l rest) by done. bsimp.
      rewrite (mwrite_mid [] o l r) by (simpl; lia). by exists r.
    + subst l. assert (o = []) as -> by (apply nil_length_inv; simpl in Lo; lia). by exists r.
  - destruct (index f) as [idx|] eqn:Ei; [|by subst l]. destruct Hi as (rest & -> & Hm).
    exists rest. split; [intros ->; by rewrite app_nil_r in Hm|]. split; [done|].
    rewrite <-Ei, <-Hc. by destruct f.
Qed.

Lemma store_index_ok f l rest pos :
  index f = Some (l ++ rest) -> counter f = zlen l -> rest <> [] -> zlen (l ++ rest) mod 1000 = 0 ->
  ∃ f', store_index f pos = Some f' ∧ indexed f' (l ++ [pos]) ∧
    handle f' = handle f ∧ msg f' = msg f ∧ filter f' = filter f ∧
    counter_total f' = counter_total f ∧ file_position f' = file_position f.
Proof.
  intros Hi Hc Hr Hm. destruct rest as [|x rest]; [done|]. unfold store_index. rewrite Hi, Hc. bsimp.
  change (x :: rest) with ([x] ++ rest). rewrite (mwrite_mid l [x] [pos] rest) by done. bsimp.
  eexists. split; [reflexivity|]. split; [|done]. split; cbn [counter index set_index]; [len|].
  exists rest. split; [by rewrite <-app_assoc|]. replace (zlen _) with (zlen (l ++ x :: rest)); [done|len].
Qed.

(** ** One read *)

Definition apid_of (M : message) : bytes := take 4 (drop 2 (m_ext M)).
Definition ctid_of (M : message) : bytes := take 4 (drop 6 (m_ext M)).
Definition msin_of (M : message) : Z := default 0 (m_ext M !! 0%nat).

(** The verdict of the file's filter on a message. *)
Definition verdict (flt : option Filter.DltFilter) (M : message) : bool :=
  match flt with
  | None => true
  | Some x => FilterSpec.passes x (m_htyp M) (apid_of M) (ctid_of M)
                (DLT_GET_MSIN_MTIN (msin_of M)) (zlen (m_payload M))
  end.

Lemma holds_ext m M :
  wf_message M -> holds_headers m M -> DLT_IS_HTYP_UEH (m_htyp M) = true ->
  ext_apid m = Some (apid_of M) ∧ ext_ctid m = Some (ctid_of M) ∧ ext_msin m = Some (msin_of M).
Proof.
  intros WM Hh HU. destruct (hh_hb _ _ Hh) as (sh & rest & Hb & Lsh). pose proof (length_std M) as Ls.
  pose proof (hh_ext _ _ Hh HU) as He. pose proof (wm_ext _ WM) as Lx.
  assert (ext M = m_ext M) as Ex by (unfold ext; by rewrite HU). rewrite Ex in Hb.
  rewrite (app_assoc (std M)), (app_assoc sh) in Hb. set (q := sh ++ std M ++ extra M) in *.
  assert (zlen q = 20 + zlen (extra M)) as Lq by (subst q; len).
  unfold ext_apid, ext_ctid, ext_msin. rewrite He, Hb. bsimp.
  assert (mread (q ++ m_ext M ++ rest) (20 + zlen (extra M)) (zlen (m_ext M)) = Some (m_ext M)) as Hr
    by (apply mread_mid; lia).
  unfold apid_of, ctid_of, msin_of. split_and!.
  - rewrite mread_Some by len. f_equal. rewrite drop_app_ge by lia.
    replace (Z.to_nat (20 + zlen (extra M) + 2) - length q)%nat with 2%nat by lia.
    rewrite drop_app_le by lia. apply take_app_le. len.
  - rewrite mread_Some by len. f_equal. rewrite drop_app_ge by lia.
    replace (Z.to_nat (20 + zlen (extra M) + 6) - length q)%nat with 6%nat by lia.
    rewrite drop_app_le by lia. apply take_app_le. len.
  - rewrite lookup_app_r by lia. replace (Z.to_nat (20 + zlen (extra M)) - length q)%nat with 0%nat by lia.
    rewrite lookup_app_l by lia. destruct (m_ext M); [done|]. done.
Qed.

(** The state of a file between two reads: position, index, counters. *)
Record ready (f : DltFile) (b : bytes) (pos : Z) (l : list Z) (tot : Z)
  (flt : option Filter.DltFilter) : Prop := {
  rd_handle : ∃ h, handle f = Some h ∧ content h = b;
  rd_pos : file_position f = pos;
  rd_wf : wf (msg f);
  rd_ix : indexed f l;
  rd_tot : counter_total f = tot;
  rd_flt : filter f = flt
}.

(** What the reader needs to know about a filter. *)
Definition filter_ok (flt : option Filter.DltFilter) : Prop :=
  ∀ x, flt = Some x -> FilterSpec.inv x.

(** The end of a successful read. *)
Lemma finish_read f b l flt tot p m :
  indexed f l -> filter f = flt -> counter_total f = tot -> wf m ->
  handle f = Some (stream b p) -> msg f = m ->
  ∃ f', next_message f = Some f' ∧ ready f' b p l (tot + 1) flt.
Proof.
  intros Hi Hf Ht Hw Hh Hm. unfold next_message, tell. rewrite Hh. bsimp.
  eexists. split; [reflexivity|]. split; cbn; try done.
  - by eexists.
  - congruence.
  - by destruct Hi; split.
  - lia.
Qed.

Lemma seek_cur_ok g b p o :
  handle g = Some (stream b p) -> 0 <= p + o ->
  seek_cur g o = Some (true, set_handle g (Some (stream b (p + o)))).
Proof.
  intros Hh Ho. unfold seek_cur, fseek_cur, fseek_to. rewrite Hh. bsimp. cbn [fpos content].
  by rewrite ltb_false by lia.
Qed.

Lemma indexed_handle f l h : indexed f l -> indexed (set_handle f h) l.
Proof. intros [? ?]. by split. Qed.

(** The end of a read with a filter: store the position if the message passes,
    skip the payload. *)
Lemma finish_filtered g b p l rest flt tot m (v : bool) pos :
  index g = Some (l ++ rest) -> counter g = zlen l -> rest <> [] -> zlen (l ++ rest) mod 1000 = 0 ->
  filter g = flt -> counter_total g = tot -> wf m -> handle g = Some (stream b p) -> msg g = m ->
  0 <= p -> 0 <= datasize m ->
  ∃ f', (f1 ← (if v then store_index g pos else Some g);
         '(ok, f2) ← seek_cur f1 (datasize (msg f1));
         if negb ok then go_back f2 else
         f3 ← next_message f2; Some (if v then DLT_RETURN_TRUE else DLT_RETURN_OK, f3)) =
      Some (if v then DLT_RETURN_TRUE else DLT_RETURN_OK, f') ∧
    ready f' b (p + datasize m) (if v then l ++ [pos] else l) (tot + 1) flt.
Proof.
  intros Hi Hc Hr Hmod Hf Ht W Hh Hm Hp Hn. destruct v.
  - destruct (store_index_ok g l rest pos Hi Hc Hr Hmod) as (g1 & -> & I1 & H1 & H2 & H3 & H4 & _).
    bsimp. rewrite H2, Hm. rewrite (seek_cur_ok g1 b p) by (congruence || lia). bsimp. cbn [negb].
    destruct (finish_read (set_handle g1 (Some (stream b (p + datasize m)))) b (l ++ [pos]) flt tot (p + datasize m) m)
      as (f' & -> & R); [by apply indexed_handle|cbn; congruence..|done|done|cbn; congruence|].
    by exists f'.
  - bsimp. rewrite Hm. rewrite (seek_cur_ok g b p) by (done || lia). bsimp. cbn [negb].
    destruct (finish_read (set_handle g (Some (stream b (p + datasize m)))) b l flt tot (p + datasize m) m)
      as (f' & -> & R); [|done..|by exists f'].
    split; [done|]. cbn [index set_handle]. rewrite Hi. by exists rest.
Qed.

Lemma finish_unfiltered g b p l rest flt tot m n :
  index g = Some (l ++ rest) -> counter g = zlen l -> rest <> [] -> zlen (l ++ rest) mod 1000 = 0 ->
  filter g = flt -> counter_total g = tot -> wf m -> handle g = Some (stream b p) -> msg g = m ->
  0 <= p -> 0 <= n ->
  ∃ f', ('(ok, f1) ← seek_cur g n;
         if negb ok then go_back f1 else
         f2 ← store_index f1 (file_position f1);
         f3 ← next_message f2; Some (DLT_RETURN_TRUE, f3)) = Some (DLT_RETURN_TRUE, f') ∧
    ready f' b (p + n) (l ++ [file_position g]) (tot + 1) flt.
Proof.
  intros Hi Hc Hr Hmod Hf Ht W Hh Hm Hp Hn.
  rewrite (seek_cur_ok g b p) by (done || lia). bsimp. cbn [negb].
  set (g0 := set_handle g (Some (stream b (p + n)))). change (file_position g0) with (file_position g).
  destruct (store_index_ok g0 l rest (file_position g) Hi Hc Hr Hmod)
    as (g1 & -> & I1 & H1 & H2 & H3 & H4 & _). bsimp.
  destruct (finish_read g1 b (l ++ [file_position g]) flt tot (p + n) m) as (f' & -> & R);
    [done|..|by exists f'].
  - rewrite H3. exact Hf.
  - rewrite H4. exact Ht.
  - done.
  - rewrite H1. done.
  - rewrite H2. exact Hm.
Qed.

Lemma file_read_at A f a sh M c l tot flt :
  let b := a ++ sh ++ encode M ++ c in
  heap_ok A -> storage_header sh -> wf_message M -> filter_ok flt ->
  ready f b (zlen a) l tot flt ->
  ∃ f', dlt_file_read A f = Some (if verdict flt M then DLT_RETURN_TRUE else DLT_RETURN_OK, f') ∧
    ready f' b (zlen a + 16 + message_len M) (if verdict flt M then l ++ [zlen a] else l) (tot + 1) flt.
Proof.
  intros b HA Hsh WM Hflt [(h & Hh & Hb) Hpos W Hix Htot Hf].
  destruct (grow_index_ok A f l HA Hix) as (rest & Hr & Hmod & Eg). unfold dlt_file_read.
  rewrite Eg. bsimp. cbn [negb]. set (f1 := set_index f _ _ _).
  change (file_position f1) with (file_position f). rewrite Hpos.
  assert (seek_set f1 (zlen a) = Some (true, at_ f1 (stream b (zlen a)) (msg f1))) as ->.
  { unfold seek_set, fseek_set, fseek_to. cbn [handle f1 set_index]. rewrite Hh. bsimp.
    rewrite ltb_false by lia. rewrite Hb. by destruct f. }
  bsimp. cbn [negb].
  assert (b = a ++ sh ++ std M ++ (extra M ++ ext M ++ m_payload M ++ c)) as Eb
    by (unfold b, encode; by rewrite <-!app_assoc).
  destruct (read_header_at f1 (msg f1) a (extra M ++ ext M ++ m_payload M ++ c) (zlen a) sh M)
    as (m1 & E1 & Hs1 & W1); [done..|]. rewrite <-Eb in E1. rewrite E1. bsimp.
  change (DLT_RETURN_OK <? DLT_RETURN_OK) with false. cbn [filter at_ set_msg set_handle f1 set_index].
  rewrite Hf. pose proof (length_std M) as Ls. destruct Hsh as (Lsh & Bsh & Psh).
  destruct flt as [x|].
  - assert (b = (a ++ sh ++ std M) ++ extra M ++ ext M ++ m_payload M ++ c) as Eb'
      by (by rewrite Eb, <-!app_assoc).
    destruct (read_header_extended_at f1 m1 M sh (a ++ sh ++ std M) (m_payload M ++ c) (zlen a + 20))
      as (m2 & E2 & Hh2 & W2); [done|done|by split|done|len|]. rewrite <-Eb' in E2. rewrite E2. bsimp.
    change (DLT_RETURN_OK <? DLT_RETURN_OK) with false. cbn [msg at_ set_msg].
    destruct (hh_hb _ _ Hh2) as (sh2 & rest2 & Hb2 & Lsh2).
    rewrite (FilterSpec.filter_check_spec x m2 (m_htyp M) (msin_of M) (apid_of M) (ctid_of M));
      [|by apply Hflt|by apply (std_htyp_at m2 M sh2 (extra M ++ ext M ++ rest2)); [apply Hh2|..]|
        by apply holds_ext].
    bsimp. rewrite (hh_ds _ _ Hh2). unfold verdict.
    assert (∀ v : bool, ((if v then DLT_RETURN_TRUE else DLT_RETURN_OK) =? DLT_RETURN_TRUE) = v) as Ev
      by (by intros []). rewrite !Ev.
    set (v := FilterSpec.passes _ _ _ _ _ _).
    destruct (finish_filtered (at_ f1 (stream b (zlen a + 20 + zlen (extra M) + zlen (ext M))) m2) b
      (zlen a + 20 + zlen (extra M) + zlen (ext M)) l rest (Some x) tot m2 v (zlen a))
      as (f' & E & R); try done; [apply Hix|lia|rewrite (hh_ds _ _ Hh2); lia|].
    exists f'. split.
    + rewrite <-E. cbn [file_position at_ set_msg set_handle f1 set_index]. by rewrite Hpos.
    + rewrite (hh_ds _ _ Hh2) in R. replace (zlen a + 16 + message_len M) with
        (zlen a + 20 + zlen (extra M) + zlen (ext M) + zlen (m_payload M)) by (unfold message_len; lia).
      done.
  - cbn [msg at_ set_msg]. rewrite (hs_hs _ _ _ Hs1), (hs_ds _ _ _ Hs1).
    unfold sizeof_DltStorageHeader, sizeof_DltStandardHeader.
    destruct (finish_unfiltered (at_ f1 (stream b (zlen a + 20)) m1) b (zlen a + 20) l rest None tot m1
      (20 + zlen (extra M) + zlen (ext M) - 16 - 4 + zlen (m_payload M)))
      as (f' & E & R); try done; [apply Hix|lia..|].
    exists f'. split; [exact E|]. cbn [file_position at_ set_msg set_handle f1 set_index] in R.
    rewrite Hpos in R. unfold message_len. cbn [verdict].
    replace (zlen a + 16 + (4 + zlen (extra M) + zlen (ext M) + zlen (m_payload M))) with
      (zlen a + 20 + (20 + zlen (extra M) + zlen (ext M) - 16 - 4 + zlen (m_payload M))) by lia.
    done.
Qed.

(** At the end of the file a read fails and changes nothing that matters. *)
Lemma file_read_eof A f b l tot flt :
  heap_ok A -> ready f b (zlen b) l tot flt ->
  ∃ f', dlt_file_read A f = Some (DLT_RETURN_ERROR, f') ∧ ready f' b (zlen b) l tot flt.
Proof.
  intros HA [(h & Hh & Hb) Hpos W Hix Htot Hf].
  destruct (grow_index_ok A f l HA Hix) as (rest & Hr & Hmod & Eg). unfold dlt_file_read.
  rewrite Eg. bsimp. cbn [negb]. set (f1 := set_index f _ _ _).
  change (file_position f1) with (file_position f). rewrite Hpos.
  assert (seek_set f1 (zlen b) = Some (true, at_ f1 (stream b (zlen b)) (msg f1))) as ->.
  { unfold seek_set, fseek_set, fseek_to. cbn [handle f1 set_index]. rewrite Hh. bsimp.
    rewrite ltb_false by lia. rewrite Hb. by destruct f. }
  bsimp. cbn [negb]. unfold dlt_file_read_header. cbn [handle at_ set_msg set_handle]. bsimp.
  cbn [header_loop]. unfold fread_header. cbn [handle at_ set_msg set_handle msg]. bsimp.
  pose proof (wf_hb _ W) as Lhb. change HEADERBUFFER_SIZE with 42 in Lhb.
  rewrite fread_short; [|cbn; lia|cbn [msg f1 set_index]; lia|done]. bsimp. cbn [negb]. bsimp.
  change (DLT_RETURN_ERROR <? DLT_RETURN_OK) with true. cbn iota.
  unfold go_back, seek_set, fseek_set, fseek_to. cbn [handle set_msg set_handle file_position f1 set_index]. bsimp.
  change (file_position (at_ f1 (stream b (zlen b)) (msg f1))) with (file_position f). rewrite Hpos, ltb_false by lia. bsimp. eexists. split; [reflexivity|].
  split; cbn; try done; [by eexists|by rewrite set_headerbuffer_id|].
  split; cbn; [apply Hix|]. by exists rest.
Qed.

(** ** Whole files *)

Definition layout (l : list (bytes * message)) : bytes := concat ((λ x, x.1 ++ encode x.2) <$> l).

(** Position and content of the messages the filter accepts. *)
Fixpoint listing (pos : Z) (flt : option Filter.DltFilter) (l : list (bytes * message))
  : list (Z * message) :=
  match l with
  | [] => []
  | (_, M) :: l =>
      (if verdict flt M then [(pos, M)] else []) ++ listing (pos + 16 + message_len M) flt l
  end.

(** Call [dlt_file_read] [n] times. *)
Fixpoint read_n (A : allocator) (n : nat) (f : DltFile) : option (list Z * DltFile) :=
  match n with
  | O => Some ([], f)
  | S n =>
      '(rc, f) ← dlt_file_read A f;
      '(rcs, f) ← read_n A n f;
      Some (rc :: rcs, f)
  end.

Lemma read_n_spec A flt l : ∀ a f idx tot,
  heap_ok A -> filter_ok flt -> Forall (λ x, storage_header x.1 ∧ wf_message x.2) l ->
  ready f (a ++ layout l) (zlen a) idx tot flt ->
  ∃ f', read_n A (length l) f =
      Some ((λ x, if verdict flt x.2 then DLT_RETURN_TRUE else DLT_RETURN_OK) <$> l, f') ∧
    ready f' (a ++ layout l) (zlen (a ++ layout l)) (idx ++ (fst <$> listing (zlen a) flt l))
      (tot + zlen l) flt.
Proof.
  induction l as [|[sh M] l IH]; intros a f idx tot HA Hflt Hl R; cbn [length read_n].
  { exists f. split; [done|]. change (layout []) with (@nil Z) in *.
    change (listing (zlen a) flt []) with (@nil (Z * message)). rewrite fmap_nil.
    rewrite app_nil_r, (app_nil_r idx), Z.add_0_r in *. done. }
  apply Forall_cons_iff in Hl as [[Hsh WM] Hl]. cbn [fst snd] in *.
  assert (layout ((sh, M) :: l) = sh ++ encode M ++ layout l) as El
    by (unfold layout; rewrite fmap_cons; cbn [concat fst snd]; by rewrite <-app_assoc).
  rewrite El in *. destruct (file_read_at A f a sh M (layout l) idx tot flt HA Hsh WM Hflt R)
    as (f1 & -> & R1). bsimp. pose proof (length_encode M) as Le. destruct Hsh as (Lsh & _ & _).
  assert (a ++ sh ++ encode M ++ layout l = (a ++ sh ++ encode M) ++ layout l) as Ea
    by (by rewrite <-!app_assoc).
  assert (zlen (a ++ sh ++ encode M) = zlen a + 16 + message_len M) as La by len.
  rewrite Ea in *. rewrite <-La in R1.
  destruct (IH (a ++ sh ++ encode M) f1 _ _ HA Hflt Hl R1) as (f2 & -> & R2). bsimp.
  exists f2. split; [done|]. cbn [listing]. rewrite <-La, fmap_app, (app_assoc idx).
  replace (tot + Z.of_nat (S (length l))) with (tot + 1 + zlen l) by lia.
  destruct (verdict flt M); [exact R2|]. rewrite fmap_nil, (app_nil_r idx). exact R2.
Qed.

Lemma message_at A f a sh M c l tot flt pos i :
  let b := a ++ sh ++ encode M ++ c in
  heap_ok A -> storage_header sh -> wf_message M -> ready f b pos l tot flt ->
  l !! i = Some (zlen a) ->
  ∃ f', dlt_file_message A f (Z.of_nat i) = Some (DLT_RETURN_OK, f') ∧ holds (msg f') M ∧
    ready f' b pos l tot flt.
Proof.
  intros b HA Hsh WM [(h & Hh & Hb) Hpos W Hix Htot Hf] Hi. destruct Hix as [Hc Hidx].
  pose proof (lookup_lt_Some _ _ _ Hi) as Hlt.
  destruct (index f) as [idx|] eqn:Eidx; [|by subst l]. destruct Hidx as (rest & -> & Hmod).
  unfold dlt_file_message. rewrite Hc. rewrite ltb_false, leb_false by lia. cbn [orb].
  rewrite Eidx. bsimp. rewrite Nat2Z.id, lookup_app_l, Hi by done. bsimp.
  assert (seek_set f (zlen a) = Some (true, at_ f (stream b (zlen a)) (msg f))) as ->.
  { unfold seek_set, fseek_set, fseek_to. rewrite Hh. bsimp. rewrite ltb_false by lia.
    rewrite Hb. by destruct f. }
  bsimp. cbn [negb]. pose proof (length_std M) as Ls. pose proof Hsh as (Lsh & _ & _).
  assert (b = a ++ sh ++ std M ++ (extra M ++ ext M ++ m_payload M ++ c)) as Eb
    by (unfold b, encode; by rewrite <-!app_assoc).
  destruct (read_header_at f (msg f) a (extra M ++ ext M ++ m_payload M ++ c) (zlen a) sh M)
    as (m1 & E1 & Hs1 & W1); [done..|]. rewrite <-Eb in E1. rewrite E1. bsimp.
  change (DLT_RETURN_OK <? DLT_RETURN_OK) with false. cbn iota.
  assert (b = (a ++ sh ++ std M) ++ extra M ++ ext M ++ m_payload M ++ c) as Eb2
    by (by rewrite Eb, <-!app_assoc).
  destruct (read_header_extended_at f m1 M sh (a ++ sh ++ std M) (m_payload M ++ c) (zlen a + 20))
    as (m2 & E2 & Hh2 & W2); [done|done|done|done|len|]. rewrite <-Eb2 in E2. rewrite E2. bsimp.
  change (DLT_RETURN_OK <? DLT_RETURN_OK) with false. cbn iota.
  assert (b = (a ++ sh ++ std M ++ extra M ++ ext M) ++ m_payload M ++ c) as Eb3
    by (by rewrite Eb, <-!app_assoc).
  destruct (read_data_at A f m2 M (a ++ sh ++ std M ++ extra M ++ ext M) c
    (zlen a + 20 + zlen (extra M) + zlen (ext M))) as (m3 & E3 & Hh3 & W3); [done|done|done|done|len|].
  rewrite <-Eb3 in E3. rewrite E3. bsimp.
  change (DLT_RETURN_OK <? DLT_RETURN_OK) with false. cbn iota.
  eexists. split; [reflexivity|]. split; [done|].
  split; cbn; try done; [by eexists|]. split; cbn; [done|]. rewrite Eidx. by exists rest.
Qed.

(** Every listed message is in the file where the listing says. *)
Lemma listing_lookup flt l : ∀ a i p M,
  Forall (λ x, storage_header x.1 ∧ wf_message x.2) l ->
  listing (zlen a) flt l !! i = Some (p, M) ->
  ∃ a' sh c, a ++ layout l = a' ++ sh ++ encode M ++ c ∧ p = zlen a' ∧
    storage_header sh ∧ wf_message M.
Proof.
  induction l as [|[sh M0] l IH]; intros a i p M Hl Hi; [done|].
  apply Forall_cons_iff in Hl as [[Hsh WM] Hl]. cbn [fst snd listing] in *.
  assert (a ++ layout ((sh, M0) :: l) = (a ++ sh ++ encode M0) ++ layout l) as ->.
  { unfold layout. rewrite fmap_cons. cbn [concat fst snd]. by rewrite <-!app_assoc. }
  replace (zlen a + 16 + message_len M0) with (zlen (a ++ sh ++ encode M0)) in Hi.
  2: { pose proof (length_encode M0). destruct Hsh as (? & _ & _). len. }
  destruct (verdict flt M0); [|by apply (IH _ _ _ _ Hl Hi)].
  destruct i as [|i]; [|by apply (IH _ _ _ _ Hl Hi)].
  injection Hi as <- <-. exists a, sh, (layout l). by rewrite <-!app_assoc.
Qed.

(** ** Theorems *)

(** C35: reading a DLT file message by message finds every message in order,
    stores exactly the positions of those the filter accepts, and fails at the
    end of the file without losing anything. *)
Theorem file_index_complete (A : allocator) (f : DltFile) (flt : option Filter.DltFilter)
  (l : list (bytes * message)) :
  heap_ok A -> filter_ok flt -> Forall (λ x, storage_header x.1 ∧ wf_message x.2) l ->
  ready f (layout l) 0 [] 0 flt ->
  ∃ f' f'', read_n A (length l) f =
      Some ((λ x, if verdict flt x.2 then DLT_RETURN_TRUE else DLT_RETURN_OK) <$> l, f') ∧
    ready f' (layout l) (zlen (layout l)) (fst <$> listing 0 flt l) (zlen l) flt ∧
    dlt_file_read A f' = Some (DLT_RETURN_ERROR, f'') ∧
    ready f'' (layout l) (zlen (layout l)) (fst <$> listing 0 flt l) (zlen l) flt.
Proof.
  intros HA Hflt Hl R. destruct (read_n_spec A flt l [] f [] 0 HA Hflt Hl R) as (f' & E & R').
  destruct (file_read_eof A f' (layout l) _ _ flt HA R') as (f'' & E' & R'').
  by exists f', f''.
Qed.

(** random access.  For every position of the index, [dlt_file_message]
    loads headers and payload of exactly the message that was indexed there. *)
Theorem file_message_loads (A : allocator) (f : DltFile) (flt : option Filter.DltFilter)
  (l : list (bytes * message)) (i : nat) (p pos tot : Z) (M : message) :
  heap_ok A -> Forall (λ x, storage_header x.1 ∧ wf_message x.2) l ->
  ready f (layout l) pos (fst <$> listing 0 flt l) tot flt ->
  listing 0 flt l !! i = Some (p, M) ->
  ∃ f', dlt_file_message A f (Z.of_nat i) = Some (DLT_RETURN_OK, f') ∧ holds (msg f') M ∧
    ready f' (layout l) pos (fst <$> listing 0 flt l) tot flt.
Proof.
  intros HA Hl R Hi. destruct (listing_lookup flt l [] i p M Hl Hi) as (a & sh & c & E & -> & Hsh & WM).
  cbn [app] in E. rewrite E in *. apply (message_at A f a sh M c); try done.
  by rewrite list_lookup_fmap, Hi.
Qed.

(** ** Examples *)

Definition sample_storage : bytes := storage_pattern ++ [1; 0; 0; 0; 2; 0; 0; 0; 69; 67; 85; 49].
Definition plain : message :=
  {| m_htyp := 32; m_mcnt := 0; m_ecu := [0; 0; 0; 0]; m_seid := 0; m_tmsp := 0;
     m_ext := replicate 10 0; m_payload := [7; 8] |}.
Definition sample_file : list (bytes * message) :=
  [(sample_storage, sample); (sample_storage, plain)].

Lemma wf_plain : wf_message plain.
Proof. split; try (vm_compute; intuition congruence). by apply is_bytes_forallb. Qed.

Lemma sample_file_ok : Forall (λ x, storage_header x.1 ∧ wf_message x.2) sample_file.
Proof.
  assert (storage_header sample_storage) by (split_and!; [done|by apply is_bytes_forallb|done]).
  apply Forall_cons_2; [split; [done|apply wf_sample]|].
  apply Forall_cons_2; [split; [done|apply wf_plain]|]. apply Forall_nil_2.
Qed.

(** The sample file, just opened; the filter wants application APP1. *)
Definition opened (flt : option Filter.DltFilter) : DltFile :=
  {| handle := Some (stream (layout sample_file) 0); index := None; counter := 0;
     counter_total := 0; position := 0; file_length := zlen (layout sample_file);
     file_position := 0; error_messages := 0; filter := flt; filter_counter := 0;
     msg := fresh |}.

Lemma ready_opened flt : ready (opened flt) (layout sample_file) 0 [] 0 flt.
Proof. split; try done; [by eexists|apply wf_fresh]. Qed.

Lemma filter_ok_two : filter_ok (Some FilterSpec.two).
Proof. intros x [= <-]. apply FilterSpec.inv_two. Qed.

Lemma file_index_complete_witness :
  ∃ f' f'', read_n (heap_filled 0) 2 (opened (Some FilterSpec.two)) =
      Some ([DLT_RETURN_TRUE; DLT_RETURN_TRUE], f') ∧
    ready f' (layout sample_file) 67 [0; 45] 2 (Some FilterSpec.two) ∧
    dlt_file_read (heap_filled 0) f' = Some (DLT_RETURN_ERROR, f'') ∧
    ready f'' (layout sample_file) 67 [0; 45] 2 (Some FilterSpec.two).
Proof.
  apply (file_index_complete (heap_filled 0) (opened (Some FilterSpec.two)) (Some FilterSpec.two)
    sample_file); [intros n; discriminate|apply filter_ok_two|apply sample_file_ok|apply ready_opened].
Defined.

Lemma file_message_loads_witness :
  ∃ f', dlt_file_message (heap_filled 0)
      (set_index (opened None) (Some ([0; 45] ++ replicate 998 0)) 2 1) 1 =
      Some (DLT_RETURN_OK, f') ∧ holds (msg f') plain ∧
    ready f' (layout sample_file) 0 [0; 45] 0 None.
Proof.
  apply (file_message_loads (heap_filled 0)
    (set_index (opened None) (Some ([0; 45] ++ replicate 998 0)) 2 1) None sample_file 1 45 0 0 plain).
  - intros n. discriminate.
  - apply sample_file_ok.
  - split; try done; [by eexists|apply wf_fresh|]. split; [done|]. by exists (replicate 998 0).
  - reflexivity.
Defined.

End DltFileSpec.
