(* ===== verification/MultipleFiles.v ===== *)
(** * A ring buffer of files ([src/shared/dlt_multiple_files.c],
    [src/shared/dlt_offline_trace.c])

    The offline trace and the log of the daemon itself are written to a sequence of
    files in a directory.  A file that is full is closed and a new one is opened;
    before that the oldest files are deleted until a full file fits into the maximal
    size of all files.  The names have an index ("base.0000000001.ext") or a time
    stamp ("base_20240101_120000.ext").

    The directory is a list of files in the order in which [readdir] gives them.
    [host] has what the operating system decides: the order of [scandir], the
    results of [open], [remove] and [write], and the time.  Strings are without
    their terminator. *)

From stdpp Require Import base list numbers option.
From Stdlib Require Import ZArith Lia Bool.
From S2P Require Import Prelude.

Local Open Scope Z_scope.

Module MultipleFiles.

Definition NAME_MAX : Z := 255.
Definition PATH_MAX : Z := 4096.
Definition INT_MAX : Z := 2147483647.
(** "." between base and index, "_" between base and time stamp, "/". *)
Definition INDEX_DELIM : Z := 46.
Definition TIMESTAMP_DELIM : Z := 95.
Definition slash : Z := 47.

Record file := { f_name : bytes; f_data : bytes; f_mtime : Z }.

(** An open file: its name, the position, and whether it is open for appending. *)
Record handle := { h_name : bytes; h_pos : Z; h_append : bool }.

(** [ohandle] is [None] for -1. *)
Record MultipleFilesRingBuffer := {
  directory : bytes;
  filename : bytes;
  fileSize : Z;
  maxSize : Z;
  filenameTimestampBased : bool;
  filenameBase : bytes;
  filenameExt : bytes;
  ohandle : option handle
}.
Definition set_ohandle (b : MultipleFilesRingBuffer) (h : option handle) : MultipleFilesRingBuffer :=
  {| directory := directory b; filename := filename b; fileSize := fileSize b; maxSize := maxSize b;
     filenameTimestampBased := filenameTimestampBased b; filenameBase := filenameBase b; filenameExt := filenameExt b; ohandle := h |}.
Definition set_filename (b : MultipleFilesRingBuffer) (n : bytes) : MultipleFilesRingBuffer :=
  {| directory := directory b; filename := n; fileSize := fileSize b; maxSize := maxSize b;
     filenameTimestampBased := filenameTimestampBased b; filenameBase := filenameBase b; filenameExt := filenameExt b; ohandle := ohandle b |}.

Record host := {
  dir_exists : bool;               (** [stat] and [opendir] of the directory *)
  dir_writable : bool;             (** [access] with [W_OK] *)
  alphasort : list file -> list file;
  open_ok : bytes -> bool;
  remove_ok : bytes -> bool;
  write_result : Z -> Z;           (** of [write] for a number of bytes *)
  now : Z;
  timestamp : bytes                (** the time as "yyyymmdd_hhmmss" *)
}.

(** ** Strings *)

Fixpoint strcmp (a b : bytes) : Z :=
  match a, b with
  | x :: a, y :: b => if x =? y then strcmp a b else if x <? y then -1 else 1
  | [], [] => 0
  | [], _ => -1
  | _, [] => 1
  end.
Fixpoint strstr (s t : bytes) : bool :=
  bool_decide (take (length t) s = t) || match s with _ :: s => strstr s t | [] => false end.

(** [strtok] for one delimiter: the token that begins behind the leading
    delimiters, and what is behind it. *)
Fixpoint skip_delims (d : Z) (s : bytes) : bytes :=
  match s with c :: s' => if c =? d then skip_delims d s' else s | [] => [] end.
Fixpoint token (d : Z) (s : bytes) : bytes * bytes :=
  match s with
  | c :: s => if c =? d then ([], s) else let '(t, r) := token d s in (c :: t, r)
  | [] => ([], [])
  end.
Definition strtok (d : Z) (s : bytes) : option (bytes * bytes) :=
  match skip_delims d s with [] => None | s => Some (token d s) end.

(** [strtol] to the base ten, without the check of the range: digits behind white
    space and a sign. *)
Definition is_space (c : Z) : bool := (c =? 32) || ((9 <=? c) && (c <=? 13)).
Definition is_digit (c : Z) : bool := (48 <=? c) && (c <=? 57).
Fixpoint digits_value (v : Z) (s : bytes) : Z :=
  match s with c :: s => if is_digit c then digits_value (10 * v + (c - 48)) s else v | [] => v end.
Fixpoint skip_spaces (s : bytes) : bytes :=
  match s with c :: s' => if is_space c then skip_spaces s' else s | [] => [] end.
Definition LONG_MAX : Z := 9223372036854775807.
Definition strtol (s : bytes) : Z :=
  match skip_spaces s with
  | c :: s' =>
      if c =? 45 then Z.max (- LONG_MAX - 1) (- digits_value 0 s')
      else Z.min LONG_MAX (digits_value 0 (if c =? 43 then s' else c :: s'))
  | [] => 0
  end.

(** "%0<k>u". *)
Fixpoint zero_padded (k : nat) (n : Z) : bytes :=
  match k with O => [] | S k => zero_padded k (n / 10) ++ [48 + n mod 10] end.

(** ** The directory *)

Definition find_file (n : bytes) (d : list file) : option file := list_find (λ f, f_name f = n) d ≫= λ x, Some x.2.
Definition delete_file (n : bytes) (d : list file) : list file := filter (λ f, f_name f <> n) d.
(** A file gets new contents; the others stay. *)
Definition update_file (n : bytes) (g : file -> file) (d : list file) : list file :=
  (λ f, if bool_decide (f_name f = n) then g f else f) <$> d.

(** A file of the ring buffer with an index. *)
Definition has_index (base name : bytes) : bool := bool_decide (take (length base + 1) name = base ++ [INDEX_DELIM]).

(** A shorter name is older, a longer one is newer; names of the same length are
    compared. *)
Definition older (old : option bytes) (name : bytes) : option bytes :=
  match old with
  | None => Some name
  | Some o => if (zlen name <? zlen o) || ((zlen name =? zlen o) && (0 <? strcmp o name)) then Some name else Some o
  end.
Definition newer (new : option bytes) (name : bytes) : option bytes :=
  match new with
  | None => Some name
  | Some w => if (zlen w <? zlen name) || ((zlen w =? zlen name) && (strcmp w name <? 0)) then Some name else Some w
  end.

(** The loop over the files: their number, the oldest and the newest name. *)
Fixpoint dir_info_loop (base : bytes) (l : list file) (n : Z) (old new : option bytes) : Z * option bytes * option bytes :=
  match l with
  | [] => (n, old, new)
  | f :: l =>
      if has_index base (f_name f) then dir_info_loop base l (n + 1) (older old (f_name f)) (newer new (f_name f))
      else dir_info_loop base l n old new
  end.

(** [newest] and [oldest] are left as they are ("") where a name is too long. *)
Definition copied (n : option bytes) : bytes :=
  match n with Some n => if zlen n <? NAME_MAX then n else [] | None => [] end.
Definition multiple_files_buffer_storage_dir_info (H : host) (d : list file) (base : bytes) : Z * bytes * bytes :=
  let '(n, old, new) := if dir_exists H then dir_info_loop base (alphasort H d) 0 None None else (0, None, None) in
  (u32 n, copied new, copied old).

Definition multiple_files_buffer_get_idx_of_log_file (name : bytes) : Z :=
  match strtok INDEX_DELIM name with
  | None => 0
  | Some (_, rest) => match strtok INDEX_DELIM rest with None => 0 | Some (t, _) => u32 (strtol t) end
  end.

Definition multiple_files_buffer_file_name (b : MultipleFilesRingBuffer) (idx : Z) : MultipleFilesRingBuffer :=
  set_filename b (take (Z.to_nat NAME_MAX) (filenameBase b ++ [INDEX_DELIM] ++ zero_padded 10 idx ++ filenameExt b)).

Definition path_of (b : MultipleFilesRingBuffer) (name : bytes) : bytes := directory b ++ [slash] ++ name.

(** [open] with [O_CREAT]: an existing file keeps its contents, and the position is
    its beginning. *)
Definition open_create (H : host) (b : MultipleFilesRingBuffer) (d : list file) : Z * MultipleFilesRingBuffer * list file :=
  let n := filename b in
  if open_ok H n then
    (DLT_RETURN_OK, set_ohandle b (Some {| h_name := n; h_pos := 0; h_append := false |}),
     match find_file n d with Some _ => d | None => d ++ [{| f_name := n; f_data := []; f_mtime := now H |}] end)
  else (DLT_RETURN_ERROR, set_ohandle b None, d).

Definition multiple_files_buffer_create_new_file (H : host) (b : MultipleFilesRingBuffer) (d : list file)
  : Z * MultipleFilesRingBuffer * list file :=
  if filenameTimestampBased b then
    let name := filenameBase b ++ [TIMESTAMP_DELIM] ++ timestamp H ++ filenameExt b in
    let b := set_filename b (take (Z.to_nat NAME_MAX) name) in
    if NAME_MAX + 1 <=? zlen name then (DLT_RETURN_ERROR, b, d) else
    if PATH_MAX + 1 <=? zlen (path_of b (filename b)) then (DLT_RETURN_ERROR, b, d) else
    open_create H b d
  else
    let '(_, newest, _) := multiple_files_buffer_storage_dir_info H d (filenameBase b) in
    let idx := u32 (multiple_files_buffer_get_idx_of_log_file newest + 1) in
    let b := multiple_files_buffer_file_name b idx in
    if NAME_MAX <=? zlen (path_of b (filename b)) then (DLT_RETURN_ERROR, b, d) else
    open_create H b d.

(** A file that belongs to the ring buffer, for the size and for deletion. *)
Definition belongs (b : MultipleFilesRingBuffer) (f : file) : bool :=
  strstr (f_name f) (filenameBase b) && strstr (f_name f) (filenameExt b).
Definition path_fits (b : MultipleFilesRingBuffer) (f : file) : bool := zlen (path_of b (f_name f)) <? PATH_MAX + 1.

Definition multiple_files_buffer_get_total_size (H : host) (b : MultipleFilesRingBuffer) (d : list file) : Z :=
  if negb (dir_exists H) then -1 else
  sumZ ((λ f, zlen (f_data f)) <$> filter (λ f, belongs b f && path_fits b f = true) d).

(** The loop that looks for the oldest file: the name, with the time and size, or
    the index. *)
Fixpoint oldest_by_time (b : MultipleFilesRingBuffer) (l : list file) (t size : Z) (name : option bytes) : Z * option bytes :=
  match l with
  | [] => (size, name)
  | f :: l =>
      if belongs b f && path_fits b f && ((t =? 0) || (f_mtime f <? t))
      then oldest_by_time b l (f_mtime f) (zlen (f_data f)) (Some (f_name f))
      else oldest_by_time b l t size name
  end.
Fixpoint oldest_by_index (b : MultipleFilesRingBuffer) (l : list file) (i : Z) (name : option bytes) : option bytes :=
  match l with
  | [] => name
  | f :: l =>
      let index := multiple_files_buffer_get_idx_of_log_file (path_of b (f_name f)) in
      if belongs b f && path_fits b f && (index <? u32 i)
      then oldest_by_index b l (i32 index) (Some (f_name f))
      else oldest_by_index b l i name
  end.

Definition multiple_files_buffer_delete_oldest_file (H : host) (b : MultipleFilesRingBuffer) (d : list file) : Z * list file :=
  if negb (dir_exists H) then (-1, d) else
  let '(size, name) := if filenameTimestampBased b then oldest_by_time b d 0 0 None
                       else (0, oldest_by_index b d INT_MAX None) in
  match name with
  | None => (-1, d)
  | Some n => if remove_ok H n then (i32 size, delete_file n d) else (-1, d)
  end.

(** The loop ends when a deletion fails or enough files were deleted; their number
    is enough [fuel]. *)
Fixpoint check_size_loop (fuel : nat) (H : host) (b : MultipleFilesRingBuffer) (d : list file) : option (Z * list file) :=
  match fuel with
  | O => None
  | S fuel =>
      let total := multiple_files_buffer_get_total_size H b d in
      if maxSize b - fileSize b <? total then
        let '(rc, d) := multiple_files_buffer_delete_oldest_file H b d in
        if rc <? 0 then Some (DLT_RETURN_ERROR, d) else check_size_loop fuel H b d
      else Some (if total =? -1 then DLT_RETURN_ERROR else DLT_RETURN_OK, d)
  end.
Definition multiple_files_buffer_check_size (H : host) (b : MultipleFilesRingBuffer) (d : list file) : option (Z * list file) :=
  if negb (dir_exists H) then Some (DLT_RETURN_ERROR, d) else
  if negb (dir_writable H) then Some (DLT_RETURN_ERROR, d) else
  check_size_loop (S (length d)) H b d.

Definition multiple_files_buffer_open_file_for_append (H : host) (b : MultipleFilesRingBuffer) (d : list file)
  : Z * MultipleFilesRingBuffer * list file :=
  if filenameTimestampBased b then (DLT_RETURN_ERROR, b, d) else
  let '(n, newest, _) := multiple_files_buffer_storage_dir_info H d (filenameBase b) in
  if n =? 0 then multiple_files_buffer_create_new_file H b d else
  if NAME_MAX <=? zlen (path_of b newest) then (DLT_RETURN_ERROR, b, d) else
  if open_ok H newest && (if find_file newest d is Some _ then true else false)
  then (DLT_RETURN_OK, set_ohandle b (Some {| h_name := newest; h_pos := 0; h_append := true |}), d)
  else (DLT_RETURN_ERROR, set_ohandle b None, d).

Definition multiple_files_buffer_init (H : host) (b : MultipleFilesRingBuffer) (d : list file) (dir : bytes) (file_size max_size : Z)
  (timestamp_based append : bool) (base ext : bytes) : option (Z * MultipleFilesRingBuffer * list file) :=
  let b := {| directory := take (Z.to_nat NAME_MAX) dir; filename := filename b; fileSize := file_size; maxSize := max_size;
              filenameTimestampBased := timestamp_based; filenameBase := take (Z.to_nat NAME_MAX) base;
              filenameExt := take (Z.to_nat NAME_MAX) ext; ohandle := ohandle b |} in
  '(rc, d) ← multiple_files_buffer_check_size H b d;
  if rc =? DLT_RETURN_ERROR then Some (DLT_RETURN_ERROR, b, d) else
  Some (if negb timestamp_based && append then multiple_files_buffer_open_file_for_append H b d
        else multiple_files_buffer_create_new_file H b d).

(** ** Writing *)

Definition multiple_files_buffer_rotate_file (H : host) (b : MultipleFilesRingBuffer) (d : list file) (size : Z)
  : option (MultipleFilesRingBuffer * list file) :=
  let pos := match ohandle b with Some h => h_pos h | None => -1 end in
  if pos + size <? fileSize b then Some (b, d) else
  let b := set_ohandle b None in
  '(rc, d) ← multiple_files_buffer_check_size H b d;
  if rc =? DLT_RETURN_ERROR then Some (b, d) else
  let '(_, b, d) := multiple_files_buffer_create_new_file H b d in
  Some (b, d).

(** The bytes that [write] takes; behind the end of a file are zeros. *)
Definition put_at (pos : Z) (d : bytes) (old : bytes) : bytes :=
  take (Z.to_nat pos) (old ++ replicate (Z.to_nat pos - length old) 0) ++ d ++ drop (Z.to_nat pos + length d) old.
Definition file_write (H : host) (h : handle) (data : bytes) (d : list file) : handle * list file :=
  let pos := if h_append h then match find_file (h_name h) d with Some f => zlen (f_data f) | None => h_pos h end else h_pos h in
  ({| h_name := h_name h; h_pos := pos + zlen data; h_append := h_append h |},
   update_file (h_name h) (λ f, {| f_name := f_name f; f_data := put_at pos data (f_data f); f_mtime := now H |}) d).

(** [data] is [None] for a null pointer. *)
Definition multiple_files_buffer_write_chunk (H : host) (b : MultipleFilesRingBuffer) (d : list file) (data : option bytes)
  : Z * MultipleFilesRingBuffer * list file :=
  match data, ohandle b with
  | Some data, Some h =>
      let r := write_result H (zlen data) in
      let '(h, d) := if 0 <=? r then file_write H h (take (Z.to_nat r) data) d else (h, d) in
      (if negb (r =? zlen data) then DLT_RETURN_ERROR else DLT_RETURN_OK, set_ohandle b (Some h), d)
  | _, _ => (DLT_RETURN_OK, b, d)
  end.

Definition multiple_files_buffer_write (H : host) (b : MultipleFilesRingBuffer) (d : list file) (data : bytes)
  : option (Z * MultipleFilesRingBuffer * list file) :=
  if ohandle b is None then Some (DLT_RETURN_ERROR, b, d) else
  '(b, d) ← multiple_files_buffer_rotate_file H b d (zlen data);
  Some (multiple_files_buffer_write_chunk H b d (Some data)).

Definition multiple_files_buffer_free (b : MultipleFilesRingBuffer) : Z :=
  if ohandle b is None then DLT_RETURN_ERROR else DLT_RETURN_OK.

(** Three pieces, of which each may be missing. *)
Definition dlt_offline_trace_write (H : host) (b : MultipleFilesRingBuffer) (d : list file) (data1 data2 data3 : option bytes)
  : option (Z * MultipleFilesRingBuffer * list file) :=
  if ohandle b is None then Some (DLT_RETURN_ERROR, b, d) else
  let size x := zlen (default [] x) in
  '(b, d) ← multiple_files_buffer_rotate_file H b d (size data1 + size data2 + size data3);
  let '(rc, b, d) := multiple_files_buffer_write_chunk H b d data1 in
  if negb (rc =? DLT_RETURN_OK) then Some (DLT_RETURN_ERROR, b, d) else
  let '(rc, b, d) := multiple_files_buffer_write_chunk H b d data2 in
  if negb (rc =? DLT_RETURN_OK) then Some (DLT_RETURN_ERROR, b, d) else
  let '(rc, b, d) := multiple_files_buffer_write_chunk H b d data3 in
  if negb (rc =? DLT_RETURN_OK) then Some (DLT_RETURN_ERROR, b, d) else
  Some (DLT_RETURN_OK, b, d).

End MultipleFiles.
