(* ===== verification/MultipleFilesSpec.v ===== *)
(** * The ring buffer of files

    With an index in the names, the newest and the oldest file are those with the
    largest and the smallest index, exactly the oldest files are deleted, and the
    files never have more than the maximal size together. *)

From stdpp Require Import base list list_numbers numbers option.
From Stdlib Require Import ZArith Lia Bool.
From S2P Require Import Prelude MultipleFiles.
Import MultipleFiles.

Local Open Scope Z_scope.

Module MultipleFilesSpec.

(** ** Names *)

Lemma length_zero_padded k n : length (zero_padded k n) = k.
Proof. revert n. induction k as [|k IH]; intros n; [done|]. cbn [zero_padded]. rewrite length_app, IH. simpl. lia. Qed.
Lemma zero_padded_digits k n : 0 <= n -> Forall (λ c, is_digit c = true) (zero_padded k n).
Proof.
  revert n. induction k as [|k IH]; intros n Hn; [constructor|]. cbn [zero_padded]. apply Forall_app. split; [apply IH, Z.div_pos; lia|].
  constructor; [|constructor]. unfold is_digit. pose proof (Z.mod_pos_bound n 10). rewrite !leb_true by lia. done.
Qed.

Lemma strcmp_refl (a : bytes) : strcmp a a = 0.
Proof. induction a as [|x a IH]; [done|]. cbn [strcmp]. by rewrite Z.eqb_refl. Qed.
Lemma strcmp_app (a b x y : bytes) : length a = length b ->
  strcmp (a ++ x) (b ++ y) = if strcmp a b =? 0 then strcmp x y else strcmp a b.
Proof.
  revert b. induction a as [|c a IH]; intros [|e b] H; simpl in H; try lia; [done|]. cbn [strcmp app].
  destruct (c =? e); [apply IH; lia|]. by destruct (c <? e).
Qed.
Lemma strcmp_numbers k m n : 0 <= m < 10 ^ Z.of_nat k -> 0 <= n < 10 ^ Z.of_nat k ->
  strcmp (zero_padded k m) (zero_padded k n) = Z.sgn (m - n).
Proof.
  revert m n. induction k as [|k IH]; intros m n Hm Hn.
  { simpl in *. assert (m = 0) as -> by lia. by assert (n = 0) as -> by lia. }
  rewrite Nat2Z.inj_succ, Z.pow_succ_r in Hm, Hn by lia. cbn [zero_padded]. rewrite strcmp_app by (by rewrite !length_zero_padded).
  pose proof (Z.div_mod m 10 ltac:(lia)) as Dm. pose proof (Z.div_mod n 10 ltac:(lia)) as Dn.
  pose proof (Z.mod_pos_bound m 10 ltac:(lia)). pose proof (Z.mod_pos_bound n 10 ltac:(lia)).
  rewrite IH by (split; [apply Z.div_pos; lia|apply Z.div_lt_upper_bound; lia]).
  destruct (Z.lt_trichotomy (m / 10) (n / 10)) as [Hlt|[Heq|Hgt]].
  - rewrite (Z.sgn_neg (m / 10 - n / 10)), (Z.sgn_neg (m - n)) by lia. done.
  - rewrite Heq, Z.sub_diag. cbn [Z.sgn Z.eqb strcmp]. destruct (Z.eqb_spec (48 + m mod 10) (48 + n mod 10)).
    + replace (m - n) with 0 by lia. done.
    + destruct (Z.ltb_spec (48 + m mod 10) (48 + n mod 10)); [rewrite Z.sgn_neg by lia|rewrite Z.sgn_pos by lia]; done.
  - rewrite (Z.sgn_pos (m / 10 - n / 10)), (Z.sgn_pos (m - n)) by lia. done.
Qed.

(** Reading a number back. *)
Lemma digits_value_app v (a r : bytes) : Forall (λ c, is_digit c = true) a -> digits_value v (a ++ r) = digits_value (digits_value v a) r.
Proof. intros H. revert v. induction H as [|c a Hc Ha IH]; intros v; [done|]. cbn [app digits_value]. by rewrite Hc, IH. Qed.
Lemma digits_value_number k n : 0 <= n < 10 ^ Z.of_nat k -> digits_value 0 (zero_padded k n) = n.
Proof.
  revert n. induction k as [|k IH]; intros n Hn; [simpl in *; lia|]. rewrite Nat2Z.inj_succ, Z.pow_succ_r in Hn by lia.
  cbn [zero_padded]. pose proof (Z.div_mod n 10 ltac:(lia)). pose proof (Z.mod_pos_bound n 10 ltac:(lia)).
  rewrite digits_value_app by (apply zero_padded_digits, Z.div_pos; lia). rewrite IH by (split; [apply Z.div_pos; lia|apply Z.div_lt_upper_bound; lia]).
  cbn [digits_value]. unfold is_digit. rewrite !leb_true by lia. cbn [andb]. lia.
Qed.
Lemma digits_value_stop v (r : bytes) : (∀ c, head r = Some c -> is_digit c = false) -> digits_value v r = v.
Proof. destruct r as [|c r]; [done|]. intros H. cbn [digits_value]. by rewrite (H c). Qed.

Lemma token_spec d (t r : bytes) : d ∉ t -> token d (t ++ d :: r) = (t, r).
Proof.
  induction t as [|c t IH]; intros H; cbn [app token]; [by rewrite Z.eqb_refl|]. apply not_elem_of_cons in H as [Hc H].
  rewrite eqb_false by done. by rewrite IH.
Qed.
Lemma token_app d (t r : bytes) : d ∉ t -> (token d (t ++ r)).1 = t ++ (token d r).1.
Proof.
  induction t as [|c t IH]; intros H; cbn [app token]; [done|]. apply not_elem_of_cons in H as [Hc H].
  rewrite eqb_false by done. destruct (token d (t ++ r)) as [a b]. cbn [fst] in *. by rewrite IH.
Qed.
Lemma strtok_spec d (t r : bytes) : d ∉ t -> t <> [] -> strtok d (t ++ d :: r) = Some (t, r).
Proof.
  intros H Hn. unfold strtok. assert (skip_delims d (t ++ d :: r) = t ++ d :: r) as ->.
  { destruct t as [|c t]; [done|]. apply not_elem_of_cons in H as [Hc H]. cbn [app skip_delims]. by rewrite eqb_false. }
  destruct (t ++ d :: r) eqn:E; [by destruct t|]. rewrite <-E. by rewrite token_spec.
Qed.

Section names.
Context (b : MultipleFilesRingBuffer).

(** The name of the file with index [i]. *)
Definition indexed (i : Z) : bytes := filenameBase b ++ [INDEX_DELIM] ++ zero_padded 10 i ++ filenameExt b.

(** Names whose index can be read back: no dot in base and directory, and the
    extension does not begin with a digit. *)
Record proper_names : Prop := {
  pn_base : INDEX_DELIM ∉ filenameBase b;
  pn_base_nonempty : filenameBase b <> [];
  pn_directory : INDEX_DELIM ∉ directory b;
  pn_ext : ∀ c, head (filenameExt b) = Some c -> is_digit c = false
}.
Hypothesis PN : proper_names.

Lemma digit_not_delim c : is_digit c = true -> c <> INDEX_DELIM.
Proof. unfold is_digit, INDEX_DELIM. intros H. zb. lia. Qed.

(** The index of a name, behind any prefix without a dot. *)
Lemma index_behind (p : bytes) i : INDEX_DELIM ∉ p -> 0 <= i < 4294967296 ->
  multiple_files_buffer_get_idx_of_log_file (p ++ indexed i) = i.
Proof.
  intros Hp Hi. unfold multiple_files_buffer_get_idx_of_log_file, indexed. rewrite app_assoc. cbn [app].
  rewrite strtok_spec; [|by rewrite not_elem_of_app; split; [|apply PN]|intros [-> H]%app_eq_nil; by apply (pn_base_nonempty PN)].
  pose proof (zero_padded_digits 10 i ltac:(lia)) as Hd. pose proof (length_zero_padded 10 i) as Hl. unfold strtok.
  set (z := zero_padded 10 i) in *.
  assert (INDEX_DELIM ∉ z) as Hz.
  { intros H. rewrite list.Forall_forall in Hd. apply Hd, digit_not_delim in H. done. }
  assert (∃ c z', z = c :: z') as (c & z' & Ez) by (destruct z; [done|by eexists _, _]).
  assert (is_digit c = true) as Hc by (rewrite Ez in Hd; by apply Forall_cons_iff in Hd as [? _]).
  pose proof (digit_not_delim c Hc) as Hcd.
  assert (skip_delims INDEX_DELIM (z ++ filenameExt b) = z ++ filenameExt b) as ->.
  { rewrite Ez. cbn [app skip_delims]. by rewrite eqb_false. }
  destruct (z ++ filenameExt b) as [|x s] eqn:Es; [by rewrite Ez in Es|]. rewrite <-Es.
  destruct (token INDEX_DELIM (z ++ filenameExt b)) as [t r] eqn:Et. apply (f_equal fst) in Et. cbn [fst] in Et. rewrite token_app in Et by done. subst t.
  unfold strtol. assert (skip_spaces (z ++ (token INDEX_DELIM (filenameExt b)).1) = z ++ (token INDEX_DELIM (filenameExt b)).1) as ->.
  { rewrite Ez. cbn [app skip_spaces]. unfold is_space, is_digit in *. zb. by rewrite eqb_false, (leb_false c 13), andb_false_r by lia. }
  rewrite Ez. cbn [app]. unfold is_digit in Hc. zb. rewrite !eqb_false by lia. rewrite app_comm_cons, <-Ez.
  rewrite digits_value_app by done. unfold z at 1. rewrite digits_value_number by (simpl; lia). rewrite digits_value_stop.
  { rewrite Z.min_r by (unfold LONG_MAX; lia). by apply u32_small. }
  intros e He. pose proof (pn_ext PN) as Hext. destruct (filenameExt b) as [|y ext]; [done|]. cbn [token] in He. destruct (y =? INDEX_DELIM); [done|].
  destruct (token INDEX_DELIM ext). injection He as <-. by apply Hext.
Qed.
Lemma index_of_name i : 0 <= i < 4294967296 -> multiple_files_buffer_get_idx_of_log_file (indexed i) = i.
Proof. intros Hi. apply (index_behind []); [apply not_elem_of_nil|done]. Qed.
Lemma index_of_path i : 0 <= i < 4294967296 -> multiple_files_buffer_get_idx_of_log_file (path_of b (indexed i)) = i.
Proof.
  intros Hi. unfold path_of. rewrite app_assoc. apply index_behind; [|done]. rewrite not_elem_of_app. split; [apply PN|].
  intros H. apply elem_of_cons in H as [H|H]; [done|]. by apply not_elem_of_nil in H.
Qed.

Lemma indexed_inj i j : 0 <= i < 4294967296 -> 0 <= j < 4294967296 -> indexed i = indexed j -> i = j.
Proof. intros Hi Hj H. rewrite <-(index_of_name i Hi), <-(index_of_name j Hj). by rewrite H. Qed.
Lemma length_indexed i : zlen (indexed i) = zlen (filenameBase b) + 11 + zlen (filenameExt b).
Proof. unfold indexed. rewrite !length_app, length_zero_padded. simpl. lia. Qed.
Lemma strcmp_indexed i j : 0 <= i < 4294967296 -> 0 <= j < 4294967296 -> strcmp (indexed i) (indexed j) = Z.sgn (i - j).
Proof.
  intros Hi Hj. unfold indexed. rewrite strcmp_app, strcmp_refl by done. cbn [Z.eqb]. rewrite strcmp_app, strcmp_refl by done. cbn [Z.eqb].
  rewrite strcmp_app by (by rewrite !length_zero_padded). rewrite strcmp_numbers by (simpl; lia). rewrite strcmp_refl.
  destruct (Z.eqb_spec (Z.sgn (i - j)) 0); lia.
Qed.
End names.

(** ** The directory *)

Lemma strstr_at (a t c : bytes) : strstr (a ++ t ++ c) t = true.
Proof.
  induction a as [|x a IH]; cbn [app].
  - destruct (t ++ c) as [|y s] eqn:E; cbn [strstr]; rewrite <-E, take_app_length, bool_decide_true by done; done.
  - cbn [strstr]. rewrite IH. apply orb_true_r.
Qed.

Lemma filter_same {A} (P Q : A -> Prop) `{∀ x, Decision (P x)} `{∀ x, Decision (Q x)} (l : list A) :
  (∀ x, x ∈ l -> P x ↔ Q x) -> filter P l = filter Q l.
Proof.
  induction l as [|x l IH]; intros He; [done|]. assert (P x ↔ Q x) as Hx by (apply He; by left).
  rewrite !filter_cons, IH by (intros y Hy; apply He; by right). destruct (decide (P x)), (decide (Q x)); tauto.
Qed.

Section directory.
Context (b : MultipleFilesRingBuffer).
Hypothesis PN : proper_names b.
(** The paths are short enough. *)
Hypothesis fit : zlen (directory b) + zlen (filenameBase b) + zlen (filenameExt b) + 12 < NAME_MAX.

Definition index (f : file) : Z := multiple_files_buffer_get_idx_of_log_file (f_name f).
(** A file with a proper name. *)
Definition numbered (f : file) : Prop := 0 <= index f < INT_MAX ∧ f_name f = indexed b (index f).

(** No two files have the same name, and all files that look like files of the ring
    buffer are. *)
Record tidy (d : list file) : Prop := {
  td_names : NoDup (f_name <$> d);
  td_mine : ∀ f, f ∈ d -> belongs b f = true -> numbered f;
  td_indexed : ∀ f, f ∈ d -> has_index (filenameBase b) (f_name f) = true -> numbered f
}.

Lemma numbered_belongs f : numbered f -> belongs b f = true ∧ has_index (filenameBase b) (f_name f) = true.
Proof.
  intros [_ H]. unfold belongs, has_index. rewrite H. unfold indexed. split.
  - apply andb_true_intro. split; [apply (strstr_at [])|]. rewrite !app_assoc. rewrite <-(app_nil_r (filenameExt b)) at 1. apply strstr_at.
  - apply bool_decide_true. rewrite app_assoc. apply take_app_length'. rewrite length_app. simpl. lia.
Qed.
Lemma numbered_path f : numbered f -> path_fits b f = true ∧ zlen (path_of b (f_name f)) < NAME_MAX.
Proof.
  intros [_ H]. unfold path_fits, path_of. rewrite H, !length_app. pose proof (length_indexed b (index f)). cbn [length].
  unfold NAME_MAX, PATH_MAX in *. split; [rewrite ltb_true by lia; done|lia].
Qed.
Lemma tidy_belongs d f : tidy d -> f ∈ d -> belongs b f = has_index (filenameBase b) (f_name f).
Proof.
  intros T Hf. apply eq_true_iff_eq. split; intros Hx; [apply (td_mine _ T) in Hx|apply (td_indexed _ T) in Hx]; try done; by apply numbered_belongs.
Qed.

(** *** The newest file *)

(** [x] names the file with the largest index of [l] and [w]. *)
Definition newest_of (l : list file) (w x : option bytes) : Prop :=
  match x with
  | None => w = None ∧ ∀ f, f ∈ l -> belongs b f = false
  | Some n => ∃ m, 0 <= m < INT_MAX ∧ n = indexed b m ∧ (w = Some n ∨ ∃ f, f ∈ l ∧ f_name f = n) ∧
      (∀ k, 0 <= k < INT_MAX -> w = Some (indexed b k) -> k <= m) ∧ (∀ f, f ∈ l -> belongs b f = true -> index f <= m)
  end.

Definition named (w : option bytes) : Prop := ∀ x, w = Some x -> ∃ k, 0 <= k < INT_MAX ∧ x = indexed b k.
Lemma named_unique k j : 0 <= k < INT_MAX -> 0 <= j < INT_MAX -> Some (indexed b k) = Some (indexed b j) -> j = k.
Proof. intros Hk Hj [= Hx]. apply indexed_inj in Hx; [lia|done|unfold INT_MAX in *; lia..]. Qed.

Lemma newer_spec w f : named w -> numbered f ->
  ∃ m, 0 <= m < INT_MAX ∧ newer w (f_name f) = Some (indexed b m) ∧ (w = newer w (f_name f) ∨ newer w (f_name f) = Some (f_name f)) ∧
    index f <= m ∧ (∀ k, 0 <= k < INT_MAX -> w = Some (indexed b k) -> k <= m).
Proof.
  intros Hw [Hi Hname]. unfold newer. destruct w as [x|]; [|exists (index f); rewrite Hname; split_and!; [lia..|done|by right|lia|done]].
  destruct (Hw x eq_refl) as (k & Hk & ->). rewrite Hname, !length_indexed, Z.ltb_irrefl, Z.eqb_refl. cbn [orb andb].
  rewrite strcmp_indexed by (done || unfold INT_MAX in *; lia). destruct (Z.ltb_spec (Z.sgn (k - index f)) 0).
  - exists (index f). split_and!; [lia..|done|by right|lia|]. intros j Hj0 Hx. apply named_unique in Hx; [lia|done..].
  - exists k. split_and!; [lia..|done|by left|lia|]. intros j Hj0 Hx. apply named_unique in Hx; [lia|done..].
Qed.

Lemma dir_info_newest l : ∀ n old w, (∀ f, f ∈ l -> belongs b f = has_index (filenameBase b) (f_name f)) ->
  (∀ f, f ∈ l -> belongs b f = true -> numbered f) -> named w ->
  newest_of l w (dir_info_loop (filenameBase b) l n old w).2 ∧
  (dir_info_loop (filenameBase b) l n old w).1.1 = n + zlen (filter (λ f, belongs b f = true) l).
Proof.
  induction l as [|f l IH]; intros n old w Hb Hn Hw; cbn [dir_info_loop].
  { split; [|simpl; lia]. destruct w as [x|]; [|by split; [|intros f Hf; by apply not_elem_of_nil in Hf]]. destruct (Hw x eq_refl) as (k & Hk & ->). exists k.
    split_and!; [lia..|done|by left| |intros f Hf; by apply not_elem_of_nil in Hf]. intros j Hj Hx. apply named_unique in Hx; [lia|done..]. }
  assert (∀ g, g ∈ l -> belongs b g = has_index (filenameBase b) (f_name g)) as Hb' by (intros g Hg; apply Hb; by right).
  assert (∀ g, g ∈ l -> belongs b g = true -> numbered g) as Hn' by (intros g Hg; apply Hn; by right).
  rewrite <-(Hb f) by (by left). destruct (belongs b f) eqn:Ef.
  2: { rewrite filter_cons_False by congruence. destruct (IH n old w Hb' Hn' Hw) as [H1 H2]. split; [|done]. destruct (_.2) as [x|].
       - destruct H1 as (m & Hm & Hx & Hor & Hk & Hl). exists m. split_and!; [lia..|done| |done|].
         + destruct Hor as [|(g & Hg & ?)]; [by left|right; exists g; split; [by right|done]].
         + intros g Hg Hbg. apply elem_of_cons in Hg as [->|Hg]; [congruence|by apply Hl].
       - destruct H1 as [H1 Hl]. split; [done|]. intros g Hg. apply elem_of_cons in Hg as [->|Hg]; [done|by apply Hl]. }
  rewrite filter_cons_True by done. destruct (newer_spec w f Hw (Hn f ltac:(by left) Ef)) as (m & Hm & Ew & Hor & Hfm & Hkm).
  destruct (IH (n + 1) (older old (f_name f)) (newer w (f_name f)) Hb' Hn') as [H1 H2].
  { intros x Hx. rewrite Ew in Hx. injection Hx as <-. by exists m. }
  split; [|rewrite H2; cbn [length]; lia]. destruct (_.2) as [x|]; [|destruct H1 as [H1 _]; congruence].
  destruct H1 as (p & Hp & Hx & Hor2 & Hk2 & Hl). exists p. assert (m <= p) as Hmp by (by apply Hk2). split_and!; [lia..|done| | |].
  - destruct Hor2 as [Hw2|(g & Hg & Hgn)]; [|right; exists g; split; [by right|done]].
    destruct Hor as [Hww|Hf]; [left; by rewrite Hww|]. right. exists f. split; [by left|]. rewrite Hw2 in Hf. by injection Hf.
  - intros k Hk Hkw. specialize (Hkm k Hk Hkw). lia.
  - intros g Hg Hbg. apply elem_of_cons in Hg as [->|Hg]; [lia|by apply Hl].
Qed.

(** The newest name and the index behind it. *)
Lemma dir_info_spec H d : tidy d -> dir_exists H = true -> alphasort H d ≡ₚ d ->
  ∃ n newest oldest m, multiple_files_buffer_storage_dir_info H d (filenameBase b) = (n, newest, oldest) ∧
    0 <= m < INT_MAX ∧ multiple_files_buffer_get_idx_of_log_file newest = m ∧ (∀ f, f ∈ d -> belongs b f = true -> index f <= m) ∧
    ((∃ f, f ∈ d ∧ belongs b f = true ∧ f_name f = newest ∧ index f = m) ∨ (newest = [] ∧ m = 0 ∧ ∀ f, f ∈ d -> belongs b f = false)).
Proof.
  intros T Hd Hp. unfold multiple_files_buffer_storage_dir_info. rewrite Hd.
  assert (∀ f, f ∈ alphasort H d ↔ f ∈ d) as Hin by (intros f; by rewrite Hp).
  destruct (dir_info_newest (alphasort H d) 0 None None) as [Hnew _]; [| |done|].
  { intros f Hf. apply (tidy_belongs d); [done|by apply Hin]. }
  { intros f Hf. apply (td_mine _ T). by apply Hin. }
  destruct (dir_info_loop _ _ _ _ _) as [[n old] new]. cbn [snd] in Hnew. destruct new as [x|].
  - destruct Hnew as (m & Hm & -> & Hor & _ & Hl). destruct Hor as [|(f & Hf & Hfn)]; [done|]. apply Hin in Hf.
    assert (numbered f) as Hnf.
    { assert (multiple_files_buffer_get_idx_of_log_file (f_name f) = m) as Hi by (rewrite Hfn; apply index_of_name; [done|unfold INT_MAX in *; lia]).
      split; unfold index; rewrite Hi; done. }
    assert (index f = m) as Him by (unfold index; rewrite Hfn; apply index_of_name; [done|unfold INT_MAX in *; lia]).
    eexists _, _, _, m. split; [reflexivity|]. cbn [copied]. pose proof (length_indexed b m) as Lm. rewrite ltb_true by (unfold NAME_MAX in *; lia).
    split; [done|]. split; [apply index_of_name; [done|unfold INT_MAX in *; lia]|]. split; [intros g Hg; apply Hl; by apply Hin|].
    left. exists f. split_and!; try done. by apply numbered_belongs.
  - destruct Hnew as [_ Hl]. eexists _, _, _, 0. split; [reflexivity|]. cbn [copied]. split; [unfold INT_MAX; lia|]. split; [done|].
    split; [intros f Hf Hbf; apply Hin, Hl in Hf; congruence|]. right. split_and!; try done. intros f Hf. by apply Hl, Hin.
Qed.

(** *** The oldest file *)

Lemma oldest_by_index_spec l : (∀ f, f ∈ l -> belongs b f = true -> numbered f) -> ∀ i name, 0 <= i <= INT_MAX ->
  (oldest_by_index b l i name = name ∧ ∀ f, f ∈ l -> belongs b f = true -> i <= index f) ∨
  (∃ f, f ∈ l ∧ belongs b f = true ∧ index f < i ∧ oldest_by_index b l i name = Some (f_name f) ∧
     ∀ g, g ∈ l -> belongs b g = true -> index f <= index g).
Proof.
  induction l as [|f l IH]; intros Hn i name Hi; cbn [oldest_by_index]; [left; split; [done|intros f Hf; by apply not_elem_of_nil in Hf]|].
  assert (∀ g, g ∈ l -> belongs b g = true -> numbered g) as Hn' by (intros g Hg; apply Hn; by right).
  destruct (belongs b f) eqn:Ef; cbn [andb].
  2: { destruct (IH Hn' i name Hi) as [[-> Hl]|(g & Hg & Hbg & Hlt & -> & Hl)]; [left|right].
       - split; [done|]. intros g Hg. apply elem_of_cons in Hg as [->|Hg]; [congruence|by apply Hl].
       - exists g. split_and!; try done; [by right|]. intros k Hk. apply elem_of_cons in Hk as [->|Hk]; [congruence|by apply Hl]. }
  pose proof (Hn f ltac:(by left) Ef) as Hf. destruct (numbered_path f Hf) as [-> _]. destruct Hf as [Hi' Hname]. cbn [andb].
  assert (multiple_files_buffer_get_idx_of_log_file (path_of b (f_name f)) = index f) as ->
    by (rewrite Hname; apply index_of_path; [done|unfold INT_MAX in *; lia]).
  rewrite u32_small, i32_small by (unfold INT_MAX in *; lia). destruct (Z.ltb_spec (index f) i) as [Hlt|Hge].
  - right. destruct (IH Hn' (index f) (Some (f_name f))) as [[-> Hl]|(g & Hg & Hbg & Hlt' & -> & Hl)]; [lia|exists f|exists g].
    + split_and!; try done; [by left|]. intros g Hg Hbg. apply elem_of_cons in Hg as [->|Hg]; [lia|by apply Hl].
    + split_and!; try done; [by right|lia|]. intros k Hk Hbk. apply elem_of_cons in Hk as [->|Hk]; [lia|by apply Hl].
  - destruct (IH Hn' i name Hi) as [[-> Hl]|(g & Hg & Hbg & Hlt & -> & Hl)]; [left|right].
    + split; [done|]. intros g Hg Hbg. apply elem_of_cons in Hg as [->|Hg]; [lia|by apply Hl].
    + exists g. split_and!; try done; [by right|]. intros k Hk Hbk. apply elem_of_cons in Hk as [->|Hk]; [lia|by apply Hl].
Qed.

(** The files from index [k] on, and those of others. *)
Definition from_index (k : Z) (d : list file) : list file := filter (λ f, belongs b f = true -> k <= index f) d.

Lemma index_unique d f g : tidy d -> f ∈ d -> g ∈ d -> belongs b f = true -> belongs b g = true -> index f = index g -> f = g.
Proof.
  intros T Hf Hg Bf Bg He. apply (td_mine _ T) in Bf as [_ Nf]; [|done]. apply (td_mine _ T) in Bg as [_ Ng]; [|done].
  apply list_elem_of_lookup_1 in Hf as [x Hx]. apply list_elem_of_lookup_1 in Hg as [y Hy].
  assert (x = y) as ->; [|congruence]. eapply (NoDup_lookup (f_name <$> d)); [apply T|by rewrite list_lookup_fmap, Hx|].
  rewrite list_lookup_fmap, Hy. cbn. congruence.
Qed.
(** Deleting the file with the smallest index. *)
Lemma delete_is_from d f : tidy d -> f ∈ d -> belongs b f = true -> (∀ g, g ∈ d -> belongs b g = true -> index f <= index g) ->
  delete_file (f_name f) d = from_index (index f + 1) d.
Proof.
  intros T Hf Bf Hmin. apply filter_same. intros g Hg. split.
  - intros Hne Bg. specialize (Hmin g Hg Bg). assert (index f <> index g); [|lia]. intros He. apply Hne. f_equal. symmetry. by apply (index_unique d).
  - intros Hi He. assert (belongs b g = true) as Bg by (unfold belongs in *; by rewrite He). specialize (Hi Bg). unfold index in Hi. rewrite He in Hi. lia.
Qed.

(** *** Deleting until there is room *)

Definition total (d : list file) : Z := sumZ ((λ f, zlen (f_data f)) <$> filter (λ f, belongs b f = true) d).

Lemma total_size H d : tidy d -> dir_exists H = true -> multiple_files_buffer_get_total_size H b d = total d.
Proof.
  intros T Hd. unfold multiple_files_buffer_get_total_size, total. rewrite Hd. cbn [negb]. do 2 f_equal. apply filter_same. intros f Hf.
  rewrite andb_true_iff. split; [tauto|]. intros Bf. split; [done|]. apply numbered_path. by apply (td_mine _ T).
Qed.
Lemma total_nonneg d : 0 <= total d.
Proof. unfold total. induction (filter _ d) as [|f l IH]; [done|]. rewrite fmap_cons, sumZ_cons. lia. Qed.

Lemma tidy_filter (P : file -> Prop) `{∀ f, Decision (P f)} d : tidy d -> tidy (filter P d).
Proof.
  intros [T1 T2 T3]. split.
  - eapply sublist_NoDup; [exact T1|]. apply fmap_sublist, sublist_filter.
  - intros f Hf. apply T2. by apply list_elem_of_filter in Hf as [_ ?].
  - intros f Hf. apply T3. by apply list_elem_of_filter in Hf as [_ ?].
Qed.
Lemma from_index_all d : tidy d -> from_index 0 d = d.
Proof.
  intros T. unfold from_index. transitivity (filter (λ _ : file, True) d).
  2: { clear T. induction d as [|f d IH]; [done|]. by rewrite filter_cons_True, IH. }
  apply filter_same. intros f Hf. split; [done|]. intros _ Bf. apply (td_mine _ T) in Bf as [? _]; [lia|done].
Qed.
Lemma from_index_twice k j d : from_index k (from_index j d) = from_index (Z.max k j) d.
Proof.
  unfold from_index. rewrite list_filter_filter. apply filter_same. intros f _. split; [intros [H1 H2] Bf|intros H1; split; intros Bf];
    [specialize (H1 Bf); specialize (H2 Bf)|specialize (H1 Bf)..]; lia.
Qed.

Context (H : host).
Hypothesis (Hts : filenameTimestampBased b = false) (Hdir : dir_exists H = true) (Hlimit : fileSize b <= maxSize b).
Abbreviation limit := (maxSize b - fileSize b).

(** One round with too many bytes: the oldest file goes. *)
Lemma oldest_found d : tidy d -> limit < total d ->
  ∃ f, f ∈ d ∧ belongs b f = true ∧ (∀ g, g ∈ d -> belongs b g = true -> index f <= index g) ∧
    multiple_files_buffer_delete_oldest_file H b d =
      if remove_ok H (f_name f) then (0, from_index (index f + 1) d) else (-1, d).
Proof.
  intros T Hl. unfold multiple_files_buffer_delete_oldest_file. rewrite Hdir, Hts. cbn [negb].
  destruct (oldest_by_index_spec d (td_mine d T) INT_MAX None) as [[_ Hall]|(f & Hf & Bf & _ & -> & Hmin)]; [unfold INT_MAX; lia| |].
  - exfalso. assert (filter (λ f, belongs b f = true) d = []) as E.
    { destruct (filter (λ f, belongs b f = true) d) as [|f l] eqn:E; [done|]. assert (f ∈ filter (λ f, belongs b f = true) d) as Hf by (rewrite E; by left).
      apply list_elem_of_filter in Hf as [Bf Hf]. specialize (Hall f Hf Bf). apply (td_mine d T f Hf) in Bf as [? _]. lia. }
    unfold total in Hl. rewrite E in Hl. cbn in Hl. lia.
  - exists f. split_and!; try done. rewrite <-(delete_is_from d f) by done. done.
Qed.
Lemma shorter_from d f : f ∈ d -> belongs b f = true -> (length (from_index (index f + 1) d) < length d)%nat.
Proof. intros Hf Bf. unfold from_index. eapply length_filter_lt; [exact Hf|]. intros Hi. specialize (Hi Bf). lia. Qed.

Lemma check_loop fuel : ∀ d, tidy d -> (length d < fuel)%nat ->
  ∃ rc k, check_size_loop fuel H b d = Some (rc, from_index k d) ∧
    (rc = DLT_RETURN_OK ∧ total (from_index k d) <= limit ∨ rc = DLT_RETURN_ERROR ∧ ∃ n, remove_ok H n = false) ∧
    (∀ f, f ∈ d -> belongs b f = true -> index f < k -> limit < total (from_index (index f) d)).
Proof.
  induction fuel as [|fuel IH]; intros d T Hf; [lia|]. cbn [check_size_loop]. rewrite total_size by done.
  destruct (Z.ltb_spec limit (total d)) as [Hlt|Hle].
  2: { rewrite eqb_false by (pose proof (total_nonneg d); lia). exists DLT_RETURN_OK, 0. rewrite from_index_all by done. split; [done|]. split; [by left|].
       intros f Hin Bf Hi. apply (td_mine d T f Hin) in Bf as [? _]. lia. }
  destruct (oldest_found d T Hlt) as (f & Hin & Bf & Hmin & ->).
  assert (from_index (index f) d = d) as Hall.
  { rewrite <-(from_index_all d T) at 2. apply filter_same. intros g Hg. split; intros _ Bg; [|by apply Hmin]. by apply (td_mine d T g Hg) in Bg as [? _]; lia. }
  destruct (remove_ok H (f_name f)) eqn:Er; cbn [Z.ltb Z.compare].
  2: { exists DLT_RETURN_ERROR, (index f). rewrite Hall. split; [done|]. split; [right; split; [done|by exists (f_name f)]|].
       intros g Hg Bg Hi. specialize (Hmin g Hg Bg). lia. }
  pose proof (shorter_from d f Hin Bf). destruct (IH (from_index (index f + 1) d)) as (rc & k & -> & Hrc & Hdel); [by apply tidy_filter|lia|].
  rewrite from_index_twice in *. exists rc, (Z.max k (index f + 1)). split; [done|]. split; [done|]. intros g Hg Bg Hi.
  destruct (decide (index g <= index f)) as [Hgf|Hgf].
  - assert (index g = index f) as -> by (specialize (Hmin g Hg Bg); lia). by rewrite Hall.
  - specialize (Hdel g). rewrite from_index_twice, Z.max_l in Hdel by lia. apply Hdel; [|done|lia]. apply list_elem_of_filter. split; [intros _; lia|done].
Qed.
End directory.

(** When there are too many bytes, exactly the oldest files are deleted: those that
    stay are the files from some index on, they leave room for a full file, and with
    any of the deleted files they would not. *)
Theorem oldest_files_deleted b H d :
  proper_names b -> zlen (directory b) + zlen (filenameBase b) + zlen (filenameExt b) + 12 < NAME_MAX -> tidy b d ->
  filenameTimestampBased b = false -> dir_exists H = true -> dir_writable H = true -> (∀ n, remove_ok H n = true) -> fileSize b <= maxSize b ->
  ∃ k, multiple_files_buffer_check_size H b d = Some (DLT_RETURN_OK, from_index b k d) ∧
    total b (from_index b k d) <= maxSize b - fileSize b ∧
    (∀ f, f ∈ d -> belongs b f = true -> index f < k -> maxSize b - fileSize b < total b (from_index b (index f) d)).
Proof.
  intros PN Hfit T Hts Hd Hw Hr Hl. unfold multiple_files_buffer_check_size. rewrite Hd, Hw. cbn [negb].
  destruct (check_loop b PN Hfit H Hts Hd Hl (S (length d)) d T) as (rc & k & -> & [[-> Ht]|[_ (n & Hn)]] & Hdel); [lia| |by rewrite Hr in Hn].
  by exists k.
Qed.

(** ** Writing *)

Lemma put_at_end (d old : bytes) : put_at (zlen old) d old = old ++ d.
Proof.
  unfold put_at. rewrite Nat2Z.id, Nat.sub_diag. cbn [replicate]. rewrite app_nil_r, firstn_all.
  rewrite drop_ge by lia. by rewrite app_nil_r.
Qed.

Section writing.
Context (b0 : MultipleFilesRingBuffer).
Hypothesis PN : proper_names b0.
Hypothesis fit : zlen (directory b0) + zlen (filenameBase b0) + zlen (filenameExt b0) + 12 < NAME_MAX.
Hypothesis (Hts : filenameTimestampBased b0 = false) (Hlimit : 0 <= fileSize b0 <= maxSize b0).

Record host_ok (H : host) : Prop := {
  ho_sort : ∀ l, alphasort H l ≡ₚ l;
  ho_write : ∀ n, write_result H n <= n
}.

(** The state of the ring buffer when [n] more files can be numbered: what is open
    is written at its end, and the other files leave room for it. *)
Record bounded (n : Z) (b : MultipleFilesRingBuffer) (d : list file) : Prop := {
  bo_config : ∃ name h, b = set_ohandle (set_filename b0 name) h;
  bo_tidy : tidy b0 d;
  bo_room : ∀ f, f ∈ d -> belongs b0 f = true -> index f + n < INT_MAX;
  bo_count : n + 1 < INT_MAX;
  bo_total : total b0 d <= maxSize b0;
  bo_open : ∀ h, ohandle b = Some h -> h_append h = false ∧ ∃ f, f ∈ d ∧ belongs b0 f = true ∧ f_name f = h_name h ∧
    zlen (f_data f) = h_pos h ∧ total b0 d - h_pos h <= maxSize b0 - fileSize b0
}.

Lemma total_app d1 d2 : total b0 (d1 ++ d2) = total b0 d1 + total b0 d2.
Proof. unfold total. by rewrite list.filter_app, fmap_app, sumZ_app. Qed.
Lemma total_one f : belongs b0 f = true -> total b0 [f] = zlen (f_data f).
Proof. intros Bf. unfold total. rewrite filter_cons_True by done. cbn. lia. Qed.

Lemma update_others n g d : n ∉ f_name <$> d -> update_file n g d = d.
Proof.
  induction d as [|f d IH]; intros Hn; [done|]. rewrite fmap_cons in Hn. apply not_elem_of_cons in Hn as [Hf Hn].
  unfold update_file in *. rewrite fmap_cons, bool_decide_false by congruence. f_equal. by apply IH.
Qed.
Lemma update_names n g d : (∀ f, f_name (g f) = f_name f) -> f_name <$> update_file n g d = f_name <$> d.
Proof.
  intros Hg. unfold update_file. rewrite <-list_fmap_compose. apply list_fmap_ext. intros i f _. cbn. case_bool_decide; [apply Hg|done].
Qed.
Lemma update_elem n g d f : (∀ f, f_name (g f) = f_name f) -> f ∈ update_file n g d -> ∃ f0, f0 ∈ d ∧ f_name f = f_name f0.
Proof.
  intros Hg Hf. unfold update_file in Hf. apply list_elem_of_fmap in Hf as (f0 & -> & Hf0). exists f0. split; [done|]. case_bool_decide; [apply Hg|done].
Qed.
Lemma belongs_name f f' : f_name f = f_name f' -> belongs b0 f = belongs b0 f'.
Proof. intros He. unfold belongs. by rewrite He. Qed.
Lemma numbered_name f f' : f_name f = f_name f' -> numbered b0 f' -> numbered b0 f.
Proof. intros He [H1 H2]. split; unfold index in *; by rewrite He. Qed.
Lemma tidy_update n g d : (∀ f, f_name (g f) = f_name f) -> tidy b0 d -> tidy b0 (update_file n g d).
Proof.
  intros Hg [T1 T2 T3]. split; [by rewrite update_names| |]; intros f Hf Hb; apply (update_elem n g d f Hg) in Hf as (f0 & Hf0 & He);
    apply (numbered_name f f0 He); [apply T2|apply T3]; try done; [by rewrite <-(belongs_name f f0 He)|by rewrite <-He].
Qed.

(** Writing changes the size of one file. *)
Lemma update_total d f g : tidy b0 d -> f ∈ d -> belongs b0 f = true -> (∀ f, f_name (g f) = f_name f) ->
  g f ∈ update_file (f_name f) g d ∧ total b0 (update_file (f_name f) g d) = total b0 d - zlen (f_data f) + zlen (f_data (g f)).
Proof.
  intros T Hf Bf Hg. apply list_elem_of_split in Hf as (d1 & d2 & ->). destruct T as [T _ _]. rewrite fmap_app, fmap_cons in T.
  apply list.NoDup_app in T as (_ & Hd1 & T). apply list.NoDup_cons in T as [Hn2 _].
  assert (f_name f ∉ f_name <$> d1) as Hn1 by (intros Hin; apply (Hd1 _ Hin); by left).
  assert (update_file (f_name f) g (d1 ++ f :: d2) = d1 ++ g f :: d2) as ->.
  { unfold update_file in *. rewrite fmap_app, fmap_cons, bool_decide_true by done.
    pose proof (update_others (f_name f) g d1 Hn1) as H1. pose proof (update_others (f_name f) g d2 Hn2) as H2. unfold update_file in H1, H2. by rewrite H1, H2. }
  split; [apply elem_of_app; right; by left|]. rewrite !total_app. change (f :: d2) with ([f] ++ d2). change (g f :: d2) with ([g f] ++ d2). rewrite !total_app, !total_one; [lia|done|].
  by rewrite (belongs_name (g f) f).
Qed.

Lemma total_filter (P : file -> Prop) `{∀ f, Decision (P f)} d : total b0 (filter P d) <= total b0 d.
Proof.
  induction d as [|f d IH]; [done|]. change (f :: d) with ([f] ++ d). rewrite list.filter_app, !total_app.
  assert (total b0 (filter P [f]) <= total b0 [f]); [|lia]. rewrite filter_cons. destruct (decide (P f)); [done|]. apply total_nonneg.
Qed.

Lemma write_chunk_bounded H n b d data : host_ok H -> bounded n b d ->
  (∀ h, ohandle b = Some h -> h_pos h + zlen data <= fileSize b0) ->
  ∃ rc b' d', multiple_files_buffer_write_chunk H b d (Some data) = (rc, b', d') ∧ bounded n b' d'.
Proof.
  intros HO B Hpos. unfold multiple_files_buffer_write_chunk. destruct (ohandle b) as [h|] eqn:Eh; [|by eexists _, b, d].
  specialize (Hpos h eq_refl). destruct (bo_open _ _ _ B h Eh) as (Happ & f & Hf & Bf & Hname & Hsize & Hothers).
  destruct (bo_config _ _ _ B) as (name & h0 & Eb). pose proof (ho_write _ HO (zlen data)) as Hw.
  destruct (Z.leb_spec 0 (write_result H (zlen data))) as [Hr|Hr].
  2: { eexists _, _, _. split; [reflexivity|]. destruct B as [_ B2 B3 Bc B4 B5]. split; try done; [by exists name, (Some h); rewrite Eb|].
       intros h' [= <-]. by apply B5. }
  unfold file_write. rewrite Happ, <-Hname, <-Hsize. set (new := take (Z.to_nat (write_result H (zlen data))) data).
  set (g := λ f0 : file, {| f_name := f_name f0; f_data := put_at (zlen (f_data f)) new (f_data f0); f_mtime := now H |}).
  assert (zlen new = write_result H (zlen data)) as Ln by (unfold new; rewrite length_take; lia).
  destruct (update_total d f g (bo_tidy _ _ _ B) Hf Bf ltac:(done)) as [Hg Ht].
  assert (zlen (f_data (g f)) = zlen (f_data f) + zlen new) as Lg by (cbn [f_data g]; rewrite put_at_end, length_app; lia).
  eexists _, _, _. split; [reflexivity|]. destruct B as [_ B2 B3 Bc B4 B5]. split.
  - eexists name, _. rewrite Eb. reflexivity.
  - by apply tidy_update.
  - intros f1 Hf1 Bf1. apply (update_elem _ g) in Hf1 as (f2 & Hf2 & He); [|done]. unfold index. rewrite He.
    apply B3; [done|]. by rewrite <-(belongs_name f1 f2 He).
  - done.
  - rewrite Ht, Lg. lia.
  - intros h' [= <-]. cbn [h_append h_name h_pos]. split; [done|]. exists (g f).
    split; [done|]. split; [by rewrite <-Bf; apply belongs_name|]. split; [done|]. split; [by rewrite Lg|]. rewrite Ht, Lg. lia.
Qed.

Lemma tidy_new d f : tidy b0 d -> numbered b0 f -> (∀ g, g ∈ d -> f_name g <> f_name f) -> tidy b0 (d ++ [f]).
Proof.
  intros [T1 T2 T3] Hn Hf. split.
  - rewrite fmap_app. apply list.NoDup_app. split; [done|]. split; [|apply list.NoDup_singleton].
    intros n Hin Hn2. apply list_elem_of_fmap in Hin as (g & -> & Hg). apply list_elem_of_singleton in Hn2. by apply (Hf g Hg).
  - intros g Hg. apply elem_of_app in Hg as [Hg|Hg]; [by apply T2|]. by apply list_elem_of_singleton in Hg as ->.
  - intros g Hg. apply elem_of_app in Hg as [Hg|Hg]; [by apply T3|]. by apply list_elem_of_singleton in Hg as ->.
Qed.

Lemma create_bounded H n b d : host_ok H -> 0 <= n -> dir_exists H = true -> ohandle b = None -> bounded (n + 1) b d ->
  total b0 d <= maxSize b0 - fileSize b0 ->
  ∃ rc b' d', multiple_files_buffer_create_new_file H b d = (rc, b', d') ∧ bounded n b' d' ∧ (∀ h, ohandle b' = Some h -> h_pos h = 0).
Proof.
  intros HO Hn Hd Hh B Ht. destruct (bo_config _ _ _ B) as (name & h0 & Eb). pose proof (bo_tidy _ _ _ B) as T.
  unfold multiple_files_buffer_create_new_file. subst b. cbn [filenameTimestampBased set_ohandle set_filename filenameBase ohandle] in *. rewrite Hts.
  destruct (dir_info_spec b0 PN fit H d T Hd (ho_sort _ HO d)) as (c & newest & oldest & m & -> & Hm & -> & Hmax & Hor).
  assert (0 <= m + 1 < INT_MAX - n) as Hm1.
  { split; [lia|]. destruct Hor as [(f & Hf & Bf & _ & <-)|(_ & -> & _)]; [pose proof (bo_room _ _ _ B f Hf Bf); lia|].
    pose proof (bo_count _ _ _ B). lia. }
  rewrite (u32_small (m + 1)) by (unfold INT_MAX in *; lia). unfold multiple_files_buffer_file_name.
  set (new := indexed b0 (m + 1)). assert (index {| f_name := new; f_data := []; f_mtime := now H |} = m + 1) as Hidx
    by (unfold index; cbn [f_name]; apply index_of_name; [done|unfold INT_MAX in *; lia]).
  assert (numbered b0 {| f_name := new; f_data := []; f_mtime := now H |}) as Hnum by (split; rewrite Hidx; [lia|done]).
  destruct (numbered_path b0 fit _ Hnum) as [_ Hpath]. cbn [f_name] in Hpath. destruct (numbered_belongs b0 _ Hnum) as [Bnew Inew].
  assert (take (Z.to_nat NAME_MAX) (filenameBase b0 ++ [INDEX_DELIM] ++ zero_padded 10 (m + 1) ++ filenameExt b0) = new) as Etake.
  { apply take_ge. pose proof (length_indexed b0 (m + 1)). unfold new, indexed, NAME_MAX in *. lia. }
  cbn [filenameBase filenameExt set_filename set_ohandle]. rewrite Etake. unfold path_of in *. cbn [directory filename set_filename set_ohandle].
  rewrite leb_false by done. unfold open_create. cbn [filename set_filename set_ohandle].
  assert (∀ f, f ∈ d -> f_name f <> new) as Hfresh.
  { intros f Hf He. assert (belongs b0 f = true) as Bf by (rewrite <-Bnew; by apply belongs_name). specialize (Hmax f Hf Bf).
    unfold index in Hmax, Hidx. cbn [f_name] in Hidx. rewrite He, Hidx in Hmax. lia. }
  assert (find_file new d = None) as ->.
  { unfold find_file. destruct (list_find _ d) as [[i f]|] eqn:Ef; [|done]. apply list_find_Some in Ef as (Hf & He & _).
    apply list_elem_of_lookup_2 in Hf. by destruct (Hfresh f Hf). }
  pose proof (bo_count _ _ _ B). pose proof (bo_total _ _ _ B).
  destruct (open_ok H new); eexists _, _, _; (split; [reflexivity|]); cbn [ohandle set_ohandle]; (split; [|try done]).
  - split.
    + by eexists new, _.
    + by apply tidy_new.
    + intros f Hf Bf. apply elem_of_app in Hf as [Hf|Hf]; [pose proof (bo_room _ _ _ B f Hf Bf); lia|].
      apply list_elem_of_singleton in Hf as ->. rewrite Hidx. lia.
    + lia.
    + rewrite total_app, (total_one _ Bnew). cbn. lia.
    + intros h [= <-]. cbn [h_append h_name h_pos]. split; [done|]. eexists. split; [apply elem_of_app; right; by left|].
      split; [exact Bnew|]. split; [done|]. split; [done|]. rewrite total_app, (total_one _ Bnew). cbn. lia.
  - by intros h [= <-].
  - split; [by eexists new, None|done|intros f Hf Bf; pose proof (bo_room _ _ _ B f Hf Bf); lia|lia|done|done].
Qed.

Lemma check_bounded H n b d : bounded n b d -> ohandle b = None ->
  ∃ rc d', multiple_files_buffer_check_size H b d = Some (rc, d') ∧ bounded n b d' ∧
    (rc = DLT_RETURN_ERROR ∨ rc = DLT_RETURN_OK ∧ dir_exists H = true ∧ total b0 d' <= maxSize b0 - fileSize b0).
Proof.
  intros B Hh. destruct (bo_config _ _ _ B) as (name & h0 & ->). unfold multiple_files_buffer_check_size.
  destruct (dir_exists H) eqn:Hd; cbn [negb]; [|eexists _, d; split; [reflexivity|]; split; [done|by left]].
  destruct (dir_writable H); cbn [negb]; [|eexists _, d; split; [reflexivity|]; split; [done|by left]].
  destruct (check_loop (set_ohandle (set_filename b0 name) h0) ltac:(by destruct PN; split) fit H Hts Hd ltac:(cbn; lia) (S (length d)) d) as (rc & k & -> & Hrc & _);
    [by destruct B as [_ [] _ _ _]; split|lia|].
  eexists rc, _. split; [reflexivity|]. split; [|destruct Hrc as [[-> Ht]|[-> _]]; [right|left]; done].
  destruct B as [B1 B2 B3 B4 B5 B6]. split; try done.
  - by apply tidy_filter.
  - intros f Hf. apply B3. by apply list_elem_of_filter in Hf as [_ ?].
  - transitivity (total b0 d); [|done]. apply total_filter.
  - cbn in *. by intros h [=]; subst.
Qed.

(** One call. *)
Lemma write_bounded H n b d data : host_ok H -> 0 <= n -> bounded (n + 1) b d -> zlen data <= fileSize b0 ->
  ∃ rc b' d', multiple_files_buffer_write H b d data = Some (rc, b', d') ∧ bounded n b' d'.
Proof.
  intros HO Hn B Hl. unfold multiple_files_buffer_write. assert (bounded n b d) as Bn.
  { destruct B as [B1 B2 B3 B4 B5 B6]. split; try done; [|lia]. intros f Hf Bf. specialize (B3 f Hf Bf). lia. }
  destruct (ohandle b) as [h|] eqn:Eh; [|by eexists _, b, d]. unfold multiple_files_buffer_rotate_file. rewrite Eh.
  destruct (bo_config _ _ _ B) as (name & h0 & Eb). assert (fileSize b = fileSize b0) as -> by (by rewrite Eb).
  destruct (Z.ltb_spec (h_pos h + zlen data) (fileSize b0)) as [Hlt|Hge].
  { bsimp. destruct (write_chunk_bounded H n b d data HO Bn) as (rc & b' & d' & -> & B'); [|by eexists _, b', d']. intros h' Eh'. rewrite Eh in Eh'. injection Eh' as <-. lia. }
  assert (bounded (n + 1) (set_ohandle b None) d) as Bc.
  { destruct B as [_ B2 B3 B4 B5 _]. split; try done. exists name, None. by rewrite Eb. }
  destruct (check_bounded H (n + 1) (set_ohandle b None) d Bc eq_refl) as (rc & d1 & -> & B1 & Hrc). bsimp.
  destruct Hrc as [->|(-> & Hd & Ht)].
  - cbn [Z.eqb Pos.eqb DLT_RETURN_ERROR]. bsimp. unfold multiple_files_buffer_write_chunk. cbn [ohandle set_ohandle]. eexists _, _, _. split; [reflexivity|].
    destruct B1 as [C1 C2 C3 C4 C5 C6]. split; try done; [|lia]. intros f Hf Bf. specialize (C3 f Hf Bf). lia.
  - cbn [Z.eqb DLT_RETURN_OK DLT_RETURN_ERROR]. destruct (create_bounded H n (set_ohandle b None) d1 HO Hn Hd eq_refl B1 Ht) as (rc & b2 & d2 & -> & B2 & Hpos).
    bsimp. destruct (write_chunk_bounded H n b2 d2 data HO B2) as (rc' & b' & d' & -> & B'); [|by eexists _, b', d']. intros h' Eh'. rewrite (Hpos h' Eh'). lia.
Qed.

End writing.

(** ** A run *)

(** The ring buffer as it is set up. *)
Definition configured (dir base ext : bytes) (file_size max_size : Z) : MultipleFilesRingBuffer :=
  {| directory := dir; filename := []; fileSize := file_size; maxSize := max_size; filenameTimestampBased := false;
     filenameBase := base; filenameExt := ext; ohandle := None |}.
(** Calls of [multiple_files_buffer_write], each with what the operating system does. *)
Fixpoint writes (ws : list (host * bytes)) (b : MultipleFilesRingBuffer) (d : list file) : option (MultipleFilesRingBuffer * list file) :=
  match ws with
  | [] => Some (b, d)
  | (H, data) :: ws => '(_, b, d) ← multiple_files_buffer_write H b d data; writes ws b d
  end.

Lemma writes_bounded b0 (PN : proper_names b0) : zlen (directory b0) + zlen (filenameBase b0) + zlen (filenameExt b0) + 12 < NAME_MAX ->
  filenameTimestampBased b0 = false -> 0 <= fileSize b0 <= maxSize b0 ->
  ∀ ws b d n, Forall (λ w, host_ok w.1 ∧ zlen w.2 <= fileSize b0) ws -> 0 <= n -> bounded b0 (n + zlen ws) b d ->
  ∃ b' d', writes ws b d = Some (b', d') ∧ bounded b0 n b' d'.
Proof.
  intros Hfit Hts Hlim. induction ws as [|[H data] ws IH]; intros b d n Hw Hn B; cbn [writes].
  { exists b, d. split; [done|]. cbn [length] in B. by rewrite Z.add_0_r in B. }
  apply Forall_cons_iff in Hw as [[HO Hl] Hw]. cbn [fst snd] in *.
  destruct (write_bounded b0 PN Hfit Hts Hlim H (n + zlen ws) b d data HO) as (rc & b1 & d1 & -> & B1); [lia| |done|].
  - replace (n + zlen ws + 1) with (n + zlen ((H, data) :: ws)) by (cbn [length]; lia). done.
  - bsimp. by apply IH.
Qed.

(** C33: The files never have more bytes than the maximal size together: after a
    successful start with new files, any sequence of writes of at most a full file
    each keeps the sum of the sizes below the maximum, whatever fails on the way. *)
Theorem files_stay_bounded H b d dir base ext file_size max_size ws :
  let b0 := configured dir base ext file_size max_size in
  proper_names b0 -> zlen dir + zlen base + zlen ext + 12 < NAME_MAX -> 0 <= file_size <= max_size ->
  ohandle b = None -> host_ok H -> tidy b0 d -> zlen ws + 2 < INT_MAX ->
  (∀ f, f ∈ d -> belongs b0 f = true -> index f + zlen ws + 1 < INT_MAX) ->
  Forall (λ w, host_ok w.1 ∧ zlen w.2 <= file_size) ws ->
  ∃ rc b1 d1, multiple_files_buffer_init H b d dir file_size max_size false false base ext = Some (rc, b1, d1) ∧
    (rc = DLT_RETURN_OK -> ∃ b2 d2, writes ws b1 d1 = Some (b2, d2) ∧ total b0 d2 <= max_size ∧ tidy b0 d2).
Proof.
  intros b0 PN Hfit Hlim Hh HO T Hc Hroom Hw. unfold multiple_files_buffer_init. unfold NAME_MAX in *. rewrite !take_ge by lia.
  set (b1 := {| directory := dir; filename := _; fileSize := _; maxSize := _; filenameTimestampBased := _; filenameBase := _; filenameExt := _; ohandle := _ |}).
  unfold multiple_files_buffer_check_size. destruct (dir_exists H) eqn:Hd; cbn [negb]; [|by bsimp; eexists _, _, _].
  destruct (dir_writable H); cbn [negb]; [|by bsimp; eexists _, _, _].
  destruct (check_loop b1 ltac:(by destruct PN; split) Hfit H eq_refl Hd ltac:(cbn; lia) (S (length d)) d) as (rc & k & -> & Hrc & _);
    [by destruct T; split|lia|]. bsimp. destruct Hrc as [[-> Ht]|[-> _]]; [|by eexists _, _, _]. cbn [Z.eqb DLT_RETURN_OK DLT_RETURN_ERROR negb andb].
  assert (bounded b0 (zlen ws + 1) b1 (from_index b1 k d)) as B.
  { split.
    - exists (filename b), None. unfold b1. by rewrite Hh.
    - by apply (tidy_filter b0).
    - intros f Hf Bf. apply list_elem_of_filter in Hf as [_ Hf]. specialize (Hroom f Hf Bf). lia.
    - lia.
    - change (maxSize b0) with max_size. change (maxSize b1 - fileSize b1) with (max_size - file_size) in Ht.
      change (total b0 (from_index b1 k d)) with (total b1 (from_index b1 k d)). lia.
    - intros h Eh. cbn in Eh. congruence. }
  destruct (create_bounded b0 PN Hfit eq_refl H (zlen ws) b1 (from_index b1 k d) HO ltac:(lia) Hd Hh B Ht) as (rc & b2 & d2 & -> & B2 & _).
  eexists _, _, _. split; [reflexivity|]. intros _.
  destruct (writes_bounded b0 PN Hfit eq_refl Hlim ws b2 d2 0 Hw ltac:(lia) B2) as (b3 & d3 & -> & B3). exists b3, d3. split; [done|]. by destruct B3.
Qed.

(** ** What is lost *)

(** When there is no room for a new file, the data is thrown away and the call
    reports success. *)
Theorem failed_rotation_reports_success H b d h data :
  ohandle b = Some h -> fileSize b <= h_pos h + zlen data -> dir_writable H = false ->
  multiple_files_buffer_write H b d data = Some (DLT_RETURN_OK, set_ohandle b None, d).
Proof.
  intros Hh Hf Hw. unfold multiple_files_buffer_write, multiple_files_buffer_rotate_file, multiple_files_buffer_check_size. rewrite Hh, ltb_false, Hw by lia.
  by destruct (dir_exists H).
Qed.

(** ** Examples *)

Definition host0 : host :=
  {| dir_exists := true; dir_writable := true; alphasort := λ l, l; open_ok := λ _, true; remove_ok := λ _, true;
     write_result := λ n, n; now := 1000; timestamp := [48] |}.
Lemma host0_ok : host_ok host0.
Proof. by split. Qed.

(** "/log", "dlt", ".log": files of ten bytes, twenty bytes together. *)
Definition config0 : MultipleFilesRingBuffer := configured [47; 108; 111; 103] [100; 108; 116] [46; 108; 111; 103] 10 20.
Lemma config0_names : proper_names config0.
Proof.
  assert (∀ (l : bytes), forallb (λ b, negb (b =? INDEX_DELIM)) l = true -> INDEX_DELIM ∉ l) as Hc.
  { intros l Hf Hin. rewrite forallb_forall in Hf. apply list_elem_of_In, Hf in Hin. by rewrite Z.eqb_refl in Hin. }
  split; [by apply Hc|done|by apply Hc|]. intros c [= <-]. done.
Qed.
Definition numbered_file (i : Z) (data : bytes) : file := {| f_name := indexed config0 i; f_data := data; f_mtime := 0 |}.
(** A file of someone else, and two of the ring buffer. *)
Definition dir0 : list file := [numbered_file 8 (replicate 9 1); {| f_name := [97]; f_data := replicate 50 0; f_mtime := 0 |}; numbered_file 7 (replicate 9 2)].
Lemma dir0_tidy : tidy config0 dir0.
Proof.
  assert (∀ i data, 0 <= i < INT_MAX -> numbered config0 (numbered_file i data)) as Hn.
  { intros i data Hi. assert (index (numbered_file i data) = i) as E by (apply index_of_name; [apply config0_names|unfold INT_MAX in *; lia]).
    split; rewrite E; done. }
  split; [by apply (bool_decide_unpack _); vm_compute| |];
    (intros f Hf Hb; repeat (apply elem_of_cons in Hf as [->|Hf]; [try (by apply Hn); by vm_compute in Hb|]); by apply not_elem_of_nil in Hf).
Qed.

Lemma oldest_files_deleted_witness :
  ∃ k, multiple_files_buffer_check_size host0 config0 dir0 = Some (DLT_RETURN_OK, from_index config0 k dir0) ∧
    total config0 (from_index config0 k dir0) <= 20 - 10 ∧
    (∀ f, f ∈ dir0 -> belongs config0 f = true -> index f < k -> 20 - 10 < total config0 (from_index config0 (index f) dir0)).
Proof.
  apply (oldest_files_deleted config0 host0 dir0).
  - exact config0_names.
  - done.
  - exact dir0_tidy.
  - done.
  - done.
  - done.
  - done.
  - done.
Defined.

Lemma files_stay_bounded_witness :
  let ws := [(host0, replicate 6 1); (host0, replicate 7 2); (host0, replicate 8 3)] in
  ∃ rc b1 d1, multiple_files_buffer_init host0 config0 dir0 [47; 108; 111; 103] 10 20 false false [100; 108; 116] [46; 108; 111; 103] = Some (rc, b1, d1) ∧
    (rc = DLT_RETURN_OK -> ∃ b2 d2, writes ws b1 d1 = Some (b2, d2) ∧ total config0 d2 <= 20 ∧ tidy config0 d2).
Proof.
  intros ws. apply (files_stay_bounded host0 config0 dir0 [47; 108; 111; 103] [100; 108; 116] [46; 108; 111; 103] 10 20 ws).
  - exact config0_names.
  - done.
  - done.
  - done.
  - exact host0_ok.
  - exact dir0_tidy.
  - done.
  - intros f Hf Hb. repeat (apply elem_of_cons in Hf as [->|Hf]; [by vm_compute|]). by apply not_elem_of_nil in Hf.
  - repeat constructor; done.
Defined.

(** A dot in the path of the directory: the index of every file is read as zero,
    and the first file that is listed is deleted, here the newer one. *)
Example dot_deletes_newer_file :
  (let b := configured [47; 97; 46; 98] [100; 108; 116] [46; 108; 111; 103] 10 20 in
   index <$> (multiple_files_buffer_delete_oldest_file host0 b [numbered_file 8 []; numbered_file 7 []]).2) = [7].
Proof. by vm_compute. Qed.

(** Two files in the same second have the same name: the second one overwrites the
    first. *)
Definition by_time : MultipleFilesRingBuffer :=
  {| directory := [47]; filename := []; fileSize := 10; maxSize := 100; filenameTimestampBased := true;
     filenameBase := [100]; filenameExt := [101]; ohandle := None |}.
Definition contents (x : MultipleFilesRingBuffer * list file) : list bytes := f_data <$> x.2.
Example same_second_overwrites :
  (x ← multiple_files_buffer_init host0 by_time [] [47] 10 100 true false [100] [101];
   contents <$> writes [(host0, replicate 9 1); (host0, replicate 5 2)] x.1.2 x.2) = Some [[2; 2; 2; 2; 2; 1; 1; 1; 1]].
Proof. by vm_compute. Qed.

End MultipleFilesSpec.
