(* ===== verification/ConfigFile.v ===== *)
(** * Configuration files ([src/shared/dlt_config_file_parser.c])

    The parser of the files that configure the gateway and the offline
    logstorage: sections "[name]" with lines "key = value".  Lines have at most 209
    bytes, names, keys and values 99 characters; a file has at most 125 sections.

    Strings are lists of characters without the terminator; the memory of a section
    for its name and its keys is a list of bytes with checked access.  A pointer is an
    [option]: [None] is null.  In results [None] is undefined behaviour. *)

From stdpp Require Import base list numbers option.
From Stdlib Require Import ZArith Lia Bool.
From S2P Require Import Prelude Ids.
Import Ids.

Local Open Scope Z_scope.

Module ConfigFile.

Definition DLT_CONFIG_FILE_ENTRY_MAX_LEN : Z := 100.
Definition DLT_CONFIG_FILE_LINE_MAX_LEN : Z := 210.
Definition DLT_CONFIG_FILE_SECTIONS_MAX : Z := 125.
Definition DLT_CONFIG_FILE_KEYS_MAX : Z := 25.
Definition DLT_CONFIG_FILE_NEW_SECTION : Z := 10.
Definition DLT_CONFIG_FILE_NEW_DATA : Z := 11.
Definition DLT_PATH_MAX : Z := 1024.
Definition sizeof_DltConfigKeyData : Z := 24.
Definition sizeof_DltConfigFileSection : Z := 32.
Definition sizeof_DltConfigFile : Z := 16.

Record DltConfigKeyData := { key : option bytes; data : option bytes }.

(** [list_] is the linked list in its order. *)
Record DltConfigFileSection := {
  num_entries : Z;
  name : option bytes;
  keys : option bytes;
  list_ : list DltConfigKeyData
}.

Record DltConfigFile := {
  num_sections : Z;
  sections : option (list DltConfigFileSection)
}.

(** [calloc] of [n] bytes. *)
Definition calloc (A : allocator) (n : Z) : option bytes :=
  _ ← malloc A n; Some (replicate (Z.to_nat n) 0).
(** [strdup]. *)
Definition strdup (A : allocator) (s : bytes) : option bytes :=
  _ ← malloc A (zlen s + 1); Some s.

(** The string in a memory; [None]: there is no terminator in it. *)
Definition cstring (mem : bytes) : option bytes :=
  let s := cstr (length mem) mem in if zlen s <? zlen mem then Some s else None.

(** "[", "]", "=", "#", ";" and the white space of [isspace] in the C locale. *)
Definition isspace (c : Z) : bool := ((9 <=? c) && (c <=? 13)) || (c =? 32).
Definition lbracket : Z := 91.
Definition rbracket : Z := 93.
Definition equals : Z := 61.
Definition hash : Z := 35.
Definition semicolon : Z := 59.
Definition newline : Z := 10.

(** [strncpy] into memory at an offset: the string is cut or filled with zeros. *)
Definition strncpy (mem : bytes) (off : Z) (s : bytes) (n : Z) : option bytes :=
  mwrite mem off (pad_to (Z.to_nat n) 0 (cstr (Z.to_nat n) s)).

(** ** Lines *)

Definition dlt_config_file_trim_line (line : bytes) : bytes := List.filter (λ c, negb (isspace c)) line.

Definition char_at (line : bytes) (i : nat) : Z := default 0 (line !! i).

(** [true]: the line is ignored. *)
Definition dlt_config_file_ignore_line (line : bytes) : bool :=
  (char_at line 0 =? hash) || (char_at line 0 =? semicolon) || (char_at line 0 =? newline) || (char_at line 0 =? 0).

Definition dlt_config_file_line_has_section (line : bytes) : bool := char_at line 0 =? lbracket.

(** The loop of [dlt_config_file_get_section_name_from_string] over the next [n]
    characters; [name] is the memory that is written at [j]. *)
Fixpoint name_loop (n : nat) (line : bytes) (name : bytes) (j : Z) : option bytes :=
  match n with
  | O => Some name
  | S n =>
      let c := char_at line 0 in
      if (c =? lbracket) || isspace c then name_loop n (tail line) name j
      else if (c =? rbracket) || (c =? newline) || (c =? 0) then Some name
      else name ← mwrite name j [c]; name_loop n (tail line) name (j + 1)
  end.
Definition dlt_config_file_get_section_name_from_string (line name : bytes) : option bytes :=
  name_loop (Z.to_nat DLT_CONFIG_FILE_ENTRY_MAX_LEN) line name 0.

(** [strtok_r] with the delimiter "=": the token and the saved rest. *)
Fixpoint skip_delimiters (s : bytes) : bytes :=
  match s with
  | c :: s' => if c =? equals then skip_delimiters s' else s
  | [] => []
  end.
Fixpoint token (s : bytes) : bytes * bytes :=
  match s with
  | c :: s' => if c =? equals then ([], s') else let '(t, r) := token s' in (c :: t, r)
  | [] => ([], [])
  end.
Definition strtok_r (s : bytes) : option (bytes * bytes) :=
  match skip_delimiters s with [] => None | s => Some (token s) end.

(** Copy of a token into the memory of a string with its terminator. *)
Definition copy_entry (mem s : bytes) : option bytes :=
  mem ← strncpy mem 0 s (DLT_CONFIG_FILE_ENTRY_MAX_LEN - 1);
  mwrite mem (DLT_CONFIG_FILE_ENTRY_MAX_LEN - 1) [0].
Definition dlt_config_file_get_key_value (line str1 str2 : bytes) : option (Z * bytes * bytes) :=
  match strtok_r line with
  | None => Some (-1, str1, str2)
  | Some (k, rest) =>
      str1 ← copy_entry str1 k;
      match strtok_r rest with
      | None => Some (-1, str1, str2)
      | Some (v, _) => str2 ← copy_entry str2 v; Some (0, str1, str2)
      end
  end.

Definition dlt_config_file_read_line (line str1 str2 : bytes) : option (Z * bytes * bytes) :=
  str1 ← mwrite str1 0 (replicate (Z.to_nat DLT_CONFIG_FILE_ENTRY_MAX_LEN) 0);
  str2 ← mwrite str2 0 (replicate (Z.to_nat DLT_CONFIG_FILE_ENTRY_MAX_LEN) 0);
  if dlt_config_file_line_has_section line then
    str1 ← dlt_config_file_get_section_name_from_string line str1;
    Some (DLT_CONFIG_FILE_NEW_SECTION, str1, str2)
  else
    '(rc, str1, str2) ← dlt_config_file_get_key_value line str1 str2;
    Some (if rc =? 0 then DLT_CONFIG_FILE_NEW_DATA else -1, str1, str2).

(** ** Sections *)

Definition entry_len : nat := Z.to_nat DLT_CONFIG_FILE_ENTRY_MAX_LEN.

(** The number of the first section among the first [n] with this name; the search
    starts with the number [i]. *)
Fixpoint section_loop (l : list DltConfigFileSection) (nm : bytes) (i : Z) (n : nat) {struct n} : option Z :=
  match n with
  | O => Some (-1)
  | S n =>
      match l with
      | [] => None
      | s :: l => sn ← name s; if strncmp_eq entry_len sn nm then Some i else section_loop l nm (i + 1) n
      end
  end.
Definition search_sections (file : DltConfigFile) (nm : bytes) : option Z :=
  if num_sections file <=? 0 then Some (-1) else
  l ← sections file; section_loop l nm 0 (Z.to_nat (num_sections file)).

(** [0]: the name is not used, [-1]: it is. *)
Definition dlt_config_file_is_section_name (file : DltConfigFile) (nm : bytes) : option Z :=
  i ← search_sections file nm; Some (if i =? -1 then 0 else -1).

Definition dlt_config_file_set_section (A : allocator) (file : DltConfigFile) (nm : bytes) : option (Z * DltConfigFile) :=
  let section := num_sections file in
  if DLT_CONFIG_FILE_SECTIONS_MAX <=? section then Some (-1, file) else
  rc ← dlt_config_file_is_section_name file nm;
  if negb (rc =? 0) then Some (-1, file) else
  l ← sections file;
  s ← l !! Z.to_nat section;
  let stored s := <[Z.to_nat section := s]> l in
  match calloc A (DLT_CONFIG_FILE_ENTRY_MAX_LEN + 1) with
  | None =>
      Some (-1, {| num_sections := section; sections := Some (stored {| num_entries := num_entries s; name := None; keys := keys s; list_ := list_ s |}) |})
  | Some n =>
      match calloc A (DLT_CONFIG_FILE_ENTRY_MAX_LEN * DLT_CONFIG_FILE_KEYS_MAX + 1) with
      | None =>
          Some (-1, {| num_sections := section; sections := Some (stored {| num_entries := num_entries s; name := None; keys := None; list_ := list_ s |}) |})
      | Some ks =>
          n ← strncpy n 0 nm DLT_CONFIG_FILE_ENTRY_MAX_LEN;
          Some (0, {| num_sections := section + 1;
                      sections := Some (stored {| num_entries := num_entries s; name := Some n; keys := Some ks; list_ := list_ s |}) |})
      end
  end.

Definition dlt_config_file_set_section_data (A : allocator) (file : DltConfigFile) (str1 str2 : bytes) : option (Z * DltConfigFile) :=
  l ← sections file;
  let at_ := num_sections file - 1 in
  if at_ <? 0 then None else
  s ← l !! Z.to_nat at_;
  let key_number := num_entries s in
  if DLT_CONFIG_FILE_KEYS_MAX <=? key_number + 1 then Some (-1, file) else
  ks ← keys s;
  ks ← strncpy ks (key_number * DLT_CONFIG_FILE_ENTRY_MAX_LEN) str1 DLT_CONFIG_FILE_ENTRY_MAX_LEN;
  let stored n l' :=
    {| num_sections := num_sections file;
       sections := Some (<[Z.to_nat at_ := {| num_entries := n; name := name s; keys := Some ks; list_ := l' |}]> l) |} in
  match malloc A sizeof_DltConfigKeyData with
  | None => Some (-1, stored key_number (list_ s))
  | Some _ =>
      k ← cstring str1; d ← cstring str2;
      Some (0, stored (key_number + 1) (list_ s ++ [{| key := strdup A k; data := strdup A d |}]))
  end.

(** ** Files *)

(** [fgets] with the size of [line]: at most one line and 209 bytes. *)
Fixpoint fgets_loop (n : nat) (s : bytes) : bytes * bytes :=
  match n, s with
  | S n, c :: s => if c =? newline then ([c], s) else let '(l, r) := fgets_loop n s in (c :: l, r)
  | _, _ => ([], s)
  end.
Definition fgets (s : bytes) : option (bytes * bytes) :=
  match s with [] => None | _ => Some (fgets_loop (Z.to_nat (DLT_CONFIG_FILE_LINE_MAX_LEN - 1)) s) end.

Record reader := { str1 : bytes; str2 : bytes; is_section_valid : bool; file : DltConfigFile }.

(** One line; [raw] are the bytes of the line in the file. *)
Definition read_file_step (A : allocator) (r : reader) (raw : bytes) : option reader :=
  let line := cstr (length raw) raw in
  if dlt_config_file_ignore_line line then Some r else
  let line := dlt_config_file_trim_line line in
  '(ret, s1, s2) ← dlt_config_file_read_line line (str1 r) (str2 r);
  if ret =? DLT_CONFIG_FILE_NEW_SECTION then
    '(rc, f) ← dlt_config_file_set_section A (file r) s1;
    Some {| str1 := s1; str2 := s2; is_section_valid := rc =? 0; file := f |}
  else if ret =? DLT_CONFIG_FILE_NEW_DATA then
    if is_section_valid r then
      '(_, f) ← dlt_config_file_set_section_data A (file r) s1 s2;
      Some {| str1 := s1; str2 := s2; is_section_valid := true; file := f |}
    else Some {| str1 := s1; str2 := s2; is_section_valid := false; file := file r |}
  else Some {| str1 := s1; str2 := s2; is_section_valid := is_section_valid r; file := file r |}.

(** Every line has at least a byte: the length of the file bounds the rounds. *)
Fixpoint read_file_loop (fuel : nat) (A : allocator) (r : reader) (hdl : bytes) : option reader :=
  match fuel with
  | O => None
  | S fuel =>
      match fgets hdl with
      | None => Some r
      | Some (raw, hdl) => r ← read_file_step A r raw; read_file_loop fuel A r hdl
      end
  end.
Definition zeros : bytes := replicate (Z.to_nat DLT_CONFIG_FILE_ENTRY_MAX_LEN) 0.
Definition dlt_config_file_read_file (A : allocator) (f : DltConfigFile) (hdl : bytes) : option DltConfigFile :=
  r ← read_file_loop (S (length hdl)) A {| str1 := zeros; str2 := zeros; is_section_valid := false; file := f |} hdl;
  Some (file r).

(** The contents of the file, [None] when it cannot be opened. *)
Definition empty_section : DltConfigFileSection := {| num_entries := 0; name := None; keys := None; list_ := [] |}.
Definition dlt_config_file_init (A : allocator) (file_name : option bytes) (content : option bytes) : option (option DltConfigFile) :=
  match file_name with
  | None => Some None
  | Some fname =>
      if DLT_PATH_MAX <=? zlen fname then Some None else
      match malloc A sizeof_DltConfigFile with
      | None => Some None
      | Some _ =>
          let secs := _ ← malloc A (DLT_CONFIG_FILE_SECTIONS_MAX * sizeof_DltConfigFileSection);
                      Some (replicate (Z.to_nat DLT_CONFIG_FILE_SECTIONS_MAX) empty_section) in
          match content with
          | None => Some None
          | Some hdl =>
              f ← dlt_config_file_read_file A {| num_sections := 0; sections := secs |} hdl;
              Some (Some f)
          end
      end
  end.

(** ** Queries

    Results are the return code and the memory of the caller ([ENTRY_MAX_LEN] bytes or more). *)

Definition dlt_config_file_find_section (file : DltConfigFile) (section : bytes) : option Z :=
  search_sections file section.

Definition dlt_config_file_get_section_name (file : DltConfigFile) (num : Z) (nm : bytes) : option (Z * bytes) :=
  if (num <? 0) || (num_sections file <=? num) then Some (-1, nm) else
  l ← sections file;
  s ← l !! Z.to_nat num;
  sn ← name s;
  nm ← strncpy nm 0 sn DLT_CONFIG_FILE_ENTRY_MAX_LEN;
  nm ← mwrite nm (DLT_CONFIG_FILE_ENTRY_MAX_LEN - 1) [0];
  Some (0, nm).

Definition dlt_config_file_get_num_sections (file : DltConfigFile) (num : Z) : Z * Z :=
  if num_sections file <? 0 then (-1, num) else (0, num_sections file).

Fixpoint value_loop (l : list DltConfigKeyData) (k value : bytes) : option (Z * bytes) :=
  match l with
  | [] => Some (-1, value)
  | e :: l =>
      ek ← key e;
      if strncmp_eq entry_len ek k then
        d ← data e; value ← strncpy value 0 d DLT_CONFIG_FILE_ENTRY_MAX_LEN; Some (0, value)
      else value_loop l k value
  end.
Definition dlt_config_file_get_value (file : DltConfigFile) (section k value : bytes) : option (Z * bytes) :=
  value ← mwrite value 0 (replicate (Z.to_nat DLT_CONFIG_FILE_ENTRY_MAX_LEN) 0);
  num_section ← dlt_config_file_find_section file section;
  if num_section =? -1 then Some (-1, value) else
  l ← sections file;
  s ← l !! Z.to_nat num_section;
  value_loop (list_ s) k value.

Definition dlt_config_file_check_section_name_exists (file : DltConfigFile) (nm : bytes) : option Z :=
  if num_sections file <=? 0 then Some (-1) else
  i ← dlt_config_file_find_section file nm;
  Some (if i =? -1 then -1 else 0).

End ConfigFile.
