(* ===== verification/ConfigFileSpec.v ===== *)
(** * Configuration files: what the parser understands

    A file is a sequence of lines; [renders] says which lines are a section header, a
    setting or nothing, whatever white space is in them.  The meaning of the lines
    is a finite map from names of sections to finite maps from keys to values, in
    which the first section of a name and the first value of a key count.  The
    parser finds exactly this meaning, and for arbitrary bytes it stays inside of
    its memory and keeps the invariant of its data ([repr]). *)

From stdpp Require Import base list numbers option gmap.
From Stdlib Require Import ZArith Lia Bool.
From S2P Require Import Prelude Ids ConfigFile.
Import Ids ConfigFile.

Local Open Scope Z_scope.

Module ConfigFileSpec.

Local Arguments replicate : simpl never.

(** ** Entries: names, keys and values *)

Definition entry (t : bytes) : Prop := (0 ∉ t) ∧ (length t <= 99)%nat.
(** The memory of 100 bytes with this string. *)
Definition buf (t : bytes) : bytes := pad_to 100 0 t.

Lemma entry_len_100 : entry_len = 100%nat. Proof. reflexivity. Qed.

Lemma cstr_zeros m (t : bytes) k : 0 ∉ t -> cstr m (t ++ replicate k 0) = take m t.
Proof.
  revert m. induction t as [|c t IH]; intros m Ht; cbn [app].
  - rewrite take_nil. by destruct m, k.
  - apply not_elem_of_cons in Ht as [Hc Ht]. destruct m as [|m]; [done|]. cbn [cstr take].
    rewrite eqb_false by congruence. by rewrite IH.
Qed.
Lemma cstr_pad_to m n (t : bytes) : 0 ∉ t -> cstr m (pad_to n 0 t) = take m t.
Proof. apply cstr_zeros. Qed.
Lemma cstr_plain m (t : bytes) : 0 ∉ t -> cstr m t = take m t.
Proof. intros. rewrite <-(app_nil_r t) at 1. by apply (cstr_zeros m t 0). Qed.
Lemma cstr_plain_le m (t : bytes) : 0 ∉ t -> (length t <= m)%nat -> cstr m t = t.
Proof. intros. by rewrite cstr_plain, take_ge. Qed.

Lemma length_buf t : entry t -> length (buf t) = 100%nat.
Proof. intros [_ H]. apply length_pad_to. lia. Qed.
Lemma cstr_buf m t : entry t -> (99 <= m)%nat -> cstr m (buf t) = t.
Proof. intros [H0 H] Hm. unfold buf. rewrite cstr_pad_to, take_ge by (done || lia). done. Qed.
Lemma cstring_buf t : entry t -> cstring (buf t) = Some t.
Proof.
  intros Ht. pose proof (length_buf t Ht). unfold cstring. rewrite cstr_buf, ltb_true by (destruct Ht; done || lia). done.
Qed.
Lemma zeros_buf : zeros = buf []. Proof. reflexivity. Qed.
Lemma entry_nil : entry []. Proof. split; [apply not_elem_of_nil|simpl; lia]. Qed.

Lemma pad_pad n k (t : bytes) : (length t <= n)%nat -> pad_to n 0 t ++ replicate k 0 = pad_to (n + k) 0 t.
Proof.
  intros. unfold pad_to. rewrite <-app_assoc, <-replicate_add. do 2 f_equal. lia.
Qed.

(** The writes at the start of a memory. *)
Lemma mwrite_start {T} (m d : list T) : zlen d <= zlen m -> mwrite m 0 d = Some (d ++ drop (length d) m).
Proof. intros. rewrite mwrite_Some by lia. done. Qed.
Lemma clear_buf (m : bytes) : length m = 100%nat -> mwrite m 0 zeros = Some (buf []).
Proof. intros H. rewrite mwrite_start by (rewrite H; vm_compute; discriminate). rewrite drop_ge by (rewrite H; done). by rewrite app_nil_r. Qed.

Lemma copy_entry_spec (s : bytes) : 0 ∉ s -> copy_entry (buf []) s = Some (buf (take 99 s)) ∧ entry (take 99 s).
Proof.
  intros Hs. assert (entry (take 99 s)) as He.
  { split; [|rewrite length_take; lia]. intros H. apply elem_of_take in H as (k & H & _). by apply list_elem_of_lookup_2 in H. }
  split; [|done]. unfold copy_entry, strncpy. change (Z.to_nat (DLT_CONFIG_FILE_ENTRY_MAX_LEN - 1)) with 99%nat.
  rewrite (cstr_plain 99 s Hs). assert (length (pad_to 99 0 (take 99 s)) = 99%nat) as Hp by (apply length_pad_to, He).
  rewrite mwrite_start by (rewrite Hp, length_buf by apply entry_nil; lia). bsimp. rewrite Hp.
  change (drop 99 (buf [])) with ([0] ++ []). rewrite (mwrite_mid (pad_to 99 0 (take 99 s)) [0] [0]) by (done || (rewrite Hp; done)).
  f_equal. change ([0] ++ []) with (replicate 1 0). by rewrite pad_pad by apply He.
Qed.

(** ** Lines *)

Inductive item := Nothing | Header (n : bytes) | Setting (k v : bytes).

Definition item_ok (i : item) : Prop :=
  match i with Nothing => True | Header n => entry n | Setting k v => entry k ∧ entry v end.

(** What [dlt_config_file_read_line] makes of a line. *)
Definition result_of (i : item) (r : Z * bytes * bytes) : Prop :=
  match i with
  | Nothing => r.1.1 = -1
  | Header n => r.1 = (DLT_CONFIG_FILE_NEW_SECTION, buf n)
  | Setting k v => r = (DLT_CONFIG_FILE_NEW_DATA, buf k, buf v)
  end.
Definition yields (raw : bytes) (i : item) : Prop :=
  let line := cstr (length raw) raw in
  if dlt_config_file_ignore_line line then i = Nothing else
  ∃ r, (∀ s1 s2, length s1 = 100%nat -> length s2 = 100%nat -> dlt_config_file_read_line (dlt_config_file_trim_line line) s1 s2 = Some r) ∧
    result_of i r ∧ length r.1.2 = 100%nat ∧ length r.2 = 100%nat.

Lemma trim_no_zero l : 0 ∉ l -> 0 ∉ dlt_config_file_trim_line l.
Proof.
  intros H. induction l as [|c l IH]; [apply not_elem_of_nil|]. apply not_elem_of_cons in H as [Hc H].
  unfold dlt_config_file_trim_line in *. cbn [List.filter]. destruct (isspace c); cbn [negb]; [by apply IH|]. apply not_elem_of_cons. auto.
Qed.
Lemma trim_no_space l : Forall (λ c, isspace c = false) (dlt_config_file_trim_line l).
Proof.
  induction l as [|c l IH]; [constructor|]. unfold dlt_config_file_trim_line in *. cbn [List.filter].
  destruct (isspace c) eqn:E; cbn [negb]; [done|]. by constructor.
Qed.
Lemma trim_app a b : dlt_config_file_trim_line (a ++ b) = dlt_config_file_trim_line a ++ dlt_config_file_trim_line b.
Proof. apply List.filter_app. Qed.

(** The name: the characters up to the bracket that ends it. *)
Definition name_char (c : Z) : Prop := isspace c = false ∧ c <> lbracket ∧ c <> rbracket ∧ c <> 0.
Lemma name_char_tests c : name_char c ->
  (c =? lbracket) || isspace c = false ∧ (c =? rbracket) || (c =? newline) || (c =? 0) = false.
Proof.
  intros (Hs & H1 & H2 & H3). rewrite Hs, (eqb_false c lbracket), (eqb_false c rbracket), (eqb_false c 0) by done.
  split; [done|]. rewrite eqb_false; [done|]. intros ->. by vm_compute in Hs.
Qed.

(** After [k] characters the loop has written a string of as many at most. *)
Lemma name_loop_total n line t : 0 ∉ t -> (length t + n <= 99)%nat -> 0 ∉ line ->
  ∃ t', name_loop n line (buf t) (zlen t) = Some (buf t') ∧ entry t'.
Proof.
  revert line t. induction n as [|n IH]; intros line t Ht Hn Hl; cbn [name_loop].
  { exists t. split; [done|]. split; [done|lia]. }
  assert (0 ∉ tail line) as Htl by (destruct line; [done|]; by apply not_elem_of_cons in Hl as [_ Hl]).
  destruct ((char_at line 0 =? lbracket) || isspace (char_at line 0)). { apply IH; [done|lia|done]. }
  destruct (((char_at line 0 =? rbracket) || (char_at line 0 =? newline)) || (char_at line 0 =? 0)) eqn:E.
  { exists t. split; [done|]. split; [done|lia]. }
  apply orb_false_iff in E as [_ E]. apply Z.eqb_neq in E.
  unfold buf at 1, pad_to. replace (100 - length t)%nat with (S (99 - length t)) by lia.
  change (replicate (S (99 - length t)) 0) with ([0] ++ replicate (99 - length t) 0).
  rewrite (mwrite_mid t [0]) by done. bsimp.
  replace (t ++ [char_at line 0] ++ replicate (99 - length t) 0) with (buf (t ++ [char_at line 0])).
  2: { unfold buf, pad_to. rewrite <-app_assoc. do 3 f_equal. rewrite length_app. simpl. lia. }
  replace (zlen t + 1) with (zlen (t ++ [char_at line 0])) by (rewrite length_app; simpl; lia).
  apply IH; [|rewrite length_app; simpl; lia|done]. intros H. apply elem_of_app in H as [H|H]; [done|]. apply list_elem_of_singleton in H. lia.
Qed.

Lemma name_loop_reads n w r t : Forall name_char w -> 0 ∉ t -> (length t + length w <= 99)%nat -> (length w < n)%nat ->
  name_loop n (w ++ rbracket :: r) (buf t) (zlen t) = Some (buf (t ++ w)).
Proof.
  revert w t. induction n as [|n IH]; intros w t Hw Ht Hl Hn; [lia|]. cbn [name_loop].
  destruct w as [|c w]; cbn [app].
  { change (char_at (rbracket :: r) 0) with rbracket. vm_compute ((_ =? _) || _). cbn [orb]. by rewrite app_nil_r. }
  change (char_at (c :: w ++ rbracket :: r) 0) with c. apply Forall_cons_iff in Hw as [Hc Hw].
  destruct (name_char_tests c Hc) as [-> ->]. cbn [length] in *.
  unfold buf at 1, pad_to. replace (100 - length t)%nat with (S (99 - length t)) by lia.
  change (replicate (S (99 - length t)) 0) with ([0] ++ replicate (99 - length t) 0).
  rewrite (mwrite_mid t [0]) by done. bsimp. cbn [tail].
  replace (t ++ [c] ++ replicate (99 - length t) 0) with (buf (t ++ [c])).
  2: { unfold buf, pad_to. rewrite <-app_assoc. do 3 f_equal. rewrite length_app. simpl. lia. }
  replace (zlen t + 1) with (zlen (t ++ [c])) by (rewrite length_app; simpl; lia).
  rewrite IH; [by rewrite <-app_assoc|done| |rewrite length_app; simpl; lia|lia].
  intros H. apply elem_of_app in H as [H|H]; [done|]. apply list_elem_of_singleton in H. destruct Hc as (_ & _ & _ & Hc). by apply Hc.
Qed.

(** Tokens. *)
Lemma skip_no_zero s : 0 ∉ s -> 0 ∉ skip_delimiters s.
Proof. induction s as [|c s IH]; [done|]. intros H. cbn [skip_delimiters]. destruct (c =? equals); [|done]. apply IH. by apply not_elem_of_cons in H as [_ H]. Qed.
Lemma token_no_zero s : 0 ∉ s -> (0 ∉ (token s).1) ∧ (0 ∉ (token s).2).
Proof.
  induction s as [|c s IH]; [done|]. intros H. apply not_elem_of_cons in H as [Hc H]. cbn [token]. destruct (c =? equals).
  - split; [apply not_elem_of_nil|done].
  - destruct (IH H) as [Ha Hb]. destruct (token s). split; [|done]. by apply not_elem_of_cons.
Qed.
Lemma strtok_no_zero s t r : 0 ∉ s -> strtok_r s = Some (t, r) -> (0 ∉ t) ∧ (0 ∉ r).
Proof.
  intros H E. unfold strtok_r in E. pose proof (token_no_zero _ (skip_no_zero s H)) as [Ha Hb].
  destruct (skip_delimiters s) as [|c l]; [done|]. assert (token (c :: l) = (t, r)) as E' by congruence. by rewrite E' in Ha, Hb.
Qed.
Definition word (w : bytes) : Prop := w <> [] ∧ Forall (λ c, isspace c = false ∧ c <> 0 ∧ c <> equals) w ∧ (length w <= 99)%nat.
Lemma word_entry w : word w -> entry w.
Proof. intros (_ & H & Hl). split; [|done]. intros H0. rewrite list.Forall_forall in H. by apply H in H0 as (_ & H0 & _). Qed.
Lemma token_word w r : Forall (λ c, c <> equals) w -> token (w ++ equals :: r) = (w, r) ∧ token w = (w, []).
Proof. induction 1 as [|c w Hc Hw [IH1 IH2]]; [done|]. cbn [app token]. by rewrite eqb_false, IH1, IH2 by done. Qed.
Lemma strtok_word w r : word w -> strtok_r (w ++ equals :: r) = Some (w, r) ∧ strtok_r w = Some (w, []).
Proof.
  intros (Hn & H & _). destruct w as [|c w]; [done|]. assert (Forall (λ c, c <> equals) (c :: w)) as Hq by (eapply list.Forall_impl; [exact H|]; simpl; tauto).
  destruct (token_word (c :: w) r Hq) as [E1 E2]. apply Forall_cons_iff in Hq as [Hc _].
  unfold strtok_r. cbn [app skip_delimiters] in *. rewrite eqb_false by done. by rewrite E1, E2.
Qed.

(** A line that is read into cleared strings. *)
Lemma read_line_cleared line s1 s2 : length s1 = 100%nat -> length s2 = 100%nat ->
  dlt_config_file_read_line line s1 s2 = dlt_config_file_read_line line (buf []) (buf []).
Proof.
  intros H1 H2. unfold dlt_config_file_read_line. fold zeros. by rewrite !clear_buf.
Qed.

Lemma max_len_S : Z.to_nat DLT_CONFIG_FILE_ENTRY_MAX_LEN = S 99. Proof. reflexivity. Qed.
Lemma name_loop_bracket n l b j : name_loop (S n) (lbracket :: l) b j = name_loop n l b j.
Proof. reflexivity. Qed.

Lemma read_line_parts l :
  dlt_config_file_read_line l (buf []) (buf []) =
    if dlt_config_file_line_has_section l then
      str1 ← dlt_config_file_get_section_name_from_string l (buf []); Some (DLT_CONFIG_FILE_NEW_SECTION, str1, buf [])
    else '(rc, str1, str2) ← dlt_config_file_get_key_value l (buf []) (buf []); Some (if rc =? 0 then DLT_CONFIG_FILE_NEW_DATA else -1, str1, str2).
Proof. unfold dlt_config_file_read_line. fold zeros. by rewrite !clear_buf. Qed.

Lemma has_section l : dlt_config_file_line_has_section l = true -> ∃ l', l = lbracket :: l'.
Proof. intros H. apply Z.eqb_eq in H. destruct l as [|c l']; [by vm_compute in H|]. change (c = lbracket) in H. subst. by exists l'. Qed.

(** Every line is a header, a setting or nothing. *)
Lemma read_line_total l : 0 ∉ l ->
  ∃ i r, dlt_config_file_read_line l (buf []) (buf []) = Some r ∧ result_of i r ∧ item_ok i ∧ length r.1.2 = 100%nat ∧ length r.2 = 100%nat.
Proof.
  intros H0. pose proof (length_buf [] entry_nil) as Lb. rewrite read_line_parts. destruct (dlt_config_file_line_has_section l) eqn:Eh.
  - apply has_section in Eh as [l' ->]. apply not_elem_of_cons in H0 as [_ H0].
    destruct (name_loop_total 99 l' [] (not_elem_of_nil _) ltac:(simpl; lia) H0) as (t & E & Ht).
    unfold dlt_config_file_get_section_name_from_string. rewrite max_len_S, name_loop_bracket. change (Z.of_nat (length (A:=Z) [])) with 0 in E. rewrite E. bsimp.
    exists (Header t), (DLT_CONFIG_FILE_NEW_SECTION, buf t, buf []). pose proof (length_buf t Ht). done.
  - unfold dlt_config_file_get_key_value. destruct (strtok_r l) as [[k rest]|] eqn:Ek; bsimp; [|by eexists Nothing, _].
    destruct (strtok_no_zero _ _ _ H0 Ek) as [Hk Hr]. destruct (copy_entry_spec k Hk) as [-> He1]. bsimp. pose proof (length_buf _ He1).
    destruct (strtok_r rest) as [[v rest']|] eqn:Ev; bsimp; [|by eexists Nothing, _].
    destruct (strtok_no_zero _ _ _ Hr Ev) as [Hv _]. destruct (copy_entry_spec v Hv) as [-> He2]. bsimp. pose proof (length_buf _ He2).
    by eexists (Setting _ _), _.
Qed.
Lemma yields_total raw : ∃ i, yields raw i ∧ item_ok i.
Proof.
  unfold yields. set (line := cstr (length raw) raw). destruct (dlt_config_file_ignore_line line); [by exists Nothing|].
  destruct (read_line_total (dlt_config_file_trim_line line)) as (i & r & E & Hr & Hi & H1 & H2); [apply trim_no_zero, cstr_no_zero|].
  exists i. split; [|done]. exists r. split; [|done]. intros s1 s2 L1 L2. by rewrite read_line_cleared.
Qed.

(** ** The layout of a file *)

Definition starts_comment (l : bytes) : bool := (char_at l 0 =? hash) || (char_at l 0 =? semicolon).

(** A line without its white space. *)
Definition squeezed (l : bytes) : bytes := base.filter (λ c, c ∉ [9; 10; 11; 12; 13; 32]) l.
Lemma trim_squeezed l : dlt_config_file_trim_line l = squeezed l.
Proof.
  induction l as [|c l IH]; [done|]. unfold dlt_config_file_trim_line, squeezed in *. rewrite filter_cons. cbn [List.filter]. rewrite IH.
  assert (isspace c = true ↔ c ∈ [9; 10; 11; 12; 13; 32]) as Hw by (unfold isspace; rewrite !elem_of_cons, elem_of_nil; lia).
  destruct (isspace c) eqn:E; cbn [negb]; [rewrite decide_False; [done|]|by rewrite decide_True by (rewrite <-Hw; congruence)].
  intros H. by apply H, Hw.
Qed.

(** The lines that say [i]: white space may be anywhere in a line.  Only a sign in the
    first column makes a comment.  Behind a header and behind the value of a setting, at
    a second "=", the line does not count; a line without "=" says nothing. *)
Inductive renders (l : bytes) : item -> Prop :=
| renders_comment : starts_comment l = true -> renders l Nothing
| renders_invalid :
    starts_comment l = false -> head (squeezed l) <> Some lbracket -> equals ∉ squeezed l -> renders l Nothing
| renders_header n rest :
    starts_comment l = false -> squeezed l = lbracket :: n ++ rbracket :: rest ->
    Forall name_char n -> (length n < 99)%nat -> renders l (Header n)
| renders_setting k v rest :
    starts_comment l = false -> squeezed l = k ++ equals :: v ++ rest -> rest = [] ∨ head rest = Some equals ->
    word k -> word v -> head k <> Some lbracket -> renders l (Setting k v).

(** A line of a text file that fits into the buffer with its end. *)
Definition text_line (l : bytes) : Prop := (newline ∉ l) ∧ (0 ∉ l) ∧ (length l <= 208)%nat.
Definition text_of (ls : list bytes) : bytes := concat ((λ l, l ++ [newline]) <$> ls).

Lemma read_header n rest : Forall name_char n -> (length n < 99)%nat ->
  dlt_config_file_read_line (lbracket :: n ++ rbracket :: rest) (buf []) (buf []) = Some (DLT_CONFIG_FILE_NEW_SECTION, buf n, buf []) ∧ entry n.
Proof.
  intros Hw Hl. split; [|split; [|lia]].
  - rewrite read_line_parts. change (dlt_config_file_line_has_section (lbracket :: n ++ rbracket :: rest)) with true. cbn match.
    unfold dlt_config_file_get_section_name_from_string. rewrite max_len_S, name_loop_bracket.
    pose proof (name_loop_reads 99 n rest [] Hw (not_elem_of_nil _) ltac:(simpl; lia) ltac:(lia)) as E.
    change (Z.of_nat (length (A:=Z) [])) with 0 in E. by rewrite E.
  - intros Hx. rewrite list.Forall_forall in Hw. by apply Hw in Hx as (_ & _ & _ & Hx).
Qed.
Lemma no_section l : head l <> Some lbracket -> dlt_config_file_line_has_section l = false.
Proof. intros H. destruct (dlt_config_file_line_has_section l) eqn:E; [|done]. apply has_section in E as [l' ->]. by destruct H. Qed.
Lemma read_setting k v rest : word k -> word v -> head k <> Some lbracket -> rest = [] ∨ head rest = Some equals ->
  dlt_config_file_read_line (k ++ equals :: v ++ rest) (buf []) (buf []) = Some (DLT_CONFIG_FILE_NEW_DATA, buf k, buf v).
Proof.
  intros Hk Hv Hb Hr. pose proof (word_entry _ Hk) as Ek. pose proof (word_entry _ Hv) as Ev. rewrite read_line_parts, no_section.
  2: { by destruct k; [destruct Hk|]. }
  unfold dlt_config_file_get_key_value. rewrite (proj1 (strtok_word k _ Hk)).
  destruct (copy_entry_spec k (proj1 Ek)) as [E1 _]. rewrite take_ge in E1 by (destruct Ek; lia). rewrite E1. bsimp.
  assert (∃ r, strtok_r (v ++ rest) = Some (v, r)) as (r & ->).
  { destruct Hr as [->|Hr]; [rewrite app_nil_r; eexists; apply (proj2 (strtok_word v [] Hv))|].
    destruct rest as [|c rest]; [done|]. injection Hr as ->. eexists. apply (proj1 (strtok_word v rest Hv)). }
  destruct (copy_entry_spec v (proj1 Ev)) as [E2 _]. rewrite take_ge in E2 by (destruct Ev; lia). by rewrite E2.
Qed.
Lemma read_invalid l : 0 ∉ l -> head l <> Some lbracket -> equals ∉ l ->
  ∃ s1, dlt_config_file_read_line l (buf []) (buf []) = Some (-1, s1, buf []) ∧ length s1 = 100%nat.
Proof.
  intros H0 Hb He. rewrite read_line_parts, no_section by done. unfold dlt_config_file_get_key_value, strtok_r.
  destruct l as [|c l]; [exists (buf []); split; [done|apply length_buf, entry_nil]|]. pose proof He as [Hc _]%not_elem_of_cons.
  cbn [skip_delimiters]. rewrite eqb_false by congruence. assert (token (c :: l) = (c :: l, [])) as ->.
  { apply (token_word (c :: l) []). apply list.Forall_forall. intros x Hx ->. by apply He. }
  destruct (copy_entry_spec (c :: l) H0) as [-> Hn]. bsimp. cbn [skip_delimiters]. eexists. split; [reflexivity|by apply length_buf].
Qed.

Lemma ignore_text l : text_line l -> l <> [] -> dlt_config_file_ignore_line (l ++ [newline]) = starts_comment l.
Proof.
  intros (Hn & H0 & _). destruct l as [|c l]; [done|]. intros _. unfold dlt_config_file_ignore_line, starts_comment.
  change (char_at ((c :: l) ++ [newline]) 0) with c. change (char_at (c :: l) 0) with c.
  apply not_elem_of_cons in Hn as [Hn _], H0 as [H0 _]. rewrite (eqb_false c newline), (eqb_false c 0) by done. by rewrite !orb_false_r.
Qed.

Lemma renders_yields l i : text_line l -> renders l i -> yields (l ++ [newline]) i ∧ item_ok i.
Proof.
  intros HT H. pose proof HT as (Hn & H0 & _). unfold yields.
  assert (0 ∉ l ++ [newline]) as H0'. { rewrite elem_of_app. intros [?|Hx]; [done|]. by apply list_elem_of_singleton in Hx. }
  rewrite cstr_plain_le by done.
  assert (∀ r, dlt_config_file_read_line (dlt_config_file_trim_line l) (buf []) (buf []) = Some r -> result_of i r -> length r.1.2 = 100%nat -> length r.2 = 100%nat ->
    ∃ r, (∀ s1 s2, length s1 = 100%nat -> length s2 = 100%nat -> dlt_config_file_read_line (dlt_config_file_trim_line (l ++ [newline])) s1 s2 = Some r) ∧
      result_of i r ∧ length r.1.2 = 100%nat ∧ length r.2 = 100%nat) as Hex.
  { intros r E Hr H1 H2. exists r. split; [|done]. intros s1 s2 L1 L2. rewrite read_line_cleared, trim_app by done. by rewrite app_nil_r. }
  pose proof (length_buf [] entry_nil) as Lb. rewrite trim_squeezed in Hex. destruct H as [Hc|Hc Hb He|n rest Hc Ht Hw Hl|k v rest Hc Ht Hr Hk Hv Hb].
  - split; [|done]. by rewrite (ignore_text l HT), Hc by (by destruct l).
  - split; [|done]. destruct l as [|c l]; [done|]. rewrite (ignore_text _ HT), Hc by done.
    destruct (read_invalid (squeezed (c :: l))) as (s1 & E & L1); [rewrite <-trim_squeezed; by apply trim_no_zero|done|done|]. by eapply Hex; [exact E|..].
  - rewrite (ignore_text l HT), Hc by (by destruct l). rewrite Ht in Hex. destruct (read_header n rest Hw Hl) as [E He].
    split; [|done]. eapply Hex; [exact E|done|by apply length_buf|done].
  - rewrite (ignore_text l HT), Hc by (destruct l; [|done]; by destruct k). rewrite Ht in Hex.
    pose proof (word_entry _ Hk). pose proof (word_entry _ Hv). split; [|done].
    eapply Hex; [by apply read_setting|done|by apply length_buf|by apply length_buf].
Qed.

(** ** The data of the parser *)

Abbreviation contents := (list (bytes * list (bytes * bytes))) (only parsing).

Record repr_section (s : DltConfigFileSection) (v : bytes * list (bytes * bytes)) : Prop := {
  rs_name : entry v.1;
  rs_name_mem : name s = Some (pad_to 101 0 v.1);
  rs_keys : ∃ ks, keys s = Some ks ∧ length ks = 2501%nat;
  rs_num : num_entries s = zlen v.2;
  rs_max : (length v.2 <= 24)%nat;
  rs_entries : Forall (λ e, entry e.1 ∧ entry e.2) v.2;
  rs_list : list_ s = (λ e, {| key := Some e.1; data := Some e.2 |}) <$> v.2
}.

Record repr (f : DltConfigFile) (v : contents) : Prop := {
  r_num : num_sections f = zlen v;
  r_max : (length v <= 125)%nat;
  r_names : NoDup v.*1;
  r_sections : ∃ used, sections f = Some (used ++ replicate (125 - length v) empty_section) ∧ Forall2 repr_section used v
}.

Lemma heap_calloc A n : heap_ok A -> calloc A n = Some (replicate (Z.to_nat n) 0).
Proof. intros H. unfold calloc. destruct (malloc A n) eqn:E; [done|]. by apply H in E. Qed.
Lemma heap_strdup A s : heap_ok A -> strdup A s = Some s.
Proof. intros H. unfold strdup. destruct (malloc A _) eqn:E; [done|]. by apply H in E. Qed.

(** A name and the string that is searched agree in the 100 characters that are compared. *)
Lemma entry_compare t k mem : entry t -> strncmp_eq entry_len (pad_to k 0 t) mem = bool_decide (t = cstr entry_len mem).
Proof. intros [Ht Lt]. unfold strncmp_eq. rewrite entry_len_100, cstr_pad_to, take_ge by (done || lia). done. Qed.
Lemma entry_searched t : entry t -> cstr entry_len t = t.
Proof. intros [Ht Lt]. rewrite entry_len_100, cstr_plain_le by (done || lia). done. Qed.

(** The number of the section with a name. *)
Fixpoint number_of (v : contents) (n : bytes) (i : Z) : Z :=
  match v with [] => -1 | s :: v => if bool_decide (s.1 = n) then i else number_of v n (i + 1) end.

Lemma section_loop_spec used v mem tl i : Forall2 repr_section used v ->
  section_loop (used ++ tl) mem i (length v) = Some (number_of v (cstr entry_len mem) i).
Proof.
  intros H. revert i. induction H as [|s e used v Hs H IH]; intros i; [done|]. cbn [app length section_loop number_of].
  rewrite (rs_name_mem _ _ Hs). bsimp. rewrite entry_compare by apply (rs_name _ _ Hs). case_bool_decide; [done|]. apply IH.
Qed.
Lemma section_search_spec f v mem : repr f v -> search_sections f mem = Some (number_of v (cstr entry_len mem) 0).
Proof.
  intros [Hn _ _ (used & Hs & HF)]. unfold search_sections. rewrite Hn. destruct v as [|e v]; [done|].
  rewrite leb_false by (cbn [length]; lia). rewrite Hs. bsimp. rewrite Nat2Z.id. by apply section_loop_spec.
Qed.
Lemma number_of_spec v n i : 0 <= i ->
  (number_of v n i = -1 ∧ n ∉ v.*1) ∨ ∃ j es, number_of v n i = i + Z.of_nat j ∧ v !! j = Some (n, es).
Proof.
  revert i. induction v as [|[m es] v IH]; intros i Hi; cbn [number_of]; [left; split; [done|apply not_elem_of_nil]|]. cbn [fst].
  case_bool_decide as E; [subst; right; exists 0%nat, es; split; [lia|done]|].
  destruct (IH (i + 1) ltac:(lia)) as [[-> Hn]|(j & es' & -> & Hj)].
  - left. split; [done|]. rewrite fmap_cons. apply not_elem_of_cons. split; [|done]. cbn. congruence.
  - right. exists (S j), es'. split; [lia|done].
Qed.

Definition mem_section (n : bytes) (v : contents) : bool := bool_decide (n ∈ v.*1).
Lemma number_of_used v n : (number_of v n 0 =? -1) = negb (mem_section n v).
Proof.
  unfold mem_section. destruct (number_of_spec v n 0 ltac:(lia)) as [[-> H]|(j & es & -> & Hj)].
  - by rewrite bool_decide_eq_false_2.
  - rewrite bool_decide_eq_true_2; [by rewrite eqb_false by lia|]. apply list_elem_of_lookup. exists j. by rewrite list_lookup_fmap, Hj.
Qed.

(** One item on the contents: names are unique and both limits hold. *)
Definition accepts (v : contents) (n : bytes) : bool := (length v <? 125)%nat && negb (mem_section n v).
Definition add_entry (es : list (bytes * bytes)) (k x : bytes) : list (bytes * bytes) :=
  if (length es <? 24)%nat then es ++ [(k, x)] else es.
Fixpoint add_last (v : contents) (k x : bytes) : contents :=
  match v with
  | [] => []
  | [(n, es)] => [(n, add_entry es k x)]
  | s :: v => s :: add_last v k x
  end.
Definition contents_step (st : contents * bool) (i : item) : contents * bool :=
  let '(v, valid) := st in
  match i with
  | Nothing => (v, valid)
  | Header n => if accepts v n then (v ++ [(n, [])], true) else (v, false)
  | Setting k x => (if valid : bool then add_last v k x else v, valid)
  end.

Lemma add_last_app v n es k x : add_last (v ++ [(n, es)]) k x = v ++ [(n, add_entry es k x)].
Proof.
  induction v as [|[m es'] v IH]; [done|]. cbn [app add_last]. rewrite IH. by destruct (v ++ [(n, es)]) eqn:E; [destruct v|].
Qed.

Lemma free_section (v : contents) : (length v < 125)%nat ->
  replicate (125 - length v) empty_section = empty_section :: replicate (125 - S (length v)) empty_section.
Proof. intros H. by replace (125 - length v)%nat with (S (125 - S (length v))) by lia. Qed.

Lemma set_section_spec A f v n : heap_ok A -> repr f v -> entry n ->
  ∃ rc f', dlt_config_file_set_section A f (buf n) = Some (rc, f') ∧ repr f' (contents_step (v, true) (Header n)).1 ∧
    (rc =? 0) = accepts v n.
Proof.
  intros HA R Hn. pose proof R as [Hnum Hmax Hnd (used & Hs & HF)]. unfold dlt_config_file_set_section. cbn [contents_step]. unfold accepts.
  rewrite Hnum. destruct (Nat.ltb_spec (length v) 125) as [Hlt|Hge]; cbn [andb].
  2: { rewrite leb_true by (unfold DLT_CONFIG_FILE_SECTIONS_MAX; lia). eexists _, _. split; [done|]. split; done. }
  rewrite leb_false by (unfold DLT_CONFIG_FILE_SECTIONS_MAX; lia). unfold dlt_config_file_is_section_name.
  rewrite (section_search_spec f v) by done. bsimp. rewrite (cstr_buf entry_len n Hn), number_of_used by (rewrite entry_len_100; lia).
  destruct (mem_section n v) eqn:Em; cbn [negb Z.eqb]; [by eexists _, _|].
  rewrite Hs. bsimp. pose proof (Forall2_length _ _ _ HF) as Lu. rewrite Nat2Z.id, (free_section v) by lia.
  rewrite (list_lookup_middle used _ _ (length v)) by done. bsimp. rewrite !heap_calloc by done.
  unfold strncpy. change (Z.to_nat DLT_CONFIG_FILE_ENTRY_MAX_LEN) with 100%nat. rewrite (cstr_buf 100 n Hn) by lia.
  assert (length (pad_to 100 0 n) = 100%nat) as Lb by (apply length_pad_to; destruct Hn; lia).
  rewrite mwrite_start by (rewrite Lb; vm_compute; discriminate). bsimp. rewrite Lb. eexists _, _. split; [reflexivity|]. split; [|done].
  assert (n ∉ v.*1) as Hnew by (by apply bool_decide_eq_false_1 in Em).
  split; cbn [fst num_sections sections].
  - rewrite length_app. cbn [length]. lia.
  - rewrite length_app. cbn [length]. lia.
  - rewrite fmap_app. apply list.NoDup_app. split; [done|]. split; [|apply list.NoDup_singleton]. intros x Hx Hy. apply list_elem_of_singleton in Hy. by subst.
  - eexists (used ++ [_]). split.
    + rewrite insert_app_r_alt by lia. replace (length v - length used)%nat with 0%nat by lia. cbn. rewrite <-app_assoc. cbn [app]. rewrite length_app. cbn [length].
      do 3 f_equal. f_equal. lia.
    + apply Forall2_app; [done|]. constructor; [|constructor]. split; cbn [fst snd name keys num_entries list_ empty_section]; try done.
      * f_equal. apply (pad_pad 100 1 n). destruct Hn; lia.
      * eexists. split; [done|]. by rewrite length_replicate.
      * simpl. lia.
Qed.

(** Data is added to the last section only. *)
Lemma set_section_data_spec A f v n es k x : heap_ok A -> repr f (v ++ [(n, es)]) -> entry k -> entry x ->
  ∃ rc f', dlt_config_file_set_section_data A f (buf k) (buf x) = Some (rc, f') ∧ repr f' (add_last (v ++ [(n, es)]) k x).
Proof.
  intros HA R Hk Hx. pose proof R as [Hnum Hmax Hnd (used & Hs & HF)]. apply Forall2_app_inv_r in HF as (used1 & used2 & HF1 & HF2 & ->).
  apply Forall2_cons_inv_r in HF2 as (s & u & Rs & HF2 & ->). apply Forall2_nil_inv_r in HF2 as ->.
  pose proof Rs as [Hsn Hsm (ks & Hks & Lk) Hsnum Hsmax Hse Hsl]. cbn [fst snd] in *.
  pose proof (Forall2_length _ _ _ HF1) as Lu. rewrite length_app in Hmax. cbn [length] in Hmax.
  unfold dlt_config_file_set_section_data. rewrite Hs, Hnum. bsimp. rewrite ltb_false by (rewrite length_app; cbn [length]; lia).
  replace (Z.to_nat (zlen (v ++ [(n, es)]) - 1)) with (length used1) by (rewrite length_app; cbn [length]; lia).
  rewrite <-app_assoc. cbn [app]. rewrite (list_lookup_middle used1 _ _ (length used1)) by done. bsimp. rewrite Hsnum. unfold DLT_CONFIG_FILE_KEYS_MAX.
  rewrite add_last_app. unfold add_entry. destruct (Nat.ltb_spec (length es) 24).
  2: { rewrite leb_true by lia. by eexists _, _. }
  rewrite leb_false by lia. rewrite Hks. bsimp. unfold strncpy. change (Z.to_nat DLT_CONFIG_FILE_ENTRY_MAX_LEN) with 100%nat.
  rewrite (cstr_buf 100 k Hk) by lia. assert (length (pad_to 100 0 k) = 100%nat) as Lb by (apply length_pad_to; destruct Hk; lia).
  destruct (mwrite_total ks (zlen es * DLT_CONFIG_FILE_ENTRY_MAX_LEN) (pad_to 100 0 k)) as (ks' & Ew & _); [rewrite ?Lb, ?Lk; unfold DLT_CONFIG_FILE_ENTRY_MAX_LEN; lia..|].
  rewrite Ew. bsimp. destruct (malloc A sizeof_DltConfigKeyData) eqn:Em; [|by apply HA in Em].
  rewrite !cstring_buf by done. bsimp. rewrite !heap_strdup by done. eexists _, _. split; [reflexivity|].
  apply mwrite_length in Ew.
  split; cbn [num_sections sections].
  - rewrite !length_app in *. cbn [length] in *. lia.
  - rewrite length_app. cbn [length]. lia.
  - rewrite fmap_app in *. done.
  - eexists (used1 ++ [_]). split.
    + rewrite insert_app_r_alt by lia. rewrite Nat.sub_diag. cbn. rewrite <-app_assoc, !length_app. reflexivity.
    + apply Forall2_app; [done|]. constructor; [|constructor]. split; cbn [fst snd name keys num_entries list_]; try done.
      * exists ks'. split; [done|]. lia.
      * rewrite length_app. cbn [length]. lia.
      * rewrite length_app. cbn [length]. lia.
      * apply Forall_app. split; [done|]. by constructor.
      * by rewrite Hsl, fmap_app.
Qed.

(** ** Reading a file *)

Record reads (r : reader) (st : list (bytes * list (bytes * bytes)) * bool) : Prop := {
  rd_file : repr (file r) st.1;
  rd_str1 : length (str1 r) = 100%nat;
  rd_str2 : length (str2 r) = 100%nat;
  rd_valid : is_section_valid r = st.2;
  rd_last : st.2 = true -> st.1 <> []
}.

Lemma add_last_nonempty (v : contents) k x : v <> [] -> add_last v k x <> [].
Proof. destruct v as [|[n es] [|s v]]; done. Qed.

Lemma step_reads A r st raw i : heap_ok A -> reads r st -> yields raw i -> item_ok i ->
  ∃ r', read_file_step A r raw = Some r' ∧ reads r' (contents_step st i).
Proof.
  intros HA [Rf L1 L2 Rv Rl] Hy Hi. destruct st as [v valid]. cbn [fst snd] in *. unfold yields in Hy. unfold read_file_step.
  destruct (dlt_config_file_ignore_line _). { subst i. exists r. done. }
  destruct Hy as (res & E & Hres & L1' & L2'). rewrite (E _ _ L1 L2). bsimp. destruct res as [[ret s1] s2]. cbn [fst snd] in *.
  destruct i as [|n|k x]; cbn [result_of fst snd] in Hres; cbn [item_ok contents_step] in *.
  - subst ret. cbn. by eexists.
  - injection Hres as -> ->. cbn [Z.eqb]. change (DLT_CONFIG_FILE_NEW_SECTION =? DLT_CONFIG_FILE_NEW_SECTION) with true. cbn match.
    destruct (set_section_spec A (file r) v n HA Rf Hi) as (rc & f' & -> & Rf' & Hrc). bsimp. eexists. split; [reflexivity|].
    cbn [contents_step] in Rf'. rewrite Hrc. destruct (accepts v n); (split; [done|done|done|done|]); [by destruct v|done].
  - injection Hres as -> -> ->. change (DLT_CONFIG_FILE_NEW_DATA =? DLT_CONFIG_FILE_NEW_SECTION) with false. change (DLT_CONFIG_FILE_NEW_DATA =? DLT_CONFIG_FILE_NEW_DATA) with true.
    cbn match. rewrite Rv. destruct valid; [|by eexists]. destruct Hi as [Hk Hx].
    assert (∃ v0 e, v = v0 ++ [e]) as (v0 & [n es] & ->). { destruct v as [|e v] using rev_ind; [by destruct (Rl eq_refl)|]. by eexists _, _. }
    destruct (set_section_data_spec A (file r) v0 n es k x HA Rf Hk Hx) as (rc & f' & -> & Rf'). bsimp. eexists. split; [reflexivity|].
    split; try done. intros _. apply add_last_nonempty. by destruct v0.
Qed.

Lemma fgets_loop_rest n t : (length (fgets_loop n t).2 <= length t)%nat.
Proof.
  revert n. induction t as [|d t IH]; intros [|n]; cbn [fgets_loop snd]; try lia. destruct (d =? newline); [simpl; lia|].
  specialize (IH n). destruct (fgets_loop n t). simpl in *. lia.
Qed.
Lemma fgets_loop_S n c t : (length (fgets_loop (S n) (c :: t)).2 < length (c :: t))%nat.
Proof.
  cbn [fgets_loop]. destruct (c =? newline); [simpl; lia|]. pose proof (fgets_loop_rest n t). destruct (fgets_loop n t). simpl in *. lia.
Qed.
Lemma fgets_shorter s raw rest : fgets s = Some (raw, rest) -> (length rest < length s)%nat.
Proof.
  destruct s as [|c s]; [done|]. intros E. pose proof (fgets_loop_S 208 c s) as H.
  change (Some (fgets_loop (S 208) (c :: s)) = Some (raw, rest)) in E. apply (inj Some) in E. by rewrite E in H.
Qed.

Lemma loop_reads A fuel r st hdl : heap_ok A -> reads r st -> (length hdl < fuel)%nat ->
  ∃ r' st', read_file_loop fuel A r hdl = Some r' ∧ reads r' st'.
Proof.
  intros HA. revert r st hdl. induction fuel as [|fuel IH]; intros r st hdl Hr Hl; [lia|]. cbn [read_file_loop].
  destruct (fgets hdl) as [[raw rest]|] eqn:Eg; [|by exists r, st].
  apply fgets_shorter in Eg. destruct (yields_total raw) as (i & Hy & Hi).
  destruct (step_reads A r st raw i HA Hr Hy Hi) as (r' & -> & Hr'). bsimp. apply (IH _ _ _ Hr'). lia.
Qed.

Lemma fgets_line l rest : text_line l -> fgets (l ++ newline :: rest) = Some (l ++ [newline], rest).
Proof.
  intros (Hn & _ & Hl). assert (∀ n, (length l < n)%nat -> fgets_loop n (l ++ newline :: rest) = (l ++ [newline], rest)) as H.
  { clear Hl. induction l as [|c l IH]; intros [|n] Hl; cbn [length] in Hl; try lia; [done|]. apply not_elem_of_cons in Hn as [Hc Hn].
    cbn [app fgets_loop]. rewrite eqb_false by congruence. rewrite IH by (done || lia). done. }
  unfold fgets. rewrite H by (change (Z.to_nat _) with 209%nat; lia). by destruct l.
Qed.

Lemma text_reads A fuel r st ls its : heap_ok A -> reads r st -> Forall text_line ls -> Forall2 renders ls its -> (length ls < fuel)%nat ->
  ∃ r', read_file_loop fuel A r (text_of ls) = Some r' ∧ reads r' (foldl contents_step st its).
Proof.
  intros HA Hr HT HR. revert fuel r st Hr. induction HR as [|l i ls its Hli HR IH]; intros [|fuel] r st Hr Hl; cbn [length] in Hl; try lia.
  { by exists r. }
  apply Forall_cons_iff in HT as [Ht HT]. unfold text_of. rewrite fmap_cons. cbn [concat]. rewrite <-app_assoc. cbn [app read_file_loop].
  rewrite fgets_line by done. destruct (renders_yields l i Ht Hli) as [Hy Hi].
  destruct (step_reads A r st _ i HA Hr Hy Hi) as (r' & -> & Hr'). bsimp. cbn [foldl]. apply IH; [done|done|lia].
Qed.

(** ** Queries *)

(** What the contents mean: the first section of a name, the first value of a key. *)
Definition meaning (v : contents) : gmap bytes (gmap bytes bytes) := list_to_map ((λ s, (s.1, list_to_map s.2)) <$> v).

Lemma meaning_lookup v n : meaning v !! n = (λ i, list_to_map (default [] (snd <$> v !! Z.to_nat i))) <$> (let i := number_of v n 0 in if i =? -1 then None else Some i).
Proof.
  assert (∀ k, 0 <= k -> (meaning v !! n = (λ i, list_to_map (default [] (snd <$> v !! Z.to_nat (i - k)))) <$> (let i := number_of v n k in if i =? -1 then None else Some i))) as H.
  2: { rewrite (H 0) by lia. cbn zeta. destruct (number_of v n 0 =? -1); [done|]. cbn. by rewrite Z.sub_0_r. }
  induction v as [|[m es] v IH]; intros k Hk; [done|]. cbn [number_of fst]. unfold meaning. rewrite fmap_cons. cbn [list_to_map foldr fst snd].
  case_bool_decide as E.
  - subst. cbn zeta. rewrite eqb_false by lia. rewrite lookup_insert_eq. cbn. by rewrite Z.sub_diag.
  - rewrite lookup_insert_ne by done. fold (meaning v). rewrite (IH (k + 1)) by lia. cbn zeta.
    destruct (number_of_spec v n (k + 1) ltac:(lia)) as [[-> Hn]|(j & es' & -> & Hj)]; [done|].
    rewrite eqb_false by lia. cbn. do 4 f_equal.
    replace (Z.to_nat (k + 1 + Z.of_nat j - k)) with (S (Z.to_nat (k + 1 + Z.of_nat j - (k + 1)))) by lia. done.
Qed.

(** The memory of the caller: the string in its first 100 bytes. *)
Definition answer (value t : bytes) : bytes := buf t ++ drop 100 value.

Lemma value_loop_spec es k value : Forall (λ e, entry e.1 ∧ entry e.2) es -> (100 <= length value)%nat ->
  value_loop ((λ e, {| key := Some e.1; data := Some e.2 |}) <$> es) k (answer value []) =
  Some match (list_to_map es : gmap bytes bytes) !! cstr entry_len k with Some x => (0, answer value x) | None => (-1, answer value []) end.
Proof.
  intros H Hv. induction H as [|[k' x] es [Hk Hx] H IH]; [done|]. rewrite fmap_cons. cbn [value_loop key data fst snd list_to_map foldr] in *. bsimp.
  replace (strncmp_eq entry_len k' k) with (bool_decide (k' = cstr entry_len k)).
  2: { rewrite <-(entry_compare k' 0 k Hk). unfold pad_to. cbn [Nat.sub]. by rewrite app_nil_r. }
  case_bool_decide as E.
  - rewrite E, lookup_insert_eq. unfold strncpy. change (Z.to_nat DLT_CONFIG_FILE_ENTRY_MAX_LEN) with 100%nat.
    destruct Hx as [Hx Lx]. rewrite cstr_plain_le by (done || lia). assert (length (pad_to 100 0 x) = 100%nat) as Lb by (apply length_pad_to; lia).
    unfold answer. pose proof (length_buf [] entry_nil). rewrite mwrite_start by (rewrite length_app; lia). bsimp. by rewrite drop_app_length' by lia.
  - rewrite lookup_insert_ne by done. exact IH.
Qed.

Lemma get_value_spec f v s k value : repr f v -> (100 <= length value)%nat ->
  dlt_config_file_get_value f s k value =
  Some match meaning v !! cstr entry_len s ≫= lookup (cstr entry_len k) with Some x => (0, answer value x) | None => (-1, answer value []) end.
Proof.
  intros R Hv. unfold dlt_config_file_get_value, dlt_config_file_find_section. rewrite mwrite_start by (rewrite length_replicate; change (Z.to_nat _) with 100%nat; lia).
  bsimp. rewrite (section_search_spec f v s R). bsimp. rewrite meaning_lookup. cbn zeta. rewrite length_replicate. change (drop (Z.to_nat DLT_CONFIG_FILE_ENTRY_MAX_LEN) value) with (drop 100 value).
  fold zeros. rewrite zeros_buf. fold (answer value []).
  destruct (number_of_spec v (cstr entry_len s) 0 ltac:(lia)) as [[-> Hn]|(j & es & -> & Hj)]; [done|].
  rewrite !eqb_false by lia. pose proof R as [_ _ _ (used & Hs & HF)]. rewrite Hs. bsimp. rewrite Z.add_0_l, Nat2Z.id.
  destruct (Forall2_lookup_r _ _ _ _ _ HF Hj) as (sec & Hu & Rs). rewrite (lookup_app_l_Some _ _ _ _ Hu). bsimp.
  rewrite (rs_list _ _ Rs), value_loop_spec by (done || apply (rs_entries _ _ Rs)). cbn [fmap option_fmap option_map]. bsimp. by rewrite Nat2Z.id, Hj.
Qed.

(** ** The meaning of a file *)

(** The sections that were found, and the one whose settings follow. *)
Definition config_state : Type := gmap bytes (gmap bytes bytes) * option bytes.
Definition config_step (st : config_state) (i : item) : config_state :=
  let '(cfg, current) := st in
  match i with
  | Nothing => st
  | Header n => if decide (is_Some (cfg !! n)) then (cfg, None) else (<[n := ∅]> cfg, Some n)
  | Setting k x => (match current with Some n => alter (λ m, m ∪ {[k := x]}) n cfg | None => cfg end, current)
  end.
Definition config_of (its : list item) : gmap bytes (gmap bytes bytes) := (foldl config_step (∅, None) its).1.

(** The limits of the parser: 125 headers and 24 settings behind each. *)
Fixpoint fits (secs entries : nat) (its : list item) : bool :=
  match its with
  | [] => true
  | Nothing :: its => fits secs entries its
  | Header _ :: its => (secs <? 125)%nat && fits (S secs) 0 its
  | Setting _ _ :: its => (entries <? 24)%nat && fits secs (S entries) its
  end.

Definition current_of (v : contents) (valid : bool) : option bytes := if valid then fst <$> last v else None.
Definition last_size (v : contents) : nat := default 0%nat ((λ s, length s.2) <$> last v).

Lemma meaning_app v n es : meaning (v ++ [(n, es)]) = meaning v ∪ {[n := list_to_map es]}.
Proof. unfold meaning. rewrite fmap_app, list_to_map_app. cbn. by rewrite insert_empty. Qed.
Lemma meaning_dom v n : is_Some (meaning v !! n) <-> n ∈ v.*1.
Proof.
  rewrite meaning_lookup. cbn zeta. destruct (number_of_spec v n 0 ltac:(lia)) as [[-> Hn]|(j & es & -> & Hj)].
  - cbn. split; [by intros [? ?]|done].
  - rewrite eqb_false by lia. cbn. split; [|by eexists]. intros _. apply list_elem_of_lookup. exists j. by rewrite list_lookup_fmap, Hj.
Qed.
Lemma last_snoc_names (v : contents) n es : NoDup (v ++ [(n, es)]).*1 -> n ∉ v.*1.
Proof. rewrite fmap_app, list.NoDup_app. intros (_ & H & _) Hn. apply (H n Hn). by apply list_elem_of_singleton. Qed.

Record tracked (v : contents) (valid : bool) (secs entries : nat) : Prop := {
  t_secs : (length v <= secs)%nat;
  t_entries : valid = true -> (last_size v <= entries)%nat;
  t_names : NoDup v.*1;
  t_nonempty : valid = true -> v <> []
}.

Lemma meaning_header v valid n secs entries : tracked v valid secs entries -> (secs < 125)%nat ->
  let '(v', valid') := contents_step (v, valid) (Header n) in
  config_step (meaning v, current_of v valid) (Header n) = (meaning v', current_of v' valid') ∧ tracked v' valid' (S secs) 0.
Proof.
  intros [Hs He Hnd Hv] Hlt. cbn [contents_step config_step]. unfold accepts. rewrite (proj2 (Nat.ltb_lt (length v) 125)) by lia.
  cbn [andb]. unfold mem_section. destruct (decide (is_Some (meaning v !! n))) as [Hin|Hout].
  - apply meaning_dom in Hin. rewrite bool_decide_eq_true_2 by done. cbn [negb]. split; [done|]. by split; [lia|..].
  - assert (n ∉ v.*1) as Hn by (by rewrite <-meaning_dom). rewrite bool_decide_eq_false_2 by done. cbn [negb]. rewrite meaning_app. unfold current_of, last_size.
    split; [|split]; intros; unfold last_size; rewrite ?last_snoc, ?length_app, ?fmap_app; cbn; try lia.
    + f_equal. apply eq_None_not_Some in Hout. rewrite (insert_union_singleton_l (meaning v)). apply map_union_comm. by apply map_disjoint_singleton_l.
    + apply list.NoDup_app. split; [done|]. split; [|apply list.NoDup_singleton]. intros y Hy Hy'. apply list_elem_of_singleton in Hy'. by subst.
    + by destruct v.
Qed.

Lemma meaning_setting v valid k x secs entries : tracked v valid secs entries -> (entries < 24)%nat ->
  let '(v', valid') := contents_step (v, valid) (Setting k x) in
  config_step (meaning v, current_of v valid) (Setting k x) = (meaning v', current_of v' valid') ∧ tracked v' valid' secs (S entries).
Proof.
  intros [Hs He Hnd Hv] Hlt. cbn [contents_step config_step]. destruct valid; [|by split; [|split]].
  destruct v as [|[n es] v _] using rev_ind; [by destruct (Hv eq_refl)|]. specialize (He eq_refl). unfold last_size, current_of in *. rewrite last_snoc in *. cbn in He.
  rewrite add_last_app. unfold add_entry. rewrite (proj2 (Nat.ltb_lt (length es) 24)) by lia.
  pose proof (last_snoc_names v n es Hnd) as Hn. rewrite !meaning_app. rewrite !length_app in *. cbn [length] in *.
  split; [|split]; intros; unfold last_size; rewrite ?last_snoc, ?length_app; cbn; rewrite ?length_app; cbn [length]; try lia.
  - f_equal. assert (meaning v !! n = None) as E by (apply eq_None_not_Some; by rewrite meaning_dom).
    rewrite <-!(insert_union_singleton_r (meaning v)) by done. rewrite alter_insert_eq. f_equal. rewrite list_to_map_app. cbn. by rewrite insert_empty.
  - rewrite fmap_app in *. done.
  - by destruct v.
Qed.

Lemma meaning_run its v valid secs entries : tracked v valid secs entries -> fits secs entries its = true ->
  meaning (foldl contents_step (v, valid) its).1 = (foldl config_step (meaning v, current_of v valid) its).1.
Proof.
  revert v valid secs entries. induction its as [|i its IH]; intros v valid secs entries T Hf; [done|]. cbn [foldl fits] in *.
  destruct i as [|n|k x].
  - by apply (IH _ _ secs entries).
  - apply andb_prop in Hf as [Hlt Hf]. apply Nat.ltb_lt in Hlt. pose proof (meaning_header v valid n _ _ T Hlt) as H.
    destruct (contents_step (v, valid) (Header n)) as [v' valid']. destruct H as [-> T']. by eapply IH.
  - apply andb_prop in Hf as [Hlt Hf]. apply Nat.ltb_lt in Hlt. pose proof (meaning_setting v valid k x _ _ T Hlt) as H.
    destruct (contents_step (v, valid) (Setting k x)) as [v' valid']. destruct H as [-> T']. by eapply IH.
Qed.

(** ** Theorems *)

Lemma start_reads : reads {| str1 := zeros; str2 := zeros; is_section_valid := false;
  file := {| num_sections := 0; sections := Some (replicate 125 empty_section) |} |} ([], false).
Proof.
  split; try done. split; [done|simpl; lia|apply base.NoDup_nil_2|]. by exists [].
Qed.

Lemma init_reads A fname text : heap_ok A -> (zlen fname < DLT_PATH_MAX) ->
  dlt_config_file_init A (Some fname) (Some text) =
    r ← read_file_loop (S (length text)) A {| str1 := zeros; str2 := zeros; is_section_valid := false;
          file := {| num_sections := 0; sections := Some (replicate 125 empty_section) |} |} text; Some (Some (file r)).
Proof.
  intros HA Hp. unfold dlt_config_file_init. rewrite leb_false by done. destruct (malloc A sizeof_DltConfigFile) eqn:E; [|by apply HA in E].
  destruct (malloc A (DLT_CONFIG_FILE_SECTIONS_MAX * sizeof_DltConfigFileSection)) eqn:E2; [|by apply HA in E2].
  bsimp. unfold dlt_config_file_read_file. by destruct (read_file_loop _ _ _ _).
Qed.

Lemma length_text ls : (length ls <= length (text_of ls))%nat.
Proof.
  induction ls as [|l ls IH]; [done|]. unfold text_of in *. rewrite fmap_cons. cbn [concat]. rewrite !length_app. cbn [length]. lia.
Qed.

(** C32: A configuration file means what it says.  However white space, comments and
    lines without "=" are spread over a file of sections and settings that keeps the
    limits, the parser finds for every section and key exactly the value that the
    finite map [config_of] of the lines has, and an error where it has none.  The
    limits: lines of at most 208 characters without the end of the line
    ([long_comment_is_parsed]), names of sections below 99 characters, keys and
    values of at most 99, 125 headers, and 24 settings behind each
    ([last_key_refused]).  Only "#" or ";" in the first column makes a comment; an
    indented one is a setting if it has a "=", and says nothing otherwise. *)
Theorem config_values_found A fname ls its value :
  heap_ok A -> zlen fname < DLT_PATH_MAX -> Forall text_line ls -> Forall2 renders ls its -> fits 0 0 its = true -> (100 <= length value)%nat ->
  ∃ f, dlt_config_file_init A (Some fname) (Some (text_of ls)) = Some (Some f) ∧
    ∀ section k, entry section -> entry k ->
      dlt_config_file_get_value f section k value =
      Some match config_of its !! section ≫= lookup k with Some x => (0, answer value x) | None => (-1, answer value []) end.
Proof.
  intros HA Hp HT HR Hf Hv. rewrite init_reads by done. pose proof (length_text ls).
  destruct (text_reads A (S (length (text_of ls))) _ _ ls its HA start_reads HT HR ltac:(lia)) as (r & -> & Hr). bsimp. exists (file r). split; [done|].
  intros s k Hs Hk. rewrite (get_value_spec _ _ s k value (rd_file _ _ Hr) Hv), !entry_searched by done.
  by rewrite (meaning_run its [] false 0 0) by (done || (split; [simpl; lia|done|apply base.NoDup_nil_2|done])).
Qed.

(** What the queries of a parsed file are defined for, and what they return. *)
Record sane (f : DltConfigFile) : Prop := {
  sane_sections : 0 <= num_sections f <= DLT_CONFIG_FILE_SECTIONS_MAX;
  sane_names : ∀ i value, 0 <= i < num_sections f -> (100 <= length value)%nat ->
    ∃ n, entry n ∧ dlt_config_file_get_section_name f i value = Some (0, answer value n) ∧ dlt_config_file_find_section f n = Some i;
  sane_values : ∀ section k value, (100 <= length value)%nat ->
    ∃ rc x, dlt_config_file_get_value f section k value = Some (rc, answer value x) ∧ entry x ∧ (rc = 0 ∨ rc = -1)
}.

Lemma number_of_unique v i n es k : NoDup v.*1 -> v !! i = Some (n, es) -> number_of v n k = k + Z.of_nat i.
Proof.
  revert i k. induction v as [|[m es'] v IH]; intros i k Hnd Hi; [done|]. rewrite fmap_cons in Hnd. apply list.NoDup_cons in Hnd as [Hm Hnd]. cbn [number_of fst].
  destruct i as [|i]; [|change (v !! i = Some (n, es)) in Hi].
  - injection Hi as -> ->. rewrite bool_decide_eq_true_2 by done. lia.
  - rewrite bool_decide_eq_false_2; [rewrite (IH i) by done; lia|]. intros ->. apply Hm. apply list_elem_of_lookup. exists i. by rewrite list_lookup_fmap, Hi.
Qed.

Lemma meaning_entries f v s k x : repr f v -> meaning v !! s ≫= lookup k = Some x -> entry x.
Proof.
  intros [_ _ _ (used & _ & HF)] H. rewrite meaning_lookup in H. cbn zeta in H. destruct (_ =? -1); [done|]. cbn [fmap option_fmap option_map mbind option_bind] in H.
  apply elem_of_list_to_map_2 in H. destruct (v !! Z.to_nat (number_of v s 0)) as [[n es]|] eqn:E; [|by apply not_elem_of_nil in H].
  destruct (Forall2_lookup_r _ _ _ _ _ HF E) as (sec & _ & Rs). pose proof (rs_entries _ _ Rs) as He. cbn in He.
  rewrite list.Forall_forall in He. by apply He in H as [_ H].
Qed.

Lemma repr_sane f v : repr f v -> sane f.
Proof.
  intros R. pose proof R as [Hnum Hmax Hnd (used & Hs & HF)]. split.
  - rewrite Hnum. unfold DLT_CONFIG_FILE_SECTIONS_MAX. lia.
  - intros i value Hi Hv. rewrite Hnum in Hi. destruct (lookup_lt_is_Some_2 v (Z.to_nat i) ltac:(lia)) as [[n es] Hl].
    destruct (Forall2_lookup_r _ _ _ _ _ HF Hl) as (sec & Hu & Rs). exists n. pose proof (rs_name _ _ Rs) as He. cbn [fst] in He. split; [done|]. split.
    + unfold dlt_config_file_get_section_name. rewrite ltb_false, Hnum, leb_false by lia. cbn [orb]. rewrite Hs. bsimp.
      rewrite (lookup_app_l_Some _ _ _ _ Hu). bsimp. rewrite (rs_name_mem _ _ Rs). bsimp. cbn [fst]. unfold strncpy. change (Z.to_nat DLT_CONFIG_FILE_ENTRY_MAX_LEN) with 100%nat.
      destruct He as [H0 L0]. rewrite cstr_pad_to, take_ge by (done || lia). fold (buf n). pose proof (length_buf n (conj H0 L0)) as Lb.
      rewrite mwrite_start by lia. bsimp. rewrite Lb. fold (answer value n). unfold answer.
      replace (buf n) with (pad_to 99 0 n ++ [0]) by (exact (pad_pad 99 1 n L0)). rewrite <-app_assoc.
      rewrite (mwrite_mid (pad_to 99 0 n) [0] [0]); [done|by rewrite length_pad_to|done].
    + unfold dlt_config_file_find_section. rewrite (section_search_spec f v n R), entry_searched by done. rewrite (number_of_unique v (Z.to_nat i) n es) by done. f_equal. lia.
  - intros s k value Hv. rewrite (get_value_spec f v s k value R Hv).
    destruct (meaning v !! cstr entry_len s ≫= lookup (cstr entry_len k)) as [x|] eqn:E.
    + exists 0, x. split; [done|]. split; [by eapply meaning_entries|auto].
    + exists (-1), []. split; [done|]. split; [apply entry_nil|auto].
Qed.

(** Whatever the bytes of a file are, the parser reads it to its end inside of its
    memory, and leaves at most 125 sections with different names of at most 99
    characters; every query of it is answered inside of the caller's 100 bytes with a
    terminated string. *)
Theorem any_file_parses A fname content :
  heap_ok A -> zlen fname < DLT_PATH_MAX -> ∃ f, dlt_config_file_init A (Some fname) (Some content) = Some (Some f) ∧ sane f.
Proof.
  intros HA Hp. rewrite init_reads by done.
  destruct (loop_reads A (S (length content)) _ _ content HA start_reads ltac:(lia)) as (r & st & -> & Hr). bsimp. exists (file r). split; [done|].
  by eapply repr_sane, rd_file.
Qed.

(** ** What the parser does not do *)

(** The text behind the first 209 bytes of a comment is not part of the comment: the
    parser reads it as a line of its own. *)
Theorem long_comment_is_parsed A fname header n comment l k x value :
  heap_ok A -> zlen fname < DLT_PATH_MAX -> text_line header -> renders header (Header n) ->
  comment !! 0%nat = Some hash -> length comment = 209%nat -> newline ∉ comment -> text_line l -> renders l (Setting k x) -> (100 <= length value)%nat ->
  ∃ f, dlt_config_file_init A (Some fname) (Some (text_of [header; comment ++ l])) = Some (Some f) ∧
    dlt_config_file_get_value f n k value = Some (0, answer value x).
Proof.
  intros HA Hp Ht Hh Hc Lc Nc Hl Hs Hv. rewrite init_reads by done.
  destruct (renders_yields header (Header n) Ht Hh) as [Hy Hi]. destruct (renders_yields l (Setting k x) Hl Hs) as [Hy' Hi'].
  unfold text_of. rewrite !fmap_cons. cbn [concat fmap list_fmap]. rewrite app_nil_r, <-!app_assoc. cbn [app].
  set (fuel := length _). assert (∃ fuel', fuel = S (S (S fuel'))) as [fuel' ->].
  { unfold fuel. rewrite !length_app. cbn [length]. rewrite !length_app. exists (length header + length l + 208)%nat. cbn [length]. lia. }
  cbn [read_file_loop]. rewrite fgets_line by done. destruct (step_reads A _ _ _ _ HA start_reads Hy Hi) as (r & -> & Hr). bsimp.
  cbn [read_file_loop]. assert (fgets (comment ++ l ++ [newline]) = Some (comment, l ++ [newline])) as ->.
  { assert (∀ c n, length c = n -> newline ∉ c -> fgets_loop n (c ++ l ++ [newline]) = (c, l ++ [newline])) as H.
    { intros c. induction c as [|d c IH]; intros [|m] Hm Hn; try done. apply not_elem_of_cons in Hn as [Hd Hn].
      cbn [app fgets_loop]. rewrite eqb_false by congruence. injection Hm as Hm. by rewrite IH. }
    unfold fgets. rewrite H by done. by destruct comment. }
  assert (read_file_step A r comment = Some r) as ->.
  { unfold read_file_step. destruct comment as [|c0 comment]; [done|]. injection Hc as ->. reflexivity. }
  bsimp. rewrite (fgets_line l []) by done. destruct (step_reads A r _ _ _ HA Hr Hy' Hi') as (r' & -> & Hr'). bsimp.
  cbn [read_file_loop fgets]. bsimp. exists (file r'). split; [done|]. rewrite (get_value_spec _ _ n k value (rd_file _ _ Hr') Hv).
  destruct Hi' as [Hk Hx]. rewrite !entry_searched by done. cbn [contents_step fst]. change (accepts [] n) with true. cbn [app fst add_last].
  change (add_entry [] k x) with [(k, x)]. unfold meaning. cbn. rewrite lookup_insert_eq. cbn. by rewrite lookup_insert_eq.
Qed.

(** A section holds 24 keys, not the 25 of DLT_CONFIG_FILE_KEYS_MAX: the 25th setting of a
    section is refused and leaves the file as it was. *)
Theorem last_key_refused A f v n es k x :
  repr f (v ++ [(n, es)]) -> zlen es = DLT_CONFIG_FILE_KEYS_MAX - 1 -> dlt_config_file_set_section_data A f k x = Some (-1, f).
Proof.
  intros [Hnum _ _ (used & Hs & HF)] He. apply Forall2_app_inv_r in HF as (used1 & used2 & HF1 & HF2 & ->).
  apply Forall2_cons_inv_r in HF2 as (s & u & Rs & HF2 & ->). apply Forall2_nil_inv_r in HF2 as ->. apply Forall2_length in HF1.
  unfold dlt_config_file_set_section_data. rewrite Hs, Hnum. bsimp. rewrite ltb_false by (rewrite length_app; cbn [length]; lia).
  replace (Z.to_nat (zlen (v ++ [(n, es)]) - 1)) with (length used1) by (rewrite length_app; cbn [length]; lia).
  rewrite <-app_assoc. cbn [app]. rewrite (list_lookup_middle used1 _ _ (length used1)) by done. bsimp.
  pose proof (rs_num _ _ Rs) as ->. cbn [snd]. rewrite leb_true by (unfold DLT_CONFIG_FILE_KEYS_MAX in *; lia). done.
Qed.

(** The table of sections is used although its allocation may have failed: then any file
    that begins with a section header makes the parser write through a null pointer. *)
Theorem unchecked_table_crashes A fname header n ls :
  malloc A sizeof_DltConfigFile <> None -> malloc A (DLT_CONFIG_FILE_SECTIONS_MAX * sizeof_DltConfigFileSection) = None -> zlen fname < DLT_PATH_MAX ->
  text_line header -> renders header (Header n) -> dlt_config_file_init A (Some fname) (Some (text_of (header :: ls))) = None.
Proof.
  intros HA Hm Hp Ht Hh. unfold dlt_config_file_init. rewrite leb_false by done. destruct (malloc A sizeof_DltConfigFile); [|done]. rewrite Hm. cbn [mbind option_bind].
  unfold dlt_config_file_read_file, text_of. rewrite fmap_cons. cbn [concat]. rewrite <-app_assoc. cbn [app read_file_loop]. rewrite fgets_line by done.
  destruct (renders_yields header (Header n) Ht Hh) as [Hy _]. unfold yields in Hy. unfold read_file_step.
  destruct (dlt_config_file_ignore_line _); [done|]. destruct Hy as (r & E & Hr & _). cbn [str1 str2]. rewrite E by done. bsimp.
  destruct r as [[ret s1] s2]. injection Hr as -> ->. reflexivity.
Qed.

(** ** Witnesses *)

Definition heap0 : allocator := heap_filled 170.
Program Definition heap_no_table : allocator := {| malloc n := if n =? 4000 then None else Some (replicate (Z.to_nat n) 0) |}.
Next Obligation. intros n m. cbn. destruct (n =? 4000); intros [= <-]. len. Qed.
Lemma heap0_ok : heap_ok heap0. Proof. by intros n. Qed.
(** "# c", "[ F ]", "" and " a = bc ", the first line again and "d=e" (ignored). *)
Definition sample_lines : list bytes := [[35; 32; 99]; [91; 32; 70; 32; 93]; []; [32; 97; 32; 61; 32; 98; 99; 32]; [91; 70; 93]; [100; 61; 101]].
Definition sample_items : list item := [Nothing; Header [70]; Nothing; Setting [97] [98; 99]; Header [70]; Setting [100] [101]].
Lemma word_char c : isspace c = false -> c <> 0 -> c <> equals -> word [c].
Proof. intros. split; [done|]. split; [by repeat constructor|simpl; lia]. Qed.
Lemma sample_renders : Forall2 renders sample_lines sample_items.
Proof.
  assert (renders [91; 32; 70; 32; 93] (Header [70]) ∧ renders [91; 70; 93] (Header [70])) as [H1 H2].
  { split; by apply (renders_header _ [70] []); [| |repeat constructor|simpl; lia]. }
  constructor; [by apply renders_comment|]. constructor; [done|]. constructor; [apply renders_invalid; [done|done|apply not_elem_of_nil]|].
  constructor. { apply (renders_setting _ [97] [98; 99] []); try done; [by left|by apply word_char|]. split; [done|split; [by repeat constructor|simpl; lia]]. }
  constructor; [done|]. constructor; [|constructor]. by apply (renders_setting _ [100] [101] []); [| |left|apply word_char|apply word_char|].
Qed.
Lemma text_lineb l : forallb (λ c, negb (c =? newline) && negb (c =? 0)) l = true -> (length l <= 208)%nat -> text_line l.
Proof.
  intros H Hl. assert (∀ c, c ∈ l -> c <> newline ∧ c <> 0) as Hc.
  { intros c Hc. rewrite forallb_forall in H. specialize (H c ltac:(by apply list_elem_of_In)). apply andb_prop in H as [H1 H2].
    split; intros ->; [by rewrite Z.eqb_refl in H1|done]. }
  split; [intros Hn; by apply Hc in Hn as []|]. split; [intros Hn; by apply Hc in Hn as []|done].
Qed.
Lemma sample_text : Forall text_line sample_lines.
Proof. repeat constructor; apply text_lineb; (done || (simpl; lia)). Qed.

Lemma entry_char c : c <> 0 -> entry [c].
Proof. intros Hc. split; [|simpl; lia]. intros H. apply list_elem_of_singleton in H. lia. Qed.

Lemma config_values_found_witness :
  ∃ f, dlt_config_file_init heap0 (Some [120]) (Some (text_of sample_lines)) = Some (Some f) ∧
    dlt_config_file_get_value f [70] [97] zeros = Some (0, answer zeros [98; 99]).
Proof.
  destruct (config_values_found heap0 [120] sample_lines sample_items zeros) as (f & E & H);
    [exact heap0_ok|done|exact sample_text|exact sample_renders|reflexivity|reflexivity|].
  exists f. split; [exact E|]. rewrite (H [70] [97]) by (apply entry_char; done). vm_compute. reflexivity.
Defined.

Lemma any_file_parses_witness :
  ∃ f, dlt_config_file_init heap0 (Some [120]) (Some [91; 0; 61; 10; 61; 61]) = Some (Some f) ∧ sane f.
Proof. apply (any_file_parses heap0 [120]); [exact heap0_ok|done]. Defined.

Lemma long_comment_is_parsed_witness :
  ∃ f, dlt_config_file_init heap0 (Some [120]) (Some (text_of [[91; 70; 93]; (hash :: replicate 208 120) ++ [97; 61; 98]])) = Some (Some f) ∧
    dlt_config_file_get_value f [70] [97] zeros = Some (0, answer zeros [98]).
Proof.
  apply (long_comment_is_parsed heap0 [120] [91; 70; 93] [70]); try done.
  - apply text_lineb; [done|simpl; lia].
  - by apply (renders_header _ [70] []); [| |repeat constructor|simpl; lia].
  - apply not_elem_of_cons. split; [done|]. intros H. by apply elem_of_replicate in H as [H _].
  - apply text_lineb; [done|simpl; lia].
  - by apply (renders_setting _ [97] [98] []); [| |left|apply word_char|apply word_char|].
Defined.

Definition full_section : DltConfigFileSection :=
  {| num_entries := 24; name := Some (pad_to 101 0 [70]); keys := Some (replicate 2501 0);
     list_ := (λ e, {| key := Some e.1; data := Some e.2 |}) <$> replicate 24 ([97], [98]) |}.
Definition full_file : DltConfigFile := {| num_sections := 1; sections := Some (full_section :: replicate 124 empty_section) |}.
Lemma full_repr : repr full_file ([] ++ [([70], replicate 24 ([97], [98]))]).
Proof.
  split; [done|simpl; lia|by apply list.NoDup_singleton|]. exists [full_section]. split; [done|]. constructor; [|constructor].
  split; [by apply entry_char|done|by eexists|done|apply Nat.leb_le; reflexivity| |done]. apply Forall_replicate. split; by apply entry_char.
Qed.
Lemma last_key_refused_witness : dlt_config_file_set_section_data heap0 full_file [99] [100] = Some (-1, full_file).
Proof. apply (last_key_refused heap0 full_file [] [70] (replicate 24 ([97], [98]))); [exact full_repr|reflexivity]. Defined.

Lemma unchecked_table_crashes_witness :
  dlt_config_file_init heap_no_table (Some [120]) (Some (text_of [[91; 70; 93]])) = None.
Proof.
  apply (unchecked_table_crashes _ [120] [91; 70; 93] [70] []); try done.
  - apply text_lineb; [done|simpl; lia].
  - by apply (renders_header _ [70] []); [| |repeat constructor|simpl; lia].
Defined.

End ConfigFileSpec.
