(* ===== verification/SortedTable.v ===== *)
(** * Sorted arrays: [memcmp], [qsort] and [bsearch]

    The daemon keeps its tables as arrays that are sorted with [qsort] and
    searched with [bsearch].  This file models the two library functions and
    shows that a strictly sorted array behaves as a finite map. *)

From stdpp Require Import base list numbers option gmap.
From Stdlib Require Import ZArith Lia Bool Sorting.Sorted.
From S2P Require Import Prelude.

Local Open Scope Z_scope.

Module SortedTable.

(** ** Library functions *)

(** Comparison of byte strings, the order of [memcmp]. *)
Fixpoint lex (a b : bytes) : comparison :=
  match a, b with
  | [], [] => Eq
  | [], _ => Lt
  | _, [] => Gt
  | x :: a, y :: b => match x ?= y with Eq => lex a b | c => c end
  end.

(** The sign of [memcmp(a, b, n)]. *)
Definition memcmp (n : nat) (a b : bytes) : Z :=
  match lex (take n a) (take n b) with Lt => -1 | Eq => 0 | Gt => 1 end.

(** [qsort(base, num, size, cmp)] on the whole list. *)
Section qsort.
Context {A : Type} (cmp : A -> A -> Z).

Fixpoint insert_sorted (x : A) (l : list A) : list A :=
  match l with
  | [] => [x]
  | y :: l => if cmp x y <=? 0 then x :: y :: l else y :: insert_sorted x l
  end.
Definition qsort (l : list A) : list A := foldr insert_sorted [] l.
End qsort.

(** [bsearch(key, base, num, size, cmp)] between the indices [l] and [u];
    [cmp x] compares the key with [x].  Every round halves the range, so its
    length is enough fuel. *)
Fixpoint bsearch {A} (cmp : A -> Z) (fuel : nat) (l u : nat) (t : list A) : option (option nat) :=
  match fuel with
  | O => None
  | S fuel =>
      if (l <? u)%nat then
        let idx := ((l + u) / 2)%nat in
        x ← t !! idx;
        if cmp x <? 0 then bsearch cmp fuel l idx t
        else if 0 <? cmp x then bsearch cmp fuel (S idx) u t
        else Some (Some idx)
      else Some None
  end.

(** ** The order *)

Lemma lex_refl a : lex a a = Eq.
Proof. induction a as [|x a IH]; [done|]. cbn [lex]. by rewrite Z.compare_refl. Qed.

Lemma lex_eq a b : lex a b = Eq -> a = b.
Proof.
  revert b. induction a as [|x a IH]; intros [|y b]; cbn [lex]; try done.
  destruct (Z.compare_spec x y); intros; subst; try done. f_equal. by apply IH.
Qed.

Lemma lex_antisym a b : lex b a = CompOpp (lex a b).
Proof.
  revert b. induction a as [|x a IH]; intros [|y b]; cbn [lex]; try done.
  rewrite (Z.compare_antisym x y). destruct (x ?= y); cbn; [apply IH|done|done].
Qed.

Lemma lex_trans a b c : lex a b = Lt -> lex b c = Lt -> lex a c = Lt.
Proof.
  revert b c. induction a as [|x a IH]; intros [|y b] [|z c]; cbn [lex]; try done.
  destruct (Z.compare_spec x y), (Z.compare_spec y z); intros H1 H2; try done.
  - replace (x ?= z) with Eq by (symmetry; apply Z.compare_eq_iff; lia). by apply (IH b).
  - by replace (x ?= z) with Lt by (symmetry; apply Z.compare_lt_iff; lia).
  - by replace (x ?= z) with Lt by (symmetry; apply Z.compare_lt_iff; lia).
  - by replace (x ?= z) with Lt by (symmetry; apply Z.compare_lt_iff; lia).
Qed.

Lemma lex_app_eq a b c d :
  length a = length b -> lex (a ++ c) (b ++ d) = match lex a b with Eq => lex c d | o => o end.
Proof.
  revert b. induction a as [|x a IH]; intros [|y b] Hl; try done; cbn [app lex].
  destruct (x ?= y); [|done|done]. apply IH. by injection Hl.
Qed.

(** ** Sorted arrays *)

Section table.
Context {A : Type} (key : A -> bytes).

Definition before (x y : A) : Prop := lex (key x) (key y) = Lt.
Definition sorted : list A -> Prop := StronglySorted before.

(** A comparison function that orders by the key. *)
Definition orders (cmp : A -> A -> Z) (l : list A) : Prop :=
  ∀ x y, x ∈ l -> y ∈ l ->
    cmp x y = match lex (key x) (key y) with Lt => -1 | Eq => 0 | Gt => 1 end.

Lemma insert_sorted_perm (cmp : A -> A -> Z) (x : A) (l : list A) : insert_sorted cmp x l ≡ₚ x :: l.
Proof.
  induction l as [|y l IH]; cbn [insert_sorted]; [done|]. case_match; [done|].
  by rewrite IH, Permutation_swap.
Qed.

Lemma qsort_perm (cmp : A -> A -> Z) (l : list A) : qsort cmp l ≡ₚ l.
Proof.
  induction l as [|x l IH]; cbn [qsort foldr]; [done|].
  rewrite insert_sorted_perm. by constructor.
Qed.

Lemma insert_sorted_sorted (cmp : A -> A -> Z) (x : A) (l : list A) :
  orders cmp (x :: l) -> sorted l -> key x ∉ key <$> l -> sorted (insert_sorted cmp x l).
Proof.
  intros Ho Hs. revert Ho. induction Hs as [|y l Hs IH Hy]; intros Ho Hx; cbn [insert_sorted].
  { by repeat constructor. }
  rewrite (Ho x y) by (apply elem_of_cons; rewrite ?elem_of_cons; tauto).
  rewrite fmap_cons, not_elem_of_cons in Hx. destruct Hx as [Hxy Hx].
  destruct (lex (key x) (key y)) eqn:E; cbn [Z.leb Z.compare].
  - by apply lex_eq in E.
  - constructor; [by constructor|]. constructor; [done|].
    eapply Forall_impl; [exact Hy|]. intros z Hz. unfold before in *. by eapply lex_trans.
  - constructor.
    + apply IH; [|done]. intros a b Ha Hb. apply Ho; rewrite !elem_of_cons in *; tauto.
    + rewrite insert_sorted_perm. constructor; [|done]. unfold before. by rewrite lex_antisym, E.
Qed.

Lemma qsort_sorted (cmp : A -> A -> Z) (l : list A) : orders cmp l -> NoDup (key <$> l) -> sorted (qsort cmp l).
Proof.
  induction l as [|x l IH]; cbn [qsort foldr]; intros Ho Hn; [constructor|].
  rewrite fmap_cons, NoDup_cons in Hn. destruct Hn as [Hx Hn].
  change (foldr (insert_sorted cmp) [] l) with (qsort cmp l).
  apply insert_sorted_sorted.
  - intros a b Ha Hb. rewrite (qsort_perm cmp l) in Ha, Hb. by apply Ho.
  - apply IH; [|done]. intros a b Ha Hb. apply Ho; rewrite elem_of_cons; tauto.
  - by rewrite (qsort_perm cmp l).
Qed.

Lemma sorted_NoDup l : sorted l -> NoDup (key <$> l).
Proof.
  induction 1 as [|x l Hs IH Hx]; [constructor|]. rewrite fmap_cons. constructor; [|done].
  intros (y & E & Hy)%list_elem_of_fmap. rewrite Forall_forall in Hx. specialize (Hx y Hy).
  unfold before in Hx. by rewrite E, lex_refl in Hx.
Qed.

Lemma sorted_lookup l i j x y :
  sorted l -> l !! i = Some x -> l !! j = Some y -> (i < j)%nat -> before x y.
Proof.
  intros Hs. revert i j. induction Hs as [|z l Hs IH Hz]; intros [|i] [|j] Hi Hj Hlt; try done; try lia.
  - injection Hi as <-. rewrite Forall_forall in Hz. apply Hz. by eapply list_elem_of_lookup_2.
  - apply (IH i j); try done. lia.
Qed.

(** The array as a finite map. *)
Definition table (l : list A) : gmap bytes A := list_to_map ((λ x, (key x, x)) <$> l).

Lemma table_fst l : ((λ x, (key x, x)) <$> l).*1 = key <$> l.
Proof. rewrite <-list_fmap_compose. done. Qed.

Lemma table_perm l l' : NoDup (key <$> l) -> l ≡ₚ l' -> table l = table l'.
Proof.
  intros Hn Hp. unfold table. apply list_to_map_proper; [by rewrite table_fst|].
  by apply fmap_Permutation.
Qed.

Lemma table_lookup l k x :
  NoDup (key <$> l) -> table l !! k = Some x <-> x ∈ l ∧ key x = k.
Proof.
  intros Hn. unfold table. rewrite <-elem_of_list_to_map by (by rewrite table_fst).
  rewrite list_elem_of_fmap. split.
  - intros (y & [= -> ->] & Hy). done.
  - intros [Hx <-]. by exists x.
Qed.

Lemma table_lookup_None l k : table l !! k = None <-> k ∉ key <$> l.
Proof. unfold table. rewrite <-table_fst. symmetry. apply not_elem_of_list_to_map. Qed.

Lemma table_cons x l : table (x :: l) = <[key x := x]> (table l).
Proof. done. Qed.

Lemma table_snoc x l : key x ∉ key <$> l -> NoDup (key <$> l) -> table (l ++ [x]) = <[key x := x]> (table l).
Proof.
  intros Hx Hn. rewrite <-table_cons. apply table_perm; [|by rewrite Permutation_app_comm].
  rewrite fmap_app. apply NoDup_app. split; [done|]. split; [|by apply NoDup_singleton].
  intros k Hk ->%list_elem_of_singleton. done.
Qed.

(** Only the keys matter for the order. *)
Lemma sorted_keys l l' : sorted l -> key <$> l' = key <$> l -> sorted l'.
Proof.
  intros Hs. revert l'. induction Hs as [|x l Hs IH Hx]; intros [|y l'] Hk; try done; [constructor|].
  rewrite !fmap_cons in Hk. injection Hk as Hy Hk. constructor; [by apply IH|].
  rewrite Forall_forall in *. intros z Hz. unfold before. rewrite Hy.
  assert (key z ∈ key <$> l) as (z' & -> & Hz')%list_elem_of_fmap by (rewrite <-Hk; by apply list_elem_of_fmap_2).
  by apply Hx.
Qed.

Lemma keys_fmap (g : A -> A) (l : list A) : (∀ x, key (g x) = key x) -> key <$> (g <$> l) = key <$> l.
Proof. intros Hg. rewrite <-list_fmap_compose. apply list_fmap_ext. intros ? x _. apply Hg. Qed.

Lemma keys_insert (l : list A) k a a' : l !! k = Some a -> key a' = key a -> key <$> (<[k:=a']> l) = key <$> l.
Proof.
  intros Hk Ha. rewrite list_fmap_insert, Ha. apply list_insert_id. by rewrite list_lookup_fmap, Hk.
Qed.

Lemma table_fmap (g : A -> A) (l : list A) : (∀ x, key (g x) = key x) -> table (g <$> l) = g <$> table l.
Proof.
  intros Hg. unfold table. rewrite <-list_to_map_fmap. f_equal. rewrite <-!list_fmap_compose.
  apply list_fmap_ext. intros ? x _. unfold compose. cbn. by rewrite Hg.
Qed.

Lemma table_insert l k a a' :
  NoDup (key <$> l) -> l !! k = Some a -> key a' = key a -> table (<[k:=a']> l) = <[key a := a']> (table l).
Proof.
  revert k. induction l as [|x l IH]; intros [|k] Hn Hk Ha; try done;
    rewrite fmap_cons, NoDup_cons in Hn; destruct Hn as [Hx Hn].
  - injection Hk as ->. change (<[0%nat:=a']> (a :: l)) with (a' :: l).
    by rewrite !table_cons, Ha, insert_insert_eq.
  - change (<[S k:=a']> (x :: l)) with (x :: <[k:=a']> l). rewrite !table_cons, IH by done.
    apply insert_insert_ne. intros E. apply Hx. rewrite E. apply list_elem_of_fmap_2.
    by eapply list_elem_of_lookup_2.
Qed.

Lemma table_delete l k a :
  NoDup (key <$> l) -> l !! k = Some a -> table (take k l ++ drop (S k) l) = delete (key a) (table l).
Proof.
  revert k. induction l as [|x l IH]; intros [|k] Hn Hk; try done;
    rewrite fmap_cons, NoDup_cons in Hn; destruct Hn as [Hx Hn].
  - injection Hk as ->. rewrite table_cons, delete_insert_id; [done|]. by apply table_lookup_None.
  - change (take (S k) (x :: l) ++ drop (S (S k)) (x :: l)) with (x :: (take k l ++ drop (S k) l)).
    rewrite !table_cons, IH by done. rewrite delete_insert_ne; [done|]. intros E. apply Hx. rewrite <-E.
    apply list_elem_of_fmap_2. by eapply list_elem_of_lookup_2.
Qed.

Lemma sorted_delete l k : sorted l -> sorted (take k l ++ drop (S k) l).
Proof.
  intros Hs. revert k. induction Hs as [|x l Hs IH Hx]; intros [|k]; try (by constructor || done).
  cbn [take drop app]. constructor; [apply IH|]. apply Forall_app. split; [by apply Forall_take|by apply Forall_drop].
Qed.

(** [bsearch] finds the element with the key, if there is one. *)
Lemma bsearch_spec (cmp : A -> Z) (k : bytes) t : ∀ fuel l u,
  sorted t -> (∀ x, x ∈ t -> cmp x = match lex k (key x) with Lt => -1 | Eq => 0 | Gt => 1 end) ->
  (u - l < fuel)%nat -> (u <= length t)%nat ->
  (∀ i x, t !! i = Some x -> key x = k -> (l <= i < u)%nat) ->
  ∃ r, bsearch cmp fuel l u t = Some r ∧
    match r with
    | Some i => ∃ x, t !! i = Some x ∧ key x = k
    | None => k ∉ key <$> t
    end.
Proof.
  induction fuel as [|fuel IH]; intros l u Hs Hc Hf Hu Hin; [lia|]. cbn [bsearch].
  destruct (Nat.ltb_spec l u) as [Hlu|Hlu].
  2: { exists None. split; [done|]. intros (x & -> & Hx)%list_elem_of_fmap.
       apply list_elem_of_lookup in Hx as [i Hi]. specialize (Hin i x Hi eq_refl). lia. }
  pose proof (Nat.div_mod_eq (l + u) 2) as Hd. pose proof (Nat.mod_upper_bound (l + u) 2 ltac:(lia)).
  set (idx := ((l + u) / 2)%nat) in *.
  destruct (lookup_lt_is_Some_2 t idx) as [x Hx]; [lia|]. rewrite Hx. bsimp.
  rewrite (Hc x) by (by eapply list_elem_of_lookup_2).
  destruct (lex k (key x)) eqn:E; cbn [Z.ltb Z.compare].
  - apply lex_eq in E. exists (Some idx). split; [done|]. by exists x.
  - apply IH; try done; try lia. intros i y Hi Hy. specialize (Hin i y Hi Hy). split; [lia|].
    destruct (decide (i < idx)%nat); [done|]. exfalso. destruct (decide (i = idx)) as [->|].
    + rewrite Hx in Hi. injection Hi as <-. by rewrite Hy, lex_refl in E.
    + pose proof (sorted_lookup t idx i x y Hs Hx Hi ltac:(lia)) as Hb. unfold before in Hb.
      rewrite Hy, lex_antisym, E in Hb. done.
  - apply IH; try done; try lia. intros i y Hi Hy. specialize (Hin i y Hi Hy). split; [|lia].
    destruct (decide (idx < i)%nat); [lia|]. exfalso. destruct (decide (i = idx)) as [->|].
    + rewrite Hx in Hi. injection Hi as <-. by rewrite Hy, lex_refl in E.
    + pose proof (sorted_lookup t i idx y x Hs Hi Hx ltac:(lia)) as Hb. unfold before in Hb.
      rewrite Hy, E in Hb. done.
Qed.

(** The updates of a sorted array.  [good] is a condition under which [cmp]
    orders by the keys. *)
Section updates.
Context (cmp : A -> A -> Z) (good : A -> Prop).
Context (cmp_orders : ∀ l, Forall good l -> orders cmp l).

Record sorted_table (l : list A) (m : gmap bytes A) : Prop := {
  st_sorted : sorted l;
  st_good : Forall good l;
  st_table : table l = m
}.

Lemma sorted_table_lookup l m k x :
  sorted_table l m -> l !! k = Some x -> m !! key x = Some x.
Proof.
  intros [Hs _ <-] Hk. apply table_lookup; [by apply sorted_NoDup|]. split; [by eapply list_elem_of_lookup_2|done].
Qed.

(** Every element changes, but keeps its key. *)
Lemma map_table l m (g : A -> A) :
  (∀ x, key (g x) = key x) -> (∀ x, good x -> good (g x)) -> sorted_table l m -> sorted_table (g <$> l) (g <$> m).
Proof.
  intros Hg Hgg [Hs Hgood <-]. split.
  - apply (sorted_keys l); [done|by apply keys_fmap].
  - apply Forall_fmap. eapply Forall_impl; [exact Hgood|]. intros x. apply Hgg.
  - by apply table_fmap.
Qed.

(** One element is replaced. *)
Lemma replace_table l m k x x' :
  l !! k = Some x -> key x' = key x -> good x' -> sorted_table l m ->
  sorted_table (<[k := x']> l) (<[key x := x']> m).
Proof.
  intros Hk Hx Hx' [Hs Hgood <-]. split.
  - apply (sorted_keys l); [done|by eapply keys_insert].
  - by apply Forall_insert.
  - apply table_insert; try done. by apply sorted_NoDup.
Qed.

(** An element with a new key is appended and the array is sorted. *)
Lemma append_table l m x :
  good x -> m !! key x = None -> sorted_table l m ->
  sorted_table (qsort cmp (l ++ [x])) (<[key x := x]> m).
Proof.
  intros Hx Hnew [Hs Hgood <-]. apply table_lookup_None in Hnew. pose proof (sorted_NoDup l Hs) as Hnd.
  assert (Forall good (l ++ [x])) as Hall by (apply Forall_app; split; [done|by constructor]).
  assert (NoDup (key <$> (l ++ [x]))) as Hnd'.
  { rewrite fmap_app. apply NoDup_app. split; [done|]. split; [|by apply NoDup_singleton].
    intros k Hk ->%list_elem_of_singleton. done. }
  split.
  - apply qsort_sorted; [by apply cmp_orders|done].
  - by rewrite (qsort_perm cmp).
  - rewrite <-table_snoc by done. apply table_perm; [|apply qsort_perm].
    by rewrite (fmap_Permutation key _ _ (qsort_perm cmp _)).
Qed.

(** An element is removed. *)
Lemma remove_table l m k x :
  l !! k = Some x -> sorted_table l m -> sorted_table (take k l ++ drop (S k) l) (delete (key x) m).
Proof.
  intros Hk [Hs Hgood <-]. split.
  - by apply sorted_delete.
  - apply Forall_app. split; [by apply Forall_take|by apply Forall_drop].
  - apply table_delete; [by apply sorted_NoDup|done].
Qed.
End updates.

End table.

End SortedTable.
