(* ===== verification/DaemonTables.v ===== *)
(** * The daemon's application and context tables ([src/daemon/dlt_daemon_common.c])

    Per ECU the daemon keeps the registered applications and contexts in two
    arrays that are sorted by identifier.  The arrays are allocated in blocks;
    a pointer to an entry is an index.  Modelled in the default configuration:
    FIFO IPC, without the per-application log levels and without trace load
    control; the fields of protocol version 2 are left out.

    [open_fifo pid] is the result of opening the pipe of the process; [junk] is
    what fresh memory from [malloc] contains. *)

From stdpp Require Import base list numbers option.
From Stdlib Require Import ZArith Lia Bool.
From S2P Require Import Prelude Ids SortedTable.
Import Ids.

Local Open Scope Z_scope.

Module DaemonTables.

Definition DLT_FD_INIT : Z := -1.
Definition DLT_FD_MINIMUM : Z := 3.
Definition DLT_DAEMON_APPL_ALLOC_SIZE : Z := 500.
Definition DLT_DAEMON_CONTEXT_ALLOC_SIZE : Z := 1000.
Definition DLT_LOG_DEFAULT : Z := -1.
Definition DLT_LOG_VERBOSE : Z := 6.
Definition DLT_TRACE_STATUS_DEFAULT : Z := -1.
Definition DLT_TRACE_STATUS_ON : Z := 1.

(** ** Data *)

Module App.
Record DltDaemonApplication := {
  apid : bytes;
  pid : Z;
  user_handle : Z;
  owns_user_handle : bool;
  application_description : option bytes;
  num_contexts : Z
}.
Definition set_handle (a : DltDaemonApplication) (h : Z) (o : bool) : DltDaemonApplication :=
  {| apid := apid a; pid := pid a; user_handle := h; owns_user_handle := o;
     application_description := application_description a; num_contexts := num_contexts a |}.
Definition set_pid (a : DltDaemonApplication) (p : Z) : DltDaemonApplication :=
  {| apid := apid a; pid := p; user_handle := user_handle a;
     owns_user_handle := owns_user_handle a;
     application_description := application_description a; num_contexts := num_contexts a |}.
Definition set_description (a : DltDaemonApplication) (d : option bytes) : DltDaemonApplication :=
  {| apid := apid a; pid := pid a; user_handle := user_handle a;
     owns_user_handle := owns_user_handle a; application_description := d;
     num_contexts := num_contexts a |}.
Definition set_num_contexts (a : DltDaemonApplication) (n : Z) : DltDaemonApplication :=
  {| apid := apid a; pid := pid a; user_handle := user_handle a;
     owns_user_handle := owns_user_handle a;
     application_description := application_description a; num_contexts := n |}.
(** [memset(application, 0, sizeof(DltDaemonApplication))]. *)
Definition zeroed : DltDaemonApplication :=
  {| apid := [0; 0; 0; 0]; pid := 0; user_handle := 0; owns_user_handle := false;
     application_description := None; num_contexts := 0 |}.
End App.
Import App (DltDaemonApplication).

Module Ctx.
Record DltDaemonContext := {
  apid : bytes;
  ctid : bytes;
  log_level : Z;
  trace_status : Z;
  log_level_pos : Z;
  user_handle : Z;
  context_description : option bytes;
  storage_log_level : Z;
  predefined : bool
}.
Definition zeroed : DltDaemonContext :=
  {| apid := [0; 0; 0; 0]; ctid := [0; 0; 0; 0]; log_level := 0; trace_status := 0;
     log_level_pos := 0; user_handle := 0; context_description := None; storage_log_level := 0;
     predefined := false |}.
Definition set_handle (c : DltDaemonContext) (h : Z) : DltDaemonContext :=
  {| apid := apid c; ctid := ctid c; log_level := log_level c; trace_status := trace_status c;
     log_level_pos := log_level_pos c; user_handle := h;
     context_description := context_description c; storage_log_level := storage_log_level c;
     predefined := predefined c |}.
Definition set_levels (c : DltDaemonContext) (ll ts : Z) : DltDaemonContext :=
  {| apid := apid c; ctid := ctid c; log_level := ll; trace_status := ts;
     log_level_pos := log_level_pos c; user_handle := user_handle c;
     context_description := context_description c; storage_log_level := storage_log_level c;
     predefined := predefined c |}.
Definition set_description (c : DltDaemonContext) (d : option bytes) : DltDaemonContext :=
  {| apid := apid c; ctid := ctid c; log_level := log_level c; trace_status := trace_status c;
     log_level_pos := log_level_pos c; user_handle := user_handle c; context_description := d;
     storage_log_level := storage_log_level c; predefined := predefined c |}.
Definition set_registration (c : DltDaemonContext) (pos h : Z) : DltDaemonContext :=
  {| apid := apid c; ctid := ctid c; log_level := log_level c; trace_status := trace_status c;
     log_level_pos := pos; user_handle := h; context_description := context_description c;
     storage_log_level := storage_log_level c; predefined := (h =? 0) |}.
End Ctx.
Import Ctx (DltDaemonContext).

Record DltDaemonRegisteredUsers := {
  applications : option (list DltDaemonApplication);
  num_applications : Z;
  contexts : option (list DltDaemonContext);
  num_contexts : Z;
  ecu : bytes
}.

Record DltDaemon := {
  user_list : list DltDaemonRegisteredUsers;
  ecuid : bytes;
  default_log_level : Z;
  default_trace_status : Z;
  force_ll_ts : bool;
  runtime_context_cfg_loaded : bool
}.

Definition set_apps (u : DltDaemonRegisteredUsers) (a : option (list DltDaemonApplication)) (n : Z)
  : DltDaemonRegisteredUsers :=
  {| applications := a; num_applications := n; contexts := contexts u;
     num_contexts := num_contexts u; ecu := ecu u |}.
Definition set_ctxs (u : DltDaemonRegisteredUsers) (c : option (list DltDaemonContext)) (n : Z)
  : DltDaemonRegisteredUsers :=
  {| applications := applications u; num_applications := num_applications u; contexts := c;
     num_contexts := n; ecu := ecu u |}.
Definition set_list (d : DltDaemon) (i : nat) (u : DltDaemonRegisteredUsers) : DltDaemon :=
  {| user_list := <[i := u]> (user_list d); ecuid := ecuid d;
     default_log_level := default_log_level d; default_trace_status := default_trace_status d;
     force_ll_ts := force_ll_ts d; runtime_context_cfg_loaded := runtime_context_cfg_loaded d |}.

(** ** Comparison functions *)

Definition dlt_daemon_cmp_apid (m1 m2 : DltDaemonApplication) : Z :=
  SortedTable.memcmp 4 (App.apid m1) (App.apid m2).

Definition dlt_daemon_cmp_apid_ctid (m1 m2 : DltDaemonContext) : Z :=
  let cmp := SortedTable.memcmp 4 (Ctx.apid m1) (Ctx.apid m2) in
  if cmp <? 0 then -1
  else if cmp =? 0 then SortedTable.memcmp 4 (Ctx.ctid m1) (Ctx.ctid m2)
  else 1.

(** ** Finding *)

(** Index of the list of an ECU. *)
Fixpoint find_users (i : nat) (l : list DltDaemonRegisteredUsers) (e : bytes) : option nat :=
  match l with
  | [] => None
  | u :: l => if strncmp_eq DLT_ID_SIZE e (ecu u) then Some i else find_users (S i) l e
  end.
Definition dlt_daemon_find_users_list (d : DltDaemon) (e : bytes) : option nat :=
  find_users 0 (user_list d) e.

(** [apid[0] == '\0']. *)
Definition empty_id (i : bytes) : bool := match i with c :: _ => c =? 0 | [] => true end.

(** The search in one list; the key object has the identifier of [dlt_set_id]. *)
Definition application_find (u : DltDaemonRegisteredUsers) (apid : bytes) : option (option nat) :=
  if num_applications u =? 0 then Some None else
  apps ← applications u;
  first ← apps !! 0%nat;
  last ← apps !! Z.to_nat (num_applications u - 1);
  if (SortedTable.memcmp 4 apid (App.apid first) <? 0) ||
     (0 <? SortedTable.memcmp 4 apid (App.apid last)) then Some None
  else
    id ← dlt_set_id (Some [0; 0; 0; 0]) (Some apid);
    id ← id;
    SortedTable.bsearch (λ x, SortedTable.memcmp 4 id (App.apid x))
      (S (Z.to_nat (num_applications u))) 0 (Z.to_nat (num_applications u)) apps.

Definition dlt_daemon_application_find (d : DltDaemon) (apid e : bytes) : option (option nat) :=
  if empty_id apid then Some None else
  match dlt_daemon_find_users_list d e with
  | None => Some None
  | Some i => u ← user_list d !! i; application_find u apid
  end.

Definition context_find (u : DltDaemonRegisteredUsers) (apid ctid : bytes) : option (option nat) :=
  if num_contexts u =? 0 then Some None else
  ctxs ← contexts u;
  first ← ctxs !! 0%nat;
  last ← ctxs !! Z.to_nat (num_contexts u - 1);
  if (SortedTable.memcmp 4 apid (Ctx.apid first) <? 0) ||
     (0 <? SortedTable.memcmp 4 apid (Ctx.apid last)) then Some None
  else
    ia ← dlt_set_id (Some [0; 0; 0; 0]) (Some apid);
    ia ← ia;
    ic ← dlt_set_id (Some [0; 0; 0; 0]) (Some ctid);
    ic ← ic;
    SortedTable.bsearch
      (λ x, let cmp := SortedTable.memcmp 4 ia (Ctx.apid x) in
            if cmp <? 0 then -1
            else if cmp =? 0 then SortedTable.memcmp 4 ic (Ctx.ctid x) else 1)
      (S (Z.to_nat (num_contexts u))) 0 (Z.to_nat (num_contexts u)) ctxs.

Definition dlt_daemon_context_find (d : DltDaemon) (apid ctid e : bytes) : option (option nat) :=
  if empty_id apid || empty_id ctid then Some None else
  match dlt_daemon_find_users_list d e with
  | None => Some None
  | Some i => u ← user_list d !! i; context_find u apid ctid
  end.

(** ** File descriptors *)

(** The loops over the first [n] entries of an array. *)
Definition map_first {A} (n : Z) (g : A -> A) (l : list A) : list A :=
  (g <$> take (Z.to_nat n) l) ++ drop (Z.to_nat n) l.

Definition reset_app_fd (fd : Z) (a : DltDaemonApplication) : DltDaemonApplication :=
  if App.user_handle a =? fd then App.set_handle a DLT_FD_INIT (App.owns_user_handle a) else a.
Definition reset_ctx_fd (fd : Z) (c : DltDaemonContext) : DltDaemonContext :=
  if Ctx.user_handle c =? fd then Ctx.set_handle c DLT_FD_INIT else c.

Definition dlt_daemon_applications_invalidate_fd (d : DltDaemon) (e : bytes) (fd : Z)
  : option (Z * DltDaemon) :=
  match dlt_daemon_find_users_list d e with
  | None => Some (DLT_RETURN_ERROR, d)
  | Some i =>
      u ← user_list d !! i;
      if num_applications u <=? 0 then Some (DLT_RETURN_OK, d) else
      apps ← applications u;
      if zlen apps <? num_applications u then None else
      Some (DLT_RETURN_OK,
            set_list d i (set_apps u (Some (map_first (num_applications u) (reset_app_fd fd) apps))
                            (num_applications u)))
  end.

Definition dlt_daemon_contexts_invalidate_fd (d : DltDaemon) (e : bytes) (fd : Z)
  : option (Z * DltDaemon) :=
  match dlt_daemon_find_users_list d e with
  | None => Some (-1, d)
  | Some i =>
      u ← user_list d !! i;
      if num_contexts u <=? 0 then Some (0, d) else
      ctxs ← contexts u;
      if zlen ctxs <? num_contexts u then None else
      Some (0, set_list d i (set_ctxs u (Some (map_first (num_contexts u) (reset_ctx_fd fd) ctxs))
                               (num_contexts u)))
  end.

(** The application at [(i, k)] loses its handle; contexts of the daemon's own
    ECU that use the handle lose it, too. *)
Definition dlt_daemon_application_reset_user_handle (d : DltDaemon) (i k : nat) : option DltDaemon :=
  u ← user_list d !! i;
  apps ← applications u;
  a ← apps !! k;
  if App.user_handle a =? DLT_FD_INIT then Some d else
  '(_, d1) ← dlt_daemon_contexts_invalidate_fd d (ecuid d) (App.user_handle a);
  u1 ← user_list d1 !! i;
  Some (set_list d1 i (set_apps u1 (Some (<[k := App.set_handle a DLT_FD_INIT false]> apps))
                         (num_applications u1))).

(** ** Adding applications *)

(** Room for entry number [n] (already counted) in a table that grows in blocks
    of [step] entries; [fresh size] is a new array.  [Some None]: no memory. *)
Definition grow_table {A} (fresh : Z -> option (list A)) (step n : Z) (t : list A)
  : option (option (list A)) :=
  if n mod step =? 0 then
    match fresh ((n / step + 1) * step) with
    | None => Some None
    | Some new => old ← mread t 0 n; new' ← mwrite new 0 old; Some (Some new')
    end
  else Some (Some t).

(** An array of [n] structs of [size] bytes. *)
Definition new_array {A} (M : allocator) (size : Z) (content : A) (n : Z) : option (list A) :=
  match malloc M (size * n) with
  | None => None
  | Some _ => Some (replicate (Z.to_nat n) content)
  end.

(** The sizes of the two structs do not matter for the behaviour. *)
Definition sizeof_DltDaemonApplication : Z := 304.
Definition sizeof_DltDaemonContext : Z := 64.

(** First part of [dlt_daemon_application_add]: the list with its array, the
    index of the entry and whether it is new; [None] inside when out of memory. *)
Definition application_slot (M : allocator) (junk : DltDaemonApplication)
  (u : DltDaemonRegisteredUsers) (apid : bytes)
  : option (DltDaemonRegisteredUsers * option (nat * bool)) :=
  let fresh := new_array M sizeof_DltDaemonApplication junk in
  match (match applications u with
         | Some a => Some a
         | None => fresh DLT_DAEMON_APPL_ALLOC_SIZE
         end) with
  | None => Some (u, None)
  | Some apps =>
      let u := set_apps u (Some apps) (num_applications u) in
      found ← application_find u apid;
      match found with
      | Some k => Some (u, Some (k, false))
      | None =>
          let n := num_applications u + 1 in
          g ← grow_table fresh DLT_DAEMON_APPL_ALLOC_SIZE n apps;
          match g with
          | None => Some (u, None)
          | Some apps =>
              (** [dlt_set_id] overwrites all four bytes of the field. *)
              _ ← apps !! Z.to_nat (n - 1);
              id ← dlt_set_id (Some (App.apid App.zeroed)) (Some apid);
              id ← id;
              let a' := {| App.apid := id; App.pid := 0; App.user_handle := DLT_FD_INIT;
                           App.owns_user_handle := false; App.application_description := None;
                           App.num_contexts := 0 |} in
              Some (set_apps u (Some (<[Z.to_nat (n - 1) := a']> apps)) n,
                    Some (Z.to_nat (n - 1), true))
          end
      end
  end.

(** Update of entry [k] of list [i]. *)
Definition update_app (d : DltDaemon) (i k : nat) (g : DltDaemonApplication -> DltDaemonApplication)
  : option DltDaemon :=
  u ← user_list d !! i;
  apps ← applications u;
  a ← apps !! k;
  Some (set_list d i (set_apps u (Some (<[k := g a]> apps)) (num_applications u))).

Definition get_app (d : DltDaemon) (i k : nat) : option DltDaemonApplication :=
  u ← user_list d !! i; apps ← applications u; apps !! k.

(** Middle part: description, process and handle of the entry. *)
Definition application_describe (M : allocator) (d : DltDaemon) (i k : nat)
  (description : option bytes) : option DltDaemon :=
  d ← update_app d i k (λ a, App.set_description a None);
  match description with
  | None => Some d
  | Some s =>
      match malloc M (zlen s + 1) with
      | None => None (** [free] of a pointer into the array *)
      | Some _ => update_app d i k (λ a, App.set_description a (Some s))
      end
  end.

Definition application_register (M : allocator) (open_fifo : Z -> Z) (d : DltDaemon) (i k : nat)
  (pid : Z) (description : option bytes) (e : bytes) : option DltDaemon :=
  d ← application_describe M d i k description;
  a ← get_app d i k;
  d ← (if negb (App.pid a =? pid) then
         d ← dlt_daemon_application_reset_user_handle d i k;
         update_app d i k (λ a, App.set_pid a 0)
       else Some d);
  a ← get_app d i k;
  if (App.user_handle a =? DLT_FD_INIT) && negb (pid =? 0) then
    let h := open_fifo pid in
    '(_, d) ← dlt_daemon_applications_invalidate_fd d e h;
    '(_, d) ← dlt_daemon_contexts_invalidate_fd d e h;
    update_app d i k (λ a, App.set_pid (App.set_handle a h (0 <=? h)) pid)
  else Some d.

Definition sort_apps (u : DltDaemonRegisteredUsers) : option DltDaemonRegisteredUsers :=
  apps ← applications u;
  let n := Z.to_nat (num_applications u) in
  Some (set_apps u (Some (SortedTable.qsort dlt_daemon_cmp_apid (take n apps) ++ drop n apps))
          (num_applications u)).

Definition dlt_daemon_application_add (M : allocator) (junk : DltDaemonApplication)
  (open_fifo : Z -> Z) (d : DltDaemon) (apid : bytes) (pid : Z) (description : option bytes)
  (e : bytes) : option (option nat * DltDaemon) :=
  if empty_id apid then Some (None, d) else
  match dlt_daemon_find_users_list d e with
  | None => Some (None, d)
  | Some i =>
      u ← user_list d !! i;
      '(u, slot) ← application_slot M junk u apid;
      let d := set_list d i u in
      match slot with
      | None => Some (None, d)
      | Some (k, fresh) =>
          d ← application_register M open_fifo d i k pid description e;
          if (fresh : bool) then
            u ← user_list d !! i;
            u ← sort_apps u;
            let d := set_list d i u in
            r ← dlt_daemon_application_find d apid e;
            Some (r, d)
          else Some (Some k, d)
      end
  end.

(** ** Removing applications *)

(** [memmove] of the entries behind [pos] and clearing of the last one. *)
Definition remove_entry {A} (zero : A) (n : Z) (pos : nat) (t : list A) : option (list A) :=
  if (Z.of_nat pos <? n) && (n <=? zlen t) then
    Some (take pos t ++ drop (S pos) (take (Z.to_nat n) t) ++ [zero] ++ drop (Z.to_nat n) t)
  else None.

Definition dlt_daemon_application_del (d : DltDaemon) (k : nat) (e : bytes)
  : option (Z * DltDaemon) :=
  match dlt_daemon_find_users_list d e with
  | None => Some (-1, d)
  | Some i =>
      u ← user_list d !! i;
      if 0 <? num_applications u then
        d ← dlt_daemon_application_reset_user_handle d i k;
        d ← update_app d i k (λ a, App.set_description a None);
        u ← user_list d !! i;
        apps ← applications u;
        apps' ← remove_entry App.zeroed (num_applications u) k apps;
        Some (0, set_list d i (set_apps u (Some apps') (num_applications u - 1)))
      else Some (0, d)
  end.

Definition dlt_daemon_applications_clear (d : DltDaemon) (e : bytes) : option (Z * DltDaemon) :=
  match dlt_daemon_find_users_list d e with
  | None => Some (DLT_RETURN_ERROR, d)
  | Some i => u ← user_list d !! i; Some (0, set_list d i (set_apps u None 0))
  end.

(** ** Contexts *)

Definition context_slot (M : allocator) (u : DltDaemonRegisteredUsers) (apid ctid : bytes)
  : option (DltDaemonRegisteredUsers * option (nat * bool)) :=
  let fresh := new_array M sizeof_DltDaemonContext Ctx.zeroed in
  match (match contexts u with
         | Some c => Some c
         | None => fresh DLT_DAEMON_CONTEXT_ALLOC_SIZE
         end) with
  | None => Some (u, None)
  | Some ctxs =>
      let u := set_ctxs u (Some ctxs) (num_contexts u) in
      app ← application_find u apid;
      match app with
      | None => Some (u, None)
      | Some ka =>
          found ← context_find u apid ctid;
          match found with
          | Some k => Some (u, Some (k, false))
          | None =>
              let n := num_contexts u + 1 in
              g ← grow_table fresh DLT_DAEMON_CONTEXT_ALLOC_SIZE n ctxs;
              match g with
              | None => Some (u, None)
              | Some ctxs =>
                  c ← ctxs !! Z.to_nat (n - 1);
                  ia ← dlt_set_id (Some (Ctx.apid Ctx.zeroed)) (Some apid);
                  ia ← ia;
                  ic ← dlt_set_id (Some (Ctx.ctid Ctx.zeroed)) (Some ctid);
                  ic ← ic;
                  apps ← applications u;
                  a ← apps !! ka;
                  let c' := {| Ctx.apid := ia; Ctx.ctid := ic; Ctx.log_level := 0;
                               Ctx.trace_status := 0; Ctx.log_level_pos := 0;
                               Ctx.user_handle := 0; Ctx.context_description := None;
                               Ctx.storage_log_level := 0; Ctx.predefined := false |} in
                  Some (set_apps (set_ctxs u (Some (<[Z.to_nat (n - 1) := c']> ctxs)) n)
                          (Some (<[ka := App.set_num_contexts a (App.num_contexts a + 1)]> apps))
                          (num_applications u),
                        Some (Z.to_nat (n - 1), true))
              end
          end
      end
  end.

(** The log level and trace status that are stored: not above the defaults of
    the daemon when these are enforced. *)
Definition adapted (d : DltDaemon) (e : bytes) (ll ts : Z) : Z * Z :=
  if strncmp_eq DLT_ID_SIZE (ecuid d) e && force_ll_ts d then
    (if default_log_level d <? ll then default_log_level d else ll,
     if default_trace_status d <? ts then default_trace_status d else ts)
  else (ll, ts).

Definition sort_ctxs (u : DltDaemonRegisteredUsers) : option DltDaemonRegisteredUsers :=
  ctxs ← contexts u;
  let n := Z.to_nat (num_contexts u) in
  Some (set_ctxs u (Some (SortedTable.qsort dlt_daemon_cmp_apid_ctid (take n ctxs) ++ drop n ctxs))
          (num_contexts u)).

Definition dlt_daemon_context_add (M : allocator) (d : DltDaemon) (apid ctid : bytes)
  (log_level trace_status log_level_pos user_handle : Z) (description : option bytes) (e : bytes)
  : option (option nat * DltDaemon) :=
  if empty_id apid || empty_id ctid then Some (None, d) else
  if (log_level <? DLT_LOG_DEFAULT) || (DLT_LOG_VERBOSE <? log_level) then Some (None, d) else
  if (trace_status <? DLT_TRACE_STATUS_DEFAULT) || (DLT_TRACE_STATUS_ON <? trace_status)
  then Some (None, d) else
  match dlt_daemon_find_users_list d e with
  | None => Some (None, d)
  | Some i =>
      u ← user_list d !! i;
      '(u, slot) ← context_slot M u apid ctid;
      match slot with
      | None => Some (None, set_list d i u)
      | Some (k, fresh) =>
          ctxs ← contexts u;
          c ← ctxs !! k;
          let descr := match description with
                       | None => None
                       | Some s => if malloc M (zlen s + 1) is Some _ then Some s else None
                       end in
          let '(ll, ts) := adapted d e log_level trace_status in
          let c := Ctx.set_description c descr in
          let c := if (fresh : bool) || negb (runtime_context_cfg_loaded d)
                   then Ctx.set_levels c ll ts else c in
          let c := Ctx.set_registration c log_level_pos user_handle in
          let u := set_ctxs u (Some (<[k := c]> ctxs)) (num_contexts u) in
          if (fresh : bool) then
            u ← sort_ctxs u;
            let d := set_list d i u in
            r ← dlt_daemon_context_find d apid ctid e;
            Some (r, d)
          else Some (Some k, set_list d i u)
      end
  end.

Definition dlt_daemon_context_del (d : DltDaemon) (k : nat) (e : bytes) : option (Z * DltDaemon) :=
  match dlt_daemon_find_users_list d e with
  | None => Some (-1, d)
  | Some i =>
      u ← user_list d !! i;
      if 0 <? num_contexts u then
        ctxs ← contexts u;
        c ← ctxs !! k;
        app ← dlt_daemon_application_find d (Ctx.apid c) e;
        ctxs' ← remove_entry Ctx.zeroed (num_contexts u) k ctxs;
        let d := set_list d i (set_ctxs u (Some ctxs') (num_contexts u - 1)) in
        match app with
        | None => Some (0, d)
        | Some ka =>
            d ← update_app d i ka (λ a, App.set_num_contexts a (App.num_contexts a - 1));
            Some (0, d)
        end
      else Some (0, d)
  end.

Definition dlt_daemon_contexts_clear (d : DltDaemon) (e : bytes) : option (Z * DltDaemon) :=
  match dlt_daemon_find_users_list d e with
  | None => Some (DLT_RETURN_ERROR, d)
  | Some i =>
      u ← user_list d !! i;
      apps ← (if num_applications u <=? 0 then Some (applications u)
              else a ← applications u;
                   if zlen a <? num_applications u then None else
                   Some (Some (map_first (num_applications u)
                                 (λ x, App.set_num_contexts x 0) a)));
      Some (0, set_list d i (set_apps (set_ctxs u None 0) apps (num_applications u)))
  end.

End DaemonTables.
