(* ===== verification/DaemonTablesSpec.v ===== *)
(** * The daemon's tables are finite maps

    The arrays of applications and contexts, kept sorted by [qsort] and
    searched by [bsearch], implement finite maps from identifiers; the
    operations are lookup, insertion and deletion. *)

From stdpp Require Import base list numbers option gmap.
From Stdlib Require Import ZArith Lia Bool.
From S2P Require Import Prelude Ids SortedTable DaemonTables.
Import Ids SortedTable DaemonTables.

Local Open Scope Z_scope.

Module DaemonTablesSpec.

(** ** Identifiers as keys *)

(** Identifiers as registered: padded with zeros and not empty. *)
Definition good_id (i : bytes) : Prop := is_id i ∧ empty_id i = false.

Lemma good_id_length i : good_id i -> length i = 4%nat.
Proof. intros [H _]. by apply is_id_length. Qed.

Lemma set_id_good dst i : length dst = 4%nat -> good_id i -> dlt_set_id (Some dst) (Some i) = Some (Some i).
Proof. intros Hd [Hi _]. by apply set_id_copy. Qed.

Lemma memcmp_lex n a b :
  length a = n -> length b = n ->
  memcmp n a b = match lex a b with Lt => -1 | Eq => 0 | Gt => 1 end.
Proof. intros Ha Hb. unfold memcmp. by rewrite !take_ge by lia. Qed.

Definition app_key (a : App.DltDaemonApplication) : bytes := App.apid a.
Definition ctx_key (c : Ctx.DltDaemonContext) : bytes := Ctx.apid c ++ Ctx.ctid c.

Lemma cmp_apid_orders l :
  Forall (λ a, good_id (App.apid a)) l -> orders app_key dlt_daemon_cmp_apid l.
Proof.
  intros Hl x y Hx Hy. rewrite Forall_forall in Hl. apply memcmp_lex; by apply good_id_length, Hl.
Qed.

(** The two-stage comparison of contexts is the comparison of the joined
    identifiers. *)
Lemma cmp_stages a c a' c' :
  length a = 4%nat -> length a' = 4%nat -> length c = 4%nat -> length c' = 4%nat ->
  (let cmp := memcmp 4 a a' in
   if cmp <? 0 then -1 else if cmp =? 0 then memcmp 4 c c' else 1) =
  match lex (a ++ c) (a' ++ c') with Lt => -1 | Eq => 0 | Gt => 1 end.
Proof.
  intros Ha Ha' Hc Hc'. rewrite lex_app_eq by lia. rewrite !memcmp_lex by done.
  by destruct (lex a a').
Qed.

Definition good_ctx (c : Ctx.DltDaemonContext) : Prop := good_id (Ctx.apid c) ∧ good_id (Ctx.ctid c).

Lemma cmp_ctx_orders l :
  Forall good_ctx l -> orders ctx_key dlt_daemon_cmp_apid_ctid l.
Proof.
  intros Hl x y Hx Hy. rewrite Forall_forall in Hl.
  apply Hl in Hx as [??]. apply Hl in Hy as [??].
  apply cmp_stages; by apply good_id_length.
Qed.

(** ** Invariants of one list *)

Definition live_apps (u : DltDaemonRegisteredUsers) : list App.DltDaemonApplication :=
  take (Z.to_nat (num_applications u)) (default [] (applications u)).
Definition live_ctxs (u : DltDaemonRegisteredUsers) : list Ctx.DltDaemonContext :=
  take (Z.to_nat (num_contexts u)) (default [] (contexts u)).

(** An array of whole blocks with room behind its [n] entries. *)
Definition blocks {A} (step n : Z) (t : option (list A)) : Prop :=
  match t with
  | None => n = 0
  | Some l => 0 <= n < zlen l ∧ zlen l mod step = 0
  end.

Record apps_inv (u : DltDaemonRegisteredUsers) : Prop := {
  ai_blocks : blocks DLT_DAEMON_APPL_ALLOC_SIZE (num_applications u) (applications u);
  ai_sorted : sorted app_key (live_apps u);
  ai_ids : Forall (λ a, good_id (App.apid a)) (live_apps u)
}.
Record ctxs_inv (u : DltDaemonRegisteredUsers) : Prop := {
  ci_blocks : blocks DLT_DAEMON_CONTEXT_ALLOC_SIZE (num_contexts u) (contexts u);
  ci_sorted : sorted ctx_key (live_ctxs u);
  ci_ids : Forall good_ctx (live_ctxs u)
}.

(** The abstract tables. *)
Definition amap (u : DltDaemonRegisteredUsers) : gmap bytes App.DltDaemonApplication :=
  table app_key (live_apps u).
Definition cmap (u : DltDaemonRegisteredUsers) : gmap bytes Ctx.DltDaemonContext :=
  table ctx_key (live_ctxs u).

Lemma blocks_range {A} step n (t : option (list A)) :
  blocks step n t -> 0 <= n ∧ zlen (take (Z.to_nat n) (default [] t)) = n.
Proof. unfold blocks. destruct t as [l|]; cbn [default from_option id]; [|intros ->; done]. len. Qed.

(** ** Searching *)

(** The search of both tables: quick check against the ends, then [bsearch]. *)
Lemma search_sorted {A} (key : A -> bytes) (cmp : A -> Z) (k : bytes) (arr : list A) (n : Z) :
  0 <= n <= zlen arr -> sorted key (take (Z.to_nat n) arr) ->
  (∀ x, x ∈ take (Z.to_nat n) arr -> cmp x = match lex k (key x) with Lt => -1 | Eq => 0 | Gt => 1 end) ->
  ∃ r, bsearch cmp (S (Z.to_nat n)) 0 (Z.to_nat n) arr = Some r ∧
    match r with
    | Some i => ∃ x, take (Z.to_nat n) arr !! i = Some x ∧ key x = k
    | None => k ∉ key <$> take (Z.to_nat n) arr
    end.
Proof.
  intros Hn Hs Hc.
  assert (∀ fuel l u, (u <= Z.to_nat n)%nat ->
    bsearch cmp fuel l u arr = bsearch cmp fuel l u (take (Z.to_nat n) arr)) as Heq.
  { induction fuel as [|fuel IH]; intros l u Hu; [done|]. cbn [bsearch].
    destruct (Nat.ltb_spec l u); [|done].
    pose proof (Nat.div_mod_eq (l + u) 2). pose proof (Nat.mod_upper_bound (l + u) 2 ltac:(lia)).
    rewrite lookup_take_lt by lia. destruct (arr !! _); [|done]. bsimp.
    by rewrite (IH l ((l + u) / 2)%nat), (IH _ u) by lia. }
  rewrite Heq by lia. apply (bsearch_spec key cmp k); try done; [lia|len|].
  intros i x Hi _. apply lookup_lt_Some in Hi. rewrite length_take in Hi. lia.
Qed.

(** Nothing is before the first or behind the last element. *)
Lemma outside_not_in {A} (key : A -> bytes) (l : list A) k first last :
  sorted key l -> l !! 0%nat = Some first -> l !! (length l - 1)%nat = Some last ->
  lex k (key first) = Lt ∨ lex k (key last) = Gt -> k ∉ key <$> l.
Proof.
  intros Hs Hf Hl Hout (x & -> & Hx)%list_elem_of_fmap.
  apply list_elem_of_lookup in Hx as [i Hi]. pose proof (lookup_lt_Some _ _ _ Hi).
  destruct Hout as [Hout|Hout].
  - destruct i as [|i]; [rewrite Hf in Hi; injection Hi as ->; by rewrite lex_refl in Hout|].
    pose proof (sorted_lookup key l 0 (S i) first x Hs Hf Hi ltac:(lia)) as Hb.
    unfold before in Hb. by rewrite lex_antisym, Hb in Hout.
  - destruct (decide (i = length l - 1)%nat) as [->|];
      [rewrite Hl in Hi; injection Hi as ->; by rewrite lex_refl in Hout|].
    pose proof (sorted_lookup key l i (length l - 1) x last Hs Hi Hl ltac:(lia)) as Hb.
    unfold before in Hb. by rewrite Hb in Hout.
Qed.

Lemma application_find_spec u apid :
  apps_inv u -> good_id apid ->
  ∃ r, application_find u apid = Some r ∧
    match r with
    | Some k => ∃ a, live_apps u !! k = Some a ∧ amap u !! apid = Some a ∧ App.apid a = apid
    | None => amap u !! apid = None
    end.
Proof.
  intros [Hb Hs Hi] Hid. unfold application_find, amap. pose proof (good_id_length _ Hid) as Lid.
  destruct (Z.eqb_spec (num_applications u) 0) as [E0|E0].
  { exists None. split; [done|]. unfold live_apps. rewrite E0. done. }
  destruct (applications u) as [arr|] eqn:Ea; [|by cbn in Hb].
  destruct Hb as [Hn _]. bsimp. unfold live_apps in *. rewrite Ea in *. cbn [default from_option id] in *.
  set (n := num_applications u) in *. set (l := take (Z.to_nat n) arr) in *.
  assert (length l = Z.to_nat n) as Ll by (subst l; len).
  destruct (lookup_lt_is_Some_2 l 0) as [first Hf]; [lia|].
  destruct (lookup_lt_is_Some_2 l (length l - 1)) as [last Hl]; [lia|].
  assert (arr !! 0%nat = Some first) as -> by (by rewrite <-Hf; subst l; rewrite lookup_take_lt by lia).
  assert (arr !! Z.to_nat (n - 1) = Some last) as ->.
  { rewrite <-Hl, Ll. subst l. rewrite lookup_take_lt by lia. f_equal. lia. }
  bsimp. pose proof (sorted_NoDup app_key l Hs) as Hnd. rewrite Forall_forall in Hi.
  rewrite (memcmp_lex 4 apid (App.apid first)) by (done || by apply good_id_length, Hi; eapply list_elem_of_lookup_2).
  rewrite (memcmp_lex 4 apid (App.apid last)) by (done || by apply good_id_length, Hi; eapply list_elem_of_lookup_2).
  destruct (_ || _) eqn:Eo.
  { exists None. split; [done|]. apply table_lookup_None.
    apply (outside_not_in app_key l apid first last Hs Hf Hl). unfold app_key.
    destruct (lex apid (App.apid first)); [right|by left|right];
      destruct (lex apid (App.apid last)); done. }
  rewrite set_id_good by done. bsimp.
  destruct (search_sorted app_key (λ x, memcmp 4 apid (App.apid x)) apid arr n) as (r & -> & Hr);
    [lia|done| |].
  { intros x Hx. apply memcmp_lex; [done|]. by apply good_id_length, Hi. }
  exists r. split; [done|]. fold l in Hr. destruct r as [k|]; [|by apply table_lookup_None].
  destruct Hr as (a & Hk & Ka). exists a. split; [done|]. split; [|done].
  apply table_lookup; [done|]. split; [by eapply list_elem_of_lookup_2|done].
Qed.

Lemma context_find_spec u apid ctid :
  ctxs_inv u -> good_id apid -> good_id ctid ->
  ∃ r, context_find u apid ctid = Some r ∧
    match r with
    | Some k => ∃ c, live_ctxs u !! k = Some c ∧ cmap u !! (apid ++ ctid) = Some c ∧
                  ctx_key c = apid ++ ctid
    | None => cmap u !! (apid ++ ctid) = None
    end.
Proof.
  intros [Hb Hs Hi] Hida Hidc. unfold context_find, cmap.
  pose proof (good_id_length _ Hida) as La. pose proof (good_id_length _ Hidc) as Lc.
  destruct (Z.eqb_spec (num_contexts u) 0) as [E0|E0].
  { exists None. split; [done|]. unfold live_ctxs. rewrite E0. done. }
  destruct (contexts u) as [arr|] eqn:Ea; [|by cbn in Hb].
  destruct Hb as [Hn _]. bsimp. unfold live_ctxs in *. rewrite Ea in *. cbn [default from_option id] in *.
  set (n := num_contexts u) in *. set (l := take (Z.to_nat n) arr) in *.
  assert (length l = Z.to_nat n) as Ll by (subst l; len).
  destruct (lookup_lt_is_Some_2 l 0) as [first Hf]; [lia|].
  destruct (lookup_lt_is_Some_2 l (length l - 1)) as [last Hl]; [lia|].
  assert (arr !! 0%nat = Some first) as -> by (by rewrite <-Hf; subst l; rewrite lookup_take_lt by lia).
  assert (arr !! Z.to_nat (n - 1) = Some last) as ->.
  { rewrite <-Hl, Ll. subst l. rewrite lookup_take_lt by lia. f_equal. lia. }
  bsimp. pose proof (sorted_NoDup ctx_key l Hs) as Hnd. rewrite Forall_forall in Hi.
  assert (length (Ctx.apid first) = 4%nat) as Lf
    by (by apply good_id_length, Hi; eapply list_elem_of_lookup_2).
  assert (length (Ctx.apid last) = 4%nat) as Lt'
    by (by apply good_id_length, Hi; eapply list_elem_of_lookup_2).
  rewrite !(memcmp_lex 4 apid) by done. destruct (_ || _) eqn:Eo.
  { exists None. split; [done|]. apply table_lookup_None.
    apply (outside_not_in ctx_key l _ first last Hs Hf Hl). unfold ctx_key.
    rewrite !lex_app_eq by lia.
    destruct (lex apid (Ctx.apid first)); [right|by left|right];
      destruct (lex apid (Ctx.apid last)); done. }
  rewrite !set_id_good by done. bsimp.
  destruct (search_sorted ctx_key (λ x, let cmp := memcmp 4 apid (Ctx.apid x) in
    if cmp <? 0 then -1 else if cmp =? 0 then memcmp 4 ctid (Ctx.ctid x) else 1) (apid ++ ctid) arr n)
    as (r & E & Hr); [lia|done| |].
  { intros x Hx. apply Hi in Hx as [??]. apply cmp_stages; try done; by apply good_id_length. }
  exists r. split; [exact E|]. fold l in Hr. destruct r as [k|]; [|by apply table_lookup_None].
  destruct Hr as (c & Hk & Kc). exists c. split; [done|]. split; [|done].
  apply table_lookup; [done|]. split; [by eapply list_elem_of_lookup_2|done].
Qed.

(** ** The daemon *)

Definition own_list (d : DltDaemon) (e : bytes) (i : nat) (u : DltDaemonRegisteredUsers) : Prop :=
  dlt_daemon_find_users_list d e = Some i ∧ user_list d !! i = Some u.

Lemma find_users_set l e i u' u k :
  l !! i = Some u -> ecu u' = ecu u -> find_users k (<[i:=u']> l) e = find_users k l e.
Proof.
  intros Hi He. revert i k Hi. induction l as [|x l IH]; intros [|i] k Hi; try done.
  - injection Hi as ->. cbn. by rewrite He.
  - cbn. case_match; [done|]. by apply IH.
Qed.

(** Updating a list does not change which list belongs to which ECU. *)
Lemma set_list_same d i u u' e :
  user_list d !! i = Some u -> ecu u' = ecu u ->
  dlt_daemon_find_users_list (set_list d i u') e = dlt_daemon_find_users_list d e.
Proof. intros Hi He. by apply (find_users_set _ _ _ _ u). Qed.

Lemma find_users_lookup l e k i : find_users k l e = Some i -> (k <= i < k + length l)%nat.
Proof.
  revert k. induction l as [|x l IH]; intros k; cbn; [done|].
  case_match; [intros [= <-]; lia|]. intros H'. apply IH in H'. lia.
Qed.

Lemma set_list_lookup_eq d i u u' : user_list d !! i = Some u -> user_list (set_list d i u') !! i = Some u'.
Proof. intros H. apply list_lookup_insert_eq. by eapply lookup_lt_Some. Qed.
Lemma set_list_lookup_ne d i j u' : i <> j -> user_list (set_list d i u') !! j = user_list d !! j.
Proof. intros. by apply list_lookup_insert_ne. Qed.
Lemma set_list_set_list d i u v : set_list (set_list d i u) i v = set_list d i v.
Proof. unfold set_list. cbn. by rewrite list_insert_insert_eq. Qed.

(** What every operation needs in order not to leave the arrays. *)
Record shaped (u : DltDaemonRegisteredUsers) : Prop := {
  sh_apps : blocks DLT_DAEMON_APPL_ALLOC_SIZE (num_applications u) (applications u);
  sh_ctxs : ctxs_inv u
}.
Definition shape (d : DltDaemon) : Prop := ∀ j u, user_list d !! j = Some u -> shaped u.

Lemma shape_set_list d i u : shape d -> shaped u -> shape (set_list d i u).
Proof.
  intros Hd Hu j v Hj. destruct (decide (i = j)) as [<-|].
  - cbn in Hj. pose proof (lookup_lt_Some _ _ _ Hj) as Hl. rewrite length_insert in Hl.
    rewrite list_lookup_insert_eq in Hj by done. by injection Hj as <-.
  - rewrite set_list_lookup_ne in Hj by done. by apply (Hd j).
Qed.

(** The application array of list [j] with its counter. *)
Definition arr (d : DltDaemon) (j : nat) : option (option (list App.DltDaemonApplication) * Z) :=
  u ← user_list d !! j; Some (applications u, num_applications u).

(** Two daemons whose applications and ECUs are the same. *)
Definition same_apps (d d' : DltDaemon) : Prop :=
  (∀ j, arr d' j = arr d j) ∧ (∀ e, dlt_daemon_find_users_list d' e = dlt_daemon_find_users_list d e) ∧
  ecuid d' = ecuid d.

Lemma map_first_take {A} n (g : A -> A) l :
  0 <= n <= zlen l -> take (Z.to_nat n) (map_first n g l) = g <$> take (Z.to_nat n) l.
Proof. intros H. unfold map_first. apply take_app_length'. rewrite length_fmap. len. Qed.
Lemma map_first_length {A} n (g : A -> A) l : length (map_first n g l) = length l.
Proof. unfold map_first. len. Qed.

Lemma sorted_fmap {A} (key : A -> bytes) (g : A -> A) l :
  (∀ x, key (g x) = key x) -> sorted key l -> sorted key (g <$> l).
Proof.
  intros Hg. induction 1 as [|x l Hs IH Hx]; [constructor|]. rewrite fmap_cons. constructor; [done|].
  apply Forall_fmap. eapply Forall_impl; [exact Hx|]. intros y. unfold before, compose. by rewrite !Hg.
Qed.

Lemma ctxs_inv_map u (g : Ctx.DltDaemonContext -> Ctx.DltDaemonContext) ctxs :
  ctxs_inv u -> contexts u = Some ctxs ->
  (∀ c, Ctx.apid (g c) = Ctx.apid c ∧ Ctx.ctid (g c) = Ctx.ctid c) ->
  ctxs_inv (set_ctxs u (Some (map_first (num_contexts u) g ctxs)) (num_contexts u)).
Proof.
  intros [Hb Hs Hi] Hc Hg. rewrite Hc in Hb. destruct Hb as [Hn Hm]. unfold live_ctxs in *. rewrite Hc in *.
  split; unfold live_ctxs; cbn [contexts num_contexts set_ctxs default from_option id] in *.
  - cbn. by rewrite map_first_length.
  - rewrite map_first_take by lia. apply sorted_fmap; [|done]. intros x. unfold ctx_key.
    by destruct (Hg x) as [-> ->].
  - rewrite map_first_take by lia. apply Forall_fmap. eapply Forall_impl; [exact Hi|].
    intros x. unfold compose, good_ctx. by destruct (Hg x) as [-> ->].
Qed.

Lemma reset_ctx_fd_ids fd c : Ctx.apid (reset_ctx_fd fd c) = Ctx.apid c ∧ Ctx.ctid (reset_ctx_fd fd c) = Ctx.ctid c.
Proof. unfold reset_ctx_fd. by case_match. Qed.

Lemma contexts_invalidate_ok d e fd :
  shape d -> ∃ rc d', dlt_daemon_contexts_invalidate_fd d e fd = Some (rc, d') ∧ shape d' ∧ same_apps d d'.
Proof.
  intros Hd. unfold dlt_daemon_contexts_invalidate_fd.
  destruct (dlt_daemon_find_users_list d e) as [i|] eqn:Ef; [|by eexists _, d].
  pose proof (find_users_lookup _ _ _ _ Ef) as Hi.
  destruct (lookup_lt_is_Some_2 (user_list d) i) as [u Hu]; [lia|]. rewrite Hu. bsimp.
  destruct (Z.leb_spec (num_contexts u) 0); [by eexists _, d|].
  destruct (Hd i u Hu) as [Hsa Hsc]. pose proof (ci_blocks _ Hsc) as Hb.
  destruct (contexts u) as [ctxs|] eqn:Ec; [|cbn in Hb; lia]. destruct Hb as [Hn _]. bsimp.
  rewrite ltb_false by lia. eexists _, _. split; [reflexivity|]. split.
  - apply shape_set_list; [done|]. split; [done|]. apply ctxs_inv_map; [done|done|].
    intros c. apply reset_ctx_fd_ids.
  - split_and!; [|intros e'; by apply (set_list_same _ _ u)|done].
    intros j. unfold arr. destruct (decide (i = j)) as [<-|].
    + by rewrite (set_list_lookup_eq _ _ u), Hu by done.
    + by rewrite set_list_lookup_ne by done.
Qed.

(** ** Registering an application *)

(** [d'] is [d] with the applications [apps] in list [i]; only handles of
    contexts may differ otherwise. *)
Record becomes (d d' : DltDaemon) (i : nat) (apps : list App.DltDaemonApplication) (n : Z) : Prop := {
  bc_shape : shape d';
  bc_arr : arr d' i = Some (Some apps, n);
  bc_others : ∀ j, j <> i -> arr d' j = arr d j;
  bc_find : ∀ e, dlt_daemon_find_users_list d' e = dlt_daemon_find_users_list d e
}.

Lemma becomes_trans d1 d2 d3 i apps apps' n n' :
  becomes d1 d2 i apps n -> becomes d2 d3 i apps' n' -> becomes d1 d3 i apps' n'.
Proof.
  intros [? ? O1 F1] [? ? O2 F2]. split; try done.
  - intros j Hj. by rewrite O2, O1.
  - intros e. by rewrite F2, F1.
Qed.

Lemma becomes_same d d' i apps n :
  arr d i = Some (Some apps, n) -> shape d' -> same_apps d d' -> becomes d d' i apps n.
Proof. intros Ha Hs (Hsame & Hf & _). split; try done. by rewrite Hsame. Qed.

Lemma arr_Some d i apps n :
  arr d i = Some (Some apps, n) ->
  ∃ u, user_list d !! i = Some u ∧ applications u = Some apps ∧ num_applications u = n.
Proof.
  unfold arr. destruct (user_list d !! i) as [u|] eqn:Eu; [|done]. bsimp. intros [= <- <-]. by exists u.
Qed.

Lemma shape_arr d i apps n :
  shape d -> arr d i = Some (Some apps, n) ->
  0 <= n < zlen apps ∧ zlen apps mod DLT_DAEMON_APPL_ALLOC_SIZE = 0.
Proof.
  intros Hs (u & Hu & Ha & <-)%arr_Some. destruct (Hs i u Hu) as [Hb _]. by rewrite Ha in Hb.
Qed.

(** Replacing the array of a list. *)
Lemma set_apps_blocks d i u apps n :
  shape d -> user_list d !! i = Some u -> blocks DLT_DAEMON_APPL_ALLOC_SIZE n (Some apps) ->
  becomes d (set_list d i (set_apps u (Some apps) n)) i apps n.
Proof.
  intros Hs Hu Hb. destruct (Hs i u Hu) as [_ [Hcb Hcs Hci]]. split.
  - apply shape_set_list; [done|]. by split.
  - unfold arr. by rewrite (set_list_lookup_eq _ _ u) by done.
  - intros j Hj. unfold arr. by rewrite set_list_lookup_ne by done.
  - intros e. by apply (set_list_same _ _ u).
Qed.

Lemma set_apps_becomes d i u apps apps' :
  shape d -> user_list d !! i = Some u -> applications u = Some apps -> length apps' = length apps ->
  becomes d (set_list d i (set_apps u (Some apps') (num_applications u))) i apps' (num_applications u).
Proof.
  intros Hs Hu Ha Hl. apply set_apps_blocks; [done|done|]. destruct (Hs i u Hu) as [Hb _].
  rewrite Ha in Hb. cbn in *. by rewrite Hl.
Qed.

Lemma update_app_becomes d i k g apps n a :
  shape d -> arr d i = Some (Some apps, n) -> apps !! k = Some a ->
  ∃ d', update_app d i k g = Some d' ∧ becomes d d' i (<[k := g a]> apps) n ∧
    (∀ u', user_list d' !! i = Some u' -> ∃ u, user_list d !! i = Some u ∧ live_ctxs u' = live_ctxs u).
Proof.
  intros Hs (u & Hu & Ha & <-)%arr_Some Hk. unfold update_app. rewrite Hu. bsimp. rewrite Ha. bsimp.
  rewrite Hk. bsimp. eexists. split; [reflexivity|]. split.
  - apply (set_apps_becomes _ _ _ apps); try done. apply length_insert.
  - intros u'. rewrite (set_list_lookup_eq _ _ u) by done. intros [= <-]. by exists u.
Qed.

Lemma get_app_arr d i k apps n : arr d i = Some (Some apps, n) -> get_app d i k = apps !! k.
Proof. intros (u & Hu & Ha & <-)%arr_Some. unfold get_app. rewrite Hu. bsimp. by rewrite Ha. Qed.

Definition drop_handle (a : App.DltDaemonApplication) : App.DltDaemonApplication :=
  if App.user_handle a =? DLT_FD_INIT then a else App.set_handle a DLT_FD_INIT false.

Lemma reset_user_handle_becomes d i k apps n a :
  shape d -> arr d i = Some (Some apps, n) -> apps !! k = Some a ->
  ∃ d', dlt_daemon_application_reset_user_handle d i k = Some d' ∧
    becomes d d' i (<[k := drop_handle a]> apps) n.
Proof.
  intros Hs Harr Hk. pose proof Harr as (u & Hu & Ha & <-)%arr_Some.
  unfold dlt_daemon_application_reset_user_handle, drop_handle. rewrite Hu. bsimp. rewrite Ha. bsimp.
  rewrite Hk. bsimp. destruct (_ =? _).
  { eexists. split; [reflexivity|]. rewrite list_insert_id by done. by split. }
  destruct (contexts_invalidate_ok d (ecuid d) (App.user_handle a) Hs) as (rc & d1 & -> & Hs1 & Hsame).
  bsimp. assert (arr d1 i = Some (Some apps, num_applications u)) as Harr1 by (by rewrite (proj1 Hsame)).
  pose proof Harr1 as (u1 & Hu1 & Ha1 & Hn1)%arr_Some. rewrite Hu1. bsimp. eexists. split; [reflexivity|].
  eapply becomes_trans; [by eapply becomes_same|]. rewrite <-Hn1.
  apply (set_apps_becomes _ _ _ apps); try done. apply length_insert.
Qed.

Lemma applications_invalidate_becomes d e fd i apps n :
  shape d -> dlt_daemon_find_users_list d e = Some i -> arr d i = Some (Some apps, n) ->
  ∃ rc d', dlt_daemon_applications_invalidate_fd d e fd = Some (rc, d') ∧
    becomes d d' i (map_first n (reset_app_fd fd) apps) n.
Proof.
  intros Hs Hf Harr. pose proof (shape_arr _ _ _ _ Hs Harr) as [Hn _].
  pose proof Harr as (u & Hu & Ha & Hnu)%arr_Some.
  unfold dlt_daemon_applications_invalidate_fd. rewrite Hf, Hu. bsimp. rewrite Hnu.
  destruct (Z.leb_spec n 0).
  { eexists _, d. split; [reflexivity|]. assert (n = 0) as E0 by lia.
    subst n. rewrite E0 in *. by split. }
  rewrite Ha. bsimp. rewrite ltb_false by lia. eexists _, _. split; [reflexivity|]. rewrite <-Hnu.
  apply (set_apps_becomes _ _ _ apps); try done. apply map_first_length.
Qed.

(** After [dlt_daemon_contexts_invalidate_fd] no context of the ECU has the handle. *)
Definition handle_unused (d : DltDaemon) (i : nat) (h : Z) : Prop :=
  ∀ u c, user_list d !! i = Some u -> c ∈ live_ctxs u -> Ctx.user_handle c = h -> h = DLT_FD_INIT.

Lemma contexts_invalidate_unused d e fd i rc d' :
  shape d -> dlt_daemon_find_users_list d e = Some i ->
  dlt_daemon_contexts_invalidate_fd d e fd = Some (rc, d') -> handle_unused d' i fd.
Proof.
  intros Hs Hf. unfold dlt_daemon_contexts_invalidate_fd. rewrite Hf.
  destruct (user_list d !! i) as [u|] eqn:Hu; [|done]. bsimp.
  destruct (Hs i u Hu) as [_ [Hb _ _]]. destruct (Z.leb_spec (num_contexts u) 0).
  { intros [= <- <-] u' c Hu' Hc. rewrite Hu in Hu'. injection Hu' as <-. unfold live_ctxs in Hc.
    replace (Z.to_nat (num_contexts u)) with 0%nat in Hc by lia. by rewrite take_0, elem_of_nil in Hc. }
  destruct (contexts u) as [ctxs|] eqn:Ec; [|cbn in Hb; lia]. destruct Hb as [Hn _]. bsimp.
  rewrite ltb_false by lia. intros [= <- <-] u' c. rewrite (set_list_lookup_eq _ _ u) by done.
  intros [= <-]. unfold live_ctxs. cbn [contexts num_contexts set_ctxs default from_option id].
  rewrite map_first_take by lia. intros (x & -> & _)%list_elem_of_fmap. unfold reset_ctx_fd.
  destruct (Z.eqb_spec (Ctx.user_handle x) fd); cbn; congruence.
Qed.

(** The entry after a registration, from the entry before. *)
Definition reopened (a : App.DltDaemonApplication) (pid : Z) : App.DltDaemonApplication :=
  if App.pid a =? pid then a else App.set_pid (drop_handle a) 0.
Definition needs_handle (a : App.DltDaemonApplication) (pid : Z) : bool :=
  (App.user_handle (reopened a pid) =? DLT_FD_INIT) && negb (pid =? 0).
Definition registered (open_fifo : Z -> Z) (a : App.DltDaemonApplication) (pid : Z)
  (description : option bytes) : App.DltDaemonApplication :=
  let a' := App.set_description (reopened a pid) description in
  if needs_handle a pid then App.set_pid (App.set_handle a' (open_fifo pid) (0 <=? open_fifo pid)) pid
  else a'.

(** The other entries: whoever had the number of the new handle loses it. *)
Definition others (open_fifo : Z -> Z) (a : App.DltDaemonApplication) (pid : Z)
  : App.DltDaemonApplication -> App.DltDaemonApplication :=
  if needs_handle a pid then reset_app_fd (open_fifo pid) else id.

Lemma reopened_description a pid descr :
  reopened (App.set_description a descr) pid = App.set_description (reopened a pid) descr.
Proof. unfold reopened, drop_handle. destruct a. cbn. repeat case_match; done. Qed.

Lemma map_first_id {A} n (l : list A) : map_first n id l = l.
Proof. unfold map_first. by rewrite list_fmap_id, take_drop. Qed.

Lemma map_first_insert {A} n (g : A -> A) l k x :
  0 <= n <= zlen l -> (k < Z.to_nat n)%nat -> map_first n g (<[k:=x]> l) = <[k := g x]> (map_first n g l).
Proof.
  intros Hn Hk. unfold map_first. rewrite take_insert_lt, drop_insert_lt by lia.
  rewrite list_fmap_insert, insert_app_l; [done|]. rewrite length_fmap. len.
Qed.

Lemma describe_becomes M d i k description apps n a :
  heap_ok M -> shape d -> arr d i = Some (Some apps, n) -> apps !! k = Some a ->
  ∃ d', application_describe M d i k description = Some d' ∧
    becomes d d' i (<[k := App.set_description a description]> apps) n.
Proof.
  unfold application_describe. intros HM Hs Harr Hk. pose proof (lookup_lt_Some _ _ _ Hk) as Lk.
  destruct (update_app_becomes d i k (λ a, App.set_description a None) apps n a Hs Harr Hk)
    as (d1 & -> & B1 & _). bsimp. destruct description as [s|]; [|by exists d1].
  destruct (malloc M (zlen s + 1)) as [m|] eqn:Hm; [|by apply HM in Hm].
  edestruct (update_app_becomes d1 i k (λ a, App.set_description a (Some s))) as (d2 & E2 & B2 & _);
    [apply B1|apply B1|by apply list_lookup_insert_eq|].
  exists d2. split; [done|]. eapply becomes_trans; [done|]. by rewrite list_insert_insert_eq in B2.
Qed.

(** The first part of [application_register]: description and process. *)
Lemma reopen_becomes d i k pid apps n a :
  shape d -> arr d i = Some (Some apps, n) -> apps !! k = Some a ->
  ∃ d', (if negb (App.pid a =? pid) then
           d ← dlt_daemon_application_reset_user_handle d i k;
           update_app d i k (λ a, App.set_pid a 0)
         else Some d) = Some d' ∧ becomes d d' i (<[k := reopened a pid]> apps) n.
Proof.
  intros Hs Harr Hk. pose proof (lookup_lt_Some _ _ _ Hk) as Lk. unfold reopened.
  destruct (App.pid a =? pid); cbn [negb].
  { exists d. split; [done|]. rewrite list_insert_id by done. by split. }
  destruct (reset_user_handle_becomes d i k apps n a Hs Harr Hk) as (d1 & -> & B1). bsimp.
  edestruct (update_app_becomes d1 i k (λ a, App.set_pid a 0)) as (d2 & -> & B2 & _);
    [apply B1|apply B1|by apply list_lookup_insert_eq|].
  exists d2. split; [done|]. eapply becomes_trans; [done|]. by rewrite list_insert_insert_eq in B2.
Qed.

Lemma application_register_ok M open_fifo d i k pid description e apps n a :
  heap_ok M -> shape d -> dlt_daemon_find_users_list d e = Some i ->
  arr d i = Some (Some apps, n) -> (k < Z.to_nat n)%nat -> apps !! k = Some a ->
  ∃ d', application_register M open_fifo d i k pid description e = Some d' ∧
    becomes d d' i (<[k := registered open_fifo a pid description]>
                      (map_first n (others open_fifo a pid) apps)) n ∧
    (needs_handle a pid = true -> handle_unused d' i (open_fifo pid)).
Proof.
  intros HM Hs Hf Harr Hkn Hk. pose proof (lookup_lt_Some _ _ _ Hk) as Lk.
  pose proof (shape_arr _ _ _ _ Hs Harr) as [Hn _].
  unfold application_register, registered, others. cbv zeta.
  destruct (describe_becomes M d i k description apps n a HM Hs Harr Hk) as (d1 & -> & B1). bsimp.
  set (a1 := App.set_description a description) in *.
  assert (<[k:=a1]> apps !! k = Some a1) as Hk1 by (by apply list_lookup_insert_eq).
  rewrite (get_app_arr _ _ _ _ _ (bc_arr _ _ _ _ _ B1)), Hk1. bsimp.
  destruct (reopen_becomes d1 i k pid _ n a1 (bc_shape _ _ _ _ _ B1) (bc_arr _ _ _ _ _ B1) Hk1)
    as (d2 & -> & B2). rewrite list_insert_insert_eq in B2. bsimp.
  rewrite <-(reopened_description a pid description). fold a1. set (a2 := reopened a1 pid) in *.
  assert (<[k:=a2]> apps !! k = Some a2) as Hk2 by (by apply list_lookup_insert_eq).
  rewrite (get_app_arr _ _ _ _ _ (bc_arr _ _ _ _ _ B2)), Hk2. bsimp.
  assert (needs_handle a pid = (App.user_handle a2 =? DLT_FD_INIT) && negb (pid =? 0)) as <-.
  { unfold needs_handle. subst a2 a1. by rewrite reopened_description. }
  pose proof (becomes_trans _ _ _ _ _ _ _ _ B1 B2) as B.
  destruct (needs_handle a pid).
  2: { exists d2. split; [done|]. rewrite map_first_id. done. }
  destruct (applications_invalidate_becomes d2 e (open_fifo pid) i (<[k:=a2]> apps) n (bc_shape _ _ _ _ _ B))
    as (rc3 & d3 & -> & B3); [by rewrite (bc_find _ _ _ _ _ B)|apply B|]. bsimp.
  pose proof (becomes_trans _ _ _ _ _ _ _ _ B B3) as B'.
  destruct (contexts_invalidate_ok d3 e (open_fifo pid) (bc_shape _ _ _ _ _ B'))
    as (rc4 & d4 & E4 & Hs4 & Hsame). rewrite E4. bsimp.
  pose proof (contexts_invalidate_unused d3 e _ i _ _ (bc_shape _ _ _ _ _ B')
    ltac:(by rewrite (bc_find _ _ _ _ _ B')) E4) as Hun.
  pose proof (becomes_trans _ _ _ _ _ _ _ _ B' (becomes_same _ _ _ _ _ (bc_arr _ _ _ _ _ B') Hs4 Hsame)) as B4.
  rewrite map_first_insert in B4 by (lia || done).
  edestruct (update_app_becomes d4 i k) as (d5 & -> & B5 & Hc);
    [apply B4|apply B4|apply list_lookup_insert_eq; by rewrite map_first_length|].
  exists d5. split; [done|]. rewrite list_insert_insert_eq in B5. split.
  - pose proof (becomes_trans _ _ _ _ _ _ _ _ B4 B5) as B6. unfold reset_app_fd in B6 at 1.
    by destruct (App.user_handle a2 =? open_fifo pid).
  - intros _ u' c Hu' Hin. destruct (Hc u' Hu') as (u4 & Hu4 & Hl). rewrite Hl in Hin. by apply (Hun u4).
Qed.

(** ** Adding an application *)

Definition daemon_inv (d : DltDaemon) : Prop :=
  ∀ j u, user_list d !! j = Some u -> apps_inv u ∧ ctxs_inv u.

Lemma daemon_inv_shape d : daemon_inv d -> shape d.
Proof. intros H j u Hu. destruct (H j u Hu) as [[??] ?]. by split. Qed.

Lemma apps_inv_arr u u' :
  applications u' = applications u -> num_applications u' = num_applications u -> apps_inv u -> apps_inv u'.
Proof. intros Ha Hn [Hb Hs Hi]. split; unfold live_apps; by rewrite ?Ha, ?Hn. Qed.

Lemma becomes_inv d d' i apps n u' :
  daemon_inv d -> becomes d d' i apps n -> user_list d' !! i = Some u' -> apps_inv u' -> daemon_inv d'.
Proof.
  intros Hd [Hs Ha Ho _] Hu' Hi j v Hv. split; [|by destruct (Hs j v Hv)].
  destruct (decide (j = i)) as [->|Hne]; [rewrite Hu' in Hv; by injection Hv as <-|].
  specialize (Ho j Hne). unfold arr in Ho. rewrite Hv in Ho. destruct (user_list d !! j) as [w|] eqn:Ew; [|done].
  injection Ho as H1 H2. destruct (Hd j w Ew) as [Hw _]. by apply (apps_inv_arr w).
Qed.

Lemma new_array_ok {A} M size (x : A) n :
  heap_ok M -> new_array M size x n = Some (replicate (Z.to_nat n) x).
Proof. intros HM. unfold new_array. destruct (malloc _ _) eqn:E; [done|]. by apply HM in E. Qed.

(** The array grows whenever the new entry completes a block. *)
Lemma grow_table_ok {A} M size step (x : A) n t :
  heap_ok M -> 0 < step -> blocks step n (Some t) ->
  ∃ t', grow_table (new_array M size x) step (n + 1) t = Some (Some t') ∧
    blocks step (n + 1) (Some t') ∧ take (Z.to_nat n) t' = take (Z.to_nat n) t.
Proof.
  intros HM Hp [Hn Hm]. unfold grow_table. pose proof (Z.div_mod (n + 1) step ltac:(lia)) as Hdiv.
  pose proof (Z.div_mod (zlen t) step ltac:(lia)) as Hdivt.
  destruct (Z.eqb_spec ((n + 1) mod step) 0) as [E|E].
  - rewrite new_array_ok by done. set (q := (n + 1) / step) in *.
    assert (0 <= q) by (apply Z.div_pos; lia).
    assert (length (take (Z.to_nat (n + 1)) t) = Z.to_nat (n + 1)) as Lt
      by (rewrite length_take; lia).
    rewrite mread_Some by lia. bsimp. change (drop (Z.to_nat 0) t) with t.
    rewrite mwrite_Some by (rewrite ?Lt, ?length_replicate; nia). bsimp.
    eexists. split; [reflexivity|]. change (Z.to_nat 0) with 0%nat.
    rewrite Lt, drop_replicate, take_0, Nat.add_0_l, app_nil_l. split.
    + unfold blocks. rewrite length_app, Lt, length_replicate. split; [nia|].
      replace (Z.of_nat _) with ((q + 1) * step) by nia. apply Z_mod_mult.
    + rewrite take_app_le by (rewrite Lt; lia). rewrite take_take. f_equal. lia.
  - exists t. split; [done|]. split; [|done]. split; [|done]. split; [lia|].
    destruct (Z.eq_dec (n + 1) (zlen t)) as [Eq|]; [|lia]. by rewrite Eq in E.
Qed.

(** A new entry, before it is registered. *)
Definition new_application (apid : bytes) : App.DltDaemonApplication :=
  {| App.apid := apid; App.pid := 0; App.user_handle := DLT_FD_INIT; App.owns_user_handle := false;
     App.application_description := None; App.num_contexts := 0 |}.

(** Appending an entry to an array with room. *)
Lemma take_insert_end {A} (n : Z) (t : list A) x :
  0 <= n < zlen t -> take (Z.to_nat (n + 1)) (<[Z.to_nat n := x]> t) = take (Z.to_nat n) t ++ [x].
Proof.
  intros Hn. replace (Z.to_nat (n + 1)) with (S (Z.to_nat n)) by lia.
  rewrite (take_S_r _ _ x) by (apply list_lookup_insert_eq; lia). by rewrite take_insert_ge by lia.
Qed.

(** The slot [k] of the array [t] for [key]: the entry of the map, or [entry]
    appended behind the others. *)
Record table_slot {A} (step : Z) (l : list A) (m : gmap bytes A) (key : bytes) (entry : A)
  (t : list A) (n : Z) (k : nat) (is_new : bool) (x : A) : Prop := {
  ts_blocks : blocks step n (Some t);
  ts_lookup : take (Z.to_nat n) t !! k = Some x;
  ts_entry : x = default entry (m !! key);
  ts_live : if is_new then m !! key = None ∧ k = length l ∧ take (Z.to_nat n) t = l ++ [x]
            else m !! key = Some x ∧ take (Z.to_nat n) t = l
}.
Abbreviation app_slot u apid :=
  (table_slot DLT_DAEMON_APPL_ALLOC_SIZE (live_apps u) (amap u) apid (new_application apid)).

Lemma slot_grow {A} (M : allocator) (size step : Z) (x entry : A) (n : Z) (t l : list A) (m : gmap bytes A) (key : bytes) :
  heap_ok M -> 0 < step -> blocks step n (Some t) -> take (Z.to_nat n) t = l -> m !! key = None ->
  ∃ t' y, grow_table (new_array M size x) step (n + 1) t = Some (Some t') ∧ t' !! Z.to_nat n = Some y ∧
    table_slot step l m key entry (<[Z.to_nat n := entry]> t') (n + 1) (Z.to_nat n) true entry.
Proof.
  intros HM Hp Hb Hl Hm. destruct (grow_table_ok M size step x n t HM Hp Hb) as (t' & -> & [Hnt Hmt] & Ltk).
  destruct Hb as [Hn _]. destruct (lookup_lt_is_Some_2 t' (Z.to_nat n)) as [y Hy]; [lia|].
  exists t', y. split; [done|]. split; [done|].
  assert (length l = Z.to_nat n) as Ll by (rewrite <-Hl, length_take; lia).
  pose proof (take_insert_end n t' entry ltac:(lia)) as Et. rewrite Ltk, Hl in Et. split.
  - unfold blocks. by rewrite length_insert.
  - rewrite Et, <-Ll. by apply list_lookup_middle.
  - by rewrite Hm.
  - by rewrite Ll.
Qed.

Lemma slot_array_ok M junk u :
  heap_ok M -> apps_inv u ->
  ∃ apps, match applications u with
          | Some a => Some a
          | None => new_array M sizeof_DltDaemonApplication junk DLT_DAEMON_APPL_ALLOC_SIZE
          end = Some apps ∧
    blocks DLT_DAEMON_APPL_ALLOC_SIZE (num_applications u) (Some apps) ∧
    take (Z.to_nat (num_applications u)) apps = live_apps u.
Proof.
  intros HM [Hb _ _]. unfold live_apps. destruct (applications u) as [apps|]; [by exists apps|].
  cbn in Hb. rewrite Hb, new_array_ok by done. eexists. split; [reflexivity|]. done.
Qed.

Lemma application_slot_ok M junk u apid :
  heap_ok M -> apps_inv u -> good_id apid ->
  ∃ apps n k is_new a,
    application_slot M junk u apid = Some (set_apps u (Some apps) n, Some (k, is_new)) ∧
    app_slot u apid apps n k is_new a.
Proof.
  intros HM Hinv Hid. unfold application_slot.
  destruct (slot_array_ok M junk u HM Hinv) as (apps & -> & Hb & Hl).
  set (u1 := set_apps u (Some apps) (num_applications u)).
  assert (live_apps u1 = live_apps u) as El by exact Hl.
  assert (apps_inv u1) as Hinv1 by (destruct Hinv; split; rewrite ?El; done).
  destruct (application_find_spec u1 apid Hinv1 Hid) as (r & -> & Hr). bsimp.
  unfold amap in Hr. rewrite El in Hr. fold (amap u) in Hr. destruct r as [k|].
  - destruct Hr as (a & Hk & Ha & Eid). eexists apps, _, k, false, a. split; [reflexivity|].
    split; rewrite ?Hl, ?Ha; done.
  - change (num_applications u1) with (num_applications u). set (n := num_applications u) in *.
    destruct (slot_grow M sizeof_DltDaemonApplication DLT_DAEMON_APPL_ALLOC_SIZE junk
      (new_application apid) n apps _ _ apid HM eq_refl Hb Hl Hr) as (t & x & -> & Hx & Hslot).
    bsimp. replace (n + 1 - 1) with n by lia. rewrite Hx. bsimp. rewrite set_id_good by done. bsimp.
    by eexists _, _, _, true, _.
Qed.

Abbreviation apps_table := (sorted_table app_key (λ a, good_id (App.apid a))).

Lemma apps_inv_table u : apps_inv u -> apps_table (live_apps u) (amap u).
Proof. intros [_ Hs Hi]. by split. Qed.

Lemma registered_id o a pid descr : App.apid (registered o a pid descr) = App.apid a.
Proof. unfold registered, reopened, drop_handle. repeat case_match; done. Qed.
Lemma others_id o a pid x : App.apid (others o a pid x) = App.apid x.
Proof. unfold others, reset_app_fd. repeat case_match; done. Qed.

Lemma live_update {A} n k (g : A -> A) x l :
  0 <= n <= zlen l -> (k < Z.to_nat n)%nat ->
  take (Z.to_nat n) (<[k := x]> (map_first n g l)) = <[k := x]> (g <$> take (Z.to_nat n) l).
Proof. intros Hn Hk. by rewrite take_insert_lt, map_first_take. Qed.

(** The final array of a registration, as a list and as a map. *)
Lemma slot_table u apid apps n k is_new a o pid descr :
  apps_inv u -> good_id apid -> app_slot u apid apps n k is_new a ->
  apps_table ((if is_new then qsort dlt_daemon_cmp_apid else id)
                (<[k := registered o a pid descr]> (others o a pid <$> take (Z.to_nat n) apps)))
    (<[apid := registered o a pid descr]> (others o a pid <$> amap u)).
Proof.
  intros Hinv Hid [_ Hk He Hl]. pose proof (apps_inv_table u Hinv) as Ht.
  apply (map_table app_key _ _ _ (others o a pid)) in Ht;
    [|intros; apply others_id|intros x; by rewrite others_id].
  destruct is_new.
  - destruct Hl as (Hnone & -> & ->). rewrite Hnone in He. cbn in He.
    rewrite fmap_app, list_fmap_singleton. rewrite <-(length_fmap (others o a pid)), insert_app_r_alt by lia.
    rewrite Nat.sub_diag. cbn [list_insert insert].
    assert (App.apid (registered o a pid descr) = apid) as Eid by (rewrite registered_id; by subst a).
    rewrite <-Eid at 1. apply append_table; [apply cmp_apid_orders|by rewrite Eid| |done].
    unfold app_key. rewrite Eid, lookup_fmap, Hnone. done.
  - destruct Hl as (Ha & El). rewrite El in *. unfold amap in Ha.
    apply table_lookup in Ha as [_ Eid]; [|by apply sorted_NoDup, Hinv]. unfold app_key in Eid.
    assert (apid = app_key (others o a pid a)) as -> by (unfold app_key; by rewrite others_id).
    apply (replace_table app_key _ _ _ _ (others o a pid a)); [by rewrite list_lookup_fmap, Hk| | |done].
    + unfold app_key. by rewrite registered_id, others_id.
    + by rewrite registered_id, Eid.
Qed.

Lemma table_inv u l m :
  blocks DLT_DAEMON_APPL_ALLOC_SIZE (num_applications u) (applications u) -> live_apps u = l ->
  apps_table l m -> apps_inv u ∧ amap u = m.
Proof. intros Hb <- [Hs Hi Ht]. by split. Qed.

(** [sort_apps] in the daemon. *)
Lemma sort_apps_becomes d i apps n :
  shape d -> arr d i = Some (Some apps, n) ->
  ∃ u, user_list d !! i = Some u ∧
    sort_apps u = Some (set_apps u (Some (qsort dlt_daemon_cmp_apid (take (Z.to_nat n) apps)
                                            ++ drop (Z.to_nat n) apps)) n) ∧
    becomes d (set_list d i (set_apps u (Some (qsort dlt_daemon_cmp_apid (take (Z.to_nat n) apps)
                                                 ++ drop (Z.to_nat n) apps)) n)) i
      (qsort dlt_daemon_cmp_apid (take (Z.to_nat n) apps) ++ drop (Z.to_nat n) apps) n.
Proof.
  intros Hs Harr. pose proof (shape_arr _ _ _ _ Hs Harr) as [Hn Hm].
  pose proof Harr as (u & Hu & Ha & Hnu)%arr_Some. exists u. split; [done|].
  unfold sort_apps. rewrite Ha. bsimp. rewrite Hnu. split; [done|].
  apply set_apps_blocks; [done|done|]. unfold blocks.
  by rewrite length_app, qsort_perm, <-length_app, take_drop.
Qed.

(** Applications of a daemon after [becomes]. *)
Lemma becomes_table d d' i apps n l m e :
  daemon_inv d -> dlt_daemon_find_users_list d e = Some i -> becomes d d' i apps n ->
  take (Z.to_nat n) apps = l -> apps_table l m ->
  ∃ u', own_list d' e i u' ∧ daemon_inv d' ∧ live_apps u' = l ∧ amap u' = m.
Proof.
  intros Hd Hf B Hl Ht. pose proof (bc_arr _ _ _ _ _ B) as (u' & Hu' & Ha & Hn)%arr_Some.
  assert (live_apps u' = l) as El by (unfold live_apps; by rewrite Ha, Hn).
  destruct (table_inv u' l m) as [Hi Hm]; [by destruct (bc_shape _ _ _ _ _ B i u' Hu')|done|done|].
  exists u'. split_and!; [split; [by rewrite (bc_find _ _ _ _ _ B)|done]|by eapply becomes_inv|done|done].
Qed.

Lemma application_find_own d apid e i u :
  daemon_inv d -> own_list d e i u -> good_id apid ->
  ∃ r, dlt_daemon_application_find d apid e = Some r ∧
    match r with
    | Some k => ∃ a, live_apps u !! k = Some a ∧ amap u !! apid = Some a ∧ App.apid a = apid
    | None => amap u !! apid = None
    end.
Proof.
  intros Hd [Hf Hu] Hid. unfold dlt_daemon_application_find. rewrite (proj2 Hid), Hf, Hu. bsimp.
  apply application_find_spec; [by apply (Hd i)|done].
Qed.

Lemma application_added M junk open_fifo d apid pid description e i u :
  heap_ok M -> daemon_inv d -> own_list d e i u -> good_id apid ->
  let a := default (new_application apid) (amap u !! apid) in
  let a' := registered open_fifo a pid description in
  ∃ k d' u',
    dlt_daemon_application_add M junk open_fifo d apid pid description e = Some (Some k, d') ∧
    own_list d' e i u' ∧ daemon_inv d' ∧ live_apps u' !! k = Some a' ∧
    amap u' = <[apid := a']> (others open_fifo a pid <$> amap u) ∧
    (needs_handle a pid = true -> handle_unused d' i (open_fifo pid)).
Proof.
  intros HM Hd [Hf Hu] Hid a a'. unfold dlt_daemon_application_add. rewrite (proj2 Hid), Hf, Hu. bsimp.
  pose proof (daemon_inv_shape d Hd) as Hs. destruct (Hd i u Hu) as [Hinv _].
  destruct (application_slot_ok M junk u apid HM Hinv Hid) as (apps & n & k & new & x & -> & Hslot).
  bsimp. pose proof (slot_table u apid apps n k new x open_fifo pid description Hinv Hid Hslot) as Ht.
  destruct Hslot as [Hb Hk -> _]. fold a in Hk, Ht. fold a' in Ht.
  apply lookup_take_Some in Hk as [Hk Hkn]. pose proof (proj1 Hb) as Hn.
  pose proof (set_apps_blocks d i u apps n Hs Hu Hb) as B1.
  destruct (application_register_ok M open_fifo _ i k pid description e apps n a HM (bc_shape _ _ _ _ _ B1))
    as (d2 & -> & B2 & Hun); [by rewrite (bc_find _ _ _ _ _ B1)|apply B1|done|done|]. bsimp.
  fold a' in B2. pose proof (becomes_trans _ _ _ _ _ _ _ _ B1 B2) as B.
  pose proof (live_update n k (others open_fifo a pid) a' apps ltac:(lia) Hkn) as El.
  destruct new.
  - destruct (sort_apps_becomes d2 i _ n (bc_shape _ _ _ _ _ B) (bc_arr _ _ _ _ _ B)) as (u2 & Hu2 & Es & B3).
    rewrite Hu2. bsimp. rewrite Es. bsimp. rewrite El in B3 |- *.
    pose proof (becomes_trans _ _ _ _ _ _ _ _ B B3) as B4.
    edestruct becomes_table as (u3 & Ho & Hd3 & Hl3 & Hm3); [exact Hd|exact Hf|exact B4| |exact Ht|].
    { apply take_app_length'. rewrite qsort_perm, length_insert, length_fmap, length_take. lia. }
    destruct (application_find_own _ apid e i u3 Hd3 Ho Hid) as (r & -> & Hr). bsimp.
    rewrite Hm3, lookup_insert_eq in Hr. destruct r as [k'|]; [|done].
    destruct Hr as (y & Hy & [= <-] & _). eexists k', _, u3. split_and!; try done.
    intros Hneed u4 c Hu4 Hc. apply (Hun Hneed u2); [done|].
    rewrite (set_list_lookup_eq _ _ u2) in Hu4 by done. by injection Hu4 as <-.
  - edestruct (becomes_table d d2 i _ n _ _ e Hd Hf B El Ht) as (u3 & Ho & Hd3 & Hl3 & Hm3).
    eexists k, d2, u3. split_and!; try done; try apply Ho. rewrite Hl3.
    apply list_lookup_insert_eq. rewrite length_fmap, length_take. lia.
Qed.

(** C26: [dlt_daemon_application_add] inserts into the map of the ECU's
    applications: a new entry or the existing one gets the description and, when
    the process differs or no handle is open, the process and the handle of its
    pipe.  The returned pointer is the entry.  A handle number that is assigned
    anew is taken away from all other applications and contexts of the ECU, and
    the tables of all ECUs stay sorted, unique and inside their arrays. *)
Theorem application_add_inserts M junk open_fifo d apid pid description e i u :
  heap_ok M -> daemon_inv d -> own_list d e i u -> good_id apid ->
  let a := default (new_application apid) (amap u !! apid) in
  let a' := registered open_fifo a pid description in
  ∃ k d' u',
    dlt_daemon_application_add M junk open_fifo d apid pid description e = Some (Some k, d') ∧
    own_list d' e i u' ∧ daemon_inv d' ∧ live_apps u' !! k = Some a' ∧
    amap u' = <[apid := a']> (others open_fifo a pid <$> amap u) ∧
    (needs_handle a pid = true -> handle_unused d' i (open_fifo pid)).
Proof. apply application_added. Qed.

(** ** Removing an application *)

Lemma remove_entry_ok {A} (zero : A) n k t step :
  blocks step n (Some t) -> (k < Z.to_nat n)%nat ->
  ∃ t', remove_entry zero n k t = Some t' ∧ blocks step (n - 1) (Some t') ∧
    take (Z.to_nat (n - 1)) t' = take k (take (Z.to_nat n) t) ++ drop (S k) (take (Z.to_nat n) t).
Proof.
  intros [Hn Hm] Hk. unfold remove_entry. csimp. eexists. split; [reflexivity|].
  assert (length (take k t ++ drop (S k) (take (Z.to_nat n) t)) = Z.to_nat (n - 1)) as Ll.
  { rewrite length_app, length_take, length_drop, length_take. lia. }
  split.
  - unfold blocks. rewrite app_assoc, length_app, Ll, length_app, length_drop. cbn [length].
    replace (Z.of_nat _) with (zlen t) by lia. lia.
  - rewrite app_assoc, take_app_length' by done. rewrite take_take. f_equal. f_equal. lia.
Qed.

Lemma take_drop_insert {A} (l : list A) k x :
  take k (<[k:=x]> l) ++ drop (S k) (<[k:=x]> l) = take k l ++ drop (S k) l.
Proof. by rewrite take_insert_ge, drop_insert_lt by lia. Qed.

(** [dlt_daemon_application_del] deletes the entry from the map of the ECU's
    applications; all tables stay sorted, unique and inside their arrays. *)
Theorem application_del_deletes d e i u k a :
  daemon_inv d -> own_list d e i u -> live_apps u !! k = Some a ->
  ∃ d' u', dlt_daemon_application_del d k e = Some (0, d') ∧ own_list d' e i u' ∧ daemon_inv d' ∧
    amap u' = delete (App.apid a) (amap u).
Proof.
  intros Hd [Hf Hu] Hk. unfold dlt_daemon_application_del. rewrite Hf, Hu. bsimp.
  pose proof (daemon_inv_shape d Hd) as Hs. destruct (Hd i u Hu) as [Hinv _].
  pose proof (remove_table app_key _ _ _ k a Hk (apps_inv_table u Hinv)) as Ht.
  unfold live_apps in Hk. apply lookup_take_Some in Hk as [Hk Hkn]. rewrite ltb_true by lia.
  destruct (applications u) as [apps|] eqn:Ea; [|done]. cbn [default from_option id] in Hk.
  assert (arr d i = Some (Some apps, num_applications u)) as Harr by (unfold arr; rewrite Hu; bsimp; by rewrite Ea).
  destruct (reset_user_handle_becomes d i k apps _ a Hs Harr Hk) as (d1 & -> & B1). bsimp.
  pose proof (lookup_lt_Some _ _ _ Hk) as Lk.
  edestruct (update_app_becomes d1 i k (λ a, App.set_description a None)) as (d2 & -> & B2 & _);
    [apply B1|apply B1|by apply list_lookup_insert_eq|]. bsimp.
  rewrite list_insert_insert_eq in B2. pose proof (becomes_trans _ _ _ _ _ _ _ _ B1 B2) as B.
  pose proof (bc_arr _ _ _ _ _ B) as (u2 & Hu2 & Ha2 & Hn2)%arr_Some. rewrite Hu2. bsimp. rewrite Ha2. bsimp.
  pose proof (shape_arr _ _ _ _ (bc_shape _ _ _ _ _ B) (bc_arr _ _ _ _ _ B)) as Hb.
  edestruct (remove_entry_ok App.zeroed (num_applications u) k) as (t & Et & Hbt & Ht'); [exact Hb|done|].
  rewrite Hn2, Et. bsimp. pose proof (set_apps_blocks d2 i u2 t _ (bc_shape _ _ _ _ _ B) Hu2 Hbt) as B3.
  pose proof (becomes_trans _ _ _ _ _ _ _ _ B B3) as B4.
  edestruct becomes_table as (u3 & Ho & Hd3 & _ & Hm3); [exact Hd|exact Hf|exact B4|exact Ht'| |].
  { rewrite take_insert_lt, take_drop_insert by done. unfold live_apps in Ht. rewrite Ea in Ht. exact Ht. }
  by eexists _, u3.
Qed.

(** ** A daemon with one application *)

Definition id_LOG : bytes := [76; 79; 71; 0].
Definition id_ECU : bytes := [69; 67; 85; 0].
Definition one_list : DltDaemonRegisteredUsers :=
  {| applications := Some (new_application id_LOG :: replicate 499 App.zeroed); num_applications := 1;
     contexts := None; num_contexts := 0; ecu := id_ECU |}.
Definition one_app : DltDaemon :=
  {| user_list := [one_list]; ecuid := id_ECU; default_log_level := 4; default_trace_status := 0;
     force_ll_ts := false; runtime_context_cfg_loaded := false |}.

Lemma one_app_inv : daemon_inv one_app.
Proof.
  intros [|j] u Hu; [|done]. injection Hu as <-. split; split; try by vm_compute.
  all: repeat constructor.
Qed.

Lemma application_add_inserts_witness :
  let a := default (new_application id_LOG) (amap one_list !! id_LOG) in
  let a' := registered (λ _, 9) a 1234 None in
  ∃ k d' u',
    dlt_daemon_application_add (heap_filled 0) App.zeroed (λ _, 9) one_app id_LOG 1234 None id_ECU
      = Some (Some k, d') ∧
    own_list d' id_ECU 0 u' ∧ daemon_inv d' ∧ live_apps u' !! k = Some a' ∧
    amap u' = <[id_LOG := a']> (others (λ _, 9) a 1234 <$> amap one_list) ∧
    (needs_handle a 1234 = true -> handle_unused d' 0 9).
Proof.
  apply (application_add_inserts (heap_filled 0) App.zeroed (λ _, 9) one_app id_LOG 1234 None id_ECU 0 one_list);
    [done|exact one_app_inv|done|by split].
Defined.

Lemma application_del_deletes_witness :
  ∃ d' u', dlt_daemon_application_del one_app 0 id_ECU = Some (0, d') ∧ own_list d' id_ECU 0 u' ∧
    daemon_inv d' ∧ amap u' = delete id_LOG (amap one_list).
Proof.
  apply (application_del_deletes one_app id_ECU 0 one_list 0 (new_application id_LOG));
    [exact one_app_inv|done|done].
Defined.

End DaemonTablesSpec.
