(* ===== verification/DaemonContextsSpec.v ===== *)
(** * The daemon's contexts are a finite map

    [dlt_daemon_context_add] and [dlt_daemon_context_del] insert into and delete
    from the finite map of the contexts, and keep the number of contexts of the
    application. *)

From stdpp Require Import base list numbers option gmap.
From Stdlib Require Import ZArith Lia Bool.
From S2P Require Import Prelude Ids SortedTable DaemonTables DaemonTablesSpec.
Import Ids SortedTable DaemonTables DaemonTablesSpec.

Local Open Scope Z_scope.

Module DaemonContextsSpec.

Abbreviation ctxs_table := (sorted_table ctx_key good_ctx).

Lemma ctxs_inv_table u : ctxs_inv u -> ctxs_table (live_ctxs u) (cmap u).
Proof. intros [_ Hs Hi]. by split. Qed.

Lemma ctxs_table_inv u l m :
  blocks DLT_DAEMON_CONTEXT_ALLOC_SIZE (num_contexts u) (contexts u) -> live_ctxs u = l ->
  ctxs_table l m -> ctxs_inv u ∧ cmap u = m.
Proof. intros Hb <- [Hs Hi Ht]. by split. Qed.

Lemma ctxs_inv_same u u' :
  contexts u' = contexts u -> num_contexts u' = num_contexts u -> ctxs_inv u -> ctxs_inv u'.
Proof. intros Hc Hn [Hb Hs Hi]. split; unfold live_ctxs; by rewrite ?Hc, ?Hn. Qed.

(** A new context, before it is registered. *)
Definition new_context (apid ctid : bytes) : Ctx.DltDaemonContext :=
  {| Ctx.apid := apid; Ctx.ctid := ctid; Ctx.log_level := 0; Ctx.trace_status := 0;
     Ctx.log_level_pos := 0; Ctx.user_handle := 0; Ctx.context_description := None;
     Ctx.storage_log_level := 0; Ctx.predefined := false |}.
Abbreviation ctx_slot u apid ctid :=
  (table_slot DLT_DAEMON_CONTEXT_ALLOC_SIZE (live_ctxs u) (cmap u) (apid ++ ctid) (new_context apid ctid)).

(** The entry of the application counts one context more or less. *)
Definition count_context (dn : Z) (a : App.DltDaemonApplication) : App.DltDaemonApplication :=
  App.set_num_contexts a (App.num_contexts a + dn).

Lemma count_apps_inv u ka a dn apps :
  apps_inv u -> applications u = Some apps -> live_apps u !! ka = Some a ->
  let u' := set_apps u (Some (<[ka := count_context dn a]> apps)) (num_applications u) in
  apps_inv u' ∧ amap u' = <[App.apid a := count_context dn a]> (amap u).
Proof.
  intros Hinv Ha Hk u'. pose proof (lookup_lt_Some _ _ _ Hk) as Lk.
  assert (live_apps u' = <[ka := count_context dn a]> (live_apps u)) as El.
  { unfold live_apps in *. rewrite Ha in *. cbn [u' applications num_applications set_apps default from_option id] in *.
    rewrite take_insert_lt; [done|]. rewrite length_take in Lk. lia. }
  eapply table_inv; [|exact El|].
  - destruct Hinv as [Hb _ _]. rewrite Ha in Hb. cbn in *. by rewrite length_insert.
  - apply (replace_table app_key _ _ _ _ a); [done|done| |by apply apps_inv_table].
    destruct Hinv as [_ _ Hi]. rewrite Forall_forall in Hi. apply (Hi a). by eapply list_elem_of_lookup_2.
Qed.

Lemma ctx_array_ok M u :
  heap_ok M -> ctxs_inv u ->
  ∃ ctxs, match contexts u with
          | Some c => Some c
          | None => new_array M sizeof_DltDaemonContext Ctx.zeroed DLT_DAEMON_CONTEXT_ALLOC_SIZE
          end = Some ctxs ∧
    blocks DLT_DAEMON_CONTEXT_ALLOC_SIZE (num_contexts u) (Some ctxs) ∧
    take (Z.to_nat (num_contexts u)) ctxs = live_ctxs u.
Proof.
  intros HM [Hb _ _]. unfold live_ctxs. destruct (contexts u) as [c|]; [by exists c|].
  cbn in Hb. rewrite Hb, new_array_ok by done. eexists. split; [reflexivity|]. done.
Qed.

Lemma context_slot_ok M u apid ctid a :
  heap_ok M -> apps_inv u -> ctxs_inv u -> good_id apid -> good_id ctid -> amap u !! apid = Some a ->
  ∃ u1 ctxs k is_new c,
    context_slot M u apid ctid = Some (u1, Some (k, is_new)) ∧
    contexts u1 = Some ctxs ∧ ecu u1 = ecu u ∧ apps_inv u1 ∧
    amap u1 = (if is_new then <[apid := count_context 1 a]> (amap u) else amap u) ∧
    ctx_slot u apid ctid ctxs (num_contexts u1) k is_new c.
Proof.
  intros HM Hinv Hcinv Hida Hidc Happ. unfold context_slot.
  destruct (ctx_array_ok M u HM Hcinv) as (ctxs & -> & Hb & Hl).
  set (u1 := set_ctxs u (Some ctxs) (num_contexts u)).
  assert (live_ctxs u1 = live_ctxs u) as El by exact Hl.
  assert (ctxs_inv u1) as Hcinv1 by (destruct Hcinv; split; rewrite ?El; done).
  assert (apps_inv u1) as Hinv1 by (by apply (apps_inv_arr u)).
  destruct (application_find_spec u1 apid Hinv1 Hida) as (ra & -> & Hra). bsimp.
  change (amap u1) with (amap u) in *. change (live_apps u1) with (live_apps u) in *.
  rewrite Happ in Hra. destruct ra as [ka|]; [|done]. destruct Hra as (? & Hka & [= <-] & Eid).
  destruct (context_find_spec u1 apid ctid Hcinv1 Hida Hidc) as (r & -> & Hr). bsimp.
  unfold cmap in Hr. rewrite El in Hr. fold (cmap u) in Hr. destruct r as [k|].
  - destruct Hr as (c & Hk & Hc & Ec). exists u1, ctxs, k, false, c. split_and!; try done.
    split; cbn [num_contexts u1 set_ctxs]; rewrite ?Hl, ?Hc; done.
  - change (num_contexts u1) with (num_contexts u). set (n := num_contexts u) in *.
    destruct (slot_grow M sizeof_DltDaemonContext DLT_DAEMON_CONTEXT_ALLOC_SIZE Ctx.zeroed
      (new_context apid ctid) n ctxs _ _ (apid ++ ctid) HM eq_refl Hb Hl Hr) as (t & x & -> & Hx & Hslot).
    bsimp. replace (n + 1 - 1) with n by lia. rewrite Hx. bsimp. rewrite !set_id_good by done. bsimp.
    destruct (applications u) as [apps|] eqn:Ea.
    2: { unfold live_apps in Hka. rewrite Ea in Hka. cbn [default from_option] in Hka. by rewrite take_nil in Hka. }
    change (applications u1) with (applications u). rewrite Ea. bsimp.
    assert (apps !! ka = Some a) as Hkapps.
    { unfold live_apps in Hka. rewrite Ea in Hka. by apply lookup_take_Some in Hka as [??]. }
    rewrite Hkapps. bsimp.
    eexists _, _, _, true, _. split; [reflexivity|]. split; [reflexivity|]. split; [done|].
    destruct (count_apps_inv u1 ka a 1 apps) as [Hi' Hm']; [done|done|done|].
    rewrite Eid in Hm'. split_and!; [|exact Hm'|exact Hslot].
    revert Hi'. apply apps_inv_arr; done.
Qed.

(** A level on the daemon's own ECU does not exceed the default when levels are enforced. *)
Definition limited (d : DltDaemon) (e : bytes) (limit l : Z) : Z :=
  if strncmp_eq DLT_ID_SIZE (ecuid d) e && force_ll_ts d then Z.min l limit else l.

Lemma adapted_limited d e ll ts :
  adapted d e ll ts = (limited d e (default_log_level d) ll, limited d e (default_trace_status d) ts).
Proof.
  unfold adapted, limited. destruct (_ && _); [|done].
  f_equal; case_match; zb; lia.
Qed.

(** The entry after a registration: levels are only stored for a new context or
    without a loaded runtime configuration, and not above enforced defaults. *)
Definition stored_context (d : DltDaemon) (e : bytes) (is_new : bool) (c : Ctx.DltDaemonContext)
  (ll ts pos h : Z) (description : option bytes) : Ctx.DltDaemonContext :=
  let c := Ctx.set_description c description in
  let c := if is_new || negb (runtime_context_cfg_loaded d)
           then Ctx.set_levels c (limited d e (default_log_level d) ll) (limited d e (default_trace_status d) ts)
           else c in
  Ctx.set_registration c pos h.

Lemma stored_ids d e new c ll ts pos h descr :
  Ctx.apid (stored_context d e new c ll ts pos h descr) = Ctx.apid c ∧
  Ctx.ctid (stored_context d e new c ll ts pos h descr) = Ctx.ctid c.
Proof. unfold stored_context. by destruct (new || _). Qed.

Lemma ctx_slot_table u apid ctid ctxs n k is_new c c' :
  ctxs_inv u -> good_id apid -> good_id ctid -> ctx_slot u apid ctid ctxs n k is_new c ->
  Ctx.apid c' = Ctx.apid c -> Ctx.ctid c' = Ctx.ctid c ->
  ctxs_table ((if is_new then qsort dlt_daemon_cmp_apid_ctid else id) (<[k := c']> (take (Z.to_nat n) ctxs)))
    (<[apid ++ ctid := c']> (cmap u)).
Proof.
  intros Hinv Hida Hidc [_ Hk He Hl] Ea Ec. pose proof (ctxs_inv_table u Hinv) as Ht. destruct is_new.
  - destruct Hl as (Hnone & -> & ->). rewrite Hnone in He. cbn in He.
    rewrite insert_app_r_alt by lia. rewrite Nat.sub_diag. cbn [list_insert insert].
    assert (apid ++ ctid = ctx_key c') as E by (unfold ctx_key; rewrite Ea, Ec; by subst c).
    rewrite E in *. apply append_table; [apply cmp_ctx_orders| |done|done].
    unfold good_ctx. rewrite Ea, Ec. subst c. done.
  - destruct Hl as (Hc & El). rewrite El in *. unfold cmap in Hc.
    apply table_lookup in Hc as [Hin Ekey]; [|by apply sorted_NoDup, Hinv]. rewrite <-Ekey.
    apply (replace_table ctx_key _ _ _ _ c); [done|unfold ctx_key; by rewrite Ea, Ec| |done].
    unfold good_ctx. rewrite Ea, Ec. destruct Hinv as [_ _ Hi]. rewrite Forall_forall in Hi. by apply Hi.
Qed.

Lemma daemon_inv_set_list d i u u' :
  daemon_inv d -> user_list d !! i = Some u -> apps_inv u' -> ctxs_inv u' -> daemon_inv (set_list d i u').
Proof.
  intros Hd Hu Ha Hc j v Hv. destruct (decide (i = j)) as [<-|].
  - rewrite (set_list_lookup_eq _ _ u) in Hv by done. by injection Hv as <-.
  - rewrite set_list_lookup_ne in Hv by done. by apply (Hd j).
Qed.

(** The list after the registration has the given table. *)
Lemma set_ctxs_ok u t m n l :
  blocks DLT_DAEMON_CONTEXT_ALLOC_SIZE n (Some t) -> take (Z.to_nat n) t = l -> ctxs_table l m ->
  let u' := set_ctxs u (Some t) n in ctxs_inv u' ∧ cmap u' = m ∧ live_ctxs u' = l.
Proof. intros Hb Hl Ht u'. by destruct (ctxs_table_inv u' l m). Qed.

(** Storing a list with new contexts in the daemon. *)
Lemma set_list_contexts d e i u u1 t n l m :
  daemon_inv d -> own_list d e i u -> ecu u1 = ecu u -> apps_inv u1 ->
  blocks DLT_DAEMON_CONTEXT_ALLOC_SIZE n (Some t) -> take (Z.to_nat n) t = l -> ctxs_table l m ->
  let u' := set_ctxs u1 (Some t) n in
  own_list (set_list d i u') e i u' ∧ daemon_inv (set_list d i u') ∧ live_ctxs u' = l ∧ cmap u' = m ∧
  amap u' = amap u1.
Proof.
  intros Hd [Hf Hu] He Hi Hb Hl Ht u'. destruct (set_ctxs_ok u1 t m n l Hb Hl Ht) as (Hc & Hm & Hlive).
  split_and!; try done.
  - split; [by rewrite (set_list_same _ _ u) by done|by apply (set_list_lookup_eq _ _ u)].
  - apply (daemon_inv_set_list _ _ u); try done. revert Hi. by apply apps_inv_arr.
Qed.

Lemma context_find_own d apid ctid e i u :
  daemon_inv d -> own_list d e i u -> good_id apid -> good_id ctid ->
  ∃ r, dlt_daemon_context_find d apid ctid e = Some r ∧
    match r with
    | Some k => ∃ c, live_ctxs u !! k = Some c ∧ cmap u !! (apid ++ ctid) = Some c ∧
                  ctx_key c = apid ++ ctid
    | None => cmap u !! (apid ++ ctid) = None
    end.
Proof.
  intros Hd [Hf Hu] Hida Hidc. unfold dlt_daemon_context_find.
  rewrite (proj2 Hida), (proj2 Hidc), Hf, Hu. bsimp. apply context_find_spec; [by apply (Hd i)|done|done].
Qed.

Lemma malloc_description M (description : option bytes) :
  heap_ok M ->
  match description with
  | None => None
  | Some s => if malloc M (zlen s + 1) is Some _ then Some s else None
  end = description.
Proof.
  intros HM. destruct description as [s|]; [|done]. destruct (malloc _ _) eqn:E; [done|]. by apply HM in E.
Qed.

(** ** The number of contexts of an application *)

Definition contexts_of (apid : bytes) (C : gmap bytes Ctx.DltDaemonContext) : gmap bytes Ctx.DltDaemonContext :=
  filter (λ kv, Ctx.apid kv.2 = apid) C.
Definition counted (A : gmap bytes App.DltDaemonApplication) (C : gmap bytes Ctx.DltDaemonContext) : Prop :=
  ∀ apid a, A !! apid = Some a -> App.num_contexts a = Z.of_nat (size (contexts_of apid C)).

Lemma contexts_of_lookup apid C k : C !! k = None -> contexts_of apid C !! k = None.
Proof. intros H. apply map_lookup_filter_None. by left. Qed.

Lemma counted_insert A C k c a :
  C !! k = None -> A !! Ctx.apid c = Some a -> counted A C ->
  counted (<[Ctx.apid c := count_context 1 a]> A) (<[k := c]> C).
Proof.
  intros Hk Ha Hc apid b. destruct (decide (apid = Ctx.apid c)) as [->|Hne].
  - rewrite lookup_insert_eq. intros [= <-]. unfold contexts_of.
    rewrite map_filter_insert_True, map_size_insert_None by (try done; by apply contexts_of_lookup).
    cbn. rewrite (Hc _ _ Ha). unfold contexts_of. lia.
  - rewrite lookup_insert_ne by done. intros Hb. rewrite (Hc _ _ Hb). unfold contexts_of.
    rewrite map_filter_insert_not'; [done|by cbn; congruence|]. intros y Hy. by rewrite Hk in Hy.
Qed.

(** Replacing a context does not change the numbers. *)
Lemma counted_replace A C k c c' :
  C !! k = Some c -> Ctx.apid c' = Ctx.apid c -> counted A C -> counted A (<[k := c']> C).
Proof.
  intros Hk He Hc apid a Ha. rewrite (Hc _ _ Ha). unfold contexts_of. f_equal.
  destruct (decide (Ctx.apid c = apid)) as [E|E].
  - rewrite map_filter_insert_True by (by cbn; congruence).
    rewrite map_size_insert_Some; [done|]. exists c. by apply map_lookup_filter_Some.
  - rewrite map_filter_insert_not'; [done|by cbn; congruence|]. intros y Hy. rewrite Hk in Hy. by injection Hy as <-.
Qed.

Lemma counted_delete A C k c :
  C !! k = Some c -> counted A C -> counted (alter (count_context (-1)) (Ctx.apid c) A) (delete k C).
Proof.
  intros Hk Hc apid b. unfold contexts_of. rewrite map_filter_delete.
  destruct (decide (apid = Ctx.apid c)) as [->|Hne].
  - rewrite lookup_alter_eq. intros (a & Ha & ->)%fmap_Some. cbn. rewrite (Hc _ _ Ha). unfold contexts_of.
    rewrite map_size_delete_Some by (exists c; by apply map_lookup_filter_Some).
    assert (size (filter (λ kv, Ctx.apid kv.2 = Ctx.apid c) C) ≠ 0%nat); [|lia].
    rewrite map_size_ne_0_lookup. exists k, c. by apply map_lookup_filter_Some.
  - rewrite lookup_alter_ne by done. intros Hb. rewrite (Hc _ _ Hb). unfold contexts_of.
    rewrite map_size_delete_None; [done|]. apply map_lookup_filter_None. right. intros y Hy. rewrite Hk in Hy.
    injection Hy as <-. cbn. congruence.
Qed.

Lemma slot_counted u apid ctid ctxs n k is_new c c' a :
  ctx_slot u apid ctid ctxs n k is_new c -> Ctx.apid c' = Ctx.apid c -> amap u !! apid = Some a ->
  counted (amap u) (cmap u) ->
  counted (if is_new then <[apid := count_context 1 a]> (amap u) else amap u) (<[apid ++ ctid := c']> (cmap u)).
Proof.
  intros [_ _ He Hl] Hid Ha Hc. destruct is_new.
  - destruct Hl as (Hnone & _). rewrite Hnone in He. cbn in He.
    assert (apid = Ctx.apid c') as E by (rewrite Hid; by subst c). rewrite E at 1. apply counted_insert; try done.
    by rewrite <-E.
  - destruct Hl as (Hk & _). by apply (counted_replace _ _ _ c).
Qed.

Lemma context_added M d apid ctid ll ts pos h description e i u a :
  heap_ok M -> daemon_inv d -> own_list d e i u -> good_id apid -> good_id ctid ->
  DLT_LOG_DEFAULT <= ll <= DLT_LOG_VERBOSE -> DLT_TRACE_STATUS_DEFAULT <= ts <= DLT_TRACE_STATUS_ON ->
  amap u !! apid = Some a ->
  let old := cmap u !! (apid ++ ctid) in
  let is_new := if old is None then true else false in
  let c := stored_context d e is_new (default (new_context apid ctid) old) ll ts pos h description in
  ∃ k d' u',
    dlt_daemon_context_add M d apid ctid ll ts pos h description e = Some (Some k, d') ∧
    own_list d' e i u' ∧ daemon_inv d' ∧ live_ctxs u' !! k = Some c ∧
    cmap u' = <[apid ++ ctid := c]> (cmap u) ∧
    amap u' = (if is_new then <[apid := count_context 1 a]> (amap u) else amap u) ∧
    (counted (amap u) (cmap u) -> counted (amap u') (cmap u')).
Proof.
  intros HM Hd [Hf Hu] Hida Hidc Hll Hts Happ old is_new c0. unfold dlt_daemon_context_add.
  rewrite (proj2 Hida), (proj2 Hidc). cbn [orb].
  rewrite !ltb_false by lia. cbn [orb]. rewrite Hf, Hu. bsimp.
  destruct (Hd i u Hu) as [Hinv Hcinv].
  destruct (context_slot_ok M u apid ctid a) as (u1 & ctxs & k & new & c & -> & Hc1 & He1 & Hi1 & Hm1 & Hslot);
    try done. bsimp. rewrite Hc1. bsimp.
  assert (new = is_new) as ->.
  { subst is_new old. destruct Hslot as [_ _ _ Hl]. destruct new; destruct Hl as [-> _]; done. }
  pose proof (ts_blocks _ _ _ _ _ _ _ _ _ _ Hslot) as Hb. pose proof (ts_lookup _ _ _ _ _ _ _ _ _ _ Hslot) as Hk.
  pose proof (lookup_lt_Some _ _ _ Hk) as Lk. apply lookup_take_Some in Hk as [Hk Hkn]. rewrite Hk. bsimp.
  rewrite malloc_description by done.
  assert (c = default (new_context apid ctid) old) as Ec by apply Hslot.
  assert (c0 = stored_context d e is_new c ll ts pos h description) as Ec0 by (by rewrite Ec).
  destruct (stored_ids d e is_new c ll ts pos h description) as [Ea Et]. rewrite <-Ec0 in Ea, Et.
  pose proof (ctx_slot_table u apid ctid ctxs _ k is_new c c0 Hcinv Hida Hidc Hslot Ea Et) as Htab.
  pose proof (slot_counted u apid ctid ctxs _ k is_new c c0 a Hslot Ea Happ) as Hcount.
  unfold stored_context in Ec0. rewrite adapted_limited.
  rewrite <-Ec0. set (n := num_contexts u1) in *. pose proof (proj1 Hb) as Hn. destruct is_new.
  - unfold sort_ctxs. cbn [contexts num_contexts set_ctxs]. bsimp.
    rewrite take_insert_lt by done. cbv zeta.
    match goal with
    | |- context [set_list d i (set_ctxs (set_ctxs u1 ?a ?b) (Some ?t) ?n')] =>
        change (set_ctxs (set_ctxs u1 a b) (Some t) n') with (set_ctxs u1 (Some t) n'); set (tab := t)
    end.
    edestruct (set_list_contexts d e i u u1 tab n) as (Ho & Hd' & Hlive & Hm & Hma);
      [done|done|done|done| | |exact Htab|].
    3: { destruct (context_find_own _ apid ctid e i _ Hd' Ho Hida Hidc) as (r & Er & Hr).
         rewrite Er. bsimp. rewrite Hm, lookup_insert_eq in Hr. destruct r as [k'|]; [|done].
         destruct Hr as (y & Hy & [= <-] & _). eexists k', _, _. split; [reflexivity|].
         split_and!; try done. by rewrite Hma, Hm1, Hm. }
    + unfold blocks, tab. rewrite length_app, qsort_perm, length_insert, length_take, length_drop, length_insert.
      replace (Z.of_nat _) with (zlen ctxs) by lia. exact Hb.
    + apply take_app_length'. rewrite qsort_perm, length_insert, length_take. lia.
  - edestruct (set_list_contexts d e i u u1 (<[k:=c0]> ctxs) n) as (Ho & Hd' & Hlive & Hm & Hma);
      [done|done|done|done|unfold blocks; by rewrite length_insert|by apply take_insert_lt|exact Htab|].
    eexists k, _, _. split; [reflexivity|]. split_and!; try done.
    + rewrite Hlive. by apply list_lookup_insert_eq.
    + by rewrite Hma, Hm1, Hm.
Qed.

(** C27: [dlt_daemon_context_add] inserts into the map of the ECU's contexts
    under application and context identifier, when the application is registered
    and the levels are valid; it returns the entry.  A new context is counted in
    its application, so that the application knows the number of its contexts.
    The log level and trace status are limited to the defaults
    of the daemon when these are enforced, and those of a known context are kept
    when a runtime configuration was loaded. *)
Theorem context_add_inserts M d apid ctid ll ts pos h description e i u a :
  heap_ok M -> daemon_inv d -> own_list d e i u -> good_id apid -> good_id ctid ->
  DLT_LOG_DEFAULT <= ll <= DLT_LOG_VERBOSE -> DLT_TRACE_STATUS_DEFAULT <= ts <= DLT_TRACE_STATUS_ON ->
  amap u !! apid = Some a ->
  let old := cmap u !! (apid ++ ctid) in
  let is_new := if old is None then true else false in
  let c := stored_context d e is_new (default (new_context apid ctid) old) ll ts pos h description in
  ∃ k d' u',
    dlt_daemon_context_add M d apid ctid ll ts pos h description e = Some (Some k, d') ∧
    own_list d' e i u' ∧ daemon_inv d' ∧ live_ctxs u' !! k = Some c ∧
    cmap u' = <[apid ++ ctid := c]> (cmap u) ∧
    amap u' = (if is_new then <[apid := count_context 1 a]> (amap u) else amap u) ∧
    (counted (amap u) (cmap u) -> counted (amap u') (cmap u')).
Proof. apply context_added. Qed.

Lemma update_count d i u ka a dn :
  daemon_inv d -> user_list d !! i = Some u -> live_apps u !! ka = Some a ->
  ∃ u', update_app d i ka (λ a, App.set_num_contexts a (App.num_contexts a + dn)) = Some (set_list d i u') ∧
    daemon_inv (set_list d i u') ∧ ecu u' = ecu u ∧ cmap u' = cmap u ∧
    amap u' = <[App.apid a := count_context dn a]> (amap u).
Proof.
  intros Hd Hu Hk. destruct (Hd i u Hu) as [Hinv Hcinv].
  destruct (applications u) as [apps|] eqn:Ea.
  2: { unfold live_apps in Hk. rewrite Ea in Hk. cbn [default from_option] in Hk. by rewrite take_nil in Hk. }
  destruct (count_apps_inv u ka a dn apps Hinv Ea Hk) as [Hi' Hm'].
  unfold live_apps in Hk. rewrite Ea in Hk. apply lookup_take_Some in Hk as [Hk _].
  cbn [default from_option id] in Hk. unfold update_app. rewrite Hu. bsimp. rewrite Ea. bsimp. rewrite Hk. bsimp.
  eexists. split; [reflexivity|]. split_and!; try done.
  apply (daemon_inv_set_list _ _ u); try done. revert Hcinv. by apply ctxs_inv_same.
Qed.

(** [dlt_daemon_context_del] deletes the context from the map of the ECU's
    contexts and takes it off the number of contexts of its application, when
    that is registered. *)
Theorem context_del_deletes d e i u k c :
  daemon_inv d -> own_list d e i u -> live_ctxs u !! k = Some c ->
  ∃ d' u', dlt_daemon_context_del d k e = Some (0, d') ∧ own_list d' e i u' ∧ daemon_inv d' ∧
    cmap u' = delete (ctx_key c) (cmap u) ∧
    amap u' = alter (count_context (-1)) (Ctx.apid c) (amap u) ∧
    (counted (amap u) (cmap u) -> counted (amap u') (cmap u')).
Proof.
  intros Hd Ho Hk. pose proof Ho as [Hf Hu]. unfold dlt_daemon_context_del. rewrite Hf, Hu. bsimp.
  destruct (Hd i u Hu) as [Hinv Hcinv]. pose proof (ctxs_inv_table u Hcinv) as Ht.
  pose proof (sorted_table_lookup ctx_key _ _ _ k c Ht Hk) as Hck.
  apply (remove_table ctx_key _ _ _ k c Hk) in Ht.
  assert (good_ctx c) as [Hid _].
  { destruct Hcinv as [_ _ Hi]. rewrite Forall_forall in Hi. apply Hi. by eapply list_elem_of_lookup_2. }
  pose proof (ci_blocks _ Hcinv) as Hb. unfold live_ctxs in Hk, Ht. apply lookup_take_Some in Hk as [Hk Hkn].
  rewrite ltb_true by lia. destruct (contexts u) as [ctxs|] eqn:Ec; [|done].
  cbn [default from_option id] in Hk, Ht. bsimp. rewrite Hk. bsimp.
  destruct (application_find_own d (Ctx.apid c) e i u Hd Ho Hid) as (r & -> & Hr). bsimp.
  destruct (remove_entry_ok Ctx.zeroed (num_contexts u) k ctxs _ Hb Hkn) as (t & -> & Hbt & Hlt). bsimp.
  destruct (set_list_contexts d e i u u t _ _ _ Hd Ho eq_refl Hinv Hbt Hlt Ht) as (Ho1 & Hd1 & Hl1 & Hm1 & Hma1).
  set (u1 := set_ctxs u (Some t) (num_contexts u - 1)) in *.
  pose proof (counted_delete (amap u) (cmap u) _ c Hck) as Hcount. destruct r as [ka|].
  - destruct Hr as (a & Hka & Ha & Eid). pose proof Ho1 as [Hf1 Hu1].
    change (λ a, App.set_num_contexts a (App.num_contexts a - 1))
      with (λ a, App.set_num_contexts a (App.num_contexts a + -1)).
    destruct (update_count _ i u1 ka a (-1) Hd1 Hu1 Hka) as (u2 & -> & Hd2 & He2 & Hc2 & Hm2). bsimp.
    eexists _, u2. split; [reflexivity|]. rewrite Hm2, Hc2, Hma1, Hm1, Eid.
    assert (<[Ctx.apid c := count_context (-1) a]> (amap u) = alter (count_context (-1)) (Ctx.apid c) (amap u)) as ->.
    { apply map_eq. intros j. destruct (decide (j = Ctx.apid c)) as [->|].
      - by rewrite lookup_insert_eq, lookup_alter_eq, Ha.
      - by rewrite lookup_insert_ne, lookup_alter_ne. }
    split_and!; try done. split; [by rewrite (set_list_same _ _ u1)|by apply (set_list_lookup_eq _ _ u1)].
  - eexists _, u1. split; [reflexivity|]. rewrite Hma1, Hm1.
    assert (alter (count_context (-1)) (Ctx.apid c) (amap u) = amap u) as E.
    { apply map_eq. intros j. destruct (decide (j = Ctx.apid c)) as [->|].
      - by rewrite lookup_alter_eq, Hr.
      - by rewrite lookup_alter_ne. }
    rewrite E in *. split_and!; done.
Qed.

(** The searches of the daemon are lookups in the maps: they end, find the
    entry of the identifiers when there is one, and nothing otherwise. *)
Theorem find_is_lookup d e i u apid ctid :
  daemon_inv d -> own_list d e i u -> good_id apid -> good_id ctid ->
  (∃ r, dlt_daemon_application_find d apid e = Some r ∧ (k ← r; live_apps u !! k) = amap u !! apid) ∧
  (∃ r, dlt_daemon_context_find d apid ctid e = Some r ∧
        (k ← r; live_ctxs u !! k) = cmap u !! (apid ++ ctid)).
Proof.
  intros Hd Ho Hida Hidc. split.
  - destruct (application_find_own d apid e i u Hd Ho Hida) as (r & -> & Hr). exists r. split; [done|].
    destruct r as [k|]; [|done]. destruct Hr as (a & Hk & -> & _). exact Hk.
  - destruct (context_find_own d apid ctid e i u Hd Ho Hida Hidc) as (r & -> & Hr). exists r. split; [done|].
    destruct r as [k|]; [|done]. destruct Hr as (c & Hk & -> & _). exact Hk.
Qed.

(** A context of an application that is not registered is refused, and no
    table changes. *)
Theorem context_add_needs_application M d apid ctid ll ts pos h description e i u :
  daemon_inv d -> own_list d e i u -> good_id apid -> good_id ctid -> amap u !! apid = None ->
  ∃ d' u', dlt_daemon_context_add M d apid ctid ll ts pos h description e = Some (None, d') ∧
    own_list d' e i u' ∧ daemon_inv d' ∧ amap u' = amap u ∧ cmap u' = cmap u.
Proof.
  intros Hd Ho Hida Hidc Happ. pose proof Ho as [Hf Hu]. unfold dlt_daemon_context_add.
  rewrite (proj2 Hida), (proj2 Hidc). cbn [orb].
  destruct (_ || _); [by exists d, u|]. destruct (_ || _); [by exists d, u|].
  rewrite Hf, Hu. bsimp. destruct (Hd i u Hu) as [Hinv Hcinv]. unfold context_slot.
  assert (∀ u', applications u' = applications u -> num_applications u' = num_applications u -> ecu u' = ecu u ->
    live_ctxs u' = live_ctxs u -> ctxs_inv u' ->
    own_list (set_list d i u') e i u' ∧ daemon_inv (set_list d i u') ∧ amap u' = amap u ∧ cmap u' = cmap u) as Hsame.
  { intros u' Ha Hn He Hl Hc. split_and!.
    - split; [by rewrite (set_list_same _ _ u)|by apply (set_list_lookup_eq _ _ u)].
    - apply (daemon_inv_set_list _ _ u); try done. revert Hinv. by apply apps_inv_arr.
    - unfold amap, live_apps. by rewrite Ha, Hn.
    - unfold cmap. by rewrite Hl. }
  destruct (match contexts u with Some c => Some c | None => _ end) as [ctxs|] eqn:Ec.
  2: { bsimp. eexists _, u. split; [reflexivity|]. by apply Hsame. }
  set (u1 := set_ctxs u (Some ctxs) (num_contexts u)).
  assert (live_ctxs u1 = live_ctxs u ∧ ctxs_inv u1) as [Hl Hc1].
  { unfold new_array in Ec. pose proof Hcinv as [Hb Hs Hi]. unfold live_ctxs in *.
    destruct (contexts u) as [c|]; [injection Ec as <-; by split|]. cbn in Hb.
    destruct (malloc _ _); [|done]. injection Ec as <-. split; [by cbn; rewrite Hb|].
    split; unfold live_ctxs; cbn; rewrite Hb; [done|constructor|constructor]. }
  destruct (application_find_spec u1 apid) as (r & -> & Hr); [by apply (apps_inv_arr u)|done|]. bsimp.
  change (amap u1) with (amap u) in Hr. rewrite Happ in Hr.
  destruct r as [k|]; [by destruct Hr as (? & _ & ? & _)|]. bsimp.
  eexists _, u1. split; [reflexivity|]. by apply Hsame.
Qed.

(** ** A daemon with two applications and a context *)

Definition id_ECU1 : bytes := [69; 67; 85; 49].
Definition id_APP1 : bytes := [65; 80; 80; 49].
Definition id_APP2 : bytes := [65; 80; 80; 50].
Definition id_CON1 : bytes := [67; 79; 78; 49].

Definition sample_list : DltDaemonRegisteredUsers :=
  {| applications := Some ([count_context 1 (new_application id_APP1); new_application id_APP2]
                             ++ replicate 498 App.zeroed);
     num_applications := 2;
     contexts := Some ([new_context id_APP1 id_CON1] ++ replicate 999 Ctx.zeroed);
     num_contexts := 1; ecu := id_ECU1 |}.
Definition sample : DltDaemon :=
  {| user_list := [sample_list]; ecuid := id_ECU1; default_log_level := 4; default_trace_status := 0;
     force_ll_ts := true; runtime_context_cfg_loaded := false |}.

Lemma sample_ids : good_id id_APP1 ∧ good_id id_APP2 ∧ good_id id_CON1.
Proof. by repeat split. Qed.

Lemma sample_inv : daemon_inv sample.
Proof.
  intros [|j] u Hu; [|done]. injection Hu as <-. destruct sample_ids as (H1 & H2 & H3). split; split.
  - by vm_compute.
  - repeat constructor.
  - by repeat constructor.
  - by vm_compute.
  - repeat constructor.
  - by repeat constructor.
Qed.

Lemma sample_own : own_list sample id_ECU1 0 sample_list.
Proof. done. Qed.

Lemma find_is_lookup_witness :
  (∃ r, dlt_daemon_application_find sample id_APP2 id_ECU1 = Some r ∧
        (k ← r; live_apps sample_list !! k) = amap sample_list !! id_APP2) ∧
  (∃ r, dlt_daemon_context_find sample id_APP2 id_CON1 id_ECU1 = Some r ∧
        (k ← r; live_ctxs sample_list !! k) = cmap sample_list !! (id_APP2 ++ id_CON1)).
Proof. apply (find_is_lookup sample id_ECU1 0); [exact sample_inv|exact sample_own|by split|by split]. Defined.

Lemma context_add_inserts_witness :
  let c := stored_context sample id_ECU1 true (new_context id_APP2 id_CON1) 6 0 0 7 None in
  ∃ k d' u',
    dlt_daemon_context_add (heap_filled 0) sample id_APP2 id_CON1 6 0 0 7 None id_ECU1 = Some (Some k, d') ∧
    own_list d' id_ECU1 0 u' ∧ daemon_inv d' ∧ live_ctxs u' !! k = Some c ∧
    cmap u' = <[id_APP2 ++ id_CON1 := c]> (cmap sample_list) ∧
    amap u' = <[id_APP2 := count_context 1 (new_application id_APP2)]> (amap sample_list) ∧
    (counted (amap sample_list) (cmap sample_list) -> counted (amap u') (cmap u')).
Proof.
  apply (context_add_inserts (heap_filled 0) sample id_APP2 id_CON1 6 0 0 7 None id_ECU1 0 sample_list
           (new_application id_APP2));
    [done|exact sample_inv|exact sample_own|by split|by split|by vm_compute|by vm_compute|by vm_compute].
Defined.

Lemma context_del_deletes_witness :
  ∃ d' u', dlt_daemon_context_del sample 0 id_ECU1 = Some (0, d') ∧ own_list d' id_ECU1 0 u' ∧ daemon_inv d' ∧
    cmap u' = delete (id_APP1 ++ id_CON1) (cmap sample_list) ∧
    amap u' = alter (count_context (-1)) id_APP1 (amap sample_list) ∧
    (counted (amap sample_list) (cmap sample_list) -> counted (amap u') (cmap u')).
Proof.
  apply (context_del_deletes sample id_ECU1 0 sample_list 0 (new_context id_APP1 id_CON1));
    [exact sample_inv|exact sample_own|done].
Defined.

Lemma context_add_needs_application_witness :
  ∃ d' u', dlt_daemon_context_add (heap_filled 0) sample id_CON1 id_CON1 4 0 0 7 None id_ECU1 = Some (None, d') ∧
    own_list d' id_ECU1 0 u' ∧ daemon_inv d' ∧ amap u' = amap sample_list ∧ cmap u' = cmap sample_list.
Proof.
  apply (context_add_needs_application (heap_filled 0) sample id_CON1 id_CON1 4 0 0 7 None id_ECU1 0);
    [exact sample_inv|exact sample_own|by split|by split|by vm_compute].
Defined.

(** The level of the new context is limited to the default. *)
Example sample_level_limited :
  Ctx.log_level (stored_context sample id_ECU1 true (new_context id_APP2 id_CON1) 6 0 0 7 None) = 4.
Proof. reflexivity. Qed.

End DaemonContextsSpec.
