(* ===== verification/EnvLL.v ===== *)
(** * Initial log levels ([src/lib/dlt_env_ll.c])

    The environment variable DLT_INITIAL_LOG_LEVEL is a list of items
    "application:context:level", separated by ";".  The library parses it when it
    starts ([dlt_env_extract_ll_set]) and looks for the best item when a context is
    registered ([dlt_env_adjust_ll_from_env]).

    The string is the list of the characters that are left, with or without its
    terminator: [cur] is the character the pointer is at. *)

From stdpp Require Import base list numbers option.
From Stdlib Require Import ZArith Lia Bool.
From S2P Require Import Prelude Ids.
Import Ids.

Local Open Scope Z_scope.

Module EnvLL.

(** ":", ";", "-", "0" and "7", "A" and "Z", "a". *)
Definition colon : Z := 58.
Definition semicolon : Z := 59.
Definition minus : Z := 45.

Definition cur (env : bytes) : Z := default 0 (head env).

Record dlt_env_ll_item := {
  appId : bytes;
  appId2 : option bytes;
  ctxId : bytes;
  ctxId2 : option bytes;
  ll : Z
}.

(** [item] has the elements that were written; [None] is a null pointer. *)
Record dlt_env_ll_set := {
  item : option (list dlt_env_ll_item);
  array_size : Z;
  num_elem : Z
}.

Definition DLT_ENV_LL_SET_INCREASE : Z := 10.
Definition sizeof_dlt_env_ll_item : Z := 40.

(** ** The parser *)

Fixpoint id_loop (n : nat) (env : bytes) : bytes * bytes :=
  match n with
  | O => ([], env)
  | S n =>
      if (cur env =? colon) || (cur env =? 0) then ([], env)
      else let '(i, env') := id_loop n (tail env) in (cur env :: i, env')
  end.

(** The result, the identifier and the string that is left. *)
Definition dlt_env_extract_id (env : bytes) : Z * bytes * bytes :=
  let '(i, env) := id_loop 4 env in
  (if cur env =? colon then 0 else -1, pad_to 4 0 i, env).

Definition to_lower (ch : Z) : Z := if (65 <=? ch) && (ch <=? 90) then ch + 32 else ch.
Fixpoint lower_loop (room : nat) (env : bytes) : bytes * bytes :=
  match room with
  | O => ([], env)
  | S room =>
      if (cur env =? 0) || (cur env =? semicolon) then ([], env)
      else let '(r, env') := lower_loop room (tail env) in (to_lower (cur env) :: r, env')
  end.
Definition dlt_env_helper_to_lower (env : bytes) (res_len : Z) : Z * bytes * bytes :=
  let '(result, env) := lower_loop (Z.to_nat (res_len - 1)) env in
  (if (cur env =? 0) || (cur env =? semicolon) then 0 else -1, result, env).

(** The names of the levels. *)
Definition level_names : list (bytes * Z) :=
  [([100; 101; 102; 97; 117; 108; 116], -1);      (* default *)
   ([111; 102; 102], 0);                          (* off *)
   ([102; 97; 116; 97; 108], 1);                  (* fatal *)
   ([101; 114; 114; 111; 114], 2);                (* error *)
   ([119; 97; 114; 110; 105; 110; 103], 3);       (* warning *)
   ([105; 110; 102; 111], 4);                     (* info *)
   ([100; 101; 98; 117; 103], 5);                 (* debug *)
   ([118; 101; 114; 98; 111; 115; 101], 6)].      (* verbose *)
Fixpoint level_of (names : list (bytes * Z)) (s : bytes) : option Z :=
  match names with
  | (n, l) :: names => if strncmp_eq 8 n s then Some l else level_of names s
  | [] => None
  end.

(** [l] is the level that was in [*ll]. *)
Definition dlt_env_extract_symbolic_ll (env : bytes) (l : Z) : Z * Z * bytes :=
  let '(rc, result, env) := dlt_env_helper_to_lower env 8 in
  if rc =? 0 then
    match level_of level_names result with
    | Some l' => (0, l', if negb (cur env =? 0) then tail env else env)
    | None => (-1, l, env)
    end
  else (-1, l, env).

Definition dlt_env_extract_ll (env : bytes) (l : Z) : Z * Z * bytes :=
  let '(rc, l, env) :=
    if cur env =? minus then
      let env := tail env in
      if cur env =? 49 then (0, -1, tail env) else (0, l, env)
    else if (48 <=? cur env) && (cur env <? 55) then (0, cur env - 48, tail env)
    else dlt_env_extract_symbolic_ll env l in
  if negb (rc =? 0) then (-1, l, env) else
  if (cur env =? semicolon) || (cur env =? 0) then (0, l, env) else (-1, l, env).

Definition empty_item : dlt_env_ll_item :=
  {| appId := [0; 0; 0; 0]; appId2 := None; ctxId := [0; 0; 0; 0]; ctxId2 := None; ll := 0 |}.
Definition with_ids (a c : bytes) (l : Z) : dlt_env_ll_item :=
  {| appId := a; appId2 := None; ctxId := c; ctxId2 := None; ll := l |}.

(** The item is written also when the function fails. *)
Definition dlt_env_extract_ll_item (env : bytes) : Z * dlt_env_ll_item * bytes :=
  let '(rc, a, env) := dlt_env_extract_id env in
  if rc =? -1 then (-1, with_ids a [0; 0; 0; 0] 0, env) else
  let '(rc, c, env) := dlt_env_extract_id (tail env) in
  if rc =? -1 then (-1, with_ids a c 0, env) else
  let '(rc, l, env) := dlt_env_extract_ll (tail env) 0 in
  (if rc =? -1 then -1 else 0, with_ids a c l, env).

Definition dlt_env_init_ll_set (A : allocator) (s : dlt_env_ll_set) : Z * dlt_env_ll_set :=
  match malloc A (sizeof_dlt_env_ll_item * DLT_ENV_LL_SET_INCREASE) with
  | None => (-1, {| item := None; array_size := 0; num_elem := num_elem s |})
  | Some _ => (0, {| item := Some []; array_size := DLT_ENV_LL_SET_INCREASE; num_elem := 0 |})
  end.

Definition dlt_env_free_ll_set (s : dlt_env_ll_set) : dlt_env_ll_set := {| item := None; array_size := 0; num_elem := 0 |}.

Definition dlt_env_increase_ll_set (A : allocator) (s : dlt_env_ll_set) : Z * dlt_env_ll_set :=
  match malloc A (sizeof_dlt_env_ll_item * (array_size s + DLT_ENV_LL_SET_INCREASE)) with
  | None => (-1, {| item := None; array_size := array_size s; num_elem := num_elem s |})
  | Some _ => (0, {| item := item s; array_size := array_size s + DLT_ENV_LL_SET_INCREASE; num_elem := num_elem s |})
  end.

(** The elements are written one behind the other.  Every round that goes on takes
    two colons, so the length of the string bounds their number. *)
Fixpoint ll_set_loop (fuel : nat) (A : allocator) (env : bytes) (s : dlt_env_ll_set) : option (Z * dlt_env_ll_set * bytes) :=
  match fuel with
  | O => None
  | S fuel =>
      let '(rc, s) := if num_elem s =? array_size s then dlt_env_increase_ll_set A s else (0, s) in
      if rc =? -1 then Some (-1, s, env) else
      items ← item s;
      let '(rc, i, env) := dlt_env_extract_ll_item env in
      let s := {| item := Some (items ++ [i]); array_size := array_size s; num_elem := num_elem s + 1 |} in
      if rc =? -1 then Some (-1, s, env) else
      let env := if cur env =? semicolon then tail env else env in
      if negb (cur env =? 0) then ll_set_loop fuel A env s else Some (0, s, env)
  end.

Definition dlt_env_extract_ll_set (A : allocator) (env : bytes) (s : dlt_env_ll_set) : option (Z * dlt_env_ll_set * bytes) :=
  let '(rc, s) := dlt_env_init_ll_set A s in
  if rc =? -1 then Some (-1, s, env) else ll_set_loop (S (length env)) A env s.

(** ** The best item *)

(** The comparison reads a byte only when those before it are equal; [None]: it
    reads behind one of the strings. *)
Fixpoint ids_equal (n : nat) (a b : bytes) : option bool :=
  match n with
  | O => Some true
  | S n => x ← head a; y ← head b; if negb (x =? y) then Some false else ids_equal n (tail a) (tail b)
  end.
Definition dlt_env_ids_match (a b : bytes) : option bool := ids_equal 4 a b.
Definition dlt_env_ids_match_v2 (a b : bytes) (len : Z) : bool := strncmp_eq (Z.to_nat len) a b.

Definition dlt_env_ll_item_get_matching_prio (i : dlt_env_ll_item) (apid ctid : bytes) : option Z :=
  if cur (appId i) =? 0 then
    if cur (ctxId i) =? 0 then Some 1
    else m ← dlt_env_ids_match (ctxId i) ctid; Some (if (m : bool) then 2 else 0)
  else
    m ← dlt_env_ids_match (appId i) apid;
    if (m : bool) then
      if cur (ctxId i) =? 0 then Some 3
      else m ← dlt_env_ids_match (ctxId i) ctid; Some (if (m : bool) then 4 else 0)
    else Some 0.

Definition dlt_env_ll_item_get_matching_prio_v2 (i : dlt_env_ll_item) (apid : bytes) (apidlen : Z) (ctid : bytes) (ctidlen : Z) : Z :=
  match appId2 i with
  | None =>
      match ctxId2 i with
      | None => 1
      | Some c => if dlt_env_ids_match_v2 c ctid ctidlen then 2 else 0
      end
  | Some a =>
      if dlt_env_ids_match_v2 a apid apidlen then
        match ctxId2 i with
        | None => 3
        | Some c => if dlt_env_ids_match_v2 c ctid ctidlen then 4 else 0
        end
      else 0
  end.

(** The loop over the items: [prio] is a function of the item. *)
Fixpoint adjust_loop (prio_of : dlt_env_ll_item -> option Z) (items : list dlt_env_ll_item) (res prio : Z) : option Z :=
  match items with
  | [] => Some res
  | i :: items =>
      p ← prio_of i;
      if prio <? p then
        if p =? 4 then Some (ll i) else adjust_loop prio_of items (ll i) p
      else adjust_loop prio_of items res prio
  end.

(** With a null pointer for the items and elements in it, the loop is undefined. *)
Definition adjust (prio_of : dlt_env_ll_item -> option Z) (s : dlt_env_ll_set) (l : Z) : option Z :=
  if num_elem s =? 0 then Some l else
  items ← item s; adjust_loop prio_of (take (Z.to_nat (num_elem s)) items) l 0.
Definition dlt_env_adjust_ll_from_env (s : dlt_env_ll_set) (apid ctid : bytes) (l : Z) : option Z :=
  adjust (λ i, dlt_env_ll_item_get_matching_prio i apid ctid) s l.
Definition dlt_env_adjust_ll_from_env_v2 (s : dlt_env_ll_set) (apid : bytes) (apidlen : Z) (ctid : bytes) (ctidlen l : Z) : option Z :=
  adjust (λ i, Some (dlt_env_ll_item_get_matching_prio_v2 i apid apidlen ctid ctidlen)) s l.

End EnvLL.
