(* ===== verification/EnvLLSpec.v ===== *)
(** * Initial log levels: what the variable says

    The parser reads back what is written in its grammar, ends on every string with
    well-formed items, and the item that is chosen for a context is the first of the
    most specific ones that match. *)

From stdpp Require Import base list numbers option.
From Stdlib Require Import ZArith Lia Bool.
From S2P Require Import Prelude Ids EnvLL.
Import Ids EnvLL.

Local Open Scope Z_scope.

Module EnvLLSpec.

(** ** The grammar *)

Definition level_text (l : Z) : bytes := if l =? -1 then [minus; 49] else [48 + l].
Definition show (i : dlt_env_ll_item) : bytes :=
  cstr 4 (appId i) ++ [colon] ++ cstr 4 (ctxId i) ++ [colon] ++ level_text (ll i).
Fixpoint show_all (items : list dlt_env_ll_item) : bytes :=
  match items with
  | [] => []
  | [i] => show i
  | i :: items => show i ++ [semicolon] ++ show_all items
  end.

(** What an item can say: identifiers of at most four characters without colon. *)
Record wf_item (i : dlt_env_ll_item) : Prop := {
  wi_app : is_id (appId i);
  wi_app_colon : colon ∉ appId i;
  wi_ctx : is_id (ctxId i);
  wi_ctx_colon : colon ∉ ctxId i;
  wi_app2 : appId2 i = None;
  wi_ctx2 : ctxId2 i = None;
  wi_ll : -1 <= ll i <= 6
}.

(** The end of an item. *)
Definition at_end (r : bytes) : Prop := cur r = semicolon ∨ cur r = 0.

(** ** Parsing *)

Lemma id_loop_text n (t r : bytes) : (length t <= n)%nat -> colon ∉ t -> 0 ∉ t -> cur r = colon -> id_loop n (t ++ r) = (t, r).
Proof.
  revert t. induction n as [|n IH]; intros t Hl Hc H0 Hr.
  { destruct t; [|simpl in Hl; lia]. done. }
  cbn [id_loop]. destruct t as [|b t]; cbn [app].
  { rewrite Hr. done. }
  cbn [cur head default from_option tail]. apply not_elem_of_cons in Hc as [Hb Hc]. apply not_elem_of_cons in H0 as [Hz H0].
  unfold cur. cbn [head default from_option Datatypes.id]. rewrite !eqb_false by done. cbn [orb].
  rewrite IH; [done| |done..]. simpl in Hl. lia.
Qed.

Lemma cstr_subset n (t : bytes) x : x ∈ cstr n t -> x ∈ t.
Proof. rewrite <-take_cstr. intros H. apply elem_of_take in H as (k & H & _). by apply list_elem_of_lookup_2 in H. Qed.

Lemma extract_id_text (i r : bytes) : is_id i -> colon ∉ i -> cur r = colon -> dlt_env_extract_id (cstr 4 i ++ r) = (0, i, r).
Proof.
  intros Hi Hc Hr. unfold dlt_env_extract_id. rewrite id_loop_text; [|apply length_cstr|intros H; by apply cstr_subset in H|apply cstr_no_zero|done].
  rewrite Hr. cbn [Z.eqb colon Pos.eqb]. by rewrite <-Hi.
Qed.

Lemma extract_ll_text l (r : bytes) : -1 <= l <= 6 -> at_end r -> dlt_env_extract_ll (level_text l ++ r) 0 = (0, l, r).
Proof.
  intros Hl He. unfold dlt_env_extract_ll, level_text.
  assert ((cur r =? semicolon) || (cur r =? 0) = true) as Hr by (destruct He as [-> | ->]; done).
  destruct (Z.eqb_spec l (-1)) as [->|]; cbn [app].
  - change (cur (minus :: 49 :: r) =? minus) with true. cbv iota. cbn [tail]. change (cur (49 :: r) =? 49) with true. cbv iota. cbn [tail negb Z.eqb].
    by rewrite Hr.
  - assert (cur ((48 + l) :: r) = 48 + l) as -> by done. rewrite (eqb_false _ minus), leb_true, ltb_true by (unfold minus; lia). cbn [andb tail negb Z.eqb].
    rewrite Hr. by replace (48 + l - 48) with l by lia.
Qed.

Lemma extract_item_text i (r : bytes) : wf_item i -> at_end r -> dlt_env_extract_ll_item (show i ++ r) = (0, i, r).
Proof.
  intros [Ha Hac Hc Hcc H1 H2 Hl] He. unfold dlt_env_extract_ll_item, show. rewrite <-!app_assoc.
  rewrite (extract_id_text (appId i)) by done. cbn [Z.eqb app tail]. rewrite (extract_id_text (ctxId i)) by done. cbn [Z.eqb app tail].
  rewrite extract_ll_text by done. cbn [Z.eqb]. f_equal. f_equal. destruct i. cbn in *. by subst.
Qed.

Lemma show_length i : (2 <= length (show i))%nat.
Proof. unfold show. rewrite !length_app. cbn [length]. lia. Qed.
Lemma show_cons i items : items <> [] -> show_all (i :: items) = show i ++ [semicolon] ++ show_all items.
Proof. by destruct items. Qed.
Lemma show_nonempty i (r : bytes) : wf_item i -> cur (show i ++ r) <> 0.
Proof.
  intros [Ha _ _ _ _ _ _]. unfold show. rewrite <-!app_assoc. pose proof (cstr_no_zero 4 (appId i)) as H0.
  destruct (cstr 4 (appId i)) as [|b t]; [done|]. cbn. intros ->. apply H0. by left.
Qed.
Lemma show_all_nonempty items (r : bytes) : items <> [] -> Forall wf_item items -> cur (show_all items ++ r) <> 0.
Proof.
  intros Hn Hw. destruct items as [|i items]; [done|]. apply Forall_cons_iff in Hw as [Hi _].
  destruct items; [by apply show_nonempty|]. rewrite show_cons by done. rewrite <-app_assoc. by apply show_nonempty.
Qed.

(** The set while it is filled. *)
Record filled (s : dlt_env_ll_set) (items : list dlt_env_ll_item) : Prop := {
  fi_items : item s = Some items;
  fi_num : num_elem s = zlen items;
  fi_room : num_elem s <= array_size s
}.

Lemma loop_item fuel A env s items : filled s items ->
  (num_elem s < array_size s ∨ malloc A (sizeof_dlt_env_ll_item * (array_size s + DLT_ENV_LL_SET_INCREASE)) <> None) ->
  ∃ s', (∀ i, filled (s' i) (items ++ [i])) ∧
    ll_set_loop (S fuel) A env s =
      let '(rc, i, env) := dlt_env_extract_ll_item env in
      if rc =? -1 then Some (-1, s' i, env) else
      let env := if cur env =? semicolon then tail env else env in
      if negb (cur env =? 0) then ll_set_loop fuel A env (s' i) else Some (0, s' i, env).
Proof.
  intros [Hi Hn Hr] HA. cbn [ll_set_loop].
  set (grown := if num_elem s =? array_size s then dlt_env_increase_ll_set A s else (0, s)).
  assert (∃ a, grown = (0, {| item := Some items; array_size := a; num_elem := num_elem s |}) ∧ num_elem s < a) as (a & -> & Ha).
  { unfold grown. destruct (Z.eqb_spec (num_elem s) (array_size s)) as [Ee|].
    - unfold dlt_env_increase_ll_set. destruct (malloc _ _); [|destruct HA; [lia|done]]. eexists. rewrite Hi. split; [reflexivity|].
      unfold DLT_ENV_LL_SET_INCREASE. lia.
    - exists (array_size s). split; [|lia]. destruct s. cbn in *. by subst. }
  eexists (λ i, {| item := Some (items ++ [i]); array_size := a; num_elem := num_elem s + 1 |}). split.
  - intros i. split; cbn; [done|rewrite length_app; simpl; lia|lia].
  - cbn [Z.eqb item num_elem array_size]. by bsimp.
Qed.

Lemma loop_text A items : heap_ok A -> items <> [] -> Forall wf_item items -> ∀ fuel (r : bytes) s done,
  filled s done -> r = [] ∨ r = [semicolon] -> (length (show_all items) < fuel)%nat ->
  ∃ s', ll_set_loop fuel A (show_all items ++ r) s = Some (0, s', []) ∧ filled s' (done ++ items).
Proof.
  intros HA. induction items as [|i items IH]; [done|]. intros _ Hw fuel r s dn Hs Hr Hf. apply Forall_cons_iff in Hw as [Hi Hw].
  destruct fuel as [|fuel]; [lia|]. destruct (loop_item fuel A (show_all (i :: items) ++ r) s dn Hs) as (s' & Hs' & ->); [right; apply HA|].
  destruct (decide (items = [])) as [->|Hne].
  - cbn [show_all]. rewrite extract_item_text; [|done|destruct Hr as [-> | ->]; [by right|by left]]. cbn [Z.eqb].
    exists (s' i). split; [|apply Hs']. by destruct Hr as [-> | ->].
  - rewrite show_cons by done. rewrite <-!app_assoc. rewrite extract_item_text by (done || by left). cbn [Z.eqb app].
    change (cur (semicolon :: show_all items ++ r)) with semicolon. rewrite Z.eqb_refl. cbn [tail].
    rewrite (eqb_false _ 0) by (by apply show_all_nonempty). cbn [negb].
    destruct (IH Hne Hw fuel r (s' i) (dn ++ [i]) (Hs' i) Hr) as (s2 & -> & H2).
    + rewrite show_cons in Hf by done. rewrite !length_app in Hf. pose proof (show_length i). cbn [length] in Hf. lia.
    + exists s2. split; [done|]. by rewrite <-app_assoc in H2.
Qed.

(** C34: round trip.  Any list of items that is written in the form of the environment
    variable, with or without a separator at the end, is parsed to these items; the
    array grows as needed. *)
Theorem env_levels_roundtrip A items (r : bytes) s :
  heap_ok A -> items <> [] -> Forall wf_item items -> r = [] ∨ r = [semicolon] ->
  ∃ s', dlt_env_extract_ll_set A (show_all items ++ r) s = Some (0, s', []) ∧
    item s' = Some items ∧ num_elem s' = zlen items ∧ num_elem s' <= array_size s'.
Proof.
  intros HA Hn Hw Hr. unfold dlt_env_extract_ll_set, dlt_env_init_ll_set. destruct (malloc _ _) eqn:Em; [|by apply HA in Em]. cbn [Z.eqb].
  destruct (loop_text A items HA Hn Hw (S (length (show_all items ++ r))) r {| item := Some []; array_size := DLT_ENV_LL_SET_INCREASE; num_elem := 0 |} [])
    as (s' & -> & [H1 H2 H3]); [by split|done|rewrite length_app; lia|]. by exists s'.
Qed.

(** ** Any string *)

Record sane_item (i : dlt_env_ll_item) : Prop := {
  si_app : length (appId i) = 4%nat;
  si_ctx : length (ctxId i) = 4%nat;
  si_app2 : appId2 i = None;
  si_ctx2 : ctxId2 i = None;
  si_ll : -1 <= ll i <= 6
}.

Lemma id_loop_length n : ∀ env i env', id_loop n env = (i, env') -> (length i <= n)%nat ∧ (length env' <= length env)%nat.
Proof.
  induction n as [|n IH]; intros env i env' H; cbn [id_loop] in H; [injection H as <- <-; simpl; lia|].
  destruct (_ || _); [injection H as <- <-; simpl; lia|]. destruct (id_loop n (tail env)) as [i1 e1] eqn:E. injection H as <- <-.
  apply IH in E as [H1 H2]. destruct env; simpl in *; lia.
Qed.
Lemma extract_id_sane env rc i env' : dlt_env_extract_id env = (rc, i, env') ->
  length i = 4%nat ∧ (length env' <= length env)%nat ∧ (rc <> -1 -> (length (tail env') < length env')%nat).
Proof.
  unfold dlt_env_extract_id. destruct (id_loop 4 env) as [j e] eqn:E. intros [= <- <- <-]. apply id_loop_length in E as [H1 H2].
  split_and!; [by apply length_pad_to|done|]. destruct (Z.eqb_spec (cur e) colon) as [Hc|]; [|done]. intros _. destruct e; [done|simpl; lia].
Qed.
Lemma lower_loop_length n : ∀ env r env', lower_loop n env = (r, env') -> (length env' <= length env)%nat.
Proof.
  induction n as [|n IH]; intros env r env' H; cbn [lower_loop] in H; [injection H as <- <-; lia|].
  destruct (_ || _); [injection H as <- <-; lia|]. destruct (lower_loop n (tail env)) as [i1 e1] eqn:E. injection H as <- <-.
  apply IH in E. destruct env; simpl in *; lia.
Qed.
Lemma tail_length (e : bytes) : (length (tail e) <= length e)%nat.
Proof. destruct e; simpl; lia. Qed.

Lemma level_of_range names s l : Forall (λ x, -1 <= x.2 <= 6) names -> level_of names s = Some l -> -1 <= l <= 6.
Proof.
  induction 1 as [|[n k] names Hk Hn IH]; cbn [level_of]; [done|]. destruct (strncmp_eq 8 n s); [by intros [= <-]|done].
Qed.
Lemma symbolic_sane env l rc l' env' : dlt_env_extract_symbolic_ll env l = (rc, l', env') -> -1 <= l <= 6 ->
  -1 <= l' <= 6 ∧ (length env' <= length env)%nat.
Proof.
  unfold dlt_env_extract_symbolic_ll, dlt_env_helper_to_lower. intros H Hl. destruct (lower_loop _ env) as [r e] eqn:E. apply lower_loop_length in E.
  pose proof (tail_length e). destruct (_ || _); cbn [Z.eqb] in H; [|by injection H as <- <- <-].
  destruct (level_of level_names r) as [k|] eqn:Ek; [|by injection H as <- <- <-]. apply level_of_range in Ek; [|unfold level_names; do 8 (apply Forall_cons; [cbn; lia|]); apply Forall_nil].
  injection H as <- <- <-. split; [done|]. destruct (negb _); lia.
Qed.
Lemma extract_ll_sane env l rc l' env' : dlt_env_extract_ll env l = (rc, l', env') -> -1 <= l <= 6 ->
  -1 <= l' <= 6 ∧ (length env' <= length env)%nat.
Proof.
  unfold dlt_env_extract_ll. intros H Hl. set (x := if cur env =? minus then _ else _) in H.
  assert (∃ rc1 l1 e1, x = (rc1, l1, e1) ∧ -1 <= l1 <= 6 ∧ (length e1 <= length env)%nat) as (rc1 & l1 & e1 & -> & Hl1 & He1).
  { subst x. pose proof (tail_length env). pose proof (tail_length (tail env)). destruct (_ =? minus).
    { destruct (_ =? 49); eexists _, _, _; (split; [reflexivity|]; lia). }
    destruct ((_ <=? _) && _) eqn:Ec; [zb; eexists _, _, _; split; [reflexivity|]; lia|].
    destruct (dlt_env_extract_symbolic_ll env l) as [[a b] c] eqn:E. by apply symbolic_sane in E; [|done]; eexists _, _, _. }
  destruct (negb _); [by injection H as <- <- <-|]. destruct (_ || _); by injection H as <- <- <-.
Qed.
Lemma extract_item_sane env rc i env' : dlt_env_extract_ll_item env = (rc, i, env') ->
  sane_item i ∧ (rc <> -1 -> (length env' < length env)%nat).
Proof.
  unfold dlt_env_extract_ll_item. intros H. destruct (dlt_env_extract_id env) as [[rc1 a] e1] eqn:E1. apply extract_id_sane in E1 as (La & L1 & T1).
  destruct (Z.eqb_spec rc1 (-1)). { injection H as <- <- <-. by split. }
  destruct (dlt_env_extract_id (tail e1)) as [[rc2 c] e2] eqn:E2. apply extract_id_sane in E2 as (Lc & L2 & T2).
  destruct (Z.eqb_spec rc2 (-1)). { injection H as <- <- <-. by split. }
  destruct (dlt_env_extract_ll (tail e2) 0) as [[rc3 l] e3] eqn:E3. apply extract_ll_sane in E3 as (Hl & L3); [|lia].
  injection H as <- <- <-. split; [by split|]. intros _. specialize (T1 ltac:(done)). specialize (T2 ltac:(done)). lia.
Qed.

(** The set as [dlt_env_adjust_ll_from_env] finds it: all items have identifiers of
    four bytes and a level, unless the memory was exhausted. *)
Definition sane_set (s : dlt_env_ll_set) : Prop :=
  match item s with
  | Some items => num_elem s = zlen items ∧ num_elem s <= array_size s ∧ Forall sane_item items
  | None => True
  end.

Lemma loop_sane A : ∀ fuel env s items, filled s items -> Forall sane_item items -> (length env < fuel)%nat ->
  ∃ rc s' env', ll_set_loop fuel A env s = Some (rc, s', env') ∧ sane_set s'.
Proof.
  induction fuel as [|fuel IH]; intros env s items Hs Hi Hf; [lia|].
  destruct (decide (num_elem s < array_size s ∨ malloc A (sizeof_dlt_env_ll_item * (array_size s + DLT_ENV_LL_SET_INCREASE)) <> None)) as [HA|HA].
  2: { cbn [ll_set_loop]. destruct Hs as [H1 H2 H3]. rewrite (proj2 (Z.eqb_eq _ _)) by (apply Decidable.not_or in HA; lia).
       unfold dlt_env_increase_ll_set. destruct (malloc _ _); [exfalso; apply HA; by right|]. by eexists _, _, _. }
  destruct (loop_item fuel A env s items Hs HA) as (s' & Hs' & ->). destruct (dlt_env_extract_ll_item env) as [[rc i] e] eqn:E.
  apply extract_item_sane in E as [Hi' He]. assert (Forall sane_item (items ++ [i])) as Hall by (apply Forall_app; by split; [|constructor]).
  assert (sane_set (s' i)) as Hss by (destruct (Hs' i) as [H1 H2 H3]; unfold sane_set; by rewrite H1).
  destruct (Z.eqb_spec rc (-1)); [by eexists _, _, _|]. cbv zeta. destruct (negb _); [|by eexists _, _, _].
  apply (IH _ (s' i) (items ++ [i])); [done|done|]. specialize (He ltac:(done)). pose proof (tail_length e). destruct (_ =? semicolon); lia.
Qed.

(** Whatever the environment variable contains, the parser ends, and the set it
    leaves has as many items as it says, each with identifiers of four bytes and a
    level between -1 and 6, also when it reports an error. *)
Theorem env_levels_sane A env s :
  ∃ rc s' env', dlt_env_extract_ll_set A env s = Some (rc, s', env') ∧ sane_set s'.
Proof.
  unfold dlt_env_extract_ll_set, dlt_env_init_ll_set. destruct (malloc _ _); cbn [Z.eqb Pos.eqb]; [|by eexists _, _, _].
  apply (loop_sane A _ env _ []); [by split|constructor|lia].
Qed.

(** ** The best item *)

(** Identifiers that are not given match everything. *)
Definition given (i : bytes) : bool := negb (cur i =? 0).
Definition agrees (i x : bytes) : bool := negb (given i) || bool_decide (i = take 4 x).
Definition rank (apid ctid : bytes) (i : dlt_env_ll_item) : Z :=
  if agrees (appId i) apid && agrees (ctxId i) ctid
  then 1 + (if given (appId i) then 2 else 0) + (if given (ctxId i) then 1 else 0) else 0.

Lemma ids_match_spec (a b : bytes) : length a = 4%nat -> (4 <= length b)%nat -> dlt_env_ids_match a b = Some (bool_decide (a = take 4 b)).
Proof.
  intros Ha Hb. unfold dlt_env_ids_match.
  assert (∀ n (a b : bytes), length a = n -> (n <= length b)%nat -> ids_equal n a b = Some (bool_decide (a = take n b))) as Hg; [|by apply Hg].
  clear. induction n as [|n IH]; intros [|x a] [|y b] Ha Hb; cbn in Ha, Hb; try lia; try done. cbn [ids_equal head tail take]. bsimp.
  destruct (Z.eqb_spec x y) as [->|Hne]; cbn [negb].
  - rewrite IH by lia. f_equal. apply bool_decide_ext. split; [by intros ->|by intros [= ?]].
  - f_equal. symmetry. apply bool_decide_false. by intros [= ? ?].
Qed.

Lemma prio_is_rank apid ctid i : sane_item i -> (4 <= length apid)%nat -> (4 <= length ctid)%nat ->
  dlt_env_ll_item_get_matching_prio i apid ctid = Some (rank apid ctid i).
Proof.
  intros [Ha Hc _ _ _] La Lc. unfold dlt_env_ll_item_get_matching_prio, rank, agrees, given. rewrite !ids_match_spec by done.
  destruct (cur (appId i) =? 0), (cur (ctxId i) =? 0), (bool_decide (appId i = _)), (bool_decide (ctxId i = _)); done.
Qed.

(** The first of the items with the highest rank. *)
Definition best_of (f : dlt_env_ll_item -> Z) (items : list dlt_env_ll_item) (i : dlt_env_ll_item) : Prop :=
  0 < f i ∧ ∃ before after, items = before ++ i :: after ∧ Forall (λ j, f j < f i) before ∧ Forall (λ j, f j <= f i) after.

Lemma adjust_loop_best (f : dlt_env_ll_item -> Z) prio_of items : (∀ i, i ∈ items -> prio_of i = Some (f i) ∧ 0 <= f i <= 4) ->
  ∀ res prio, 0 <= prio -> ∃ r, adjust_loop prio_of items res prio = Some r ∧
    ((Forall (λ i, f i <= prio) items ∧ r = res) ∨ (∃ i, prio < f i ∧ best_of f items i ∧ r = ll i)).
Proof.
  intros Hp. induction items as [|i items IH]; intros res prio H0; cbn [adjust_loop]; [exists res; split; [done|]; left; by split; [constructor|]|].
  destruct (Hp i) as [-> Hi]; [by left|]. bsimp. assert (∀ j, j ∈ items -> prio_of j = Some (f j) ∧ 0 <= f j <= 4) as Hp' by (intros j Hj; apply Hp; by right).
  destruct (Z.ltb_spec prio (f i)) as [Hlt|Hge].
  - destruct (Z.eqb_spec (f i) 4) as [E4|].
    + exists (ll i). split; [done|]. right. exists i. split; [done|]. split; [|done]. split; [lia|]. exists [], items. split_and!; [done|constructor|].
      apply list.Forall_forall. intros j Hj. destruct (Hp' j Hj). lia.
    + destruct (IH Hp' (ll i) (f i)) as (r & -> & Hr); [lia|]. exists r. split; [done|]. right. destruct Hr as [[Hall ->]|(k & Hk & (Hk0 & b & a & -> & Hb & Ha) & ->)].
      * exists i. split; [done|]. split; [|done]. split; [lia|]. exists [], items. by split_and!; [done|constructor|].
      * exists k. split; [lia|]. split; [|done]. split; [lia|]. exists (i :: b), a. split_and!; [done|by constructor|done].
  - destruct (IH Hp' res prio H0) as (r & -> & Hr). exists r. split; [done|]. destruct Hr as [[Hall ->]|(k & Hk & (Hk0 & b & a & -> & Hb & Ha) & ->)].
    + left. by split; [constructor|].
    + right. exists k. split; [done|]. split; [|done]. split; [lia|]. exists (i :: b), a. split_and!; [done|constructor; [lia|done]|done].
Qed.

(** The level of a context is that of the first of the most specific items that
    match it: an item with application and context before one with the application,
    before one with the context, before one without identifiers; without a match it
    is the level that was there. *)
Theorem best_level_chosen s items apid ctid l :
  item s = Some items -> num_elem s = zlen items -> Forall sane_item items -> (4 <= length apid)%nat -> (4 <= length ctid)%nat ->
  ∃ r, dlt_env_adjust_ll_from_env s apid ctid l = Some r ∧
    ((Forall (λ i, rank apid ctid i = 0) items ∧ r = l) ∨ (∃ i, best_of (rank apid ctid) items i ∧ r = ll i)).
Proof.
  intros Hi Hn Hs La Lc. unfold dlt_env_adjust_ll_from_env, adjust. rewrite Hi, Hn. destruct (Z.eqb_spec (zlen items) 0).
  { exists l. split; [done|]. left. destruct items; [by split; [constructor|]|simpl in *; lia]. }
  bsimp. rewrite Nat2Z.id, firstn_all.
  assert (∀ i, 0 <= rank apid ctid i <= 4) as Hrank by (intros i; unfold rank; repeat case_match; lia).
  destruct (adjust_loop_best (rank apid ctid) (λ i, dlt_env_ll_item_get_matching_prio i apid ctid) items) with (res := l) (prio := 0) as (r & -> & Hr);
    [|lia|].
  - intros i Hin. split; [|done]. apply prio_is_rank; [|done..]. rewrite list.Forall_forall in Hs. by apply Hs.
  - exists r. split; [done|]. destruct Hr as [[Hall ->]|(i & _ & Hb & ->)]; [left|right; by exists i]. split; [|done].
    eapply list.Forall_impl; [exact Hall|]. intros i Hle. cbn in Hle. specialize (Hrank i). lia.
Qed.

(** ** What does not work *)

(** A level can be given by name only in the last item: behind a name, the
    separator is skipped before the end of the item is checked, so the list is
    rejected there and the items behind it are lost. *)
Theorem named_level_must_be_last A a c name l (rest : bytes) s :
  heap_ok A -> is_id a -> colon ∉ a -> is_id c -> colon ∉ c -> (name, l) ∈ level_names -> cur rest <> 0 -> cur rest <> semicolon ->
  ∃ s', dlt_env_extract_ll_set A (cstr 4 a ++ [colon] ++ cstr 4 c ++ [colon] ++ name ++ [semicolon] ++ rest) s = Some (-1, s', rest) ∧
    item s' = Some [with_ids a c l].
Proof.
  intros HA Ia Ca Ic Cc Hn H0 Hs. unfold dlt_env_extract_ll_set, dlt_env_init_ll_set. destruct (malloc _ _) eqn:Em; [|by apply HA in Em]. cbn [Z.eqb].
  destruct (loop_item (length (cstr 4 a ++ [colon] ++ cstr 4 c ++ [colon] ++ name ++ [semicolon] ++ rest)) A
    (cstr 4 a ++ [colon] ++ cstr 4 c ++ [colon] ++ name ++ [semicolon] ++ rest)
    {| item := Some []; array_size := DLT_ENV_LL_SET_INCREASE; num_elem := 0 |} []) as (s' & Hs' & ->); [by split|by left|].
  assert (dlt_env_extract_ll_item (cstr 4 a ++ [colon] ++ cstr 4 c ++ [colon] ++ name ++ [semicolon] ++ rest) = (-1, with_ids a c l, rest)) as ->.
  { unfold dlt_env_extract_ll_item. rewrite (extract_id_text a) by done. cbn [Z.eqb app tail]. rewrite (extract_id_text c) by done. cbn [Z.eqb app tail].
    assert (dlt_env_extract_ll (name ++ semicolon :: rest) 0 = (-1, l, rest)) as ->; [|done]. unfold dlt_env_extract_ll.
    assert (dlt_env_extract_symbolic_ll (name ++ semicolon :: rest) 0 = (0, l, rest) ∧ (cur (name ++ semicolon :: rest) =? minus) = false ∧
      (48 <=? cur (name ++ semicolon :: rest)) && (cur (name ++ semicolon :: rest) <? 55) = false) as (-> & -> & ->).
    { unfold level_names in Hn. repeat (apply elem_of_cons in Hn as [Hn|Hn]; [injection Hn as -> ->; by split_and!|]). by apply not_elem_of_nil in Hn. }
    cbn [negb Z.eqb]. by rewrite !eqb_false by done. }
  cbn [Z.eqb Pos.eqb]. exists (s' (with_ids a c l)). split; [done|]. apply Hs'.
Qed.

(** In protocol version 2 the identifiers of the items are never set: the first item
    is taken for every context. *)
Theorem version_2_takes_first_item s i items apid apidlen ctid ctidlen l :
  item s = Some (i :: items) -> num_elem s = zlen (i :: items) -> Forall sane_item (i :: items) ->
  dlt_env_adjust_ll_from_env_v2 s apid apidlen ctid ctidlen l = Some (ll i).
Proof.
  intros Hi Hn Hs. unfold dlt_env_adjust_ll_from_env_v2, adjust. rewrite Hi, Hn, eqb_false by (simpl; lia). bsimp. rewrite Nat2Z.id, firstn_all.
  assert (∀ j, sane_item j -> dlt_env_ll_item_get_matching_prio_v2 j apid apidlen ctid ctidlen = 1) as H1.
  { intros j [_ _ A2 C2 _]. unfold dlt_env_ll_item_get_matching_prio_v2. by rewrite A2, C2. }
  apply Forall_cons_iff in Hs as [H Hs]. cbn [adjust_loop]. bsimp. rewrite (H1 i H). cbn [Z.ltb Z.compare Z.eqb Pos.eqb].
  clear Hi Hn H. induction Hs as [|j items Hj Hs IH]; [done|]. cbn [adjust_loop]. bsimp. rewrite (H1 j Hj). done.
Qed.

(** The comparison of identifiers reads four bytes also of a shorter one. *)
Example short_context_read_behind : dlt_env_ids_match [65; 66; 0; 0] [65; 66; 0] = None.
Proof. done. Qed.

(** ** Examples *)

(** "APP1:CTX1:6", "APP1::2", "::-1". *)
Definition sample_items : list dlt_env_ll_item :=
  [with_ids [65; 80; 80; 49] [67; 84; 88; 49] 6; with_ids [65; 80; 80; 49] [0; 0; 0; 0] 2; with_ids [0; 0; 0; 0] [0; 0; 0; 0] (-1)].
Lemma sample_items_wf : Forall wf_item sample_items.
Proof.
  assert (∀ (l : bytes), forallb (λ b, negb (b =? colon)) l = true -> colon ∉ l) as Hc.
  { intros l Hf Hin. rewrite forallb_forall in Hf. apply list_elem_of_In, Hf in Hin. by rewrite Z.eqb_refl in Hin. }
  repeat constructor; try (by apply Hc); done.
Qed.

Lemma env_levels_roundtrip_witness :
  ∃ s', dlt_env_extract_ll_set (heap_filled 0) (show_all sample_items ++ [semicolon]) {| item := None; array_size := 0; num_elem := 0 |} = Some (0, s', []) ∧
    item s' = Some sample_items ∧ num_elem s' = 3 ∧ num_elem s' <= array_size s'.
Proof.
  apply (env_levels_roundtrip (heap_filled 0) sample_items [semicolon] {| item := None; array_size := 0; num_elem := 0 |}).
  - intros n. done.
  - done.
  - exact sample_items_wf.
  - by right.
Defined.

Lemma best_level_chosen_witness :
  let s := {| item := Some sample_items; array_size := 10; num_elem := 3 |} in
  ∃ r, dlt_env_adjust_ll_from_env s [65; 80; 80; 49] [67; 84; 88; 50] (-2) = Some r ∧
    ((Forall (λ i, rank [65; 80; 80; 49] [67; 84; 88; 50] i = 0) sample_items ∧ r = -2) ∨
     (∃ i, best_of (rank [65; 80; 80; 49] [67; 84; 88; 50]) sample_items i ∧ r = ll i)).
Proof.
  intros s. apply (best_level_chosen s sample_items [65; 80; 80; 49] [67; 84; 88; 50] (-2)).
  - done.
  - done.
  - repeat constructor; done.
  - done.
  - done.
Defined.

Lemma named_level_must_be_last_witness :
  ∃ s', dlt_env_extract_ll_set (heap_filled 0) ([65; 80; 80; 49; 58; 67; 58] ++ [105; 110; 102; 111; 59] ++ [66; 58; 67; 58; 51])
      {| item := None; array_size := 0; num_elem := 0 |} = Some (-1, s', [66; 58; 67; 58; 51]) ∧
    item s' = Some [with_ids [65; 80; 80; 49] [67; 0; 0; 0] 4].
Proof.
  assert (∀ (l : bytes), forallb (λ b, negb (b =? colon)) l = true -> colon ∉ l) as Hc.
  { intros l Hf Hin. rewrite forallb_forall in Hf. apply list_elem_of_In, Hf in Hin. by rewrite Z.eqb_refl in Hin. }
  apply (named_level_must_be_last (heap_filled 0) [65; 80; 80; 49] [67; 0; 0; 0] [105; 110; 102; 111] 4 [66; 58; 67; 58; 51]
    {| item := None; array_size := 0; num_elem := 0 |}).
  - intros n. done.
  - done.
  - by apply Hc.
  - done.
  - by apply Hc.
  - apply list_elem_of_In. vm_compute. tauto.
  - done.
  - done.
Defined.

End EnvLLSpec.
