(* ===== verification/UserLog.v ===== *)
(** * Writing arguments in the user library ([src/lib/dlt_user.c])

    An application builds a message in the buffer of a [DltContextData]: every
    [dlt_user_log_write_*] function appends one argument.  In verbose mode an
    argument starts with its type info; the optional attributes are a name and a
    unit.  The log object is the caller's, so [log != NULL] holds; the format
    argument of [dlt_vlog] is left out.  The host is little-endian. *)

From stdpp Require Import base list numbers option.
From Stdlib Require Import ZArith Lia Bool.
From S2P Require Import Prelude RingBuffer.

Local Open Scope Z_scope.

Module UserLog.

(** ** Constants of [dlt_protocol.h] and [dlt_types.h] *)

Definition DLT_TYPE_INFO_TYLE : Z := 15.
Definition DLT_TYPE_INFO_BOOL : Z := 16.
Definition DLT_TYPE_INFO_SINT : Z := 32.
Definition DLT_TYPE_INFO_UINT : Z := 64.
Definition DLT_TYPE_INFO_FLOA : Z := 128.
Definition DLT_TYPE_INFO_STRG : Z := 512.
Definition DLT_TYPE_INFO_RAWD : Z := 1024.
Definition DLT_TYPE_INFO_VARI : Z := 2048.
Definition DLT_TYPE_INFO_FIXP : Z := 4096.
Definition DLT_TYPE_INFO_TRAI : Z := 8192.
Definition DLT_TYPE_INFO_SCOD : Z := 229376.
Definition DLT_TYLE_8BIT : Z := 1.
Definition DLT_TYLE_16BIT : Z := 2.
Definition DLT_TYLE_32BIT : Z := 3.
Definition DLT_TYLE_64BIT : Z := 4.
Definition DLT_TYLE_128BIT : Z := 5.
Definition DLT_SCOD_ASCII : Z := 0.
Definition DLT_SCOD_UTF8 : Z := 32768.
Definition DLT_SCOD_HEX : Z := 65536.
Definition DLT_SCOD_BIN : Z := 98304.

Definition DLT_FORMAT_DEFAULT : Z := 0.
Definition DLT_FORMAT_HEX8 : Z := 1.
Definition DLT_FORMAT_HEX16 : Z := 2.
Definition DLT_FORMAT_HEX32 : Z := 3.
Definition DLT_FORMAT_HEX64 : Z := 4.
Definition DLT_FORMAT_BIN8 : Z := 5.
Definition DLT_FORMAT_BIN16 : Z := 6.
Definition DLT_FORMAT_MAX : Z := 7.

(** ["... <<Message truncated, too long>>"]. *)
Definition STR_TRUNCATED_MESSAGE : bytes :=
  [46; 46; 46; 32; 60; 60; 77; 101; 115; 115; 97; 103; 101; 32; 116; 114; 117; 110; 99; 97; 116;
   101; 100; 44; 32; 116; 111; 111; 32; 108; 111; 110; 103; 62; 62].

(** ** State *)

(** The global state of the library: [dlt_user], [dlt_user_init_state],
    [dlt_user_freeing] and [dlt_user_file_reach_max].  Flags of type [int8_t]
    that are only tested are truth values. *)
Record DltUser := {
  init_done : bool;
  freeing : bool;
  file_reach_max : bool;
  ecuID : bytes;
  ecuID2len : Z;
  appID : bytes;
  appID2len : Z;
  appID2 : bytes;
  dlt_log_handle : Z;
  dlt_is_file : bool;
  filesize_max : Z;
  overflow_counter : Z;
  user_verbose_mode : Z;
  use_extended_header_for_non_verbose : bool;
  with_session_id : bool;
  with_timestamp : bool;
  with_ecu_id : bool;
  enable_local_print : bool;
  local_print_mode : Z;
  startup_buffer : RingBuffer.DltBuffer;
  resend_buffer : bytes;
  log_buf_len : Z;
  local_pid : Z
}.

(** A registered context; [log_level_ptr] is the level it points to. *)
Record DltContext := {
  contextID : bytes;
  log_level_pos : Z;
  log_level_ptr : option Z;
  mcnt : Z
}.

Record DltContextData := {
  handle : option DltContext;
  buffer : option bytes;
  size : Z;
  log_level : Z;
  trace_status : Z;
  args_num : Z;
  use_timestamp : Z;
  user_timestamp : Z;
  msid : Z;
  verbose_mode : Z
}.

(** A C string is given by its characters, without the terminator. *)
Record VarInfo := { name : option bytes; unit : option bytes; with_unit : bool }.

Inductive StringType := ASCII_STRING | UTF8_STRING.

Definition is_verbose_mode (u : DltUser) (log : DltContextData) : bool :=
  (user_verbose_mode u =? 1) || negb (verbose_mode log =? 0).

(** [DLT_USER_INITIALIZED_NOT_FREEING]. *)
Definition not_freeing (u : DltUser) : bool := init_done u && negb (freeing u).

Definition set_content (log : DltContextData) (b : bytes) (n : Z) : DltContextData :=
  {| handle := handle log; buffer := Some b; size := n; log_level := log_level log;
     trace_status := trace_status log; args_num := args_num log; use_timestamp := use_timestamp log;
     user_timestamp := user_timestamp log; msid := msid log; verbose_mode := verbose_mode log |}.
Definition count_arg (log : DltContextData) : DltContextData :=
  {| handle := handle log; buffer := buffer log; size := size log; log_level := log_level log;
     trace_status := trace_status log; args_num := i32 (args_num log + 1); use_timestamp := use_timestamp log;
     user_timestamp := user_timestamp log; msid := msid log; verbose_mode := verbose_mode log |}.

(** [memcpy(log->buffer + log->size, d, n); log->size += n]. *)
Definition put (d : bytes) (log : DltContextData) : option DltContextData :=
  b ← buffer log;
  b' ← mwrite b (size log) d;
  Some (set_content log b' (i32 (size log + zlen d))).

(** [strlen(s) + 1] as [uint16_t], 0 for [NULL]. *)
Definition attr_size (s : option bytes) : Z :=
  match s with Some s => u16 (zlen s + 1) | None => 0 end.

(** Writing an attribute string, if its size is not 0. *)
Definition put_attr (s : option bytes) (log : DltContextData) : option DltContextData :=
  match s with
  | Some s => if attr_size (Some s) =? 0 then Some log
              else d ← mread (s ++ [0]) 0 (attr_size (Some s)); put d log
  | None => Some log
  end.

(** ** Raw data *)

(** Formatting hints in the type info of raw data. *)
Definition raw_type_info (type : Z) (with_var_info : bool) : Z :=
  let ti := DLT_TYPE_INFO_RAWD in
  let ti := if with_var_info then Z.lor ti DLT_TYPE_INFO_VARI else ti in
  if (DLT_FORMAT_HEX8 <=? type) && (type <=? DLT_FORMAT_HEX64)
  then u32 (Z.lor ti DLT_SCOD_HEX + type)
  else if (DLT_FORMAT_BIN8 <=? type) && (type <=? DLT_FORMAT_BIN16)
  then u32 (Z.lor ti DLT_SCOD_BIN + (type - DLT_FORMAT_BIN8 + 1))
  else ti.

Definition dlt_user_log_write_raw_internal (u : DltUser) (log : DltContextData)
  (data : option bytes) (length type : Z) (name : option bytes) (with_var_info : bool)
  : option (Z * DltContextData) :=
  if (if data is None then negb (length =? 0) else false) then Some (DLT_RETURN_WRONG_PARAMETER, log) else
  if (i16 type <? DLT_FORMAT_DEFAULT) || (DLT_FORMAT_MAX <=? type)
  then Some (DLT_RETURN_WRONG_PARAMETER, log) else
  if negb (init_done u) then Some (DLT_RETURN_ERROR, log) else
  let name_size := attr_size name in
  let needed_size := length + 2 in
  if log_buf_len u <? u64 (u64 (size log) + needed_size) then Some (DLT_RETURN_USER_BUFFER_FULL, log) else
  let verbose := is_verbose_mode u log in
  let needed_size := needed_size + 4 + (if with_var_info then 2 + name_size else 0) in
  if verbose && (log_buf_len u <? u64 (u64 (size log) + needed_size))
  then Some (DLT_RETURN_USER_BUFFER_FULL, log) else
  log ← (if verbose then put (le_bytes 4 (raw_type_info type with_var_info)) log else Some log);
  log ← put (le_bytes 2 length) log;
  log ← (if verbose && with_var_info
         then log ← put (le_bytes 2 name_size) log; put_attr name log
         else Some log);
  match data with
  | None => Some (DLT_RETURN_OK, log)
  | Some d =>
      d ← mread d 0 length;
      log ← put d log;
      Some (DLT_RETURN_OK, count_arg log)
  end.

Definition dlt_user_log_write_raw u log data length :=
  dlt_user_log_write_raw_internal u log data length DLT_FORMAT_DEFAULT None false.
Definition dlt_user_log_write_raw_formatted u log data length type :=
  dlt_user_log_write_raw_internal u log data length type None false.
Definition dlt_user_log_write_raw_attr u log data length name :=
  dlt_user_log_write_raw_internal u log data length DLT_FORMAT_DEFAULT name true.
Definition dlt_user_log_write_raw_formatted_attr u log data length type name :=
  dlt_user_log_write_raw_internal u log data length type name true.

(** ** Simple types *)

(** Sizes and strings of the attributes. *)
Definition varinfo_size (v : option VarInfo) : Z :=
  match v with
  | None => 0
  | Some v => 2 + attr_size (name v) + (if with_unit v then 2 + attr_size (unit v) else 0)
  end.

Definition put_varinfo (v : option VarInfo) (log : DltContextData) : option DltContextData :=
  match v with
  | None => Some log
  | Some v =>
      log ← put (le_bytes 2 (attr_size (name v))) log;
      log ← (if with_unit v then put (le_bytes 2 (attr_size (unit v))) log else Some log);
      log ← put_attr (name v) log;
      put_attr (unit v) log
  end.

Definition dlt_user_log_write_generic_attr (u : DltUser) (log : DltContextData) (data : bytes)
  (type_info : Z) (varinfo : option VarInfo) : option (Z * DltContextData) :=
  if negb (not_freeing u) then Some (DLT_RETURN_ERROR, log) else
  let needed_size := zlen data in
  if log_buf_len u <? u64 (u64 (size log) + needed_size) then Some (DLT_RETURN_USER_BUFFER_FULL, log) else
  let verbose := is_verbose_mode u log in
  let needed_size := needed_size + 4 + varinfo_size varinfo in
  let type_info := if varinfo is Some _ then Z.lor type_info DLT_TYPE_INFO_VARI else type_info in
  if verbose && (log_buf_len u <? u64 (u64 (size log) + needed_size))
  then Some (DLT_RETURN_USER_BUFFER_FULL, log) else
  log ← (if verbose then log ← put (le_bytes 4 type_info) log; put_varinfo varinfo log else Some log);
  log ← put data log;
  Some (DLT_RETURN_OK, count_arg log).

Definition formatted_type_info (type_info type : Z) : Z :=
  if (DLT_FORMAT_HEX8 <=? type) && (type <=? DLT_FORMAT_HEX64) then Z.lor type_info DLT_SCOD_HEX
  else if (DLT_FORMAT_BIN8 <=? type) && (type <=? DLT_FORMAT_BIN16) then Z.lor type_info DLT_SCOD_BIN
  else type_info.

Definition dlt_user_log_write_generic_formatted (u : DltUser) (log : DltContextData) (data : bytes)
  (type_info type : Z) : option (Z * DltContextData) :=
  if (i16 type <? DLT_FORMAT_DEFAULT) || (DLT_FORMAT_MAX <=? type)
  then Some (DLT_RETURN_WRONG_PARAMETER, log) else
  if negb (init_done u) then Some (DLT_RETURN_ERROR, log) else
  let needed_size := zlen data in
  if log_buf_len u <? u64 (u64 (size log) + needed_size) then Some (DLT_RETURN_USER_BUFFER_FULL, log) else
  let verbose := is_verbose_mode u log in
  if verbose && (log_buf_len u <? u64 (u64 (size log) + (needed_size + 4)))
  then Some (DLT_RETURN_USER_BUFFER_FULL, log) else
  log ← (if verbose then put (le_bytes 4 (formatted_type_info type_info type)) log else Some log);
  log ← put data log;
  Some (DLT_RETURN_OK, count_arg log).

(** Floating point data is given by its bit pattern. *)
Definition var_info (n un : option bytes) : option VarInfo :=
  Some {| name := n; unit := un; with_unit := true |}.

Definition dlt_user_log_write_float32 u log (data : Z) :=
  dlt_user_log_write_generic_attr u log (le_bytes 4 data) (Z.lor DLT_TYPE_INFO_FLOA DLT_TYLE_32BIT) None.
Definition dlt_user_log_write_float64 u log (data : Z) :=
  dlt_user_log_write_generic_attr u log (le_bytes 8 data) (Z.lor DLT_TYPE_INFO_FLOA DLT_TYLE_64BIT) None.
Definition dlt_user_log_write_float32_attr u log (data : Z) n un :=
  dlt_user_log_write_generic_attr u log (le_bytes 4 data) (Z.lor DLT_TYPE_INFO_FLOA DLT_TYLE_32BIT)
    (var_info n un).
Definition dlt_user_log_write_float64_attr u log (data : Z) n un :=
  dlt_user_log_write_generic_attr u log (le_bytes 8 data) (Z.lor DLT_TYPE_INFO_FLOA DLT_TYLE_64BIT)
    (var_info n un).

Definition dlt_user_log_write_uint8 u log (data : Z) :=
  dlt_user_log_write_generic_attr u log (le_bytes 1 data) (Z.lor DLT_TYPE_INFO_UINT DLT_TYLE_8BIT) None.
Definition dlt_user_log_write_uint16 u log (data : Z) :=
  dlt_user_log_write_generic_attr u log (le_bytes 2 data) (Z.lor DLT_TYPE_INFO_UINT DLT_TYLE_16BIT) None.
Definition dlt_user_log_write_uint32 u log (data : Z) :=
  dlt_user_log_write_generic_attr u log (le_bytes 4 data) (Z.lor DLT_TYPE_INFO_UINT DLT_TYLE_32BIT) None.
Definition dlt_user_log_write_uint64 u log (data : Z) :=
  dlt_user_log_write_generic_attr u log (le_bytes 8 data) (Z.lor DLT_TYPE_INFO_UINT DLT_TYLE_64BIT) None.
(** [sizeof(unsigned int)] is 4. *)
Definition dlt_user_log_write_uint u log (data : Z) :=
  if negb (not_freeing u) then Some (DLT_RETURN_ERROR, log) else dlt_user_log_write_uint32 u log data.

Definition dlt_user_log_write_uint8_attr u log (data : Z) n un :=
  dlt_user_log_write_generic_attr u log (le_bytes 1 data) (Z.lor DLT_TYPE_INFO_UINT DLT_TYLE_8BIT)
    (var_info n un).
Definition dlt_user_log_write_uint16_attr u log (data : Z) n un :=
  dlt_user_log_write_generic_attr u log (le_bytes 2 data) (Z.lor DLT_TYPE_INFO_UINT DLT_TYLE_16BIT)
    (var_info n un).
Definition dlt_user_log_write_uint32_attr u log (data : Z) n un :=
  dlt_user_log_write_generic_attr u log (le_bytes 4 data) (Z.lor DLT_TYPE_INFO_UINT DLT_TYLE_32BIT)
    (var_info n un).
Definition dlt_user_log_write_uint64_attr u log (data : Z) n un :=
  dlt_user_log_write_generic_attr u log (le_bytes 8 data) (Z.lor DLT_TYPE_INFO_UINT DLT_TYLE_64BIT)
    (var_info n un).
Definition dlt_user_log_write_uint_attr u log (data : Z) n un :=
  if negb (not_freeing u) then Some (DLT_RETURN_ERROR, log)
  else dlt_user_log_write_uint32_attr u log data n un.

Definition dlt_user_log_write_uint8_formatted u log (data type : Z) :=
  dlt_user_log_write_generic_formatted u log (le_bytes 1 data) (Z.lor DLT_TYPE_INFO_UINT DLT_TYLE_8BIT) type.
Definition dlt_user_log_write_uint16_formatted u log (data type : Z) :=
  dlt_user_log_write_generic_formatted u log (le_bytes 2 data) (Z.lor DLT_TYPE_INFO_UINT DLT_TYLE_16BIT) type.
Definition dlt_user_log_write_uint32_formatted u log (data type : Z) :=
  dlt_user_log_write_generic_formatted u log (le_bytes 4 data) (Z.lor DLT_TYPE_INFO_UINT DLT_TYLE_32BIT) type.
Definition dlt_user_log_write_uint64_formatted u log (data type : Z) :=
  dlt_user_log_write_generic_formatted u log (le_bytes 8 data) (Z.lor DLT_TYPE_INFO_UINT DLT_TYLE_64BIT) type.
(** [sizeof(void * )] is 8. *)
Definition dlt_user_log_write_ptr u log (data : Z) :=
  if negb (not_freeing u) then Some (DLT_RETURN_ERROR, log)
  else dlt_user_log_write_uint64_formatted u log data DLT_FORMAT_HEX64.

Definition dlt_user_log_write_int8 u log (data : Z) :=
  dlt_user_log_write_generic_attr u log (le_bytes 1 data) (Z.lor DLT_TYPE_INFO_SINT DLT_TYLE_8BIT) None.
Definition dlt_user_log_write_int16 u log (data : Z) :=
  dlt_user_log_write_generic_attr u log (le_bytes 2 data) (Z.lor DLT_TYPE_INFO_SINT DLT_TYLE_16BIT) None.
Definition dlt_user_log_write_int32 u log (data : Z) :=
  dlt_user_log_write_generic_attr u log (le_bytes 4 data) (Z.lor DLT_TYPE_INFO_SINT DLT_TYLE_32BIT) None.
Definition dlt_user_log_write_int64 u log (data : Z) :=
  dlt_user_log_write_generic_attr u log (le_bytes 8 data) (Z.lor DLT_TYPE_INFO_SINT DLT_TYLE_64BIT) None.
Definition dlt_user_log_write_int u log (data : Z) :=
  if negb (not_freeing u) then Some (DLT_RETURN_ERROR, log) else dlt_user_log_write_int32 u log data.

Definition dlt_user_log_write_int8_attr u log (data : Z) n un :=
  dlt_user_log_write_generic_attr u log (le_bytes 1 data) (Z.lor DLT_TYPE_INFO_SINT DLT_TYLE_8BIT)
    (var_info n un).
Definition dlt_user_log_write_int16_attr u log (data : Z) n un :=
  dlt_user_log_write_generic_attr u log (le_bytes 2 data) (Z.lor DLT_TYPE_INFO_SINT DLT_TYLE_16BIT)
    (var_info n un).
Definition dlt_user_log_write_int32_attr u log (data : Z) n un :=
  dlt_user_log_write_generic_attr u log (le_bytes 4 data) (Z.lor DLT_TYPE_INFO_SINT DLT_TYLE_32BIT)
    (var_info n un).
Definition dlt_user_log_write_int64_attr u log (data : Z) n un :=
  dlt_user_log_write_generic_attr u log (le_bytes 8 data) (Z.lor DLT_TYPE_INFO_SINT DLT_TYLE_64BIT)
    (var_info n un).
Definition dlt_user_log_write_int_attr u log (data : Z) n un :=
  if negb (not_freeing u) then Some (DLT_RETURN_ERROR, log)
  else dlt_user_log_write_int32_attr u log data n un.

Definition dlt_user_log_write_bool u log (data : Z) :=
  dlt_user_log_write_generic_attr u log (le_bytes 1 data) (Z.lor DLT_TYPE_INFO_BOOL DLT_TYLE_8BIT) None.
Definition dlt_user_log_write_bool_attr u log (data : Z) n :=
  dlt_user_log_write_generic_attr u log (le_bytes 1 data) (Z.lor DLT_TYPE_INFO_BOOL DLT_TYLE_8BIT)
    (Some {| name := n; unit := None; with_unit := false |}).

(** ** Strings *)

(** The three bytes before the end of the copied part are read one after the
    other; [None] is a read before the text. *)
Definition char_at (t : bytes) (i : Z) : option Z := if i <? 0 then None else t !! Z.to_nat i.

(** How many bytes of an incomplete UTF-8 character are in front of position [m]. *)
Definition reduce_size (t : bytes) (m : Z) : option Z :=
  c2 ← char_at t (m - 1);
  if Z.land c2 128 =? 0 then Some 0 else
  if negb (Z.land c2 64 =? 0) then Some 1 else
  c1 ← char_at t (m - 2);
  if Z.land c1 224 =? 224 then Some 2 else
  c0 ← char_at t (m - 3);
  if Z.land c0 240 =? 240 then Some 3 else Some 0.

Definition string_type_info (type : StringType) (with_var_info : bool) : Z :=
  let ti := if with_var_info then DLT_TYPE_INFO_VARI else 0 in
  Z.lor ti (Z.lor DLT_TYPE_INFO_STRG
              (match type with ASCII_STRING => DLT_SCOD_ASCII | UTF8_STRING => DLT_SCOD_UTF8 end)).

(** Type info, size and name in front of the characters. *)
Definition put_string_head (verbose with_var_info : bool) (type : StringType) (arg_size : Z)
  (name : option bytes) (log : DltContextData) : option DltContextData :=
  log ← (if verbose then put (le_bytes 4 (string_type_info type with_var_info)) log else Some log);
  log ← put (le_bytes 2 arg_size) log;
  if verbose && with_var_info
  then log ← put (le_bytes 2 (attr_size name)) log; put_attr name log
  else Some log.

Definition dlt_user_log_write_sized_string_utils_attr (u : DltUser) (log : DltContextData)
  (text : option bytes) (length : Z) (type : StringType) (name : option bytes) (with_var_info : bool)
  : option (Z * DltContextData) :=
  match text with
  | None => Some (DLT_RETURN_WRONG_PARAMETER, log)
  | Some t =>
      if negb (not_freeing u) then Some (DLT_RETURN_ERROR, log) else
      let verbose := is_verbose_mode u log in
      let extra := if verbose then 4 + (if with_var_info then 2 + attr_size name else 0) else 0 in
      let arg_size := u64 (length + 1) in
      let new_log_size := u64 (u64 (size log) + arg_size + 2 + extra) in
      if log_buf_len u <? new_log_size then
        let arg_size := u64 (log_buf_len u - u64 (size log) - 2 - extra) in
        let str_truncate_message_length := zlen STR_TRUNCATED_MESSAGE + 1 in
        let min_payload := u64 (u64 (size log) + str_truncate_message_length + 2 + extra) in
        if log_buf_len u <? min_payload then Some (DLT_RETURN_USER_BUFFER_FULL, log) else
        let max_payload := log_buf_len u - min_payload in
        r ← (match type with UTF8_STRING => reduce_size t max_payload | ASCII_STRING => Some 0 end);
        let max_payload := u64 (max_payload - r) in
        log ← put_string_head verbose with_var_info type (u64 (arg_size - r)) name log;
        d ← mread t 0 max_payload;
        log ← put d log;
        log ← put (STR_TRUNCATED_MESSAGE ++ [0]) log;
        Some (DLT_RETURN_USER_BUFFER_FULL, count_arg log)
      else
        log ← put_string_head verbose with_var_info type arg_size name log;
        d ← mread t 0 length;
        b ← buffer log;
        b ← mwrite b (size log) d;
        b ← mwrite b (u64 (size log) + length) [0];
        Some (DLT_RETURN_OK, count_arg (set_content log b (i32 (size log + i32 arg_size))))
  end.

(** [strlen] of a character array. *)
Fixpoint strlen (t : bytes) : option Z :=
  match t with
  | [] => None
  | c :: t => if c =? 0 then Some 0 else n ← strlen t; Some (n + 1)
  end.

Definition dlt_user_log_write_string_utils_attr (u : DltUser) (log : DltContextData)
  (text : option bytes) (type : StringType) (name : option bytes) (with_var_info : bool)
  : option (Z * DltContextData) :=
  match text with
  | None => Some (DLT_RETURN_WRONG_PARAMETER, log)
  | Some t =>
      n ← strlen t;
      dlt_user_log_write_sized_string_utils_attr u log (Some t) n type name with_var_info
  end.

Definition dlt_user_log_write_string u log text :=
  dlt_user_log_write_string_utils_attr u log text ASCII_STRING None false.
Definition dlt_user_log_write_string_attr u log text n :=
  dlt_user_log_write_string_utils_attr u log text ASCII_STRING n true.
Definition dlt_user_log_write_sized_string u log text (length : Z) :=
  dlt_user_log_write_sized_string_utils_attr u log text length ASCII_STRING None false.
Definition dlt_user_log_write_sized_string_attr u log text (length : Z) n :=
  dlt_user_log_write_sized_string_utils_attr u log text length ASCII_STRING n true.
Definition dlt_user_log_write_utf8_string u log text :=
  dlt_user_log_write_string_utils_attr u log text UTF8_STRING None false.
Definition dlt_user_log_write_utf8_string_attr u log text n :=
  dlt_user_log_write_string_utils_attr u log text UTF8_STRING n true.
Definition dlt_user_log_write_sized_utf8_string u log text (length : Z) :=
  dlt_user_log_write_sized_string_utils_attr u log text length UTF8_STRING None false.
Definition dlt_user_log_write_sized_utf8_string_attr u log text (length : Z) n :=
  dlt_user_log_write_sized_string_utils_attr u log text length UTF8_STRING n true.

(** Constant strings are only sent in verbose mode. *)
Definition only_verbose (u : DltUser) (log : DltContextData) (r : option (Z * DltContextData)) :=
  if is_verbose_mode u log then r else Some (DLT_RETURN_OK, log).

Definition dlt_user_log_write_constant_string u log text :=
  only_verbose u log (dlt_user_log_write_string u log text).
Definition dlt_user_log_write_constant_string_attr u log text n :=
  only_verbose u log (dlt_user_log_write_string_attr u log text n).
Definition dlt_user_log_write_sized_constant_string u log text length :=
  only_verbose u log (dlt_user_log_write_sized_string u log text length).
Definition dlt_user_log_write_sized_constant_string_attr u log text length n :=
  only_verbose u log (dlt_user_log_write_sized_string_attr u log text length n).
Definition dlt_user_log_write_constant_utf8_string u log text :=
  only_verbose u log (dlt_user_log_write_utf8_string u log text).
Definition dlt_user_log_write_constant_utf8_string_attr u log text n :=
  only_verbose u log (dlt_user_log_write_utf8_string_attr u log text n).
Definition dlt_user_log_write_sized_constant_utf8_string u log text length :=
  only_verbose u log (dlt_user_log_write_sized_utf8_string u log text length).
Definition dlt_user_log_write_sized_constant_utf8_string_attr u log text length n :=
  only_verbose u log (dlt_user_log_write_sized_utf8_string_attr u log text length n).

End UserLog.
