(* ===== verification/UserLogSpec.v ===== *)
(** * Arguments are appended exactly, or not at all

    The content of a message under construction is the part of the buffer
    before [size].  Every writer appends the encoding of its argument to it, or
    reports a full buffer and changes nothing; a string that does not fit is cut
    at a character boundary and marked. *)

From stdpp Require Import base list numbers option.
From Stdlib Require Import ZArith Lia Bool.
From S2P Require Import Prelude RingBuffer UserLog.
Import UserLog.

Local Open Scope Z_scope.

Module UserLogSpec.

(** ** Content of a message under construction *)

Record holds (u : DltUser) (log : DltContextData) (P : bytes) (n : Z) : Prop := {
  h_buffer : ∃ rest, buffer log = Some (P ++ rest) ∧ zlen P + zlen rest = log_buf_len u;
  h_size : size log = zlen P;
  h_len : log_buf_len u < 65536;
  h_args : args_num log = n
}.

(** What writing arguments leaves alone. *)
Definition frame (log : DltContextData) :=
  (handle log, log_level log, trace_status log, use_timestamp log, user_timestamp log, msid log, verbose_mode log).
Lemma frame_count_arg log : frame (count_arg log) = frame log.
Proof. done. Qed.
Lemma frame_verbose u log log' : frame log' = frame log -> is_verbose_mode u log' = is_verbose_mode u log.
Proof. unfold frame, is_verbose_mode. congruence. Qed.

Lemma holds_range u log P n : holds u log P n -> 0 <= zlen P <= log_buf_len u ∧ log_buf_len u < 65536.
Proof. intros [(rest & _ & H) _ ? _]. lia. Qed.

Lemma put_ok u log P n d :
  holds u log P n -> zlen P + zlen d <= log_buf_len u ->
  ∃ log', put d log = Some log' ∧ holds u log' (P ++ d) n ∧ frame log' = frame log.
Proof.
  intros [(rest & Hb & Hl) Hs Hlen Ha] Hfit. unfold put. rewrite Hb. bsimp. rewrite Hs.
  rewrite mwrite_Some by len. bsimp. rewrite Nat2Z.id, take_app_length.
  eexists. split; [reflexivity|]. split; [|done]. split; cbn [buffer size args_num set_content]; try done.
  - exists (drop (length P + length d) (P ++ rest)). rewrite app_assoc. split; [done|].
    rewrite length_drop, !length_app. lia.
  - cint. len.
Qed.

Lemma count_arg_holds u log P n :
  holds u log P n -> 0 <= n < 2147483647 -> holds u (count_arg log) P (n + 1).
Proof.
  intros [Hb Hs Hlen Ha] Hn. split; try done. cbn [count_arg args_num]. rewrite Ha. by cint.
Qed.

(** ** Encoding of attributes *)

Definition attr_bytes (s : option bytes) : bytes :=
  match s with Some s => take (Z.to_nat (attr_size (Some s))) (s ++ [0]) | None => [] end.

Lemma attr_size_le s : 0 <= attr_size (Some s) <= zlen s + 1 ∧ attr_size (Some s) < 65536.
Proof.
  unfold attr_size. pose proof (wrapu_range 16 (zlen s + 1) ltac:(lia)).
  pose proof (Z.mod_le (zlen s + 1) (2 ^ 16) ltac:(lia) ltac:(lia)). unfold wrapu in *. lia.
Qed.
Lemma attr_size_nonneg s : 0 <= attr_size s < 65536.
Proof. destruct s as [s|]; [|cbn; lia]. pose proof (attr_size_le s). lia. Qed.

Lemma zlen_attr_bytes s : zlen (attr_bytes s) = attr_size s.
Proof.
  destruct s as [s|]; [|done]. unfold attr_bytes. pose proof (attr_size_le s).
  rewrite length_take, length_app. cbn [length]. lia.
Qed.

Lemma put_attr_ok u log P n s :
  holds u log P n -> zlen P + attr_size s <= log_buf_len u ->
  ∃ log', put_attr s log = Some log' ∧ holds u log' (P ++ attr_bytes s) n ∧
    frame log' = frame log.
Proof.
  intros H Hfit. rewrite <-zlen_attr_bytes in Hfit. destruct s as [s|]; cbn [put_attr attr_bytes] in *.
  2: { exists log. rewrite app_nil_r. done. }
  pose proof (attr_size_le s) as Hs. destruct (Z.eqb_spec (attr_size (Some s)) 0) as [E|E].
  { exists log. rewrite E. change (take (Z.to_nat 0) (s ++ [0])) with (@nil Z). rewrite app_nil_r. done. }
  rewrite mread_Some by len. bsimp. change (drop (Z.to_nat 0) (s ++ [0])) with (s ++ [0]).
  by apply put_ok.
Qed.

Definition varinfo_bytes (v : option VarInfo) : bytes :=
  match v with
  | None => []
  | Some v =>
      le_bytes 2 (attr_size (name v)) ++
      (if with_unit v then le_bytes 2 (attr_size (unit v)) else []) ++
      attr_bytes (name v) ++ attr_bytes (unit v)
  end.

(** A unit is only given together with the request to write it. *)
Definition wf_varinfo (v : option VarInfo) : Prop :=
  match v with Some v => with_unit v = false -> unit v = None | None => True end.

Lemma zlen_varinfo_bytes v : wf_varinfo v -> zlen (varinfo_bytes v) = varinfo_size v.
Proof.
  destruct v as [v|]; [|done]. cbn [varinfo_bytes varinfo_size wf_varinfo]. intros H.
  rewrite !length_app, !Nat2Z.inj_add, !zlen_attr_bytes, length_le_bytes.
  destruct (with_unit v); [rewrite length_le_bytes; lia|]. rewrite H by done. cbn. lia.
Qed.

Lemma put_varinfo_ok u log P n v :
  holds u log P n -> wf_varinfo v -> zlen P + varinfo_size v <= log_buf_len u ->
  ∃ log', put_varinfo v log = Some log' ∧ holds u log' (P ++ varinfo_bytes v) n ∧
    frame log' = frame log.
Proof.
  intros H Hwf Hfit. rewrite <-(zlen_varinfo_bytes v Hwf) in Hfit.
  destruct v as [v|]; cbn [put_varinfo varinfo_bytes] in *.
  2: { exists log. rewrite app_nil_r. done. }
  rewrite !length_app, !Nat2Z.inj_add, !zlen_attr_bytes, length_le_bytes in Hfit.
  pose proof (attr_size_nonneg (name v)) as Hn. pose proof (attr_size_nonneg (unit v)) as Hu.
  destruct (put_ok u log P n (le_bytes 2 (attr_size (name v))) H) as (l1 & -> & H1 & V1);
    [rewrite length_le_bytes; destruct (with_unit v); len|]. bsimp.
  assert (∃ l2, (if with_unit v then put (le_bytes 2 (attr_size (unit v))) l1 else Some l1) = Some l2 ∧
    holds u l2 ((P ++ le_bytes 2 (attr_size (name v))) ++
                (if with_unit v then le_bytes 2 (attr_size (unit v)) else [])) n ∧
    frame l2 = frame log) as (l2 & -> & H2 & V2).
  { destruct (with_unit v).
    - destruct (put_ok u l1 _ n (le_bytes 2 (attr_size (unit v))) H1) as (l2 & -> & H2 & V2);
        [rewrite length_app, !length_le_bytes in *; len|]. exists l2. rewrite V2. done.
    - exists l1. rewrite app_nil_r. done. }
  bsimp. rewrite <-app_assoc in H2.
  destruct (put_attr_ok u l2 _ n (name v) H2) as (l3 & -> & H3 & V3);
    [rewrite !length_app, !Nat2Z.inj_add, length_le_bytes; lia|]. bsimp.
  destruct (put_attr_ok u l3 _ n (unit v) H3) as (l4 & -> & H4 & V4);
    [rewrite !length_app, !Nat2Z.inj_add, length_le_bytes, zlen_attr_bytes; lia|].
  exists l4. split; [done|]. rewrite <-!app_assoc in H4. split; [done|]. congruence.
Qed.

(** ** The writers *)

(** The result of a writer that appends [d] as one argument, or refuses it. *)
Definition appends (u : DltUser) (log : DltContextData) (P : bytes) (n : Z)
  (r : option (Z * DltContextData)) (d : bytes) : Prop :=
  if zlen P + zlen d <=? log_buf_len u
  then ∃ log', r = Some (DLT_RETURN_OK, log') ∧ holds u log' (P ++ d) (n + 1) ∧
               frame log' = frame log
  else r = Some (DLT_RETURN_USER_BUFFER_FULL, log).

Definition simple_bytes (verbose : bool) (type_info : Z) (v : option VarInfo) (data : bytes) : bytes :=
  if verbose
  then le_bytes 4 (if v is Some _ then Z.lor type_info DLT_TYPE_INFO_VARI else type_info) ++
       varinfo_bytes v ++ data
  else data.

Lemma varinfo_size_range v : 0 <= varinfo_size v < 200000.
Proof.
  destruct v as [v|]; cbn [varinfo_size]; [|lia]. pose proof (attr_size_nonneg (name v)).
  pose proof (attr_size_nonneg (unit v)). destruct (with_unit v); lia.
Qed.

Lemma generic_attr_appends u log P n data ti v :
  holds u log P n -> not_freeing u = true -> wf_varinfo v -> 0 <= n < 2147483647 -> zlen data < 65536 ->
  appends u log P n (dlt_user_log_write_generic_attr u log data ti v)
    (simple_bytes (is_verbose_mode u log) ti v data).
Proof.
  intros H Hnf Hwf Hn Hd. unfold dlt_user_log_write_generic_attr, appends, simple_bytes. rewrite Hnf.
  pose proof (holds_range _ _ _ _ H) as [Hr Hr']. pose proof (varinfo_size_range v) as Hv.
  pose proof (zlen_varinfo_bytes v Hwf) as Hvb. rewrite (h_size _ _ _ _ H). csimp.
  destruct (is_verbose_mode u log); cbn [andb].
  - rewrite !length_app, !Nat2Z.inj_add, length_le_bytes, Hvb.
    destruct (Z.leb_spec (zlen P + (Z.of_nat 4 + (varinfo_size v + zlen data))) (log_buf_len u)) as [Hf|Hf].
    2: { destruct (Z.ltb_spec (log_buf_len u) (zlen P + zlen data)); [done|]. rewrite ltb_true by lia. done. }
    rewrite !ltb_false by lia.
    edestruct (put_ok u log P n) as (l1 & -> & H1 & V1); [done|rewrite length_le_bytes; lia|]. bsimp.
    destruct (put_varinfo_ok u l1 _ n v H1 Hwf) as (l2 & -> & H2 & V2);
      [rewrite length_app, length_le_bytes; lia|]. bsimp.
    destruct (put_ok u l2 _ n data H2) as (l3 & -> & H3 & V3);
      [rewrite !length_app, !Nat2Z.inj_add, length_le_bytes; lia|]. bsimp.
    exists (count_arg l3). split; [done|]. rewrite <-!app_assoc in H3.
    split; [by apply count_arg_holds|]. rewrite frame_count_arg. congruence.
  - destruct (Z.leb_spec (zlen P + zlen data) (log_buf_len u)) as [Hf|Hf].
    2: { by rewrite ltb_true by lia. }
    rewrite ltb_false by lia. bsimp. destruct (put_ok u log P n data H Hf) as (l1 & -> & H1 & V1). bsimp.
    exists (count_arg l1). split; [done|]. split; [by apply count_arg_holds|done].
Qed.

Definition formatted_bytes (verbose : bool) (type_info type : Z) (data : bytes) : bytes :=
  if verbose then le_bytes 4 (formatted_type_info type_info type) ++ data else data.

Lemma generic_formatted_appends u log P n data ti type :
  holds u log P n -> init_done u = true -> 0 <= n < 2147483647 -> zlen data < 65536 ->
  DLT_FORMAT_DEFAULT <= type < DLT_FORMAT_MAX ->
  appends u log P n (dlt_user_log_write_generic_formatted u log data ti type)
    (formatted_bytes (is_verbose_mode u log) ti type data).
Proof.
  unfold DLT_FORMAT_DEFAULT, DLT_FORMAT_MAX. intros H Hnf Hn Hd Ht.
  unfold dlt_user_log_write_generic_formatted, appends, formatted_bytes, DLT_FORMAT_DEFAULT, DLT_FORMAT_MAX.
  rewrite Hnf. pose proof (holds_range _ _ _ _ H) as [Hr Hr']. rewrite (h_size _ _ _ _ H). csimp.
  rewrite (leb_false 7 type) by lia. destruct (is_verbose_mode u log); cbn [andb].
  - rewrite length_app, Nat2Z.inj_add, length_le_bytes.
    destruct (Z.leb_spec (zlen P + (Z.of_nat 4 + zlen data)) (log_buf_len u)) as [Hf|Hf].
    2: { destruct (Z.ltb_spec (log_buf_len u) (zlen P + zlen data)); [done|]. rewrite ltb_true by lia. done. }
    rewrite !ltb_false by lia.
    edestruct (put_ok u log P n) as (l1 & -> & H1 & V1); [done|rewrite length_le_bytes; lia|]. bsimp.
    destruct (put_ok u l1 _ n data H1) as (l3 & -> & H3 & V3);
      [rewrite !length_app, !Nat2Z.inj_add, length_le_bytes; lia|]. bsimp.
    exists (count_arg l3). split; [done|]. rewrite <-!app_assoc in H3.
    split; [by apply count_arg_holds|]. rewrite frame_count_arg. congruence.
  - destruct (Z.leb_spec (zlen P + zlen data) (log_buf_len u)) as [Hf|Hf].
    2: { by rewrite ltb_true by lia. }
    rewrite ltb_false by lia. bsimp. destruct (put_ok u log P n data H Hf) as (l1 & -> & H1 & V1). bsimp.
    exists (count_arg l1). split; [done|]. split; [by apply count_arg_holds|done].
Qed.

(** The name of raw data and strings, when there are attributes. *)
Definition name_bytes (with_var_info : bool) (name : option bytes) : bytes :=
  if with_var_info then le_bytes 2 (attr_size name) ++ attr_bytes name else [].

Definition raw_bytes (verbose : bool) (type : Z) (name : option bytes) (with_var_info : bool)
  (data : bytes) : bytes :=
  if verbose
  then le_bytes 4 (raw_type_info type with_var_info) ++ le_bytes 2 (zlen data) ++
       name_bytes with_var_info name ++ data
  else le_bytes 2 (zlen data) ++ data.

Lemma put_name_ok u log P n b name :
  holds u log P n -> zlen P + (if (b : bool) then 2 + attr_size name else 0) <= log_buf_len u ->
  ∃ log', (if b then log ← put (le_bytes 2 (attr_size name)) log; put_attr name log else Some log) = Some log' ∧
    holds u log' (P ++ name_bytes b name) n ∧ frame log' = frame log.
Proof.
  intros H Hf. unfold name_bytes. destruct b; [|exists log; rewrite app_nil_r; done].
  pose proof (attr_size_nonneg name) as Ha.
  edestruct (put_ok u log P n) as (l1 & -> & H1 & V1); [done|rewrite length_le_bytes; lia|]. bsimp.
  destruct (put_attr_ok u l1 _ n name H1) as (l2 & -> & H2 & V2);
    [rewrite length_app, Nat2Z.inj_add, length_le_bytes; lia|].
  exists l2. rewrite <-app_assoc in H2. split; [done|]. split; [done|congruence].
Qed.

Lemma zlen_name_bytes b name : zlen (name_bytes b name) = if b then 2 + attr_size name else 0.
Proof. destruct b; [|done]. unfold name_bytes. rewrite length_app, Nat2Z.inj_add, zlen_attr_bytes, length_le_bytes. lia. Qed.

Lemma raw_internal_appends u log P n data type name b :
  holds u log P n -> init_done u = true -> 0 <= n < 2147483647 -> zlen data < 65536 ->
  DLT_FORMAT_DEFAULT <= type < DLT_FORMAT_MAX ->
  appends u log P n (dlt_user_log_write_raw_internal u log (Some data) (zlen data) type name b)
    (raw_bytes (is_verbose_mode u log) type name b data).
Proof.
  unfold DLT_FORMAT_DEFAULT, DLT_FORMAT_MAX. intros H Hnf Hn Hd Ht.
  unfold dlt_user_log_write_raw_internal, appends, raw_bytes, DLT_FORMAT_DEFAULT, DLT_FORMAT_MAX.
  rewrite Hnf. pose proof (holds_range _ _ _ _ H) as [Hr Hr']. pose proof (attr_size_nonneg name) as Ha.
  pose proof (zlen_name_bytes b name) as Hnb.
  assert (0 <= (if b then 2 + attr_size name else 0) < 70000) as Hb by (destruct b; lia).
  assert (mread data 0 (zlen data) = Some data) as Er.
  { rewrite mread_Some by lia. change (drop (Z.to_nat 0) data) with data. by rewrite Nat2Z.id, firstn_all. }
  rewrite (h_size _ _ _ _ H), Er. csimp. rewrite (leb_false 7 type) by lia.
  destruct (is_verbose_mode u log); cbn [andb].
  - rewrite !length_app, !Nat2Z.inj_add, !length_le_bytes, Hnb.
    destruct (Z.leb_spec (zlen P + (Z.of_nat 4 + (Z.of_nat 2 + ((if b then 2 + attr_size name else 0) + zlen data))))
      (log_buf_len u)) as [Hf|Hf].
    2: { destruct (Z.ltb_spec (log_buf_len u) (zlen P + (zlen data + 2))); [done|]. rewrite ltb_true by lia. done. }
    rewrite !ltb_false by lia.
    edestruct (put_ok u log P n) as (l1 & -> & H1 & V1); [done|rewrite length_le_bytes; lia|]. bsimp.
    edestruct (put_ok u l1) as (l2 & -> & H2 & V2); [exact H1|rewrite length_app, !length_le_bytes; lia|]. bsimp.
    destruct (put_name_ok u l2 _ n b name H2) as (l3 & -> & H3 & V3);
      [rewrite !length_app, !length_le_bytes; lia|]. bsimp.
    destruct (put_ok u l3 _ n data H3) as (l4 & -> & H4 & V4);
      [rewrite !length_app, !Nat2Z.inj_add, !length_le_bytes; lia|]. bsimp.
    exists (count_arg l4). split; [done|]. rewrite <-!app_assoc in H4.
    split; [by apply count_arg_holds|]. rewrite frame_count_arg. congruence.
  - rewrite !length_app, !Nat2Z.inj_add, !length_le_bytes.
    destruct (Z.leb_spec (zlen P + (Z.of_nat 2 + zlen data)) (log_buf_len u)) as [Hf|Hf].
    2: { by rewrite ltb_true by lia. }
    rewrite ltb_false by lia. bsimp.
    edestruct (put_ok u log P n) as (l1 & -> & H1 & V1); [done|rewrite length_le_bytes; lia|]. bsimp.
    destruct (put_ok u l1 _ n data H1) as (l4 & -> & H4 & V4);
      [rewrite !length_app, !Nat2Z.inj_add, !length_le_bytes; lia|]. bsimp.
    exists (count_arg l4). split; [done|]. rewrite <-!app_assoc in H4.
    split; [by apply count_arg_holds|]. rewrite frame_count_arg. congruence.
Qed.

(** ** Strings *)

Definition string_head (verbose : bool) (type : StringType) (name : option bytes) (b : bool) (n : Z) : bytes :=
  (if verbose then le_bytes 4 (string_type_info type b) else []) ++ le_bytes 2 n ++
  (if verbose then name_bytes b name else []).
Definition string_bytes (verbose : bool) (type : StringType) (name : option bytes) (b : bool) (s : bytes) : bytes :=
  string_head verbose type name b (zlen s + 1) ++ s ++ [0].

Definition head_size (verbose b : bool) (name : option bytes) : Z :=
  2 + (if verbose then 4 + (if b then 2 + attr_size name else 0) else 0).

Lemma zlen_string_head v type name b n : zlen (string_head v type name b n) = head_size v b name.
Proof.
  unfold string_head, head_size. rewrite !length_app, !Nat2Z.inj_add, length_le_bytes.
  destruct v; [|cbn; lia]. rewrite length_le_bytes, zlen_name_bytes. lia.
Qed.

Lemma head_size_range v b name : 2 <= head_size v b name < 70000.
Proof. unfold head_size. pose proof (attr_size_nonneg name). destruct v, b; lia. Qed.

Lemma put_string_head_ok u log P n v b type size name :
  holds u log P n -> zlen P + head_size v b name <= log_buf_len u ->
  ∃ log', put_string_head v b type size name log = Some log' ∧
    holds u log' (P ++ string_head v type name b size) n ∧ frame log' = frame log.
Proof.
  intros H Hf. unfold put_string_head, string_head, head_size in *.
  pose proof (attr_size_nonneg name) as Ha. destruct v; cbn [andb].
  - edestruct (put_ok u log P n) as (l1 & -> & H1 & V1); [done|rewrite length_le_bytes; destruct b; lia|]. bsimp.
    edestruct (put_ok u l1) as (l2 & -> & H2 & V2);
      [exact H1|rewrite length_app, !length_le_bytes; destruct b; lia|]. bsimp.
    destruct (put_name_ok u l2 _ n b name H2) as (l3 & -> & H3 & V3);
      [rewrite !length_app, !length_le_bytes; lia|].
    exists l3. rewrite <-!app_assoc in H3. split; [done|]. split; [done|congruence].
  - bsimp. edestruct (put_ok u log P n) as (l1 & -> & H1 & V1); [done|rewrite length_le_bytes; lia|]. bsimp.
    exists l1. rewrite app_nil_l, app_nil_r. done.
Qed.

(** Storing the characters and the terminator. *)
Lemma store_string_ok u log P n s len :
  holds u log P n -> zlen P + zlen s + 1 <= log_buf_len u -> len = zlen s + 1 ->
  ∃ b1 b2 b3, buffer log = Some b1 ∧ mwrite b1 (size log) s = Some b2 ∧
    mwrite b2 (u64 (size log) + zlen s) [0] = Some b3 ∧
    holds u (set_content log b3 (i32 (size log + i32 len))) (P ++ s ++ [0]) n.
Proof.
  intros [(rest & Hb & Hl) Hs Hlen Ha] Hfit ->. exists (P ++ rest). rewrite Hs.
  destruct (split_region rest 0 (zlen s + 1)) as (e & m & c & -> & Le & Lm); [lia..|].
  assert (e = []) as -> by (apply nil_length_inv; lia). cbn [app] in *.
  assert (length m = length s + 1)%nat as Lm' by lia.
  destruct (split_region m 0 (zlen s)) as (e & m1 & m2 & -> & Le2 & Lm1); [len..|].
  assert (e = []) as -> by (apply nil_length_inv; lia). cbn [app] in *. rewrite length_app in Lm'.
  exists (P ++ s ++ m2 ++ c), (P ++ s ++ [0] ++ c). split; [done|]. cint. split; [|split].
  - rewrite <-app_assoc. rewrite (mwrite_mid P m1 s (m2 ++ c) (zlen P)) by (done || lia). done.
  - apply mwrite_mid2; [lia|]. cbn [length]. lia.
  - split; cbn [set_content buffer size args_num]; try done.
    + exists c. rewrite <-!app_assoc. split; [done|]. rewrite !length_app in *. cbn [length]. lia.
    + rewrite !length_app. cbn [length]. lia.
Qed.

Lemma mread_prefix (s tl : bytes) : mread (s ++ tl) 0 (zlen s) = Some s.
Proof.
  rewrite mread_Some by len. change (drop (Z.to_nat 0) (s ++ tl)) with (s ++ tl).
  by rewrite Nat2Z.id, take_app_length.
Qed.

Lemma string_fits u log P n s tl type name b :
  holds u log P n -> not_freeing u = true -> 0 <= n < 2147483647 ->
  zlen P + zlen (string_bytes (is_verbose_mode u log) type name b s) <= log_buf_len u ->
  ∃ log', dlt_user_log_write_sized_string_utils_attr u log (Some (s ++ tl)) (zlen s) type name b =
      Some (DLT_RETURN_OK, log') ∧
    holds u log' (P ++ string_bytes (is_verbose_mode u log) type name b s) (n + 1) ∧
    frame log' = frame log.
Proof.
  intros H Hnf Hn Hf. unfold dlt_user_log_write_sized_string_utils_attr. rewrite Hnf. cbn [negb].
  pose proof (holds_range _ _ _ _ H) as [Hr Hr']. set (v := is_verbose_mode u log) in *.
  unfold string_bytes in Hf. rewrite !length_app, !Nat2Z.inj_add, zlen_string_head in Hf. cbn [length] in Hf.
  pose proof (head_size_range v b name) as Hh.
  assert (2 + (if v then 4 + (if b then 2 + attr_size name else 0) else 0) = head_size v b name) as Eh by done.
  rewrite (h_size _ _ _ _ H). cint. rewrite ltb_false by lia.
  destruct (put_string_head_ok u log P n v b type (zlen s + 1) name H) as (l1 & -> & H1 & V1); [lia|]. bsimp.
  rewrite mread_prefix. bsimp.
  destruct (store_string_ok u l1 _ n s (zlen s + 1) H1) as (b1 & b2 & b3 & -> & E2 & E3 & H2);
    [rewrite length_app, Nat2Z.inj_add, zlen_string_head; lia|done|].
  bsimp. rewrite E2. bsimp. rewrite E3. bsimp. eexists. split; [reflexivity|].
  rewrite <-app_assoc, (i32_small (zlen s + 1)) in H2 by lia. split; [by apply count_arg_holds|done].
Qed.

(** ** Cutting UTF-8 strings *)

Definition contb (c : Z) : bool := (128 <=? c) && (c <? 192).

(** The encoding of one character. *)
Definition utf8_char (l : bytes) : bool :=
  match l with
  | [a] => (0 <=? a) && (a <? 128)
  | [a; b] => (192 <=? a) && (a <? 224) && contb b
  | [a; b; c] => (224 <=? a) && (a <? 240) && contb b && contb c
  | [a; b; c; d] => (240 <=? a) && (a <? 248) && contb b && contb c && contb d
  | _ => false
  end.

(** Facts about bytes, by enumeration. *)
Lemma byte_cases (P : Z -> bool) :
  forallb P (Z.of_nat <$> seq 0 256) = true -> ∀ c, 0 <= c < 256 -> P c = true.
Proof.
  intros H c Hc. rewrite forallb_forall in H. apply H. apply in_map_iff.
  exists (Z.to_nat c). rewrite in_seq. lia.
Qed.

(** What [reduce_size] distinguishes: ASCII, continuation and lead bytes. *)
Definition classify (c : Z) : bool :=
  if c <? 128 then Z.land c 128 =? 0
  else negb (Z.land c 128 =? 0) &&
       (if c <? 192 then (Z.land c 64 =? 0) && negb (Z.land c 224 =? 224) && negb (Z.land c 240 =? 240)
        else negb (Z.land c 64 =? 0) && Bool.eqb (Z.land c 224 =? 224) (224 <=? c)
             && Bool.eqb (Z.land c 240 =? 240) (240 <=? c)).

Lemma classify_byte c : 0 <= c < 256 -> classify c = true.
Proof. apply (byte_cases classify). by vm_compute. Qed.

Lemma class_ascii c : 0 <= c < 128 -> (Z.land c 128 =? 0) = true ∧ (Z.land c 240 =? 240) = false.
Proof.
  intros H. pose proof (byte_cases (λ c, negb (c <? 128) || ((Z.land c 128 =? 0) && negb (Z.land c 240 =? 240)))
    ltac:(by vm_compute) c ltac:(lia)) as E.
  cbv beta in E. rewrite ltb_true in E by lia. cbn [negb orb] in E. zb. split; lia.
Qed.

Lemma class_cont c :
  contb c = true ->
  (Z.land c 128 =? 0) = false ∧ (Z.land c 64 =? 0) = true ∧ (Z.land c 224 =? 224) = false ∧
  (Z.land c 240 =? 240) = false.
Proof.
  unfold contb. intros H. zb. pose proof (classify_byte c ltac:(lia)) as E. unfold classify in E.
  rewrite ltb_false, ltb_true in E by lia. zb. repeat split; lia.
Qed.

Lemma class_lead c :
  192 <= c < 256 ->
  (Z.land c 128 =? 0) = false ∧ (Z.land c 64 =? 0) = false ∧
  (Z.land c 224 =? 224) = (224 <=? c) ∧ (Z.land c 240 =? 240) = (240 <=? c).
Proof.
  intros H. pose proof (classify_byte c ltac:(lia)) as E. unfold classify in E.
  rewrite !ltb_false in E by lia. zb. rewrite eqb_true_iff in *. repeat split; [lia|lia|done|done].
Qed.

Lemma char_at_in A c B i (k : nat) x : i = zlen A + Z.of_nat k -> c !! k = Some x -> char_at (A ++ c ++ B) i = Some x.
Proof.
  intros -> Hk. pose proof (lookup_lt_Some _ _ _ Hk). unfold char_at. rewrite ltb_false by lia.
  rewrite lookup_app_r by lia. rewrite lookup_app_l by lia. rewrite <-Hk. f_equal. lia.
Qed.

(** The four ways through [reduce_size]. *)
Lemma reduce_ascii t m c : char_at t (m - 1) = Some c -> 0 <= c < 128 -> reduce_size t m = Some 0.
Proof. intros E H. unfold reduce_size. rewrite E. bsimp. by destruct (class_ascii c H) as [-> _]. Qed.
Lemma reduce_lead t m c : char_at t (m - 1) = Some c -> 192 <= c < 256 -> reduce_size t m = Some 1.
Proof. intros E H. unfold reduce_size. rewrite E. bsimp. by destruct (class_lead c H) as (-> & -> & _). Qed.
Lemma reduce_cont t m c b :
  char_at t (m - 1) = Some c -> contb c = true -> char_at t (m - 2) = Some b ->
  reduce_size t m = if Z.land b 224 =? 224 then Some 2 else
                    a ← char_at t (m - 3); if Z.land a 240 =? 240 then Some 3 else Some 0.
Proof.
  intros E H E1. unfold reduce_size. rewrite E. bsimp. destruct (class_cont c H) as (-> & -> & _).
  cbn [negb]. by rewrite E1.
Qed.
Lemma reduce_second t m c b :
  char_at t (m - 1) = Some c -> contb c = true -> char_at t (m - 2) = Some b -> 224 <= b < 256 ->
  reduce_size t m = Some 2.
Proof.
  intros E H E1 Hb. rewrite (reduce_cont t m c b E H E1). destruct (class_lead b) as (_ & _ & -> & _); [lia|].
  by rewrite leb_true by lia.
Qed.
Lemma reduce_third t m c b a :
  char_at t (m - 1) = Some c -> contb c = true -> char_at t (m - 2) = Some b -> (Z.land b 224 =? 224) = false ->
  char_at t (m - 3) = Some a -> reduce_size t m = if Z.land a 240 =? 240 then Some 3 else Some 0.
Proof. intros E H E1 Hb E0. by rewrite (reduce_cont t m c b E H E1), Hb, E0. Qed.

(** Byte number [m] of a text lies in one character. *)
Lemma split_at_char (cs : list bytes) m :
  Forall (λ c, utf8_char c = true) cs -> 0 < m <= zlen (concat cs) ->
  ∃ pre c post, cs = pre ++ c :: post ∧ zlen (concat pre) < m <= zlen (concat pre) + zlen c.
Proof.
  intros Hf. revert m. induction Hf as [|c cs Hc Hf IH]; intros m Hm; [cbn in Hm; lia|].
  cbn [concat] in Hm. rewrite length_app in Hm. destruct (decide (m <= zlen c)) as [Hle|Hgt].
  - exists [], c, cs. split; [done|]. cbn. lia.
  - destruct (IH (m - zlen c)) as (pre & c' & post & -> & Hp); [lia|].
    exists (c :: pre), c', post. split; [done|]. cbn [concat]. rewrite length_app. lia.
Qed.

(** The byte before a character is ASCII or a continuation. *)
Lemma before_char pre X :
  Forall (λ c, utf8_char c = true) pre -> 0 < zlen (concat pre) ->
  ∃ x, char_at (concat pre ++ X) (zlen (concat pre) - 1) = Some x ∧ (Z.land x 240 =? 240) = false.
Proof.
  intros Hf. destruct pre as [|c pre _] using rev_ind; [cbn; lia|]. intros Hl.
  apply Forall_app in Hf as [_ Hf]. apply Forall_cons_iff in Hf as [Hc _].
  rewrite concat_app in *. cbn [concat] in *. rewrite app_nil_r in *. rewrite <-app_assoc.
  assert (0 < zlen c) as Hlc by (destruct c; [done|cbn; lia]).
  destruct (lookup_lt_is_Some_2 c (pred (length c))) as [x El]; [lia|].
  exists x. split.
  - apply (char_at_in _ _ _ _ (pred (length c))); [rewrite length_app; lia|done].
  - destruct c as [|a [|b [|c [|d [|]]]]]; try done; cbn [utf8_char] in Hc; zb; cbn in El;
      injection El as <-; first [by apply class_cont|apply class_ascii; lia].
Qed.

(** The answer of [reduce_size] inside of a character of which [j] bytes are copied. *)
Lemma reduce_in_char A c B j :
  utf8_char c = true -> 0 < j <= zlen c -> 3 <= zlen A + j ->
  (0 < zlen A -> ∃ x, char_at (A ++ c ++ B) (zlen A - 1) = Some x ∧ (Z.land x 240 =? 240) = false) ->
  reduce_size (A ++ c ++ B) (zlen A + j) = Some (if j =? zlen c then 0 else j).
Proof.
  intros Hc Hj Hm Hbefore.
  assert (∀ (k : nat) x, c !! k = Some x -> ∀ i, i = zlen A + Z.of_nat k ->
    char_at (A ++ c ++ B) i = Some x) as At by (intros; by eapply char_at_in).
  destruct c as [|a [|b [|c [|d [|]]]]]; try done; cbn [utf8_char length] in *; zb;
    assert (j = 1 ∨ j = 2 ∨ j = 3 ∨ j = 4) as Hjc by lia;
    destruct Hjc as [->|[->|[->| ->]]]; try lia; cbn [Z.eqb Pos.eqb Z.of_nat Pos.of_succ_nat Pos.succ];
    try (eapply reduce_lead; [apply (At 0%nat); [done|lia]|lia]);
    try (eapply reduce_second; [apply (At 1%nat); [done|lia]|done|apply (At 0%nat); [done|lia]|lia]).
  - eapply reduce_ascii; [apply (At 0%nat); [done|lia]|lia].
  - destruct Hbefore as (x & Hx & E); [lia|]. replace (zlen A - 1) with (zlen A + 2 - 3) in Hx by lia.
    rewrite (reduce_third _ _ b a x); [by rewrite E|apply (At 1%nat); [done|lia]|done|apply (At 0%nat); [done|lia]| |done].
    destruct (class_lead a) as (_ & _ & -> & _); lia.
  - rewrite (reduce_third _ _ c b a); [|apply (At 2%nat); [done|lia]|done|apply (At 1%nat); [done|lia]
      |by apply class_cont|apply (At 0%nat); [done|lia]].
    destruct (class_lead a) as (_ & _ & _ & ->); [lia|]. by rewrite leb_false by lia.
  - rewrite (reduce_third _ _ c b a); [|apply (At 2%nat); [done|lia]|done|apply (At 1%nat); [done|lia]
      |by apply class_cont|apply (At 0%nat); [done|lia]].
    destruct (class_lead a) as (_ & _ & _ & ->); [lia|]. by rewrite leb_true by lia.
  - rewrite (reduce_third _ _ d c b); [|apply (At 3%nat); [done|lia]|done|apply (At 2%nat); [done|lia]
      |by apply class_cont|apply (At 1%nat); [done|lia]].
    by destruct (class_cont b) as (_ & _ & _ & ->); [done|].
Qed.

(** [reduce_size] gives the number of bytes to the last boundary of a character. *)
Lemma reduce_size_utf8 cs tl m :
  Forall (λ c, utf8_char c = true) cs -> 3 <= m <= zlen (concat cs) ->
  ∃ r pre post, reduce_size (concat cs ++ tl) m = Some r ∧ 0 <= r <= 3 ∧ cs = pre ++ post ∧
    zlen (concat pre) = m - r.
Proof.
  intros Hf Hm. destruct (split_at_char cs m Hf) as (pre & c & post & -> & Hp); [lia|].
  apply Forall_app in Hf as [Hpre Hf]. apply Forall_cons_iff in Hf as [Hc _].
  rewrite concat_app. cbn [concat]. rewrite <-!app_assoc.
  set (A := concat pre) in *. set (j := m - zlen A).
  assert (zlen c <= 4) as Hl by (destruct c as [|? [|? [|? [|? [|]]]]]; try done; cbn; lia).
  pose proof (reduce_in_char A c (concat post ++ tl) j Hc ltac:(lia) ltac:(lia) (before_char pre _ Hpre)) as Hr.
  replace (zlen A + j) with m in Hr by lia. destruct (Z.eqb_spec j (zlen c)) as [E|E].
  - exists 0, (pre ++ [c]), post. split; [done|]. rewrite <-app_assoc. split_and!; try done.
    rewrite concat_app, length_app. cbn [concat]. rewrite app_nil_r. fold A. lia.
  - exists j, pre, (c :: post). split; [done|]. fold A. split_and!; try done; lia.
Qed.

(** ** Strings that do not fit *)

(** Space for characters when the truncation mark has to fit, too. *)
Definition room (u : DltUser) (P : bytes) (h : Z) : Z :=
  log_buf_len u - (zlen P + h + (zlen STR_TRUNCATED_MESSAGE + 1)).

Lemma string_cut u log P n s tl type name b r :
  holds u log P n -> not_freeing u = true -> 0 <= n < 2147483647 -> zlen s < 4294967296 ->
  let v := is_verbose_mode u log in
  let k := room u P (head_size v b name) in
  log_buf_len u < zlen P + zlen (string_bytes v type name b s) ->
  0 <= r <= k -> match type with UTF8_STRING => reduce_size (s ++ tl) k = Some r | ASCII_STRING => r = 0 end ->
  ∃ log', dlt_user_log_write_sized_string_utils_attr u log (Some (s ++ tl)) (zlen s) type name b =
      Some (DLT_RETURN_USER_BUFFER_FULL, log') ∧
    holds u log' (P ++ string_bytes v type name b (take (Z.to_nat (k - r)) s ++ STR_TRUNCATED_MESSAGE)) (n + 1).
Proof.
  intros H Hnf Hn Hs v k Hf Hr Hred. unfold dlt_user_log_write_sized_string_utils_attr. rewrite Hnf. cbn [negb].
  pose proof (holds_range _ _ _ _ H) as [Hrg Hrg']. fold v. pose proof (head_size_range v b name) as Hh.
  unfold string_bytes in Hf. rewrite !length_app, !Nat2Z.inj_add, zlen_string_head in Hf. cbn [length] in Hf.
  unfold room in k. change (zlen STR_TRUNCATED_MESSAGE + 1) with 36 in *.
  assert (2 + (if v then 4 + (if b then 2 + attr_size name else 0) else 0) = head_size v b name) as Eh by done.
  set (extra := if v then 4 + (if b then 2 + attr_size name else 0) else 0) in *.
  rewrite (h_size _ _ _ _ H). cint. rewrite ltb_true by lia. rewrite ltb_false by lia.
  replace (log_buf_len u - (zlen P + 36 + 2 + extra)) with k by lia.
  assert (match type with ASCII_STRING => Some 0 | UTF8_STRING => reduce_size (s ++ tl) k end = Some r) as ->.
  { destruct type; [by rewrite Hred|done]. }
  bsimp. cint. replace (log_buf_len u - zlen P - 2 - extra - r) with (k - r + 36) by lia.
  destruct (put_string_head_ok u log P n v b type (k - r + 36) name H) as (l1 & -> & H1 & V1); [lia|]. bsimp.
  set (d := take (Z.to_nat (k - r)) s). assert (zlen d = k - r) as Ld by (subst d; rewrite length_take; lia).
  assert (mread (s ++ tl) 0 (k - r) = Some d) as ->.
  { rewrite <-Ld. replace (s ++ tl) with (d ++ (drop (Z.to_nat (k - r)) s ++ tl)); [apply mread_prefix|].
    subst d. by rewrite app_assoc, take_drop. }
  bsimp. destruct (put_ok u l1 _ n d H1) as (l2 & -> & H2 & V2);
    [rewrite length_app, Nat2Z.inj_add, zlen_string_head; lia|]. bsimp.
  destruct (put_ok u l2 _ n (STR_TRUNCATED_MESSAGE ++ [0]) H2) as (l3 & -> & H3 & V3);
    [change (zlen (STR_TRUNCATED_MESSAGE ++ [0])) with 36;
     rewrite !length_app, !Nat2Z.inj_add, zlen_string_head; lia|]. bsimp.
  eexists. split; [reflexivity|]. apply count_arg_holds; [|done]. unfold string_bytes.
  replace (zlen (d ++ STR_TRUNCATED_MESSAGE) + 1) with (k - r + 36)
    by (rewrite length_app, Nat2Z.inj_add, Ld; change (zlen STR_TRUNCATED_MESSAGE) with 35; lia).
  rewrite <-!app_assoc in *. done.
Qed.

Lemma string_refused u log P n s t type name b :
  holds u log P n -> not_freeing u = true -> zlen s < 4294967296 ->
  let v := is_verbose_mode u log in
  log_buf_len u < zlen P + zlen (string_bytes v type name b s) ->
  room u P (head_size v b name) < 0 ->
  dlt_user_log_write_sized_string_utils_attr u log (Some t) (zlen s) type name b =
    Some (DLT_RETURN_USER_BUFFER_FULL, log).
Proof.
  intros H Hnf Hs v Hf Hr. unfold dlt_user_log_write_sized_string_utils_attr. rewrite Hnf. cbn [negb].
  pose proof (holds_range _ _ _ _ H) as [Hrg Hrg']. fold v. pose proof (head_size_range v b name) as Hh.
  unfold string_bytes in Hf. rewrite !length_app, !Nat2Z.inj_add, zlen_string_head in Hf. cbn [length] in Hf.
  unfold room in Hr. change (zlen STR_TRUNCATED_MESSAGE + 1) with 36 in *.
  assert (2 + (if v then 4 + (if b then 2 + attr_size name else 0) else 0) = head_size v b name) as Eh by done.
  set (extra := if v then 4 + (if b then 2 + attr_size name else 0) else 0) in *.
  rewrite (h_size _ _ _ _ H). cint. by rewrite !ltb_true by lia.
Qed.

(** A UTF-8 string that does not fit into the message is refused, and the
    message unchanged, when even the mark of a truncated string does not fit.
    When three or more bytes are left in front of the mark, the string is cut
    between two characters and the mark is put behind it: the message never
    contains a part of a character, at most three of the bytes that are left stay
    unused, and nothing is written outside of the buffer. *)
Theorem utf8_string_cut_at_character u log P n cs tl name b :
  holds u log P n -> not_freeing u = true -> 0 <= n < 2147483647 -> zlen (concat cs) < 4294967296 ->
  Forall (λ c, utf8_char c = true) cs ->
  let v := is_verbose_mode u log in
  let k := room u P (head_size v b name) in
  log_buf_len u < zlen P + zlen (string_bytes v UTF8_STRING name b (concat cs)) ->
  let r := dlt_user_log_write_sized_string_utils_attr u log (Some (concat cs ++ tl)) (zlen (concat cs))
             UTF8_STRING name b in
  (k < 0 -> r = Some (DLT_RETURN_USER_BUFFER_FULL, log)) ∧
  (3 <= k -> ∃ pre post log', cs = pre ++ post ∧ k - 3 <= zlen (concat pre) <= k ∧
     r = Some (DLT_RETURN_USER_BUFFER_FULL, log') ∧
     holds u log' (P ++ string_bytes v UTF8_STRING name b (concat pre ++ STR_TRUNCATED_MESSAGE)) (n + 1)).
Proof.
  intros H Hnf Hn Hs Hcs v k Hf r. split; intros Hk.
  - by apply (string_refused u log P n (concat cs)).
  - assert (k <= zlen (concat cs)) as Hle.
    { pose proof (holds_range _ _ _ _ H). unfold string_bytes in Hf.
      rewrite !length_app, !Nat2Z.inj_add, zlen_string_head in Hf. cbn [length] in Hf.
      unfold k, room. change (zlen STR_TRUNCATED_MESSAGE) with 35. fold v. lia. }
    destruct (reduce_size_utf8 cs tl k Hcs) as (q & pre & post & Eq & Hq & -> & Hpre); [lia|].
    exists pre, post. assert (take (Z.to_nat (k - q)) (concat (pre ++ post)) = concat pre) as Et.
    { rewrite <-Hpre, concat_app. by rewrite Nat2Z.id, take_app_length. }
    destruct (string_cut u log P n (concat (pre ++ post)) tl UTF8_STRING name b q H Hnf Hn Hs Hf)
      as (log' & E & H'); [fold v k; lia|exact Eq|].
    exists log'. split; [done|]. split; [lia|]. split; [exact E|]. fold v k in H'. by rewrite Et in H'.
Qed.

(** When there is no room for a single character in front of the mark, the
    search for the boundary of a UTF-8 character reads before the beginning of
    the text. *)
Theorem utf8_cut_reads_before_text u log P n s t name b :
  holds u log P n -> not_freeing u = true -> zlen s < 4294967296 ->
  let v := is_verbose_mode u log in
  log_buf_len u < zlen P + zlen (string_bytes v UTF8_STRING name b s) ->
  room u P (head_size v b name) = 0 ->
  dlt_user_log_write_sized_string_utils_attr u log (Some t) (zlen s) UTF8_STRING name b = None.
Proof.
  intros H Hnf Hs v Hf Hr. unfold dlt_user_log_write_sized_string_utils_attr. rewrite Hnf. cbn [negb].
  pose proof (holds_range _ _ _ _ H) as [Hrg Hrg']. fold v. pose proof (head_size_range v b name) as Hh.
  unfold string_bytes in Hf. rewrite !length_app, !Nat2Z.inj_add, zlen_string_head in Hf. cbn [length] in Hf.
  unfold room in Hr. change (zlen STR_TRUNCATED_MESSAGE + 1) with 36 in *.
  assert (2 + (if v then 4 + (if b then 2 + attr_size name else 0) else 0) = head_size v b name) as Eh by done.
  set (extra := if v then 4 + (if b then 2 + attr_size name else 0) else 0) in *.
  rewrite (h_size _ _ _ _ H). cint. rewrite ltb_true by lia. rewrite ltb_false by lia.
  by replace (log_buf_len u - (zlen P + 36 + 2 + extra)) with 0 by lia.
Qed.

(** ** Whole messages *)

Inductive width := W8 | W16 | W32 | W64.
#[export] Instance width_eq_dec : EqDecision width.
Proof. solve_decision. Defined.
Definition nbytes (w : width) : nat := match w with W8 => 1 | W16 => 2 | W32 => 4 | W64 => 8 end.
Definition tyle (w : width) : Z :=
  match w with
  | W8 => DLT_TYLE_8BIT | W16 => DLT_TYLE_16BIT | W32 => DLT_TYLE_32BIT | W64 => DLT_TYLE_64BIT
  end.

(** The arguments an application can log: integers, formatted integers, floating
    point numbers, truth values, raw data and strings, with optional attributes
    (name and unit, or name). *)
Inductive arg :=
| AUint (w : width) (v : Z) (attr : option (option bytes * option bytes))
| ASint (w : width) (v : Z) (attr : option (option bytes * option bytes))
| AFloat (double : bool) (v : Z) (attr : option (option bytes * option bytes))
| AFormatted (w : width) (v type : Z)
| ABool (v : Z) (attr : option (option bytes))
| ARaw (data : bytes) (type : Z) (attr : option (option bytes))
| AString (t : StringType) (s : bytes) (attr : option (option bytes)).

Definition write_arg (u : DltUser) (log : DltContextData) (a : arg) : option (Z * DltContextData) :=
  match a with
  | AUint W8 v None => dlt_user_log_write_uint8 u log v
  | AUint W16 v None => dlt_user_log_write_uint16 u log v
  | AUint W32 v None => dlt_user_log_write_uint32 u log v
  | AUint W64 v None => dlt_user_log_write_uint64 u log v
  | AUint W8 v (Some (n, un)) => dlt_user_log_write_uint8_attr u log v n un
  | AUint W16 v (Some (n, un)) => dlt_user_log_write_uint16_attr u log v n un
  | AUint W32 v (Some (n, un)) => dlt_user_log_write_uint32_attr u log v n un
  | AUint W64 v (Some (n, un)) => dlt_user_log_write_uint64_attr u log v n un
  | ASint W8 v None => dlt_user_log_write_int8 u log v
  | ASint W16 v None => dlt_user_log_write_int16 u log v
  | ASint W32 v None => dlt_user_log_write_int32 u log v
  | ASint W64 v None => dlt_user_log_write_int64 u log v
  | ASint W8 v (Some (n, un)) => dlt_user_log_write_int8_attr u log v n un
  | ASint W16 v (Some (n, un)) => dlt_user_log_write_int16_attr u log v n un
  | ASint W32 v (Some (n, un)) => dlt_user_log_write_int32_attr u log v n un
  | ASint W64 v (Some (n, un)) => dlt_user_log_write_int64_attr u log v n un
  | AFloat false v None => dlt_user_log_write_float32 u log v
  | AFloat true v None => dlt_user_log_write_float64 u log v
  | AFloat false v (Some (n, un)) => dlt_user_log_write_float32_attr u log v n un
  | AFloat true v (Some (n, un)) => dlt_user_log_write_float64_attr u log v n un
  | AFormatted W8 v t => dlt_user_log_write_uint8_formatted u log v t
  | AFormatted W16 v t => dlt_user_log_write_uint16_formatted u log v t
  | AFormatted W32 v t => dlt_user_log_write_uint32_formatted u log v t
  | AFormatted W64 v t => dlt_user_log_write_uint64_formatted u log v t
  | ABool v None => dlt_user_log_write_bool u log v
  | ABool v (Some n) => dlt_user_log_write_bool_attr u log v n
  | ARaw d t None => dlt_user_log_write_raw_formatted u log (Some d) (zlen d) t
  | ARaw d t (Some n) => dlt_user_log_write_raw_formatted_attr u log (Some d) (zlen d) t n
  | AString ASCII_STRING s None => dlt_user_log_write_string u log (Some (s ++ [0]))
  | AString ASCII_STRING s (Some n) => dlt_user_log_write_string_attr u log (Some (s ++ [0])) n
  | AString UTF8_STRING s None => dlt_user_log_write_utf8_string u log (Some (s ++ [0]))
  | AString UTF8_STRING s (Some n) => dlt_user_log_write_utf8_string_attr u log (Some (s ++ [0])) n
  end.

(** The layout of an argument in the payload. *)
Definition both (attr : option (option bytes * option bytes)) : option VarInfo :=
  '(n, un) ← attr; Some {| name := n; unit := un; with_unit := true |}.
Definition encode_arg (verbose : bool) (a : arg) : bytes :=
  match a with
  | AUint w v attr => simple_bytes verbose (Z.lor DLT_TYPE_INFO_UINT (tyle w)) (both attr) (le_bytes (nbytes w) v)
  | ASint w v attr => simple_bytes verbose (Z.lor DLT_TYPE_INFO_SINT (tyle w)) (both attr) (le_bytes (nbytes w) v)
  | AFloat d v attr =>
      simple_bytes verbose (Z.lor DLT_TYPE_INFO_FLOA (if d then DLT_TYLE_64BIT else DLT_TYLE_32BIT)) (both attr)
        (le_bytes (if d then 8 else 4) v)
  | AFormatted w v t => formatted_bytes verbose (Z.lor DLT_TYPE_INFO_UINT (tyle w)) t (le_bytes (nbytes w) v)
  | ABool v attr =>
      simple_bytes verbose (Z.lor DLT_TYPE_INFO_BOOL DLT_TYLE_8BIT)
        (n ← attr; Some {| name := n; unit := None; with_unit := false |}) (le_bytes 1 v)
  | ARaw d t attr => raw_bytes verbose t (default None attr) (if attr is Some _ then true else false) d
  | AString t s attr => string_bytes verbose t (default None attr) (if attr is Some _ then true else false) s
  end.

Definition wf_arg (a : arg) : Prop :=
  match a with
  | AFormatted _ _ t => DLT_FORMAT_DEFAULT <= t < DLT_FORMAT_MAX
  | ARaw d t _ => zlen d < 65536 ∧ DLT_FORMAT_DEFAULT <= t < DLT_FORMAT_MAX
  | AString _ s _ => 0 ∉ s
  | _ => True
  end.

Lemma strlen_terminated s : 0 ∉ s -> strlen (s ++ [0]) = Some (zlen s).
Proof.
  induction s as [|c s IH]; [done|]. rewrite not_elem_of_cons. intros [Hc Hs]. cbn [app strlen].
  rewrite eqb_false by congruence. rewrite IH by done. bsimp. f_equal. cbn [length]. lia.
Qed.

(** Ready to write. *)
Definition ready (u : DltUser) : Prop := init_done u = true ∧ freeing u = false.

Lemma write_arg_ok u log P n a :
  holds u log P n -> ready u -> 0 <= n < 2147483647 -> wf_arg a ->
  zlen P + zlen (encode_arg (is_verbose_mode u log) a) <= log_buf_len u ->
  ∃ log', write_arg u log a = Some (DLT_RETURN_OK, log') ∧
    holds u log' (P ++ encode_arg (is_verbose_mode u log) a) (n + 1) ∧ frame log' = frame log.
Proof.
  intros H [Hi Hfr] Hn Hwf Hf.
  assert (not_freeing u = true) as Hnf by (unfold not_freeing; by rewrite Hi, Hfr).
  assert (∀ r d, appends u log P n r d -> zlen P + zlen d <= log_buf_len u ->
    ∃ log', r = Some (DLT_RETURN_OK, log') ∧ holds u log' (P ++ d) (n + 1) ∧ frame log' = frame log)
    as Hap by (intros r d Ha Hd; unfold appends in Ha; by rewrite leb_true in Ha by done).
  destruct a as [w v attr|w v attr|dbl v attr|w v t|v attr|d t attr|t s attr].
  1-5: apply Hap; [|exact Hf].
  - by destruct w, attr as [[? ?]|]; apply generic_attr_appends.
  - by destruct w, attr as [[? ?]|]; apply generic_attr_appends.
  - by destruct dbl, attr as [[? ?]|]; apply generic_attr_appends.
  - by destruct w; apply generic_formatted_appends.
  - by destruct attr as [?|]; apply generic_attr_appends.
  - apply Hap; [|exact Hf]. destruct Hwf. by destruct attr as [?|]; apply raw_internal_appends.
  - cbn [wf_arg encode_arg] in *.
    destruct t, attr as [nm|]; cbn [write_arg default from_option id] in *;
      unfold dlt_user_log_write_string, dlt_user_log_write_string_attr, dlt_user_log_write_utf8_string,
        dlt_user_log_write_utf8_string_attr, dlt_user_log_write_string_utils_attr;
      rewrite strlen_terminated by done; bsimp; by apply string_fits.
Qed.

(** [DLT_LOG] writes the arguments one after the other. *)
Fixpoint write_args (u : DltUser) (log : DltContextData) (l : list arg) : option (list Z * DltContextData) :=
  match l with
  | [] => Some ([], log)
  | a :: l =>
      '(rc, log) ← write_arg u log a;
      '(rcs, log) ← write_args u log l;
      Some (rc :: rcs, log)
  end.

(** Writing any sequence of arguments that fits into the buffer succeeds,
    the payload is the concatenation of the encodings of the arguments in order,
    the argument counter is their number, and nothing is written outside of the
    buffer. *)
Lemma write_args_ok u log P n l :
  holds u log P n -> ready u -> 0 <= n -> n + zlen l < 2147483647 -> Forall wf_arg l ->
  let v := is_verbose_mode u log in
  zlen P + zlen (concat (encode_arg v <$> l)) <= log_buf_len u ->
  ∃ log', write_args u log l = Some (replicate (length l) DLT_RETURN_OK, log') ∧
    holds u log' (P ++ concat (encode_arg v <$> l)) (n + zlen l) ∧ frame log' = frame log.
Proof.
  intros H Hr Hn Hl Hwf v Hf. subst v. revert log P n H Hn Hl Hf.
  induction Hwf as [|a l Ha Hwf IH]; intros log P n H Hn Hl Hf; cbn [write_args length replicate].
  { exists log. split; [done|]. rewrite app_nil_r, Z.add_0_r. done. }
  rewrite fmap_cons in *. cbn [concat length] in *. rewrite length_app, Nat2Z.inj_add in Hf.
  destruct (write_arg_ok u log P n a H Hr ltac:(lia) Ha) as (l1 & -> & H1 & V1); [lia|]. bsimp.
  assert (is_verbose_mode u log = is_verbose_mode u l1) as Ev by (symmetry; by apply frame_verbose).
  rewrite Ev in *. destruct (IH l1 _ _ H1) as (l2 & -> & H2 & V2);
    [lia|lia|rewrite length_app, Nat2Z.inj_add; lia|]. bsimp.
  exists l2. split; [done|]. rewrite <-app_assoc in H2.
  replace (n + Z.of_nat (S (length l))) with (n + 1 + zlen l) by lia. split; [done|congruence].
Qed.

(** An initialised library with messages of [n] bytes, and a message of [n] bytes. *)
Definition user_of (n : Z) : DltUser :=
  {| init_done := true; freeing := false; file_reach_max := false; ecuID := [69; 67; 85; 49]; ecuID2len := 4; appID := [76; 79; 71; 0];
     appID2len := 0; appID2 := []; dlt_log_handle := 3; dlt_is_file := false; filesize_max := 0;
     overflow_counter := 0; user_verbose_mode := 1; use_extended_header_for_non_verbose := true;
     with_session_id := true; with_timestamp := true; with_ecu_id := true; enable_local_print := false;
     local_print_mode := 0;
     startup_buffer := {| RingBuffer.shm := None; RingBuffer.size := 0; RingBuffer.min_size := 0;
                          RingBuffer.max_size := 0; RingBuffer.step_size := 0 |};
     resend_buffer := []; log_buf_len := n; local_pid := 7 |}.
Definition log_of (n : nat) : DltContextData :=
  {| handle := Some {| contextID := [67; 84; 88; 0]; log_level_pos := 0; log_level_ptr := Some 4; mcnt := 0 |};
     buffer := Some (replicate n 0); size := 0; log_level := 4; trace_status := 0; args_num := 0;
     use_timestamp := 0; user_timestamp := 0; msid := 0; verbose_mode := 0 |}.
Definition user64 : DltUser := user_of 64.
Definition log64 : DltContextData := log_of 64.
Lemma holds_log64 : holds user64 log64 [] 0.
Proof. split; [exists (replicate 64 0); split; reflexivity|reflexivity|reflexivity|reflexivity]. Qed.

(** Twenty euro signs, of which seven fit. *)
Definition euros : list bytes := replicate 20 [226; 130; 172].
Lemma utf8_string_cut_at_character_witness :
  ∃ log', dlt_user_log_write_sized_string_utils_attr user64 log64 (Some (concat euros ++ [0])) 60 UTF8_STRING None false
          = Some (DLT_RETURN_USER_BUFFER_FULL, log') ∧ size log' = 63.
Proof.
  pose proof (utf8_string_cut_at_character user64 log64 [] 0 euros [0] None false holds_log64) as W. cbv zeta in W.
  destruct W as [_ W]; [reflexivity|lia|reflexivity| |reflexivity|].
  { apply Forall_replicate. reflexivity. }
  destruct W as (pre & post & log' & Hc & Hk & E & H); [vm_compute; discriminate|].
  exists log'. split; [exact E|]. revert E. vm_compute. intros [= <-]. reflexivity.
Defined.

Lemma utf8_cut_reads_before_text_witness :
  dlt_user_log_write_sized_string_utils_attr
    (user_of 42) (log_of 42)
    (Some (concat euros ++ [0])) (zlen (concat euros)) UTF8_STRING None false = None.
Proof.
  apply (utf8_cut_reads_before_text _ _ [] 0); [|reflexivity..].
  split; [exists (replicate 42 0); split; reflexivity|reflexivity|reflexivity|reflexivity].
Defined.

End UserLogSpec.
