(* ===== verification/Payload.v ===== *)
(** * Printing the arguments of a message ([src/shared/dlt_common.c])

    [dlt_message_argument_print] reads one argument of a verbose payload and
    prints it; [dlt_message_payload] calls it for every argument.  The position
    in the payload, the remaining length and the text are a state; an early
    [return DLT_RETURN_ERROR] leaves the computation.

    [show_g] is the conversion of a floating point bit pattern by [printf]
    with ["%g"]; [attrs] is the global [print_with_attributes]. *)

From stdpp Require Import base list numbers option.
From Stdlib Require Import ZArith Lia Bool.
From S2P Require Import Prelude Protocol Ids UserLog.
Import Protocol Ids UserLog.

Local Open Scope Z_scope.

(** ** printf *)
Module Printf.

(** A digit in bases up to 16. *)
Definition digit (d : Z) : Z := if d <? 10 then 48 + d else 87 + d.

Fixpoint digits_rev (fuel : nat) (base z : Z) : bytes :=
  match fuel with
  | O => []
  | S fuel => digit (z mod base) :: (if z <? base then [] else digits_rev fuel base (z / base))
  end.

(** The digits of a number that is not negative; 64 digits are enough for 64 bits
    in every base. *)
Definition digits (base z : Z) : bytes := reverse (digits_rev 64 base z).

(** ["%d"] and ["%u"]. *)
Definition dec (z : Z) : bytes := if z <? 0 then 45 :: digits 10 (- z) else digits 10 z.

(** ["%0<n>x"]: at least [n] digits. *)
Fixpoint hex_fixed (n : nat) (z : Z) : bytes :=
  match n with
  | O => []
  | S n => hex_fixed n (z / 16) ++ [digit (z mod 16)]
  end.
Definition hex (n : nat) (z : Z) : bytes :=
  if z <? 16 ^ Z.of_nat n then hex_fixed n z else digits 16 z.

(** [snprintf(text + off, n, ...)] with the formatted characters [s]. *)
Definition snprintf (text : bytes) (off n : Z) (s : bytes) : option bytes :=
  if n <=? 0 then Some text else mwrite text off (take (Z.to_nat (n - 1)) s ++ [0]).

(** The C string at an offset. *)
Definition cstring_at (m : bytes) (off : Z) : option bytes :=
  if off <? 0 then None else
  n ← strlen (drop (Z.to_nat off) m); Some (take (Z.to_nat n) (drop (Z.to_nat off) m)).

End Printf.
Import Printf.

Module Payload.

Definition DLT_ENDIAN_GET_64 (htyp v : Z) : Z :=
  if flag htyp DLT_HTYP_MSBF then DLT_SWAP_64 v else v.

(** ** Hexadecimal text *)

Fixpoint hex_loop (text : bytes) (off : Z) (data : bytes) (delim : Z) (first : bool) : option bytes :=
  match data with
  | [] => Some text
  | c :: data =>
      '(text, off) ← (if first then Some (text, off) else t ← snprintf text off 2 [delim]; Some (t, off + 1));
      text ← snprintf text off 3 (hex 2 c);
      hex_loop text (off + 2) data delim false
  end.

Definition dlt_print_hex_string_delim (text : bytes) (off textlength : Z) (m : bytes) (ptr size : Z)
  (delim : Z) : option (Z * bytes) :=
  if (textlength <=? 0) || (size <? 0) || (delim =? 0) then Some (DLT_RETURN_WRONG_PARAMETER, text) else
  if textlength <? i32 (size * 3) then Some (DLT_RETURN_ERROR, text) else
  d ← mread m ptr size;
  t ← hex_loop text off d delim true;
  Some (DLT_RETURN_OK, t).

Definition dlt_print_hex_string (text : bytes) (off textlength : Z) (m : bytes) (ptr size : Z)
  : option (Z * bytes) := dlt_print_hex_string_delim text off textlength m ptr size 32.

(** ** State and early return *)

Record cursor := { ptr : Z; datalength : Z; text : bytes }.

(** [None]: undefined behaviour; [(s, None)]: [return DLT_RETURN_ERROR]. *)
Definition M (A : Type) : Type := cursor -> option (cursor * option A).
Definition ret {A} (a : A) : M A := λ s, Some (s, Some a).
Definition error {A} : M A := λ s, Some (s, None).
Definition bind {A B} (m : M A) (k : A -> M B) : M B :=
  λ s, '(s, r) ← m s; match r with Some a => k a s | None => Some (s, None) end.
Notation "x <- m ;; k" := (bind m (λ x, k)) (at level 100, m at next level, right associativity).
Notation "m ;;; k" := (bind m (λ _, k)) (at level 100, right associativity).

Definition remaining : M Z := λ s, Some (s, Some (datalength s)).
Definition here : M Z := λ s, Some (s, Some (ptr s)).
(** [*ptr += n]. *)
Definition move (n : Z) : M () :=
  λ s, Some ({| ptr := ptr s + n; datalength := datalength s; text := text s |}, Some tt).
(** [*ptr += n; *datalength -= n]. *)
Definition skip (n : Z) : M () :=
  λ s, Some ({| ptr := ptr s + n; datalength := datalength s - n; text := text s |}, Some tt).
(** An operation on the text. *)
Definition on_text (f : bytes -> option bytes) : M () :=
  λ s, t ← f (text s); Some ({| ptr := ptr s; datalength := datalength s; text := t |}, Some tt).
(** [if ( *datalength < n) return DLT_RETURN_ERROR]. *)
Definition need (n : Z) : M () := d <- remaining;; if d <? n then error else ret tt.

Section print.
Context (show_g : bool -> Z -> bytes) (attrs : bool) (m : bytes) (htyp : Z).

(** [DLT_MSG_READ_VALUE] and the test of the length behind it. *)
Definition read_value (n : nat) : M Z :=
  λ s, if (datalength s <? 0) || (datalength s <? Z.of_nat n)
       then Some ({| ptr := ptr s; datalength := -1; text := text s |}, None)
       else b ← mread m (ptr s) (Z.of_nat n);
            Some ({| ptr := ptr s + Z.of_nat n; datalength := datalength s - Z.of_nat n; text := text s |},
                  Some (le_Z b)).

Definition read_u16 : M Z := v <- read_value 2;; ret (u16 (DLT_ENDIAN_GET_16 htyp v)).

(** [DLT_MSG_READ_STRING] and the test of the length behind it. *)
Definition read_string (vt textlength length : Z) : M () :=
  λ s, if (datalength s <? 0) || (length <=? 0) || (textlength <? length) || (datalength s <? length)
       then Some ({| ptr := ptr s; datalength := -1; text := text s |}, None)
       else d ← mread m (ptr s) length;
            d ← dlt_clean_string (Some d) length;
            d ← d;
            t ← mwrite (text s) vt d;
            t ← mwrite t (vt + length) [0];
            Some ({| ptr := ptr s + length; datalength := datalength s - length; text := t |}, Some tt).

(** The name attribute of [length2] bytes: position and size of the rest of the text. *)
Definition print_name (vt textlength length2 minus : Z) : M (Z * Z) :=
  need length2;;;
  p <- here;;
  r <- (if attrs && (1 <? length2) then
          on_text (λ t, n ← cstring_at m p; snprintf t vt textlength (n ++ [58]));;;
          ret (vt + length2, u64 (textlength - (length2 - minus)))
        else ret (vt, textlength));;
  skip length2;;;
  ret r.

Definition print_at (vt textlength : Z) (s : bytes) : M () :=
  on_text (λ t, snprintf t vt textlength s).

(** Result of a [dlt_print_hex_string] that is not looked at. *)
Definition print_hex (vt textlength size : Z) : M () :=
  λ s, '(_, t) ← dlt_print_hex_string (text s) vt (i32 textlength) m (ptr s) size;
       Some ({| ptr := ptr s; datalength := datalength s; text := t |}, Some tt).

Definition string_arg (ti vt textlength : Z) (byteLength : Z) : M () :=
  length <- (if byteLength <? 0 then read_u16 else ret (u16 byteLength));;
  r <- (if flag ti DLT_TYPE_INFO_VARI then
          length2 <- read_u16;; print_name vt textlength length2 0
        else ret (vt, textlength));;
  read_string r.1 r.2 length.

Definition bool_arg (ti vt textlength : Z) : M () :=
  r <- (if flag ti DLT_TYPE_INFO_VARI then
          length2 <- read_u16;; print_name vt textlength length2 1
        else ret (vt, textlength));;
  v <- read_value 1;;
  print_at r.1 r.2 (dec v).

(** Binary digits, in groups of four. *)
Fixpoint bin_digits (n : nat) (v : Z) : bytes :=
  match n with
  | O => []
  | S n =>
      (if ((n =? 3) || (n =? 7) || (n =? 11))%nat then [32] else []) ++
      [if Z.testbit v (Z.of_nat n) then 49 else 48] ++ bin_digits n v
  end.

Definition bin_arg (ti vt textlength : Z) : M () :=
  let tyle := Z.land ti DLT_TYPE_INFO_TYLE in
  if tyle =? DLT_TYLE_8BIT then
    v <- read_value 1;; print_at vt textlength ([48; 98] ++ bin_digits 8 v)
  else if tyle =? DLT_TYLE_16BIT then
    v <- read_value 2;; print_at vt textlength ([48; 98] ++ bin_digits 16 v)
  else ret tt.

Definition hex_arg (ti vt textlength : Z) : M () :=
  let tyle := Z.land ti DLT_TYPE_INFO_TYLE in
  if tyle =? DLT_TYLE_8BIT then
    v <- read_value 1;; print_at vt textlength ([48; 120] ++ hex 2 v)
  else if tyle =? DLT_TYLE_16BIT then
    v <- read_value 2;; print_at vt textlength ([48; 120] ++ hex 4 v)
  else if tyle =? DLT_TYLE_32BIT then
    v <- read_value 4;; print_at vt textlength ([48; 120] ++ hex 8 v)
  else if tyle =? DLT_TYLE_64BIT then
    move 4;;;
    v <- read_value 4;;
    print_at vt textlength ([48; 120] ++ hex 8 v);;;
    move (-8);;;
    v <- read_value 4;;
    on_text (λ t, n ← cstring_at t vt;
                  snprintf t (vt + zlen n) (u64 (textlength - zlen n)) (hex 8 v));;;
    move 4
  else ret tt.

(** Name and unit: position and size of the rest of the text, and the position
    and length of the unit. *)
Definition name_and_unit (ti vt textlength : Z) : M (Z * Z * Z * Z) :=
  if flag ti DLT_TYPE_INFO_VARI then
    length2 <- read_u16;;
    length3 <- read_u16;;
    r <- print_name vt textlength length2 0;;
    need length3;;;
    src <- here;;
    skip length3;;;
    ret (r.1, r.2, src, length3)
  else ret (vt, textlength, 0, 0).

(** Fixed point numbers: quantisation and offset are skipped. *)
Definition fixed_point (ti : Z) : M () :=
  if flag ti DLT_TYPE_INFO_FIXP then
    _ <- read_value 4;;
    let tyle := Z.land ti DLT_TYPE_INFO_TYLE in
    if (tyle =? DLT_TYLE_8BIT) || (tyle =? DLT_TYLE_16BIT) || (tyle =? DLT_TYLE_32BIT)
    then need 4;;; skip 4
    else if tyle =? DLT_TYLE_64BIT then need 8;;; skip 8
    else if tyle =? DLT_TYLE_128BIT then need 16;;; skip 16
    else error
  else ret tt.

(** The bytes of a type that is only shown in hexadecimal. *)
Definition hex_bytes (vt textlength n : Z) : M () :=
  d <- remaining;;
  (if n <=? d then print_hex vt textlength n else ret tt);;;
  need n;;; skip n.

Definition int_value (ti vt textlength : Z) : M () :=
  let tyle := Z.land ti DLT_TYPE_INFO_TYLE in
  let signed := flag ti DLT_TYPE_INFO_SINT in
  if tyle =? DLT_TYLE_8BIT then
    v <- read_value 1;; print_at vt textlength (dec (if signed then i8 v else v))
  else if tyle =? DLT_TYLE_16BIT then
    v <- read_value 2;;
    let v := u16 (DLT_ENDIAN_GET_16 htyp v) in
    print_at vt textlength (dec (if signed then i16 v else v))
  else if tyle =? DLT_TYLE_32BIT then
    v <- read_value 4;;
    let v := u32 (DLT_ENDIAN_GET_32 htyp v) in
    print_at vt textlength (dec (if signed then i32 v else v))
  else if tyle =? DLT_TYLE_64BIT then
    v <- read_value 8;;
    let v := u64 (DLT_ENDIAN_GET_64 htyp v) in
    print_at vt textlength (dec (if signed then i64 v else v))
  else if tyle =? DLT_TYLE_128BIT then hex_bytes vt textlength 16
  else error.

Definition float_value (ti vt textlength : Z) : M () :=
  let tyle := Z.land ti DLT_TYPE_INFO_TYLE in
  if tyle =? DLT_TYLE_8BIT then hex_bytes vt textlength 1
  else if tyle =? DLT_TYLE_16BIT then hex_bytes vt textlength 2
  else if tyle =? DLT_TYLE_32BIT then
    v <- read_value 4;; print_at vt textlength (show_g false (u32 (DLT_ENDIAN_GET_32 htyp v)))
  else if tyle =? DLT_TYLE_64BIT then
    v <- read_value 8;; print_at vt textlength (show_g true (u64 (DLT_ENDIAN_GET_64 htyp v)))
  else if tyle =? DLT_TYLE_128BIT then hex_bytes vt textlength 16
  else error.

(** The unit behind the value. *)
Definition print_unit (vt textlength src len : Z) : M () :=
  d <- remaining;;
  if d <? 0 then error else
  if attrs && (1 <? len) then
    on_text (λ t, v ← cstring_at t vt; n ← cstring_at m src;
                  snprintf t (vt + zlen v) (u64 (textlength - zlen v)) (58 :: n))
  else ret tt.

Definition raw_arg (ti vt textlength : Z) : M () :=
  length <- read_u16;;
  r <- (if flag ti DLT_TYPE_INFO_VARI then
          length2 <- read_u16;; print_name vt textlength length2 0
        else ret (vt, textlength));;
  need length;;;
  rc <- (λ s, '(rc, t) ← dlt_print_hex_string_delim (text s) r.1 (i32 r.2) m (ptr s) length 39;
              Some ({| ptr := ptr s; datalength := datalength s; text := t |}, Some rc));;
  if rc <? DLT_RETURN_OK then error else skip length.

Definition trace_arg (vt textlength : Z) : M () :=
  length <- read_u16;; read_string vt textlength length.

Definition dlt_message_argument_print (type_info vt textlength byteLength : Z) : M () :=
  if flag type_info DLT_TYPE_INFO_STRG &&
     ((Z.land type_info DLT_TYPE_INFO_SCOD =? DLT_SCOD_ASCII) ||
      (Z.land type_info DLT_TYPE_INFO_SCOD =? DLT_SCOD_UTF8)) then
    string_arg type_info vt textlength byteLength;;; print_unit vt textlength 0 0
  else if flag type_info DLT_TYPE_INFO_BOOL then
    bool_arg type_info vt textlength;;; print_unit vt textlength 0 0
  else if flag type_info DLT_TYPE_INFO_UINT && (Z.land type_info DLT_TYPE_INFO_SCOD =? DLT_SCOD_BIN) then
    bin_arg type_info vt textlength;;; print_unit vt textlength 0 0
  else if flag type_info DLT_TYPE_INFO_UINT && (Z.land type_info DLT_TYPE_INFO_SCOD =? DLT_SCOD_HEX) then
    hex_arg type_info vt textlength;;; print_unit vt textlength 0 0
  else if flag type_info DLT_TYPE_INFO_SINT || flag type_info DLT_TYPE_INFO_UINT then
    r <- name_and_unit type_info vt textlength;;
    let '(vt, textlength, src, len) := r in
    fixed_point type_info;;;
    int_value type_info vt textlength;;;
    print_unit vt textlength src len
  else if flag type_info DLT_TYPE_INFO_FLOA then
    r <- name_and_unit type_info vt textlength;;
    let '(vt, textlength, src, len) := r in
    float_value type_info vt textlength;;;
    print_unit vt textlength src len
  else if flag type_info DLT_TYPE_INFO_RAWD then
    raw_arg type_info vt textlength;;; print_unit vt textlength 0 0
  else if flag type_info DLT_TYPE_INFO_TRAI then
    trace_arg vt textlength;;; print_unit vt textlength 0 0
  else error.

(** The loop of [dlt_message_payload] over the [n] arguments of a verbose
    message; [num] is the number of the next one and [type_info_tmp] the value
    read last, which stays when nothing more can be read. *)
Fixpoint payload_loop (n num : nat) (textlength type_info_tmp : Z) : M () :=
  match n with
  | O => ret tt
  | S n =>
      (if (num =? 0)%nat then ret tt
       else on_text (λ t, o ← cstring_at t 0; snprintf t (zlen o) (u64 (textlength - zlen o)) [32]));;;
      tmp <- (λ s, if (datalength s <? 0) || (datalength s <? 4)
                   then Some ({| ptr := ptr s; datalength := -1; text := text s |}, Some type_info_tmp)
                   else '(s, v) ← read_value 4 s; Some (s, v));;
      let type_info := DLT_ENDIAN_GET_32 htyp tmp in
      o <- (λ s, o ← cstring_at (text s) 0; Some (s, Some (zlen o)));;
      dlt_message_argument_print type_info o (u64 (textlength - o)) (-1);;;
      payload_loop n (S num) textlength tmp
  end.

End print.

(** The part of [dlt_message_payload] for verbose messages with [noar]
    arguments and the payload [m] of [datasize] bytes, when the output type is
    ASCII: the text starts empty. *)
Definition payload_arguments (show_g : bool -> Z -> bytes) (attrs : bool) (m : bytes) (datasize htyp noar : Z)
  (t : bytes) (textlength : Z) : option (Z * bytes) :=
  t ← mwrite t 0 [0];
  '(s, r) ← payload_loop show_g attrs m htyp (Z.to_nat noar) 0 textlength 0
              {| ptr := 0; datalength := datasize; text := t |};
  Some (if r is Some _ then DLT_RETURN_OK else DLT_RETURN_ERROR, text s).

End Payload.
