(* ===== verification/PayloadSpec.v ===== *)
(** * What was logged is what is printed

    The payload that the user library builds from a list of arguments is printed
    by [dlt_message_payload] as the list of their texts, with names and units,
    and without leaving the payload or the text. *)

From stdpp Require Import base list numbers option.
From Stdlib Require Import ZArith Lia Bool.
From S2P Require Import Prelude Protocol Ids UserLog UserLogSpec Payload.
Import Protocol Ids UserLog UserLogSpec Printf Payload.

Local Open Scope Z_scope.

Module PayloadSpec.

(** ** printf *)

Lemma digit_nonzero d : 0 <= d -> digit d <> 0.
Proof. unfold digit. case_match; lia. Qed.

Lemma digits_nonzero base z : 0 < base -> 0 ∉ digits base z.
Proof.
  intros Hb. unfold digits. rewrite elem_of_reverse. generalize 64%nat as fuel. intros fuel. revert z.
  induction fuel as [|fuel IH]; intros z; cbn [digits_rev]; [apply not_elem_of_nil|].
  apply not_elem_of_cons. split.
  - pose proof (Z.mod_pos_bound z base Hb). pose proof (digit_nonzero (z mod base)). lia.
  - case_match; [apply not_elem_of_nil|apply IH].
Qed.

Lemma dec_nonzero z : 0 ∉ dec z.
Proof.
  unfold dec. case_match; [apply not_elem_of_cons; split; [lia|]|]; by apply digits_nonzero.
Qed.

Lemma hex_fixed_nonzero n z : 0 ∉ hex_fixed n z.
Proof.
  revert z. induction n as [|n IH]; intros z; cbn [hex_fixed]; [apply not_elem_of_nil|].
  rewrite not_elem_of_app. split; [apply IH|]. apply not_elem_of_cons. split; [|apply not_elem_of_nil].
  pose proof (Z.mod_pos_bound z 16). pose proof (digit_nonzero (z mod 16)). lia.
Qed.
Lemma length_hex_fixed n z : length (hex_fixed n z) = n.
Proof. revert z. induction n as [|n IH]; intros z; cbn [hex_fixed]; [done|]. rewrite length_app, IH. cbn. lia. Qed.

Lemma hex_small n z : z < 16 ^ Z.of_nat n -> hex n z = hex_fixed n z.
Proof. intros H. unfold hex. by rewrite ltb_true by lia. Qed.

(** Upper and lower half of a number. *)
Lemma hex_fixed_halves a b z :
  hex_fixed (a + b) z = hex_fixed a (z / 16 ^ Z.of_nat b) ++ hex_fixed b (z mod 16 ^ Z.of_nat b).
Proof.
  revert z. induction b as [|b IH]; intros z.
  { rewrite Nat.add_0_r. change (16 ^ Z.of_nat 0) with 1. rewrite Z.div_1_r. cbn [hex_fixed]. by rewrite app_nil_r. }
  rewrite Nat.add_succ_r. cbn [hex_fixed]. rewrite IH, <-app_assoc.
  rewrite Nat2Z.inj_succ, Z.pow_succ_r by lia. pose proof (Z.pow_pos_nonneg 16 (Z.of_nat b) ltac:(lia) ltac:(lia)).
  f_equal; [by rewrite Z.div_div by lia|]. f_equal.
  - f_equal. rewrite Z.rem_mul_r by lia. rewrite (Z.mul_comm 16 ((z / 16) mod _)), Z.div_add by lia.
    rewrite (Z.div_small (z mod 16)); [lia|]. apply Z.mod_pos_bound. lia.
  - f_equal. f_equal. rewrite Z.rem_mul_r, Z.mul_comm, Z.mod_add by lia. by rewrite Z.mod_mod by lia.
Qed.

Lemma le_Z_le_bytes_mod n z : le_Z (le_bytes n z) = z mod 256 ^ Z.of_nat n.
Proof.
  revert z. induction n as [|n IH]; intros z; cbn [le_bytes le_Z]; [by rewrite Z.mod_1_r|].
  rewrite IH, Nat2Z.inj_succ, Z.pow_succ_r by lia.
  pose proof (Z.pow_pos_nonneg 256 (Z.of_nat n) ltac:(lia) ltac:(lia)). by rewrite Z.rem_mul_r by lia.
Qed.

(** ** Strings in memory *)

Lemma strlen_app s r : 0 ∉ s -> strlen (s ++ 0 :: r) = Some (zlen s).
Proof.
  induction s as [|c s IH]; [done|]. rewrite not_elem_of_cons. intros [Hc Hs]. cbn [app strlen].
  rewrite eqb_false by congruence. rewrite IH by done. bsimp. f_equal. cbn [length]. lia.
Qed.

Lemma cstring_at_app A s r : 0 ∉ s -> cstring_at (A ++ s ++ 0 :: r) (zlen A) = Some s.
Proof.
  intros Hs. unfold cstring_at. rewrite ltb_false by lia. rewrite Nat2Z.id, drop_app_length.
  rewrite strlen_app by done. bsimp. by rewrite Nat2Z.id, take_app_length.
Qed.
Lemma cstring_at_0 s r : 0 ∉ s -> cstring_at (s ++ 0 :: r) 0 = Some s.
Proof. intros Hs. apply (cstring_at_app [] s r Hs). Qed.

(** Printing behind a text. *)
Lemma snprintf_append T r n x :
  zlen x + 1 <= n -> zlen x <= zlen r -> 
  ∃ r', snprintf (T ++ 0 :: r) (zlen T) n x = Some ((T ++ x) ++ 0 :: r') ∧
    zlen x + zlen r' = zlen r.
Proof.
  intros Hn Hx. unfold snprintf. rewrite leb_false by lia. rewrite take_ge by lia.
  rewrite mwrite_Some by (rewrite ?length_app; cbn [length]; lia).
  exists (drop (length x) r). rewrite Nat2Z.id, take_app_length, length_app. cbn [length].
  replace (length T + (length x + 1))%nat with (length T + S (length x))%nat by lia.
  split; [|rewrite length_drop; lia]. f_equal. rewrite <-!app_assoc. f_equal. f_equal. cbn [app]. f_equal.
  by rewrite drop_app_add.
Qed.

(** ** The state while printing *)

Section print.
Context (show_g : bool -> Z -> bytes) (attrs : bool) (m : bytes) (htyp : Z) (L : Z).
Hypothesis (show_g_text : ∀ b v, 0 ∉ show_g b v).
Hypothesis (same_order : DLT_IS_HTYP_MSBF htyp = false).
Hypothesis (L_int : L < 2147483648).

(** [A] is consumed, [R] is left, [T] is printed into a text of [L] bytes. *)
Record state (s : cursor) (A R T : bytes) : Prop := {
  s_payload : m = A ++ R;
  s_ptr : ptr s = zlen A;
  s_left : datalength s = zlen R;
  s_text : ∃ r, text s = T ++ 0 :: r ∧ zlen T + 1 + zlen r = L;
  s_string : 0 ∉ T
}.

(** A step that consumes [d] and prints [x]. *)
Definition step {B} (c : M B) (b : B) (s : cursor) (A d R T x : bytes) : Prop :=
  ∃ s', c s = Some (s', Some b) ∧ state s' (A ++ d) R (T ++ x).

Lemma bind_run {B C} (c : M B) (k : B -> M C) s s' b :
  c s = Some (s', Some b) -> bind c k s = k b s'.
Proof. intros E. unfold bind. by rewrite E. Qed.

Lemma step_ret {B} (b : B) s A R T : state s A R T -> step (ret b) b s A [] R T [].
Proof. intros H. exists s. split; [done|]. by rewrite !app_nil_r. Qed.

Lemma step_read_value d s A R T :
  state s A (d ++ R) T -> step (read_value m (length d)) (le_Z d) s A d R T [].
Proof.
  intros [Hm Hp Hd Ht Hz]. unfold step, read_value. rewrite Hd, Hp, length_app.
  rewrite !ltb_false by lia. cbn [orb]. rewrite Hm, (mread_mid A d R) by done. bsimp.
  eexists. split; [reflexivity|]. rewrite app_nil_r. split; cbn [ptr datalength text]; try done.
  - by rewrite Hm, app_assoc.
  - rewrite length_app. lia.
  - lia.
Qed.

Lemma step_read_le n v s A R T :
  state s A (le_bytes n v ++ R) T ->
  step (read_value m n) (v mod 256 ^ Z.of_nat n) s A (le_bytes n v) R T [].
Proof. intros H. apply step_read_value in H. by rewrite length_le_bytes, le_Z_le_bytes_mod in H. Qed.

Lemma step_read_u16 v s A R T :
  0 <= v < 65536 -> state s A (le_bytes 2 v ++ R) T -> step (read_u16 m htyp) v s A (le_bytes 2 v) R T [].
Proof.
  intros Hv H. unfold step, read_u16. destruct (step_read_le 2 v s A R T H) as (s1 & E1 & H1).
  rewrite (bind_run _ _ _ _ _ E1). unfold DLT_ENDIAN_GET_16. rewrite same_order. unfold DLT_LETOH_16.
  change (256 ^ Z.of_nat 2) with 65536. rewrite (Z.mod_small v) by lia. cint. by exists s1.
Qed.

Lemma step_skip d s A R T : state s A (d ++ R) T -> step (skip (zlen d)) tt s A d R T [].
Proof.
  intros [Hm Hp Hd Ht Hz]. eexists. split; [reflexivity|]. rewrite app_nil_r.
  split; cbn [ptr datalength text]; try done.
  - by rewrite Hm, app_assoc.
  - rewrite length_app. lia.
  - rewrite Hd, length_app. lia.
Qed.

Lemma step_need n s A R T : state s A R T -> n <= zlen R -> step (need n) tt s A [] R T [].
Proof.
  intros H Hn. exists s. unfold need, bind, remaining. bsimp. rewrite (s_left _ _ _ _ H).
  rewrite ltb_false by lia. rewrite !app_nil_r. done.
Qed.

Lemma step_here s A R T : state s A R T -> step here (zlen A) s A [] R T [].
Proof. intros H. exists s. unfold here. rewrite (s_ptr _ _ _ _ H), !app_nil_r. done. Qed.

(** Printing [x] behind [T]. *)
Lemma step_print n x s A R T :
  state s A R T -> 0 ∉ x -> zlen x + 1 <= n -> zlen T + zlen x + 1 <= L ->
  step (print_at (zlen T) n x) tt s A [] R T x.
Proof.
  intros [Hm Hp Hd (r & Ht & Hr) Hz] Hx Hn Hl. unfold step, print_at, on_text. rewrite Ht.
  destruct (snprintf_append T r n x Hn) as (r' & -> & Hr'); [lia|]. bsimp.
  eexists. split; [reflexivity|]. rewrite app_nil_r. split; cbn [ptr datalength text]; try done.
  - exists r'. split; [done|]. rewrite length_app. lia.
  - rewrite not_elem_of_app. done.
Qed.

(** Runs the next computation by its [step] lemma. *)
Ltac exec lem :=
  let s := fresh "s" in let E := fresh "E" in let H := fresh "H" in
  destruct lem as (s & E & H); [..|rewrite (bind_run _ _ _ _ _ E); clear E; rewrite ?app_nil_r in H].

(** ** Names and units *)

Definition name_text (n : option bytes) : bytes :=
  match n with Some (c :: n) => if attrs then (c :: n) ++ [58] else [] | _ => [] end.
Definition unit_text (n : option bytes) : bytes :=
  match n with Some (c :: n) => if attrs then 58 :: c :: n else [] | _ => [] end.
Definition wf_attr (n : option bytes) : Prop :=
  match n with Some n => (0 ∉ n) ∧ zlen n < 65535 | None => True end.

Lemma attr_size_wf n : wf_attr n -> attr_size n = match n with Some n => zlen n + 1 | None => 0 end.
Proof. destruct n as [n|]; [|done]. intros [_ Hn]. unfold attr_size. by cint. Qed.
Lemma attr_bytes_wf n : wf_attr n -> attr_bytes n = match n with Some n => n ++ [0] | None => [] end.
Proof.
  intros H. pose proof (attr_size_wf n H) as Ha. destruct n as [n|]; [|done]. unfold attr_bytes. rewrite Ha.
  apply take_ge. rewrite length_app. cbn [length]. lia.
Qed.

Lemma colon_nonzero n : 0 ∉ n -> 0 ∉ n ++ [58].
Proof.
  intros H. rewrite not_elem_of_app. split; [done|]. apply not_elem_of_cons. split; [lia|apply not_elem_of_nil].
Qed.

Lemma name_text_nonzero n : wf_attr n -> 0 ∉ name_text n.
Proof.
  destruct n as [[|c n]|]; cbn [name_text]; try (intros; apply not_elem_of_nil).
  intros [H _]. case_match; [by apply colon_nonzero|apply not_elem_of_nil].
Qed.

(** The size that is left behind a name, off by [minus] when there is one. *)
Definition left_after (T : bytes) (n : option bytes) (minus : Z) : Z :=
  L - zlen (T ++ name_text n) + (if name_text n is [] then 0 else minus).

Lemma step_print_name n minus s A R T :
  state s A (attr_bytes n ++ R) T -> wf_attr n -> 0 <= minus <= 1 -> zlen T + zlen (name_text n) + 1 <= L ->
  step (print_name attrs m (zlen T) (L - zlen T) (attr_size n) minus)
    (zlen (T ++ name_text n), left_after T n minus) s A (attr_bytes n) R T (name_text n).
Proof.
  intros H Hw Hmin Hl. unfold step, print_name.
  exec (step_need (attr_size n) s A _ T H). { rewrite length_app, <-zlen_attr_bytes. lia. }
  exec (step_here s0 A _ T H0). clear H0 H.
  assert (step (if attrs && (1 <? attr_size n)
                then bind (on_text (λ t, n ← cstring_at m (zlen A); snprintf t (zlen T) (L - zlen T) (n ++ [58])))
                       (λ _, ret (zlen T + attr_size n, u64 (L - zlen T - (attr_size n - minus))))
                else ret (zlen T, L - zlen T)) (zlen (T ++ name_text n), left_after T n minus)
            s1 A [] (attr_bytes n ++ R) T (name_text n)) as (s2 & E2 & H2).
  { rewrite attr_size_wf by done. unfold left_after. destruct n as [[|c n]|]; cbn [name_text] in *.
    - rewrite andb_false_r, !app_nil_r, Z.add_0_r. by apply step_ret.
    - destruct attrs; cbn [andb].
      2: { rewrite !app_nil_r, Z.add_0_r. by apply step_ret. }
      destruct Hw as [Hz Hn]. cbn [length] in Hn. rewrite ltb_true by (cbn [length]; lia).
      assert (cstring_at m (zlen A) = Some (c :: n)) as Ec.
      { rewrite (s_payload _ _ _ _ H1), attr_bytes_wf by (split; [done|cbn; lia]).
        rewrite <-app_assoc. by apply cstring_at_app. }
      rewrite Ec. unfold step.
      destruct (step_print (L - zlen T) ((c :: n) ++ [58]) s1 A (attr_bytes (Some (c :: n)) ++ R) T H1)
        as (s2 & E2 & H2); [|rewrite length_app in *; cbn [length] in *; lia|lia|].
      { by apply colon_nonzero. }
      rewrite (bind_run _ _ _ _ _ E2). exists s2. split; [|done]. unfold ret. f_equal. f_equal. f_equal.
      rewrite !length_app in *. cbn [length app] in *. cint. f_equal; lia.
    - rewrite andb_false_r, !app_nil_r, Z.add_0_r. by apply step_ret. }
  rewrite (bind_run _ _ _ _ _ E2), app_nil_r in *. rewrite <-zlen_attr_bytes.
  exec (step_skip (attr_bytes n) s2 A R (T ++ name_text n) H2).
  by eexists.
Qed.

Lemma left_after_0 T n : left_after T n 0 = L - zlen (T ++ name_text n).
Proof. unfold left_after. case_match; lia. Qed.

(** The unit that was found at [src]. *)
Definition unit_at (un : option bytes) (src len : Z) : Prop :=
  match un with
  | Some (c :: u) => len = zlen (c :: u) + 1 ∧ cstring_at m src = Some (c :: u)
  | _ => len <= 1
  end.

Lemma step_name_and_unit ti attr s A R T :
  state s A (varinfo_bytes (both attr) ++ R) T ->
  flag ti DLT_TYPE_INFO_VARI = (if attr is Some _ then true else false) ->
  (let '(n, un) := default (None, None) attr in
   wf_attr n -> wf_attr un -> zlen T + zlen (name_text n) + 1 <= L ->
   ∃ src len, unit_at un src len ∧
     step (name_and_unit attrs m htyp ti (zlen T) (L - zlen T))
       (zlen (T ++ name_text n), L - zlen (T ++ name_text n), src, len) s A (varinfo_bytes (both attr)) R T
       (name_text n)).
Proof.
  intros H Hf. destruct attr as [[n un]|]; cbn [default from_option id both mbind option_bind] in *; intros Hn Hu Hl;
    unfold name_and_unit; rewrite Hf.
  2: { exists 0, 0. split; [cbn; lia|]. cbn [name_text varinfo_bytes]. rewrite app_nil_r. by apply step_ret. }
  cbn [varinfo_bytes name unit with_unit] in *. rewrite <-!app_assoc in H. unfold step.
  pose proof (attr_size_nonneg n). pose proof (attr_size_nonneg un).
  exec (step_read_u16 (attr_size n) s A _ T ltac:(lia) H).
  exec (step_read_u16 (attr_size un) s0 _ _ T ltac:(lia) H2).
  exec (step_print_name n 0 s1 _ (attr_bytes un ++ R) T H3); [done|lia|lia|].
  exec (step_need (attr_size un) s2 _ _ _ H4). { rewrite length_app, <-zlen_attr_bytes. lia. }
  exec (step_here s3 _ _ _ H5).
  rewrite <-(zlen_attr_bytes un). pose proof H6 as Hpay. exec (step_skip (attr_bytes un) s4 _ R _ H6).
  set (A' := ((A ++ le_bytes 2 (attr_size n)) ++ le_bytes 2 (attr_size un)) ++ attr_bytes n) in *.
  exists (zlen A'), (zlen (attr_bytes un)). split.
  - rewrite zlen_attr_bytes, attr_size_wf by done. unfold unit_at. destruct un as [[|c u]|]; [cbn; lia| |lia].
    split; [done|]. rewrite (s_payload _ _ _ _ Hpay), attr_bytes_wf by done. rewrite <-app_assoc.
    apply cstring_at_app. apply Hu.
  - exists s5. rewrite left_after_0, (zlen_attr_bytes un). split; [done|]. subst A'. by rewrite <-!app_assoc in *.
Qed.

Lemma step_print_unit un src len v T s A R :
  state s A R (T ++ v) -> unit_at un src len -> wf_attr un -> zlen (T ++ v) + zlen (unit_text un) + 1 <= L ->
  step (print_unit attrs m (zlen T) (L - zlen T) src len) tt s A [] R (T ++ v) (unit_text un).
Proof.
  intros H Hu Hw Hl. unfold step, print_unit. unfold bind at 1. unfold remaining at 1. bsimp.
  rewrite (s_left _ _ _ _ H). rewrite (ltb_false (zlen R) 0) by lia. unfold unit_at, unit_text in *.
  destruct un as [[|c u]|]; [| |].
  1, 3: rewrite ltb_false by lia; rewrite andb_false_r; by apply step_ret.
  destruct attrs; cbn [andb]; [|by apply step_ret]. destruct Hu as [-> Hc]. destruct Hw as [Hz _].
  rewrite ltb_true by (cbn [length]; lia). unfold on_text. rewrite Hc.
  destruct H as [Hm Hp Hd (r & Ht & Hr) Hz']. rewrite Ht, <-app_assoc.
  pose proof Hz' as [HzT Hzv]%not_elem_of_app.
  rewrite cstring_at_app by done. bsimp. rewrite app_assoc.
  replace (zlen T + zlen v) with (zlen (T ++ v)) by (rewrite length_app; lia). rewrite length_app in Hr, Hl.
  destruct (snprintf_append (T ++ v) r (u64 (L - zlen T - zlen v)) (58 :: c :: u)) as (r' & -> & Hr');
    [cint; cbn [length] in *; lia|cbn [length] in *; lia|].
  bsimp. eexists. split; [reflexivity|]. rewrite app_nil_r. split; cbn [ptr datalength text]; try done.
  - exists r'. split; [done|]. rewrite !length_app. lia.
  - rewrite not_elem_of_app. split; [done|]. apply not_elem_of_cons. split; [lia|done].
Qed.

(** ** Values *)

(** Reading a number and printing it. *)
Lemma step_read_print k v n (f : Z -> bytes) x s A R T :
  state s A (le_bytes k v ++ R) T -> f (v mod 256 ^ Z.of_nat k) = x ->
  0 ∉ x -> zlen x + 1 <= n -> zlen T + zlen x + 1 <= L ->
  step (bind (read_value m k) (λ v, print_at (zlen T) n (f v))) tt s A (le_bytes k v) R T x.
Proof.
  intros H <- Hx Hn Hl. unfold step. exec (step_read_le k v s A R T H).
  destruct (step_print n (f (v mod 256 ^ Z.of_nat k)) s0 _ R T H0 Hx Hn Hl) as (s1 & E1 & H1).
  exists s1. rewrite app_nil_r in H1. done.
Qed.

Definition in_range (signed : bool) (w : width) (v : Z) : Prop :=
  let h := 2 ^ (8 * Z.of_nat (nbytes w) - 1) in
  if signed then - h <= v < h else 0 <= v < 2 * h.

Lemma unsigned_back k v : 0 <= v < 256 ^ Z.of_nat k -> v mod 256 ^ Z.of_nat k = v.
Proof. intros. by apply Z.mod_small. Qed.

Lemma endian_16 v : 0 <= v < 65536 -> u16 (DLT_ENDIAN_GET_16 htyp v) = v.
Proof. intros. unfold DLT_ENDIAN_GET_16. rewrite same_order. unfold DLT_LETOH_16. by cint. Qed.
Lemma endian_32 v : 0 <= v < 4294967296 -> u32 (DLT_ENDIAN_GET_32 htyp v) = v.
Proof. intros. unfold DLT_ENDIAN_GET_32. rewrite same_order. unfold DLT_LETOH_32. by cint. Qed.
Lemma endian_64 v : 0 <= v < 18446744073709551616 -> u64 (DLT_ENDIAN_GET_64 htyp v) = v.
Proof. intros. unfold DLT_ENDIAN_GET_64. unfold DLT_IS_HTYP_MSBF in same_order. rewrite same_order. by cint. Qed.

(** What is read back from the bytes of a number. *)
Lemma signed_back b k v :
  0 < b -> 256 ^ Z.of_nat k = 2 ^ b -> - 2 ^ (b - 1) <= v < 2 ^ (b - 1) ->
  wraps b (v mod 256 ^ Z.of_nat k) = v.
Proof. intros Hb Hk Hv. rewrite Hk. change (v mod 2 ^ b) with (wrapu b v). rewrite wraps_wrapu by done. by apply wraps_small. Qed.

Lemma step_int_value ti w v signed n s A R T :
  state s A (le_bytes (nbytes w) v ++ R) T ->
  Z.land ti DLT_TYPE_INFO_TYLE = tyle w -> flag ti DLT_TYPE_INFO_SINT = signed -> in_range signed w v ->
  zlen (dec v) + 1 <= n -> zlen T + zlen (dec v) + 1 <= L ->
  step (int_value m htyp ti (zlen T) n) tt s A (le_bytes (nbytes w) v) R T (dec v).
Proof.
  intros H Ht Hs Hr Hn Hl. unfold int_value. rewrite Ht, Hs. cbv zeta.
  assert (0 <= v mod 256 ^ Z.of_nat (nbytes w) < 256 ^ Z.of_nat (nbytes w)) as Hm
    by (apply Z.mod_pos_bound; by destruct w).
  destruct w; cbn [tyle nbytes] in *; cbn [Z.eqb Pos.eqb DLT_TYLE_8BIT DLT_TYLE_16BIT DLT_TYLE_32BIT DLT_TYLE_64BIT];
    cbn in Hr; eapply (step_read_print _ v n (λ v, dec _)); try done; try apply dec_nonzero; cbv beta;
    rewrite ?endian_16, ?endian_32, ?endian_64 by (cbn in *; lia); f_equal;
    destruct signed; try (by apply unsigned_back).
  - by apply (signed_back 8).
  - by apply (signed_back 16).
  - by apply (signed_back 32).
  - by apply (signed_back 64).
Qed.

Lemma step_fixed_point ti s A R T :
  state s A R T -> flag ti DLT_TYPE_INFO_FIXP = false -> step (fixed_point m ti) tt s A [] R T [].
Proof. intros H Hf. unfold fixed_point. rewrite Hf. by apply step_ret. Qed.

Lemma step_float_value ti (dbl : bool) v n s A R T :
  let w := if dbl then W64 else W32 in
  state s A (le_bytes (nbytes w) v ++ R) T ->
  Z.land ti DLT_TYPE_INFO_TYLE = tyle w -> in_range false w v ->
  zlen (show_g dbl v) + 1 <= n -> zlen T + zlen (show_g dbl v) + 1 <= L ->
  step (float_value show_g m htyp ti (zlen T) n) tt s A (le_bytes (nbytes w) v) R T (show_g dbl v).
Proof.
  intros w H Ht Hr Hn Hl. unfold float_value. rewrite Ht. cbv zeta.
  destruct dbl; cbn [w tyle nbytes Z.eqb Pos.eqb DLT_TYLE_8BIT DLT_TYLE_16BIT DLT_TYLE_32BIT DLT_TYLE_64BIT] in *;
    cbn in Hr; eapply (step_read_print _ v n (λ v, show_g _ _)); try done; try apply show_g_text; cbv beta;
    rewrite unsigned_back by (cbn; lia); by rewrite ?endian_32, ?endian_64 by lia.
Qed.

(** ** Formatted integers *)

Lemma bin_digits_nonzero n v : 0 ∉ bin_digits n v.
Proof.
  induction n as [|n IH]; cbn [bin_digits]; [apply not_elem_of_nil|]. rewrite !not_elem_of_app. split_and!; [| |done].
  - case_match; [apply not_elem_of_cons; split; [lia|]|]; apply not_elem_of_nil.
  - apply not_elem_of_cons. split; [case_match; lia|apply not_elem_of_nil].
Qed.

(** Integers in hexadecimal and binary format. *)
Definition show_hex (w : width) (v : Z) : bytes := [48; 120] ++ hex_fixed (2 * nbytes w) v.
Definition show_bin (w : width) (v : Z) : bytes := [48; 98] ++ bin_digits (8 * nbytes w) v.

Lemma prefix_nonzero a b x : a <> 0 -> b <> 0 -> 0 ∉ x -> 0 ∉ [a; b] ++ x.
Proof. intros. cbn [app]. rewrite !not_elem_of_cons. done. Qed.

Lemma step_bin_arg ti w v n s A R T :
  w = W8 ∨ w = W16 -> state s A (le_bytes (nbytes w) v ++ R) T ->
  Z.land ti DLT_TYPE_INFO_TYLE = tyle w -> in_range false w v ->
  zlen (show_bin w v) + 1 <= n -> zlen T + zlen (show_bin w v) + 1 <= L ->
  step (bin_arg m ti (zlen T) n) tt s A (le_bytes (nbytes w) v) R T (show_bin w v).
Proof.
  intros Hw H Ht Hr Hn Hl. unfold bin_arg. rewrite Ht. cbv zeta.
  assert (v mod 256 ^ Z.of_nat (nbytes w) = v) as Hv by (apply unsigned_back; destruct w; cbn in *; lia).
  assert (0 ∉ show_bin w v) as Hz by (apply prefix_nonzero; [lia|lia|apply bin_digits_nonzero]).
  destruct Hw as [-> | ->]; cbn [tyle Z.eqb Pos.eqb DLT_TYLE_8BIT DLT_TYLE_16BIT nbytes] in *;
    apply (step_read_print _ v n (λ v, [48; 98] ++ bin_digits _ v)); try done; by rewrite Hv.
Qed.

Lemma le_bytes_halves a b z : le_bytes (a + b) z = le_bytes a z ++ le_bytes b (z / 256 ^ Z.of_nat a).
Proof.
  revert z. induction a as [|a IH]; intros z; cbn [Nat.add le_bytes app].
  { by rewrite Z.div_1_r. }
  rewrite IH, Nat2Z.inj_succ, Z.pow_succ_r by lia.
  pose proof (Z.pow_pos_nonneg 256 (Z.of_nat a) ltac:(lia) ltac:(lia)). by rewrite Z.div_div by lia.
Qed.

Lemma step_hex_arg_32 ti w v n s A R T :
  w <> W64 -> state s A (le_bytes (nbytes w) v ++ R) T ->
  Z.land ti DLT_TYPE_INFO_TYLE = tyle w -> in_range false w v ->
  zlen (show_hex w v) + 1 <= n -> zlen T + zlen (show_hex w v) + 1 <= L ->
  step (hex_arg m ti (zlen T) n) tt s A (le_bytes (nbytes w) v) R T (show_hex w v).
Proof.
  intros Hw H Ht Hr Hn Hl. unfold hex_arg. rewrite Ht. cbv zeta.
  assert (v mod 256 ^ Z.of_nat (nbytes w) = v) as Hv by (apply unsigned_back; destruct w; cbn in *; lia).
  assert (0 ∉ show_hex w v) as Hz by (apply prefix_nonzero; [lia|lia|apply hex_fixed_nonzero]).
  assert (hex (2 * nbytes w) v = hex_fixed (2 * nbytes w) v) as Hx by (apply hex_small; destruct w; cbn in *; lia).
  unfold show_hex in *. rewrite <-Hx in *.
  destruct w; [| | |done]; cbn [tyle Z.eqb Pos.eqb DLT_TYLE_8BIT DLT_TYLE_16BIT DLT_TYLE_32BIT nbytes] in *;
    apply (step_read_print _ v n (λ v, [48; 120] ++ hex _ v)); try done; by rewrite Hv.
Qed.

(** Reading at a position in the middle of the payload. *)
Lemma read_at s P d Q :
  m = P ++ d ++ Q -> ptr s = zlen P -> zlen d <= datalength s ->
  read_value m (length d) s =
    Some ({| ptr := ptr s + zlen d; datalength := datalength s - zlen d; text := text s |}, Some (le_Z d)).
Proof.
  intros Hm Hp Hd. unfold read_value. rewrite !ltb_false by lia. cbn [orb].
  rewrite Hm, Hp, (mread_mid P d Q) by done. done.
Qed.

(** Text operations leave the position alone. *)
Lemma print_text (T r : bytes) n x s :
  text s = T ++ 0 :: r -> zlen T + 1 + zlen r = L -> zlen x + 1 <= n -> zlen T + zlen x + 1 <= L ->
  ∃ r', on_text (λ t, snprintf t (zlen T) n x) s =
      Some ({| ptr := ptr s; datalength := datalength s; text := (T ++ x) ++ 0 :: r' |}, Some tt) ∧
    zlen (T ++ x) + 1 + zlen r' = L.
Proof.
  intros Ht Hr Hn Hl. unfold on_text. rewrite Ht. destruct (snprintf_append T r n x Hn) as (r' & -> & Hr'); [lia|].
  exists r'. split; [done|]. rewrite length_app. lia.
Qed.

Lemma step_hex_arg_64 ti v s A R T :
  state s A (le_bytes 8 v ++ R) T -> Z.land ti DLT_TYPE_INFO_TYLE = DLT_TYLE_64BIT -> in_range false W64 v ->
  zlen T + zlen (show_hex W64 v) + 1 <= L ->
  step (hex_arg m ti (zlen T) (L - zlen T)) tt s A (le_bytes 8 v) R T (show_hex W64 v).
Proof.
  intros [Hm Hp Hd (r & Ht & Hr) Hz] Hti Hv Hl. cbn in Hv. unfold step, hex_arg. rewrite Hti. cbv zeta.
  cbn [Z.eqb Pos.eqb DLT_TYLE_8BIT DLT_TYLE_16BIT DLT_TYLE_32BIT DLT_TYLE_64BIT].
  assert (show_hex W64 v = ([48; 120] ++ hex_fixed 8 (v / 4294967296)) ++ hex_fixed 8 (v mod 4294967296)) as Es.
  { unfold show_hex. rewrite <-app_assoc. f_equal. apply (hex_fixed_halves 8 8). }
  assert (0 <= v / 4294967296 < 4294967296) as Hhi
    by (split; [apply Z.div_pos; lia|apply Z.div_lt_upper_bound; lia]).
  pose proof (Z.mod_pos_bound v 4294967296 ltac:(lia)) as Hlo.
  set (hi := v / 4294967296) in *. set (lo := v mod 4294967296) in *.
  assert (le_bytes 8 v = le_bytes 4 v ++ le_bytes 4 hi) as E8 by apply (le_bytes_halves 4 4).
  rewrite E8 in *. rewrite <-!app_assoc in Hm. rewrite !length_app, !length_le_bytes in Hd.
  rewrite (bind_run _ _ _ _ tt eq_refl).
  erewrite bind_run by (apply (read_at _ (A ++ le_bytes 4 v) (le_bytes 4 hi) R); cbn [ptr datalength];
    rewrite ?length_app, ?length_le_bytes, <-?app_assoc; (done || lia)).
  rewrite le_Z_le_bytes, hex_small by (cbn; lia). cbn [ptr datalength text].
  rewrite Es in Hl |- *. set (x1 := [48; 120] ++ hex_fixed 8 hi) in *. set (x2 := hex_fixed 8 lo) in *.
  rewrite length_app in Hl.
  assert ((0 ∉ x1) ∧ (0 ∉ x2)) as [Hz1 Hz2].
  { split; [apply prefix_nonzero; [lia|lia|]|]; apply hex_fixed_nonzero. }
  edestruct (print_text T r (L - zlen T) x1) as (r1 & E1 & Hr1); cycle 4.
  { unfold print_at. rewrite (bind_run _ _ _ _ _ E1). rewrite (bind_run _ _ _ _ tt eq_refl).
    erewrite bind_run by (apply (read_at _ A (le_bytes 4 v) (le_bytes 4 hi ++ R)); cbn [ptr datalength];
      rewrite ?length_app, ?length_le_bytes; (done || lia)).
    rewrite le_Z_le_bytes_mod. change (256 ^ Z.of_nat 4) with 4294967296. fold lo.
    rewrite hex_small by (cbn; lia). fold x2. cbn [ptr datalength text].
    assert (cstring_at ((T ++ x1) ++ 0 :: r1) (zlen T) = Some x1) as Ec
      by (rewrite <-app_assoc; by apply cstring_at_app).
    destruct (snprintf_append (T ++ x1) r1 (u64 (L - zlen T - zlen x1)) x2) as (r2 & E2 & Hr2);
      [cint; lia|rewrite length_app in Hr1; lia|]. rewrite length_app, Nat2Z.inj_add in E2.
    erewrite bind_run by (unfold on_text; cbn [text]; rewrite Ec; bsimp; rewrite E2; reflexivity).
    eexists. split; [reflexivity|]. split; cbn [ptr datalength text].
    - by rewrite Hm, <-!app_assoc.
    - rewrite !length_app, !length_le_bytes. lia.
    - rewrite !length_le_bytes. lia.
    - exists r2. rewrite <-!app_assoc in *. split; [done|]. rewrite !length_app in *. lia.
    - rewrite !not_elem_of_app. done. }
  all: cbn [text]; done || lia.
Qed.

(** ** Truth values, raw data and strings *)

Lemma step_bool_arg ti v attr s A R T :
  let vi := n ← attr; Some {| name := n; unit := None; with_unit := false |} in
  let n := default None attr in
  state s A ((varinfo_bytes vi ++ le_bytes 1 v) ++ R) T ->
  flag ti DLT_TYPE_INFO_VARI = (if attr is Some _ then true else false) ->
  wf_attr n -> 0 <= v < 256 -> zlen T + zlen (name_text n ++ dec v) + 1 <= L ->
  step (bool_arg attrs m htyp ti (zlen T) (L - zlen T)) tt s A (varinfo_bytes vi ++ le_bytes 1 v) R T
    (name_text n ++ dec v).
Proof.
  intros vi n H Hf Hw Hv Hl. rewrite length_app in Hl. unfold step, bool_arg. rewrite Hf.
  assert (v mod 256 ^ Z.of_nat 1 = v) as Ev by (apply unsigned_back; cbn; lia).
  destruct attr as [n'|]; cbn [vi n default from_option id mbind option_bind] in *.
  - cbn [varinfo_bytes name unit with_unit attr_bytes] in *. rewrite app_nil_l, app_nil_r in *.
    rewrite <-!app_assoc in H. pose proof (attr_size_nonneg n').
    unfold bind at 1. destruct (step_read_u16 (attr_size n') s A _ T ltac:(lia) H) as (s1 & E1 & H1).
    rewrite (bind_run _ _ _ _ _ E1). rewrite app_nil_r in H1.
    destruct (step_print_name n' 1 s1 _ _ T H1 Hw ltac:(lia) ltac:(lia)) as (s2 & E2 & H2). rewrite E2.
    bsimp. cbn [fst snd].
    destruct (step_read_print 1 v (left_after T n' 1) dec (dec v) s2 _ R _ H2) as (s3 & E3 & H3);
      [by rewrite Ev|apply dec_nonzero| |rewrite length_app; lia|].
    { unfold left_after. rewrite length_app. case_match; lia. }
    exists s3. split; [done|]. by rewrite <-!app_assoc in *.
  - cbn [varinfo_bytes name_text app] in *. rewrite (bind_run _ _ _ _ _ eq_refl). cbn [fst snd].
    destruct (step_read_print 1 v (L - zlen T) dec (dec v) s A R T H) as (s3 & E3 & H3);
      [by rewrite Ev|apply dec_nonzero|cbn in Hl; lia|cbn in Hl; lia|].
    by exists s3.
Qed.

(** Raw data as text. *)
Definition hex_rest (delim : Z) (d : bytes) : bytes := concat ((λ c, delim :: hex_fixed 2 c) <$> d).
Definition hex_text (delim : Z) (d : bytes) : bytes :=
  match d with [] => [] | c :: d => hex_fixed 2 c ++ hex_rest delim d end.

Lemma zlen_hex_rest delim d : zlen (hex_rest delim d) = 3 * zlen d.
Proof.
  induction d as [|c d IH]; [done|]. unfold hex_rest in *. rewrite fmap_cons. cbn [concat length].
  rewrite length_app, Nat2Z.inj_add, IH. cbn [length]. rewrite length_hex_fixed. lia.
Qed.
Lemma zlen_hex_text delim d : zlen (hex_text delim d) = Z.max 0 (3 * zlen d - 1).
Proof.
  destruct d as [|c d]; [done|]. cbn [hex_text length]. rewrite length_app, Nat2Z.inj_add, zlen_hex_rest, length_hex_fixed.
  lia.
Qed.
Lemma hex_rest_nonzero delim d : delim <> 0 -> 0 ∉ hex_rest delim d.
Proof.
  intros Hd. induction d as [|c d IH]; [apply not_elem_of_nil|]. unfold hex_rest in *. rewrite fmap_cons.
  cbn [concat]. rewrite not_elem_of_app, not_elem_of_cons. split_and!; [done|apply hex_fixed_nonzero|done].
Qed.
Lemma hex_text_nonzero delim d : delim <> 0 -> 0 ∉ hex_text delim d.
Proof.
  intros Hd. destruct d as [|c d]; [apply not_elem_of_nil|]. cbn [hex_text]. rewrite not_elem_of_app.
  split; [apply hex_fixed_nonzero|by apply hex_rest_nonzero].
Qed.

Lemma hex_loop_rest delim d T r :
  is_bytes d -> zlen (hex_rest delim d) <= zlen r ->
  ∃ r', hex_loop (T ++ 0 :: r) (zlen T) d delim false = Some ((T ++ hex_rest delim d) ++ 0 :: r') ∧
    zlen (hex_rest delim d) + zlen r' = zlen r.
Proof.
  intros Hd. revert T r. induction Hd as [|c d Hc Hd IH]; intros T r Hr.
  { exists r. cbn. by rewrite app_nil_r. }
  rewrite zlen_hex_rest in Hr. cbn [length] in Hr. cbn [hex_loop].
  destruct (snprintf_append T r 2 [delim]) as (r1 & -> & Hr1); [cbn; lia|cbn [length]; lia|]. bsimp. cbn [length] in Hr1.
  replace (zlen T + 1) with (zlen (T ++ [delim])) by (rewrite length_app; cbn; lia).
  rewrite hex_small by (cbn; lia).
  destruct (snprintf_append (T ++ [delim]) r1 3 (hex_fixed 2 c)) as (r2 & -> & Hr2);
    [rewrite length_hex_fixed; lia|rewrite length_hex_fixed; lia|]. bsimp. rewrite length_hex_fixed in Hr2.
  replace (zlen (T ++ [delim]) + 2) with (zlen ((T ++ [delim]) ++ hex_fixed 2 c))
    by (rewrite !length_app, length_hex_fixed; lia).
  destruct (IH ((T ++ [delim]) ++ hex_fixed 2 c) r2) as (r3 & -> & Hr3); [rewrite zlen_hex_rest; lia|].
  exists r3. unfold hex_rest in *. rewrite fmap_cons. cbn [concat]. rewrite <-!app_assoc. split; [done|].
  rewrite length_app. cbn [length]. rewrite length_hex_fixed. lia.
Qed.

Lemma hex_loop_text delim d T r :
  is_bytes d -> zlen (hex_text delim d) <= zlen r ->
  ∃ r', hex_loop (T ++ 0 :: r) (zlen T) d delim true = Some ((T ++ hex_text delim d) ++ 0 :: r') ∧
    zlen (hex_text delim d) + zlen r' = zlen r.
Proof.
  intros Hd Hr. destruct Hd as [|c d Hc Hd]; [exists r; cbn; by rewrite app_nil_r|].
  cbn [hex_loop hex_text] in *. rewrite length_app, length_hex_fixed in Hr. bsimp. rewrite hex_small by (cbn; lia).
  destruct (snprintf_append T r 3 (hex_fixed 2 c)) as (r2 & -> & Hr2);
    [rewrite length_hex_fixed; lia|rewrite length_hex_fixed; lia|]. bsimp. rewrite length_hex_fixed in Hr2.
  replace (zlen T + 2) with (zlen (T ++ hex_fixed 2 c)) by (rewrite length_app, length_hex_fixed; lia).
  destruct (hex_loop_rest delim d (T ++ hex_fixed 2 c) r2 Hd) as (r3 & -> & Hr3); [lia|].
  exists r3. rewrite <-!app_assoc. split; [done|]. rewrite length_app, length_hex_fixed. lia.
Qed.

(** The optional name of raw data and strings. *)
Lemma step_optional_name ti attr s A R T :
  let b := if attr is Some _ then true else false in
  let n := default None attr in
  state s A (name_bytes b n ++ R) T -> flag ti DLT_TYPE_INFO_VARI = b -> wf_attr n ->
  zlen T + zlen (name_text n) + 1 <= L ->
  step (if flag ti DLT_TYPE_INFO_VARI
        then bind (read_u16 m htyp) (λ length2, print_name attrs m (zlen T) (L - zlen T) length2 0)
        else ret (zlen T, L - zlen T))
    (zlen (T ++ name_text n), L - zlen (T ++ name_text n)) s A (name_bytes b n) R T (name_text n).
Proof.
  intros b n H Hf Hw Hl. rewrite Hf. destruct attr as [n'|]; cbn [b n default from_option id name_bytes] in *.
  - rewrite <-app_assoc in H. pose proof (attr_size_nonneg n'). unfold step.
    exec (step_read_u16 (attr_size n') s A _ T ltac:(lia) H).
    destruct (step_print_name n' 0 s0 _ R T H1 Hw ltac:(lia) Hl) as (s2 & E2 & H2). exists s2.
    rewrite left_after_0 in E2. split; [done|]. by rewrite <-app_assoc in H2.
  - cbn [name_text]. rewrite app_nil_r. by apply step_ret.
Qed.

Lemma step_raw_arg ti d attr s A R T :
  let b := if attr is Some _ then true else false in
  let n := default None attr in
  state s A ((le_bytes 2 (zlen d) ++ name_bytes b n ++ d) ++ R) T ->
  flag ti DLT_TYPE_INFO_VARI = b -> wf_attr n -> is_bytes d -> zlen d < 65536 ->
  zlen T + zlen (name_text n ++ hex_text 39 d) + 1 <= L ->
  step (raw_arg attrs m htyp ti (zlen T) (L - zlen T)) tt s A (le_bytes 2 (zlen d) ++ name_bytes b n ++ d) R T
    (name_text n ++ hex_text 39 d).
Proof.
  intros b n H Hf Hw Hd Hlen Hl. rewrite length_app, Nat2Z.inj_add, zlen_hex_text in Hl. rewrite <-!app_assoc in H.
  unfold step, raw_arg. exec (step_read_u16 (zlen d) s A _ T ltac:(lia) H).
  destruct (step_optional_name ti attr s0 _ (d ++ R) T H0 Hf Hw ltac:(fold n; lia)) as (s1 & E1 & H1). fold n in E1, H1.
  rewrite (bind_run _ _ _ _ _ E1). cbn [fst snd]. exec (step_need (zlen d) s1 _ _ _ H1); [rewrite length_app; lia|].
  pose proof H2 as [Hm Hp Hdl (r & Ht & Hr) Hz]. set (T' := T ++ name_text n) in *.
  assert (zlen T' = zlen T + zlen (name_text n)) as LT by (subst T'; rewrite length_app; lia).
  destruct (hex_loop_text 39 d T' r Hd) as (r' & El & Hr'); [rewrite zlen_hex_text; lia|].
  erewrite bind_run.
  2: { unfold dlt_print_hex_string_delim. cint. rewrite leb_false by lia. rewrite !ltb_false by lia. cbn [orb Z.eqb].
       rewrite Hm, Hp, (mread_mid _ d R) by done. bsimp. rewrite Ht, El. bsimp. reflexivity. }
  cbn [Z.ltb Z.compare DLT_RETURN_OK].
  set (s3 := {| ptr := _; datalength := _; text := _ |}).
  assert (state s3 ((A ++ le_bytes 2 (zlen d)) ++ name_bytes b n) (d ++ R) (T' ++ hex_text 39 d)) as H3.
  { split; cbn [s3 ptr datalength text]; try done.
    - exists r'. split; [done|]. rewrite length_app. lia.
    - rewrite not_elem_of_app. split; [done|]. by apply hex_text_nonzero. }
  destruct (step_skip d s3 _ R _ H3) as (s4 & E4 & H4). exists s4. split; [exact E4|].
  rewrite app_nil_r, <-!app_assoc in H4. subst T'. by rewrite <-!app_assoc in H4.
Qed.

Lemma clean_terminated (s : bytes) : 0 ∉ s -> 0 ∉ clean_char <$> s.
Proof.
  intros Hs (c & Hc & Hin)%list_elem_of_fmap. unfold clean_char in Hc. case_match; [lia|]. by subst c.
Qed.

Lemma clean_string_spec d : dlt_clean_string (Some d) (zlen d) = Some (Some (clean_char <$> d)).
Proof.
  unfold dlt_clean_string. rewrite Nat2Z.id, clean_loop_spec by lia. bsimp.
  by rewrite take_0, drop_0, firstn_all, Nat.add_0_l, drop_all, app_nil_r.
Qed.

Lemma step_string_arg ti x attr s A R T :
  let b := if attr is Some _ then true else false in
  let n := default None attr in
  state s A ((le_bytes 2 (zlen x + 1) ++ name_bytes b n ++ x ++ [0]) ++ R) T ->
  flag ti DLT_TYPE_INFO_VARI = b -> wf_attr n -> 0 ∉ x -> zlen x + 1 < 65536 ->
  zlen T + zlen (name_text n ++ (clean_char <$> x)) + 2 <= L ->
  step (string_arg attrs m htyp ti (zlen T) (L - zlen T) (-1)) tt s A
    (le_bytes 2 (zlen x + 1) ++ name_bytes b n ++ x ++ [0]) R T (name_text n ++ (clean_char <$> x)).
Proof.
  intros b n H Hf Hw Hx Hlen Hl. rewrite length_app, Nat2Z.inj_add, length_fmap in Hl. rewrite <-!app_assoc in H.
  unfold step, string_arg. cbn [Z.ltb Z.compare]. exec (step_read_u16 (zlen x + 1) s A _ T ltac:(lia) H).
  destruct (step_optional_name ti attr s0 _ (x ++ [0] ++ R) T H0 Hf Hw ltac:(fold n; lia)) as (s1 & E1 & H1). fold n in E1, H1.
  rewrite (bind_run _ _ _ _ _ E1). cbn [fst snd].
  pose proof H1 as [Hm Hp Hdl (r & Ht & Hr) Hz]. set (T' := T ++ name_text n) in *.
  assert (zlen T' = zlen T + zlen (name_text n)) as LT by (subst T'; rewrite length_app; lia).
  unfold read_string. rewrite Hdl, !length_app. cbn [length]. rewrite leb_false by lia. rewrite !ltb_false by lia. cbn [orb].
  rewrite Hm, Hp, (app_assoc x [0] R), (mread_mid _ (x ++ [0]) R) by (rewrite ?length_app; cbn [length]; (done || lia)).
  bsimp. replace (zlen x + 1) with (zlen (x ++ [0])) by (rewrite length_app; cbn; lia).
  rewrite clean_string_spec. bsimp. rewrite Ht, fmap_app.
  change (clean_char <$> [0]) with [0]. set (y := clean_char <$> x).
  assert (zlen y = zlen x) as Ly by (subst y; by rewrite length_fmap).
  assert (∃ c0 c1 r', r = c0 ++ c1 :: r' ∧ length c0 = length x) as (c0 & c1 & r' & -> & Lc).
  { destruct (drop (length x) r) as [|c1 r'] eqn:E.
    - apply (f_equal length) in E. rewrite length_drop in E. cbn in E. lia.
    - exists (take (length x) r), c1, r'. rewrite <-E, take_drop. split; [done|]. rewrite length_take. lia. }
  rewrite length_app in Hr. cbn [length] in Hr.
  assert (mwrite (T' ++ 0 :: c0 ++ c1 :: r') (zlen T') (y ++ [0]) = Some (T' ++ (y ++ [0]) ++ c1 :: r')) as E2.
  { change (0 :: c0 ++ c1 :: r') with ((0 :: c0) ++ c1 :: r'). apply mwrite_mid; [done|].
    rewrite length_app. cbn [length]. lia. }
  rewrite E2. bsimp.
  assert (mwrite (T' ++ (y ++ [0]) ++ c1 :: r') (zlen T' + zlen (x ++ [0])) [0] =
          Some (T' ++ (y ++ [0]) ++ 0 :: r')) as ->.
  { change (c1 :: r') with ([c1] ++ r'). change (0 :: r') with ([0] ++ r'). apply mwrite_mid2; [|done].
    rewrite !length_app. lia. }
  bsimp. eexists. split; [reflexivity|].
  replace (zlen (x ++ [0])) with (zlen x + 1) by (rewrite length_app; cbn; lia).
  split; cbn [ptr datalength text].
  - rewrite Hm. by rewrite <-!app_assoc.
  - fold b. rewrite !length_app, !length_le_bytes. cbn [length]. lia.
  - lia.
  - exists (0 :: r'). subst T' y. rewrite <-!app_assoc. split; [done|]. rewrite !length_app in *. cbn [length] in *. lia.
  - subst T'. rewrite app_assoc, not_elem_of_app. split; [done|]. by apply clean_terminated.
Qed.

(** ** Arguments *)

Definition is_hex (t : Z) : bool := (DLT_FORMAT_HEX8 <=? t) && (t <=? DLT_FORMAT_HEX64).
Definition is_bin (t : Z) : bool := (DLT_FORMAT_BIN8 <=? t) && (t <=? DLT_FORMAT_BIN16).

(** The text of an argument. *)
Definition show_arg (a : arg) : bytes :=
  match a with
  | AUint w v attr | ASint w v attr =>
      let '(n, un) := default (None, None) attr in name_text n ++ dec v ++ unit_text un
  | AFloat d v attr =>
      let '(n, un) := default (None, None) attr in name_text n ++ show_g d v ++ unit_text un
  | AFormatted w v t => if is_hex t then show_hex w v else if is_bin t then show_bin w v else dec v
  | ABool v attr => name_text (default None attr) ++ dec v
  | ARaw d t attr => name_text (default None attr) ++ hex_text 39 d
  | AString t x attr => name_text (default None attr) ++ (clean_char <$> x)
  end.

Definition wf_attrs (attr : option (option bytes * option bytes)) : Prop :=
  let '(n, un) := default (None, None) attr in wf_attr n ∧ wf_attr un.

(** Arguments whose values fit their types. *)
Definition printable (a : arg) : Prop :=
  match a with
  | AUint w v attr => in_range false w v ∧ wf_attrs attr
  | ASint w v attr => in_range true w v ∧ wf_attrs attr
  | AFloat d v attr => in_range false (if d then W64 else W32) v ∧ wf_attrs attr
  | AFormatted w v t =>
      in_range false w v ∧ DLT_FORMAT_DEFAULT <= t < DLT_FORMAT_MAX ∧ (is_bin t = true -> w = W8 ∨ w = W16)
  | ABool v attr => 0 <= v < 256 ∧ wf_attr (default None attr)
  | ARaw d t attr =>
      is_bytes d ∧ zlen d < 65536 ∧ DLT_FORMAT_DEFAULT <= t < DLT_FORMAT_MAX ∧ wf_attr (default None attr)
  | AString t x attr => (0 ∉ x) ∧ zlen x + 1 < 65536 ∧ wf_attr (default None attr)
  end.

(** The type info and the rest of the encoding of an argument. *)
Definition vari {B} (attr : option B) (ti : Z) : Z := if attr is Some _ then Z.lor ti DLT_TYPE_INFO_VARI else ti.
Definition type_info_of (a : arg) : Z :=
  match a with
  | AUint w _ attr => vari attr (Z.lor DLT_TYPE_INFO_UINT (tyle w))
  | ASint w _ attr => vari attr (Z.lor DLT_TYPE_INFO_SINT (tyle w))
  | AFloat d _ attr => vari attr (Z.lor DLT_TYPE_INFO_FLOA (if d then DLT_TYLE_64BIT else DLT_TYLE_32BIT))
  | AFormatted w _ t => formatted_type_info (Z.lor DLT_TYPE_INFO_UINT (tyle w)) t
  | ABool _ attr => vari attr (Z.lor DLT_TYPE_INFO_BOOL DLT_TYLE_8BIT)
  | ARaw _ t attr => raw_type_info t (if attr is Some _ then true else false)
  | AString t _ attr => string_type_info t (if attr is Some _ then true else false)
  end.
Definition body_of (a : arg) : bytes :=
  match a with
  | AUint w v attr | ASint w v attr => varinfo_bytes (both attr) ++ le_bytes (nbytes w) v
  | AFloat d v attr => varinfo_bytes (both attr) ++ le_bytes (nbytes (if d then W64 else W32)) v
  | AFormatted w v _ => le_bytes (nbytes w) v
  | ABool v attr =>
      varinfo_bytes (n ← attr; Some {| name := n; unit := None; with_unit := false |}) ++ le_bytes 1 v
  | ARaw d _ attr =>
      le_bytes 2 (zlen d) ++ name_bytes (if attr is Some _ then true else false) (default None attr) ++ d
  | AString _ x attr =>
      le_bytes 2 (zlen x + 1) ++ name_bytes (if attr is Some _ then true else false) (default None attr) ++ x ++ [0]
  end.

Lemma encode_parts a : encode_arg true a = le_bytes 4 (type_info_of a) ++ body_of a.
Proof.
  destruct a as [w v [[? ?]|]|w v [[? ?]|]|[] v [[? ?]|]|w v t|v [?|]|d t [?|]|t x attr];
    cbn [encode_arg type_info_of body_of vari both mbind option_bind]; try reflexivity.
Qed.

Lemma format_cases t :
  DLT_FORMAT_DEFAULT <= t < DLT_FORMAT_MAX -> t ∈ [0; 1; 2; 3; 4; 5; 6].
Proof.
  unfold DLT_FORMAT_DEFAULT, DLT_FORMAT_MAX. intros Ht. rewrite !elem_of_cons. lia.
Qed.
(** All formats, one after the other. *)
Ltac formats Ht :=
  apply format_cases in Ht; rewrite !elem_of_cons, elem_of_nil in Ht;
  repeat (destruct Ht as [->|Ht]); [..|done].
(** Evaluates a test of a type info that is known. *)
Ltac flags := vm_compute; reflexivity.

Definition is_u32 (z : Z) : bool := (0 <=? z) && (z <? 4294967296).
Lemma type_info_range a : printable a -> is_u32 (type_info_of a) = true.
Proof.
  destruct a as [w v attr|w v attr|d v attr|w v t|v attr|d t attr|t x attr]; cbn [printable].
  - intros _. destruct w, attr as [[]|]; flags.
  - intros _. destruct w, attr as [[]|]; flags.
  - intros _. destruct d, attr as [[]|]; flags.
  - intros (_ & Ht & _). formats Ht; destruct w; flags.
  - intros _. destruct attr; flags.
  - intros (_ & _ & Ht & _). formats Ht; destruct attr; flags.
  - intros _. destruct t, attr; flags.
Qed.

(** ** One argument *)

(** The step with the test behind the argument, which prints nothing more. *)
Lemma step_no_unit (c : M ()) s A d R T x :
  step c tt s A d R T x -> zlen (T ++ x) + 1 <= L ->
  step (bind c (λ _, print_unit attrs m (zlen T) (L - zlen T) 0 0)) tt s A d R T x.
Proof.
  intros (s1 & E1 & H1) Hl. unfold step. rewrite (bind_run _ _ _ _ _ E1).
  destruct (step_print_unit None 0 0 x T s1 _ R H1) as (s2 & E2 & H2); [cbn; lia|done|cbn; lia|].
  exists s2. rewrite !app_nil_r in H2. done.
Qed.

Definition not_coded (ti : Z) : Prop :=
  flag ti DLT_TYPE_INFO_STRG = false ∧ flag ti DLT_TYPE_INFO_BOOL = false ∧
  (Z.land ti DLT_TYPE_INFO_SCOD =? DLT_SCOD_BIN) = false ∧ (Z.land ti DLT_TYPE_INFO_SCOD =? DLT_SCOD_HEX) = false.

Lemma int_prints ti w v signed attr s A R T :
  let d := varinfo_bytes (both attr) ++ le_bytes (nbytes w) v in
  let x := let '(n, un) := default (None, None) attr in name_text n ++ dec v ++ unit_text un in
  state s A (d ++ R) T -> not_coded ti -> flag ti DLT_TYPE_INFO_SINT || flag ti DLT_TYPE_INFO_UINT = true ->
  flag ti DLT_TYPE_INFO_FIXP = false -> Z.land ti DLT_TYPE_INFO_TYLE = tyle w -> flag ti DLT_TYPE_INFO_SINT = signed ->
  flag ti DLT_TYPE_INFO_VARI = (if attr is Some _ then true else false) ->
  in_range signed w v -> wf_attrs attr -> zlen T + zlen x + 1 <= L ->
  step (dlt_message_argument_print show_g attrs m htyp ti (zlen T) (L - zlen T) (-1)) tt s A d R T x.
Proof.
  intros d x H (F1 & F2 & F3 & F4) F5 F6 F7 F8 F9 Hv Hw Hl. subst d x. rewrite <-app_assoc in H.
  pose proof (step_name_and_unit ti attr s A _ T H F9) as Hn. unfold wf_attrs in Hw.
  unfold step, dlt_message_argument_print. rewrite F1, F2, F3, F4, F5, !andb_false_r. cbn [andb].
  destruct (default (None, None) attr) as [n un]. destruct Hw as [Hw1 Hw2]. rewrite !length_app in Hl.
  destruct Hn as (src & len & Hu & Hn); [done|done|lia|]. exec Hn.
  exec (step_fixed_point ti s0 _ _ _ H0 F6).
  exec (step_int_value ti w v signed (L - zlen (T ++ name_text n)) s1 _ R _ H1); try done; try (rewrite length_app; lia).
  destruct (step_print_unit un src len (dec v) (T ++ name_text n) s2 _ R H2) as (s3 & E3 & H3);
    [done|done|rewrite !length_app; lia|].
  exists s3. rewrite app_nil_r, <-!app_assoc in H3. done.
Qed.

Lemma float_prints ti (dbl : bool) v attr s A R T :
  let w := if dbl then W64 else W32 in
  let d := varinfo_bytes (both attr) ++ le_bytes (nbytes w) v in
  let x := let '(n, un) := default (None, None) attr in name_text n ++ show_g dbl v ++ unit_text un in
  state s A (d ++ R) T -> not_coded ti -> flag ti DLT_TYPE_INFO_SINT || flag ti DLT_TYPE_INFO_UINT = false ->
  flag ti DLT_TYPE_INFO_FLOA = true -> Z.land ti DLT_TYPE_INFO_TYLE = tyle w ->
  flag ti DLT_TYPE_INFO_VARI = (if attr is Some _ then true else false) ->
  in_range false w v -> wf_attrs attr -> zlen T + zlen x + 1 <= L ->
  step (dlt_message_argument_print show_g attrs m htyp ti (zlen T) (L - zlen T) (-1)) tt s A d R T x.
Proof.
  intros w d x H (F1 & F2 & F3 & F4) F5 F6 F7 F9 Hv Hw Hl. subst d x. rewrite <-app_assoc in H.
  pose proof (step_name_and_unit ti attr s A _ T H F9) as Hn. unfold wf_attrs in Hw.
  unfold step, dlt_message_argument_print. rewrite F1, F2, F3, F4, F5, F6, !andb_false_r. cbn [andb].
  destruct (default (None, None) attr) as [n un]. destruct Hw as [Hw1 Hw2]. rewrite !length_app in Hl.
  destruct Hn as (src & len & Hu & Hn); [done|done|lia|]. exec Hn.
  exec (step_float_value ti dbl v (L - zlen (T ++ name_text n)) s0 _ R _ H0); try done; try (rewrite length_app; lia).
  destruct (step_print_unit un src len (show_g dbl v) (T ++ name_text n) s1 _ R H1) as (s3 & E3 & H3);
    [done|done|rewrite !length_app; lia|].
  exists s3. rewrite app_nil_r, <-!app_assoc in H3. done.
Qed.

Lemma formatted_prints w v t s A R T :
  let a := AFormatted w v t in
  state s A (body_of a ++ R) T -> printable a -> zlen T + zlen (show_arg a) + 2 <= L ->
  step (dlt_message_argument_print show_g attrs m htyp (type_info_of a) (zlen T) (L - zlen T) (-1)) tt s A
    (body_of a) R T (show_arg a).
Proof.
  intros a H (Hv & Ht & Hb) Hl. cbn [a body_of show_arg type_info_of] in *. unfold formatted_type_info.
  fold (is_hex t) (is_bin t) in *. destruct (is_hex t) eqn:Eh; [|destruct (is_bin t) eqn:Eb].
  - unfold dlt_message_argument_print.
    replace (flag _ DLT_TYPE_INFO_STRG) with false by (destruct w; flags).
    replace (flag _ DLT_TYPE_INFO_BOOL) with false by (destruct w; flags).
    replace (flag _ DLT_TYPE_INFO_UINT) with true by (destruct w; flags).
    replace (Z.land _ DLT_TYPE_INFO_SCOD) with DLT_SCOD_HEX by (destruct w; flags).
    cbn [andb Z.eqb Pos.eqb DLT_SCOD_HEX DLT_SCOD_BIN]. apply step_no_unit; [|rewrite length_app; lia].
    destruct (decide (w = W64)) as [->|Hw]; [apply step_hex_arg_64|apply step_hex_arg_32];
      (done || lia || (destruct w; flags)).
  - unfold dlt_message_argument_print. specialize (Hb eq_refl).
    replace (flag _ DLT_TYPE_INFO_STRG) with false by (destruct w; flags).
    replace (flag _ DLT_TYPE_INFO_BOOL) with false by (destruct w; flags).
    replace (flag _ DLT_TYPE_INFO_UINT) with true by (destruct w; flags).
    replace (Z.land _ DLT_TYPE_INFO_SCOD) with DLT_SCOD_BIN by (destruct w; flags).
    cbn [andb Z.eqb Pos.eqb DLT_SCOD_BIN]. apply step_no_unit; [|rewrite length_app; lia].
    apply step_bin_arg; (done || lia || (destruct w; flags)).
  - pose proof (int_prints (Z.lor DLT_TYPE_INFO_UINT (tyle w)) w v false None s A R T) as P.
    cbn [both mbind option_bind varinfo_bytes app default from_option id name_text unit_text] in P.
    rewrite app_nil_r in P.
    apply P; clear P; [exact H|unfold not_coded; split_and!; destruct w; flags|..|exact Hv|split; exact I|lia];
      destruct w; flags.
Qed.

Lemma bool_prints v attr s A R T :
  let a := ABool v attr in
  state s A (body_of a ++ R) T -> printable a -> zlen T + zlen (show_arg a) + 2 <= L ->
  step (dlt_message_argument_print show_g attrs m htyp (type_info_of a) (zlen T) (L - zlen T) (-1)) tt s A
    (body_of a) R T (show_arg a).
Proof.
  intros a H [Hv Hw] Hl. cbn [a body_of show_arg type_info_of] in *. unfold dlt_message_argument_print.
  replace (flag _ DLT_TYPE_INFO_STRG) with false by (destruct attr; flags).
  replace (flag _ DLT_TYPE_INFO_BOOL) with true by (destruct attr; flags).
  cbn [andb]. apply step_no_unit; [|rewrite length_app; lia].
  apply step_bool_arg; [exact H|destruct attr; flags|exact Hw|exact Hv|lia].
Qed.

Definition raw_type (ti : Z) : bool :=
  negb (flag ti DLT_TYPE_INFO_STRG) && negb (flag ti DLT_TYPE_INFO_BOOL) && negb (flag ti DLT_TYPE_INFO_UINT) &&
  negb (flag ti DLT_TYPE_INFO_SINT) && negb (flag ti DLT_TYPE_INFO_FLOA) && flag ti DLT_TYPE_INFO_RAWD.

Lemma raw_type_info_spec t b :
  DLT_FORMAT_DEFAULT <= t < DLT_FORMAT_MAX ->
  raw_type (raw_type_info t b) = true ∧ flag (raw_type_info t b) DLT_TYPE_INFO_VARI = b.
Proof. intros Ht. formats Ht; destruct b; split; flags. Qed.

Lemma raw_prints d t attr s A R T :
  let a := ARaw d t attr in
  state s A (body_of a ++ R) T -> printable a -> zlen T + zlen (show_arg a) + 2 <= L ->
  step (dlt_message_argument_print show_g attrs m htyp (type_info_of a) (zlen T) (L - zlen T) (-1)) tt s A
    (body_of a) R T (show_arg a).
Proof.
  intros a H (Hd & Hlen & Ht & Hw) Hl. cbn [a body_of show_arg type_info_of] in *.
  destruct (raw_type_info_spec t (if attr is Some _ then true else false) Ht) as [Hr Hf].
  generalize dependent (raw_type_info t (if attr is Some _ then true else false)). intros ti Hr Hf.
  unfold raw_type in Hr. rewrite !andb_true_iff, !negb_true_iff in Hr. destruct Hr as [[[[[F1 F2] F3] F4] F5] F6].
  unfold dlt_message_argument_print. rewrite F1, F2, F3, F4, F5, F6. cbn [andb orb].
  apply step_no_unit; [|rewrite length_app; lia].
  apply step_raw_arg; [exact H|exact Hf|exact Hw|exact Hd|exact Hlen|lia].
Qed.

Lemma string_prints t x attr s A R T :
  let a := AString t x attr in
  state s A (body_of a ++ R) T -> printable a -> zlen T + zlen (show_arg a) + 2 <= L ->
  step (dlt_message_argument_print show_g attrs m htyp (type_info_of a) (zlen T) (L - zlen T) (-1)) tt s A
    (body_of a) R T (show_arg a).
Proof.
  intros a H (Hx & Hlen & Hw) Hl. cbn [a body_of show_arg type_info_of] in *. unfold dlt_message_argument_print.
  replace (flag _ DLT_TYPE_INFO_STRG && _) with true by (destruct t, attr; flags).
  apply step_no_unit; [|rewrite length_app; lia].
  apply step_string_arg; [exact H|destruct t, attr; flags|exact Hw|exact Hx|exact Hlen|lia].
Qed.

(** Every argument is printed as its text. *)
Lemma arg_prints a s A R T :
  state s A (body_of a ++ R) T -> printable a -> zlen T + zlen (show_arg a) + 2 <= L ->
  step (dlt_message_argument_print show_g attrs m htyp (type_info_of a) (zlen T) (L - zlen T) (-1)) tt s A
    (body_of a) R T (show_arg a).
Proof.
  destruct a as [w v attr|w v attr|d v attr|w v t|v attr|d t attr|t x attr]; intros H Hp Hl.
  - destruct Hp as [Hv Hw]. cbn [show_arg] in Hl.
    apply (int_prints _ w v false); [exact H|unfold not_coded; split_and!| | | | | |exact Hv|exact Hw|lia];
      destruct w, attr as [[]|]; flags.
  - destruct Hp as [Hv Hw]. cbn [show_arg] in Hl.
    apply (int_prints _ w v true); [exact H|unfold not_coded; split_and!| | | | | |exact Hv|exact Hw|lia];
      destruct w, attr as [[]|]; flags.
  - destruct Hp as [Hv Hw]. cbn [show_arg] in Hl.
    apply (float_prints _ d v); [exact H|unfold not_coded; split_and!| | | | |exact Hv|exact Hw|lia];
      destruct d, attr as [[]|]; flags.
  - by apply formatted_prints.
  - by apply bool_prints.
  - by apply raw_prints.
  - by apply string_prints.
Qed.

(** ** All arguments *)

(** The text of an argument behind [num] others. *)
Definition arg_text (num : nat) (a : arg) : bytes := (if (num =? 0)%nat then [] else [32]) ++ show_arg a.
Fixpoint args_text (num : nat) (l : list arg) : bytes :=
  match l with [] => [] | a :: l => arg_text num a ++ args_text (S num) l end.

(** The blank in front of every argument but the first. *)
Lemma step_blank num s A R T :
  state s A R T -> zlen T + 2 <= L ->
  step (if (num =? 0)%nat then ret tt
        else on_text (λ t, o ← cstring_at t 0; snprintf t (zlen o) (u64 (L - zlen o)) [32])) tt
    s A [] R T (if (num =? 0)%nat then [] else [32]).
Proof.
  intros H Hl. destruct (num =? 0)%nat; [by apply step_ret|].
  destruct H as [Hm Hp Hd (r & Ht & Hr) Hz]. unfold step, on_text. rewrite Ht, cstring_at_0 by done. bsimp. cint.
  destruct (snprintf_append T r (L - zlen T) [32]) as (r' & -> & Hr'); [cbn [length]; lia|cbn [length]; lia|]. bsimp.
  eexists. split; [reflexivity|]. rewrite app_nil_r. split; cbn [ptr datalength text]; try assumption.
  - exists r'. split; [reflexivity|]. rewrite length_app. cbn [length] in *. lia.
  - rewrite not_elem_of_app, not_elem_of_cons. split_and!; [done|lia|apply not_elem_of_nil].
Qed.

Lemma payload_loop_prints l num tmp s A T :
  state s A (concat (encode_arg true <$> l)) T -> Forall printable l ->
  zlen T + zlen (args_text num l) + 2 <= L ->
  step (payload_loop show_g attrs m htyp (length l) num L tmp) tt s A
    (concat (encode_arg true <$> l)) [] T (args_text num l).
Proof.
  revert num tmp s A T. induction l as [|a l IH]; intros num tmp s A T H Hp Hl.
  { by apply step_ret. }
  apply Forall_cons_1 in Hp as [Ha Hp]. rewrite fmap_cons in *. cbn [concat args_text length payload_loop] in *.
  rewrite encode_parts, <-!app_assoc in *. unfold arg_text in *. rewrite !length_app in Hl.
  unfold step. exec (step_blank num s A _ T H ltac:(lia)).
  set (T1 := T ++ _) in H0. assert (zlen T1 = zlen T + zlen (if (num =? 0)%nat then [] else [32])) as LT
    by (subst T1; rewrite length_app; lia).
  pose proof (type_info_range a Ha) as Hti. unfold is_u32 in Hti. rewrite andb_true_iff, Z.leb_le, Z.ltb_lt in Hti.
  destruct (step_read_le 4 _ s0 A _ T1 H0) as (s1 & E1 & H1).
  rewrite unsigned_back in E1 by (cbn; lia). rewrite app_nil_r in H1.
  erewrite bind_run.
  2: { rewrite (s_left _ _ _ _ H0), !ltb_false by (rewrite ?length_app, ?length_le_bytes; lia). cbn [orb].
       rewrite E1. bsimp. reflexivity. }
  assert (DLT_ENDIAN_GET_32 htyp (type_info_of a) = type_info_of a) as ->.
  { unfold DLT_ENDIAN_GET_32. rewrite same_order. unfold DLT_LETOH_32. by cint. }
  destruct (s_text _ _ _ _ H1) as (r1 & Ht1 & Hr1).
  erewrite bind_run by (rewrite Ht1, cstring_at_0 by apply (s_string _ _ _ _ H1); bsimp; reflexivity). cint.
  exec (arg_prints a s1 _ _ T1 H1 Ha ltac:(lia)).
  destruct (IH (S num) (type_info_of a) s2 _ _ H2 Hp) as (s3 & E3 & H3); [rewrite length_app; lia|].
  exists s3. split; [exact E3|]. subst T1. rewrite <-!app_assoc in *. exact H3.
Qed.

End print.

(** ** Logging and printing *)

(** The payload of a list of arguments is printed as the texts of the arguments. *)
Lemma payload_prints show_g attrs htyp l t :
  (∀ b v, 0 ∉ show_g b v) -> DLT_IS_HTYP_MSBF htyp = false -> Forall printable l ->
  zlen (args_text show_g attrs 0 l) + 2 <= zlen t < 2147483648 ->
  let payload := concat (encode_arg true <$> l) in
  ∃ t', payload_arguments show_g attrs payload (zlen payload) htyp (zlen l) t (zlen t) = Some (DLT_RETURN_OK, t') ∧
    length t' = length t ∧ cstring_at t' 0 = Some (args_text show_g attrs 0 l).
Proof.
  intros Hg Ho Hp Ht payload. destruct t as [|c t]; [cbn in Ht; lia|]. unfold payload_arguments.
  assert (mwrite (c :: t) 0 [0] = Some (0 :: t)) as -> by (by apply (mwrite_mid [] [c] [0] t)). bsimp. rewrite Nat2Z.id.
  destruct (payload_loop_prints show_g attrs payload htyp (zlen (c :: t)) Hg Ho ltac:(lia) l 0 0
              {| ptr := 0; datalength := zlen payload; text := 0 :: t |} [] []) as (s & E & H); [|done|cbn [length] in *; lia|].
  { split; cbn [ptr datalength text]; try done; [|apply not_elem_of_nil]. exists t. split; [done|]. cbn. lia. }
  cbn [app] in *. rewrite E. bsimp. eexists. split; [reflexivity|]. destruct (s_text _ _ _ _ _ _ H) as (r & -> & Hr).
  split; [rewrite length_app; cbn [length] in *; lia|]. apply cstring_at_0, (s_string _ _ _ _ _ _ H).
Qed.

Lemma printable_wf a : printable a -> wf_arg a.
Proof. destruct a; cbn [printable wf_arg]; tauto. Qed.

(** C25: Logging a sequence of [printable] arguments that fits into the message
    buffer in verbose mode succeeds, counts them, and writes a payload that
    [dlt_message_payload] prints back as the texts of these arguments in order,
    separated by blanks, with their names and units.  Printable are integers of every
    width and sign in decimal format, unsigned ones of every width in hexadecimal
    format and of 8 and 16 bits in binary format, floating point numbers, truth values,
    raw data and strings without zeros; not printable are unsigned integers of 32 and
    64 bits in binary format, for which the code has no text and leaves the value in the
    payload ([wide_binary_not_read]).  Neither the buffer nor the payload nor the text
    is left. *)
Theorem logged_is_printed show_g attrs htyp u log l t :
  holds u log [] 0 -> ready u -> is_verbose_mode u log = true -> Forall printable l -> zlen l < 2147483647 ->
  zlen (concat (encode_arg true <$> l)) <= log_buf_len u ->
  (∀ b v, 0 ∉ show_g b v) -> DLT_IS_HTYP_MSBF htyp = false ->
  zlen (args_text show_g attrs 0 l) + 2 <= zlen t < 2147483648 ->
  ∃ log' payload t', write_args u log l = Some (replicate (length l) DLT_RETURN_OK, log') ∧
    args_num log' = zlen l ∧ (b ← buffer log'; mread b 0 (size log')) = Some payload ∧
    payload_arguments show_g attrs payload (size log') htyp (args_num log') t (zlen t) = Some (DLT_RETURN_OK, t') ∧
    length t' = length t ∧ cstring_at t' 0 = Some (args_text show_g attrs 0 l).
Proof.
  intros H Hr Hv Hp Hl Hf Hg Ho Ht.
  destruct (write_args_ok u log [] 0 l H Hr ltac:(lia) ltac:(lia)) as (log' & E & H' & _).
  { revert Hp. apply Forall_impl, printable_wf. }
  { rewrite Hv. exact Hf. }
  rewrite Hv in H'. cbn [app] in H'. set (payload := concat (encode_arg true <$> l)) in *.
  destruct (payload_prints show_g attrs htyp l t Hg Ho Hp Ht) as (t' & Ep & Hlen & Hc). fold payload in Ep.
  exists log', payload, t'. destruct H' as [(rest & Hb & Hrest) Hs _ Ha]. rewrite Z.add_0_l in Ha.
  rewrite Hb, Hs, Ha. bsimp. split_and!; try assumption; [reflexivity|]. by apply (mread_mid [] payload rest).
Qed.

Lemma logged_is_printed_witness :
  ∃ log', write_args user64 log64 [AUint W8 42 (Some (Some [116], Some [67])); AString ASCII_STRING [111; 107] None]
          = Some ([0; 0], log') ∧
  ∃ t', payload_arguments (λ _ _, [63]) true (take 25 (default [] (buffer log'))) 25 DLT_HTYP_UEH 2 (replicate 16 1) 16
        = Some (DLT_RETURN_OK, t') ∧ cstring_at t' 0 = Some [116; 58; 52; 50; 58; 67; 32; 111; 107].
Proof.
  destruct (logged_is_printed (λ _ _, [63]) true DLT_HTYP_UEH user64 log64
              [AUint W8 42 (Some (Some [116], Some [67])); AString ASCII_STRING [111; 107] None] (replicate 16 1))
    as (log' & payload & t' & E & Ha & Hb & Hp & _ & Hc).
  - exact holds_log64.
  - split; reflexivity.
  - reflexivity.
  - apply Forall_cons_2; [|apply Forall_cons_2; [|apply Forall_nil_2]]; cbn; split_and!;
      first [lia|by apply (bool_decide_unpack _)|exact I].
  - reflexivity.
  - vm_compute. discriminate.
  - intros b v. by apply (bool_decide_unpack _).
  - reflexivity.
  - split; [vm_compute; discriminate|reflexivity].
  - pose proof E as E'. vm_compute in E'. injection E' as <-. vm_compute in Hb. injection Hb as <-.
    eexists. split; [exact E|]. exists t'. split; [exact Hp|exact Hc].
Defined.

(** ** Accesses outside of the payload and the text *)

(** An unsigned 64-bit integer in hexadecimal format with four to seven bytes
    left in the payload is read past the end of the payload: the length is
    compared with four after the position was moved by four. *)
Theorem hex64_reads_past_payload m ti vt n s :
  Z.land ti DLT_TYPE_INFO_TYLE = DLT_TYLE_64BIT -> 0 <= ptr s -> ptr s + datalength s = zlen m ->
  4 <= datalength s < 8 -> hex_arg m ti vt n s = None.
Proof.
  intros Ht Hp Hm Hd. unfold hex_arg. rewrite Ht. cbn [Z.eqb Pos.eqb DLT_TYLE_8BIT DLT_TYLE_16BIT DLT_TYLE_32BIT DLT_TYLE_64BIT].
  rewrite (bind_run _ _ _ _ tt eq_refl). unfold bind, read_value. cbn [ptr datalength].
  rewrite !ltb_false by lia. cbn [orb]. unfold mread. by rewrite (leb_false (ptr s + 4 + _)), andb_false_r by lia.
Qed.

Lemma hex64_reads_past_payload_witness :
  hex_arg (replicate 12 1) 0x8044 0 100 {| ptr := 6; datalength := 6; text := replicate 100 0 |} = None.
Proof. apply hex64_reads_past_payload; [reflexivity|cbn; lia|reflexivity|cbn; lia]. Defined.

(** A string that is exactly as long as the rest of the text is terminated
    behind the end of the text: [DLT_MSG_READ_STRING] leaves no room for the
    terminator. *)
Theorem read_string_writes_past_text m vt length s :
  0 < length <= datalength s -> 0 <= ptr s -> ptr s + datalength s <= zlen m ->
  0 <= vt -> vt + length = zlen (text s) -> read_string m vt length length s = None.
Proof.
  intros Hl Hp Hm Hv Ht. unfold read_string. rewrite leb_false by lia. rewrite !ltb_false by lia. cbn [orb].
  unfold mread. rewrite !leb_true by lia. cbn [andb]. bsimp. set (d := take _ _).
  assert (length = zlen d) as Ld by (subst d; rewrite length_take, length_drop; lia). rewrite Ld.
  rewrite clean_string_spec. bsimp. rewrite mwrite_Some by (rewrite ?length_fmap; lia). bsimp.
  unfold mwrite. by rewrite (leb_false (vt + _ + _)), andb_false_r
    by (rewrite !length_app, length_take, length_drop, length_fmap; cbn [List.length]; lia).
Qed.

Lemma read_string_writes_past_text_witness :
  read_string [97; 98; 0] 1 3 3 {| ptr := 0; datalength := 3; text := replicate 4 0 |} = None.
Proof. apply read_string_writes_past_text; cbn; lia. Defined.

(** An unsigned integer of 32 or 64 bits in binary format is written by the library, but
    neither printed nor taken from the payload: the next argument is looked for in its
    bytes. *)
Theorem wide_binary_not_read w v t m vt n s : w = W32 ∨ w = W64 -> is_bin t = true -> wf_arg (AFormatted w v t) ->
  bin_arg m (type_info_of (AFormatted w v t)) vt n s = Some (s, Some tt).
Proof.
  intros Hw Hb _. assert (t = DLT_FORMAT_BIN8 ∨ t = DLT_FORMAT_BIN16) as Ht.
  { unfold is_bin in Hb. unfold DLT_FORMAT_BIN8, DLT_FORMAT_BIN16 in *. lia. }
  by destruct Hw as [-> | ->], Ht as [-> | ->].
Qed.

Lemma wide_binary_not_read_witness :
  bin_arg [] (type_info_of (AFormatted W32 5 DLT_FORMAT_BIN8)) 0 10 {| ptr := 0; datalength := 4; text := [] |} =
    Some ({| ptr := 0; datalength := 4; text := [] |}, Some tt).
Proof. apply wide_binary_not_read; [by left|done|done]. Defined.

(** The number 5 in binary format in front of a number 7: neither is printed. *)
Example wide_binary_misprinted :
  let payload := concat (encode_arg true <$> [AFormatted W32 5 DLT_FORMAT_BIN8; AUint W8 7 None]) in
  match payload_arguments (λ _ _, []) false payload (zlen payload) 0 2 (replicate 40 0) 40 with
  | Some (rc, t) => Some (rc, cstring_at t 0)
  | None => None
  end = Some (DLT_RETURN_ERROR, Some [32]).
Proof. by vm_compute. Qed.

End PayloadSpec.
