(* ===== verification/MessageQueue.v ===== *)
(** * What the ring buffer promises to its clients

    The user library keeps messages that could not be sent, the daemon those no
    client has received yet, both in a [DltBuffer].  Their theorems only use this
    interface: a buffer that [holds] a list of messages answers like a queue.
    The ring buffer implements it for messages that fit into its smallest size. *)

From stdpp Require Import base list numbers option.
From Stdlib Require Import ZArith Lia Bool.
From S2P Require Import Prelude RingBuffer RingBufferSpec.
Import RingBuffer RingBufferSpec.

Local Open Scope Z_scope.

Module MessageQueue.

(** [cap] is the length of the longest message the clients store. *)
Class MessageQueue (cap : Z) (holds : DltBuffer -> list bytes -> Prop) := {
  mq_count b q : holds b q -> dlt_buffer_get_message_count b = zlen q;
  mq_copy hp b m q maxs :
    holds b (m :: q) -> maxs <> 0 -> dlt_buffer_copy hp b true maxs = Some (b, zlen m, m);
  mq_copy_empty hp b maxs : holds b [] -> dlt_buffer_copy hp b true maxs = Some (b, DLT_RETURN_ERROR, []);
  mq_remove hp b m q :
    holds b (m :: q) -> ∃ b', dlt_buffer_remove hp b = Some (b', zlen m, []) ∧ holds b' q;
  mq_push3 hp pad b q p1 n1 d1 p2 n2 d2 p3 n3 d3 :
    holds b q -> length pad = 3%nat -> part_ok p1 n1 d1 -> part_ok p2 n2 d2 -> part_ok p3 n3 d3 ->
    zlen (d1 ++ d2 ++ d3) <= cap ->
    ∃ b' rc, dlt_buffer_push3 hp pad b p1 n1 p2 n2 p3 n3 = Some (b', rc) ∧
      (rc = DLT_RETURN_OK ∧ holds b' (q ++ [d1 ++ d2 ++ d3]) ∨ rc = DLT_RETURN_ERROR ∧ holds b' q)
}.

(** The ring buffer with a minimal size of at least [cap + 24]. *)
Definition ring_queue (cap : Z) (b : DltBuffer) (q : list bytes) : Prop :=
  RB b q ∧ cap + 24 <= min_size b.

Lemma ring_queue_config cap b b' q' : cap + 24 <= min_size b -> same_config b b' -> RB b' q' -> ring_queue cap b' q'.
Proof. intros H (Hm & _) HR. split; [done|]. by rewrite Hm. Qed.

#[export] Instance ring_buffer_queue cap : MessageQueue cap (ring_queue cap).
Proof.
  split.
  - intros b q [(r & s & HR) _]. unfold dlt_buffer_get_message_count. by rewrite (rb_shm _ _ _ _ HR), (rb_count _ _ _ _ HR).
  - intros hp b m q maxs [HR _] Hm. destruct (get_RB hp b m q true maxs false HR) as (b' & E & _ & _ & Hb).
    unfold dlt_buffer_copy. rewrite E, Hb by done. rewrite eqb_false by done. done.
  - intros hp b maxs [HR _]. by apply get_empty_RB.
  - intros hp b m q [HR Hc]. destruct (get_RB hp b m q false 0 true HR) as (b' & E & Hcf & HR' & _).
    exists b'. split; [exact E|]. by apply (ring_queue_config cap b).
  - intros hp pad b q p1 n1 d1 p2 n2 d2 p3 n3 d3 [HR Hc] Hpad H1 H2 H3 Hl. pose proof HR as (r & s & HRs).
    pose proof (rb_min _ _ _ _ HRs) as Hmin. pose proof (rb_size _ _ _ _ HRs) as Hsz. unfold sizeof_DltBufferHead in *.
    destruct (push3_RB hp pad b q p1 n1 d1 p2 n2 d2 p3 n3 d3 HR Hpad H1 H2 H3) as (b' & rc & E & Hcf & Hrc); [lia|right; lia|].
    exists b', rc. split; [exact E|].
    destruct Hrc as [(-> & HR' & _)|(-> & HR' & _)]; [left|right]; (split; [done|by apply (ring_queue_config cap b)]).
Qed.

End MessageQueue.
