(* ===== verification/UserShared.v ===== *)
(** * Messages between applications and the daemon ([src/shared/dlt_user_shared.c])

    Every message to the daemon starts with a [DltUserHeader]: a pattern with
    the protocol version and the kind of the message.  [dlt_user_log_out2] and
    [dlt_user_log_out3] write a message with one [writev].

    The operating system is a script of results: the [n]-th [writev] writes
    everything, a part (with whatever [errno] was before) or nothing.  What was
    written is the byte stream [pipe]. *)

From stdpp Require Import base sets list numbers option.
From Stdlib Require Import ZArith Lia Bool.
From S2P Require Import Prelude.

Local Open Scope Z_scope.

Module UserShared.

(** ** Kinds of messages ([dlt_user_shared_cfg.h]) *)

Definition DLT_USER_MESSAGE_LOG : Z := 1.
Definition DLT_USER_MESSAGE_REGISTER_APPLICATION : Z := 2.
Definition DLT_USER_MESSAGE_UNREGISTER_APPLICATION : Z := 3.
Definition DLT_USER_MESSAGE_REGISTER_CONTEXT : Z := 4.
Definition DLT_USER_MESSAGE_UNREGISTER_CONTEXT : Z := 5.
Definition DLT_USER_MESSAGE_LOG_LEVEL : Z := 6.
Definition DLT_USER_MESSAGE_INJECTION : Z := 7.
Definition DLT_USER_MESSAGE_OVERFLOW : Z := 8.
Definition DLT_USER_MESSAGE_APP_LL_TS : Z := 9.
Definition DLT_USER_MESSAGE_LOG_MODE : Z := 11.
Definition DLT_USER_MESSAGE_LOG_STATE : Z := 12.
Definition DLT_USER_MESSAGE_MARKER : Z := 13.
Definition sizeof_DltUserHeader : Z := 8.

(** ** User headers *)

(** The packed bytes of a [DltUserHeader]. *)
Definition DltUserHeader (version message : Z) : bytes := [68; 85; 72; version] ++ le_bytes 4 message.

Definition dlt_user_set_userheader (userheader : bytes) (mtype : Z) : Z * bytes :=
  if mtype <=? 0 then (DLT_RETURN_ERROR, userheader) else (DLT_RETURN_OK, DltUserHeader 1 mtype).

Definition dlt_user_set_userheader_v2 (userheader : bytes) (mtype : Z) : Z * bytes :=
  if mtype <=? 0 then (DLT_RETURN_ERROR, userheader) else (DLT_RETURN_OK, DltUserHeader 2 mtype).

(** The [char] of the pattern are compared with small positive numbers. *)
Definition dlt_user_check_userheader (userheader : option bytes) : option Z :=
  match userheader with
  | None => Some (-1)
  | Some h =>
      p ← mread h 0 4;
      Some (if bool_decide (p = [68; 85; 72; 1]) || bool_decide (p = [68; 85; 72; 2]) then 1 else 0)
  end.

Definition dlt_get_version_from_userheader (userheader : option bytes) : option Z :=
  match userheader with
  | None => Some (-1)
  | Some h => v ← h !! 3%nat; Some (i8 v)
  end.

(** [userheader->message]. *)
Definition userheader_message (h : bytes) : option Z := d ← mread h 4 4; Some (le_Z d).

(** ** Writing *)

Inductive errno := ETIMEDOUT | EBADF | EPIPE | EAGAIN | EOTHER.

(** What one [writev] does: everything, a part of [n] bytes, or an error. *)
Inductive outcome := WriteAll | WriteSome (n : nat) (e : errno) | WriteError (e : errno).

Record world := {
  script : nat -> outcome;
  calls : nat;
  pipe : bytes
}.

(** The number of bytes, [errno], and the stream. *)
Definition writev (w : world) (d : bytes) : Z * errno * world :=
  let done n := {| script := script w; calls := S (calls w); pipe := pipe w ++ take n d |} in
  match script w (calls w) with
  | WriteAll => (zlen d, EOTHER, done (length d))
  | WriteSome n e => (Z.of_nat (Nat.min n (length d)), e, done n)
  | WriteError e => (-1, e, done 0%nat)
  end.

Definition dlt_user_log_out2 (w : world) (handle : Z) (d1 d2 : bytes) : Z * world :=
  if handle <? 0 then (DLT_RETURN_ERROR, w) else
  let '(n, _, w) := writev w (d1 ++ d2) in
  if negb (u32 n =? zlen d1 + zlen d2) then (DLT_RETURN_ERROR, w) else (DLT_RETURN_OK, w).

Definition dlt_user_log_out3 (w : world) (handle : Z) (d1 d2 d3 : bytes) : Z * world :=
  if handle <? 0 then (DLT_RETURN_ERROR, w) else
  let '(n, e, w) := writev w (d1 ++ d2 ++ d3) in
  if negb (u32 n =? zlen d1 + zlen d2 + zlen d3) then
    (match e with
     | ETIMEDOUT | EBADF | EPIPE => DLT_RETURN_PIPE_ERROR
     | EAGAIN => DLT_RETURN_PIPE_FULL
     | EOTHER => DLT_RETURN_ERROR
     end, w)
  else (DLT_RETURN_OK, w).

(** [poll] tells whether [poll] succeeded and reported [POLLOUT]. *)
Definition dlt_user_log_out2_with_timeout (w : world) (poll : option bool) (handle : Z) (d1 d2 : bytes)
  : Z * world :=
  if handle <? 0 then (DLT_RETURN_ERROR, w) else
  match poll with
  | Some true => dlt_user_log_out2 w handle d1 d2
  | _ => (DLT_RETURN_ERROR, w)
  end.

Definition dlt_user_log_out3_with_timeout (w : world) (poll : option bool) (handle : Z) (d1 d2 d3 : bytes)
  : Z * world :=
  if handle <? 0 then (DLT_RETURN_ERROR, w) else
  match poll with
  | Some true => dlt_user_log_out3 w handle d1 d2 d3
  | _ => (DLT_RETURN_ERROR, w)
  end.

(** ** Properties *)

(** The next [writev] writes everything. *)
Definition ready_to_write (w : world) : Prop := script w (calls w) = WriteAll.
(** The stream after a successful write of [d]. *)
Definition wrote (w : world) (d : bytes) : world :=
  {| script := script w; calls := S (calls w); pipe := pipe w ++ d |}.

Lemma out3_ok w handle d1 d2 d3 :
  0 <= handle -> ready_to_write w -> zlen (d1 ++ d2 ++ d3) < 4294967296 ->
  dlt_user_log_out3 w handle d1 d2 d3 = (DLT_RETURN_OK, wrote w (d1 ++ d2 ++ d3)).
Proof.
  intros Hh Hw Hl. unfold dlt_user_log_out3, writev. rewrite ltb_false by lia. rewrite Hw, firstn_all.
  rewrite !length_app in *. cint. by rewrite eqb_true by lia.
Qed.

(** The result tells whether everything was written; what was not announced as
    written is a proper part. *)
Lemma out3_cases w handle d1 d2 d3 :
  zlen (d1 ++ d2 ++ d3) < 4294967295 ->
  ∃ rc w', dlt_user_log_out3 w handle d1 d2 d3 = (rc, w') ∧
    (rc = DLT_RETURN_OK ∧ 0 <= handle ∧ w' = wrote w (d1 ++ d2 ++ d3) ∨
     rc ∈ [DLT_RETURN_ERROR; DLT_RETURN_PIPE_ERROR; DLT_RETURN_PIPE_FULL] ∧
     ∃ n, pipe w' = pipe w ++ take n (d1 ++ d2 ++ d3) ∧ ((n < length (d1 ++ d2 ++ d3))%nat ∨ d1 ++ d2 ++ d3 = [])).
Proof.
  intros Hl. unfold dlt_user_log_out3. destruct (Z.ltb_spec handle 0).
  { do 2 eexists. split; [reflexivity|]. right. split; [set_solver|]. exists 0%nat. rewrite take_0, app_nil_r.
    split; [done|]. destruct (d1 ++ d2 ++ d3); [by right|left; cbn; lia]. }
  set (d := d1 ++ d2 ++ d3) in *. assert (zlen d1 + zlen d2 + zlen d3 = zlen d) as E by (subst d; rewrite !length_app; lia).
  unfold writev. destruct (script w (calls w)) as [|n e|e]; rewrite E; cint.
  - rewrite Z.eqb_refl. cbn [negb]. do 2 eexists. split; [reflexivity|]. left. unfold wrote. rewrite firstn_all. done.
  - destruct (Z.eqb_spec (Z.of_nat (n `min` length d)) (zlen d)); cbn [negb]; do 2 eexists; (split; [reflexivity|]).
    + left. unfold wrote. rewrite take_ge by lia. done.
    + right. split; [destruct e; set_solver|]. exists n. split; [done|]. left. lia.
  - change (u32 (-1)) with 4294967295. rewrite eqb_false by lia. cbn [negb]. do 2 eexists. split; [reflexivity|].
    right. split; [destruct e; set_solver|]. exists 0%nat. split; [done|].
    destruct d; [by right|left; cbn; lia].
Qed.

End UserShared.
