(* ===== verification/UserSend.v ===== *)
(** * Sending messages from the user library ([src/lib/dlt_user.c])

    [dlt_user_log_write_start] opens a message, the writers of [UserLog] fill it
    and [dlt_user_log_write_finish] sends it: [dlt_user_log_send_log] builds the
    headers and writes the message to the daemon, to a file, or into the ring
    buffer when it cannot be written; [dlt_user_log_resend_buffer] sends what the
    ring buffer holds.

    The build is the default one: a FIFO, without shared memory, without trace
    load control.  The recursive mutex is held over every operation.  The
    clocks, the process id, the size of the log file, the result of printing to
    the console, the heap, the uninitialised stack and [dlt_init] (sockets,
    threads and environment variables) are the environment. *)

From stdpp Require Import base list numbers option.
From Stdlib Require Import ZArith Lia Bool.
From S2P Require Import Prelude Protocol Ids RingBuffer Message Filter DltFile UserLog UserShared.
Import Protocol Ids UserLog UserShared.

Local Open Scope Z_scope.

Module UserSend.

Definition DLT_PM_AUTOMATIC : Z := 1.
Definition DLT_PM_FORCE_ON : Z := 2.
Definition DLT_PM_FORCE_OFF : Z := 3.
Definition DLT_AUTO_TIMESTAMP : Z := 0.
Definition DLT_LOG_DEFAULT : Z := -1.
Definition DLT_LOG_OFF : Z := 0.
Definition DLT_LOG_MAX : Z := 7.
Definition DLT_USER_DEFAULT_MSGID : Z := 65535.

Record env := {
  now_sec : Z;
  now_usec : Z;
  uptime : Z;
  getpid : Z;
  fstat : option Z;
  print_ascii : Z;
  heap : allocator;
  pad : bytes;
  dlt_init : DltUser -> Z * DltUser;
  stack : Message.DltMessage;
  stack_bytes : bytes
}.

(** The fields of [dlt_user] that change while sending. *)
Definition set_user (u : DltUser) (reach : bool) (hnd ovf : Z) (sb : RingBuffer.DltBuffer) (rb : bytes) (pid : Z)
  : DltUser :=
  {| init_done := init_done u; freeing := freeing u; file_reach_max := reach; ecuID := ecuID u; ecuID2len := ecuID2len u; appID := appID u;
     appID2len := appID2len u; appID2 := appID2 u; dlt_log_handle := hnd; dlt_is_file := dlt_is_file u;
     filesize_max := filesize_max u; overflow_counter := ovf; user_verbose_mode := user_verbose_mode u;
     use_extended_header_for_non_verbose := use_extended_header_for_non_verbose u;
     with_session_id := with_session_id u; with_timestamp := with_timestamp u; with_ecu_id := with_ecu_id u;
     enable_local_print := enable_local_print u; local_print_mode := local_print_mode u; startup_buffer := sb;
     resend_buffer := rb; log_buf_len := log_buf_len u; local_pid := pid |}.
Definition set_reach u b :=
  set_user u b (dlt_log_handle u) (overflow_counter u) (startup_buffer u) (resend_buffer u) (local_pid u).
Definition set_handle u h :=
  set_user u (file_reach_max u) h (overflow_counter u) (startup_buffer u) (resend_buffer u) (local_pid u).
Definition set_overflow u n :=
  set_user u (file_reach_max u) (dlt_log_handle u) n (startup_buffer u) (resend_buffer u) (local_pid u).
Definition set_startup u sb :=
  set_user u (file_reach_max u) (dlt_log_handle u) (overflow_counter u) sb (resend_buffer u) (local_pid u).
Definition set_resend u rb :=
  set_user u (file_reach_max u) (dlt_log_handle u) (overflow_counter u) (startup_buffer u) rb (local_pid u).
Definition set_pid u pid :=
  set_user u (file_reach_max u) (dlt_log_handle u) (overflow_counter u) (startup_buffer u) (resend_buffer u) pid.

(** The identifiers are four characters: the first one is 0 when there is none. *)
Definition no_id (id : bytes) : option bool := c ← id !! 0%nat; Some (c =? 0).

(** ** Opening and closing a message *)

Definition set_log (log : DltContextData) (h : option DltContext) (b : option bytes) (n lvl args tms id verb : Z)
  : DltContextData :=
  {| handle := h; buffer := b; size := n; log_level := lvl; trace_status := trace_status log; args_num := args;
     use_timestamp := tms; user_timestamp := user_timestamp log; msid := id; verbose_mode := verb |}.

Definition dlt_user_is_logLevel_enabled (handle : option DltContext) (loglevel : Z) : Z :=
  if (loglevel <? DLT_LOG_DEFAULT) || (DLT_LOG_MAX <=? loglevel) then DLT_RETURN_WRONG_PARAMETER else
  match handle with
  | None => DLT_RETURN_WRONG_PARAMETER
  | Some h =>
      match log_level_ptr h with
      | None => DLT_RETURN_WRONG_PARAMETER
      | Some l => if (loglevel <=? l) && negb (loglevel =? DLT_LOG_OFF) then DLT_RETURN_TRUE
                  else DLT_RETURN_LOGGING_DISABLED
      end
  end.

Definition dlt_user_log_init (E : env) (u : DltUser) (h : option DltContext) (log : DltContextData)
  : Z * DltUser * DltContextData :=
  match h with
  | None => (DLT_RETURN_WRONG_PARAMETER, u, log)
  | Some h =>
      let '(ret, u) := if negb (init_done u) then dlt_init E u else (DLT_RETURN_OK, u) in
      if ret <? DLT_RETURN_OK then (ret, u, log)
      else (ret, u, set_log log (Some h) None (size log) (log_level log) (args_num log)
                      (use_timestamp log) (msid log) (verbose_mode log))
  end.

(** [contexts] tells whether the table of contexts was allocated ([dlt_ll_ts]). *)
Definition dlt_user_log_write_start_init (E : env) (u : DltUser) (contexts : bool) (h : option DltContext)
  (log : DltContextData) (loglevel : Z) (is_verbose : bool) : Z * DltUser * DltContextData :=
  let '(rc, u, log) := dlt_user_log_init E u h log in
  if (rc <? DLT_RETURN_OK) || negb contexts then (DLT_RETURN_ERROR, u, log)
  else (DLT_RETURN_TRUE, u, set_log log (handle log) (buffer log) 0 loglevel 0 DLT_AUTO_TIMESTAMP (msid log)
                              (if is_verbose then 1 else 0)).

(** [calloc(n)]. *)
Definition calloc (A : allocator) (n : Z) : option bytes := b ← malloc A n; Some (replicate (length b) 0).

Definition dlt_user_log_write_start_internal (E : env) (u : DltUser) (contexts is_child : bool)
  (h : option DltContext) (log : DltContextData) (loglevel messageid : Z) (is_verbose : bool)
  : option (Z * DltUser * DltContextData) :=
  if (if h is None then true else false) then Some (DLT_RETURN_WRONG_PARAMETER, u, log) else
  if is_child then Some (DLT_RETURN_ERROR, u, log) else
  let ret := dlt_user_is_logLevel_enabled h loglevel in
  if ret =? DLT_RETURN_WRONG_PARAMETER then Some (DLT_RETURN_WRONG_PARAMETER, u, log) else
  if ret =? DLT_RETURN_LOGGING_DISABLED then
    Some (DLT_RETURN_OK, u, set_log log None (buffer log) (size log) (log_level log) (args_num log)
                              (use_timestamp log) (msid log) (verbose_mode log)) else
  let '(ret, u, log) := dlt_user_log_write_start_init E u contexts h log loglevel is_verbose in
  if negb (ret =? DLT_RETURN_TRUE) then Some (ret, u, log) else
  let b := match buffer log with Some _ => None | None => calloc (heap E) (log_buf_len u) end in
  let log := set_log log (handle log) b (size log) (log_level log) (args_num log) (use_timestamp log)
               (msid log) (verbose_mode log) in
  match b with
  | None => Some (DLT_RETURN_ERROR, u, log)
  | Some buf =>
      if negb (is_verbose_mode u log) then
        if log_buf_len u <? 4 then Some (DLT_RETURN_USER_BUFFER_FULL, u, log) else
        buf ← mwrite buf 0 (le_bytes 4 messageid);
        Some (ret, u, set_log log (handle log) (Some buf) 4 (log_level log) (args_num log) (use_timestamp log)
                        messageid (verbose_mode log))
      else Some (ret, u, log)
  end.

Definition dlt_user_log_write_start E u contexts is_child h log loglevel :=
  dlt_user_log_write_start_internal E u contexts is_child h log loglevel DLT_USER_DEFAULT_MSGID true.
Definition dlt_user_log_write_start_id E u contexts is_child h log loglevel messageid :=
  dlt_user_log_write_start_internal E u contexts is_child h log loglevel messageid false.

Definition dlt_user_log_write_start_w_given_buffer (E : env) (u : DltUser) (contexts is_child : bool)
  (h : option DltContext) (log : DltContextData) (loglevel : Z) (buf : option bytes) (sz args : Z)
  : Z * DltUser * DltContextData :=
  match h, buf with
  | Some _, Some b =>
      if (sz <=? 0) || (log_buf_len u <? sz) || (args <=? 0) then (DLT_RETURN_WRONG_PARAMETER, u, log) else
      if is_child then (DLT_RETURN_ERROR, u, log) else
      if user_verbose_mode u =? 0 then (DLT_RETURN_ERROR, u, log) else
      let '(ret, u, log) := dlt_user_log_write_start_init E u contexts h log loglevel true in
      if ret =? DLT_RETURN_TRUE
      then (ret, u, set_log log (handle log) (Some b) (i32 sz) (log_level log) args (use_timestamp log) (msid log)
                      (verbose_mode log))
      else (ret, u, log)
  | _, _ => (DLT_RETURN_WRONG_PARAMETER, u, log)
  end.

(** ** Headers *)

(** [htyp] of a message. *)
Definition htyp_of (u : DltUser) (log : DltContextData) : Z :=
  let h := DLT_HTYP_PROTOCOL_VERSION1 in
  let h := if with_ecu_id u then Z.lor h DLT_HTYP_WEID else h in
  let h := if with_timestamp u then Z.lor h DLT_HTYP_WTMS else h in
  let h := if with_session_id u then Z.lor h DLT_HTYP_WSID else h in
  if is_verbose_mode u log then Z.lor h DLT_HTYP_UEH
  else if use_extended_header_for_non_verbose u then Z.lor h DLT_HTYP_UEH else h.

(** The extended header at offset [o]; [None] inside: [return DLT_RETURN_ERROR]. *)
Definition extended_header (u : DltUser) (log : DltContextData) (ctid : bytes) (mtype o : Z) (hb : bytes)
  : option (option bytes) :=
  let info := if mtype =? DLT_TYPE_LOG then Some (log_level log)
              else if mtype =? DLT_TYPE_NW_TRACE then Some (trace_status log) else None in
  match info with
  | None => Some None
  | Some i =>
      let msin := u8 (Z.lor (Z.shiftl mtype 1) (Z.land (Z.shiftl i 4) DLT_MSIN_MTIN)) in
      let msin := if is_verbose_mode u log then Z.lor msin DLT_MSIN_VERB else msin in
      hb ← mwrite hb o [msin; u8 (args_num log)];
      a ← mread hb (o + 2) 4;
      a ← Filter.set_id a (appID u);
      hb ← mwrite hb (o + 2) a;
      c ← mread hb (o + 6) 4;
      c ← Filter.set_id c ctid;
      hb ← mwrite hb (o + 6) c;
      Some (Some hb)
  end.

(** From [dlt_message_init] to [dlt_message_set_extraparameters]; [None] inside:
    [return DLT_RETURN_ERROR].  The message counter of the context and the cached
    process id advance. *)
Definition standard_headers (E : env) (u : DltUser) (log : DltContextData) (h : DltContext)
  : option (option Message.DltMessage * DltUser * DltContextData) :=
  let '(_, m) := Message.dlt_message_init (stack E) in
  sh ← mread (Message.headerbuffer m) 0 16;
  '(rc, sh) ← DltFile.dlt_set_storageheader sh (Some (ecuID u)) (now_sec E) (now_usec E);
  if rc =? DLT_RETURN_ERROR then Some (None, u, log) else
  hb ← mwrite (Message.headerbuffer m) 0 sh;
  let htyp := htyp_of u log in
  let u := if with_session_id u && (local_pid u =? -1) then set_pid u (getpid E) else u in
  hb ← mwrite hb 16 [htyp; mcnt h];
  let log := set_log log (Some {| contextID := contextID h; log_level_pos := log_level_pos h;
                                  log_level_ptr := log_level_ptr h; mcnt := u8 (mcnt h + 1) |})
               (buffer log) (size log) (log_level log) (args_num log) (use_timestamp log) (msid log)
               (verbose_mode log) in
  let x := Message.headerextra m in
  e ← Filter.set_id (Message.ecu x) (ecuID u);
  let x := {| Message.ecu := e;
              Message.seid := if with_session_id u then u32 (local_pid u) else Message.seid x;
              Message.tmsp := if use_timestamp log =? DLT_AUTO_TIMESTAMP then uptime E else user_timestamp log |} in
  let m := Message.set_pointers (Message.set_headerbuffer (Message.set_headerextra m x) hb) (Some 0) (Some 16) None in
  '(rc, m) ← Message.dlt_message_set_extraparameters m;
  Some (if rc =? DLT_RETURN_ERROR then None else Some m, u, log).

(** The extended header and the length. *)
Definition finish_headers (u : DltUser) (log : DltContextData) (ctid : bytes) (mtype : Z) (m : Message.DltMessage)
  : option (option Message.DltMessage) :=
  htyp ← Message.std_htyp m;
  let o := 20 + DLT_STANDARD_HEADER_EXTRA_SIZE htyp in
  r ← (if DLT_IS_HTYP_UEH htyp then
         r ← extended_header u log ctid mtype o (Message.headerbuffer m);
         Some (hb ← r; Some (Message.set_pointers (Message.set_headerbuffer m hb) (Some 0) (Some 16) (Some o)))
       else Some (Some m));
  match r with
  | None => Some None
  | Some m =>
      let hs := o + (if DLT_IS_HTYP_UEH htyp then sizeof_DltExtendedHeader else 0) in
      let m := Message.set_sizes m hs (Message.datasize m) in
      let tmplen := i32 (hs - sizeof_DltStorageHeader + size log) in
      if (size log <? 0) || (tmplen <? 0) then Some None else
      if 65535 <? u32 tmplen then Some None else
      hb ← mwrite (Message.headerbuffer m) 18 (le_bytes 2 (DLT_HTOBE_16 (u32 tmplen)));
      Some (Some (Message.set_headerbuffer m hb))
  end.

Definition build_headers (E : env) (u : DltUser) (log : DltContextData) (h : DltContext) (mtype : Z)
  : option (option Message.DltMessage * DltUser * DltContextData) :=
  '(m, u, log) ← standard_headers E u log h;
  match m with
  | None => Some (None, u, log)
  | Some m => r ← finish_headers u log (contextID h) mtype m; Some (r, u, log)
  end.

(** ** The ring buffer *)

Definition dlt_user_log_out_error_handling (E : env) (u : DltUser) (d1 d2 d3 : bytes) : option (Z * DltUser) :=
  let msg_size := zlen d1 + zlen d2 + zlen d3 in
  let ret := RingBuffer.dlt_buffer_check_size (startup_buffer u) (i32 msg_size) in
  '(sb, rc) ← RingBuffer.dlt_buffer_push3 (heap E) (pad E) (startup_buffer u)
                (Some d1) (zlen d1) (Some d2) (zlen d2) (Some d3) (zlen d3);
  Some (if rc =? DLT_RETURN_ERROR then DLT_RETURN_BUFFER_FULL else ret, set_startup u sb).

(** The application id is put into messages of version 1 that have none. *)
Definition put_appid (u : DltUser) (rb : bytes) (o : Z) : option bytes :=
  a ← mread rb o 4;
  empty ← no_id a;
  if (empty : bool) then a' ← Filter.set_id a (appID u); mwrite rb o a' else Some rb.
Definition add_appid (u : DltUser) (rb : bytes) : option bytes :=
  ok ← dlt_user_check_userheader (Some rb);
  if ok =? 0 then Some rb else
  k ← userheader_message rb;
  if k =? DLT_USER_MESSAGE_REGISTER_CONTEXT then put_appid u rb sizeof_DltUserHeader
  else if k =? DLT_USER_MESSAGE_LOG
  then put_appid u rb (sizeof_DltUserHeader + sizeof_DltStandardHeader + sizeof_DltStandardHeaderExtra + 2)
  else Some rb.

Definition BASE_HEADER_V2_FIXED_SIZE : Z := 7.
Definition DLT_SIZE_VERBOSE_DATA_MSG : Z := 11.
Definition DLT_SIZE_NONVERBOSE_DATA_MSG : Z := 13.

(** The identifier of an application of version 2 replaces the one in the
    message; [resend_apid] is the array on the stack. *)
Definition add_appid_v2 (E : env) (u : DltUser) (rb : bytes) : option bytes :=
  ok ← dlt_user_check_userheader (Some rb);
  if ok =? 0 then Some rb else
  k ← userheader_message rb;
  let at_offset o :=
    a ← dlt_set_id_v2 (Some (stack_bytes E)) (Some (appID2 u)) (appID2len u);
    a ← a;
    rb ← mwrite rb o [appID2len u];
    if 0 <? appID2len u then d ← mread a 0 (appID2len u); mwrite rb (o + 1) d else Some rb in
  if k =? DLT_USER_MESSAGE_REGISTER_CONTEXT then at_offset sizeof_DltUserHeader
  else if k =? DLT_USER_MESSAGE_LOG then
    at_offset (sizeof_DltUserHeader + BASE_HEADER_V2_FIXED_SIZE
               + (if user_verbose_mode u =? 1 then DLT_SIZE_VERBOSE_DATA_MSG else DLT_SIZE_NONVERBOSE_DATA_MSG)
               + (if with_ecu_id u then ecuID2len u + 1 else 0))
  else Some rb.

(** One round: copy the oldest message, complete it, write it and remove it.
    [None] inside: [return ret]. *)
Definition resend_one (E : env) (patch : bytes -> option bytes) (u : DltUser) (w : world)
  : option (option Z * DltUser * world) :=
  '(sb, sz, d) ← RingBuffer.dlt_buffer_copy (heap E) (startup_buffer u) true (log_buf_len u);
  rb ← mwrite (resend_buffer u) 0 d;
  let u := set_resend (set_startup u sb) rb in
  if 0 <? sz then
    rb ← patch rb;
    let u := set_resend u rb in
    out ← mread rb 0 sz;
    let '(ret, w) := dlt_user_log_out3 w (dlt_log_handle u) out [] [] in
    if ret =? DLT_RETURN_OK then
      '(sb, _, _) ← RingBuffer.dlt_buffer_remove (heap E) (startup_buffer u);
      Some (None, set_startup u sb, w)
    else
      let u := if ret =? DLT_RETURN_PIPE_ERROR then set_handle u (-1) else u in
      Some (Some ret, u, w)
  else Some (None, u, w).

Fixpoint resend_loop (n : nat) (E : env) (patch : bytes -> option bytes) (u : DltUser) (w : world)
  : option (Z * DltUser * world) :=
  match n with
  | O => Some (DLT_RETURN_OK, u, w)
  | S n =>
      '(r, u, w) ← resend_one E patch u w;
      match r with
      | Some ret => Some (ret, u, w)
      | None => resend_loop n E patch u w
      end
  end.

Definition dlt_user_log_resend_buffer (E : env) (u : DltUser) (w : world)
  : option (Z * DltUser * world) :=
  empty ← no_id (appID u);
  if (empty : bool) && (appID2len u =? 0) then Some (0, u, w) else
  let count := RingBuffer.dlt_buffer_get_message_count (startup_buffer u) in
  if empty then resend_loop (Z.to_nat count) E (add_appid u) u w
  else if negb (appID2len u =? 0) then resend_loop (Z.to_nat count) E (add_appid_v2 E u) u w
  else Some (DLT_RETURN_OK, u, w).

(** The buffer of version 2 is on the stack: only its first five bytes are set,
    because [userpayload2.apid] is [NULL]. *)
Definition dlt_user_log_send_overflow (E : env) (u : DltUser) (w : world) : option (Z * world) :=
  if dlt_is_file u then Some (DLT_RETURN_OK, w) else
  empty ← no_id (appID u);
  if negb empty then
    let '(rc, uh) := dlt_user_set_userheader (replicate 8 0) DLT_USER_MESSAGE_OVERFLOW in
    if rc <? DLT_RETURN_OK then Some (DLT_RETURN_ERROR, w) else
    Some (dlt_user_log_out2 w (dlt_log_handle u) uh (replicate 8 0))
  else if negb (appID2len u =? 0) then
    let '(rc, uh) := dlt_user_set_userheader_v2 (replicate 8 0) DLT_USER_MESSAGE_OVERFLOW in
    if rc <? DLT_RETURN_OK then Some (DLT_RETURN_ERROR, w) else
    b ← mread (stack_bytes E) 0 (5 + appID2len u);
    b ← mwrite b 0 (le_bytes 4 (overflow_counter u) ++ [appID2len u]);
    Some (dlt_user_log_out2 w (dlt_log_handle u) uh b)
  else Some (DLT_RETURN_ERROR, w).

(** ** Sending *)

Definition payload_of (log : DltContextData) : option bytes :=
  match buffer log with
  | Some b => mread b 0 (size log)
  | None => if size log =? 0 then Some [] else None
  end.

(** Logging into a file. *)
Definition send_to_file (E : env) (u : DltUser) (w : world) (hdr payload : bytes)
  : option (Z * DltUser * world) :=
  if file_reach_max u then Some (DLT_RETURN_FILESZERR, u, w) else
  match fstat E with
  | None => Some (DLT_RETURN_ERROR, u, w)
  | Some st_size =>
      if filesize_max u <? u32 (u32 st_size + zlen hdr + zlen payload)
      then Some (DLT_RETURN_FILESZERR, set_reach u true, w)
      else let '(ret, w) := dlt_user_log_out2 w (dlt_log_handle u) hdr payload in Some (ret, u, w)
  end.

(** The number of lost messages is announced first. *)
Definition announce_overflow (E : env) (u : DltUser) (w : world) : option (DltUser * world) :=
  if negb (overflow_counter u =? 0) then
    '(rc, w) ← dlt_user_log_send_overflow E u w;
    Some (if rc =? DLT_RETURN_OK then set_overflow u 0 else u, w)
  else Some (u, w).

(** Logging to the daemon: [uh] is the user header, [hdr] the headers without
    the storage header. *)
Definition send_to_daemon (E : env) (u : DltUser) (w : world) (uh hdr payload : bytes)
  : option (Z * DltUser * world) :=
  '(u, w) ← announce_overflow E u w;
  empty ← no_id (appID u);
  '(ret, u, w) ← (if negb (dlt_log_handle u =? -1) && negb empty
                  then dlt_user_log_resend_buffer E u w else Some (DLT_RETURN_OK, u, w));
  let '(ret, w) := if (ret =? DLT_RETURN_OK) && negb empty
                   then dlt_user_log_out3 w (dlt_log_handle u) uh hdr payload else (ret, w) in
  '(process_error_ret, u) ← (if negb (ret =? DLT_RETURN_OK) || empty
                             then dlt_user_log_out_error_handling E u uh hdr payload
                             else Some (DLT_RETURN_OK, u));
  if process_error_ret =? DLT_RETURN_OK then Some (DLT_RETURN_OK, u, w) else
  if process_error_ret =? DLT_RETURN_BUFFER_FULL
  then Some (DLT_RETURN_BUFFER_FULL, set_overflow u (u32 (overflow_counter u + 1)), w) else
  if ret =? DLT_RETURN_PIPE_FULL then Some (DLT_RETURN_PIPE_FULL, u, w)
  else if ret =? DLT_RETURN_PIPE_ERROR then Some (DLT_RETURN_PIPE_ERROR, set_handle u (-1), w)
  else if ret =? DLT_RETURN_ERROR then Some (DLT_RETURN_ERROR, u, w)
  else if ret =? DLT_RETURN_OK then Some (DLT_RETURN_OK, u, w)
  else Some (DLT_RETURN_ERROR, u, w).

(** The return code, and the state behind it. *)
Definition dlt_user_log_send_log (E : env) (u : DltUser) (log : DltContextData) (w : world)
  (mtype : Z) : option (Z * DltUser * DltContextData * world) :=
  if negb (not_freeing u) then Some (DLT_RETURN_ERROR, u, log, w) else
  match handle log with
  | None => Some (DLT_RETURN_WRONG_PARAMETER, u, log, w)
  | Some h =>
      empty ← no_id (contextID h);
      if empty || (mtype <? DLT_TYPE_LOG) || (DLT_TYPE_CONTROL <? mtype)
      then Some (DLT_RETURN_WRONG_PARAMETER, u, log, w) else
      let '(rc, uh) := dlt_user_set_userheader (replicate 8 0) DLT_USER_MESSAGE_LOG in
      if rc <? DLT_RETURN_OK then Some (DLT_RETURN_ERROR, u, log, w) else
      '(m, u, log) ← build_headers E u log h mtype;
      match m with
      | None => Some (DLT_RETURN_ERROR, u, log, w)
      | Some m =>
          if negb (local_print_mode u =? DLT_PM_FORCE_OFF) && negb (local_print_mode u =? DLT_PM_AUTOMATIC)
             && (enable_local_print u || (local_print_mode u =? DLT_PM_FORCE_ON))
             && (print_ascii E =? DLT_RETURN_ERROR)
          then Some (DLT_RETURN_ERROR, u, log, w) else
          payload ← payload_of log;
          '(ret, u, w) ← (if dlt_is_file u then
                            hdr ← mread (Message.headerbuffer m) 0 (Message.headersize m);
                            send_to_file E u w hdr payload
                          else
                            hdr ← mread (Message.headerbuffer m) 16 (Message.headersize m - 16);
                            send_to_daemon E u w uh hdr payload);
          Some (ret, u, log, w)
      end
  end.

(** [dlt_user_free_buffer(&(log->buffer))] frees the buffer and clears the pointer. *)
Definition free_buffer (log : DltContextData) : DltContextData :=
  set_log log (handle log) None (size log) (log_level log) (args_num log) (use_timestamp log) (msid log)
    (verbose_mode log).

Definition dlt_user_log_write_finish (E : env) (u : DltUser) (log : DltContextData) (w : world)
  : option (Z * DltUser * DltContextData * world) :=
  '(ret, u, log, w) ← dlt_user_log_send_log E u log w DLT_TYPE_LOG;
  Some (ret, u, free_buffer log, w).

Definition dlt_user_log_write_finish_w_given_buffer (E : env) (u : DltUser)
  (log : DltContextData) (w : world) : option (Z * DltUser * DltContextData * world) :=
  dlt_user_log_send_log E u log w DLT_TYPE_LOG.

End UserSend.
