(* ===== verification/UserSendSpec.v ===== *)
(** * What the user library sends

    The bytes that [dlt_user_log_send_log] writes are a user header and the
    encoding of the message that was logged; the daemon's parser reads exactly
    this message back, and printing its payload shows the arguments.  A message
    that cannot be written is queued; the queue of an application of version 2 is sent
    in order. *)

From stdpp Require Import base sets list numbers option.
From Stdlib Require Import ZArith Lia Bool.
From S2P Require Import Prelude Protocol Ids RingBuffer RingBufferSpec Message MessageSpec Filter DltFile.
From S2P Require Import MessageQueue UserLog UserLogSpec UserShared Payload PayloadSpec UserSend.
Import Protocol Ids UserLog UserShared UserSend MessageQueue.

Local Open Scope Z_scope.

Module UserSendSpec.

(** ** The message that is meant *)

(** The process id in the session id. *)
Definition pid_of (E : env) (u : DltUser) : Z := if local_pid u =? -1 then getpid E else local_pid u.
Definition msin_of (u : DltUser) (log : DltContextData) : Z :=
  let i := u8 (Z.land (Z.shiftl (log_level log) 4) DLT_MSIN_MTIN) in
  if is_verbose_mode u log then Z.lor i DLT_MSIN_VERB else i.

Definition message_of (E : env) (u : DltUser) (log : DltContextData) (h : DltContext) (payload : bytes)
  : MessageSpec.message :=
  {| MessageSpec.m_htyp := htyp_of u log;
     MessageSpec.m_mcnt := mcnt h;
     MessageSpec.m_ecu := ecuID u;
     MessageSpec.m_seid := if with_session_id u then u32 (pid_of E u) else Message.seid (Message.headerextra (stack E));
     MessageSpec.m_tmsp := if use_timestamp log =? DLT_AUTO_TIMESTAMP then uptime E else user_timestamp log;
     MessageSpec.m_ext := [msin_of u log; u8 (args_num log)] ++ appID u ++ contextID h;
     MessageSpec.m_payload := payload |}.

(** Identifiers, counters and clocks are in their ranges. *)
Record wf_env (E : env) : Prop := {
  we_hb : zlen (Message.headerbuffer (stack E)) = 42;
  we_ecu : length (Message.ecu (Message.headerextra (stack E))) = 4%nat;
  we_seid : 0 <= Message.seid (Message.headerextra (stack E)) < 4294967296;
  we_uptime : 0 <= uptime E < 4294967296;
  we_pad : length (pad E) = 3%nat
}.
Record wf_user (u : DltUser) : Prop := {
  wu_ready : not_freeing u = true;
  wu_ecu : is_id (ecuID u);
  wu_ecu_bytes : is_bytes (ecuID u);
  wu_app : is_id (appID u);
  wu_app_bytes : is_bytes (appID u)
}.
Record wf_log (log : DltContextData) (h : DltContext) (payload : bytes) : Prop := {
  wl_handle : handle log = Some h;
  wl_ctx : is_id (contextID h);
  wl_ctx_bytes : is_bytes (contextID h);
  wl_ctx_set : no_id (contextID h) = Some false;
  wl_mcnt : 0 <= mcnt h < 256;
  wl_tms : 0 <= user_timestamp log < 4294967296;
  wl_payload : payload_of log = Some payload;
  wl_size : size log = zlen payload;
  wl_bytes : is_bytes payload
}.

Lemma htyp_range u log : 32 <= htyp_of u log < 64.
Proof. unfold htyp_of. repeat case_match; vm_compute; split; congruence. Qed.

Lemma set_id_is_id (old i : bytes) : length old = 4%nat -> is_id i -> Filter.set_id old i = Some i.
Proof. intros Ho Hi. unfold Filter.set_id. by rewrite set_id_copy. Qed.

(** The name may be any string of which [dlt_set_id] makes an id. *)
Lemma set_storageheader_string ecu i sec usec sh :
  (∀ old, length old = 4%nat -> Filter.set_id old ecu = Some i) -> length i = 4%nat -> zlen sh = 16 ->
  ∃ sh', DltFile.dlt_set_storageheader sh (Some ecu) sec usec = Some (DLT_RETURN_OK, sh') ∧ zlen sh' = 16.
Proof.
  intros Hi Li Hl. unfold DltFile.dlt_set_storageheader.
  destruct (mwrite_total sh 0 DltFile.storage_pattern) as (h1 & -> & L1); [lia|cbn; lia|]. bsimp.
  destruct (mread_total h1 12 4) as (old & -> & Lo); [lia..|]. bsimp.
  rewrite Hi by lia. bsimp.
  destruct (mwrite_total h1 12 i) as (h2 & -> & L2); [lia..|]. bsimp.
  destruct (mwrite_total h2 4 (le_bytes 4 (u32 sec))) as (h3 & -> & L3); [lia|rewrite length_le_bytes; lia|]. bsimp.
  destruct (mwrite_total h3 8 (le_bytes 4 (u32 usec))) as (h4 & -> & L4); [lia|rewrite length_le_bytes; lia|]. bsimp.
  eexists. split; [done|]. lia.
Qed.
Lemma set_storageheader_total ecu sec usec sh :
  is_id ecu -> zlen sh = 16 -> ∃ sh', DltFile.dlt_set_storageheader sh (Some ecu) sec usec =
    Some (DLT_RETURN_OK, sh') ∧ zlen sh' = 16.
Proof. intros Hi. apply (set_storageheader_string _ ecu); [|by apply is_id_length]. intros old Ho. by apply set_id_is_id. Qed.

Lemma u8_range z : 0 <= u8 z < 256.
Proof. apply wrapu_range. lia. Qed.

Lemma msin_range u log : 0 <= msin_of u log < 256.
Proof.
  unfold msin_of. pose proof (u8_range (Z.land (Z.shiftl (log_level log) 4) DLT_MSIN_MTIN)).
  case_match; [|done]. apply (lor_range 8); [lia|done|done].
Qed.

Section headers.
Context (E : env) (u : DltUser) (log : DltContextData) (h : DltContext) (payload : bytes).
Hypothesis (WE : wf_env E) (WU : wf_user u) (WL : wf_log log h payload).
Let M := message_of E u log h payload.
Hypothesis (Hlen : MessageSpec.message_len M < 65536).

Lemma seid_range : 0 <= MessageSpec.m_seid M < 4294967296.
Proof. cbn. destruct (with_session_id u); [apply (wrapu_range 32); lia|apply we_seid, WE]. Qed.

Lemma message_wf : MessageSpec.wf_message M.
Proof.
  pose proof (htyp_range u log). pose proof (is_id_length _ (wu_ecu _ WU)). pose proof (is_id_length _ (wu_app _ WU)).
  pose proof (is_id_length _ (wl_ctx _ _ _ WL)). pose proof (msin_range u log). pose proof (u8_range (args_num log)).
  pose proof (wl_mcnt _ _ _ WL).
  split.
  - cbn. lia.
  - done.
  - done.
  - apply seid_range.
  - cbn. case_match; [apply WE|apply WL].
  - cbn. rewrite length_app. lia.
  - unfold MessageSpec.encode, MessageSpec.std, MessageSpec.extra, MessageSpec.ext. rewrite !is_bytes_app. split_and!.
    + apply MessageSpec.is_bytes_2; cbn; lia.
    + apply is_bytes_be.
    + case_match; [apply WU|constructor].
    + case_match; [apply is_bytes_be|constructor].
    + case_match; [apply is_bytes_be|constructor].
    + case_match; [|constructor]. cbn [MessageSpec.m_ext M message_of]. rewrite !is_bytes_app. split_and!; [|apply WU|apply WL].
      by apply MessageSpec.is_bytes_2.
    + apply WL.
  - done.
Qed.

Lemma set_storageheader_ok sh :
  zlen sh = 16 -> ∃ sh', DltFile.dlt_set_storageheader sh (Some (ecuID u)) (now_sec E) (now_usec E) =
    Some (DLT_RETURN_OK, sh') ∧ zlen sh' = 16.
Proof. apply set_storageheader_total, WU. Qed.

(** The extended header fills its ten bytes. *)
Lemma extended_header_ok p old rest :
  zlen old = 10 ->
  extended_header u log (contextID h) DLT_TYPE_LOG (zlen p) (p ++ old ++ rest) =
    Some (Some (p ++ MessageSpec.m_ext M ++ rest)).
Proof.
  intros Ho. unfold extended_header. cbn [Z.eqb DLT_TYPE_LOG]. change (Z.shiftl 0 1) with 0. rewrite Z.lor_0_l.
  change (if is_verbose_mode u log then _ else _) with (msin_of u log).
  destruct (split_region old 2 4) as (a & b & c & -> & La & Lb); [lia..|].
  pose proof (is_id_length _ (wu_app _ WU)). pose proof (is_id_length _ (wl_ctx _ _ _ WL)).
  rewrite !length_app in Ho. rewrite <-!app_assoc. cbn [M message_of MessageSpec.m_ext].
  rewrite (mwrite_mid p a) by (cbn [length]; lia). bsimp.
  rewrite (mread_mid2 p [_; _] b) by (cbn [length]; lia). bsimp.
  rewrite set_id_is_id by (apply WU || lia). bsimp.
  rewrite (mwrite_mid2 p [_; _] b) by (cbn [length]; lia). bsimp.
  rewrite (mread_mid3 p [_; _] (appID u) c) by (cbn [length]; lia). bsimp.
  rewrite set_id_is_id by (apply WL || lia). bsimp.
  rewrite (mwrite_mid3 p [_; _] (appID u) c) by (cbn [length]; lia). bsimp. by rewrite <-!app_assoc.
Qed.

(** The state afterwards: the process id is cached, the message counter advances. *)
Definition next_user : DltUser := if with_session_id u && (local_pid u =? -1) then set_pid u (getpid E) else u.
Definition next_log : DltContextData :=
  set_log log (Some {| contextID := contextID h; log_level_pos := log_level_pos h;
                       log_level_ptr := log_level_ptr h; mcnt := u8 (mcnt h + 1) |})
    (buffer log) (size log) (log_level log) (args_num log) (use_timestamp log) (msid log) (verbose_mode log).

Lemma next_same_headers ctid mtype o hb :
  extended_header next_user next_log ctid mtype o hb = extended_header u log ctid mtype o hb.
Proof. unfold next_user. by case_match. Qed.

(** What the standard header and the extra parameters look like in the header buffer. *)
Definition half_built (m : Message.DltMessage) : Prop :=
  ∃ sh o r, Message.headerbuffer m = sh ++ [htyp_of u log; mcnt h] ++ o ++ MessageSpec.extra M ++ r ∧
    zlen sh = 16 ∧ zlen o = 2 ∧ zlen (MessageSpec.extra M) + zlen r = 22 ∧ Message.standardheader m = Some 16.

Lemma half_built_htyp m : half_built m -> Message.std_htyp m = Some (htyp_of u log).
Proof.
  intros (sh & o & r & Hb & Lsh & _ & _ & Hs). unfold Message.std_htyp. rewrite Hs, Hb. bsimp.
  rewrite lookup_app_r by lia. by replace (Z.to_nat 16 - length sh)%nat with 0%nat by lia.
Qed.

Lemma next_seid : (if with_session_id next_user then u32 (local_pid next_user)
                   else Message.seid (Message.headerextra (stack E))) = MessageSpec.m_seid M.
Proof.
  unfold next_user. cbn [M message_of MessageSpec.m_seid]. unfold pid_of.
  destruct (with_session_id u) eqn:Ew; cbn [andb]; [|by rewrite Ew].
  destruct (local_pid u =? -1); cbn; by rewrite Ew.
Qed.

Lemma standard_headers_ok :
  ∃ m, standard_headers E u log h = Some (Some m, next_user, next_log) ∧ half_built m.
Proof.
  pose proof message_wf as WM. pose proof (we_hb _ WE) as Lhb.
  unfold standard_headers, Message.dlt_message_init. cbv zeta.
  cbn [Message.headerbuffer Message.set_pointers Message.set_databuffer Message.set_sizes Message.set_sync Message.headerextra].
  destruct (split_region (Message.headerbuffer (stack E)) 0 16) as (s0 & s1 & r0 & E0 & L0 & L1); [lia..|]. nils.
  cbn [app] in E0. rewrite E0. rewrite (mread_mid [] s1 r0) by (cbn; lia). bsimp.
  destruct (set_storageheader_ok s1 L1) as (sh & -> & Lsh). bsimp. cbn [Z.eqb DLT_RETURN_OK DLT_RETURN_ERROR].
  rewrite (mwrite_mid [] s1 sh r0) by (cbn; lia). bsimp. cbn [app]. fold next_user. fold next_log.
  rewrite E0, length_app in Lhb. pose proof (MessageSpec.length_extra M WM) as Lx.
  pose proof (extra_size_range (MessageSpec.m_htyp M)).
  destruct (split_region r0 2 2) as (o1 & o2 & r1 & -> & Lo1 & Lo2); [lia..|]. rewrite !length_app in Lhb.
  destruct (split_region r1 0 (zlen (MessageSpec.extra M))) as (z & o3 & r3 & -> & Lz & Lo3); [lia..|]. nils.
  cbn [app] in *. rewrite length_app in Lhb.
  rewrite (mwrite_mid sh o1) by (cbn [length]; lia). bsimp.
  rewrite set_id_is_id by (apply WE || (unfold next_user; case_match; apply WU)). bsimp. rewrite next_seid.
  set (m0 := Message.set_pointers _ _ _ _).
  assert (Message.std_htyp m0 = Some (htyp_of u log)) as Hh.
  { unfold Message.std_htyp. cbn [m0 Message.standardheader Message.set_pointers Message.headerbuffer Message.set_headerbuffer].
    bsimp. rewrite lookup_app_r by lia. by replace (Z.to_nat 16 - length sh)%nat with 0%nat by lia. }
  rewrite (MessageSpec.set_extraparameters_spec m0 M (sh ++ [htyp_of u log; mcnt h] ++ o2) o3 r3 WM);
    [|exact Hh| |cbn; by rewrite <-!app_assoc|rewrite !length_app; cbn [length]; lia|lia].
  2: { cbn. f_equal. unfold next_user. by case_match. }
  bsimp. eexists. split; [reflexivity|]. exists sh, o2, r3. rewrite <-!app_assoc. split_and!; [done|lia|lia|lia|done].
Qed.

Lemma finish_headers_ok m :
  half_built m ->
  ∃ m' sh rest, finish_headers next_user next_log (contextID h) DLT_TYPE_LOG m = Some (Some m') ∧
    Message.headerbuffer m' = sh ++ MessageSpec.headers M ++ rest ∧ zlen sh = 16 ∧
    Message.headersize m' = 16 + zlen (MessageSpec.headers M).
Proof.
  intros HB. pose proof message_wf as WM. unfold finish_headers. rewrite (half_built_htyp m HB). bsimp.
  destruct HB as (sh & o & r & Hb & Lsh & Lo & Lr & Hs).
  pose proof (MessageSpec.length_extra M WM) as Lx. pose proof (MessageSpec.length_ext M WM) as Le.
  change (MessageSpec.m_htyp M) with (htyp_of u log) in *. unfold DLT_EXTENDED_SIZE in Le. rewrite <-Lx, <-Le.
  rewrite MessageSpec.length_headers. unfold MessageSpec.message_len in Hlen. cbn [MessageSpec.m_payload M message_of] in Hlen.
  change (size next_log) with (size log). rewrite (wl_size _ _ _ WL).
  assert (∃ m1 r1, (if DLT_IS_HTYP_UEH (htyp_of u log) then
      r ← extended_header next_user next_log (contextID h) DLT_TYPE_LOG (20 + zlen (MessageSpec.extra M)) (Message.headerbuffer m);
      Some (hb ← r; Some (Message.set_pointers (Message.set_headerbuffer m hb) (Some 0) (Some 16)
                            (Some (20 + zlen (MessageSpec.extra M)))))
    else Some (Some m)) = Some (Some m1) ∧
    Message.headerbuffer m1 = sh ++ [htyp_of u log; mcnt h] ++ o ++ MessageSpec.extra M ++ MessageSpec.ext M ++ r1)
    as (m1 & r1 & -> & Hb1).
  { unfold MessageSpec.ext. change (MessageSpec.m_htyp M) with (htyp_of u log).
    pose proof (extra_size_range (htyp_of u log)).
    destruct (DLT_IS_HTYP_UEH (htyp_of u log)); [|exists m, r; split; [done|by cbn [app]]].
    rewrite next_same_headers, Hb. destruct (split_region r 0 10) as (z & oe & r2 & -> & Lz & Loe); [lia..|]. nils. cbn [app].
    pose proof (extended_header_ok (sh ++ [htyp_of u log; mcnt h] ++ o ++ MessageSpec.extra M) oe r2 Loe) as P.
    rewrite !length_app in P. rewrite <-!app_assoc in P. cbn [app length] in P.
    replace (20 + zlen (MessageSpec.extra M)) with (Z.of_nat (length sh + (2 + (length o + length (MessageSpec.extra M))))) by lia.
    cbn [app]. rewrite P. bsimp. do 2 eexists. split; [reflexivity|]. done. }
  bsimp. unfold sizeof_DltStorageHeader. cint. rewrite !ltb_false by lia. cbn [orb].
  cbn [Message.headerbuffer Message.set_sizes]. rewrite Hb1.
  rewrite (mwrite_mid2 sh [_; _] o) by (cbn [length]; rewrite ?length_le_bytes; lia). bsimp.
  do 3 eexists. split; [reflexivity|]. cbn [Message.headerbuffer Message.headersize Message.set_headerbuffer Message.set_sizes].
  split_and!; [|exact Lsh|lia].
  unfold MessageSpec.headers, MessageSpec.std. rewrite <-!app_assoc. unfold DLT_HTOBE_16. rewrite le_bytes_swap_16 by lia.
  do 3 f_equal. f_equal. unfold MessageSpec.message_len. cbn [MessageSpec.m_payload M message_of]. lia.
Qed.

Lemma build_headers_ok :
  ∃ m sh rest, build_headers E u log h DLT_TYPE_LOG = Some (Some m, next_user, next_log) ∧
    Message.headerbuffer m = sh ++ MessageSpec.headers M ++ rest ∧ zlen sh = 16 ∧
    Message.headersize m = 16 + zlen (MessageSpec.headers M).
Proof.
  destruct standard_headers_ok as (m & Es & HB). destruct (finish_headers_ok m HB) as (m' & sh & rest & Ef & H).
  exists m', sh, rest. unfold build_headers. rewrite Es. bsimp. rewrite Ef. bsimp. done.
Qed.

End headers.

(** ** Sending to the daemon *)

Definition LOG_HEADER : bytes := DltUserHeader 1 DLT_USER_MESSAGE_LOG.

Section daemon.
Context {cap : Z} {holds : RingBuffer.DltBuffer -> list bytes -> Prop} `{!MessageQueue cap holds}.

(** The message [d] was written, queued behind [q], or counted as lost. *)
Inductive sent (u : DltUser) (q : list bytes) (w : world) (d : bytes) : Z -> DltUser -> world -> Prop :=
| sent_written : sent u q w d DLT_RETURN_OK u (wrote w d)
| sent_queued rc u' w' n :
    holds (startup_buffer u') (q ++ [d]) -> overflow_counter u' = overflow_counter u ->
    pipe w' = pipe w ++ take n d -> (n < length d)%nat ->
    dlt_log_handle u' = dlt_log_handle u ∨ dlt_log_handle u' = -1 ->
    sent u q w d rc u' w'
| sent_lost u' w' n :
    holds (startup_buffer u') q -> overflow_counter u' = u32 (overflow_counter u + 1) ->
    pipe w' = pipe w ++ take n d -> (n < length d)%nat ->
    dlt_log_handle u' = dlt_log_handle u ->
    sent u q w d DLT_RETURN_BUFFER_FULL u' w'.

Lemma error_handling_cases E u q d1 d2 d3 :
  holds (startup_buffer u) q -> length (pad E) = 3%nat -> zlen (d1 ++ d2 ++ d3) <= cap ->
  ∃ rc sb, dlt_user_log_out_error_handling E u d1 d2 d3 = Some (rc, set_startup u sb) ∧
    (rc ∈ [DLT_RETURN_OK; DLT_RETURN_ERROR] ∧ holds sb (q ++ [d1 ++ d2 ++ d3]) ∨
     rc = DLT_RETURN_BUFFER_FULL ∧ holds sb q).
Proof.
  intros Hq Hp Hl. unfold dlt_user_log_out_error_handling.
  destruct (mq_push3 (heap E) (pad E) _ q _ _ d1 _ _ d2 _ _ d3 Hq Hp (RingBufferSpec.part_ok_some d1) (RingBufferSpec.part_ok_some d2)
    (RingBufferSpec.part_ok_some d3) Hl) as (sb & rc & -> & [[-> H]|[-> H]]); bsimp;
    do 2 eexists; (split; [reflexivity|]).
  - left. split; [|done]. cbn [Z.eqb DLT_RETURN_OK DLT_RETURN_ERROR]. unfold RingBuffer.dlt_buffer_check_size.
    case_match; set_solver.
  - by right.
Qed.

(** An application of version 1 sends nothing from the ring buffer. *)
Lemma resend_nothing E u w : no_id (appID u) = Some false -> appID2len u = 0 ->
  dlt_user_log_resend_buffer E u w = Some (DLT_RETURN_OK, u, w).
Proof. intros Hi H2. unfold dlt_user_log_resend_buffer. rewrite Hi, H2. done. Qed.

Lemma send_to_daemon_cases E u q w uh hdr payload :
  holds (startup_buffer u) q -> length (pad E) = 3%nat -> zlen (uh ++ hdr ++ payload) <= cap -> cap < 4294967295 ->
  uh <> [] -> no_id (appID u) = Some false -> appID2len u = 0 ->
  ∀ u1 w1, announce_overflow E u w = Some (u1, w1) -> startup_buffer u1 = startup_buffer u -> appID u1 = appID u ->
    appID2len u1 = appID2len u ->
  ∃ rc u' w', send_to_daemon E u w uh hdr payload = Some (rc, u', w') ∧ sent u1 q w1 (uh ++ hdr ++ payload) rc u' w'.
Proof.
  intros Hq Hp Hl Hcap Hne Hi H2 u1 w1 Ea Es Ei E2. unfold send_to_daemon. rewrite Ea. bsimp. rewrite Ei, Hi. bsimp.
  cbn [negb]. rewrite andb_true_r.
  assert ((if negb (dlt_log_handle u1 =? -1) then dlt_user_log_resend_buffer E u1 w1 else Some (DLT_RETURN_OK, u1, w1))
          = Some (DLT_RETURN_OK, u1, w1)) as -> by (case_match; [|done]; apply resend_nothing; congruence).
  bsimp. cbn [Z.eqb DLT_RETURN_OK andb].
  destruct (out3_cases w1 (dlt_log_handle u1) uh hdr payload ltac:(lia)) as (rc & w' & -> & [(-> & Hh & ->)|(Hrc & n & Hpipe & Hn)]).
  { cbn [Z.eqb DLT_RETURN_OK negb orb]. do 3 eexists. split; [reflexivity|]. constructor. }
  destruct Hn as [Hn|Hn]; [|destruct uh; done].
  destruct (error_handling_cases E u1 q uh hdr payload ltac:(by rewrite Es) Hp Hl) as (rc2 & sb & E3 & Hrc2).
  rewrite !elem_of_cons, elem_of_nil in Hrc.
  destruct Hrc as [-> |[-> |[-> |[]]]]; cbn [Z.eqb Pos.eqb negb orb DLT_RETURN_ERROR DLT_RETURN_PIPE_ERROR DLT_RETURN_PIPE_FULL];
    rewrite E3; bsimp; destruct Hrc2 as [[Hrc2 Hq']|[-> Hq']].
  all: try (rewrite !elem_of_cons, elem_of_nil in Hrc2; destruct Hrc2 as [-> |[-> |[]]]);
    cbn [Z.eqb Pos.eqb DLT_RETURN_OK DLT_RETURN_ERROR DLT_RETURN_BUFFER_FULL DLT_RETURN_PIPE_FULL DLT_RETURN_PIPE_ERROR];
    do 3 eexists; (split; [reflexivity|]).
  all: first [ by apply (sent_lost _ _ _ _ _ _ n)
             | apply (sent_queued _ _ _ _ _ _ _ n); [exact Hq'|done|exact Hpipe|exact Hn|first [by left|by right]] ].
Qed.

End daemon.

(** ** One message *)

Lemma next_user_same E u : let v := next_user E u in
  startup_buffer v = startup_buffer u ∧ appID v = appID u ∧ appID2len v = appID2len u ∧
  overflow_counter v = overflow_counter u ∧ dlt_log_handle v = dlt_log_handle u ∧ dlt_is_file v = dlt_is_file u.
Proof. unfold next_user. by case_match. Qed.

(** Announcing lost messages always returns. *)
Lemma announce_total E u w :
  no_id (appID u) = Some false ->
  ∃ u1 w1, announce_overflow E u w = Some (u1, w1) ∧ startup_buffer u1 = startup_buffer u ∧ appID u1 = appID u ∧
    appID2len u1 = appID2len u ∧ (overflow_counter u = 0 -> u1 = u ∧ w1 = w).
Proof.
  intros Hi. unfold announce_overflow. destruct (Z.eqb_spec (overflow_counter u) 0) as [->|]; cbn [negb].
  { exists u, w. done. }
  unfold dlt_user_log_send_overflow. rewrite Hi. bsimp. cbn [negb]. destruct (dlt_is_file u); bsimp.
  { do 2 eexists. split; [reflexivity|]. split_and!; [done..|lia]. }
  cbn [dlt_user_set_userheader Z.leb Z.ltb Z.compare DLT_USER_MESSAGE_OVERFLOW DLT_RETURN_OK].
  destruct (dlt_user_log_out2 w _ _ _) as [rc w1]. bsimp. do 2 eexists. split; [reflexivity|].
  split_and!; [case_match; done..|lia].
Qed.

Section send.
Context (E : env) (u : DltUser) (log : DltContextData) (h : DltContext) (payload : bytes).
Hypothesis (WE : wf_env E) (WU : wf_user u) (WL : wf_log log h payload).
Let M := message_of E u log h payload.
Hypothesis (Hlen : MessageSpec.message_len M < 65536).
Hypothesis (Hprint : print_ascii E <> DLT_RETURN_ERROR).

(** Everything before the output: the message is handed over as user header and encoding. *)
Lemma send_log_output w :
  dlt_is_file u = false ->
  dlt_user_log_send_log E u log w DLT_TYPE_LOG =
    '(ret, u, w) ← send_to_daemon E (next_user E u) w LOG_HEADER (MessageSpec.headers M) payload;
    Some (ret, u, next_log log h, w).
Proof.
  intros Hf. unfold dlt_user_log_send_log. rewrite (wu_ready _ WU), (wl_handle _ _ _ WL), (wl_ctx_set _ _ _ WL).
  bsimp. cbn [negb orb]. cbn [Z.ltb Z.compare DLT_TYPE_LOG DLT_TYPE_CONTROL orb].
  change (dlt_user_set_userheader (replicate 8 0) DLT_USER_MESSAGE_LOG) with (DLT_RETURN_OK, LOG_HEADER).
  cbv beta iota. cbn [Z.ltb Z.compare DLT_RETURN_OK].
  destruct (build_headers_ok E u log h payload WE WU WL Hlen) as (m & sh & rest & -> & Hb & Lsh & Hs). bsimp.
  rewrite (eqb_false (print_ascii E)), andb_false_r by done.
  assert (payload_of (next_log log h) = Some payload) as -> by apply WL. bsimp.
  rewrite (proj2 (proj2 (proj2 (proj2 (proj2 (next_user_same E u)))))), Hf, Hs, Hb.
  rewrite (mread_mid sh (MessageSpec.headers M) rest) by (fold M; lia). done.
Qed.

Lemma encode_whole : LOG_HEADER ++ MessageSpec.headers M ++ payload = LOG_HEADER ++ MessageSpec.encode M.
Proof. by rewrite MessageSpec.encode_headers. Qed.

Lemma send_log_ok w :
  dlt_is_file u = false -> overflow_counter u = 0 -> no_id (appID u) = Some false -> appID2len u = 0 ->
  0 <= dlt_log_handle u -> ready_to_write w ->
  dlt_user_log_send_log E u log w DLT_TYPE_LOG =
    Some (DLT_RETURN_OK, next_user E u, next_log log h, wrote w (LOG_HEADER ++ MessageSpec.encode M)).
Proof.
  intros Hf Ho Hi H2 Hh Hw. rewrite send_log_output by done.
  destruct (next_user_same E u) as (N1 & N2 & N3 & N4 & N5 & N6).
  unfold send_to_daemon, announce_overflow. rewrite N4, Ho. cbn [Z.eqb negb]. bsimp. rewrite N2, Hi. bsimp.
  rewrite N5, (eqb_false (dlt_log_handle u)) by lia. cbn [negb andb].
  rewrite resend_nothing by congruence. bsimp. cbn [Z.eqb DLT_RETURN_OK andb].
  assert (zlen (LOG_HEADER ++ MessageSpec.headers M ++ payload) < 4294967296) as Hl.
  { rewrite encode_whole, length_app, Nat2Z.inj_add, MessageSpec.length_encode. change (zlen LOG_HEADER) with 8. lia. }
  rewrite ?N5, (out3_ok w (dlt_log_handle u) _ _ _ Hh Hw Hl), encode_whole. cbn [Z.eqb DLT_RETURN_OK negb orb]. bsimp. reflexivity.
Qed.

End send.

(** C14: Every message that an application of version 1 logs while the daemon is
    connected is written completely to the daemon, or queued behind the messages
    that wait already, or counted as lost: for every behaviour of the operating
    system exactly one of the three happens, the queue keeps its order, and the
    counter of lost messages grows only when the message is neither written nor
    queued.  Lost messages counted before are announced first.  The message with its
    user header has at most [cap] bytes, which fit the empty queue. *)
Theorem message_written_queued_or_counted {cap holds} `{!MessageQueue cap holds} E u log h payload q w :
  wf_env E -> wf_user u -> wf_log log h payload -> holds (startup_buffer u) q ->
  no_id (appID u) = Some false -> appID2len u = 0 -> dlt_is_file u = false ->
  print_ascii E <> DLT_RETURN_ERROR -> cap < 4294967295 ->
  let M := message_of E u log h payload in
  MessageSpec.message_len M < 65536 -> 8 + MessageSpec.message_len M <= cap ->
  ∃ u1 w1 rc u' w', announce_overflow E (next_user E u) w = Some (u1, w1) ∧
    (overflow_counter u = 0 -> u1 = next_user E u ∧ w1 = w) ∧
    dlt_user_log_send_log E u log w DLT_TYPE_LOG = Some (rc, u', next_log log h, w') ∧
    sent (holds := holds) u1 q w1 (LOG_HEADER ++ MessageSpec.encode M) rc u' w'.
Proof.
  intros WE WU WL Hq Hi H2 Hf Hp Hcap M Hlen Hfit. pose proof (encode_whole E u log h payload) as EW. fold M in EW. destruct (next_user_same E u) as (N1 & N2 & N3 & N4 & _).
  destruct (announce_total E (next_user E u) w) as (u1 & w1 & Ea & A1 & A2 & A3 & A4); [congruence|].
  assert (zlen (LOG_HEADER ++ MessageSpec.headers M ++ payload) <= cap) as Hl.
  { rewrite EW, length_app, Nat2Z.inj_add, MessageSpec.length_encode. change (zlen LOG_HEADER) with 8. lia. }
  destruct (send_to_daemon_cases (holds := holds) E (next_user E u) q w LOG_HEADER (MessageSpec.headers M) payload)
    with (u1 := u1) (w1 := w1) as (rc & u' & w' & Es & Hs); try done; try congruence; [apply WE|].
  exists u1, w1, rc, u', w'. rewrite (send_log_output E u log h payload WE WU WL Hlen Hp w Hf). fold M. rewrite Es. bsimp.
  split_and!; [done|intros Ho; apply A4; congruence|done|].
  by rewrite EW in Hs.
Qed.

(** ** From the application to the reader *)

Definition heap_serves (A : allocator) (n : Z) : Prop := malloc A n <> None.

(** A message that was opened for a context. *)
Lemma write_start_ok E u h log level :
  UserLogSpec.ready u -> dlt_user_is_logLevel_enabled (Some h) level = DLT_RETURN_TRUE ->
  0 <= log_buf_len u < 65536 -> heap_serves (heap E) (log_buf_len u) ->
  ∃ log1, dlt_user_log_write_start E u true false (Some h) log level = Some (DLT_RETURN_TRUE, u, log1) ∧
    UserLogSpec.holds u log1 [] 0 ∧ handle log1 = Some h ∧ log_level log1 = level ∧ verbose_mode log1 = 1 ∧
    use_timestamp log1 = DLT_AUTO_TIMESTAMP ∧ user_timestamp log1 = user_timestamp log.
Proof.
  intros [Hi Hfr] Hl Hb Hh. unfold dlt_user_log_write_start, dlt_user_log_write_start_internal. rewrite Hl.
  cbn [Z.eqb Pos.eqb DLT_RETURN_TRUE DLT_RETURN_WRONG_PARAMETER DLT_RETURN_LOGGING_DISABLED].
  unfold dlt_user_log_write_start_init, dlt_user_log_init. rewrite Hi.
  cbn [negb Z.ltb Z.compare DLT_RETURN_OK orb handle buffer size log_level args_num use_timestamp msid verbose_mode set_log
       Z.eqb Pos.eqb DLT_RETURN_TRUE].
  unfold calloc, heap_serves in *. destruct (malloc (heap E) (log_buf_len u)) as [b|] eqn:Em; [|done]. bsimp.
  unfold is_verbose_mode. cbn [verbose_mode set_log]. cbn [Z.eqb negb]. rewrite orb_true_r. cbn [negb].
  eexists. split; [reflexivity|]. split_and!; try done.
  apply malloc_length in Em. split; cbn; [|done|lia|done].
  exists (replicate (length b) 0). split; [done|]. rewrite length_replicate. lia.
Qed.

Lemma ready_of u : not_freeing u = true -> UserLogSpec.ready u.
Proof. unfold not_freeing, UserLogSpec.ready. rewrite andb_true_iff, negb_true_iff. done. Qed.

(** The daemon finds the message behind the user header without resynchronising. *)
Lemma sync_at_start M : MessageSpec.m_htyp M <> 68 -> MessageSpec.sync_point (MessageSpec.encode M) false 0.
Proof.
  intros H. apply MessageSpec.sp_plain. unfold MessageSpec.serial_at, MessageSpec.encode, MessageSpec.std.
  unfold mread. case_match; [|done]. cbn [app Z.to_nat drop take Pos.to_nat]. intros [= E _]. done.
Qed.

(** C11: What an application logs arrives and is shown.  Opening a message for an
    enabled level, writing at most 255 arguments that are [printable] (all but unsigned
    integers of 32 and 64 bits in binary format, as for [logged_is_printed]) and fit,
    and finishing it writes one user header and one message into the connection; the
    parser of the daemon reads from it the header with the identifiers, counter, clock
    and log level of the sender, and its payload is printed as the texts of the
    arguments in order.  The application is of version 1, does not log into a file, has
    no lost messages to announce, and the pipe to the daemon is open and takes the
    message. *)
Theorem logged_arrives E u h log level l w A m show_g attrs t :
  wf_env E -> wf_user u -> is_id (contextID h) -> is_bytes (contextID h) -> no_id (contextID h) = Some false ->
  0 <= mcnt h < 256 -> 0 <= user_timestamp log < 4294967296 ->
  dlt_user_is_logLevel_enabled (Some h) level = DLT_RETURN_TRUE ->
  0 <= log_buf_len u < 65501 -> heap_serves (heap E) (log_buf_len u) -> print_ascii E <> DLT_RETURN_ERROR ->
  no_id (appID u) = Some false -> appID2len u = 0 -> dlt_is_file u = false -> overflow_counter u = 0 ->
  0 <= dlt_log_handle u -> ready_to_write w ->
  let payload := concat (UserLogSpec.encode_arg true <$> l) in
  Forall PayloadSpec.printable l -> is_bytes payload -> zlen payload <= log_buf_len u -> zlen l < 256 ->
  MessageSpec.wf m -> heap_serves A (zlen payload) ->
  (∀ b v, 0 ∉ show_g b v) -> zlen (PayloadSpec.args_text show_g attrs 0 l) + 2 <= zlen t < 2147483648 ->
  ∃ log1 log2 log3 M m' t',
    dlt_user_log_write_start E u true false (Some h) log level = Some (DLT_RETURN_TRUE, u, log1) ∧
    UserLogSpec.write_args u log1 l = Some (replicate (length l) DLT_RETURN_OK, log2) ∧
    dlt_user_log_write_finish E u log2 w =
      Some (DLT_RETURN_OK, next_user E u, log3, wrote w (LOG_HEADER ++ MessageSpec.encode M)) ∧
    M = message_of E u log2 h payload ∧ log_level log2 = level ∧ args_num log2 = zlen l ∧
    Message.dlt_message_read A m (Some (MessageSpec.encode M)) (zlen (MessageSpec.encode M)) false =
      Some (Message.DLT_MESSAGE_ERROR_OK, m') ∧ MessageSpec.holds m' M ∧
    Payload.payload_arguments show_g attrs payload (zlen payload) (MessageSpec.m_htyp M) (u8 (args_num log2)) t (zlen t) =
      Some (DLT_RETURN_OK, t') ∧
    Printf.cstring_at t' 0 = Some (PayloadSpec.args_text show_g attrs 0 l).
Proof.
  intros WE WU Hc1 Hc2 Hc3 Hmc Hut Hlv Hbl Hhp Hpr Hi H2 Hf Ho Hh Hw payload Hp Hby Hfit Hn Wm HA Hg Ht.
  pose proof (ready_of u (wu_ready _ WU)) as Hr.
  destruct (write_start_ok E u h log level Hr Hlv ltac:(lia) Hhp) as (log1 & E1 & H1 & F1 & F2 & F3 & F4 & F5).
  assert (is_verbose_mode u log1 = true) as V1 by (unfold is_verbose_mode; rewrite F3; apply orb_true_r).
  destruct (UserLogSpec.write_args_ok u log1 [] 0 l H1 Hr ltac:(lia) ltac:(lia)) as (log2 & E2 & H2' & Fr).
  { revert Hp. apply Forall_impl, PayloadSpec.printable_wf. }
  { rewrite V1. exact Hfit. }
  rewrite V1 in H2'. cbn [app] in H2'. fold payload in H2'. destruct H2' as [(rest & Hb & Hrest) Hs _ Ha].
  unfold UserLogSpec.frame in Fr. injection Fr as G1 G2 G3 G4 G5 G6 G7.
  assert (wf_log log2 h payload) as WL.
  { split; [congruence|done|done|done|done|by rewrite G5, F5| |done|done].
    unfold payload_of. rewrite Hb, Hs. by apply (mread_mid [] payload rest). }
  set (M := message_of E u log2 h payload).
  assert (MessageSpec.message_len M < 65536) as HM.
  { unfold MessageSpec.message_len, MessageSpec.extra, MessageSpec.ext. cbn [MessageSpec.m_payload M message_of MessageSpec.m_ecu MessageSpec.m_ext].
    pose proof (is_id_length _ (wu_ecu _ WU)). pose proof (is_id_length _ (wu_app _ WU)). pose proof (is_id_length _ Hc1).
    rewrite !length_app. repeat case_match; rewrite ?length_be_bytes, ?length_app; cbn [length]; lia. }
  pose proof (message_wf E u log2 h payload WE WU WL HM) as WM. fold M in WM.
  pose proof (htyp_range u log2) as Hht.
  destruct (MessageSpec.read_complete A m [] [] M (zlen (MessageSpec.encode M)) false Wm WM) as (m' & Er & _ & Hm');
    [constructor|constructor|cbn [app]; rewrite app_nil_r; apply sync_at_start; cbn; lia
    |cbn [app]; rewrite app_nil_r, MessageSpec.length_encode; cbn [length]; lia
    |rewrite MessageSpec.length_encode; lia|exact HA|].
  cbn [app] in Er. rewrite app_nil_r in Er.
  assert (DLT_IS_HTYP_MSBF (MessageSpec.m_htyp M) = false) as Hms.
  { cbn [MessageSpec.m_htyp M message_of]. unfold htyp_of. repeat case_match; reflexivity. }
  destruct (PayloadSpec.payload_prints show_g attrs (MessageSpec.m_htyp M) l t Hg Hms Hp Ht) as (t' & Ep & _ & Ht').
  exists log1, log2, (free_buffer (next_log log2 h)), M, m', t'. split_and!; try done; try congruence.
  - unfold dlt_user_log_write_finish. rewrite (send_log_ok E u log2 h payload WE WU WL HM Hpr w Hf Ho Hi H2 Hh Hw). done.
  - rewrite Ha, Z.add_0_l. cint. exact Ep.
Qed.

(** ** Sending the queue *)

(** A completion of messages that only looks at the message and keeps its length. *)
Definition completes (ok : bytes -> Prop) (patch : bytes -> option bytes) (f : bytes -> bytes) : Prop :=
  ∀ m r, ok m -> patch (m ++ r) = Some (f m ++ r) ∧ length (f m) = length m.

Section resend.
Context {cap : Z} {holds : RingBuffer.DltBuffer -> list bytes -> Prop} `{!MessageQueue cap holds}.
Context (E : env) (ok : bytes -> Prop) (patch : bytes -> option bytes) (f : bytes -> bytes).
Hypothesis (Hpatch : completes ok patch f).

(** Messages that fit into the resend buffer. *)
Definition resendable (u : DltUser) (m : bytes) : Prop :=
  ok m ∧ 0 < zlen m < 4294967295 ∧ zlen m <= zlen (resend_buffer u).

(** The state between two rounds: the queue, and what does not change. *)
Record sending (u0 u : DltUser) (q : list bytes) : Prop := {
  sg_queue : holds (startup_buffer u) q;
  sg_rb : length (resend_buffer u) = length (resend_buffer u0);
  sg_len : log_buf_len u = log_buf_len u0;
  sg_handle : dlt_log_handle u = dlt_log_handle u0
}.

(** The oldest message is sent and removed, or stays and the round ends with an error. *)
Lemma resend_one_cases u0 u m q w :
  sending u0 u (m :: q) -> log_buf_len u0 <> 0 -> resendable u0 m ->
  ∃ r u' w', resend_one E patch u w = Some (r, u', w') ∧
    (r = None ∧ sending u0 u' q ∧ w' = wrote w (f m) ∨
     ∃ rc n, r = Some rc ∧ rc <> DLT_RETURN_OK ∧ holds (startup_buffer u') (m :: q) ∧
       pipe w' = pipe w ++ take n (f m) ∧ (n < length m)%nat ∧ ¬ (ready_to_write w ∧ 0 <= dlt_log_handle u0)).
Proof.
  intros [Hq Hrb Hl Hh] Hlb (Hok & Hm & Hfit). unfold resend_one.
  rewrite (mq_copy (heap E) _ m q _ Hq) by lia. bsimp.
  destruct (split_region (resend_buffer u) 0 (zlen m)) as (z & a & r & Er & Lz & La); [lia..|]. nils. cbn [app] in Er.
  rewrite Er, (mwrite_mid [] a m r) by (cbn; lia). bsimp. cbn [app]. rewrite ltb_true by lia.
  destruct (Hpatch m r Hok) as [-> Lf]. bsimp. rewrite (mread_mid [] (f m) r) by (cbn; lia). bsimp.
  cbn [dlt_log_handle set_resend set_startup set_user].
  destruct (out3_cases w (dlt_log_handle u) (f m) [] []) as (rc & w' & Eo & Hc); [rewrite !app_nil_r; lia|].
  rewrite Eo. rewrite !app_nil_r in Hc. destruct Hc as [(-> & Hh' & ->)|(Hrc & n & Hpipe & Hn)].
  - cbn [Z.eqb DLT_RETURN_OK]. cbn [startup_buffer set_resend set_startup set_user].
    destruct (mq_remove (heap E) _ m q Hq) as (b' & -> & Hq'). bsimp. do 3 eexists. split; [reflexivity|]. left.
    split; [done|]. split; [|done]. split; cbn; [done| |done|done]. rewrite length_app, Lf. rewrite Er, length_app in Hrb. lia.
  - assert (rc <> DLT_RETURN_OK) as Hne by (rewrite !elem_of_cons, elem_of_nil in Hrc; unfold DLT_RETURN_OK, DLT_RETURN_ERROR, DLT_RETURN_PIPE_ERROR, DLT_RETURN_PIPE_FULL in *; lia).
    rewrite (eqb_false rc) by done. do 3 eexists. split; [reflexivity|]. right. exists rc, n.
    split_and!; [done|done|case_match; exact Hq|exact Hpipe| |].
    + destruct Hn as [Hn|Hn]; [lia|]. apply (f_equal length) in Hn. cbn in Hn. lia.
    + intros [Hw Hh0]. rewrite (out3_ok w _ (f m) [] []) in Eo by (rewrite ?app_nil_r; (lia || done)). congruence.
Qed.

Lemma resend_loop_cases u0 u q w :
  sending u0 u q -> log_buf_len u0 <> 0 -> Forall (resendable u0) q ->
  ∃ rc u' w' k n, resend_loop (length q) E patch u w = Some (rc, u', w') ∧
    holds (startup_buffer u') (drop k q) ∧
    pipe w' = pipe w ++ concat (f <$> take k q) ++ take n (default [] (f <$> q !! k)) ∧
    (rc = DLT_RETURN_OK ∧ k = length q ∨
     rc <> DLT_RETURN_OK ∧ (k < length q)%nat ∧ (n < length (default [] (q !! k)))%nat ∧
     ¬ (script w (k + calls w) = WriteAll ∧ 0 <= dlt_log_handle u0)).
Proof.
  intros H Hlb Hq. revert u w H. induction Hq as [|m q Hm Hq IH]; intros u w H; cbn [length resend_loop].
  { do 3 eexists. exists 0%nat, 0%nat. split; [reflexivity|]. cbn. rewrite app_nil_r. split_and!; [apply H|done|by left]. }
  destruct (resend_one_cases u0 u m q w H Hlb Hm) as (r & u1 & w1 & -> & [(-> & H1 & ->)|(rc & n & -> & Hrc & Hq1 & Hp & Hn & Hr)]);
    bsimp.
  - destruct (IH u1 (wrote w (f m)) H1) as (rc & u' & w' & k & n & -> & Hq' & Hp & Hc).
    do 3 eexists. exists (S k), n. split; [reflexivity|]. cbn [drop take lookup list_lookup]. rewrite fmap_cons. cbn [concat].
    split; [done|]. split; [rewrite Hp; cbn [pipe wrote]; by rewrite <-!app_assoc|].
    destruct Hc as [[-> ->]|(Hrc & Hk & Hn & Hs)]; [by left|right]. split_and!; [done|lia|done|].
    cbn [calls script wrote] in Hs. by replace (S k + calls w)%nat with (k + S (calls w))%nat by lia.
  - do 3 eexists. exists 0%nat, n. split; [reflexivity|]. cbn. split_and!; [done|by rewrite Hp|].
    right. split_and!; [done|lia|done|done].
Qed.

End resend.

(** Where a queued message has the identifier of its application: behind the user
    header of a registration of a context, behind the headers and two bytes of a log
    message; other messages and other bytes have none. *)
Definition identifier_at (m : bytes) : option nat :=
  if bool_decide (take 3 m = [68; 85; 72] ∧ m !! 3%nat ∈ [Some 1; Some 2]) then
    let kind := le_Z (take 4 (drop 4 m)) in
    if kind =? DLT_USER_MESSAGE_REGISTER_CONTEXT then Some 8%nat else if kind =? DLT_USER_MESSAGE_LOG then Some 26%nat else None
  else None.
(** A message of an application without an identifier of version 1 as it is sent: where
    the identifier begins with 0, its other bytes become 0 too; everything else is as it
    was queued. *)
Definition resent (m : bytes) : bytes :=
  match identifier_at m with
  | Some o => if bool_decide (m !! o = Some 0) then take o m ++ replicate 4 0 ++ drop (o + 4) m else m
  | None => m
  end.
(** A user header, and the identifier if there is one. *)
Definition whole (m : bytes) : Prop := 8 <= zlen m ∧ ∀ o, identifier_at m = Some o -> Z.of_nat o + 4 <= zlen m.

Lemma put_no_appid u m r (o : nat) :
  appID u = replicate 4 0 -> Z.of_nat o + 4 <= zlen m ->
  put_appid u (m ++ r) (Z.of_nat o) = Some ((if bool_decide (m !! o = Some 0) then take o m ++ replicate 4 0 ++ drop (o + 4) m else m) ++ r).
Proof.
  intros Hi Hl. unfold put_appid. rewrite mread_app_l, mread_Some by lia. rewrite Nat2Z.id. change (Z.to_nat 4) with 4%nat. bsimp.
  destruct (lookup_lt_is_Some_2 m o) as [c Hc]; [lia|]. rewrite Hc. unfold no_id. rewrite lookup_take_lt, lookup_drop, Nat.add_0_r, Hc by lia. bsimp.
  destruct (Z.eqb_spec c 0) as [->|Hc0]; [rewrite bool_decide_true by done|rewrite bool_decide_false by congruence; done].
  assert (is_id (appID u)) as Hid by (by rewrite Hi). rewrite set_id_is_id by (done || (rewrite length_take, length_drop; lia)). bsimp. rewrite Hi, mwrite_app_l by (cbn; lia).
  rewrite mwrite_Some by (cbn; lia). bsimp. by rewrite Nat2Z.id.
Qed.

Lemma user_header_check (m : bytes) : 4 <= zlen m ->
  dlt_user_check_userheader (Some m) = Some (if bool_decide (take 3 m = [68; 85; 72] ∧ m !! 3%nat ∈ [Some 1; Some 2]) then 1 else 0).
Proof.
  intros Hl. destruct m as [|a [|b [|c [|v m]]]]; cbn [length] in Hl; try lia. unfold dlt_user_check_userheader. rewrite mread_Some by (cbn [length]; lia).
  bsimp. cbn [take drop lookup list_lookup firstn skipn]. change (take (Z.to_nat 4) (drop (Z.to_nat 0) (a :: b :: c :: v :: m))) with [a; b; c; v].
  rewrite <-bool_decide_or. erewrite bool_decide_ext; [done|]. rewrite !elem_of_cons, elem_of_nil.
  split; [intros [[= -> -> -> ->]|[= -> -> -> ->]]; auto|intros [[= -> -> ->] [[= ->]|[[= ->]|[]]]]; auto].
Qed.

Lemma add_appid_completes u : appID u = replicate 4 0 -> completes whole (add_appid u) resent.
Proof.
  intros Hi m r [Hm Ho]. unfold add_appid. assert (dlt_user_check_userheader (Some (m ++ r)) = dlt_user_check_userheader (Some m)) as ->.
  { unfold dlt_user_check_userheader. by rewrite mread_app_l by lia. }
  rewrite user_header_check by lia. unfold resent, identifier_at, userheader_message in *. bsimp. case_bool_decide; cbn [Z.eqb]; [|done].
  rewrite mread_app_l, mread_Some by lia. bsimp. change (Z.to_nat 4) with 4%nat. set (k := le_Z _) in *.
  assert (∀ o : nat, Z.of_nat o + 4 <= zlen m -> length (if bool_decide (m !! o = Some 0) then take o m ++ replicate 4 0 ++ drop (o + 4) m else m) = length m) as Hlen.
  { intros o Hl. case_bool_decide; [|done]. rewrite !length_app, length_take, length_drop. cbn. lia. }
  destruct (k =? DLT_USER_MESSAGE_REGISTER_CONTEXT); [|destruct (k =? DLT_USER_MESSAGE_LOG); [|done]]; specialize (Ho _ eq_refl);
    (split; [|by apply Hlen]); [exact (put_no_appid u m r 8 Hi Ho)|exact (put_no_appid u m r 26 Hi Ho)].
Qed.

(** C36: The queue of an application that has an identifier of version 2 only is sent
    in order and nothing is sent twice: the messages that were written are removed,
    the first that cannot be written stays with all that follow, and when the
    connection takes everything the queue becomes empty.  Each message is written as
    it was queued, except that in registrations of contexts and in log messages the
    four bytes where version 1 has the identifier of the application are cleared if
    the first of them is 0 ([resent]).  The messages begin with a user header, have
    these four bytes if they are of these two kinds, and fit the resend buffer. *)
Theorem queue_sent_in_order {cap holds} `{!MessageQueue cap holds} E u q w :
  holds (startup_buffer u) q -> no_id (appID u) = Some true -> is_id (appID u) -> appID2len u <> 0 ->
  log_buf_len u <> 0 -> zlen (resend_buffer u) < 4294967295 ->
  Forall (λ m, whole m ∧ zlen m <= zlen (resend_buffer u)) q ->
  ∃ rc u' w' k n, dlt_user_log_resend_buffer E u w = Some (rc, u', w') ∧
    holds (startup_buffer u') (drop k q) ∧
    pipe w' = pipe w ++ concat (resent <$> take k q) ++ take n (default [] (resent <$> q !! k)) ∧
    (rc = DLT_RETURN_OK ∧ k = length q ∨
     rc <> DLT_RETURN_OK ∧ (k < length q)%nat ∧ (n < length (default [] (q !! k)))%nat) ∧
    ((∀ i, script w i = WriteAll) -> 0 <= dlt_log_handle u ->
     rc = DLT_RETURN_OK ∧ holds (startup_buffer u') []).
Proof.
  intros Hq Hi Hid H2 Hl Hrb Hf. unfold dlt_user_log_resend_buffer. rewrite Hi. bsimp.
  rewrite (eqb_false (appID2len u)) by done. cbn [andb]. rewrite (mq_count _ q Hq), Nat2Z.id.
  assert (appID u = replicate 4 0) as Hz.
  { unfold no_id in Hi. destruct (appID u) as [|c i]; [done|]. cbn [lookup list_lookup] in Hi. bsimp. injection Hi as Hc. apply Z.eqb_eq in Hc as ->. exact Hid. }
  destruct (resend_loop_cases E whole (add_appid u) resent (add_appid_completes u Hz) u u q w)
    as (rc & u' & w' & k & n & Er & Hq' & Hp & Hc).
  { by split. }
  { done. }
  { revert Hf. apply Forall_impl. intros m [[H8 Ho] Hm]. unfold resendable. split_and!; try lia. by split. }
  exists rc, u', w', k, n. split_and!; try done.
  - destruct Hc as [Hc|(H3 & H4 & H5 & _)]; [by left|by right].
  - intros Hs Hh. destruct Hc as [[-> ->]|(_ & _ & _ & Hn)]; [|destruct Hn; split; [apply Hs|done]].
    split; [done|]. by rewrite drop_all in Hq'.
Qed.

(** The queue of an application of version 1 is never sent: the test of the
    application id in [dlt_user_log_resend_buffer] is inverted, so nothing is
    written and nothing leaves the queue, although the result is success. *)
Theorem v1_queue_is_never_sent {cap holds} `{!MessageQueue cap holds} E u q w :
  holds (startup_buffer u) q -> no_id (appID u) = Some false -> appID2len u = 0 ->
  dlt_user_log_resend_buffer E u w = Some (DLT_RETURN_OK, u, w).
Proof. intros _. apply resend_nothing. Qed.

(** The queue of an application of version 2 is completed like messages of
    version 1, with an empty identifier: in a log message whose byte 26 is 0 the
    three bytes behind it are cleared before it is sent. *)
Theorem v2_resend_clears_bytes u (p a r : bytes) :
  is_id (appID u) -> no_id (appID u) = Some true -> zlen p = 18 -> length a = 3%nat ->
  add_appid u (DltUserHeader 2 DLT_USER_MESSAGE_LOG ++ p ++ 0 :: a ++ r) =
    Some (DltUserHeader 2 DLT_USER_MESSAGE_LOG ++ p ++ [0; 0; 0; 0] ++ r).
Proof.
  intros Hi He Lp La. unfold add_appid, put_appid, dlt_user_check_userheader, userheader_message.
  set (H := DltUserHeader 2 DLT_USER_MESSAGE_LOG). assert (zlen H = 8) as LH by done.
  rewrite (mread_app_l H _ 0 4), (mread_app_l H _ 4 4) by lia.
  change (mread H 0 4) with (Some [68; 85; 72; 2]). change (mread H 4 4) with (Some [1; 0; 0; 0]). bsimp.
  rewrite bool_decide_false, bool_decide_true by done. cbn [orb Z.eqb]. change (le_Z [1; 0; 0; 0]) with 1.
  cbn [Z.eqb Pos.eqb DLT_USER_MESSAGE_REGISTER_CONTEXT DLT_USER_MESSAGE_LOG].
  change (0 :: a ++ r) with ((0 :: a) ++ r).
  set (o := sizeof_DltUserHeader + _ + _ + 2). assert (o = 26) as -> by done.
  rewrite (mread_mid2 H p (0 :: a) r) by (cbn [length]; lia). bsimp. unfold no_id. cbn [lookup list_lookup]. bsimp.
  cbn [Z.eqb]. rewrite set_id_is_id by (done || (cbn; lia)). bsimp.
  assert (appID u = [0; 0; 0; 0]) as ->.
  { unfold no_id in He. destruct (appID u) as [|c i]; [done|]. cbn [lookup list_lookup] in He. bsimp.
    injection He as Hc. apply Z.eqb_eq in Hc as ->. exact Hi. }
  apply mwrite_mid2; cbn [length]; lia.
Qed.

(** ** Concrete runs *)

(** A memory that is filled with 0, clocks at 5 and 6, and a connection that
    takes what [o] says. *)
Definition env0 : env :=
  {| now_sec := 5; now_usec := 6; uptime := 1000; getpid := 7; fstat := None; print_ascii := DLT_RETURN_OK;
     heap := heap_filled 0; pad := [7; 7; 7]; dlt_init := λ u, (DLT_RETURN_OK, u); stack := MessageSpec.fresh;
     stack_bytes := [] |}.
Definition world0 (o : nat -> outcome) : world := {| script := o; calls := 0; pipe := [] |}.
Lemma wf_env0 : wf_env env0.
Proof. split; vm_compute; try done; split; congruence. Qed.

(** A queue with one message of version 2 in which byte 26 is 0. *)
Definition waiting : bytes := DltUserHeader 2 DLT_USER_MESSAGE_LOG ++ replicate 18 1 ++ 0 :: [2; 3; 4] ++ replicate 10 5.
Definition waiting_buffer : RingBuffer.DltBuffer :=
  {| RingBuffer.shm := Some {| RingBuffer.head := {| RingBuffer.write := 52; RingBuffer.read := 0; RingBuffer.count := 1 |};
                    RingBuffer.mem := RingBuffer.block_head [7; 7; 7] 40 ++ waiting ++ replicate 48 0 |};
     RingBuffer.size := 100; RingBuffer.min_size := 112; RingBuffer.max_size := 300; RingBuffer.step_size := 100 |}.

Lemma waiting_queue : ring_queue 88 waiting_buffer [waiting].
Proof.
  split; [|vm_compute; congruence].
  eexists _, (RingBuffer.block_head [7; 7; 7] 40 ++ waiting ++ []).
  split; try done; try (cbn; lia).
  - split; try (cbn; lia). intros i Hi. change (zlen _) with 52 in Hi.
    assert (i ∈ seqZ 0 52) as Hin by (apply elem_of_seqZ; lia).
    cbn in Hin. repeat (apply elem_of_cons in Hin as [->|Hin]; [reflexivity|]).
    by apply elem_of_nil in Hin.
  - by repeat constructor.
Qed.

(** An application of version 1, or of version 2 without an identifier of
    version 1, whose queue holds [waiting]. *)
Definition user_with (app : bytes) (app2 : Z) : DltUser :=
  let u := UserLogSpec.user64 in
  {| init_done := true; freeing := false; file_reach_max := false; ecuID := ecuID u; ecuID2len := 4; appID := app;
     appID2len := app2; appID2 := replicate (Z.to_nat app2) 65; dlt_log_handle := 3; dlt_is_file := false;
     filesize_max := 0; overflow_counter := 0; user_verbose_mode := 1; use_extended_header_for_non_verbose := true;
     with_session_id := true; with_timestamp := true; with_ecu_id := true; enable_local_print := false;
     local_print_mode := 0; startup_buffer := waiting_buffer; resend_buffer := replicate 64 0; log_buf_len := 64;
     local_pid := 7 |}.
Definition user_v1 : DltUser := user_with [76; 79; 71; 0] 0.
Definition user_v2 : DltUser := user_with [0; 0; 0; 0] 4.
Definition context0 : DltContext :=
  {| contextID := [67; 84; 88; 0]; log_level_pos := 0; log_level_ptr := Some 4; mcnt := 0 |}.

Lemma wf_user_v1 : wf_user user_v1.
Proof. split; try done; by apply is_bytes_forallb. Qed.

(** A finished message with two bytes of payload. *)
Definition two_bytes : DltContextData :=
  {| handle := Some context0; buffer := Some ([8; 9] ++ replicate 62 0); size := 2; log_level := 4; trace_status := 0;
     args_num := 0; use_timestamp := 0; user_timestamp := 0; msid := 0; verbose_mode := 1 |}.
Lemma wf_two_bytes : wf_log two_bytes context0 [8; 9].
Proof. split; try done; try (cbn; lia); by apply is_bytes_forallb. Qed.

Lemma message_written_queued_or_counted_witness :
  ∃ rc u' w', dlt_user_log_send_log env0 user_v1 two_bytes (world0 (λ _, WriteSome 5 EAGAIN)) DLT_TYPE_LOG =
      Some (rc, u', next_log two_bytes context0, w') ∧
    sent (holds := ring_queue 88) (next_user env0 user_v1) [waiting] (world0 (λ _, WriteSome 5 EAGAIN))
      (LOG_HEADER ++ MessageSpec.encode (message_of env0 user_v1 two_bytes context0 [8; 9])) rc u' w'.
Proof.
  destruct (message_written_queued_or_counted (cap := 88) (holds := ring_queue 88) env0 user_v1 two_bytes context0 [8; 9]
              [waiting] (world0 (λ _, WriteSome 5 EAGAIN))) as (u1 & w1 & rc & u' & w' & _ & Ho & E & S).
  - exact wf_env0.
  - exact wf_user_v1.
  - exact wf_two_bytes.
  - exact waiting_queue.
  - reflexivity.
  - reflexivity.
  - reflexivity.
  - discriminate.
  - reflexivity.
  - reflexivity.
  - vm_compute. discriminate.
  - destruct (Ho eq_refl) as [-> ->]. exists rc, u', w'. split; [exact E|exact S].
Defined.

Lemma logged_arrives_witness :
  let l := [UserLogSpec.AUint UserLogSpec.W8 42 None; UserLogSpec.AString ASCII_STRING [111; 107] None] in
  ∃ log1 log2 log3 M m' t',
    dlt_user_log_write_start env0 user_v1 true false (Some context0) two_bytes 4 = Some (DLT_RETURN_TRUE, user_v1, log1) ∧
    UserLogSpec.write_args user_v1 log1 l = Some ([0; 0], log2) ∧
    dlt_user_log_write_finish env0 user_v1 log2 (world0 (λ _, WriteAll)) =
      Some (DLT_RETURN_OK, next_user env0 user_v1, log3,
        wrote (world0 (λ _, WriteAll)) (LOG_HEADER ++ MessageSpec.encode M)) ∧
    Message.dlt_message_read (heap_filled 0) MessageSpec.fresh (Some (MessageSpec.encode M))
      (zlen (MessageSpec.encode M)) false = Some (Message.DLT_MESSAGE_ERROR_OK, m') ∧ MessageSpec.holds m' M ∧
    Printf.cstring_at t' 0 = Some [52; 50; 32; 111; 107].
Proof.
  destruct (logged_arrives env0 user_v1 context0 two_bytes 4
              [UserLogSpec.AUint UserLogSpec.W8 42 None; UserLogSpec.AString ASCII_STRING [111; 107] None]
              (world0 (λ _, WriteAll)) (heap_filled 0) MessageSpec.fresh (λ _ _, [63]) false (replicate 16 1))
    as (log1 & log2 & log3 & M & m' & t' & H1 & H2 & H3 & _ & _ & _ & H4 & H5 & _ & H6);
    first [exact wf_env0|exact wf_user_v1|exact MessageSpec.wf_fresh|reflexivity|idtac].
  - by apply is_bytes_forallb.
  - cbn. lia.
  - cbn. lia.
  - cbn. lia.
  - discriminate.
  - discriminate.
  - cbn. lia.
  - apply Forall_cons_2; [|apply Forall_cons_2; [|apply Forall_nil_2]]; cbn; split_and!;
      first [lia|by apply (bool_decide_unpack _)|exact I].
  - by apply is_bytes_forallb.
  - vm_compute. discriminate.
  - discriminate.
  - intros b v. by apply (bool_decide_unpack _).
  - split; [vm_compute; discriminate|reflexivity].
  - exists log1, log2, log3, M, m', t'. split_and!; [exact H1|exact H2|exact H3|exact H4|exact H5|exact H6].
Defined.

Lemma queue_sent_in_order_witness :
  ∃ u' w', dlt_user_log_resend_buffer env0 user_v2 (world0 (λ _, WriteAll)) = Some (DLT_RETURN_OK, u', w') ∧
    ring_queue 88 (startup_buffer u') [].
Proof.
  destruct (queue_sent_in_order (cap := 88) (holds := ring_queue 88) env0 user_v2 [waiting] (world0 (λ _, WriteAll)))
    as (rc & u' & w' & k & n & E & _ & _ & _ & H).
  - exact waiting_queue.
  - reflexivity.
  - reflexivity.
  - discriminate.
  - discriminate.
  - reflexivity.
  - apply Forall_cons_2; [|apply Forall_nil_2]. split; [split; [by vm_compute|intros o [= <-]; by vm_compute]|by vm_compute].
  - destruct H as [-> H]; [reflexivity|cbn; lia|]. exists u', w'. split; [exact E|exact H].
Defined.

Lemma v1_queue_is_never_sent_witness :
  dlt_user_log_resend_buffer env0 user_v1 (world0 (λ _, WriteAll)) = Some (DLT_RETURN_OK, user_v1, world0 (λ _, WriteAll)).
Proof.
  apply (v1_queue_is_never_sent (cap := 88) (holds := ring_queue 88) env0 user_v1 [waiting] (world0 (λ _, WriteAll)));
    [exact waiting_queue|reflexivity|reflexivity].
Defined.

Lemma v2_resend_clears_bytes_witness :
  add_appid user_v2 waiting =
    Some (DltUserHeader 2 DLT_USER_MESSAGE_LOG ++ replicate 18 1 ++ [0; 0; 0; 0] ++ replicate 10 5).
Proof. apply (v2_resend_clears_bytes user_v2 (replicate 18 1) [2; 3; 4] (replicate 10 5)); reflexivity. Defined.

End UserSendSpec.
