(* ===== verification/EventHandler.v ===== *)
(** * Connections and the poll table of the daemon
    ([src/daemon/dlt_daemon_event_handler.c], [src/daemon/dlt_daemon_connection.c])

    The daemon waits for its connections with one [poll].  The event handler
    owns the linked list of connections and the table of watched descriptors;
    descriptors of removed connections are taken out of the table by moving the
    ones behind them forward.  A pointer to a connection is its index in the list.

    What [calloc], [realloc], [fstat], [setsockopt] and [poll] answer is an
    argument, as is the code behind a callback. *)

From stdpp Require Import base list numbers option.
From Stdlib Require Import ZArith Lia Bool.
From S2P Require Import Prelude Receiver.
Import Receiver (DltReceiver, DltReceiverType(..)).

Local Open Scope Z_scope.

Module EventHandler.

(** ** Data *)

Inductive DltConnectionStatus := UNDEFINED | INACTIVE | ACTIVE | DEACTIVATE | ACTIVATE.

Inductive DltConnectionType :=
| DLT_CONNECTION_NONE
| DLT_CONNECTION_CLIENT_CONNECT
| DLT_CONNECTION_CLIENT_MSG_TCP
| DLT_CONNECTION_CLIENT_MSG_SERIAL
| DLT_CONNECTION_APP_CONNECT
| DLT_CONNECTION_APP_MSG
| DLT_CONNECTION_ONE_S_TIMER
| DLT_CONNECTION_SIXTY_S_TIMER
| DLT_CONNECTION_SYSTEMD_TIMER
| DLT_CONNECTION_CONTROL_CONNECT
| DLT_CONNECTION_CONTROL_MSG
| DLT_CONNECTION_GATEWAY
| DLT_CONNECTION_GATEWAY_TIMER
| DLT_CONNECTION_TYPE_MAX.
#[export] Instance DltConnectionType_eq_dec : EqDecision DltConnectionType.
Proof. solve_decision. Defined.

Record pollfd := { pfd_fd : Z; events : Z; revents : Z }.

Record DltConnection := {
  id : Z;
  receiver : option DltReceiver;
  type : DltConnectionType;
  status : DltConnectionStatus;
  ev_mask : Z
}.

Record DltEventHandler := {
  pfd : list pollfd;
  nfds : Z;
  max_nfds : Z;
  connections : list DltConnection
}.

Definition set_table (ev : DltEventHandler) (p : list pollfd) (n m : Z) : DltEventHandler :=
  {| pfd := p; nfds := n; max_nfds := m; connections := connections ev |}.
Definition set_connections (ev : DltEventHandler) (cs : list DltConnection) : DltEventHandler :=
  {| pfd := pfd ev; nfds := nfds ev; max_nfds := max_nfds ev; connections := cs |}.
Definition set_receiver (c : DltConnection) (r : option DltReceiver) : DltConnection :=
  {| id := id c; receiver := r; type := type c; status := status c; ev_mask := ev_mask c |}.
Definition set_status (c : DltConnection) (s : DltConnectionStatus) : DltConnection :=
  {| id := id c; receiver := receiver c; type := type c; status := s; ev_mask := ev_mask c |}.
Definition set_mask (c : DltConnection) (m : Z) : DltConnection :=
  {| id := id c; receiver := receiver c; type := type c; status := status c; ev_mask := m |}.
Definition set_fd (r : DltReceiver) (f : Z) : DltReceiver :=
  {| Receiver.lastBytesRcvd := Receiver.lastBytesRcvd r; Receiver.bytesRcvd := Receiver.bytesRcvd r;
     Receiver.totalBytesRcvd := Receiver.totalBytesRcvd r; Receiver.buffer := Receiver.buffer r;
     Receiver.buf := Receiver.buf r; Receiver.backup_buf := Receiver.backup_buf r; Receiver.fd := f;
     Receiver.type := Receiver.type r; Receiver.buffersize := Receiver.buffersize r |}.

Definition is_client (t : DltConnectionType) : bool :=
  match t with DLT_CONNECTION_CLIENT_MSG_TCP | DLT_CONNECTION_CLIENT_MSG_SERIAL => true | _ => false end.

(** ** The poll table *)

Definition DLT_EV_BASE_FD : Z := 16.
(** [POLLERR | POLLNVAL]. *)
Definition DLT_EV_MASK_REJECTED : Z := 40.

Definition init_poll_fd : pollfd := {| pfd_fd := -1; events := 0; revents := 0 |}.

Definition dlt_daemon_prepare_event_handling (calloc_ok : bool) (ev : DltEventHandler) : Z * DltEventHandler :=
  if calloc_ok
  then (0, set_table ev (replicate (Z.to_nat DLT_EV_BASE_FD) init_poll_fd) 0 DLT_EV_BASE_FD)
  else (-1, set_table ev [] (nfds ev) (max_nfds ev)).

(** [realloc] keeps the entries; the new ones are initialised. *)
Definition dlt_event_handler_enable_fd (realloc_ok : bool) (ev : DltEventHandler) (fd mask : Z)
  : option DltEventHandler :=
  let grow := max_nfds ev <=? nfds ev in
  if grow && negb realloc_ok then Some ev else
  let ev := if grow
            then let m := 2 * max_nfds ev in
                 set_table ev (take (Z.to_nat (nfds ev)) (pfd ev)
                                 ++ replicate (Z.to_nat (m - nfds ev)) init_poll_fd) (nfds ev) m
            else ev in
  e ← pfd ev !! Z.to_nat (nfds ev);
  Some (set_table ev (<[Z.to_nat (nfds ev) := {| pfd_fd := fd; events := i16 mask; revents := revents e |}]> (pfd ev))
          (nfds ev + 1) (max_nfds ev)).

(** The loop of [dlt_event_handler_disable_fd]; [n] rounds are left. *)
Fixpoint disable_loop (n i j : nat) (fd : Z) (p : list pollfd) (nf : Z) : option (list pollfd * Z) :=
  match n with
  | O => Some (p, nf)
  | S n =>
      e ← p !! i;
      let hit := pfd_fd e =? fd in
      let p := if hit then <[i := init_poll_fd]> p else p in
      let j := if hit then S j else j in
      let nf := if hit then nf - 1 else nf in
      p ← (if (i =? j)%nat then Some p
           else if Z.of_nat i <? nf then e ← p !! j; Some (<[i := e]> p)
           else Some (<[i := init_poll_fd]> p));
      disable_loop n (S i) (S j) fd p nf
  end.

Definition dlt_event_handler_disable_fd (ev : DltEventHandler) (fd : Z) : option DltEventHandler :=
  '(p, nf) ← disable_loop (Z.to_nat (nfds ev)) 0 0 fd (pfd ev) (nfds ev);
  Some (set_table ev p nf (max_nfds ev)).

(** ** The list of connections *)

Definition has_fd (fd : Z) (c : DltConnection) : bool :=
  match receiver c with Some r => Receiver.fd r =? fd | None => false end.

(** [while (temp != NULL) ...]: the first connection with the descriptor. *)
Fixpoint find_conn (fd : Z) (cs : list DltConnection) : option nat :=
  match cs with
  | [] => None
  | c :: cs => if has_fd fd c then Some O else S <$> find_conn fd cs
  end.
Definition dlt_event_handler_find_connection (ev : DltEventHandler) (fd : Z) : option nat :=
  find_conn fd (connections ev).

Definition dlt_connection_get_next (cs : list DltConnection) (wanted : DltConnectionType -> bool)
  : option nat := fst <$> list_find (λ c, Is_true (wanted (type c))) cs.

(** [dlt_connection_destroy] and [dlt_connection_destroy_receiver] close the
    descriptor and release the connection; they need a receiver. *)
Definition dlt_daemon_remove_connection (ev : DltEventHandler) (to_remove : nat) : option (Z * DltEventHandler) :=
  match connections ev !! to_remove with
  | None => Some (-1, ev)
  | Some c => _ ← receiver c; Some (0, set_connections ev (delete to_remove (connections ev)))
  end.

Fixpoint remove_all (n : nat) (ev : DltEventHandler) : option DltEventHandler :=
  match n with
  | O => Some ev
  | S n => '(_, ev) ← dlt_daemon_remove_connection ev 0; remove_all n ev
  end.
(** The table is released. *)
Definition dlt_event_handler_cleanup_connections (ev : DltEventHandler) : option DltEventHandler :=
  remove_all (length (connections ev)) ev.

Definition dlt_daemon_add_connection (ev : DltEventHandler) (c : DltConnection) : DltEventHandler :=
  set_connections ev (connections ev ++ [c]).

Definition update_connection (ev : DltEventHandler) (k : nat) (c : DltConnection) : DltEventHandler :=
  set_connections ev (<[k := c]> (connections ev)).

Definition dlt_connection_check_activate (realloc_ok : bool) (ev : DltEventHandler) (con : option nat)
  (activation_type : DltConnectionStatus) : option (Z * DltEventHandler) :=
  match con with
  | None => Some (-1, ev)
  | Some k =>
      c ← connections ev !! k;
      match receiver c with
      | None => Some (-1, ev)
      | Some r =>
          match status c, activation_type with
          | ACTIVE, DEACTIVATE =>
              ev ← dlt_event_handler_disable_fd ev (Receiver.fd r);
              let c := if decide (type c = DLT_CONNECTION_CLIENT_CONNECT) then set_receiver c (Some (set_fd r (-1))) else c in
              Some (0, update_connection ev k (set_status c INACTIVE))
          | INACTIVE, ACTIVATE =>
              ev ← dlt_event_handler_enable_fd realloc_ok ev (Receiver.fd r) (ev_mask c);
              Some (0, update_connection ev k (set_status c ACTIVE))
          | ACTIVE, _ | INACTIVE, _ => Some (0, ev)
          | _, _ => Some (-1, ev)
          end
      end
  end.

(** [n] is [daemon_local->client_connections]. *)
Definition dlt_event_handler_register_connection (realloc_ok : bool) (ev : DltEventHandler) (n : Z)
  (c : DltConnection) (mask : Z) : option (Z * DltEventHandler * Z) :=
  match receiver c with
  | None => Some (-1, ev, n)
  | Some _ =>
      let k := length (connections ev) in
      let ev := dlt_daemon_add_connection ev c in
      let n := if is_client (type c) then n + 1 else n in
      let ev := update_connection ev k (set_mask (set_status c INACTIVE) mask) in
      '(rc, ev) ← dlt_connection_check_activate realloc_ok ev (Some k) ACTIVATE;
      Some (rc, ev, n)
  end.

Definition dlt_event_handler_unregister_connection (ev : DltEventHandler) (n fd : Z)
  : option (Z * DltEventHandler * Z) :=
  match dlt_event_handler_find_connection ev fd with
  | None => Some (-1, ev, n)
  | Some k =>
      c ← connections ev !! k;
      let n := if is_client (type c) then (if n - 1 <? 0 then 0 else n - 1) else n in
      '(_, ev) ← dlt_connection_check_activate true ev (Some k) DEACTIVATE;
      '(rc, ev) ← dlt_daemon_remove_connection ev k;
      Some (rc, ev, n)
  end.

(** ** Creating connections *)

Definition DLT_DAEMON_RCVBUFSIZE : Z := 10024.
Definition DLT_DAEMON_RCVBUFSIZESOCK : Z := 10024.
Definition DLT_DAEMON_RCVBUFSIZESERIAL : Z := 10024.

(** A receiver from [calloc]: all fields are 0. *)
Definition zeroed_receiver : DltReceiver :=
  {| Receiver.lastBytesRcvd := 0; Receiver.bytesRcvd := 0; Receiver.totalBytesRcvd := 0; Receiver.buffer := false;
     Receiver.buf := None; Receiver.backup_buf := None; Receiver.fd := 0; Receiver.type := DLT_RECEIVE_SOCKET;
     Receiver.buffersize := 0 |}.

(** The receiver, its memory and [app_recv_buffer], which the receivers of
    applications share.  [is_socket] is what [fstat] says, [gateway] the receiver
    of the gateway. *)
Definition dlt_connection_get_receiver (A : allocator) (calloc_ok : bool) (is_socket : option bool)
  (gateway : option (DltReceiver * bytes)) (app_recv_buffer : option bytes) (t : DltConnectionType) (fd : Z)
  : option (DltReceiver * bytes) * option bytes :=
  let fresh rt size :=
    if calloc_ok
    then let '(_, r, mem) := Receiver.dlt_receiver_init A zeroed_receiver [] fd rt size in Some (r, mem)
    else None in
  match t with
  | DLT_CONNECTION_CONTROL_CONNECT | DLT_CONNECTION_CONTROL_MSG | DLT_CONNECTION_CLIENT_CONNECT
  | DLT_CONNECTION_CLIENT_MSG_TCP => (fresh DLT_RECEIVE_SOCKET DLT_DAEMON_RCVBUFSIZESOCK, app_recv_buffer)
  | DLT_CONNECTION_CLIENT_MSG_SERIAL => (fresh DLT_RECEIVE_FD DLT_DAEMON_RCVBUFSIZESERIAL, app_recv_buffer)
  | DLT_CONNECTION_APP_MSG =>
      let rt := match is_socket with Some true => DLT_RECEIVE_SOCKET | _ => DLT_RECEIVE_FD end in
      if calloc_ok then
        let '(_, r, g) := Receiver.dlt_receiver_init_global_buffer A zeroed_receiver fd rt app_recv_buffer in
        (Some (r, default [] g), g)
      else (None, app_recv_buffer)
  | DLT_CONNECTION_ONE_S_TIMER | DLT_CONNECTION_SIXTY_S_TIMER | DLT_CONNECTION_GATEWAY_TIMER =>
      (fresh DLT_RECEIVE_FD DLT_DAEMON_RCVBUFSIZE, app_recv_buffer)
  | DLT_CONNECTION_GATEWAY => (gateway, app_recv_buffer)
  | _ => (None, app_recv_buffer)
  end.

(** [recv] is what [dlt_connection_get_receiver] returned; [next_id] is the
    counter [connectionId] and [bits] the width of a pointer. *)
Inductive setsockopt_result := SockoptOk | SockoptNotSocket | SockoptError.
Definition next_connection_id (bits next_id : Z) : Z * Z :=
  if next_id =? 0 then (wrapu bits (next_id + 1), wrapu bits (next_id + 2)) else (next_id, wrapu bits (next_id + 1)).

Definition dlt_connection_create (malloc_ok realloc_ok : bool) (recv : option DltReceiver) (opt : setsockopt_result)
  (bits next_id : Z) (ev : DltEventHandler) (n fd mask : Z) (t : DltConnectionType)
  : option (Z * DltEventHandler * Z * Z) :=
  if fd <? 0 then Some (0, ev, n, next_id) else
  match dlt_event_handler_find_connection ev fd with
  | Some _ => Some (0, ev, n, next_id)
  | None =>
      if negb malloc_ok then Some (-1, ev, n, next_id) else
      match recv with
      | None => Some (-1, ev, n, next_id)
      | Some r =>
          match opt with
          | SockoptError => Some (-1, ev, n, next_id)
          | _ =>
              let '(i, next_id) := next_connection_id bits next_id in
              let c := {| id := i; receiver := Some r; type := t; status := ACTIVE; ev_mask := 0 |} in
              '(rc, ev, n) ← dlt_event_handler_register_connection realloc_ok ev n c mask;
              Some (rc, ev, n, next_id)
          end
      end
  end.

End EventHandler.
