(* ===== verification/EventHandlerSpec.v ===== *)
(** * The event handler as two lists

    Whatever connections are created and closed, the linked list holds exactly
    the open connections in the order of their creation, the poll table watches
    exactly their descriptors in the same order (unless the table could not
    grow), unused entries are empty, and the number of clients is exact. *)

From stdpp Require Import base list list_numbers numbers option.
From Stdlib Require Import ZArith Lia Bool.
From S2P Require Import Prelude Receiver EventHandler.
Import EventHandler.
Import Receiver (DltReceiver).

Local Open Scope Z_scope.

Module EventHandlerSpec.

(** ** The specification *)

Record spec := { s_conns : list (Z * DltConnectionType); s_watched : list Z; s_cap : Z }.

Inductive op :=
| Create (malloc_ok realloc_ok : bool) (recv : option DltReceiver) (opt : setsockopt_result) (fd mask : Z)
    (t : DltConnectionType)
| Close (fd : Z).

(** The receiver of a connection has its descriptor. *)
Definition wf_op (o : op) : Prop :=
  match o with Create _ _ (Some r) _ fd _ _ => Receiver.fd r = fd | _ => True end.

Definition known (s : spec) (fd : Z) : bool := bool_decide (fd ∈ (s_conns s).*1).

Definition spec_op (s : spec) (o : op) : Z * spec :=
  match o with
  | Create malloc_ok realloc_ok recv opt fd _ t =>
      if (fd <? 0) || known s fd then (0, s) else
      match malloc_ok, recv, opt with
      | true, Some _, (SockoptOk | SockoptNotSocket) =>
          let full := s_cap s <=? zlen (s_watched s) in
          (0, {| s_conns := s_conns s ++ [(fd, t)];
                 s_watched := if full && negb realloc_ok then s_watched s else s_watched s ++ [fd];
                 s_cap := if full && realloc_ok then 2 * s_cap s else s_cap s |})
      | _, _, _ => (-1, s)
      end
  | Close fd =>
      (if known s fd then 0 else -1,
       {| s_conns := filter (λ c, c.1 ≠ fd) (s_conns s); s_watched := filter (λ f, f ≠ fd) (s_watched s);
          s_cap := s_cap s |})
  end.

Definition exec_op (bits : Z) (st : DltEventHandler * Z * Z) (o : op) : option (Z * (DltEventHandler * Z * Z)) :=
  let '(ev, n, nid) := st in
  match o with
  | Create malloc_ok realloc_ok recv opt fd mask t =>
      '(rc, ev, n, nid) ← dlt_connection_create malloc_ok realloc_ok recv opt bits nid ev n fd mask t;
      Some (rc, (ev, n, nid))
  | Close fd =>
      '(rc, ev, n) ← dlt_event_handler_unregister_connection ev n fd;
      Some (rc, (ev, n, nid))
  end.

Fixpoint exec_ops (bits : Z) (st : DltEventHandler * Z * Z) (l : list op) : option (list Z * (DltEventHandler * Z * Z)) :=
  match l with
  | [] => Some ([], st)
  | o :: l => '(rc, st) ← exec_op bits st o; '(rcs, st) ← exec_ops bits st l; Some (rc :: rcs, st)
  end.
Fixpoint spec_ops (s : spec) (l : list op) : list Z * spec :=
  match l with
  | [] => ([], s)
  | o :: l => let '(rc, s) := spec_op s o in let '(rcs, s) := spec_ops s l in (rc :: rcs, s)
  end.

(** ** The invariant *)

(** An open connection. *)
Definition represents (c : DltConnection) (a : Z * DltConnectionType) : Prop :=
  ∃ r, receiver c = Some r ∧ Receiver.fd r = a.1 ∧ type c = a.2 ∧ status c = ACTIVE.

Record EH (ev : DltEventHandler) (n : Z) (s : spec) : Prop := {
  eh_conns : Forall2 represents (connections ev) (s_conns s);
  eh_table : ∃ live, pfd ev = live ++ replicate (Z.to_nat (s_cap s - nfds ev)) init_poll_fd ∧ pfd_fd <$> live = s_watched s;
  eh_nfds : nfds ev = zlen (s_watched s);
  eh_cap : max_nfds ev = s_cap s;
  eh_room : 0 < s_cap s ∧ nfds ev <= s_cap s;
  eh_clients : n = zlen (filter (λ c, Is_true (is_client c.2)) (s_conns s));
  eh_nodup : NoDup (s_conns s).*1;
  eh_nodup_watched : NoDup (s_watched s);
  eh_watched : s_watched s ⊆ (s_conns s).*1;
  eh_pos : Forall (λ fd, 0 <= fd) (s_conns s).*1
}.

(** ** The poll table *)

Definition misses (fd : Z) (e : pollfd) : Prop := pfd_fd e <> fd.

(** One round at an entry of another descriptor. *)
Lemma disable_miss n (P R : list pollfd) x j fd nf :
  misses fd x ->
  disable_loop (S n) (length P) j fd (P ++ x :: R) nf =
    (p ← (if (length P =? j)%nat then Some (P ++ x :: R)
          else if zlen P <? nf then e ← (P ++ x :: R) !! j; Some (P ++ e :: R)
          else Some (P ++ init_poll_fd :: R));
     disable_loop n (S (length P)) (S j) fd p nf).
Proof.
  intros Hx. cbn [disable_loop]. rewrite list_lookup_middle by done. bsimp. rewrite eqb_false by exact Hx.
  destruct (length P =? j)%nat; [done|].
  assert (∀ e, <[length P := e]> (P ++ x :: R) = P ++ e :: R) as Ei.
  { intros e. rewrite insert_app_r_alt, Nat.sub_diag by lia. done. }
  rewrite Ei. case_match; [|done]. destruct ((P ++ x :: R) !! j); bsimp; by rewrite ?Ei.
Qed.

(** After the hit every entry moves one place forward. *)
Lemma disable_moves fd (R : list pollfd) : ∀ B P x,
  misses fd x -> Forall (misses fd) B ->
  disable_loop (S (length B)) (length P) (S (length P)) fd (P ++ x :: B ++ R) (Z.of_nat (length P + length B)) =
    Some (P ++ B ++ init_poll_fd :: R, Z.of_nat (length P + length B)).
Proof.
  intros B. induction B as [|y B IH]; intros P x Hx HB; rewrite disable_miss by done;
    rewrite (proj2 (Nat.eqb_neq _ _)) by lia.
  - rewrite ltb_false by (cbn; lia). done.
  - apply Forall_cons_1 in HB as [Hy HB]. cbn [length app]. rewrite ltb_true by lia.
    rewrite (cons_middle x P), app_assoc, list_lookup_middle by (rewrite length_app; cbn; lia). bsimp.
    specialize (IH (P ++ [y]) y Hy HB). rewrite length_app in IH. cbn [length] in IH. rewrite <-!app_assoc in IH. cbn [app] in IH.
    replace (length P + 1)%nat with (S (length P)) in IH by lia.
    replace (length P + S (length B))%nat with (S (length P) + length B)%nat by lia. exact IH.
Qed.

(** Before the hit nothing changes. *)
Lemma disable_prefix fd (R : list pollfd) n nf A : ∀ P, Forall (misses fd) A ->
  disable_loop (length A + n) (length P) (length P) fd (P ++ A ++ R) nf =
  disable_loop n (length (P ++ A)) (length (P ++ A)) fd ((P ++ A) ++ R) nf.
Proof.
  induction A as [|y A IH]; intros P HA; cbn [length Nat.add app]; [by rewrite app_nil_r|].
  apply Forall_cons_1 in HA as [Hy HA]. rewrite disable_miss by done. rewrite Nat.eqb_refl. bsimp.
  specialize (IH (P ++ [y]) HA). rewrite length_app, <-!app_assoc in IH. cbn [length app] in IH.
  rewrite <-!app_assoc. replace (length P + 1)%nat with (S (length P)) in IH by lia. exact IH.
Qed.

Lemma disable_hit fd (A B R : list pollfd) x :
  fd <> -1 -> pfd_fd x = fd -> Forall (misses fd) A -> Forall (misses fd) B ->
  disable_loop (length (A ++ x :: B)) 0 0 fd ((A ++ x :: B) ++ R) (zlen (A ++ x :: B)) =
    Some ((A ++ B) ++ init_poll_fd :: R, zlen (A ++ B)).
Proof.
  intros Hfd Hx HA HB. pose proof (disable_prefix fd (x :: B ++ R) (S (length B)) (zlen (A ++ x :: B)) A [] HA) as E.
  rewrite <-(app_assoc A (x :: B)), !length_app in *. cbn [app length Nat.add] in *. rewrite E. clear E.
  pose proof (disable_moves fd R B A init_poll_fd ltac:(unfold misses; cbn; lia) HB) as M.
  rewrite disable_miss in M by (unfold misses; cbn; lia). rewrite (proj2 (Nat.eqb_neq _ _)) in M by lia.
  cbn [disable_loop]. rewrite list_lookup_middle by done. bsimp. rewrite eqb_true by done.
  rewrite insert_app_r_alt, Nat.sub_diag by lia. cbn [insert list_insert]. rewrite (proj2 (Nat.eqb_neq _ _)) by lia.
  replace (Z.of_nat (length A + S (length B)) - 1) with (Z.of_nat (length A + length B)) by lia.
  rewrite <-app_assoc, <-M. case_match; [|by rewrite insert_app_r_alt, Nat.sub_diag by lia].
  destruct ((A ++ init_poll_fd :: B ++ R) !! S (length A)); bsimp; [by rewrite insert_app_r_alt, Nat.sub_diag by lia|done].
Qed.

Lemma filter_all {A} (P : A -> Prop) `{∀ x, Decision (P x)} (l : list A) : Forall P l -> filter P l = l.
Proof. induction 1 as [|x l Hx _ IH]; [done|]. by rewrite filter_cons_True, IH. Qed.

(** Removing a descriptor from the table keeps the others in their order. *)
Lemma disable_fd_filter ev fd live (R : list pollfd) :
  fd <> -1 -> pfd ev = live ++ R -> nfds ev = zlen live -> NoDup (pfd_fd <$> live) ->
  ∃ live' k, dlt_event_handler_disable_fd ev fd =
      Some (set_table ev (live' ++ replicate k init_poll_fd ++ R) (zlen live') (max_nfds ev)) ∧
    pfd_fd <$> live' = filter (λ f, f ≠ fd) (pfd_fd <$> live) ∧ (length live' + k = length live)%nat.
Proof.
  intros Hfd Hp Hn Hd. unfold dlt_event_handler_disable_fd. rewrite Hp, Hn, Nat2Z.id.
  destruct (decide (fd ∈ pfd_fd <$> live)) as [Hin|Hout].
  - apply list_elem_of_fmap in Hin as (x & -> & (A & B & ->)%list_elem_of_split).
    rewrite fmap_app, fmap_cons in Hd. apply list.NoDup_app in Hd as (_ & HdA & HdB). apply list.NoDup_cons in HdB as [HxB _].
    assert (Forall (misses (pfd_fd x)) A ∧ Forall (misses (pfd_fd x)) B) as [HA HB].
    { split; apply list.Forall_forall; intros y Hy E.
      - apply (HdA (pfd_fd x)); [rewrite <-E; by apply list_elem_of_fmap_2|left].
      - apply HxB. rewrite <-E. by apply list_elem_of_fmap_2. }
    rewrite disable_hit by done. bsimp. exists (A ++ B), 1%nat. split; [done|].
    rewrite !fmap_app, fmap_cons, list.filter_app, filter_cons_False by naive_solver.
    rewrite !filter_all by (by apply Forall_fmap). split; [done|]. rewrite !length_app. cbn. lia.
  - assert (Forall (misses fd) live) as HA.
    { apply list.Forall_forall. intros y Hy E. apply Hout. rewrite <-E. by apply list_elem_of_fmap_2. }
    pose proof (disable_prefix fd R 0 (zlen live) live [] HA) as E. rewrite Nat.add_0_r in E. cbn [app length] in E.
    rewrite E. bsimp. exists live, 0%nat. split; [done|]. split; [|lia].
    symmetry. apply filter_all. by apply Forall_fmap.
Qed.

(** ** The list of connections *)

Lemma has_fd_represents fd c a : represents c a -> has_fd fd c = bool_decide (a.1 = fd).
Proof.
  intros (r & Hr & Hf & _). unfold has_fd. rewrite Hr, Hf. destruct (decide (a.1 = fd)) as [->|E].
  - by rewrite Z.eqb_refl, bool_decide_true.
  - by rewrite eqb_false, bool_decide_false.
Qed.

Lemma find_conn_spec fd cs (l : list (Z * DltConnectionType)) :
  Forall2 represents cs l -> NoDup l.*1 ->
  match find_conn fd cs with
  | None => fd ∉ l.*1
  | Some k => ∃ c a, cs !! k = Some c ∧ l !! k = Some a ∧ represents c a ∧ a.1 = fd ∧
                delete k l = filter (λ c, c.1 ≠ fd) l
  end.
Proof.
  induction 1 as [|c a cs l Hca Hl IH]; intros Hd; cbn [find_conn].
  { apply not_elem_of_nil. }
  rewrite fmap_cons in Hd. apply list.NoDup_cons in Hd as [Ha Hd]. specialize (IH Hd). rewrite (has_fd_represents _ _ _ Hca).
  destruct (decide (a.1 = fd)) as [E|E]; [rewrite bool_decide_true by done|rewrite bool_decide_false by done].
  - exists c, a. split_and!; [done..|]. rewrite filter_cons_False by naive_solver. cbn [delete list_delete].
    symmetry. apply filter_all. apply list.Forall_forall. intros b Hb Hbf. apply Ha. rewrite E, <-Hbf. by apply list_elem_of_fmap_2.
  - destruct (find_conn fd cs) as [k|]; cbn [fmap option_fmap option_map].
    + destruct IH as (c' & a' & H1 & H2 & H3 & H4 & H5). exists c', a'. split_and!; [done..|].
      rewrite filter_cons_True by done. by rewrite <-H5.
    + rewrite fmap_cons, not_elem_of_cons. by split.
Qed.

Lemma Forall2_delete {A B} (R : A -> B -> Prop) l k i : Forall2 R l k -> Forall2 R (delete i l) (delete i k).
Proof. intros H. revert i. induction H as [|x y l k Hxy Hl IH]; intros [|i]; cbn; [done..|]. constructor; [done|apply IH]. Qed.

Lemma delete_insert_list {A} (l : list A) i x : delete i (<[i := x]> l) = delete i l.
Proof. revert i. induction l as [|y l IH]; intros [|i]; cbn; [done..|]. f_equal. apply IH. Qed.

(** The number of clients when one connection is removed. *)
Lemma clients_delete (l : list (Z * DltConnectionType)) k a :
  l !! k = Some a ->
  zlen (filter (λ c, Is_true (is_client c.2)) l) =
    zlen (filter (λ c, Is_true (is_client c.2)) (delete k l)) + (if is_client a.2 then 1 else 0).
Proof.
  revert k. induction l as [|b l IH]; intros [|k] H; [done|done| |].
  - change (delete 0%nat (b :: l)) with l. injection H as ->. destruct (is_client a.2) eqn:E.
    + rewrite filter_cons_True by (by rewrite E). cbn [length]. lia.
    + rewrite filter_cons_False by (rewrite E; tauto). lia.
  - change (delete (S k) (b :: l)) with (b :: delete k l). rewrite !filter_cons. specialize (IH k H).
    destruct (decide (Is_true (is_client b.2))); cbn [length]; lia.
Qed.

Lemma filter_fst fd (l : list (Z * DltConnectionType)) :
  (filter (λ c, c.1 ≠ fd) l).*1 = filter (λ f, f ≠ fd) l.*1.
Proof.
  induction l as [|a l IH]; [done|]. rewrite fmap_cons, !filter_cons.
  destruct (decide (a.1 = fd)); [rewrite !decide_False by tauto; done|]. rewrite !decide_True by done.
  rewrite fmap_cons. by rewrite IH.
Qed.

Lemma close_refines ev n s fd :
  EH ev n s -> ∃ rc ev' n', dlt_event_handler_unregister_connection ev n fd = Some (rc, ev', n') ∧
    rc = (spec_op s (Close fd)).1 ∧ EH ev' n' (spec_op s (Close fd)).2.
Proof.
  intros H. unfold dlt_event_handler_unregister_connection, dlt_event_handler_find_connection, spec_op, known.
  pose proof (find_conn_spec fd _ _ (eh_conns _ _ _ H) (eh_nodup _ _ _ H)) as F.
  destruct (find_conn fd (connections ev)) as [k|].
  - destruct F as (c & a & Hc & Ha & (r & Hr & Hf & Ht & Hs) & Hfd & Hdel). rewrite Hc. bsimp.
    assert (fd ∈ (s_conns s).*1) as Hin by (apply list_elem_of_fmap; exists a; split; [done|by eapply list_elem_of_lookup_2]).
    rewrite bool_decide_true by done.
    destruct (eh_table _ _ _ H) as (live & Hp & Hl). assert (nfds ev = zlen live) as Hn.
    { rewrite (eh_nfds _ _ _ H), <-Hl, length_fmap. done. }
    assert (0 <= fd) as Hpos by (pose proof (eh_pos _ _ _ H) as P; rewrite list.Forall_forall in P; by apply P).
    destruct (disable_fd_filter ev fd live _ ltac:(lia) Hp Hn) as (live' & j & Ed & El & Ej); [rewrite Hl; apply H|].
    unfold dlt_connection_check_activate. rewrite Hc. bsimp. rewrite Hr, Hs, Hf, Hfd, Ed. bsimp.
    unfold dlt_daemon_remove_connection, update_connection. cbn [connections set_connections set_table].
    rewrite list_lookup_insert_eq by (by eapply lookup_lt_Some). set (c' := set_status _ INACTIVE).
    assert (∃ r', receiver c' = Some r') as (r' & ->) by (subst c'; case_decide; cbn; eauto). bsimp.
    do 3 eexists. split; [reflexivity|]. split; [done|].
    rewrite delete_insert_list. pose proof (clients_delete _ _ _ Ha) as Hcl. rewrite Hdel in Hcl.
    pose proof (eh_clients _ _ _ H) as Hn'. pose proof (eh_room _ _ _ H) as [Hr1 Hr2].
    assert (zlen live' = zlen (filter (λ f, f ≠ fd) (s_watched s))) as Hw by (rewrite <-Hl, <-El, length_fmap; done).
    split; cbn [s_conns s_watched s_cap connections pfd nfds max_nfds set_connections set_table snd].
    + rewrite <-Hdel. apply Forall2_delete, H.
    + exists live'. split; [|by rewrite El, Hl]. rewrite <-replicate_add. do 2 f_equal. lia.
    + done.
    + apply H.
    + lia.
    + rewrite Ht, Hn', Hcl. destruct (is_client a.2); [rewrite ltb_false by lia|]; lia.
    + rewrite filter_fst. apply list.NoDup_filter, H.
    + apply list.NoDup_filter, H.
    + intros f [Hf1 Hf2]%list_elem_of_filter. rewrite filter_fst. apply list_elem_of_filter. split; [done|].
      by apply (eh_watched _ _ _ H).
    + rewrite filter_fst. pose proof (eh_pos _ _ _ H) as P. rewrite list.Forall_forall in *.
      intros f [_ Hf']%list_elem_of_filter. by apply P.
  - rewrite bool_decide_false by done. do 3 eexists. split; [reflexivity|]. split; [done|].
    replace (filter _ (s_conns s)) with (s_conns s). replace (filter _ (s_watched s)) with (s_watched s); [by destruct s|..].
    + symmetry. apply filter_all. apply list.Forall_forall. intros f Hf ->. apply F. by apply (eh_watched _ _ _ H).
    + symmetry. apply filter_all. apply list.Forall_forall. intros a Ha E. apply F. rewrite <-E. by apply list_elem_of_fmap_2.
Qed.

Lemma enable_fd_appends realloc_ok ev n s fd mask :
  EH ev n s ->
  let full := s_cap s <=? zlen (s_watched s) in
  ∃ ev', dlt_event_handler_enable_fd realloc_ok ev fd mask = Some ev' ∧ connections ev' = connections ev ∧
    let w := if full && negb realloc_ok then s_watched s else s_watched s ++ [fd] in
    let c := if full && realloc_ok then 2 * s_cap s else s_cap s in
    nfds ev' = zlen w ∧ max_nfds ev' = c ∧ nfds ev' <= c ∧ 0 < c ∧
    ∃ live, pfd ev' = live ++ replicate (Z.to_nat (c - nfds ev')) init_poll_fd ∧ pfd_fd <$> live = w.
Proof.
  intros H full. pose proof (eh_nfds _ _ _ H) as Hn. pose proof (eh_cap _ _ _ H) as Hc. pose proof (eh_room _ _ _ H) as [Hr1 Hr2].
  destruct (eh_table _ _ _ H) as (live & Hp & Hl). assert (length live = length (s_watched s)) as Ll by (rewrite <-Hl; by rewrite length_fmap).
  unfold dlt_event_handler_enable_fd. rewrite Hc, Hn. fold full. destruct full eqn:Ef; cbn [andb].
  - apply Z.leb_le in Ef. destruct realloc_ok; cbn [negb].
    + cbn [pfd nfds max_nfds set_table]. rewrite Hp, Nat2Z.id, <-Ll, take_app_length.
      replace (Z.to_nat (2 * s_cap s - zlen live)) with (S (Z.to_nat (2 * s_cap s - (zlen live + 1)))) by lia.
      cbn [replicate]. rewrite list_lookup_middle by done. bsimp. eexists. split; [reflexivity|].
      cbn [pfd nfds max_nfds set_table connections]. rewrite length_app. cbn [length]. split_and!; [done|lia|done|lia|lia|].
      eexists (live ++ [_]). rewrite insert_app_r_alt, Nat.sub_diag by lia. cbn [insert list_insert].
      rewrite fmap_app, Hl, <-app_assoc. split; [reflexivity|done].
    + exists ev. rewrite Hn, Hc. split_and!; [done|done|done|done|lia|lia|]. exists live. by rewrite Hp, Hn.
  - apply Z.leb_gt in Ef. cbn [pfd nfds max_nfds]. rewrite Hp, Hn, Nat2Z.id, <-Ll.
    replace (Z.to_nat (s_cap s - zlen live)) with (S (Z.to_nat (s_cap s - (zlen live + 1)))) by lia.
    cbn [replicate]. rewrite list_lookup_middle by done. bsimp. eexists. split; [reflexivity|].
    cbn [pfd nfds max_nfds set_table connections]. rewrite length_app. cbn [length]. split_and!; [done|lia|done|lia|lia|].
    eexists (live ++ [_]). rewrite insert_app_r_alt, Nat.sub_diag by lia. cbn [insert list_insert].
    rewrite fmap_app, Hl, <-app_assoc. split; [reflexivity|done].
Qed.

(** The table does not depend on the list of connections. *)
Lemma enable_fd_connections realloc_ok ev cs fd mask :
  dlt_event_handler_enable_fd realloc_ok (set_connections ev cs) fd mask =
    (e ← dlt_event_handler_enable_fd realloc_ok ev fd mask; Some (set_connections e cs)).
Proof.
  unfold dlt_event_handler_enable_fd. cbn [max_nfds nfds pfd set_connections].
  destruct (max_nfds ev <=? nfds ev), realloc_ok; cbn [andb negb max_nfds nfds pfd set_table set_connections];
    try reflexivity; by destruct (_ !! _).
Qed.

Lemma EH_known ev n s fd :
  EH ev n s -> dlt_event_handler_find_connection ev fd = None <-> known s fd = false.
Proof.
  intros H. pose proof (find_conn_spec fd _ _ (eh_conns _ _ _ H) (eh_nodup _ _ _ H)) as F.
  unfold dlt_event_handler_find_connection, known. destruct (find_conn fd (connections ev)) as [k|].
  - destruct F as (c & a & _ & Ha & _ & <- & _). rewrite bool_decide_true; [done|].
    apply list_elem_of_fmap_2. by eapply list_elem_of_lookup_2.
  - by rewrite bool_decide_false.
Qed.

(** The code has returned; the rest is known. *)
Local Ltac returned := do 4 eexists; (split; [reflexivity|]); by split.

Lemma create_refines bits ev n nid s o :
  EH ev n s -> wf_op o ->
  match o with
  | Create m re recv opt fd mask t =>
      ∃ rc ev' n' nid', dlt_connection_create m re recv opt bits nid ev n fd mask t = Some (rc, ev', n', nid') ∧
        rc = (spec_op s o).1 ∧ EH ev' n' (spec_op s o).2
  | Close _ => True
  end.
Proof.
  intros H Hwf. destruct o as [m re recv opt fd mask t|]; [|done]. cbn [spec_op]. unfold dlt_connection_create.
  pose proof (EH_known ev n s fd H) as Hk. destruct (Z.ltb_spec fd 0) as [Hneg|Hpos]; cbn [orb]; [returned|].
  destruct (dlt_event_handler_find_connection ev fd) eqn:Ek.
  { destruct (known s fd); [returned|]. destruct Hk as [_ Hk]. by specialize (Hk eq_refl). }
  rewrite (proj1 Hk eq_refl). destruct m; cbn [negb]; [|returned]. destruct recv as [r|]; [|returned].
  assert (opt = SockoptError ∨ opt <> SockoptError) as [->|Ho] by (destruct opt; auto); [returned|].
  cbn [wf_op] in Hwf. destruct (next_connection_id bits nid) as [i nid'] eqn:En.
  set (s' := {| s_conns := _ |}). set (c := {| id := i; receiver := Some r; type := t; status := ACTIVE; ev_mask := 0 |}).
  assert (∃ ev', dlt_event_handler_register_connection re ev n c mask =
            Some (0, ev', if is_client t then n + 1 else n) ∧ EH ev' (if is_client t then n + 1 else n) s') as (ev' & E & H').
  { unfold dlt_event_handler_register_connection, dlt_connection_check_activate. cbn [receiver c type].
    unfold update_connection, dlt_daemon_add_connection. cbn [connections set_connections].
    rewrite insert_app_r_alt, Nat.sub_diag by lia. cbn [insert list_insert]. rewrite list_lookup_middle by done. bsimp.
    cbn [receiver set_mask set_status status type ev_mask c]. set (ev1 := set_connections _ _).
    unfold ev1. rewrite Hwf, !enable_fd_connections. fold ev1.
    destruct (enable_fd_appends re ev n s fd mask H) as (e & -> & Hc & Hn & Hm & Hle & Hlt & Ht). bsimp.
    eexists. split; [reflexivity|]. cbn [connections set_connections ev1].
    rewrite insert_app_r_alt, Nat.sub_diag by lia. cbn [insert list_insert].
    pose proof (proj1 Hk eq_refl) as Hnew. unfold known in Hnew. apply bool_decide_eq_false in Hnew.
    split; cbn [s_conns s_watched s_cap s' connections pfd nfds max_nfds set_connections]; try done.
    - apply Forall2_app; [apply H|]. constructor; [|done]. by exists r.
    - rewrite list.filter_app, length_app, (eh_clients _ _ _ H). destruct (is_client t) eqn:Et.
      + rewrite filter_cons_True by (cbn [snd]; by rewrite Et). cbn [length filter list_filter]. lia.
      + rewrite filter_cons_False by (cbn [snd]; rewrite Et; tauto). cbn [length filter list_filter]. lia.
    - rewrite fmap_app. apply list.NoDup_app. split; [apply H|]. split; [|apply list.NoDup_singleton].
      intros f Hf Hf'. apply list_elem_of_singleton in Hf' as ->. done.
    - destruct (_ && negb re); [apply H|]. apply list.NoDup_app. split; [apply H|]. split; [|apply list.NoDup_singleton].
      intros f Hf Hf'. apply list_elem_of_singleton in Hf' as ->. apply Hnew. by apply (eh_watched _ _ _ H).
    - rewrite fmap_app. destruct (_ && negb re); intros f Hf; apply elem_of_app.
      + left. by apply (eh_watched _ _ _ H).
      + apply elem_of_app in Hf as [Hf|Hf]; [left; by apply (eh_watched _ _ _ H)|by right].
    - rewrite fmap_app. apply Forall_app. split; [apply H|]. by constructor. }
  destruct opt; [| |done]; rewrite E; bsimp; returned.
Qed.

Lemma exec_event_op_refines bits ev n nid s o :
  EH ev n s -> wf_op o ->
  ∃ rc ev' n' nid', exec_op bits (ev, n, nid) o = Some (rc, (ev', n', nid')) ∧
    rc = (spec_op s o).1 ∧ EH ev' n' (spec_op s o).2.
Proof.
  intros H Hwf. pose proof (create_refines bits ev n nid s o H Hwf) as C. destruct o as [m re recv opt fd mask t|fd]; cbn [exec_op].
  - destruct C as (rc & ev' & n' & nid' & -> & C). bsimp. by exists rc, ev', n', nid'.
  - destruct (close_refines ev n s fd H) as (rc & ev' & n' & -> & C'). bsimp. by exists rc, ev', n', nid.
Qed.

Definition empty_spec : spec := {| s_conns := []; s_watched := []; s_cap := DLT_EV_BASE_FD |}.

Lemma prepared_EH ev : connections ev = [] -> EH (dlt_daemon_prepare_event_handling true ev).2 0 empty_spec.
Proof.
  intros Hc. split; cbn [snd dlt_daemon_prepare_event_handling set_table connections pfd nfds max_nfds empty_spec s_conns s_watched s_cap];
    try done; try (by constructor).
  - by rewrite Hc.
  - by exists [].
Qed.

(** C37: Starting with an empty event handler, every sequence of connections that
    are opened and closed, with every answer of the operating system, gives the
    return codes of the specification; then the list holds exactly the open
    connections in the order of their creation, the poll table watches exactly
    their descriptors (those are left out for which it could not grow), and
    [client_connections] is the number of open client connections. *)
Theorem event_handler_refines bits ev nid (l : list op) :
  connections ev = [] -> Forall wf_op l ->
  let s := (spec_ops empty_spec l).2 in
  ∃ ev' n' nid', exec_ops bits ((dlt_daemon_prepare_event_handling true ev).2, 0, nid) l =
      Some ((spec_ops empty_spec l).1, (ev', n', nid')) ∧
    Forall2 represents (connections ev') (s_conns s) ∧
    pfd_fd <$> take (Z.to_nat (nfds ev')) (pfd ev') = s_watched s ∧
    n' = zlen (filter (λ c, Is_true (is_client c.2)) (s_conns s)) ∧ NoDup (s_conns s).*1.
Proof.
  intros Hc Hwf s. pose proof (prepared_EH ev Hc) as H. subst s.
  set (s0 := empty_spec) in *. set (ev0 := (dlt_daemon_prepare_event_handling true ev).2) in *. set (n0 := 0) in *.
  clearbody s0 ev0 n0. clear Hc ev. revert ev0 n0 nid s0 H.
  induction Hwf as [|o l Ho Hwf IH]; intros ev n nid s H; cbn [exec_ops spec_ops].
  - exists ev, n, nid. split; [done|]. destruct (eh_table _ _ _ H) as (live & Hp & Hl).
    assert (Z.to_nat (nfds ev) = length live) as -> by (rewrite (eh_nfds _ _ _ H), <-Hl, length_fmap; lia).
    rewrite Hp, take_app_length. split_and!; [apply H|done|apply H|apply H].
  - destruct (exec_event_op_refines bits ev n nid s o H Ho) as (rc & ev1 & n1 & nid1 & -> & -> & H1). bsimp.
    destruct (spec_op s o) as [rc s1]. cbn [fst snd] in *.
    destruct (IH ev1 n1 nid1 s1 H1) as (ev' & n' & nid' & -> & Hr). bsimp.
    destruct (spec_ops s1 l) as [rcs s2]. by exists ev', n', nid'.
Qed.

(** Three clients and a timer; the second client is closed. *)
Definition receiver_of (fd : Z) : DltReceiver := set_fd zeroed_receiver fd.
Definition open_fd (fd : Z) (t : DltConnectionType) : op := Create true true (Some (receiver_of fd)) SockoptOk fd 1 t.
Definition some_ops : list op :=
  [open_fd 5 DLT_CONNECTION_CLIENT_MSG_TCP; open_fd 6 DLT_CONNECTION_ONE_S_TIMER; open_fd 7 DLT_CONNECTION_CLIENT_MSG_TCP;
   open_fd 8 DLT_CONNECTION_CLIENT_MSG_SERIAL; Close 7; Close 7].

Lemma event_handler_refines_witness :
  ∃ ev' n' nid', exec_ops 64 ((dlt_daemon_prepare_event_handling true
        {| pfd := []; nfds := 0; max_nfds := 0; connections := [] |}).2, 0, 0) some_ops =
      Some ([0; 0; 0; 0; 0; -1], (ev', n', nid')) ∧
    pfd_fd <$> take (Z.to_nat (nfds ev')) (pfd ev') = [5; 6; 8] ∧ n' = 2.
Proof.
  destruct (event_handler_refines 64 {| pfd := []; nfds := 0; max_nfds := 0; connections := [] |} 0 some_ops)
    as (ev' & n' & nid' & E & _ & Hw & Hn & _).
  - reflexivity.
  - repeat constructor.
  - exists ev', n', nid'. split; [exact E|]. split; [exact Hw|exact Hn].
Defined.

End EventHandlerSpec.
