(* ===== verification/DaemonSend.v ===== *)
(** * How the daemon sends messages to its clients
    ([src/daemon/dlt_daemon_client.c], [src/daemon/dlt-daemon.c],
    [dlt_daemon_connection.c], [dlt_daemon_socket.c], [dlt_daemon_serial.c])

    A message goes to all clients while the daemon is in the state SEND_DIRECT
    and into its ring buffer otherwise.  A client to which sending fails is closed,
    which sends messages itself (the connection info and a log message): these
    functions call each other recursively.  Each is defined over [send], the
    function that sends; [client_send] ties the knot with fuel.

    [os] is the operating system: the [n]-th call of [send], [write] or [writev]
    does what [script n] says ([send] and [write] of at least one byte transfer at
    least one byte or fail).  What is written is recorded per descriptor.
    The log storage and the offline trace are used through what they are given
    and what the storage answers. *)

From stdpp Require Import base list numbers option.
From Stdlib Require Import ZArith Lia Bool.
From S2P Require Import Prelude Protocol Ids RingBuffer Message Filter DltFile UserLog UserShared Payload.
From S2P Require Import Receiver DaemonTables EventHandler.
Import Protocol UserShared.
Import EventHandler (DltEventHandler, DltConnection, DltConnectionType(..)).

Local Open Scope Z_scope.

Module DaemonSend.

Definition DLT_DAEMON_ERROR_OK : Z := 0.
Definition DLT_DAEMON_ERROR_UNKNOWN : Z := -1.
Definition DLT_DAEMON_ERROR_BUFFER_FULL : Z := -2.
Definition DLT_DAEMON_ERROR_SEND_FAILED : Z := -3.
Definition DLT_DAEMON_SEND_TO_ALL : Z := -3.
Definition DLT_DAEMON_SEND_FORCE : Z := -4.
Definition DLT_USER_MODE_EXTERNAL : Z := 1.
Definition DLT_USER_MODE_INTERNAL : Z := 2.
Definition DLT_USER_MODE_BOTH : Z := 3.
Definition DLT_LOG_INFO : Z := 4.
Definition DLT_MSIN_CONTROL_RESPONSE : Z := 38.
Definition DLT_MSIN_CONTROL_TIME : Z := 54.
Definition DLT_CONNECTION_STATUS_DISCONNECTED : Z := 1.
Definition DLT_CONNECTION_STATUS_CONNECTED : Z := 2.
Definition DLT_MESSAGE_BUFFER_OVERFLOW : Z := 1.
Definition DLT_SERVICE_RESPONSE_OK : Z := 0.
Definition DLT_SERVICE_RESPONSE_NOT_SUPPORTED : Z := 1.
Definition DLT_SERVICE_RESPONSE_ERROR : Z := 2.
Definition DLT_SERVICE_ID_GET_DEFAULT_LOG_LEVEL : Z := 4.
Definition DLT_SERVICE_ID_GET_SOFTWARE_VERSION : Z := 19.
Definition DLT_SERVICE_ID_MESSAGE_BUFFER_OVERFLOW : Z := 20.
Definition DLT_SERVICE_ID_UNREGISTER_CONTEXT : Z := 3841.
Definition DLT_SERVICE_ID_CONNECTION_INFO : Z := 3842.
Definition DLT_SERVICE_ID_TIMEZONE : Z := 3843.
Definition DLT_SERVICE_ID_MARKER : Z := 3844.
(** "DA1", "DC1", "DLTD", "INTM". *)
Definition DLT_DAEMON_CTRL_APID : bytes := [68; 65; 49; 0].
Definition DLT_DAEMON_CTRL_CTID : bytes := [68; 67; 49; 0].
Definition DLT_DAEMON_APP_ID : bytes := [68; 76; 84; 68; 0].
Definition DLT_DAEMON_CTX_ID : bytes := [73; 78; 84; 77; 0].

Inductive DltDaemonState :=
| DLT_DAEMON_STATE_INIT
| DLT_DAEMON_STATE_BUFFER
| DLT_DAEMON_STATE_BUFFER_FULL
| DLT_DAEMON_STATE_SEND_BUFFER
| DLT_DAEMON_STATE_SEND_DIRECT.
#[export] Instance DltDaemonState_eq_dec : EqDecision DltDaemonState.
Proof. solve_decision. Defined.

(** ** The operating system *)

(** [polls n] is whether [poll] before call [n] succeeds and reports [POLLOUT];
    a failed [poll] sets neither [EPIPE] nor [EBADF]. *)
Record os := {
  script : nat -> outcome;
  polls : nat -> option bool;
  calls : nat;
  last_errno : errno;
  out : list (Z * bytes)
}.

Definition wrote (o : os) (e : errno) (fd : Z) (d : bytes) : os :=
  {| script := script o; polls := polls o; calls := S (calls o); last_errno := e; out := out o ++ [(fd, d)] |}.

(** [send] and [write] of a non-empty buffer: the number of bytes or -1. *)
Definition sys_write (o : os) (fd : Z) (d : bytes) : Z * os :=
  match script o (calls o) with
  | WriteAll => (zlen d, wrote o (last_errno o) fd d)
  | WriteSome n e => let n := Nat.min (Nat.max 1 n) (length d) in (Z.of_nat n, wrote o e fd (take n d))
  | WriteError e => (-1, wrote o e fd [])
  end.

(** The loop of [dlt_daemon_socket_sendreliable]; every round transfers a byte. *)
Fixpoint sendreliable (n : nat) (o : os) (fd : Z) (d : bytes) : option (Z * os) :=
  match d with
  | [] => Some (DLT_DAEMON_ERROR_OK, o)
  | _ =>
      match n with
      | O => None
      | S n =>
          let '(ret, o) := sys_write o fd d in
          if ret <? 0 then Some (DLT_DAEMON_ERROR_SEND_FAILED, o)
          else sendreliable n o fd (drop (Z.to_nat ret) d)
      end
  end.
Definition dlt_daemon_socket_sendreliable (o : os) (fd : Z) (d : bytes) : option (Z * os) :=
  sendreliable (length d) o fd d.

(** [if (data && (ret == OK) && (size > 0)) ret = f(data)]. *)
Definition and_send (f : os -> bytes -> option (Z * os)) (d : option bytes) (r : Z * os) : option (Z * os) :=
  match d with
  | Some ((_ :: _) as d) => if r.1 =? DLT_RETURN_OK then f r.2 d else Some r
  | _ => Some r
  end.

Definition dlt_daemon_socket_send (o : os) (sock : Z) (data1 data2 : option bytes) (serialheader : bool)
  : option (Z * os) :=
  r ← (if serialheader then dlt_daemon_socket_sendreliable o sock Message.dltSerialHeader else Some (DLT_RETURN_OK, o));
  r ← and_send (λ o, dlt_daemon_socket_sendreliable o sock) data1 r;
  and_send (λ o, dlt_daemon_socket_sendreliable o sock) data2 r.

(** [if (0 > write(...)) return DLT_DAEMON_ERROR_SEND_FAILED;] *)
Definition serial_write (sock : Z) (o : os) (d : bytes) : option (Z * os) :=
  let '(ret, o) := sys_write o sock d in
  Some (if ret <? 0 then DLT_DAEMON_ERROR_SEND_FAILED else DLT_DAEMON_ERROR_OK, o).
Definition dlt_daemon_serial_send (o : os) (sock : Z) (data1 data2 : option bytes) (serialheader : bool)
  : option (Z * os) :=
  r ← (if serialheader then serial_write sock o Message.dltSerialHeader else Some (DLT_DAEMON_ERROR_OK, o));
  r ← and_send (serial_write sock) data1 r;
  and_send (serial_write sock) data2 r.

Definition dlt_connection_send (c : DltConnection) (o : os) (msg : bytes) : option (Z * os) :=
  match EventHandler.receiver c with
  | None => Some (DLT_DAEMON_ERROR_UNKNOWN, o)
  | Some r =>
      match EventHandler.type c with
      | DLT_CONNECTION_CLIENT_MSG_SERIAL =>
          match msg with
          | [] => Some (DLT_DAEMON_ERROR_UNKNOWN, o)
          | _ => let '(ret, o) := sys_write o (Receiver.fd r) msg in
                 Some (if 0 <? ret then DLT_DAEMON_ERROR_OK else DLT_DAEMON_ERROR_UNKNOWN, o)
          end
      | DLT_CONNECTION_CLIENT_MSG_TCP => dlt_daemon_socket_sendreliable o (Receiver.fd r) msg
      | _ => Some (DLT_DAEMON_ERROR_UNKNOWN, o)
      end
  end.

Definition dlt_connection_send_multiple (c : DltConnection) (o : os) (data1 data2 : option bytes)
  (sendserialheader : bool) : option (Z * os) :=
  r ← (if sendserialheader then dlt_connection_send c o Message.dltSerialHeader else Some (0, o));
  r ← and_send (dlt_connection_send c) data1 r;
  and_send (dlt_connection_send c) data2 r.

(** ** The daemon *)

Record daemon := {
  tables : DaemonTables.DltDaemon;
  state : DltDaemonState;
  mode : Z;
  client_ringbuffer : RingBuffer.DltBuffer;
  overflow_counter : Z;
  connectionState : Z;
  timingpackets : Z;
  event : DltEventHandler;
  client_connections : Z;
  sent_message_overflow_cnt : Z;   (** static in [dlt_daemon_client_send] *)
  uiMsgCount : Z;                  (** static in [dlt_daemon_log_internal] *)
  offline_trace : list bytes;      (** what was given to [dlt_offline_trace_write] *)
  sys : os
}.

Definition set_daemon (d : daemon) (t : DaemonTables.DltDaemon) (s : DltDaemonState) (r : RingBuffer.DltBuffer)
  (ovf cs : Z) (ev : DltEventHandler) (n cnt mc : Z) (tr : list bytes) (o : os) : daemon :=
  {| tables := t; state := s; mode := mode d; client_ringbuffer := r; overflow_counter := ovf; connectionState := cs;
     timingpackets := timingpackets d; event := ev; client_connections := n; sent_message_overflow_cnt := cnt;
     uiMsgCount := mc; offline_trace := tr; sys := o |}.
Definition set_tables d t := set_daemon d t (state d) (client_ringbuffer d) (overflow_counter d) (connectionState d)
  (event d) (client_connections d) (sent_message_overflow_cnt d) (uiMsgCount d) (offline_trace d) (sys d).
Definition dlt_daemon_change_state d s := set_daemon d (tables d) s (client_ringbuffer d) (overflow_counter d)
  (connectionState d) (event d) (client_connections d) (sent_message_overflow_cnt d) (uiMsgCount d) (offline_trace d) (sys d).
Definition set_ring d r := set_daemon d (tables d) (state d) r (overflow_counter d) (connectionState d)
  (event d) (client_connections d) (sent_message_overflow_cnt d) (uiMsgCount d) (offline_trace d) (sys d).
Definition set_overflow d n := set_daemon d (tables d) (state d) (client_ringbuffer d) n (connectionState d)
  (event d) (client_connections d) (sent_message_overflow_cnt d) (uiMsgCount d) (offline_trace d) (sys d).
Definition set_connection_state d n := set_daemon d (tables d) (state d) (client_ringbuffer d) (overflow_counter d) n
  (event d) (client_connections d) (sent_message_overflow_cnt d) (uiMsgCount d) (offline_trace d) (sys d).
Definition set_event d ev n := set_daemon d (tables d) (state d) (client_ringbuffer d) (overflow_counter d)
  (connectionState d) ev n (sent_message_overflow_cnt d) (uiMsgCount d) (offline_trace d) (sys d).
Definition set_sent_cnt d n := set_daemon d (tables d) (state d) (client_ringbuffer d) (overflow_counter d)
  (connectionState d) (event d) (client_connections d) n (uiMsgCount d) (offline_trace d) (sys d).
Definition set_msg_count d n := set_daemon d (tables d) (state d) (client_ringbuffer d) (overflow_counter d)
  (connectionState d) (event d) (client_connections d) (sent_message_overflow_cnt d) n (offline_trace d) (sys d).
Definition set_trace d tr := set_daemon d (tables d) (state d) (client_ringbuffer d) (overflow_counter d)
  (connectionState d) (event d) (client_connections d) (sent_message_overflow_cnt d) (uiMsgCount d) tr (sys d).
Definition set_sys d o := set_daemon d (tables d) (state d) (client_ringbuffer d) (overflow_counter d)
  (connectionState d) (event d) (client_connections d) (sent_message_overflow_cnt d) (uiMsgCount d) (offline_trace d) o.

(** Configuration and surroundings: [sendserialheader], whether the directory of
    the offline trace and the value of [-y] are set, the log storage (what it
    answers to a message, when devices are configured), [isatty], clocks, memory,
    and the uninitialised message on the stack. *)
Record env := {
  sendserialheader : bool;
  offlineTraceDirectory : bool;
  yvalue : bool;
  logstorage : option (bytes -> Z);
  isatty : Z -> bool;
  now_sec : Z;
  now_usec : Z;
  uptime : Z;
  getpid : Z;
  tm_gmtoff : Z;
  tm_isdst : Z;
  ECUVersionString : bytes;
  sendECUSoftwareVersion : bool;
  sendTimezone : bool;
  heap : allocator;
  pad : bytes;
  stack : Message.DltMessage
}.

(** [dlt_daemon_client_send]: the socket, the storage header, and the data. *)
Definition send_fn : Type := Z -> bytes -> bytes -> option bytes -> daemon -> option (Z * daemon).

(** ** Control messages *)

(** The headers of a control message: [WEID | WTMS | UEH], version 1, made at a
    time with the names [st] of the storage header and [ecuid].  The client library
    makes its requests in the same way.  [None] inside: the message is too long. *)
Definition control_htyp : Z := Z.lor (Z.lor (Z.lor DLT_HTYP_WEID DLT_HTYP_WTMS) DLT_HTYP_UEH) DLT_HTYP_PROTOCOL_VERSION1.
Definition control_headers_at (sec usec up : Z) (st ecuid : bytes) (msin noar : Z) (apid ctid : bytes)
  (m : Message.DltMessage) : option (option Message.DltMessage) :=
  sh ← mread (Message.headerbuffer m) 0 16;
  '(rc, sh) ← DltFile.dlt_set_storageheader sh (Some st) sec usec;
  if rc =? DLT_RETURN_ERROR then Some None else
  hb ← mwrite (Message.headerbuffer m) 0 sh;
  hb ← mwrite hb 16 [control_htyp; 0];
  e ← Filter.set_id (Message.ecu (Message.headerextra m)) ecuid;
  let x := {| Message.ecu := e; Message.seid := Message.seid (Message.headerextra m); Message.tmsp := up |} in
  let m := Message.set_pointers (Message.set_headerbuffer (Message.set_headerextra m x) hb) (Some 0) (Some 16) None in
  '(_, m) ← Message.dlt_message_set_extraparameters m;
  let o := 20 + DLT_STANDARD_HEADER_EXTRA_SIZE control_htyp in
  hb ← mwrite (Message.headerbuffer m) o [msin; noar];
  a ← mread hb (o + 2) 4;
  a ← Filter.set_id a apid;
  hb ← mwrite hb (o + 2) a;
  c ← mread hb (o + 6) 4;
  c ← Filter.set_id c ctid;
  hb ← mwrite hb (o + 6) c;
  let m := Message.set_pointers (Message.set_headerbuffer m hb) (Some 0) (Some 16) (Some o) in
  let hs := o + sizeof_DltExtendedHeader in
  let m := Message.set_sizes m hs (Message.datasize m) in
  let len := i32 (hs - sizeof_DltStorageHeader + Message.datasize m) in
  if 65535 <? len then Some None else
  hb ← mwrite (Message.headerbuffer m) 18 (le_bytes 2 (DLT_HTOBE_16 (u16 len)));
  Some (Some (Message.set_headerbuffer m hb)).

Definition control_headers (E : env) (ecuid : bytes) : Z -> Z -> bytes -> bytes -> Message.DltMessage -> option (option Message.DltMessage) :=
  control_headers_at (now_sec E) (now_usec E) (uptime E) ecuid ecuid.

(** [strcmp(id, "") == 0]. *)
Definition is_empty (id : bytes) : option bool := c ← id !! 0%nat; Some (c =? 0).

Definition send_message (send : send_fn) (sock : Z) (m : Message.DltMessage) (d : daemon) : option (Z * daemon) :=
  st ← mread (Message.headerbuffer m) 0 16;
  hdr ← mread (Message.headerbuffer m) 16 (Message.headersize m - 16);
  data ← (match Message.databuffer m with
          | Some b => p ← mread b 0 (Message.datasize m); Some (Some p)
          | None => Some None
          end);
  send sock st hdr data d.

Definition dlt_daemon_client_send_control_message (E : env) (send : send_fn) (sock : Z) (m : Message.DltMessage)
  (apid ctid : bytes) (d : daemon) : option (Z * daemon) :=
  ea ← is_empty apid;
  ec ← is_empty ctid;
  r ← control_headers E (DaemonTables.ecuid (tables d)) DLT_MSIN_CONTROL_RESPONSE 1
        (if (ea : bool) then DLT_DAEMON_CTRL_APID else apid) (if (ec : bool) then DLT_DAEMON_CTRL_CTID else ctid) m;
  match r with
  | None => Some (DLT_DAEMON_ERROR_UNKNOWN, d)
  | Some m => send_message send sock m d
  end.

(** Initialise a message, allocate its payload and send it; the payload assigns
    every byte of the allocation.  [None] inside: no memory. *)
Definition control_message (E : env) (send : send_fn) (sock : Z) (payload apid : bytes) (d : daemon)
  : option (option Z * daemon) :=
  let '(_, m) := Message.dlt_message_init (stack E) in
  match malloc (heap E) (zlen payload) with
  | None => Some (None, d)
  | Some _ =>
      let m := Message.set_databuffer (Message.set_sizes m (Message.headersize m) (zlen payload)) (Some payload) (zlen payload) in
      '(rc, d) ← dlt_daemon_client_send_control_message E send sock m apid [0] d;
      Some (Some rc, d)
  end.

(** [if (...) return -1; return 0;] *)
Definition minus_one (r : option (option Z * daemon)) : option (Z * daemon) :=
  '(rc, d) ← r; Some (match rc with Some 0 => 0 | _ => -1 end, d).

Definition dlt_daemon_control_service_response (E : env) (send : send_fn) (sock service_id status : Z) (d : daemon)
  : option daemon :=
  '(_, d) ← control_message E send sock (le_bytes 4 (u32 service_id) ++ [u8 status]) [0] d; Some d.

(** With the answer when there is no memory. *)
Definition or_response (E : env) (send : send_fn) (sock service_id : Z) (r : option (option Z * daemon)) : option daemon :=
  '(rc, d) ← r;
  match rc with
  | None => dlt_daemon_control_service_response E send sock service_id DLT_SERVICE_RESPONSE_ERROR d
  | Some _ => Some d
  end.

Definition dlt_daemon_control_get_software_version (E : env) (send : send_fn) (sock : Z) (d : daemon) : option daemon :=
  or_response E send sock DLT_SERVICE_ID_GET_SOFTWARE_VERSION
    (control_message E send sock
       (le_bytes 4 DLT_SERVICE_ID_GET_SOFTWARE_VERSION ++ [DLT_SERVICE_RESPONSE_OK]
          ++ le_bytes 4 (zlen (ECUVersionString E)) ++ ECUVersionString E) [0] d).

Definition dlt_daemon_control_get_default_log_level (E : env) (send : send_fn) (sock : Z) (d : daemon) : option daemon :=
  or_response E send sock DLT_SERVICE_ID_GET_DEFAULT_LOG_LEVEL
    (control_message E send sock
       (le_bytes 4 DLT_SERVICE_ID_GET_DEFAULT_LOG_LEVEL
          ++ [DLT_SERVICE_RESPONSE_OK; u8 (DaemonTables.default_log_level (tables d))]) [0] d).

Definition dlt_daemon_control_message_buffer_overflow (E : env) (send : send_fn) (sock overflow_counter : Z) (apid : bytes)
  (d : daemon) : option (Z * daemon) :=
  '(rc, d) ← control_message E send sock
    (le_bytes 4 DLT_SERVICE_ID_MESSAGE_BUFFER_OVERFLOW ++ [DLT_SERVICE_RESPONSE_OK; DLT_MESSAGE_BUFFER_OVERFLOW]
       ++ le_bytes 4 overflow_counter) apid d;
  Some (default DLT_DAEMON_ERROR_UNKNOWN rc, d).

Definition dlt_daemon_control_message_unregister_context (E : env) (send : send_fn) (sock : Z) (apid ctid comid : bytes)
  (d : daemon) : option (Z * daemon) :=
  a ← Filter.set_id [0; 0; 0; 0] apid;
  c ← Filter.set_id [0; 0; 0; 0] ctid;
  m ← Filter.set_id [0; 0; 0; 0] comid;
  minus_one (control_message E send sock
    (le_bytes 4 DLT_SERVICE_ID_UNREGISTER_CONTEXT ++ [DLT_SERVICE_RESPONSE_OK] ++ a ++ c ++ m) [0] d).

(** [comid] is always the empty string. *)
Definition dlt_daemon_control_message_connection_info (E : env) (send : send_fn) (sock st : Z) (d : daemon)
  : option (Z * daemon) :=
  c ← Filter.set_id [0; 0; 0; 0] [0];
  minus_one (control_message E send sock
    (le_bytes 4 DLT_SERVICE_ID_CONNECTION_INFO ++ [DLT_SERVICE_RESPONSE_OK; st] ++ c) [0] d).

Definition dlt_daemon_control_message_timezone (E : env) (send : send_fn) (sock : Z) (d : daemon) : option (Z * daemon) :=
  minus_one (control_message E send sock
    (le_bytes 4 DLT_SERVICE_ID_TIMEZONE ++ [DLT_SERVICE_RESPONSE_OK] ++ le_bytes 4 (u32 (tm_gmtoff E)) ++ [u8 (tm_isdst E)]) [0] d).

Definition dlt_daemon_control_message_marker (E : env) (send : send_fn) (sock : Z) (d : daemon) : option (Z * daemon) :=
  minus_one (control_message E send sock (le_bytes 4 DLT_SERVICE_ID_MARKER ++ [DLT_SERVICE_RESPONSE_OK]) [0] d).

(** The time message has no payload. *)
Definition dlt_daemon_control_message_time (E : env) (send : send_fn) (sock : Z) (d : daemon) : option daemon :=
  let '(_, m) := Message.dlt_message_init (stack E) in
  r ← control_headers E (DaemonTables.ecuid (tables d)) DLT_MSIN_CONTROL_TIME 0 [0] [0] m;
  match r with
  | None => Some d
  | Some m => '(_, d) ← send_message send sock m d; Some d
  end.

(** ** Log messages of the daemon *)

(** A zeroed message; [text] is the string without its terminator. *)
Definition log_headers (E : env) (d : daemon) (level size : Z) : option bytes :=
  let ecuid := DaemonTables.ecuid (tables d) in
  let hb := replicate 42 0 in
  sh ← mread hb 0 16;
  '(_, sh) ← DltFile.dlt_set_storageheader sh (Some ecuid) (now_sec E) (now_usec E);
  hb ← mwrite hb 0 sh;
  let htyp := Z.lor (Z.lor control_htyp DLT_HTYP_WSID) DLT_HTYP_UEH in
  hb ← mwrite hb 16 [htyp; uiMsgCount d];
  e ← mread hb 20 4;
  e ← Filter.set_id e ecuid;
  hb ← mwrite hb 20 e;
  hb ← mwrite hb 28 (le_bytes 4 (DLT_HTOBE_32 (uptime E)));
  hb ← mwrite hb 24 (le_bytes 4 (DLT_HTOBE_32 (u32 (getpid E))));
  let msin := u8 (Z.lor (Z.lor DLT_MSIN_VERB (Z.shiftl DLT_TYPE_LOG 1)) (Z.land (Z.shiftl level 4) DLT_MSIN_MTIN)) in
  hb ← mwrite hb 32 [msin; 1];
  a ← mread hb 34 4;
  a ← Filter.set_id a DLT_DAEMON_APP_ID;
  hb ← mwrite hb 34 a;
  c ← mread hb 38 4;
  c ← Filter.set_id c DLT_DAEMON_CTX_ID;
  hb ← mwrite hb 38 c;
  mwrite hb 18 (le_bytes 2 (DLT_HTOBE_16 (u16 (42 - 16 + size)))).

Definition dlt_daemon_log_internal (E : env) (send : send_fn) (text : bytes) (level : Z) (d : daemon)
  : option (Z * daemon) :=
  let uiSize := u16 (zlen text + 1) in
  let payload := le_bytes 4 UserLog.DLT_TYPE_INFO_STRG ++ le_bytes 2 uiSize ++ take (Z.to_nat uiSize) (text ++ [0]) in
  hb ← log_headers E d level (zlen payload);
  let d := set_msg_count d (u8 (uiMsgCount d + 1)) in
  match malloc (heap E) (zlen payload) with
  | None => Some (-1, d)
  | Some _ =>
      st ← mread hb 0 16;
      hdr ← mread hb 16 26;
      '(_, d) ← send DLT_DAEMON_SEND_TO_ALL st hdr (Some payload) d;
      Some (0, d)
  end.

(** ** Applications *)

(** [dlt_user_log_out2_with_timeout] to the pipe of an application; what it wrote
    is recorded. *)
Definition user_out2 (o : os) (handle : Z) (d1 d2 : bytes) : Z * os :=
  if handle <? 0 then (DLT_RETURN_ERROR, o) else
  let w := {| UserShared.script := script o; UserShared.calls := calls o; UserShared.pipe := [] |} in
  let '(rc, w) := dlt_user_log_out2_with_timeout w (polls o (calls o)) handle d1 d2 in
  (rc, {| script := script o; polls := polls o; calls := S (calls o);
          last_errno := match polls o (calls o), script o (calls o) with
                        | Some true, (WriteSome _ e | WriteError e) => e
                        | None, _ => EOTHER
                        | _, _ => last_errno o
                        end;
          out := out o ++ [(handle, UserShared.pipe w)] |}).

(** The application is entry [k] of list [i]. *)
Definition dlt_daemon_user_send_log_state (d : daemon) (i k : nat) : option (Z * daemon) :=
  a ← DaemonTables.get_app (tables d) i k;
  let '(rc, uh) := dlt_user_set_userheader (replicate 8 0) DLT_USER_MESSAGE_LOG_STATE in
  if rc <? DLT_RETURN_OK then Some (-1, d) else
  let '(ret, o) := user_out2 (sys d) (DaemonTables.App.user_handle a) uh [u8 (connectionState d)] in
  let d := set_sys d o in
  d ← (if ret <? DLT_RETURN_OK then
         match last_errno o with
         | EPIPE | EBADF => t ← DaemonTables.dlt_daemon_application_reset_user_handle (tables d) i k; Some (set_tables d t)
         | _ => Some d
         end
       else Some d);
  Some (if ret =? DLT_RETURN_OK then DLT_RETURN_OK else DLT_RETURN_ERROR, d).

Fixpoint send_log_states (n : nat) (k : nat) (i : nat) (d : daemon) : option daemon :=
  match n with
  | O => Some d
  | S n =>
      a ← DaemonTables.get_app (tables d) i k;
      d ← (if DaemonTables.DLT_FD_MINIMUM <=? DaemonTables.App.user_handle a
           then '(_, d) ← dlt_daemon_user_send_log_state d i k; Some d else Some d);
      send_log_states n (S k) i d
  end.
Definition dlt_daemon_user_send_all_log_state (d : daemon) : option daemon :=
  match DaemonTables.dlt_daemon_find_users_list (tables d) (DaemonTables.ecuid (tables d)) with
  | None => Some d
  | Some i =>
      u ← DaemonTables.user_list (tables d) !! i;
      send_log_states (Z.to_nat (DaemonTables.num_applications u)) 0 i d
  end.

(** ** Closing a connection *)

(** "Client connection #<sock> closed. Total Clients : <n>". *)
Definition closed_text (sock n : Z) : bytes :=
  [67; 108; 105; 101; 110; 116; 32; 99; 111; 110; 110; 101; 99; 116; 105; 111; 110; 32; 35] ++ Printf.dec sock
  ++ [32; 99; 108; 111; 115; 101; 100; 46; 32; 84; 111; 116; 97; 108; 32; 67; 108; 105; 101; 110; 116; 115; 32; 58; 32]
  ++ Printf.dec n.

Definition dlt_daemon_close_socket (E : env) (send : send_fn) (sock : Z) (d : daemon) : option (Z * daemon) :=
  '(_, ev, n) ← EventHandler.dlt_event_handler_unregister_connection (event d) (client_connections d) sock;
  let d := set_event d ev n in
  d ← (if client_connections d =? 0 then
         d ← dlt_daemon_user_send_all_log_state (set_connection_state d 0);
         Some (if negb (yvalue E) then dlt_daemon_change_state d DLT_DAEMON_STATE_BUFFER else d)
       else Some d);
  '(_, d) ← dlt_daemon_control_message_connection_info E send DLT_DAEMON_SEND_TO_ALL DLT_CONNECTION_STATUS_DISCONNECTED d;
  '(_, d) ← dlt_daemon_log_internal E send (closed_text sock (client_connections d)) DLT_LOG_INFO d;
  Some (0, d).

(** ** Sending to the clients *)

Definition is_tcp (t : DltConnectionType) : bool :=
  match t with DLT_CONNECTION_CLIENT_MSG_TCP => true | _ => false end.

(** The loop over the poll table; [n] bounds its rounds. *)
Fixpoint send_all_loop (n : nat) (E : env) (send : send_fn) (i : nat) (sent : bool) (data1 data2 : option bytes)
  (d : daemon) : option (bool * daemon) :=
  if Z.of_nat i <? EventHandler.nfds (event d) then
    match n with
    | O => None
    | S n =>
        e ← EventHandler.pfd (event d) !! i;
        match EventHandler.dlt_event_handler_find_connection (event d) (EventHandler.pfd_fd e) with
        | None => send_all_loop n E send (S i) sent data1 data2 d
        | Some k =>
            c ← EventHandler.connections (event d) !! k;
            r ← EventHandler.receiver c;
            if negb (EventHandler.is_client (EventHandler.type c)) then send_all_loop n E send (S i) sent data1 data2 d else
            '(ret, o) ← dlt_connection_send_multiple c (sys d) data1 data2 (sendserialheader E);
            let d := set_sys d o in
            d ← (if negb (ret =? DLT_DAEMON_ERROR_OK) && is_tcp (EventHandler.type c)
                 then '(_, d) ← dlt_daemon_close_socket E send (Receiver.fd r) d; Some d else Some d);
            send_all_loop n E send (S i) (if negb (ret =? DLT_DAEMON_ERROR_OK) then sent else true) data1 data2 d
        end
    end
  else Some (sent, d).
Definition dlt_daemon_client_send_all_multiple (E : env) (send : send_fn) (data1 data2 : option bytes) (d : daemon)
  : option (bool * daemon) :=
  send_all_loop (Z.to_nat (EventHandler.nfds (event d))) E send 0 false data1 data2 d.

Definition dlt_daemon_send_message_overflow (E : env) (send : send_fn) (d : daemon) : option (Z * daemon) :=
  dlt_daemon_control_message_buffer_overflow E send DLT_DAEMON_SEND_TO_ALL (overflow_counter d) [0] d.

(** To one client. *)
Definition send_to_socket (E : env) (sock : Z) (data1 data2 : option bytes) (d : daemon) : option (Z * daemon) :=
  '(ret, o) ← (if isatty E sock then dlt_daemon_serial_send (sys d) sock data1 data2 (sendserialheader E)
               else dlt_daemon_socket_send (sys d) sock data1 data2 (sendserialheader E));
  Some (ret, set_sys d o).

(** The offline trace and the log storage; the result is [ret_logstorage]. *)
Definition send_to_storage (E : env) (sock : Z) (msg : bytes) (d : daemon) : Z * daemon :=
  if negb (sock =? DLT_DAEMON_SEND_FORCE) && negb (bool_decide (state d = DLT_DAEMON_STATE_SEND_BUFFER)) then
    let d := if ((mode d =? DLT_USER_MODE_INTERNAL) || (mode d =? DLT_USER_MODE_BOTH)) && offlineTraceDirectory E
             then set_trace d (offline_trace d ++ [msg]) else d in
    (match logstorage E with Some f => f msg | None => 0 end, d)
  else (0, d).

(** The ring buffer. *)
Definition store_in_ring (E : env) (data1 : bytes) (data2 : option bytes) (d : daemon) : option (Z * daemon) :=
  d ← (if bool_decide (state d = DLT_DAEMON_STATE_BUFFER_FULL) then Some d else
       '(rb, ret) ← RingBuffer.dlt_buffer_push3 (heap E) (pad E) (client_ringbuffer d) (Some data1) (zlen data1)
                      data2 (zlen (default [] data2)) None 0;
       let d := set_ring d rb in
       Some (if ret <? DLT_RETURN_OK then dlt_daemon_change_state d DLT_DAEMON_STATE_BUFFER_FULL else d));
  if bool_decide (state d = DLT_DAEMON_STATE_BUFFER_FULL)
  then Some (DLT_DAEMON_ERROR_BUFFER_FULL, set_overflow d (u32 (overflow_counter d + 1)))
  else Some (DLT_DAEMON_ERROR_OK, d).

(** The announcement of lost messages, guarded against recursion. *)
Definition announce_lost (E : env) (send : send_fn) (d : daemon) : option daemon :=
  if (0 <? overflow_counter d) && (0 <? client_connections d) then
    let d := set_sent_cnt d (sent_message_overflow_cnt d + 1) in
    if 2 <=? sent_message_overflow_cnt d then Some (set_sent_cnt d (sent_message_overflow_cnt d - 1))
    else
      '(rc, d) ← dlt_daemon_send_message_overflow E send d;
      Some (if rc =? DLT_DAEMON_ERROR_OK then set_sent_cnt (set_overflow d 0) (sent_message_overflow_cnt d - 1) else d)
  else Some d.

Definition is_buffering (s : DltDaemonState) : bool :=
  match s with
  | DLT_DAEMON_STATE_BUFFER | DLT_DAEMON_STATE_SEND_BUFFER | DLT_DAEMON_STATE_BUFFER_FULL => true
  | _ => false
  end.

Definition client_send_body (E : env) (send : send_fn) : send_fn := λ sock storage data1 data2 d,
  if negb (sock =? DLT_DAEMON_SEND_TO_ALL) && negb (sock =? DLT_DAEMON_SEND_FORCE)
  then send_to_socket E sock (Some data1) data2 d else
  let '(ret_logstorage, d) := send_to_storage E sock (storage ++ data1 ++ default [] data2) d in
  '(failed, d) ← (if ((mode d =? DLT_USER_MODE_EXTERNAL) || (mode d =? DLT_USER_MODE_BOTH))
                     && ((sock =? DLT_DAEMON_SEND_FORCE) || bool_decide (state d = DLT_DAEMON_STATE_SEND_DIRECT))
                     && negb (ret_logstorage =? 1)
                  then '(sent, d) ← dlt_daemon_client_send_all_multiple E send (Some data1) data2 d;
                       Some ((sock =? DLT_DAEMON_SEND_FORCE) && negb sent, d)
                  else Some (false, d));
  if (failed : bool) then Some (DLT_DAEMON_ERROR_SEND_FAILED, d) else
  if negb (sock =? DLT_DAEMON_SEND_FORCE) && is_buffering (state d) then store_in_ring E data1 data2 d
  else d ← announce_lost E send d; Some (DLT_DAEMON_ERROR_OK, d).

(** [fuel] bounds the depth of the recursion. *)
Fixpoint dlt_daemon_client_send (fuel : nat) (E : env) : send_fn :=
  match fuel with
  | O => λ _ _ _ _ _, None
  | S fuel => client_send_body E (dlt_daemon_client_send fuel E)
  end.

(** ** Sending what the ring buffer holds *)

Definition DLT_DAEMON_RCVBUFSIZE : Z := 10024.

(** One round per message; [n] bounds their number.  A message that is longer
    than the static array is written out of its bounds. *)
Fixpoint flush_loop (n : nat) (E : env) (send : send_fn) (d : daemon) : option (Z * daemon) :=
  match n with
  | O => None
  | S n =>
      '(rb, len, data) ← RingBuffer.dlt_buffer_copy (heap E) (client_ringbuffer d) true DLT_DAEMON_RCVBUFSIZE;
      if DLT_DAEMON_RCVBUFSIZE <? zlen data then None else
      let d := set_ring d rb in
      if negb (0 <? len) then Some (DLT_DAEMON_ERROR_OK, d) else
      '(ret, d) ← send DLT_DAEMON_SEND_FORCE [] data None d;
      if negb (ret =? 0) then Some (ret, d) else
      '(rb, _, _) ← RingBuffer.dlt_buffer_remove (heap E) (client_ringbuffer d);
      let d := set_ring d rb in
      let d := if bool_decide (state d = DLT_DAEMON_STATE_SEND_BUFFER) then d
               else dlt_daemon_change_state d DLT_DAEMON_STATE_SEND_BUFFER in
      if RingBuffer.dlt_buffer_get_message_count (client_ringbuffer d) <=? 0
      then Some (DLT_DAEMON_ERROR_OK, dlt_daemon_change_state d DLT_DAEMON_STATE_SEND_DIRECT)
      else flush_loop n E send d
  end.

(** [fuel] is the bound for [flush_loop]. *)
Definition dlt_daemon_send_ringbuffer_to_client (fuel : nat) (E : env) (send : send_fn) (d : daemon) : option (Z * daemon) :=
  if RingBuffer.dlt_buffer_get_message_count (client_ringbuffer d) <=? 0
  then Some (DLT_DAEMON_ERROR_OK, dlt_daemon_change_state d DLT_DAEMON_STATE_SEND_DIRECT)
  else flush_loop fuel E send d.

Definition dlt_daemon_process_one_s_timer (fuel : nat) (E : env) (send : send_fn) (d : daemon) : option (Z * daemon) :=
  d ← (match state d with
       | DLT_DAEMON_STATE_SEND_BUFFER | DLT_DAEMON_STATE_BUFFER_FULL =>
           '(_, d) ← dlt_daemon_send_ringbuffer_to_client fuel E send d; Some d
       | _ => Some d
       end);
  d ← (if negb (timingpackets d =? 0) && bool_decide (state d = DLT_DAEMON_STATE_SEND_DIRECT)
       then dlt_daemon_control_message_time E send DLT_DAEMON_SEND_TO_ALL d else Some d);
  Some (0, d).

Definition dlt_daemon_process_sixty_s_timer (E : env) (send : send_fn) (d : daemon) : option (Z * daemon) :=
  d ← (if sendECUSoftwareVersion E then dlt_daemon_control_get_software_version E send DLT_DAEMON_SEND_TO_ALL d else Some d);
  d ← (if sendTimezone E then '(_, d) ← dlt_daemon_control_message_timezone E send DLT_DAEMON_SEND_TO_ALL d; Some d else Some d);
  Some (0, d).

(** "New client connection #<sock> established, Total Clients : <n>". *)
Definition connected_text (sock n : Z) : bytes :=
  [78; 101; 119; 32; 99; 108; 105; 101; 110; 116; 32; 99; 111; 110; 110; 101; 99; 116; 105; 111; 110; 32; 35]
  ++ Printf.dec sock
  ++ [32; 101; 115; 116; 97; 98; 108; 105; 115; 104; 101; 100; 44; 32; 84; 111; 116; 97; 108; 32; 67; 108; 105; 101; 110; 116; 115;
      32; 58; 32] ++ Printf.dec n.

(** What [accept] gave, and what the creation of the connection finds. *)
Inductive accept_result := Accepted (sock : Z) | AcceptAborted | AcceptError.

Definition dlt_daemon_process_client_connect (fuel : nat) (E : env) (send : send_fn) (acc : accept_result)
  (create : DltEventHandler -> Z -> Z -> option (Z * DltEventHandler * Z)) (d : daemon) : option (Z * daemon) :=
  match acc with
  | AcceptAborted => Some (0, d)
  | AcceptError => Some (-1, d)
  | Accepted in_sock =>
      '(_, t) ← DaemonTables.dlt_daemon_applications_invalidate_fd (tables d) (DaemonTables.ecuid (tables d)) in_sock;
      '(_, t) ← DaemonTables.dlt_daemon_contexts_invalidate_fd t (DaemonTables.ecuid t) in_sock;
      let d := set_tables d t in
      '(rc, ev, n) ← create (event d) (client_connections d) in_sock;
      let d := set_event d ev n in
      if negb (rc =? 0) then Some (-1, d) else
      '(_, d) ← dlt_daemon_control_message_connection_info E send in_sock DLT_CONNECTION_STATUS_CONNECTED d;
      d ← (if sendECUSoftwareVersion E then
             d ← dlt_daemon_control_get_software_version E send DLT_DAEMON_SEND_TO_ALL d;
             if sendTimezone E
             then '(_, d) ← dlt_daemon_control_message_timezone E send DLT_DAEMON_SEND_TO_ALL d; Some d else Some d
           else Some d);
      '(_, d) ← dlt_daemon_log_internal E send (connected_text in_sock (client_connections d)) DLT_LOG_INFO d;
      if client_connections d =? 1 then
        let d := dlt_daemon_change_state d DLT_DAEMON_STATE_SEND_BUFFER in
        '(rc, d) ← dlt_daemon_send_ringbuffer_to_client fuel E send d;
        if rc =? -1 then Some (-1, d) else
        d ← dlt_daemon_user_send_all_log_state (set_connection_state d 1);
        Some (0, d)
      else Some (0, d)
  end.

End DaemonSend.
