(* ===== verification/DaemonKeptSpec.v ===== *)
(** * Tables that differ in settings only

    The functions that talk to applications change handles, log levels and trace
    statuses, never the applications and contexts themselves: the tables before
    and after are related entry by entry ([kept]). *)

From stdpp Require Import base sets list list_numbers numbers option.
From Stdlib Require Import ZArith Lia Bool.
From S2P Require Import Prelude Ids SortedTable DaemonTables DaemonTablesSpec DaemonContextsSpec.
Import Ids SortedTable DaemonTables DaemonTablesSpec DaemonContextsSpec.

Local Open Scope Z_scope.

Module DaemonKeptSpec.

(** The handle of an application stays or is lost. *)
Definition app_same (a a' : App.DltDaemonApplication) : Prop :=
  ∃ h o, a' = App.set_handle a h o ∧ (h = App.user_handle a ∨ h = DLT_FD_INIT).
(** Only the handle differs; or the settings, too. *)
Definition ctx_handle (c c' : Ctx.DltDaemonContext) : Prop := ∃ h, c' = Ctx.set_handle c h.
Definition ctx_same (c c' : Ctx.DltDaemonContext) : Prop := ∃ h ll ts, c' = Ctx.set_levels (Ctx.set_handle c h) ll ts.

#[export] Instance app_same_preorder : PreOrder app_same.
Proof.
  split.
  - intros a. exists (App.user_handle a), (App.owns_user_handle a). split; [by destruct a|by left].
  - intros a b c (h & o & -> & Hh) (h' & o' & -> & Hh'). exists h', o'. split; [done|]. cbn in Hh'.
    destruct Hh' as [->|]; [done|by right].
Qed.
#[export] Instance ctx_handle_preorder : PreOrder ctx_handle.
Proof.
  split.
  - intros c. exists (Ctx.user_handle c). by destruct c.
  - intros a b c (h & ->) (h' & ->). by exists h'.
Qed.
#[export] Instance ctx_same_preorder : PreOrder ctx_same.
Proof.
  split.
  - intros c. exists (Ctx.user_handle c), (Ctx.log_level c), (Ctx.trace_status c). by destruct c.
  - intros a b c (h & l & s & ->) (h' & l' & s' & ->). by exists h', l', s'.
Qed.

Lemma ctx_handle_same c c' : ctx_handle c c' -> ctx_same c c'.
Proof. intros (h & ->). exists h, (Ctx.log_level c), (Ctx.trace_status c). by destruct c. Qed.
Lemma app_same_key a a' : app_same a a' -> app_key a' = app_key a.
Proof. by intros (h & o & -> & _). Qed.
Lemma ctx_same_key c c' : ctx_same c c' -> ctx_key c' = ctx_key c.
Proof. by intros (h & l & s & ->). Qed.

Lemma Forall2_keys {A} (R : A -> A -> Prop) (key : A -> bytes) l l' :
  (∀ x x', R x x' -> key x' = key x) -> Forall2 R l l' -> key <$> l' = key <$> l.
Proof. intros HR. induction 1; [done|]. rewrite !fmap_cons. f_equal; [by apply HR|done]. Qed.

Lemma Forall2_transfer {A} (R : A -> A -> Prop) (P : A -> Prop) l l' :
  Forall2 R l l' -> (∀ x x', R x x' -> P x -> P x') -> Forall P l -> Forall P l'.
Proof.
  intros H HR. induction H as [|x x' l l' Hx H IH]; [done|].
  intros [H1 H2]%Forall_cons_1. apply Forall_cons_2; [by eapply HR|by apply IH].
Qed.

Lemma blocks_length {A} step n (t t' : option (list A)) : length <$> t' = length <$> t -> blocks step n t -> blocks step n t'.
Proof. destruct t, t'; try done. cbn. intros [= ->]. done. Qed.

Section kept.
Context (Q : Ctx.DltDaemonContext -> Ctx.DltDaemonContext -> Prop) `{!PreOrder Q}.

Record list_kept (u u' : DltDaemonRegisteredUsers) : Prop := {
  lk_ecu : ecu u' = ecu u;
  lk_napps : num_applications u' = num_applications u;
  lk_nctxs : num_contexts u' = num_contexts u;
  lk_apps : option_Forall2 (Forall2 app_same) (applications u) (applications u');
  lk_ctxs : option_Forall2 (Forall2 Q) (contexts u) (contexts u')
}.
Record kept (t t' : DltDaemon) : Prop := {
  kp_ecuid : ecuid t' = ecuid t;
  kp_lists : Forall2 list_kept (user_list t) (user_list t')
}.

#[export] Instance list_kept_preorder : PreOrder list_kept.
Proof.
  split.
  - intros u. split; done.
  - intros u v w [] []. split; [congruence..| |]; by etrans.
Qed.
#[export] Instance kept_preorder : PreOrder kept.
Proof.
  split.
  - intros t. by split.
  - intros t u v [] []. split; [congruence|by etrans].
Qed.

Lemma kept_find t t' e : kept t t' -> dlt_daemon_find_users_list t' e = dlt_daemon_find_users_list t e.
Proof.
  intros [_ H]. unfold dlt_daemon_find_users_list. generalize 0%nat.
  induction H as [|u u' l l' Hu H IH]; intros k; [done|]. cbn. rewrite (lk_ecu _ _ Hu). case_match; [done|apply IH].
Qed.
Lemma kept_lookup t t' i u : kept t t' -> user_list t !! i = Some u -> ∃ u', user_list t' !! i = Some u' ∧ list_kept u u'.
Proof. intros [_ H] Hu. by eapply Forall2_lookup_l. Qed.
Lemma kept_set_list t i u u' : user_list t !! i = Some u -> list_kept u u' -> kept t (set_list t i u').
Proof.
  intros Hu Hk. split; [done|]. cbn. rewrite <-(list_insert_id (user_list t) i u) at 1 by done.
  apply Forall2_insert; [|done]. reflexivity.
Qed.

Lemma live_apps_kept u u' : list_kept u u' -> Forall2 app_same (live_apps u) (live_apps u').
Proof.
  intros [_ Hn _ Ha _]. unfold live_apps. rewrite Hn. apply Forall2_take. destruct Ha; [done|constructor].
Qed.
Lemma live_ctxs_kept u u' : list_kept u u' -> Forall2 Q (live_ctxs u) (live_ctxs u').
Proof.
  intros [_ _ Hn _ Hc]. unfold live_ctxs. rewrite Hn. apply Forall2_take. destruct Hc; [done|constructor].
Qed.

Hypothesis HQ : ∀ c c', Q c c' -> Ctx.apid c' = Ctx.apid c ∧ Ctx.ctid c' = Ctx.ctid c.

Lemma list_kept_inv u u' : list_kept u u' -> apps_inv u -> ctxs_inv u -> apps_inv u' ∧ ctxs_inv u'.
Proof.
  intros H [Hb1 Hs1 Hi1] [Hb2 Hs2 Hi2]. pose proof (live_apps_kept _ _ H) as La. pose proof (live_ctxs_kept _ _ H) as Lc.
  destruct H as [_ Hn1 Hn2 Ha Hc]. split; split.
  - rewrite Hn1. eapply blocks_length; [|done]. destruct Ha; cbn; [|done]. f_equal. symmetry. by eapply Forall2_length.
  - eapply sorted_keys; [exact Hs1|]. eapply Forall2_keys; [|done]. apply app_same_key.
  - eapply Forall2_transfer; [exact La| |exact Hi1]. by intros a a' (h & o & -> & _).
  - rewrite Hn2. eapply blocks_length; [|done]. destruct Hc; cbn; [|done]. f_equal. symmetry. by eapply Forall2_length.
  - eapply sorted_keys; [exact Hs2|]. eapply Forall2_keys; [|done]. intros c c' [H1 H2]%HQ. unfold ctx_key. congruence.
  - eapply Forall2_transfer; [exact Lc| |exact Hi2]. intros c c' [H1 H2]%HQ. unfold good_ctx. by rewrite H1, H2.
Qed.
Lemma kept_ids_inv t t' : kept t t' -> daemon_inv t -> daemon_inv t'.
Proof.
  intros [_ H] Hd j u' Hu'. destruct (Forall2_lookup_r _ _ _ _ _ H Hu') as (u & Hu & Hk).
  destruct (Hd j u Hu) as [H1 H2]. by eapply list_kept_inv.
Qed.
End kept.

Lemma kept_inv Q t t' : (∀ c c', Q c c' -> ctx_same c c') -> kept Q t t' -> daemon_inv t -> daemon_inv t'.
Proof. intros HQ. apply kept_ids_inv. by intros c c' (h & l & s & ->)%HQ. Qed.

Arguments lk_ecu {Q u u'}.
Arguments lk_napps {Q u u'}.
Arguments lk_nctxs {Q u u'}.
Arguments kp_ecuid {Q t t'}.

Lemma kept_mono (Q Q' : Ctx.DltDaemonContext -> Ctx.DltDaemonContext -> Prop) t t' :
  (∀ c c', Q c c' -> Q' c c') -> kept Q t t' -> kept Q' t t'.
Proof.
  intros H [He Hl]. split; [done|]. eapply list.Forall2_impl; [exact Hl|]. intros u u' [? ? ? ? Hc]. split; try done.
  destruct Hc; constructor. by eapply list.Forall2_impl.
Qed.

(** Context [k] of list [i] is [c]. *)
Definition ctx_at (t : DltDaemon) (i k : nat) (c : Ctx.DltDaemonContext) : Prop :=
  ∃ u, user_list t !! i = Some u ∧ live_ctxs u !! k = Some c.

Lemma ctx_at_array t i k c : ctx_at t i k c ->
  ∃ u ctxs, user_list t !! i = Some u ∧ contexts u = Some ctxs ∧ ctxs !! k = Some c ∧ (k < Z.to_nat (num_contexts u))%nat.
Proof.
  intros (u & Hu & Hk). unfold live_ctxs in Hk. apply lookup_take_Some in Hk as [Hk Hn].
  destruct (contexts u) as [ctxs|] eqn:E; [|done]. by exists u, ctxs.
Qed.
Lemma ctx_at_kept Q t t' i k c : kept Q t t' -> ctx_at t i k c -> ∃ c', ctx_at t' i k c' ∧ Q c c'.
Proof.
  intros H (u & Hu & Hk). destruct (kept_lookup Q _ _ _ _ H Hu) as (u' & Hu' & Hl).
  destruct (Forall2_lookup_l _ _ _ _ _ (live_ctxs_kept Q _ _ Hl) Hk) as (c' & Hc' & HQ). exists c'. split; [by exists u'|done].
Qed.

Lemma map_first_Forall2 {A} (R : A -> A -> Prop) `{!Reflexive R} n (g : A -> A) l : (∀ x, R x (g x)) -> Forall2 R l (map_first n g l).
Proof.
  intros Hg. unfold map_first. rewrite <-(take_drop (Z.to_nat n) l) at 1. apply Forall2_app; [|reflexivity].
  apply Forall2_fmap_r, Forall_Forall2_diag, Forall_true. intros x. apply Hg.
Qed.

Lemma contexts_invalidate_kept t e fd :
  daemon_inv t -> ∃ rc t', dlt_daemon_contexts_invalidate_fd t e fd = Some (rc, t') ∧ kept ctx_handle t t'.
Proof.
  intros Hd. unfold dlt_daemon_contexts_invalidate_fd.
  destruct (dlt_daemon_find_users_list t e) as [i|] eqn:Ef; [|by eexists _, t].
  pose proof (find_users_lookup _ _ _ _ Ef) as Hi.
  destruct (lookup_lt_is_Some_2 (user_list t) i) as [u Hu]; [lia|]. rewrite Hu. bsimp.
  destruct (Z.leb_spec (num_contexts u) 0); [by eexists _, t|]. destruct (Hd i u Hu) as [_ [Hb _ _]].
  destruct (contexts u) as [ctxs|] eqn:Ec; [|cbn in Hb; lia]. destruct Hb as [Hn _]. bsimp.
  rewrite ltb_false by lia. eexists _, _. split; [reflexivity|]. apply (kept_set_list ctx_handle _ _ u); [done|].
  split; try done. cbn. rewrite Ec. constructor. apply map_first_Forall2; [apply _|].
  intros c. unfold reset_ctx_fd. case_match; [by eexists|reflexivity].
Qed.

Lemma reset_handle_kept t i k u a :
  daemon_inv t -> user_list t !! i = Some u -> live_apps u !! k = Some a ->
  ∃ t', dlt_daemon_application_reset_user_handle t i k = Some t' ∧ kept ctx_handle t t'.
Proof.
  intros Hd Hu Hk. unfold live_apps in Hk. apply lookup_take_Some in Hk as [Hk _].
  unfold dlt_daemon_application_reset_user_handle. rewrite Hu. bsimp.
  destruct (applications u) as [apps|] eqn:Ea; [|done]. cbn [default from_option id] in Hk. bsimp. rewrite Hk. bsimp.
  destruct (_ =? _); [by exists t|].
  destruct (contexts_invalidate_kept t (ecuid t) (App.user_handle a) Hd) as (rc & t1 & Ei & K1). rewrite Ei. bsimp.
  destruct (kept_lookup _ _ _ _ _ K1 Hu) as (u1 & Hu1 & L1). rewrite Hu1. bsimp. eexists. split; [reflexivity|].
  etrans; [exact K1|]. apply (kept_set_list ctx_handle _ _ u1); [done|]. split; try done. cbn.
  assert (applications u1 = Some apps) as ->.
  { destruct (contexts_invalidate_ok t (ecuid t) (App.user_handle a) (daemon_inv_shape t Hd)) as (rc' & t1' & E1 & _ & Hs & _).
    rewrite Ei in E1. injection E1 as _ <-. specialize (Hs i). unfold arr in Hs. rewrite Hu1, Hu in Hs. injection Hs as Hs _. by rewrite Hs, Ea. }
  constructor. rewrite <-(list_insert_id apps k a) at 1 by done. apply Forall2_insert; [reflexivity|]. eexists _, _. split; [done|by right].
Qed.

End DaemonKeptSpec.
