(* ===== verification/DaemonMessagesSpec.v ===== *)
(** * The messages the daemon makes itself

    The control messages and log messages of the daemon are encodings of well
    formed messages: what a client reads from its connection is parsed to the
    service, the status and the values that were meant. *)

From stdpp Require Import base sets list list_numbers numbers option.
From Stdlib Require Import ZArith Lia Bool.
From S2P Require Import Prelude Protocol Ids RingBuffer Message MessageSpec Filter DltFile UserLog UserShared Payload.
From S2P Require Import UserSendSpec DaemonTables EventHandler DaemonSend.
Import Protocol Ids DaemonSend.

Local Open Scope Z_scope.

Module DaemonMessagesSpec.

(** [dlt_set_id] makes [a] of the string [s]. *)
Definition id_of (s a : bytes) : Prop := length a = 4%nat ∧ ∀ old, length old = 4%nat -> Filter.set_id old s = Some a.

Lemma id_of_is_id i : is_id i -> id_of i i.
Proof. intros H. split; [by apply is_id_length|]. intros old Ho. by apply UserSendSpec.set_id_is_id. Qed.
Lemma four {A} (l : list A) : length l = 4%nat -> ∃ a b c d, l = [a; b; c; d].
Proof. destruct l as [|a [|b [|c [|d [|]]]]]; try done. by exists a, b, c, d. Qed.
Local Ltac concrete_id := split; [done|]; intros old (? & ? & ? & ? & ->)%four; reflexivity.
Lemma id_of_empty : id_of [0] [0; 0; 0; 0].
Proof. concrete_id. Qed.
Lemma id_of_app : id_of DLT_DAEMON_APP_ID [68; 76; 84; 68].
Proof. concrete_id. Qed.
Lemma id_of_ctx : id_of DLT_DAEMON_CTX_ID [73; 78; 84; 77].
Proof. concrete_id. Qed.
Lemma id_of_ctrl_app : id_of DLT_DAEMON_CTRL_APID DLT_DAEMON_CTRL_APID.
Proof. concrete_id. Qed.
Lemma id_of_ctrl_ctx : id_of DLT_DAEMON_CTRL_CTID DLT_DAEMON_CTRL_CTID.
Proof. concrete_id. Qed.

Record wf_env (E : env) : Prop := {
  we_hb : zlen (Message.headerbuffer (stack E)) = 42;
  we_ecu : length (Message.ecu (Message.headerextra (stack E))) = 4%nat;
  we_seid : 0 <= Message.seid (Message.headerextra (stack E)) < 4294967296;
  we_uptime : 0 <= uptime E < 4294967296;
  we_pad : length (pad E) = 3%nat
}.

(** ** Control messages *)

Definition control_at (seid up : Z) (ecuid : bytes) (msin noar : Z) (apid ctid payload : bytes) : MessageSpec.message :=
  {| MessageSpec.m_htyp := control_htyp; MessageSpec.m_mcnt := 0; MessageSpec.m_ecu := ecuid;
     MessageSpec.m_seid := seid; MessageSpec.m_tmsp := up;
     MessageSpec.m_ext := [msin; noar] ++ apid ++ ctid; MessageSpec.m_payload := payload |}.
Definition control_of (E : env) : bytes -> Z -> Z -> bytes -> bytes -> bytes -> MessageSpec.message :=
  control_at (Message.seid (Message.headerextra (stack E))) (uptime E).

Section control_at.
Context (seid up : Z) (ecuid : bytes) (msin noar : Z) (apid ctid a c payload : bytes).
Hypothesis (Hseid : 0 <= seid < 4294967296) (Hup : 0 <= up < 4294967296).
Hypothesis (Hecu : is_id ecuid) (Becu : is_bytes ecuid) (Hm : 0 <= msin < 256) (Hn : 0 <= noar < 256).
Hypothesis (Ha : id_of apid a) (Hc : id_of ctid c) (Ba : is_bytes a) (Bc : is_bytes c) (Bp : is_bytes payload).
Let M := control_at seid up ecuid msin noar a c payload.

Lemma control_at_len : MessageSpec.message_len M = 22 + zlen payload.
Proof.
  pose proof (is_id_length _ Hecu) as He. unfold MessageSpec.message_len, MessageSpec.extra, MessageSpec.ext.
  cbn [MessageSpec.m_htyp MessageSpec.m_ext MessageSpec.m_payload MessageSpec.m_ecu M control_at].
  change (DLT_IS_HTYP_WEID control_htyp) with true. change (DLT_IS_HTYP_WSID control_htyp) with false.
  change (DLT_IS_HTYP_WTMS control_htyp) with true. change (DLT_IS_HTYP_UEH control_htyp) with true. cbn iota.
  rewrite !length_app, length_be_bytes. destruct Ha as [-> _], Hc as [-> _]. cbn [length]. lia.
Qed.

Lemma control_at_wf : MessageSpec.message_len M < 65536 -> MessageSpec.wf_message M.
Proof.
  intros Hl. pose proof (is_id_length _ Hecu). destruct Ha as [La _], Hc as [Lc _]. split.
  - done.
  - done.
  - done.
  - done.
  - done.
  - cbn. rewrite length_app. lia.
  - unfold MessageSpec.encode, MessageSpec.std, MessageSpec.extra, MessageSpec.ext. rewrite !is_bytes_app. split_and!.
    + by apply MessageSpec.is_bytes_2.
    + apply is_bytes_be.
    + done.
    + constructor.
    + apply is_bytes_be.
    + cbn [MessageSpec.m_ext M control_at MessageSpec.m_htyp]. change (DLT_IS_HTYP_UEH control_htyp) with true. cbn iota.
      rewrite !is_bytes_app. split_and!; [by apply MessageSpec.is_bytes_2|done|done].
    + done.
  - done.
Qed.

End control_at.

Section control_headers_at.
Context (sec usec seid up : Z) (st st_id ecuid : bytes) (msin noar : Z) (apid ctid a c : bytes).
Hypothesis (Hseid : 0 <= seid < 4294967296) (Hup : 0 <= up < 4294967296).
Hypothesis (Hst : id_of st st_id) (Hecu : is_id ecuid) (Becu : is_bytes ecuid) (Hm : 0 <= msin < 256) (Hn : 0 <= noar < 256).
Hypothesis (Ha : id_of apid a) (Hc : id_of ctid c) (Ba : is_bytes a) (Bc : is_bytes c).
Let M0 := control_at seid up ecuid msin noar a c [].
Abbreviation headers_at := (control_headers_at sec usec up st ecuid msin noar apid ctid).

(** The headers are in the header buffer of the message, unless it is too long. *)
Lemma headers_at_written m :
  zlen (Message.headerbuffer m) = 42 -> length (Message.ecu (Message.headerextra m)) = 4%nat -> Message.seid (Message.headerextra m) = seid ->
  let len := i32 (22 + Message.datasize m) in
  (65535 < len ∧ headers_at m = Some None) ∨
  len <= 65535 ∧ ∃ m' sh rest, headers_at m = Some (Some m') ∧ zlen sh = 16 ∧
    Message.headerbuffer m' = sh ++ [control_htyp; 0] ++ le_bytes 2 (DLT_HTOBE_16 (u16 len)) ++ MessageSpec.extra M0
      ++ MessageSpec.m_ext M0 ++ rest ∧
    Message.headersize m' = 38 ∧ Message.databuffer m' = Message.databuffer m ∧ Message.datasize m' = Message.datasize m.
Proof.
  intros Lhb Lecu Hx len.
  assert (MessageSpec.wf_message M0) as WM.
  { apply (control_at_wf seid up ecuid msin noar apid ctid a c []); try done; [apply Forall_nil_2|].
    rewrite (control_at_len _ _ _ _ _ apid ctid) by done. cbn. lia. }
  pose proof (is_id_length _ Hecu) as Le. unfold control_headers_at.
  destruct (split_region (Message.headerbuffer m) 0 16) as (s0 & s1 & r0 & E0 & L0 & L1); [lia..|]. nils.
  cbn [app] in E0. rewrite E0. rewrite (mread_mid [] s1 r0) by (cbn; lia). bsimp.
  destruct (UserSendSpec.set_storageheader_string st st_id sec usec s1 (proj2 Hst) (proj1 Hst) L1) as (sh & -> & Lsh). bsimp.
  cbn [Z.eqb DLT_RETURN_OK DLT_RETURN_ERROR].
  rewrite (mwrite_mid [] s1 sh r0) by (cbn; lia). bsimp. cbn [app].
  rewrite E0, length_app in Lhb.
  destruct (split_region r0 2 2) as (o1 & o2 & r1 & -> & Lo1 & Lo2); [lia..|]. rewrite !length_app in Lhb.
  destruct (split_region r1 8 10) as (o3 & o4 & r3 & -> & Lo3 & Lo4); [lia..|]. rewrite !length_app in Lhb.
  rewrite (mwrite_mid sh o1) by (cbn [length]; lia). bsimp.
  rewrite UserSendSpec.set_id_is_id, Hx by done. bsimp.
  set (m0 := Message.set_pointers _ _ _ _).
  assert (Message.std_htyp m0 = Some control_htyp) as Hh.
  { unfold Message.std_htyp. cbn [m0 Message.standardheader Message.set_pointers Message.headerbuffer Message.set_headerbuffer].
    bsimp. rewrite lookup_app_r by lia. by replace (Z.to_nat 16 - length sh)%nat with 0%nat by lia. }
  pose proof (MessageSpec.length_extra M0 WM) as Lx. change (DLT_STANDARD_HEADER_EXTRA_SIZE (MessageSpec.m_htyp M0)) with 8 in Lx.
  rewrite (MessageSpec.set_extraparameters_spec m0 M0 (sh ++ [control_htyp; 0] ++ o2) o3 (o4 ++ r3) WM);
    [|exact Hh|done|cbn; by rewrite <-!app_assoc|rewrite !length_app; cbn [length]; lia|lia].
  bsimp. change (DLT_STANDARD_HEADER_EXTRA_SIZE control_htyp) with 8. change (20 + 8) with 28.
  cbn [Message.headerbuffer Message.set_headerextra Message.set_headerbuffer].
  set (p := (sh ++ [control_htyp; 0] ++ o2) ++ MessageSpec.extra M0).
  assert (zlen p = 28) as Lp by (unfold p; rewrite !length_app; cbn [length]; lia).
  rewrite (app_assoc _ (MessageSpec.extra M0)). fold p.
  destruct (split_region o4 2 4) as (x1 & x2 & x3 & -> & Lx1 & Lx2); [lia..|]. rewrite !length_app in Lo4. rewrite <-!app_assoc.
  rewrite (mwrite_mid p x1) by (cbn [length]; lia). bsimp. destruct Ha as [La Ia], Hc as [Lc Ic].
  rewrite (mread_mid2 p [msin; noar] x2) by (cbn [length]; lia). bsimp. rewrite Ia by lia. bsimp.
  rewrite (mwrite_mid2 p [msin; noar] x2) by (cbn [length]; lia). bsimp.
  rewrite (mread_mid3 p [msin; noar] a x3) by (cbn [length]; lia). bsimp. rewrite Ic by lia. bsimp.
  rewrite (mwrite_mid3 p [msin; noar] a x3) by (cbn [length]; lia). bsimp.
  cbn [Message.datasize Message.set_pointers Message.set_headerbuffer Message.set_headerextra Message.set_sizes Message.headerbuffer m0].
  unfold sizeof_DltExtendedHeader, sizeof_DltStorageHeader. replace (28 + 10 - 16 + Message.datasize m) with (22 + Message.datasize m) by lia.
  fold len. destruct (Z.ltb_spec 65535 len); [by left|right]. split; [done|].
  unfold p. rewrite <-!app_assoc. rewrite (mwrite_mid2 sh [_; _] o2) by (cbn [length]; rewrite ?length_le_bytes; lia). bsimp.
  do 3 eexists. split; [reflexivity|].
  cbn [Message.headerbuffer Message.headersize Message.set_headerbuffer Message.set_sizes Message.databuffer
       Message.datasize Message.set_pointers Message.set_headerextra].
  split_and!; [exact Lsh| |done|done|done]. cbn [MessageSpec.m_ext M0 control_at]. by rewrite <-!app_assoc.
Qed.

Lemma headers_at_ok payload m :
  let M := control_at seid up ecuid msin noar a c payload in
  zlen (Message.headerbuffer m) = 42 -> length (Message.ecu (Message.headerextra m)) = 4%nat -> Message.seid (Message.headerextra m) = seid ->
  Message.datasize m = zlen payload -> MessageSpec.message_len M < 65536 ->
  ∃ m' sh rest, headers_at m = Some (Some m') ∧
    Message.headerbuffer m' = sh ++ MessageSpec.headers M ++ rest ∧ zlen sh = 16 ∧
    Message.headersize m' = 38 ∧ Message.databuffer m' = Message.databuffer m ∧ Message.datasize m' = zlen payload.
Proof.
  intros M Lhb Lecu Hx Hd Hl. unfold M in Hl. rewrite (control_at_len _ _ _ _ _ apid ctid) in Hl by done.
  destruct (headers_at_written m Lhb Lecu Hx) as [[Hlong _]|(_ & m' & sh & rest & -> & Lsh & Hhb & Hhs & Hdb & Hds)];
    rewrite Hd, i32_small in * by lia; [lia|].
  exists m', sh, rest. split_and!; try done. rewrite Hhb.
  unfold MessageSpec.headers, MessageSpec.std, MessageSpec.ext. change (DLT_IS_HTYP_UEH (MessageSpec.m_htyp M)) with true. cbn iota.
  assert (MessageSpec.message_len M = 22 + zlen payload) as -> by (by apply (control_at_len _ _ _ _ _ apid ctid)). rewrite u16_small by lia. unfold DLT_HTOBE_16. rewrite le_bytes_swap_16 by lia.
  by rewrite <-!app_assoc.
Qed.

End control_headers_at.

(** The messages of the daemon: the message on the stack has the other fields. *)
Section control.
Context (E : env) (ecuid : bytes) (msin noar : Z) (apid ctid a c payload : bytes).
Hypothesis (WE : wf_env E) (Hecu : is_id ecuid) (Becu : is_bytes ecuid) (Hm : 0 <= msin < 256) (Hn : 0 <= noar < 256).
Hypothesis (Ha : id_of apid a) (Hc : id_of ctid c) (Ba : is_bytes a) (Bc : is_bytes c) (Bp : is_bytes payload).
Let M := control_of E ecuid msin noar a c payload.

Lemma control_len : MessageSpec.message_len M = 22 + zlen payload.
Proof. by apply (control_at_len _ _ _ _ _ apid ctid). Qed.
Lemma control_wf : MessageSpec.message_len M < 65536 -> MessageSpec.wf_message M.
Proof. apply (control_at_wf _ _ _ _ _ apid ctid); try done; apply WE. Qed.
End control.

Section control_headers.
Context (E : env) (ecuid : bytes) (msin noar : Z) (apid ctid a c : bytes).
Hypothesis (WE : wf_env E) (Hecu : is_id ecuid) (Becu : is_bytes ecuid) (Hm : 0 <= msin < 256) (Hn : 0 <= noar < 256).
Hypothesis (Ha : id_of apid a) (Hc : id_of ctid c) (Ba : is_bytes a) (Bc : is_bytes c).

Lemma control_headers_written m :
  zlen (Message.headerbuffer m) = 42 -> Message.headerextra m = Message.headerextra (stack E) ->
  let len := i32 (22 + Message.datasize m) in
  (65535 < len ∧ control_headers E ecuid msin noar apid ctid m = Some None) ∨
  len <= 65535 ∧ ∃ m' sh rest, control_headers E ecuid msin noar apid ctid m = Some (Some m') ∧ zlen sh = 16 ∧
    Message.headerbuffer m' = sh ++ [control_htyp; 0] ++ le_bytes 2 (DLT_HTOBE_16 (u16 len))
      ++ MessageSpec.extra (control_of E ecuid msin noar a c []) ++ MessageSpec.m_ext (control_of E ecuid msin noar a c []) ++ rest ∧
    Message.headersize m' = 38 ∧ Message.databuffer m' = Message.databuffer m ∧ Message.datasize m' = Message.datasize m.
Proof. intros Lhb Hx. apply (headers_at_written _ _ _ _ _ ecuid); try done; rewrite ?Hx; try done; (apply WE || by apply id_of_is_id). Qed.
Lemma control_headers_ok payload m :
  let M := control_of E ecuid msin noar a c payload in
  zlen (Message.headerbuffer m) = 42 -> Message.headerextra m = Message.headerextra (stack E) ->
  Message.datasize m = zlen payload -> MessageSpec.message_len M < 65536 ->
  ∃ m' sh rest, control_headers E ecuid msin noar apid ctid m = Some (Some m') ∧
    Message.headerbuffer m' = sh ++ MessageSpec.headers M ++ rest ∧ zlen sh = 16 ∧
    Message.headersize m' = 38 ∧ Message.databuffer m' = Message.databuffer m ∧ Message.datasize m' = zlen payload.
Proof. intros M Lhb Hx. apply (headers_at_ok _ _ _ _ _ ecuid); try done; rewrite ?Hx; try done; (apply WE || by apply id_of_is_id). Qed.

End control_headers.

(** A control message is sent as the encoding of its message. *)
Lemma control_message_sends E send sock payload apid a d :
  wf_env E -> is_id (DaemonTables.ecuid (tables d)) -> is_bytes (DaemonTables.ecuid (tables d)) ->
  apid = [0] ∧ a = DLT_DAEMON_CTRL_APID ∨ is_empty apid = Some false ∧ id_of apid a ∧ is_bytes a ->
  is_bytes payload -> zlen payload < 65000 ->
  let M := control_of E (DaemonTables.ecuid (tables d)) DLT_MSIN_CONTROL_RESPONSE 1 a DLT_DAEMON_CTRL_CTID payload in
  (malloc (heap E) (zlen payload) = None ∧ control_message E send sock payload apid d = Some (None, d)) ∨
  ∃ sh, zlen sh = 16 ∧ control_message E send sock payload apid d =
    ('(rc, d) ← send sock sh (MessageSpec.headers M) (Some payload) d; Some (Some rc, d)).
Proof.
  intros WE Hi Hb Hap Bp Lp M. unfold control_message. cbn [Message.dlt_message_init].
  destruct (malloc _ _); [right|by left]. set (m := Message.set_databuffer _ _ _). unfold dlt_daemon_client_send_control_message.
  assert (∃ ea, is_empty apid = Some ea ∧ id_of (if ea : bool then DLT_DAEMON_CTRL_APID else apid) a ∧ is_bytes a) as (ea & -> & Ha & Ba).
  { destruct Hap as [[-> ->]|(-> & Ha & Ba)]; [exists true|by exists false].
    split; [done|]. split; [apply id_of_ctrl_app|by apply is_bytes_forallb]. }
  bsimp. change (is_empty [0]) with (Some true). bsimp.
  assert (is_bytes DLT_DAEMON_CTRL_CTID) as Bc by (by apply is_bytes_forallb).
  assert (MessageSpec.message_len M < 65536) as Hl
    by (unfold M; rewrite (control_len _ _ _ _ _ _ _ _ _ Hi Ha id_of_ctrl_ctx); lia).
  destruct (control_headers_ok E (DaemonTables.ecuid (tables d)) DLT_MSIN_CONTROL_RESPONSE 1 _ _ a _ WE Hi Hb ltac:(done) ltac:(done)
    Ha id_of_ctrl_ctx Ba Bc payload m) as (m' & sh & rest & -> & Hhb & Lsh & Hhs & Hdb & Hds); [exact (we_hb _ WE)|reflexivity|reflexivity|exact Hl|].
  bsimp. exists sh. split; [done|]. unfold send_message. rewrite Hhb, Hhs, Hdb, Hds.
  assert (zlen (MessageSpec.headers M) = 22) as Lh.
  { pose proof (MessageSpec.length_encode M) as L. rewrite MessageSpec.encode_headers, length_app in L.
    unfold M in L at 3. rewrite (control_len _ _ _ _ _ _ _ _ _ Hi Ha id_of_ctrl_ctx) in L. cbn [MessageSpec.m_payload M control_of control_at] in L. lia. }
  fold M. assert (mread (sh ++ MessageSpec.headers M ++ rest) 0 16 = Some sh) as -> by (apply (mread_mid [] sh); [done|lia]).
  bsimp. rewrite (mread_mid sh) by lia. bsimp.
  cbn [m Message.databuffer Message.set_databuffer]. bsimp. 
  assert (mread payload 0 (zlen payload) = Some payload) as -> by (rewrite <-(app_nil_r payload) at 1; by apply (mread_mid [] payload)).
  done.
Qed.

(** A payload that does not fit into a message is not sent. *)
Lemma control_message_too_long E send sock payload d :
  wf_env E -> is_id (DaemonTables.ecuid (tables d)) -> is_bytes (DaemonTables.ecuid (tables d)) ->
  65513 < zlen payload <= 2147483600 ->
  control_message E send sock payload [0] d =
    Some (if malloc (heap E) (zlen payload) is Some _ then Some DLT_DAEMON_ERROR_UNKNOWN else None, d).
Proof.
  intros WE Hi Hb Hl. unfold control_message. cbn [Message.dlt_message_init]. destruct (malloc _ _); [|done].
  set (m := Message.set_databuffer _ _ _). unfold dlt_daemon_client_send_control_message. change (is_empty [0]) with (Some true). bsimp.
  assert (is_bytes DLT_DAEMON_CTRL_CTID) as Bc by (by apply is_bytes_forallb).
  assert (is_bytes DLT_DAEMON_CTRL_APID) as Ba by (by apply is_bytes_forallb).
  destruct (control_headers_written E (DaemonTables.ecuid (tables d)) DLT_MSIN_CONTROL_RESPONSE 1 _ _ _ _ WE Hi Hb ltac:(done) ltac:(done)
    id_of_ctrl_app id_of_ctrl_ctx Ba Bc m) as [[_ ->]|(Hs & _)]; [exact (we_hb _ WE)|reflexivity|by bsimp|].
  change (Message.datasize m) with (zlen payload) in Hs. rewrite i32_small in Hs by lia. lia.
Qed.

(** The time message has no payload. *)
Lemma time_message_sends E send sock d :
  wf_env E -> is_id (DaemonTables.ecuid (tables d)) -> is_bytes (DaemonTables.ecuid (tables d)) ->
  let M := control_of E (DaemonTables.ecuid (tables d)) DLT_MSIN_CONTROL_TIME 0 [0; 0; 0; 0] [0; 0; 0; 0] [] in
  ∃ sh, zlen sh = 16 ∧ dlt_daemon_control_message_time E send sock d =
    ('(_, d) ← send sock sh (MessageSpec.headers M) None d; Some d).
Proof.
  intros WE Hi Hb M. unfold dlt_daemon_control_message_time. cbn [Message.dlt_message_init]. set (m := Message.set_pointers _ _ _ _).
  assert (is_bytes [0; 0; 0; 0]) as B0 by (by apply is_bytes_forallb).
  destruct (control_headers_ok E (DaemonTables.ecuid (tables d)) DLT_MSIN_CONTROL_TIME 0 _ _ _ _ WE Hi Hb ltac:(done) ltac:(done)
    id_of_empty id_of_empty B0 B0 [] m) as (m' & sh & rest & -> & Hhb & Lsh & Hhs & Hdb & Hds);
    [exact (we_hb _ WE)|reflexivity|reflexivity| |].
  { rewrite (control_len _ _ _ _ _ _ _ _ _ Hi id_of_empty id_of_empty). cbn. lia. }
  bsimp. exists sh. split; [done|]. unfold send_message. rewrite Hhb, Hhs, Hdb, Hds. fold M.
  assert (zlen (MessageSpec.headers M) = 22) as Lh.
  { pose proof (MessageSpec.length_encode M) as L. rewrite MessageSpec.encode_headers, length_app in L.
    unfold M in L at 3. rewrite (control_len _ _ _ _ _ _ _ _ _ Hi id_of_empty id_of_empty) in L. cbn [MessageSpec.m_payload M control_of control_at length] in L. lia. }
  assert (mread (sh ++ MessageSpec.headers M ++ rest) 0 16 = Some sh) as -> by (apply (mread_mid [] sh); [done|lia]).
  bsimp. rewrite (mread_mid sh) by lia. bsimp. done.
Qed.

(** ** Log messages of the daemon *)

Definition log_htyp : Z := Z.lor (Z.lor control_htyp DLT_HTYP_WSID) DLT_HTYP_UEH.
Definition log_msin (level : Z) : Z :=
  u8 (Z.lor (Z.lor DLT_MSIN_VERB (Z.shiftl DLT_TYPE_LOG 1)) (Z.land (Z.shiftl level 4) DLT_MSIN_MTIN)).
Definition log_of (E : env) (d : daemon) (level : Z) (payload : bytes) : MessageSpec.message :=
  {| MessageSpec.m_htyp := log_htyp; MessageSpec.m_mcnt := uiMsgCount d;
     MessageSpec.m_ecu := DaemonTables.ecuid (tables d); MessageSpec.m_seid := u32 (getpid E);
     MessageSpec.m_tmsp := uptime E; MessageSpec.m_ext := [log_msin level; 1; 68; 76; 84; 68; 73; 78; 84; 77];
     MessageSpec.m_payload := payload |}.

Lemma log_len E d level payload : is_id (DaemonTables.ecuid (tables d)) ->
  MessageSpec.message_len (log_of E d level payload) = 26 + zlen payload.
Proof.
  intros Hi. pose proof (is_id_length _ Hi) as He. unfold MessageSpec.message_len, MessageSpec.extra, MessageSpec.ext.
  cbn [MessageSpec.m_htyp MessageSpec.m_ext MessageSpec.m_payload MessageSpec.m_ecu log_of].
  change (DLT_IS_HTYP_WEID log_htyp) with true. change (DLT_IS_HTYP_WSID log_htyp) with true.
  change (DLT_IS_HTYP_WTMS log_htyp) with true. change (DLT_IS_HTYP_UEH log_htyp) with true. cbn iota.
  rewrite !length_app, !length_be_bytes. cbn [length]. lia.
Qed.

(** The places of the fields. *)
Lemma log_fields (sh e s t l : bytes) h c x y :
  length sh = 16%nat -> length e = 4%nat -> length s = 4%nat -> length t = 4%nat -> length l = 2%nat ->
  (hb ← mwrite (replicate 42 0) 0 sh;
   hb ← mwrite hb 16 [h; c];
   _ ← mread hb 20 4;
   hb ← mwrite hb 20 e;
   hb ← mwrite hb 28 t;
   hb ← mwrite hb 24 s;
   hb ← mwrite hb 32 [x; y];
   _ ← mread hb 34 4;
   hb ← mwrite hb 34 [68; 76; 84; 68];
   _ ← mread hb 38 4;
   hb ← mwrite hb 38 [73; 78; 84; 77];
   mwrite hb 18 l) = Some (sh ++ [h; c] ++ l ++ e ++ s ++ t ++ [x; y; 68; 76; 84; 68; 73; 78; 84; 77]).
Proof.
  intros Hsh (? & ? & ? & ? & ->)%four (? & ? & ? & ? & ->)%four (? & ? & ? & ? & ->)%four Hl.
  do 16 (destruct sh as [|? sh]; [done|]). destruct sh; [|done]. by destruct l as [|? [|? [|]]].
Qed.

Lemma log_headers_ok E d level payload :
  wf_env E -> is_id (DaemonTables.ecuid (tables d)) -> zlen payload < 65000 ->
  ∃ sh, zlen sh = 16 ∧
    log_headers E d level (zlen payload) = Some (sh ++ MessageSpec.headers (log_of E d level payload)).
Proof.
  intros WE Hi Lp. unfold log_headers. pose proof (is_id_length _ Hi) as He.
  destruct (UserSendSpec.set_storageheader_total (DaemonTables.ecuid (tables d)) (now_sec E) (now_usec E) (replicate 16 0) Hi eq_refl)
    as (sh & Es & Lsh).
  change (mread (replicate 42 0) 0 16) with (Some (replicate 16 0)). bsimp. rewrite Es. bsimp. exists sh. split; [done|].
  pose proof (log_fields sh (DaemonTables.ecuid (tables d)) (le_bytes 4 (DLT_HTOBE_32 (u32 (getpid E))))
    (le_bytes 4 (DLT_HTOBE_32 (uptime E))) (le_bytes 2 (DLT_HTOBE_16 (u16 (42 - 16 + zlen payload)))) log_htyp (uiMsgCount d)
    (log_msin level) 1 ltac:(lia) He (length_le_bytes 4 _) (length_le_bytes 4 _) (length_le_bytes 2 _)) as F.
  fold log_htyp. fold (log_msin level). revert F.
  repeat (first
    [ match goal with |- context [mwrite ?m ?o ?x] => destruct (mwrite m o x) eqn:?; bsimp; [|intros; done] end
    | match goal with |- context [mread ?m 20 4] => destruct (mread m 20 4) as [e|] eqn:Ee; bsimp; [|intros; done];
        apply mread_length in Ee; rewrite (UserSendSpec.set_id_is_id e) by (done || lia); bsimp end
    | match goal with |- context [mread ?m 34 4] => destruct (mread m 34 4) as [a|] eqn:Ea; bsimp; [|intros; done];
        apply mread_length in Ea; rewrite (proj2 id_of_app a) by lia; bsimp end
    | match goal with |- context [mread ?m 38 4] => destruct (mread m 38 4) as [c|] eqn:Ec; bsimp; [|intros; done];
        apply mread_length in Ec; rewrite (proj2 id_of_ctx c) by lia; bsimp end ]).
  intros ->. unfold MessageSpec.headers, MessageSpec.std, MessageSpec.extra, MessageSpec.ext. rewrite log_len by done.
  cbn [MessageSpec.m_htyp MessageSpec.m_mcnt MessageSpec.m_ext MessageSpec.m_payload MessageSpec.m_ecu MessageSpec.m_seid MessageSpec.m_tmsp log_of].
  change (DLT_IS_HTYP_WEID log_htyp) with true. change (DLT_IS_HTYP_WSID log_htyp) with true.
  change (DLT_IS_HTYP_WTMS log_htyp) with true. change (DLT_IS_HTYP_UEH log_htyp) with true. cbn iota.
  pose proof (we_uptime _ WE). pose proof (wrapu_range 32 (getpid E) ltac:(lia)).
  change (42 - 16) with 26. rewrite u16_small by lia. unfold DLT_HTOBE_16, DLT_HTOBE_32.
  rewrite le_bytes_swap_16, !le_bytes_swap_32 by (done || lia). by rewrite <-!app_assoc.
Qed.

(** What [dlt_daemon_log_internal] sends. *)
Definition log_payload (text : bytes) : bytes :=
  let size := u16 (zlen text + 1) in
  le_bytes 4 UserLog.DLT_TYPE_INFO_STRG ++ le_bytes 2 size ++ take (Z.to_nat size) (text ++ [0]).

Lemma log_internal_sends E send text level d :
  wf_env E -> is_id (DaemonTables.ecuid (tables d)) -> zlen text < 60000 ->
  let p := log_payload text in
  let d1 := set_msg_count d (u8 (uiMsgCount d + 1)) in
  (malloc (heap E) (zlen p) = None ∧ dlt_daemon_log_internal E send text level d = Some (-1, d1)) ∨
  ∃ sh, zlen sh = 16 ∧ dlt_daemon_log_internal E send text level d =
    ('(_, d) ← send DLT_DAEMON_SEND_TO_ALL sh (MessageSpec.headers (log_of E d level p)) (Some p) d1; Some (0, d)).
Proof.
  intros WE Hi Lt p d1. unfold dlt_daemon_log_internal. cbv zeta. fold (log_payload text). fold p.
  assert (zlen p <= 60010) as Lp.
  { unfold p, log_payload. rewrite !length_app, !length_le_bytes, length_take, length_app. cbn [length]. lia. }
  destruct (log_headers_ok E d level p WE Hi ltac:(lia)) as (sh & Lsh & ->). bsimp.
  destruct (malloc _ _); [right|by left]. exists sh. split; [done|]. fold d1.
  assert (zlen (MessageSpec.headers (log_of E d level p)) = 26) as Lh.
  { pose proof (MessageSpec.length_encode (log_of E d level p)) as L. rewrite MessageSpec.encode_headers, length_app, log_len in L by done.
    cbn [MessageSpec.m_payload log_of] in L. lia. }
  assert (mread (sh ++ MessageSpec.headers (log_of E d level p)) 0 16 = Some sh) as -> by (apply (mread_mid [] sh); [done|lia]).
  assert (mread (sh ++ MessageSpec.headers (log_of E d level p)) 16 26 = Some (MessageSpec.headers (log_of E d level p))) as ->
    by (rewrite <-(app_nil_r (MessageSpec.headers _)) at 1; apply mread_mid; lia).
  done.
Qed.

End DaemonMessagesSpec.
