(* ===== verification/DaemonSendSpec.v ===== *)
(** * What reaches the clients of the daemon

    Sending terminates whatever the operating system does: closing a client sends
    messages, but every such call has a client less, and the announcement of lost
    messages is guarded by a counter.  The ring buffer only grows at its end while
    messages are sent, and it is empty in the state SEND_DIRECT, so no message
    overtakes an older one. *)

From stdpp Require Import base sets list list_numbers numbers option.
From Stdlib Require Import ZArith Lia Bool.
From S2P Require Import Prelude Protocol Ids RingBuffer RingBufferSpec Message MessageSpec Filter DltFile.
From S2P Require Import MessageQueue UserShared Payload PayloadSpec SortedTable DaemonTables DaemonTablesSpec.
From S2P Require Import Receiver EventHandler EventHandlerSpec DaemonKeptSpec DaemonSend DaemonMessagesSpec.
Import Protocol Ids UserShared DaemonSend MessageQueue EventHandlerSpec DaemonKeptSpec DaemonMessagesSpec.
Import EventHandler (DltEventHandler, DltConnection, DltConnectionType(..)).

Local Open Scope Z_scope.

Module DaemonSendSpec.

(** ** What a call writes *)

(** From [o] to [o'] the bytes [d] were written to [fd] and nothing else. *)
Record delivers (fd : Z) (o o' : os) (d : bytes) : Prop := {
  dv_out : ∃ chunks, out o' = out o ++ (pair fd <$> chunks) ∧ concat chunks = d;
  dv_script : script o' = script o;
  dv_polls : polls o' = polls o
}.
Definition stream (fd : Z) (o : os) : bytes := concat (filter (λ c, c.1 = fd) (out o)).*2.

Lemma delivers_nil fd o : delivers fd o o [].
Proof. split; [|done..]. exists []. by rewrite app_nil_r. Qed.
Lemma delivers_one fd o e d : delivers fd o (wrote o e fd d) d.
Proof. split; [|done..]. exists [d]. split; [done|]. cbn. by rewrite app_nil_r. Qed.
Lemma delivers_trans fd o1 o2 o3 d d' : delivers fd o1 o2 d -> delivers fd o2 o3 d' -> delivers fd o1 o3 (d ++ d').
Proof.
  intros [(c & Hc & <-) Hs Hp] [(c' & Hc' & <-) Hs' Hp']. split; [|congruence..].
  exists (c ++ c'). by rewrite Hc', Hc, fmap_app, <-app_assoc, concat_app.
Qed.
Lemma delivers_stream fd o o' d f : delivers fd o o' d -> stream f o' = stream f o ++ (if decide (f = fd) then d else []).
Proof.
  intros [(c & Hc & <-) _ _]. unfold stream. rewrite Hc, list.filter_app, fmap_app, concat_app. f_equal.
  clear Hc. induction c as [|x c IH]; [by case_decide|]. rewrite fmap_cons, filter_cons. cbn [fst].
  destruct (decide (f = fd)) as [->|Hne].
  - rewrite decide_True by done. rewrite fmap_cons. cbn [concat snd]. by rewrite IH.
  - rewrite decide_False by congruence. done.
Qed.

Definition no_errors (o : os) : Prop := ∀ i e, script o i <> WriteError e.

Lemma sys_write_cases o fd x d :
  ∃ r o' n, sys_write o fd (x :: d) = (r, o') ∧ delivers fd o o' (take n (x :: d)) ∧
    (r = -1 ∧ n = 0%nat ∧ ¬ no_errors o ∨ r = Z.of_nat n ∧ (1 <= n <= length (x :: d))%nat).
Proof.
  unfold sys_write. destruct (script o (calls o)) as [|m e|e] eqn:Es.
  - exists (zlen (x :: d)), (wrote o (last_errno o) fd (x :: d)), (length (x :: d)). split; [done|].
    rewrite firstn_all. split; [apply delivers_one; done|]. right. cbn. lia.
  - do 3 eexists. split; [reflexivity|]. split; [by apply delivers_one|].
    right. split; [done|]. cbn [length]. lia.
  - exists (-1), (wrote o e fd []), 0%nat. split; [done|]. split; [by apply delivers_one|]. left.
    split_and!; [done|done|]. intros H. by apply (H _ _ Es).
Qed.

Lemma take_more {A} (l : list A) k j : take (k + j) l = take k l ++ take j (drop k l).
Proof. revert k. induction l as [|x l IH]; intros [|k]; cbn; rewrite ?take_nil; [done..|]. by rewrite IH. Qed.

(** [sendreliable] sends everything or reports the failure. *)
Lemma sendreliable_total fd d : ∀ n o, (length d <= n)%nat ->
  ∃ rc o' k, sendreliable n o fd d = Some (rc, o') ∧ delivers fd o o' (take k d) ∧
    (rc = DLT_DAEMON_ERROR_OK ∧ k = length d ∨ rc = DLT_DAEMON_ERROR_SEND_FAILED ∧ ¬ no_errors o).
Proof.
  intros n. revert d. induction n as [|n IH]; intros [|x d] o Hn.
  - exists 0, o, 0%nat. split; [done|]. split; [apply delivers_nil|by left].
  - cbn in Hn. lia.
  - exists 0, o, 0%nat. split; [done|]. split; [apply delivers_nil|by left].
  - cbn [sendreliable]. destruct (sys_write_cases o fd x d) as (r & o1 & k & -> & Hd & [(-> & -> & He)|(-> & Hk)]).
    + cbn [Z.ltb Z.compare]. do 3 eexists. split; [reflexivity|]. split; [exact Hd|]. by right.
    + rewrite ltb_false by lia. rewrite Nat2Z.id.
      destruct (IH (drop k (x :: d)) o1) as (rc & o2 & j & -> & Hd2 & Hc); [rewrite length_drop; cbn in *; lia|].
      exists rc, o2, (k + j)%nat. split; [done|].
      rewrite take_more. split; [by eapply delivers_trans|]. rewrite length_drop in Hc.
      destruct Hc as [[-> ->]|[-> He]]; [left; split; [done|cbn in *; lia]|right]. split; [done|].
      unfold no_errors in *. by rewrite <-(dv_script _ _ _ _ Hd).
Qed.

(** A client connection: everything is sent or the failure is reported. *)
Definition fully_sent (o : os) (rc : Z) : Prop := rc = DLT_DAEMON_ERROR_OK ∨ rc <> DLT_DAEMON_ERROR_OK ∧ ¬ no_errors o.

Lemma connection_send_total c o msg :
  ∃ rc o', dlt_connection_send c o msg = Some (rc, o') ∧ script o' = script o ∧ polls o' = polls o.
Proof.
  unfold dlt_connection_send. destruct (EventHandler.receiver c) as [r|]; [|by eexists _, _].
  destruct (EventHandler.type c); try (by eexists _, _).
  - destruct (sendreliable_total (Receiver.fd r) msg (length msg) o ltac:(lia)) as (rc & o' & k & E & [_ ? ?] & _).
    exists rc, o'. split_and!; [exact E|done..].
  - destruct msg as [|x msg]; [by eexists _, _|].
    destruct (sys_write_cases o (Receiver.fd r) x msg) as (r' & o' & n & -> & [_ ? ?] & _). by eexists _, _.
Qed.

Lemma and_send_total c d r :
  ∃ rc o', and_send (dlt_connection_send c) d r = Some (rc, o').
Proof.
  destruct r as [rc o]. unfold and_send. cbn [fst snd]. destruct d as [[|x d]|]; [by eexists _, _| |by eexists _, _].
  destruct (rc =? DLT_RETURN_OK); [|by eexists _, _]. destruct (connection_send_total c o (x :: d)) as (rc' & o' & E & _).
  by exists rc', o'.
Qed.

Lemma send_multiple_total c o d1 d2 h : ∃ rc o', dlt_connection_send_multiple c o d1 d2 h = Some (rc, o').
Proof.
  unfold dlt_connection_send_multiple.
  assert (∃ r, (if h then dlt_connection_send c o Message.dltSerialHeader else Some (0, o)) = Some r) as (r & ->).
  { destruct h; [|by eexists]. destruct (connection_send_total c o Message.dltSerialHeader) as (rc & o' & -> & _). by eexists. }
  bsimp. destruct (and_send_total c d1 r) as (rc1 & o1 & ->). bsimp. apply and_send_total.
Qed.

Lemma send_to_socket_total E sock d1 d2 d :
  ∃ rc o', send_to_socket E sock d1 d2 d = Some (rc, set_sys d o').
Proof.
  unfold send_to_socket.
  assert (∀ f, (∀ o x, ∃ rc o', f o x = Some (rc, o')) -> ∀ h, ∃ rc o',
    (r ← (if h : bool then f (sys d) Message.dltSerialHeader else Some (0, sys d));
     r ← and_send f d1 r; and_send f d2 r) = Some (rc, o')) as H.
  { intros f Hf h. assert (∀ y r, ∃ rc o', and_send f y r = Some (rc, o')) as Ha.
    { intros [[|x y]|] [rc o]; cbn; [by eexists _, _| |by eexists _, _]. destruct (_ =? _); [apply Hf|by eexists _, _]. }
    assert (∃ r, (if h then f (sys d) Message.dltSerialHeader else Some (0, sys d)) = Some r) as (r & ->).
    { destruct h; [|by eexists]. destruct (Hf (sys d) Message.dltSerialHeader) as (rc & o' & ->). by eexists. }
    bsimp. destruct (Ha d1 r) as (rc1 & o1 & ->). bsimp. apply Ha. }
  destruct (isatty E sock).
  - destruct (H (serial_write sock)) with (h := sendserialheader E) as (rc & o' & E').
    { intros o x. unfold serial_write. destruct (sys_write o sock x). by eexists _, _. }
    unfold dlt_daemon_serial_send. unfold DLT_DAEMON_ERROR_OK. rewrite E'. by eexists _, _.
  - destruct (H (λ o, dlt_daemon_socket_sendreliable o sock)) with (h := sendserialheader E) as (rc & o' & E').
    { intros o x. destruct (sendreliable_total sock x (length x) o ltac:(lia)) as (rc & o' & _ & E' & _). by eexists _, _. }
    unfold dlt_daemon_socket_send, DLT_RETURN_OK. rewrite E'. by eexists _, _.
Qed.

(** ** The log state of the applications *)

Lemma contexts_invalidate_ecuid d e fd rc d' :
  DaemonTables.dlt_daemon_contexts_invalidate_fd d e fd = Some (rc, d') -> DaemonTables.ecuid d' = DaemonTables.ecuid d.
Proof. unfold DaemonTables.dlt_daemon_contexts_invalidate_fd. intros E. repeat (case_match || simplify_option_eq); done. Qed.

Lemma reset_handle_ecuid d i k d' :
  DaemonTables.dlt_daemon_application_reset_user_handle d i k = Some d' -> DaemonTables.ecuid d' = DaemonTables.ecuid d.
Proof.
  unfold DaemonTables.dlt_daemon_application_reset_user_handle. intros E. repeat (case_match || simplify_option_eq); [done|].
  cbn. by eapply contexts_invalidate_ecuid.
Qed.

Lemma reset_handle_keeps d i k u a :
  DaemonTablesSpec.daemon_inv d -> DaemonTables.user_list d !! i = Some u -> DaemonTablesSpec.live_apps u !! k = Some a ->
  ∃ d' u', DaemonTables.dlt_daemon_application_reset_user_handle d i k = Some d' ∧ DaemonTablesSpec.daemon_inv d' ∧
    DaemonTables.ecuid d' = DaemonTables.ecuid d ∧ DaemonTables.user_list d' !! i = Some u' ∧
    DaemonTables.num_applications u' = DaemonTables.num_applications u ∧ kept ctx_handle d d'.
Proof.
  intros Hd Hu Hk. pose proof (DaemonTablesSpec.daemon_inv_shape d Hd) as Hs. destruct (Hd i u Hu) as [Hinv _].
  pose proof Hk as Hk'. unfold DaemonTablesSpec.live_apps in Hk'. apply lookup_take_Some in Hk' as [Hk' Hkn].
  destruct (DaemonTables.applications u) as [apps|] eqn:Ea; [|done]. cbn [default from_option id] in Hk'.
  assert (DaemonTablesSpec.arr d i = Some (Some apps, DaemonTables.num_applications u)) as Harr
    by (unfold DaemonTablesSpec.arr; rewrite Hu; bsimp; by rewrite Ea).
  destruct (DaemonTablesSpec.reset_user_handle_becomes d i k apps _ a Hs Harr Hk') as (d1 & E1 & B1).
  pose proof (DaemonTablesSpec.bc_arr _ _ _ _ _ B1) as (u1 & Hu1 & Ha1 & Hn1)%DaemonTablesSpec.arr_Some.
  destruct (reset_handle_kept d i k u a Hd Hu Hk) as (d2 & E2 & K2). rewrite E1 in E2. injection E2 as <-.
  exists d1, u1. split_and!; [done| |by eapply reset_handle_ecuid|done|done|done].
  eapply DaemonTablesSpec.becomes_inv; [done..|]. destruct (DaemonTablesSpec.bc_shape _ _ _ _ _ B1 i u1 Hu1) as [Hb _].
  assert (DaemonTablesSpec.live_apps u1 = <[k := DaemonTablesSpec.drop_handle a]> (DaemonTablesSpec.live_apps u)) as El.
  { unfold DaemonTablesSpec.live_apps. rewrite Ha1, Hn1, Ea. cbn [default from_option id]. by rewrite take_insert_lt. }
  destruct Hinv as [_ Hsd Hids]. assert (DaemonTables.App.apid (DaemonTablesSpec.drop_handle a) = DaemonTables.App.apid a) as Hid
    by (unfold DaemonTablesSpec.drop_handle; by case_match).
  split; [done| |]; rewrite El.
  - eapply SortedTable.sorted_keys; [exact Hsd|]. by eapply SortedTable.keys_insert.
  - apply Forall_insert; [done|]. rewrite Hid. by apply (Forall_lookup_1 _ _ _ _ Hids Hk).
Qed.

(** ** The state of the daemon *)

Section sending.
Context (E : env) {cap : Z} {holds : RingBuffer.DltBuffer -> list bytes -> Prop} `{!MessageQueue cap holds}.
Hypothesis (WE : wf_env E) (Hcap : 300 <= cap).

Record DInv (d : daemon) (q : list bytes) : Prop := {
  di_tables : DaemonTablesSpec.daemon_inv (tables d);
  di_ecu : is_id (DaemonTables.ecuid (tables d));
  di_ecu_bytes : is_bytes (DaemonTables.ecuid (tables d));
  di_ring : holds (client_ringbuffer d) q;
  di_small : Forall (λ m, 0 < zlen m <= cap) q;
  di_direct : state d = DLT_DAEMON_STATE_SEND_DIRECT -> q = [];
  di_event : ∃ s, EH (event d) (client_connections d) s;
  di_cnt : 0 <= sent_message_overflow_cnt d <= 1
}.

(** The depth of the recursion that is left, and the work the ring buffer can still
    cause: closing a client stores two messages, lost messages are announced by one. *)
Definition depth (d : daemon) : Z := 2 * client_connections d + (1 - sent_message_overflow_cnt d).
Definition credit (d : daemon) : Z :=
  if sent_message_overflow_cnt d =? 0 then (if 0 <? overflow_counter d then 1 else 0) else 1.
Definition work (d : daemon) (q : list bytes) : Z := zlen q + depth d + credit d.

Lemma clients_pos d q : DInv d q -> 0 <= client_connections d.
Proof. intros [_ _ _ _ _ _ (s & Hs) _]. rewrite (eh_clients _ _ _ Hs). lia. Qed.
Lemma depth_pos d q : DInv d q -> 0 <= depth d.
Proof. intros H. pose proof (clients_pos d q H). pose proof (di_cnt _ _ H). unfold depth. lia. Qed.

(** What sending may do: messages are stored at the end, clients leave. *)
Record advance (d : daemon) (q : list bytes) (d' : daemon) (q' : list bytes) (b : Z) : Prop := {
  ad_inv : DInv d' q';
  ad_prefix : q `prefix_of` q';
  ad_clients : client_connections d' <= client_connections d;
  ad_nfds : EventHandler.nfds (event d') <= EventHandler.nfds (event d);
  ad_cnt : sent_message_overflow_cnt d <= sent_message_overflow_cnt d';
  ad_work : work d' q' <= work d q + b;
  ad_kept : kept ctx_handle (tables d) (tables d')
}.

Lemma advance_trans d0 q0 d1 q1 d2 q2 b b' :
  advance d0 q0 d1 q1 b -> advance d1 q1 d2 q2 b' -> advance d0 q0 d2 q2 (b + b').
Proof. intros [] []. split; [done|by etrans|lia..|by etrans]. Qed.
Lemma advance_weaken d q d' q' b b' : advance d q d' q' b -> b <= b' -> advance d q d' q' b'.
Proof. intros [] H. split; try done. lia. Qed.

(** Nothing that matters here has changed. *)
Definition same (d d' : daemon) : Prop :=
  state d' = state d ∧ client_ringbuffer d' = client_ringbuffer d ∧
  overflow_counter d' = overflow_counter d ∧ event d' = event d ∧ client_connections d' = client_connections d ∧
  sent_message_overflow_cnt d' = sent_message_overflow_cnt d ∧
  DaemonTables.ecuid (tables d') = DaemonTables.ecuid (tables d) ∧ DaemonTablesSpec.daemon_inv (tables d') ∧
  kept ctx_handle (tables d) (tables d').

Lemma same_trans d0 d1 d2 : same d0 d1 -> same d1 d2 -> same d0 d2.
Proof.
  intros (?&?&?&?&?&?&?&?&K) (?&?&?&?&?&?&?&?&K'). unfold same. split_and!; try congruence; [done|by etrans].
Qed.
Lemma same_advance d q d' : DInv d q -> same d d' -> advance d q d' q 0.
Proof.
  intros H (Hs & Hr & Ho & He & Hc & Hn & Hi & Ht & Hk). split.
  - split; rewrite ?Hs, ?Hr, ?He, ?Hc, ?Hn, ?Hi; try apply H. done.
  - done.
  - lia.
  - by rewrite He.
  - lia.
  - unfold work, depth, credit. rewrite Hc, Hn, Ho. lia.
  - done.
Qed.
Lemma advance_refl d q : DInv d q -> advance d q d q 0.
Proof. intros H. apply same_advance; [done|]. unfold same. split_and!; try done. apply H. Qed.

(** A sending function that terminates when less than [m] calls may be nested. *)
Definition good (m : Z) (send : send_fn) : Prop :=
  ∀ sock st d1 d2 d q, DInv d q -> depth d < m -> 0 < zlen (d1 ++ default [] d2) <= cap ->
  ∃ rc d' q', send sock st d1 d2 d = Some (rc, d') ∧
    advance d q d' q' (if sock =? DLT_DAEMON_SEND_TO_ALL then 1 else 0).

(** ** The log state of applications *)

Lemma send_log_state_total d i k u a :
  DaemonTablesSpec.daemon_inv (tables d) -> DaemonTables.user_list (tables d) !! i = Some u ->
  DaemonTablesSpec.live_apps u !! k = Some a ->
  ∃ rc d' u', dlt_daemon_user_send_log_state d i k = Some (rc, d') ∧ same d d' ∧
    DaemonTables.user_list (tables d') !! i = Some u' ∧ DaemonTables.num_applications u' = DaemonTables.num_applications u.
Proof.
  intros Hd Hu Hk. pose proof Hk as Hk'. unfold DaemonTablesSpec.live_apps in Hk'. apply lookup_take_Some in Hk' as [Hk' Hkn].
  unfold dlt_daemon_user_send_log_state, DaemonTables.get_app. rewrite Hu. bsimp.
  destruct (DaemonTables.applications u) as [apps|] eqn:Ea; [|done]. cbn [default from_option id] in Hk'. bsimp. rewrite Hk'. bsimp.
  cbn [dlt_user_set_userheader Z.ltb Z.compare]. destruct (dlt_user_set_userheader _ _) as [rc uh].
  destruct (rc <? DLT_RETURN_OK); [by exists (-1), d, u|]. destruct (user_out2 _ _ _ _) as [ret o].
  assert (same d (set_sys d o)) as S1 by (unfold same; split_and!; done).
  destruct (ret <? DLT_RETURN_OK); bsimp; [|by eexists _, _, u].
  destruct (reset_handle_keeps (tables d) i k u a Hd Hu Hk) as (t & u' & Er & Ht & He & Hu' & Hn & Hkp).
  destruct (last_errno o); bsimp; try (by eexists _, _, u);
    cbn [tables set_sys set_daemon]; rewrite Er; bsimp; eexists _, _, u'; (split; [reflexivity|]);
    (split; [unfold same; split_and!; done|done]).
Qed.

Lemma send_log_states_total : ∀ n k i d u,
  DaemonTablesSpec.daemon_inv (tables d) -> DaemonTables.user_list (tables d) !! i = Some u ->
  Z.of_nat (k + n) = DaemonTables.num_applications u ->
  ∃ d', send_log_states n k i d = Some d' ∧ same d d'.
Proof.
  induction n as [|n IH]; intros k i d u Hd Hu Hn; cbn [send_log_states].
  { exists d. split; [done|]. unfold same. split_and!; done. }
  assert (∃ a, DaemonTablesSpec.live_apps u !! k = Some a) as (a & Ha).
  { apply lookup_lt_is_Some_2. unfold DaemonTablesSpec.live_apps. destruct (Hd i u Hu) as [[Hb _ _] _].
    destruct (DaemonTables.applications u); cbn in *; rewrite ?length_take; lia. }
  pose proof Ha as Ha'. unfold DaemonTablesSpec.live_apps in Ha'. apply lookup_take_Some in Ha' as [Ha' _].
  unfold DaemonTables.get_app. rewrite Hu. bsimp.
  destruct (DaemonTables.applications u) as [apps|] eqn:Ea; [|done]. cbn [default from_option id] in Ha'. bsimp. rewrite Ha'. bsimp.
  destruct (_ <=? _); bsimp.
  - destruct (send_log_state_total d i k u a Hd Hu Ha) as (rc & d1 & u1 & -> & S1 & Hu1 & Hn1). bsimp.
    destruct (IH (S k) i d1 u1) as (d2 & -> & S2); [apply S1|done|lia|]. exists d2. split; [done|]. by eapply same_trans.
  - apply (IH (S k) i d u); [done|done|lia].
Qed.

Lemma send_all_log_state_total d :
  DaemonTablesSpec.daemon_inv (tables d) -> ∃ d', dlt_daemon_user_send_all_log_state d = Some d' ∧ same d d'.
Proof.
  intros Hd. unfold dlt_daemon_user_send_all_log_state.
  destruct (DaemonTables.dlt_daemon_find_users_list _ _) as [i|] eqn:Ei.
  2: { exists d. split; [done|]. unfold same. split_and!; done. }
  pose proof (DaemonTablesSpec.find_users_lookup _ _ _ _ Ei) as Hi.
  destruct (lookup_lt_is_Some_2 (DaemonTables.user_list (tables d)) i) as [u Hu]; [lia|]. rewrite Hu. bsimp.
  apply (send_log_states_total _ 0 i d u); [done|done|]. destruct (Hd i u Hu) as [[Hb _ _] _].
  destruct (DaemonTables.applications u); cbn in *; lia.
Qed.

(** ** Messages of the daemon *)

Abbreviation bound sock := (if sock =? DLT_DAEMON_SEND_TO_ALL then 1 else 0).

Lemma bound_pos sock : 0 <= bound sock.
Proof. case_match; lia. Qed.

Lemma control_good_cap m send sock payload apid a d q :
  good m send -> DInv d q -> depth d < m ->
  apid = [0] ∧ a = DLT_DAEMON_CTRL_APID ∨ is_empty apid = Some false ∧ id_of apid a ∧ is_bytes a ->
  is_bytes payload -> zlen payload < 65000 -> zlen payload + 22 <= cap ->
  ∃ rc d' q', control_message E send sock payload apid d = Some (rc, d') ∧ advance d q d' q' (bound sock).
Proof.
  intros Hg Hd Hm Ha Bp Lp Lc. assert (∃ x, id_of x a) as (x & Ia).
  { destruct Ha as [[_ ->]|(_ & Ia & _)]; [by eexists; exact id_of_ctrl_app|by eexists]. }
  destruct (control_message_sends E send sock payload apid a d WE (di_ecu _ _ Hd) (di_ecu_bytes _ _ Hd) Ha Bp Lp) as [[_ ->]|(sh & _ & ->)].
  - eexists _, d, q. split; [reflexivity|]. eapply advance_weaken; [by apply advance_refl|apply bound_pos].
  - set (M := control_of _ _ _ _ _ _ _). assert (0 < zlen (MessageSpec.headers M ++ default [] (Some payload)) <= cap) as Hl.
    { cbn [default from_option id]. change payload with (MessageSpec.m_payload M). rewrite <-MessageSpec.encode_headers, MessageSpec.length_encode.
      unfold M. rewrite (control_len _ _ _ _ _ _ _ _ _ (di_ecu _ _ Hd) Ia id_of_ctrl_ctx). lia. }
    destruct (Hg sock sh _ _ d q Hd Hm Hl) as (rc & d' & q' & -> & A). bsimp. by eexists _, d', q'.
Qed.

Lemma control_good m send sock payload d q :
  good m send -> DInv d q -> depth d < m -> is_bytes payload -> zlen payload <= 250 ->
  ∃ rc d' q', control_message E send sock payload [0] d = Some (rc, d') ∧ advance d q d' q' (bound sock).
Proof. intros Hg Hd Hm Bp Lp. apply (control_good_cap m send sock payload [0] DLT_DAEMON_CTRL_APID); try done; [by left|lia..]. Qed.

Lemma log_good_cap m send text level d q :
  good m send -> DInv d q -> depth d < m -> zlen text < 60000 -> zlen text + 33 <= cap ->
  ∃ rc d' q', dlt_daemon_log_internal E send text level d = Some (rc, d') ∧ advance d q d' q' 1.
Proof.
  intros Hg Hd Hm Lt Lc. set (d1 := set_msg_count d (u8 (uiMsgCount d + 1))).
  assert (advance d q d1 q 0) as A1 by (apply same_advance; [done|]; unfold same; split_and!; try done; apply Hd).
  destruct (log_internal_sends E send text level d WE (di_ecu _ _ Hd) Lt) as [[_ ->]|(sh & _ & ->)].
  - eexists _, d1, q. split; [reflexivity|]. by eapply advance_weaken.
  - set (M := log_of _ _ _ _). assert (0 < zlen (MessageSpec.headers M ++ default [] (Some (log_payload text))) <= cap) as Hl.
    { cbn [default from_option id]. change (log_payload text) with (MessageSpec.m_payload M).
      rewrite <-MessageSpec.encode_headers, MessageSpec.length_encode. unfold M. rewrite log_len by apply Hd.
      unfold log_payload. rewrite !length_app, !length_le_bytes, length_take, length_app. cbn [length]. lia. }
    destruct (Hg DLT_DAEMON_SEND_TO_ALL sh _ _ d1 q (ad_inv _ _ _ _ _ A1) Hm Hl) as (rc & d' & q' & Es & A). fold d1. rewrite Es. bsimp.
    eexists _, d', q'. split; [reflexivity|]. exact (advance_trans _ _ _ _ _ _ _ _ A1 A).
Qed.

Lemma log_good m send text level d q :
  good m send -> DInv d q -> depth d < m -> zlen text <= 200 ->
  ∃ rc d' q', dlt_daemon_log_internal E send text level d = Some (rc, d') ∧ advance d q d' q' 1.
Proof. intros Hg Hd Hm Lt. apply (log_good_cap m send text level); try done; lia. Qed.

Lemma dec_length z : (length (Payload.Printf.dec z) <= 65)%nat.
Proof.
  assert (∀ fuel b x, (length (Payload.Printf.digits_rev fuel b x) <= fuel)%nat) as H.
  { induction fuel as [|fuel IH]; intros b x; cbn [Payload.Printf.digits_rev length]; [lia|]. specialize (IH b (x / b)).
    case_match; cbn [length]; lia. }
  unfold Payload.Printf.dec, Payload.Printf.digits. case_match; cbn [length]; rewrite length_reverse.
  - pose proof (H 64%nat 10 (- z)). lia.
  - pose proof (H 64%nat 10 z). lia.
Qed.
Lemma closed_text_length sock n : zlen (closed_text sock n) <= 200.
Proof. unfold closed_text. rewrite !length_app. pose proof (dec_length sock). pose proof (dec_length n). cbn [length]. lia. Qed.

(** ** Closing a client *)

Lemma unregister_client ev n s k c r :
  EH ev n s -> EventHandler.dlt_event_handler_find_connection ev (Receiver.fd r) = Some k ->
  EventHandler.connections ev !! k = Some c -> EventHandler.receiver c = Some r -> EventHandler.is_client (EventHandler.type c) = true ->
  ∃ rc ev' s', EventHandler.dlt_event_handler_unregister_connection ev n (Receiver.fd r) = Some (rc, ev', n - 1) ∧
    EH ev' (n - 1) s' ∧ EventHandler.nfds ev' <= EventHandler.nfds ev.
Proof.
  intros H Hf Hc Hr Ht. destruct (close_refines ev n s (Receiver.fd r) H) as (rc & ev' & n' & Eu & _ & H').
  assert (n' = n - 1) as ->.
  { pose proof Eu as Eu'. unfold EventHandler.dlt_event_handler_unregister_connection in Eu'. rewrite Hf in Eu'. bsimp.
    rewrite Hc in Eu'. cbn [mbind option_bind] in Eu'. rewrite Ht in Eu'. destruct (EventHandler.dlt_connection_check_activate _ _ _ _) as [[rc1 ev1]|]; [|done].
    cbn [mbind option_bind] in Eu'. destruct (EventHandler.dlt_daemon_remove_connection _ _) as [[rc2 ev2]|]; [|done].
    injection Eu' as _ _ <-. destruct (Z.ltb_spec (n - 1) 0); [|done]. exfalso.
    destruct (Forall2_lookup_l _ _ _ _ _ (eh_conns _ _ _ H) Hc) as (a & Ha & r' & Hr' & Hfd & Hta & _).
    pose proof (eh_clients _ _ _ H) as Hn.
    assert (a ∈ filter (λ c, Is_true (EventHandler.is_client c.2)) (s_conns s)) as Hin.
    { apply list_elem_of_filter. split; [by rewrite <-Hta, Ht|by eapply list_elem_of_lookup_2]. }
    destruct (filter _ _); [by apply elem_of_nil in Hin|]. cbn [length] in Hn. lia. }
  exists rc, ev', (spec_op s (Close (Receiver.fd r))).2. split_and!; [done|done|].
  rewrite (eh_nfds _ _ _ H'), (eh_nfds _ _ _ H). cbn [spec_op snd s_watched].
  pose proof (length_filter (λ f, f ≠ Receiver.fd r) (s_watched s)). lia.
Qed.

(** What follows the removal of the connection. *)
Definition after_removal (send : send_fn) (sock : Z) (d : daemon) : option (Z * daemon) :=
  d ← (if client_connections d =? 0 then
         d ← dlt_daemon_user_send_all_log_state (set_connection_state d 0);
         Some (if negb (yvalue E) then dlt_daemon_change_state d DLT_DAEMON_STATE_BUFFER else d)
       else Some d);
  '(_, d) ← dlt_daemon_control_message_connection_info E send DLT_DAEMON_SEND_TO_ALL DLT_CONNECTION_STATUS_DISCONNECTED d;
  '(_, d) ← dlt_daemon_log_internal E send (closed_text sock (client_connections d)) DLT_LOG_INFO d;
  Some (0, d).

Lemma connection_info_good m send sock st d q :
  good m send -> DInv d q -> depth d < m -> byteb st = true ->
  ∃ rc d' q', dlt_daemon_control_message_connection_info E send sock st d = Some (rc, d') ∧ advance d q d' q' (bound sock).
Proof.
  intros Hg Hd Hm Hst. unfold dlt_daemon_control_message_connection_info.
  change (Filter.set_id [0; 0; 0; 0] [0]) with (Some [0; 0; 0; 0]). bsimp. unfold minus_one.
  edestruct (control_good m send sock) as (rc & d' & q' & -> & A); [exact Hg|exact Hd|exact Hm| |cbn; lia|].
  { apply is_bytes_forallb. cbn. by rewrite Hst. }
  bsimp. by eexists _, d', q'.
Qed.

Lemma after_removal_good m send sock d q :
  good m send -> DInv d q -> depth d < m -> ∃ rc d' q', after_removal send sock d = Some (rc, d') ∧ advance d q d' q' 2.
Proof.
  intros Hg Hd Hm. unfold after_removal.
  assert (∃ d2, (if client_connections d =? 0
                 then d ← dlt_daemon_user_send_all_log_state (set_connection_state d 0);
                      Some (if negb (yvalue E) then dlt_daemon_change_state d DLT_DAEMON_STATE_BUFFER else d)
                 else Some d) = Some d2 ∧ advance d q d2 q 0) as (d2 & -> & A2).
  { destruct (_ =? 0); [|exists d; split; [done|by apply advance_refl]].
    destruct (send_all_log_state_total (set_connection_state d 0)) as (d2 & -> & S2); [apply Hd|]. bsimp.
    assert (advance d q d2 q 0) as A by (by apply same_advance). destruct (yvalue E); cbn [negb]; eexists; (split; [reflexivity|]); [done|].
    destruct A as [I]. split; try done. by split; try apply I. }
  bsimp. pose proof (ad_clients _ _ _ _ _ A2). pose proof (ad_cnt _ _ _ _ _ A2).
  destruct (connection_info_good m send DLT_DAEMON_SEND_TO_ALL DLT_CONNECTION_STATUS_DISCONNECTED d2 q Hg (ad_inv _ _ _ _ _ A2))
    as (rc3 & d3 & q3 & -> & A3); [unfold depth in *; lia|done|].
  bsimp. pose proof (ad_clients _ _ _ _ _ A3). pose proof (ad_cnt _ _ _ _ _ A3).
  edestruct (log_good m send) as (rc4 & d4 & q4 & -> & A4); [exact Hg|apply A3|unfold depth in *; lia|apply closed_text_length|].
  bsimp. exists 0, d4, q4. split; [done|].
  exact (advance_trans _ _ _ _ _ _ _ _ (advance_trans _ _ _ _ _ _ _ _ A2 A3) A4).
Qed.

Lemma set_event_advance d q ev n s b :
  DInv d q -> EH ev n s -> EventHandler.nfds ev <= EventHandler.nfds (event d) -> n <= client_connections d ->
  b = 2 * (n - client_connections d) -> advance d q (set_event d ev n) q b.
Proof.
  intros Hd Hs Hn Hc ->. split; [|done|done|done|cbn; lia| |done].
  - split; try apply Hd. by exists s.
  - unfold work, depth, credit. cbn [client_connections sent_message_overflow_cnt overflow_counter set_event set_daemon]. lia.
Qed.

Lemma close_good m send d q k c r :
  good m send -> DInv d q -> depth d < m + 2 ->
  EventHandler.dlt_event_handler_find_connection (event d) (Receiver.fd r) = Some k ->
  EventHandler.connections (event d) !! k = Some c -> EventHandler.receiver c = Some r ->
  EventHandler.is_client (EventHandler.type c) = true ->
  ∃ rc d' q', dlt_daemon_close_socket E send (Receiver.fd r) d = Some (rc, d') ∧ advance d q d' q' 0.
Proof.
  intros Hg Hd Hm Hf Hc Hr Ht. destruct (di_event _ _ Hd) as (s & Hs).
  destruct (unregister_client _ _ s k c r Hs Hf Hc Hr Ht) as (rc & ev & s' & Eu & Hs' & Hn).
  unfold dlt_daemon_close_socket. rewrite Eu. bsimp. set (n := client_connections d - 1) in *.
  pose proof (set_event_advance d q ev n s' (-2) Hd Hs' Hn ltac:(lia) ltac:(lia)) as A1.
  destruct (after_removal_good m send (Receiver.fd r) (set_event d ev n) q Hg (ad_inv _ _ _ _ _ A1)) as (rc2 & d2 & q2 & E2 & A2).
  { unfold depth in *. cbn [client_connections sent_message_overflow_cnt set_event set_daemon]. unfold n. lia. }
  exists rc2, d2, q2. split; [exact E2|]. exact (advance_trans _ _ _ _ _ _ _ _ A1 A2).
Qed.

(** Any connection may be closed. *)
Lemma close_any_good m send d q sock :
  good m send -> DInv d q -> depth d < m ->
  ∃ rc d' q', dlt_daemon_close_socket E send sock d = Some (rc, d') ∧ advance d q d' q' 2.
Proof.
  intros Hg Hd Hm. destruct (di_event _ _ Hd) as (s & Hs).
  destruct (close_refines (event d) (client_connections d) s sock Hs) as (rc & ev & n & Eu & _ & Hs').
  assert (EventHandler.nfds ev <= EventHandler.nfds (event d) ∧ n <= client_connections d) as [Hn Hc].
  { rewrite (eh_nfds _ _ _ Hs'), (eh_nfds _ _ _ Hs), (eh_clients _ _ _ Hs'), (eh_clients _ _ _ Hs). cbn [spec_op snd s_watched s_conns].
    pose proof (length_filter (λ f, f ≠ sock) (s_watched s)). split; [lia|]. rewrite list_filter_filter.
    rewrite (list_filter_iff _ (λ x, x.1 ≠ sock ∧ Is_true (EventHandler.is_client x.2))) by tauto. rewrite <-list_filter_filter.
    pose proof (length_filter (λ x, x.1 ≠ sock) (filter (λ x, Is_true (EventHandler.is_client x.2)) (s_conns s))). lia. }
  unfold dlt_daemon_close_socket. rewrite Eu. bsimp.
  pose proof (set_event_advance d q ev n _ _ Hd Hs' Hn Hc eq_refl) as A1.
  destruct (after_removal_good m send sock (set_event d ev n) q Hg (ad_inv _ _ _ _ _ A1)) as (rc2 & d2 & q2 & E2 & A2).
  { pose proof (ad_clients _ _ _ _ _ A1). pose proof (ad_cnt _ _ _ _ _ A1). unfold depth in *. lia. }
  exists rc2, d2, q2. split; [exact E2|]. eapply advance_weaken; [exact (advance_trans _ _ _ _ _ _ _ _ A1 A2)|lia].
Qed.

(** ** Sending to all clients *)

Lemma poll_entry d q i :
  DInv d q -> Z.of_nat i < EventHandler.nfds (event d) -> ∃ e, EventHandler.pfd (event d) !! i = Some e.
Proof.
  intros Hd Hi. destruct (di_event _ _ Hd) as (s & Hs). destruct (eh_table _ _ _ Hs) as (live & -> & Hl).
  apply lookup_lt_is_Some_2. rewrite length_app. rewrite (eh_nfds _ _ _ Hs), <-Hl, length_fmap in Hi. lia.
Qed.
(** A watched descriptor belongs to a connection with a receiver. *)
Lemma found_connection d q fd k :
  DInv d q -> EventHandler.dlt_event_handler_find_connection (event d) fd = Some k ->
  ∃ c r, EventHandler.connections (event d) !! k = Some c ∧ EventHandler.receiver c = Some r ∧ Receiver.fd r = fd.
Proof.
  intros Hd Hk. destruct (di_event _ _ Hd) as (s & Hs).
  pose proof (find_conn_spec fd _ _ (eh_conns _ _ _ Hs) (eh_nodup _ _ _ Hs)) as F.
  unfold EventHandler.dlt_event_handler_find_connection in Hk. rewrite Hk in F.
  destruct F as (c & a & Hc & _ & (r & Hr & Hf & _) & Ha & _). exists c, r. by rewrite Hf.
Qed.

Lemma send_all_good m send data1 data2 : good m send -> ∀ n i sent d q,
  DInv d q -> depth d < m + 2 -> EventHandler.nfds (event d) <= Z.of_nat (i + n) ->
  ∃ sent' d' q', send_all_loop n E send i sent data1 data2 d = Some (sent', d') ∧ advance d q d' q' 0.
Proof.
  intros Hg. induction n as [|n IH]; intros i sent d q Hd Hm Hn; cbn [send_all_loop].
  { rewrite ltb_false by lia. exists sent, d, q. split; [done|by apply advance_refl]. }
  destruct (Z.ltb_spec (Z.of_nat i) (EventHandler.nfds (event d))) as [Hi|];
    [|exists sent, d, q; split; [done|by apply advance_refl]].
  destruct (poll_entry d q i Hd Hi) as (e & ->). bsimp.
  destruct (EventHandler.dlt_event_handler_find_connection (event d) (EventHandler.pfd_fd e)) as [k|] eqn:Ek;
    [|apply IH; [done|done|lia]].
  destruct (found_connection d q _ k Hd Ek) as (c & r & Hc & Hr & Hf). rewrite Hc. bsimp. rewrite Hr. bsimp.
  destruct (EventHandler.is_client (EventHandler.type c)) eqn:Et; cbn [negb]; [|apply IH; [done|done|lia]].
  destruct (send_multiple_total c (sys d) data1 data2 (sendserialheader E)) as (ret & o & ->). bsimp. set (d1 := set_sys d o).
  assert (same d d1) as S1 by (unfold same; split_and!; try done; apply Hd). pose proof (same_advance d q d1 Hd S1) as A1.
  assert (∃ d2 q2, (if negb (ret =? DLT_DAEMON_ERROR_OK) && is_tcp (EventHandler.type c)
             then '(_, d) ← dlt_daemon_close_socket E send (Receiver.fd r) d1; Some d else Some d1) = Some d2 ∧
           advance d1 q d2 q2 0) as (d2 & q2 & -> & A2).
  { destruct (negb _ && _); [|exists d1, q; split; [done|apply advance_refl, A1]].
    destruct (close_good m send d1 q k c r Hg (ad_inv _ _ _ _ _ A1) Hm) as (rc & d2 & q2 & -> & A2);
      [by rewrite Hf|done|done|done|]. bsimp. by exists d2, q2. }
  bsimp. pose proof (advance_trans _ _ _ _ _ _ _ _ A1 A2) as A. pose proof (ad_clients _ _ _ _ _ A). pose proof (ad_cnt _ _ _ _ _ A).
  pose proof (ad_nfds _ _ _ _ _ A).
  destruct (IH (S i) (if negb (ret =? DLT_DAEMON_ERROR_OK) then sent else true) d2 q2) as (sent' & d3 & q3 & -> & A3);
    [apply A|unfold depth in *; lia|lia|].
  exists sent', d3, q3. split; [done|]. exact (advance_trans _ _ _ _ _ _ _ _ A A3).
Qed.

(** ** Storing and announcing *)

Lemma buffering_not_direct s : is_buffering s = true -> s <> DLT_DAEMON_STATE_SEND_DIRECT.
Proof. by destruct s. Qed.

Lemma store_good data1 data2 d q :
  DInv d q -> is_buffering (state d) = true -> 0 < zlen (data1 ++ default [] data2) <= cap ->
  ∃ rc d' q', store_in_ring E data1 data2 d = Some (rc, d') ∧ advance d q d' q' 1 ∧
    ((rc = DLT_DAEMON_ERROR_OK ∧ q' = q ++ [data1 ++ default [] data2] ∧ overflow_counter d' = overflow_counter d) ∨
     (rc = DLT_DAEMON_ERROR_BUFFER_FULL ∧ q' = q ∧ overflow_counter d' = u32 (overflow_counter d + 1))).
Proof.
  intros Hd Hb Hl. unfold store_in_ring.
  assert (∀ d1, DInv d1 q -> client_connections d1 = client_connections d -> event d1 = event d ->
      sent_message_overflow_cnt d1 = sent_message_overflow_cnt d -> overflow_counter d1 = overflow_counter d ->
      tables d1 = tables d -> advance d q (set_overflow d1 (u32 (overflow_counter d1 + 1))) q 1) as Hlost.
  { intros d1 Hd1 Hc He Hs Ho Ht. split; cbn [client_connections event sent_message_overflow_cnt set_overflow set_daemon]; try lia; try done.
    - split; try apply Hd1.
    - by rewrite He.
    - unfold work, depth, credit. cbn [client_connections sent_message_overflow_cnt overflow_counter set_overflow set_daemon].
      rewrite Hc, Hs. repeat case_match; lia.
    - cbn. by rewrite Ht. }
  destruct (decide (state d = DLT_DAEMON_STATE_BUFFER_FULL)) as [Hf|Hf].
  { rewrite bool_decide_true by done. bsimp. rewrite bool_decide_true by done. eexists _, _, q. split; [reflexivity|].
    split; [by apply Hlost|]. by right. }
  rewrite bool_decide_false by done.
  assert (RingBufferSpec.part_ok data2 (zlen (default [] data2)) (default [] data2)) as P2
    by (destruct data2 as [x|]; [apply RingBufferSpec.part_ok_some|apply RingBufferSpec.part_ok_none]).
  destruct (mq_push3 (heap E) (pad E) (client_ringbuffer d) q _ _ data1 _ _ (default [] data2) _ _ [] (di_ring _ _ Hd) (we_pad _ WE)
    (RingBufferSpec.part_ok_some data1) P2 RingBufferSpec.part_ok_none) as (rb & rc & -> & Hrc); [rewrite app_nil_r; lia|].
  bsimp. rewrite app_nil_r in Hrc. destruct Hrc as [[-> Hq]|[-> Hq]].
  - rewrite ltb_false by done. cbn [state set_ring set_daemon]. rewrite bool_decide_false by done.
    eexists _, _, _. split; [reflexivity|]. split; [|left; by split_and!].
    split; cbn [client_connections event sent_message_overflow_cnt set_ring set_daemon]; try lia; try done.
    + split; try apply Hd; [done| |].
      * apply Forall_app. split; [apply Hd|]. by constructor.
      * intros Hdir. exfalso. exact (buffering_not_direct _ Hb Hdir).
    + by eexists.
    + unfold work, depth, credit. cbn [client_connections sent_message_overflow_cnt overflow_counter set_ring set_daemon].
      rewrite length_app. cbn [length]. lia.
  - rewrite ltb_true by done. cbn [state set_ring set_daemon dlt_daemon_change_state]. rewrite bool_decide_true by done.
    eexists _, _, q. split; [reflexivity|]. split; [|by right].
    apply Hlost; try done. by split; try apply Hd.
Qed.

Lemma announce_good m send d q :
  good m send -> DInv d q -> depth d < m + 1 ->
  ∃ d' q', announce_lost E send d = Some d' ∧ advance d q d' q' 0.
Proof.
  intros Hg Hd Hm. unfold announce_lost.
  destruct (Z.ltb_spec 0 (overflow_counter d)) as [Ho|]; cbn [andb]; [|exists d, q; split; [done|by apply advance_refl]].
  destruct (Z.ltb_spec 0 (client_connections d)); cbn [andb]; [|exists d, q; split; [done|by apply advance_refl]].
  pose proof (di_cnt _ _ Hd) as Hc. set (d1 := set_sent_cnt d _).
  destruct (Z.leb_spec 2 (sent_message_overflow_cnt d1)) as [H2|H2]; cbn [sent_message_overflow_cnt d1 set_sent_cnt set_daemon] in H2.
  { eexists _, q. split; [reflexivity|]. apply same_advance; [done|]. unfold same.
    cbn [sent_message_overflow_cnt d1 set_sent_cnt set_daemon]. split_and!; try done; [lia|apply Hd]. }
  assert (sent_message_overflow_cnt d = 0) as Hc0 by lia.
  assert (DInv d1 q) as Hd1 by (split; try apply Hd; cbn [sent_message_overflow_cnt d1 set_sent_cnt set_daemon]; lia).
  unfold dlt_daemon_send_message_overflow, dlt_daemon_control_message_buffer_overflow.
  edestruct (control_good m send DLT_DAEMON_SEND_TO_ALL) as (rc & d2 & q2 & -> & A2); [exact Hg|exact Hd1| | |..].
  { unfold depth in *. cbn [client_connections sent_message_overflow_cnt d1 set_sent_cnt set_daemon]. lia. }
  { rewrite !is_bytes_app. split_and!; [apply is_bytes_le|by apply is_bytes_forallb|apply is_bytes_le]. }
  { rewrite !length_app, !length_le_bytes. cbn [length]. lia. }
  bsimp. destruct A2 as [I2 P2 C2 N2 K2 W2 T2].
  cbn [client_connections sent_message_overflow_cnt event d1 set_sent_cnt set_daemon] in *.
  change (bound DLT_DAEMON_SEND_TO_ALL) with 1 in W2. pose proof (di_cnt _ _ I2) as Hc2.
  assert (work d1 q = work d q - 1) as W1.
  { unfold work, depth, credit. cbn [client_connections sent_message_overflow_cnt overflow_counter d1 set_sent_cnt set_daemon].
    rewrite Hc0. cbn [Z.eqb]. rewrite (ltb_true 0) by done. change (0 + 1 =? 0) with false. cbn iota. lia. }
  destruct (_ =? DLT_DAEMON_ERROR_OK); eexists _, q2; (split; [reflexivity|]); split; try done;
    cbn [client_connections sent_message_overflow_cnt event set_overflow set_sent_cnt set_daemon]; try lia.
  - split; try apply I2. cbn [sent_message_overflow_cnt set_overflow set_sent_cnt set_daemon]. lia.
  - unfold work, depth, credit in *. cbn [client_connections sent_message_overflow_cnt overflow_counter set_overflow set_sent_cnt set_daemon d1] in *.
    assert (sent_message_overflow_cnt d2 = 1) as E2 by lia. rewrite E2 in *. change (1 =? 0) with false in *. cbn iota in *.
    change (1 - 1 =? 0) with true. change (0 <? 0) with false. cbn iota. lia.
Qed.

(** ** The whole function *)

Lemma storage_same sock msg d rc d' : DaemonTablesSpec.daemon_inv (tables d) -> send_to_storage E sock msg d = (rc, d') -> same d d'.
Proof.
  intros Ht. unfold send_to_storage. intros Es. repeat case_match; injection Es as _ <-; unfold same; split_and!; done.
Qed.

Lemma body_good m send : good m send -> good (m + 1) (client_send_body E send).
Proof.
  intros Hg sock st d1 d2 d q Hd Hm Hl. unfold client_send_body.
  destruct (negb (sock =? DLT_DAEMON_SEND_TO_ALL) && negb (sock =? DLT_DAEMON_SEND_FORCE)) eqn:Es.
  { destruct (send_to_socket_total E sock (Some d1) d2 d) as (rc & o & ->). eexists _, _, q. split; [reflexivity|].
    eapply advance_weaken; [|apply bound_pos]. apply same_advance; [done|]. unfold same. split_and!; try done. apply Hd. }
  destruct (send_to_storage _ _ _ _) as [ls da] eqn:Est. apply storage_same in Est; [|apply Hd].
  pose proof (same_advance d q da Hd Est) as Aa.
  assert (depth da = depth d) as Da by (unfold depth; destruct Est as (_ & _ & _ & _ & -> & -> & _); done).
  match goal with |- context [mbind _ ?x] => assert (∃ f db qb, x = Some (f, db) ∧ advance da q db qb 0) as (f & db & qb & -> & Ab) end.
  { case_match; [|exists false, da, q; split; [done|apply advance_refl, Aa]].
    unfold dlt_daemon_client_send_all_multiple.
    destruct (send_all_good m send (Some d1) d2 Hg (Z.to_nat (EventHandler.nfds (event da))) 0 false da q) as (sent & db & qb & -> & Ab);
      [apply Aa|lia|lia|]. bsimp. by eexists _, db, qb. }
  bsimp. pose proof (advance_trans _ _ _ _ _ _ _ _ Aa Ab) as A. pose proof (bound_pos sock).
  destruct f; [eexists _, db, qb; split; [reflexivity|by eapply advance_weaken]|].
  pose proof (ad_clients _ _ _ _ _ Ab). pose proof (ad_cnt _ _ _ _ _ Ab).
  destruct (negb (sock =? DLT_DAEMON_SEND_FORCE) && is_buffering (state db)) eqn:Eb.
  - apply andb_true_iff in Eb as [Ef Eb].
    destruct (store_good d1 d2 db qb (ad_inv _ _ _ _ _ A) Eb Hl) as (rc & dc & qc & -> & Ac & _). eexists _, dc, qc. split; [reflexivity|].
    rewrite Ef, andb_true_r in Es. apply negb_false_iff in Es. rewrite Es. exact (advance_trans _ _ _ _ _ _ _ _ A Ac).
  - destruct (announce_good m send db qb Hg (ad_inv _ _ _ _ _ A)) as (dc & qc & -> & Ac); [unfold depth in *; lia|]. bsimp.
    eexists _, dc, qc. split; [reflexivity|]. eapply advance_weaken; [exact (advance_trans _ _ _ _ _ _ _ _ A Ac)|lia].
Qed.

Lemma client_send_good fuel : good (Z.of_nat fuel) (dlt_daemon_client_send fuel E).
Proof.
  induction fuel as [|fuel IH]; cbn [dlt_daemon_client_send].
  - intros sock st d1 d2 d q Hd Hm. pose proof (depth_pos d q Hd). lia.
  - rewrite Nat2Z.inj_succ. by apply body_good.
Qed.

(** ** Sending what the ring buffer holds *)

Hypothesis (Hbuf : cap <= DLT_DAEMON_RCVBUFSIZE).

(** One message less. *)
Lemma removed_advance d q rb m :
  DInv d (m :: q) -> holds rb q -> state d <> DLT_DAEMON_STATE_SEND_DIRECT ->
  DInv (set_ring d rb) q ∧ work (set_ring d rb) q = work d (m :: q) - 1.
Proof.
  intros Hd Hq Hs. split.
  - split; try apply Hd; [done| |].
    + by apply (Forall_cons_1 _ _ _ (di_small _ _ Hd)).
    + intros Hst. by apply Hs in Hst.
  - unfold work, depth, credit. cbn [client_connections sent_message_overflow_cnt overflow_counter set_ring set_daemon length]. lia.
Qed.

Definition flushed (d : daemon) (q : list bytes) (rc : Z) (d' : daemon) (q' : list bytes) : Prop :=
  DInv d' q' ∧ depth d' <= depth d ∧ ((rc = DLT_DAEMON_ERROR_OK ∧ state d' = DLT_DAEMON_STATE_SEND_DIRECT ∧ q' = []) ∨
                (rc <> DLT_DAEMON_ERROR_OK ∧ ∃ k, drop k q `prefix_of` q' ∧ q' <> [])).

Lemma flush_good m send : good m send -> ∀ n d q,
  DInv d q -> q <> [] -> depth d < m -> work d q <= Z.of_nat n ->
  ∃ rc d' q', flush_loop n E send d = Some (rc, d') ∧ flushed d q rc d' q'.
Proof.
  intros Hg. induction n as [|n IH]; intros d q Hd Hq Hm Hn.
  { pose proof (depth_pos d q Hd). unfold work, credit in Hn. destruct q; [done|]. cbn [length] in Hn. repeat case_match; lia. }
  cbn [flush_loop]. destruct q as [|x q]; [done|]. pose proof (di_small _ _ Hd) as Hs. apply Forall_cons_1 in Hs as [Hx _].
  rewrite (mq_copy (heap E) (client_ringbuffer d) x q _ (di_ring _ _ Hd)) by done. bsimp.
  rewrite ltb_false by lia. rewrite ltb_true by lia. cbn [negb].
  assert (set_ring d (client_ringbuffer d) = d) as -> by (by destruct d).
  destruct (Hg DLT_DAEMON_SEND_FORCE [] x None d (x :: q) Hd Hm) as (rc & d1 & q1 & -> & A1);
    [cbn [default from_option]; rewrite app_nil_r; lia|]. bsimp.
  change (bound DLT_DAEMON_SEND_FORCE) with 0 in A1. pose proof (ad_prefix _ _ _ _ _ A1) as (r & Hr).
  destruct (Z.eqb_spec rc 0) as [->|Hrc]; cbn [negb].
  2: { eexists _, d1, q1. split; [reflexivity|]. pose proof (ad_clients _ _ _ _ _ A1). pose proof (ad_cnt _ _ _ _ _ A1).
       split; [apply A1|]. split; [unfold depth; lia|]. right. split; [done|]. exists 0%nat.
       split; [by exists r|]. by rewrite Hr. }
  pose proof (ad_inv _ _ _ _ _ A1) as Hd1. rewrite Hr in *. cbn [app] in Hd1, A1.
  destruct (mq_remove (heap E) (client_ringbuffer d1) x (q ++ r) (di_ring _ _ Hd1)) as (rb & -> & Hrb). bsimp.
  set (d2 := set_ring d1 rb). set (d3 := if bool_decide (state d2 = _) then _ else _).
  assert (DInv d3 (q ++ r) ∧ work d3 (q ++ r) = work d1 (x :: q ++ r) - 1 ∧ depth d3 = depth d1) as (Hd3 & W3 & D3).
  { assert (state d1 <> DLT_DAEMON_STATE_SEND_DIRECT) as Hnd by (intros Hst; by apply (di_direct _ _ Hd1) in Hst).
    destruct (removed_advance d1 (q ++ r) rb x Hd1 Hrb Hnd) as [Hi Hw]. fold d2 in Hi, Hw.
    unfold d3. case_bool_decide; [done|]. split_and!; [|exact Hw|done]. by split; try apply Hi. }
  pose proof (ad_work _ _ _ _ _ A1). pose proof (ad_clients _ _ _ _ _ A1). pose proof (ad_cnt _ _ _ _ _ A1).
  rewrite (mq_count _ _ (di_ring _ _ Hd3)). destruct (Z.leb_spec (zlen (q ++ r)) 0) as [Hz|Hz].
  { assert (q ++ r = []) as Hnil by (apply nil_length_inv; lia). rewrite Hnil in Hd3. eexists _, _, []. split; [reflexivity|].
    split; [by split; try apply Hd3|]. split; [|by left].
    change (depth d3 <= depth d). unfold depth in *. lia. }
  destruct (IH d3 (q ++ r) Hd3) as (rc & d' & q' & -> & I & Dd & Hc); [by intros E0; rewrite E0 in Hz|unfold depth in *; lia|lia|].
  exists rc, d', q'. split; [done|]. split; [done|]. split; [unfold depth in *; lia|]. destruct Hc as [Hc|(Hne & k & Hk & Hq')]; [by left|right].
  split; [done|]. destruct (decide (k <= length q)%nat) as [Hkq|Hkq].
  - exists (S k). cbn [drop]. split; [|done]. etrans; [|exact Hk]. rewrite drop_app_le by done. by eexists.
  - exists (S (length q)). cbn [drop]. rewrite drop_ge by done. split; [apply prefix_nil|done].
Qed.

Lemma send_ringbuffer_good m send n d q :
  good m send -> DInv d q -> depth d < m -> work d q <= Z.of_nat n ->
  ∃ rc d' q', dlt_daemon_send_ringbuffer_to_client n E send d = Some (rc, d') ∧ flushed d q rc d' q'.
Proof.
  intros Hg Hd Hm Hn. unfold dlt_daemon_send_ringbuffer_to_client. rewrite (mq_count _ _ (di_ring _ _ Hd)).
  destruct (Z.leb_spec (zlen q) 0) as [Hz|Hz].
  - assert (q = []) as -> by (apply nil_length_inv; lia). eexists _, _, []. split; [reflexivity|].
    split; [by split; try apply Hd|]. split; [done|]. by left.
  - apply (flush_good m send Hg n d q); try done. by intros ->.
Qed.

End sending.

(** ** A daemon with two clients *)

Definition env0 : env :=
  {| sendserialheader := false; offlineTraceDirectory := false; yvalue := false; logstorage := None; isatty := λ _, false;
     now_sec := 5; now_usec := 6; uptime := 1000; getpid := 7; tm_gmtoff := 3600; tm_isdst := 1;
     ECUVersionString := [49; 46; 48]; sendECUSoftwareVersion := true; sendTimezone := true; heap := heap_filled 0;
     pad := [7; 7; 7]; stack := MessageSpec.fresh |}.
Definition os0 (f : nat -> outcome) : os :=
  {| script := f; polls := λ _, Some true; calls := 0; last_errno := EOTHER; out := [] |}.

Definition client (fd : Z) : DltConnection :=
  {| EventHandler.id := fd; EventHandler.receiver := Some (receiver_of fd); EventHandler.type := DLT_CONNECTION_CLIENT_MSG_TCP;
     EventHandler.status := EventHandler.ACTIVE; EventHandler.ev_mask := 1 |}.
Definition watching (fds : list Z) : DltEventHandler :=
  {| EventHandler.pfd := ((λ fd, {| EventHandler.pfd_fd := fd; EventHandler.events := 1; EventHandler.revents := 0 |}) <$> fds)
                           ++ replicate (16 - length fds) EventHandler.init_poll_fd;
     EventHandler.nfds := zlen fds; EventHandler.max_nfds := 16; EventHandler.connections := client <$> fds |}.
Definition clients (fds : list Z) : spec :=
  {| s_conns := (λ fd, (fd, DLT_CONNECTION_CLIENT_MSG_TCP)) <$> fds; s_watched := fds; s_cap := 16 |}.

Lemma two_clients : EH (watching [5; 6]) 2 (clients [5; 6]).
Proof.
  split; try done; try (cbn; lia).
  - repeat constructor; eexists; split_and!; done.
  - eexists [_; _]. split; done.
  - by apply (bool_decide_unpack _).
  - by apply (bool_decide_unpack _).
  - by apply (bool_decide_unpack _).
Qed.

(** An empty ring buffer of 388 bytes, and one with a message. *)
Definition ring_with (w n : Z) (m : bytes) : RingBuffer.DltBuffer :=
  {| RingBuffer.shm := Some {| RingBuffer.head := {| RingBuffer.write := w; RingBuffer.read := 0; RingBuffer.count := n |};
                               RingBuffer.mem := m ++ replicate (388 - length m) 0 |};
     RingBuffer.size := 388; RingBuffer.min_size := 400; RingBuffer.max_size := 400; RingBuffer.step_size := 100 |}.
Definition empty_ring : RingBuffer.DltBuffer := ring_with 0 0 [].
Definition stored : bytes := [61; 1; 0; 8; 1; 2; 3; 4].
Definition full_ring : RingBuffer.DltBuffer := ring_with 20 1 (RingBuffer.block_head [7; 7; 7] 8 ++ stored).

Lemma empty_ring_queue : ring_queue 300 empty_ring [].
Proof.
  split; [|vm_compute; congruence]. eexists _, []. split; try done; try (cbn; lia).
  - split; try (cbn; lia).
  - constructor.
Qed.
Lemma full_ring_queue : ring_queue 300 full_ring [stored].
Proof.
  split; [|vm_compute; congruence].
  eexists _, (RingBuffer.block_head [7; 7; 7] 8 ++ stored ++ []).
  split; try done; try (cbn; lia).
  - split; try (cbn; lia). intros i Hi. change (zlen _) with 20 in Hi.
    assert (i ∈ seqZ 0 20) as Hin by (apply elem_of_seqZ; lia).
    cbn in Hin. repeat (apply elem_of_cons in Hin as [->|Hin]; [reflexivity|]).
    by apply elem_of_nil in Hin.
  - by repeat constructor.
Qed.

Definition daemon_with (s : DltDaemonState) (rb : RingBuffer.DltBuffer) (ovf : Z) (fds : list Z) (o : os) : daemon :=
  {| tables := DaemonTablesSpec.one_app; state := s; mode := DLT_USER_MODE_EXTERNAL; client_ringbuffer := rb; overflow_counter := ovf;
     connectionState := 1; timingpackets := 0; event := watching fds; client_connections := zlen fds; sent_message_overflow_cnt := 0;
     uiMsgCount := 0; offline_trace := []; sys := o |}.

Lemma stored_small : Forall (λ m, 0 < zlen m <= 300) [stored].
Proof. repeat constructor; cbn; lia. Qed.

Lemma two_client_inv s ovf o rb q :
  ring_queue 300 rb q -> Forall (λ m, 0 < zlen m <= 300) q -> (s = DLT_DAEMON_STATE_SEND_DIRECT -> q = []) ->
  DInv (cap := 300) (holds := ring_queue 300) (daemon_with s rb ovf [5; 6] o) q.
Proof.
  intros Hq Hs Hd. split; try done.
  - apply DaemonTablesSpec.one_app_inv.
  - by apply is_bytes_forallb.
  - exists (clients [5; 6]). exact two_clients.
Qed.

Lemma wf_daemon_env0 : wf_env env0.
Proof. split; try done; cbn; lia. Qed.

End DaemonSendSpec.
