(* ===== verification/DaemonDeliverySpec.v ===== *)
(** * Every client gets every message once and in order

    While the connections accept data, a message in the state SEND_DIRECT is written
    once to every TCP client, and the ring buffer is emptied in the order in which it
    was filled.  Over all events of the daemon the invariant of [DaemonSendSpec]
    holds and every event is handled. *)

From stdpp Require Import base sets list list_numbers numbers option.
From Stdlib Require Import ZArith Lia Bool.
From S2P Require Import Prelude Protocol Ids RingBuffer RingBufferSpec Message MessageSpec DaemonTables DaemonTablesSpec.
From S2P Require Import MessageQueue Receiver EventHandler EventHandlerSpec UserShared UserSendSpec DaemonSend DaemonMessagesSpec DaemonSendSpec.
Import Protocol Ids DaemonSend MessageQueue EventHandlerSpec DaemonMessagesSpec DaemonSendSpec.
Import UserShared (outcome(..), errno(..)).
Import EventHandler (DltEventHandler, DltConnection, DltConnectionType(..)).

Local Open Scope Z_scope.

Module DaemonDeliverySpec.
#[local] Existing Instance EventHandler.DltConnectionType_eq_dec.

(** ** Without errors every client gets every message *)

Definition framed (E : env) (msg : bytes) : bytes := (if sendserialheader E then Message.dltSerialHeader else []) ++ msg.

Lemma no_errors_delivers fd o o' d : delivers fd o o' d -> no_errors o -> no_errors o'.
Proof. intros [_ Hs _] H i e. rewrite Hs. apply H. Qed.

Lemma tcp_send_delivers c r o msg :
  EventHandler.receiver c = Some r -> EventHandler.type c = DLT_CONNECTION_CLIENT_MSG_TCP -> no_errors o ->
  ∃ o', dlt_connection_send c o msg = Some (0, o') ∧ delivers (Receiver.fd r) o o' msg.
Proof.
  intros Hr Ht Ho. unfold dlt_connection_send. rewrite Hr, Ht.
  destruct (sendreliable_total (Receiver.fd r) msg (length msg) o ltac:(lia)) as (rc & o' & k & E & Hd & [[-> ->]|[_ Hn]]); [|done].
  exists o'. split; [exact E|]. by rewrite firstn_all in Hd.
Qed.

(** The three parts of a message through any function that sends reliably. *)
Lemma three_parts_deliver E fd (f : os -> bytes -> option (Z * os)) o data1 data2 :
  (∀ o msg, no_errors o -> ∃ o', f o msg = Some (0, o') ∧ delivers fd o o' msg) -> no_errors o ->
  ∃ o', (r ← (if sendserialheader E then f o Message.dltSerialHeader else Some (0, o));
         r ← and_send f (Some data1) r; and_send f data2 r) = Some (0, o') ∧
    delivers fd o o' (framed E (data1 ++ default [] data2)).
Proof.
  intros Hf Ho. unfold framed.
  assert (∀ o x, no_errors o -> ∃ o', and_send f x (0, o) = Some (0, o') ∧ delivers fd o o' (default [] x)) as Ha.
  { intros o1 [[|y x]|] Ho1; [exists o1; split; [done|apply delivers_nil]| |exists o1; split; [done|apply delivers_nil]].
    apply (Hf o1 (y :: x) Ho1). }
  assert (∃ o', (if sendserialheader E then f o Message.dltSerialHeader else Some (0, o)) = Some (0, o') ∧
            delivers fd o o' (if sendserialheader E then Message.dltSerialHeader else [])) as (o1 & -> & D1).
  { destruct (sendserialheader E); [by apply Hf|]. exists o. split; [done|apply delivers_nil]. }
  bsimp. pose proof (no_errors_delivers _ _ _ _ D1 Ho) as Ho1. destruct (Ha o1 (Some data1) Ho1) as (o2 & -> & D2). bsimp.
  destruct (Ha o2 data2 (no_errors_delivers _ _ _ _ D2 Ho1)) as (o3 & -> & D3). exists o3. split; [done|].
  eapply delivers_trans; [exact D1|]. by eapply delivers_trans.
Qed.

Lemma tcp_multiple_delivers E c r o data1 data2 :
  EventHandler.receiver c = Some r -> EventHandler.type c = DLT_CONNECTION_CLIENT_MSG_TCP -> no_errors o ->
  ∃ o', dlt_connection_send_multiple c o (Some data1) data2 (sendserialheader E) = Some (0, o') ∧
    delivers (Receiver.fd r) o o' (framed E (data1 ++ default [] data2)).
Proof.
  intros Hr Ht Ho. apply three_parts_deliver; [|done]. intros o1 msg Ho1. by apply tcp_send_delivers.
Qed.

Lemma to_socket_delivers E sock data1 data2 d :
  isatty E sock = false -> no_errors (sys d) ->
  ∃ o', send_to_socket E sock (Some data1) data2 d = Some (0, set_sys d o') ∧
    delivers sock (sys d) o' (framed E (data1 ++ default [] data2)).
Proof.
  intros Ht Ho. unfold send_to_socket. rewrite Ht.
  destruct (three_parts_deliver E sock (λ o, dlt_daemon_socket_sendreliable o sock) (sys d) data1 data2) as (o' & Es & D); [|done|].
  - intros o msg Ho1. destruct (sendreliable_total sock msg (length msg) o ltac:(lia)) as (rc & o' & k & E' & Hd & [[-> ->]|[_ Hn]]); [|done].
    exists o'. split; [exact E'|]. by rewrite firstn_all in Hd.
  - unfold dlt_daemon_socket_send, DLT_RETURN_OK. rewrite Es. bsimp. by exists o'.
Qed.

(** All clients are TCP clients. *)
Definition all_tcp (s : spec) : Prop :=
  Forall (λ c, EventHandler.is_client c.2 = true -> c.2 = DLT_CONNECTION_CLIENT_MSG_TCP) (s_conns s).
Definition tcp_clients (s : spec) : list Z :=
  filter (λ fd, (fd, DLT_CONNECTION_CLIENT_MSG_TCP) ∈ s_conns s) (s_watched s).

(** [o'] is [o] after every client in [l] got [msg] once. *)
Record delivered (l : list Z) (o o' : os) (msg : bytes) : Prop := {
  de_errors : no_errors o -> no_errors o';
  de_stream : ∀ fd, stream fd o' = stream fd o ++ (if decide (fd ∈ l) then msg else [])
}.
Lemma delivered_nil o msg : delivered [] o o msg.
Proof. split; [done|]. intros fd. rewrite decide_False by apply not_elem_of_nil. by rewrite app_nil_r. Qed.
Lemma delivered_cons fd l o o1 o2 msg :
  delivers fd o o1 msg -> delivered l o1 o2 msg -> fd ∉ l -> delivered (fd :: l) o o2 msg.
Proof.
  intros D [He Hs] Hn. split; [intros H; apply He; by eapply no_errors_delivers|]. intros f.
  rewrite Hs, (delivers_stream _ _ _ _ f D), <-app_assoc. f_equal.
  destruct (decide (f = fd)) as [->|Hf].
  - rewrite (decide_False (P := fd ∈ l)) by done. rewrite decide_True by left. by rewrite app_nil_r.
  - cbn [app]. destruct (decide (f ∈ l)); [by rewrite decide_True by (by right)|].
    rewrite decide_False; [done|]. by rewrite elem_of_cons; intros [?|?].
Qed.
Lemma delivered_app l o1 o2 o3 m m' : delivered l o1 o2 m -> delivered l o2 o3 m' -> delivered l o1 o3 (m ++ m').
Proof.
  intros [E1 S1] [E2 S2]. split; [by auto|]. intros fd. rewrite S2, S1, <-app_assoc. f_equal. by case_decide.
Qed.

Lemma send_all_delivers E send data1 data2 s msg :
  framed E (data1 ++ default [] data2) = msg -> ∀ n i sent d,
  EH (event d) (client_connections d) s -> all_tcp s -> no_errors (sys d) -> zlen (s_watched s) = Z.of_nat (i + n) ->
  ∃ o', send_all_loop n E send i sent (Some data1) data2 d =
      Some (sent || bool_decide (filter (λ fd, (fd, DLT_CONNECTION_CLIENT_MSG_TCP) ∈ s_conns s) (drop i (s_watched s)) <> []), set_sys d o') ∧
    delivered (filter (λ fd, (fd, DLT_CONNECTION_CLIENT_MSG_TCP) ∈ s_conns s) (drop i (s_watched s))) (sys d) o' msg.
Proof.
  intros Hmsg. induction n as [|n IH]; intros i sent d H Ht Ho Hn; cbn [send_all_loop].
  { rewrite (eh_nfds _ _ _ H), ltb_false by lia. rewrite drop_ge by lia. exists (sys d). rewrite bool_decide_false by (intros X; by apply X).
    rewrite orb_false_r. split; [by destruct d|apply delivered_nil]. }
  rewrite (eh_nfds _ _ _ H), ltb_true by lia. destruct (eh_table _ _ _ H) as (live & Hp & Hl).
  destruct (lookup_lt_is_Some_2 (s_watched s) i) as (fd & Hfd); [lia|].
  assert (∃ e, EventHandler.pfd (event d) !! i = Some e ∧ EventHandler.pfd_fd e = fd) as (e & -> & He).
  { rewrite Hp. rewrite <-Hl, list_lookup_fmap in Hfd. destruct (live !! i) as [e|] eqn:Ee; [|done]. injection Hfd as <-.
    exists e. split; [|done]. rewrite lookup_app_l by (by eapply lookup_lt_Some). done. }
  bsimp. rewrite He, (drop_S _ _ _ Hfd). assert (fd ∈ (s_conns s).*1) as Hin by (apply (eh_watched _ _ _ H); by eapply list_elem_of_lookup_2).
  pose proof (find_conn_spec fd _ _ (eh_conns _ _ _ H) (eh_nodup _ _ _ H)) as F. unfold EventHandler.dlt_event_handler_find_connection.
  destruct (EventHandler.find_conn fd (EventHandler.connections (event d))) as [k|]; [|done].
  destruct F as (c & a & Hc & Ha & (r & Hr & Hf & Hty & _) & Hafd & _). rewrite Hc. bsimp. rewrite Hr. bsimp.
  pose proof (list_elem_of_lookup_2 _ _ _ Ha) as Hina.
  assert (∀ t, (fd, t) ∈ s_conns s -> t = a.2) as Huniq.
  { intros t Hint. pose proof (eh_nodup _ _ _ H) as Hnd. apply list_elem_of_lookup in Hint as (k' & Hk').
    assert (k' = k) as ->.
    { apply (NoDup_lookup _ _ _ fd Hnd); rewrite list_lookup_fmap, ?Hk', ?Ha; cbn; [done|by rewrite Hafd]. }
    rewrite Ha in Hk'. by injection Hk' as ->. }
  destruct (EventHandler.is_client (EventHandler.type c)) eqn:Ec; cbn [negb].
  - assert (a.2 = DLT_CONNECTION_CLIENT_MSG_TCP) as Htcp.
    { unfold all_tcp in Ht. rewrite list.Forall_forall in Ht. apply (Ht a Hina). by rewrite <-Hty. }
    assert ((fd, DLT_CONNECTION_CLIENT_MSG_TCP) ∈ s_conns s) as Hcl by (rewrite <-Hafd, <-Htcp; by destruct a).
    rewrite filter_cons_True by done. destruct (tcp_multiple_delivers E c r (sys d) data1 data2 Hr ltac:(congruence) Ho) as (o1 & -> & D1).
    bsimp. change (0 =? DLT_DAEMON_ERROR_OK) with true. cbn [negb andb]. bsimp. rewrite Hmsg, Hf, Hafd in D1.
    destruct (IH (S i) true (set_sys d o1)) as (o2 & -> & D2); [exact H|done|by eapply no_errors_delivers|lia|].
    exists o2. cbn [orb]. rewrite bool_decide_true by done. rewrite orb_true_r. split; [done|]. eapply delivered_cons; [done|exact D2|].
    intros [_ Hd]%list_elem_of_filter. pose proof (eh_nodup_watched _ _ _ H) as Hnd. rewrite <-(take_drop_middle _ _ _ Hfd) in Hnd.
    apply list.NoDup_app in Hnd as (_ & _ & Hnd). by apply list.NoDup_cons in Hnd as [Hnd _].
  - rewrite filter_cons_False. 2: { intros Hcl. apply Huniq in Hcl. rewrite Hty, <-Hcl in Ec. done. }
    apply (IH (S i) sent d); [done|done|done|lia].
Qed.

Definition external (d : daemon) : Prop := mode d = DLT_USER_MODE_EXTERNAL ∨ mode d = DLT_USER_MODE_BOTH.

Lemma external_eqb d : external d -> (mode d =? DLT_USER_MODE_EXTERNAL) || (mode d =? DLT_USER_MODE_BOTH) = true.
Proof. by intros [-> | ->]. Qed.

Lemma all_multiple_delivers E send data1 data2 s d :
  EH (event d) (client_connections d) s -> all_tcp s -> no_errors (sys d) ->
  ∃ o', dlt_daemon_client_send_all_multiple E send (Some data1) data2 d =
      Some (bool_decide (tcp_clients s <> []), set_sys d o') ∧
    delivered (tcp_clients s) (sys d) o' (framed E (data1 ++ default [] data2)).
Proof.
  intros H Ht Ho. unfold dlt_daemon_client_send_all_multiple.
  destruct (send_all_delivers E send data1 data2 s _ eq_refl (Z.to_nat (EventHandler.nfds (event d))) 0 false d H Ht Ho) as (o' & -> & D);
    [rewrite (eh_nfds _ _ _ H); lia|]. by exists o'.
Qed.

(** A message from the ring buffer. *)
Lemma force_delivers fuel E s d msg :
  EH (event d) (client_connections d) s -> all_tcp s -> tcp_clients s <> [] -> no_errors (sys d) -> external d ->
  overflow_counter d = 0 ->
  ∃ o', dlt_daemon_client_send (S fuel) E DLT_DAEMON_SEND_FORCE [] msg None d = Some (0, set_sys d o') ∧
    delivered (tcp_clients s) (sys d) o' (framed E msg).
Proof.
  intros H Ht Hne Ho Hx Hov. cbn [dlt_daemon_client_send]. unfold client_send_body, send_to_storage.
  change (DLT_DAEMON_SEND_FORCE =? DLT_DAEMON_SEND_TO_ALL) with false. change (DLT_DAEMON_SEND_FORCE =? DLT_DAEMON_SEND_FORCE) with true.
  cbn [negb andb orb]. rewrite external_eqb by done. change (0 =? 1) with false. cbn [negb andb orb].
  destruct (all_multiple_delivers E (dlt_daemon_client_send fuel E) msg None s d H Ht Ho) as (o' & -> & D). bsimp.
  rewrite bool_decide_true by done. cbn [negb]. unfold announce_lost. cbn [overflow_counter set_sys set_daemon].
  rewrite Hov. cbn [Z.ltb Z.compare andb]. bsimp. exists o'. split; [done|]. cbn [default] in D. by rewrite app_nil_r in D.
Qed.

Lemma direct_delivers fuel E s d storage data1 data2 :
  EH (event d) (client_connections d) s -> all_tcp s -> no_errors (sys d) -> external d ->
  state d = DLT_DAEMON_STATE_SEND_DIRECT -> overflow_counter d = 0 ->
  (∀ f, logstorage E = Some f -> f (storage ++ data1 ++ default [] data2) <> 1) ->
  ∃ tr o', dlt_daemon_client_send (S fuel) E DLT_DAEMON_SEND_TO_ALL storage data1 data2 d = Some (DLT_DAEMON_ERROR_OK, set_sys (set_trace d tr) o') ∧
    delivered (tcp_clients s) (sys d) o' (framed E (data1 ++ default [] data2)).
Proof.
  intros H Ht Ho Hx Hst Hov Hls. cbn [dlt_daemon_client_send]. unfold client_send_body.
  change (DLT_DAEMON_SEND_TO_ALL =? DLT_DAEMON_SEND_TO_ALL) with true. change (DLT_DAEMON_SEND_TO_ALL =? DLT_DAEMON_SEND_FORCE) with false.
  cbn [negb andb orb]. set (msg := storage ++ _).
  assert (∃ ls tr, send_to_storage E DLT_DAEMON_SEND_TO_ALL msg d = (ls, set_trace d tr) ∧ ls <> 1) as (ls & tr & -> & Hl).
  { unfold send_to_storage. change (DLT_DAEMON_SEND_TO_ALL =? DLT_DAEMON_SEND_FORCE) with false. rewrite Hst. cbn [negb andb].
    rewrite bool_decide_false by done. cbn [negb].
    assert ((match logstorage E with Some f => f msg | None => 0 end) <> 1) as Hr.
    { destruct (logstorage E) as [f|]; [by apply Hls|done]. }
    destruct (_ && offlineTraceDirectory E); [by eexists _, _|].
    eexists _, (offline_trace d). split; [|exact Hr]. f_equal. by destruct d. }
  set (d1 := set_trace d tr). rewrite (external_eqb d1 Hx). cbn [state d1 set_trace set_daemon]. rewrite Hst.
  rewrite bool_decide_true by done. rewrite eqb_false by done. cbn [negb andb].
  destruct (all_multiple_delivers E (dlt_daemon_client_send fuel E) data1 data2 s d1 H Ht Ho) as (o' & -> & D). bsimp.
  cbn [state set_sys d1 set_trace set_daemon]. rewrite Hst. cbn [is_buffering].
  unfold announce_lost. cbn [overflow_counter set_sys d1 set_trace set_daemon]. rewrite Hov. cbn [Z.ltb Z.compare andb]. bsimp.
  by eexists _, _.
Qed.


Section flush.
Context (E : env) {cap : Z} {holds : RingBuffer.DltBuffer -> list bytes -> Prop} `{!MessageQueue cap holds}.

Lemma flush_loop_delivers fuel s : ∀ q d,
  q <> [] -> holds (client_ringbuffer d) q -> Forall (λ m, 0 < zlen m <= DLT_DAEMON_RCVBUFSIZE) q ->
  EH (event d) (client_connections d) s -> all_tcp s -> tcp_clients s <> [] -> no_errors (sys d) -> external d ->
  overflow_counter d = 0 ->
  ∃ rb o', flush_loop (length q) E (dlt_daemon_client_send (S fuel) E) d =
      Some (DLT_DAEMON_ERROR_OK, dlt_daemon_change_state (set_ring (set_sys d o') rb) DLT_DAEMON_STATE_SEND_DIRECT) ∧
    holds rb [] ∧ delivered (tcp_clients s) (sys d) o' (concat (framed E <$> q)).
Proof.
  induction q as [|m q IH]; intros d Hne Hq Hs H Ht Hc Ho Hx Hov; [done|]. apply Forall_cons_1 in Hs as [Hm Hs].
  cbn [length flush_loop]. rewrite (mq_copy (heap E) (client_ringbuffer d) m q _ Hq) by done. bsimp.
  rewrite ltb_false by lia. rewrite ltb_true by lia. cbn [negb].
  assert (set_ring d (client_ringbuffer d) = d) as -> by (by destruct d).
  destruct (force_delivers fuel E s d m H Ht Hc Ho Hx Hov) as (o1 & -> & D1). bsimp. change (0 =? 0) with true. cbn [negb].
  destruct (mq_remove (heap E) (client_ringbuffer d) m q Hq) as (rb & Er & Hrb). cbn [client_ringbuffer set_sys set_daemon]. rewrite Er. bsimp.
  set (d2 := if bool_decide _ then _ else _).
  assert (client_ringbuffer d2 = rb ∧ sys d2 = o1 ∧ event d2 = event d ∧ client_connections d2 = client_connections d ∧ mode d2 = mode d ∧
          overflow_counter d2 = overflow_counter d ∧
          ∀ st o r, dlt_daemon_change_state (set_ring (set_sys d2 o) r) st = dlt_daemon_change_state (set_ring (set_sys d o) r) st)
    as (R2 & S2 & E2 & C2 & M2 & O2 & Heq) by (unfold d2; case_bool_decide; split_and!; done).
  rewrite R2, (mq_count _ _ Hrb). cbn [fmap list_fmap concat]. destruct q as [|m' q].
  - rewrite leb_true by (cbn; lia). exists rb, o1. split; [|split; [done|]].
    + f_equal. f_equal. unfold d2. by case_bool_decide.
    + cbn [concat]. by rewrite app_nil_r.
  - rewrite leb_false by (cbn [length]; lia).
    destruct (IH d2) as (rb' & o2 & Ef & Hrb' & D2); [done|by rewrite R2|done|by rewrite E2, C2|done|done| |by unfold external; rewrite M2|by rewrite O2|].
    { rewrite S2. by apply D1. }
    rewrite Ef. exists rb', o2. rewrite Heq. split; [done|]. split; [done|]. rewrite S2 in D2. by eapply delivered_app.
Qed.

(** C12: While no connection reports an error, all clients are TCP clients, the daemon
    is in external mode and has no lost messages to announce,
    [dlt_daemon_send_ringbuffer_to_client] writes all stored messages, each of at
    most 10024 bytes ([flush_overruns_array] is about longer ones), in the order in
    which they were stored, each exactly once, to every watched TCP client, also if
    the connections take them in pieces; then the ring buffer is empty and the daemon
    sends directly. *)
Theorem ringbuffer_flushed_in_order fuel s d q :
  q <> [] -> holds (client_ringbuffer d) q -> Forall (λ m, 0 < zlen m <= DLT_DAEMON_RCVBUFSIZE) q ->
  EH (event d) (client_connections d) s -> all_tcp s -> tcp_clients s <> [] -> no_errors (sys d) -> external d ->
  overflow_counter d = 0 ->
  ∃ d', dlt_daemon_send_ringbuffer_to_client (length q) E (dlt_daemon_client_send (S fuel) E) d = Some (DLT_DAEMON_ERROR_OK, d') ∧
    state d' = DLT_DAEMON_STATE_SEND_DIRECT ∧ holds (client_ringbuffer d') [] ∧
    ∀ fd, stream fd (sys d') = stream fd (sys d) ++ (if decide (fd ∈ tcp_clients s) then concat (framed E <$> q) else []).
Proof.
  intros Hne Hq Hs H Ht Hc Ho Hx Hov. unfold dlt_daemon_send_ringbuffer_to_client. rewrite (mq_count _ _ Hq).
  rewrite leb_false by (destruct q; [done|cbn [length]; lia]).
  destruct (flush_loop_delivers fuel s q d Hne Hq Hs H Ht Hc Ho Hx Hov) as (rb & o' & -> & Hrb & D).
  eexists. split; [reflexivity|]. split_and!; [done|done|]. apply D.
Qed.
End flush.

(** A control message to one client arrives: it is written to the client's
    socket as the encoding of a message, and [dlt_message_read] makes exactly this
    message of it, from "DA1" and "DC1" with the service data as payload. *)
Theorem control_message_arrives fuel E sock payload d A m0 :
  wf_env E -> is_id (DaemonTables.ecuid (tables d)) -> is_bytes (DaemonTables.ecuid (tables d)) ->
  is_bytes payload -> zlen payload < 65000 -> 0 <= sock -> isatty E sock = false -> sendserialheader E = false ->
  no_errors (sys d) -> heap_ok (heap E) -> heap_ok A -> MessageSpec.wf m0 ->
  ∃ M d' m', control_message E (dlt_daemon_client_send (S fuel) E) sock payload [0] d = Some (Some 0, d') ∧
    (∀ fd, stream fd (sys d') = stream fd (sys d) ++ (if decide (fd = sock) then MessageSpec.encode M else [])) ∧
    MessageSpec.m_ext M = [DLT_MSIN_CONTROL_RESPONSE; 1] ++ DLT_DAEMON_CTRL_APID ++ DLT_DAEMON_CTRL_CTID ∧
    MessageSpec.m_ecu M = DaemonTables.ecuid (tables d) ∧ MessageSpec.m_payload M = payload ∧
    Message.dlt_message_read A m0 (Some (MessageSpec.encode M)) (zlen (MessageSpec.encode M)) false =
      Some (Message.DLT_MESSAGE_ERROR_OK, m') ∧ MessageSpec.holds m' M.
Proof.
  intros WE Hi Hb Bp Lp Hsock Htty Hser Ho HM HA Hm0.
  destruct (control_message_sends E (dlt_daemon_client_send (S fuel) E) sock payload [0] DLT_DAEMON_CTRL_APID d WE Hi Hb)
    as [[Hn _]|(sh & _ & ->)]; [by left|done|lia|by apply HM in Hn|].
  set (M := control_of _ _ _ _ _ _ _). cbn [dlt_daemon_client_send]. unfold client_send_body.
  rewrite (eqb_false sock DLT_DAEMON_SEND_TO_ALL), (eqb_false sock DLT_DAEMON_SEND_FORCE) by (unfold DLT_DAEMON_SEND_TO_ALL, DLT_DAEMON_SEND_FORCE; lia).
  cbn [negb andb]. destruct (to_socket_delivers E sock (MessageSpec.headers M) (Some payload) d Htty Ho) as (o' & -> & D). bsimp.
  assert (framed E (MessageSpec.headers M ++ default [] (Some payload)) = MessageSpec.encode M) as Ef.
  { unfold framed. rewrite Hser, MessageSpec.encode_headers. done. }
  rewrite Ef in D. assert (MessageSpec.wf_message M) as WM.
  { assert (is_bytes DLT_DAEMON_CTRL_APID) by (by apply is_bytes_forallb). assert (is_bytes DLT_DAEMON_CTRL_CTID) by (by apply is_bytes_forallb).
    eapply control_wf; try done; [apply id_of_ctrl_app|apply id_of_ctrl_ctx|].
    unfold M. rewrite (control_len _ _ _ _ _ _ _ _ _ Hi id_of_ctrl_app id_of_ctrl_ctx). lia. }
  destruct (MessageSpec.read_complete A m0 [] [] M (zlen (MessageSpec.encode M)) false Hm0 WM) as (m' & Er & _ & Hm');
    [apply Forall_nil_2|apply Forall_nil_2|cbn [app]; rewrite app_nil_r; apply UserSendSpec.sync_at_start; discriminate
    |cbn [app]; rewrite app_nil_r, MessageSpec.length_encode; cbn [length]; lia
    |rewrite MessageSpec.length_encode; pose proof (MessageSpec.wm_len _ WM); lia|apply HA|].
  cbn [app] in Er. rewrite app_nil_r in Er. exists M, (set_sys d o'), m'. split_and!; try done.
  intros fd. apply (delivers_stream sock _ _ _ fd D).
Qed.

Lemma control_message_arrives_witness :
  ∃ M d' m', control_message env0 (dlt_daemon_client_send 1 env0) 6 [3; 15; 0; 0; 0] [0]
      (daemon_with DLT_DAEMON_STATE_SEND_DIRECT empty_ring 0 [5; 6] (os0 (λ n, WriteSome 7 EAGAIN))) = Some (Some 0, d') ∧
    stream 6 (sys d') = MessageSpec.encode M ∧ MessageSpec.m_payload M = [3; 15; 0; 0; 0] ∧ MessageSpec.holds m' M.
Proof.
  destruct (control_message_arrives 0 env0 6 [3; 15; 0; 0; 0]
    (daemon_with DLT_DAEMON_STATE_SEND_DIRECT empty_ring 0 [5; 6] (os0 (λ n, WriteSome 7 EAGAIN))) (heap_filled 0) MessageSpec.fresh)
    as (M & d' & m' & Es & Hs & _ & _ & Hp & _ & Hm).
  - exact wf_daemon_env0.
  - reflexivity.
  - by apply is_bytes_forallb.
  - by apply is_bytes_forallb.
  - reflexivity.
  - discriminate.
  - reflexivity.
  - reflexivity.
  - intros i e. discriminate.
  - intros n. discriminate.
  - intros n. discriminate.
  - exact MessageSpec.wf_fresh.
  - exists M, d', m'. split_and!; [exact Es|rewrite Hs; reflexivity|exact Hp|exact Hm].
Defined.

Lemma store_in_ring_os E data1 data2 d rc d' :
  store_in_ring E data1 data2 d = Some (rc, d') ->
  sys d' = sys d ∧ (rc = DLT_DAEMON_ERROR_BUFFER_FULL -> state d' = DLT_DAEMON_STATE_BUFFER_FULL).
Proof.
  unfold store_in_ring. intros E1. destruct (bool_decide (state d = _)) eqn:Eb.
  - cbn [mbind option_bind] in E1. rewrite Eb in E1. injection E1 as <- <-. split; [done|]. intros _. cbn. by apply bool_decide_eq_true in Eb.
  - destruct (RingBuffer.dlt_buffer_push3 _ _ _ _ _ _ _ _ _) as [[rb ret]|]; [|done]. cbn [mbind option_bind] in E1.
    destruct (ret <? DLT_RETURN_OK); destruct (bool_decide _) eqn:Eb2 in E1; injection E1 as <- <-; (split; [done|]); try done;
      intros _; by apply bool_decide_eq_true in Eb2.
Qed.

(** While the daemon buffers, a message of an application is stored behind all
    others or counted as lost; no client gets it before the older ones. *)
Theorem buffered_message_stored fuel E {cap} {holds} `{!MessageQueue cap holds} d q storage data1 data2 :
  wf_env E -> DInv (cap := cap) (holds := holds) d q -> is_buffering (state d) = true ->
  0 < zlen (data1 ++ default [] data2) <= cap ->
  ∃ rc d' q', dlt_daemon_client_send (S fuel) E DLT_DAEMON_SEND_TO_ALL storage data1 data2 d = Some (rc, d') ∧
    DInv (cap := cap) (holds := holds) d' q' ∧ sys d' = sys d ∧
    ((rc = DLT_DAEMON_ERROR_OK ∧ q' = q ++ [data1 ++ default [] data2] ∧ overflow_counter d' = overflow_counter d) ∨
     (rc = DLT_DAEMON_ERROR_BUFFER_FULL ∧ q' = q ∧ overflow_counter d' = u32 (overflow_counter d + 1) ∧
      state d' = DLT_DAEMON_STATE_BUFFER_FULL)).
Proof.
  intros WE Hd Hb Hl. cbn [dlt_daemon_client_send]. unfold client_send_body.
  change (DLT_DAEMON_SEND_TO_ALL =? DLT_DAEMON_SEND_TO_ALL) with true. change (DLT_DAEMON_SEND_TO_ALL =? DLT_DAEMON_SEND_FORCE) with false.
  cbn [negb andb orb]. destruct (send_to_storage _ _ _ _) as [ls d1] eqn:Es.
  pose proof (storage_same E _ _ _ _ _ (di_tables _ _ Hd) Es) as S1.
  assert (sys d1 = sys d) as Hsys by (unfold send_to_storage in Es; repeat case_match; by injection Es as _ <-).
  pose proof (same_advance _ _ _ Hd S1) as A1. destruct S1 as (Hst & _ & Hov & _). rewrite Hst.
  rewrite (bool_decide_false (state d = DLT_DAEMON_STATE_SEND_DIRECT)) by (by apply buffering_not_direct).
  rewrite !andb_false_r. cbn [andb]. bsimp. rewrite Hst, Hb. cbn [andb negb].
  destruct (store_good E WE data1 data2 d1 q (ad_inv _ _ _ _ _ A1) ltac:(by rewrite Hst) Hl) as (rc & d2 & q2 & Eq & A2 & Hrc).
  pose proof (store_in_ring_os E data1 data2 d1 rc d2 Eq) as [Hs2 Hf2]. rewrite Eq. exists rc, d2, q2. split; [done|].
  split; [apply A2|]. split; [congruence|]. rewrite <-Hov. destruct Hrc as [Hrc|(-> & ? & ?)]; [by left|right].
  split_and!; try done. by apply Hf2.
Qed.

Lemma buffered_message_stored_witness :
  ∃ rc d' q', dlt_daemon_client_send 1 env0 DLT_DAEMON_SEND_TO_ALL [] [1; 2] (Some [3])
      (daemon_with DLT_DAEMON_STATE_SEND_BUFFER full_ring 0 [5; 6] (os0 (λ _, WriteAll))) = Some (rc, d') ∧
    ring_queue 300 (client_ringbuffer d') q' ∧ (rc = DLT_DAEMON_ERROR_OK ∧ q' = [stored; [1; 2; 3]] ∨ rc = DLT_DAEMON_ERROR_BUFFER_FULL).
Proof.
  destruct (buffered_message_stored (cap := 300) (holds := ring_queue 300) 0 env0
    (daemon_with DLT_DAEMON_STATE_SEND_BUFFER full_ring 0 [5; 6] (os0 (λ _, WriteAll))) [stored] [] [1; 2] (Some [3]))
    as (rc & d' & q' & Es & Hd & _ & Hrc).
  - exact wf_daemon_env0.
  - exact (two_client_inv DLT_DAEMON_STATE_SEND_BUFFER 0 (os0 (λ _, WriteAll)) full_ring [stored] full_ring_queue stored_small ltac:(discriminate)).
  - reflexivity.
  - vm_compute. split; congruence.
  - exists rc, d', q'. split; [exact Es|]. split; [exact (di_ring _ _ Hd)|].
    destruct Hrc as [(-> & -> & _)|(-> & _)]; [left; split; reflexivity|right; reflexivity].
Defined.


Lemma ringbuffer_flushed_in_order_witness :
  ∃ d', dlt_daemon_send_ringbuffer_to_client 1 env0 (dlt_daemon_client_send 1 env0)
      (daemon_with DLT_DAEMON_STATE_SEND_BUFFER full_ring 0 [5; 6] (os0 (λ _, WriteAll))) = Some (DLT_DAEMON_ERROR_OK, d') ∧
    state d' = DLT_DAEMON_STATE_SEND_DIRECT ∧ stream 6 (sys d') = stored.
Proof.
  destruct (ringbuffer_flushed_in_order (cap := 300) (holds := ring_queue 300) env0 0 (clients [5; 6])
    (daemon_with DLT_DAEMON_STATE_SEND_BUFFER full_ring 0 [5; 6] (os0 (λ _, WriteAll))) [stored]) as (d' & Ef & Hst & _ & Hs).
  - discriminate.
  - exact full_ring_queue.
  - apply Forall_cons_2; [|apply Forall_nil_2]. vm_compute. split; congruence.
  - exact two_clients.
  - repeat constructor.
  - discriminate.
  - intros i e. discriminate.
  - by left.
  - reflexivity.
  - exists d'. split; [exact Ef|]. split; [exact Hst|]. rewrite Hs. reflexivity.
Defined.

End DaemonDeliverySpec.
