(* ===== verification/DaemonEventsSpec.v ===== *)
(** * The daemon over all its events

    Messages of applications, timers, new and lost clients in any order and with
    any behaviour of the operating system: every event is handled in bounded work,
    and the invariant that keeps messages in order is never lost. *)

From stdpp Require Import base sets list list_numbers numbers option.
From Stdlib Require Import ZArith Lia Bool.
From S2P Require Import Prelude Protocol Ids RingBuffer RingBufferSpec Message MessageSpec SortedTable DaemonTables DaemonTablesSpec.
From S2P Require Import MessageQueue Receiver EventHandler EventHandlerSpec UserShared DaemonSend DaemonMessagesSpec DaemonSendSpec.
Import Protocol Ids DaemonSend MessageQueue EventHandlerSpec DaemonMessagesSpec DaemonSendSpec.
Import UserShared (outcome(..), errno(..)).
Import EventHandler (DltEventHandler, DltConnection, DltConnectionType(..), setsockopt_result(..)).

Local Open Scope Z_scope.

Module DaemonEventsSpec.

(** ** Events *)

(** What the creation of a connection finds. *)
Record creation := { c_malloc : bool; c_realloc : bool; c_recv : option Receiver.DltReceiver; c_opt : setsockopt_result; c_id : Z }.

Inductive event_kind :=
| AppMessage (storage data1 : bytes) (data2 : option bytes)
| OneSecond
| SixtySeconds
| ClientConnect (acc : accept_result) (c : creation)
| ClientClosed (fd : Z).

Definition create_with (c : creation) (ev : DltEventHandler) (n fd : Z) : option (Z * DltEventHandler * Z) :=
  '(rc, ev, n, _) ← EventHandler.dlt_connection_create (c_malloc c) (c_realloc c) (c_recv c) (c_opt c) 64 (c_id c) ev n fd 1
                      DLT_CONNECTION_CLIENT_MSG_TCP;
  Some (rc, ev, n).

Definition handle (fuel : nat) (E : env) (e : event_kind) (d : daemon) : option (Z * daemon) :=
  let send := dlt_daemon_client_send fuel E in
  match e with
  | AppMessage st d1 d2 => send DLT_DAEMON_SEND_TO_ALL st d1 d2 d
  | OneSecond => dlt_daemon_process_one_s_timer fuel E send d
  | SixtySeconds => dlt_daemon_process_sixty_s_timer E send d
  | ClientConnect acc c => dlt_daemon_process_client_connect fuel E send acc (create_with c) d
  | ClientClosed fd => dlt_daemon_close_socket E send fd d
  end.

(** Messages have a length the ring buffer can take; the receiver of a connection
    has its descriptor. *)
Definition wf_event (cap : Z) (e : event_kind) : Prop :=
  match e with
  | AppMessage _ d1 d2 => 0 < zlen (d1 ++ default [] d2) <= cap
  | ClientConnect (Accepted fd) c => match c_recv c with Some r => Receiver.fd r = fd | None => True end
  | _ => True
  end.

(** ** Tables *)

Lemma contexts_invalidate_keeps d e fd :
  DaemonTablesSpec.daemon_inv d ->
  ∃ rc d', DaemonTables.dlt_daemon_contexts_invalidate_fd d e fd = Some (rc, d') ∧ DaemonTablesSpec.daemon_inv d' ∧
    DaemonTables.ecuid d' = DaemonTables.ecuid d.
Proof.
  intros Hd. destruct (DaemonTablesSpec.contexts_invalidate_ok d e fd (DaemonTablesSpec.daemon_inv_shape d Hd))
    as (rc & d' & -> & Hs & Ha & _ & He).
  exists rc, d'. split_and!; [done| |done]. intros j u' Hu'. destruct (Hs j u' Hu') as [_ Hc]. split; [|done].
  specialize (Ha j). unfold DaemonTablesSpec.arr in Ha. rewrite Hu' in Ha.
  destruct (DaemonTables.user_list d !! j) as [u|] eqn:Eu; [|done]. injection Ha as H1 H2.
  destruct (Hd j u Eu) as [Hi _]. by apply (DaemonTablesSpec.apps_inv_arr u).
Qed.

Lemma applications_invalidate_keeps d e fd :
  DaemonTablesSpec.daemon_inv d ->
  ∃ rc d', DaemonTables.dlt_daemon_applications_invalidate_fd d e fd = Some (rc, d') ∧ DaemonTablesSpec.daemon_inv d' ∧
    DaemonTables.ecuid d' = DaemonTables.ecuid d.
Proof.
  intros Hd. unfold DaemonTables.dlt_daemon_applications_invalidate_fd.
  destruct (DaemonTables.dlt_daemon_find_users_list d e) as [i|] eqn:Ei; [|by eexists _, d].
  pose proof (DaemonTablesSpec.find_users_lookup _ _ _ _ Ei) as Hi.
  destruct (lookup_lt_is_Some_2 (DaemonTables.user_list d) i) as [u Hu]; [lia|]. rewrite Hu. bsimp.
  destruct (Z.leb_spec (DaemonTables.num_applications u) 0); [by eexists _, d|].
  destruct (Hd i u Hu) as [Hai Hci]. pose proof Hai as [Hb Hs Hids].
  destruct (DaemonTables.applications u) as [apps|] eqn:Ea; [|cbn in Hb; lia]. destruct Hb as [Hn Hmod]. bsimp.
  rewrite ltb_false by lia. eexists _, _. split; [reflexivity|]. split; [|done].
  assert (∀ a, DaemonTables.App.apid (DaemonTables.reset_app_fd fd a) = DaemonTables.App.apid a) as Hid
    by (intros a; unfold DaemonTables.reset_app_fd; by destruct (_ =? _)).
  intros j v. destruct (decide (j = i)) as [->|Hne].
  - rewrite (DaemonTablesSpec.set_list_lookup_eq _ _ u) by done. intros [= <-]. split; [|by destruct Hci; split].
    unfold DaemonTablesSpec.live_apps in Hs, Hids. rewrite Ea in Hs, Hids. cbn [default from_option id] in Hs, Hids.
    split; unfold DaemonTablesSpec.live_apps; cbn [DaemonTables.applications DaemonTables.num_applications DaemonTables.set_apps default from_option id].
    + cbn. by rewrite DaemonTablesSpec.map_first_length.
    + rewrite DaemonTablesSpec.map_first_take by lia. eapply SortedTable.sorted_keys; [exact Hs|]. by apply SortedTable.keys_fmap.
    + rewrite DaemonTablesSpec.map_first_take by lia. apply Forall_fmap. eapply list.Forall_impl; [exact Hids|].
      intros a. unfold compose. by rewrite Hid.
  - rewrite DaemonTablesSpec.set_list_lookup_ne by done. apply Hd.
Qed.

(** ** Every event *)

Section events.
Context (E : env) {cap : Z} {holds : RingBuffer.DltBuffer -> list bytes -> Prop} `{!MessageQueue cap holds}.
Hypothesis (WE : wf_env E) (Hcap : 300 <= cap <= DLT_DAEMON_RCVBUFSIZE).
Hypothesis (Hver : zlen (ECUVersionString E) <= 200) (Bver : is_bytes (ECUVersionString E)).

Abbreviation Inv := (DInv (cap := cap) (holds := holds)).
Abbreviation adv := (advance (cap := cap) (holds := holds)).
Abbreviation goodf := (good (cap := cap) (holds := holds)).

Lemma cap_low : 300 <= cap.
Proof. exact (proj1 Hcap). Qed.
Lemma cap_high : cap <= DLT_DAEMON_RCVBUFSIZE.
Proof. exact (proj2 Hcap). Qed.

Lemma adv_depth d q d' q' b : adv d q d' q' b -> depth d' <= depth d.
Proof. intros [_ _ Hc _ Hn _]. unfold depth. lia. Qed.

Lemma response_good m send sock id st d q :
  goodf m send -> Inv d q -> depth d < m ->
  ∃ d' q', dlt_daemon_control_service_response E send sock id st d = Some d' ∧ adv d q d' q' 1.
Proof.
  intros Hg Hd Hm. unfold dlt_daemon_control_service_response.
  edestruct (control_good (holds := holds) E WE cap_low m send sock) as (rc & d' & q' & -> & A); [exact Hg|exact Hd|exact Hm| | |].
  { rewrite is_bytes_app. split; [apply is_bytes_le|]. constructor; [apply (wrapu_range 8); lia|constructor]. }
  { rewrite length_app, length_le_bytes. cbn [length]. lia. }
  bsimp. exists d', q'. split; [done|]. eapply advance_weaken; [exact A|]. case_match; lia.
Qed.

Lemma version_good m send sock d q :
  goodf m send -> Inv d q -> depth d < m ->
  ∃ d' q', dlt_daemon_control_get_software_version E send sock d = Some d' ∧ adv d q d' q' 2.
Proof.
  intros Hg Hd Hm. unfold dlt_daemon_control_get_software_version, or_response.
  edestruct (control_good (holds := holds) E WE cap_low m send sock) as (rc & d1 & q1 & -> & A); [exact Hg|exact Hd|exact Hm| | |].
  { rewrite !is_bytes_app. split_and!; [by apply is_bytes_forallb..|apply is_bytes_le|done]. }
  { rewrite !length_app, !length_le_bytes. cbn [length]. lia. }
  bsimp. assert (adv d q d1 q1 1) as A1 by (eapply advance_weaken; [exact A|case_match; lia]).
  destruct rc; [exists d1, q1; split; [done|by eapply advance_weaken; [exact A1|]]|].
  destruct (response_good m send sock DLT_SERVICE_ID_GET_SOFTWARE_VERSION DLT_SERVICE_RESPONSE_ERROR d1 q1 Hg (ad_inv _ _ _ _ _ A1))
    as (d2 & q2 & -> & A2); [pose proof (adv_depth _ _ _ _ _ A1); lia|].
  exists d2, q2. split; [done|]. exact (advance_trans _ _ _ _ _ _ _ _ A1 A2).
Qed.

Lemma timezone_good m send sock d q :
  goodf m send -> Inv d q -> depth d < m ->
  ∃ rc d' q', dlt_daemon_control_message_timezone E send sock d = Some (rc, d') ∧ adv d q d' q' 1.
Proof.
  intros Hg Hd Hm. unfold dlt_daemon_control_message_timezone, minus_one.
  edestruct (control_good (holds := holds) E WE cap_low m send sock) as (rc & d' & q' & -> & A); [exact Hg|exact Hd|exact Hm| | |].
  { rewrite !is_bytes_app. split_and!; [by apply is_bytes_forallb..|apply is_bytes_le|]. constructor; [apply (wrapu_range 8); lia|constructor]. }
  { rewrite !length_app, !length_le_bytes. cbn [length]. lia. }
  bsimp. eexists _, d', q'. split; [done|]. eapply advance_weaken; [exact A|]. case_match; lia.
Qed.

Lemma time_good m send d q :
  goodf m send -> Inv d q -> depth d < m ->
  ∃ d' q', dlt_daemon_control_message_time E send DLT_DAEMON_SEND_TO_ALL d = Some d' ∧ adv d q d' q' 1.
Proof.
  intros Hg Hd Hm. destruct (time_message_sends E send DLT_DAEMON_SEND_TO_ALL d WE (di_ecu _ _ Hd) (di_ecu_bytes _ _ Hd)) as (sh & _ & ->).
  set (M := control_of _ _ _ _ _ _ _).
  destruct (Hg DLT_DAEMON_SEND_TO_ALL sh (MessageSpec.headers M) None d q Hd Hm) as (rc & d' & q' & -> & A).
  { cbn [default from_option]. change [] with (MessageSpec.m_payload M). rewrite <-MessageSpec.encode_headers, MessageSpec.length_encode. unfold M.
    rewrite (control_len _ _ _ _ _ _ _ _ _ (di_ecu _ _ Hd) id_of_empty id_of_empty). cbn [length]. lia. }
  bsimp. by exists d', q'.
Qed.

(** The timers. *)
Lemma sixty_good m send d q :
  goodf m send -> Inv d q -> depth d < m ->
  ∃ rc d' q', dlt_daemon_process_sixty_s_timer E send d = Some (rc, d') ∧ adv d q d' q' 3.
Proof.
  intros Hg Hd Hm. unfold dlt_daemon_process_sixty_s_timer.
  assert (∃ d1 q1, (if sendECUSoftwareVersion E then dlt_daemon_control_get_software_version E send DLT_DAEMON_SEND_TO_ALL d else Some d) = Some d1
            ∧ adv d q d1 q1 2) as (d1 & q1 & -> & A1).
  { case_match; [by apply (version_good m)|]. exists d, q. split; [done|]. eapply advance_weaken; [by apply advance_refl|lia]. }
  bsimp. pose proof (adv_depth _ _ _ _ _ A1).
  assert (∃ d2 q2, (if sendTimezone E then '(_, d) ← dlt_daemon_control_message_timezone E send DLT_DAEMON_SEND_TO_ALL d1; Some d else Some d1) = Some d2
            ∧ adv d1 q1 d2 q2 1) as (d2 & q2 & -> & A2).
  { case_match; [|exists d1, q1; split; [done|]; eapply advance_weaken; [apply advance_refl, A1|lia]].
    destruct (timezone_good m send DLT_DAEMON_SEND_TO_ALL d1 q1 Hg (ad_inv _ _ _ _ _ A1)) as (rc & d2 & q2 & -> & A2); [lia|]. bsimp. by exists d2, q2. }
  bsimp. exists 0, d2, q2. split; [done|]. exact (advance_trans _ _ _ _ _ _ _ _ A1 A2).
Qed.

Lemma one_good m send n d q :
  goodf m send -> Inv d q -> depth d < m -> work d q <= Z.of_nat n ->
  ∃ rc d' q', dlt_daemon_process_one_s_timer n E send d = Some (rc, d') ∧ Inv d' q' ∧ depth d' <= depth d.
Proof.
  intros Hg Hd Hm Hn. unfold dlt_daemon_process_one_s_timer.
  assert (∃ d1 q1, (match state d with
       | DLT_DAEMON_STATE_SEND_BUFFER | DLT_DAEMON_STATE_BUFFER_FULL =>
           '(_, d) ← dlt_daemon_send_ringbuffer_to_client n E send d; Some d
       | _ => Some d
       end) = Some d1 ∧ Inv d1 q1 ∧ depth d1 <= depth d) as (d1 & q1 & -> & H1 & D1).
  { destruct (send_ringbuffer_good E cap_high m send n d q Hg Hd Hm Hn) as (rc & d1 & q1 & Ef & H1 & D1 & _).
    destruct (state d); try (by exists d, q); rewrite Ef; bsimp; by exists d1, q1. }
  bsimp. destruct (_ && _); [|by exists 0, d1, q1].
  destruct (time_good m send d1 q1 Hg H1) as (d2 & q2 & -> & A2); [lia|]. bsimp. pose proof (adv_depth _ _ _ _ _ A2).
  exists 0, d2, q2. split_and!; [done|apply A2|lia].
Qed.

(** A new client. *)
Lemma created ev n s c fd :
  EH ev n s -> match c_recv c with Some r => Receiver.fd r = fd | None => True end ->
  ∃ rc ev' n' s', create_with c ev n fd = Some (rc, ev', n') ∧ EH ev' n' s' ∧ n' <= n + 1.
Proof.
  intros H Hwf. set (o := Create (c_malloc c) (c_realloc c) (c_recv c) (c_opt c) fd 1 DLT_CONNECTION_CLIENT_MSG_TCP).
  destruct (create_refines 64 ev n (c_id c) s o H Hwf) as (rc & ev' & n' & nid & Ec & _ & H').
  unfold create_with. rewrite Ec. bsimp. exists rc, ev', n', (spec_op s o).2. split_and!; [done|done|].
  rewrite (eh_clients _ _ _ H'), (eh_clients _ _ _ H). cbn [spec_op o]. destruct (_ || _); cbn [snd]; [lia|].
  destruct (c_malloc c), (c_recv c), (c_opt c); cbn [snd s_conns]; try lia; rewrite list.filter_app, length_app;
    cbn [filter list_filter length]; case_decide; cbn [length]; lia.
Qed.

Lemma set_event_inv d q ev n s :
  Inv d q -> EH ev n s -> n <= client_connections d + 1 ->
  Inv (set_event d ev n) q ∧ depth (set_event d ev n) <= depth d + 2 ∧ work (set_event d ev n) q <= work d q + 2.
Proof.
  intros Hd Hs Hn. split_and!; [split; try apply Hd; by exists s|..]; unfold work, depth, credit;
    cbn [client_connections sent_message_overflow_cnt overflow_counter set_event set_daemon]; lia.
Qed.

Lemma connected_text_length sock n : zlen (connected_text sock n) <= 200.
Proof. unfold connected_text. rewrite !length_app. pose proof (dec_length sock). pose proof (dec_length n). cbn [length]. lia. Qed.

(** The greeting: connection info, version, time zone and a log message. *)
Lemma greeting_good m send fd d q :
  goodf m send -> Inv d q -> depth d < m ->
  ∃ d' q',
    ('(_, d) ← dlt_daemon_control_message_connection_info E send fd DLT_CONNECTION_STATUS_CONNECTED d;
     d ← (if sendECUSoftwareVersion E then
             d ← dlt_daemon_control_get_software_version E send DLT_DAEMON_SEND_TO_ALL d;
             if sendTimezone E
             then '(_, d) ← dlt_daemon_control_message_timezone E send DLT_DAEMON_SEND_TO_ALL d; Some d else Some d
           else Some d);
     '(_, d) ← dlt_daemon_log_internal E send (connected_text fd (client_connections d)) DLT_LOG_INFO d;
     Some d) = Some d' ∧ adv d q d' q' 5.
Proof.
  intros Hg Hd Hm.
  destruct (connection_info_good E WE cap_low m send fd DLT_CONNECTION_STATUS_CONNECTED d q Hg Hd Hm eq_refl) as (rc & d1 & q1 & -> & A).
  assert (adv d q d1 q1 1) as A1 by (eapply advance_weaken; [exact A|case_match; lia]). clear A. bsimp. pose proof (adv_depth _ _ _ _ _ A1).
  assert (∃ d2 q2, (if sendECUSoftwareVersion E then
             d ← dlt_daemon_control_get_software_version E send DLT_DAEMON_SEND_TO_ALL d1;
             if sendTimezone E
             then '(_, d) ← dlt_daemon_control_message_timezone E send DLT_DAEMON_SEND_TO_ALL d; Some d else Some d
           else Some d1) = Some d2 ∧ adv d1 q1 d2 q2 3) as (d2 & q2 & -> & A2).
  { case_match; [|exists d1, q1; split; [done|]; eapply advance_weaken; [apply advance_refl, A1|lia]].
    destruct (version_good m send DLT_DAEMON_SEND_TO_ALL d1 q1 Hg (ad_inv _ _ _ _ _ A1)) as (d2 & q2 & -> & A2); [lia|].
    bsimp. pose proof (adv_depth _ _ _ _ _ A2). case_match; [|exists d2, q2; split; [done|]; eapply advance_weaken; [exact A2|lia]].
    destruct (timezone_good m send DLT_DAEMON_SEND_TO_ALL d2 q2 Hg (ad_inv _ _ _ _ _ A2)) as (rc3 & d3 & q3 & -> & A3); [lia|].
    bsimp. exists d3, q3. split; [done|]. exact (advance_trans _ _ _ _ _ _ _ _ A2 A3). }
  bsimp. pose proof (adv_depth _ _ _ _ _ A2).
  destruct (log_good E WE cap_low m send (connected_text fd (client_connections d2)) DLT_LOG_INFO d2 q2 Hg (ad_inv _ _ _ _ _ A2))
    as (rc4 & d4 & q4 & -> & A4); [lia|apply connected_text_length|].
  bsimp. exists d4, q4. split; [done|]. exact (advance_trans _ _ _ _ _ _ _ _ A1 (advance_trans _ _ _ _ _ _ _ _ A2 A4)).
Qed.

Lemma connect_good m send n acc c d q :
  goodf m send -> Inv d q -> depth d + 2 < m -> work d q + 7 <= Z.of_nat n -> wf_event cap (ClientConnect acc c) ->
  ∃ rc d' q', dlt_daemon_process_client_connect n E send acc (create_with c) d = Some (rc, d') ∧ Inv d' q'.
Proof.
  intros Hg Hd Hm Hn Hwf. unfold dlt_daemon_process_client_connect. destruct acc as [fd| |]; [|by eexists _, d, q..].
  destruct (applications_invalidate_keeps (tables d) (DaemonTables.ecuid (tables d)) fd (di_tables _ _ Hd)) as (r1 & t1 & -> & Ht1 & He1). bsimp.
  destruct (contexts_invalidate_keeps t1 (DaemonTables.ecuid t1) fd Ht1) as (r2 & t2 & -> & Ht2 & He2). bsimp.
  set (d1 := set_tables d t2). assert (Inv d1 q) as Hd1 by (split; try apply Hd; cbn; rewrite ?He2, ?He1; try apply Hd; done).
  destruct (di_event _ _ Hd1) as (s & Hs). destruct (created _ _ s c fd Hs Hwf) as (rc & ev & nc & s' & -> & Hs' & Hnc). bsimp.
  destruct (set_event_inv d1 q ev nc s' Hd1 Hs' Hnc) as (Hd2 & D2 & W2). set (d2 := set_event d1 ev nc) in *.
  change (depth d1) with (depth d) in D2. change (work d1 q) with (work d q) in W2.
  destruct (negb (rc =? 0)); [by eexists _, d2, q|].
  destruct (greeting_good m send fd d2 q Hg Hd2 ltac:(lia)) as (d3 & q3 & Eg & A3). revert Eg.
  destruct (dlt_daemon_control_message_connection_info _ _ _ _ _) as [[r3 d4]|]; [|done]. bsimp.
  destruct (if sendECUSoftwareVersion E then _ else _) as [d5|]; [|done]. bsimp.
  destruct (dlt_daemon_log_internal _ _ _ _ _) as [[r6 d6]|]; [|done]. bsimp. intros [= ->].
  pose proof (adv_depth _ _ _ _ _ A3). pose proof (ad_work _ _ _ _ _ A3). pose proof (ad_inv _ _ _ _ _ A3) as Hd3.
  destruct (client_connections d3 =? 1); [|by exists 0, d3, q3]. set (d7 := dlt_daemon_change_state d3 _).
  assert (Inv d7 q3) as Hd7 by (by split; try apply Hd3).
  destruct (send_ringbuffer_good E cap_high m send n d7 q3 Hg Hd7) as (r8 & d8 & q8 & -> & Hd8 & _);
    [change (depth d7) with (depth d3); lia|change (work d7 q3) with (work d3 q3); lia|].
  bsimp. destruct (r8 =? -1); [by eexists _, d8, q8|].
  destruct (send_all_log_state_total (set_connection_state d8 1)) as (d9 & -> & S9); [apply Hd8|]. bsimp. exists 0, d9, q8. split; [done|].
  apply (ad_inv _ _ _ _ _ (same_advance (set_connection_state d8 1) q8 d9 ltac:(by split; try apply Hd8) S9)).
Qed.

(** C10: Every event is handled: with fuel beyond the work that is left (the stored
    messages, two for each client, one announcement of lost messages), whatever the
    operating system answers, the handler returns and the invariant holds again.
    So sending terminates although closing a client and announcing lost messages
    send messages themselves, no memory is accessed out of bounds, and in the state
    SEND_DIRECT the ring buffer is empty: no message overtakes a stored one.  The
    messages have at most [cap] bytes, which fit the empty ring buffer, and [cap] is at
    most 10024 ([flush_overruns_array] is about longer messages). *)
Theorem every_event_handled fuel e d q :
  Inv d q -> wf_event cap e -> work d q + 8 <= Z.of_nat fuel ->
  ∃ rc d' q', handle fuel E e d = Some (rc, d') ∧ Inv d' q' ∧ (state d' = DLT_DAEMON_STATE_SEND_DIRECT -> q' = []).
Proof.
  intros Hd Hwf Hf. pose proof (client_send_good (holds := holds) E WE cap_low fuel) as Hg.
  assert (depth d + 2 < Z.of_nat fuel) as Hm by (unfold work, credit in Hf; repeat case_match; lia).
  enough (∃ rc d' q', handle fuel E e d = Some (rc, d') ∧ Inv d' q') as (rc & d' & q' & ? & H) by (exists rc, d', q'; split_and!; [done..|apply H]).
  destruct e as [st d1 d2| | |acc c|fd]; cbn [handle].
  - destruct (Hg DLT_DAEMON_SEND_TO_ALL st d1 d2 d q Hd ltac:(lia) Hwf) as (rc & d' & q' & -> & A). exists rc, d', q'. split; [done|apply A].
  - destruct (one_good _ _ fuel d q Hg Hd ltac:(lia) ltac:(lia)) as (rc & d' & q' & -> & H & _). by exists rc, d', q'.
  - destruct (sixty_good _ _ d q Hg Hd ltac:(lia)) as (rc & d' & q' & -> & A). exists rc, d', q'. split; [done|apply A].
  - apply (connect_good _ _ fuel acc c d q Hg Hd Hm ltac:(lia) Hwf).
  - destruct (close_any_good E WE cap_low _ _ d q fd Hg Hd ltac:(lia)) as (rc & d' & q' & -> & A). exists rc, d', q'. split; [done|apply A].
Qed.

End events.

Lemma every_event_handled_witness :
  ∃ rc d' q', handle 20 env0 (ClientClosed 6) (daemon_with DLT_DAEMON_STATE_SEND_BUFFER full_ring 3 [5; 6] (os0 (λ n, WriteError EPIPE))) =
      Some (rc, d') ∧ DInv (cap := 300) (holds := ring_queue 300) d' q'.
Proof.
  destruct (every_event_handled (cap := 300) (holds := ring_queue 300) env0 wf_daemon_env0 ltac:(vm_compute; split; congruence)
    ltac:(vm_compute; congruence) ltac:(by apply is_bytes_forallb) 20 (ClientClosed 6)
    (daemon_with DLT_DAEMON_STATE_SEND_BUFFER full_ring 3 [5; 6] (os0 (λ n, WriteError EPIPE))) [stored]) as (rc & d' & q' & E & H & _).
  - exact (two_client_inv DLT_DAEMON_STATE_SEND_BUFFER 3 _ full_ring [stored] full_ring_queue stored_small ltac:(discriminate)).
  - exact I.
  - vm_compute. discriminate.
  - exists rc, d', q'. split; [exact E|exact H].
Defined.

(** ** What goes wrong *)

(** The loop over the clients skips the one behind a client that fails: closing
    the failed one moves the others forward in the poll table while the index
    advances.  The message to the clients 5 and 6 fails at 5 and is never
    written to 6, which stays connected and gets the messages about 5. *)
Theorem client_behind_failing_one_skipped :
  ∃ d', dlt_daemon_client_send 8 env0 DLT_DAEMON_SEND_TO_ALL [] [1; 2] None
      (daemon_with DLT_DAEMON_STATE_SEND_DIRECT empty_ring 0 [5; 6] (os0 (λ n, match n with O => WriteError EPIPE | _ => WriteAll end))) =
      Some (DLT_DAEMON_ERROR_OK, d') ∧
    client_connections d' = 1 ∧ (EventHandler.pfd_fd <$> take 1 (EventHandler.pfd (event d'))) = [6] ∧
    (6, [1; 2]) ∉ out (sys d') ∧ stream 6 (sys d') <> [].
Proof.
  eexists. split; [vm_compute; reflexivity|]. split; [reflexivity|]. split; [reflexivity|]. split; [|vm_compute; discriminate].
  by apply (bool_decide_unpack _).
Qed.

(** Lost messages may never be announced.  When the buffer was full, the timer
    sends what is stored; the announcement behind the first message fails, since
    the daemon still is in the state BUFFER_FULL, and the static counter that
    guards against recursion stays at 1.  From then on the announcement is skipped. *)
Theorem overflow_never_announced :
  ∃ d1, handle 20 env0 OneSecond (daemon_with DLT_DAEMON_STATE_BUFFER_FULL full_ring 3 [5; 6] (os0 (λ _, WriteAll))) = Some (0, d1) ∧
    state d1 = DLT_DAEMON_STATE_SEND_DIRECT ∧ client_connections d1 = 2 ∧ overflow_counter d1 = 4 ∧
    ∀ E send, announce_lost E send d1 = Some d1.
Proof.
  eexists. split; [vm_compute; reflexivity|]. split; [reflexivity|]. split; [reflexivity|]. split; [reflexivity|].
  intros E send. reflexivity.
Qed.

(** A stored message of more than 10024 bytes is copied out of the bounds of the
    static array of [dlt_daemon_send_ringbuffer_to_client]. *)
Theorem flush_overruns_array n E send {cap} {holds} `{!MessageQueue cap holds} d m q :
  holds (client_ringbuffer d) (m :: q) -> DLT_DAEMON_RCVBUFSIZE < zlen m ->
  dlt_daemon_send_ringbuffer_to_client n E send d = None.
Proof.
  intros Hq Hm. unfold dlt_daemon_send_ringbuffer_to_client. rewrite (mq_count _ _ Hq). rewrite leb_false by (cbn [length]; lia).
  destruct n as [|n]; [done|]. cbn [flush_loop]. rewrite (mq_copy (heap E) _ m q _ Hq) by done. bsimp. by rewrite ltb_true.
Qed.

End DaemonEventsSpec.
