(* ===== verification/DaemonControl.v ===== *)
(** * Control requests of clients ([src/daemon/dlt_daemon_client.c],
    [src/daemon/dlt_daemon_common.c])

    A client asks for the log level or trace status of contexts, for the tables, or
    for a call in an application ("injection").  [dlt_daemon_client_process_control]
    reads the service of a request and calls its handler, which changes the tables,
    tells the applications and answers the client.

    [flags] is the configuration.  The gateway, the log storage and the files
    of the runtime configuration are [services]: what the handlers call of them.
    The handlers of log level and trace status write the limited level back into
    the request, which nobody reads afterwards; here it is a local value. *)

From stdpp Require Import base list numbers option.
From Stdlib Require Import ZArith Lia Bool.
From S2P Require Import Prelude Protocol Ids Message Filter DltFile UserShared.
From S2P Require Import SortedTable DaemonTables DaemonSend.
Import Protocol Ids UserShared DaemonSend.

Local Open Scope Z_scope.

Module DaemonControl.

Definition DLT_SERVICE_RESPONSE_PERM_DENIED : Z := 3.
Definition DLT_SERVICE_ID : Z := 0.
Definition DLT_SERVICE_ID_SET_LOG_LEVEL : Z := 1.
Definition DLT_SERVICE_ID_SET_TRACE_STATUS : Z := 2.
Definition DLT_SERVICE_ID_GET_LOG_INFO : Z := 3.
Definition DLT_SERVICE_ID_STORE_CONFIG : Z := 5.
Definition DLT_SERVICE_ID_RESET_TO_FACTORY_DEFAULT : Z := 6.
Definition DLT_SERVICE_ID_SET_TIMING_PACKETS : Z := 11.
Definition DLT_SERVICE_ID_GET_LOCAL_TIME : Z := 12.
Definition DLT_SERVICE_ID_SET_DEFAULT_LOG_LEVEL : Z := 17.
Definition DLT_SERVICE_ID_SET_DEFAULT_TRACE_STATUS : Z := 18.
Definition DLT_SERVICE_ID_OFFLINE_LOGSTORAGE : Z := 3845.
Definition DLT_SERVICE_ID_PASSIVE_NODE_CONNECT : Z := 3846.
Definition DLT_SERVICE_ID_PASSIVE_NODE_CONNECTION_STATUS : Z := 3847.
Definition DLT_SERVICE_ID_SET_ALL_LOG_LEVEL : Z := 3848.
Definition DLT_SERVICE_ID_SET_ALL_TRACE_STATUS : Z := 3849.
Definition DLT_SERVICE_ID_CALLSW_CINJECTION : Z := 4095.
Definition DLT_DAEMON_INJECTION_MIN : Z := 4095.
Definition DLT_MAINTAIN_LOGSTORAGE_LOGLEVEL_OFF : Z := 0.
(** "remo". *)
Definition DLT_DAEMON_REMO_STRING : bytes := [114; 101; 109; 111; 0].
Definition star : Z := 42.

(** Of [daemon_local->flags] and [daemon]; the names of the files of the
    runtime configuration. *)
Record flags := {
  enforceContextLLAndTS : bool;
  contextLogLevel : Z;
  contextTraceStatus : Z;
  injectionMode : Z;
  gatewayMode : Z;
  evalue : bytes;
  maintain_logstorage_loglevel : Z;
  runtime_application_cfg : bytes;
  runtime_context_cfg : bytes
}.

Record services := {
  dlt_gateway_forward_control_message : Message.DltMessage -> bytes -> daemon -> option (Z * daemon);
  dlt_daemon_control_service_logstorage : Z -> Message.DltMessage -> daemon -> option daemon;
  dlt_daemon_control_passive_node_connect : Z -> Message.DltMessage -> daemon -> option daemon;
  dlt_daemon_control_passive_node_connect_status : Z -> daemon -> option daemon;
  dlt_daemon_applications_save : DaemonTables.DltDaemon -> Z;
  dlt_daemon_contexts_save : DaemonTables.DltDaemon -> Z
}.

Definition getStatus (request_log context_log : Z) : Z :=
  i8 (if request_log <=? context_log then request_log else context_log).

(** ** The state *)

Definition set_defaults (t : DaemonTables.DltDaemon) (ll ts : Z) (force : bool) : DaemonTables.DltDaemon :=
  {| DaemonTables.user_list := DaemonTables.user_list t; DaemonTables.ecuid := DaemonTables.ecuid t;
     DaemonTables.default_log_level := ll; DaemonTables.default_trace_status := ts;
     DaemonTables.force_ll_ts := force;
     DaemonTables.runtime_context_cfg_loaded := DaemonTables.runtime_context_cfg_loaded t |}.
Definition set_timingpackets (d : daemon) (n : Z) : daemon :=
  {| tables := tables d; state := state d; mode := mode d; client_ringbuffer := client_ringbuffer d;
     overflow_counter := overflow_counter d; connectionState := connectionState d; timingpackets := n;
     event := event d; client_connections := client_connections d;
     sent_message_overflow_cnt := sent_message_overflow_cnt d; uiMsgCount := uiMsgCount d;
     offline_trace := offline_trace d; sys := sys d |}.

(** Context [k] of list [i]. *)
Definition get_ctx (t : DaemonTables.DltDaemon) (i k : nat) : option DaemonTables.Ctx.DltDaemonContext :=
  u ← DaemonTables.user_list t !! i; ctxs ← DaemonTables.contexts u; ctxs !! k.
Definition update_ctx (t : DaemonTables.DltDaemon) (i k : nat)
  (g : DaemonTables.Ctx.DltDaemonContext -> DaemonTables.Ctx.DltDaemonContext) : option DaemonTables.DltDaemon :=
  u ← DaemonTables.user_list t !! i;
  ctxs ← DaemonTables.contexts u;
  c ← ctxs !! k;
  Some (DaemonTables.set_list t i (DaemonTables.set_ctxs u (Some (<[k := g c]> ctxs)) (DaemonTables.num_contexts u))).
Definition on_ctx (d : daemon) (i k : nat)
  (g : DaemonTables.Ctx.DltDaemonContext -> DaemonTables.Ctx.DltDaemonContext) : option daemon :=
  t ← update_ctx (tables d) i k g; Some (set_tables d t).

Definition with_log_level (l : Z) (c : DaemonTables.Ctx.DltDaemonContext) :=
  DaemonTables.Ctx.set_levels c l (DaemonTables.Ctx.trace_status c).
Definition with_trace_status (s : Z) (c : DaemonTables.Ctx.DltDaemonContext) :=
  DaemonTables.Ctx.set_levels c (DaemonTables.Ctx.log_level c) s.

(** ** Telling an application *)

(** [errno = 0]. *)
Definition clear_errno (o : os) : os :=
  {| script := script o; polls := polls o; calls := calls o; last_errno := EOTHER; out := out o |}.

(** What the application is told: level and status. *)
Definition effective_log_level (F : flags) (t : DaemonTables.DltDaemon) (c : DaemonTables.Ctx.DltDaemonContext) : Z :=
  let ll := DaemonTables.Ctx.log_level c in
  let sl := DaemonTables.Ctx.storage_log_level c in
  u8 (if negb (sl =? DaemonTables.DLT_LOG_DEFAULT)
         && negb (maintain_logstorage_loglevel F =? DLT_MAINTAIN_LOGSTORAGE_LOGLEVEL_OFF)
      then (if sl <? ll then ll else sl)
      else if ll =? DaemonTables.DLT_LOG_DEFAULT then DaemonTables.default_log_level t else ll).
Definition effective_trace_status (t : DaemonTables.DltDaemon) (c : DaemonTables.Ctx.DltDaemonContext) : Z :=
  let ts := DaemonTables.Ctx.trace_status c in
  u8 (if ts =? DaemonTables.DLT_TRACE_STATUS_DEFAULT then DaemonTables.default_trace_status t else ts).

Definition dlt_daemon_user_send_log_level (F : flags) (d : daemon) (i k : nat) : option (Z * daemon) :=
  c ← get_ctx (tables d) i k;
  let '(rc, uh) := dlt_user_set_userheader (replicate 8 0) DLT_USER_MESSAGE_LOG_LEVEL in
  if rc <? DLT_RETURN_OK then Some (-1, d) else
  let msg := [effective_log_level F (tables d) c; effective_trace_status (tables d) c]
               ++ le_bytes 4 (u32 (DaemonTables.Ctx.log_level_pos c)) in
  let '(ret, o) := user_out2 (clear_errno (sys d)) (DaemonTables.Ctx.user_handle c) uh msg in
  let d := set_sys d o in
  d ← (if ret <? DLT_RETURN_OK then
         match last_errno o with
         | EPIPE | EBADF =>
             let e := DaemonTables.ecuid (tables d) in
             app ← DaemonTables.dlt_daemon_application_find (tables d) (DaemonTables.Ctx.apid c) e;
             match app with
             | None => Some d
             | Some ka =>
                 ia ← DaemonTables.dlt_daemon_find_users_list (tables d) e;
                 t ← DaemonTables.dlt_daemon_application_reset_user_handle (tables d) ia ka;
                 Some (set_tables d t)
             end
         | _ => Some d
         end
       else Some d);
  Some (if ret =? DLT_RETURN_OK then DLT_RETURN_OK else DLT_RETURN_ERROR, d).

(** ** Loops over the contexts of the daemon's own ECU *)

(** [step i k] handles context [k] and tells whether to go on; [n] is the number
    of contexts. *)
Fixpoint each_context (n : nat) (step : nat -> nat -> daemon -> option (bool * daemon)) (i k : nat) (d : daemon)
  : option daemon :=
  match n with
  | O => Some d
  | S n =>
      '(go, d) ← step i k d;
      if (go : bool) then each_context n step i (S k) d else Some d
  end.
Definition own_contexts (step : nat -> nat -> daemon -> option (bool * daemon)) (d : daemon) : option daemon :=
  match DaemonTables.dlt_daemon_find_users_list (tables d) (DaemonTables.ecuid (tables d)) with
  | None => Some d
  | Some i =>
      u ← DaemonTables.user_list (tables d) !! i;
      each_context (Z.to_nat (DaemonTables.num_contexts u)) step i 0 d
  end.

Definition dlt_daemon_user_send_default_update (F : flags) : daemon -> option daemon :=
  own_contexts (λ i k d,
    c ← get_ctx (tables d) i k;
    if ((DaemonTables.Ctx.log_level c =? DaemonTables.DLT_LOG_DEFAULT)
        || (DaemonTables.Ctx.trace_status c =? DaemonTables.DLT_TRACE_STATUS_DEFAULT))
       && (DaemonTables.DLT_FD_MINIMUM <=? DaemonTables.Ctx.user_handle c)
    then '(_, d) ← dlt_daemon_user_send_log_level F d i k; Some (true, d)
    else Some (true, d)).

Definition dlt_daemon_user_send_all_log_level_update (F : flags) (enforce_context_ll_and_ts : bool)
  (context_log_level log_level : Z) : daemon -> option daemon :=
  own_contexts (λ i k d,
    c ← get_ctx (tables d) i k;
    if DaemonTables.DLT_FD_MINIMUM <=? DaemonTables.Ctx.user_handle c then
      d ← on_ctx d i k (with_log_level log_level);
      d ← (if enforce_context_ll_and_ts && (context_log_level <? log_level)
           then on_ctx d i k (with_log_level context_log_level) else Some d);
      '(_, d) ← dlt_daemon_user_send_log_level F d i k;
      Some (true, d)
    else Some (true, d)).

Definition dlt_daemon_user_send_all_trace_status_update (F : flags) (trace_status : Z) : daemon -> option daemon :=
  own_contexts (λ i k d,
    c ← get_ctx (tables d) i k;
    if DaemonTables.DLT_FD_MINIMUM <=? DaemonTables.Ctx.user_handle c then
      d ← on_ctx d i k (with_trace_status trace_status);
      '(_, d) ← dlt_daemon_user_send_log_level F d i k;
      Some (true, d)
    else Some (true, d)).

Definition dlt_daemon_control_reset_to_factory_default (F : flags) (filename filename1 : bytes)
  (InitialContextLogLevel InitialContextTraceStatus : Z) (InitialEnforceLlTsStatus : bool) (d : daemon) : option daemon :=
  match filename, filename1 with
  | [], _ | _, [] => Some d
  | _, _ =>
      dlt_daemon_user_send_default_update F
        (set_tables d (set_defaults (tables d) (i8 InitialContextLogLevel) (i8 InitialContextTraceStatus) InitialEnforceLlTsStatus))
  end.

(** ** Log level and trace status of contexts *)

Definition dlt_daemon_send_log_level (E : env) (F : flags) (send : send_fn) (sock loglevel : Z) (i k : nat) (d : daemon)
  : option daemon :=
  c ← get_ctx (tables d) i k;
  let old_log_level := DaemonTables.Ctx.log_level c in
  d ← on_ctx d i k (with_log_level loglevel);
  '(ok, d) ← (if DaemonTables.DLT_FD_MINIMUM <=? DaemonTables.Ctx.user_handle c
              then '(rc, d) ← dlt_daemon_user_send_log_level F d i k; Some (rc =? 0, d) else Some (false, d));
  if (ok : bool)
  then dlt_daemon_control_service_response E send sock DLT_SERVICE_ID_SET_LOG_LEVEL DLT_SERVICE_RESPONSE_OK d
  else d ← on_ctx d i k (with_log_level old_log_level);
       dlt_daemon_control_service_response E send sock DLT_SERVICE_ID_SET_LOG_LEVEL DLT_SERVICE_RESPONSE_ERROR d.

Definition dlt_daemon_send_trace_status (E : env) (F : flags) (send : send_fn) (sock tracestatus : Z) (i k : nat) (d : daemon)
  : option daemon :=
  c ← get_ctx (tables d) i k;
  let old_trace_status := DaemonTables.Ctx.trace_status c in
  d ← on_ctx d i k (with_trace_status tracestatus);
  '(ok, d) ← (if DaemonTables.DLT_FD_MINIMUM <=? DaemonTables.Ctx.user_handle c
              then '(rc, d) ← dlt_daemon_user_send_log_level F d i k; Some (rc =? 0, d) else Some (false, d));
  if (ok : bool)
  then dlt_daemon_control_service_response E send sock DLT_SERVICE_ID_SET_TRACE_STATUS DLT_SERVICE_RESPONSE_OK d
  else d ← on_ctx d i k (with_trace_status old_trace_status);
       dlt_daemon_control_service_response E send sock DLT_SERVICE_ID_SET_TRACE_STATUS DLT_SERVICE_RESPONSE_ERROR d.

(** [strncmp]: the sign matters. *)
Fixpoint strncmp (n : nat) (a b : bytes) : option Z :=
  match n, a, b with
  | O, _, _ => Some 0
  | S n, x :: a, y :: b => if negb (x =? y) then Some (x - y) else if x =? 0 then Some 0 else strncmp n a b
  | _, _, _ => None
  end.
(** [strncpy(src_str, id, DLT_ID_SIZE)] into an array of five zeros. *)
Definition src_str (id : bytes) : bytes := pad_to 4 0 (cstr 4 id) ++ [0].

(** The loop of both [dlt_daemon_find_multiple_context_and_send_*]: [act] is what
    they do for a context.  The contexts are sorted by application, so the loop
    ends behind the last one that can match. *)
Definition match_context (act : nat -> nat -> daemon -> option daemon) (app_flag : bool) (str : bytes) (len : Z)
  (i k : nat) (d : daemon) : option (bool * daemon) :=
  c ← get_ctx (tables d) i k;
  ret ← strncmp (Z.to_nat len) (src_str (if app_flag then DaemonTables.Ctx.apid c else DaemonTables.Ctx.ctid c)) str;
  if ret =? 0 then d ← act i k d; Some (true, d)
  else if (0 <? ret) && app_flag then Some (false, d)
  else Some (true, d).

Definition dlt_daemon_find_multiple_context_and_send_log_level (E : env) (F : flags) (send : send_fn) (sock : Z)
  (app_flag : bool) (str : bytes) (len loglevel : Z) : daemon -> option daemon :=
  own_contexts (match_context (dlt_daemon_send_log_level E F send sock loglevel) app_flag str len).
Definition dlt_daemon_find_multiple_context_and_send_trace_status (E : env) (F : flags) (send : send_fn) (sock : Z)
  (app_flag : bool) (str : bytes) (len tracestatus : Z) : daemon -> option daemon :=
  own_contexts (match_context (dlt_daemon_send_trace_status E F send sock tracestatus) app_flag str len).

(** A [char[5]] filled by [dlt_set_id]. *)
Definition id_array (id : bytes) : option bytes := a ← Filter.set_id [0; 0; 0; 0] id; Some (a ++ [0]).

(** The choice of the contexts in both handlers: a prefix with a star or an
    identifier of one kind, or an application with a context. *)
Definition choose_contexts (multiple : bool -> bytes -> Z -> daemon -> option daemon)
  (one : nat -> nat -> daemon -> option daemon) (not_found : daemon -> option daemon) (apid ctid : bytes) (d : daemon)
  : option daemon :=
  let apid_length := i8 (zlen (cstr 5 apid)) in
  let ctid_length := i8 (zlen (cstr 5 ctid)) in
  let ends_with_star (s : bytes) (l : Z) := bool_decide (s !! Z.to_nat (l - 1) = Some star) in
  a0 ← apid !! 0%nat;
  c0 ← ctid !! 0%nat;
  if negb (apid_length =? 0) && ends_with_star apid apid_length && (c0 =? 0) then multiple true apid (i8 (apid_length - 1)) d
  else if negb (ctid_length =? 0) && ends_with_star ctid ctid_length && (a0 =? 0) then multiple false ctid (i8 (ctid_length - 1)) d
  else if negb (apid_length =? 0) && negb (ends_with_star apid apid_length) && (c0 =? 0) then multiple true apid 4 d
  else if negb (ctid_length =? 0) && negb (ends_with_star ctid ctid_length) && (a0 =? 0) then multiple false ctid 4 d
  else
    let e := DaemonTables.ecuid (tables d) in
    context ← DaemonTables.dlt_daemon_context_find (tables d) apid ctid e;
    match context with
    | Some k => i ← DaemonTables.dlt_daemon_find_users_list (tables d) e; one i k d
    | None => not_found d
    end.

Definition sizeof_DltServiceSetLogLevel : Z := 17.

(** [DltServiceSetLogLevel]: application, context, level. *)
Definition set_log_level_request (b : bytes) : option (bytes * bytes * Z) :=
  apid ← mread b 4 4; ctid ← mread b 8 4; l ← b !! 12%nat; Some (apid, ctid, l).

Definition dlt_daemon_control_set_log_level (E : env) (F : flags) (send : send_fn) (sock : Z) (msg : Message.DltMessage)
  (d : daemon) : option daemon :=
  match Message.databuffer msg with
  | None => Some d
  | Some b =>
      if DltFile.dlt_check_rcv_data_size (Message.datasize msg) sizeof_DltServiceSetLogLevel <? 0 then Some d else
      '(apid, ctid, l) ← set_log_level_request b;
      let l := if enforceContextLLAndTS F then u8 (getStatus l (contextLogLevel F)) else l in
      apid ← id_array apid;
      ctid ← id_array ctid;
      choose_contexts (λ flag str len, dlt_daemon_find_multiple_context_and_send_log_level E F send sock flag str len (i8 l))
        (dlt_daemon_send_log_level E F send sock (i8 l))
        (dlt_daemon_control_service_response E send sock DLT_SERVICE_ID_SET_LOG_LEVEL DLT_SERVICE_RESPONSE_ERROR)
        apid ctid d
  end.

(** The answer for an unknown context has the identifier of the other service. *)
Definition dlt_daemon_control_set_trace_status (E : env) (F : flags) (send : send_fn) (sock : Z) (msg : Message.DltMessage)
  (d : daemon) : option daemon :=
  match Message.databuffer msg with
  | None => Some d
  | Some b =>
      if DltFile.dlt_check_rcv_data_size (Message.datasize msg) sizeof_DltServiceSetLogLevel <? 0 then Some d else
      '(apid, ctid, l) ← set_log_level_request b;
      let l := if enforceContextLLAndTS F then u8 (getStatus l (contextTraceStatus F)) else l in
      apid ← id_array apid;
      ctid ← id_array ctid;
      choose_contexts (λ flag str len, dlt_daemon_find_multiple_context_and_send_trace_status E F send sock flag str len (i8 l))
        (dlt_daemon_send_trace_status E F send sock (i8 l))
        (dlt_daemon_control_service_response E send sock DLT_SERVICE_ID_SET_LOG_LEVEL DLT_SERVICE_RESPONSE_ERROR)
        apid ctid d
  end.

(** ** Defaults and all contexts *)

Definition sizeof_DltServiceSetDefaultLogLevel : Z := 9.
Definition sizeof_DltServiceSetVerboseMode : Z := 5.

(** A request with one byte of argument: [f] is the handler's body. *)
Definition byte_request (msg : Message.DltMessage) (required : Z) (f : Z -> daemon -> option daemon) (d : daemon) : option daemon :=
  match Message.databuffer msg with
  | None => Some d
  | Some b =>
      if DltFile.dlt_check_rcv_data_size (Message.datasize msg) required <? 0 then Some d else
      l ← b !! 4%nat; f l d
  end.

Definition dlt_daemon_control_set_default_log_level (E : env) (F : flags) (send : send_fn) (sock : Z) (msg : Message.DltMessage)
  : daemon -> option daemon :=
  let id := DLT_SERVICE_ID_SET_DEFAULT_LOG_LEVEL in
  byte_request msg sizeof_DltServiceSetDefaultLogLevel (λ l d,
    if l <=? DaemonTables.DLT_LOG_VERBOSE then
      let t := tables d in
      let ll := if enforceContextLLAndTS F then getStatus l (contextLogLevel F) else i8 l in
      d ← dlt_daemon_user_send_default_update F
            (set_tables d (set_defaults t ll (DaemonTables.default_trace_status t) (DaemonTables.force_ll_ts t)));
      dlt_daemon_control_service_response E send sock id DLT_SERVICE_RESPONSE_OK d
    else dlt_daemon_control_service_response E send sock id DLT_SERVICE_RESPONSE_ERROR d).

Definition dlt_daemon_control_set_all_log_level (E : env) (F : flags) (send : send_fn) (sock : Z) (msg : Message.DltMessage)
  : daemon -> option daemon :=
  let id := DLT_SERVICE_ID_SET_ALL_LOG_LEVEL in
  byte_request msg sizeof_DltServiceSetDefaultLogLevel (λ l d,
    if (l <=? DaemonTables.DLT_LOG_VERBOSE) || (l =? u8 DaemonTables.DLT_LOG_DEFAULT) then
      d ← dlt_daemon_user_send_all_log_level_update F (enforceContextLLAndTS F) (i8 (contextLogLevel F)) (i8 l) d;
      dlt_daemon_control_service_response E send sock id DLT_SERVICE_RESPONSE_OK d
    else dlt_daemon_control_service_response E send sock id DLT_SERVICE_RESPONSE_ERROR d).

Definition DLT_TRACE_STATUS_OFF : Z := 0.

Definition dlt_daemon_control_set_default_trace_status (E : env) (F : flags) (send : send_fn) (sock : Z) (msg : Message.DltMessage)
  : daemon -> option daemon :=
  let id := DLT_SERVICE_ID_SET_DEFAULT_TRACE_STATUS in
  byte_request msg sizeof_DltServiceSetDefaultLogLevel (λ l d,
    if (l =? DLT_TRACE_STATUS_OFF) || (l =? DaemonTables.DLT_TRACE_STATUS_ON) then
      let t := tables d in
      let ts := if enforceContextLLAndTS F then getStatus l (contextTraceStatus F) else i8 l in
      d ← dlt_daemon_user_send_default_update F
            (set_tables d (set_defaults t (DaemonTables.default_log_level t) ts (DaemonTables.force_ll_ts t)));
      dlt_daemon_control_service_response E send sock id DLT_SERVICE_RESPONSE_OK d
    else dlt_daemon_control_service_response E send sock id DLT_SERVICE_RESPONSE_ERROR d).

Definition dlt_daemon_control_set_all_trace_status (E : env) (F : flags) (send : send_fn) (sock : Z) (msg : Message.DltMessage)
  : daemon -> option daemon :=
  let id := DLT_SERVICE_ID_SET_ALL_TRACE_STATUS in
  byte_request msg sizeof_DltServiceSetDefaultLogLevel (λ l d,
    if (l <=? DaemonTables.DLT_TRACE_STATUS_ON) || (l =? u8 DaemonTables.DLT_TRACE_STATUS_DEFAULT) then
      let ts := if enforceContextLLAndTS F then getStatus l (contextTraceStatus F) else i8 l in
      d ← dlt_daemon_user_send_all_trace_status_update F ts d;
      dlt_daemon_control_service_response E send sock id DLT_SERVICE_RESPONSE_OK d
    else dlt_daemon_control_service_response E send sock id DLT_SERVICE_RESPONSE_ERROR d).

Definition dlt_daemon_control_set_timing_packets (E : env) (send : send_fn) (sock : Z) (msg : Message.DltMessage)
  : daemon -> option daemon :=
  let id := DLT_SERVICE_ID_SET_TIMING_PACKETS in
  byte_request msg sizeof_DltServiceSetVerboseMode (λ l d,
    if (l =? 0) || (l =? 1)
    then dlt_daemon_control_service_response E send sock id DLT_SERVICE_RESPONSE_OK (set_timingpackets d l)
    else dlt_daemon_control_service_response E send sock id DLT_SERVICE_RESPONSE_ERROR d).

(** ** The tables as a response *)

Record log_info_request := { options : Z; req_apid : bytes; req_ctid : bytes }.
Definition sizeof_DltServiceGetLogInfoRequest : Z := 17.
Definition get_log_info_request (b : bytes) : option log_info_request :=
  o ← b !! 4%nat; a ← mread b 5 4; c ← mread b 9 4; Some {| options := o; req_apid := a; req_ctid := c |}.

Definition with_level (o : Z) : bool := (o =? 4) || (o =? 6) || (o =? 7).
Definition with_trace (o : Z) : bool := (o =? 5) || (o =? 6) || (o =? 7).

(** [strlen] of a description, 0 for none. *)
Definition desc_len (s : option bytes) : Z := zlen (default [] s).

(** Start of the contexts of application [ka] in the array. *)
Fixpoint offset_base (ka : nat) (apps : list DaemonTables.App.DltDaemonApplication) : option Z :=
  match ka, apps with
  | O, _ => Some 0
  | S ka, a :: apps => n ← offset_base ka apps; Some (DaemonTables.App.num_contexts a + n)
  | S _, [] => None
  end.

(** [n] contexts from position [k] on add a length and the text of their
    description. *)
Fixpoint context_descriptions (n : nat) (k : nat) (ctxs : list DaemonTables.Ctx.DltDaemonContext) : option Z :=
  match n with
  | O => Some 0
  | S n =>
      c ← ctxs !! k;
      r ← context_descriptions n (S k) ctxs;
      Some (2 + desc_len (DaemonTables.Ctx.context_description c) + r)
  end.
Fixpoint application_descriptions (n : nat) (k : nat) (apps : list DaemonTables.App.DltDaemonApplication) : option Z :=
  match n with
  | O => Some 0
  | S n =>
      a ← apps !! k;
      r ← application_descriptions n (S k) apps;
      Some (2 + desc_len (DaemonTables.App.application_description a) + r)
  end.

(** What the request asks for: the application and the context that were found
    and the numbers of both. *)
Record selection := { sel_app : option nat; sel_ctx : option nat; sel_napps : Z; sel_nctxs : Z }.
Definition log_info_select (t : DaemonTables.DltDaemon) (u : DaemonTables.DltDaemonRegisteredUsers) (r : log_info_request)
  : option selection :=
  if DaemonTables.empty_id (req_apid r) then
    Some {| sel_app := None; sel_ctx := None; sel_napps := DaemonTables.num_applications u;
            sel_nctxs := DaemonTables.num_contexts u |}
  else
    let e := DaemonTables.ecuid t in
    app ← DaemonTables.dlt_daemon_application_find t (req_apid r) e;
    match app with
    | None => Some {| sel_app := None; sel_ctx := None; sel_napps := 0; sel_nctxs := 0 |}
    | Some ka =>
        if DaemonTables.empty_id (req_ctid r) then
          apps ← DaemonTables.applications u;
          a ← apps !! ka;
          Some {| sel_app := Some ka; sel_ctx := None; sel_napps := 1; sel_nctxs := DaemonTables.App.num_contexts a |}
        else
          ctx ← DaemonTables.dlt_daemon_context_find t (req_apid r) (req_ctid r) e;
          Some {| sel_app := Some ka; sel_ctx := ctx; sel_napps := 1; sel_nctxs := if ctx is Some _ then 1 else 0 |}
    end.

(** The additional size of mode 7. *)
Definition log_info_descriptions (u : DaemonTables.DltDaemonRegisteredUsers) (r : log_info_request) (s : selection) : option Z :=
  if DaemonTables.empty_id (req_apid r) then
    cs ← (if DaemonTables.num_contexts u <=? 0 then Some 0
          else ctxs ← DaemonTables.contexts u; context_descriptions (Z.to_nat (DaemonTables.num_contexts u)) 0 ctxs);
    aps ← (if DaemonTables.num_applications u <=? 0 then Some 0
           else apps ← DaemonTables.applications u; application_descriptions (Z.to_nat (DaemonTables.num_applications u)) 0 apps);
    Some (cs + aps)
  else
    match sel_app s with
    | None => Some 0
    | Some ka =>
        apps ← DaemonTables.applications u;
        a ← apps !! ka;
        cs ← (if DaemonTables.empty_id (req_ctid r) then
                base ← offset_base ka apps;
                if DaemonTables.App.num_contexts a <=? 0 then Some 0
                else ctxs ← DaemonTables.contexts u;
                     context_descriptions (Z.to_nat (DaemonTables.App.num_contexts a)) (Z.to_nat base) ctxs
              else match sel_ctx s with
                   | None => Some 0
                   | Some k => ctxs ← DaemonTables.contexts u; context_descriptions 1 k ctxs
                   end);
        Some (cs + 2 + desc_len (DaemonTables.App.application_description a))
    end.

(** [resp.datasize]; [None] when the [int32_t] overflows. *)
Definition log_info_size (u : DaemonTables.DltDaemonRegisteredUsers) (r : log_info_request) (s : selection) : option Z :=
  let sizecont := 4 + (if with_level (options r) then 1 else 0) + (if with_trace (options r) then 1 else 0) in
  x ← (if options r =? 7 then log_info_descriptions u r s else Some 0);
  let size := 4 + 1 + 4 + (sel_napps s * (4 + 2) + sel_nctxs s * sizecont) + 2 + x in
  if INT32_MAX <? size then None else Some size.

(** Writing at the offset of a buffer. *)
Definition cursor : Type := bytes * Z.
Definition put (x : bytes) (w : cursor) : option cursor := b ← mwrite w.1 w.2 x; Some (b, w.2 + zlen x).
Definition put_id (id : bytes) (w : cursor) : option cursor :=
  dst ← mread w.1 w.2 4; dst ← Filter.set_id dst id; put dst w.
Definition put_description (s : option bytes) (w : cursor) : option cursor :=
  w ← put (le_bytes 2 (u16 (desc_len s))) w;
  match s with Some s => put s w | None => Some w end.

Definition put_context (r : log_info_request) (c : DaemonTables.Ctx.DltDaemonContext) (w : cursor) : option cursor :=
  if DaemonTables.empty_id (req_ctid r) || bool_decide (SortedTable.memcmp 4 (DaemonTables.Ctx.ctid c) (req_ctid r) = 0) then
    w ← put_id (DaemonTables.Ctx.ctid c) w;
    w ← (if with_level (options r) then put [u8 (DaemonTables.Ctx.log_level c)] w else Some w);
    w ← (if with_trace (options r) then put [u8 (DaemonTables.Ctx.trace_status c)] w else Some w);
    if options r =? 7 then put_description (DaemonTables.Ctx.context_description c) w else Some w
  else Some w.

(** The loop over the [count] contexts of an application. *)
Fixpoint put_contexts (n : nat) (u : DaemonTables.DltDaemonRegisteredUsers) (r : log_info_request) (s : selection)
  (count base : Z) (j : nat) (w : cursor) : option cursor :=
  match n with
  | O => Some w
  | S n =>
      ctxs ← DaemonTables.contexts u;
      k ← (if (count =? 1) && negb (DaemonTables.empty_id (req_apid r)) && negb (DaemonTables.empty_id (req_ctid r))
           then sel_ctx s else Some (Z.to_nat (base + Z.of_nat j)));
      c ← ctxs !! k;
      w ← put_context r c w;
      put_contexts n u r s count base (S j) w
  end.

(** The loop over the applications. *)
Fixpoint put_applications (n : nat) (t : DaemonTables.DltDaemon) (u : DaemonTables.DltDaemonRegisteredUsers)
  (r : log_info_request) (s : selection) (i : nat) (w : cursor) : option cursor :=
  match n with
  | O => Some w
  | S n =>
      match DaemonTables.applications u with
      | None => put_applications n t u r s (S i) w
      | Some apps =>
          apid ← (if DaemonTables.empty_id (req_apid r) then a ← apps !! i; Some (DaemonTables.App.apid a) else Some (req_apid r));
          app ← DaemonTables.dlt_daemon_application_find t apid (DaemonTables.ecuid t);
          match app with
          | None => put_applications n t u r s (S i) w
          | Some ka =>
              a ← apps !! ka;
              base ← offset_base ka apps;
              w ← put_id apid w;
              let count := u16 (if DaemonTables.empty_id (req_apid r) then DaemonTables.App.num_contexts a else sel_nctxs s) in
              w ← put (le_bytes 2 count) w;
              w ← put_contexts (Z.to_nat count) u r s count base 0 w;
              w ← (if options r =? 7 then put_description (DaemonTables.App.application_description a) w else Some w);
              put_applications n t u r s (S i) w
          end
      end
  end.

(** The payload: zeros that are overwritten. *)
Definition log_info_payload (t : DaemonTables.DltDaemon) (u : DaemonTables.DltDaemonRegisteredUsers) (r : log_info_request)
  : option bytes :=
  s ← log_info_select t u r;
  size ← log_info_size u r s;
  w ← put (le_bytes 4 DLT_SERVICE_ID_GET_LOG_INFO) (replicate (Z.to_nat size) 0, 0);
  w ← put [u8 (if negb (sel_napps s =? 0) && negb (sel_nctxs s =? 0) then options r else 8)] w;
  let count_app_ids := u16 (sel_napps s) in
  w ← (if negb (count_app_ids =? 0) then
         w ← put (le_bytes 2 count_app_ids) w;
         put_applications (Z.to_nat count_app_ids) t u r s 0 w
       else Some w);
  w ← put_id DLT_DAEMON_REMO_STRING w;
  Some w.1.

(** The buffer is allocated before it is filled. *)
Definition dlt_daemon_control_get_log_info (E : env) (send : send_fn) (sock : Z) (msg : Message.DltMessage) (d : daemon)
  : option daemon :=
  match Message.databuffer msg with
  | None => Some d
  | Some b =>
      if DltFile.dlt_check_rcv_data_size (Message.datasize msg) sizeof_DltServiceGetLogInfoRequest <? 0 then Some d else
      match DaemonTables.dlt_daemon_find_users_list (tables d) (DaemonTables.ecuid (tables d)) with
      | None => Some d
      | Some i =>
          u ← DaemonTables.user_list (tables d) !! i;
          r ← get_log_info_request b;
          if (options r <? 3) || (7 <? options r)
          then dlt_daemon_control_service_response E send sock DLT_SERVICE_ID_GET_LOG_INFO DLT_SERVICE_RESPONSE_ERROR d else
          payload ← log_info_payload (tables d) u r;
          or_response E send sock DLT_SERVICE_ID_GET_LOG_INFO (control_message E send sock payload [0] d)
      end
  end.

(** ** Injection *)

(** [dlt_user_log_out3_with_timeout] to the pipe of an application; the bytes are
    recorded as for [user_out2]. *)
Definition user_out3 (o : os) (handle : Z) (d1 d2 d3 : bytes) : Z * os :=
  if handle <? 0 then (DLT_RETURN_ERROR, o) else
  let w := {| UserShared.script := script o; UserShared.calls := calls o; UserShared.pipe := [] |} in
  let '(rc, w) := dlt_user_log_out3_with_timeout w (polls o (calls o)) handle d1 d2 d3 in
  (rc, {| script := script o; polls := polls o; calls := S (calls o);
          last_errno := match polls o (calls o), script o (calls o) with
                        | Some true, (WriteSome _ e | WriteError e) => e
                        | None, _ => EOTHER
                        | _, _ => last_errno o
                        end;
          out := out o ++ [(handle, UserShared.pipe w)] |}).

(** [DLT_MSG_READ_VALUE] of a [uint32_t] at [ptr] with [length] bytes left: the
    value (unchanged [dst] when there are too few), the position and the rest. *)
Definition read_u32 (b : bytes) (dst ptr len : Z) : option (Z * Z * Z) :=
  if (len <? 0) || (len <? 4) then Some (dst, ptr, -1)
  else v ← mread b ptr 4; Some (le_Z v, ptr + 4, len - 4).

Definition dlt_daemon_control_callsw_cinjection (E : env) (F : flags) (send : send_fn) (sock : Z) (msg : Message.DltMessage)
  (d : daemon) : option daemon :=
  match Message.databuffer msg with
  | None => Some d
  | Some b =>
      '(id_tmp, ptr, datalength) ← read_u32 b 0 0 (Message.datasize msg);
      htyp ← Message.std_htyp msg;
      let id := DLT_ENDIAN_GET_32 htyp id_tmp in
      let respond := dlt_daemon_control_service_response E send sock id in
      if injectionMode F =? 0 then respond DLT_SERVICE_RESPONSE_PERM_DENIED d else
      if negb (DLT_DAEMON_INJECTION_MIN <=? id) then respond DLT_SERVICE_RESPONSE_NOT_SUPPORTED d else
      '(len_tmp, ptr, datalength) ← read_u32 b 0 ptr datalength;
      let data_length_inject := DLT_ENDIAN_GET_32 htyp len_tmp in
      if negb (DLT_IS_HTYP_UEH htyp) then respond DLT_SERVICE_RESPONSE_ERROR d else
      eh ← Message.extendedheader msg;
      apid ← mread (Message.headerbuffer msg) (eh + 2) 4;
      apid ← Filter.set_id [0; 0; 0; 0] apid;
      ctid ← mread (Message.headerbuffer msg) (eh + 6) 4;
      ctid ← Filter.set_id [0; 0; 0; 0] ctid;
      let e := DaemonTables.ecuid (tables d) in
      context ← DaemonTables.dlt_daemon_context_find (tables d) apid ctid e;
      match context with
      | None => respond DLT_SERVICE_RESPONSE_ERROR d
      | Some k =>
          i ← DaemonTables.dlt_daemon_find_users_list (tables d) e;
          c ← get_ctx (tables d) i k;
          let '(rc, uh) := dlt_user_set_userheader (replicate 8 0) DLT_USER_MESSAGE_INJECTION in
          if rc <? DLT_RETURN_OK then respond DLT_SERVICE_RESPONSE_ERROR d else
          if u32 (Message.databuffersize msg) <? data_length_inject then respond DLT_SERVICE_RESPONSE_ERROR d else
          match malloc (heap E) data_length_inject with
          | None => respond DLT_SERVICE_RESPONSE_ERROR d
          | Some _ =>
              let usercontext := le_bytes 4 (u32 (DaemonTables.Ctx.log_level_pos c)) ++ le_bytes 4 id ++ le_bytes 4 data_length_inject in
              userbuffer ← mread b ptr data_length_inject;
              let '(ret, o) := user_out3 (sys d) (DaemonTables.Ctx.user_handle c) uh usercontext userbuffer in
              let d := set_sys d o in
              if ret <? DLT_RETURN_OK then
                d ← (if ret =? DLT_RETURN_PIPE_ERROR
                     then on_ctx d i k (λ c, DaemonTables.Ctx.set_handle c DaemonTables.DLT_FD_INIT) else Some d);
                respond DLT_SERVICE_RESPONSE_ERROR d
              else respond DLT_SERVICE_RESPONSE_OK d
          end
      end
  end.

(** ** Dispatch *)

Definition store_config (E : env) (F : flags) (S : services) (send : send_fn) (sock : Z) (d : daemon) : option daemon :=
  let respond := dlt_daemon_control_service_response E send sock DLT_SERVICE_ID_STORE_CONFIG in
  if dlt_daemon_applications_save S (tables d) =? 0 then
    if dlt_daemon_contexts_save S (tables d) =? 0 then respond DLT_SERVICE_RESPONSE_OK d
    else
      d ← dlt_daemon_control_reset_to_factory_default F (runtime_application_cfg F) (runtime_context_cfg F)
            (contextLogLevel F) (contextTraceStatus F) (enforceContextLLAndTS F) d;
      respond DLT_SERVICE_RESPONSE_ERROR d
  else respond DLT_SERVICE_RESPONSE_ERROR d.

(** The handler of a service; the identifiers 7 to 10 and 13 to 16 are answered as
    the unknown ones. *)
Definition control_service (E : env) (F : flags) (S : services) (send : send_fn) (sock id : Z) (msg : Message.DltMessage)
  (d : daemon) : option daemon :=
  let respond := dlt_daemon_control_service_response E send sock id in
  if id =? DLT_SERVICE_ID_SET_LOG_LEVEL then dlt_daemon_control_set_log_level E F send sock msg d
  else if id =? DLT_SERVICE_ID_SET_TRACE_STATUS then dlt_daemon_control_set_trace_status E F send sock msg d
  else if id =? DLT_SERVICE_ID_GET_LOG_INFO then dlt_daemon_control_get_log_info E send sock msg d
  else if id =? DLT_SERVICE_ID_GET_DEFAULT_LOG_LEVEL then dlt_daemon_control_get_default_log_level E send sock d
  else if id =? DLT_SERVICE_ID_STORE_CONFIG then store_config E F S send sock d
  else if id =? DLT_SERVICE_ID_RESET_TO_FACTORY_DEFAULT then
    d ← dlt_daemon_control_reset_to_factory_default F (runtime_application_cfg F) (runtime_context_cfg F)
          (contextLogLevel F) (contextTraceStatus F) (enforceContextLLAndTS F) d;
    respond DLT_SERVICE_RESPONSE_OK d
  else if id =? DLT_SERVICE_ID_SET_TIMING_PACKETS then dlt_daemon_control_set_timing_packets E send sock msg d
  else if id =? DLT_SERVICE_ID_GET_LOCAL_TIME then respond DLT_SERVICE_RESPONSE_OK d
  else if id =? DLT_SERVICE_ID_SET_DEFAULT_LOG_LEVEL then dlt_daemon_control_set_default_log_level E F send sock msg d
  else if id =? DLT_SERVICE_ID_SET_DEFAULT_TRACE_STATUS then dlt_daemon_control_set_default_trace_status E F send sock msg d
  else if id =? DLT_SERVICE_ID_GET_SOFTWARE_VERSION then dlt_daemon_control_get_software_version E send sock d
  else if id =? DLT_SERVICE_ID_MESSAGE_BUFFER_OVERFLOW then
    '(_, d) ← dlt_daemon_control_message_buffer_overflow E send sock (overflow_counter d) [0] d; Some d
  else if id =? DLT_SERVICE_ID_OFFLINE_LOGSTORAGE then dlt_daemon_control_service_logstorage S sock msg d
  else if id =? DLT_SERVICE_ID_PASSIVE_NODE_CONNECT then dlt_daemon_control_passive_node_connect S sock msg d
  else if id =? DLT_SERVICE_ID_PASSIVE_NODE_CONNECTION_STATUS then dlt_daemon_control_passive_node_connect_status S sock d
  else if id =? DLT_SERVICE_ID_SET_ALL_LOG_LEVEL then dlt_daemon_control_set_all_log_level E F send sock msg d
  else if id =? DLT_SERVICE_ID_SET_ALL_TRACE_STATUS then dlt_daemon_control_set_all_trace_status E F send sock msg d
  else respond DLT_SERVICE_RESPONSE_NOT_SUPPORTED d.

Definition dlt_daemon_client_process_control (E : env) (F : flags) (S : services) (send : send_fn) (sock : Z)
  (msg : Message.DltMessage) (d : daemon) : option (Z * daemon) :=
  if Message.datasize msg <? 4 then Some (-1, d) else
  let ecu := Message.ecu (Message.headerextra msg) in
  if (gatewayMode F =? 1) && negb (strncmp_eq DLT_ID_SIZE (evalue F) ecu)
  then dlt_gateway_forward_control_message S msg ecu d else
  b ← Message.databuffer msg;
  v ← mread b 0 4;
  htyp ← Message.std_htyp msg;
  let id := DLT_ENDIAN_GET_32 htyp (le_Z v) in
  d ← (if (DLT_SERVICE_ID <? id) && (id <? DLT_SERVICE_ID_CALLSW_CINJECTION)
       then control_service E F S send sock id msg d
       else dlt_daemon_control_callsw_cinjection E F send sock msg d);
  Some (0, d).

End DaemonControl.
