(* ===== verification/DaemonControlSpec.v ===== *)
(** * What a control request may change

    Requests change log levels, trace statuses and handles, never the
    applications and contexts themselves ([kept]).  Every request is handled without leaving an array,
    whatever the operating system does, and the client is answered. *)

From stdpp Require Import base sets list list_numbers numbers option.
From Stdlib Require Import ZArith Lia Bool.
From S2P Require Import Prelude Protocol Ids Message MessageSpec Filter UserShared UserSendSpec.
From S2P Require Import SortedTable DaemonTables DaemonTablesSpec DaemonContextsSpec DaemonKeptSpec DaemonSend DaemonMessagesSpec DaemonSendSpec DaemonControl.
Import Protocol Ids UserShared DaemonSend DaemonMessagesSpec DaemonSendSpec DaemonControl.
Import SortedTable DaemonTables DaemonTablesSpec DaemonContextsSpec.

Local Open Scope Z_scope.

Module DaemonControlSpec.
Export DaemonKeptSpec.

(** ** Updates of a context *)

Lemma ctx_at_get t i k c : ctx_at t i k c -> get_ctx t i k = Some c.
Proof. intros (u & ctxs & Hu & Hc & Hk & _)%ctx_at_array. unfold get_ctx. rewrite Hu. bsimp. rewrite Hc. by bsimp. Qed.

Lemma update_ctx_kept Q `{!PreOrder Q} t i k g c :
  ctx_at t i k c -> Q c (g c) -> ∃ t', update_ctx t i k g = Some t' ∧ kept Q t t' ∧ ctx_at t' i k (g c).
Proof.
  intros (u & ctxs & Hu & Hc & Hk & Hn)%ctx_at_array HQ. unfold update_ctx. rewrite Hu. bsimp. rewrite Hc. bsimp. rewrite Hk. bsimp.
  eexists. split; [reflexivity|]. split.
  - apply (kept_set_list Q _ _ u); [done|]. split; try done. cbn. rewrite Hc. constructor.
    rewrite <-(list_insert_id ctxs k c) at 1 by done. apply Forall2_insert; [reflexivity|done].
  - eexists. split; [by apply (set_list_lookup_eq _ _ u)|]. unfold live_ctxs. cbn.
    rewrite lookup_take_lt by done. apply list_lookup_insert_eq. by eapply lookup_lt_Some.
Qed.

(** ** The daemon apart from its tables *)

Record quiet (d d' : daemon) : Prop := {
  qt_state : state d' = state d;
  qt_mode : mode d' = mode d;
  qt_ring : client_ringbuffer d' = client_ringbuffer d;
  qt_overflow : overflow_counter d' = overflow_counter d;
  qt_connection : connectionState d' = connectionState d;
  qt_event : event d' = event d;
  qt_clients : client_connections d' = client_connections d;
  qt_cnt : sent_message_overflow_cnt d' = sent_message_overflow_cnt d;
  qt_msgs : uiMsgCount d' = uiMsgCount d;
  qt_trace : offline_trace d' = offline_trace d
}.
#[export] Instance quiet_preorder : PreOrder quiet.
Proof. split; [intros d; by split|]. intros d e f [] []. split; congruence. Qed.

Record settled (Q : Ctx.DltDaemonContext -> Ctx.DltDaemonContext -> Prop) (d d' : daemon) : Prop := {
  sd_quiet : quiet d d';
  sd_kept : kept Q (tables d) (tables d')
}.
#[export] Instance settled_preorder Q `{!PreOrder Q} : PreOrder (settled Q).
Proof. split; [intros d; by split|]. intros d e f [] []. split; by etrans. Qed.
Lemma settled_mono (Q Q' : Ctx.DltDaemonContext -> Ctx.DltDaemonContext -> Prop) d d' :
  (∀ c c', Q c c' -> Q' c c') -> settled Q d d' -> settled Q' d d'.
Proof. intros H [Hq Hk]. split; [done|by eapply kept_mono]. Qed.

(** Only what was written differs, or the tables. *)
Lemma settled_sys Q `{!PreOrder Q} d o : settled Q d (set_sys d o).
Proof. by split. Qed.
Lemma settled_tables Q d t : kept Q (tables d) t -> settled Q d (set_tables d t).
Proof. by split. Qed.
Lemma on_ctx_settled Q `{!PreOrder Q} d i k g c :
  ctx_at (tables d) i k c -> Q c (g c) -> ∃ d', on_ctx d i k g = Some d' ∧ settled Q d d' ∧ ctx_at (tables d') i k (g c).
Proof.
  intros Hc HQ. destruct (update_ctx_kept Q _ _ _ g c Hc HQ) as (t & Et & K & H). unfold on_ctx. rewrite Et. bsimp.
  eexists. split; [reflexivity|]. split; [by apply settled_tables|done].
Qed.

Section requests.
Context (E : env) (F : flags).
Hypothesis (WE : wf_env E).

(** The identifier of the daemon is proper. *)
Record sound (d : daemon) : Prop := {
  so_tables : daemon_inv (tables d);
  so_ecu : is_id (ecuid (tables d));
  so_ecu_bytes : is_bytes (ecuid (tables d))
}.
Lemma settled_sound Q d d' : (∀ c c', Q c c' -> ctx_same c c') -> settled Q d d' -> sound d -> sound d'.
Proof.
  intros HQ [_ K] [Ht He Hb]. split; [by eapply kept_inv| |]; by rewrite (kp_ecuid K).
Qed.

(** Telling an application: handles may be lost, nothing else. *)
Lemma user_send_log_level_settled d i k c :
  sound d -> ctx_at (tables d) i k c ->
  ∃ rc d', dlt_daemon_user_send_log_level F d i k = Some (rc, d') ∧ settled ctx_handle d d'.
Proof.
  intros [Hd _ _] Hc. unfold dlt_daemon_user_send_log_level. rewrite (ctx_at_get _ _ _ _ Hc). bsimp.
  cbn [dlt_user_set_userheader Z.leb Z.compare]. destruct (dlt_user_set_userheader _ _) as [rc uh].
  destruct (rc <? _); [by eexists _, d|]. destruct (user_out2 _ _ _ _) as [ret o].
  assert (settled ctx_handle d (set_sys d o)) as S1 by apply settled_sys, _.
  destruct (ret <? _); bsimp; [|by eexists _, _].
  assert (∃ d', (app ← dlt_daemon_application_find (tables (set_sys d o)) (Ctx.apid c) (ecuid (tables (set_sys d o)));
    match app with
    | None => Some (set_sys d o)
    | Some ka => ia ← dlt_daemon_find_users_list (tables (set_sys d o)) (ecuid (tables (set_sys d o)));
                 t ← dlt_daemon_application_reset_user_handle (tables (set_sys d o)) ia ka; Some (set_tables (set_sys d o) t)
    end) = Some d' ∧ settled ctx_handle d d') as (d' & Er & S2).
  { cbn [tables set_sys set_daemon]. destruct Hc as (u & Hu & Hk). destruct (Hd i u Hu) as [_ [_ _ Hids]].
    destruct (Forall_lookup_1 _ _ _ _ Hids Hk) as [Hid _]. unfold dlt_daemon_application_find.
    destruct Hid as [Hid He]. rewrite He.
    destruct (dlt_daemon_find_users_list _ _) as [ia|] eqn:Ei; [|bsimp; by exists (set_sys d o)].
    pose proof (find_users_lookup _ _ _ _ Ei) as Hi.
    destruct (lookup_lt_is_Some_2 (user_list (tables d)) ia) as [v Hv]; [lia|]. rewrite Hv. bsimp.
    destruct (Hd ia v Hv) as [Ha _]. destruct (application_find_spec v (Ctx.apid c) Ha) as (r & -> & Hr); [by split|]. bsimp.
    destruct r as [ka|]; [|by exists (set_sys d o)]. destruct Hr as (a & Hka & _). bsimp.
    destruct (reset_handle_kept _ _ _ _ _ Hd Hv Hka) as (t & -> & K). bsimp. eexists. split; [reflexivity|]. by split. }
  destruct (last_errno o); bsimp; try (by eexists _, _); rewrite Er; bsimp; by eexists _, _.
Qed.

(** ** Answers *)

Lemma set_sys_id d : set_sys d (sys d) = d.
Proof. by destruct d. Qed.

(** The client is a socket, not one of the numbers that mean all of them. *)
Context (send : send_fn) (sock : Z).
Hypothesis Hsend : ∀ st h p d, send sock st h p d = send_to_socket E sock (Some h) p d.

Lemma control_direct payload d :
  sound d -> is_bytes payload -> zlen payload < 65000 ->
  ∃ rc o, control_message E send sock payload [0] d = Some (rc, set_sys d o).
Proof.
  intros [_ He Hb] Bp Lp.
  destruct (control_message_sends E send sock payload [0] DLT_DAEMON_CTRL_APID d WE He Hb) as [[_ ->]|(sh & _ & ->)];
    [by left|done|done|..].
  - exists None, (sys d). by rewrite set_sys_id.
  - rewrite Hsend. edestruct (send_to_socket_total E sock) as (rc & o & ->). bsimp. by eexists _, o.
Qed.

Lemma response_direct id status d :
  sound d -> ∃ o, dlt_daemon_control_service_response E send sock id status d = Some (set_sys d o).
Proof.
  intros Hd. unfold dlt_daemon_control_service_response.
  destruct (control_direct (le_bytes 4 (u32 id) ++ [u8 status]) d Hd) as (rc & o & ->); [| |bsimp; by exists o].
  - apply Forall_app_2; [apply le_bytes_is_bytes|]. apply Forall_cons_2; [|apply Forall_nil_2]. apply (wrapu_range 8). lia.
  - rewrite length_app, length_le_bytes. cbn. lia.
Qed.
Lemma or_response_direct id payload d :
  sound d -> is_bytes payload -> zlen payload < 65000 ->
  ∃ o, or_response E send sock id (control_message E send sock payload [0] d) = Some (set_sys d o).
Proof.
  intros Hd Bp Lp. destruct (control_direct payload d Hd Bp Lp) as (rc & o & ->). unfold or_response. bsimp.
  destruct rc; [by exists o|]. destruct (response_direct id DLT_SERVICE_RESPONSE_ERROR (set_sys d o)) as (o' & ->); [|by exists o'].
  by destruct Hd.
Qed.

(** ** Loops over the contexts *)

Definition tame (step : nat -> nat -> daemon -> option (bool * daemon)) : Prop :=
  ∀ i k c d, sound d -> ctx_at (tables d) i k c -> ∃ go d', step i k d = Some (go, d') ∧ settled ctx_same d d'.

Lemma handle_settled d d' : settled ctx_handle d d' -> settled ctx_same d d'.
Proof. apply settled_mono, ctx_handle_same. Qed.
Lemma same_sound d d' : settled ctx_same d d' -> sound d -> sound d'.
Proof. by apply settled_sound. Qed.

Lemma each_context_settled step : tame step -> ∀ n i k d u,
  sound d -> user_list (tables d) !! i = Some u -> Z.of_nat (k + n) <= num_contexts u ->
  ∃ d', each_context n step i k d = Some d' ∧ settled ctx_same d d'.
Proof.
  intros Hs. induction n as [|n IH]; intros i k d u Hd Hu Hn; cbn [each_context]; [by exists d|].
  assert (∃ c, ctx_at (tables d) i k c) as (c & Hc).
  { destruct (so_tables _ Hd i u Hu) as [_ [Hb _ _]]. destruct (blocks_range _ _ _ Hb) as [_ Hl].
    destruct (lookup_lt_is_Some_2 (live_ctxs u) k) as [c Hc]; [unfold live_ctxs; lia|]. exists c. by exists u. }
  destruct (Hs i k c d Hd Hc) as (go & d1 & -> & S1). bsimp. destruct go; [|by exists d1].
  destruct (kept_lookup _ _ _ _ _ (sd_kept _ _ _ S1) Hu) as (u1 & Hu1 & L1).
  destruct (IH i (S k) d1 u1) as (d2 & -> & S2); [by eapply same_sound|done|rewrite (lk_nctxs L1); lia|].
  exists d2. split; [done|]. by etrans.
Qed.

Lemma own_contexts_settled step d : tame step -> sound d -> ∃ d', own_contexts step d = Some d' ∧ settled ctx_same d d'.
Proof.
  intros Hs Hd. unfold own_contexts. destruct (dlt_daemon_find_users_list _ _) as [i|] eqn:Ei; [|by exists d].
  pose proof (find_users_lookup _ _ _ _ Ei) as Hi.
  destruct (lookup_lt_is_Some_2 (user_list (tables d)) i) as [u Hu]; [lia|]. rewrite Hu. bsimp.
  destruct (so_tables _ Hd i u Hu) as [_ [Hb _ _]]. destruct (blocks_range _ _ _ Hb) as [Hn _].
  apply (each_context_settled step Hs _ i 0 d u); [done|done|lia].
Qed.

(** Telling the application as the last step. *)
Lemma tell_settled d i k c : sound d -> ctx_at (tables d) i k c ->
  ∃ d', ('(_, d) ← dlt_daemon_user_send_log_level F d i k; Some (true, d)) = Some (true, d') ∧ settled ctx_same d d'.
Proof.
  intros Hd Hc. destruct (user_send_log_level_settled d i k c Hd Hc) as (rc & d' & -> & S1). bsimp.
  exists d'. split; [done|by apply handle_settled].
Qed.

Lemma default_update_settled d : sound d -> ∃ d', dlt_daemon_user_send_default_update F d = Some d' ∧ settled ctx_same d d'.
Proof.
  apply own_contexts_settled. intros i k c e He Hc. rewrite (ctx_at_get _ _ _ _ Hc). bsimp.
  destruct (_ && _); [|by eexists _, e]. destruct (tell_settled e i k c He Hc) as (e' & -> & S1). by eexists _, e'.
Qed.

Lemma with_log_level_same l c : ctx_same c (with_log_level l c).
Proof. exists (Ctx.user_handle c), l, (Ctx.trace_status c). by destruct c. Qed.
Lemma with_trace_status_same s c : ctx_same c (with_trace_status s c).
Proof. exists (Ctx.user_handle c), (Ctx.log_level c), s. by destruct c. Qed.
Lemma with_handle_same h c : ctx_same c (Ctx.set_handle c h).
Proof. exists h, (Ctx.log_level c), (Ctx.trace_status c). by destruct c. Qed.

(** A change of settings of a context. *)
Lemma on_ctx_same d i k g c :
  sound d -> ctx_at (tables d) i k c -> ctx_same c (g c) ->
  ∃ d', on_ctx d i k g = Some d' ∧ settled ctx_same d d' ∧ sound d' ∧ ctx_at (tables d') i k (g c).
Proof.
  intros Hd Hc Hg. destruct (on_ctx_settled ctx_same d i k g c Hc Hg) as (d' & Eq & S1 & Hc'). exists d'. split_and!; try done.
  by eapply same_sound.
Qed.

Lemma all_log_level_settled enforce cl l d : sound d ->
  ∃ d', dlt_daemon_user_send_all_log_level_update F enforce cl l d = Some d' ∧ settled ctx_same d d'.
Proof.
  apply own_contexts_settled. intros i k c e He Hc. rewrite (ctx_at_get _ _ _ _ Hc). bsimp.
  destruct (_ <=? _); [|by eexists _, e].
  destruct (on_ctx_same e i k _ c He Hc (with_log_level_same l c)) as (e1 & -> & S1 & He1 & Hc1). bsimp.
  assert (∃ e2 c2, (if enforce && (cl <? l) then on_ctx e1 i k (with_log_level cl) else Some e1) = Some e2 ∧
    settled ctx_same e1 e2 ∧ sound e2 ∧ ctx_at (tables e2) i k c2) as (e2 & c2 & -> & S2 & He2 & Hc2).
  { destruct (_ && _); [|by exists e1, (with_log_level l c)].
    destruct (on_ctx_same e1 i k _ _ He1 Hc1 (with_log_level_same cl _)) as (e2 & -> & S2 & He2 & Hc2). by eexists e2, _. }
  bsimp. destruct (tell_settled e2 i k c2 He2 Hc2) as (e3 & -> & S3). eexists _, e3. split; [done|].
  etrans; [exact S1|]. by etrans.
Qed.

Lemma all_trace_status_settled ts d : sound d ->
  ∃ d', dlt_daemon_user_send_all_trace_status_update F ts d = Some d' ∧ settled ctx_same d d'.
Proof.
  apply own_contexts_settled. intros i k c e He Hc. rewrite (ctx_at_get _ _ _ _ Hc). bsimp.
  destruct (_ <=? _); [|by eexists _, e].
  destruct (on_ctx_same e i k _ c He Hc (with_trace_status_same ts c)) as (e1 & -> & S1 & He1 & Hc1). bsimp.
  destruct (tell_settled e1 i k _ He1 Hc1) as (e2 & -> & S2). eexists _, e2. split; [done|]. by etrans.
Qed.

(** ** Levels of chosen contexts *)

(** Set, tell the application, and take it back when that failed: both kinds of
    setting.  [new] and [old] change one setting. *)
Lemma set_and_tell d i k c new old :
  sound d -> ctx_at (tables d) i k c -> (∀ x, ctx_same x (new x)) -> (∀ x, ctx_same x (old x)) ->
  ∃ ok d1 c1 d2,
    on_ctx d i k new = Some d1 ∧
    (if DLT_FD_MINIMUM <=? Ctx.user_handle c
     then '(rc, d) ← dlt_daemon_user_send_log_level F d1 i k; Some (rc =? 0, d) else Some (false, d1)) = Some (ok, d2) ∧
    ctx_at (tables d2) i k c1 ∧ ctx_handle (new c) c1 ∧ settled ctx_same d d2 ∧ sound d2 ∧
    ∃ d3, on_ctx d2 i k old = Some d3 ∧ settled ctx_same d d3 ∧ sound d3 ∧ ctx_at (tables d3) i k (old c1).
Proof.
  intros Hd Hc Hnew Hold. destruct (on_ctx_same d i k new c Hd Hc (Hnew c)) as (d1 & E1 & S1 & Hd1 & Hc1).
  assert (∃ ok d2, (if DLT_FD_MINIMUM <=? Ctx.user_handle c
     then '(rc, d) ← dlt_daemon_user_send_log_level F d1 i k; Some (rc =? 0, d) else Some (false, d1)) = Some (ok, d2) ∧
     settled ctx_handle d1 d2) as (ok & d2 & E2 & S2).
  { destruct (_ <=? _); [|by eexists _, d1].
    destruct (user_send_log_level_settled d1 i k _ Hd1 Hc1) as (rc & d2 & -> & S2). bsimp. by eexists _, d2. }
  destruct (ctx_at_kept _ _ _ _ _ _ (sd_kept _ _ _ S2) Hc1) as (c1 & Hc2 & HQ).
  apply handle_settled in S2. assert (settled ctx_same d d2) as S02 by (by etrans). pose proof (same_sound _ _ S02 Hd) as Hd2.
  destruct (on_ctx_same d2 i k old c1 Hd2 Hc2 (Hold c1)) as (d3 & E3 & S3 & Hd3 & Hc3).
  exists ok, d1, c1, d2. split_and!; try done. exists d3. split_and!; try done. by etrans.
Qed.

(** The level is kept or restored, and the answer says which. *)
Lemma send_log_level_cases l d i k c :
  sound d -> ctx_at (tables d) i k c ->
  ∃ (ok : bool) d' c', dlt_daemon_send_log_level E F send sock l i k d =
      dlt_daemon_control_service_response E send sock DLT_SERVICE_ID_SET_LOG_LEVEL
        (if ok then DLT_SERVICE_RESPONSE_OK else DLT_SERVICE_RESPONSE_ERROR) d' ∧
    ctx_at (tables d') i k c' ∧ Ctx.log_level c' = (if ok then l else Ctx.log_level c) ∧
    settled ctx_same d d' ∧ sound d'.
Proof.
  intros Hd Hc. unfold dlt_daemon_send_log_level. rewrite (ctx_at_get _ _ _ _ Hc). bsimp.
  destruct (set_and_tell d i k c (with_log_level l) (with_log_level (Ctx.log_level c)) Hd Hc)
    as (ok & d1 & c1 & d2 & -> & E2 & Hc2 & (h & ->) & S2 & Hd2 & d3 & E3 & S3 & Hd3 & Hc3);
    [intros; apply with_log_level_same..|].
  bsimp. rewrite E2. bsimp. destruct ok.
  - by eexists true, d2, _.
  - rewrite E3. bsimp. by eexists false, d3, _.
Qed.
Lemma send_trace_status_cases l d i k c :
  sound d -> ctx_at (tables d) i k c ->
  ∃ (ok : bool) d' c', dlt_daemon_send_trace_status E F send sock l i k d =
      dlt_daemon_control_service_response E send sock DLT_SERVICE_ID_SET_TRACE_STATUS
        (if ok then DLT_SERVICE_RESPONSE_OK else DLT_SERVICE_RESPONSE_ERROR) d' ∧
    ctx_at (tables d') i k c' ∧ Ctx.trace_status c' = (if ok then l else Ctx.trace_status c) ∧
    settled ctx_same d d' ∧ sound d'.
Proof.
  intros Hd Hc. unfold dlt_daemon_send_trace_status. rewrite (ctx_at_get _ _ _ _ Hc). bsimp.
  destruct (set_and_tell d i k c (with_trace_status l) (with_trace_status (Ctx.trace_status c)) Hd Hc)
    as (ok & d1 & c1 & d2 & -> & E2 & Hc2 & (h & ->) & S2 & Hd2 & d3 & E3 & S3 & Hd3 & Hc3);
    [intros; apply with_trace_status_same..|].
  bsimp. rewrite E2. bsimp. destruct ok.
  - by eexists true, d2, _.
  - rewrite E3. bsimp. by eexists false, d3, _.
Qed.

(** An action on a context that changes settings and answers. *)
Definition tame_act (act : nat -> nat -> daemon -> option daemon) : Prop :=
  ∀ i k c d, sound d -> ctx_at (tables d) i k c -> ∃ d', act i k d = Some d' ∧ settled ctx_same d d'.

Lemma respond_settled id status d0 d :
  sound d -> settled ctx_same d0 d ->
  ∃ d', dlt_daemon_control_service_response E send sock id status d = Some d' ∧ settled ctx_same d0 d'.
Proof.
  intros Hd S0. destruct (response_direct id status d Hd) as (o & ->). eexists. split; [reflexivity|].
  etrans; [exact S0|]. apply settled_sys, _.
Qed.
Lemma send_log_level_tame l : tame_act (dlt_daemon_send_log_level E F send sock l).
Proof.
  intros i k c d Hd Hc. destruct (send_log_level_cases l d i k c Hd Hc) as (ok & d1 & c1 & -> & _ & _ & S1 & Hd1).
  by apply respond_settled.
Qed.
Lemma send_trace_status_tame l : tame_act (dlt_daemon_send_trace_status E F send sock l).
Proof.
  intros i k c d Hd Hc. destruct (send_trace_status_cases l d i k c Hd Hc) as (ok & d1 & c1 & -> & _ & _ & S1 & Hd1).
  by apply respond_settled.
Qed.

Lemma strncmp_total : ∀ n a b, (n <= length a)%nat -> (n <= length b)%nat -> ∃ r, strncmp n a b = Some r.
Proof.
  induction n as [|n IH]; intros [|x a] [|y b] Ha Hb; cbn in *; try lia; try (by eexists).
  destruct (negb _); [by eexists|]. destruct (x =? 0); [by eexists|]. apply IH; lia.
Qed.
Lemma length_src_str id : length (src_str id) = 5%nat.
Proof. unfold src_str. rewrite length_app, length_pad_to by apply length_cstr. done. Qed.

Lemma match_context_tame act flag str len : tame_act act -> length str = 5%nat -> len <= 4 -> tame (match_context act flag str len).
Proof.
  intros Ha Ls Hl i k c d Hd Hc. unfold match_context. rewrite (ctx_at_get _ _ _ _ Hc). bsimp.
  destruct (strncmp_total (Z.to_nat len) (src_str (if flag then Ctx.apid c else Ctx.ctid c)) str) as (r & ->);
    [rewrite length_src_str; lia|lia|]. bsimp.
  destruct (r =? 0); [|destruct (_ && _); by eexists _, d].
  destruct (Ha i k c d Hd Hc) as (d' & -> & S1). bsimp. by eexists _, d'.
Qed.

(** The arrays of five characters. *)
Lemma id_array_spec id : length id = 4%nat -> ∃ a, id_array id = Some (a ++ [0]) ∧ is_id a.
Proof.
  intros Hl. unfold id_array, Filter.set_id. rewrite set_id_spec by (done || by apply scannable_len). bsimp.
  eexists. split; [reflexivity|]. apply is_id_pad.
Qed.
Lemma take_four (a r : bytes) : length a = 4%nat -> take 4 (a ++ r) = a.
Proof. intros Hl. rewrite take_app_le by lia. by apply take_ge; lia. Qed.
Lemma cstr_four (a r : bytes) : length a = 4%nat -> cstr 4 (a ++ r) = cstr 4 a.
Proof. intros Hl. do 4 (destruct a as [|? a]; [done|]). destruct a; [|done]. cbn. by repeat case_match. Qed.
Lemma set_id_five (a : bytes) : length a = 4%nat ->
  dlt_set_id (Some [0; 0; 0; 0]) (Some (a ++ [0])) = dlt_set_id (Some [0; 0; 0; 0]) (Some a).
Proof.
  intros Hl. rewrite !set_id_spec, cstr_four by (done || (left; rewrite ?length_app; cbn; lia)). done.
Qed.
Lemma context_find_five t (a c e : bytes) : length a = 4%nat -> length c = 4%nat ->
  dlt_daemon_context_find t (a ++ [0]) (c ++ [0]) e = dlt_daemon_context_find t a c e.
Proof.
  intros La Lc. unfold dlt_daemon_context_find, context_find. rewrite !set_id_five by done.
  unfold memcmp. rewrite (take_four a [0]) by done. rewrite !(take_ge a) by lia.
  by do 2 (destruct a as [|? a], c as [|? c]; try done).
Qed.

Lemma context_find_total d a c : sound d -> is_id a -> is_id c ->
  ∃ r, dlt_daemon_context_find (tables d) a c (ecuid (tables d)) = Some r ∧
    match r with
    | Some k => ∃ i x, dlt_daemon_find_users_list (tables d) (ecuid (tables d)) = Some i ∧ ctx_at (tables d) i k x ∧
        ctx_key x = a ++ c
    | None => True
    end.
Proof.
  intros [Hd _ _] Ia Ic. unfold dlt_daemon_context_find. destruct (empty_id a) eqn:Ea; [by exists None|].
  destruct (empty_id c) eqn:Ec; [by exists None|]. cbn [orb].
  destruct (dlt_daemon_find_users_list _ _) as [i|] eqn:Ei; [|by exists None]. pose proof (find_users_lookup _ _ _ _ Ei) as Hi.
  destruct (lookup_lt_is_Some_2 (user_list (tables d)) i) as [u Hu]; [lia|]. rewrite Hu. bsimp.
  destruct (Hd i u Hu) as [_ Hci]. destruct (context_find_spec u a c Hci) as (r & Er & Hr); [by split..|]. exists r. split; [done|].
  destruct r as [k|]; [|done]. destruct Hr as (x & Hk & _ & Hx). exists i, x. split_and!; try done. by exists u.
Qed.

Lemma choose_settled act nf a c d :
  tame_act act -> (∀ d, sound d -> ∃ d', nf d = Some d' ∧ settled ctx_same d d') -> is_id a -> is_id c -> sound d ->
  ∃ d', choose_contexts (λ flag str len, own_contexts (match_context act flag str len)) act nf (a ++ [0]) (c ++ [0]) d = Some d' ∧
    settled ctx_same d d'.
Proof.
  intros Ha Hn Ia Ic Hd. unfold choose_contexts. pose proof (is_id_length _ Ia) as La. pose proof (is_id_length _ Ic) as Lc.
  set (al := i8 (zlen (cstr 5 (a ++ [0])))). set (cl := i8 (zlen (cstr 5 (c ++ [0])))).
  assert (∀ x, length x = 4%nat -> i8 (i8 (zlen (cstr 5 (x ++ [0]))) - 1) <= 4) as Hlen.
  { intros x Lx. pose proof (length_cstr 5 (x ++ [0])). cint. lia. }
  destruct (lookup_lt_is_Some_2 (a ++ [0]) 0) as [a0 ->]; [rewrite length_app; lia|]. bsimp.
  destruct (lookup_lt_is_Some_2 (c ++ [0]) 0) as [c0 ->]; [rewrite length_app; lia|]. bsimp.
  assert (∀ flag x len, length x = 4%nat -> len <= 4 ->
    ∃ d', own_contexts (match_context act flag (x ++ [0]) len) d = Some d' ∧ settled ctx_same d d') as Hm.
  { intros flag x len Lx Hl. apply own_contexts_settled; [|done]. apply match_context_tame; [done|rewrite length_app; cbn; lia|done]. }
  destruct (_ && _); [by apply Hm; [|apply Hlen]|]. destruct (_ && _); [by apply Hm; [|apply Hlen]|].
  destruct (_ && _); [by apply Hm|]. destruct (_ && _); [by apply Hm|].
  rewrite context_find_five by done. destruct (context_find_total d a c Hd Ia Ic) as (r & -> & Hr). bsimp.
  destruct r as [k|]; [|by apply Hn]. destruct Hr as (i & x & Hi & Hx & _). rewrite Hi. bsimp. by eapply Ha.
Qed.
End requests.

(** ** A daemon with two applications and three contexts *)

Definition id_CON2 : bytes := [67; 79; 78; 50].
Definition sample_app (apid : bytes) (pid h n : Z) (desc : option bytes) : App.DltDaemonApplication :=
  {| App.apid := apid; App.pid := pid; App.user_handle := h; App.owns_user_handle := true; App.application_description := desc;
     App.num_contexts := n |}.
Definition sample_ctx (apid ctid : bytes) (ll pos h : Z) (desc : option bytes) : Ctx.DltDaemonContext :=
  {| Ctx.apid := apid; Ctx.ctid := ctid; Ctx.log_level := ll; Ctx.trace_status := 0; Ctx.log_level_pos := pos; Ctx.user_handle := h;
     Ctx.context_description := desc; Ctx.storage_log_level := -1; Ctx.predefined := false |}.
(** [desc] describes the second application. *)
Definition sample_apps (desc : option bytes) : list App.DltDaemonApplication :=
  [sample_app id_APP1 100 7 2 (Some [111; 110; 101]); sample_app id_APP2 101 8 1 desc].
Definition sample_ctxs : list Ctx.DltDaemonContext :=
  [sample_ctx id_APP1 id_CON1 (-1) 0 7 (Some [65]); sample_ctx id_APP1 id_CON2 4 1 7 None; sample_ctx id_APP2 id_CON1 4 0 8 None].
Definition control_list_with (desc : option bytes) : DltDaemonRegisteredUsers :=
  {| applications := Some (sample_apps desc ++ replicate 498 App.zeroed); num_applications := 2;
     contexts := Some (sample_ctxs ++ replicate 997 Ctx.zeroed); num_contexts := 3; ecu := id_ECU1 |}.
Definition control_list : DltDaemonRegisteredUsers := control_list_with None.
Definition control_tables_with (desc : option bytes) : DltDaemon :=
  {| user_list := [control_list_with desc]; ecuid := id_ECU1; default_log_level := 4; default_trace_status := 0;
     force_ll_ts := false; runtime_context_cfg_loaded := false |}.

Definition control_tables : DltDaemon := control_tables_with None.

Lemma control_tables_inv desc : daemon_inv (control_tables_with desc).
Proof.
  intros [|j] u Hu; [|done]. injection Hu as <-. split; split.
  - by vm_compute.
  - by repeat constructor.
  - by repeat constructor.
  - by vm_compute.
  - by repeat constructor.
  - by repeat constructor.
Qed.
Lemma control_tables_own : own_list control_tables id_ECU1 0 control_list.
Proof. done. Qed.

Definition control_daemon_with (desc : option bytes) (o : os) : daemon :=
  {| tables := control_tables_with desc; state := DLT_DAEMON_STATE_SEND_DIRECT; mode := DLT_USER_MODE_EXTERNAL; client_ringbuffer := empty_ring;
     overflow_counter := 0; connectionState := 1; timingpackets := 0; event := watching [5; 6]; client_connections := 2;
     sent_message_overflow_cnt := 0; uiMsgCount := 0; offline_trace := []; sys := o |}.
Definition control_daemon (o : os) : daemon := control_daemon_with None o.
Lemma control_daemon_sound desc o : sound (control_daemon_with desc o).
Proof. split; [exact (control_tables_inv desc)|done|by apply is_bytes_forallb]. Qed.

End DaemonControlSpec.
