(* ===== verification/DaemonLogInfoSpec.v ===== *)
(** * The log info response

    The answer to "get log info" lists applications with their contexts.  The daemon
    finds the contexts of an application by adding up the numbers of contexts of the
    applications before it, and it computes the size of the response first.  Both
    agree with the tables: since both arrays are sorted by application and every
    context belongs to an application, the array of contexts is the concatenation
    of the groups of the applications. *)

From stdpp Require Import base sets list list_numbers numbers option gmap.
From Stdlib Require Import ZArith Lia Bool.
From S2P Require Import Prelude Protocol Ids Message MessageSpec Filter DltFile UserShared UserSendSpec.
From S2P Require Import SortedTable DaemonTables DaemonTablesSpec DaemonContextsSpec DaemonSend DaemonMessagesSpec DaemonSendSpec DaemonControl DaemonControlSpec.
Import Protocol Ids UserShared DaemonSend DaemonMessagesSpec DaemonSendSpec DaemonControl DaemonControlSpec.
Import SortedTable DaemonTables DaemonTablesSpec DaemonContextsSpec.

Local Open Scope Z_scope.

Module DaemonLogInfoSpec.

(** ** The groups of contexts *)

Definition group (ctxs : list Ctx.DltDaemonContext) (a : App.DltDaemonApplication) : list Ctx.DltDaemonContext :=
  filter (λ c, Ctx.apid c = App.apid a) ctxs.

(** Applications know the number of their contexts, contexts their application. *)
Record linked (apps : list App.DltDaemonApplication) (ctxs : list Ctx.DltDaemonContext) : Prop := {
  ln_counts : ∀ a, a ∈ apps -> App.num_contexts a = zlen (group ctxs a);
  ln_owned : ∀ c, c ∈ ctxs -> ∃ a, a ∈ apps ∧ App.apid a = Ctx.apid c
}.

Lemma sorted_split {A} (key : A -> bytes) (P : A -> Prop) `{!∀ x, Decision (P x)} l :
  sorted key l -> (∀ x y, x ∈ l -> y ∈ l -> before key x y -> P y -> P x) ->
  l = filter P l ++ filter (λ x, ¬ P x) l.
Proof.
  induction 1 as [|x l Hs IH Hx]; intros HP; [done|]. rewrite !filter_cons.
  destruct (decide (P x)) as [Px|Px].
  - destruct (decide (¬ P x)); [done|]. cbn. f_equal. apply IH. intros y z Hy Hz. apply HP; by right.
  - destruct (decide (¬ P x)); [|done].
    assert (filter P l = []) as Hn.
    { apply elem_of_nil_inv. intros y [Py Hy]%list_elem_of_filter. apply Px. rewrite list.Forall_forall in Hx.
      apply (HP x y); [by left|by right|by apply Hx|done]. }
    rewrite Hn in *. cbn in *. f_equal. apply IH. intros y z Hy Hz. apply HP; by right.
Qed.

Lemma sorted_filter {A} (key : A -> bytes) (P : A -> Prop) `{!∀ x, Decision (P x)} l : sorted key l -> sorted key (filter P l).
Proof.
  induction 1 as [|x l Hs IH Hx]; [constructor|]. rewrite filter_cons. case_decide; [|done]. constructor; [done|].
  rewrite list.Forall_forall in *. intros y [_ Hy]%list_elem_of_filter. by apply Hx.
Qed.

Lemma lex_le_antisym a b : lex a b <> Gt -> lex b a <> Gt -> a = b.
Proof. intros H1 H2. rewrite lex_antisym in H2. destruct (lex a b) eqn:E; [by apply lex_eq|done|done]. Qed.

Lemma grouped apps : ∀ ctxs,
  sorted app_key apps -> sorted ctx_key ctxs ->
  Forall (λ a, length (App.apid a) = 4%nat) apps -> Forall (λ c, length (Ctx.apid c) = 4%nat) ctxs ->
  (∀ c, c ∈ ctxs -> ∃ a, a ∈ apps ∧ App.apid a = Ctx.apid c) ->
  ctxs = concat (group ctxs <$> apps).
Proof.
  induction apps as [|a apps IH]; intros ctxs Ha Hc La Lc Ho.
  { cbn. destruct ctxs as [|c ctxs]; [done|]. destruct (Ho c) as (a & Hin & _); [by left|]. by apply elem_of_nil in Hin. }
  inversion Ha as [|? ? Hs Hx]; subst. apply Forall_cons_1 in La as [La0 La].
  assert (∀ c, c ∈ ctxs -> lex (App.apid a) (Ctx.apid c) <> Gt) as Hmin.
  { intros c Hin. destruct (Ho c Hin) as (b & Hb & <-). apply elem_of_cons in Hb as [->|Hb]; [by rewrite lex_refl|].
    rewrite list.Forall_forall in Hx. specialize (Hx b Hb). unfold before, app_key in Hx. by rewrite Hx. }
  rewrite (sorted_split ctx_key (λ c, Ctx.apid c = App.apid a) ctxs Hc) at 1.
  2: { intros x y Hx' Hy Hb Py. unfold before, ctx_key in Hb. rewrite list.Forall_forall in Lc.
       rewrite lex_app_eq in Hb by (rewrite !Lc; done). rewrite Py in Hb. apply lex_le_antisym; [|by apply Hmin].
       destruct (lex (Ctx.apid x) (App.apid a)); done. }
  rewrite fmap_cons. cbn [concat]. f_equal. set (rest := filter _ ctxs).
  rewrite (IH rest) at 1; [|done|..].
  - f_equal. apply list_fmap_ext. intros j b Hb. unfold group, rest. rewrite list_filter_filter. apply list_filter_iff.
    intros c. split; [by intros []|]. intros E. split; [done|]. rewrite E. intros E'.
    apply list_elem_of_lookup_2 in Hb. rewrite list.Forall_forall in Hx. specialize (Hx b Hb). unfold before, app_key in Hx.
    by rewrite E', lex_refl in Hx.
  - by apply sorted_filter.
  - done.
  - rewrite list.Forall_forall in *. intros c [_ Hin]%list_elem_of_filter. by apply Lc.
  - intros c [Hne Hin]%list_elem_of_filter. destruct (Ho c Hin) as (b & Hb & Eb). exists b. split; [|done].
    apply elem_of_cons in Hb as [->|Hb]; [done|done].
Qed.

(** ** The response *)

Definition enc_desc (s : option bytes) : bytes := le_bytes 2 (u16 (desc_len s)) ++ default [] s.
Definition enc_ctx (o : Z) (c : Ctx.DltDaemonContext) : bytes :=
  Ctx.ctid c ++ (if with_level o then [u8 (Ctx.log_level c)] else []) ++ (if with_trace o then [u8 (Ctx.trace_status c)] else [])
    ++ (if o =? 7 then enc_desc (Ctx.context_description c) else []).
Definition enc_app (o : Z) (x : App.DltDaemonApplication * list Ctx.DltDaemonContext) : bytes :=
  App.apid x.1 ++ le_bytes 2 (zlen x.2) ++ concat (enc_ctx o <$> x.2)
    ++ (if o =? 7 then enc_desc (App.application_description x.1) else []).
Definition remo : bytes := [114; 101; 109; 111].

(** Status 8 when no context was found. *)
Definition log_info (o : Z) (l : list (App.DltDaemonApplication * list Ctx.DltDaemonContext)) : bytes :=
  le_bytes 4 DLT_SERVICE_ID_GET_LOG_INFO ++ [if (zlen l =? 0) || (zlen (concat l.*2) =? 0) then 8 else o] ++
  match l with
  | [] => remo ++ [0; 0]
  | _ => le_bytes 2 (zlen l) ++ concat (enc_app o <$> l) ++ remo
  end.

(** What a request selects. *)
Definition selected (u : DltDaemonRegisteredUsers) (r : log_info_request)
  : list (App.DltDaemonApplication * list Ctx.DltDaemonContext) :=
  if empty_id (req_apid r) then (λ a, (a, group (live_ctxs u) a)) <$> live_apps u
  else match amap u !! req_apid r with
       | None => []
       | Some a => [(a, if empty_id (req_ctid r) then group (live_ctxs u) a
                        else option_list (cmap u !! (req_apid r ++ req_ctid r)))]
       end.

(** *** Sizes *)

Definition sizecont (o : Z) : Z := 4 + (if with_level o then 1 else 0) + (if with_trace o then 1 else 0).
Definition ctx_descs (cs : list Ctx.DltDaemonContext) : Z := zlen (concat ((λ c, enc_desc (Ctx.context_description c)) <$> cs)).
Definition app_descs (l : list App.DltDaemonApplication) : Z := zlen (concat ((λ a, enc_desc (App.application_description a)) <$> l)).

Lemma length_enc_desc s : zlen (enc_desc s) = 2 + desc_len s.
Proof. unfold enc_desc, desc_len. rewrite length_app, length_le_bytes. lia. Qed.

Lemma context_descriptions_spec (ctxs : list Ctx.DltDaemonContext) : ∀ n k, (k + n <= length ctxs)%nat ->
  context_descriptions n k ctxs = Some (ctx_descs (take n (drop k ctxs))).
Proof.
  induction n as [|n IH]; intros k Hl; [done|]. cbn [context_descriptions].
  destruct (lookup_lt_is_Some_2 ctxs k) as [c Hc]; [lia|]. rewrite Hc. bsimp. rewrite IH by lia. bsimp.
  rewrite (drop_S _ c k Hc). cbn [take]. unfold ctx_descs at 2. rewrite fmap_cons. cbn [concat].
  rewrite length_app, Nat2Z.inj_add, length_enc_desc. done.
Qed.
Lemma application_descriptions_spec (apps : list App.DltDaemonApplication) : ∀ n k, (k + n <= length apps)%nat ->
  application_descriptions n k apps = Some (app_descs (take n (drop k apps))).
Proof.
  induction n as [|n IH]; intros k Hl; [done|]. cbn [application_descriptions].
  destruct (lookup_lt_is_Some_2 apps k) as [c Hc]; [lia|]. rewrite Hc. bsimp. rewrite IH by lia. bsimp.
  rewrite (drop_S _ c k Hc). cbn [take]. unfold app_descs at 2. rewrite fmap_cons. cbn [concat].
  rewrite length_app, Nat2Z.inj_add, length_enc_desc. done.
Qed.

Lemma length_enc_ctxs o cs : Forall (λ c, is_id (Ctx.ctid c)) cs ->
  zlen (concat (enc_ctx o <$> cs)) = zlen cs * sizecont o + (if o =? 7 then ctx_descs cs else 0).
Proof.
  unfold ctx_descs. induction 1 as [|c cs Hc _ IH]; [cbn; by case_match|]. rewrite !fmap_cons. cbn [concat length].
  rewrite !length_app, Nat2Z.inj_add, IH. unfold enc_ctx at 1, sizecont. rewrite !length_app, (is_id_length _ Hc).
  destruct (with_level o), (with_trace o), (o =? 7); cbn [length]; lia.
Qed.
Definition wf_selection (l : list (App.DltDaemonApplication * list Ctx.DltDaemonContext)) : Prop :=
  Forall (λ x, is_id (App.apid x.1) ∧ Forall (λ c, is_id (Ctx.ctid c)) x.2) l.
Lemma length_enc_apps o l : wf_selection l ->
  zlen (concat (enc_app o <$> l)) =
    zlen l * 6 + zlen (concat l.*2) * sizecont o + (if o =? 7 then ctx_descs (concat l.*2) + app_descs l.*1 else 0).
Proof.
  induction 1 as [|[a cs] l [Ha Hcs] _ IH]; [cbn; by case_match|]. rewrite !fmap_cons. cbn [concat length fst snd].
  rewrite !length_app, !Nat2Z.inj_add, IH. unfold enc_app at 1. cbn [fst snd].
  cbn [fst snd] in Ha, Hcs.
  rewrite !length_app, !Nat2Z.inj_add, (is_id_length _ Ha), length_le_bytes, (length_enc_ctxs o cs Hcs).
  unfold ctx_descs, app_descs. rewrite !fmap_cons, fmap_app, concat_app. cbn [concat]. rewrite !length_app.
  destruct (o =? 7); cbn [length]; lia.
Qed.
Lemma length_log_info o l : wf_selection l ->
  zlen (log_info o l) = 4 + 1 + 4 + (zlen l * (4 + 2) + zlen (concat l.*2) * sizecont o) + 2
    + (if o =? 7 then ctx_descs (concat l.*2) + app_descs l.*1 else 0).
Proof.
  intros Hl. unfold log_info. rewrite !length_app, length_le_bytes. destruct l as [|x l]; [cbn; by case_match|].
  rewrite !length_app, !Nat2Z.inj_add, (length_enc_apps o _ Hl), length_le_bytes. cbn [length remo]. lia.
Qed.

(** *** Writing *)

(** The cursor behind [p] with [n] zeros left. *)
Definition at_ (p : bytes) (n : nat) : cursor := (p ++ replicate n 0, zlen p).

Lemma put_at x p m : put x (at_ p (length x + m)) = Some (at_ (p ++ x) m).
Proof.
  unfold put, at_. cbn [fst snd]. rewrite replicate_add, (mwrite_mid p) by (rewrite ?length_replicate; done). bsimp.
  rewrite <-app_assoc. repeat f_equal. rewrite length_app. lia.
Qed.
Lemma put_id_at id p m : is_id id -> put_id id (at_ p (4 + m)) = Some (at_ (p ++ id) m).
Proof.
  intros Hi. pose proof (is_id_length _ Hi) as Hl. unfold put_id. rewrite <-(put_at id p m), Hl.
  unfold at_ at 1 2. cbn [fst snd]. rewrite replicate_add, (mread_mid p) by (rewrite ?length_replicate; done). bsimp.
  unfold Filter.set_id. rewrite set_id_copy by done. by bsimp.
Qed.
Lemma put_remo_at p m : put_id DLT_DAEMON_REMO_STRING (at_ p (4 + m)) = Some (at_ (p ++ remo) m).
Proof.
  unfold put_id. rewrite <-(put_at remo p m). unfold at_ at 1 2. cbn [fst snd].
  rewrite replicate_add, (mread_mid p) by (rewrite ?length_replicate; done). by bsimp.
Qed.
Lemma put_description_at s p m : put_description s (at_ p (length (enc_desc s) + m)) = Some (at_ (p ++ enc_desc s) m).
Proof.
  unfold put_description, enc_desc. rewrite length_app, <-Nat.add_assoc, put_at. bsimp. destruct s as [s|].
  - by rewrite put_at, <-app_assoc.
  - cbn [default from_option id length Nat.add]. by rewrite app_nil_r.
Qed.

(** A part that is written under a condition. *)
Lemma put_if (b : bool) x p m :
  (if b then put x (at_ p (length (if b then x else []) + m)) else Some (at_ p (length (if b then x else []) + m)))
  = Some (at_ (p ++ (if b then x else [])) m).
Proof. destruct b; [apply put_at|]. cbn. by rewrite app_nil_r. Qed.
Lemma put_description_if (b : bool) s p m :
  (if b then put_description s (at_ p (length (if b then enc_desc s else []) + m))
   else Some (at_ p (length (if b then enc_desc s else []) + m))) = Some (at_ (p ++ (if b then enc_desc s else [])) m).
Proof. destruct b; [apply put_description_at|]. cbn. by rewrite app_nil_r. Qed.

Section writing.
Context (t : DltDaemon) (u : DltDaemonRegisteredUsers) (i : nat) (r : log_info_request).
Hypothesis (Hd : daemon_inv t) (Hown : own_list t (ecuid t) i u) (Hlink : linked (live_apps u) (live_ctxs u)).

Let o := options r.

Lemma put_context_at c p m :
  is_id (Ctx.ctid c) -> empty_id (req_ctid r) = true ∨ req_ctid r = Ctx.ctid c ->
  put_context r c (at_ p (length (enc_ctx o c) + m)) = Some (at_ (p ++ enc_ctx o c) m).
Proof.
  intros Hi Hr. unfold put_context.
  assert (empty_id (req_ctid r) || bool_decide (memcmp 4 (Ctx.ctid c) (req_ctid r) = 0) = true) as ->.
  { destruct Hr as [->| ->]; [done|]. apply orb_true_iff. right. apply bool_decide_eq_true. unfold memcmp. by rewrite lex_refl. }
  unfold enc_ctx. rewrite !length_app, (is_id_length _ Hi), <-!Nat.add_assoc, put_id_at by done. bsimp.
  rewrite put_if. bsimp. rewrite put_if. bsimp. rewrite put_description_if. by rewrite <-!app_assoc.
Qed.

Lemma ctx_ids c : c ∈ live_ctxs u -> is_id (Ctx.apid c) ∧ is_id (Ctx.ctid c).
Proof.
  destruct Hown as [_ Hu]. destruct (Hd i u Hu) as [_ [_ _ H]]. rewrite list.Forall_forall in H.
  intros Hin. by destruct (H c Hin) as [[? ?] [? ?]].
Qed.
Lemma app_ids a : a ∈ live_apps u -> is_id (App.apid a).
Proof.
  destruct Hown as [_ Hu]. destruct (Hd i u Hu) as [[_ _ H] _]. rewrite list.Forall_forall in H. intros Hin. by destruct (H a Hin).
Qed.
Lemma ctx_array ctxs c k : contexts u = Some ctxs -> live_ctxs u !! k = Some c -> ctxs !! k = Some c.
Proof. intros Ec. unfold live_ctxs. rewrite Ec. by intros [H _]%lookup_take_Some. Qed.

(** A slice of the array, or the context that was found. *)
Lemma put_contexts_at count base cs : ∀ n j p m,
  empty_id (req_ctid r) = true ->
  (∀ k c, cs !! k = Some c -> live_ctxs u !! (Z.to_nat base + j + k)%nat = Some c) -> length cs = n -> 0 <= base ->
  ∀ s, put_contexts n u r s count base j (at_ p (length (concat (enc_ctx o <$> cs)) + m)) =
    Some (at_ (p ++ concat (enc_ctx o <$> cs)) m).
Proof.
  induction cs as [|c cs IH]; intros n j p m Hr Hk <- Hb s; [cbn; by rewrite app_nil_r|].
  cbn [put_contexts length]. pose proof (Hk 0%nat c eq_refl) as Hc. rewrite Nat.add_0_r in Hc.
  destruct (contexts u) as [ctxs|] eqn:Ec; [|unfold live_ctxs in Hc; rewrite Ec in Hc; cbn in Hc; by rewrite take_nil in Hc]. bsimp.
  rewrite Hr, andb_false_r. bsimp. replace (Z.to_nat (base + Z.of_nat j)) with (Z.to_nat base + j)%nat by lia.
  rewrite (ctx_array _ _ _ Ec Hc). bsimp. rewrite fmap_cons. cbn [concat]. rewrite length_app, <-Nat.add_assoc.
  destruct (ctx_ids c) as [_ Hid]; [by eapply list_elem_of_lookup_2|]. rewrite put_context_at by (done || by left). bsimp.
  rewrite (IH _ (S j)); [by rewrite <-app_assoc|done| |done|done].
  intros k c' Hc'. replace (Z.to_nat base + S j + k)%nat with (Z.to_nat base + j + S k)%nat by lia. by apply Hk.
Qed.

Lemma put_found_at base k c s p m :
  empty_id (req_apid r) = false -> empty_id (req_ctid r) = false -> sel_ctx s = Some k -> live_ctxs u !! k = Some c ->
  req_ctid r = Ctx.ctid c ->
  put_contexts 1 u r s 1 base 0 (at_ p (length (concat (enc_ctx o <$> [c])) + m)) = Some (at_ (p ++ concat (enc_ctx o <$> [c])) m).
Proof.
  intros Ha Hc Hs Hk Hr. cbn [put_contexts]. rewrite Ha, Hc, Hs.
  destruct (contexts u) as [ctxs|] eqn:Ec; [|unfold live_ctxs in Hk; rewrite Ec in Hk; cbn in Hk; by rewrite take_nil in Hk]. bsimp.
  cbn [Z.eqb Pos.eqb andb negb]. bsimp. rewrite (ctx_array _ _ _ Ec Hk). bsimp. cbn [fmap list_fmap concat].
  destruct (ctx_ids c) as [_ Hid]; [by eapply list_elem_of_lookup_2|]. rewrite app_nil_r, put_context_at by (done || by right). by bsimp.
Qed.

(** *** The contexts of an application *)

Lemma offset_base_sum : ∀ ka (apps : list App.DltDaemonApplication), (ka <= length apps)%nat ->
  offset_base ka apps = Some (foldr Z.add 0 (App.num_contexts <$> take ka apps)).
Proof.
  induction ka as [|ka IH]; intros [|a apps] Hl; cbn in Hl; try lia; [done..|]. cbn [offset_base take]. rewrite IH by lia. done.
Qed.

Lemma counts_sum l : (∀ a, a ∈ l -> App.num_contexts a = zlen (group (live_ctxs u) a)) ->
  foldr Z.add 0 (App.num_contexts <$> l) = zlen (concat (group (live_ctxs u) <$> l)).
Proof.
  induction l as [|a l IH]; intros H; [done|]. rewrite !fmap_cons. cbn [foldr concat]. rewrite length_app, IH by (intros; apply H; by right).
  rewrite H by (by left). lia.
Qed.

Lemma live_grouped : live_ctxs u = concat (group (live_ctxs u) <$> live_apps u).
Proof.
  destruct Hown as [_ Hu]. destruct (Hd i u Hu) as [[_ Hs1 _] [_ Hs2 _]]. apply grouped; [done|done| | |apply Hlink].
  - apply list.Forall_forall. intros a Ha. by apply is_id_length, app_ids.
  - apply list.Forall_forall. intros c Hc. by apply is_id_length, (proj1 (ctx_ids c Hc)).
Qed.

(** The start that is computed is the start of the group. *)
Lemma group_cut apps ka a :
  applications u = Some apps -> live_apps u !! ka = Some a ->
  ∃ pre post, offset_base ka apps = Some (zlen pre) ∧ live_ctxs u = pre ++ group (live_ctxs u) a ++ post.
Proof.
  intros Ea Hk. pose proof (lookup_lt_Some _ _ _ Hk) as Hlt. unfold live_apps in Hlt, Hk. rewrite Ea in Hlt, Hk.
  cbn [default from_option id] in Hlt, Hk. rewrite length_take in Hlt. pose proof Hk as [_ Hkn]%lookup_take_Some.
  exists (concat (group (live_ctxs u) <$> take ka (live_apps u))), (concat (group (live_ctxs u) <$> drop (S ka) (live_apps u))).
  rewrite offset_base_sum by lia. split.
  - assert (take ka apps = take ka (live_apps u)) as ->.
    { unfold live_apps. rewrite Ea. cbn [default from_option id]. rewrite take_take. f_equal. lia. }
    rewrite counts_sum; [done|]. intros b Hb. apply Hlink. rewrite <-(take_drop ka (live_apps u)). apply elem_of_app. by left.
  - rewrite live_grouped at 1. rewrite <-(take_drop_middle (live_apps u) ka a) at 1 by (unfold live_apps; by rewrite Ea).
    by rewrite fmap_app, fmap_cons, concat_app.
Qed.
Lemma group_slice apps ka a :
  applications u = Some apps -> live_apps u !! ka = Some a ->
  ∃ base, offset_base ka apps = Some base ∧ 0 <= base ∧
    ∀ k c, group (live_ctxs u) a !! k = Some c -> live_ctxs u !! (Z.to_nat base + k)%nat = Some c.
Proof.
  intros Ea Hk. destruct (group_cut apps ka a Ea Hk) as (pre & post & Hb & Hg). exists (zlen pre). split_and!; [done|lia|].
  intros k c Hc. rewrite Nat2Z.id, Hg, lookup_app_r by lia.
  rewrite lookup_app_l by (apply lookup_lt_Some in Hc; lia). by replace (_ + k - _)%nat with k by lia.
Qed.

Lemma application_found a ka : live_apps u !! ka = Some a ->
  dlt_daemon_application_find t (App.apid a) (ecuid t) = Some (Some ka).
Proof.
  intros Hk. destruct Hown as [Hf Hu]. destruct (Hd i u Hu) as [Ha _]. pose proof (ai_ids _ Ha) as Hids.
  pose proof (Forall_lookup_1 _ _ _ _ Hids Hk) as Hid. unfold dlt_daemon_application_find. rewrite (proj2 Hid), Hf, Hu. bsimp.
  pose proof (sorted_NoDup app_key _ (ai_sorted _ Ha)) as Hnd.
  destruct (application_find_spec u (App.apid a) Ha Hid) as (x & -> & Hx). destruct x as [k|].
  - destruct Hx as (b & Hb & _ & Eb). do 2 f_equal. apply (NoDup_lookup _ k ka (App.apid a) Hnd).
    + by rewrite list_lookup_fmap, Hb, <-Eb.
    + by rewrite list_lookup_fmap, Hk.
  - exfalso. unfold amap in Hx. apply table_lookup_None in Hx. apply Hx. apply list_elem_of_fmap. exists a. split; [done|].
    by eapply list_elem_of_lookup_2.
Qed.

(** One application. *)
Lemma put_application_at n s j apps ka a cs base p m :
  applications u = Some apps -> live_apps u !! ka = Some a -> offset_base ka apps = Some base ->
  (if empty_id (req_apid r) then j = ka else req_apid r = App.apid a) ->
  u16 (if empty_id (req_apid r) then App.num_contexts a else sel_nctxs s) = zlen cs ->
  (∀ p m, put_contexts (length cs) u r s (zlen cs) base 0 (at_ p (length (concat (enc_ctx o <$> cs)) + m)) =
     Some (at_ (p ++ concat (enc_ctx o <$> cs)) m)) ->
  put_applications (S n) t u r s j (at_ p (length (enc_app o (a, cs)) + m)) =
    put_applications n t u r s (S j) (at_ (p ++ enc_app o (a, cs)) m).
Proof.
  intros Ea Hk Eb Hj Hn Hp. cbn [put_applications]. rewrite Ea.
  assert (apps !! ka = Some a) as Hka.
  { unfold live_apps in Hk. rewrite Ea in Hk. by apply lookup_take_Some in Hk as [Hk _]. }
  assert ((if empty_id (req_apid r) then a ← apps !! j; Some (App.apid a) else Some (req_apid r)) = Some (App.apid a)) as ->.
  { destruct (empty_id (req_apid r)); [subst j; rewrite Hka; by bsimp|by rewrite Hj]. }
  bsimp. rewrite (application_found a ka Hk). bsimp. rewrite Hka. bsimp. rewrite Eb. bsimp.
  assert (is_id (App.apid a)) as Hid by (apply app_ids; by eapply list_elem_of_lookup_2).
  unfold enc_app at 1. cbn [fst snd]. rewrite !length_app, (is_id_length _ Hid), <-!Nat.add_assoc, put_id_at by done. bsimp.
  rewrite Hn, put_at. bsimp. rewrite Nat2Z.id, Hp. bsimp. rewrite put_description_if. bsimp.
  unfold enc_app. cbn [fst snd]. by rewrite <-!app_assoc.
Qed.

(** All applications. *)
Lemma put_all_at s apps :
  applications u = Some apps -> empty_id (req_apid r) = true -> empty_id (req_ctid r) = true ->
  (∀ a, a ∈ live_apps u -> App.num_contexts a < 65536) ->
  ∀ l j p m, l = drop j (live_apps u) ->
  let sel := (λ a, (a, group (live_ctxs u) a)) <$> l in
  put_applications (length l) t u r s j (at_ p (length (concat (enc_app o <$> sel)) + m)) =
    Some (at_ (p ++ concat (enc_app o <$> sel)) m).
Proof.
  intros Ea Ha Hc Hn. induction l as [|a l IH]; intros j p m Hl sel; [cbn; by rewrite app_nil_r|].
  assert (live_apps u !! j = Some a) as Hk by (rewrite <-(Nat.add_0_r j), <-lookup_drop, <-Hl; done).
  pose proof (ln_counts _ _ Hlink a ltac:(by eapply list_elem_of_lookup_2)) as Hcount.
  pose proof (Hn a ltac:(by eapply list_elem_of_lookup_2)).
  destruct (group_slice apps j a Ea Hk) as (base & Eb & Hb & Hslice). unfold sel. rewrite !fmap_cons. cbn [concat length].
  rewrite length_app, <-Nat.add_assoc.
  rewrite (put_application_at _ _ _ apps j a _ base); [|done|done|done|by rewrite Ha| |].
  - rewrite (IH (S j)); [by rewrite <-app_assoc|]. rewrite (drop_S _ a j Hk) in Hl. by injection Hl.
  - rewrite Ha, u16_small by lia. lia.
  - intros p' m'. apply put_contexts_at; [done| |done|done]. intros k c Hk'. rewrite Nat.add_0_r. by apply Hslice.
Qed.

(** *** What is selected *)

Lemma selected_wf : wf_selection (selected u r).
Proof.
  assert (∀ l, (∀ c, c ∈ l -> c ∈ live_ctxs u) -> Forall (λ c, is_id (Ctx.ctid c)) l) as Hids.
  { intros l Hl. apply list.Forall_forall. intros c Hc. by apply (proj2 (ctx_ids c (Hl c Hc))). }
  assert (∀ a, Forall (λ c, is_id (Ctx.ctid c)) (group (live_ctxs u) a)) as Hgr.
  { intros a. apply Hids. by intros c [_ Hc]%list_elem_of_filter. }
  unfold wf_selection, selected. destruct (empty_id (req_apid r)).
  - apply list.Forall_forall. intros x (a & -> & Ha)%list_elem_of_fmap. split; [by apply app_ids|apply Hgr].
  - destruct Hown as [_ Hu]. destruct (Hd i u Hu) as [Ha Hc]. destruct (amap u !! req_apid r) as [a|] eqn:Ea; [|apply Forall_nil_2].
    apply Forall_cons_2; [|apply Forall_nil_2]. unfold amap in Ea.
    apply table_lookup in Ea as [Hin _]; [|apply sorted_NoDup, Ha]. split; [by apply app_ids|]. cbn [snd].
    destruct (empty_id (req_ctid r)); [apply Hgr|]. apply Hids. intros c Hc'. destruct (cmap u !! _) as [x|] eqn:Ex; [|by apply elem_of_nil in Hc'].
    apply list_elem_of_singleton in Hc' as ->. unfold cmap in Ex. by apply table_lookup in Ex as [? _]; [|apply sorted_NoDup, Hc].
Qed.

(** The selection [s] of the code stands for [l]. *)
Record serves (s : selection) (l : list (App.DltDaemonApplication * list Ctx.DltDaemonContext)) : Prop := {
  sv_napps : sel_napps s = zlen l;
  sv_nctxs : sel_nctxs s = zlen (concat l.*2);
  sv_descs : log_info_descriptions u r s = Some (ctx_descs (concat l.*2) + app_descs l.*1);
  sv_put : ∀ p m, put_applications (length l) t u r s 0 (at_ p (length (concat (enc_app o <$> l)) + m)) =
    Some (at_ (p ++ concat (enc_app o <$> l)) m)
}.

Lemma payload_of_selection s l :
  log_info_select t u r = Some s -> serves s l -> wf_selection l -> zlen l < 65536 -> 3 <= o <= 7 ->
  zlen (log_info o l) <= INT32_MAX -> log_info_payload t u r = Some (log_info o l).
Proof.
  intros Es [H1 H2 H3 H4] Hw Hl Ho Hsz. unfold log_info_payload. rewrite Es. bsimp. unfold log_info_size. fold o.
  rewrite H1, H2, H3. change (4 + (if with_level o then 1 else 0) + (if with_trace o then 1 else 0)) with (sizecont o).
  assert ((if o =? 7 then Some (ctx_descs (concat l.*2) + app_descs l.*1) else Some 0) =
    Some (if o =? 7 then ctx_descs (concat l.*2) + app_descs l.*1 else 0)) as -> by (by case_match).
  bsimp. rewrite <-length_log_info by done. rewrite ltb_false by done. bsimp. rewrite Nat2Z.id.
  change (replicate ?n 0, 0) with (at_ [] n). unfold log_info. rewrite !length_app, put_at. bsimp. cbn [app].
  set (st := if _ || _ then _ else _).
  assert (u8 (if negb (zlen l =? 0) && negb (zlen (concat l.*2) =? 0) then o else 8) = st) as ->.
  { unfold st. destruct (zlen l =? 0), (zlen (concat l.*2) =? 0); cbn [negb andb orb]; by rewrite u8_small by lia. }
  rewrite (put_at [st]). bsimp. rewrite u16_small by lia.
  destruct l as [|x l].
  - change (negb (zlen [] =? 0)) with false. bsimp. change (length (remo ++ [0; 0])) with (4 + 2)%nat.
    rewrite put_remo_at. bsimp. unfold at_. cbn [fst]. by rewrite <-!app_assoc.
  - rewrite eqb_false by (cbn [length]; lia). cbn [negb]. rewrite length_app, put_at. bsimp. rewrite Nat2Z.id, length_app, H4. bsimp.
    set (q := _ ++ concat _). change (length remo) with (4 + 0)%nat.
    rewrite put_remo_at. bsimp. unfold at_, q. cbn [fst replicate]. by rewrite app_nil_r, <-!app_assoc.
Qed.

Hypothesis Hcounts : ∀ a, a ∈ live_apps u -> App.num_contexts a < 65536.

Lemma all_ctx_descs :
  (if num_contexts u <=? 0 then Some 0 else ctxs ← contexts u; context_descriptions (Z.to_nat (num_contexts u)) 0 ctxs) =
    Some (ctx_descs (live_ctxs u)).
Proof.
  destruct Hown as [_ Hu]. destruct (Hd i u Hu) as [_ [Hb _ _]]. destruct (Z.leb_spec (num_contexts u) 0).
  - unfold live_ctxs. replace (Z.to_nat (num_contexts u)) with 0%nat by lia. done.
  - unfold live_ctxs. destruct (contexts u) as [ctxs|]; cbn in Hb; [|lia]. bsimp. by rewrite context_descriptions_spec by lia.
Qed.
Lemma all_app_descs :
  (if num_applications u <=? 0 then Some 0 else apps ← applications u; application_descriptions (Z.to_nat (num_applications u)) 0 apps) =
    Some (app_descs (live_apps u)).
Proof.
  destruct Hown as [_ Hu]. destruct (Hd i u Hu) as [[Hb _ _] _]. destruct (Z.leb_spec (num_applications u) 0).
  - unfold live_apps. replace (Z.to_nat (num_applications u)) with 0%nat by lia. done.
  - unfold live_apps. destruct (applications u) as [apps|]; cbn in Hb; [|lia]. bsimp. by rewrite application_descriptions_spec by lia.
Qed.

Lemma live_counts : num_applications u = zlen (live_apps u) ∧ num_contexts u = zlen (live_ctxs u).
Proof.
  destruct Hown as [_ Hu]. destruct (Hd i u Hu) as [[H1 _ _] [H2 _ _]].
  split; symmetry; by eapply (blocks_range _ _ _).
Qed.

Lemma all_serves : empty_id (req_apid r) = true -> empty_id (req_ctid r) = true ->
  ∃ s, log_info_select t u r = Some s ∧ serves s (selected u r).
Proof.
  intros Ha Hc. unfold log_info_select, selected. rewrite Ha. eexists. split; [reflexivity|]. destruct live_counts as [H1 H2].
  assert (concat (((λ a, (a, group (live_ctxs u) a)) <$> live_apps u).*2) = live_ctxs u) as Hg.
  { rewrite <-list_fmap_compose. symmetry. apply live_grouped. }
  assert (((λ a, (a, group (live_ctxs u) a)) <$> live_apps u).*1 = live_apps u) as Hf.
  { rewrite <-list_fmap_compose. apply list_fmap_id. }
  split; cbn [sel_napps sel_nctxs].
  - by rewrite length_fmap.
  - by rewrite Hg.
  - rewrite Hg, Hf. unfold log_info_descriptions. rewrite Ha, all_ctx_descs. bsimp. rewrite all_app_descs. by bsimp.
  - intros p m. rewrite length_fmap. destruct (applications u) as [apps|] eqn:Ea.
    + by apply (put_all_at _ apps).
    + assert (live_apps u = []) as -> by (unfold live_apps; rewrite Ea; cbn; by rewrite take_nil). cbn. by rewrite app_nil_r.
Qed.

(** One application. *)
Lemma app_found_array a ka : amap u !! req_apid r = Some a -> live_apps u !! ka = Some a ->
  ∃ apps, applications u = Some apps ∧ apps !! ka = Some a.
Proof.
  intros _ Hk. unfold live_apps in Hk. destruct (applications u) as [apps|]; [|cbn in Hk; by rewrite take_nil in Hk].
  exists apps. split; [done|]. by apply lookup_take_Some in Hk as [Hk _].
Qed.

Lemma ctxs_of_group k c : live_ctxs u !! k = Some c -> ∃ ctxs, contexts u = Some ctxs ∧ (k < length ctxs)%nat ∧ ctxs !! k = Some c.
Proof.
  unfold live_ctxs. intros [Hk _]%lookup_take_Some. destruct (contexts u) as [ctxs|]; [|done]. exists ctxs. split_and!; try done.
  by eapply lookup_lt_Some.
Qed.

(** The slice of a group in the array. *)
Lemma group_descs base a :
  0 <= base -> (∀ k c, group (live_ctxs u) a !! k = Some c -> live_ctxs u !! (Z.to_nat base + k)%nat = Some c) ->
  App.num_contexts a = zlen (group (live_ctxs u) a) ->
  (if App.num_contexts a <=? 0 then Some 0
   else ctxs ← contexts u; context_descriptions (Z.to_nat (App.num_contexts a)) (Z.to_nat base) ctxs) =
    Some (ctx_descs (group (live_ctxs u) a)).
Proof.
  intros Hb Hs Hn. rewrite Hn. destruct (group (live_ctxs u) a) as [|c cs] eqn:Eg; [done|]. rewrite leb_false by (cbn [length]; lia).
  rewrite <-Eg in *. rewrite Nat2Z.id. set (g := group _ a) in *.
  destruct (ctxs_of_group (Z.to_nat base) c) as (ctxs & Ec & _).
  { rewrite <-(Nat.add_0_r (Z.to_nat base)). apply Hs. by rewrite Eg. }
  rewrite Ec. bsimp.
  assert (∀ k x, g !! k = Some x -> ctxs !! (Z.to_nat base + k)%nat = Some x) as Hs'.
  { intros k x Hk. destruct (ctxs_of_group _ _ (Hs k x Hk)) as (ctxs' & Ec' & _ & H). rewrite Ec in Ec'. by injection Ec' as <-. }
  assert (Z.to_nat base + length g <= length ctxs)%nat as Hlen.
  { destruct (lookup_lt_is_Some_2 g (length g - 1)) as [x Hx]; [rewrite Eg; cbn; lia|]. apply Hs', lookup_lt_Some in Hx.
    rewrite Eg in *. cbn [length] in *. lia. }
  rewrite context_descriptions_spec by done. do 2 f_equal. apply list_eq_same_length with (n := length g); [done|..].
  - rewrite length_take, length_drop. lia.
  - intros k x y Hk Hx Hy. apply lookup_take_Some in Hx as [Hx _]. rewrite lookup_drop in Hx. rewrite (Hs' k y Hy) in Hx. by injection Hx.
Qed.

Lemma find_app : is_id (req_apid r) -> empty_id (req_apid r) = false ->
  ∃ x, dlt_daemon_application_find t (req_apid r) (ecuid t) = Some x ∧
    match x with
    | Some ka => ∃ a, live_apps u !! ka = Some a ∧ amap u !! req_apid r = Some a ∧ App.apid a = req_apid r
    | None => amap u !! req_apid r = None
    end.
Proof.
  intros Hi He. destruct Hown as [Hf Hu]. unfold dlt_daemon_application_find. rewrite He, Hf, Hu. bsimp.
  apply application_find_spec; [|by split]. by destruct (Hd i u Hu).
Qed.
Lemma find_ctx : is_id (req_apid r) -> empty_id (req_apid r) = false -> is_id (req_ctid r) -> empty_id (req_ctid r) = false ->
  ∃ x, dlt_daemon_context_find t (req_apid r) (req_ctid r) (ecuid t) = Some x ∧
    match x with
    | Some k => ∃ c, live_ctxs u !! k = Some c ∧ cmap u !! (req_apid r ++ req_ctid r) = Some c ∧ ctx_key c = req_apid r ++ req_ctid r
    | None => cmap u !! (req_apid r ++ req_ctid r) = None
    end.
Proof.
  intros Hi He Hi' He'. destruct Hown as [Hf Hu]. unfold dlt_daemon_context_find. rewrite He, He', Hf, Hu. bsimp. cbn [orb].
  apply context_find_spec; [|by split..]. by destruct (Hd i u Hu).
Qed.

(** One application with the contexts [cs]. *)
Lemma one_serves s a ka apps base cs :
  empty_id (req_apid r) = false -> req_apid r = App.apid a -> applications u = Some apps -> live_apps u !! ka = Some a ->
  offset_base ka apps = Some base -> sel_app s = Some ka -> sel_napps s = 1 -> sel_nctxs s = zlen cs -> zlen cs < 65536 ->
  (if empty_id (req_ctid r) then
     if App.num_contexts a <=? 0 then Some 0
     else ctxs ← contexts u; context_descriptions (Z.to_nat (App.num_contexts a)) (Z.to_nat base) ctxs
   else match sel_ctx s with None => Some 0 | Some k => ctxs ← contexts u; context_descriptions 1 k ctxs end) = Some (ctx_descs cs) ->
  (∀ p m, put_contexts (length cs) u r s (zlen cs) base 0 (at_ p (length (concat (enc_ctx o <$> cs)) + m)) =
     Some (at_ (p ++ concat (enc_ctx o <$> cs)) m)) ->
  serves s [(a, cs)].
Proof.
  intros He Eid Ea Hk Eb H1 H2 H3 Hcs Hdesc Hput. split; cbn [concat fmap list_fmap fst snd]; rewrite ?app_nil_r; try done.
  - unfold log_info_descriptions. rewrite He, H1, Ea. bsimp. unfold live_apps in Hk. rewrite Ea in Hk.
    apply lookup_take_Some in Hk as [Hk _]. cbn [default from_option id] in Hk. rewrite Hk. bsimp.
    assert (∀ x : option Z, x = Some (ctx_descs cs) ->
      (cs ← x; Some (cs + 2 + desc_len (App.application_description a))) = Some (ctx_descs cs + app_descs [a])) as Hx.
    { intros x ->. bsimp. unfold app_descs. cbn [fmap list_fmap concat]. rewrite app_nil_r, length_enc_desc. f_equal. lia. }
    destruct (empty_id (req_ctid r)); [rewrite Eb; bsimp|]; by apply Hx.
  - intros p m. cbn [length]. rewrite (put_application_at _ _ _ apps ka a _ base); [done|done|done|done|by rewrite He| |done].
    rewrite He, H3, u16_small by lia. done.
Qed.

Lemma app_serves : is_id (req_apid r) -> empty_id (req_apid r) = false -> is_id (req_ctid r) ->
  ∃ s, log_info_select t u r = Some s ∧ serves s (selected u r).
Proof.
  intros Hi He Hi'. unfold log_info_select, selected. rewrite He. destruct (find_app Hi He) as (x & -> & Hx). bsimp. destruct x as [ka|].
  2: { rewrite Hx. eexists. split; [reflexivity|]. split; try done.
       - unfold log_info_descriptions. by rewrite He.
       - intros p m. cbn. by rewrite app_nil_r. }
  destruct Hx as (a & Hk & Em & Eid). rewrite Em. destruct (app_found_array a ka Em Hk) as (apps & Ea & Hka).
  assert (a ∈ live_apps u) as Hin by (by eapply list_elem_of_lookup_2).
  pose proof (ln_counts _ _ Hlink a Hin) as Hn. pose proof (Hcounts a Hin) as Hn'.
  destruct (group_slice apps ka a Ea Hk) as (base & Eb & Hb & Hs). destruct (empty_id (req_ctid r)) eqn:He'.
  - rewrite Ea. bsimp. rewrite Hka. bsimp. eexists. split; [reflexivity|].
    apply (one_serves _ a ka apps base); try done; [by rewrite <-Hn|rewrite He'; by apply group_descs|].
    intros p m. apply put_contexts_at; [done| |done|done]. intros k c Hk'. rewrite Nat.add_0_r. by apply Hs.
  - destruct (find_ctx Hi He Hi' He') as (y & -> & Hy). bsimp. eexists. split; [reflexivity|]. destruct y as [k|].
    + destruct Hy as (c & Hc & -> & Hkey). cbn [option_list]. apply (one_serves _ a ka apps base); try done; cbn [sel_ctx].
      * rewrite He'. destruct (ctxs_of_group k c Hc) as (ctxs & -> & Hl & Hkc). bsimp.
        rewrite context_descriptions_spec by lia. by rewrite (drop_S _ c k Hkc).
      * intros p m. apply (put_found_at _ k); try done. unfold ctx_key in Hkey. symmetry.
        eapply app_inj_1; [|exact Hkey]. rewrite (is_id_length _ Hi).
        by apply is_id_length, (ctx_ids c); eapply list_elem_of_lookup_2.
    + rewrite Hy. cbn [option_list]. apply (one_serves _ a ka apps base); try done; cbn [sel_ctx]; [by rewrite He'|].
      intros p m. cbn. by rewrite app_nil_r.
Qed.

Lemma log_info_payload_spec :
  is_id (req_apid r) -> is_id (req_ctid r) -> (empty_id (req_apid r) = true -> empty_id (req_ctid r) = true) ->
  3 <= o <= 7 -> zlen (live_apps u) < 65536 -> zlen (log_info o (selected u r)) <= INT32_MAX ->
  log_info_payload t u r = Some (log_info o (selected u r)).
Proof.
  intros Hi Hi' Hr Ho Hn Hl.
  assert (∃ s, log_info_select t u r = Some s ∧ serves s (selected u r)) as (s & Es & Hs).
  { destruct (empty_id (req_apid r)) eqn:He; [apply all_serves; auto|by apply app_serves]. }
  apply (payload_of_selection s); try done; [by apply selected_wf|].
  unfold selected. destruct (empty_id (req_apid r)); [by rewrite length_fmap|]. destruct (amap u !! _); cbn; lia.
Qed.
End writing.

(** Applications that count their contexts in the maps count them in the arrays. *)
Lemma table_count (P : Ctx.DltDaemonContext -> Prop) `{!∀ c, Decision (P c)} l :
  NoDup (ctx_key <$> l) -> size (filter (λ kv, P kv.2) (table ctx_key l)) = length (filter P l).
Proof.
  induction l as [|c l IH]; intros Hn; [done|]. rewrite fmap_cons in Hn. apply list.NoDup_cons in Hn as [Hc Hn].
  rewrite table_cons, filter_cons. apply table_lookup_None in Hc. case_decide as HP.
  - rewrite map_filter_insert_True by done. rewrite map_size_insert_None; [cbn; by rewrite IH|].
    apply map_lookup_filter_None. by left.
  - rewrite map_filter_insert_not' by (done || intros y Hy; by rewrite Hc in Hy). by apply IH.
Qed.
Lemma counted_linked u :
  apps_inv u -> ctxs_inv u -> counted (amap u) (cmap u) -> (∀ c, c ∈ live_ctxs u -> ∃ a, a ∈ live_apps u ∧ App.apid a = Ctx.apid c) ->
  linked (live_apps u) (live_ctxs u).
Proof.
  intros Ha Hc Hcnt Ho. split; [|done]. intros a Hin. pose proof (sorted_NoDup _ _ (ai_sorted _ Ha)) as Hn.
  rewrite (Hcnt (App.apid a) a); [|by apply table_lookup]. f_equal.
  unfold contexts_of, cmap, group. exact (table_count (λ c, Ctx.apid c = App.apid a) (live_ctxs u) (sorted_NoDup _ _ (ci_sorted _ Hc))).
Qed.

(** A request for the tables of the daemon that fits into a message. *)
Record log_info_asked (d : daemon) (u : DltDaemonRegisteredUsers) (msg : Message.DltMessage) (r : log_info_request) : Prop := {
  la_tables : sound d;
  la_own : ∃ i, own_list (tables d) (ecuid (tables d)) i u;
  la_linked : linked (live_apps u) (live_ctxs u);
  la_counts : ∀ a, a ∈ live_apps u -> App.num_contexts a < 65536;
  la_apps : zlen (live_apps u) < 65536;
  la_msg : ∃ b, Message.databuffer msg = Some b ∧ get_log_info_request b = Some r;
  la_size : 17 <= Message.datasize msg;
  la_options : 3 <= options r <= 7;
  la_apid : is_id (req_apid r);
  la_ctid : is_id (req_ctid r);
  la_both : empty_id (req_apid r) = true -> empty_id (req_ctid r) = true
}.

Lemma get_log_info_payload E send sock msg d u r :
  log_info_asked d u msg r -> let p := log_info (options r) (selected u r) in zlen p <= INT32_MAX ->
  dlt_daemon_control_get_log_info E send sock msg d =
    or_response E send sock DLT_SERVICE_ID_GET_LOG_INFO (control_message E send sock p [0] d).
Proof.
  intros [Hs (i & Hown) Hl Hc Ha (b & Eb & Er) Hsz Ho Hi Hi' Hr] p Hp. unfold dlt_daemon_control_get_log_info. rewrite Eb.
  unfold DltFile.dlt_check_rcv_data_size, sizeof_DltServiceGetLogInfoRequest. rewrite (ltb_false (Message.datasize msg) 17) by lia. cbn [Z.ltb DLT_RETURN_OK Z.compare].
  destruct Hown as [Hf Hu]. rewrite Hf, Hu. bsimp. rewrite Er. bsimp. rewrite !ltb_false by lia. cbn [orb].
  rewrite (log_info_payload_spec _ _ i) by (done || apply Hs). by bsimp.
Qed.

Lemma log_info_answered E send sock msg d u r :
  wf_env E -> heap_ok (heap E) -> log_info_asked d u msg r ->
  let p := log_info (options r) (selected u r) in is_bytes p -> zlen p < 65000 ->
  ∃ sh, zlen sh = 16 ∧ dlt_daemon_control_get_log_info E send sock msg d =
    ('(_, d) ← send sock sh (MessageSpec.headers (control_of E (ecuid (tables d)) DLT_MSIN_CONTROL_RESPONSE 1
                               DLT_DAEMON_CTRL_APID DLT_DAEMON_CTRL_CTID p)) (Some p) d; Some d).
Proof.
  intros WE HM Hr p Bp Lp. rewrite (get_log_info_payload E send sock msg d u r Hr) by (fold p; unfold INT32_MAX; lia). fold p.
  destruct (la_tables _ _ _ _ Hr) as [_ He Hb].
  destruct (control_message_sends E send sock p [0] DLT_DAEMON_CTRL_APID d WE He Hb) as [[Em _]|(sh & Lsh & ->)];
    [by left|done|done|by apply HM in Em|].
  exists sh. split; [done|]. unfold or_response. destruct (send _ _ _ _ _) as [[rc d']|]; by bsimp.
Qed.

(** C20: "Get log info" answers with the registered applications and contexts: the
    response lists each selected application with its contexts in the order of the
    tables, with levels and descriptions as the options ask.  The size that is
    computed before is the size of what is written, so the buffer is never left.
    The request has an option of 3 to 7 and does not name a context without its
    application ([log_info_context_only]), and the list has fewer than 65000 bytes
    ([log_info_too_long_unanswered]). *)
Theorem log_info_lists_tables E send sock msg d u r :
  wf_env E -> heap_ok (heap E) -> log_info_asked d u msg r ->
  let p := log_info (options r) (selected u r) in is_bytes p -> zlen p < 65000 ->
  ∃ sh, zlen sh = 16 ∧ dlt_daemon_control_get_log_info E send sock msg d =
    ('(_, d) ← send sock sh (MessageSpec.headers (control_of E (ecuid (tables d)) DLT_MSIN_CONTROL_RESPONSE 1
                               DLT_DAEMON_CTRL_APID DLT_DAEMON_CTRL_CTID p)) (Some p) d; Some d).
Proof. apply log_info_answered. Qed.

(** When the tables do not fit into one message the client gets no answer at
    all, not even an error: the response is built and thrown away. *)
Theorem log_info_too_long_unanswered E send sock msg d u r :
  wf_env E -> heap_ok (heap E) -> log_info_asked d u msg r ->
  65513 < zlen (log_info (options r) (selected u r)) <= 2147483600 ->
  dlt_daemon_control_get_log_info E send sock msg d = Some d.
Proof.
  intros WE HM Hr Hl. rewrite (get_log_info_payload E send sock msg d u r Hr) by (unfold INT32_MAX; lia).
  destruct (la_tables _ _ _ _ Hr) as [_ He Hb]. rewrite control_message_too_long by done.
  destruct (malloc _ _) eqn:Em; [by bsimp|by apply HM in Em].
Qed.

(** ** Examples *)

(** A request message with the payload [b]. *)
Definition request (b : bytes) : Message.DltMessage :=
  Message.set_databuffer (Message.set_sizes MessageSpec.fresh 0 (zlen b)) (Some b) (zlen b).
Definition ask (o : Z) (apid ctid : bytes) : bytes := le_bytes 4 3 ++ [o] ++ apid ++ ctid ++ [0; 0; 0; 0].
Definition no_id : bytes := [0; 0; 0; 0].

Lemma sample_linked desc : linked (live_apps (control_list_with desc)) (live_ctxs (control_list_with desc)).
Proof.
  split.
  - intros a Ha. change (live_apps _) with (sample_apps desc) in Ha.
    repeat (apply elem_of_cons in Ha as [->|Ha]; [reflexivity|]). by apply elem_of_nil in Ha.
  - intros c Hc. change (live_ctxs _) with sample_ctxs in Hc. change (live_apps _) with (sample_apps desc).
    repeat (apply elem_of_cons in Hc as [->|Hc];
      [(by eexists; split; [left|reflexivity]) || (by eexists; split; [right; left|reflexivity])|]). by apply elem_of_nil in Hc.
Qed.
Lemma sample_asked desc o' : log_info_asked (control_daemon_with desc o') (control_list_with desc) (request (ask 7 no_id no_id))
  {| options := 7; req_apid := no_id; req_ctid := no_id |}.
Proof.
  split; try done.
  - apply control_daemon_sound.
  - by exists 0%nat.
  - apply sample_linked.
  - intros a Ha. change (live_apps _) with (sample_apps desc) in Ha.
    repeat (apply elem_of_cons in Ha as [->|Ha]; [done|]). by apply elem_of_nil in Ha.
  - by eexists.
Qed.

(** The response for all applications with everything. *)
Example sample_log_info : log_info_payload control_tables control_list {| options := 7; req_apid := no_id; req_ctid := no_id |} =
  Some ([3; 0; 0; 0; 7; 2; 0]
    ++ id_APP1 ++ [2; 0] ++ id_CON1 ++ [255; 0; 1; 0; 65] ++ id_CON2 ++ [4; 0; 0; 0] ++ [3; 0; 111; 110; 101]
    ++ id_APP2 ++ [1; 0] ++ id_CON1 ++ [4; 0; 0; 0] ++ [0; 0] ++ remo).
Proof. vm_compute. reflexivity. Qed.

(** A context without its application: the first application announces two
    contexts and lists one, so what follows cannot be read. *)
Example log_info_context_only :
  log_info_payload control_tables control_list {| options := 3; req_apid := no_id; req_ctid := id_CON1 |} =
  Some ([3; 0; 0; 0; 3; 2; 0] ++ id_APP1 ++ [2; 0] ++ id_CON1 ++ id_APP2 ++ [1; 0] ++ id_CON1 ++ remo ++ [0; 0; 0; 0]).
Proof. vm_compute. reflexivity. Qed.

Lemma log_info_lists_tables_witness :
  ∃ sh, zlen sh = 16 ∧
    dlt_daemon_control_get_log_info env0 (dlt_daemon_client_send 1 env0) 5 (request (ask 7 no_id no_id)) (control_daemon (os0 (λ _, WriteAll))) =
    ('(_, d) ← dlt_daemon_client_send 1 env0 5 sh (MessageSpec.headers (control_of env0 id_ECU1 DLT_MSIN_CONTROL_RESPONSE 1
        DLT_DAEMON_CTRL_APID DLT_DAEMON_CTRL_CTID (log_info 7 (selected control_list {| options := 7; req_apid := no_id; req_ctid := no_id |}))))
      (Some (log_info 7 (selected control_list {| options := 7; req_apid := no_id; req_ctid := no_id |}))) (control_daemon (os0 (λ _, WriteAll)));
     Some d).
Proof.
  apply (log_info_lists_tables env0 (dlt_daemon_client_send 1 env0) 5 (request (ask 7 no_id no_id)) (control_daemon (os0 (λ _, WriteAll)))
    control_list {| options := 7; req_apid := no_id; req_ctid := no_id |}).
  - exact wf_daemon_env0.
  - intros n. done.
  - apply sample_asked.
  - apply is_bytes_forallb. vm_compute. reflexivity.
  - vm_compute. reflexivity.
Defined.

Definition long_text : bytes := replicate (Z.to_nat 65500) 65.
Lemma log_info_too_long_unanswered_witness :
  dlt_daemon_control_get_log_info env0 (dlt_daemon_client_send 1 env0) 5 (request (ask 7 no_id no_id))
    (control_daemon_with (Some long_text) (os0 (λ _, WriteAll))) =
  Some (control_daemon_with (Some long_text) (os0 (λ _, WriteAll))).
Proof.
  apply (log_info_too_long_unanswered env0 (dlt_daemon_client_send 1 env0) 5 (request (ask 7 no_id no_id))
    (control_daemon_with (Some long_text) (os0 (λ _, WriteAll))) (control_list_with (Some long_text))
    {| options := 7; req_apid := no_id; req_ctid := no_id |}).
  - exact wf_daemon_env0.
  - intros n. done.
  - apply sample_asked.
  - vm_compute. split; congruence.
Defined.

End DaemonLogInfoSpec.
