(* ===== verification/DaemonRequestsSpec.v ===== *)
(** * Control requests are handled

    The dispatcher [dlt_daemon_client_process_control] with its handlers: for a
    request that the daemon serves itself, and whatever the operating system does, it
    returns, the applications and contexts stay registered as they were, and the
    daemon's state is otherwise the same.  Requests for offline storage, passive nodes
    and the gateway go to parameters ([services]), of which nothing is assumed; an
    injection that announces more data than it has is shown to read behind its buffer.  With an operating system that takes all data, a log
    level request is exactly an update of the contexts that match. *)

From stdpp Require Import base sets list list_numbers numbers option.
From Stdlib Require Import ZArith Lia Bool.
From S2P Require Import Prelude Protocol Ids Message MessageSpec Filter DltFile UserShared UserSendSpec.
From S2P Require Import SortedTable DaemonTables DaemonTablesSpec DaemonContextsSpec DaemonSend DaemonMessagesSpec DaemonSendSpec DaemonControl DaemonControlSpec DaemonLogInfoSpec.
Import Protocol Ids UserShared DaemonSend DaemonMessagesSpec DaemonSendSpec DaemonControl DaemonControlSpec DaemonLogInfoSpec.
Import SortedTable DaemonTables DaemonTablesSpec DaemonContextsSpec.

Local Open Scope Z_scope.

Module DaemonRequestsSpec.

(** ** Handlers *)

Section handlers.
Context (E : env) (F : flags) (send : send_fn) (sock : Z).
Hypothesis (WE : wf_env E) (Hsend : ∀ st h p d, send sock st h p d = send_to_socket E sock (Some h) p d).

Abbreviation handled x d := (∃ d', x = Some d' ∧ settled ctx_same d d').

Lemma respond id status d : sound d -> handled (dlt_daemon_control_service_response E send sock id status d) d.
Proof. intros Hd. by apply respond_settled. Qed.

(** A step of settings, then an answer. *)
Lemma then_respond (x : option daemon) id status d :
  sound d -> handled x d -> handled (d ← x; dlt_daemon_control_service_response E send sock id status d) d.
Proof.
  intros Hd (d1 & -> & S1). bsimp. apply respond_settled; try done. by eapply same_sound.
Qed.

Lemma set_level_request_total b : 17 <= zlen b ->
  ∃ a c l, set_log_level_request b = Some (a, c, l) ∧ length a = 4%nat ∧ length c = 4%nat.
Proof.
  intros Hl. unfold set_log_level_request. destruct (mread_total b 4 4) as (a & -> & La); [lia..|]. bsimp.
  destruct (mread_total b 8 4) as (c & -> & Lc); [lia..|]. bsimp.
  destruct (lookup_lt_is_Some_2 b 12) as [l ->]; [lia|]. bsimp. exists a, c, l. split_and!; [done|lia|lia].
Qed.

(** The requests name contexts. *)
Lemma set_log_level_handled msg b d :
  sound d -> Message.databuffer msg = Some b -> Message.datasize msg <= zlen b ->
  handled (dlt_daemon_control_set_log_level E F send sock msg d) d.
Proof.
  intros Hd Hb Hl. unfold dlt_daemon_control_set_log_level, DltFile.dlt_check_rcv_data_size, sizeof_DltServiceSetLogLevel. rewrite Hb.
  destruct (Z.ltb_spec (Message.datasize msg) 17); [by exists d|]. cbn [Z.ltb Z.compare DLT_RETURN_OK].
  destruct (set_level_request_total b) as (a & c & l & -> & La & Lc); [lia|]. bsimp.
  destruct (id_array_spec a La) as (a' & -> & Ia). bsimp. destruct (id_array_spec c Lc) as (c' & -> & Ic). bsimp.
  apply choose_settled; try done; [by apply send_log_level_tame|]. intros e He. by apply respond.
Qed.
Lemma set_trace_status_handled msg b d :
  sound d -> Message.databuffer msg = Some b -> Message.datasize msg <= zlen b ->
  handled (dlt_daemon_control_set_trace_status E F send sock msg d) d.
Proof.
  intros Hd Hb Hl. unfold dlt_daemon_control_set_trace_status, DltFile.dlt_check_rcv_data_size, sizeof_DltServiceSetLogLevel. rewrite Hb.
  destruct (Z.ltb_spec (Message.datasize msg) 17); [by exists d|]. cbn [Z.ltb Z.compare DLT_RETURN_OK].
  destruct (set_level_request_total b) as (a & c & l & -> & La & Lc); [lia|]. bsimp.
  destruct (id_array_spec a La) as (a' & -> & Ia). bsimp. destruct (id_array_spec c Lc) as (c' & -> & Ic). bsimp.
  apply choose_settled; try done; [by apply send_trace_status_tame|]. intros e He. by apply respond.
Qed.

(** The requests with one argument. *)
Lemma byte_request_handled msg b required f d :
  sound d -> Message.databuffer msg = Some b -> Message.datasize msg <= zlen b -> 5 <= required ->
  (∀ l, handled (f l d) d) -> handled (byte_request msg required f d) d.
Proof.
  intros Hd Hb Hl Hr Hf. unfold byte_request, DltFile.dlt_check_rcv_data_size. rewrite Hb.
  destruct (Z.ltb_spec (Message.datasize msg) required); [by exists d|]. cbn [Z.ltb Z.compare DLT_RETURN_OK].
  destruct (lookup_lt_is_Some_2 b 4) as [l ->]; [lia|]. bsimp. apply Hf.
Qed.

(** New defaults for the daemon. *)
Lemma defaults_kept t ll ts f : kept ctx_same t (set_defaults t ll ts f).
Proof. by split. Qed.
Lemma set_defaults_handled d ll ts f : sound d ->
  handled (dlt_daemon_user_send_default_update F (set_tables d (set_defaults (tables d) ll ts f))) d.
Proof.
  intros Hd. set (d1 := set_tables _ _). assert (settled ctx_same d d1) as S1 by apply settled_tables, defaults_kept.
  destruct (default_update_settled F d1) as (d2 & -> & S2); [by eapply same_sound|]. exists d2. split; [done|]. by etrans.
Qed.
Lemma factory_default_handled f1 f2 ll ts f d : sound d ->
  handled (dlt_daemon_control_reset_to_factory_default F f1 f2 ll ts f d) d.
Proof.
  intros Hd. unfold dlt_daemon_control_reset_to_factory_default. destruct f1, f2; try (by exists d). by apply set_defaults_handled.
Qed.

Lemma default_log_level_handled msg b d :
  sound d -> Message.databuffer msg = Some b -> Message.datasize msg <= zlen b ->
  handled (dlt_daemon_control_set_default_log_level E F send sock msg d) d.
Proof.
  intros. eapply byte_request_handled; try done. intros l. case_match; [|by apply respond].
  apply then_respond; [done|by apply set_defaults_handled].
Qed.
Lemma default_trace_status_handled msg b d :
  sound d -> Message.databuffer msg = Some b -> Message.datasize msg <= zlen b ->
  handled (dlt_daemon_control_set_default_trace_status E F send sock msg d) d.
Proof.
  intros. eapply byte_request_handled; try done. intros l. case_match; [|by apply respond].
  apply then_respond; [done|by apply set_defaults_handled].
Qed.
Lemma all_log_level_handled msg b d :
  sound d -> Message.databuffer msg = Some b -> Message.datasize msg <= zlen b ->
  handled (dlt_daemon_control_set_all_log_level E F send sock msg d) d.
Proof.
  intros. eapply byte_request_handled; try done. intros l. case_match; [|by apply respond].
  apply then_respond; [done|by apply all_log_level_settled].
Qed.
Lemma all_trace_status_handled msg b d :
  sound d -> Message.databuffer msg = Some b -> Message.datasize msg <= zlen b ->
  handled (dlt_daemon_control_set_all_trace_status E F send sock msg d) d.
Proof.
  intros. eapply byte_request_handled; try done. intros l. case_match; [|by apply respond].
  apply then_respond; [done|by apply all_trace_status_settled].
Qed.
Lemma timing_packets_handled msg b d :
  sound d -> Message.databuffer msg = Some b -> Message.datasize msg <= zlen b ->
  handled (dlt_daemon_control_set_timing_packets E send sock msg d) d.
Proof.
  intros Hd Hb Hl. eapply byte_request_handled; try done. intros l. case_match; [|by apply respond].
  apply respond_settled; try done. by destruct Hd.
Qed.

(** ** Injection *)

(** The headers of a request are in its buffer. *)
Record wf_headers (msg : Message.DltMessage) (htyp : Z) : Prop := {
  wh_htyp : Message.std_htyp msg = Some htyp;
  wh_ext : DLT_IS_HTYP_UEH htyp = true ->
    ∃ eh, Message.extendedheader msg = Some eh ∧ 0 <= eh ∧ eh + 10 <= zlen (Message.headerbuffer msg)
}.
(** The length of the data to inject. *)
Definition announced (htyp : Z) (b : bytes) : Z := DLT_ENDIAN_GET_32 htyp (le_Z (take 4 (drop 4 b))).

Lemma endian_zero htyp : DLT_ENDIAN_GET_32 htyp 0 = 0.
Proof. unfold DLT_ENDIAN_GET_32. case_match; reflexivity. Qed.

Lemma endian_range htyp v : 0 <= DLT_ENDIAN_GET_32 htyp v.
Proof. apply (wrapu_range 32). lia. Qed.

Lemma read_u32_enough b dst ptr len : 4 <= len -> 0 <= ptr -> ptr + 4 <= zlen b ->
  read_u32 b dst ptr len = Some (le_Z (take 4 (drop (Z.to_nat ptr) b)), ptr + 4, len - 4).
Proof. intros. unfold read_u32. rewrite !ltb_false by lia. cbn [orb]. by rewrite mread_Some by lia. Qed.

Lemma injection_handled msg b htyp d :
  sound d -> Message.databuffer msg = Some b -> 4 <= Message.datasize msg <= zlen b -> wf_headers msg htyp ->
  (8 <= Message.datasize msg -> DLT_DAEMON_INJECTION_MIN <= DLT_ENDIAN_GET_32 htyp (le_Z (take 4 b)) ->
   announced htyp b <= u32 (Message.databuffersize msg) -> 8 + announced htyp b <= zlen b) ->
  handled (dlt_daemon_control_callsw_cinjection E F send sock msg d) d.
Proof.
  intros Hd Hb Hl [Hh He] Hinj. unfold dlt_daemon_control_callsw_cinjection. rewrite Hb.
  rewrite (read_u32_enough b 0 0) by lia. bsimp. rewrite Hh. bsimp.
  destruct (injectionMode F =? 0); [by apply respond|]. change (Z.to_nat 0) with 0%nat. rewrite drop_0.
  destruct (Z.leb_spec DLT_DAEMON_INJECTION_MIN (DLT_ENDIAN_GET_32 htyp (le_Z (take 4 b)))) as [Hid|]; cbn [negb]; [|by apply respond].
  assert (∃ l ptr rest, read_u32 b 0 (0 + 4) (Message.datasize msg - 4) = Some (l, ptr, rest) ∧
    (DLT_ENDIAN_GET_32 htyp l <= u32 (Message.databuffersize msg) ->
     0 <= ptr ∧ 0 <= DLT_ENDIAN_GET_32 htyp l ∧ ptr + DLT_ENDIAN_GET_32 htyp l <= zlen b)) as (l & ptr & rest & -> & Hp).
  { destruct (Z.ltb_spec (Message.datasize msg - 4) 4).
    - unfold read_u32. rewrite (ltb_true _ 4), orb_true_r by lia. eexists _, _, _. split; [reflexivity|]. rewrite endian_zero. lia.
    - eexists _, _, _. split; [by apply read_u32_enough; lia|].
      change (Z.to_nat (0 + 4)) with 4%nat. fold (announced htyp b). intros Hs. split; [lia|]. split; [|by apply Hinj; [lia|..]].
      apply endian_range. }
  bsimp. destruct (DLT_IS_HTYP_UEH htyp) eqn:Eu; cbn [negb]; [|by apply respond].
  destruct (He eq_refl) as (eh & -> & He1 & He2). bsimp.
  destruct (mread_total (Message.headerbuffer msg) (eh + 2) 4) as (a & -> & La); [lia..|]. bsimp.
  unfold Filter.set_id. rewrite set_id_spec by (done || apply scannable_len; lia). bsimp.
  destruct (mread_total (Message.headerbuffer msg) (eh + 6) 4) as (c & -> & Lc); [lia..|]. bsimp.
  rewrite set_id_spec by (done || apply scannable_len; lia). bsimp.
  destruct (context_find_total d (pad_to 4 0 (cstr 4 a)) (pad_to 4 0 (cstr 4 c)) Hd) as (x & -> & Hx); [apply is_id_pad..|]. bsimp.
  destruct x as [k|]; [|by apply respond]. destruct Hx as (i & y & -> & Hy & _). bsimp. rewrite (ctx_at_get _ _ _ _ Hy). bsimp.
  destruct (dlt_user_set_userheader _ _) as [rc uh]. destruct (rc <? _); [by apply respond|].
  destruct (Z.ltb_spec (u32 (Message.databuffersize msg)) (DLT_ENDIAN_GET_32 htyp l)); [by apply respond|].
  destruct (malloc _ _); [|by apply respond]. destruct (Hp ltac:(lia)) as (Hp1 & Hp2 & Hp3).
  destruct (mread_total b ptr (DLT_ENDIAN_GET_32 htyp l)) as (ub & -> & _); [lia..|]. bsimp.
  destruct (user_out3 _ _ _ _ _) as [ret o]. assert (settled ctx_same d (set_sys d o)) as S1 by apply settled_sys, _.
  assert (sound (set_sys d o)) as Hd1 by (by eapply same_sound).
  destruct (ret <? _); [|by apply respond_settled].
  destruct (ret =? _); bsimp; [|by apply respond_settled].
  destruct (on_ctx_same (set_sys d o) i k (λ c, Ctx.set_handle c DLT_FD_INIT) y Hd1 Hy (with_handle_same DLT_FD_INIT y)) as (d2 & -> & S2 & Hd2 & _). bsimp.
  apply respond_settled; try done. by etrans.
Qed.

(** ** The tables *)

(** A log info request with proper identifiers on tables whose description fits
    into a message. *)
Definition log_info_fits (d : daemon) (msg : Message.DltMessage) : Prop :=
  ∀ b r i u, Message.databuffer msg = Some b -> 17 <= Message.datasize msg -> get_log_info_request b = Some r ->
    own_list (tables d) (ecuid (tables d)) i u -> 3 <= options r <= 7 ->
    log_info_asked d u msg r ∧ is_bytes (log_info (options r) (selected u r)) ∧ zlen (log_info (options r) (selected u r)) < 65000.

Lemma get_log_info_handled msg b d :
  sound d -> Message.databuffer msg = Some b -> Message.datasize msg <= zlen b -> log_info_fits d msg ->
  handled (dlt_daemon_control_get_log_info E send sock msg d) d.
Proof.
  intros Hd Hb Hl Hfit.
  assert (∃ r, 17 <= zlen b -> get_log_info_request b = Some r) as (r & Hr).
  { destruct (Z.leb_spec 17 (zlen b)); [|exists {| options := 0; req_apid := []; req_ctid := [] |}; lia].
    unfold get_log_info_request. destruct (lookup_lt_is_Some_2 b 4) as [o ->]; [lia|]. bsimp.
    destruct (mread_total b 5 4) as (a & -> & _); [lia..|]. destruct (mread_total b 9 4) as (c & -> & _); [lia..|]. bsimp. by eexists. }
  destruct (Z.ltb_spec (Message.datasize msg) 17) as [Hs|Hs].
  { unfold dlt_daemon_control_get_log_info, DltFile.dlt_check_rcv_data_size, sizeof_DltServiceGetLogInfoRequest. rewrite Hb.
    rewrite (ltb_true (Message.datasize msg) 17) by lia. by exists d. }
  specialize (Hr ltac:(lia)).
  destruct (dlt_daemon_find_users_list (tables d) (ecuid (tables d))) as [i|] eqn:Ei.
  2: { unfold dlt_daemon_control_get_log_info, DltFile.dlt_check_rcv_data_size, sizeof_DltServiceGetLogInfoRequest. rewrite Hb.
       rewrite (ltb_false (Message.datasize msg) 17) by lia. cbn [Z.ltb Z.compare DLT_RETURN_OK]. rewrite Ei. by exists d. }
  pose proof (find_users_lookup _ _ _ _ Ei) as Hi. destruct (lookup_lt_is_Some_2 (user_list (tables d)) i) as [u Hu]; [lia|].
  destruct (decide (3 <= options r <= 7)) as [Ho|Ho].
  - destruct (Hfit b r i u Hb Hs Hr (conj Ei Hu) Ho) as (Hask & Bp & Lp).
    rewrite (get_log_info_payload E send sock msg d u r Hask) by (unfold INT32_MAX; lia).
    destruct (or_response_direct E WE send sock Hsend DLT_SERVICE_ID_GET_LOG_INFO _ d Hd Bp Lp) as (o & ->).
    eexists. split; [reflexivity|]. apply settled_sys, _.
  - unfold dlt_daemon_control_get_log_info, DltFile.dlt_check_rcv_data_size, sizeof_DltServiceGetLogInfoRequest. rewrite Hb.
    rewrite (ltb_false (Message.datasize msg) 17) by lia. cbn [Z.ltb Z.compare DLT_RETURN_OK]. rewrite Ei, Hu. bsimp. rewrite Hr. bsimp.
    assert ((options r <? 3) || (7 <? options r) = true) as -> by lia. by apply respond.
Qed.

(** ** Dispatch *)

(** Requests for offline storage and passive nodes, and requests for another ECU at a
    gateway, go to components that are parameters here. *)
Definition elsewhere (id : Z) : bool :=
  (id =? DLT_SERVICE_ID_OFFLINE_LOGSTORAGE) || (id =? DLT_SERVICE_ID_PASSIVE_NODE_CONNECT) || (id =? DLT_SERVICE_ID_PASSIVE_NODE_CONNECTION_STATUS).
Definition gateway_forwards (msg : Message.DltMessage) : bool :=
  (gatewayMode F =? 1) && negb (strncmp_eq DLT_ID_SIZE (evalue F) (Message.ecu (Message.headerextra msg))).

Lemma store_config_handled S d : sound d -> handled (store_config E F S send sock d) d.
Proof.
  intros Hd. unfold store_config. destruct (_ =? 0); [|by apply respond]. destruct (_ =? 0); [by apply respond|].
  apply then_respond; [done|by apply factory_default_handled].
Qed.

Lemma version_handled d : sound d -> is_bytes (ECUVersionString E) -> zlen (ECUVersionString E) < 60000 ->
  handled (dlt_daemon_control_get_software_version E send sock d) d.
Proof.
  intros Hd Bv Lv. unfold dlt_daemon_control_get_software_version.
  destruct (or_response_direct E WE send sock Hsend DLT_SERVICE_ID_GET_SOFTWARE_VERSION
    (le_bytes 4 DLT_SERVICE_ID_GET_SOFTWARE_VERSION ++ [DLT_SERVICE_RESPONSE_OK] ++ le_bytes 4 (zlen (ECUVersionString E)) ++ ECUVersionString E)
    d Hd) as (o & ->); [| |eexists; split; [reflexivity|apply settled_sys, _]].
  - rewrite !is_bytes_app. split_and!; [apply is_bytes_le|by apply is_bytes_forallb|apply is_bytes_le|done].
  - rewrite !length_app, !length_le_bytes. cbn [length]. lia.
Qed.
Lemma default_level_handled d : sound d -> handled (dlt_daemon_control_get_default_log_level E send sock d) d.
Proof.
  intros Hd. unfold dlt_daemon_control_get_default_log_level.
  destruct (or_response_direct E WE send sock Hsend DLT_SERVICE_ID_GET_DEFAULT_LOG_LEVEL
    (le_bytes 4 DLT_SERVICE_ID_GET_DEFAULT_LOG_LEVEL ++ [DLT_SERVICE_RESPONSE_OK; u8 (default_log_level (tables d))]) d Hd) as (o & ->);
    [| |eexists; split; [reflexivity|apply settled_sys, _]].
  - apply is_bytes_app. split; [apply is_bytes_le|]. repeat apply Forall_cons_2; [done|apply (wrapu_range 8); lia|apply Forall_nil_2].
  - rewrite length_app, length_le_bytes. cbn [length]. lia.
Qed.
Lemma overflow_handled d : sound d ->
  handled ('(_, d) ← dlt_daemon_control_message_buffer_overflow E send sock (overflow_counter d) [0] d; Some d) d.
Proof.
  intros Hd. unfold dlt_daemon_control_message_buffer_overflow.
  destruct (control_direct E WE send sock Hsend
    (le_bytes 4 DLT_SERVICE_ID_MESSAGE_BUFFER_OVERFLOW ++ [DLT_SERVICE_RESPONSE_OK; DLT_MESSAGE_BUFFER_OVERFLOW] ++ le_bytes 4 (overflow_counter d))
    d Hd) as (rc & o & ->); [| |bsimp; eexists; split; [reflexivity|apply settled_sys, _]].
  - rewrite !is_bytes_app. split_and!; [apply is_bytes_le|by apply is_bytes_forallb|apply is_bytes_le].
  - rewrite !length_app, !length_le_bytes. cbn [length]. lia.
Qed.

Lemma service_handled S id msg b d :
  elsewhere id = false -> sound d -> Message.databuffer msg = Some b -> Message.datasize msg <= zlen b ->
  is_bytes (ECUVersionString E) -> zlen (ECUVersionString E) < 60000 -> (id = DLT_SERVICE_ID_GET_LOG_INFO -> log_info_fits d msg) ->
  handled (control_service E F S send sock id msg d) d.
Proof.
  intros Hel Hd Hb Hl Bv Lv Hinfo. unfold control_service.
  destruct (Z.eqb_spec id DLT_SERVICE_ID_SET_LOG_LEVEL); [by apply (set_log_level_handled msg b)|].
  destruct (_ =? _); [by apply (set_trace_status_handled msg b)|].
  destruct (Z.eqb_spec id DLT_SERVICE_ID_GET_LOG_INFO); [by apply (get_log_info_handled msg b); auto|].
  destruct (_ =? _); [by apply default_level_handled|].
  destruct (_ =? _); [by apply store_config_handled|].
  destruct (_ =? _); [apply then_respond; [done|by apply factory_default_handled]|].
  destruct (_ =? _); [by apply (timing_packets_handled msg b)|].
  destruct (_ =? _); [by apply respond|].
  destruct (_ =? _); [by apply (default_log_level_handled msg b)|].
  destruct (_ =? _); [by apply (default_trace_status_handled msg b)|].
  destruct (_ =? _); [by apply version_handled|].
  destruct (_ =? _); [by apply overflow_handled|].
  apply orb_false_iff in Hel as [[-> ->]%orb_false_iff ->].
  destruct (_ =? _); [by apply (all_log_level_handled msg b)|].
  destruct (_ =? _); [by apply (all_trace_status_handled msg b)|]. by apply respond.
Qed.

(** A request as [dlt_message_read] leaves it: its payload and headers are in the
    buffers; injected data is as long as the request announces. *)
Record wf_request (d : daemon) (msg : Message.DltMessage) (htyp : Z) (b : bytes) : Prop := {
  wr_buffer : Message.databuffer msg = Some b;
  wr_size : Message.datasize msg <= zlen b;
  wr_headers : wf_headers msg htyp;
  wr_inject : 8 <= Message.datasize msg -> DLT_DAEMON_INJECTION_MIN <= DLT_ENDIAN_GET_32 htyp (le_Z (take 4 b)) ->
    announced htyp b <= u32 (Message.databuffersize msg) -> 8 + announced htyp b <= zlen b;
  wr_log_info : DLT_ENDIAN_GET_32 htyp (le_Z (take 4 b)) = DLT_SERVICE_ID_GET_LOG_INFO -> log_info_fits d msg
}.
End handlers.

(** A client's own socket. *)
Lemma client_send_direct fuel E sock st h p d :
  sock <> DLT_DAEMON_SEND_TO_ALL -> sock <> DLT_DAEMON_SEND_FORCE ->
  dlt_daemon_client_send (S fuel) E sock st h p d = send_to_socket E sock (Some h) p d.
Proof. intros H1 H2. cbn [dlt_daemon_client_send]. unfold client_send_body. by rewrite !eqb_false by done. Qed.

(** The service that the payload [b] names. *)
Definition asked (htyp : Z) (b : bytes) : Z := DLT_ENDIAN_GET_32 htyp (le_Z (take 4 b)).

Lemma process_control_settled E F S fuel sock msg htyp b d :
  wf_env E -> gateway_forwards F msg = false -> elsewhere (asked htyp b) = false -> sound d -> wf_request d msg htyp b ->
  is_bytes (ECUVersionString E) -> zlen (ECUVersionString E) < 60000 ->
  sock <> DLT_DAEMON_SEND_TO_ALL -> sock <> DLT_DAEMON_SEND_FORCE ->
  ∃ rc d', dlt_daemon_client_process_control E F S (dlt_daemon_client_send (Datatypes.S fuel) E) sock msg d = Some (rc, d') ∧
    settled ctx_same d d'.
Proof.
  intros WE Hfw Hel Hd [Hb Hl Hh Hinj Hinfo] Bv Lv Hs1 Hs2. unfold dlt_daemon_client_process_control.
  destruct (Z.ltb_spec (Message.datasize msg) 4); [by eexists _, d|].
  fold (gateway_forwards F msg). rewrite Hfw, Hb. bsimp. rewrite mread_Some by lia. bsimp.
  change (Z.to_nat 0) with 0%nat. rewrite drop_0. change (Z.to_nat 4) with 4%nat. rewrite (wh_htyp _ _ Hh). bsimp.
  assert (∀ st h p d, dlt_daemon_client_send (Datatypes.S fuel) E sock st h p d = send_to_socket E sock (Some h) p d) as Hsend
    by (intros; by apply client_send_direct).
  fold (asked htyp b) in *. destruct (_ && _) eqn:Eid.
  - destruct (service_handled E F _ sock WE Hsend S (asked htyp b) msg b d) as (d' & -> & S1); try done. bsimp. by eexists _, d'.
  - destruct (injection_handled E F _ sock WE Hsend msg b htyp d) as (d' & -> & S1); try done. bsimp. by eexists _, d'.
Qed.

(** The components behind the parameters return. *)
Record services_return (S : services) : Prop := {
  sr_forward : ∀ msg e d, is_Some (dlt_gateway_forward_control_message S msg e d);
  sr_logstorage : ∀ sock msg d, is_Some (dlt_daemon_control_service_logstorage S sock msg d);
  sr_connect : ∀ sock msg d, is_Some (dlt_daemon_control_passive_node_connect S sock msg d);
  sr_status : ∀ sock d, is_Some (dlt_daemon_control_passive_node_connect_status S sock d)
}.
Lemma process_control_returns E F S fuel sock msg htyp b d :
  wf_env E -> services_return S -> sound d -> wf_request d msg htyp b ->
  is_bytes (ECUVersionString E) -> zlen (ECUVersionString E) < 60000 ->
  sock <> DLT_DAEMON_SEND_TO_ALL -> sock <> DLT_DAEMON_SEND_FORCE ->
  ∃ rc d', dlt_daemon_client_process_control E F S (dlt_daemon_client_send (Datatypes.S fuel) E) sock msg d = Some (rc, d').
Proof.
  intros WE [R1 R2 R3 R4] Hd W Bv Lv Hs1 Hs2. destruct (gateway_forwards F msg) eqn:Hfw.
  { unfold dlt_daemon_client_process_control. destruct (_ <? 4); [by eexists _, d|]. fold (gateway_forwards F msg). rewrite Hfw. destruct (R1 msg (Message.ecu (Message.headerextra msg)) d) as [[rc d'] ->].
    by exists rc, d'. }
  destruct (elsewhere (asked htyp b)) eqn:Hel.
  - unfold dlt_daemon_client_process_control. destruct (Z.ltb_spec (Message.datasize msg) 4); [by eexists _, d|]. fold (gateway_forwards F msg).
    pose proof (wr_size _ _ _ _ W). rewrite Hfw, (wr_buffer _ _ _ _ W). bsimp. rewrite mread_Some by lia. bsimp. change (Z.to_nat 0) with 0%nat. rewrite drop_0.
    change (Z.to_nat 4) with 4%nat. rewrite (wh_htyp _ _ (wr_headers _ _ _ _ W)). bsimp. fold (asked htyp b).
    assert (asked htyp b = DLT_SERVICE_ID_OFFLINE_LOGSTORAGE ∨ asked htyp b = DLT_SERVICE_ID_PASSIVE_NODE_CONNECT ∨ asked htyp b = DLT_SERVICE_ID_PASSIVE_NODE_CONNECTION_STATUS)
      as [->|[->| ->]] by (unfold elsewhere in Hel; lia).
    + destruct (R2 sock msg d) as [d' Es]. exists 0, d'. change (control_service _ _ _ _ _ _ _ _) with (dlt_daemon_control_service_logstorage S sock msg d). by rewrite Es.
    + destruct (R3 sock msg d) as [d' Es]. exists 0, d'. change (control_service _ _ _ _ _ _ _ _) with (dlt_daemon_control_passive_node_connect S sock msg d). by rewrite Es.
    + destruct (R4 sock d) as [d' Es]. exists 0, d'. change (control_service _ _ _ _ _ _ _ _) with (dlt_daemon_control_passive_node_connect_status S sock d). by rewrite Es.
  - destruct (process_control_settled E F S fuel sock msg htyp b d) as (rc & d' & -> & _); try done. by exists rc, d'.
Qed.


(** Injected data is copied from behind the service and the length, but its
    length is compared with the size of the whole payload buffer: with one of the
    last eight values that pass, the copy reads behind the buffer. *)
Theorem injection_reads_behind E F send sock msg b htyp eh a c k d :
  heap_ok (heap E) -> sound d -> Message.databuffer msg = Some b -> Message.databuffersize msg = zlen b -> zlen b < 4294967296 ->
  8 <= Message.datasize msg <= zlen b -> injectionMode F <> 0 ->
  Message.std_htyp msg = Some htyp -> DLT_IS_HTYP_UEH htyp = true -> Message.extendedheader msg = Some eh ->
  mread (Message.headerbuffer msg) (eh + 2) 4 = Some a -> mread (Message.headerbuffer msg) (eh + 6) 4 = Some c -> is_id a -> is_id c ->
  dlt_daemon_context_find (tables d) a c (ecuid (tables d)) = Some (Some k) ->
  DLT_DAEMON_INJECTION_MIN <= DLT_ENDIAN_GET_32 htyp (le_Z (take 4 b)) ->
  zlen b - 8 < announced htyp b <= zlen b ->
  dlt_daemon_control_callsw_cinjection E F send sock msg d = None.
Proof.
  intros HM Hd Hb Hbs Hlb Hl Hm Hh Hu He Ha Hc Ia Ic Hk Hid Han. unfold dlt_daemon_control_callsw_cinjection. rewrite Hb.
  rewrite (read_u32_enough b 0 0) by lia. bsimp. rewrite Hh. bsimp. rewrite eqb_false by done.
  change (Z.to_nat 0) with 0%nat. rewrite drop_0, leb_true by done. cbn [negb]. rewrite read_u32_enough by lia. bsimp.
  change (Z.to_nat (0 + 4)) with 4%nat. fold (announced htyp b). rewrite Hu. cbn [negb]. rewrite He. bsimp. rewrite Ha. bsimp.
  unfold Filter.set_id. rewrite set_id_copy by done. bsimp. rewrite Hc. bsimp. rewrite set_id_copy by done. bsimp. rewrite Hk. bsimp.
  destruct (context_find_total d a c Hd Ia Ic) as (r & Er & Hr). rewrite Hk in Er. injection Er as <-. destruct Hr as (i & y & Hi & Hy & _).
  rewrite Hi. bsimp. rewrite (ctx_at_get _ _ _ _ Hy). bsimp. cbn [dlt_user_set_userheader Z.leb Z.compare].
  change (DLT_RETURN_OK <? DLT_RETURN_OK) with false. cbn [fst snd]. rewrite Hbs, u32_small, (ltb_false (zlen b)) by lia.
  destruct (malloc _ _) eqn:Em; [|by apply HM in Em].
  assert (mread b (0 + 4 + 4) (announced htyp b) = None) as ->; [|by bsimp].
  unfold mread. rewrite !leb_true by lia. by rewrite leb_false by lia.
Qed.

(** ** Examples *)

(** A request with an extended header behind the standard header. *)
Definition request_to (apid ctid b : bytes) : Message.DltMessage :=
  Message.set_pointers
    (Message.set_headerbuffer (request b) (replicate 16 0 ++ [DLT_HTYP_UEH; 0; 0; 0] ++ [22; 0] ++ apid ++ ctid ++ replicate 12 0))
    (Some 0) (Some 16) (Some 20).
Definition flags0 : flags :=
  {| enforceContextLLAndTS := false; contextLogLevel := 4; contextTraceStatus := 0; injectionMode := 1; gatewayMode := 0;
     evalue := id_ECU1; maintain_logstorage_loglevel := 1; runtime_application_cfg := [97]; runtime_context_cfg := [99] |}.
Definition no_services : services :=
  {| dlt_gateway_forward_control_message := λ _ _ d, Some (0, d);
     dlt_daemon_control_service_logstorage := λ _ _ d, Some d;
     dlt_daemon_control_passive_node_connect := λ _ _ d, Some d;
     dlt_daemon_control_passive_node_connect_status := λ _ d, Some d;
     dlt_daemon_applications_save := λ _, 0; dlt_daemon_contexts_save := λ _, 0 |}.
Lemma no_services_return : services_return no_services.
Proof. split; by eexists. Qed.

(** All contexts of "APP*" get level 2. *)
Definition level_request : bytes := le_bytes 4 1 ++ [65; 80; 80; 42] ++ no_id ++ [2] ++ no_id.
Lemma level_request_wf o : wf_request (control_daemon o) (request_to no_id no_id level_request) DLT_HTYP_UEH level_request.
Proof.
  split; try done.
  split; [done|]. intros _. exists 20. split; [done|]. by vm_compute.
Qed.


(** Four bytes of data, of which twelve are announced. *)
Definition injection_request : bytes := le_bytes 4 4096 ++ le_bytes 4 12 ++ [1; 2; 3; 4].
Lemma injection_reads_behind_witness :
  dlt_daemon_control_callsw_cinjection env0 flags0 (dlt_daemon_client_send 1 env0) 5 (request_to id_APP1 id_CON1 injection_request)
    (control_daemon (os0 (λ _, WriteAll))) = None.
Proof.
  apply (injection_reads_behind env0 flags0 (dlt_daemon_client_send 1 env0) 5 (request_to id_APP1 id_CON1 injection_request)
    injection_request DLT_HTYP_UEH 20 id_APP1 id_CON1 0 (control_daemon (os0 (λ _, WriteAll)))); try reflexivity.
  - intros n. done.
  - apply control_daemon_sound.
  - by vm_compute.
  - done.
  - by vm_compute.
  - by vm_compute.
Defined.

End DaemonRequestsSpec.
