(* ===== verification/DaemonLevelsSpec.v ===== *)
(** * A log level request is an update of the contexts that match

    A request names contexts by an application, a context, both, or the start of an
    identifier with a star.  The daemon walks through its sorted array and stops
    behind the last application that can match.  With an operating system that
    takes all data, this is a map over the contexts: those that match have the new
    level, their applications were told, and the client has an answer for each. *)

From stdpp Require Import base sets list list_numbers numbers option.
From Stdlib Require Import ZArith Lia Bool.
From S2P Require Import Prelude Protocol Ids Message MessageSpec Filter DltFile UserShared UserSendSpec.
From S2P Require Import SortedTable DaemonTables DaemonTablesSpec DaemonContextsSpec DaemonSend DaemonMessagesSpec DaemonSendSpec DaemonControl DaemonControlSpec DaemonLogInfoSpec DaemonRequestsSpec.
Import Protocol Ids UserShared DaemonSend DaemonMessagesSpec DaemonSendSpec DaemonControl DaemonControlSpec DaemonLogInfoSpec DaemonRequestsSpec.
Import SortedTable DaemonTables DaemonTablesSpec DaemonContextsSpec.

Local Open Scope Z_scope.

Module DaemonLevelsSpec.

(** ** An operating system that takes all data *)

Definition cooperative (o : os) : Prop := (∀ n, script o n = WriteAll) ∧ (∀ n, polls o n = Some true).

Record takes (o o' : os) (l : list (Z * bytes)) : Prop := {
  tk_coop : cooperative o';
  tk_out : out o' = out o ++ l
}.
Lemma takes_trans o1 o2 o3 l l' : takes o1 o2 l -> takes o2 o3 l' -> takes o1 o3 (l ++ l').
Proof. intros [_ H1] [H2 H3]. split; [done|]. by rewrite H3, H1, app_assoc. Qed.
Lemma takes_nil o : cooperative o -> takes o o [].
Proof. split; [done|]. by rewrite app_nil_r. Qed.
Lemma takes_one o e fd d : cooperative o -> takes o (DaemonSend.wrote o e fd d) [(fd, d)].
Proof. done. Qed.

Lemma sendreliable_takes o fd d : cooperative o -> d <> [] ->
  ∃ o', dlt_daemon_socket_sendreliable o fd d = Some (DLT_DAEMON_ERROR_OK, o') ∧ takes o o' [(fd, d)].
Proof.
  intros Ho Hd. unfold dlt_daemon_socket_sendreliable. destruct d as [|x d]; [done|]. cbn [length sendreliable].
  unfold sys_write. rewrite (proj1 Ho). rewrite ltb_false by lia. rewrite Nat2Z.id, drop_ge by done.
  destruct d; cbn [sendreliable length]; (eexists; split; [reflexivity|by apply takes_one]).
Qed.
Lemma serial_takes o fd d : cooperative o ->
  ∃ o', serial_write fd o d = Some (DLT_DAEMON_ERROR_OK, o') ∧ takes o o' [(fd, d)].
Proof.
  intros Ho. unfold serial_write, sys_write. rewrite (proj1 Ho), ltb_false by lia. eexists. split; [reflexivity|by apply takes_one].
Qed.

(** What one answer puts on the wire. *)
Definition wire (E : env) (sock : Z) (h p : bytes) : list (Z * bytes) :=
  (if sendserialheader E then [(sock, Message.dltSerialHeader)] else []) ++ [(sock, h); (sock, p)].

Lemma send_takes E sock h p d : cooperative (sys d) -> h <> [] -> p <> [] ->
  ∃ o, send_to_socket E sock (Some h) (Some p) d = Some (DLT_DAEMON_ERROR_OK, set_sys d o) ∧ takes (sys d) o (wire E sock h p).
Proof.
  intros Ho Hh Hp. unfold send_to_socket, wire.
  assert (∀ f, (∀ o x, cooperative o -> x <> [] -> ∃ o', f o x = Some (DLT_DAEMON_ERROR_OK, o') ∧ takes o o' [(sock, x)]) ->
    ∃ o', (r ← (if sendserialheader E then f (sys d) Message.dltSerialHeader else Some (DLT_RETURN_OK, sys d));
      r ← and_send f (Some h) r; and_send f (Some p) r) = Some (DLT_DAEMON_ERROR_OK, o') ∧
    takes (sys d) o' ((if sendserialheader E then [(sock, Message.dltSerialHeader)] else []) ++ [(sock, h); (sock, p)])) as H.
  { intros f Hf.
    assert (∃ o1, (if sendserialheader E then f (sys d) Message.dltSerialHeader else Some (DLT_RETURN_OK, sys d)) = Some (DLT_RETURN_OK, o1) ∧
      takes (sys d) o1 (if sendserialheader E then [(sock, Message.dltSerialHeader)] else [])) as (o1 & -> & T1).
    { destruct (sendserialheader E); [by apply Hf|]. exists (sys d). split; [done|by apply takes_nil]. }
    bsimp. destruct (Hf o1 h) as (o2 & E2 & T2); [apply T1|done|]. destruct (Hf o2 p) as (o3 & E3 & T3); [apply T2|done|].
    destruct h as [|x h]; [done|]. cbn [and_send fst snd]. change (DLT_RETURN_OK =? DLT_RETURN_OK) with true. cbn iota. rewrite E2. bsimp.
    destruct p as [|y p]; [done|]. cbn [and_send fst snd]. change (DLT_DAEMON_ERROR_OK =? DLT_RETURN_OK) with true. cbn iota. rewrite E3.
    exists o3. split; [done|]. eapply takes_trans; [exact T1|]. exact (takes_trans _ _ _ _ _ T2 T3). }
  destruct (isatty E sock).
  - destruct (H (serial_write sock)) as (o' & E' & T); [intros; by apply serial_takes|].
    unfold dlt_daemon_serial_send. change DLT_DAEMON_ERROR_OK with DLT_RETURN_OK at 1. rewrite E'. bsimp. by exists o'.
  - destruct (H (λ o, dlt_daemon_socket_sendreliable o sock)) as (o' & E' & T); [intros; by apply sendreliable_takes|].
    unfold dlt_daemon_socket_send. rewrite E'. bsimp. by exists o'.
Qed.

Lemma user_out2_takes o h d1 d2 : cooperative o -> 0 <= h -> zlen (d1 ++ d2) < 4294967296 ->
  ∃ o', user_out2 o h d1 d2 = (DLT_RETURN_OK, o') ∧ takes o o' [(h, d1 ++ d2)].
Proof.
  intros Ho Hh Hl. unfold user_out2. rewrite ltb_false by lia. unfold dlt_user_log_out2_with_timeout, dlt_user_log_out2.
  rewrite ltb_false by lia. rewrite (proj2 Ho). unfold writev. cbn [UserShared.script UserShared.calls]. rewrite (proj1 Ho).
  rewrite length_app in *. rewrite u32_small by lia. rewrite eqb_true by lia. cbn [negb UserShared.pipe].
  eexists. split; [reflexivity|]. split; [by destruct Ho|]. cbn [out]. by rewrite <-length_app, firstn_all.
Qed.

(** ** Names *)

(** The characters of a pattern that count: all, or those before its star. *)
Definition pattern_len (p : bytes) : nat :=
  let s := cstr 4 p in if bool_decide (s !! (length s - 1)%nat = Some star) then (length s - 1)%nat else 4%nat.
Definition matches (p id : bytes) : bool := bool_decide (take (pattern_len p) id = take (pattern_len p) p).

(** The contexts that a request for application [a] and context [c] names. *)
Definition named (a c : bytes) (x : Ctx.DltDaemonContext) : bool :=
  if empty_id c && negb (empty_id a) then matches a (Ctx.apid x)
  else if empty_id a && negb (empty_id c) then matches c (Ctx.ctid x)
  else bool_decide (Ctx.apid x = a) && bool_decide (Ctx.ctid x = c).

(** Behind a zero there are only zeros. *)
Fixpoint padded (l : bytes) : Prop :=
  match l with
  | [] => True
  | x :: l => (x = 0 -> Forall (λ y, y = 0) l) ∧ padded l
  end.
Lemma padded_zeros n : padded (replicate n 0).
Proof. induction n; [done|]. split; [|done]. intros _. by apply Forall_replicate. Qed.
Lemma is_id_padded a : is_id a -> padded a.
Proof.
  intros ->. generalize 4%nat. intros n. generalize a. clear a. induction n as [|n IH]; intros [|x a]; try done.
  - apply (padded_zeros (S n)).
  - unfold pad_to. cbn [cstr]. destruct (Z.eqb_spec x 0); [apply (padded_zeros (S n))|]. split; [done|apply IH].
Qed.

Lemma zeros_eq (a b : bytes) : Forall (λ y, y = 0) a -> Forall (λ y, y = 0) b -> length a = length b -> a = b.
Proof.
  intros Ha. revert b. induction Ha as [|x a -> Ha IH]; intros [|y b] Hb Hl; try done.
  apply Forall_cons_1 in Hb as [-> Hb]. f_equal. apply IH; [done|]. cbn in Hl. lia.
Qed.

Lemma strncmp_lex : ∀ n a b, padded a -> padded b -> length a = length b -> (n <= length a)%nat ->
  ∃ r, strncmp n (a ++ [0]) (b ++ [0]) = Some r ∧
    match lex (take n a) (take n b) with Lt => r < 0 | Eq => r = 0 | Gt => 0 < r end.
Proof.
  induction n as [|n IH]; intros a b Pa Pb Hl Hn; [by exists 0|]. destruct a as [|x a], b as [|y b]; cbn in Hl, Hn; try lia.
  destruct Pa as [Hx Ha], Pb as [Hy Hb]. cbn [app strncmp take lex]. destruct (Z.eqb_spec x y) as [->|Hne]; cbn [negb].
  - rewrite Z.compare_refl. destruct (Z.eqb_spec y 0) as [->|]; [|apply IH; [done|done|lia|lia]].
    exists 0. split; [done|]. rewrite (zeros_eq a b) by (auto; lia). by rewrite lex_refl.
  - eexists. split; [reflexivity|]. destruct (Z.compare_spec x y); lia.
Qed.

Lemma lex_take n : ∀ a b, length a = length b -> lex a b <> Gt -> lex (take n a) (take n b) <> Gt.
Proof.
  induction n as [|n IH]; intros [|x a] [|y b] Hl H; try done. cbn [take lex] in *. cbn in Hl.
  destruct (x ?= y); [|done|done]. apply IH; [lia|done].
Qed.

Lemma src_str_id id : is_id id -> src_str id = id ++ [0].
Proof. intros H. unfold src_str. by rewrite <-H. Qed.

Lemma cstr_five a : is_id a -> cstr 5 (a ++ [0]) = cstr 4 a.
Proof.
  intros H. pose proof (is_id_length _ H) as Hl. do 4 (destruct a as [|? a]; [done|]). destruct a; [|done]. cbn. by repeat case_match.
Qed.
Lemma empty_cstr a : is_id a -> empty_id a = bool_decide (length (cstr 4 a) = 0%nat).
Proof.
  intros H. pose proof (is_id_length _ H) as Hl. destruct a as [|x a]; [done|]. cbn [empty_id cstr]. by destruct (x =? 0).
Qed.
Lemma star_last a : is_id a -> empty_id a = false ->
  (a ++ [0]) !! (length (cstr 4 a) - 1)%nat = cstr 4 a !! (length (cstr 4 a) - 1)%nat.
Proof.
  intros Hi He. rewrite (empty_cstr _ Hi), bool_decide_eq_false in He. pose proof (length_cstr 4 a) as Hc.
  pose proof Hi as Ea. unfold is_id, pad_to in Ea. set (s := cstr 4 a) in *. by rewrite Ea, <-app_assoc, lookup_app_l by lia.
Qed.

(** ** Contexts *)

Section levels.
Context (E : env) (F : flags) (send : send_fn) (sock : Z).
Hypothesis (WE : wf_env E) (HM : heap_ok (heap E)) (Hsend : ∀ st h p d, send sock st h p d = send_to_socket E sock (Some h) p d).

(** The answer of the daemon with identifier [ecu]. *)
Definition answer (ecu : bytes) (id status : Z) : list (Z * bytes) :=
  let p := le_bytes 4 (u32 id) ++ [u8 status] in
  wire E sock (MessageSpec.headers (control_of E ecu DLT_MSIN_CONTROL_RESPONSE 1 DLT_DAEMON_CTRL_APID DLT_DAEMON_CTRL_CTID p)) p.

Lemma response_takes id status d :
  sound d -> cooperative (sys d) ->
  ∃ o, dlt_daemon_control_service_response E send sock id status d = Some (set_sys d o) ∧
    takes (sys d) o (answer (ecuid (tables d)) id status).
Proof.
  intros [_ He Hb] Ho. unfold dlt_daemon_control_service_response, answer. set (p := le_bytes 4 _ ++ _).
  assert (is_bytes p) as Bp.
  { apply is_bytes_app. split; [apply is_bytes_le|]. apply Forall_cons_2; [apply (wrapu_range 8); lia|apply Forall_nil_2]. }
  assert (zlen p = 5) as Lp by (unfold p; rewrite length_app, length_le_bytes; done).
  destruct (control_message_sends E send sock p [0] DLT_DAEMON_CTRL_APID d WE He Hb) as [[Em _]|(sh & _ & ->)];
    [by left|done|lia|by apply HM in Em|].
  set (M := control_of _ _ _ _ _ _ _). rewrite Hsend.
  destruct (send_takes E sock (MessageSpec.headers M) p d Ho) as (o & -> & T); [done| |bsimp; by exists o].
  intros Hp. rewrite Hp in Lp. done.
Qed.

(** What the application of a context is told. *)
Definition told (t : DltDaemon) (c : Ctx.DltDaemonContext) : bytes :=
  DltUserHeader 1 DLT_USER_MESSAGE_LOG_LEVEL ++ [effective_log_level F t c; effective_trace_status t c]
    ++ le_bytes 4 (u32 (Ctx.log_level_pos c)).

Lemma tell_takes d i k c :
  ctx_at (tables d) i k c -> cooperative (sys d) -> DLT_FD_MINIMUM <= Ctx.user_handle c ->
  ∃ o, dlt_daemon_user_send_log_level F d i k = Some (0, set_sys d o) ∧
    takes (sys d) o [(Ctx.user_handle c, told (tables d) c)].
Proof.
  intros Hc Ho Hh. unfold DLT_FD_MINIMUM in Hh. unfold dlt_daemon_user_send_log_level. rewrite (ctx_at_get _ _ _ _ Hc). bsimp.
  cbn [dlt_user_set_userheader Z.leb Z.compare DLT_USER_MESSAGE_LOG_LEVEL]. change (DLT_RETURN_OK <? DLT_RETURN_OK) with false. cbn iota.
  edestruct (user_out2_takes (clear_errno (sys d)) (Ctx.user_handle c)) as (o & -> & T); [by destruct Ho|lia| |].
  2: { cbn iota beta. change (DLT_RETURN_OK <? DLT_RETURN_OK) with false. cbn iota. bsimp. exists o. split; [done|]. destruct T as [T1 T2]. by split. }
  rewrite !length_app, length_le_bytes. cbn [length]. unfold DltUserHeader. rewrite length_app, length_le_bytes. cbn. lia.
Qed.

(** One context that matches: the new level, or none without an application. *)
Definition leveled (l : Z) (c : Ctx.DltDaemonContext) : Ctx.DltDaemonContext :=
  if DLT_FD_MINIMUM <=? Ctx.user_handle c then with_log_level l c else c.
Definition replies (t : DltDaemon) (l : Z) (c : Ctx.DltDaemonContext) : list (Z * bytes) :=
  if DLT_FD_MINIMUM <=? Ctx.user_handle c
  then (Ctx.user_handle c, told t (with_log_level l c)) :: answer (ecuid t) DLT_SERVICE_ID_SET_LOG_LEVEL DLT_SERVICE_RESPONSE_OK
  else answer (ecuid t) DLT_SERVICE_ID_SET_LOG_LEVEL DLT_SERVICE_RESPONSE_ERROR.

Lemma update_ctx_eq t i k g u ctxs c :
  user_list t !! i = Some u -> contexts u = Some ctxs -> ctxs !! k = Some c ->
  update_ctx t i k g = Some (set_list t i (set_ctxs u (Some (<[k := g c]> ctxs)) (num_contexts u))).
Proof. intros Hu Hc Hk. unfold update_ctx. rewrite Hu. bsimp. rewrite Hc. bsimp. by rewrite Hk. Qed.
Lemma set_list_id t i u : user_list t !! i = Some u -> set_list t i u = t.
Proof. intros H. unfold set_list. rewrite list_insert_id by done. by destruct t. Qed.
Lemma set_ctxs_id u ctxs : contexts u = Some ctxs -> set_ctxs u (Some ctxs) (num_contexts u) = u.
Proof. intros H. unfold set_ctxs. rewrite <-H. by destruct u. Qed.

(** A change that is taken back, and one that does nothing. *)
Lemma update_ctx_back t i k g g' c t' :
  ctx_at t i k c -> update_ctx t i k g = Some t' -> g' (g c) = c -> update_ctx t' i k g' = Some t.
Proof.
  intros (u & ctxs & Hu & Hc & Hk & _)%ctx_at_array. rewrite (update_ctx_eq _ _ _ _ u ctxs c) by done. intros [= <-] Hg.
  rewrite (update_ctx_eq _ _ _ _ (set_ctxs u (Some (<[k:=g c]> ctxs)) (num_contexts u)) (<[k:=g c]> ctxs) (g c));
    [|by apply (set_list_lookup_eq _ _ u)|done|apply list_lookup_insert_eq; by eapply lookup_lt_Some].
  rewrite set_list_set_list, list_insert_insert_eq, Hg, (list_insert_id ctxs k c) by done. f_equal.
  transitivity (set_list t i u); [|by apply set_list_id]. f_equal. exact (set_ctxs_id u ctxs Hc).
Qed.
Lemma update_ctx_none t i k g c : ctx_at t i k c -> g c = c -> update_ctx t i k g = Some t.
Proof.
  intros (u & ctxs & Hu & Hc & Hk & _)%ctx_at_array Hg. rewrite (update_ctx_eq _ _ _ _ u ctxs c), Hg, (list_insert_id ctxs k c) by done.
  f_equal. rewrite set_ctxs_id by done. by apply set_list_id.
Qed.
Lemma update_ctx_ext t i k g g' c : ctx_at t i k c -> g c = g' c -> update_ctx t i k g = update_ctx t i k g'.
Proof.
  intros (u & ctxs & Hu & Hc & Hk & _)%ctx_at_array Hg. by rewrite !(update_ctx_eq _ _ _ _ u ctxs c), Hg by done.
Qed.

Lemma send_log_level_takes l d i k c :
  sound d -> ctx_at (tables d) i k c -> cooperative (sys d) ->
  ∃ t o, dlt_daemon_send_log_level E F send sock l i k d = Some (set_sys (set_tables d t) o) ∧
    update_ctx (tables d) i k (leveled l) = Some t ∧ takes (sys d) o (replies (tables d) l c).
Proof.
  intros Hd Hc Ho. unfold dlt_daemon_send_log_level, leveled, replies. rewrite (ctx_at_get _ _ _ _ Hc). bsimp.
  destruct (update_ctx_kept ctx_same (tables d) i k (with_log_level l) c Hc (with_log_level_same l c)) as (t & Et & K & Hc').
  assert (on_ctx d i k (with_log_level l) = Some (set_tables d t)) as -> by (unfold on_ctx; by rewrite Et). bsimp. set (d1 := set_tables d t).
  assert (sound d1) as Hd1 by (eapply same_sound; [|exact Hd]; by apply settled_tables).
  assert (ecuid t = ecuid (tables d)) as Hecu by exact (kp_ecuid K).
  assert (∀ x, told t x = told (tables d) x) as Ht.
  { destruct (ctx_at_array _ _ _ _ Hc) as (u & ctxs & Hu & Hcs & Hk & _). rewrite (update_ctx_eq _ _ _ _ u ctxs c) in Et by done.
    by injection Et as <-. }
  destruct (Z.leb_spec DLT_FD_MINIMUM (Ctx.user_handle c)) as [Hh|Hh].
  - destruct (tell_takes d1 i k _ Hc' Ho Hh) as (o & -> & T1). bsimp. change (0 =? 0) with true. cbn iota.
    destruct (response_takes DLT_SERVICE_ID_SET_LOG_LEVEL DLT_SERVICE_RESPONSE_OK (set_sys d1 o)) as (o' & -> & T2);
      [by destruct Hd1|apply T1|].
    exists t, o'. split; [done|]. split.
    + rewrite <-Et. apply (update_ctx_ext _ _ _ _ _ c); [done|]. by rewrite leb_true by lia.
    + cbn [tables set_sys set_daemon d1 set_tables] in *. rewrite Ht in T1. rewrite Hecu in T2. exact (takes_trans _ _ _ _ _ T1 T2).
  - bsimp. unfold on_ctx. cbn [tables d1 set_tables set_daemon].
    rewrite (update_ctx_back (tables d) i k (with_log_level l) _ c t Hc Et) by (by destruct c). bsimp.
    destruct (response_takes DLT_SERVICE_ID_SET_LOG_LEVEL DLT_SERVICE_RESPONSE_ERROR (set_tables d1 (tables d))) as (o' & -> & T2);
      [by destruct Hd|done|].
    exists (tables d), o'. split; [done|]. split; [|exact T2]. apply (update_ctx_none _ _ _ _ c); [done|]. by rewrite leb_false by lia.
Qed.

(** ** The loop *)

Lemma match_context_eq act (flag : bool) str len i k d c r :
  ctx_at (tables d) i k c -> strncmp (Z.to_nat len) (src_str (if flag then Ctx.apid c else Ctx.ctid c)) str = Some r ->
  match_context act flag str len i k d =
    if r =? 0 then d ← act i k d; Some (true, d) else if (0 <? r) && flag then Some (false, d) else Some (true, d).
Proof. intros Hat Er. unfold match_context. rewrite (ctx_at_get _ _ _ _ Hat). bsimp. rewrite Er. by bsimp. Qed.

Section loop.
Context (l : Z) (d0 : daemon) (i : nat) (u : DltDaemonRegisteredUsers) (ctxs : list Ctx.DltDaemonContext) (P : Ctx.DltDaemonContext -> bool).
Hypothesis (Hd0 : sound d0) (Hu : user_list (tables d0) !! i = Some u) (Hc : contexts u = Some ctxs).

Let t0 := tables d0.
Let g (c : Ctx.DltDaemonContext) : Ctx.DltDaemonContext := if P c then leveled l c else c.
Let rep (c : Ctx.DltDaemonContext) : list (Z * bytes) := if P c then replies t0 l c else [].
Let upto (k : nat) : list Ctx.DltDaemonContext := (g <$> take k ctxs) ++ drop k ctxs.

(** The first [k] contexts are done. *)
Record reached (k : nat) (d : daemon) : Prop := {
  rc_tables : tables d = set_list t0 i (set_ctxs u (Some (upto k)) (num_contexts u));
  rc_quiet : quiet d0 d;
  rc_takes : takes (sys d0) (sys d) (concat (rep <$> take k ctxs))
}.

Lemma g_same c : ctx_same c (g c).
Proof. unfold g, leveled. case_match; [|reflexivity]. case_match; [apply with_log_level_same|reflexivity]. Qed.

Lemma reached_settled k d : reached k d -> settled ctx_same d0 d.
Proof.
  intros [Ht Hq _]. split; [done|]. rewrite Ht. apply (kept_set_list ctx_same _ _ u); [done|]. split; try done.
  cbn. rewrite Hc. constructor. unfold upto. rewrite <-(take_drop k ctxs) at 1. apply Forall2_app; [|reflexivity].
  apply Forall2_fmap_r, Forall_Forall2_diag, Forall_true. apply g_same.
Qed.

Lemma reached_0 : cooperative (sys d0) -> reached 0 d0.
Proof.
  intros Ho. split; [|done|by apply takes_nil]. unfold upto. cbn. rewrite set_ctxs_id by done. symmetry. by apply set_list_id.
Qed.

Lemma upto_lookup k c : ctxs !! k = Some c -> upto k !! k = Some c.
Proof.
  intros Hk. pose proof (lookup_lt_Some _ _ _ Hk). unfold upto. rewrite lookup_app_r; rewrite length_fmap, length_take; [|lia].
  rewrite lookup_drop, <-Hk. f_equal. lia.
Qed.
Lemma upto_insert k c : ctxs !! k = Some c -> <[k := g c]> (upto k) = upto (S k).
Proof.
  intros Hk. pose proof (lookup_lt_Some _ _ _ Hk). unfold upto. rewrite (drop_S _ c k Hk), (take_S_r _ _ c Hk), fmap_app, <-app_assoc.
  rewrite insert_app_r_alt; rewrite length_fmap, length_take; [|lia]. replace (k - k `min` length ctxs)%nat with 0%nat by lia. done.
Qed.

Lemma reached_at k d c : reached k d -> ctxs !! k = Some c -> Z.of_nat k < num_contexts u -> ctx_at (tables d) i k c.
Proof.
  intros [-> _ _] Hk Hn. eexists. split; [by apply (set_list_lookup_eq _ _ u)|]. unfold live_ctxs. cbn.
  rewrite lookup_take_lt by lia. by apply upto_lookup.
Qed.

Lemma reached_skip k d c : reached k d -> ctxs !! k = Some c -> P c = false -> reached (S k) d.
Proof.
  intros [Ht Hq HT] Hk Hp. assert (g c = c) as Hg by (unfold g; by rewrite Hp). split; [|done|].
  - rewrite Ht, <-(upto_insert k c Hk), Hg. do 3 f_equal. symmetry. apply list_insert_id. by apply upto_lookup.
  - rewrite (take_S_r _ _ c Hk), fmap_app, concat_app. cbn [fmap list_fmap concat]. unfold rep at 2. rewrite Hp, !app_nil_r. done.
Qed.
Lemma reached_set k d c : reached k d -> ctxs !! k = Some c -> Z.of_nat k < num_contexts u -> P c = true ->
  ∃ d', dlt_daemon_send_log_level E F send sock l i k d = Some d' ∧ reached (S k) d'.
Proof.
  intros Hr Hk Hn Hp. pose proof (reached_at k d c Hr Hk Hn) as Hat. pose proof (reached_settled k d Hr) as Hs.
  destruct (send_log_level_takes l d i k c) as (t & o & -> & Et & T); [by eapply same_sound|done|apply Hr|].
  eexists. split; [reflexivity|]. destruct Hr as [Ht Hq HT]. assert (g c = leveled l c) as Hg by (unfold g; by rewrite Hp). split.
  - cbn [tables set_sys set_tables set_daemon]. rewrite Ht in Et.
    rewrite (update_ctx_eq _ _ _ _ (set_ctxs u (Some (upto k)) (num_contexts u)) (upto k) c) in Et;
      [|by apply (set_list_lookup_eq _ _ u)|done|by apply upto_lookup].
    injection Et as <-. rewrite set_list_set_list, <-Hg, (upto_insert k c Hk). done.
  - destruct Hq. by split.
  - cbn [sys set_sys set_daemon]. rewrite (take_S_r _ _ c Hk), fmap_app, concat_app. cbn [fmap list_fmap concat].
    unfold rep at 2. rewrite Hp, app_nil_r. eapply takes_trans; [exact HT|].
    assert (replies (tables d) l c = replies t0 l c) as <- by (by rewrite Ht). done.
Qed.

(** The rest of the array does not match. *)
Lemma reached_rest n : ∀ k d, reached k d -> (k + n <= length ctxs)%nat ->
  (∀ j c, (k <= j < k + n)%nat -> ctxs !! j = Some c -> P c = false) -> reached (k + n) d.
Proof.
  induction n as [|n IH]; intros k d Hr Hl Hp; [by rewrite Nat.add_0_r|].
  destruct (lookup_lt_is_Some_2 ctxs k) as [c Hk]; [lia|]. rewrite <-Nat.add_succ_comm. apply IH; [|lia|].
  - apply (reached_skip k d c); [done|done|]. apply (Hp k); [lia|done].
  - intros j x Hj. apply Hp. lia.
Qed.

Lemma loop_reaches (flag : bool) str len :
  Z.of_nat (length ctxs) >= num_contexts u ->
  (∀ k c, ctxs !! k = Some c -> Z.of_nat k < num_contexts u ->
    ∃ r, strncmp (Z.to_nat len) (src_str (if flag then Ctx.apid c else Ctx.ctid c)) str = Some r ∧ P c = (r =? 0) ∧
      (0 < r -> flag = true -> ∀ j x, (k < j)%nat -> Z.of_nat j < num_contexts u -> ctxs !! j = Some x -> P x = false)) ->
  ∀ n k d, reached k d -> Z.of_nat (k + n) = num_contexts u ->
  ∃ d', each_context n (match_context (dlt_daemon_send_log_level E F send sock l) flag str len) i k d = Some d' ∧
    reached (Z.to_nat (num_contexts u)) d'.
Proof.
  intros Hl Hm. induction n as [|n IH]; intros k d Hr Hn; cbn [each_context].
  { exists d. split; [done|]. by replace (Z.to_nat (num_contexts u)) with k by lia. }
  destruct (lookup_lt_is_Some_2 ctxs k) as [c Hk]; [lia|]. pose proof (reached_at k d c Hr Hk ltac:(lia)) as Hat.
  destruct (Hm k c Hk ltac:(lia)) as (r & Er & Hp & Hlater). rewrite (match_context_eq _ _ _ _ _ _ _ c r) by done.
  destruct (Z.eqb_spec r 0) as [->|Hne].
  - destruct (reached_set k d c Hr Hk ltac:(lia) Hp) as (d' & -> & Hr'). bsimp. apply IH; [done|lia].
  - destruct ((0 <? r) && flag) eqn:Eb.
    + zb. exists d. split; [done|]. replace (Z.to_nat (num_contexts u)) with (k + S n)%nat by lia. apply reached_rest; [done|lia|].
      intros j x Hj Hx. destruct (decide (j = k)) as [->|].
      * rewrite Hk in Hx. by injection Hx as <-.
      * by apply (Hlater ltac:(lia) ltac:(done) j x); [lia|lia|].
    + bsimp. apply IH; [|lia]. by apply (reached_skip k d c).
Qed.
End loop.

(** ** Requests *)

(** The contexts of list [i] for which [P] holds have the new level, their
    applications were told, and there is an answer for each. *)
Record updated (l : Z) (P : Ctx.DltDaemonContext -> bool) (d : daemon) (i : nat) (u : DltDaemonRegisteredUsers) (d' : daemon)
  (more : list (Z * bytes)) : Prop := {
  up_tables : tables d' = set_list (tables d) i
    (set_ctxs u (map_first (num_contexts u) (λ c, if P c then leveled l c else c) <$> contexts u) (num_contexts u));
  up_quiet : quiet d d';
  up_takes : takes (sys d) (sys d') (concat (replies (tables d) l <$> filter P (live_ctxs u)) ++ more)
}.

Lemma concat_filter {A B} (P : A -> bool) (f : A -> list B) l :
  concat ((λ c, if P c then f c else []) <$> l) = concat (f <$> filter P l).
Proof.
  induction l as [|x l IH]; [done|]. rewrite fmap_cons, filter_cons. cbn [concat]. rewrite IH.
  case_decide as H; destruct (P x); done.
Qed.

Lemma reached_updated l P d i u ctxs d' :
  contexts u = Some ctxs -> reached l d i u ctxs P (Z.to_nat (num_contexts u)) d' -> updated l P d i u d' [].
Proof.
  intros Hc [Ht Hq HT]. split; [|done|].
  - rewrite Ht, Hc. done.
  - rewrite app_nil_r. unfold live_ctxs. rewrite Hc. cbn [default from_option id]. by rewrite concat_filter in HT.
Qed.

Section request.
Context (l : Z) (d : daemon) (i : nat) (u : DltDaemonRegisteredUsers).
Hypothesis (Hd : sound d) (Ho : cooperative (sys d)) (Hown : own_list (tables d) (ecuid (tables d)) i u).

Lemma live_array ctxs k c : contexts u = Some ctxs -> ctxs !! k = Some c -> Z.of_nat k < num_contexts u -> live_ctxs u !! k = Some c.
Proof. intros Hc Hk Hn. unfold live_ctxs. rewrite Hc. cbn. by rewrite lookup_take_lt by lia. Qed.

Lemma own_ids k c : live_ctxs u !! k = Some c -> is_id (Ctx.apid c) ∧ is_id (Ctx.ctid c).
Proof.
  intros Hk. destruct Hown as [_ Hu]. destruct (so_tables _ Hd i u Hu) as [_ [_ _ Hids]].
  destruct (Forall_lookup_1 _ _ _ _ Hids Hk) as [[? _] [? _]]. done.
Qed.

(** Behind a greater application nothing matches. *)
Lemma later_differ p k j c x n :
  live_ctxs u !! k = Some c -> live_ctxs u !! j = Some x -> (k < j)%nat ->
  lex (take n (Ctx.apid c)) (take n p) = Gt -> take n (Ctx.apid x) <> take n p.
Proof.
  intros Hk Hj Hlt Hgt Heq. destruct Hown as [_ Hu]. destruct (so_tables _ Hd i u Hu) as [_ [_ Hs _]].
  pose proof (sorted_lookup _ _ _ _ _ _ Hs Hk Hj Hlt) as Hb. unfold before, ctx_key in Hb.
  destruct (own_ids k c Hk) as [Ic%is_id_length _], (own_ids j x Hj) as [Ix%is_id_length _].
  rewrite lex_app_eq in Hb by lia.
  assert (lex (take n (Ctx.apid c)) (take n (Ctx.apid x)) <> Gt) as Hle; [|by rewrite Heq in Hle].
  apply lex_take; [lia|]. by destruct (lex (Ctx.apid c) (Ctx.apid x)).
Qed.

Lemma pattern_loop flag p :
  is_id p ->
  ∃ d', own_contexts (match_context (dlt_daemon_send_log_level E F send sock l) flag (p ++ [0]) (Z.of_nat (pattern_len p))) d = Some d' ∧
    updated l (λ x, matches p (if flag then Ctx.apid x else Ctx.ctid x)) d i u d' [].
Proof.
  intros Hp. unfold own_contexts. pose proof Hown as [Hf Hu]. rewrite Hf, Hu. bsimp.
  destruct (so_tables _ Hd i u Hu) as [_ [Hb _ _]]. destruct (contexts u) as [ctxs|] eqn:Hc.
  2: { cbn in Hb. rewrite Hb. exists d. split; [done|]. split; [|done|].
       - rewrite Hc. cbn. unfold set_ctxs. rewrite <-Hc. assert (set_list (tables d) i u = tables d) as Es by (by apply set_list_id).
         rewrite <-Es at 1. f_equal. by destruct u.
       - unfold live_ctxs. rewrite Hc. cbn. rewrite take_nil. by apply takes_nil. }
  destruct Hb as [Hn _].
  assert (pattern_len p <= 4)%nat as Hpl by (unfold pattern_len; pose proof (length_cstr 4 p); case_match; lia).
  destruct (loop_reaches l d i u ctxs (λ x, matches p (if flag then Ctx.apid x else Ctx.ctid x)) Hd Hu Hc flag (p ++ [0])
    (Z.of_nat (pattern_len p))) with (n := Z.to_nat (num_contexts u)) (k := 0%nat) (d := d) as (d' & -> & Hr).
  - lia.
  - intros k c Hk Hkn. pose proof (live_array ctxs k c Hc Hk Hkn) as Hlk. rewrite Nat2Z.id.
    destruct (own_ids k c Hlk) as [Ia Ic]. assert (is_id (if flag then Ctx.apid c else Ctx.ctid c)) as Id by (by destruct flag).
    rewrite src_str_id by done. pose proof (is_id_length _ Id). pose proof (is_id_length _ Hp).
    destruct (strncmp_lex (pattern_len p) (if flag then Ctx.apid c else Ctx.ctid c) p) as (r & -> & Hr);
      [by apply is_id_padded|by apply is_id_padded|lia|lia|].
    exists r. split; [done|]. split.
    + unfold matches. destruct (lex _ _) eqn:El.
      * apply lex_eq in El. rewrite bool_decide_true by done. by rewrite eqb_true by lia.
      * rewrite bool_decide_false by (intros Heq; by rewrite Heq, lex_refl in El). by rewrite eqb_false by lia.
      * rewrite bool_decide_false by (intros Heq; by rewrite Heq, lex_refl in El). by rewrite eqb_false by lia.
    + intros Hpos -> j x Hj Hjn Hx. unfold matches. apply bool_decide_false.
      apply (later_differ p k j c); [done|by apply (live_array ctxs)|done|]. by destruct (lex _ _); [lia|lia|].
  - by apply reached_0.
  - lia.
  - exists d'. split; [done|]. by apply (reached_updated _ _ _ _ _ ctxs).
Qed.

(** No context, or one. *)
Lemma none_updated P more d' :
  (∀ k x, live_ctxs u !! k = Some x -> P x = false) -> tables d' = tables d -> quiet d d' -> takes (sys d) (sys d') more ->
  updated l P d i u d' more.
Proof.
  intros Hp Ht Hq HT. destruct Hown as [_ Hu]. split; [|done|].
  - rewrite Ht. symmetry. assert (set_list (tables d) i u = tables d) as Es by (by apply set_list_id). rewrite <-Es at 2. f_equal.
    assert (map_first (num_contexts u) (λ c, if P c then leveled l c else c) <$> contexts u = contexts u) as ->; [|by destruct u].
    destruct (contexts u) as [ctxs|] eqn:Hc; [|done]. cbn. f_equal. unfold map_first.
    rewrite <-(take_drop (Z.to_nat (num_contexts u)) ctxs) at 3. f_equal. apply list_eq. intros k. rewrite list_lookup_fmap.
    destruct (take _ ctxs !! k) as [x|] eqn:Ek; [|done]. cbn. rewrite (Hp k x); [done|]. unfold live_ctxs. by rewrite Hc.
  - assert (filter P (live_ctxs u) = []) as ->; [|done]. apply elem_of_nil_inv. intros x [Hx Hin]%list_elem_of_filter.
    apply list_elem_of_lookup_1 in Hin as [k Hk]. by rewrite (Hp k x Hk) in Hx.
Qed.

Lemma one_updated P k c :
  live_ctxs u !! k = Some c -> P c = true -> (∀ j x, live_ctxs u !! j = Some x -> j <> k -> P x = false) ->
  ∃ d', dlt_daemon_send_log_level E F send sock l i k d = Some d' ∧ updated l P d i u d' [].
Proof.
  intros Hk Hp Hother. destruct Hown as [_ Hu]. pose proof Hk as Hk'. unfold live_ctxs in Hk'. apply lookup_take_Some in Hk' as [Hkc Hkn].
  destruct (so_tables _ Hd i u Hu) as [_ [Hb _ _]]. destruct (contexts u) as [ctxs|] eqn:Hc; [|done]. cbn [default from_option id] in Hkc.
  destruct Hb as [Hn _].
  assert (∀ j x, (j < Z.to_nat (num_contexts u))%nat -> ctxs !! j = Some x -> j <> k -> P x = false) as Hoth.
  { intros j x Hj Hx. apply Hother. apply (live_array ctxs); [done|done|lia]. }
  pose proof (reached_rest l d i u ctxs P k 0 d (reached_0 l d i u ctxs P Hu Hc Ho) ltac:(lia)) as R1. cbn [Nat.add] in R1.
  specialize (R1 ltac:(intros j x Hj Hx; apply (Hoth j); [lia|done|lia])).
  destruct (reached_set l d i u ctxs P Hd Hu Hc k d c R1 Hkc ltac:(lia) Hp) as (d' & -> & R2). exists d'. split; [done|].
  apply (reached_updated _ _ _ _ _ ctxs); [done|].
  replace (Z.to_nat (num_contexts u)) with (S k + (Z.to_nat (num_contexts u) - S k))%nat by lia.
  apply reached_rest; [done|lia|]. intros j x Hj Hx. apply (Hoth j); [lia|done|lia].
Qed.

(** The answer when an application with a context is not known. *)
Definition unknown (a c : bytes) : list (Z * bytes) :=
  if Bool.eqb (empty_id a) (empty_id c) && bool_decide (filter (named a c) (live_ctxs u) = [])
  then answer (ecuid (tables d)) DLT_SERVICE_ID_SET_LOG_LEVEL DLT_SERVICE_RESPONSE_ERROR else [].

Lemma named_exact a c x : empty_id a = empty_id c -> named a c x = true -> Ctx.apid x = a ∧ Ctx.ctid x = c.
Proof. intros He. unfold named. rewrite He, andb_negb_r. intros [? ?]%andb_true_iff. by split; apply (bool_decide_eq_true_1 _). Qed.

Lemma exact_updated a c :
  is_id a -> is_id c -> empty_id a = empty_id c ->
  ∃ d', (context ← dlt_daemon_context_find (tables d) a c (ecuid (tables d));
     match context with
     | Some k => i ← dlt_daemon_find_users_list (tables d) (ecuid (tables d)); dlt_daemon_send_log_level E F send sock l i k d
     | None => dlt_daemon_control_service_response E send sock DLT_SERVICE_ID_SET_LOG_LEVEL DLT_SERVICE_RESPONSE_ERROR d
     end) = Some d' ∧ updated l (named a c) d i u d' (unknown a c).
Proof.
  intros Ia Ic He. pose proof Hown as [Hf Hu]. pose proof (so_tables _ Hd i u Hu) as [_ Hci].
  assert (∃ r, dlt_daemon_context_find (tables d) a c (ecuid (tables d)) = Some r ∧
    match r with
    | Some k => ∃ x, live_ctxs u !! k = Some x ∧ ctx_key x = a ++ c
    | None => ∀ k x, live_ctxs u !! k = Some x -> named a c x = false
    end) as (r & -> & Hr).
  { unfold dlt_daemon_context_find. destruct (empty_id a) eqn:Ea; rewrite <-He; cbn [orb].
    - exists None. split; [done|]. intros k x Hk. apply not_true_iff_false. intros [<- _]%named_exact; [|congruence].
      destruct (Forall_lookup_1 _ _ _ _ (ci_ids _ Hci) Hk) as [[_ Hne] _]. congruence.
    - rewrite Hf, Hu. bsimp. destruct (context_find_spec u a c Hci) as (r & -> & Hr); [by split|by split; [|congruence]|].
      exists r. split; [done|]. destruct r as [k|]; [destruct Hr as (x & Hx & _ & Hk); by exists x|].
      intros k x Hk. apply not_true_iff_false. intros [<- <-]%named_exact; [|congruence]. apply table_lookup_None in Hr. apply Hr.
      apply list_elem_of_fmap. exists x. split; [done|]. by eapply list_elem_of_lookup_2. }
  bsimp. destruct r as [k|].
  - rewrite Hf. bsimp. destruct Hr as (x & Hk & Hx).
    assert (∀ j y, live_ctxs u !! j = Some y -> named a c y = true -> j = k) as Huniq.
    { intros j y Hj [<- <-]%named_exact; [|done]. pose proof (sorted_NoDup _ _ (ci_sorted _ Hci)) as Hnd.
      apply (NoDup_lookup _ j k (ctx_key y) Hnd); rewrite list_lookup_fmap; [by rewrite Hj|]. rewrite Hk. exact (f_equal Some Hx). }
    assert (named a c x = true) as Hnx.
    { unfold named. rewrite He, andb_negb_r. destruct (own_ids k x Hk) as [I1 I2]. unfold ctx_key in Hx.
      apply app_inj_1 in Hx as [-> ->]; [|by rewrite (is_id_length _ I1), (is_id_length _ Ia)]. by rewrite !bool_decide_true. }
    destruct (one_updated (named a c) k x Hk Hnx) as (d' & -> & U).
    { intros j y Hj Hne. apply not_true_iff_false. intros Hn. by apply Hne, (Huniq j y). }
    exists d'. split; [done|]. unfold unknown. rewrite (bool_decide_false (filter _ _ = [])), andb_false_r; [done|].
    intros Hnil. apply (not_elem_of_nil x). rewrite <-Hnil. apply list_elem_of_filter. rewrite Hnx. split; [done|by eapply list_elem_of_lookup_2].
  - destruct (response_takes DLT_SERVICE_ID_SET_LOG_LEVEL DLT_SERVICE_RESPONSE_ERROR d Hd Ho) as (o & -> & T).
    eexists. split; [reflexivity|]. apply none_updated; [done|done|done|]. unfold unknown. rewrite He, eqb_reflx. cbn [andb].
    rewrite bool_decide_true; [done|]. apply elem_of_nil_inv. intros x [Hx Hin]%list_elem_of_filter.
    apply list_elem_of_lookup_1 in Hin as [k Hk]. by rewrite (Hr k x Hk) in Hx.
Qed.

(** A pattern of one kind: the arguments of the handler. *)
Lemma pattern_arguments p :
  is_id p -> empty_id p = false ->
  let len := i8 (zlen (cstr 5 (p ++ [0]))) in
  (len =? 0) = false ∧
  (if bool_decide ((p ++ [0]) !! Z.to_nat (len - 1) = Some star) then i8 (len - 1) else 4) = Z.of_nat (pattern_len p).
Proof.
  intros Hi He len. unfold len. rewrite cstr_five by done. pose proof (length_cstr 4 p) as Hl.
  pose proof He as Hne. rewrite (empty_cstr _ Hi) in Hne. apply bool_decide_eq_false in Hne. rewrite i8_small by lia. split; [lia|].
  replace (Z.to_nat (zlen (cstr 4 p) - 1)) with (length (cstr 4 p) - 1)%nat by lia. rewrite star_last by done.
  unfold pattern_len. case_match; [|done]. rewrite i8_small by lia. lia.
Qed.
Lemma empty_arguments p : is_id p -> empty_id p = true -> (i8 (zlen (cstr 5 (p ++ [0]))) =? 0) = true.
Proof.
  intros Hi He. rewrite cstr_five by done. rewrite (empty_cstr _ Hi) in He. apply bool_decide_eq_true in He. by rewrite He.
Qed.

Lemma choose_updated a c :
  is_id a -> is_id c ->
  ∃ d', choose_contexts (λ flag str len, dlt_daemon_find_multiple_context_and_send_log_level E F send sock flag str len l)
      (dlt_daemon_send_log_level E F send sock l)
      (dlt_daemon_control_service_response E send sock DLT_SERVICE_ID_SET_LOG_LEVEL DLT_SERVICE_RESPONSE_ERROR)
      (a ++ [0]) (c ++ [0]) d = Some d' ∧ updated l (named a c) d i u d' (unknown a c).
Proof.
  intros Ia Ic. unfold choose_contexts, unknown.
  assert (∀ p, is_id p -> ∃ x, (p ++ [0]) !! 0%nat = Some x ∧ (x =? 0) = empty_id p) as Hfirst.
  { intros p Hp%is_id_length. destruct p as [|x p]; [done|]. by exists x. }
  destruct (Hfirst a Ia) as (a0 & -> & Ha0). destruct (Hfirst c Ic) as (c0 & -> & Hc0). bsimp. rewrite Ha0, Hc0.
  unfold dlt_daemon_find_multiple_context_and_send_log_level. destruct (empty_id a) eqn:Ea, (empty_id c) eqn:Ec; cbn [Bool.eqb andb].
  - rewrite (empty_arguments a), (empty_arguments c) by done. cbn [negb andb].
    destruct (exact_updated a c Ia Ic) as (d' & Eq & U); [congruence|]. rewrite context_find_five by (by apply is_id_length).
    exists d'. split; [exact Eq|]. unfold unknown in U. rewrite Ea, Ec in U. exact U.
  - rewrite (empty_arguments a) by done. destruct (pattern_arguments c Ic Ec) as [-> Hlen]. cbn [negb andb]. rewrite andb_true_r.
    assert (named a c = λ x, matches c (Ctx.ctid x)) as -> by (unfold named; by rewrite Ea, Ec).
    destruct (pattern_loop false c Ic) as (d' & Eq & U). rewrite <-Hlen in Eq. exists d'. split; [|exact U].
    destruct (bool_decide _); cbn [negb andb]; exact Eq.
  - destruct (pattern_arguments a Ia Ea) as [-> Hlen]. rewrite (empty_arguments c) by done. cbn [negb andb]. rewrite andb_true_r.
    assert (named a c = λ x, matches a (Ctx.apid x)) as -> by (unfold named; by rewrite Ea, Ec).
    destruct (pattern_loop true a Ia) as (d' & Eq & U). rewrite <-Hlen in Eq. exists d'. split; [|exact U].
    destruct (bool_decide _); cbn [negb andb]; exact Eq.
  - rewrite !andb_false_r. destruct (exact_updated a c Ia Ic) as (d' & Eq & U); [congruence|].
    rewrite context_find_five by (by apply is_id_length).
    exists d'. split; [exact Eq|]. unfold unknown in U. rewrite Ea, Ec in U. exact U.
Qed.
End request.
End levels.

(** The identifier as the tables would store it. *)
Definition norm (id : bytes) : bytes := pad_to 4 0 (cstr 4 id).
(** The level that is set: not above the configured one when that is enforced. *)
Definition granted (F : flags) (l : Z) : Z := i8 (if enforceContextLLAndTS F then u8 (getStatus l (contextLogLevel F)) else l).

Lemma log_level_request_updated E F fuel sock msg b a c lv d i u :
  wf_env E -> heap_ok (heap E) -> sock <> DLT_DAEMON_SEND_TO_ALL -> sock <> DLT_DAEMON_SEND_FORCE ->
  sound d -> cooperative (sys d) -> own_list (tables d) (ecuid (tables d)) i u ->
  Message.databuffer msg = Some b -> 17 <= Message.datasize msg <= zlen b -> set_log_level_request b = Some (a, c, lv) ->
  ∃ d', dlt_daemon_control_set_log_level E F (dlt_daemon_client_send (S fuel) E) sock msg d = Some d' ∧
    updated E F sock (granted F lv) (named (norm a) (norm c)) d i u d' (unknown E sock d u (norm a) (norm c)).
Proof.
  intros WE HM Hs1 Hs2 Hd Ho Hown Hb Hl Hr. unfold dlt_daemon_control_set_log_level. rewrite Hb.
  unfold DltFile.dlt_check_rcv_data_size, sizeof_DltServiceSetLogLevel. rewrite (ltb_false (Message.datasize msg) 17) by lia.
  cbn [Z.ltb Z.compare DLT_RETURN_OK]. destruct (set_level_request_total b) as (a' & c' & l' & Hr' & La & Lc); [lia|].
  rewrite Hr in Hr'. injection Hr' as -> -> ->. rewrite Hr. bsimp. unfold id_array, Filter.set_id.
  rewrite (set_id_spec _ a') by (done || by apply scannable_len). bsimp. rewrite (set_id_spec _ c') by (done || by apply scannable_len). bsimp.
  apply choose_updated; try done; [|apply is_id_pad..]. intros. by apply client_send_direct.
Qed.

(** C19: A log level request updates exactly the contexts it names: the walk through
    the sorted array with its early end is a map over all contexts.  Each named
    context with an application gets the level, its application is told, and the
    client gets one answer per named context (an error for a context whose
    application is gone, and for an unknown application with context); everything
    else in the daemon stays. *)
Theorem log_level_request_updates E F fuel sock msg b a c lv d i u :
  wf_env E -> heap_ok (heap E) -> sock <> DLT_DAEMON_SEND_TO_ALL -> sock <> DLT_DAEMON_SEND_FORCE ->
  sound d -> cooperative (sys d) -> own_list (tables d) (ecuid (tables d)) i u ->
  Message.databuffer msg = Some b -> 17 <= Message.datasize msg <= zlen b -> set_log_level_request b = Some (a, c, lv) ->
  ∃ d', dlt_daemon_control_set_log_level E F (dlt_daemon_client_send (S fuel) E) sock msg d = Some d' ∧
    updated E F sock (granted F lv) (named (norm a) (norm c)) d i u d' (unknown E sock d u (norm a) (norm c)).
Proof. apply log_level_request_updated. Qed.

(** The answer for a context tells the truth whatever the operating system
    does: after OK the context has the new level, after an error it has the old
    one, and no other application or context is registered differently. *)
Theorem level_answer_truthful E F fuel sock l d i k c :
  wf_env E -> sock <> DLT_DAEMON_SEND_TO_ALL -> sock <> DLT_DAEMON_SEND_FORCE -> sound d -> ctx_at (tables d) i k c ->
  let send := dlt_daemon_client_send (S fuel) E in
  ∃ (ok : bool) d1 c1 o, dlt_daemon_send_log_level E F send sock l i k d = Some (set_sys d1 o) ∧
    dlt_daemon_control_service_response E send sock DLT_SERVICE_ID_SET_LOG_LEVEL
      (if ok then DLT_SERVICE_RESPONSE_OK else DLT_SERVICE_RESPONSE_ERROR) d1 = Some (set_sys d1 o) ∧
    ctx_at (tables d1) i k c1 ∧ Ctx.log_level c1 = (if ok then l else Ctx.log_level c) ∧ settled ctx_same d d1.
Proof.
  intros WE Hs1 Hs2 Hd Hc send.
  assert (∀ st h p d, send sock st h p d = send_to_socket E sock (Some h) p d) as Hsend by (intros; by apply client_send_direct).
  destruct (send_log_level_cases E F send sock l d i k c Hd Hc) as (ok & d1 & c1 & Eq & Hc1 & Hl & S1 & Hd1).
  destruct (response_direct E WE send sock Hsend DLT_SERVICE_ID_SET_LOG_LEVEL
    (if ok then DLT_SERVICE_RESPONSE_OK else DLT_SERVICE_RESPONSE_ERROR) d1 Hd1) as (o & Er).
  exists ok, d1, c1, o. split_and!; try done. by rewrite Eq.
Qed.

(** ** Examples *)

Lemma log_level_request_updates_witness :
  ∃ d', dlt_daemon_control_set_log_level env0 flags0 (dlt_daemon_client_send 1 env0) 5 (request_to no_id no_id level_request)
      (control_daemon (os0 (λ _, WriteAll))) = Some d' ∧
    updated env0 flags0 5 (granted flags0 2) (named (norm [65; 80; 80; 42]) (norm no_id)) (control_daemon (os0 (λ _, WriteAll))) 0 control_list
      d' (unknown env0 5 (control_daemon (os0 (λ _, WriteAll))) control_list (norm [65; 80; 80; 42]) (norm no_id)).
Proof.
  apply (log_level_request_updates env0 flags0 0 5 (request_to no_id no_id level_request) level_request [65; 80; 80; 42] no_id 2).
  - exact wf_daemon_env0.
  - intros n. done.
  - done.
  - done.
  - apply control_daemon_sound.
  - by split.
  - exact control_tables_own.
  - done.
  - by vm_compute.
  - done.
Defined.

(** All three contexts of the two applications are at level 2 afterwards. *)
Example sample_levels :
  (λ d, (λ c, (Ctx.apid c, Ctx.ctid c, Ctx.log_level c)) <$> default [] (live_ctxs <$> user_list (tables d) !! 0%nat))
    <$> dlt_daemon_control_set_log_level env0 flags0 (dlt_daemon_client_send 1 env0) 5 (request_to no_id no_id level_request)
          (control_daemon (os0 (λ _, WriteAll))) =
  Some [(id_APP1, id_CON1, 2); (id_APP1, id_CON2, 2); (id_APP2, id_CON1, 2)].
Proof. vm_compute. reflexivity. Qed.

Lemma level_answer_truthful_witness :
  let o := os0 (λ n, if Nat.even n then WriteError EPIPE else WriteAll) in
  let send := dlt_daemon_client_send 1 env0 in
  ∃ (ok : bool) d1 c1 o', dlt_daemon_send_log_level env0 flags0 send 5 2 0 1 (control_daemon o) = Some (set_sys d1 o') ∧
    dlt_daemon_control_service_response env0 send 5 DLT_SERVICE_ID_SET_LOG_LEVEL
      (if ok then DLT_SERVICE_RESPONSE_OK else DLT_SERVICE_RESPONSE_ERROR) d1 = Some (set_sys d1 o') ∧
    ctx_at (tables d1) 0 1 c1 ∧ Ctx.log_level c1 = (if ok then 2 else 4) ∧ settled ctx_same (control_daemon o) d1.
Proof.
  intros o send.
  apply (level_answer_truthful env0 flags0 0 5 2 (control_daemon o) 0 1 (sample_ctx id_APP1 id_CON2 4 1 7 None)).
  - exact wf_daemon_env0.
  - done.
  - done.
  - apply control_daemon_sound.
  - by exists control_list.
Defined.

End DaemonLevelsSpec.
