(* ===== verification/DaemonUser.v ===== *)
(** * Messages of applications to the daemon ([src/daemon/dlt-daemon.c],
    [src/daemon/dlt_daemon_client.c])

    An application sends user messages: log messages and registrations.
    [dlt_daemon_process_user_messages] receives bytes, looks for the next user
    header and calls the handler of its type, until a handler finds its message
    incomplete; what is left waits for the next bytes.

    This is the daemon for protocol version 1 with named pipes, without shared
    memory, trace load control, settings per application and systemd.  A handler
    works on a [session]: the daemon, the message object of the daemon, and the
    receiver; [mem] is the memory behind the receiver.  Printing of messages on
    the console is left out. *)

From stdpp Require Import base list numbers option.
From Stdlib Require Import ZArith Lia Bool.
From S2P Require Import Prelude Protocol Ids Message Filter DltFile UserShared Payload Receiver.
From S2P Require Import DaemonTables DaemonSend DaemonControl.
Import Protocol Ids UserShared DaemonSend DaemonControl.

Local Open Scope Z_scope.

Module DaemonUser.

Definition DLT_USER_MESSAGE_NOT_SUPPORTED : Z := 16.
Definition DLT_DAEMON_DESCSIZE : Z := 256.
Definition DLT_DAEMON_TEXTBUFSIZE : Z := 512.
Definition DLT_USER_LOG_LEVEL_NOT_SET : Z := -2.
Definition DLT_USER_TRACE_STATUS_NOT_SET : Z := -2.
(** "ECU1". *)
Definition DLT_DAEMON_ECU_ID : bytes := [69; 67; 85; 49; 0].

Definition sizeof_DltUserControlMsgRegisterApplication : Z := 12.
Definition sizeof_DltUserControlMsgUnregisterApplication : Z := 8.
Definition sizeof_DltUserControlMsgRegisterContext : Z := 22.
Definition sizeof_DltUserControlMsgUnregisterContext : Z := 12.
Definition sizeof_DltUserControlMsgAppLogLevelTraceStatus : Z := 6.
Definition sizeof_DltUserControlMsgLogMode : Z := 1.
Definition sizeof_DltUserControlMsgBufferOverflow : Z := 8.

(** Of [daemon_local->flags]; the log level of the log storage, when devices are
    configured; [open] of an application's pipe; fresh memory for the table. *)
Record settings := {
  control_flags : flags;
  vflag : bool;
  rflag : bool;
  autoResponseGetLogInfoOption : Z;
  dlt_daemon_logstorage_get_loglevel : option (bytes -> bytes -> Z);
  open_fifo : Z -> Z;
  app_memory : DaemonTables.App.DltDaemonApplication
}.

Record session := {
  sd : daemon;
  smsg : Message.DltMessage;
  srec : Receiver.DltReceiver
}.
Definition with_daemon (s : session) (d : daemon) : session := {| sd := d; smsg := smsg s; srec := srec s |}.
Definition with_rec (s : session) (r : Receiver.DltReceiver) : session := {| sd := sd s; smsg := smsg s; srec := r |}.
Definition with_msg (s : session) (m : Message.DltMessage) : session := {| sd := sd s; smsg := m; srec := srec s |}.

(** [dlt_receiver_check_and_get(rec, &payload, len, DLT_RCV_SKIP_HEADER | DLT_RCV_REMOVE)];
    [None] inside: the function returns -1. *)
Definition get_and_remove (mem : bytes) (len : Z) (s : session) : option (option bytes * session) :=
  '(rc, p, r) ← Receiver.dlt_receiver_check_and_get (srec s) mem true len
                  (Z.lor Receiver.DLT_RCV_SKIP_HEADER Receiver.DLT_RCV_REMOVE);
  Some (if rc <? 0 then None else Some p, with_rec s r).

(** ** Registration of an application *)

Record register_application := { ra_apid : bytes; ra_pid : Z; ra_length : Z }.
Definition DltUserControlMsgRegisterApplication (p : bytes) : option register_application :=
  a ← mread p 0 4; pid ← mread p 4 4; n ← mread p 8 4;
  Some {| ra_apid := a; ra_pid := i32 (le_Z pid); ra_length := le_Z n |}.

(** "Unknown" with its terminator. *)
Definition unknown_description : bytes := [85; 110; 107; 110; 111; 119; 110; 0].

(** What both registrations do behind their payload of [to_remove] bytes: read
    the description and remove the message.  The receiver's count is still that
    of the whole message when the description is read.  [None] inside: -1. *)
Definition description_read (mem : bytes) (to_remove description_length : Z) (s : session)
  : option (option bytes * session) :=
  let len := if DLT_DAEMON_DESCSIZE <? description_length then DLT_DAEMON_DESCSIZE else description_length in
  origin ← Receiver.buf (srec s);
  let moved := Receiver.set_buf (srec s) (Some (origin + (to_remove + sizeof_DltUserHeader))) in
  '(rc, p, moved) ← Receiver.dlt_receiver_check_and_get moved mem true len 0;
  let zeros := replicate (Z.to_nat (DLT_DAEMON_DESCSIZE + 1)) 0 in
  description ← mwrite zeros 0 (if rc <? 0 then unknown_description else p);
  let len := if rc <? 0 then 0 else len in
  let r := Receiver.set_buf moved (Some origin) in
  let '(rc, r) := Receiver.dlt_receiver_remove r (i32 (u32 (to_remove + (sizeof_DltUserHeader + len)))) in
  Some (if negb (rc =? DLT_RETURN_OK) then None else Some (cstr 257 description), with_rec s r).

(** "ApplicationID '<apid>' registered for PID <pid>, Description=<text>". *)
Definition registered_text (apid : bytes) (pid : Z) (description : bytes) : bytes :=
  take (Z.to_nat (DLT_DAEMON_TEXTBUFSIZE - 1))
    ([65; 112; 112; 108; 105; 99; 97; 116; 105; 111; 110; 73; 68; 32; 39] ++ cstr 4 apid
     ++ [39; 32; 114; 101; 103; 105; 115; 116; 101; 114; 101; 100; 32; 102; 111; 114; 32; 80; 73; 68; 32] ++ Payload.Printf.dec pid
     ++ [44; 32; 68; 101; 115; 99; 114; 105; 112; 116; 105; 111; 110; 61] ++ description).

Definition dlt_daemon_process_user_message_register_application (E : env) (X : settings) (send : send_fn) (mem : bytes)
  (s : session) : option (Z * session) :=
  '(temp, p, r) ← Receiver.dlt_receiver_check_and_get (srec s) mem true sizeof_DltUserControlMsgRegisterApplication
                    Receiver.DLT_RCV_SKIP_HEADER;
  let s := with_rec s r in
  if temp <? 0 then Some (-1, s) else
  userapp ← DltUserControlMsgRegisterApplication p;
  '(description, s) ← description_read mem (u32 temp) (ra_length userapp) s;
  match description with
  | None => Some (-1, s)
  | Some description =>
      let d := sd s in
      let e := DaemonTables.ecuid (tables d) in
      old ← DaemonTables.dlt_daemon_application_find (tables d) (ra_apid userapp) e;
      old_pid ← (match old with
                 | None => Some 0
                 | Some k => i ← DaemonTables.dlt_daemon_find_users_list (tables d) e;
                             a ← DaemonTables.get_app (tables d) i k; Some (DaemonTables.App.pid a)
                 end);
      '(application, t) ← DaemonTables.dlt_daemon_application_add (heap E) (app_memory X) (open_fifo X) (tables d)
                            (ra_apid userapp) (ra_pid userapp) (Some description) e;
      let d := set_tables d t in
      match application with
      | None => Some (-1, with_daemon s d)
      | Some k =>
          i ← DaemonTables.dlt_daemon_find_users_list (tables d) e;
          '(_, d) ← dlt_daemon_user_send_log_state d i k;
          a ← DaemonTables.get_app (tables d) i k;
          d ← (if negb (old_pid =? DaemonTables.App.pid a) then
                 text ← DaemonTables.App.application_description a;
                 '(_, d) ← dlt_daemon_log_internal E send
                             (registered_text (DaemonTables.App.apid a) (DaemonTables.App.pid a) text) DLT_LOG_INFO d;
                 Some d
               else Some d);
          Some (0, with_daemon s d)
      end
  end.

(** ** Registration of a context *)

Record register_context := {
  rc_apid : bytes; rc_ctid : bytes; rc_pos : Z; rc_level : Z; rc_status : Z; rc_pid : Z; rc_length : Z }.
Definition DltUserControlMsgRegisterContext (p : bytes) : option register_context :=
  a ← mread p 0 4; c ← mread p 4 4; pos ← mread p 8 4; ll ← p !! 12%nat; ts ← p !! 13%nat; pid ← mread p 14 4; n ← mread p 18 4;
  Some {| rc_apid := a; rc_ctid := c; rc_pos := i32 (le_Z pos); rc_level := i8 ll; rc_status := i8 ts;
          rc_pid := i32 (le_Z pid); rc_length := le_Z n |}.

(** "ContextID '<ctid>' registered for ApID '<apid>', Description=<text>"; [%s]
    of a null pointer prints "(null)". *)
Definition context_text (ctid apid : bytes) (description : option bytes) : bytes :=
  take (Z.to_nat (DLT_DAEMON_TEXTBUFSIZE - 1))
    ([67; 111; 110; 116; 101; 120; 116; 73; 68; 32; 39] ++ cstr 4 ctid
     ++ [39; 32; 114; 101; 103; 105; 115; 116; 101; 114; 101; 100; 32; 102; 111; 114; 32; 65; 112; 73; 68; 32; 39] ++ cstr 4 apid
     ++ [39; 44; 32; 68; 101; 115; 99; 114; 105; 112; 116; 105; 111; 110; 61]
     ++ default [40; 110; 117; 108; 108; 41] description).

Definition with_storage_level (l : Z) (c : DaemonTables.Ctx.DltDaemonContext) : DaemonTables.Ctx.DltDaemonContext :=
  {| DaemonTables.Ctx.apid := DaemonTables.Ctx.apid c; DaemonTables.Ctx.ctid := DaemonTables.Ctx.ctid c;
     DaemonTables.Ctx.log_level := DaemonTables.Ctx.log_level c; DaemonTables.Ctx.trace_status := DaemonTables.Ctx.trace_status c;
     DaemonTables.Ctx.log_level_pos := DaemonTables.Ctx.log_level_pos c; DaemonTables.Ctx.user_handle := DaemonTables.Ctx.user_handle c;
     DaemonTables.Ctx.context_description := DaemonTables.Ctx.context_description c;
     DaemonTables.Ctx.storage_log_level := l; DaemonTables.Ctx.predefined := DaemonTables.Ctx.predefined c |}.

(** "Set log level" and "Set trace status": the value, [None] when implausible. *)
Definition plausible (not_set dflt high v : Z) : option Z :=
  if v =? not_set then Some dflt
  else if (v <? dflt) || (high <? v) then None else Some v.

(** The automatic answer for a new context: whether it could be made. *)
Definition auto_log_info (E : env) (X : settings) (send : send_fn) (apid ctid : bytes) (d : daemon) : option (bool * daemon) :=
  let '(_, m) := Message.dlt_message_init (stack E) in
  match malloc (heap E) sizeof_DltServiceGetLogInfoRequest with
  | None => Some (false, d)
  | Some b =>
      b ← mwrite b 0 (le_bytes 4 DLT_SERVICE_ID_GET_LOG_INFO ++ [u8 (autoResponseGetLogInfoOption X)]);
      a ← mread b 5 4; a ← Filter.set_id a apid; b ← mwrite b 5 a;
      c ← mread b 9 4; c ← Filter.set_id c ctid; b ← mwrite b 9 c;
      o ← mread b 13 4; o ← Filter.set_id o DLT_DAEMON_REMO_STRING; b ← mwrite b 13 o;
      let m := Message.set_databuffer (Message.set_sizes m (Message.headersize m) sizeof_DltServiceGetLogInfoRequest) (Some b)
                 sizeof_DltServiceGetLogInfoRequest in
      d ← dlt_daemon_control_get_log_info E send DLT_DAEMON_SEND_TO_ALL m d;
      Some (true, d)
  end.

(** Behind [dlt_daemon_context_add], which gave context [k]. *)
Definition context_registered (E : env) (X : settings) (send : send_fn) (apid ctid : bytes) (ll ts : Z) (k : nat) (d : daemon)
  : option (Z * daemon) :=
  i ← DaemonTables.dlt_daemon_find_users_list (tables d) (DaemonTables.ecuid (tables d));
  c ← get_ctx (tables d) i k;
  d ← (if vflag X then
         '(_, d) ← dlt_daemon_log_internal E send
                     (context_text (DaemonTables.Ctx.ctid c) (DaemonTables.Ctx.apid c) (DaemonTables.Ctx.context_description c))
                     DLT_LOG_INFO d;
         Some d
       else Some d);
  d ← on_ctx d i k (with_storage_level (match dlt_daemon_logstorage_get_loglevel X with
                                        | Some f => i8 (f apid ctid)
                                        | None => DaemonTables.DLT_LOG_DEFAULT
                                        end));
  '(ok, d) ← (if rflag X then auto_log_info E X send apid ctid d else Some (true, d));
  if negb ok then Some (-1, d) else
  c ← get_ctx (tables d) i k;
  if (DaemonTables.DLT_FD_MINIMUM <=? DaemonTables.Ctx.user_handle c)
     && ((ll =? DaemonTables.DLT_LOG_DEFAULT) || (ts =? DaemonTables.DLT_TRACE_STATUS_DEFAULT))
  then '(rc, d) ← dlt_daemon_user_send_log_level (control_flags X) d i k;
       Some (if rc =? -1 then -1 else 0, d)
  else Some (0, d).

Definition dlt_daemon_process_user_message_register_context (E : env) (X : settings) (send : send_fn) (mem : bytes)
  (s : session) : option (Z * session) :=
  '(temp, p, r) ← Receiver.dlt_receiver_check_and_get (srec s) mem true sizeof_DltUserControlMsgRegisterContext
                    Receiver.DLT_RCV_SKIP_HEADER;
  let s := with_rec s r in
  if temp <? 0 then Some (-1, s) else
  userctxt ← DltUserControlMsgRegisterContext p;
  '(description, s) ← description_read mem (u32 temp) (rc_length userctxt) s;
  match description with
  | None => Some (-1, s)
  | Some description =>
      let d := sd s in
      let e := DaemonTables.ecuid (tables d) in
      application ← DaemonTables.dlt_daemon_application_find (tables d) (rc_apid userctxt) e;
      match application with
      | None => Some (0, s)
      | Some ka =>
          match plausible DLT_USER_LOG_LEVEL_NOT_SET DaemonTables.DLT_LOG_DEFAULT DaemonTables.DLT_LOG_VERBOSE (rc_level userctxt),
                plausible DLT_USER_TRACE_STATUS_NOT_SET DaemonTables.DLT_TRACE_STATUS_DEFAULT DaemonTables.DLT_TRACE_STATUS_ON
                  (rc_status userctxt) with
          | Some ll, Some ts =>
              i ← DaemonTables.dlt_daemon_find_users_list (tables d) e;
              a ← DaemonTables.get_app (tables d) i ka;
              '(context, t) ← DaemonTables.dlt_daemon_context_add (heap E) (tables d) (rc_apid userctxt) (rc_ctid userctxt)
                                ll ts (rc_pos userctxt) (DaemonTables.App.user_handle a) (Some description) e;
              let d := set_tables d t in
              match context with
              | None => Some (-1, with_daemon s d)
              | Some k => '(rc, d) ← context_registered E X send (rc_apid userctxt) (rc_ctid userctxt) ll ts k d;
                          Some (rc, with_daemon s d)
              end
          | _, _ => Some (-1, s)
          end
      end
  end.

(** ** Unregistration *)

(** "Unregistered ApID '<apid>'" and "Unregistered CtID '<ctid>' for ApID '<apid>'". *)
Definition unregistered_text (apid : bytes) : bytes :=
  [85; 110; 114; 101; 103; 105; 115; 116; 101; 114; 101; 100; 32; 65; 112; 73; 68; 32; 39] ++ cstr 4 apid ++ [39].
Definition context_unregistered_text (ctid apid : bytes) : bytes :=
  [85; 110; 114; 101; 103; 105; 115; 116; 101; 114; 101; 100; 32; 67; 116; 73; 68; 32; 39] ++ cstr 4 ctid
  ++ [39; 32; 102; 111; 114; 32; 65; 112; 73; 68; 32; 39] ++ cstr 4 apid ++ [39].

(** [for (i = n - 1; i >= 0; i--)]: delete context [base + i]; [false]: -1. *)
Fixpoint delete_contexts (n : nat) (base : nat) (e : bytes) (t : DaemonTables.DltDaemon)
  : option (bool * DaemonTables.DltDaemon) :=
  match n with
  | O => Some (true, t)
  | S n =>
      '(rc, t) ← DaemonTables.dlt_daemon_context_del t (base + n) e;
      if rc =? -1 then Some (false, t) else delete_contexts n base e t
  end.

Definition dlt_daemon_process_user_message_unregister_application (E : env) (X : settings) (send : send_fn) (mem : bytes)
  (s : session) : option (Z * session) :=
  '(p, s) ← get_and_remove mem sizeof_DltUserControlMsgUnregisterApplication s;
  match p with
  | None => Some (-1, s)
  | Some p =>
      apid ← mread p 0 4;
      let d := sd s in
      let e := DaemonTables.ecuid (tables d) in
      match DaemonTables.dlt_daemon_find_users_list (tables d) e with
      | None => Some (-1, s)
      | Some i =>
          u ← DaemonTables.user_list (tables d) !! i;
          if negb (0 <? DaemonTables.num_applications u) then Some (0, s) else
          application ← DaemonTables.dlt_daemon_application_find (tables d) apid e;
          match application with
          | None => Some (0, s)
          | Some ka =>
              apps ← DaemonTables.applications u;
              base ← offset_base ka apps;
              a ← apps !! ka;
              '(ok, t) ← delete_contexts (Z.to_nat (DaemonTables.App.num_contexts a)) (Z.to_nat base) e (tables d);
              if negb ok then Some (-1, with_daemon s (set_tables d t)) else
              '(rc, t) ← DaemonTables.dlt_daemon_application_del t ka e;
              let d := set_tables d t in
              if rc =? -1 then Some (-1, with_daemon s d) else
              '(_, d) ← dlt_daemon_log_internal E send (unregistered_text apid) DLT_LOG_INFO d;
              Some (0, with_daemon s d)
          end
      end
  end.

Definition dlt_daemon_process_user_message_unregister_context (E : env) (X : settings) (send : send_fn) (mem : bytes)
  (s : session) : option (Z * session) :=
  '(p, s) ← get_and_remove mem sizeof_DltUserControlMsgUnregisterContext s;
  match p with
  | None => Some (-1, s)
  | Some p =>
      apid ← mread p 0 4;
      ctid ← mread p 4 4;
      let d := sd s in
      let e := DaemonTables.ecuid (tables d) in
      context ← DaemonTables.dlt_daemon_context_find (tables d) apid ctid e;
      '(ok, d) ← (match context with
                  | None => Some (true, d)
                  | Some k =>
                      i ← DaemonTables.dlt_daemon_find_users_list (tables d) e;
                      c ← get_ctx (tables d) i k;
                      if DaemonTables.Ctx.predefined c then Some (true, d) else
                      '(rc, t) ← DaemonTables.dlt_daemon_context_del (tables d) k e;
                      let d := set_tables d t in
                      if rc =? -1 then Some (false, d) else
                      if vflag X then
                        '(_, d) ← dlt_daemon_log_internal E send (context_unregistered_text ctid apid) DLT_LOG_INFO d;
                        Some (true, d)
                      else Some (true, d)
                  end);
      if negb ok then Some (-1, with_daemon s d) else
      d ← (if rflag X then
             '(_, d) ← dlt_daemon_control_message_unregister_context E send DLT_DAEMON_SEND_TO_ALL apid ctid
                         DLT_DAEMON_REMO_STRING d;
             Some d
           else Some d);
      Some (0, with_daemon s d)
  end.

(** ** Log messages *)

Definition dlt_daemon_client_send_message_to_all_client (E : env) (F : flags) (send : send_fn) (m : Message.DltMessage)
  (d : daemon) : option (Z * Message.DltMessage * daemon) :=
  let ecuid := DaemonTables.ecuid (tables d) in
  '(ok, m) ← (if negb (DaemonTables.empty_id (evalue F))
                 && strncmp_eq DLT_ID_SIZE (Message.ecu (Message.headerextra m)) DLT_DAEMON_ECU_ID
              then
                id ← Filter.set_id (Message.ecu (Message.headerextra m)) ecuid;
                '(rc, m) ← Message.dlt_message_set_extraparameters
                             (Message.set_headerextra m (Message.set_ecu (Message.headerextra m) id));
                let x := Message.headerextra m in
                Some (rc =? 0, if rc =? 0 then Message.set_headerextra m (Message.set_tmsp x (DLT_BETOH_32 (Message.tmsp x))) else m)
              else Some (true, m));
  if negb ok then Some (DLT_DAEMON_ERROR_UNKNOWN, m, d) else
  htyp ← Message.std_htyp m;
  let ecu_ptr := if DLT_IS_HTYP_WEID htyp then Message.ecu (Message.headerextra m) else ecuid in
  o ← Message.storageheader m;
  sh ← mread (Message.headerbuffer m) o 16;
  '(rc, sh) ← DltFile.dlt_set_storageheader sh (Some ecu_ptr) (now_sec E) (now_usec E);
  hb ← mwrite (Message.headerbuffer m) o sh;
  let m := Message.set_headerbuffer m hb in
  if negb (rc =? 0) then Some (DLT_DAEMON_ERROR_UNKNOWN, m, d) else
  '(rc, d) ← send_message send DLT_DAEMON_SEND_TO_ALL m d;
  Some (rc, m, d).

Definition enforce_context_ll_and_ts_keep_message (F : flags) (m : Message.DltMessage) : option bool :=
  match Message.extendedheader m with
  | None => Some true
  | Some _ =>
      if negb (enforceContextLLAndTS F) then Some true else
      msin ← Message.ext_msin m;
      Some (DLT_GET_MSIN_MTIN msin <=? contextLogLevel F)
  end.

Definition dlt_daemon_process_user_message_log (E : env) (X : settings) (send : send_fn) (mem : bytes) (s : session)
  : option (Z * session) :=
  b ← Receiver.buf (srec s);
  '(ret, m) ← Message.dlt_message_read (heap E) (smsg s) (Some (drop (Z.to_nat (b + sizeof_DltUserHeader)) mem))
                (u32 (u32 (Receiver.bytesRcvd (srec s)) - sizeof_DltUserHeader)) false;
  let s := with_msg s m in
  if negb (ret =? Message.DLT_MESSAGE_ERROR_OK) then Some (DLT_DAEMON_ERROR_UNKNOWN, s) else
  keep ← enforce_context_ll_and_ts_keep_message (control_flags X) m;
  s ← (if (keep : bool) then
         '(_, m, d) ← dlt_daemon_client_send_message_to_all_client E (control_flags X) send m (sd s);
         Some (with_daemon (with_msg s m) d)
       else Some s);
  let m := smsg s in
  let size := Message.headersize m + Message.datasize m - sizeof_DltStorageHeader + sizeof_DltUserHeader in
  let size := if negb (Message.found_serialheader m =? 0) then size + zlen Message.dltSerialHeader else size in
  let '(rc, r) := Receiver.dlt_receiver_remove (srec s) size in
  Some (if negb (rc =? DLT_RETURN_OK) then DLT_DAEMON_ERROR_UNKNOWN else DLT_DAEMON_ERROR_OK, with_rec s r).

(** ** Other messages *)

Definition dlt_daemon_process_user_message_not_sup (s : session) : option (Z * session) :=
  let '(_, r) := Receiver.dlt_receiver_remove (srec s) sizeof_DltUserHeader in
  Some (-1, with_rec s r).

Definition dlt_daemon_process_user_message_overflow (E : env) (send : send_fn) (mem : bytes) (s : session)
  : option (Z * session) :=
  '(p, s) ← get_and_remove mem sizeof_DltUserControlMsgBufferOverflow s;
  match p with
  | None => Some (-1, s)
  | Some p =>
      n ← mread p 0 4;
      apid ← mread p 4 4;
      '(rc, d) ← dlt_daemon_control_message_buffer_overflow E send DLT_DAEMON_SEND_TO_ALL (le_Z n) apid (sd s);
      Some (0, with_daemon s (if negb (rc =? 0) then set_overflow d (u32 (overflow_counter d + le_Z n)) else d))
  end.

(** [context_levels] is the body of the loop over the contexts of an application. *)
Definition context_levels (X : settings) (ll ts : Z) (i k : nat) (d : daemon) : option (bool * daemon) :=
  c ← get_ctx (tables d) i k;
  d ← on_ctx d i k (λ c, DaemonTables.Ctx.set_levels c ll ts);
  if DaemonTables.DLT_FD_MINIMUM <=? DaemonTables.Ctx.user_handle c then
    '(rc, d) ← dlt_daemon_user_send_log_level (control_flags X) d i k;
    if negb (rc =? 0)
    then d ← on_ctx d i k (λ c', DaemonTables.Ctx.set_levels c' (DaemonTables.Ctx.log_level c) (DaemonTables.Ctx.trace_status c));
         Some (true, d)
    else Some (true, d)
  else Some (true, d).

Definition dlt_daemon_process_user_message_set_app_ll_ts (X : settings) (mem : bytes) (s : session) : option (Z * session) :=
  let e := DaemonTables.ecuid (tables (sd s)) in
  match DaemonTables.dlt_daemon_find_users_list (tables (sd s)) e with
  | None => Some (DLT_RETURN_ERROR, s)
  | Some i =>
      '(p, s) ← get_and_remove mem sizeof_DltUserControlMsgAppLogLevelTraceStatus s;
      match p with
      | None => Some (DLT_RETURN_ERROR, s)
      | Some p =>
          apid ← mread p 0 4;
          ll ← p !! 4%nat;
          ts ← p !! 5%nat;
          u ← DaemonTables.user_list (tables (sd s)) !! i;
          if negb (0 <? DaemonTables.num_applications u) then Some (DLT_RETURN_OK, s) else
          application ← DaemonTables.dlt_daemon_application_find (tables (sd s)) apid e;
          match application with
          | None => Some (DLT_RETURN_OK, s)
          | Some ka =>
              apps ← DaemonTables.applications u;
              base ← offset_base ka apps;
              a ← apps !! ka;
              d ← each_context (Z.to_nat (DaemonTables.App.num_contexts a)) (context_levels X (i8 ll) (i8 ts)) i
                    (Z.to_nat base) (sd s);
              Some (DLT_RETURN_OK, with_daemon s d)
          end
      end
  end.

Definition dlt_daemon_process_user_message_marker (E : env) (send : send_fn) (mem : bytes) (s : session)
  : option (Z * session) :=
  '(p, s) ← get_and_remove mem sizeof_DltUserControlMsgLogMode s;
  match p with
  | None => Some (-1, s)
  | Some _ => '(_, d) ← dlt_daemon_control_message_marker E send DLT_DAEMON_SEND_TO_ALL (sd s);
              Some (0, with_daemon s d)
  end.

(** ** The loop *)

Definition process_user_func (E : env) (X : settings) (send : send_fn) (mem : bytes) (message : Z)
  : session -> option (Z * session) :=
  if message =? DLT_USER_MESSAGE_LOG then dlt_daemon_process_user_message_log E X send mem
  else if message =? DLT_USER_MESSAGE_REGISTER_APPLICATION then dlt_daemon_process_user_message_register_application E X send mem
  else if message =? DLT_USER_MESSAGE_UNREGISTER_APPLICATION then dlt_daemon_process_user_message_unregister_application E X send mem
  else if message =? DLT_USER_MESSAGE_REGISTER_CONTEXT then dlt_daemon_process_user_message_register_context E X send mem
  else if message =? DLT_USER_MESSAGE_UNREGISTER_CONTEXT then dlt_daemon_process_user_message_unregister_context E X send mem
  else if message =? DLT_USER_MESSAGE_OVERFLOW then dlt_daemon_process_user_message_overflow E send mem
  else if message =? DLT_USER_MESSAGE_APP_LL_TS then dlt_daemon_process_user_message_set_app_ll_ts X mem
  else if message =? DLT_USER_MESSAGE_MARKER then dlt_daemon_process_user_message_marker E send mem
  else dlt_daemon_process_user_message_not_sup.

(** The inner loop: the offset at which it ends and whether a user header is there. *)
Fixpoint user_resync (fuel : nat) (mem : bytes) (buf bytesRcvd offset : Z) : option (Z * bool) :=
  match fuel with
  | O => None
  | S fuel =>
      c ← dlt_user_check_userheader (Some (drop (Z.to_nat (buf + offset)) mem));
      if negb (c =? 0) then Some (offset, true)
      else if offset + sizeof_DltUserHeader <=? bytesRcvd then user_resync fuel mem buf bytesRcvd (offset + 1)
      else Some (offset, false)
  end.

(** The outer loop; [false]: the function returns -1.  Every round that goes on
    removes at least a user header, so the number of bytes is enough [fuel]. *)
Fixpoint user_loop (fuel : nat) (E : env) (X : settings) (send : send_fn) (mem : bytes) (s : session)
  : option (bool * session) :=
  match fuel with
  | O => None
  | S fuel =>
      if Receiver.bytesRcvd (srec s) <? sizeof_DltUserHeader then Some (true, s) else
      buf ← Receiver.buf (srec s);
      '(offset, found) ← user_resync (S (S (Z.to_nat (Receiver.bytesRcvd (srec s))))) mem buf (Receiver.bytesRcvd (srec s)) 0;
      if negb found then Some (true, s) else
      let '(rc, r) := (if 0 <? offset then Receiver.dlt_receiver_remove (srec s) offset else (DLT_RETURN_OK, srec s)) in
      let s := with_rec s r in
      if rc =? -1 then Some (false, s) else
      message ← userheader_message (drop (Z.to_nat (buf + offset)) mem);
      '(rc, s) ← process_user_func E X send mem message s;
      if rc =? -1 then Some (true, s) else user_loop fuel E X send mem s
  end.

(** [input] is what the system call delivers. *)
Definition dlt_daemon_process_user_messages (E : env) (X : settings) (send : send_fn) (input : option bytes) (mem : bytes)
  (s : session) : option (Z * session * bytes) :=
  '(recv, r, mem) ← Receiver.dlt_receiver_receive (srec s) mem input;
  let s := with_rec s r in
  if (recv <=? 0) && (if Receiver.type r is Receiver.DLT_RECEIVE_SOCKET then true else false) then
    '(_, d) ← dlt_daemon_close_socket E send (Receiver.fd r) (sd s);
    Some (0, with_daemon s d, mem)
  else if recv <? 0 then Some (-1, s, mem)
  else
    '(ok, s) ← user_loop (S (Z.to_nat (Receiver.bytesRcvd r))) E X send mem s;
    if negb ok then Some (-1, s, mem) else
    '(rc, r) ← Receiver.dlt_receiver_move_to_begin (heap E) (srec s) mem;
    Some (if rc =? -1 then -1 else 0, with_rec s r, mem).

End DaemonUser.
