(* ===== verification/DaemonRegistrySpec.v ===== *)
(** * The registry of applications and contexts

    What the tables of the daemon mean to its users: which applications and
    contexts are registered, with process, description and position, apart from
    handles, levels and the order in the arrays.  Each operation of the tables is
    an operation of the registry, and talking to applications leaves it alone. *)

From stdpp Require Import base gmap sets list list_numbers numbers option.
From Stdlib Require Import ZArith Lia Bool.
From S2P Require Import Prelude Ids SortedTable DaemonTables DaemonTablesSpec DaemonContextsSpec DaemonKeptSpec.
From S2P Require Import DaemonSend DaemonControl DaemonControlSpec DaemonLogInfoSpec DaemonUser.
Import Ids SortedTable DaemonTables DaemonTablesSpec DaemonContextsSpec DaemonKeptSpec DaemonControl DaemonLogInfoSpec DaemonUser.

Local Open Scope Z_scope.

Module DaemonRegistrySpec.

(** ** Operations that leave the contexts in place *)

Record list_ctxs (u u' : DltDaemonRegisteredUsers) : Prop := {
  lc_ecu : ecu u' = ecu u;
  lc_n : num_contexts u' = num_contexts u;
  lc_ctxs : option_Forall2 (Forall2 ctx_handle) (contexts u) (contexts u')
}.
Record ctxs_kept (t t' : DltDaemon) : Prop := {
  ck_ecuid : ecuid t' = ecuid t;
  ck_force : force_ll_ts t' = force_ll_ts t;
  ck_lists : Forall2 list_ctxs (user_list t) (user_list t')
}.
#[export] Instance list_ctxs_preorder : PreOrder list_ctxs.
Proof.
  split; [intros u; by split|]. intros u v w [] []. split; [congruence..|by etrans].
Qed.
#[export] Instance ctxs_kept_preorder : PreOrder ctxs_kept.
Proof. split; [intros t; by split|]. intros t u v [] []. split; [congruence..|by etrans]. Qed.

Lemma set_list_ctxs t i u u' : user_list t !! i = Some u -> list_ctxs u u' -> ctxs_kept t (set_list t i u').
Proof.
  intros Hu Hk. split; [done..|]. cbn. rewrite <-(list_insert_id (user_list t) i u) at 1 by done.
  apply Forall2_insert; [reflexivity|done].
Qed.
Lemma set_apps_ctxs t i u a n : user_list t !! i = Some u -> ctxs_kept t (set_list t i (set_apps u a n)).
Proof. intros Hu. apply (set_list_ctxs t i u); [done|by split]. Qed.

Lemma update_app_ctxs t i k g t' : update_app t i k g = Some t' -> ctxs_kept t t'.
Proof. unfold update_app. intros H. simplify_option_eq. by apply set_apps_ctxs. Qed.
Lemma apps_invalidate_ctxs t e fd rc t' : dlt_daemon_applications_invalidate_fd t e fd = Some (rc, t') -> ctxs_kept t t'.
Proof.
  unfold dlt_daemon_applications_invalidate_fd. intros H. destruct (dlt_daemon_find_users_list t e); simplify_option_eq; try reflexivity.
  case_match; simplify_option_eq; [reflexivity|]. case_match; simplify_option_eq. by apply set_apps_ctxs.
Qed.
Lemma ctxs_invalidate_ctxs t e fd rc t' : dlt_daemon_contexts_invalidate_fd t e fd = Some (rc, t') -> ctxs_kept t t'.
Proof.
  unfold dlt_daemon_contexts_invalidate_fd. intros H. destruct (dlt_daemon_find_users_list t e); simplify_option_eq; try reflexivity.
  case_match; simplify_option_eq; [reflexivity|]. case_match; simplify_option_eq.
  eapply set_list_ctxs; [done|]. split; try done. match goal with H : contexts _ = Some _ |- _ => rewrite H end. cbn. constructor.
  apply map_first_Forall2; [apply _|]. intros c. unfold reset_ctx_fd. case_match; [by eexists|reflexivity].
Qed.
Lemma reset_handle_ctxs t i k t' : dlt_daemon_application_reset_user_handle t i k = Some t' -> ctxs_kept t t'.
Proof.
  unfold dlt_daemon_application_reset_user_handle. intros H. simplify_option_eq. case_match; simplify_option_eq; [reflexivity|].
  match goal with H : dlt_daemon_contexts_invalidate_fd _ _ _ = Some ?p |- _ => destruct p as [rc t1]; apply ctxs_invalidate_ctxs in H end.
  simplify_option_eq. etrans; [done|]. by apply set_apps_ctxs.
Qed.

Lemma application_register_ctxs M o t i k pid descr e t' :
  application_register M o t i k pid descr e = Some t' -> ctxs_kept t t'.
Proof.
  unfold application_register, application_describe. intros H. unbind H as t1 E1.
  assert (ctxs_kept t t1) as K1.
  { unbind E1 as t0 E0. apply update_app_ctxs in E0. destruct descr; [|by injection E1 as <-].
    destruct (malloc _ _); [|done]. apply update_app_ctxs in E1. by etrans. }
  unbind H as a Ea. unbind H as t2 E2. assert (ctxs_kept t t2) as K2.
  { case_match; [|by injection E2 as <-]. unbind E2 as t3 E3. apply reset_handle_ctxs in E3. apply update_app_ctxs in E2.
    etrans; [done|]. by etrans. }
  unbind H as b Eb. case_match; [|by injection H as <-]. unbind H as p E3. destruct p as [r3 t3]. apply apps_invalidate_ctxs in E3.
  unbind H as p E4. destruct p as [r4 t4]. apply ctxs_invalidate_ctxs in E4. apply update_app_ctxs in H.
  etrans; [done|]. etrans; [done|]. by etrans.
Qed.

Lemma application_slot_ctxs M junk u apid u' slot : application_slot M junk u apid = Some (u', slot) -> list_ctxs u u'.
Proof.
  unfold application_slot. intros H. destruct (match applications u with Some _ => _ | None => _ end); [|by injection H as <- _].
  unbind H as f Ef. destruct f; [by injection H as <- _; split|]. unbind H as g Eg. destruct g; [|by injection H as <- _; split].
  unbind H as a Ea. unbind H as x Ex. unbind H as y Ey. by injection H as <- _; split.
Qed.

Lemma application_add_ctxs M junk o t apid pid descr e r t' :
  dlt_daemon_application_add M junk o t apid pid descr e = Some (r, t') -> ctxs_kept t t'.
Proof.
  unfold dlt_daemon_application_add. intros H. destruct (empty_id apid); [by injection H as _ <-|].
  destruct (dlt_daemon_find_users_list t e) as [i|]; [|by injection H as _ <-]. unbind H as u Eu. unbind H as p Ep. destruct p as [u1 slot].
  apply application_slot_ctxs in Ep. pose proof (set_list_ctxs _ _ _ _ Eu Ep) as K1. destruct slot as [[k new]|]; [|by injection H as _ <-].
  unbind H as t1 E1. apply application_register_ctxs in E1. destruct new; [|injection H as _ <-; by etrans].
  unbind H as u2 E2. unbind H as u3 E3. unbind H as x E4. injection H as _ <-. etrans; [done|]. etrans; [done|].
  unfold sort_apps in E3. unbind E3 as apps Ea. injection E3 as <-. by apply set_apps_ctxs.
Qed.

Lemma application_del_ctxs t k e rc t' : dlt_daemon_application_del t k e = Some (rc, t') -> ctxs_kept t t'.
Proof.
  unfold dlt_daemon_application_del. intros H. destruct (dlt_daemon_find_users_list t e) as [i|]; [|by injection H as _ <-].
  unbind H as u Eu. destruct (0 <? _); [|by injection H as _ <-]. unbind H as t1 E1. unbind H as t2 E2. unbind H as u2 Eu2.
  unbind H as apps Ea. unbind H as apps' Ea'. injection H as _ <-.
  apply reset_handle_ctxs in E1. apply update_app_ctxs in E2. etrans; [done|]. etrans; [done|]. by apply set_apps_ctxs.
Qed.

(** ** The registry *)

Record app_entry := { ae_pid : Z; ae_text : option bytes }.
Record ctx_entry := { ce_apid : bytes; ce_pos : Z; ce_text : option bytes; ce_predefined : bool }.
Record registry := { r_apps : gmap bytes app_entry; r_ctxs : gmap bytes ctx_entry }.

Definition app_info (a : App.DltDaemonApplication) : app_entry :=
  {| ae_pid := App.pid a; ae_text := App.application_description a |}.
Definition ctx_info (c : Ctx.DltDaemonContext) : ctx_entry :=
  {| ce_apid := Ctx.apid c; ce_pos := Ctx.log_level_pos c; ce_text := Ctx.context_description c; ce_predefined := Ctx.predefined c |}.
Definition abs (u : DltDaemonRegisteredUsers) : registry :=
  {| r_apps := app_info <$> amap u; r_ctxs := ctx_info <$> cmap u |}.

(** Applications know the number of their contexts, contexts have an application,
    and no application has the descriptor of the standard input. *)
Record linked_maps (u : DltDaemonRegisteredUsers) : Prop := {
  lm_counted : counted (amap u) (cmap u);
  lm_owned : ∀ k c, cmap u !! k = Some c -> is_Some (amap u !! Ctx.apid c);
  lm_handles : ∀ k a, amap u !! k = Some a -> App.user_handle a <> 0
}.
(** The daemon's own list shows [R]. *)
Definition shows (t : DltDaemon) (R : registry) : Prop :=
  daemon_inv t ∧ ∃ i u, own_list t (ecuid t) i u ∧ abs u = R ∧ linked_maps u.

Definition register_app (apid : bytes) (pid : Z) (text : bytes) (R : registry) : registry :=
  {| r_apps := <[apid := {| ae_pid := pid; ae_text := Some text |}]> (r_apps R); r_ctxs := r_ctxs R |}.
Definition unregister_app (apid : bytes) (R : registry) : registry :=
  {| r_apps := delete apid (r_apps R); r_ctxs := filter (λ kv, ce_apid kv.2 <> apid) (r_ctxs R) |}.
Definition register_ctx (apid ctid : bytes) (pos : Z) (text : bytes) (R : registry) : registry :=
  if r_apps R !! apid is Some _ then
    {| r_apps := r_apps R;
       r_ctxs := <[apid ++ ctid := {| ce_apid := apid; ce_pos := pos; ce_text := Some text; ce_predefined := false |}]>
                   (r_ctxs R) |}
  else R.
Definition unregister_ctx (apid ctid : bytes) (R : registry) : registry :=
  if r_ctxs R !! (apid ++ ctid) is Some e then
    if ce_predefined e then R else {| r_apps := r_apps R; r_ctxs := delete (apid ++ ctid) (r_ctxs R) |}
  else R.

(** *** Contexts that mean the same *)

Definition ctx_alike (c c' : Ctx.DltDaemonContext) : Prop := ctx_info c' = ctx_info c ∧ Ctx.ctid c' = Ctx.ctid c.
#[export] Instance ctx_alike_preorder : PreOrder ctx_alike.
Proof. split; [done|]. intros a b c [] []. split; congruence. Qed.
Lemma alike_handle c c' : ctx_handle c c' -> ctx_alike c c'.
Proof. by intros (h & ->). Qed.
Lemma alike_same c c' : ctx_same c c' -> ctx_alike c c'.
Proof. by intros (h & l & s & ->). Qed.
Lemma alike_ids c c' : ctx_alike c c' -> Ctx.apid c' = Ctx.apid c ∧ Ctx.ctid c' = Ctx.ctid c.
Proof. intros [H ?]. split; [|done]. by injection H. Qed.
Lemma alike_key c c' : ctx_alike c c' -> ctx_key c' = ctx_key c.
Proof. intros [Ha Hc]%alike_ids. unfold ctx_key. congruence. Qed.

Lemma table_Forall2 {A} (key : A -> bytes) (Q : A -> A -> Prop) l l' :
  (∀ x x', Q x x' -> key x' = key x) -> Forall2 Q l l' -> map_Forall2 (λ _, Q) (table key l) (table key l').
Proof.
  intros HQ. induction 1 as [|x x' l l' Hx Hl IH]; [apply map_Forall2_empty|]. rewrite !table_cons, (HQ _ _ Hx).
  by apply map_Forall2_insert_2.
Qed.
Lemma fmap_Forall2 {A B} (f : A -> B) (Q : A -> A -> Prop) (m m' : gmap bytes A) :
  (∀ x x', Q x x' -> f x' = f x) -> map_Forall2 (λ _, Q) m m' -> f <$> m' = f <$> m.
Proof.
  intros HQ Hm. apply map_eq. intros k. rewrite !lookup_fmap. specialize (Hm k). inversion Hm as [x x' Hx|]; cbn; [|done].
  f_equal. by apply HQ.
Qed.

(** The number of contexts in terms of the registry. *)
Lemma contexts_of_info apid C : size (contexts_of apid C) = size (filter (λ kv, ce_apid kv.2 = apid) (ctx_info <$> C)).
Proof. unfold contexts_of. rewrite map_filter_fmap. by rewrite map_size_fmap. Qed.

Lemma same_meaning u u' :
  map_Forall2 (λ _, app_same) (amap u) (amap u') -> map_Forall2 (λ _, ctx_alike) (cmap u) (cmap u') ->
  linked_maps u -> abs u' = abs u ∧ linked_maps u'.
Proof.
  intros Ha Hc [Hn Ho Hh]. assert (ctx_info <$> cmap u' = ctx_info <$> cmap u) as Ec by (eapply fmap_Forall2; [|done]; by intros x x' []).
  split.
  - unfold abs. f_equal; [|done]. eapply fmap_Forall2; [|done]. by intros a a' (h & o & -> & _).
  - split.
    + intros apid a' Ha'. specialize (Ha apid). rewrite Ha' in Ha. inversion Ha as [a ? (h & o & -> & _) Ea|].
      rewrite contexts_of_info, Ec, <-contexts_of_info. cbn. apply Hn. by symmetry.
    + intros k c' Hc'. specialize (Hc k). rewrite Hc' in Hc. inversion Hc as [c ? Hcc Ek|].
      destruct (alike_ids _ _ Hcc) as [-> _]. destruct (Ho k c ltac:(by symmetry)) as [a Ea]. specialize (Ha (Ctx.apid c)).
      rewrite Ea in Ha. inversion Ha. by eexists.
    + intros k a' Ha'. specialize (Ha k). rewrite Ha' in Ha. inversion Ha as [a ? (h & o & -> & H0) Ea|].
      cbn. destruct H0 as [->| ->]; [|done]. eapply Hh. by symmetry.
Qed.

(** Tables that differ in settings show the same registry. *)
Lemma kept_shows Q t t' R : (∀ c c', Q c c' -> ctx_alike c c') -> kept Q t t' -> daemon_inv t' -> shows t R -> shows t' R.
Proof.
  intros HQ K Hd' (Hd & i & u & [Hf Hu] & <- & Hl). split; [done|]. destruct (kept_lookup _ _ _ _ _ K Hu) as (u' & Hu' & L).
  exists i, u'. split; [split; [|done]|].
  { by rewrite (kp_ecuid K), (kept_find _ _ _ _ K). }
  apply same_meaning; [| |done].
  - apply table_Forall2; [apply app_same_key|]. by eapply live_apps_kept.
  - apply table_Forall2; [apply alike_key|]. eapply list.Forall2_impl; [by eapply live_ctxs_kept|done].
Qed.

(** *** Registration of an application *)

Lemma ctxs_kept_own t t' e i u u' :
  ctxs_kept t t' -> own_list t e i u -> own_list t' e i u' -> map_Forall2 (λ _, ctx_alike) (cmap u) (cmap u').
Proof.
  intros [_ _ K] [_ Hu] [_ Hu']. destruct (Forall2_lookup_l _ _ _ _ _ K Hu) as (v & Hv & [_ Hn Hc]). rewrite Hu' in Hv. injection Hv as <-.
  apply table_Forall2; [apply alike_key|]. unfold live_ctxs. rewrite Hn. apply Forall2_take.
  eapply list.Forall2_impl; [|apply alike_handle]. inversion Hc; [done|constructor].
Qed.

Lemma registered_pid o a pid descr : App.pid (registered o a pid descr) = pid.
Proof.
  unfold registered, needs_handle, reopened, drop_handle. destruct (Z.eqb_spec (App.pid a) pid) as [E|E].
  - destruct (_ && _); [done|]. by cbn.
  - assert (∀ b : bool, App.user_handle (App.set_pid (if b then a else App.set_handle a DLT_FD_INIT false) 0) =
      if b then App.user_handle a else DLT_FD_INIT) as H by (by intros []). rewrite H. clear H.
    destruct (Z.eqb_spec (App.user_handle a) DLT_FD_INIT) as [->|]; cbn [Z.eqb DLT_FD_INIT Pos.eqb andb]; change (DLT_FD_INIT =? DLT_FD_INIT) with true;
      cbn [andb]; (destruct (Z.eqb_spec pid 0) as [->|]; done).
Qed.
Lemma registered_text' o a pid descr : App.application_description (registered o a pid descr) = descr.
Proof. unfold registered. by case_match. Qed.
Lemma registered_contexts o a pid descr : App.num_contexts (registered o a pid descr) = App.num_contexts a.
Proof. unfold registered, reopened, drop_handle. by repeat case_match. Qed.
Lemma others_info o a pid x : app_info (others o a pid x) = app_info x ∧ App.num_contexts (others o a pid x) = App.num_contexts x.
Proof. unfold others, reset_app_fd. by repeat case_match. Qed.

Lemma registered_handle o a pid descr : (∀ p, o p <> 0) -> App.user_handle a <> 0 -> App.user_handle (registered o a pid descr) <> 0.
Proof. intros Ho Ha. unfold registered, reopened, drop_handle. repeat case_match; cbn; done. Qed.
Lemma others_handle o a pid x : App.user_handle x <> 0 -> App.user_handle (others o a pid x) <> 0.
Proof. unfold others, reset_app_fd. intros Hx. repeat case_match; cbn; done. Qed.

Lemma no_contexts apid u : linked_maps u -> amap u !! apid = None -> size (contexts_of apid (cmap u)) = 0%nat.
Proof.
  intros [_ Ho _] Ha. apply map_size_empty_iff, map_empty. intros k. apply map_lookup_filter_None. right. intros c Hc E. cbn in E.
  destruct (Ho k c Hc) as [a Ha']. rewrite E in Ha'. congruence.
Qed.

(** The entry an operation returned. *)
Definition app_at (t : DltDaemon) (k : nat) (a : App.DltDaemonApplication) : Prop :=
  ∃ i u, own_list t (ecuid t) i u ∧ live_apps u !! k = Some a.

Lemma add_shows M junk o t apid pid text R :
  heap_ok M -> shows t R -> good_id apid -> (∀ p, o p <> 0) ->
  ∃ k t' a, dlt_daemon_application_add M junk o t apid pid (Some text) (ecuid t) = Some (Some k, t') ∧
    shows t' (register_app apid pid text R) ∧ ecuid t' = ecuid t ∧ app_at t' k a ∧
    App.apid a = apid ∧ app_info a = {| ae_pid := pid; ae_text := Some text |}.
Proof.
  intros HM (Hd & i & u & Hown & <- & Hl) Hid Ho.
  destruct (application_added M junk o t apid pid (Some text) (ecuid t) i u HM Hd Hown Hid)
    as (k & t' & u' & Ea & Hown' & Hd' & Hk & Hm & _). pose proof (application_add_ctxs _ _ _ _ _ _ _ _ _ _ Ea) as K.
  pose proof (ctxs_kept_own _ _ _ _ _ _ K Hown Hown') as Hc. set (a := default _ _) in *. set (a' := registered o a pid (Some text)) in *.
  assert (app_info a' = {| ae_pid := pid; ae_text := Some text |}) as Hinfo
    by (unfold app_info, a'; by rewrite registered_pid, registered_text').
  assert (App.apid a' = apid) as Hida.
  { unfold a'. rewrite registered_id. unfold a. destruct (amap u !! apid) as [x|] eqn:E; [|done]. cbn.
    unfold amap in E. destruct Hown as [_ Hu]. destruct (Hd i u Hu) as [Hi _].
    apply table_lookup in E as [_ E]; [done|apply sorted_NoDup, Hi]. }
  exists k, t', a'. assert (ecuid t' = ecuid t) as He by apply K. split_and!; [done| |done|exists i, u'; by rewrite He|done|done].
  split; [done|]. exists i, u'. rewrite He. split_and!; [done| |].
  - unfold abs, register_app. cbn [r_apps r_ctxs]. rewrite Hm, fmap_insert, Hinfo, <-map_fmap_compose. f_equal.
    + f_equal. apply map_fmap_ext. intros ? x _. apply others_info.
    + eapply fmap_Forall2; [|done]. by intros x x' [].
  - assert (ctx_info <$> cmap u' = ctx_info <$> cmap u) as Ec by (eapply fmap_Forall2; [|done]; by intros x x' []).
    split.
    + intros id b. rewrite contexts_of_info, Ec, <-contexts_of_info, Hm. destruct (decide (id = apid)) as [->|Hne].
      * rewrite lookup_insert_eq. intros [= <-]. unfold a'. rewrite registered_contexts. unfold a.
        destruct (amap u !! apid) as [x|] eqn:E; cbn; [by apply Hl|]. by rewrite no_contexts.
      * rewrite lookup_insert_ne, lookup_fmap by done. intros (x & Hx & ->)%fmap_Some. rewrite (proj2 (others_info _ _ _ _)).
        by apply Hl.
    + intros key c' Hc'. specialize (Hc key). rewrite Hc' in Hc. inversion Hc as [c ? Hcc Ek|]. destruct (alike_ids _ _ Hcc) as [-> _].
      rewrite Hm. destruct (decide (Ctx.apid c = apid)) as [->|Hne]; [rewrite lookup_insert_eq; by eexists|].
      rewrite lookup_insert_ne, lookup_fmap by done. apply fmap_is_Some. by apply (lm_owned _ Hl key).
    + intros key b. rewrite Hm. destruct (decide (key = apid)) as [->|Hne].
      * rewrite lookup_insert_eq. intros [= <-]. apply registered_handle; [done|]. unfold a.
        destruct (amap u !! apid) as [x|] eqn:E; cbn; [by apply (lm_handles _ Hl apid)|done].
      * rewrite lookup_insert_ne, lookup_fmap by done. intros (x & Hx & ->)%fmap_Some. apply others_handle. by apply (lm_handles _ Hl key).
Qed.

(** *** Contexts *)

(** What is not in the lists stays. *)
Lemma context_add_keeps {A} (f : DltDaemon -> A) M t a c ll ts pos h descr e r t' : (∀ t i u, f (set_list t i u) = f t) ->
  dlt_daemon_context_add M t a c ll ts pos h descr e = Some (r, t') -> f t' = f t.
Proof.
  intros Hf. unfold dlt_daemon_context_add. intros H. do 3 (case_match; [by injection H as _ <-|]).
  destruct (dlt_daemon_find_users_list t e) as [i|]; [|by injection H as _ <-]. unbind H as u Eu. unbind H as p Ep. destruct p as [u1 slot].
  destruct slot as [[k new]|]; [|by injection H as _ <-]. unbind H as ctxs Ec. unbind H as x Ex. destruct (adapted _ _ _ _) as [l s].
  destruct new; [|by injection H as _ <-]. unbind H as u2 E2. unbind H as y Ey. by injection H as _ <-.
Qed.
Lemma context_add_ecuid M t a c ll ts pos h descr e r t' :
  dlt_daemon_context_add M t a c ll ts pos h descr e = Some (r, t') -> ecuid t' = ecuid t.
Proof. by apply context_add_keeps. Qed.

Lemma stored_info t e new c ll ts pos h descr :
  ctx_info (stored_context t e new c ll ts pos h descr) =
  {| ce_apid := Ctx.apid c; ce_pos := pos; ce_text := descr; ce_predefined := (h =? 0) |}.
Proof. unfold stored_context. by destruct (new || _). Qed.

Lemma count_info dn a : app_info (count_context dn a) = app_info a.
Proof. done. Qed.

Lemma info_insert {A B} (f : A -> B) (m : gmap bytes A) k x y : m !! k = Some x -> f y = f x -> f <$> <[k := y]> m = f <$> m.
Proof. intros Hk Hf. rewrite fmap_insert, Hf, <-fmap_insert. by rewrite insert_id. Qed.

Lemma cmap_apid t e i u apid ctid c :
  daemon_inv t -> own_list t e i u -> length apid = 4%nat -> cmap u !! (apid ++ ctid) = Some c -> Ctx.apid c = apid ∧ Ctx.ctid c = ctid.
Proof.
  intros Hd [_ Hu] La Hc. destruct (Hd i u Hu) as [_ [_ Hs Hi]]. unfold cmap in Hc. apply table_lookup in Hc as [Hin Hk]; [|by apply sorted_NoDup].
  rewrite list.Forall_forall in Hi. destruct (Hi c Hin) as [[Hid _] _]. unfold ctx_key in Hk.
  apply app_inj_1 in Hk; [done|]. by rewrite (is_id_length _ Hid).
Qed.

Lemma add_ctx_shows M t apid ctid ll ts pos h text R e0 :
  heap_ok M -> shows t R -> good_id apid -> good_id ctid ->
  DLT_LOG_DEFAULT <= ll <= DLT_LOG_VERBOSE -> DLT_TRACE_STATUS_DEFAULT <= ts <= DLT_TRACE_STATUS_ON -> r_apps R !! apid = Some e0 -> h <> 0 ->
  ∃ i k t' c, dlt_daemon_context_add M t apid ctid ll ts pos h (Some text) (ecuid t) = Some (Some k, t') ∧
    shows t' (register_ctx apid ctid pos text R) ∧ ecuid t' = ecuid t ∧
    dlt_daemon_find_users_list t' (ecuid t') = Some i ∧ ctx_at t' i k c ∧ Ctx.apid c = apid ∧ Ctx.ctid c = ctid ∧
    Ctx.context_description c = Some text.
Proof.
  intros HM (Hd & i & u & Hown & <- & Hl) Ha Hc Hll Hts He0 Hh. cbn [r_apps abs] in He0.
  rewrite lookup_fmap in He0. apply fmap_Some in He0 as (a & Haa & ->).
  destruct (context_added M t apid ctid ll ts pos h (Some text) (ecuid t) i u a HM Hd Hown Ha Hc Hll Hts Haa)
    as (k & t' & u' & Ea & Hown' & Hd' & Hk & Hm & Hma & Hcnt). pose proof (context_add_ecuid _ _ _ _ _ _ _ _ _ _ _ _ Ea) as He.
  set (old := cmap u !! (apid ++ ctid)) in *. set (c := stored_context _ _ _ _ _ _ _ _ _) in *.
  assert (ctx_info c = {| ce_apid := apid; ce_pos := pos; ce_text := Some text; ce_predefined := false |}) as Hinfo.
  { unfold c. rewrite stored_info, eqb_false by done. f_equal. destruct old as [x|] eqn:Eo; cbn; [|done].
    by eapply (cmap_apid t (ecuid t) i u apid ctid); [done|done|by apply good_id_length|]. }
  assert (Ctx.apid c = apid) as Hca by (by injection Hinfo).
  assert (Ctx.ctid c = ctid) as Hcc.
  { unfold c. rewrite (proj2 (stored_ids _ _ _ _ _ _ _ _ _)). destruct old as [x|] eqn:Eo; cbn; [|done].
    by eapply (cmap_apid t (ecuid t) i u apid ctid); [done|done|by apply good_id_length|]. }
  exists i, k, t', c. split_and!; [done| |done|rewrite He; apply Hown'|exists u'; split; [apply Hown'|done]|done|done|by injection Hinfo].
  split; [done|]. exists i, u'. rewrite He. assert (app_info <$> amap u' = app_info <$> amap u) as Eapps.
  { rewrite Hma. destruct old; [done|]. by rewrite (info_insert app_info _ _ a). }
  split_and!; [done| |].
  - unfold abs at 1, register_ctx. cbn [r_apps abs]. rewrite lookup_fmap, Haa. cbn [fmap option_fmap option_map]. rewrite Eapps, Hm. f_equal.
    by rewrite fmap_insert, Hinfo.
  - assert (∀ id, is_Some (amap u !! id) -> is_Some (amap u' !! id)) as Hdom.
    { intros id [x Hx]. rewrite Hma. destruct old; [by eexists|]. destruct (decide (id = apid)) as [->|]; [rewrite lookup_insert_eq; by eexists|].
      rewrite lookup_insert_ne by done. by eexists. }
    split; [by apply Hcnt, Hl| |].
    { intros key x. rewrite Hm. destruct (decide (key = apid ++ ctid)) as [->|Hne].
    + rewrite lookup_insert_eq. intros [= <-]. apply Hdom. rewrite Hca. by eexists.
    + rewrite lookup_insert_ne by done. intros Hx. by apply Hdom, (lm_owned _ Hl key). }
    { intros key x. rewrite Hma. destruct old; [apply (lm_handles _ Hl)|].
      destruct (decide (key = apid)) as [->|Hne]; [rewrite lookup_insert_eq; intros [= <-]; exact (lm_handles _ Hl apid a Haa)|].
      rewrite lookup_insert_ne by done. apply (lm_handles _ Hl). }
Qed.

(** *** Deletion *)

Lemma context_del_lists t e i u k rc t' u' :
  daemon_inv t -> own_list t e i u -> (k < length (live_ctxs u))%nat ->
  dlt_daemon_context_del t k e = Some (rc, t') -> user_list t' !! i = Some u' ->
  ecuid t' = ecuid t ∧ live_ctxs u' = take k (live_ctxs u) ++ drop (S k) (live_ctxs u) ∧ app_key <$> live_apps u' = app_key <$> live_apps u.
Proof.
  intros Hd [Hf Hu] Hk H Hu'. unfold dlt_daemon_context_del in H. rewrite Hf in H. rewrite Hu in H. cbn [mbind option_bind] in H.
  destruct (Hd i u Hu) as [_ [Hb _ _]]. unfold live_ctxs in Hk. rewrite length_take in Hk. rewrite ltb_true in H by lia.
  destruct (contexts u) as [ctxs|] eqn:Ec; [|cbn in Hk; lia]. cbn [mbind option_bind default from_option id] in H, Hk.
  unbind H as c Hc. unbind H as app Ha. destruct (remove_entry_ok Ctx.zeroed (num_contexts u) k ctxs _ Hb) as (l & El & _ & Hl); [lia|].
  rewrite El in H. cbn [mbind option_bind] in H. set (u1 := set_ctxs u (Some l) (num_contexts u - 1)) in *.
  assert (live_ctxs u1 = take k (live_ctxs u) ++ drop (S k) (live_ctxs u)) as E1.
  { unfold live_ctxs. cbn [u1 contexts num_contexts set_ctxs default from_option id]. by rewrite Hl, Ec. }
  destruct app as [ka|].
  - unbind H as t2 E2. injection H as _ <-. unfold update_app in E2. rewrite (set_list_lookup_eq _ _ u) in E2 by done.
    cbn [mbind option_bind] in E2. unbind E2 as apps Eapps. unbind E2 as a Ea. injection E2 as <-.
    rewrite (set_list_lookup_eq _ _ u1) in Hu' by (by apply (set_list_lookup_eq _ _ u)). injection Hu' as <-.
    split_and!; [done|exact E1|]. unfold live_apps. cbn [u1 set_apps set_ctxs applications num_applications default from_option id] in *.
    rewrite Eapps. cbn [default from_option id]. rewrite !fmap_take. f_equal. by apply (keys_insert app_key _ _ a).
  - injection H as _ <-. rewrite (set_list_lookup_eq _ _ u) in Hu' by done. injection Hu' as <-. by split_and!.
Qed.

Lemma del_ctx_shows t e i u k c :
  daemon_inv t -> own_list t e i u -> linked_maps u -> live_ctxs u !! k = Some c ->
  ∃ t' u', dlt_daemon_context_del t k e = Some (0, t') ∧ own_list t' e i u' ∧ daemon_inv t' ∧ linked_maps u' ∧
    abs u' = {| r_apps := r_apps (abs u); r_ctxs := delete (ctx_key c) (r_ctxs (abs u)) |} ∧ ecuid t' = ecuid t ∧
    live_ctxs u' = take k (live_ctxs u) ++ drop (S k) (live_ctxs u) ∧ app_key <$> live_apps u' = app_key <$> live_apps u.
Proof.
  intros Hd Hown Hl Hk. destruct (context_del_deletes t e i u k c Hd Hown Hk) as (t' & u' & Ed & Hown' & Hd' & Hm & Hma & Hc).
  destruct (context_del_lists t e i u k 0 t' u' Hd Hown) as (He & H1 & H2); [by eapply lookup_lt_Some|done|apply Hown'|].
  exists t', u'. split_and!; try done.
  - split; [by apply Hc, Hl| |].
    + intros key x. rewrite Hm. intros [_ Hx]%lookup_delete_Some. rewrite Hma. apply lookup_alter_is_Some, (lm_owned _ Hl key x Hx).
    + intros key a. rewrite Hma. destruct (decide (key = Ctx.apid c)) as [->|].
      * rewrite lookup_alter_eq. intros (b & Hb & ->)%fmap_Some. exact (lm_handles _ Hl _ b Hb).
      * rewrite lookup_alter_ne by done. apply (lm_handles _ Hl).
  - unfold abs. cbn [r_apps r_ctxs]. rewrite Hm, Hma. f_equal; [|by rewrite fmap_delete].
    apply map_eq. intros key. rewrite !lookup_fmap. destruct (decide (key = Ctx.apid c)) as [->|].
    + rewrite lookup_alter_eq. by destruct (amap u !! _).
    + by rewrite lookup_alter_ne.
Qed.

Lemma lookup_middle_last {A} (pre cs post : list A) (c : A) n :
  length cs = S n -> cs !! n = Some c -> (pre ++ cs ++ post) !! (length pre + n)%nat = Some c.
Proof. intros Hl Hc. rewrite lookup_app_r by lia. rewrite lookup_app_l by lia. by replace (_ + n - _)%nat with n by lia. Qed.

Lemma cut_middle_last {A} (pre cs post : list A) n :
  length cs = S n ->
  take (length pre + n) (pre ++ cs ++ post) ++ drop (S (length pre + n)) (pre ++ cs ++ post) = pre ++ take n cs ++ post.
Proof.
  intros Hl. rewrite take_app_ge, drop_app_ge by lia. replace (length pre + n - length pre)%nat with n by lia.
  replace (S (length pre + n) - length pre)%nat with (S n) by lia. rewrite take_app_le, drop_app_ge by lia.
  rewrite Hl, Nat.sub_diag, drop_0. by rewrite <-app_assoc.
Qed.

(** The loop deletes a slice from behind. *)
Lemma delete_contexts_shows e i pre post : ∀ n cs t u,
  length cs = n -> daemon_inv t -> own_list t e i u -> linked_maps u -> live_ctxs u = pre ++ cs ++ post ->
  ∃ t' u', delete_contexts n (length pre) e t = Some (true, t') ∧ own_list t' e i u' ∧ daemon_inv t' ∧ linked_maps u' ∧
    abs u' = {| r_apps := r_apps (abs u); r_ctxs := foldr (λ c, delete (ctx_key c)) (r_ctxs (abs u)) cs |} ∧ ecuid t' = ecuid t ∧
    live_ctxs u' = pre ++ post ∧ app_key <$> live_apps u' = app_key <$> live_apps u.
Proof.
  induction n as [|n IH]; intros cs t u Hn Hd Hown Hl Hlive.
  { apply nil_length_inv in Hn as ->. exists t, u. cbn [delete_contexts foldr app] in *. by split_and!; try destruct (abs u). }
  destruct (lookup_lt_is_Some_2 cs n) as [c Hc]; [lia|]. cbn [delete_contexts].
  assert (live_ctxs u !! (length pre + n)%nat = Some c) as Hk by (rewrite Hlive; by apply lookup_middle_last).
  destruct (del_ctx_shows t e i u _ c Hd Hown Hl Hk) as (t1 & u1 & -> & Hown1 & Hd1 & Hl1 & Ha1 & He1 & Hc1 & Hk1). bsimp.
  rewrite eqb_false by done. rewrite Hlive, cut_middle_last in Hc1 by done.
  destruct (IH (take n cs) t1 u1) as (t2 & u2 & E2 & Hown2 & Hd2 & Hl2 & Ha2 & He2 & Hc2 & Hk2); try done; [rewrite length_take; lia|].
  exists t2, u2. split_and!; try done; [|congruence|congruence]. rewrite Ha2, Ha1. cbn [r_apps r_ctxs]. f_equal.
  rewrite <-(take_drop n cs) at 2. rewrite (drop_S cs c n Hc), (drop_ge cs) by lia. by rewrite foldr_app.
Qed.

(** *** Unregistration of an application *)

Lemma own_apps_inv t e i u : daemon_inv t -> own_list t e i u -> apps_inv u ∧ ctxs_inv u.
Proof. intros Hd [_ Hu]. by apply (Hd i). Qed.

Lemma maps_linked t e i u : daemon_inv t -> own_list t e i u -> linked_maps u -> linked (live_apps u) (live_ctxs u).
Proof.
  intros Hd Hown [Hc Ho _]. destruct (own_apps_inv _ _ _ _ Hd Hown) as [Ha Hi]. apply counted_linked; try done.
  intros c Hin. destruct (Ho (ctx_key c) c) as [a Haa]; [apply table_lookup; [apply sorted_NoDup, Hi|done]|].
  exists a. unfold amap in Haa. apply table_lookup in Haa; [done|apply sorted_NoDup, Ha].
Qed.

Lemma find_app_shows t R apid i u :
  daemon_inv t -> own_list t (ecuid t) i u -> abs u = R -> good_id apid ->
  ∃ r, dlt_daemon_application_find t apid (ecuid t) = Some r ∧
    match r with
    | Some ka => ∃ a, live_apps u !! ka = Some a ∧ amap u !! apid = Some a ∧ App.apid a = apid ∧ r_apps R !! apid = Some (app_info a)
    | None => r_apps R !! apid = None
    end.
Proof.
  intros Hd Hown <- Hid. destruct (application_find_own t apid (ecuid t) i u Hd Hown Hid) as (r & Er & Hr). exists r. split; [done|].
  cbn [r_apps abs]. rewrite lookup_fmap. destruct r as [ka|]; [|by rewrite Hr]. destruct Hr as (a & H1 & H2 & H3). exists a. by rewrite H2.
Qed.

Lemma foldr_delete_lookup {A B} (f : A -> bytes) (m : gmap bytes B) l k :
  foldr (λ x, delete (f x)) m l !! k = if decide (k ∈ f <$> l) then None else m !! k.
Proof.
  induction l as [|x l IH]; cbn [foldr]; [by rewrite decide_False by apply not_elem_of_nil|].
  destruct (decide (k = f x)) as [->|Hne].
  - rewrite lookup_delete_eq, decide_True by (rewrite fmap_cons; by left). done.
  - rewrite lookup_delete_ne, IH by done. rewrite fmap_cons. destruct (decide (k ∈ f <$> l)) as [Hin|Hin].
    + by rewrite decide_True by (by right).
    + by rewrite decide_False by (by intros [?|?]%elem_of_cons).
Qed.

(** Deleting the group is deleting all contexts of the application. *)
Lemma delete_group t e i u a :
  daemon_inv t -> own_list t e i u -> foldr (λ c, delete (ctx_key c)) (r_ctxs (abs u)) (group (live_ctxs u) a) =
    filter (λ kv, ce_apid kv.2 <> App.apid a) (r_ctxs (abs u)).
Proof.
  intros Hd Hown. destruct (own_apps_inv _ _ _ _ Hd Hown) as [_ Hi]. pose proof (sorted_NoDup _ _ (ci_sorted _ Hi)) as Hn.
  apply map_eq. intros k. rewrite foldr_delete_lookup. cbn [r_ctxs abs]. symmetry. case_decide as Hk.
  - apply map_lookup_filter_None. right. intros x Hx Hne. apply list_elem_of_fmap in Hk as (c & -> & Hc).
    apply list_elem_of_filter in Hc as [Ea Hc]. rewrite lookup_fmap in Hx. unfold cmap in Hx.
    assert (table ctx_key (live_ctxs u) !! ctx_key c = Some c) as E by (by apply table_lookup). rewrite E in Hx. injection Hx as <-. done.
  - rewrite lookup_fmap. destruct (cmap u !! k) as [c|] eqn:Ec; cbn.
    + apply map_lookup_filter_Some. rewrite lookup_fmap, Ec. split; [done|]. cbn. intros E. apply Hk.
      unfold cmap in Ec. apply table_lookup in Ec as [Hin <-]; [|done]. apply list_elem_of_fmap. exists c. split; [done|].
      by apply list_elem_of_filter.
    + apply map_lookup_filter_None. left. by rewrite lookup_fmap, Ec.
Qed.

(** An application without contexts leaves. *)
Lemma del_app_shows t e i u ka a :
  daemon_inv t -> own_list t e i u -> linked_maps u -> live_apps u !! ka = Some a -> size (contexts_of (App.apid a) (cmap u)) = 0%nat ->
  ∃ t' u', dlt_daemon_application_del t ka e = Some (0, t') ∧ own_list t' e i u' ∧ daemon_inv t' ∧ linked_maps u' ∧
    abs u' = {| r_apps := delete (App.apid a) (r_apps (abs u)); r_ctxs := r_ctxs (abs u) |} ∧ ecuid t' = ecuid t.
Proof.
  intros Hd Hown Hl Hk H0. destruct (application_del_deletes t e i u ka a Hd Hown Hk) as (t' & u' & Ed & Hown' & Hd' & Hm).
  pose proof (application_del_ctxs _ _ _ _ _ Ed) as K. pose proof (ctxs_kept_own _ _ _ _ _ _ K Hown Hown') as Hc.
  assert (ctx_info <$> cmap u' = ctx_info <$> cmap u) as Ec by (eapply fmap_Forall2; [|done]; by intros x x' []).
  exists t', u'. split_and!; try done; [| |apply K].
  - split.
    + intros id b. rewrite Hm. intros [_ Hb]%lookup_delete_Some. rewrite contexts_of_info, Ec, <-contexts_of_info. by apply Hl.
    + intros key c' Hc'. specialize (Hc key). rewrite Hc' in Hc. inversion Hc as [c ? Hcc Ek|]. destruct (alike_ids _ _ Hcc) as [-> _].
      rewrite Hm. rewrite lookup_delete_ne; [by apply (lm_owned _ Hl key)|]. intros E.
      apply map_size_empty_iff in H0. assert (contexts_of (App.apid a) (cmap u) !! key = None) as Hn by (by rewrite H0). apply map_lookup_filter_None in Hn as [Hn|Hn]; [congruence|].
      by apply (Hn c).
    + intros key b. rewrite Hm. intros [_ Hb]%lookup_delete_Some. by apply (lm_handles _ Hl key).
  - unfold abs. cbn [r_apps r_ctxs]. rewrite Hm, Ec. by rewrite fmap_delete.
Qed.

Lemma unregister_shows t R apid i u ka a apps :
  daemon_inv t -> own_list t (ecuid t) i u -> abs u = R -> linked_maps u ->
  live_apps u !! ka = Some a -> App.apid a = apid -> applications u = Some apps ->
  ∃ base t1 t2, offset_base ka apps = Some base ∧
    delete_contexts (Z.to_nat (App.num_contexts a)) (Z.to_nat base) (ecuid t) t = Some (true, t1) ∧
    dlt_daemon_application_del t1 ka (ecuid t) = Some (0, t2) ∧ shows t2 (unregister_app apid R) ∧ ecuid t2 = ecuid t.
Proof.
  intros Hd Hown <- Hl Hk <- Ea. pose proof (maps_linked _ _ _ _ Hd Hown Hl) as Hlink.
  destruct (group_cut t u i {| options := 0; req_apid := []; req_ctid := [] |} Hd Hown Hlink apps ka a Ea Hk) as (pre & post & Hb & Hg).
  assert (App.num_contexts a = zlen (group (live_ctxs u) a)) as Hn by (apply Hlink; by eapply list_elem_of_lookup_2).
  destruct (delete_contexts_shows (ecuid t) i pre post _ (group (live_ctxs u) a) t u eq_refl Hd Hown Hl Hg)
    as (t1 & u1 & E1 & Hown1 & Hd1 & Hl1 & Ha1 & He1 & _ & Hk1).
  exists (zlen pre), t1. rewrite Hb, Hn, !Nat2Z.id, E1. rewrite (delete_group t (ecuid t) i u a Hd Hown) in Ha1.
  assert (∃ a1, live_apps u1 !! ka = Some a1 ∧ App.apid a1 = App.apid a) as (a1 & Hk1' & Ea1).
  { assert ((app_key <$> live_apps u1) !! ka = Some (App.apid a)) as H by (rewrite Hk1, list_lookup_fmap; by rewrite Hk).
    rewrite list_lookup_fmap in H. apply fmap_Some in H as (a1 & H1 & H2). by exists a1. }
  destruct (del_app_shows t1 (ecuid t) i u1 ka a1 Hd1 Hown1 Hl1 Hk1') as (t2 & u2 & E2 & Hown2 & Hd2 & Hl2 & Ha2 & He2).
  { rewrite Ea1, contexts_of_info. change (ctx_info <$> cmap u1) with (r_ctxs (abs u1)). rewrite Ha1. cbn [r_ctxs].
    apply map_size_empty_iff, map_empty. intros k. apply map_lookup_filter_None. right. intros x Hx E.
    apply map_lookup_filter_Some in Hx as [_ Hx]. by apply Hx. }
  exists t2. split_and!; try done; [|congruence]. split; [done|]. exists i, u2. split_and!; [|rewrite Ha2, Ha1, Ea1; done|done].
  replace (ecuid t2) with (ecuid t) by congruence. done.
Qed.

End DaemonRegistrySpec.
