(* ===== verification/DaemonForwardSpec.v ===== *)
(** * A log message on its way through the daemon

    The handler of log messages reads a message behind the user header, may
    replace the ECU identifier, and hands its bytes to the clients. *)

From stdpp Require Import base list list_numbers numbers option.
From Stdlib Require Import ZArith Lia Bool.
From S2P Require Import Prelude Protocol Ids Message MessageSpec Filter DltFile UserShared UserSendSpec.
From S2P Require Import DaemonTables DaemonSend DaemonMessagesSpec DaemonControl DaemonUser.
Import Protocol Ids Message MessageSpec DaemonSend DaemonMessagesSpec DaemonControl DaemonUser.

Local Open Scope Z_scope.

Module DaemonForwardSpec.

(** The fields that a message without them leaves as they were. *)
Record extra_ok (x : DltStandardHeaderExtra) : Prop := {
  xo_ecu : length (ecu x) = 4%nat;
  xo_bytes : is_bytes (ecu x);
  xo_seid : 0 <= seid x < 4294967296;
  xo_tmsp : 0 <= tmsp x < 4294967296
}.

Lemma load_extra_ok M x : wf_message M -> extra_ok x -> extra_ok (load_extra M x).
Proof.
  intros W [? ? ? ?]. destruct W as [? ? ? ? ? ? Hb ?]. split; cbn; case_match; try done.
  unfold encode, extra in Hb. rewrite !is_bytes_app in Hb. match goal with H : _ = true |- _ => rewrite H in Hb end. tauto.
Qed.
Lemma swap_extra_ok h x : extra_ok x -> extra_ok (swap_extra h x).
Proof. intros [? ? ? ?]. split; cbn; [done|done|..]; case_match; try done; by apply swap_32_range. Qed.

Lemma mwrite_is_bytes m o d m' : is_bytes m -> is_bytes d -> mwrite m o d = Some m' -> is_bytes m'.
Proof.
  intros Hm Hd. unfold mwrite. destruct (_ && _); [|done]. intros [= <-]. unfold is_bytes in *. rewrite !Forall_app.
  split_and!; [by apply Forall_take|done|by apply Forall_drop].
Qed.
Lemma mread_is_bytes m o n d : is_bytes m -> mread m o n = Some d -> is_bytes d.
Proof. intros Hm. unfold mread. destruct (_ && _); [|done]. intros [= <-]. by apply Forall_take, Forall_drop. Qed.
Lemma mread_length_4 (m : bytes) o d : mread m o 4 = Some d -> length d = 4%nat.
Proof. unfold mread. destruct (_ && _) eqn:E; [|done]. zb. intros [= <-]. rewrite length_take, length_drop. lia. Qed.
Lemma mread_word (m : bytes) o d : is_bytes m -> mread m o 4 = Some d -> 0 <= le_Z d < 4294967296.
Proof.
  intros B Ed. pose proof (le_Z_range d (mread_is_bytes _ _ _ _ B Ed)) as H. by rewrite (mread_length_4 _ _ _ Ed) in H.
Qed.

(** ** What reading sets *)

Lemma read_headers_pointers m b pos n m' :
  read_headers m b pos n = Some (DLT_MESSAGE_ERROR_OK, m') ->
  storageheader m' = Some 0 ∧ found_serialheader m' = found_serialheader m.
Proof.
  unfold read_headers. intros H. destruct (n <? _); [done|]. unbind H as d Ed. unbind H as hb Eh. unbind H as htyp Et. unbind H as len El.
  destruct (_ <? 0); [done|]. destruct (0 <? _); [|injection H as <-; done]. destruct (n <? _); [done|].
  unbind H as d2 Ed2. unbind H as hb2 Eh2. unbind H as p Ep. destruct p as [rc m2]. injection H as <-.
  unfold dlt_message_get_extraparameters in Ep. unbind Ep as h2 E2. unbind Ep as m3 E3. unbind Ep as m4 E4. unbind Ep as m5 E5.
  injection Ep as _ <-. unfold when in *.
  assert (storageheader m3 = Some 0 ∧ found_serialheader m3 = found_serialheader m) as [H3 H3'].
  { destruct (DLT_IS_HTYP_WEID h2); [unbind E3 as y Ey|]; by injection E3 as <-. }
  assert (storageheader m4 = Some 0 ∧ found_serialheader m4 = found_serialheader m) as [H4 H4'].
  { destruct (DLT_IS_HTYP_WSID h2); [unbind E4 as y Ey|]; by injection E4 as <-. }
  destruct (DLT_IS_HTYP_WTMS h2); [unbind E5 as y Ey|]; by injection E5 as <-.
Qed.

Lemma read_pointers A m b n m' :
  dlt_message_read A m (Some b) n false = Some (DLT_MESSAGE_ERROR_OK, m') -> ¬ serial_at b 0 ->
  storageheader m' = Some 0 ∧ found_serialheader m' = 0.
Proof.
  unfold dlt_message_read. intros H Hs. destruct (n <=? 0); [done|]. destruct (n <? 4); [done|]. unbind H as p Ep. destruct p as [[m1 pos] n1].
  unbind H as p2 Ep2. destruct p2 as [rc m2]. unfold read_sync in Ep. unbind Ep as h Eh.
  rewrite bool_decide_false in Ep by (intros ->; by apply Hs). injection Ep as <- <- <-.
  destruct (rc =? DLT_MESSAGE_ERROR_OK) eqn:Er; [|by injection H as -> <-]. zb. subst rc.
  apply read_headers_pointers in Ep2 as [H1 H2]. unfold read_payload in H. destruct (_ <? _); [done|].
  assert (storageheader (payload_buffer A m2) = storageheader m2 ∧ found_serialheader (payload_buffer A m2) = found_serialheader m2) as [P1 P2].
  { unfold payload_buffer. by repeat case_match. }
  destruct (databuffer (payload_buffer A m2)); [|done]. unbind H as d Ed. unbind H as db Edb. injection H as <-.
  cbn [storageheader found_serialheader set_databuffer]. rewrite P1, P2, H1, H2. done.
Qed.

(** What the object keeps from message to message: the values of missing fields,
    and the place of the last extended header. *)
Record tidy (m : DltMessage) : Prop := {
  td_extra : extra_ok (headerextra m);
  td_ext : ∀ p, extendedheader m = Some p -> 0 <= p <= 32
}.

Lemma get_extraparameters_ok m rc m' :
  dlt_message_get_extraparameters m = Some (rc, m') -> is_bytes (headerbuffer m) -> extra_ok (headerextra m) ->
  extra_ok (headerextra m') ∧ extendedheader m' = extendedheader m.
Proof.
  unfold dlt_message_get_extraparameters. intros H B X. unbind H as h Eh. unbind H as m1 E1. unbind H as m2 E2. unbind H as m3 E3.
  injection H as _ <-. unfold when in *.
  assert (extra_ok (headerextra m1) ∧ extendedheader m1 = extendedheader m ∧ headerbuffer m1 = headerbuffer m) as (X1 & Y1 & B1).
  { destruct (DLT_IS_HTYP_WEID h); [unbind E1 as y Ey|]; injection E1 as <-; [|done]. split; [|done].
    destruct X. split; cbn; try done; [exact (mread_length_4 _ _ _ Ey)|exact (mread_is_bytes _ _ _ _ B Ey)]. }
  assert (extra_ok (headerextra m2) ∧ extendedheader m2 = extendedheader m ∧ headerbuffer m2 = headerbuffer m) as (X2 & Y2 & B2).
  { destruct (DLT_IS_HTYP_WSID h); [unbind E2 as y Ey|]; injection E2 as <-; [|done]. split; [|done]. rewrite B1 in Ey.
    destruct X1. split; cbn; try done. apply swap_32_range. exact (mread_word _ _ _ B Ey). }
  destruct (DLT_IS_HTYP_WTMS h); [unbind E3 as y Ey|]; injection E3 as <-; [|done]. split; [|done]. rewrite B2 in Ey.
  destruct X2. split; cbn; try done. apply swap_32_range. exact (mread_word _ _ _ B Ey).
Qed.

Lemma read_headers_tidy m b pos n rc m' :
  read_headers m b pos n = Some (rc, m') -> is_bytes b -> is_bytes (headerbuffer m) -> tidy m -> tidy m'.
Proof.
  intros H Bb Bm T. unfold read_headers in H. destruct (n <? _); [by injection H as _ <-|]. unbind H as d Ed. unbind H as hb Eh.
  unbind H as htyp Et. unbind H as len El. destruct (_ <? 0); [injection H as _ <-; by destruct T; split|]. destruct (0 <? _); [|injection H as _ <-; by destruct T; split].
  destruct (n <? _); [injection H as _ <-; by destruct T; split|]. unbind H as d2 Ed2. unbind H as hb2 Eh2. unbind H as q Eq. destruct q as [rc' m3]. injection H as _ <-.
  apply get_extraparameters_ok in Eq as [X3 Y3]; [| |apply T].
  - split; [done|]. rewrite Y3. cbn. intros p. case_match; [|done]. intros [= <-].
    unfold DLT_STANDARD_HEADER_EXTRA_SIZE, sizeof_DltStorageHeader, sizeof_DltStandardHeader, DLT_SIZE_WEID, DLT_SIZE_WSID, DLT_SIZE_WTMS. repeat case_match; lia.
  - cbn in *. eapply mwrite_is_bytes; [| |exact Eh2]; [|exact (mread_is_bytes _ _ _ _ Bb Ed2)].
    eapply mwrite_is_bytes; [exact Bm| |exact Eh]. exact (mread_is_bytes _ _ _ _ Bb Ed).
Qed.

Lemma read_tidy A m b n rc m' :
  dlt_message_read A m (Some b) n false = Some (rc, m') -> is_bytes b -> wf m -> tidy m -> tidy m'.
Proof.
  intros H Bb W T. unfold dlt_message_read in H. destruct (n <=? 0); [by injection H as _ <-|].
  destruct (n <? 4); [injection H as _ <-; by destruct T; split|].
  unbind H as p Ep. destruct p as [[m1 pos] n1]. unbind H as p2 Ep2. destruct p2 as [rc2 m2].
  assert (tidy m1 ∧ headerbuffer m1 = headerbuffer m) as [T1 B1].
  { unfold read_sync in Ep. unbind Ep as h Eh. case_bool_decide; injection Ep as <- _ _; (split; [by destruct T; split|done]). }
  apply read_headers_tidy in Ep2; [|done|rewrite B1; apply W|done]. destruct (rc2 =? DLT_MESSAGE_ERROR_OK); [|by injection H as _ <-].
  unfold read_payload in H. destruct (_ <? _); [by injection H as _ <-|].
  assert (tidy (payload_buffer A m2)) as T3 by (destruct Ep2; unfold payload_buffer; repeat case_match; by split).
  destruct (databuffer (payload_buffer A m2)); [|by injection H as _ <-]. unbind H as d Ed. unbind H as db Edb. injection H as _ <-. by destruct T3; split.
Qed.

(** ** What is sent *)

Definition with_ecu (M : message) (e : bytes) : message :=
  {| m_htyp := m_htyp M; m_mcnt := m_mcnt M; m_ecu := e; m_seid := m_seid M; m_tmsp := m_tmsp M; m_ext := m_ext M; m_payload := m_payload M |}.
(** A message with the default ECU identifier gets the configured one. *)
Definition relabel (F : flags) (ecuid : bytes) (M : message) : message :=
  if negb (DaemonTables.empty_id (evalue F)) && DLT_IS_HTYP_WEID (m_htyp M) && strncmp_eq DLT_ID_SIZE (m_ecu M) DLT_DAEMON_ECU_ID
  then with_ecu M ecuid else M.

Lemma length_with_ecu M e : wf_message M -> length e = 4%nat -> message_len (with_ecu M e) = message_len M.
Proof.
  intros W He. pose proof (wm_ecu _ W). unfold message_len, extra, ext. cbn [with_ecu m_htyp m_ecu m_seid m_tmsp m_ext m_payload].
  rewrite !length_app. case_match; lia.
Qed.

(** The values behind the header, those that are not sent included. *)
Definition with_extra (M : message) (x : DltStandardHeaderExtra) (e : bytes) : message :=
  {| m_htyp := m_htyp M; m_mcnt := m_mcnt M; m_ecu := e; m_seid := seid x; m_tmsp := tmsp x; m_ext := m_ext M; m_payload := m_payload M |}.

Lemma with_extra_headers M x e : x = load_extra M x -> length e = 4%nat -> wf_message M ->
  headers (with_extra M x e) = headers (if DLT_IS_HTYP_WEID (m_htyp M) then with_ecu M e else M).
Proof.
  intros Hx He W. assert (zlen (extra (with_extra M x e)) = zlen (extra M) ∧
    extra (with_extra M x e) = extra (if DLT_IS_HTYP_WEID (m_htyp M) then with_ecu M e else M)) as [Hl Hextra].
  { pose proof (wm_ecu _ W). unfold extra. cbn [with_extra m_htyp m_ecu m_seid m_tmsp]. rewrite Hx. cbn [seid tmsp load_extra].
    destruct (DLT_IS_HTYP_WEID (m_htyp M)) eqn:Ew; cbn [with_ecu m_htyp m_ecu m_seid m_tmsp]; rewrite ?Ew; cbn [app];
      (split; [|by repeat case_match]); rewrite ?length_app; repeat case_match; lia. }
  assert (message_len (with_extra M x e) = message_len M) as Hm
    by (unfold message_len, ext; cbn [with_extra m_htyp m_ext m_payload]; lia).
  unfold headers, std. rewrite Hm, Hextra. destruct (DLT_IS_HTYP_WEID (m_htyp M)); [|done].
  by rewrite (length_with_ecu M e W He).
Qed.

Lemma with_extra_wf M x e : wf_message M -> extra_ok x -> x = load_extra M x -> length e = 4%nat -> is_bytes e -> wf_message (with_extra M x e).
Proof.
  intros W X Hx He Be. pose proof (with_extra_headers M x e Hx He W) as Hh. split; cbn [with_extra m_htyp m_mcnt m_ecu m_seid m_tmsp m_ext]; try apply W; try apply X; try done.
  - rewrite encode_headers, Hh. cbn [with_extra m_payload]. pose proof (wm_bytes _ W) as Hb. unfold encode in Hb. rewrite !is_bytes_app in Hb.
    destruct Hb as (Hb1 & Hb2 & Hb3 & Hb4). apply is_bytes_app. split; [|done]. unfold headers. destruct (DLT_IS_HTYP_WEID (m_htyp M)) eqn:Ew.
    + unfold std. rewrite (length_with_ecu M e W He). unfold std in Hb1. apply is_bytes_app in Hb1 as [Hs1 Hs2].
      rewrite !is_bytes_app. split_and!; [exact Hs1|exact Hs2| |exact Hb3]. unfold extra in Hb2 |- *. cbn [with_ecu m_htyp m_ecu m_seid m_tmsp]. rewrite Ew in Hb2 |- *. rewrite !is_bytes_app in Hb2 |- *. tauto.
    + by rewrite !is_bytes_app.
  - pose proof (wm_len _ W) as Hl. pose proof (length_encode (with_extra M x e)) as L1. pose proof (length_encode M) as L2.
    rewrite encode_headers, Hh in L1. rewrite encode_headers in L2. rewrite length_app in L1, L2. cbn [with_extra m_payload] in L1.
    enough (zlen (headers (if DLT_IS_HTYP_WEID (m_htyp M) then with_ecu M e else M)) = zlen (headers M)) by lia.
    case_match; [|done]. rewrite !length_headers. pose proof (length_with_ecu M e W He) as L. unfold message_len in L. cbn [with_ecu m_payload] in L. lia.
Qed.

Lemma set_storageheader_any e s us hdr : length e = 4%nat -> is_bytes e -> zlen hdr = 16 -> is_bytes hdr ->
  ∃ sh, DltFile.dlt_set_storageheader hdr (Some e) s us = Some (DLT_RETURN_OK, sh) ∧ zlen sh = 16 ∧ is_bytes sh.
Proof.
  intros Le Be Lh Bh. unfold DltFile.dlt_set_storageheader.
  destruct (mwrite_total hdr 0 DltFile.storage_pattern) as (h1 & E1 & L1); [lia|cbn; lia|]. rewrite E1. bsimp.
  apply mwrite_is_bytes in E1; [|done|by apply is_bytes_forallb].
  destruct (mread_total h1 12 4) as (old & -> & Lo); [lia..|]. bsimp. unfold Filter.set_id.
  rewrite (set_id_spec old e) by (lia || by apply scannable_len). bsimp.
  assert (is_bytes (pad_to 4 0 (cstr 4 e))) as Bp.
  { unfold pad_to, is_bytes. apply Forall_app. split; [|by apply Forall_replicate]. unfold is_bytes in Be. clear -Be.
    generalize 4%nat. induction Be as [|b e Hb He IH]; intros [|n]; cbn; try constructor. case_match; constructor; auto. }
  destruct (mwrite_total h1 12 (pad_to 4 0 (cstr 4 e))) as (h2 & E2 & L2); [lia|rewrite length_pad_to by apply length_cstr; lia|]. rewrite E2. bsimp.
  apply mwrite_is_bytes in E2; [|done|done].
  destruct (mwrite_total h2 4 (le_bytes 4 (u32 s))) as (h3 & E3 & L3); [lia|rewrite length_le_bytes; lia|]. rewrite E3. bsimp.
  apply mwrite_is_bytes in E3; [|done|apply is_bytes_le].
  destruct (mwrite_total h3 8 (le_bytes 4 (u32 us))) as (h4 & E4 & L4); [lia|rewrite length_le_bytes; lia|]. rewrite E4. bsimp.
  apply mwrite_is_bytes in E4; [|done|apply is_bytes_le]. eexists. split; [reflexivity|]. split; [lia|done].
Qed.

(** A message that is ready to be sent: its headers behind the storage header. *)
Record loaded (m : DltMessage) (M : message) : Prop := {
  ld_wf : wf m;
  ld_hb : ∃ sh rest, headerbuffer m = sh ++ headers M ++ rest ∧ zlen sh = 16;
  ld_hs : headersize m = 16 + zlen (headers M);
  ld_ds : datasize m = zlen (m_payload M);
  ld_db : ∃ db, databuffer m = Some db ∧ mread db 0 (datasize m) = Some (m_payload M);
  ld_std : standardheader m = Some 16;
  ld_storage : storageheader m = Some 0;
  ld_extra : extra_ok (headerextra m)
}.

Lemma holds_loaded m M : wf m -> holds m M -> storageheader m = Some 0 -> extra_ok (headerextra m) -> loaded m M.
Proof.
  intros W [[(sh & rest & Hb & Ls) Hhs Hds Hst _ _] Hdb] Hsto Hx. split; try done.
  - exists sh, rest. unfold headers. by rewrite <-!app_assoc.
  - rewrite length_headers. lia.
Qed.

(** The replacement of the identifier. *)
Lemma relabelled F d m M :
  wf_message M -> holds m M -> loaded m M -> is_id (DaemonTables.ecuid (tables d)) -> is_bytes (DaemonTables.ecuid (tables d)) ->
  ∃ m', (if negb (DaemonTables.empty_id (evalue F)) && strncmp_eq DLT_ID_SIZE (ecu (headerextra m)) DLT_DAEMON_ECU_ID
         then
           id ← Filter.set_id (ecu (headerextra m)) (DaemonTables.ecuid (tables d));
           '(rc, m) ← dlt_message_set_extraparameters (set_headerextra m (set_ecu (headerextra m) id));
           let x := headerextra m in
           Some (rc =? 0, if rc =? 0 then set_headerextra m (set_tmsp x (DLT_BETOH_32 (tmsp x))) else m)
         else Some (true, m)) = Some (true, m') ∧ loaded m' (relabel F (DaemonTables.ecuid (tables d)) M) ∧
    found_serialheader m' = found_serialheader m ∧ extendedheader m' = extendedheader m.
Proof.
  intros WM H L Hi Hb. set (e := DaemonTables.ecuid (tables d)) in *. pose proof (is_id_length _ Hi) as Le.
  pose proof (hh_extra _ _ (h_headers _ _ H)) as Hx. set (x := headerextra m) in *.
  assert (DLT_IS_HTYP_WEID (m_htyp M) = true -> ecu x = m_ecu M) as Hecu by (intros E; rewrite Hx; cbn; by rewrite E).
  destruct (negb _ && _) eqn:Eb; cycle 1.
  { exists m. split; [done|]. split; [|done]. assert (relabel F e M = M) as ->; [|done]. unfold relabel.
    destruct (DLT_IS_HTYP_WEID (m_htyp M)) eqn:Ew; [|by rewrite andb_false_r]. rewrite andb_true_r, <-(Hecu eq_refl). by rewrite Eb. }
  destruct L as [W (sh & rest & Ehb & Lsh) Hhs Hds Hdb Hst Hsto Xo]. fold x in Xo.
  rewrite UserSendSpec.set_id_is_id by (done || apply Xo). bsimp. set (m1 := set_headerextra m _).
  set (M1 := with_extra M x e). assert (wf_message M1) as W1 by (apply with_extra_wf; done).
  assert (zlen (extra M1) = zlen (extra M)) as Lx by (by rewrite (length_extra _ W1), (length_extra _ WM)).
  unfold headers in Ehb. rewrite <-!app_assoc in Ehb. pose proof (length_std M) as Lstd.
  rewrite (set_extraparameters_spec m1 M1 (sh ++ std M) (extra M) (ext M ++ rest) W1);
    [|by apply (std_htyp_at m1 M sh (extra M ++ ext M ++ rest))|done|by rewrite <-!app_assoc|rewrite length_app; lia|done].
  bsimp. cbn [Z.eqb DLT_RETURN_OK]. eexists. split; [reflexivity|]. split; [|done].
  assert (headers M1 = headers (relabel F e M)) as Hh.
  { unfold M1. rewrite with_extra_headers by done. unfold relabel. destruct (DLT_IS_HTYP_WEID (m_htyp M)) eqn:Ew.
    - rewrite andb_true_r, <-(Hecu eq_refl). by rewrite Eb.
    - by rewrite andb_false_r. }
  assert (std M1 = std M) as Es.
  { unfold std, message_len, ext. cbn [M1 with_extra m_htyp m_mcnt m_ext m_payload]. fold M1. by rewrite Lx. }
  assert (m_payload (relabel F e M) = m_payload M) as Ep by (unfold relabel; by case_match).
  assert ((sh ++ std M) ++ extra M1 ++ ext M ++ rest = sh ++ headers (relabel F e M) ++ rest) as Enew.
  { rewrite <-Hh. unfold headers. rewrite Es. change (ext M1) with (ext M). by rewrite <-!app_assoc. }
  assert (zlen (headers (relabel F e M)) = zlen (headers M)) as Lh.
  { rewrite <-Hh, !length_headers, Lx. done. }
  split; cbn [headerbuffer headersize datasize databuffer standardheader storageheader headerextra set_headerextra set_headerbuffer m1].
  - destruct W as [Wl Wb Wd]. split; [| |exact Wd].
    + cbn [headerbuffer set_headerextra set_headerbuffer]. rewrite Ehb in Wl. rewrite !length_app in *. lia.
    + cbn [headerbuffer set_headerextra set_headerbuffer]. rewrite Ehb in Wb. rewrite !is_bytes_app in *.
      pose proof (wm_bytes _ W1) as Hbb. unfold encode in Hbb. rewrite !is_bytes_app in Hbb. tauto.
  - rewrite Enew. by exists sh, rest.
  - lia.
  - by rewrite Ep.
  - rewrite Ep. exact Hdb.
  - done.
  - done.
  - pose proof (swap_extra_ok (m_htyp M1) _ Xo) as Xs. split; cbn; try done; [apply Xs|].
    unfold DLT_BETOH_32. apply swap_32_range. case_match; [apply swap_32_range|]; apply Xo.
Qed.

(** The message is handed to the clients with its storage header. *)
Lemma to_all_client_sends E F send m M d :
  wf_message M -> holds m M -> loaded m M -> is_id (DaemonTables.ecuid (tables d)) -> is_bytes (DaemonTables.ecuid (tables d)) ->
  let M' := relabel F (DaemonTables.ecuid (tables d)) M in
  ∃ sh m', zlen sh = 16 ∧ loaded m' M' ∧ found_serialheader m' = found_serialheader m ∧ extendedheader m' = extendedheader m ∧
    dlt_daemon_client_send_message_to_all_client E F send m d =
      ('(rc, d) ← send DLT_DAEMON_SEND_TO_ALL sh (headers M') (Some (m_payload M')) d; Some (rc, m', d)).
Proof.
  intros WM H L Hi Hb M'. unfold dlt_daemon_client_send_message_to_all_client. cbv zeta.
  destruct (relabelled F d m M WM H L Hi Hb) as (m1 & E1 & L1 & Hf & He). cbv zeta in E1. rewrite E1. bsimp. cbn [negb]. fold M' in L1.
  destruct L1 as [W1 (sh & rest & Ehb & Lsh) Hhs Hds (db & Hdb & Hp) Hst Hsto X1].
  assert (std_htyp m1 = Some (m_htyp M')) as Eh.
  { unfold headers in Ehb. rewrite <-!app_assoc in Ehb. by apply (std_htyp_at m1 M' sh (extra M' ++ ext M' ++ rest)). }
  rewrite Eh. bsimp. rewrite Hsto. bsimp. rewrite Ehb, (mread_mid [] sh (headers M' ++ rest)) by (cbn; lia). bsimp.
  set (ep := if DLT_IS_HTYP_WEID (m_htyp M') then _ else _).
  assert (length ep = 4%nat ∧ is_bytes ep) as [Lep Bep].
  { unfold ep. destruct (DLT_IS_HTYP_WEID (m_htyp M')); [split; apply X1|split; [by apply is_id_length|done]]. }
  pose proof (wf_hb_bytes _ W1) as Bhb. rewrite Ehb, is_bytes_app in Bhb. destruct Bhb as [Bsh Brest].
  destruct (set_storageheader_any ep (now_sec E) (now_usec E) sh Lep Bep Lsh Bsh) as (sh' & -> & Lsh' & Bsh'). bsimp.
  rewrite (mwrite_mid [] sh sh' (headers M' ++ rest)) by (cbn; lia). bsimp. cbn [app Z.eqb DLT_RETURN_OK negb].
  set (m2 := set_headerbuffer m1 _). exists sh', m2. split; [done|].
  assert (loaded m2 M') as L2.
  { split; try done; [|exists sh', rest; done|exists db; done]. destruct W1 as [Wl Wb Wd]. split; [| |exact Wd]; cbn [m2 headerbuffer set_headerbuffer].
    - rewrite Ehb in Wl. rewrite !length_app in *. lia.
    - by rewrite is_bytes_app. }
  split; [done|]. split; [done|]. split; [done|]. unfold send_message. cbn [m2 headerbuffer headersize databuffer datasize set_headerbuffer].
  assert (mread (sh' ++ headers M' ++ rest) 0 16 = Some sh') as -> by (apply (mread_mid [] sh'); [done|lia]). bsimp. rewrite (mread_mid sh' (headers M') rest) by lia. bsimp. rewrite Hdb. rewrite Hp. bsimp. done.
Qed.

End DaemonForwardSpec.
