(* ===== verification/DaemonHandlersSpec.v ===== *)
(** * The handlers of messages of applications

    Each user message, as the library encodes it, is consumed completely by its
    handler, and the tables of the daemon then show the registry that the message
    describes ([DaemonRegistrySpec]), whatever the operating system does to the
    answers. *)

From stdpp Require Import base gmap sets list list_numbers numbers option.
From Stdlib Require Import ZArith Lia Bool.
From S2P Require Import Prelude Protocol Ids RingBuffer Message MessageSpec Filter DltFile UserShared UserSendSpec Receiver ReceiverSpec.
From S2P Require Import MessageQueue EventHandler EventHandlerSpec SortedTable DaemonTables DaemonTablesSpec DaemonContextsSpec DaemonKeptSpec.
From S2P Require Import DaemonSend DaemonMessagesSpec DaemonSendSpec DaemonEventsSpec DaemonControl DaemonControlSpec DaemonLogInfoSpec.
From S2P Require Import DaemonUser DaemonRegistrySpec DaemonForwardSpec.
Import Protocol Ids UserShared SortedTable DaemonTables DaemonTablesSpec DaemonContextsSpec DaemonKeptSpec DaemonSend DaemonMessagesSpec DaemonSendSpec.
Import MessageQueue DaemonControl DaemonControlSpec DaemonLogInfoSpec DaemonUser DaemonRegistrySpec DaemonForwardSpec.
Import Receiver (DltReceiver, buf, bytesRcvd, dlt_receiver_remove, dlt_receiver_check_and_get).
Import ReceiverSpec (pending, pending_len).
Import MessageSpec (message, encode, wf_message, message_len, m_htyp, m_payload).

Local Open Scope Z_scope.

Module DaemonHandlersSpec.

(** ** What waits in the receiver *)

Lemma pending_split r mem p : pending r mem p ->
  ∃ pre post, mem = pre ++ p ++ post ∧ buf r = Some (zlen pre) ∧ bytesRcvd r = zlen p ∧ zlen mem < 2147483648.
Proof.
  intros P. pose proof (pending_len _ _ _ P) as Hl. destruct P as [[_ Hm Hs] (b & Hb & Hr) _]. rewrite Hl in Hr.
  assert (0 <= b ∧ b + zlen p <= zlen mem) as [? ?] by (unfold mread in Hr; destruct (_ && _) eqn:E; [zb; lia|done]).
  destruct (split_region mem b (zlen p)) as (a & d & c & -> & La & Ld); [lia..|]. rewrite (mread_mid a d c) in Hr by lia. injection Hr as ->.
  exists a, c. split_and!; [done|by rewrite La|done|lia].
Qed.

Lemma pending_at r mem pre p post b : ReceiverSpec.inv r mem -> Receiver.backup_buf r = None ->
  mem = pre ++ p ++ post -> buf r = Some b -> b = zlen pre -> bytesRcvd r = zlen p -> pending r mem p.
Proof.
  intros I Hb -> Hbuf -> Hl. split; [done| |done]. exists (zlen pre). split; [done|]. rewrite Hl. by apply mread_mid.
Qed.

Lemma remove_pending r mem p q : pending r mem (p ++ q) -> 0 < zlen p ->
  ∃ r', dlt_receiver_remove r (zlen p) = (DLT_RETURN_OK, r') ∧ pending r' mem q ∧ Receiver.type r' = Receiver.type r ∧ Receiver.fd r' = Receiver.fd r.
Proof.
  intros P Hp. destruct (pending_split _ _ _ P) as (pre & post & Em & Hb & Hl & _). unfold dlt_receiver_remove. rewrite Hb, Hl, length_app.
  rewrite (ltb_false (Z.of_nat _)), (leb_false (zlen p)) by lia. cbn [orb]. eexists. split; [reflexivity|]. split; [|done].
  destruct P as [[] _ Hbk]. apply (pending_at _ mem (pre ++ p) q post (zlen pre + zlen p)); try done.
  - by rewrite Em, <-!app_assoc.
  - rewrite length_app. lia.
  - cbn. lia.
Qed.

Lemma get_pending_skip r mem h p q : pending r mem (h ++ p ++ q) -> zlen h = 8 ->
  dlt_receiver_check_and_get r mem true (zlen p) Receiver.DLT_RCV_SKIP_HEADER = Some (zlen p, p, r).
Proof.
  intros P Hh. destruct (pending_split _ _ _ P) as (pre & post & Em & Hb & Hl & Hs). unfold dlt_receiver_check_and_get.
  change (Z.land Receiver.DLT_RCV_SKIP_HEADER Receiver.DLT_RCV_SKIP_HEADER =? 0) with false.
  change (Z.land Receiver.DLT_RCV_SKIP_HEADER Receiver.DLT_RCV_REMOVE =? 0) with true. cbn [negb]. unfold Receiver.sizeof_DltUserHeader.
  assert (zlen h + zlen p + zlen q < 2147483648) by (rewrite Em in Hs; rewrite !length_app in Hs; lia).
  rewrite Hl, Hb, Em, !length_app. cint. rewrite ltb_false by lia. cbn [orb]. rewrite <-!app_assoc.
  rewrite (mread_mid2 pre h p (q ++ post)) by lia. by bsimp.
Qed.

Lemma get_and_remove_ok mem s h p q : pending (srec s) mem (h ++ p ++ q) -> zlen h = 8 ->
  ∃ r', get_and_remove mem (zlen p) s = Some (Some p, with_rec s r') ∧ pending r' mem q.
Proof.
  intros P Hh. destruct (pending_split _ _ _ P) as (pre & post & Em & Hb & Hl & Hs). unfold get_and_remove, dlt_receiver_check_and_get.
  change (Z.land (Z.lor Receiver.DLT_RCV_SKIP_HEADER Receiver.DLT_RCV_REMOVE) Receiver.DLT_RCV_SKIP_HEADER =? 0) with false.
  change (Z.land (Z.lor Receiver.DLT_RCV_SKIP_HEADER Receiver.DLT_RCV_REMOVE) Receiver.DLT_RCV_REMOVE =? 0) with false. cbn [negb].
  unfold Receiver.sizeof_DltUserHeader. assert (zlen h + zlen p + zlen q < 2147483648) by (rewrite Em in Hs; rewrite !length_app in Hs; lia).
  rewrite Hl, Hb, !length_app. cint. rewrite ltb_false by lia. cbn [orb].
  assert (mread mem (zlen pre + 8) (zlen p) = Some p) as -> by (rewrite Em, <-!app_assoc; apply (mread_mid2 pre h p (q ++ post)); lia). bsimp.
  rewrite app_assoc in P. destruct (remove_pending _ _ (h ++ p) q P) as (r' & Er & P' & _); [rewrite length_app; lia|].
  replace (zlen p + 8) with (zlen (h ++ p)) by (rewrite length_app; lia). rewrite Er. bsimp. change (DLT_RETURN_OK =? DLT_RETURN_OK) with true. cbn iota.
  rewrite ltb_false by lia. by exists r'.
Qed.

Lemma cstr_before n t r : 0 ∉ t -> (length t < n)%nat -> cstr n (t ++ 0 :: r) = t.
Proof.
  revert n. induction t as [|x t IH]; intros [|n] Ht Hl; cbn in *; try lia; [done|].
  apply not_elem_of_cons in Ht as [Hx Ht]. rewrite eqb_false by done. f_equal. apply IH; [done|lia].
Qed.

(** The description of a registration that was received completely. *)
Lemma description_read_ok mem s h p text q :
  pending (srec s) mem (h ++ p ++ text ++ q) -> zlen h = 8 -> 0 ∉ text -> zlen text <= 256 ->
  ∃ r', description_read mem (zlen p) (zlen text) s = Some (Some text, with_rec s r') ∧ pending r' mem q.
Proof.
  intros P Hh H0 Ht. destruct (pending_split _ _ _ P) as (pre & post & Em & Hb & Hl & Hs).
  assert (zlen h + zlen p + zlen text + zlen q < 2147483648) by (rewrite Em in Hs; rewrite !length_app in Hs; lia).
  unfold description_read, DLT_DAEMON_DESCSIZE. rewrite ltb_false by lia. rewrite Hb. bsimp. unfold dlt_receiver_check_and_get.
  change (Z.land 0 Receiver.DLT_RCV_SKIP_HEADER =? 0) with true. change (Z.land 0 Receiver.DLT_RCV_REMOVE =? 0) with true.
  cbn [negb bytesRcvd Receiver.set_buf buf]. rewrite Hl, !length_app. unfold sizeof_DltUserHeader. rewrite Z.add_0_r. cint. rewrite ltb_false by lia. cbn [orb].
  assert (mread mem (zlen pre + (zlen p + 8)) (zlen text) = Some text) as ->
    by (rewrite Em, <-!app_assoc; apply (mread_mid3 pre h p text (q ++ post)); lia). bsimp.
  rewrite ltb_false by lia. set (zeros := replicate (Z.to_nat (256 + 1)) 0).
  destruct (split_region zeros 0 (zlen text)) as (z0 & z1 & z2 & Ez & L0 & L1); [lia|lia|unfold zeros; rewrite length_replicate; lia|]. nils.
  cbn [app] in Ez. assert (mwrite zeros 0 text = Some (text ++ z2)) as -> by (rewrite Ez; apply (mwrite_mid [] z1 text z2); [done|lia]). bsimp.
  assert (∃ z3, z2 = 0 :: z3) as (z3 & ->).
  { assert (length zeros = 257%nat) as Lz by (unfold zeros; by rewrite length_replicate). rewrite Ez, length_app in Lz.
    destruct z2 as [|z z3]; [cbn in Lz; lia|]. exists z3. f_equal. apply (elem_of_replicate_inv z (Z.to_nat (256 + 1)) 0). fold zeros.
    rewrite Ez. apply elem_of_app. right. by left. }
  rewrite cstr_before by (done || lia). rewrite !app_assoc in P. destruct (remove_pending _ _ ((h ++ p) ++ text) q P) as (r' & Er & P' & _);
    [rewrite !length_app; lia|].
  exists r'. split; [|done]. cint. assert (zlen p + (8 + zlen text) = zlen ((h ++ p) ++ text)) as -> by (rewrite !length_app; lia).
  assert (Receiver.set_buf (Receiver.set_buf (srec s) (Some (zlen pre + (zlen p + 8)))) (Some (zlen pre)) = srec s) as ->
    by (destruct (srec s); cbn in *; by rewrite Hb).
  rewrite Er. done.
Qed.

(** ** The messages *)

(** The messages of the library, except the marker. *)
Inductive user_message :=
| LogMessage (M : message)
| RegisterApp (apid : bytes) (pid : Z) (text : bytes)
| UnregisterApp (apid : bytes) (pid : Z)
| RegisterCtx (apid ctid : bytes) (pos ll ts pid : Z) (text : bytes)
| UnregisterCtx (apid ctid : bytes) (pid : Z)
| LostMessages (n : Z) (apid : bytes)
| AppLevels (apid : bytes) (ll ts : Z).

Definition kind_of (u : user_message) : Z :=
  match u with
  | LogMessage _ => DLT_USER_MESSAGE_LOG
  | RegisterApp _ _ _ => DLT_USER_MESSAGE_REGISTER_APPLICATION
  | UnregisterApp _ _ => DLT_USER_MESSAGE_UNREGISTER_APPLICATION
  | RegisterCtx _ _ _ _ _ _ _ => DLT_USER_MESSAGE_REGISTER_CONTEXT
  | UnregisterCtx _ _ _ => DLT_USER_MESSAGE_UNREGISTER_CONTEXT
  | LostMessages _ _ => DLT_USER_MESSAGE_OVERFLOW
  | AppLevels _ _ _ => DLT_USER_MESSAGE_APP_LL_TS
  end.
Definition body_of (u : user_message) : bytes :=
  match u with
  | LogMessage M => encode M
  | RegisterApp apid pid text => (apid ++ le_bytes 4 (u32 pid) ++ le_bytes 4 (zlen text)) ++ text
  | UnregisterApp apid pid => apid ++ le_bytes 4 (u32 pid)
  | RegisterCtx apid ctid pos ll ts pid text =>
      (apid ++ ctid ++ le_bytes 4 (u32 pos) ++ [u8 ll; u8 ts] ++ le_bytes 4 (u32 pid) ++ le_bytes 4 (zlen text)) ++ text
  | UnregisterCtx apid ctid pid => apid ++ ctid ++ le_bytes 4 (u32 pid)
  | LostMessages n apid => le_bytes 4 n ++ apid
  | AppLevels apid ll ts => apid ++ [u8 ll; u8 ts]
  end.
Definition encode_user (u : user_message) : bytes := DltUserHeader 1 (kind_of u) ++ body_of u.

(** The identifier of an application or context; a description. *)
Definition wire_id (i : bytes) : Prop := good_id i ∧ is_bytes i.
Definition wire_text (t : bytes) : Prop := is_bytes t ∧ (0 ∉ t) ∧ zlen t <= DLT_DAEMON_DESCSIZE.
Definition is_int (z : Z) : Prop := -2147483648 <= z < 2147483648.

Definition wf_user (cap : Z) (u : user_message) : Prop :=
  match u with
  | LogMessage M => wf_message M ∧ m_htyp M <> 68 ∧ message_len M <= cap
  | RegisterApp apid pid text => wire_id apid ∧ is_int pid ∧ wire_text text
  | UnregisterApp apid pid => wire_id apid ∧ is_int pid
  | RegisterCtx apid ctid pos ll ts pid text =>
      wire_id apid ∧ wire_id ctid ∧ is_int pos ∧ DLT_USER_LOG_LEVEL_NOT_SET <= ll <= DaemonTables.DLT_LOG_VERBOSE ∧
      DLT_USER_TRACE_STATUS_NOT_SET <= ts <= DaemonTables.DLT_TRACE_STATUS_ON ∧ is_int pid ∧ wire_text text
  | UnregisterCtx apid ctid pid => wire_id apid ∧ wire_id ctid ∧ is_int pid
  | LostMessages n apid => 0 <= n < 4294967296 ∧ wire_id apid
  | AppLevels apid _ _ => wire_id apid
  end.

(** What a message means to the registry. *)
Definition apply_user (u : user_message) (R : registry) : registry :=
  match u with
  | RegisterApp apid pid text => register_app apid pid text R
  | UnregisterApp apid _ => unregister_app apid R
  | RegisterCtx apid ctid pos _ _ _ text => register_ctx apid ctid pos text R
  | UnregisterCtx apid ctid _ => unregister_ctx apid ctid R
  | LogMessage _ | LostMessages _ _ | AppLevels _ _ _ => R
  end.

Lemma wire_length i : wire_id i -> length i = 4%nat.
Proof. intros [H _]. by apply good_id_length. Qed.

Lemma length_userheader k : zlen (DltUserHeader 1 k) = 8.
Proof. unfold DltUserHeader. rewrite length_app, length_le_bytes. done. Qed.
Lemma le_Z_u32 z : le_Z (le_bytes 4 (u32 z)) = u32 z.
Proof. apply le_Z_le_bytes. apply (wrapu_range 32). lia. Qed.
Lemma i32_u32 z : is_int z -> i32 (u32 z) = z.
Proof. intros H. rewrite (wraps_wrapu 32) by lia. by apply i32_small. Qed.

Lemma register_application_decode apid pid n : length apid = 4%nat -> is_int pid -> 0 <= n < 4294967296 ->
  DltUserControlMsgRegisterApplication (apid ++ le_bytes 4 (u32 pid) ++ le_bytes 4 n) =
    Some {| ra_apid := apid; ra_pid := pid; ra_length := n |}.
Proof.
  intros La Hp Hn. unfold DltUserControlMsgRegisterApplication. pose proof (length_le_bytes 4 (u32 pid)) as L1. pose proof (length_le_bytes 4 n) as L2.
  assert (mread (apid ++ le_bytes 4 (u32 pid) ++ le_bytes 4 n) 0 4 = Some apid) as -> by (apply (mread_mid [] apid); cbn; lia). bsimp.
  assert (mread (apid ++ le_bytes 4 (u32 pid) ++ le_bytes 4 n) 4 4 = Some (le_bytes 4 (u32 pid))) as -> by (apply mread_mid; lia). bsimp.
  assert (mread (apid ++ le_bytes 4 (u32 pid) ++ le_bytes 4 n) 8 4 = Some (le_bytes 4 n)) as ->
    by (rewrite <-(app_nil_r (le_bytes 4 n)) at 1; apply (mread_mid2 apid (le_bytes 4 (u32 pid)) (le_bytes 4 n) []); lia). bsimp.
  rewrite le_Z_u32, i32_u32 by done. by rewrite le_Z_le_bytes.
Qed.

Lemma i8_u8 z : -128 <= z < 128 -> i8 (u8 z) = z.
Proof. intros H. rewrite (wraps_wrapu 8) by lia. by apply wraps_small. Qed.

Lemma list_lookup_middle_eq {A} (l1 : list A) x l2 l n : l = l1 ++ x :: l2 -> n = length l1 -> l !! n = Some x.
Proof. intros -> ->. by apply list_lookup_middle. Qed.

Lemma register_context_decode apid ctid pos ll ts pid n :
  length apid = 4%nat -> length ctid = 4%nat -> is_int pos -> is_int pid -> -128 <= ll < 128 -> -128 <= ts < 128 -> 0 <= n < 4294967296 ->
  DltUserControlMsgRegisterContext (apid ++ ctid ++ le_bytes 4 (u32 pos) ++ [u8 ll; u8 ts] ++ le_bytes 4 (u32 pid) ++ le_bytes 4 n) =
    Some {| rc_apid := apid; rc_ctid := ctid; rc_pos := pos; rc_level := ll; rc_status := ts; rc_pid := pid; rc_length := n |}.
Proof.
  intros La Lc Hpos Hpid Hll Hts Hn. unfold DltUserControlMsgRegisterContext. set (w := apid ++ _).
  pose proof (length_le_bytes 4 (u32 pos)) as L1. pose proof (length_le_bytes 4 (u32 pid)) as L2. pose proof (length_le_bytes 4 n) as L3.
  assert (w = (apid ++ ctid ++ le_bytes 4 (u32 pos) ++ [u8 ll; u8 ts]) ++ le_bytes 4 (u32 pid) ++ le_bytes 4 n ++ []) as Ew
    by (unfold w; by rewrite app_nil_r, <-!app_assoc).
  set (front := apid ++ ctid ++ le_bytes 4 (u32 pos) ++ [u8 ll; u8 ts]) in Ew.
  assert (zlen front = 14) as Lf by (unfold front; rewrite !length_app; cbn [length]; lia).
  assert (mread w 0 4 = Some apid) as -> by (apply (mread_mid [] apid); cbn; lia). bsimp.
  assert (mread w 4 4 = Some ctid) as -> by (apply mread_mid; lia). bsimp.
  assert (mread w 8 4 = Some (le_bytes 4 (u32 pos))) as -> by (apply mread_mid2; lia). bsimp.
  assert (w !! 12%nat = Some (u8 ll) ∧ w !! 13%nat = Some (u8 ts)) as [-> ->].
  { split; rewrite Ew; unfold front.
    - apply (list_lookup_middle_eq (apid ++ ctid ++ le_bytes 4 (u32 pos)) (u8 ll) (u8 ts :: le_bytes 4 (u32 pid) ++ le_bytes 4 n ++ [])); [by rewrite <-!app_assoc|rewrite !length_app; lia].
    - apply (list_lookup_middle_eq (apid ++ ctid ++ le_bytes 4 (u32 pos) ++ [u8 ll]) (u8 ts) (le_bytes 4 (u32 pid) ++ le_bytes 4 n ++ [])); [by rewrite <-!app_assoc|rewrite !length_app; cbn [length]; lia]. }
  bsimp. assert (mread w 14 4 = Some (le_bytes 4 (u32 pid))) as -> by (rewrite Ew; apply mread_mid; lia). bsimp.
  assert (mread w 18 4 = Some (le_bytes 4 n)) as -> by (rewrite Ew; apply mread_mid2; lia). bsimp.
  by rewrite !le_Z_u32, !i32_u32, !i8_u8, le_Z_le_bytes by done.
Qed.

Lemma plausible_ok n dflt high v : n <= v <= high -> n = -2 -> dflt = -1 -> -1 <= high -> ∃ w, plausible n dflt high v = Some w ∧ dflt <= w <= high.
Proof.
  intros Hv -> -> Hh. unfold plausible. destruct (Z.eqb_spec v (-2)) as [->|]; [exists (-1); split; [done|lia]|].
  assert ((v <? -1) || (high <? v) = false) as -> by lia. exists v. split; [done|lia].
Qed.

(** ** A daemon that serves applications *)

Definition text_ok (t : option bytes) : Prop := ∀ s, t = Some s -> is_bytes s ∧ zlen s <= DLT_DAEMON_DESCSIZE.
(** The lengths that a description can have. *)
Record texts (R : registry) : Prop := {
  tx_apps : map_Forall (λ _ e, text_ok (ae_text e)) (r_apps R);
  tx_ctxs : map_Forall (λ _ e, text_ok (ce_text e)) (r_ctxs R)
}.
(** What fits into the counters of "Get log info". *)
Definition sizes (R : registry) (n : Z) : Prop := Z.of_nat (size (r_apps R)) + n < 65536 ∧ Z.of_nat (size (r_ctxs R)) + n < 65536.

Lemma text_ok_some text : is_bytes text -> zlen text <= DLT_DAEMON_DESCSIZE -> text_ok (Some text).
Proof. by intros Bt Lt ? [= <-]. Qed.
Lemma texts_register R apid pid text : is_bytes text -> zlen text <= DLT_DAEMON_DESCSIZE -> texts R -> texts (register_app apid pid text R).
Proof. intros Bt Lt [Ha Hc]. split; [|done]. apply map_Forall_insert_2; [by apply text_ok_some|done]. Qed.
Lemma texts_unregister R apid : texts R -> texts (unregister_app apid R).
Proof. intros [Ha Hc]. split; [by apply map_Forall_delete|]. intros k e [He _]%map_lookup_filter_Some. by apply (Hc k). Qed.
Lemma texts_register_ctx R apid ctid pos text :
  is_bytes text -> zlen text <= DLT_DAEMON_DESCSIZE -> texts R -> texts (register_ctx apid ctid pos text R).
Proof.
  intros Bt Lt [Ha Hc]. unfold register_ctx. case_match; [|done]. split; [done|]. apply map_Forall_insert_2; [by apply text_ok_some|done].
Qed.
Lemma texts_unregister_ctx R apid ctid : texts R -> texts (unregister_ctx apid ctid R).
Proof. intros [Ha Hc]. unfold unregister_ctx. do 2 (case_match; [|done || (split; [done|]; by apply map_Forall_delete)]). done. Qed.

Lemma map_size_insert_le {A} (M : gmap bytes A) k x : (size (<[k := x]> M) <= S (size M))%nat.
Proof. rewrite map_size_insert. case_match; cbn; lia. Qed.
Lemma sizes_register_ctx R apid ctid pos text n : sizes R (n + 1) -> 0 <= n -> sizes (register_ctx apid ctid pos text R) n.
Proof.
  intros [Ha Hc] Hn. unfold register_ctx. case_match; [|split; lia]. split; cbn [r_apps r_ctxs]; [lia|].
  pose proof (map_size_insert_le (r_ctxs R) (apid ++ ctid) {| ce_apid := apid; ce_pos := pos; ce_text := Some text; ce_predefined := false |}). lia.
Qed.

Section serving.
Context (E : env) {cap : Z} {holds : RingBuffer.DltBuffer -> list bytes -> Prop} `{!MessageQueue cap holds}.
Context (X : settings) (m : Z) (send : send_fn) (mem : bytes).

Abbreviation Inv := (DInv (cap := cap) (holds := holds)).
Abbreviation adv := (advance (cap := cap) (holds := holds)).
Abbreviation goodf := (good (cap := cap) (holds := holds)).

Hypothesis (WE : wf_env E) (HM : heap_ok (heap E)) (Hcap : 1000 <= cap) (Hg : goodf m send).
Hypothesis (Hfifo : ∀ p, open_fifo X p <> 0) (Bmem : is_bytes mem).

Record serving (d : daemon) (q : list bytes) (R : registry) : Prop := {
  sv_inv : Inv d q;
  sv_shows : shows (tables d) R;
  sv_texts : texts R;
  sv_depth : depth d < m
}.

Lemma cap_300 : 300 <= cap.
Proof. lia. Qed.

Lemma serving_sound d q R : serving d q R -> sound d.
Proof. intros [I _ _ _]. split; apply I. Qed.

Lemma serving_advance d q R d' q' b : serving d q R -> adv d q d' q' b -> serving d' q' R.
Proof.
  intros [I Hs Ht Hm] A. pose proof (ad_inv _ _ _ _ _ A) as I'. split; [done| |done|].
  - apply (kept_shows ctx_handle _ _ _ alike_handle (ad_kept _ _ _ _ _ A) (di_tables _ _ I') Hs).
  - destruct A. unfold depth in *. lia.
Qed.

Lemma quiet_inv d q t' d' : Inv d q -> quiet d d' -> tables d' = t' -> daemon_inv t' -> ecuid t' = ecuid (tables d) -> Inv d' q ∧ depth d' = depth d.
Proof.
  intros I Q <- Ht He. destruct Q as [Q1 _ Q2 _ _ Q3 Q4 Q5 _ _]. split; [|unfold depth; congruence].
  destruct I. split; rewrite ?He, ?Q1, ?Q2, ?Q3, ?Q4, ?Q5; done.
Qed.

Lemma serving_alike d q R d' : serving d q R -> settled ctx_alike d d' -> serving d' q R.
Proof.
  intros [I Hs Ht Hm] [Hq Hk]. assert (daemon_inv (tables d')) as Hd' by (eapply (kept_ids_inv ctx_alike); [apply alike_ids|done|apply I]).
  destruct (quiet_inv d q _ d' I Hq eq_refl Hd' (kp_ecuid Hk)) as [I' Hdep]. split; [done| |done|lia].
  by apply (kept_shows ctx_alike _ _ _ (λ _ _ H, H) Hk Hd').
Qed.
Lemma serving_settled d q R d' : serving d q R -> settled ctx_same d d' -> serving d' q R.
Proof. intros S1 S2. eapply serving_alike; [done|]. eapply settled_mono; [|done]. apply alike_same. Qed.

Lemma serving_tables d q R t R' : serving d q R -> shows t R' -> ecuid t = ecuid (tables d) -> texts R' -> serving (set_tables d t) q R'.
Proof.
  intros [I Hs Ht Hm] Hs' He Ht'. destruct (quiet_inv d q t (set_tables d t) I) as [I' Hdep]; [by split|done|apply Hs'|done|].
  split; [done|done|done|lia].
Qed.

(** Messages were sent: handles may be lost. *)
Definition onward (R : registry) (d d' : daemon) (q' : list bytes) : Prop := serving d' q' R ∧ kept ctx_handle (tables d) (tables d').

Lemma onward_trans R d d1 q1 d2 q2 : onward R d d1 q1 -> onward R d1 d2 q2 -> onward R d d2 q2.
Proof. intros [_ K] [S K']. split; [done|by etrans]. Qed.
Lemma onward_refl R d q : serving d q R -> onward R d d q.
Proof. by split. Qed.
Lemma onward_advance d q R d' q' b : serving d q R -> adv d q d' q' b -> onward R d d' q'.
Proof. intros S A. split; [by eapply serving_advance|apply A]. Qed.

(** A log message of the daemon about applications. *)
Lemma serving_log d q R text level : serving d q R -> zlen text <= 512 ->
  ∃ rc d' q', dlt_daemon_log_internal E send text level d = Some (rc, d') ∧ onward R d d' q'.
Proof.
  intros S Ht. destruct (log_good_cap (holds := holds) E WE cap_300 m send text level d q Hg (sv_inv _ _ _ S) (sv_depth _ _ _ S))
    as (rc & d' & q' & -> & A); [lia..|]. eexists _, d', q'. split; [done|]. by eapply onward_advance.
Qed.
(** A control message to all clients. *)
Lemma serving_control d q R payload apid a : serving d q R ->
  apid = [0] ∧ a = DLT_DAEMON_CTRL_APID ∨ is_empty apid = Some false ∧ id_of apid a ∧ is_bytes a ->
  is_bytes payload -> zlen payload <= 900 ->
  ∃ rc d' q', control_message E send DLT_DAEMON_SEND_TO_ALL payload apid d = Some (rc, d') ∧ onward R d d' q'.
Proof.
  intros S Ha Bp Lp. destruct (control_good_cap (holds := holds) E WE m send DLT_DAEMON_SEND_TO_ALL payload apid a d q Hg (sv_inv _ _ _ S) (sv_depth _ _ _ S) Ha Bp)
    as (rc & d' & q' & -> & A); [lia..|]. eexists _, d', q'. split; [done|]. by eapply onward_advance.
Qed.

(** The object for messages. *)
Definition ready (s : session) : Prop := MessageSpec.wf (smsg s) ∧ tidy (smsg s).

(** A handler that served its message: the rest waits. *)
Definition served (s s' : session) (R : registry) (rest : bytes) : Prop :=
  ∃ q, serving (sd s') q R ∧ (ready s -> ready s') ∧ pending (srec s') mem rest.

Lemma app_array u k a : live_apps u !! k = Some a -> ∃ apps, applications u = Some apps ∧ apps !! k = Some a.
Proof.
  intros Hk. unfold live_apps in Hk. apply lookup_take_Some in Hk as [Hk _]. destruct (applications u) as [apps|]; [by exists apps|done].
Qed.
Lemma app_at_get t k a i : app_at t k a -> dlt_daemon_find_users_list t (ecuid t) = Some i ->
  DaemonTables.get_app t i k = Some a.
Proof.
  intros (j & u & [Hf Hu] & Hk) Hi. rewrite Hf in Hi. injection Hi as <-. unfold DaemonTables.get_app. rewrite Hu. bsimp.
  unfold live_apps in Hk. apply lookup_take_Some in Hk as [Hk _]. by destruct (applications u).
Qed.
Lemma app_at_own t k a i u : app_at t k a -> own_list t (ecuid t) i u -> live_apps u !! k = Some a.
Proof. intros (j & v & [Hf Hv] & Hk) [Hf' Hu]. rewrite Hf in Hf'. injection Hf' as ->. by rewrite Hv in Hu; injection Hu as ->. Qed.
Lemma app_at_kept Q t t' k a : kept Q t t' -> app_at t k a -> ∃ a', app_at t' k a' ∧ app_same a a'.
Proof.
  intros K (i & u & [Hf Hu] & Hk). destruct (kept_lookup _ _ _ _ _ K Hu) as (u' & Hu' & L).
  destruct (Forall2_lookup_l _ _ _ _ _ (live_apps_kept _ _ _ L) Hk) as (a' & Hk' & Ha). exists a'. split; [|done].
  exists i, u'. split; [split; [|done]|done]. by rewrite (kp_ecuid K), (kept_find _ _ _ _ K).
Qed.
Lemma shows_find t R : shows t R -> ∃ i u, dlt_daemon_find_users_list t (ecuid t) = Some i ∧ user_list t !! i = Some u ∧
  own_list t (ecuid t) i u ∧ abs u = R ∧ linked_maps u.
Proof. intros (_ & i & u & [Hf Hu] & Ha & Hl). by exists i, u. Qed.

Lemma registered_text_length a p t : zlen (registered_text a p t) <= 512.
Proof. unfold registered_text, DLT_DAEMON_TEXTBUFSIZE. rewrite length_take. lia. Qed.

Lemma register_application_served s q R apid pid text rest :
  pending (srec s) mem (encode_user (RegisterApp apid pid text) ++ rest) -> serving (sd s) q R -> wf_user cap (RegisterApp apid pid text) ->
  ∃ s', dlt_daemon_process_user_message_register_application E X send mem s = Some (0, s') ∧
    served s s' (register_app apid pid text R) rest.
Proof.
  intros P S (Hid & Hpid & Bt & Ht0 & Lt). unfold encode_user, body_of in P. rewrite <-!app_assoc in P.
  set (h := DltUserHeader 1 _) in P. pose proof (length_userheader (kind_of (RegisterApp apid pid text))) as Lh. fold h in Lh.
  set (p := apid ++ le_bytes 4 (u32 pid) ++ le_bytes 4 (zlen text)).
  assert (zlen p = 12) as Lp by (unfold p; rewrite !length_app, !length_le_bytes, (wire_length _ Hid); lia).
  assert (pending (srec s) mem (h ++ p ++ text ++ rest)) as P' by (unfold p; by rewrite <-!app_assoc).
  unfold dlt_daemon_process_user_message_register_application, sizeof_DltUserControlMsgRegisterApplication.
  rewrite <-Lp, (get_pending_skip _ _ h p (text ++ rest)) by done. bsimp. rewrite (ltb_false (zlen p)) by lia.
  assert (DltUserControlMsgRegisterApplication p = Some {| ra_apid := apid; ra_pid := pid; ra_length := zlen text |}) as ->
    by (apply register_application_decode; [by apply wire_length|done|unfold DLT_DAEMON_DESCSIZE in Lt; lia]).
  bsimp. cbn [ra_apid ra_pid ra_length].
  rewrite Lp. replace (u32 12) with (zlen p) by (by rewrite Lp).
  destruct (description_read_ok mem (with_rec s (srec s)) h p text rest P' Lh Ht0 Lt) as (r & -> & Pr). bsimp. cbn [with_rec sd].
  pose proof (sv_shows _ _ _ S) as Hs. destruct (shows_find _ _ Hs) as (i & u & Hf & Hu & Hown & Ha & Hl).
  destruct (find_app_shows _ R apid i u (proj1 Hs) Hown Ha (proj1 Hid)) as (old & -> & Hold). bsimp.
  assert (∃ old_pid, (match old with
    | None => Some 0
    | Some k => i ← dlt_daemon_find_users_list (tables (sd s)) (ecuid (tables (sd s)));
                a ← DaemonTables.get_app (tables (sd s)) i k; Some (App.pid a)
    end) = Some old_pid) as (old_pid & ->).
  { destruct old as [k|]; [|by eexists]. rewrite Hf. bsimp. destruct Hold as (a & Hk & _).
    rewrite (app_at_get _ k a i) by (done || by exists i, u). by eexists. }
  bsimp. destruct (add_shows (heap E) (app_memory X) (open_fifo X) _ apid pid text R HM Hs (proj1 Hid) Hfifo)
    as (k & t & a & -> & Hs1 & He1 & Hat & Ea & Einfo). bsimp. set (d1 := set_tables (sd s) t).
  assert (serving d1 q (register_app apid pid text R)) as S1.
  { eapply serving_tables; [done..|]. apply texts_register; [done|done|apply S]. }
  destruct (shows_find _ _ Hs1) as (i1 & u1 & Hf1 & Hu1 & Hown1 & _). change (tables d1) with t. rewrite <-He1, Hf1. bsimp.
  pose proof (app_at_own _ _ _ _ _ Hat Hown1) as Hk. destruct (send_log_state_total d1 i1 k u1 a (proj1 Hs1) Hu1 Hk) as (rc & d2 & u2 & -> & S12 & _). bsimp.
  assert (serving d2 q (register_app apid pid text R)) as S2 by (eapply serving_advance; [exact S1|apply same_advance; [apply S1|exact S12]]).
  destruct S12 as (_ & _ & _ & _ & _ & _ & He2 & _ & K2). destruct (app_at_kept _ _ _ _ _ K2 Hat) as (a2 & Hat2 & h2 & o2 & -> & _).
  rewrite (app_at_get _ _ _ i1 Hat2) by (by rewrite He2, (kept_find _ _ _ _ K2)). bsimp.
  assert (App.application_description a = Some text) as Etext by (by injection Einfo).
  assert (∃ d3 q3, (if negb (old_pid =? App.pid (App.set_handle a h2 o2)) then
                 text ← App.application_description (App.set_handle a h2 o2);
                 '(_, d) ← dlt_daemon_log_internal E send
                             (registered_text (App.apid (App.set_handle a h2 o2)) (App.pid (App.set_handle a h2 o2)) text) DLT_LOG_INFO d2;
                 Some d
               else Some d2) = Some d3 ∧ serving d3 q3 (register_app apid pid text R)) as (d3 & q3 & -> & S3).
  { destruct (negb _); [|by exists d2, q]. cbn [App.application_description App.set_handle]. rewrite Etext. bsimp.
    destruct (serving_log d2 q _ (registered_text (App.apid (App.set_handle a h2 o2)) (App.pid (App.set_handle a h2 o2)) text) DLT_LOG_INFO S2)
      as (rc' & d3 & q3 & -> & [S3 _]); [apply registered_text_length|]. by exists d3, q3. }
  bsimp. eexists. split; [reflexivity|]. by exists q3.
Qed.

(** The messages of fixed size. *)
Lemma get_body s k body rest : pending (srec s) mem ((DltUserHeader 1 k ++ body) ++ rest) ->
  ∃ r', get_and_remove mem (zlen body) s = Some (Some body, with_rec s r') ∧ pending r' mem rest.
Proof. intros P. rewrite <-app_assoc in P. apply (get_and_remove_ok mem s _ body rest P), length_userheader. Qed.

Lemma no_apps t R i u apid : own_list t (ecuid t) i u -> abs u = R -> num_applications u <= 0 -> r_apps R !! apid = None.
Proof.
  intros Hown <- Hn. cbn [r_apps abs]. unfold amap, live_apps. replace (Z.to_nat (num_applications u)) with 0%nat by lia. done.
Qed.
Lemma unregister_none t R apid : shows t R -> r_apps R !! apid = None -> unregister_app apid R = R.
Proof.
  intros (_ & i & u & _ & <- & Hl) Hn. unfold unregister_app. rewrite delete_id by done. cbn [r_apps r_ctxs abs] in *.
  unfold abs. f_equal. apply map_filter_id. intros k x Hx. cbn. rewrite lookup_fmap in Hx. apply fmap_Some in Hx as (c & Hc & ->).
  intros E1. cbn [ctx_info ce_apid] in E1. destruct (lm_owned _ Hl k c Hc) as [a Ha]. rewrite E1 in Ha.
  rewrite lookup_fmap, Ha in Hn. done.
Qed.

Lemma unregister_application_served s q R apid pid rest :
  pending (srec s) mem (encode_user (UnregisterApp apid pid) ++ rest) -> serving (sd s) q R -> wf_user cap (UnregisterApp apid pid) ->
  ∃ s', dlt_daemon_process_user_message_unregister_application E X send mem s = Some (0, s') ∧
    served s s' (unregister_app apid R) rest.
Proof.
  intros P S (Hid & Hpid). unfold dlt_daemon_process_user_message_unregister_application.
  destruct (get_body _ _ _ _ P) as (r & Er & Pr). cbn [body_of] in Er.
  replace (zlen (apid ++ le_bytes 4 (u32 pid))) with sizeof_DltUserControlMsgUnregisterApplication in Er
    by (rewrite length_app, length_le_bytes, (wire_length _ Hid); done).
  rewrite Er. bsimp. assert (mread (apid ++ le_bytes 4 (u32 pid)) 0 4 = Some apid) as ->
    by (apply (mread_mid [] apid); [done|by rewrite (wire_length _ Hid)]). bsimp. cbn [with_rec sd].
  pose proof (sv_shows _ _ _ S) as Hs. destruct (shows_find _ _ Hs) as (i & u & Hf & Hu & Hown & Ha & Hl). rewrite Hf, Hu. bsimp.
  destruct (Z.ltb_spec 0 (num_applications u)) as [Hn|Hn]; cbn [negb].
  2: { eexists. split; [reflexivity|]. exists q. by rewrite (unregister_none _ _ _ Hs (no_apps _ _ _ _ _ Hown Ha Hn)). }
  destruct (find_app_shows _ R apid i u (proj1 Hs) Hown Ha (proj1 Hid)) as ([ka|] & -> & Hka); bsimp.
  2: { eexists. split; [reflexivity|]. exists q. by rewrite (unregister_none _ _ _ Hs Hka). }
  destruct Hka as (a & Hk & _ & Ea & _). destruct (app_array _ _ _ Hk) as (apps & Eapps & Hka).
  rewrite Eapps. bsimp. destruct (unregister_shows _ R apid i u ka a apps (proj1 Hs) Hown Ha Hl Hk Ea Eapps) as (base & t1 & t2 & -> & E1 & E2 & Hs2 & He2).
  bsimp. rewrite Hka. bsimp. rewrite E1. bsimp. cbn [negb]. rewrite E2. bsimp. rewrite eqb_false by done.
  destruct (serving_log (set_tables (sd s) t2) q (unregister_app apid R) (unregistered_text apid) DLT_LOG_INFO) as (rc & d3 & q3 & -> & [S3 _]).
  { eapply serving_tables; [exact S|done|done|]. apply texts_unregister, S. }
  { unfold unregistered_text. rewrite !length_app. pose proof (length_cstr 4 apid). cbn [length]. lia. }
  bsimp. eexists. split; [reflexivity|]. by exists q3.
Qed.

(** *** Registration of a context *)

Lemma id_of_remo : id_of DLT_DAEMON_REMO_STRING remo.
Proof. split; [done|]. intros old (? & ? & ? & ? & ->)%four. reflexivity. Qed.

(** The request for one context, in memory that holds anything. *)
Lemma auto_request_built apid ctid o : wire_id apid -> wire_id ctid -> 0 <= o < 256 ->
  ∃ b, (b ← malloc (heap E) sizeof_DltServiceGetLogInfoRequest;
        b ← mwrite b 0 (le_bytes 4 DLT_SERVICE_ID_GET_LOG_INFO ++ [o]);
        a ← mread b 5 4; a ← Filter.set_id a apid; b ← mwrite b 5 a;
        c ← mread b 9 4; c ← Filter.set_id c ctid; b ← mwrite b 9 c;
        o ← mread b 13 4; o ← Filter.set_id o DLT_DAEMON_REMO_STRING; mwrite b 13 o) = Some b ∧
    get_log_info_request b = Some {| options := o; req_apid := apid; req_ctid := ctid |}.
Proof.
  intros Ha Hc Ho. pose proof (HM sizeof_DltServiceGetLogInfoRequest) as Hne. destruct (malloc _ _) as [b|] eqn:Em; [|done].
  apply malloc_length in Em. unfold sizeof_DltServiceGetLogInfoRequest in Em. bsimp.
  destruct (split_region b 0 5) as (x & x0 & r0 & -> & L & L0); [lia..|]. nils. cbn [app] in *. rewrite length_app in Em.
  destruct (split_region r0 0 4) as (x & x1 & r1 & -> & L & L1); [lia..|]. nils. cbn [app] in *. rewrite length_app in Em.
  destruct (split_region r1 0 4) as (x & x2 & x3 & -> & L & L2); [lia..|]. nils. cbn [app] in *. rewrite length_app in Em.
  set (h := le_bytes 4 _ ++ [o]). assert (zlen h = 5) as Lh by (unfold h; by rewrite length_app, length_le_bytes).
  assert (mwrite (x0 ++ x1 ++ x2 ++ x3) 0 h = Some (h ++ x1 ++ x2 ++ x3)) as -> by (apply (mwrite_mid [] x0 h); [done|lia]). bsimp.
  rewrite (mread_mid h x1 (x2 ++ x3)) by lia. bsimp. pose proof (wire_length _ Ha) as La. pose proof (wire_length _ Hc) as Lc.
  rewrite (UserSendSpec.set_id_is_id x1 apid) by (lia || apply Ha). bsimp. rewrite (mwrite_mid h x1 apid (x2 ++ x3)) by lia. bsimp.
  rewrite (mread_mid2 h apid x2 x3) by lia. bsimp.
  rewrite (UserSendSpec.set_id_is_id x2 ctid) by (lia || apply Hc). bsimp. rewrite (mwrite_mid2 h apid x2 ctid x3) by lia. bsimp.
  assert (mread (h ++ apid ++ ctid ++ x3) 13 4 = Some x3) as ->
    by (rewrite <-(app_nil_r x3) at 1; apply (mread_mid3 h apid ctid x3 []); lia). bsimp.
  destruct id_of_remo as [Lr Hr]. rewrite Hr by lia. bsimp. assert (mwrite (h ++ apid ++ ctid ++ x3) 13 remo = Some (h ++ apid ++ ctid ++ remo)) as ->
    by (rewrite <-(app_nil_r x3), <-(app_nil_r remo) at 1; apply (mwrite_mid3 h apid ctid x3 remo []); cbn; lia).
  eexists. split; [reflexivity|]. unfold get_log_info_request. 
  assert ((h ++ apid ++ ctid ++ remo) !! 4%nat = Some o) as -> by done. bsimp.
  rewrite (mread_mid h apid (ctid ++ remo) 5 4) by lia. bsimp. rewrite (mread_mid2 h apid ctid remo) by lia. by bsimp.
Qed.

Lemma info_sizes t i u R : daemon_inv t -> own_list t (ecuid t) i u -> abs u = R -> linked_maps u -> sizes R 0 ->
  zlen (live_apps u) < 65536 ∧ ∀ a, a ∈ live_apps u -> App.num_contexts a < 65536.
Proof.
  intros Hd Hown <- Hl [Ha Hc]. destruct (own_apps_inv _ _ _ _ Hd Hown) as [Hi _]. pose proof (sorted_NoDup _ _ (ai_sorted _ Hi)) as Hn.
  cbn [r_apps r_ctxs abs] in *. rewrite map_size_fmap in Ha; rewrite map_size_fmap in Hc. split.
  - unfold amap, table in Ha. rewrite map_size_list_to_map in Ha by (by rewrite table_fst). rewrite length_fmap in Ha. lia.
  - intros a Hin. rewrite (lm_counted _ Hl (App.apid a) a) by (by apply table_lookup).
    assert (size (contexts_of (App.apid a) (cmap u)) <= size (cmap u))%nat by (apply map_size_filter). lia.
Qed.

Lemma text_desc t : text_ok t -> is_bytes (enc_desc t) ∧ zlen (enc_desc t) <= 258.
Proof.
  intros Ht. split.
  - unfold enc_desc. rewrite is_bytes_app. split; [apply is_bytes_le|]. destruct t as [t|]; [by apply Ht|constructor].
  - rewrite length_enc_desc. unfold desc_len. destruct t as [t|]; cbn; [|lia]. destruct (Ht t eq_refl) as [_ Hl].
    unfold DLT_DAEMON_DESCSIZE in Hl. lia.
Qed.

Lemma is_bytes_if (b : bool) l : is_bytes l -> is_bytes (if b then l else []).
Proof. by destruct b; [|constructor]. Qed.
Lemma length_if (b : bool) (l : bytes) : zlen (if b then l else []) <= zlen l.
Proof. destruct b; cbn; lia. Qed.
Lemma is_bytes_u8 z : is_bytes [u8 z].
Proof. apply Forall_singleton, (wrapu_range 8). lia. Qed.
Lemma is_bytes_status (b : bool) o : 0 <= o < 256 -> is_bytes [if b then 8 else o].
Proof. intros Ho. apply Forall_singleton. case_match; lia. Qed.

Lemma enc_ctx_small o c : wire_id (Ctx.ctid c) -> text_ok (Ctx.context_description c) ->
  is_bytes (enc_ctx o c) ∧ zlen (enc_ctx o c) <= 300.
Proof.
  intros Hc Tx. destruct (text_desc _ Tx) as [Bd Ld]. unfold enc_ctx. split.
  - rewrite !is_bytes_app. split_and!; [apply Hc|apply is_bytes_if, is_bytes_u8..|by apply is_bytes_if].
  - pose proof (length_if (with_level o) [u8 (Ctx.log_level c)]) as L1. pose proof (length_if (with_trace o) [u8 (Ctx.trace_status c)]) as L2.
    pose proof (length_if (o =? 7) (enc_desc (Ctx.context_description c))) as L3. rewrite !length_app, (wire_length _ Hc). cbn [length] in L1, L2. lia.
Qed.

(** The information about one context is small. *)
Lemma one_info t i u R apid ctid o : daemon_inv t -> own_list t (ecuid t) i u -> abs u = R -> texts R ->
  wire_id apid -> wire_id ctid -> 0 <= o < 256 ->
  let p := log_info o (selected u {| options := o; req_apid := apid; req_ctid := ctid |}) in is_bytes p ∧ zlen p <= 900.
Proof.
  intros Hd Hown <- [Ta Tc] Ha Hc Ho. unfold selected. cbn [req_apid req_ctid]. rewrite (proj2 (proj1 Ha)), (proj2 (proj1 Hc)).
  destruct (amap u !! apid) as [a|] eqn:Ea; cbv zeta.
  2: { split; [|cbn; lia]. by apply is_bytes_forallb. }
  assert (App.apid a = apid ∧ is_bytes (enc_desc (App.application_description a)) ∧ zlen (enc_desc (App.application_description a)) <= 258) as (Eid & Ba & Ld).
  { split.
    - unfold amap in Ea. apply table_lookup in Ea as [_ Ea]; [done|]. apply sorted_NoDup, (own_apps_inv _ _ _ _ Hd Hown).
    - apply text_desc. apply (Ta apid (app_info a)). cbn [r_apps abs]. by rewrite lookup_fmap, Ea. }
  set (cs := option_list _). assert (is_bytes (concat (enc_ctx o <$> cs)) ∧ zlen (concat (enc_ctx o <$> cs)) <= 300) as [Bcs Lc].
  { unfold cs. destruct (cmap u !! (apid ++ ctid)) as [c|] eqn:Ec; cbn; [|split; [constructor|lia]]. rewrite app_nil_r. apply enc_ctx_small.
    - by rewrite (proj2 (cmap_apid _ _ _ _ _ _ _ Hd Hown (wire_length _ Ha) Ec)).
    - apply (Tc (apid ++ ctid) (ctx_info c)). cbn [r_ctxs abs]. by rewrite lookup_fmap, Ec. }
  assert (is_bytes (enc_app o (a, cs)) ∧ zlen (enc_app o (a, cs)) <= 600) as [Bapp Lapp].
  { unfold enc_app. cbn [fst snd]. rewrite Eid. split.
    - rewrite !is_bytes_app. split_and!; [apply Ha|apply is_bytes_le|done|by apply is_bytes_if].
    - pose proof (length_if (o =? 7) (enc_desc (App.application_description a))) as L3.
      rewrite !length_app, length_le_bytes, (wire_length _ Ha). lia. }
  unfold log_info. rewrite fmap_cons. cbn [fmap list_fmap concat]. rewrite app_nil_r. split.
  - rewrite !is_bytes_app. split_and!; [apply is_bytes_le|by apply is_bytes_status|apply is_bytes_le|done|constructor|by apply is_bytes_forallb].
  - rewrite !length_app, !length_le_bytes. cbn [length remo]. lia.
Qed.

Lemma serving_response d q R id st : serving d q R ->
  ∃ d' q', dlt_daemon_control_service_response E send DLT_DAEMON_SEND_TO_ALL id st d = Some d' ∧ onward R d d' q'.
Proof.
  intros S. unfold dlt_daemon_control_service_response.
  destruct (serving_control d q R (le_bytes 4 (u32 id) ++ [u8 st]) [0] DLT_DAEMON_CTRL_APID S) as (rc & d' & q' & -> & S').
  { by left. }
  { rewrite is_bytes_app. split; [apply is_bytes_le|apply is_bytes_u8]. }
  { rewrite length_app, length_le_bytes. cbn. lia. }
  bsimp. by exists d', q'.
Qed.

Lemma serving_log_info d q R msg b apid ctid o :
  serving d q R -> sizes R 0 -> wire_id apid -> wire_id ctid -> 0 <= o < 256 -> Message.databuffer msg = Some b ->
  get_log_info_request b = Some {| options := o; req_apid := apid; req_ctid := ctid |} -> 17 <= Message.datasize msg ->
  ∃ d' q', dlt_daemon_control_get_log_info E send DLT_DAEMON_SEND_TO_ALL msg d = Some d' ∧ onward R d d' q'.
Proof.
  intros S Hsz Ha Hc Ho Eb Er Hds. pose proof (sv_shows _ _ _ S) as Hs. destruct (shows_find _ _ Hs) as (i & u & Hf & Hu & Hown & Habs & Hl).
  destruct (info_sizes _ _ _ _ (proj1 Hs) Hown Habs Hl Hsz) as [Hna Hnc].
  destruct (one_info _ _ _ _ apid ctid o (proj1 Hs) Hown Habs (sv_texts _ _ _ S) Ha Hc Ho) as [Bp Lp].
  set (r := {| options := o; req_apid := apid; req_ctid := ctid |}) in *.
  destruct (decide (3 <= o <= 7)) as [Hr|Hr].
  - assert (log_info_asked d u msg r) as Hask.
    { split; try done; [by eapply serving_sound|by exists i|by eapply maps_linked; [apply Hs|..]|by exists b|apply Ha|apply Hc|].
      cbn. by rewrite (proj2 (proj1 Ha)). }
    rewrite (get_log_info_payload E send _ msg d u r Hask) by (cbn [r options]; unfold INT32_MAX; lia). cbn [r options]. fold r. unfold or_response.
    destruct (serving_control d q R (log_info o (selected u r)) [0] DLT_DAEMON_CTRL_APID S ltac:(by left) Bp Lp) as (rc & d' & q' & -> & S').
    bsimp. destruct rc; [by exists d', q'|].
    destruct (serving_response d' q' R DLT_SERVICE_ID_GET_LOG_INFO DLT_SERVICE_RESPONSE_ERROR (proj1 S')) as (d2 & q2 & -> & S2).
    exists d2, q2. split; [done|]. by eapply onward_trans.
  - unfold dlt_daemon_control_get_log_info, DltFile.dlt_check_rcv_data_size, sizeof_DltServiceGetLogInfoRequest. rewrite Eb.
    rewrite (ltb_false (Message.datasize msg)) by lia. cbn [Z.ltb Z.compare DLT_RETURN_OK]. rewrite Hf, Hu. bsimp. rewrite Er. bsimp. cbn [r options].
    assert ((o <? 3) || (7 <? o) = true) as -> by lia. by apply (serving_response d q).
Qed.

Lemma auto_log_info_served d q R apid ctid : serving d q R -> sizes R 0 -> wire_id apid -> wire_id ctid ->
  ∃ d' q', auto_log_info E X send apid ctid d = Some (true, d') ∧ onward R d d' q'.
Proof.
  intros S Hsz Ha Hc. unfold auto_log_info. cbn [Message.dlt_message_init].
  set (o := u8 (autoResponseGetLogInfoOption X)). assert (0 <= o < 256) as Ho by (apply (wrapu_range 8); lia).
  destruct (auto_request_built apid ctid o Ha Hc Ho) as (b & Eb & Er). pose proof (HM sizeof_DltServiceGetLogInfoRequest) as Hne.
  destruct (malloc _ _) as [b0|]; [|done]. bsimp. cbn [mbind option_bind] in Eb.
  unbind Eb as b1 E1. bsimp. unbind Eb as a1 E2. bsimp. unbind Eb as a2 E3. bsimp. unbind Eb as b2 E4. bsimp. unbind Eb as c1 E5. bsimp.
  unbind Eb as c2 E6. bsimp. unbind Eb as b3 E7. bsimp. unbind Eb as o1 E8. bsimp. unbind Eb as o2 E9. bsimp. rewrite Eb. bsimp.
  set (msg := Message.set_databuffer _ _ _).
  destruct (serving_log_info d q R msg b apid ctid o S Hsz Ha Hc Ho eq_refl Er) as (d' & q' & -> & S'); [done|]. bsimp. by exists d', q'.
Qed.

Lemma storage_level_alike l c : ctx_alike c (with_storage_level l c).
Proof. done. Qed.
Lemma context_text_length a c t : zlen (context_text a c t) <= 512.
Proof. unfold context_text, DLT_DAEMON_TEXTBUFSIZE. rewrite length_take. lia. Qed.

Lemma onward_ctx R d d' q' i k c : onward R d d' q' -> ctx_at (tables d) i k c -> ∃ c', ctx_at (tables d') i k c'.
Proof. intros [_ K] Hc. destruct (ctx_at_kept _ _ _ _ _ _ K Hc) as (c' & Hc' & _). by exists c'. Qed.

(** The answer to a registration, the level of the context, did not reach the
    application: the last thing the daemon wrote was for a pipe, and the operating
    system did not take all of the 14 bytes. *)
Definition answer_failed (o : os) : Prop :=
  ∃ n before h w, calls o = S n ∧ ¬ (polls o n = Some true ∧ script o n = WriteAll) ∧
    out o = before ++ [(h, w)] ∧ DLT_FD_MINIMUM <= h ∧ zlen w < 14.

Lemma user_out2_failed o h d1 d2 ret o' : DLT_FD_MINIMUM <= h -> zlen (d1 ++ d2) = 14 ->
  user_out2 o h d1 d2 = (ret, o') -> ret = DLT_RETURN_OK ∨ answer_failed o'.
Proof.
  unfold DLT_FD_MINIMUM. intros Hh Hl. unfold user_out2, dlt_user_log_out2_with_timeout, dlt_user_log_out2, writev. rewrite !ltb_false by lia.
  cbn [UserShared.script UserShared.calls]. rewrite length_app in Hl. assert (∀ n, zlen (take n (d1 ++ d2)) = Z.of_nat (Nat.min n (length d1 + length d2))) as Ht.
  { intros n. by rewrite length_take, length_app. }
  intros H. assert (ret = DLT_RETURN_OK ∨ ¬ (polls o (calls o) = Some true ∧ script o (calls o) = WriteAll) ∧ ∃ w, out o' = out o ++ [(h, w)] ∧ zlen w < 14 ∧
    calls o' = S (calls o) ∧ polls o' = polls o ∧ script o' = script o) as [->|(Hf & w & Ho & Hw & Hc & Hp & Hs)]; [|by left|].
  2: { right. exists (calls o), (out o), h, w. by rewrite Hp, Hs. }
  destruct (polls o (calls o)) as [[]|]; [|injection H as _ <-; right; split; [by intros []|by exists []]..].
  destruct (script o (calls o)) as [|n e|e] eqn:Es; [| |].
  - rewrite length_app, u32_small, eqb_true in H by lia. injection H as <- _. by left.
  - rewrite length_app in H. destruct (Z.eqb_spec (u32 (Z.of_nat (Nat.min n (length d1 + length d2)))) (zlen d1 + zlen d2)) as [He|He]; injection H as <- <-; [by left|right].
    rewrite u32_small in He by lia. split; [by intros []|]. eexists. split_and!; try done. cbn [UserShared.pipe Datatypes.app]. rewrite Ht. lia.
  - rewrite eqb_false in H by (change (u32 (-1)) with 4294967295; lia). injection H as <- <-. right. split; [by intros []|]. by eexists.
Qed.

Lemma user_send_log_level_answer d i k c rc d' : get_ctx (tables d) i k = Some c -> DLT_FD_MINIMUM <= Ctx.user_handle c ->
  dlt_daemon_user_send_log_level (control_flags X) d i k = Some (rc, d') -> rc = DLT_RETURN_OK ∨ answer_failed (sys d').
Proof.
  intros Hc Hh H. unfold dlt_daemon_user_send_log_level in H. rewrite Hc in H. cbn [dlt_user_set_userheader Z.leb Z.compare DLT_USER_MESSAGE_LOG_LEVEL] in H.
  change (DLT_RETURN_OK <? DLT_RETURN_OK) with false in H. cbn iota in H. cbn [mbind option_bind] in H.
  destruct (user_out2 _ _ _ _) as [ret o] eqn:Eo. unbind H as d1 E1. injection H as <- <-.
  apply user_out2_failed in Eo as [->|Hf]; [by left|right|done|].
  2: { pose proof (length_userheader DLT_USER_MESSAGE_LOG_LEVEL). rewrite !length_app, length_le_bytes. cbn [length]. lia. }
  assert (sys d1 = o) as ->; [|done]. destruct (ret <? _); [|by injection E1 as <-].
  destruct (last_errno o); try (by injection E1 as <-); (unbind E1 as app Ea; destruct app as [ka|]; [|by injection E1 as <-]; unbind E1 as ia Ei; unbind E1 as t Et; by injection E1 as <-).
Qed.

Lemma context_registered_served d q R apid ctid ll ts i k c :
  serving d q R -> sizes R 0 -> wire_id apid -> wire_id ctid ->
  dlt_daemon_find_users_list (tables d) (ecuid (tables d)) = Some i -> ctx_at (tables d) i k c ->
  ∃ rc d' q', context_registered E X send apid ctid ll ts k d = Some (rc, d') ∧ serving d' q' R ∧ (rc = -1 -> answer_failed (sys d')).
Proof.
  intros S Hsz Ha Hc Hf Hk. unfold context_registered. rewrite Hf. bsimp. rewrite (ctx_at_get _ _ _ _ Hk). bsimp.
  assert (∃ d1 q1, (if vflag X then '(_, d) ← dlt_daemon_log_internal E send (context_text (Ctx.ctid c) (Ctx.apid c) (Ctx.context_description c)) DLT_LOG_INFO d; Some d
    else Some d) = Some d1 ∧ onward R d d1 q1) as (d1 & q1 & -> & O1).
  { destruct (vflag X); [|exists d, q; split; [done|by apply onward_refl]].
    destruct (serving_log d q R (context_text (Ctx.ctid c) (Ctx.apid c) (Ctx.context_description c)) DLT_LOG_INFO S) as (rc & d1 & q1 & -> & O1);
      [apply context_text_length|]. by exists d1, q1. }
  bsimp. destruct (onward_ctx _ _ _ _ _ _ _ O1 Hk) as (c1 & Hk1). set (level := match dlt_daemon_logstorage_get_loglevel X with Some _ => _ | None => _ end).
  destruct (on_ctx_settled ctx_alike d1 i k (with_storage_level level) c1 Hk1 (storage_level_alike _ _)) as (d2 & -> & S12 & Hk2). bsimp.
  assert (serving d2 q1 R) as S2 by (eapply serving_alike; [exact (proj1 O1)|done]).
  assert (∃ d3 q3, (if rflag X then auto_log_info E X send apid ctid d2 else Some (true, d2)) = Some (true, d3) ∧ onward R d2 d3 q3) as (d3 & q3 & -> & O3).
  { destruct (rflag X); [|exists d2, q1; split; [done|by apply onward_refl]]. by eapply auto_log_info_served. }
  bsimp. cbn [negb]. destruct (onward_ctx _ _ _ _ _ _ _ O3 Hk2) as (c3 & Hk3). rewrite (ctx_at_get _ _ _ _ Hk3). bsimp.
  destruct (Z.leb_spec DLT_FD_MINIMUM (Ctx.user_handle c3)) as [Hh|Hh]; cbn [andb]; [|by exists 0, d3, q3; destruct O3].
  destruct (_ || _); [|by exists 0, d3, q3; destruct O3].
  destruct (user_send_log_level_settled (control_flags X) d3 i k c3 (serving_sound _ _ _ (proj1 O3)) Hk3) as (rc & d4 & E4 & S34). rewrite E4. bsimp.
  eexists _, d4, q3. split; [reflexivity|]. split; [eapply serving_settled; [exact (proj1 O3)|by apply handle_settled]|].
  intros Hrc. destruct (user_send_log_level_answer _ _ _ _ _ _ (ctx_at_get _ _ _ _ Hk3) Hh E4) as [->|Hfail]; [done|].
  by apply Hfail.
Qed.

Lemma register_context_served s q R apid ctid pos ll ts pid text rest : let u := RegisterCtx apid ctid pos ll ts pid text in
  pending (srec s) mem (encode_user u ++ rest) -> serving (sd s) q R -> wf_user cap u -> sizes R 1 ->
  ∃ rc s', dlt_daemon_process_user_message_register_context E X send mem s = Some (rc, s') ∧
    served s s' (register_ctx apid ctid pos text R) rest ∧ (rc = -1 -> answer_failed (sys (sd s'))).
Proof.
  intros u P S (Ha & Hc & Hpos & Hll & Hts & Hpid & Bt & Ht0 & Lt) Hsz. unfold u, encode_user, body_of in P. rewrite <-!(app_assoc _ _ rest) in P.
  set (h := DltUserHeader 1 _) in P. assert (zlen h = 8) as Lh by apply length_userheader. set (p := apid ++ ctid ++ _) in P.
  assert (zlen p = 22) as Lp by (unfold p; rewrite !length_app, !length_le_bytes, (wire_length _ Ha), (wire_length _ Hc); done).
  unfold dlt_daemon_process_user_message_register_context, sizeof_DltUserControlMsgRegisterContext.
  rewrite <-Lp, (get_pending_skip _ _ h p (text ++ rest)) by done. bsimp. rewrite (ltb_false (zlen p)) by lia.
  assert (DltUserControlMsgRegisterContext p = Some {| rc_apid := apid; rc_ctid := ctid; rc_pos := pos; rc_level := ll; rc_status := ts;
    rc_pid := pid; rc_length := zlen text |}) as ->.
  { unfold DLT_DAEMON_DESCSIZE, DLT_USER_LOG_LEVEL_NOT_SET, DLT_USER_TRACE_STATUS_NOT_SET, DLT_LOG_VERBOSE, DLT_TRACE_STATUS_ON in *.
    apply register_context_decode; try done; try (by apply wire_length); lia. }
  bsimp. cbn [rc_apid rc_ctid rc_pos rc_level rc_status rc_length]. rewrite Lp. replace (u32 22) with (zlen p) by (by rewrite Lp).
  destruct (description_read_ok mem (with_rec s (srec s)) h p text rest P Lh Ht0 Lt) as (r & -> & Pr). bsimp. cbn [with_rec sd].
  pose proof (sv_shows _ _ _ S) as Hs. destruct (shows_find _ _ Hs) as (i & v & Hf & Hv & Hown & Habs & Hl).
  destruct (find_app_shows _ R apid i v (proj1 Hs) Hown Habs (proj1 Ha)) as ([ka|] & -> & Hka); bsimp.
  2: { eexists _, _. split; [reflexivity|]. split; [|done]. exists q. unfold register_ctx. by rewrite Hka. }
  destruct Hka as (a & Hk & Ham & _ & Hra).
  destruct (plausible_ok DLT_USER_LOG_LEVEL_NOT_SET DLT_LOG_DEFAULT DLT_LOG_VERBOSE ll) as (ll' & -> & Hll'); [done..|].
  destruct (plausible_ok DLT_USER_TRACE_STATUS_NOT_SET DLT_TRACE_STATUS_DEFAULT DLT_TRACE_STATUS_ON ts) as (ts' & -> & Hts'); [done..|].
  rewrite Hf. bsimp. rewrite (app_at_get _ ka a i) by (done || by exists i, v). bsimp.
  destruct (add_ctx_shows (heap E) _ apid ctid ll' ts' pos (App.user_handle a) text R _ HM Hs (proj1 Ha) (proj1 Hc) Hll' Hts' Hra (lm_handles _ Hl _ _ Ham))
    as (i1 & k & t & c & -> & Hs1 & He1 & Hf1 & Hat & _). bsimp. set (d1 := set_tables (sd s) t).
  assert (serving d1 q (register_ctx apid ctid pos text R)) as S1 by (eapply serving_tables; [done..|apply texts_register_ctx; [done|done|apply S]]).
  destruct (context_registered_served d1 q _ apid ctid ll' ts' i1 k c S1) as (rc & d2 & q2 & -> & S2 & Hrc); [|done..|].
  { by apply sizes_register_ctx. }
  bsimp. eexists _, _. split; [reflexivity|]. split; [by exists q2|exact Hrc].
Qed.

(** *** The other messages *)

Lemma find_ctx_shows t R apid ctid i u :
  daemon_inv t -> own_list t (ecuid t) i u -> abs u = R -> good_id apid -> good_id ctid ->
  ∃ r, dlt_daemon_context_find t apid ctid (ecuid t) = Some r ∧
    match r with
    | Some k => ∃ c, live_ctxs u !! k = Some c ∧ ctx_key c = apid ++ ctid ∧ r_ctxs R !! (apid ++ ctid) = Some (ctx_info c)
    | None => r_ctxs R !! (apid ++ ctid) = None
    end.
Proof.
  intros Hd Hown <- Ha Hc. destruct (context_find_own t apid ctid (ecuid t) i u Hd Hown Ha Hc) as (r & Er & Hr). exists r. split; [done|].
  cbn [r_ctxs abs]. rewrite lookup_fmap. destruct r as [k|]; [|by rewrite Hr]. destruct Hr as (c & H1 & H2 & H3). exists c. by rewrite H2.
Qed.

Lemma delete_ctx_shows d q R apid ctid : serving d q R -> wire_id apid -> wire_id ctid ->
  ∃ d' q', (context ← dlt_daemon_context_find (tables d) apid ctid (ecuid (tables d));
    match context with
    | None => Some (true, d)
    | Some k =>
        i ← dlt_daemon_find_users_list (tables d) (ecuid (tables d));
        c ← get_ctx (tables d) i k;
        if Ctx.predefined c then Some (true, d) else
        '(rc, t) ← dlt_daemon_context_del (tables d) k (ecuid (tables d));
        let d := set_tables d t in
        if rc =? -1 then Some (false, d) else
        if vflag X then
          '(_, d) ← dlt_daemon_log_internal E send (context_unregistered_text ctid apid) DLT_LOG_INFO d;
          Some (true, d)
        else Some (true, d)
    end) = Some (true, d') ∧ serving d' q' (unregister_ctx apid ctid R).
Proof.
  intros S Ha Hc. pose proof (sv_shows _ _ _ S) as Hs. destruct (shows_find _ _ Hs) as (i & u & Hf & Hu & Hown & Habs & Hl).
  destruct (find_ctx_shows _ R apid ctid i u (proj1 Hs) Hown Habs (proj1 Ha) (proj1 Hc)) as ([k|] & -> & Hk); bsimp.
  2: { exists d, q. unfold unregister_ctx. by rewrite Hk. }
  destruct Hk as (c & Hk & Hkey & Hr). rewrite Hf. bsimp. rewrite (ctx_at_get _ _ _ c) by (by exists u). bsimp.
  unfold unregister_ctx. rewrite Hr. cbn [ce_predefined ctx_info]. destruct (Ctx.predefined c) eqn:Ep; [by exists d, q|].
  destruct (del_ctx_shows _ _ i u k c (proj1 Hs) Hown Hl Hk) as (t & u' & -> & Hown' & Hd' & Hl' & Habs' & He' & _). bsimp.
  rewrite eqb_false by done. set (R' := {| r_apps := r_apps R; r_ctxs := delete (apid ++ ctid) (r_ctxs R) |}).
  assert (serving (set_tables d t) q R') as S'.
  { eapply serving_tables; [exact S| |done|split; [apply S|apply map_Forall_delete, S]].
    split; [done|]. exists i, u'. rewrite He'. split; [done|]. split; [|done]. by rewrite Habs', Habs, Hkey. }
  destruct (vflag X); [|by exists (set_tables d t), q].
  destruct (serving_log _ q R' (context_unregistered_text ctid apid) DLT_LOG_INFO S') as (rc & d2 & q2 & -> & [S2 _]).
  { unfold context_unregistered_text. rewrite !length_app. pose proof (length_cstr 4 apid). pose proof (length_cstr 4 ctid). cbn [length]. lia. }
  bsimp. by exists d2, q2.
Qed.

Lemma unregister_context_served s q R apid ctid pid rest :
  pending (srec s) mem (encode_user (UnregisterCtx apid ctid pid) ++ rest) -> serving (sd s) q R -> wf_user cap (UnregisterCtx apid ctid pid) ->
  ∃ s', dlt_daemon_process_user_message_unregister_context E X send mem s = Some (0, s') ∧
    served s s' (unregister_ctx apid ctid R) rest.
Proof.
  intros P S (Ha & Hc & Hpid). pose proof (wire_length _ Ha) as La. pose proof (wire_length _ Hc) as Lc.
  unfold dlt_daemon_process_user_message_unregister_context. destruct (get_body _ _ _ _ P) as (r & Er & Pr). cbn [body_of] in Er.
  set (p := apid ++ ctid ++ _) in Er. pose proof (length_le_bytes 4 (u32 pid)) as Lp.
  replace (zlen p) with sizeof_DltUserControlMsgUnregisterContext in Er by (unfold p; rewrite !length_app, La, Lc, Lp; done).
  rewrite Er. bsimp. assert (mread p 0 4 = Some apid) as -> by (apply (mread_mid [] apid); cbn; lia). bsimp.
  assert (mread p 4 4 = Some ctid) as -> by (apply mread_mid; lia). bsimp. cbn [with_rec sd].
  destruct (delete_ctx_shows (sd s) q R apid ctid S Ha Hc) as (d1 & q1 & E1 & S1).
  unbind E1 as context Ec. bsimp. rewrite E1. bsimp. cbn [negb].
  assert (∃ d2 q2, (if rflag X then '(_, d) ← dlt_daemon_control_message_unregister_context E send DLT_DAEMON_SEND_TO_ALL apid ctid DLT_DAEMON_REMO_STRING d1; Some d
    else Some d1) = Some d2 ∧ serving d2 q2 (unregister_ctx apid ctid R)) as (d2 & q2 & -> & S2).
  { destruct (rflag X); [|by exists d1, q1]. unfold dlt_daemon_control_message_unregister_context, minus_one.
    rewrite (UserSendSpec.set_id_is_id _ apid) by (done || apply Ha). bsimp. rewrite (UserSendSpec.set_id_is_id _ ctid) by (done || apply Hc). bsimp.
    destruct id_of_remo as [Lr Hr]. rewrite Hr by done. bsimp.
    destruct (serving_control d1 q1 _ (le_bytes 4 DLT_SERVICE_ID_UNREGISTER_CONTEXT ++ [DLT_SERVICE_RESPONSE_OK] ++ apid ++ ctid ++ remo) [0] DLT_DAEMON_CTRL_APID S1)
      as (rc & d2 & q2 & -> & [S2 _]); [by left| | |bsimp; by exists d2, q2].
    - rewrite !is_bytes_app. split_and!; [apply is_bytes_le|by apply is_bytes_forallb|apply Ha|apply Hc|by apply is_bytes_forallb].
    - rewrite !length_app, length_le_bytes, La, Lc. cbn. lia. }
  bsimp. eexists. split; [reflexivity|]. by exists q2.
Qed.

Lemma overflow_served s q R n apid rest :
  pending (srec s) mem (encode_user (LostMessages n apid) ++ rest) -> serving (sd s) q R -> wf_user cap (LostMessages n apid) ->
  ∃ s', dlt_daemon_process_user_message_overflow E send mem s = Some (0, s') ∧ served s s' R rest.
Proof.
  intros P S (Hn & Ha). pose proof (wire_length _ Ha) as La. unfold dlt_daemon_process_user_message_overflow.
  destruct (get_body _ _ _ _ P) as (r & Er & Pr). cbn [body_of] in Er. set (p := le_bytes 4 n ++ apid) in Er. pose proof (length_le_bytes 4 n) as Ln.
  replace (zlen p) with sizeof_DltUserControlMsgBufferOverflow in Er by (unfold p; rewrite !length_app, La, Ln; done).
  rewrite Er. bsimp. assert (mread p 0 4 = Some (le_bytes 4 n)) as -> by (apply (mread_mid [] (le_bytes 4 n)); cbn; lia). bsimp.
  assert (mread p 4 4 = Some apid) as -> by (unfold p; rewrite <-(app_nil_r apid) at 1; apply mread_mid; lia). bsimp. cbn [with_rec sd].
  unfold dlt_daemon_control_message_buffer_overflow. rewrite le_Z_le_bytes by done.
  destruct (serving_control (sd s) q R (le_bytes 4 DLT_SERVICE_ID_MESSAGE_BUFFER_OVERFLOW ++ [DLT_SERVICE_RESPONSE_OK; DLT_MESSAGE_BUFFER_OVERFLOW] ++ le_bytes 4 n) apid apid S)
    as (rc & d1 & q1 & -> & [S1 _]).
  { right. split_and!; [|apply id_of_is_id, Ha|apply Ha]. destruct Ha as [[_ He] _]. destruct apid as [|x apid]; [done|]. cbn in He |- *. by rewrite He. }
  { rewrite !is_bytes_app. split_and!; [apply is_bytes_le|by apply is_bytes_forallb|apply is_bytes_le]. }
  { rewrite !length_app, !length_le_bytes. cbn. lia. }
  bsimp. eexists. split; [reflexivity|]. exists q1. split; [|done]. case_match; [|done]. destruct S1 as [I1 Hs1 Ht1 Hm1]. split; try done.
  destruct I1. by split.
Qed.

Lemma context_levels_tame ll ts : tame (context_levels X ll ts).
Proof.
  intros i k c d Hd Hc. unfold context_levels. rewrite (ctx_at_get _ _ _ _ Hc). bsimp.
  assert (∀ x l t, ctx_same x (Ctx.set_levels x l t)) as Hset by (intros x l t; exists (Ctx.user_handle x), l, t; by destruct x).
  destruct (on_ctx_same d i k (λ c, Ctx.set_levels c ll ts) c Hd Hc (Hset _ _ _)) as (d1 & -> & S1 & Hd1 & Hc1). bsimp.
  destruct (_ <=? _); [|by eexists _, d1].
  destruct (user_send_log_level_settled (control_flags X) d1 i k _ Hd1 Hc1) as (rc & d2 & -> & S2). bsimp.
  destruct (ctx_at_kept _ _ _ _ _ _ (sd_kept _ _ _ S2) Hc1) as (c2 & Hc2 & _). apply handle_settled in S2.
  assert (settled ctx_same d d2) as S02 by (by etrans). destruct (negb _); [|by eexists _, d2].
  destruct (on_ctx_same d2 i k (λ c', Ctx.set_levels c' (Ctx.log_level c) (Ctx.trace_status c)) c2 (same_sound _ _ S02 Hd) Hc2 (Hset _ _ _)) as (d3 & -> & S3 & _).
  bsimp. eexists _, d3. split; [reflexivity|]. by etrans.
Qed.

Lemma set_app_ll_ts_served s q R apid ll ts rest :
  pending (srec s) mem (encode_user (AppLevels apid ll ts) ++ rest) -> serving (sd s) q R -> wf_user cap (AppLevels apid ll ts) ->
  ∃ s', dlt_daemon_process_user_message_set_app_ll_ts X mem s = Some (0, s') ∧ served s s' R rest.
Proof.
  intros P S Ha. pose proof (wire_length _ Ha) as La. unfold dlt_daemon_process_user_message_set_app_ll_ts. cbv zeta.
  pose proof (sv_shows _ _ _ S) as Hs. destruct (shows_find _ _ Hs) as (i & u & Hf & Hu & Hown & Habs & Hl). rewrite Hf.
  destruct (get_body _ _ _ _ P) as (r & Er & Pr). cbn [body_of] in Er. set (p := apid ++ _) in Er.
  replace (zlen p) with sizeof_DltUserControlMsgAppLogLevelTraceStatus in Er by (unfold p; rewrite !length_app, La; done).
  rewrite Er. bsimp. assert (mread p 0 4 = Some apid) as -> by (apply (mread_mid [] apid); cbn; lia). bsimp.
  assert (p !! 4%nat = Some (u8 ll)) as -> by (by apply (list_lookup_middle_eq apid (u8 ll) [u8 ts])). bsimp.
  assert (p !! 5%nat = Some (u8 ts)) as -> by (apply (list_lookup_middle_eq (apid ++ [u8 ll]) (u8 ts) []); [by rewrite <-app_assoc|rewrite length_app, La; done]). bsimp.
  cbn [with_rec sd]. rewrite Hu. bsimp. destruct (negb _); [eexists; split; [reflexivity|]; by exists q|].
  destruct (find_app_shows _ R apid i u (proj1 Hs) Hown Habs (proj1 Ha)) as ([ka|] & -> & Hka); bsimp; [|eexists; split; [reflexivity|]; by exists q].
  destruct Hka as (a & Hk & _). destruct (app_array _ _ _ Hk) as (apps & Eapps & Hka).
  rewrite Eapps. bsimp. pose proof (maps_linked _ _ _ _ (proj1 Hs) Hown Hl) as Hlink.
  destruct (group_cut _ u i {| options := 0; req_apid := []; req_ctid := [] |} (proj1 Hs) Hown Hlink apps ka a Eapps Hk) as (pre & post & -> & Hgr). bsimp.
  rewrite Hka. bsimp. assert (App.num_contexts a = zlen (group (live_ctxs u) a)) as Hn by (apply Hlink; by eapply list_elem_of_lookup_2).
  destruct (each_context_settled (context_levels X (i8 (u8 ll)) (i8 (u8 ts))) (context_levels_tame _ _)
    (Z.to_nat (App.num_contexts a)) i (Z.to_nat (zlen pre)) (sd s) u (serving_sound _ _ _ S) Hu) as (d1 & -> & S1).
  { assert (zlen (live_ctxs u) = num_contexts u) as <-.
    { destruct (proj1 Hs i u Hu) as [_ [Hb _ _]]. destruct (blocks_range _ _ _ Hb) as [_ Hlr]. unfold live_ctxs. lia. }
    rewrite Hgr, !length_app. lia. }
  bsimp. eexists. split; [reflexivity|]. exists q. split; [by eapply serving_settled|done].
Qed.

(** *** Log messages *)

Lemma keep_total F msg : MessageSpec.wf msg -> tidy msg -> ∃ keep, enforce_context_ll_and_ts_keep_message F msg = Some keep.
Proof.
  intros W [_ Y]. unfold enforce_context_ll_and_ts_keep_message, Message.ext_msin. destruct (Message.extendedheader msg) as [p|]; [|by eexists].
  destruct (negb _); [by eexists|]. specialize (Y p eq_refl). pose proof (MessageSpec.wf_hb _ W) as Hl. change Message.HEADERBUFFER_SIZE with 42 in Hl.
  destruct (lookup_lt_is_Some_2 (Message.headerbuffer msg) (Z.to_nat p)) as [b Hb]; [lia|]. bsimp. rewrite Hb. bsimp. by eexists.
Qed.

(** The message is read back from the receiver. *)
Lemma log_read s M rest : pending (srec s) mem (encode_user (LogMessage M) ++ rest) -> ready s -> wf_message M -> m_htyp M <> 68 ->
  ∃ b msg, Receiver.buf (srec s) = Some b ∧
    Message.dlt_message_read (heap E) (smsg s) (Some (drop (Z.to_nat (b + sizeof_DltUserHeader)) mem))
      (u32 (u32 (bytesRcvd (srec s)) - sizeof_DltUserHeader)) false = Some (Message.DLT_MESSAGE_ERROR_OK, msg) ∧
    MessageSpec.wf msg ∧ tidy msg ∧ MessageSpec.holds msg M ∧ Message.storageheader msg = Some 0 ∧ Message.found_serialheader msg = 0.
Proof.
  intros P [W T] WM H68. destruct (pending_split _ _ _ P) as (pre & post & Em & Hb & Hl & Hs). exists (zlen pre).
  unfold encode_user in *. cbn [kind_of body_of] in *. set (h := DltUserHeader 1 _) in *. assert (zlen h = 8) as Lh by apply length_userheader.
  pose proof (MessageSpec.length_encode M) as Le. assert (zlen h + zlen (encode M) + zlen rest <= zlen mem) by (rewrite Em, !length_app; lia).
  assert (drop (Z.to_nat (zlen pre + sizeof_DltUserHeader)) mem = encode M ++ rest ++ post) as ->.
  { rewrite Em, <-!app_assoc. rewrite app_assoc. apply drop_app_length'. rewrite length_app. unfold sizeof_DltUserHeader. lia. }
  assert (is_bytes (encode M ++ rest ++ post)) as Bb by (rewrite Em, !is_bytes_app in Bmem; rewrite !is_bytes_app; tauto).
  assert (u32 (u32 (bytesRcvd (srec s)) - sizeof_DltUserHeader) = zlen (encode M ++ rest)) as ->.
  { rewrite Hl, !length_app. unfold sizeof_DltUserHeader. cint. lia. }
  assert (¬ MessageSpec.serial_at (encode M ++ rest ++ post) 0) as Hns.
  { unfold MessageSpec.serial_at. assert (mread (encode M ++ rest ++ post) 0 4 = Some (MessageSpec.std M)) as ->.
    { unfold encode. rewrite <-app_assoc. apply (mread_mid [] (MessageSpec.std M)); [done|by rewrite MessageSpec.length_std]. }
    unfold MessageSpec.std, Message.dltSerialHeader. intros [= ?]. done. }
  destruct (MessageSpec.read_complete (heap E) (smsg s) [] (rest ++ post) M (zlen (encode M ++ rest)) false W WM) as (msg & Er & W' & H').
  { constructor. }
  { rewrite !is_bytes_app in Bb. rewrite is_bytes_app. tauto. }
  { by constructor. }
  { cbn [app length]. rewrite <-Le, !length_app. lia. }
  { rewrite length_app. lia. }
  { apply HM. }
  cbn [app] in Er. exists msg. split; [done|]. split; [exact Er|]. pose proof (read_pointers _ _ _ _ _ Er Hns) as [Hp1 Hp2].
  split_and!; try done. by apply (read_tidy _ _ _ _ _ _ Er Bb W T).
Qed.

Lemma relabel_len F d M : wf_message M -> is_id (ecuid (tables d)) ->
  zlen (MessageSpec.headers (relabel F (ecuid (tables d)) M) ++ m_payload (relabel F (ecuid (tables d)) M)) = message_len M.
Proof.
  intros W Hi. rewrite <-MessageSpec.encode_headers, MessageSpec.length_encode. unfold relabel. case_match; [|done].
  by rewrite length_with_ecu by (done || by apply is_id_length).
Qed.

Lemma holds_sizes msg M : MessageSpec.holds msg M -> Message.headersize msg + Message.datasize msg = 16 + zlen (encode M).
Proof.
  intros [[_ Hh Hd _ _ _] _]. rewrite Hh, Hd, MessageSpec.length_encode. unfold message_len. lia.
Qed.

(** The message is handed to [send]. *)
Lemma forwarded s q R M msg : serving (sd s) q R -> wf_message M -> message_len M <= cap ->
  MessageSpec.wf msg -> tidy msg -> MessageSpec.holds msg M -> Message.storageheader msg = Some 0 -> Message.found_serialheader msg = 0 ->
  ∃ m1 d1 q1, ('(_, m, d) ← dlt_daemon_client_send_message_to_all_client E (control_flags X) send msg (sd (with_msg s msg));
      Some (with_daemon (with_msg (with_msg s msg) m) d)) = Some (with_daemon (with_msg s m1) d1) ∧
    serving d1 q1 R ∧ MessageSpec.wf m1 ∧ tidy m1 ∧ Message.headersize m1 + Message.datasize m1 = 16 + zlen (encode M) ∧ Message.found_serialheader m1 = 0.
Proof.
  intros S WM Lm W T Hh Hst Hfs. pose proof (sv_inv _ _ _ S) as I. pose proof (di_ecu _ _ I) as Hi. cbn [with_msg sd].
  pose proof (holds_loaded msg M W Hh Hst (td_extra _ T)) as L.
  destruct (to_all_client_sends E (control_flags X) send msg M (sd s) WM Hh L Hi (di_ecu_bytes _ _ I)) as (sh & m1 & _ & L1 & Hf1 & He1 & ->).
  set (M' := relabel _ _ _) in *. pose proof (relabel_len (control_flags X) (sd s) M WM Hi) as Ll. fold M' in Ll.
  assert (0 < message_len M) as Hpos by (unfold message_len; lia).
  destruct (Hg DLT_DAEMON_SEND_TO_ALL sh (MessageSpec.headers M') (Some (m_payload M')) (sd s) q I (sv_depth _ _ _ S)) as (rc & d1 & q1 & -> & A).
  { cbn [default from_option id]. rewrite Ll. lia. }
  bsimp. exists m1, d1, q1. split; [done|]. split_and!; [by eapply serving_advance|apply L1| | |congruence].
  - split; [apply L1|]. rewrite He1. apply T.
  - rewrite (ld_hs _ _ L1), (ld_ds _ _ L1), MessageSpec.length_encode. rewrite length_app in Ll. lia.
Qed.

(** The end of the handler: the message is removed. *)
Lemma log_consumed s M rest m1 d1 :
  pending (srec s) mem (encode_user (LogMessage M) ++ rest) ->
  Message.headersize m1 + Message.datasize m1 = 16 + zlen (encode M) -> Message.found_serialheader m1 = 0 ->
  ∃ r, (let s := with_daemon (with_msg s m1) d1 in
        let m := smsg s in
        let size := Message.headersize m + Message.datasize m - sizeof_DltStorageHeader + sizeof_DltUserHeader in
        let size := if negb (Message.found_serialheader m =? 0) then size + zlen Message.dltSerialHeader else size in
        let '(rc, r) := dlt_receiver_remove (srec s) size in
        Some (if negb (rc =? DLT_RETURN_OK) then DLT_DAEMON_ERROR_UNKNOWN else DLT_DAEMON_ERROR_OK, with_rec s r)) =
      Some (0, with_rec (with_daemon (with_msg s m1) d1) r) ∧ pending r mem rest.
Proof.
  intros P Hsz Hf1. cbn [with_daemon with_msg smsg srec]. rewrite Hf1. cbn [Z.eqb negb]. rewrite Hsz. unfold sizeof_DltStorageHeader, sizeof_DltUserHeader.
  unfold encode_user in P. cbn [kind_of body_of] in P.
  pose proof (length_userheader DLT_USER_MESSAGE_LOG) as Lh. destruct (remove_pending _ _ _ rest P) as (r & Err & Pr & _); [rewrite length_app; lia|].
  replace (16 + zlen (encode M) - 16 + 8) with (zlen (DltUserHeader 1 DLT_USER_MESSAGE_LOG ++ encode M)) by (rewrite length_app; lia).
  cbv zeta. rewrite Err. cbn [Z.eqb DLT_RETURN_OK negb]. by exists r.
Qed.

Lemma log_served s q R M rest :
  pending (srec s) mem (encode_user (LogMessage M) ++ rest) -> serving (sd s) q R -> wf_user cap (LogMessage M) -> ready s ->
  ∃ s', dlt_daemon_process_user_message_log E X send mem s = Some (0, s') ∧ served s s' R rest.
Proof.
  intros P S (WM & H68 & Lm) Hr. unfold dlt_daemon_process_user_message_log.
  destruct (log_read s M rest P Hr WM H68) as (b & msg & -> & Er & W & T & Hh & Hst & Hfs). bsimp. rewrite Er. bsimp.
  cbn [Z.eqb Message.DLT_MESSAGE_ERROR_OK negb]. destruct (keep_total (control_flags X) msg W T) as (keep & ->). bsimp.
  pose proof (sv_inv _ _ _ S) as I. pose proof (di_ecu _ _ I) as Hi.
  assert (∃ m1 d1 q1, (if keep then '(_, m, d) ← dlt_daemon_client_send_message_to_all_client E (control_flags X) send msg (sd (with_msg s msg));
      Some (with_daemon (with_msg (with_msg s msg) m) d) else Some (with_msg s msg)) = Some (with_daemon (with_msg s m1) d1) ∧
    serving d1 q1 R ∧ MessageSpec.wf m1 ∧ tidy m1 ∧ Message.headersize m1 + Message.datasize m1 = 16 + zlen (encode M) ∧ Message.found_serialheader m1 = 0)
    as (m1 & d1 & q1 & -> & S1 & W1 & T1 & Hsz & Hf1).
  { destruct keep; [by apply (forwarded s q)|]. exists msg, (sd s), q. split_and!; try done. by apply holds_sizes. }
  bsimp. destruct (log_consumed s M rest m1 d1 P Hsz Hf1) as (r & Ec & Pr). eexists. split; [exact Ec|]. exists q1. by split_and!.
Qed.

End serving.
End DaemonHandlersSpec.
