(* ===== verification/DaemonUserSpec.v ===== *)
(** * Messages of applications

    A sequence of well-formed user messages is handled message by message: each is
    consumed completely, and the tables of the daemon show the registry that the
    messages describe ([DaemonRegistrySpec]), whatever the operating system does to
    the sending of answers; only a failed answer to a registration makes the rest
    wait. *)

From stdpp Require Import base gmap sets list list_numbers numbers option.
From Stdlib Require Import ZArith Lia Bool.
From S2P Require Import Prelude Protocol Ids RingBuffer Message MessageSpec UserShared Receiver ReceiverSpec.
From S2P Require Import MessageQueue EventHandler EventHandlerSpec SortedTable DaemonTables DaemonTablesSpec DaemonContextsSpec DaemonKeptSpec.
From S2P Require Import DaemonSend DaemonMessagesSpec DaemonSendSpec DaemonDeliverySpec DaemonControl DaemonControlSpec DaemonRequestsSpec.
From S2P Require Import DaemonUser DaemonRegistrySpec DaemonForwardSpec DaemonHandlersSpec.
Import Protocol Ids UserShared DaemonTables DaemonTablesSpec DaemonContextsSpec DaemonKeptSpec DaemonSend DaemonMessagesSpec DaemonSendSpec.
Import MessageQueue DaemonControl DaemonControlSpec DaemonUser DaemonRegistrySpec DaemonForwardSpec DaemonHandlersSpec DaemonRequestsSpec.
Import Receiver (DltReceiver, buf, bytesRcvd, dlt_receiver_remove, dlt_receiver_check_and_get).
Import ReceiverSpec (pending, pending_len, carried).
Import MessageSpec (message, encode, wf_message, message_len, m_htyp, m_payload).

Local Open Scope Z_scope.

Module DaemonUserSpec.

(** The daemon stops reading when the answer to a registration cannot be sent. *)
Definition is_register_ctx (u : user_message) : bool := if u is RegisterCtx _ _ _ _ _ _ _ then true else false.

Definition encode_all (us : list user_message) : bytes := concat (encode_user <$> us).
Definition apply_all (us : list user_message) (R : registry) : registry := foldl (flip apply_user) R us.

Lemma map_size_delete_le {A} (M : gmap bytes A) k : (size (delete k M) <= size M)%nat.
Proof. rewrite map_size_delete. case_match; cbn; lia. Qed.
Lemma sizes_apply u R n : 0 <= n -> sizes R (n + 1) -> sizes (apply_user u R) n.
Proof.
  intros Hn [Ha Hc]. destruct u; cbn [apply_user]; try (split; cbn [r_apps r_ctxs]; lia).
  - split; cbn [register_app r_apps r_ctxs]; [|lia]. pose proof (map_size_insert_le (r_apps R) apid {| ae_pid := pid; ae_text := Some text |}). lia.
  - split; cbn [unregister_app r_apps r_ctxs].
    + pose proof (map_size_delete_le (r_apps R) apid). lia.
    + pose proof (map_size_filter (λ kv : bytes * ctx_entry, ce_apid kv.2 <> apid) (r_ctxs R)). lia.
  - by apply sizes_register_ctx.
  - pose proof (map_size_delete_le (r_ctxs R) (apid ++ ctid)). unfold unregister_ctx. case_match; [case_match|]; split; cbn [r_apps r_ctxs]; lia.
Qed.

Section messages.
Context (E : env) {cap : Z} {holds : RingBuffer.DltBuffer -> list bytes -> Prop} `{!MessageQueue cap holds}.
Context (X : settings) (m : Z) (send : send_fn).
Abbreviation serves := (serving (cap := cap) (holds := holds) m).
Hypothesis (WE : wf_env E) (HM : heap_ok (heap E)) (Hcap : 1000 <= cap) (Hg : good (cap := cap) (holds := holds) m send).
Hypothesis (Hfifo : ∀ p, open_fifo X p <> 0).

(** One message: its handler serves it. *)
Lemma message_served mem s q R u rest : is_bytes mem ->
  pending (srec s) mem (encode_user u ++ rest) -> serves (sd s) q R -> ready s -> wf_user cap u -> sizes R 1 ->
  ∃ rc s' q', process_user_func E X send mem (kind_of u) s = Some (rc, s') ∧ serves (sd s') q' (apply_user u R) ∧ ready s' ∧
    pending (srec s') mem rest ∧ (rc = -1 -> is_register_ctx u = true ∧ answer_failed (sys (sd s'))).
Proof.
  intros Bm P S Hr W Hsz. destruct u as [M|apid pid text|apid pid|apid ctid pos ll ts pid text|apid ctid pid|n apid|apid ll ts].
  - destruct (log_served (holds := holds) E X m send mem HM Hg Bm s q R M rest P S W Hr) as (s' & Es & q' & S' & Hr' & P').
    exists 0, s', q'. split_and!; [exact Es|exact S'|auto|done|done].
  - destruct (register_application_served (holds := holds) E X m send mem WE HM Hcap Hg Hfifo s q R apid pid text rest P S W) as (s' & Es & q' & S' & Hr' & P').
    exists 0, s', q'. split_and!; [exact Es|exact S'|auto|done|done].
  - destruct (unregister_application_served (holds := holds) E X m send mem WE Hcap Hg s q R apid pid rest P S W) as (s' & Es & q' & S' & Hr' & P').
    exists 0, s', q'. split_and!; [exact Es|exact S'|auto|done|done].
  - destruct (register_context_served (holds := holds) E X m send mem WE HM Hcap Hg s q R apid ctid pos ll ts pid text rest P S W Hsz) as (rc & s' & Es & (q' & S' & Hr' & P') & Hrc).
    exists rc, s', q'. split_and!; [exact Es|exact S'|auto|done|by intros H; split; [|apply Hrc]].
  - destruct (unregister_context_served (holds := holds) E X m send mem WE Hcap Hg s q R apid ctid pid rest P S W) as (s' & Es & q' & S' & Hr' & P').
    exists 0, s', q'. split_and!; [exact Es|exact S'|auto|done|done].
  - destruct (overflow_served (holds := holds) E m send mem WE Hcap Hg s q R n apid rest P S W) as (s' & Es & q' & S' & Hr' & P').
    exists 0, s', q'. split_and!; [exact Es|exact S'|auto|done|done].
  - destruct (set_app_ll_ts_served (holds := holds) X m mem s q R apid ll ts rest P S W) as (s' & Es & q' & S' & Hr' & P').
    exists 0, s', q'. split_and!; [exact Es|exact S'|auto|done|done].
Qed.

(** The loop finds a message at the front. *)
Lemma loop_step fuel mem s u p : pending (srec s) mem (DltUserHeader 1 (kind_of u) ++ p) ->
  user_loop (S fuel) E X send mem s =
    ('(rc, s) ← process_user_func E X send mem (kind_of u) s; if rc =? -1 then Some (true, s) else user_loop fuel E X send mem s).
Proof.
  intros P. destruct (pending_split _ _ _ P) as (pre & post & Em & Hb & Hl & Hs). cbn [user_loop].
  set (h := DltUserHeader 1 (kind_of u)) in *. assert (zlen h = 8) as Lh by apply length_userheader.
  rewrite ltb_false by (rewrite Hl, !length_app; unfold sizeof_DltUserHeader; lia). rewrite Hb. bsimp. cbn [user_resync].
  assert (drop (Z.to_nat (zlen pre + 0)) mem = h ++ p ++ post) as Hdrop.
  { rewrite Em, <-!app_assoc. apply drop_app_length'. lia. }
  rewrite Hdrop. assert (dlt_user_check_userheader (Some (h ++ p ++ post)) = Some 1) as ->.
  { unfold dlt_user_check_userheader. assert (mread (h ++ p ++ post) 0 4 = Some [68; 85; 72; 1]) as ->; [|done].
    unfold h, DltUserHeader. rewrite <-!app_assoc. by apply (mread_mid [] [68; 85; 72; 1]). }
  bsimp. cbn [Z.eqb negb]. bsimp. cbn [negb Z.ltb Z.compare]. cbv beta iota zeta. rewrite Hdrop.
  assert (with_rec s (srec s) = s) as -> by (by destruct s). cbn [Z.eqb DLT_RETURN_OK].
  assert (userheader_message (h ++ p ++ post) = Some (kind_of u)) as ->; [|by bsimp].
  unfold userheader_message, h, DltUserHeader. rewrite <-!app_assoc.
  rewrite (mread_mid [68; 85; 72; 1] (le_bytes 4 (kind_of u))) by (rewrite ?length_le_bytes; done). bsimp.
  rewrite le_Z_le_bytes; [done|]. by destruct u.
Qed.

(** *** Messages that are not complete *)

(** The first [k] bytes of [u] tell that it is not complete: a description is not
    cut. *)
Definition recognised (u : user_message) (k : nat) : Prop :=
  (k < length (encode_user u))%nat ∧
  match u with
  | RegisterApp _ _ _ => (k < 20)%nat
  | RegisterCtx _ _ _ _ _ _ _ => (k < 30)%nat
  | _ => True
  end.

Lemma short_get r mem p n f : pending r mem p -> zlen p < n + 8 -> 0 <= n < 1000 -> (Z.land f Receiver.DLT_RCV_SKIP_HEADER =? 0) = false ->
  dlt_receiver_check_and_get r mem true n f = Some (DLT_RETURN_WRONG_PARAMETER, [], r).
Proof.
  intros P Hn Hn2 Hf. destruct (pending_split _ _ _ P) as (pre & post & Em & Hb & Hl & Hs). unfold dlt_receiver_check_and_get.
  rewrite Hf. cbn [negb]. unfold Receiver.sizeof_DltUserHeader. rewrite Hl, Hb. cint. by rewrite ltb_true by lia.
Qed.
Lemma short_get_and_remove mem s p n : pending (srec s) mem p -> zlen p < n + 8 -> 0 <= n < 1000 ->
  get_and_remove mem n s = Some (None, s).
Proof. intros P Hn Hn2. unfold get_and_remove. rewrite (short_get _ _ _ _ _ P Hn Hn2) by done. bsimp. by destruct s. Qed.

(** A log message that is cut is not read. *)
Lemma cut_log mem s M p : is_bytes mem -> pending (srec s) mem (DltUserHeader 1 DLT_USER_MESSAGE_LOG ++ p) -> ready s ->
  wf_message M -> m_htyp M <> 68 -> p `prefix_of` encode M -> zlen p < message_len M ->
  ∃ b rc msg, buf (srec s) = Some b ∧ rc <> Message.DLT_MESSAGE_ERROR_OK ∧ MessageSpec.wf msg ∧ tidy msg ∧
    Message.dlt_message_read (heap E) (smsg s) (Some (drop (Z.to_nat (b + sizeof_DltUserHeader)) mem))
      (u32 (u32 (bytesRcvd (srec s)) - sizeof_DltUserHeader)) false = Some (rc, msg).
Proof.
  intros Bm P [W T] WM H68 [p' Hp] Hlen. destruct (pending_split _ _ _ P) as (pre & post & Em & Hb & Hl & Hs). exists (zlen pre).
  set (h := DltUserHeader 1 _) in *. assert (zlen h = 8) as Lh by apply length_userheader.
  assert (zlen h + zlen p <= zlen mem) by (rewrite Em, !length_app; lia).
  assert (drop (Z.to_nat (zlen pre + sizeof_DltUserHeader)) mem = p ++ post) as ->.
  { rewrite Em, <-!app_assoc. rewrite app_assoc. apply drop_app_length'. rewrite length_app. unfold sizeof_DltUserHeader. lia. }
  assert (u32 (u32 (bytesRcvd (srec s)) - sizeof_DltUserHeader) = zlen p) as ->.
  { rewrite Hl, !length_app. unfold sizeof_DltUserHeader. cint. lia. }
  assert (is_bytes (p ++ post)) as Bb by (rewrite Em, !is_bytes_app in Bm; rewrite !is_bytes_app; tauto).
  destruct (MessageSpec.read_sound (heap E) (smsg s) (p ++ post) (zlen p) false W Bb) as (rc & msg & Er & W' & Hok); [rewrite length_app; lia|lia|].
  exists rc, msg. split; [done|]. split; [|split; [done|split; [by apply (read_tidy _ _ _ _ _ _ Er Bb W T)|done]]].
  intros ->. destruct (Hok eq_refl) as (pre' & M' & post' & Eb & Hsp & Hle & WM' & _).
  assert (4 <= message_len M') as H4 by (unfold message_len; lia). pose proof (MessageSpec.length_std M) as Ls. pose proof (MessageSpec.length_std M') as Ls'.
  assert (∃ p1, p = MessageSpec.std M ++ p1) as (p1 & ->).
  { unfold encode in Hp. exists (drop 4 p). rewrite <-(take_drop 4 p) at 1. f_equal.
    assert (take 4 (p ++ p') = take 4 (MessageSpec.std M ++ MessageSpec.extra M ++ MessageSpec.ext M ++ m_payload M)) as Ht by (by rewrite Hp).
    rewrite take_app_le in Ht by lia. rewrite Ht. by rewrite take_app_length' by lia. }
  assert (MessageSpec.std M' = MessageSpec.std M ∧ pre' = []) as [Estd ->].
  { inversion Hsp as [r Hser|Hser|]; subst.
    - exfalso. unfold MessageSpec.serial_at in Hser. rewrite <-app_assoc in Hser.
      assert (mread (MessageSpec.std M ++ p1 ++ post) 0 4 = Some (MessageSpec.std M)) as E1 by (apply (mread_mid [] (MessageSpec.std M)); [done|by rewrite Ls]).
      rewrite E1 in Hser. unfold MessageSpec.std, Message.dltSerialHeader in Hser. by injection Hser.
    - assert (pre' = []) as -> by (apply nil_length_inv; lia). split; [|done]. cbn [app] in Eb. unfold encode in Eb. rewrite <-!app_assoc in Eb.
      symmetry. by apply app_inj_1 in Eb as [Eb _]; [|lia]. }
  assert (message_len M' = message_len M) as El; [|cbn in *; lia].
  assert (be_bytes 2 (message_len M') = be_bytes 2 (message_len M)) as El by (exact (f_equal (drop 2) Estd)). pose proof (MessageSpec.wm_len _ WM). pose proof (MessageSpec.wm_len _ WM').
  assert (0 <= message_len M) by (unfold message_len; lia). apply (f_equal be_Z) in El. by rewrite !be_Z_be_bytes in El by lia.
Qed.

Lemma cut_log_waits mem s M p : is_bytes mem -> pending (srec s) mem (DltUserHeader 1 DLT_USER_MESSAGE_LOG ++ p) -> ready s ->
  wf_message M -> m_htyp M <> 68 -> p `prefix_of` encode M -> zlen p < message_len M ->
  ∃ s', dlt_daemon_process_user_message_log E X send mem s = Some (-1, s') ∧ sd s' = sd s ∧ srec s' = srec s ∧ ready s'.
Proof.
  intros Bm P Hr WM H68 Hp Hl. destruct (cut_log mem s M p Bm P Hr WM H68 Hp Hl) as (b & rc & msg & Hb & Hrc & Wm & Tm & Er).
  unfold dlt_daemon_process_user_message_log. rewrite Hb. bsimp. rewrite Er. bsimp. rewrite eqb_false by done. cbn [negb].
  eexists. split; [reflexivity|]. by split_and!.
Qed.

Lemma cut_user u k : (8 <= k < length (encode_user u))%nat ->
  take k (encode_user u) = DltUserHeader 1 (kind_of u) ++ take (k - 8) (body_of u).
Proof.
  intros Hk. unfold encode_user. pose proof (length_userheader (kind_of u)) as Lh. rewrite take_app_ge by lia. done.
Qed.

(** Its handler leaves it where it is. *)
Lemma cut_waits mem s q R u k : is_bytes mem -> pending (srec s) mem (take k (encode_user u)) -> serves (sd s) q R -> ready s -> wf_user cap u ->
  (8 <= k)%nat -> recognised u k ->
  ∃ s', process_user_func E X send mem (kind_of u) s = Some (-1, s') ∧ sd s' = sd s ∧ srec s' = srec s ∧ ready s'.
Proof.
  intros Bm P S Hr W Hk8 [Hk Hreg]. rewrite cut_user in P by lia. set (p := DltUserHeader 1 _ ++ _) in P.
  assert (length p = k ∧ (length (body_of u) + 8 = length (encode_user u))%nat) as [Lp Lu].
  { unfold p, encode_user in *. pose proof (length_userheader (kind_of u)) as Lh. rewrite length_app in Hk |- *. rewrite length_app, length_take. lia. }
  assert (with_rec s (srec s) = s) as Ers by (by destruct s).
  destruct u as [M|apid pid text|apid pid|apid ctid pos ll ts pid text|apid ctid pid|n apid|apid ll ts]; cbn [body_of] in Lu; unfold p in *.
  - destruct W as (WM & H68 & Lm). cbn [kind_of body_of] in P. apply (cut_log_waits mem s M (take (k - 8) (encode M)) Bm P Hr WM H68).
    + exists (drop (k - 8) (encode M)). by rewrite take_drop.
    + rewrite <-MessageSpec.length_encode, length_take. lia.
  - change (process_user_func E X send mem (kind_of (RegisterApp apid pid text)) s) with (dlt_daemon_process_user_message_register_application E X send mem s).
    unfold dlt_daemon_process_user_message_register_application, sizeof_DltUserControlMsgRegisterApplication.
    rewrite (short_get _ _ _ _ _ P) by (done || lia). bsimp. cbn [Z.ltb Z.compare DLT_RETURN_WRONG_PARAMETER]. rewrite Ers. by exists s.
  - change (process_user_func E X send mem (kind_of (UnregisterApp apid pid)) s) with (dlt_daemon_process_user_message_unregister_application E X send mem s).
    unfold dlt_daemon_process_user_message_unregister_application, sizeof_DltUserControlMsgUnregisterApplication.
    rewrite length_app, length_le_bytes, (wire_length _ (proj1 W)) in Lu. rewrite (short_get_and_remove _ _ _ _ P) by lia. bsimp. by exists s.
  - change (process_user_func E X send mem (kind_of (RegisterCtx apid ctid pos ll ts pid text)) s) with (dlt_daemon_process_user_message_register_context E X send mem s).
    unfold dlt_daemon_process_user_message_register_context, sizeof_DltUserControlMsgRegisterContext.
    rewrite (short_get _ _ _ _ _ P) by (done || lia). bsimp. cbn [Z.ltb Z.compare DLT_RETURN_WRONG_PARAMETER]. rewrite Ers. by exists s.
  - change (process_user_func E X send mem (kind_of (UnregisterCtx apid ctid pid)) s) with (dlt_daemon_process_user_message_unregister_context E X send mem s).
    unfold dlt_daemon_process_user_message_unregister_context, sizeof_DltUserControlMsgUnregisterContext. destruct W as (W1 & W2 & _).
    rewrite !length_app, length_le_bytes, (wire_length _ W1), (wire_length _ W2) in Lu. rewrite (short_get_and_remove _ _ _ _ P) by lia. bsimp. by exists s.
  - change (process_user_func E X send mem (kind_of (LostMessages n apid)) s) with (dlt_daemon_process_user_message_overflow E send mem s).
    unfold dlt_daemon_process_user_message_overflow, sizeof_DltUserControlMsgBufferOverflow. destruct W as (_ & W2).
    rewrite !length_app, length_le_bytes, (wire_length _ W2) in Lu. rewrite (short_get_and_remove _ _ _ _ P) by lia. bsimp. by exists s.
  - change (process_user_func E X send mem (kind_of (AppLevels apid ll ts)) s) with (dlt_daemon_process_user_message_set_app_ll_ts X mem s).
    unfold dlt_daemon_process_user_message_set_app_ll_ts, sizeof_DltUserControlMsgAppLogLevelTraceStatus. cbv zeta.
    rewrite !length_app, (wire_length _ W) in Lu. cbn [length] in Lu.
    destruct (shows_find _ _ (sv_shows _ _ _ _ S)) as (i & u & -> & _). rewrite (short_get_and_remove _ _ _ _ P) by lia. bsimp. by exists s.
Qed.


(** The last message that was handled registers a context, and the answer to it
    failed. *)
Definition stopped (done : list user_message) (o : os) : Prop :=
  (∃ us u, done = us ++ [u] ∧ is_register_ctx u = true) ∧ answer_failed o.

(** The beginning of a message that is still on its way. *)
Definition incomplete (tail : bytes) : Prop := ∃ u k, wf_user cap u ∧ recognised u k ∧ tail = take k (encode_user u).

Lemma loop_waits mem tail fuel s q R : is_bytes mem -> incomplete tail -> pending (srec s) mem tail -> serves (sd s) q R -> ready s ->
  ∃ s', user_loop (S fuel) E X send mem s = Some (true, s') ∧ pending (srec s') mem tail ∧ sd s' = sd s ∧ ready s'.
Proof.
  intros Bm (u & k & W & Hrec & ->) P S Hr. destruct (decide (k < 8)%nat) as [Hk|Hk].
  - exists s. split_and!; try done. cbn [user_loop]. rewrite ltb_true; [done|]. rewrite (pending_len _ _ _ P), length_take.
    unfold sizeof_DltUserHeader. lia.
  - destruct (cut_waits mem s q R u k Bm P S Hr W) as (s' & Es & Hd & Hs & Hr'); [lia|done|].
    exists s'. rewrite cut_user in P by (destruct Hrec; lia). rewrite (loop_step fuel mem s u _ P), Es. bsimp.
    rewrite Hs, Hd. split_and!; try done. rewrite cut_user by (destruct Hrec; lia). done.
Qed.

Lemma messages_served mem tail : is_bytes mem -> incomplete tail -> ∀ us fuel s q R,
  pending (srec s) mem (encode_all us ++ tail) -> serves (sd s) q R -> ready s -> Forall (wf_user cap) us -> sizes R (zlen us) ->
  (length us < fuel)%nat ->
  ∃ done rest s' q', us = done ++ rest ∧ user_loop fuel E X send mem s = Some (true, s') ∧ pending (srec s') mem (encode_all rest ++ tail) ∧
    serves (sd s') q' (apply_all done R) ∧ ready s' ∧ (rest = [] ∨ stopped done (sys (sd s'))).
Proof.
  intros Bm Lt. induction us as [|u us IH]; intros [|fuel] s q R P S Hr W Hsz Hf; cbn [length] in Hf; try lia.
  { destruct (loop_waits mem tail fuel s q R Bm Lt P S Hr) as (s' & Es & P' & Hd & Hr'). exists [], [], s', q. rewrite Hd.
    split_and!; try done. by left. }
  apply Forall_cons_1 in W as [Wu W]. unfold encode_all in P. rewrite fmap_cons in P. cbn [concat] in P. rewrite <-app_assoc in P.
  fold (encode_all us) in P. rewrite (loop_step fuel mem s u (body_of u ++ encode_all us ++ tail)) by (by rewrite app_assoc).
  assert (sizes R 1) as Hs1 by (destruct Hsz; cbn [length] in *; split; lia).
  destruct (message_served mem s q R u (encode_all us ++ tail) Bm P S Hr Wu Hs1) as (rc & s1 & q1 & -> & S1 & Hr1 & P1 & Hrc). bsimp.
  destruct (Z.eqb_spec rc (-1)) as [Hm1|Hm1].
  - exists [u], us, s1, q1. split_and!; try done. right. destruct (Hrc Hm1) as [Hu Hf1]. split; [by exists [], u|exact Hf1].
  - destruct (IH fuel s1 q1 (apply_user u R) P1 S1 Hr1 W) as (dn & rest & s2 & q2 & -> & E2 & P2 & S2 & Hr2 & Hd); [|lia|].
    { apply sizes_apply; [lia|]. replace (zlen us + 1) with (zlen (u :: us)) by (cbn; lia). done. }
    exists (u :: dn), rest, s2, q2. split_and!; try done. destruct Hd as [Hd|[(us' & v & -> & Hv) Hf2]]; [by left|right].
    split; [by exists (u :: us'), v|exact Hf2].
Qed.

(** *** A call *)

Lemma length_encode_all us : (length us <= length (encode_all us))%nat.
Proof.
  unfold encode_all. induction us as [|u us IH]; [done|]. rewrite fmap_cons. cbn [concat length]. rewrite length_app.
  unfold encode_user at 1. pose proof (length_userheader (kind_of u)). rewrite length_app. lia.
Qed.

Lemma receive_is_bytes r mem p d n r' mem' : carried r mem p -> is_bytes p -> is_bytes mem -> is_bytes d ->
  Receiver.dlt_receiver_receive r mem (Some d) = Some (n, r', mem') -> is_bytes mem'.
Proof.
  intros C Bp Bm Bd H. unfold Receiver.dlt_receiver_receive in H. rewrite (ReceiverSpec.i_buffer _ _ (ReceiverSpec.c_inv _ _ _ C)) in H. cbn [negb] in H.
  set (r1 := Receiver.set_counts _ _ _ _) in H. assert (carried r1 mem p) as C1 by (by destruct C as [[] ? ? ?]; split).
  unbind H as x Ex. destruct x as [r2 mem1]. unbind H as y Ey. destruct y as [n2 mem2]. unbind Ey as mem3 E3. injection Ey as _ <-.
  assert (is_bytes mem1) as B1.
  { unfold Receiver.restore_backup in Ex. pose proof (ReceiverSpec.c_data _ _ _ C1) as Hd. destruct (Receiver.backup_buf r1) as [bk|]; [|by injection Ex as _ <-].
    destruct (_ =? 0); [by injection Ex as _ <-|]. unbind Ex as x Ex'. unbind Ex as y Ey'. injection Ex as _ <-.
    eapply mwrite_is_bytes; [exact Bm| |exact Ey']. assert (x = p) as ->; [|done].
    cbn [Receiver.lastBytesRcvd Receiver.set_counts r1] in Ex'. rewrite (ReceiverSpec.c_len _ _ _ C) in Ex'. destruct Hd as [Hd _]. congruence. }
  apply (mwrite_is_bytes _ _ _ _ B1 Bd) in E3. destruct (_ <=? 0); by injection H as _ _ <-.
Qed.

(** Receiving in front of the loop and keeping the rest behind it. *)
Lemma call_frame s mem p d :
  carried (srec s) mem p -> is_bytes mem -> is_bytes p -> is_bytes d -> 0 < zlen d -> zlen p + zlen d <= Receiver.buffersize (srec s) < 2147483647 ->
  ∃ r mem', pending r mem' (p ++ d) ∧ is_bytes mem' ∧ ∀ s' rest,
    user_loop (Datatypes.S (length (p ++ d))) E X send mem' (with_rec s r) = Some (true, s') -> pending (srec s') mem' rest ->
    ∃ r', dlt_daemon_process_user_messages E X send (Some d) mem s = Some (0, with_rec s' r', mem') ∧ carried r' mem' rest.
Proof.
  intros C Bm Bp Bd Hd [Hfit Hmax]. unfold dlt_daemon_process_user_messages.
  destruct (ReceiverSpec.receive_pending (srec s) mem p d C Hd Hfit) as (r & mem1 & Er & P & Hb). exists r, mem1. rewrite Er.
  pose proof (receive_is_bytes _ _ _ _ _ _ _ C Bp Bm Bd Er) as B1. split; [done|]. split; [done|]. intros s' rest Es P'. bsimp.
  rewrite (leb_false _ 0), (ltb_false _ 0) by lia. cbn [andb]. rewrite (pending_len _ _ _ P), Nat2Z.id, Es. bsimp. cbn [negb].
  destruct (ReceiverSpec.move_carried (heap E) (srec s') mem1 _ HM P') as (r2 & -> & C2 & _); [|by exists r2; bsimp].
  pose proof (ReceiverSpec.i_mem _ _ (ReceiverSpec.p_inv _ _ _ P)) as Hm1. rewrite Hb in Hm1.
  destruct (pending_split _ _ _ P') as (pre & post & Em & _). rewrite Em in Hm1. rewrite !length_app in Hm1. lia.
Qed.

Lemma call_served s mem q R p d us tail :
  carried (srec s) mem p -> is_bytes mem -> is_bytes p -> is_bytes d -> 0 < zlen d -> zlen p + zlen d <= Receiver.buffersize (srec s) < 2147483647 ->
  p ++ d = encode_all us ++ tail -> Forall (wf_user cap) us -> incomplete tail ->
  serves (sd s) q R -> ready s -> sizes R (zlen us) ->
  ∃ done rest s' mem' q', us = done ++ rest ∧
    dlt_daemon_process_user_messages E X send (Some d) mem s = Some (0, s', mem') ∧
    carried (srec s') mem' (encode_all rest ++ tail) ∧ serves (sd s') q' (apply_all done R) ∧ ready s' ∧
    (rest = [] ∨ stopped done (sys (sd s'))).
Proof.
  intros C Bm Bp Bd Hd Hfit Epd W Hinc S Hr Hsz. destruct (call_frame s mem p d C Bm Bp Bd Hd Hfit) as (r & mem' & P & B1 & Hcall).
  rewrite Epd in P, Hcall. pose proof (length_encode_all us) as Ll.
  destruct (messages_served mem' tail B1 Hinc us (Datatypes.S (length (encode_all us ++ tail))) (with_rec s r) q R P S Hr W Hsz)
    as (dn & rest & s' & q' & -> & El & P' & S' & Hr' & Hst); [rewrite length_app; lia|].
  destruct (Hcall s' _ El P') as (r2 & -> & C2). exists dn, rest. eexists _, _, q'. split; [done|]. split; [reflexivity|]. by split_and!.
Qed.

End messages.

(** C3: The daemon serves sequences of complete user messages of seven kinds
    (registration and unregistration of applications and contexts, log messages,
    reports of lost messages, levels of an application) as [wf_user] admits them:
    identifiers of four bytes, descriptions of at most 256 characters, levels in
    their ranges, log messages that fit the queue.  Each message is consumed
    completely and in order, and afterwards the tables show exactly the registry
    that the handled messages describe, whatever the operating system does to
    sockets and pipes.  Messages are left over only behind a registration of a
    context, and only when the operating system did not take the answer to it; they
    wait for the next call.  The beginning of a message stays in the receiver too,
    if it is cut in front of its description; for a cut inside the description, and
    for markers, see [cut_registration_lost] and [marker_loses_next_message]. *)
Theorem user_messages_processed E X fuel {cap holds} `{!MessageQueue cap holds} s mem q R p d us tail :
  wf_env E -> heap_ok (heap E) -> 1000 <= cap -> (∀ pid, open_fifo X pid <> 0) ->
  serving (cap := cap) (holds := holds) (Z.of_nat fuel) (sd s) q R -> ready s -> sizes R (zlen us) ->
  carried (srec s) mem p -> is_bytes mem -> is_bytes p -> is_bytes d -> 0 < zlen d -> zlen p + zlen d <= Receiver.buffersize (srec s) < 2147483647 ->
  p ++ d = encode_all us ++ tail -> Forall (wf_user cap) us -> incomplete (cap := cap) tail ->
  ∃ done rest s' mem' q', us = done ++ rest ∧
    dlt_daemon_process_user_messages E X (dlt_daemon_client_send fuel E) (Some d) mem s = Some (0, s', mem') ∧
    carried (srec s') mem' (encode_all rest ++ tail) ∧
    serving (cap := cap) (holds := holds) (Z.of_nat fuel) (sd s') q' (apply_all done R) ∧ ready s' ∧
    (rest = [] ∨ stopped done (sys (sd s'))).
Proof.
  intros WE HM Hcap Hfifo S Hr Hsz C Bm Bp Bd Hd Hfit Epd W Hinc.
  eapply (call_served E X (Z.of_nat fuel)); try done. apply (client_send_good (cap := cap) (holds := holds) E); [done|lia].
Qed.

(** ** A daemon without applications *)

Definition no_users : DltDaemonRegisteredUsers :=
  {| applications := None; num_applications := 0; contexts := None; num_contexts := 0; ecu := id_ECU1 |}.
Definition no_tables : DltDaemon :=
  {| user_list := [no_users]; ecuid := id_ECU1; default_log_level := 4; default_trace_status := 0;
     force_ll_ts := false; runtime_context_cfg_loaded := false |}.
Definition no_registry : registry := {| r_apps := ∅; r_ctxs := ∅ |}.

Lemma no_tables_show : shows no_tables no_registry.
Proof.
  split.
  - intros [|j] u Hu; [|done]. injection Hu as <-. split; split; try done; constructor.
  - exists 0%nat, no_users. split_and!; [done|done|]. split; intros k; intros; done.
Qed.

Definition large_ring : RingBuffer.DltBuffer :=
  {| RingBuffer.shm := Some {| RingBuffer.head := {| RingBuffer.write := 0; RingBuffer.read := 0; RingBuffer.count := 0 |};
                               RingBuffer.mem := replicate 1088 0 |};
     RingBuffer.size := 1088; RingBuffer.min_size := 1100; RingBuffer.max_size := 1100; RingBuffer.step_size := 100 |}.
Lemma large_ring_queue : ring_queue 1000 large_ring [].
Proof.
  split; [|vm_compute; congruence]. eexists _, []. split; try done; try (cbn; lia).
  - split; try (cbn; lia).
  - constructor.
Qed.

Definition quiet_daemon (o : os) : daemon :=
  {| tables := no_tables; state := DLT_DAEMON_STATE_SEND_DIRECT; mode := DLT_USER_MODE_EXTERNAL; client_ringbuffer := large_ring;
     overflow_counter := 0; connectionState := 1; timingpackets := 0; event := watching [5; 6]; client_connections := 2;
     sent_message_overflow_cnt := 0; uiMsgCount := 0; offline_trace := []; sys := o |}.
Lemma quiet_daemon_serves o : serving (cap := 1000) (holds := ring_queue 1000) 6 (quiet_daemon o) [] no_registry.
Proof.
  split; [|exact no_tables_show|by split; intros ??|done]. split; try done.
  - apply no_tables_show.
  - by apply is_bytes_forallb.
  - exact large_ring_queue.
  - exists (clients [5; 6]). exact two_clients.
Qed.

Definition fifo_receiver (size : Z) : DltReceiver :=
  {| Receiver.lastBytesRcvd := 0; Receiver.bytesRcvd := 0; Receiver.totalBytesRcvd := 0; Receiver.buffer := true; Receiver.buf := Some 0;
     Receiver.backup_buf := None; Receiver.fd := 3; Receiver.type := Receiver.DLT_RECEIVE_FD; Receiver.buffersize := size |}.
Definition fifo_session (o : os) (size : Z) : session :=
  {| sd := quiet_daemon o; smsg := MessageSpec.fresh; srec := fifo_receiver size |}.
Definition fifo_memory (size : Z) : bytes := replicate (Z.to_nat size) 0.

Lemma fifo_carried size : 0 <= size < 2147483648 -> carried (fifo_receiver size) (fifo_memory size) [].
Proof.
  intros H. split; [split; cbn; [done|unfold fifo_memory; rewrite length_replicate; lia|done]|done|cbn; lia|].
  cbn [Receiver.backup_buf fifo_receiver]. apply (mread_mid [] []); done.
Qed.
Lemma fifo_ready o size : ready (fifo_session o size).
Proof. split; [apply MessageSpec.wf_fresh|]. split; [|done]. split; try done; [by apply is_bytes_forallb|cbn; lia..]. Qed.
Lemma fifo_bytes size : is_bytes (fifo_memory size).
Proof. apply Forall_replicate. lia. Qed.

Definition settings0 : settings :=
  {| control_flags := flags0; vflag := true; rflag := true; autoResponseGetLogInfoOption := 7;
     dlt_daemon_logstorage_get_loglevel := None; open_fifo := λ _, 9; app_memory := App.zeroed |}.
Definition id_APP1 : bytes := [65; 80; 80; 49].
Definition id_CTX1 : bytes := [67; 84; 88; 49].
Definition registering : list user_message :=
  [RegisterApp id_APP1 4711 [116; 101; 115; 116]; RegisterCtx id_APP1 id_CTX1 0 (-2) (-2) 4711 [99; 116; 120]; LogMessage MessageSpec.sample].

Lemma registering_wf : Forall (wf_user 1000) registering.
Proof.
  assert (∀ i, is_id i -> empty_id i = false -> forallb (λ b, (0 <=? b) && (b <? 256)) i = true -> wire_id i) as Hw
    by (intros i ? ? ?; split; [by split|by apply is_bytes_forallb]).
  assert (∀ t, forallb (λ b, (0 <? b) && (b <? 256)) t = true -> zlen t <= 256 -> wire_text t) as Ht.
  { intros t Hf Hl. rewrite forallb_forall in Hf. split_and!; [|intros H0|done].
    - apply list.Forall_forall. intros x Hx. apply list_elem_of_In, Hf in Hx. lia.
    - apply list_elem_of_In, Hf in H0. lia. }
  repeat constructor; try (by apply Hw); try (by apply Ht); try (vm_compute; congruence); apply MessageSpec.wf_sample.
Qed.

Lemma user_messages_processed_witness :
  let d := encode_all registering ++ [68; 85; 72] in
  ∃ done rest s' mem' q', registering = done ++ rest ∧
    dlt_daemon_process_user_messages env0 settings0 (dlt_daemon_client_send 6 env0) (Some d) (fifo_memory 200)
      (fifo_session (os0 (λ n, WriteSome 9 EAGAIN)) 200) = Some (0, s', mem') ∧
    carried (srec s') mem' (encode_all rest ++ [68; 85; 72]) ∧
    serving (cap := 1000) (holds := ring_queue 1000) 6 (sd s') q' (apply_all done no_registry) ∧ ready s' ∧
    (rest = [] ∨ stopped done (sys (sd s'))).
Proof.
  apply (user_messages_processed env0 settings0 6 (cap := 1000) (holds := ring_queue 1000)
    (fifo_session (os0 (λ n, WriteSome 9 EAGAIN)) 200) (fifo_memory 200) [] no_registry [] (encode_all registering ++ [68; 85; 72]) registering [68; 85; 72]).
  - exact wf_daemon_env0.
  - done.
  - lia.
  - done.
  - apply quiet_daemon_serves.
  - apply fifo_ready.
  - split; done.
  - apply fifo_carried. lia.
  - apply fifo_bytes.
  - constructor.
  - by apply is_bytes_forallb.
  - by vm_compute.
  - by vm_compute.
  - done.
  - exact registering_wf.
  - exists (LogMessage MessageSpec.sample), 3%nat. split_and!; [|split; [vm_compute; lia|done]|done].
    split_and!; [apply MessageSpec.wf_sample|done|vm_compute; congruence].
Defined.

(** ** What is lost *)

Definition number_of_applications (s : session) : option Z := num_applications <$> user_list (tables (sd s)) !! 0%nat.
(** One call of the daemon with working connections. *)
Definition call (d : bytes) (s : session) (mem : bytes) : option (Z * session * bytes) :=
  dlt_daemon_process_user_messages env0 settings0 (dlt_daemon_client_send 6 env0) (Some d) mem s.
Definition start : session := fifo_session (os0 (λ _, WriteAll)) 200.

Definition registration : bytes := encode_user (RegisterApp id_APP1 4711 [116; 101; 115; 116]).

Example registration_alone :
  (x ← call registration start (fifo_memory 200); Some (number_of_applications x.1.2, bytesRcvd (srec x.1.2))) = Some (Some 1, 0).
Proof. by vm_compute. Qed.

(** A registration whose description is received in two parts is lost: the first
    call sees that bytes are missing only when it removes them, which throws away
    everything that was received; the application is never registered. *)
Theorem cut_registration_lost :
  ('(rc1, s1, mem1) ← call (take 22 registration) start (fifo_memory 200);
   '(rc2, s2, _) ← call (drop 22 registration) s1 mem1;
   Some (rc1, bytesRcvd (srec s1), rc2, number_of_applications s2)) = Some (0, 0, 0, Some 0).
Proof. by vm_compute. Qed.

(** The marker of the library is a user header without payload, but the daemon
    takes a byte of payload: a marker stays in the receiver, and when the next
    message arrives its first byte is taken, so that message is not recognised. *)
Theorem marker_loses_next_message :
  ('(rc, s, _) ← call (DltUserHeader 1 DLT_USER_MESSAGE_MARKER) start (fifo_memory 200); Some (rc, bytesRcvd (srec s))) = Some (0, 8) ∧
  ('(rc, s, _) ← call (DltUserHeader 1 DLT_USER_MESSAGE_MARKER ++ registration) start (fifo_memory 200);
   Some (rc, number_of_applications s, bytesRcvd (srec s))) = Some (0, Some 0, zlen registration - 1).
Proof. split; by vm_compute. Qed.

End DaemonUserSpec.
