(* ===== verification/DaemonLogSpec.v ===== *)
(** * Log messages of applications reach the clients

    What an application logged is in the receiver, message behind message.  The
    daemon writes every message whose level is wanted to every client, once and in
    order, and changes nothing but the ECU identifier. *)

From stdpp Require Import base sets list list_numbers numbers option.
From Stdlib Require Import ZArith Lia Bool.
From S2P Require Import Prelude Protocol Ids RingBuffer Message MessageSpec UserShared Receiver ReceiverSpec.
From S2P Require Import EventHandler EventHandlerSpec DaemonTables DaemonSend DaemonMessagesSpec DaemonSendSpec DaemonDeliverySpec.
From S2P Require Import DaemonControl DaemonUser DaemonForwardSpec DaemonHandlersSpec DaemonUserSpec.
Import Protocol Ids UserShared DaemonTables EventHandlerSpec DaemonSend DaemonSendSpec DaemonDeliverySpec.
Import DaemonControl DaemonUser DaemonForwardSpec DaemonHandlersSpec DaemonUserSpec.
Import ReceiverSpec (pending, pending_len, carried).
Import MessageSpec (message, encode, wf_message, message_len, m_htyp, m_payload, m_ext).

Local Open Scope Z_scope.

Module DaemonLogSpec.

(** The level of the message is not above the enforced one. *)
Definition wanted (F : flags) (M : message) : bool :=
  negb (enforceContextLLAndTS F) || (DLT_GET_MSIN_MTIN (default 0 (head (m_ext M))) <=? contextLogLevel F).

Record sendable (M : message) : Prop := {
  sn_wf : wf_message M;
  sn_htyp : m_htyp M <> 68;
  sn_ext : DLT_IS_HTYP_UEH (m_htyp M) = true
}.

Lemma keep_wanted F msg M : MessageSpec.holds msg M -> wf_message M -> DLT_IS_HTYP_UEH (m_htyp M) = true ->
  enforce_context_ll_and_ts_keep_message F msg = Some (wanted F M).
Proof.
  intros [[(sh & rest & Hb & Ls) _ _ _ He _] _] W Hu. unfold enforce_context_ll_and_ts_keep_message, Message.ext_msin, wanted.
  rewrite (He Hu). destruct (enforceContextLLAndTS F); cbn [negb orb]; [|done]. bsimp.
  assert (∃ x l, m_ext M = x :: l) as (x & l & Em).
  { pose proof (MessageSpec.length_ext _ W) as Lx. unfold MessageSpec.ext in Lx. rewrite Hu in Lx.
    destruct (m_ext M) as [|x l]; [|by eexists _, _]. unfold DLT_EXTENDED_SIZE in Lx. rewrite Hu in Lx. done. }
  assert (Message.headerbuffer msg !! Z.to_nat (20 + zlen (MessageSpec.extra M)) = Some x) as ->; [|by rewrite Em].
  rewrite Hb. unfold MessageSpec.ext. rewrite Hu, Em.
  apply (list_lookup_middle_eq (sh ++ MessageSpec.std M ++ MessageSpec.extra M) x (l ++ rest)); [by rewrite <-!app_assoc|].
  rewrite !length_app. pose proof (MessageSpec.length_std M). lia.
Qed.

(** A daemon that passes messages on directly. *)
Record direct (E : env) (c : spec) (d : daemon) : Prop := {
  dr_event : EH (event d) (client_connections d) c;
  dr_tcp : all_tcp c;
  dr_errors : no_errors (sys d);
  dr_mode : external d;
  dr_state : state d = DLT_DAEMON_STATE_SEND_DIRECT;
  dr_overflow : overflow_counter d = 0;
  dr_storage : ∀ f x, logstorage E = Some f -> f x <> 1;
  dr_ecu : is_id (ecuid (tables d));
  dr_ecu_bytes : is_bytes (ecuid (tables d))
}.

Lemma delivered_none l o : delivered l o o [].
Proof. split; [done|]. intros fd. case_decide; by rewrite app_nil_r. Qed.

Section log.
Context (E : env) (X : settings) (fuel : nat) (c : spec) (mem : bytes).
Abbreviation F := (control_flags X).
Abbreviation send := (dlt_daemon_client_send (S fuel) E).
Hypothesis (HM : heap_ok (heap E)) (Bmem : is_bytes mem).

(** What the clients get for a message. *)
Definition copy (e : bytes) (M : message) : bytes := framed E (encode (relabel F e M)).

Lemma forward_delivers s M msg : MessageSpec.holds msg M -> MessageSpec.wf msg -> tidy msg -> wf_message M ->
  Message.storageheader msg = Some 0 -> Message.found_serialheader msg = 0 -> direct E c (sd s) ->
  ∃ m1 d1, ('(_, m, d) ← dlt_daemon_client_send_message_to_all_client E F send msg (sd (with_msg s msg));
      Some (with_daemon (with_msg (with_msg s msg) m) d)) = Some (with_daemon (with_msg s m1) d1) ∧
    Message.headersize m1 + Message.datasize m1 = 16 + zlen (encode M) ∧ Message.found_serialheader m1 = 0 ∧ MessageSpec.wf m1 ∧ tidy m1 ∧
    direct E c d1 ∧ tables d1 = tables (sd s) ∧
    delivered (tcp_clients c) (sys (sd s)) (sys d1) (copy (ecuid (tables (sd s))) M).
Proof.
  intros Hh W T WM Hst Hfs Hd. destruct Hd as [He Ht Ho Hm Hs Hov Hls Hi Hib]. cbn [with_msg sd].
  pose proof (holds_loaded msg M W Hh Hst (td_extra _ T)) as L.
  destruct (to_all_client_sends E F send msg M (sd s) WM Hh L Hi Hib) as (sh & m1 & _ & L1 & Hf1 & He1 & ->).
  set (M' := relabel _ _ _) in *. pose proof (relabel_len F (sd s) M WM Hi) as Ll. fold M' in Ll.
  destruct (direct_delivers fuel E c (sd s) sh (MessageSpec.headers M') (Some (m_payload M')) He Ht Ho Hm Hs Hov) as (tr & o & -> & D).
  { intros f. apply Hls. }
  bsimp. cbn [default from_option id] in D. rewrite <-MessageSpec.encode_headers in D.
  exists m1, (set_sys (set_trace (sd s) tr) o). split; [done|]. split_and!; [|congruence|apply L1| | |done|done].
  - rewrite (ld_hs _ _ L1), (ld_ds _ _ L1), MessageSpec.length_encode. rewrite length_app in Ll. lia.
  - split; [apply L1|]. rewrite He1. apply T.
  - split; try done. by apply D.
Qed.

Lemma log_delivers s M rest :
  pending (srec s) mem (encode_user (LogMessage M) ++ rest) -> ready s -> sendable M -> direct E c (sd s) ->
  ∃ s', dlt_daemon_process_user_message_log E X send mem s = Some (0, s') ∧ pending (srec s') mem rest ∧ ready s' ∧ direct E c (sd s') ∧
    tables (sd s') = tables (sd s) ∧
    delivered (tcp_clients c) (sys (sd s)) (sys (sd s')) (if wanted F M then copy (ecuid (tables (sd s))) M else []).
Proof.
  intros P Hr [WM H68 Hu] Hd. unfold dlt_daemon_process_user_message_log.
  destruct (log_read E mem HM Bmem s M rest P Hr WM H68) as (b & msg & -> & Er & W & T & Hh & Hst & Hfs). bsimp. rewrite Er. bsimp.
  cbn [Z.eqb Message.DLT_MESSAGE_ERROR_OK negb]. rewrite (keep_wanted F msg M Hh WM Hu). bsimp.
  assert (∃ m1 d1, (if wanted F M then '(_, m, d) ← dlt_daemon_client_send_message_to_all_client E F send msg (sd (with_msg s msg));
      Some (with_daemon (with_msg (with_msg s msg) m) d) else Some (with_msg s msg)) = Some (with_daemon (with_msg s m1) d1) ∧
    Message.headersize m1 + Message.datasize m1 = 16 + zlen (encode M) ∧ Message.found_serialheader m1 = 0 ∧ MessageSpec.wf m1 ∧ tidy m1 ∧
    direct E c d1 ∧ tables d1 = tables (sd s) ∧
    delivered (tcp_clients c) (sys (sd s)) (sys d1) (if wanted F M then copy (ecuid (tables (sd s))) M else []))
    as (m1 & d1 & -> & Hsz & Hf1 & W1 & T1 & Hd1 & Ht1 & D1).
  { destruct (wanted F M); [by apply forward_delivers|]. exists msg, (sd s). split_and!; try done; [by apply holds_sizes|apply delivered_none]. }
  bsimp. destruct (log_consumed mem s M rest m1 d1 P Hsz Hf1) as (r & Ec & Pr). eexists. split; [exact Ec|]. by split_and!.
Qed.

(** The beginning of a log message that is still on its way. *)
Definition cut_message (tail : bytes) : Prop :=
  ∃ M k, wf_message M ∧ m_htyp M <> 68 ∧ (k < length (encode_user (LogMessage M)))%nat ∧ tail = take k (encode_user (LogMessage M)).

Lemma tail_waits tail n s : cut_message tail -> pending (srec s) mem tail -> ready s ->
  ∃ s', user_loop (S n) E X send mem s = Some (true, s') ∧ pending (srec s') mem tail ∧ sd s' = sd s ∧ ready s'.
Proof.
  intros (M & k & W & H68 & Hk & ->) P Hr. destruct (decide (k < 8)%nat) as [Hk8|Hk8].
  - exists s. split_and!; try done. cbn [user_loop]. rewrite ltb_true; [done|]. rewrite (pending_len _ _ _ P), length_take.
    unfold sizeof_DltUserHeader. lia.
  - rewrite cut_user in P |- * by lia. cbn [kind_of body_of] in P |- *. pose proof (length_userheader DLT_USER_MESSAGE_LOG) as Lh.
    destruct (cut_log_waits E X send mem s M (take (k - 8) (encode M)) Bmem P Hr W H68) as (s' & Es & Hd & Hs & Hr').
    + exists (drop (k - 8) (encode M)). by rewrite take_drop.
    + unfold encode_user in Hk. cbn [kind_of body_of] in Hk. rewrite length_app in Hk. rewrite <-MessageSpec.length_encode, length_take. lia.
    + exists s'. rewrite (loop_step E X send n mem s (LogMessage M) _ P).
      change (process_user_func E X send mem (kind_of (LogMessage M)) s) with (dlt_daemon_process_user_message_log E X send mem s).
      rewrite Es, Hs, Hd. by bsimp.
Qed.

(** Message behind message. *)
Lemma logs_deliver tail Ms : cut_message tail -> ∀ n s,
  pending (srec s) mem (encode_all (LogMessage <$> Ms) ++ tail) -> ready s -> Forall sendable Ms -> direct E c (sd s) -> (length Ms < n)%nat ->
  ∃ s', user_loop n E X send mem s = Some (true, s') ∧ pending (srec s') mem tail ∧ ready s' ∧ direct E c (sd s') ∧
    delivered (tcp_clients c) (sys (sd s)) (sys (sd s')) (concat (copy (ecuid (tables (sd s))) <$> filter (wanted F) Ms)).
Proof.
  intros Hcut. induction Ms as [|M Ms IH]; intros [|n] s P Hr Hs Hd Hn; cbn [length] in Hn; try lia.
  { destruct (tail_waits tail n s Hcut P Hr) as (s' & Es & P' & Hsd & Hr'). exists s'. rewrite Hsd. split_and!; try done. apply delivered_none. }
  apply Forall_cons_1 in Hs as [Hs1 Hs]. unfold encode_all in P. rewrite !fmap_cons in P. cbn [concat] in P. rewrite <-app_assoc in P.
  fold (encode_all (LogMessage <$> Ms)) in P. rewrite (loop_step E X send n mem s (LogMessage M) (encode M ++ encode_all (LogMessage <$> Ms) ++ tail)) by (by rewrite app_assoc).
  destruct (log_delivers s M _ P Hr Hs1 Hd) as (s1 & E1 & P1 & Hr1 & Hd1 & Ht1 & D1).
  change (process_user_func E X send mem (kind_of (LogMessage M)) s) with (dlt_daemon_process_user_message_log E X send mem s).
  rewrite E1. bsimp. cbn [Z.eqb]. destruct (IH n s1 P1 Hr1 Hs Hd1) as (s2 & E2 & P2 & Hr2 & Hd2 & D2); [lia|].
  exists s2. split_and!; try done. rewrite Ht1 in D2. rewrite filter_cons. pose proof (delivered_app _ _ _ _ _ _ D1 D2) as D.
  destruct (wanted F M); cbn in D |- *; done.
Qed.

End log.


(** ** Examples *)

Lemma sample_sendable : sendable MessageSpec.sample.
Proof. by split; [apply MessageSpec.wf_sample|..]. Qed.

Lemma quiet_daemon_direct : direct env0 (clients [5; 6]) (quiet_daemon (os0 (λ n, WriteSome 9 EAGAIN))).
Proof.
  split; try done; [exact two_clients| |by left|by apply is_bytes_forallb]. repeat constructor; done.
Qed.


(** A message of level VERBOSE, and one without any optional header. *)
Definition verbose_message : message :=
  {| MessageSpec.m_htyp := 33; MessageSpec.m_mcnt := 1; MessageSpec.m_ecu := [0; 0; 0; 0]; MessageSpec.m_seid := 0; MessageSpec.m_tmsp := 0;
     m_ext := [97; 1] ++ id_APP1 ++ id_CTX1; m_payload := [1; 2; 3; 4] |}.
Definition bare_message : message :=
  {| MessageSpec.m_htyp := 32; MessageSpec.m_mcnt := 2; MessageSpec.m_ecu := [0; 0; 0; 0]; MessageSpec.m_seid := 0; MessageSpec.m_tmsp := 0;
     m_ext := []; m_payload := [5; 6; 7; 8] |}.
Definition enforcing : settings :=
  {| control_flags := {| enforceContextLLAndTS := true; contextLogLevel := 4; contextTraceStatus := 0; injectionMode := 1; gatewayMode := 0;
                         evalue := [0; 0; 0; 0]; maintain_logstorage_loglevel := 1; runtime_application_cfg := [97]; runtime_context_cfg := [99] |};
     vflag := false; rflag := false; autoResponseGetLogInfoOption := 7;
     dlt_daemon_logstorage_get_loglevel := None; open_fifo := λ _, 9; app_memory := DaemonTables.App.zeroed |}.
Definition sent_to (fd : Z) (d : bytes) : option bytes :=
  '(_, s, _) ← dlt_daemon_process_user_messages env0 enforcing (dlt_daemon_client_send 6 env0) (Some d) (fifo_memory 200) start;
  Some (stream fd (sys (sd s))).

(** A message without optional headers leaves the pointer to the extended header
    of the message before it, and the enforced level is compared with that: the
    same message reaches the clients alone, and is dropped behind a message of a
    higher level. *)
Theorem level_of_previous_message :
  sent_to 5 (encode_user (LogMessage bare_message)) = Some (encode bare_message) ∧
  sent_to 5 (encode_user (LogMessage verbose_message) ++ encode_user (LogMessage bare_message)) = Some [].
Proof. split; vm_compute; reflexivity. Qed.

End DaemonLogSpec.
