(* ===== verification/DaemonClient.v ===== *)
(** * Messages of clients to the daemon ([src/daemon/dlt-daemon.c])

    Clients send control requests over TCP, over the serial line and over the
    control socket.  Each connection has a receive loop: it reads message by
    message out of the receiver, handles control requests and removes what it
    read.  Requests that arrive over the serial line or the control socket are
    checked first ([dlt_daemon_create_secure_message]): a request to the log
    storage names a directory, whose path has to be absolute and harmless.

    This is protocol version 1.  The loops differ in what they do with a request;
    [receive_round] is what they have in common, with that part as an argument. *)

From stdpp Require Import base list numbers option.
From Stdlib Require Import ZArith Lia Bool.
From S2P Require Import Prelude Protocol Ids Message UserShared Receiver.
From S2P Require Import EventHandler DaemonTables DaemonSend DaemonControl DaemonUser.
Import Protocol Ids UserShared DaemonSend DaemonControl DaemonUser.

Local Open Scope Z_scope.

Module DaemonClient.

Definition DLT_MOUNT_PATH_MAX : Z := 1024.
Definition DLT_OFFLINE_LOGSTORAGE_SYNC_CACHES : Z := 2.
(** Offsets in [DltServiceOfflineLogstorage]. *)
Definition mount_point_offset : Z := 4.
Definition connection_type_offset : Z := 1028.

Definition DLT_MSG_IS_CONTROL_REQUEST (m : Message.DltMessage) : option bool :=
  htyp ← Message.std_htyp m;
  if negb (DLT_IS_HTYP_UEH htyp) then Some false else
  msin ← Message.ext_msin m;
  Some ((DLT_GET_MSIN_MSTP msin =? DLT_TYPE_CONTROL) && (DLT_GET_MSIN_MTIN msin =? DLT_CONTROL_REQUEST)).

(** ** The check of requests *)

(** Letters, digits, "/", "-", "_" and ".". *)
Definition allowed (c : Z) : bool :=
  ((97 <=? c) && (c <=? 122)) || ((65 <=? c) && (c <=? 90)) || ((48 <=? c) && (c <=? 57))
  || (c =? 47) || (c =? 45) || (c =? 95) || (c =? 46).

(** The copy to [secure_mount_point] from index [i] on; [None]: a character is
    not allowed. *)
Fixpoint copy_allowed (room : nat) (mount_point : bytes) : option bytes :=
  match room, mount_point with
  | S room, c :: mount_point =>
      if c =? 0 then Some []
      else if allowed c then p ← copy_allowed room mount_point; Some (c :: p) else None
  | _, _ => Some []
  end.

(** [strstr(s, [c; c]) != NULL] for a string without terminator. *)
Fixpoint has_pair (c : Z) (s : bytes) : bool :=
  match s with
  | a :: (b :: _) as s' => ((a =? c) && (b =? c)) || has_pair c s'
  | _ => false
  end.

(** The path of a request after its check. *)
Definition secure_path (mount_point : bytes) (connection_type : Z) : option bytes :=
  let path_len := strnlen 1024 mount_point in
  if (path_len =? 0) && negb (connection_type =? DLT_OFFLINE_LOGSTORAGE_SYNC_CACHES) then None
  else if negb (path_len =? 0) && negb (default 0 (head mount_point) =? 47) then None
  else
    p ← copy_allowed 1023 mount_point;
    if has_pair 46 p then None else if has_pair 47 p then None else Some p.

(** The message that goes to the handlers: sizes, sync fields and headers of the
    received one; its payload is the same memory. *)
Definition secure_copy (m : Message.DltMessage) : option Message.DltMessage :=
  let hs := Message.headersize m in
  hb ← (if (0 <? hs) && (hs <? Message.HEADERBUFFER_SIZE)
        then h ← mread (Message.headerbuffer m) 0 hs; mwrite (replicate 42 0) 0 h
        else Some (replicate 42 0));
  htyp ← hb !! 16%nat;
  Some {| Message.found_serialheader := Message.found_serialheader m;
          Message.resync_offset := Message.resync_offset m;
          Message.headersize := hs;
          Message.datasize := Message.datasize m;
          Message.headerbuffer := hb;
          Message.databuffer := Message.databuffer m;
          Message.databuffersize := Message.databuffersize m;
          Message.storageheader := Some 0;
          Message.standardheader := Some 16;
          Message.headerextra := {| Message.ecu := [0; 0; 0; 0]; Message.seid := 0; Message.tmsp := 0 |};
          Message.extendedheader :=
            if DLT_IS_HTYP_UEH htyp then Some (16 + 4 + DLT_STANDARD_HEADER_EXTRA_SIZE htyp) else None |}.

(** The result with both messages; they share the payload, so the check changes
    the received message as well. *)
Definition dlt_daemon_create_secure_message (m : Message.DltMessage)
  : option (Z * Message.DltMessage * Message.DltMessage) :=
  sm ← secure_copy m;
  match Message.databuffer m with
  | None => Some (0, m, sm)
  | Some db =>
      if Message.datasize m <? 4 then Some (0, m, sm) else
      htyp ← Message.std_htyp m;
      v ← mread db 0 4;
      if negb (DLT_ENDIAN_GET_32 htyp (le_Z v) =? DLT_SERVICE_ID_OFFLINE_LOGSTORAGE) then Some (0, m, sm) else
      db ← mwrite db (mount_point_offset + (DLT_MOUNT_PATH_MAX - 1)) [0];
      mount_point ← mread db mount_point_offset DLT_MOUNT_PATH_MAX;
      (* read for an empty path only *)
      connection_type ← (if strnlen 1024 mount_point =? 0 then db !! Z.to_nat connection_type_offset else Some 0);
      let share db m := Message.set_databuffer m (Some db) (Message.databuffersize m) in
      match secure_path mount_point connection_type with
      | None => Some (-1, share db m, share db sm)
      | Some p =>
          db ← mwrite db mount_point_offset (pad_to 1024 0 p);
          Some (0, share db m, share db sm)
      end
  end.

(** ** The loops *)

(** What a loop does with a message that was read: go on and remove it, go on
    without removing it ([continue]), or return -1. *)
Inductive verdict := Handled | Continued | Failed.

Section loops.
Context (E : env) (F : flags) (V : services) (send : send_fn).

(** Requests of TCP clients. *)
Definition handle_client (s : session) : option (verdict * session) :=
  req ← DLT_MSG_IS_CONTROL_REQUEST (smsg s);
  if (0 <? Receiver.fd (srec s)) && req then
    '(_, d) ← dlt_daemon_client_process_control E F V send (Receiver.fd (srec s)) (smsg s) (sd s);
    Some (Handled, with_daemon s d)
  else Some (Handled, s).

(** Requests over the serial line: the message is checked, but the handlers get
    the received one. *)
Definition handle_serial (s : session) : option (verdict * session) :=
  req ← DLT_MSG_IS_CONTROL_REQUEST (smsg s);
  if (req : bool) then
    '(rc, m, _) ← dlt_daemon_create_secure_message (smsg s);
    let s := with_msg s m in
    if rc <? 0 then Some (Continued, s) else
    '(rc, d) ← dlt_daemon_client_process_control E F V send (Receiver.fd (srec s)) m (sd s);
    let s := with_daemon s d in
    Some (if rc =? -1 then Failed else Handled, s)
  else Some (Handled, s).

(** Requests over the control socket. *)
Definition handle_control (s : session) : option (verdict * session) :=
  req ← DLT_MSG_IS_CONTROL_REQUEST (smsg s);
  if (0 <? Receiver.fd (srec s)) && req then
    '(rc, m, sm) ← dlt_daemon_create_secure_message (smsg s);
    let s := with_msg s m in
    if rc <? 0 then Some (Continued, s) else
    '(rc, d) ← dlt_daemon_client_process_control E F V send (Receiver.fd (srec s)) sm (sd s);
    let s := with_daemon s d in
    Some (if rc =? -1 then Failed else Handled, s)
  else Some (Handled, s).

(** [bytes_to_be_removed]. *)
Definition message_extent (m : Message.DltMessage) : Z :=
  let n := i32 (Message.headersize m + Message.datasize m - sizeof_DltStorageHeader) in
  let n := if negb (Message.found_serialheader m =? 0) then i32 (n + 4) else n in
  if negb (Message.resync_offset m =? 0) then i32 (n + Message.resync_offset m) else n.

(** The end of a round: the function returns ([inl], with whether the loop ended
    regularly), or there is another round ([inr]). *)
Definition round_end (v : verdict) (s : session) : bool * session + session :=
  match v with
  | Continued => inr s
  | Failed => inl (false, s)
  | Handled =>
      let '(rc, r) := Receiver.dlt_receiver_remove (srec s) (message_extent (smsg s)) in
      let s := with_rec s r in
      if rc =? -1 then inl (false, s) else inr s
  end.

Definition receive_round (handle : session -> option (verdict * session)) (resync : bool) (mem : bytes) (s : session)
  : option (bool * session + session) :=
  let r := srec s in
  '(rc, m) ← Message.dlt_message_read (heap E) (smsg s) ((λ b, drop (Z.to_nat b) mem) <$> Receiver.buf r)
               (u32 (Receiver.bytesRcvd r)) resync;
  let s := with_msg s m in
  if negb (rc =? Message.DLT_MESSAGE_ERROR_OK) then Some (inl (true, s)) else
  '(v, s) ← handle s;
  Some (round_end v s).

Fixpoint receive_loop (fuel : nat) (handle : session -> option (verdict * session)) (resync : bool) (mem : bytes) (s : session)
  : option (bool * session) :=
  match fuel with
  | O => None
  | S fuel =>
      x ← receive_round handle resync mem s;
      match x with
      | inl r => Some r
      | inr s => receive_loop fuel handle resync mem s
      end
  end.

(** The loop and [dlt_receiver_move_to_begin]. *)
Definition receive_messages (fuel : nat) (handle : session -> option (verdict * session)) (resync : bool) (mem : bytes)
  (s : session) : option (Z * session) :=
  '(ok, s) ← receive_loop fuel handle resync mem s;
  if negb ok then Some (-1, s) else
  '(rc, r) ← Receiver.dlt_receiver_move_to_begin (heap E) (srec s) mem;
  Some (if rc =? -1 then -1 else 0, with_rec s r).

(** [nflag] and [mflag]: messages of TCP clients and of the serial line are
    resynchronised on the serial header.  [input] is what the system call
    delivers; [fuel] bounds the number of rounds. *)
Definition dlt_daemon_process_client_messages (fuel : nat) (nflag : bool) (input : option bytes) (mem : bytes) (s : session)
  : option (Z * session * bytes) :=
  '(must_close_socket, r, mem) ← Receiver.dlt_receiver_receive (srec s) mem input;
  let s := with_rec s r in
  if must_close_socket <? 0 then
    '(_, d) ← dlt_daemon_close_socket E send (Receiver.fd r) (sd s);
    Some (-1, with_daemon s d, mem)
  else
    '(rc, s) ← receive_messages fuel handle_client nflag mem s;
    if rc =? -1 then Some (-1, s, mem) else
    if must_close_socket =? 0 then
      '(_, d) ← dlt_daemon_close_socket E send (Receiver.fd (srec s)) (sd s);
      Some (0, with_daemon s d, mem)
    else Some (0, s, mem).

Definition dlt_daemon_process_client_messages_serial (fuel : nat) (mflag : bool) (input : option bytes) (mem : bytes)
  (s : session) : option (Z * session * bytes) :=
  '(rc, r, mem) ← Receiver.dlt_receiver_receive (srec s) mem input;
  let s := with_rec s r in
  if rc <=? 0 then Some (-1, s, mem) else
  '(rc, s) ← receive_messages fuel handle_serial mflag mem s;
  Some (rc, s, mem).

Definition dlt_daemon_process_control_messages (fuel : nat) (nflag : bool) (input : option bytes) (mem : bytes) (s : session)
  : option (Z * session * bytes) :=
  '(rc, r, mem) ← Receiver.dlt_receiver_receive (srec s) mem input;
  let s := with_rec s r in
  if rc <=? 0 then
    '(_, d) ← dlt_daemon_close_socket E send (Receiver.fd r) (sd s);
    Some (-1, with_daemon s d, mem)
  else
    '(rc, s) ← receive_messages fuel handle_control nflag mem s;
    Some (rc, s, mem).

End loops.

(** ** Connections of control clients *)

(** [create] is [dlt_connection_create] for a connection of type
    [DLT_CONNECTION_CONTROL_MSG].  The handles are reset twice. *)
Definition dlt_daemon_process_control_connect (acc : option Z)
  (create : EventHandler.DltEventHandler -> Z -> Z -> option (Z * EventHandler.DltEventHandler * Z)) (d : daemon)
  : option (Z * daemon) :=
  match acc with
  | None => Some (-1, d)
  | Some in_sock =>
      let e := DaemonTables.ecuid (tables d) in
      '(_, t) ← DaemonTables.dlt_daemon_applications_invalidate_fd (tables d) e in_sock;
      '(_, t) ← DaemonTables.dlt_daemon_contexts_invalidate_fd t e in_sock;
      '(_, t) ← DaemonTables.dlt_daemon_applications_invalidate_fd t e in_sock;
      '(_, t) ← DaemonTables.dlt_daemon_contexts_invalidate_fd t e in_sock;
      let d := set_tables d t in
      '(rc, ev, n) ← create (event d) (client_connections d) in_sock;
      let d := set_event d ev n in
      Some (if negb (rc =? 0) then -1 else 0, d)
  end.

(** Connections of applications over a socket; a failed one is closed. *)
Definition dlt_daemon_process_app_connect (acc : option Z)
  (create : EventHandler.DltEventHandler -> Z -> Z -> option (Z * EventHandler.DltEventHandler * Z)) (d : daemon)
  : option (Z * daemon) :=
  match acc with
  | None => Some (-1, d)
  | Some in_sock =>
      let e := DaemonTables.ecuid (tables d) in
      '(_, t) ← DaemonTables.dlt_daemon_applications_invalidate_fd (tables d) e in_sock;
      '(_, t) ← DaemonTables.dlt_daemon_contexts_invalidate_fd t e in_sock;
      let d := set_tables d t in
      '(rc, ev, n) ← create (event d) (client_connections d) in_sock;
      let d := set_event d ev n in
      Some (if negb (rc =? 0) then -1 else 0, d)
  end.

End DaemonClient.
