(* ===== verification/DaemonClientSpec.v ===== *)
(** * Messages of clients

    For requests that the daemon serves itself ([acceptable]), a receive loop of the daemon takes message by message
    out of the received bytes and handles the control requests in their order;
    what is left is not a complete message and waits.  This is shown for any
    treatment of single messages ([receive_loop_sound]) and then for the loop of the
    TCP clients. *)

From stdpp Require Import base sets list list_numbers numbers option.
From Stdlib Require Import ZArith Lia Bool.
From S2P Require Import Prelude Protocol Ids Message MessageSpec UserShared Receiver ReceiverSpec.
From S2P Require Import SortedTable DaemonTables DaemonTablesSpec DaemonContextsSpec DaemonSend DaemonMessagesSpec DaemonSendSpec DaemonControl DaemonControlSpec DaemonLogInfoSpec DaemonRequestsSpec.
From S2P Require Import DaemonUser DaemonForwardSpec DaemonHandlersSpec DaemonUserSpec DaemonClient.
Import Protocol Ids UserShared DaemonSend DaemonMessagesSpec DaemonSendSpec DaemonControl DaemonControlSpec DaemonLogInfoSpec DaemonRequestsSpec.
Import DaemonTables DaemonTablesSpec DaemonContextsSpec DaemonUser DaemonHandlersSpec DaemonClient.
Import Message MessageSpec.
Import Receiver (DltReceiver, buf, bytesRcvd, fd, dlt_receiver_remove).
Import ReceiverSpec (pending, pending_len, carried).

Local Open Scope Z_scope.

Module DaemonClientSpec.

(** ** Messages in the received bytes *)

(** [p] is a sequence of messages, each at the point where the parser looks for it,
    and [rest]. *)
Inductive parsed (resync : bool) : bytes -> list message -> bytes -> Prop :=
| parsed_end rest : parsed resync rest [] rest
| parsed_message pre M q Ms rest :
    sync_point (pre ++ encode M ++ q) resync (zlen pre) -> wf_message M -> parsed resync q Ms rest ->
    parsed resync (pre ++ encode M ++ q) (M :: Ms) rest.

(** No complete message is where the parser looks. *)
Definition incomplete (resync : bool) (rest : bytes) : Prop :=
  ∀ pre M q, rest = pre ++ encode M ++ q -> wf_message M -> ¬ sync_point rest resync (zlen pre).

(** *** The parser sees only what was received *)

Lemma serial_at_app (p post : bytes) k : k + 4 <= zlen p -> serial_at (p ++ post) k ↔ serial_at p k.
Proof.
  intros Hk. unfold serial_at, mread. destruct (Z.leb_spec 0 k); [|done]. cbn [andb].
  rewrite !leb_true by (rewrite ?length_app; lia). rewrite drop_app_le, take_app_le by (rewrite ?length_drop; lia). done.
Qed.
Lemma sync_point_app (p post : bytes) resync k : 4 <= zlen p -> k + 4 <= zlen p ->
  sync_point (p ++ post) resync k ↔ sync_point p resync k.
Proof.
  intros H4 Hk. split.
  - inversion 1 as [r Hs|Hs|o Hs Ho Hn]; subst; constructor; try done; try (by rewrite serial_at_app in Hs by lia).
    intros k Hk'. specialize (Hn k Hk'). by rewrite serial_at_app in Hn by lia.
  - inversion 1 as [r Hs|Hs|o Hs Ho Hn]; subst; constructor; try done; try (by rewrite serial_at_app by lia).
    intros k Hk'. specialize (Hn k Hk'). by rewrite serial_at_app by lia.
Qed.

(** *** The extent of a message *)

Definition same_sync (m m' : DltMessage) : Prop :=
  found_serialheader m' = found_serialheader m ∧ resync_offset m' = resync_offset m.

Lemma extraparameters_sync m rc m' : dlt_message_get_extraparameters m = Some (rc, m') -> same_sync m m'.
Proof.
  unfold dlt_message_get_extraparameters, when. intros H. unbind H as h Eh. unbind H as m1 E1. unbind H as m2 E2. unbind H as m3 E3.
  injection H as _ <-.
  assert (same_sync m m1) as [A1 B1] by (destruct (DLT_IS_HTYP_WEID h); [unbind E1 as y Ey|]; by injection E1 as <-).
  assert (same_sync m1 m2) as [A2 B2] by (destruct (DLT_IS_HTYP_WSID h); [unbind E2 as y Ey|]; by injection E2 as <-).
  assert (same_sync m2 m3) as [A3 B3] by (destruct (DLT_IS_HTYP_WTMS h); [unbind E3 as y Ey|]; by injection E3 as <-).
  split; congruence.
Qed.
Lemma read_headers_sync m b pos n rc m' : read_headers m b pos n = Some (rc, m') -> same_sync m m'.
Proof.
  unfold read_headers. intros H. destruct (n <? _); [by injection H as _ <-|]. unbind H as d Ed. unbind H as hb Eh.
  unbind H as htyp Et. unbind H as len El. destruct (_ <? 0); [by injection H as _ <-|]. destruct (0 <? _); [|by injection H as _ <-].
  destruct (n <? _); [by injection H as _ <-|]. unbind H as d2 Ed2. unbind H as hb2 Eh2. unbind H as q Eq. destruct q as [rc' m3].
  injection H as _ <-. by apply extraparameters_sync in Eq.
Qed.
Lemma read_payload_sync A m b pos n rc m' : read_payload A m b pos n = Some (rc, m') -> same_sync m m'.
Proof.
  unfold read_payload. intros H. destruct (_ <? _); [by injection H as _ <-|].
  assert (same_sync m (payload_buffer A m)) as S1 by (unfold payload_buffer; by repeat case_match).
  destruct (databuffer (payload_buffer A m)); [|by injection H as _ <-]. unbind H as d Ed. unbind H as db Edb. by injection H as _ <-.
Qed.

(** The fields tell where the message was found. *)
Definition sync_extent (m : DltMessage) : Z := (if found_serialheader m =? 0 then 0 else 4) + resync_offset m.

Lemma read_sync_extent m b n resync m' k n' : resync_offset m = 0 -> 4 <= n <= zlen b -> n < 2147483648 ->
  read_sync m b n resync = Some (m', k, n') -> sync_extent m' = k ∧ (sync_point b resync k ∨ n' = 3).
Proof.
  intros H0 Hn Hn2 H. destruct (read_sync_total m b n resync Hn Hn2) as (m1 & k1 & E & _ & Hk & Hsp). rewrite H in E. injection E as <- <- ->.
  split; [|destruct Hsp as [|(? & _)]; [by left|by right]]. unfold read_sync in H. unbind H as h Eh. case_bool_decide; [injection H as <- <-; cbn; unfold sync_extent; cbn; lia|].
  destruct resync; [|injection H as <- <-; unfold sync_extent; cbn; lia]. unbind H as x Ex. destruct x as [f o].
  destruct (resync_loop_total (S (Z.to_nat n)) b n 0) as (f' & o' & E' & Hfo & _); [lia..|]. rewrite Ex in E'. injection E' as <- <-.
  destruct f; unfold sync_extent; destruct (Z.ltb_spec 0 o); injection H as <- <-; cbn; lia.
Qed.

Lemma read_extent A m b n resync m' : 0 <= n <= zlen b -> n < 2147483648 ->
  dlt_message_read A m (Some b) n resync = Some (DLT_MESSAGE_ERROR_OK, m') -> sync_point b resync (sync_extent m').
Proof.
  unfold dlt_message_read. intros Hn Hn2 H. destruct (n <=? 0); [done|]. destruct (Z.ltb_spec n 4); [done|].
  unbind H as p Ep. destruct p as [[m1 pos] n1]. apply read_sync_extent in Ep as [<- Hsp]; [|done|lia..].
  unbind H as p2 Ep2. destruct p2 as [rc2 m2]. destruct (Z.eqb_spec rc2 DLT_MESSAGE_ERROR_OK) as [->|]; [|by injection H as -> <-].
  apply read_payload_sync in H as [A2 B2]. pose proof (read_headers_sync _ _ _ _ _ _ Ep2) as [A1 B1].
  unfold sync_extent. rewrite A2, B2, A1, B1. destruct Hsp as [Hsp|Hsp]; [done|]; subst n1. exfalso. by unfold read_headers in Ep2.
Qed.

Lemma extent_of m M : holds m M -> wf_message M -> 0 <= sync_extent m -> sync_extent m + message_len M < 2147483648 ->
  message_extent m = sync_extent m + message_len M.
Proof.
  intros H WM Hs Hr. pose proof (holds_sizes _ _ H) as Hsz. rewrite length_encode in Hsz. pose proof (wm_len _ WM).
  assert (4 <= message_len M) by (unfold message_len; lia).
  unfold message_extent, sizeof_DltStorageHeader, sync_extent in *. cint. destruct (found_serialheader m =? 0); cbn [negb]; cint;
    (destruct (Z.eqb_spec (resync_offset m) 0) as [->|]; cbn [negb]; [|cint]; lia).
Qed.

(** ** The loop *)

(** What the parser finds in the pending bytes: nothing, or the next message. *)
Lemma pending_read A resync mem r m p : heap_ok A -> is_bytes mem -> pending r mem p -> wf m ->
  let read := dlt_message_read A m ((λ b, drop (Z.to_nat b) mem) <$> buf r) (u32 (bytesRcvd r)) resync in
  (∃ rc m', incomplete resync p ∧ wf m' ∧ rc <> DLT_MESSAGE_ERROR_OK ∧ read = Some (rc, m')) ∨
  (∃ pre M q m', p = pre ++ encode M ++ q ∧ sync_point p resync (zlen pre) ∧ wf_message M ∧ holds m' M ∧ wf m' ∧
     sync_extent m' = zlen pre ∧ zlen p < 2147483648 ∧ read = Some (DLT_MESSAGE_ERROR_OK, m')).
Proof.
  intros HM Bm P W. destruct (pending_split _ _ _ P) as (a & post & Em & Hb & Hl & Hs).
  assert (zlen p <= zlen mem) as Hpm by (rewrite Em, !length_app; lia).
  cbn zeta. rewrite Hb, Hl. cbn [fmap option_fmap option_map]. rewrite Nat2Z.id, u32_small by lia.
  assert (drop (length a) mem = p ++ post) as -> by (rewrite Em; by apply drop_app_length).
  assert (is_bytes (p ++ post)) as Bb by (rewrite Em, is_bytes_app in Bm; tauto).
  destruct (read_sound A m (p ++ post) (zlen p) resync W Bb) as (rc & m' & Er & W' & Hok); [rewrite length_app; lia|lia|].
  rewrite Er. destruct (Z.eqb_spec rc DLT_MESSAGE_ERROR_OK) as [->|Hne].
  - right. destruct (Hok eq_refl) as (pre & M & post' & Eb & Hsp & Hle & WM & Hm).
    apply read_extent in Er as Hx; [|rewrite length_app; lia|lia]. assert (4 <= message_len M) as H4 by (unfold message_len; lia).
    pose proof (sync_point_unique _ _ _ _ Hsp Hx) as Ex. pose proof (length_encode M) as Le.
    assert (∃ q, p = pre ++ encode M ++ q) as (q & Ep).
    { destruct (app_eq_inv p post (pre ++ encode M) post') as [(k & -> & _)|(k & Ep & _)]; [by rewrite <-app_assoc|exists k; by rewrite app_assoc|].
      assert (k = []) as -> by (apply nil_length_inv; apply (f_equal length) in Ep; rewrite !length_app in Ep; lia).
      exists []. by rewrite app_nil_r in *. }
    exists pre, M, q, m'. split_and!; try done; [|lia]. apply (sync_point_app p post) in Hsp; [done|lia..].
  - left. exists rc, m'. split_and!; try done.
    intros pre M q -> WM Hsp. apply Hne. rewrite <-!app_assoc in Er, Bb. assert (4 <= message_len M) as H4 by (unfold message_len; lia).
    pose proof (length_encode M) as Le. rewrite !length_app in *. rewrite !is_bytes_app in Bb.
    destruct (read_complete A m pre (q ++ post) M (zlen (pre ++ encode M ++ q)) resync W WM) as (m2 & E2 & _);
      rewrite ?is_bytes_app, ?length_app; try tauto; try lia; [|apply HM|rewrite !length_app in E2; congruence].
    assert (pre ++ encode M ++ q ++ post = (pre ++ encode M ++ q) ++ post) as -> by (by rewrite <-!app_assoc). apply sync_point_app; rewrite ?length_app; done || lia.
Qed.

(** What a round reads: nothing, or the next message. *)
Lemma round_reads E resync mem s p : heap_ok (heap E) -> is_bytes mem -> pending (srec s) mem p -> wf (smsg s) ->
  (∃ m', incomplete resync p ∧ wf m' ∧ ∀ handle, receive_round E handle resync mem s = Some (inl (true, with_msg s m'))) ∨
  (∃ pre M q m', p = pre ++ encode M ++ q ∧ sync_point p resync (zlen pre) ∧ wf_message M ∧ holds m' M ∧ wf m' ∧
     message_extent m' = zlen (pre ++ encode M) ∧
     ∀ handle, receive_round E handle resync mem s = ('(v, s) ← handle (with_msg s m'); Some (round_end v s))).
Proof.
  intros HM Bm P W. unfold receive_round.
  destruct (pending_read _ resync _ _ _ _ HM Bm P W) as [(rc & m' & Hi & W' & Hne & ->)|(pre & M & q & m' & Ep & Hsp & WM & Hm & W' & Hx & Hl & ->)]; bsimp.
  - left. exists m'. split_and!; try done. intros handle. by rewrite (eqb_false rc).
  - right. exists pre, M, q, m'. split_and!; try done. pose proof (length_encode M). rewrite Ep, !length_app in Hl.
    rewrite (extent_of m' M); rewrite ?length_app; done || lia.
Qed.

(** [step] is what handling one message does to the daemon. *)
Inductive in_order (step : daemon -> message -> daemon -> Prop) : daemon -> list message -> daemon -> Prop :=
| in_order_nil d : in_order step d [] d
| in_order_cons d M d1 Ms d2 : step d M d1 -> in_order step d1 Ms d2 -> in_order step d (M :: Ms) d2.

Section loop.
Context (E : env) (handle : session -> option (verdict * session)) (resync : bool) (mem : bytes) (f : Z).
Context (step : daemon -> message -> daemon -> Prop) (inv : daemon -> Prop) (acceptable : message -> Prop).
Hypothesis (HM : heap_ok (heap E)) (Bmem : is_bytes mem).
Hypothesis Hstep : ∀ s M, fd (srec s) = f -> inv (sd s) -> acceptable M -> holds (smsg s) M -> wf (smsg s) -> wf_message M ->
  ∃ s', handle s = Some (Handled, s') ∧ srec s' = srec s ∧ message_extent (smsg s') = message_extent (smsg s) ∧ wf (smsg s') ∧
    step (sd s) M (sd s') ∧ inv (sd s').

(** All messages are taken and handled in order; as many rounds as bytes are enough. *)
Lemma receive_loop_sound fuel : ∀ s p, pending (srec s) mem p -> fd (srec s) = f -> wf (smsg s) -> inv (sd s) ->
  (∀ Ms rest, parsed resync p Ms rest -> Forall acceptable Ms) -> (length p < fuel)%nat ->
  ∃ Ms rest s', receive_loop E fuel handle resync mem s = Some (true, s') ∧ parsed resync p Ms rest ∧ incomplete resync rest ∧
    pending (srec s') mem rest ∧ fd (srec s') = f ∧ wf (smsg s') ∧ in_order step (sd s) Ms (sd s') ∧ inv (sd s').
Proof.
  induction fuel as [|fuel IH]; intros s p P Hf W I Hacc Hfuel; [lia|]. cbn [receive_loop].
  destruct (round_reads E resync mem s p HM Bmem P W) as [(m' & Hinc & W' & ->)|(pre & M & q & m' & -> & Hsp & WM & Hm & W' & Hx & ->)]; bsimp.
  { exists [], p. eexists. split; [reflexivity|]. split; [constructor|]. split_and!; try done. constructor. }
  assert (∀ Ms rest, parsed resync q Ms rest -> parsed resync (pre ++ encode M ++ q) (M :: Ms) rest) as Hcons by (intros; by constructor).
  assert (acceptable M) as Ha by (specialize (Hacc _ _ (Hcons [] q (parsed_end _ q))); by inversion Hacc).
  destruct (Hstep (with_msg s m') M Hf I Ha Hm W' WM) as (s1 & -> & Er & Ex & W1 & S1 & I1). bsimp. cbn [round_end srec with_msg smsg] in *.
  rewrite Ex, Hx, Er. rewrite app_assoc in P. assert (4 <= message_len M) as H4 by (unfold message_len; lia). pose proof (length_encode M) as Le.
  destruct (remove_pending _ _ (pre ++ encode M) q P) as (r1 & -> & P1 & _ & Hf1); [rewrite length_app; lia|]. cbn [Z.eqb DLT_RETURN_OK].
  destruct (IH (with_rec s1 r1) q P1) as (Ms & rest & s' & -> & Hp & Hi & P' & Hf' & W2 & S2 & I2); try done.
  - cbn. congruence.
  - intros Ms rest Hp. specialize (Hacc _ _ (Hcons _ _ Hp)). by inversion Hacc.
  - rewrite !length_app in Hfuel. lia.
  - exists (M :: Ms), rest, s'. split_and!; try done; [by apply Hcons|]. econstructor; [exact S1|exact S2].
Qed.
End loop.

(** ** Control requests *)

Definition is_request (M : message) : bool :=
  DLT_IS_HTYP_UEH (m_htyp M) && (let msin := default 0 (head (m_ext M)) in
    (DLT_GET_MSIN_MSTP msin =? DLT_TYPE_CONTROL) && (DLT_GET_MSIN_MTIN msin =? DLT_CONTROL_REQUEST)).
Definition service (M : message) : Z := DLT_ENDIAN_GET_32 (m_htyp M) (le_Z (take 4 (m_payload M))).

Lemma holds_htyp m M : holds m M -> std_htyp m = Some (m_htyp M).
Proof.
  intros [[(sh & rest & Hb & Ls) _ _ Hs _ _] _]. unfold std_htyp. rewrite Hs, Hb. bsimp. change (Z.to_nat 16) with 16%nat.
  rewrite lookup_app_r by lia. replace (16 - length sh)%nat with 0%nat by lia. done.
Qed.
Lemma holds_ext_bytes m M : holds m M -> DLT_IS_HTYP_UEH (m_htyp M) = true ->
  ∃ sh rest, headerbuffer m = sh ++ m_ext M ++ rest ∧ extendedheader m = Some (zlen sh).
Proof.
  intros [[(sh & rest & Hb & Ls) _ _ _ He _] _] Hu. rewrite He by done. unfold ext in Hb. rewrite Hu in Hb.
  exists (sh ++ std M ++ extra M), rest. split; [by rewrite Hb, <-!app_assoc|]. pose proof (length_std M). rewrite !length_app. f_equal. lia.
Qed.
Lemma request_flag m M : holds m M -> wf_message M -> DLT_MSG_IS_CONTROL_REQUEST m = Some (is_request M).
Proof.
  intros H WM. unfold DLT_MSG_IS_CONTROL_REQUEST, is_request. rewrite (holds_htyp _ _ H). bsimp.
  destruct (DLT_IS_HTYP_UEH (m_htyp M)) eqn:Hu; cbn [negb andb]; [|done]. destruct (holds_ext_bytes _ _ H Hu) as (sh & rest & Hb & He).
  unfold ext_msin. rewrite He, Hb. bsimp. rewrite Nat2Z.id, lookup_app_r, Nat.sub_diag by lia.
  pose proof (wm_ext _ WM). by destruct (m_ext M).
Qed.

(** A request that the daemon serves itself: it is not for offline storage or passive
    nodes, the data of an injection is complete, and the tables that a request asks
    for fit into an answer. *)
Record acceptable (d0 : daemon) (M : message) : Prop := {
  ac_own : is_request M = true -> 4 <= zlen (m_payload M) -> elsewhere (service M) = false;
  ac_inject : is_request M = true -> 8 <= zlen (m_payload M) -> DLT_DAEMON_INJECTION_MIN <= service M ->
    8 + DaemonRequestsSpec.announced (m_htyp M) (m_payload M) <= zlen (m_payload M);
  ac_info : is_request M = true -> service M = DLT_SERVICE_ID_GET_LOG_INFO ->
    ∀ m d, holds m M -> settled ctx_same d0 d -> log_info_fits d m
}.

Lemma payload_front (b pl : bytes) n : mread b 0 n = Some pl -> ∃ c, b = pl ++ c ∧ n = zlen pl.
Proof.
  unfold mread. destruct (_ && _) eqn:Ec; [|done]. zb. intros [= <-]. exists (drop (Z.to_nat n) b). change (Z.to_nat 0) with 0%nat. rewrite drop_0.
  split; [by rewrite take_drop|]. rewrite length_take. lia.
Qed.

Lemma holds_request d0 d m M : holds m M -> wf_message M -> is_request M = true -> acceptable d0 M -> settled ctx_same d0 d ->
  ∃ b, wf_request d m (m_htyp M) b ∧ datasize m = zlen (m_payload M) ∧ m_payload M `prefix_of` b.
Proof.
  intros H WM Hreq [_ Hinj Hinfo] S. destruct (h_payload _ _ H) as (b & Hb & Hp). apply payload_front in Hp as (c & -> & Hd).
  exists (m_payload M ++ c). split; [|split; [done|by exists c]]. split; [done|rewrite length_app; lia| | |].
  - split; [by apply holds_htyp|]. intros Hu. destruct (holds_ext_bytes _ _ H Hu) as (sh & rest & Hhb & He). exists (zlen sh). rewrite Hhb, !length_app.
    pose proof (wm_ext _ WM). split_and!; [done|lia|lia].
  - intros H8 Hid _. unfold DaemonRequestsSpec.announced in *. rewrite take_app_le in Hid by lia. specialize (Hinj Hreq ltac:(lia) Hid).
    rewrite drop_app_le, take_app_le by (rewrite ?length_drop; lia). rewrite length_app. lia.
  - intros Hid b' r i u Hb' H17. rewrite take_app_le in Hid by lia. by apply (Hinfo Hreq Hid m d H S).
Qed.

(** What a message of a client does: a request is served with the message that was
    read, other messages are ignored. *)
Definition client_step (E : env) (F : flags) (V : services) (send : send_fn) (f : Z) (d : daemon) (M : message) (d' : daemon) : Prop :=
  if is_request M then ∃ m rc, holds m M ∧ dlt_daemon_client_process_control E F V send f m d = Some (rc, d') else d' = d.

Lemma receive_fd r mem input n r' mem' : Receiver.dlt_receiver_receive r mem input = Some (n, r', mem') -> fd r' = fd r.
Proof.
  unfold Receiver.dlt_receiver_receive. destruct (negb _); [by intros [= _ <- _]|]. intros H. unbind H as x Ex. destruct x as [r1 mem1].
  assert (fd r1 = fd r) as E1.
  { unfold Receiver.restore_backup in Ex. destruct (Receiver.backup_buf _); [|by injection Ex as <- _]. destruct (_ =? 0); [by injection Ex as <- _|].
    unbind Ex as a Ea. unbind Ex as b Eb. by injection Ex as <- _. }
  unbind H as y Ey. destruct y as [k mem2]. case_match; injection H as _ <- _; by rewrite <-E1.
Qed.

Section clients.
Context (E : env) (F : flags) (V : services) (fuel : nat).
Abbreviation send := (dlt_daemon_client_send (S fuel) E).
Hypothesis (WE : wf_env E) (HM : heap_ok (heap E)) (Bv : is_bytes (ECUVersionString E)) (Lv : zlen (ECUVersionString E) < 60000).

Lemma client_message_handled d0 f s M : 0 < f -> gatewayMode F <> 1 -> sound d0 ->
  fd (srec s) = f -> settled ctx_same d0 (sd s) -> acceptable d0 M -> holds (smsg s) M -> wf (smsg s) -> wf_message M ->
  ∃ s', handle_client E F V send s = Some (Handled, s') ∧ srec s' = srec s ∧ message_extent (smsg s') = message_extent (smsg s) ∧
    wf (smsg s') ∧ client_step E F V send f (sd s) M (sd s') ∧ settled ctx_same d0 (sd s').
Proof.
  intros Hf HV Hd0 Ef S0 Ha Hm W WM. unfold handle_client, client_step. rewrite (request_flag _ _ Hm WM), Ef, (ltb_true 0) by done. bsimp. cbn [andb].
  destruct (is_request M) eqn:Er; [|by eexists]. destruct (holds_request d0 (sd s) _ _ Hm WM Er Ha S0) as (b & Hreq & Hds & [c Hb]).
  assert (∃ rc d', dlt_daemon_client_process_control E F V send f (smsg s) (sd s) = Some (rc, d') ∧ settled ctx_same (sd s) d') as (rc & d' & Hp & S1).
  { destruct (Z.ltb_spec (datasize (smsg s)) 4) as [Hs|Hs]; [unfold dlt_daemon_client_process_control; rewrite ltb_true by done; by eexists _, (sd s)|].
    apply (process_control_settled E F V fuel f (smsg s) (m_htyp M) b (sd s) WE); try done.
    - unfold gateway_forwards. by rewrite eqb_false.
    - unfold asked. rewrite Hb, take_app_le by lia. apply Ha; [done|lia].
    - by eapply same_sound.
    - unfold DLT_DAEMON_SEND_TO_ALL. lia.
    - unfold DLT_DAEMON_SEND_FORCE. lia. }
  rewrite Hp. bsimp. eexists. split; [reflexivity|]. cbn [sd srec smsg with_daemon]. split_and!; try done; [by eexists _, rc|by etrans].
Qed.

Lemma client_frame s mem p d : carried (srec s) mem p -> is_bytes mem -> is_bytes p -> is_bytes d -> 0 < zlen d ->
  zlen p + zlen d <= Receiver.buffersize (srec s) < 2147483647 ->
  ∃ r mem', Receiver.dlt_receiver_receive (srec s) mem (Some d) = Some (zlen p + zlen d, r, mem') ∧ pending r mem' (p ++ d) ∧ is_bytes mem' ∧
    fd r = fd (srec s) ∧ ∀ r' rest, pending r' mem' rest ->
      ∃ r2, Receiver.dlt_receiver_move_to_begin (heap E) r' mem' = Some (DLT_RETURN_OK, r2) ∧ carried r2 mem' rest.
Proof.
  intros C Bm Bp Bd Hd [Hfit Hmax]. destruct (ReceiverSpec.receive_pending (srec s) mem p d C Hd Hfit) as (r & mem1 & Er & P & Hb).
  exists r, mem1. split_and!; [done|done|by apply (DaemonUserSpec.receive_is_bytes _ _ _ _ _ _ _ C Bp Bm Bd Er)|by eapply receive_fd|].
  intros r' rest P'. destruct (ReceiverSpec.move_carried (heap E) r' mem1 _ HM P') as (r2 & -> & C2 & _); [|by exists r2].
  pose proof (ReceiverSpec.i_mem _ _ (ReceiverSpec.p_inv _ _ _ P)) as Hm1. rewrite Hb in Hm1.
  destruct (pending_split _ _ _ P') as (pre & post & Em & _). rewrite Em in Hm1. rewrite !length_app in Hm1. lia.
Qed.

End clients.

(** ** Examples *)

(** The first message of some bytes is determined. *)
Lemma encode_front M M' (q q' : bytes) : wf_message M -> wf_message M' -> encode M ++ q = encode M' ++ q' ->
  m_htyp M = m_htyp M' ∧ ext M = ext M' ∧ m_payload M = m_payload M' ∧ q = q'.
Proof.
  intros W W' H. pose proof (wm_len _ W). pose proof (wm_len _ W'). unfold encode in H. rewrite <-!app_assoc in H.
  apply app_inj_1 in H as [Hs H]; [|pose proof (length_std M); pose proof (length_std M'); lia].
  unfold std in Hs. injection Hs as Hh _ Hl1 Hl2.
  assert (message_len M = message_len M') as Hl.
  { assert (be_bytes 2 (message_len M) = be_bytes 2 (message_len M')) as Hb by (cbn; congruence).
    apply (f_equal be_Z) in Hb. rewrite !be_Z_be_bytes in Hb by (cbn; unfold message_len in *; lia). done. }
  apply app_inj_1 in H as [Hx H]; [|pose proof (length_extra _ W); pose proof (length_extra _ W'); rewrite Hh in *; lia].
  apply app_inj_1 in H as [He H]; [|pose proof (length_ext _ W); pose proof (length_ext _ W'); rewrite Hh in *; lia].
  apply app_inj_1 in H as [Hp ->]; [done|]. unfold message_len in Hl. rewrite Hx, He in Hl. lia.
Qed.

(** Without resynchronisation a message is where the bytes begin. *)
Lemma parsed_front M (rest : bytes) d0 : wf_message M -> m_htyp M <> 68 -> acceptable d0 M -> service M <> DLT_SERVICE_ID_GET_LOG_INFO ->
  (∀ Ms r, parsed false rest Ms r -> Forall (acceptable d0) Ms) ->
  ∀ Ms r, parsed false (encode M ++ rest) Ms r -> Forall (acceptable d0) Ms.
Proof.
  intros W H68 [Ho Ha _] Hs Hrest Ms r Hp. remember (encode M ++ rest) as p eqn:Eq. destruct Hp as [|pre M' q Ms r Hsp W' Hq]; [constructor|].
  assert (pre = []) as ->.
  { rewrite Eq in Hsp. inversion Hsp as [? Hser Hr Hz|Hser Hr|]; [|by apply nil_length_inv; lia]. exfalso.
    assert (mread (encode M ++ rest) 0 4 = Some (std M)) as Hst.
    { unfold encode. rewrite <-!app_assoc. apply (mread_mid [] (std M)); [done|by rewrite length_std]. }
    unfold serial_at in Hser. rewrite Hst in Hser. by injection Hser. }
  cbn [app] in Eq. apply encode_front in Eq as (Hh & He & Hpl & <-); [|done..].
  assert (is_request M' = is_request M) as Hr.
  { unfold is_request, ext in *. rewrite Hh in *. destruct (DLT_IS_HTYP_UEH (m_htyp M)); [|done]. by rewrite He. }
  constructor; [|by apply (Hrest _ r)]. unfold service in *. split; unfold service; rewrite Hr, Hh, Hpl; done.
Qed.
Lemma parsed_short (rest : bytes) d0 : zlen rest < 4 -> ∀ Ms r, parsed false rest Ms r -> Forall (acceptable d0) Ms.
Proof.
  intros Hl Ms r Hp. destruct Hp as [|pre M q Ms r Hsp W Hq]; [constructor|].
  pose proof (length_encode M). assert (4 <= message_len M) by (unfold message_len; lia). rewrite !length_app in Hl. lia.
Qed.

(** A control request of a client. *)
Definition client_request (payload : bytes) : message :=
  {| m_htyp := Z.lor DLT_HTYP_UEH 32; m_mcnt := 0; m_ecu := no_id; m_seid := 0; m_tmsp := 0;
     m_ext := [22; 1] ++ id_APP1 ++ id_CON1; m_payload := payload |}.
Definition client_session (o : os) (size : Z) : session :=
  {| sd := control_daemon o; smsg := fresh; srec := DaemonUserSpec.fifo_receiver size |}.


End DaemonClientSpec.
