(* ===== verification/DaemonChecksSpec.v ===== *)
(** * The check of control requests

    [dlt_daemon_create_secure_message] lets a request to the log storage through
    exactly when its path is harmless ([harmless]), and cleans what is behind the
    path.  Then what happens to the requests it rejects and to those that cannot be
    served: the receive loops of the serial line and the control socket do not
    remove them. *)

From stdpp Require Import base sets list list_numbers numbers option.
From Stdlib Require Import ZArith Lia Bool.
From S2P Require Import Prelude Protocol Ids Message MessageSpec UserShared Receiver ReceiverSpec.
From S2P Require Import DaemonTables DaemonContextsSpec DaemonSend DaemonSendSpec DaemonControl DaemonControlSpec DaemonLogInfoSpec DaemonRequestsSpec.
From S2P Require Import DaemonUser DaemonHandlersSpec DaemonUserSpec DaemonClient DaemonClientSpec.
Import Protocol Ids UserShared DaemonSend DaemonSendSpec DaemonControl DaemonControlSpec DaemonRequestsSpec.
Import DaemonContextsSpec DaemonLogInfoSpec DaemonUser DaemonHandlersSpec DaemonClient DaemonClientSpec.
Import Message MessageSpec.
Import Receiver (DltReceiver, buf, bytesRcvd, fd, dlt_receiver_remove).
Import ReceiverSpec (pending, pending_len, carried).

Local Open Scope Z_scope.

Module DaemonChecksSpec.

(** ** Paths *)

Lemma cstr_app n (t r : bytes) : (n <= length t)%nat -> cstr n (t ++ r) = cstr n t.
Proof.
  revert t. induction n as [|n IH]; intros [|b t] H; cbn [cstr app]; try done; [simpl in H; lia|]. destruct (b =? 0); [done|].
  f_equal. apply IH. simpl in H. lia.
Qed.
Lemma cstr_terminated n (t : bytes) : length t = n -> cstr (S n) (t ++ [0]) = cstr n t.
Proof. revert n. induction t as [|b t IH]; intros n <-; [done|]. cbn [app length cstr]. destruct (b =? 0); [done|]. f_equal. by apply IH. Qed.

Lemma copy_allowed_spec n (t : bytes) :
  copy_allowed n t = if forallb allowed (cstr n t) then Some (cstr n t) else None.
Proof.
  revert t. induction n as [|n IH]; intros [|b t]; cbn [copy_allowed cstr]; try done. destruct (b =? 0); [done|]. cbn [forallb].
  destruct (allowed b); cbn [andb]; [|done]. rewrite IH. by destruct (forallb _ _).
Qed.

(** The same character twice in a row. *)
Definition doubled (c : Z) (s : bytes) : Prop := ∃ i, s !! i = Some c ∧ s !! S i = Some c.
Lemma has_pair_spec c (s : bytes) : has_pair c s = true ↔ doubled c s.
Proof.
  induction s as [|a s IH]; [split; [done|intros (i & H & _); by destruct i]|]. destruct s as [|b s].
  { split; [done|]. intros (i & _ & H). by destruct i. }
  change (has_pair c (a :: b :: s)) with (((a =? c) && (b =? c)) || has_pair c (b :: s)). rewrite orb_true_iff, IH. split.
  - intros [H|(i & H1 & H2)]; [|by exists (S i)]. zb. subst. by exists 0%nat.
  - intros ([|i] & H1 & H2); [|right; by exists i]. left. injection H1 as ->. injection H2 as ->. by rewrite Z.eqb_refl.
Qed.

(** An absolute path of allowed characters that neither leads upwards nor has an
    empty step; without a path, only the caches can be written. *)
Record harmless (path : bytes) (connection_type : Z) : Prop := {
  hl_empty : path = [] -> connection_type = DLT_OFFLINE_LOGSTORAGE_SYNC_CACHES;
  hl_absolute : path <> [] -> head path = Some 47;
  hl_allowed : Forall (λ c, allowed c = true) path;
  hl_dots : ¬ doubled 46 path;
  hl_slashes : ¬ doubled 47 path
}.

Lemma secure_path_spec (t : bytes) conn : length t = 1023%nat ->
  match secure_path (t ++ [0]) conn with
  | Some p => p = cstr 1023 t ∧ harmless (cstr 1023 t) conn
  | None => ¬ harmless (cstr 1023 t) conn
  end.
Proof.
  intros Ht. unfold secure_path, strnlen. change 1024%nat with (S 1023). rewrite cstr_terminated by done.
  rewrite copy_allowed_spec, cstr_app by lia.
  assert (cstr 1023 t <> [] -> head (cstr 1023 t) = head (t ++ [0])) as Hhead.
  { change 1023%nat with (S 1022). destruct t as [|b t]; [done|]. cbn [cstr app head]. by destruct (b =? 0). }
  set (p := cstr 1023 t) in *. clearbody p. destruct p as [|b p].
  { cbn [length]. change (Z.of_nat 0 =? 0) with true. cbn [negb andb]. destruct (Z.eqb_spec conn DLT_OFFLINE_LOGSTORAGE_SYNC_CACHES) as [->|Hc].
    - split; [done|]. split; [done|done|constructor|..]; intros (i & H & _); by destruct i.
    - intros [He _ _ _ _]. by apply Hc, He. }
  rewrite (eqb_false _ 0) by (simpl; lia). cbn [negb andb]. rewrite <-Hhead by done. cbn [head default from_option Datatypes.id].
  destruct (Z.eqb_spec b 47) as [->|Hb]; cbn [negb]; [|intros [_ Ha _ _ _]; injection (Ha ltac:(done)); done].
  destruct (forallb _ _) eqn:Hf; bsimp.
  2: { intros [_ _ Hall _ _]. assert (forallb allowed (47 :: p) = true); [|congruence]. apply forallb_forall. intros x Hx.
       rewrite list.Forall_forall in Hall. apply Hall. by apply list_elem_of_In. }
  destruct (has_pair 46 _) eqn:Hd. { intros [_ _ _ Hn _]. by apply Hn, has_pair_spec. }
  destruct (has_pair 47 _) eqn:Hs. { intros [_ _ _ _ Hn]. by apply Hn, has_pair_spec. }
  split; [done|]. split; try done.
  - apply list.Forall_forall. intros x Hx. rewrite forallb_forall in Hf. apply Hf. by apply list_elem_of_In.
  - rewrite <-has_pair_spec. congruence.
  - rewrite <-has_pair_spec. congruence.
Qed.

(** ** Requests to the log storage *)

(** The payload: service, path, its last byte, connection type, the rest. *)
Record storage_request (M : message) (v t : bytes) (x conn : Z) (w : bytes) : Prop := {
  sr_payload : m_payload M = v ++ t ++ [x] ++ conn :: w;
  sr_service_len : zlen v = 4;
  sr_path_len : zlen t = 1023;
  sr_service : service M = DLT_SERVICE_ID_OFFLINE_LOGSTORAGE
}.

Lemma secure_copy_total m M : holds m M -> wf m -> wf_message M -> ∃ sm, secure_copy m = Some sm ∧ databuffer sm = databuffer m ∧
  datasize sm = datasize m ∧ ecu (headerextra sm) = [0; 0; 0; 0].
Proof.
  intros H W WM. unfold secure_copy. pose proof (wf_hb _ W) as Hl. change HEADERBUFFER_SIZE with 42 in *.
  assert (∃ hb, (if (0 <? headersize m) && (headersize m <? 42) then h ← mread (headerbuffer m) 0 (headersize m); mwrite (replicate 42 0) 0 h
    else Some (replicate 42 0)) = Some hb ∧ zlen hb = 42) as (hb & -> & Lh).
  { destruct (_ && _) eqn:Ec; [|by eexists]. zb. destruct (mread_total (headerbuffer m) 0 (headersize m)) as (h & -> & Lh); [lia..|]. bsimp.
    rewrite mwrite_Some by (rewrite ?length_replicate; lia). eexists. split; [reflexivity|]. rewrite !length_app, length_take, length_drop, length_replicate. lia. }
  bsimp. destruct (lookup_lt_is_Some_2 hb 16) as [y ->]; [lia|]. bsimp. by eexists.
Qed.

(** What the payload is after the check: the path is terminated, and if it is
    harmless, the bytes behind it are zero. *)
Definition checked (v t : bytes) (conn : Z) (w : bytes) (ok : bool) : bytes :=
  v ++ (if ok then pad_to 1024 0 (cstr 1023 t) else t ++ [0]) ++ conn :: w.

Lemma secure_message_spec m M v t x conn w : holds m M -> wf m -> wf_message M -> storage_request M v t x conn w ->
  ∃ ok c sm, (ok = true ↔ harmless (cstr 1023 t) conn) ∧ databuffer sm = Some (checked v t conn w ok ++ c) ∧
    dlt_daemon_create_secure_message m =
      Some (if ok then 0 else -1, set_databuffer m (Some (checked v t conn w ok ++ c)) (databuffersize m), sm) ∧
    databuffer m = Some (m_payload M ++ c).
Proof.
  intros H W WM [Hp Lv Lt Hid]. destruct (secure_copy_total m M H W WM) as (sm & Es & Hs & _). unfold dlt_daemon_create_secure_message. rewrite Es. bsimp.
  destruct (h_payload _ _ H) as (b & Hb & Hd). apply payload_front in Hd as (c & -> & Hd). rewrite Hb.
  rewrite Hp, !length_app in Hd. cbn [length] in Hd. rewrite ltb_false by lia. rewrite (holds_htyp _ _ H). bsimp.
  unfold service in Hid. rewrite Hp in *. rewrite take_app_length' in Hid by lia. rewrite <-!app_assoc.
  assert (mread (v ++ t ++ [x] ++ (conn :: w) ++ c) 0 4 = Some v) as -> by (by apply (mread_mid [] v)). bsimp. rewrite Hid. cbn [Z.eqb negb].
  rewrite Z.eqb_refl. cbn [negb].
  assert (mwrite (v ++ t ++ [x] ++ (conn :: w) ++ c) (mount_point_offset + (DLT_MOUNT_PATH_MAX - 1)) [0] = Some (v ++ t ++ [0] ++ (conn :: w) ++ c))
    as -> by (apply mwrite_mid2; [unfold mount_point_offset, DLT_MOUNT_PATH_MAX; lia|done]). bsimp.
  assert (mread (v ++ t ++ [0] ++ (conn :: w) ++ c) mount_point_offset DLT_MOUNT_PATH_MAX = Some (t ++ [0])) as ->.
  { rewrite (app_assoc t). apply mread_mid; [unfold mount_point_offset; lia|rewrite length_app; unfold DLT_MOUNT_PATH_MAX; simpl; lia]. }
  bsimp. assert ((v ++ t ++ [0] ++ (conn :: w) ++ c) !! Z.to_nat connection_type_offset = Some conn) as Hconn.
  { change (Z.to_nat connection_type_offset) with 1028%nat. rewrite !(lookup_app_r v), !(lookup_app_r t), lookup_app_r by (simpl; lia).
    replace (1028 - length v - length t - length [0%Z])%nat with 0%nat by (simpl; lia). done. }
  assert (∃ k, (if strnlen 1024 (t ++ [0]) =? 0 then (v ++ t ++ [0] ++ (conn :: w) ++ c) !! Z.to_nat connection_type_offset else Some 0) = Some k ∧
    secure_path (t ++ [0]) k = secure_path (t ++ [0]) conn) as (k & -> & Hk).
  { rewrite Hconn. unfold secure_path. destruct (strnlen 1024 (t ++ [0]) =? 0); by eexists. }
  bsimp. rewrite Hk. clear Hk. pose proof (secure_path_spec t conn ltac:(lia)) as Hsp. destruct (secure_path _ _) as [p|].
  - destruct Hsp as [-> Hh]. rewrite (app_assoc t [0]). pose proof (length_cstr 1023 t) as Lc.
    assert (length (pad_to 1024 0 (cstr 1023 t)) = 1024%nat) as Lp by (apply length_pad_to; lia).
    rewrite (mwrite_mid v (t ++ [0])) by (rewrite ?Lp, ?length_app; unfold mount_point_offset; simpl; lia). bsimp.
    eexists true, c, _. split; [done|]. split; [|split; [unfold checked; rewrite <-!app_assoc; reflexivity|by rewrite <-!app_assoc]].
    cbn [databuffer set_databuffer]. unfold checked. by rewrite <-!app_assoc.
  - eexists false, c, _. split; [done|]. split; [|split; [unfold checked; rewrite <-!app_assoc; reflexivity|by rewrite <-!app_assoc]].
    cbn [databuffer set_databuffer]. unfold checked. by rewrite <-!app_assoc.
Qed.

(** C22: The check lets a request to the log storage through exactly when the path it
    names is harmless; then the message that goes to the handlers has the path and
    nothing but zeros behind it.  The received message shares this memory. *)
Theorem path_check_exact m M v t x conn w :
  holds m M -> wf m -> wf_message M -> storage_request M v t x conn w ->
  ∃ rc m' sm b, dlt_daemon_create_secure_message m = Some (rc, m', sm) ∧ databuffer sm = Some b ∧ databuffer m' = Some b ∧
    ((rc = 0 ∧ harmless (cstr 1023 t) conn ∧ take 1028 b = v ++ pad_to 1024 0 (cstr 1023 t)) ∨
     (rc = -1 ∧ ¬ harmless (cstr 1023 t) conn)).
Proof.
  intros H W WM Hs. destruct (secure_message_spec m M v t x conn w H W WM Hs) as (ok & c & sm & Hok & Hsm & -> & _).
  eexists _, _, sm, _. split; [reflexivity|]. split; [done|]. split; [done|]. destruct ok; [left|right].
  - split; [done|]. split; [by apply Hok|]. unfold checked. rewrite <-!app_assoc, (app_assoc v).
    apply take_app_length'. pose proof (length_cstr 1023 t). pose proof (sr_service_len _ _ _ _ _ _ Hs). rewrite length_app, length_pad_to by lia. lia.
  - split; [done|]. intros Hh. by apply Hok in Hh.
Qed.

(** The path is written to without a look at the size of the payload. *)
Theorem short_path_leaves_buffer m M b :
  holds m M -> wf m -> wf_message M -> service M = DLT_SERVICE_ID_OFFLINE_LOGSTORAGE -> 4 <= zlen (m_payload M) ->
  databuffer m = Some b -> zlen b < 1028 -> dlt_daemon_create_secure_message m = None.
Proof.
  intros H W WM Hid H4 Hb Lb. destruct (secure_copy_total m M H W WM) as (sm & Es & Hs & _). unfold dlt_daemon_create_secure_message. rewrite Es, Hb. bsimp.
  destruct (h_payload _ _ H) as (b' & Hb' & Hd). apply payload_front in Hd as (c & -> & Hd). rewrite Hb in Hb'. injection Hb' as ->.
  rewrite ltb_false by lia. rewrite (holds_htyp _ _ H). bsimp. rewrite mread_Some by (rewrite ?length_app; lia). bsimp.
  change (Z.to_nat 0) with 0%nat. rewrite drop_0, take_app_le by (simpl; lia). unfold service in Hid. change (Z.to_nat 4) with 4%nat. rewrite Hid, Z.eqb_refl.
  cbn [negb]. unfold mwrite, mount_point_offset, DLT_MOUNT_PATH_MAX. rewrite (leb_true 0), (leb_false _ (zlen _)) by (cbn [length]; lia). by bsimp.
Qed.

(** ** Requests that are not removed *)

(** A round that finds [M]. *)
Lemma round_at E resync mem s pre M q : heap_ok (heap E) -> is_bytes mem -> wf (smsg s) -> wf_message M ->
  pending (srec s) mem (pre ++ encode M ++ q) -> sync_point (pre ++ encode M ++ q) resync (zlen pre) ->
  ∃ m', holds m' M ∧ wf m' ∧ ∀ handle, receive_round E handle resync mem s = ('(v, s) ← handle (with_msg s m'); Some (round_end v s)).
Proof.
  intros HM Bm W WM P Hsp. destruct (pending_split _ _ _ P) as (a & post & Em & Hb & Hl & Hs). pose proof (length_encode M) as Le.
  assert (4 <= message_len M) as H4 by (unfold message_len; lia).
  assert (zlen (pre ++ encode M ++ q) <= zlen mem) as Hpm by (rewrite Em, !length_app; lia).
  assert (is_bytes ((pre ++ encode M ++ q) ++ post)) as Bb by (rewrite Em, is_bytes_app in Bm; tauto). rewrite !is_bytes_app in Bb.
  destruct (read_complete (heap E) (smsg s) pre (q ++ post) M (zlen (pre ++ encode M ++ q)) resync W WM) as (m' & Er & W' & H');
    rewrite ?is_bytes_app, ?length_app; try tauto; try (rewrite ?length_app in Hpm; lia); [|apply HM|].
  { assert (pre ++ encode M ++ q ++ post = (pre ++ encode M ++ q) ++ post) as -> by (by rewrite <-!app_assoc).
    apply sync_point_app; rewrite ?length_app; done || lia. }
  exists m'. split_and!; [done..|]. intros handle. unfold receive_round. rewrite Hb, Hl. cbn [fmap option_fmap option_map].
  rewrite Nat2Z.id, u32_small by lia. assert (drop (length a) mem = pre ++ encode M ++ q ++ post) as ->.
  { rewrite Em, drop_app_length. by rewrite <-!app_assoc. }
  rewrite Er. by bsimp.
Qed.

(** [n] rounds that go on. *)
Fixpoint rounds (E : env) (handle : session -> option (verdict * session)) (resync : bool) (mem : bytes) (n : nat) (s : session) : option session :=
  match n with
  | O => Some s
  | S n => x ← receive_round E handle resync mem s; match x with inr s => rounds E handle resync mem n s | inl _ => None end
  end.

(** C40: A request to the log storage with a path that is not harmless stops the
    daemon: over the serial line and over the control socket, the receive loop goes
    on without removing the request, finds it again, and never ends. *)
Theorem rejected_request_never_ends E F V send resync mem s pre M q v t x conn w handle :
  heap_ok (heap E) -> is_bytes mem -> wf (smsg s) -> wf_message M -> 0 < fd (srec s) ->
  pending (srec s) mem (pre ++ encode M ++ q) -> sync_point (pre ++ encode M ++ q) resync (zlen pre) ->
  is_request M = true -> storage_request M v t x conn w -> ¬ harmless (cstr 1023 t) conn ->
  handle = handle_serial E F V send ∨ handle = handle_control E F V send ->
  ∀ n, ∃ s', rounds E handle resync mem n s = Some s' ∧ sd s' = sd s ∧ srec s' = srec s.
Proof.
  intros HM Bm W WM Hf P Hsp Hreq Hs Hbad Hh n. revert s W Hf P. induction n as [|n IH]; intros s W Hf P; [by exists s|]. cbn [rounds].
  destruct (round_at E resync mem s pre M q HM Bm W WM P Hsp) as (m' & H' & W' & ->).
  destruct (secure_message_spec m' M v t x conn w H' W' WM Hs) as (ok & c & sm & Hok & Hsm & Ec & Hdb).
  destruct ok; [by exfalso; apply Hbad, Hok|]. set (m2 := set_databuffer _ _ _) in Ec.
  assert (handle (with_msg s m') = Some (Continued, with_msg s m2)) as ->.
  { destruct Hh as [-> | ->]; unfold handle_serial, handle_control; cbn [smsg with_msg srec]; rewrite (request_flag _ _ H' WM), Hreq; bsimp;
      [|rewrite (ltb_true 0 (fd _)) by done; cbn [andb]]; by rewrite Ec. }
  bsimp. cbn [round_end]. destruct (IH (with_msg s m2)) as (s' & Hr & Hd & Hrec); [| |done|by exists s'].
  - destruct W' as [A B D]. split; [done..|]. intros d [= <-]. specialize (D _ Hdb). destruct Hs as [Hp Lv Lt _].
    cbn [smsg with_msg databuffersize set_databuffer m2]. change (checked v t conn w false) with (v ++ (t ++ [0]) ++ conn :: w). rewrite Hp in D. rewrite !length_app in *. cbn [length] in *. lia.
  - done.
Qed.

(** *** Requests that fail *)

Lemma receive_buf r mem input n r' mem' : Receiver.buffer r = true ->
  Receiver.dlt_receiver_receive r mem input = Some (n, r', mem') -> buf r' = Some 0.
Proof.
  unfold Receiver.dlt_receiver_receive. intros -> H. cbn [negb] in H. unbind H as x Ex. destruct x as [r1 mem1].
  assert (buf r1 = Some 0) as E1.
  { unfold Receiver.restore_backup in Ex. destruct (Receiver.backup_buf _); [|by injection Ex as <- _]. destruct (_ =? 0); [by injection Ex as <- _|].
    unbind Ex as a Ea. unbind Ex as b Eb. by injection Ex as <- _. }
  unbind H as y Ey. destruct y as [k mem2]. destruct (_ <=? 0); injection H as _ <- _; by rewrite <-E1.
Qed.
Lemma pending_carried r mem p : pending r mem p -> buf r = Some 0 -> zlen p <= Receiver.buffersize r -> carried r mem p.
Proof.
  intros P Hb Hf. pose proof (pending_len _ _ _ P) as Hl. destruct P as [I (b & Hb' & Hr) Hbk]. rewrite Hb in Hb'. injection Hb' as <-.
  split; [done|done|done|]. by rewrite Hbk, <-Hl.
Qed.

Section failed.
Context (E : env) (F : flags) (V : services) (send : send_fn) (nflag : bool) (fuel : nat).
Hypothesis HM : heap_ok (heap E).

(** A request that fails over the control socket: the function returns, and the
    request is where it was. *)
Lemma failed_request_stays s mem p d pre M q :
  carried (srec s) mem p -> is_bytes mem -> is_bytes p -> is_bytes d -> 0 < zlen d ->
  zlen p + zlen d <= Receiver.buffersize (srec s) < 2147483647 ->
  p ++ d = pre ++ encode M ++ q -> sync_point (p ++ d) nflag (zlen pre) -> wf (smsg s) -> wf_message M ->
  (∀ s1, fd (srec s1) = fd (srec s) -> sd s1 = sd s -> holds (smsg s1) M -> wf (smsg s1) ->
     ∃ m', handle_control E F V send s1 = Some (Failed, with_msg s1 m') ∧ wf m') ->
  ∃ s' mem', dlt_daemon_process_control_messages E F V send (S fuel) nflag (Some d) mem s = Some (-1, s', mem') ∧
    carried (srec s') mem' (p ++ d) ∧ sd s' = sd s ∧ wf (smsg s') ∧ fd (srec s') = fd (srec s).
Proof.
  intros C Bm Bp Bd Hd Hfit Ep Hsp W WM Hfail. unfold dlt_daemon_process_control_messages, receive_messages. cbn [receive_loop].
  destruct Hfit as [Hfit Hmax]. destruct (ReceiverSpec.receive_pending (srec s) mem p d C Hd Hfit) as (r & mem1 & Er & P & Hbs). rewrite Er. bsimp.
  rewrite leb_false by lia. pose proof (receive_buf _ _ _ _ _ _ (ReceiverSpec.i_buffer _ _ (ReceiverSpec.c_inv _ _ _ C)) Er) as Hb.
  pose proof (receive_fd _ _ _ _ _ _ Er) as Hf. pose proof (DaemonUserSpec.receive_is_bytes _ _ _ _ _ _ _ C Bp Bm Bd Er) as B1.
  assert (carried r mem1 (p ++ d)) as C1 by (apply pending_carried; [done|done|rewrite length_app; lia]).
  destruct (round_at E nflag mem1 (with_rec s r) pre M q HM B1 W WM) as (m' & H' & W' & ->); [cbn [srec with_rec]; by rewrite <-Ep|by rewrite <-Ep|].
  destruct (Hfail (with_msg (with_rec s r) m')) as (m2 & -> & W2); try done. bsimp. cbn [round_end]. bsimp. cbn [negb].
  by eexists _, mem1.
Qed.
End failed.

(** Other requests are not checked. *)
Lemma secure_message_other m M : holds m M -> wf m -> wf_message M ->
  zlen (m_payload M) < 4 ∨ service M <> DLT_SERVICE_ID_OFFLINE_LOGSTORAGE ->
  ∃ sm, dlt_daemon_create_secure_message m = Some (0, m, sm) ∧ datasize sm = zlen (m_payload M) ∧ ecu (headerextra sm) = [0; 0; 0; 0].
Proof.
  intros H W WM Hs. destruct (secure_copy_total m M H W WM) as (sm & Es & _ & Hds & He). unfold dlt_daemon_create_secure_message. rewrite Es. bsimp.
  destruct (h_payload _ _ H) as (b & Hb & Hd). apply payload_front in Hd as (c & -> & Hd). rewrite Hb. exists sm. rewrite <-Hd.
  split; [|done]. destruct (Z.ltb_spec (datasize m) 4); [done|]. destruct Hs as [|Hs]; [lia|]. rewrite (holds_htyp _ _ H). bsimp.
  rewrite mread_Some by (rewrite ?length_app; lia). bsimp. change (Z.to_nat 0) with 0%nat. rewrite drop_0, take_app_le by (simpl; lia).
  unfold service in Hs. change (Z.to_nat 4) with 4%nat. by rewrite eqb_false.
Qed.

(** A control request without a service makes the control socket deaf: it is
    refused and stays at the front of the receiver, so that whatever is sent
    afterwards, every call of the receive function fails with it and serves nothing. *)
Theorem short_request_blocks E F V send fuel nflag s mem p d pre M q :
  heap_ok (heap E) -> 0 < fd (srec s) ->
  carried (srec s) mem p -> is_bytes mem -> is_bytes p -> is_bytes d -> 0 < zlen d ->
  zlen p + zlen d <= Receiver.buffersize (srec s) < 2147483647 ->
  p ++ d = pre ++ encode M ++ q -> sync_point (p ++ d) nflag (zlen pre) -> wf (smsg s) -> wf_message M ->
  is_request M = true -> zlen (m_payload M) < 4 ->
  ∃ s' mem', dlt_daemon_process_control_messages E F V send (S fuel) nflag (Some d) mem s = Some (-1, s', mem') ∧
    carried (srec s') mem' (p ++ d) ∧ sd s' = sd s ∧ wf (smsg s') ∧ fd (srec s') = fd (srec s).
Proof.
  intros HM Hf C Bm Bp Bd Hd Hfit Ep Hsp W WM Hreq Hpl. apply (failed_request_stays E F V send nflag fuel HM s mem p d pre M q); try done.
  intros s1 Hf1 Hd1 H1 W1. exists (smsg s1). split; [|done]. unfold handle_control. rewrite (request_flag _ _ H1 WM), Hreq, Hf1, (ltb_true 0) by done. bsimp.
  cbn [andb]. destruct (secure_message_other (smsg s1) M H1 W1 WM) as (sm & -> & Hds & _); [by left|]. bsimp. cbn [Z.ltb Z.compare].
  unfold dlt_daemon_client_process_control. rewrite ltb_true by lia. bsimp. by destruct s1.
Qed.

(** With the gateway, no request over the control socket is served: the message
    that is made for the handlers has no ECU identifier, so it is taken for one to
    another ECU, which the gateway does not know.  It also stays in the receiver. *)
Theorem gateway_blocks_control_socket E F V send fuel nflag s mem p d pre M q :
  heap_ok (heap E) -> 0 < fd (srec s) ->
  carried (srec s) mem p -> is_bytes mem -> is_bytes p -> is_bytes d -> 0 < zlen d ->
  zlen p + zlen d <= Receiver.buffersize (srec s) < 2147483647 ->
  p ++ d = pre ++ encode M ++ q -> sync_point (p ++ d) nflag (zlen pre) -> wf (smsg s) -> wf_message M ->
  is_request M = true -> service M <> DLT_SERVICE_ID_OFFLINE_LOGSTORAGE ->
  gatewayMode F = 1 -> cstr 4 (evalue F) <> [] ->
  (∀ m d, dlt_gateway_forward_control_message V m [0; 0; 0; 0] d = Some (DLT_RETURN_ERROR, d)) ->
  ∃ s' mem', dlt_daemon_process_control_messages E F V send (S fuel) nflag (Some d) mem s = Some (-1, s', mem') ∧
    carried (srec s') mem' (p ++ d) ∧ sd s' = sd s ∧ wf (smsg s') ∧ fd (srec s') = fd (srec s).
Proof.
  intros HM Hf C Bm Bp Bd Hd Hfit Ep Hsp W WM Hreq Hs Hg Hv HV. apply (failed_request_stays E F V send nflag fuel HM s mem p d pre M q); try done.
  intros s1 Hf1 Hd1 H1 W1. exists (smsg s1). split; [|done]. unfold handle_control. rewrite (request_flag _ _ H1 WM), Hreq, Hf1, (ltb_true 0) by done. bsimp.
  cbn [andb]. destruct (secure_message_other (smsg s1) M H1 W1 WM) as (sm & -> & Hds & He); [by right|]. bsimp. cbn [Z.ltb Z.compare].
  unfold dlt_daemon_client_process_control. destruct (_ <? 4); [bsimp; by destruct s1|]. rewrite Hg, He. cbn [Z.eqb andb].
  assert (strncmp_eq DLT_ID_SIZE (evalue F) [0; 0; 0; 0] = false) as ->.
  { unfold strncmp_eq. by apply bool_decide_false. }
  cbn [negb andb Pos.eqb]. rewrite HV. bsimp. by destruct s1.
Qed.

(** ** Examples *)

(** A request to the log storage for the path [t]. *)
Definition storage_payload (t : bytes) : bytes := le_bytes 4 DLT_SERVICE_ID_OFFLINE_LOGSTORAGE ++ pad_to 1023 0 t ++ [0] ++ 1 :: no_id.
(** "/mnt" and "/a/../b". *)
Definition path_mnt : bytes := [47; 109; 110; 116].
Definition path_up : bytes := [47; 97; 47; 46; 46; 47; 98].

Lemma client_request_wf (p : bytes) : forallb (λ b, (0 <=? b) && (b <? 256)) (encode (client_request p)) = true -> zlen p < 65000 ->
  wf_message (client_request p).
Proof. intros Hp Hl. split; try done; [by apply is_bytes_forallb|]. change (4 + 0 + 10 + zlen p < 65536). lia. Qed.
Lemma storage_request_ok t : zlen t <= 1023 -> forallb (λ b, (0 <=? b) && (b <? 256)) t = true ->
  storage_request (client_request (storage_payload t)) (le_bytes 4 DLT_SERVICE_ID_OFFLINE_LOGSTORAGE) (pad_to 1023 0 t) 0 1 no_id.
Proof. intros Hl Ht. split; [done|done|rewrite length_pad_to; lia|by vm_compute]. Qed.
(** The message object of the daemon after it has read a message. *)
Lemma loaded M : wf_message M -> m_htyp M <> 68 -> ∃ m, holds m M ∧ wf m.
Proof.
  intros W H. destruct (read_complete (heap env0) fresh [] [] M (message_len M) false wf_fresh W) as (m & _ & W' & Hm); try (by constructor); try done.
  - constructor. unfold serial_at. rewrite app_nil_r. cbn [app].
    assert (mread (encode M) 0 4 = Some (std M)) as -> by (unfold encode; apply (mread_mid [] (std M)); [done|by rewrite length_std]). by intros [= ?].
  - pose proof (length_encode M). cbn [app length]. rewrite app_nil_r. lia.
  - pose proof (wm_len _ W). lia.
  - by exists m.
Qed.

Lemma path_check_exact_witness :
  ∃ m, holds m (client_request (storage_payload path_mnt)) ∧
  ∃ rc m' sm b, dlt_daemon_create_secure_message m = Some (rc, m', sm) ∧ databuffer sm = Some b ∧ databuffer m' = Some b ∧
    ((rc = 0 ∧ harmless (cstr 1023 (pad_to 1023 0 path_mnt)) 1 ∧
      take 1028 b = le_bytes 4 DLT_SERVICE_ID_OFFLINE_LOGSTORAGE ++ pad_to 1024 0 (cstr 1023 (pad_to 1023 0 path_mnt))) ∨
     (rc = -1 ∧ ¬ harmless (cstr 1023 (pad_to 1023 0 path_mnt)) 1)).
Proof.
  destruct (loaded (client_request (storage_payload path_mnt))) as (m & H & W); [by apply client_request_wf|done|]. exists m. split; [exact H|].
  apply (path_check_exact m (client_request (storage_payload path_mnt)) (le_bytes 4 DLT_SERVICE_ID_OFFLINE_LOGSTORAGE) (pad_to 1023 0 path_mnt) 0 1 no_id H W).
  - by apply client_request_wf.
  - by apply storage_request_ok.
Defined.

Lemma short_path_leaves_buffer_witness :
  ∃ m, holds m (client_request (le_bytes 4 DLT_SERVICE_ID_OFFLINE_LOGSTORAGE ++ path_mnt)) ∧ dlt_daemon_create_secure_message m = None.
Proof.
  set (M := client_request _). assert (wf_message M) as WM by (by apply client_request_wf).
  destruct (loaded M WM) as (m & H & W); [done|]. destruct (h_payload _ _ H) as (b & Hb & Hp).
  set (m1 := set_databuffer m (Some (m_payload M)) 8).
  assert (holds m1 M) as H1.
  { destruct H as [[] _]. split; [by split|]. exists (m_payload M). split; [done|]. cbn [datasize m1 set_databuffer]. rewrite hh_ds0. by vm_compute. }
  exists m1. split; [exact H1|]. apply (short_path_leaves_buffer m1 M (m_payload M) H1); try done.
  destruct W as [A B C]. split; [done..|]. intros d [= <-]. done.
Defined.

Definition waiting (p : bytes) : DltReceiver :=
  Receiver.set_counts (DaemonUserSpec.fifo_receiver 2000) 0 (zlen p) (zlen p).
Definition waiting_memory (p : bytes) : bytes := p ++ replicate (2000 - length p) 0.
Lemma waiting_pending p : zlen p <= 2000 -> pending (waiting p) (waiting_memory p) p.
Proof.
  intros Hl. unfold waiting_memory. apply (pending_at _ _ [] p (replicate (2000 - length p) 0) 0); try done.
  split; cbn; [done|rewrite length_app, length_replicate; lia|done].
Qed.

Lemma rejected_request_never_ends_witness :
  let M := client_request (storage_payload path_up) in
  let s := {| sd := control_daemon (os0 (λ _, WriteAll)); smsg := fresh; srec := waiting (encode M) |} in
  ∃ s', rounds env0 (handle_control env0 flags0 no_services (dlt_daemon_client_send 1 env0)) false (waiting_memory (encode M)) 1000 s = Some s' ∧
    sd s' = sd s ∧ srec s' = srec s.
Proof.
  intros M s. assert (wf_message M) as WM by (by apply client_request_wf).
  apply (rejected_request_never_ends env0 flags0 no_services (dlt_daemon_client_send 1 env0) false (waiting_memory (encode M)) s [] M []
    (le_bytes 4 DLT_SERVICE_ID_OFFLINE_LOGSTORAGE) (pad_to 1023 0 path_up) 0 1 no_id (handle_control env0 flags0 no_services (dlt_daemon_client_send 1 env0))).
  - done.
  - by apply is_bytes_forallb.
  - exact wf_fresh.
  - exact WM.
  - done.
  - rewrite app_nil_r. cbn [app]. apply waiting_pending. by vm_compute.
  - rewrite app_nil_r. constructor. by vm_compute.
  - by vm_compute.
  - by apply storage_request_ok.
  - intros [_ _ _ Hd _]. apply Hd, has_pair_spec. by vm_compute.
  - by right.
Defined.

Definition listening : session := {| sd := control_daemon (os0 (λ _, WriteAll)); smsg := fresh; srec := DaemonUserSpec.fifo_receiver 200 |}.
Lemma short_request_blocks_witness :
  let M := client_request [1; 0] in
  ∃ s' mem', dlt_daemon_process_control_messages env0 flags0 no_services (dlt_daemon_client_send 1 env0) 1 false (Some (encode M))
      (DaemonUserSpec.fifo_memory 200) listening = Some (-1, s', mem') ∧
    carried (srec s') mem' (encode M) ∧ sd s' = sd listening ∧ wf (smsg s') ∧ fd (srec s') = 3.
Proof.
  intros M. assert (wf_message M) as WM by (by apply client_request_wf).
  apply (short_request_blocks env0 flags0 no_services (dlt_daemon_client_send 1 env0) 0 false listening (DaemonUserSpec.fifo_memory 200) [] (encode M) [] M []).
  - done.
  - done.
  - apply DaemonUserSpec.fifo_carried. lia.
  - apply DaemonUserSpec.fifo_bytes.
  - constructor.
  - by apply is_bytes_forallb.
  - by vm_compute.
  - by vm_compute.
  - by rewrite app_nil_r.
  - constructor. by vm_compute.
  - exact wf_fresh.
  - exact WM.
  - by vm_compute.
  - done.
Defined.

Definition gateway_flags : flags :=
  {| enforceContextLLAndTS := false; contextLogLevel := 4; contextTraceStatus := 0; injectionMode := 1; gatewayMode := 1;
     evalue := id_ECU1; maintain_logstorage_loglevel := 1; runtime_application_cfg := [97]; runtime_context_cfg := [99] |}.
Definition no_passive_node : services :=
  {| dlt_gateway_forward_control_message := λ _ _ d, Some (DLT_RETURN_ERROR, d);
     dlt_daemon_control_service_logstorage := λ _ _ d, Some d;
     dlt_daemon_control_passive_node_connect := λ _ _ d, Some d;
     dlt_daemon_control_passive_node_connect_status := λ _ d, Some d;
     dlt_daemon_applications_save := λ _, 0; dlt_daemon_contexts_save := λ _, 0 |}.
Lemma gateway_blocks_control_socket_witness :
  let M := client_request level_request in
  ∃ s' mem', dlt_daemon_process_control_messages env0 gateway_flags no_passive_node (dlt_daemon_client_send 1 env0) 1 false (Some (encode M))
      (DaemonUserSpec.fifo_memory 200) listening = Some (-1, s', mem') ∧
    carried (srec s') mem' (encode M) ∧ sd s' = sd listening ∧ wf (smsg s') ∧ fd (srec s') = 3.
Proof.
  intros M. assert (wf_message M) as WM by (by apply client_request_wf).
  apply (gateway_blocks_control_socket env0 gateway_flags no_passive_node (dlt_daemon_client_send 1 env0) 0 false listening
    (DaemonUserSpec.fifo_memory 200) [] (encode M) [] M []).
  - done.
  - done.
  - apply DaemonUserSpec.fifo_carried. lia.
  - apply DaemonUserSpec.fifo_bytes.
  - constructor.
  - by apply is_bytes_forallb.
  - by vm_compute.
  - by vm_compute.
  - by rewrite app_nil_r.
  - constructor. by vm_compute.
  - exact wf_fresh.
  - exact WM.
  - by vm_compute.
  - by vm_compute.
  - done.
  - done.
  - done.
Defined.

End DaemonChecksSpec.
