(* ===== verification/LogInfoText.v ===== *)
(** * Control messages as text, and the list of applications read from it
      ([src/shared/dlt_common.c], [src/lib/dlt_client.c])

    [dlt_message_payload] prints a control message as the name of its service,
    the name or number of its status and its data in hexadecimal.  The client
    library reads the answer to "get log info" from this text and not from the
    bytes ([dlt_client_parse_get_log_info_resp_text]).

    The text is a memory of [DLT_RECEIVE_BUFSIZE] bytes; a read outside of it is
    undefined ([None]).  Memory that is allocated is cleared ([calloc]). *)

From stdpp Require Import base list numbers option.
From Stdlib Require Import ZArith Lia Bool.
From S2P Require Import Prelude Protocol Ids UserLog Message Payload.
Import Protocol Ids Printf.

Local Open Scope Z_scope.

Module LogInfoText.

Definition DLT_SERVICE_ID_LAST_ENTRY : Z := 21.
Definition DLT_SERVICE_RESPONSE_LAST : Z := 5.
Definition DLT_COMMON_ASCII_LIMIT_MAX_CHARS : Z := 20.
Definition DLT_RECEIVE_BUFSIZE : Z := 65535.
Definition DLT_GET_LOG_INFO_HEADER : Z := 18.
Definition GET_LOG_INFO_LENGTH : Z := 13.
Definition GET_LOG_INFO_STATUS_MIN : Z := 3.
Definition GET_LOG_INFO_STATUS_MAX : Z := 7.
Definition DLT_SERVICE_ID_GET_LOG_INFO : Z := 3.

(** ** Strings of the tables *)

Definition get_log_info_tag : bytes := [103; 101; 116; 95; 108; 111; 103; 95; 105; 110; 102; 111].

(** [service_id_name] from 1 on: "set_log_level", "set_trace_status", "get_log_info",
    "get_default_log_level", "store_config", "reset_to_factory_default",
    "set_com_interface_status", "set_com_interface_max_bandwidth", "set_verbose_mode",
    "set_message_filtering", "set_timing_packets", "get_local_time", "use_ecu_id",
    "use_session_id", "use_timestamp", "use_extended_header", "set_default_log_level",
    "set_default_trace_status", "get_software_version" and "message_buffer_overflow". *)
Definition service_id_name : list bytes :=
  [[];
   [115; 101; 116; 95; 108; 111; 103; 95; 108; 101; 118; 101; 108];
   [115; 101; 116; 95; 116; 114; 97; 99; 101; 95; 115; 116; 97; 116; 117; 115];
   get_log_info_tag;
   [103; 101; 116; 95; 100; 101; 102; 97; 117; 108; 116; 95; 108; 111; 103; 95; 108; 101; 118; 101; 108];
   [115; 116; 111; 114; 101; 95; 99; 111; 110; 102; 105; 103];
   [114; 101; 115; 101; 116; 95; 116; 111; 95; 102; 97; 99; 116; 111; 114; 121; 95; 100; 101; 102; 97; 117; 108; 116];
   [115; 101; 116; 95; 99; 111; 109; 95; 105; 110; 116; 101; 114; 102; 97; 99; 101; 95; 115; 116; 97; 116; 117; 115];
   [115; 101; 116; 95; 99; 111; 109; 95; 105; 110; 116; 101; 114; 102; 97; 99; 101; 95; 109; 97; 120; 95; 98; 97; 110; 100; 119; 105; 100; 116; 104];
   [115; 101; 116; 95; 118; 101; 114; 98; 111; 115; 101; 95; 109; 111; 100; 101];
   [115; 101; 116; 95; 109; 101; 115; 115; 97; 103; 101; 95; 102; 105; 108; 116; 101; 114; 105; 110; 103];
   [115; 101; 116; 95; 116; 105; 109; 105; 110; 103; 95; 112; 97; 99; 107; 101; 116; 115];
   [103; 101; 116; 95; 108; 111; 99; 97; 108; 95; 116; 105; 109; 101];
   [117; 115; 101; 95; 101; 99; 117; 95; 105; 100];
   [117; 115; 101; 95; 115; 101; 115; 115; 105; 111; 110; 95; 105; 100];
   [117; 115; 101; 95; 116; 105; 109; 101; 115; 116; 97; 109; 112];
   [117; 115; 101; 95; 101; 120; 116; 101; 110; 100; 101; 100; 95; 104; 101; 97; 100; 101; 114];
   [115; 101; 116; 95; 100; 101; 102; 97; 117; 108; 116; 95; 108; 111; 103; 95; 108; 101; 118; 101; 108];
   [115; 101; 116; 95; 100; 101; 102; 97; 117; 108; 116; 95; 116; 114; 97; 99; 101; 95; 115; 116; 97; 116; 117; 115];
   [103; 101; 116; 95; 115; 111; 102; 116; 119; 97; 114; 101; 95; 118; 101; 114; 115; 105; 111; 110];
   [109; 101; 115; 115; 97; 103; 101; 95; 98; 117; 102; 102; 101; 114; 95; 111; 118; 101; 114; 102; 108; 111; 119]].

(** "ok", "not_supported", "error", "perm_denied", "warning" and "no_matching_context_id". *)
Definition return_type : list bytes :=
  [[111; 107]; [110; 111; 116; 95; 115; 117; 112; 112; 111; 114; 116; 101; 100]; [101; 114; 114; 111; 114];
   [112; 101; 114; 109; 95; 100; 101; 110; 105; 101; 100]; [119; 97; 114; 110; 105; 110; 103]; []; []; [];
   [110; 111; 95; 109; 97; 116; 99; 104; 105; 110; 103; 95; 99; 111; 110; 116; 101; 120; 116; 95; 105; 100]].

Definition comma : bytes := [44; 32].

(** ** The text of a message that is not verbose *)

(** The extended header is read only when there is one. *)
Definition msin_test (P : Z -> bool) (m : Message.DltMessage) : option bool :=
  htyp ← Message.std_htyp m;
  if negb (DLT_IS_HTYP_UEH htyp) then Some false else msin ← Message.ext_msin m; Some (P msin).
Definition is_control (msin : Z) : bool := DLT_GET_MSIN_MSTP msin =? DLT_TYPE_CONTROL.
Definition DLT_MSG_IS_CONTROL := msin_test is_control.
Definition DLT_MSG_IS_CONTROL_RESPONSE := msin_test (λ x, is_control x && (DLT_GET_MSIN_MTIN x =? DLT_CONTROL_RESPONSE)).
Definition DLT_MSG_IS_CONTROL_TIME := msin_test (λ x, is_control x && (DLT_GET_MSIN_MTIN x =? DLT_CONTROL_TIME)).
Definition DLT_MSG_IS_VERBOSE := msin_test DLT_IS_MSIN_VERB.

(** [snprintf(text + strlen(text), textlength - strlen(text), ...)]. *)
Definition append (t : bytes) (textlength : Z) (s : bytes) : option bytes :=
  o ← cstring_at t 0; snprintf t (zlen o) (u64 (textlength - zlen o)) s.

Definition print_service (m : Message.DltMessage) (id datalength : Z) (t : bytes) (textlength : Z) : option bytes :=
  ctrl ← DLT_MSG_IS_CONTROL m;
  if (ctrl : bool) then
    t ← (if (0 <? id) && (id <? DLT_SERVICE_ID_LAST_ENTRY) then n ← service_id_name !! Z.to_nat id; append t textlength n
         else time ← DLT_MSG_IS_CONTROL_TIME m;
              if (time : bool) then Some t else append t textlength ([115; 101; 114; 118; 105; 99; 101; 40] ++ dec id ++ [41]));
    if 0 <? datalength then append t textlength comma else Some t
  else append t textlength (dec id ++ comma).

(** The text, the position in the payload and the length that is left. *)
Definition print_status (m : Message.DltMessage) (db : bytes) (datalength : Z) (t : bytes) (textlength : Z) : option (bytes * Z * Z) :=
  resp ← DLT_MSG_IS_CONTROL_RESPONSE m;
  if resp && (0 <? datalength) then
    retval ← db !! 4%nat;
    t ← (if (retval <? DLT_SERVICE_RESPONSE_LAST) || (retval =? 8) then n ← return_type !! Z.to_nat retval; append t textlength n
         else append t textlength (hex 2 retval));
    t ← (if 1 <=? datalength - 1 then append t textlength comma else Some t);
    Some (t, 5, datalength - 1)
  else Some (t, 4, datalength).

(** [limited]: the output type is ASCII_LIMITED. *)
Definition payload_nonverbose (m : Message.DltMessage) (db : bytes) (limited : bool) (t : bytes) (textlength : Z) : option (Z * bytes) :=
  htyp ← Message.std_htyp m;
  if Message.datasize m <? 4 then Some (DLT_RETURN_ERROR, t) else
  v ← mread db 0 4;
  let id := DLT_ENDIAN_GET_32 htyp (le_Z v) in
  let datalength := Message.datasize m - 4 in
  if textlength <? datalength * 3 + 20 then Some (DLT_RETURN_ERROR, t) else
  t ← print_service m id datalength t textlength;
  '(t, ptr, datalength) ← print_status m db datalength t textlength;
  o ← cstring_at t 0;
  let print t n := Payload.dlt_print_hex_string t (zlen o) (i32 (textlength - zlen o)) db ptr n in
  if limited then
    '(rc, t) ← print t (if DLT_COMMON_ASCII_LIMIT_MAX_CHARS <? datalength then DLT_COMMON_ASCII_LIMIT_MAX_CHARS else datalength);
    o ← cstring_at t 0;
    t ← (if (DLT_COMMON_ASCII_LIMIT_MAX_CHARS <? datalength) && (4 <? u64 (textlength - zlen o))
         then append t textlength [32; 46; 46; 46] else Some t);
    Some (rc, t)
  else print t datalength.

(** [dlt_message_payload] for the output types ASCII and ASCII_LIMITED. *)
Definition message_payload_ascii (show_g : bool -> Z -> bytes) (attrs limited : bool) (m : Message.DltMessage) (t : bytes) (textlength : Z)
  : option (Z * bytes) :=
  match Message.databuffer m with
  | None => Some (DLT_RETURN_WRONG_PARAMETER, t)
  | Some db =>
      if textlength <=? 0 then Some (DLT_RETURN_WRONG_PARAMETER, t) else
      verb ← DLT_MSG_IS_VERBOSE m;
      if (verb : bool) then
        htyp ← Message.std_htyp m;
        o ← Message.extendedheader m;
        noar ← Message.headerbuffer m !! Z.to_nat (o + 1);
        Payload.payload_arguments show_g attrs db (Message.datasize m) htyp noar t textlength
      else
        t ← mwrite t 0 [0];
        payload_nonverbose m db limited t textlength
  end.

(** ** Numbers in hexadecimal *)

Definition is_space (c : Z) : bool := ((9 <=? c) && (c <=? 13)) || (c =? 32).
Fixpoint skip_space (s : bytes) : bytes :=
  match s with c :: s' => if is_space c then skip_space s' else s | [] => [] end.
Definition hex_digit (c : Z) : option Z :=
  if (48 <=? c) && (c <=? 57) then Some (c - 48)
  else if (97 <=? c) && (c <=? 102) then Some (c - 87)
  else if (65 <=? c) && (c <=? 70) then Some (c - 55) else None.
Fixpoint hex_number (acc : Z) (s : bytes) : Z :=
  match s with
  | c :: s => match hex_digit c with Some d => hex_number (acc * 16 + d) s | None => acc end
  | [] => acc
  end.
(** The prefix "0x" counts when a digit follows it. *)
Definition skip_prefix (s : bytes) : bytes :=
  match s with
  | z :: x :: d :: r => if (z =? 48) && ((x =? 120) || (x =? 88)) then (if hex_digit d is Some _ then d :: r else s) else s
  | _ => s
  end.
(** [strtol(s, &endptr, 16)] of a string that is too short to overflow. *)
Definition strtol16 (s : bytes) : Z :=
  match skip_space s with
  | c :: r => if c =? 45 then - hex_number 0 (skip_prefix r)
              else if c =? 43 then hex_number 0 (skip_prefix r) else hex_number 0 (skip_prefix (c :: r))
  | [] => 0
  end.

(** [atoi] of two characters. *)
Definition dec_digit (c : Z) : option Z := if (48 <=? c) && (c <=? 57) then Some (c - 48) else None.
Fixpoint dec_number (acc : Z) (s : bytes) : Z :=
  match s with
  | c :: s => match dec_digit c with Some d => dec_number (acc * 10 + d) s | None => acc end
  | [] => acc
  end.
Definition atoi (s : bytes) : Z :=
  match skip_space s with
  | c :: r => if c =? 45 then - dec_number 0 r else if c =? 43 then dec_number 0 r else dec_number 0 (c :: r)
  | [] => 0
  end.

(** ** Reading the text

    [t] is the text from [rp] on, [n] the value of [rp_count]. *)

Definition char (t : bytes) (i : Z) : option Z := if i <? 0 then None else t !! Z.to_nat i.

Definition dlt_set_loginfo_parse_service_id (t : bytes) (service_id service_opt : Z) : option (Z * Z * Z) :=
  tag ← mread t 0 12;
  if bool_decide (tag = get_log_info_tag) then
    a ← char t (GET_LOG_INFO_LENGTH + 1);
    b ← char t (GET_LOG_INFO_LENGTH + 2);
    Some (0, DLT_SERVICE_ID_GET_LOG_INFO, u8 (atoi (cstr 2 [a; b])))
  else Some (-1, service_id, service_opt).

Definition dlt_getloginfo_conv_ascii_to_uint16_t (t : bytes) (n : Z) : option (Z * Z) :=
  a ← char t (n + 3); b ← char t (n + 4); c ← char t n; d ← char t (n + 1);
  Some (u16 (strtol16 (cstr 4 [a; b; c; d])), n + 6).
Definition dlt_getloginfo_conv_ascii_to_int16_t (t : bytes) (n : Z) : option (Z * Z) :=
  a ← char t n; b ← char t (n + 1);
  Some (i8 (strtol16 (cstr 2 [a; b])), n + 3).
Fixpoint dlt_getloginfo_conv_ascii_to_id (t : bytes) (n : Z) (len : nat) : option (bytes * Z) :=
  match len with
  | O => Some ([], n)
  | S len =>
      a ← char t n; b ← char t (n + 1);
      '(wp, n) ← dlt_getloginfo_conv_ascii_to_id t (n + 3) len;
      Some (u8 (strtol16 (cstr 2 [a; b])) :: wp, n)
  end.
(** With the terminator. *)
Definition dlt_getloginfo_conv_ascii_to_string (t : bytes) (n len : Z) : option (bytes * Z) :=
  '(wp, n) ← dlt_getloginfo_conv_ascii_to_id t n (Z.to_nat len); Some (wp ++ [0], n).

(** ** The list *)

Record ContextIDsInfoType := {
  context_id : bytes;
  log_level : Z;
  trace_status : Z;
  len_context_description : Z;
  context_description : option bytes
}.
Record AppIDsType := {
  app_id : bytes;
  count_context_ids : Z;
  context_id_info : list ContextIDsInfoType;
  len_app_description : Z;
  app_description : option bytes
}.
Record DltServiceGetLogInfoResponse := {
  service_id : Z;
  status : Z;
  count_app_ids : Z;
  app_ids : option (list AppIDsType)
}.
Definition sizeof_ContextIDsInfoType : Z := 32.
Definition sizeof_AppIDsType : Z := 40.

(** Results: [None]: undefined; [Some None]: an allocation failed. *)
Definition desc_when (A : allocator) (b : bool) (t : bytes) (n : Z) : option (option (Z * option bytes * Z)) :=
  if b then
    '(len, n) ← dlt_getloginfo_conv_ascii_to_uint16_t t n;
    match malloc A (len + 1) with
    | None => Some None
    | Some _ => '(d, n) ← dlt_getloginfo_conv_ascii_to_string t n len; Some (Some (len, Some d, n))
    end
  else Some (Some (0, None, n)).
Definition num_when (b : bool) (t : bytes) (n : Z) : option (Z * Z) :=
  if b then dlt_getloginfo_conv_ascii_to_int16_t t n else Some (0, n).

Definition status_level (s : Z) : bool := (s =? 4) || (s =? 6) || (s =? 7).
Definition status_trace (s : Z) : bool := (s =? 5) || (s =? 6) || (s =? 7).

Fixpoint parse_contexts (A : allocator) (st : Z) (t : bytes) (n : Z) (count : nat) : option (option (list ContextIDsInfoType * Z)) :=
  match count with
  | O => Some (Some ([], n))
  | S count =>
      '(id, n) ← dlt_getloginfo_conv_ascii_to_id t n 4;
      '(level, n) ← num_when (status_level st) t n;
      '(trace, n) ← num_when (status_trace st) t n;
      r ← desc_when A (st =? 7) t n;
      match r with
      | None => Some None
      | Some (len, d, n) =>
          r ← parse_contexts A st t n count;
          match r with
          | None => Some None
          | Some (l, n) =>
              Some (Some ({| context_id := id; log_level := level; trace_status := trace; len_context_description := len; context_description := d |} :: l, n))
          end
      end
  end.
Fixpoint parse_apps (A : allocator) (st : Z) (t : bytes) (n : Z) (count : nat) : option (option (list AppIDsType * Z)) :=
  match count with
  | O => Some (Some ([], n))
  | S count =>
      '(id, n) ← dlt_getloginfo_conv_ascii_to_id t n 4;
      '(num, n) ← dlt_getloginfo_conv_ascii_to_uint16_t t n;
      match malloc A (num * sizeof_ContextIDsInfoType) with
      | None => Some None
      | Some _ =>
          r ← parse_contexts A st t n (Z.to_nat num);
          match r with
          | None => Some None
          | Some (ctxs, n) =>
              r ← desc_when A (st =? 7) t n;
              match r with
              | None => Some None
              | Some (len, d, n) =>
                  r ← parse_apps A st t n count;
                  match r with
                  | None => Some None
                  | Some (l, n) =>
                      Some (Some ({| app_id := id; count_context_ids := num; context_id_info := ctxs; len_app_description := len; app_description := d |} :: l, n))
                  end
              end
          end
      end
  end.

Definition dlt_client_parse_get_log_info_resp_text (A : allocator) (resp : DltServiceGetLogInfoResponse) (resp_text : bytes)
  : option (Z * DltServiceGetLogInfoResponse) :=
  let rp := drop (Z.to_nat DLT_GET_LOG_INFO_HEADER) resp_text in
  let with_apps n l := {| service_id := service_id resp; status := status resp; count_app_ids := n; app_ids := l |} in
  if (status resp <? GET_LOG_INFO_STATUS_MIN) || (GET_LOG_INFO_STATUS_MAX <? status resp) then Some (DLT_RETURN_ERROR, resp) else
  '(count, n) ← dlt_getloginfo_conv_ascii_to_uint16_t rp 0;
  match malloc A (count * sizeof_AppIDsType) with
  | None => Some (DLT_RETURN_ERROR, with_apps 0 None)
  | Some _ =>
      r ← parse_apps A (status resp) rp n (Z.to_nat count);
      match r with
      | None => Some (DLT_RETURN_ERROR, with_apps 0 None)
      | Some (l, _) => Some (DLT_RETURN_OK, with_apps count (Some l))
      end
  end.

End LogInfoText.
