(* ===== verification/LogInfoTextSpec.v ===== *)
(** * The list of applications arrives at a client

    The daemon answers "get log info" with the contents of its tables; the client
    library prints the answer as text and reads the list from the text.  It finds
    the applications, contexts, levels and descriptions that the daemon wrote. *)

From stdpp Require Import base list list_numbers numbers option.
From Stdlib Require Import ZArith Lia Bool.
From S2P Require Import Prelude Protocol Ids UserLog Message MessageSpec Payload PayloadSpec LogInfoText.
From S2P Require Import SortedTable DaemonTables DaemonTablesSpec DaemonContextsSpec DaemonSend DaemonMessagesSpec DaemonSendSpec DaemonControl DaemonControlSpec DaemonLogInfoSpec DaemonClientSpec DaemonChecksSpec.
Import Protocol Ids Printf PayloadSpec.
Import MessageSpec DaemonTables DaemonContextsSpec DaemonSend DaemonSendSpec DaemonControl DaemonControlSpec DaemonLogInfoSpec.
Import LogInfoText.

Local Open Scope Z_scope.

Module LogInfoTextSpec.

(** ** Digits *)

Lemma hex_digit_digit d : 0 <= d < 16 -> hex_digit (digit d) = Some d ∧ is_space (digit d) = false ∧ digit d <> 45 ∧ digit d <> 43 ∧ digit d <> 0 ∧ digit d <> 120 ∧ digit d <> 88.
Proof.
  intros H. unfold hex_digit, digit, is_space. destruct (Z.ltb_spec d 10).
  - rewrite (leb_true 48), (leb_true _ 57) by lia. cbn [andb]. split_and!; try lia. f_equal. lia.
  - rewrite (leb_true 48), (leb_false _ 57), (leb_true 97), (leb_true _ 102) by lia. cbn [andb]. split_and!; try lia. f_equal. lia.
Qed.

Definition digits_ok (ds : list Z) : Prop := Forall (λ d, 0 <= d < 16) ds.
Ltac digits := unfold digits_ok; rewrite ?list.Forall_cons, ?list.Forall_nil; tauto.
Lemma hex_number_digits ds acc : digits_ok ds -> hex_number acc (digit <$> ds) = foldl (λ a d, a * 16 + d) acc ds.
Proof.
  intros H. revert acc. induction H as [|d ds Hd H IH]; intros acc; [done|]. rewrite fmap_cons. cbn [hex_number foldl].
  rewrite (proj1 (hex_digit_digit d Hd)). apply IH.
Qed.
Lemma skip_prefix_digits ds : digits_ok ds -> skip_prefix (digit <$> ds) = digit <$> ds.
Proof.
  intros H. destruct ds as [|a [|b [|c ds]]]; [done..|]. rewrite !fmap_cons. cbn [skip_prefix].
  inversion H as [|? ? _ H']; subst. inversion H' as [|? ? Hb _]; subst. destruct (hex_digit_digit b Hb) as (_ & _ & _ & _ & _ & H1 & H2).
  rewrite (eqb_false (digit b) 120), (eqb_false (digit b) 88) by done. cbn [orb]. by rewrite andb_false_r.
Qed.
Lemma strtol16_digits ds : digits_ok ds -> strtol16 (digit <$> ds) = foldl (λ a d, a * 16 + d) 0 ds.
Proof.
  intros H. pose proof (skip_prefix_digits ds H) as Hp. pose proof (hex_number_digits ds 0 H) as Hn. unfold strtol16.
  destruct ds as [|d ds]; [done|]. rewrite fmap_cons in *. inversion H as [|? ? Hd _]; subst.
  destruct (hex_digit_digit d Hd) as (_ & Hs & H1 & H2 & _). cbn [skip_space]. rewrite Hs, (eqb_false (digit d) 45), (eqb_false (digit d) 43) by done.
  by rewrite Hp.
Qed.
Lemma cstr_digits ds n : digits_ok ds -> (length ds <= n)%nat -> cstr n (digit <$> ds) = digit <$> ds.
Proof.
  intros H. revert n. induction H as [|d ds Hd H IH]; intros n Hl; [by destruct n|]. destruct n as [|n]; [simpl in Hl; lia|].
  rewrite fmap_cons. cbn [cstr]. destruct (hex_digit_digit d Hd) as (_ & _ & _ & _ & H0 & _). rewrite eqb_false by done. f_equal. apply IH. simpl in Hl. lia.
Qed.
Lemma strtol16_of ds n : digits_ok ds -> (length ds <= n)%nat -> strtol16 (cstr n (digit <$> ds)) = foldl (λ a d, a * 16 + d) 0 ds.
Proof. intros. rewrite cstr_digits by done. by apply strtol16_digits. Qed.

(** ** Reading the text of bytes *)

(** [t] begins with the text of the bytes [d]. *)
Definition text_of (d t : bytes) : Prop := ∃ r, t = hex_text 32 d ++ 0 :: r.

Definition high (c : Z) : Z := c / 16.
Definition low (c : Z) : Z := c mod 16.
Lemma hex_fixed_2 c : 0 <= c < 256 -> hex_fixed 2 c = [digit (high c); digit (low c)].
Proof. intros H. cbn [hex_fixed app]. unfold high, low. rewrite (Z.mod_small (c / 16) 16) by zdiv. done. Qed.
Lemma nibbles c : 0 <= c < 256 -> 0 <= high c < 16 ∧ 0 <= low c < 16 ∧ high c * 16 + low c = c.
Proof. intros H. unfold high, low. zdiv. Qed.

Lemma hex_text_chars d t c k : is_bytes d -> text_of d t -> d !! k = Some c ->
  char t (3 * Z.of_nat k) = Some (digit (high c)) ∧ char t (3 * Z.of_nat k + 1) = Some (digit (low c)).
Proof.
  intros Hd [r ->] Hk. unfold char. rewrite !ltb_false by lia.
  replace (Z.to_nat (3 * Z.of_nat k)) with (3 * k)%nat by lia. replace (Z.to_nat (3 * Z.of_nat k + 1)) with (3 * k + 1)%nat by lia.
  assert (∀ d k, is_bytes d -> d !! k = Some c -> ∃ r, drop (3 * k + 1) (hex_rest 32 d) = digit (high c) :: digit (low c) :: r) as Hrest.
  { clear. intros d. induction d as [|x d IH]; intros k Hd Hk; [done|]. apply Forall_cons_iff in Hd as [Hx Hd]. unfold hex_rest. rewrite fmap_cons. cbn [concat].
    rewrite (hex_fixed_2 x Hx). destruct k as [|k]; [injection Hk as ->; by eexists|].
    destruct (IH k Hd Hk) as (r & E). exists r. replace (3 * S k + 1)%nat with (S (S (S (3 * k + 1)))) by lia. exact E. }
  assert (∃ r', drop (3 * k) (hex_text 32 d ++ 0 :: r) = digit (high c) :: digit (low c) :: r') as (r' & E).
  { destruct d as [|x d]; [done|]. apply Forall_cons_iff in Hd as [Hx Hd]. cbn [hex_text]. rewrite (hex_fixed_2 x Hx).
    destruct k as [|k]; [injection Hk as ->; by eexists|]. destruct (Hrest d k Hd Hk) as (r' & E).
    replace (3 * S k)%nat with (S (S (3 * k + 1))) by lia. cbn [app drop]. rewrite drop_app_le, E; [by eexists|].
    assert (length (drop (3 * k + 1) (hex_rest 32 d)) > 0)%nat by (rewrite E; simpl; lia). rewrite length_drop in H. lia. }
  split; [rewrite <-(Nat.add_0_r (3 * k)), <-lookup_drop, E; done|]. rewrite <-lookup_drop, E. done.
Qed.

Section reading.
Context (d t : bytes).
Hypothesis (Hd : is_bytes d) (Ht : text_of d t).

Lemma byte_at pre c post : d = pre ++ c :: post ->
  0 <= c < 256 ∧ char t (3 * zlen pre) = Some (digit (high c)) ∧ char t (3 * zlen pre + 1) = Some (digit (low c)).
Proof.
  intros E. assert (d !! length pre = Some c) as Hk by (rewrite E; by apply list_lookup_middle).
  split; [|by apply (hex_text_chars d)]. rewrite E, is_bytes_app in Hd. destruct Hd as [_ H]. by apply Forall_cons_iff in H as [H _].
Qed.
Lemma byte_value c : 0 <= c < 256 -> strtol16 (cstr 2 [digit (high c); digit (low c)]) = c.
Proof.
  intros H. destruct (nibbles c H) as (H1 & H2 & H3). etransitivity; [apply (strtol16_of [high c; low c] 2); [digits|simpl; lia]|cbn; lia].
Qed.

Lemma uint16_at pre v post : d = pre ++ le_bytes 2 v ++ post -> 0 <= v < 65536 ->
  dlt_getloginfo_conv_ascii_to_uint16_t t (3 * zlen pre) = Some (v, 3 * zlen (pre ++ le_bytes 2 v)).
Proof.
  intros E Hv. unfold dlt_getloginfo_conv_ascii_to_uint16_t. cbn [le_bytes app] in *.
  destruct (byte_at pre (v mod 256) ((v / 256) mod 256 :: post) E) as (Ha & A1 & A2).
  destruct (byte_at (pre ++ [v mod 256]) ((v / 256) mod 256) post) as (Hb & B1 & B2); [by rewrite <-app_assoc|].
  rewrite length_app in B1, B2. cbn [length] in B1, B2.
  replace (3 * Z.of_nat (length pre + 1)) with (3 * zlen pre + 3) in B1, B2 by lia.
  replace (3 * zlen pre + 3 + 1) with (3 * zlen pre + 4) in B2 by lia. rewrite B1, B2, A1, A2. bsimp.
  destruct (nibbles _ Ha) as (N1 & N2 & N3). destruct (nibbles _ Hb) as (N4 & N5 & N6).
  change [digit (high ((v / 256) mod 256)); digit (low ((v / 256) mod 256)); digit (high (v mod 256)); digit (low (v mod 256))]
    with (digit <$> [high ((v / 256) mod 256); low ((v / 256) mod 256); high (v mod 256); low (v mod 256)]).
  rewrite strtol16_of by (digits || (simpl; lia)). cbn [foldl]. do 2 f_equal; [|rewrite !length_app; cbn [length]; lia].
  replace ((((0 * 16 + high ((v / 256) mod 256)) * 16 + low ((v / 256) mod 256)) * 16 + high (v mod 256)) * 16 + low (v mod 256))
    with (((v / 256) mod 256) * 256 + v mod 256) by lia.
  rewrite (Z.mod_small (v / 256) 256) by zdiv. rewrite u16_small by zdiv. zdiv.
Qed.

Lemma int16_at pre c post : d = pre ++ c :: post -> dlt_getloginfo_conv_ascii_to_int16_t t (3 * zlen pre) = Some (i8 c, 3 * zlen (pre ++ [c])).
Proof.
  intros E. unfold dlt_getloginfo_conv_ascii_to_int16_t. destruct (byte_at pre c post E) as (Hc & -> & ->). bsimp.
  rewrite byte_value by done. do 2 f_equal. rewrite length_app. cbn [length]. lia.
Qed.

Lemma id_at x : ∀ pre post, d = pre ++ x ++ post ->
  dlt_getloginfo_conv_ascii_to_id t (3 * zlen pre) (length x) = Some (x, 3 * zlen (pre ++ x)).
Proof.
  induction x as [|c x IH]; intros pre post E; cbn [length dlt_getloginfo_conv_ascii_to_id]; [by rewrite app_nil_r|].
  destruct (byte_at pre c (x ++ post) E) as (Hc & -> & ->). bsimp.
  specialize (IH (pre ++ [c]) post ltac:(by rewrite <-app_assoc)). replace (3 * zlen pre + 3) with (3 * zlen (pre ++ [c])) by (rewrite length_app; cbn [length]; lia).
  rewrite IH. bsimp. rewrite byte_value, u8_small by done. by rewrite <-app_assoc.
Qed.
Lemma string_at x pre post : d = pre ++ x ++ post ->
  dlt_getloginfo_conv_ascii_to_string t (3 * zlen pre) (zlen x) = Some (x ++ [0], 3 * zlen (pre ++ x)).
Proof. intros E. unfold dlt_getloginfo_conv_ascii_to_string. rewrite Nat2Z.id, (id_at x pre post E). done. Qed.

End reading.

(** ** Reading the list *)

(** What a client should find of a context and of an application. *)
Definition description (o : Z) (s : option bytes) : Z * option bytes := if o =? 7 then (desc_len s, Some (default [] s ++ [0])) else (0, None).
Definition context_view (o : Z) (c : Ctx.DltDaemonContext) : ContextIDsInfoType :=
  {| context_id := Ctx.ctid c;
     log_level := if status_level o then i8 (Ctx.log_level c) else 0;
     trace_status := if status_trace o then i8 (Ctx.trace_status c) else 0;
     len_context_description := (description o (Ctx.context_description c)).1;
     context_description := (description o (Ctx.context_description c)).2 |}.
Definition app_view (o : Z) (x : App.DltDaemonApplication * list Ctx.DltDaemonContext) : AppIDsType :=
  {| app_id := App.apid x.1; count_context_ids := zlen x.2; context_id_info := context_view o <$> x.2;
     len_app_description := (description o (App.application_description x.1)).1;
     app_description := (description o (App.application_description x.1)).2 |}.

Section parsing.
Context (A : allocator) (o : Z) (d t : bytes).
Hypothesis (HA : heap_ok A) (Hd : is_bytes d) (Ht : text_of d t) (Ld : zlen d < 65536).

Lemma desc_at s pre post : d = pre ++ (if o =? 7 then enc_desc s else []) ++ post ->
  desc_when A (o =? 7) t (3 * zlen pre) = Some (Some (description o s, 3 * zlen (pre ++ (if o =? 7 then enc_desc s else [])))).
Proof.
  unfold desc_when, description. destruct (o =? 7); intros E; [|by rewrite app_nil_r].
  assert (0 <= desc_len s < 65536) as Hl.
  { unfold desc_len. unfold enc_desc in E. apply (f_equal length) in E. rewrite !length_app in E. lia. }
  unfold enc_desc in *. rewrite u16_small in * by done. rewrite <-!app_assoc in E.
  rewrite (uint16_at d t Hd Ht pre (desc_len s) _ E) by done. bsimp. destruct (malloc A _) eqn:Em; [|by apply HA in Em].
  pose proof (string_at d t Hd Ht (default [] s) (pre ++ le_bytes 2 (desc_len s)) post ltac:(by rewrite <-app_assoc)) as Es.
  change (zlen (default [] s)) with (desc_len s) in Es. rewrite Es. bsimp. by rewrite <-app_assoc.
Qed.
Lemma num_at (b : bool) v pre post : d = pre ++ (if b then [u8 v] else []) ++ post ->
  num_when b t (3 * zlen pre) = Some (if b then i8 v else 0, 3 * zlen (pre ++ (if b then [u8 v] else []))).
Proof.
  unfold num_when. destruct b; intros E; [|by rewrite app_nil_r]. rewrite (int16_at d t Hd Ht pre (u8 v) post E).
  rewrite (wraps_wrapu 8) by lia. done.
Qed.

Lemma contexts_at cs : ∀ pre post, Forall (λ c, is_id (Ctx.ctid c)) cs -> d = pre ++ concat (enc_ctx o <$> cs) ++ post ->
  parse_contexts A o t (3 * zlen pre) (length cs) = Some (Some (context_view o <$> cs, 3 * zlen (pre ++ concat (enc_ctx o <$> cs)))).
Proof.
  induction cs as [|c cs IH]; intros pre post Hc E; cbn [length parse_contexts]; [by rewrite app_nil_r|].
  apply Forall_cons_iff in Hc as [Hi Hc]. change (concat (enc_ctx o <$> c :: cs)) with (enc_ctx o c ++ concat (enc_ctx o <$> cs)) in E |- *. unfold enc_ctx in E at 1. rewrite <-!app_assoc in E.
  pose proof (is_id_length _ Hi) as Li. pose proof (id_at d t Hd Ht (Ctx.ctid c) pre _ E) as Eid. rewrite Li in Eid. rewrite Eid. bsimp.
  change (with_level o) with (status_level o) in E. change (with_trace o) with (status_trace o) in E.
  rewrite (num_at (status_level o) (Ctx.log_level c) (pre ++ Ctx.ctid c) _ ltac:(rewrite <-!app_assoc; exact E)). bsimp.
  set (x1 := if status_level o then _ else _) in *. set (x2 := if status_trace o then _ else _) in *. set (x3 := if o =? 7 then _ else _) in *.
  rewrite (num_at (status_trace o) (Ctx.trace_status c) ((pre ++ Ctx.ctid c) ++ x1) _ ltac:(rewrite <-!app_assoc; exact E)). fold x2. bsimp.
  rewrite (desc_at (Ctx.context_description c) (((pre ++ Ctx.ctid c) ++ x1) ++ x2) _ ltac:(rewrite <-!app_assoc; exact E)). fold x3. bsimp.
  destruct (description o (Ctx.context_description c)) as [len ds] eqn:Eds.
  rewrite (IH ((((pre ++ Ctx.ctid c) ++ x1) ++ x2) ++ x3) post Hc ltac:(rewrite <-!app_assoc; exact E)). bsimp. change (context_view o <$> c :: cs) with (context_view o c :: (context_view o <$> cs)).
  set (rest := context_view o <$> cs). unfold context_view. rewrite Eds. cbn [fst snd]. set (rb := concat (enc_ctx o <$> cs)). unfold enc_ctx.
  change (with_level o) with (status_level o). change (with_trace o) with (status_trace o). fold x1 x2 x3. by rewrite <-!app_assoc.
Qed.

Lemma apps_at l : ∀ pre post, wf_selection l -> d = pre ++ concat (enc_app o <$> l) ++ post ->
  parse_apps A o t (3 * zlen pre) (length l) = Some (Some (app_view o <$> l, 3 * zlen (pre ++ concat (enc_app o <$> l)))).
Proof.
  induction l as [|[a cs] l IH]; intros pre post Hc E; cbn [length parse_apps]; [by rewrite app_nil_r|].
  apply Forall_cons_iff in Hc as [[Hi Hcs] Hc]. cbn [fst snd] in Hi, Hcs. change (concat (enc_app o <$> (a, cs) :: l)) with (enc_app o (a, cs) ++ concat (enc_app o <$> l)) in E |- *. unfold enc_app in E at 1. cbn [fst snd] in E. rewrite <-!app_assoc in E.
  pose proof (is_id_length _ Hi) as Li. pose proof (id_at d t Hd Ht (App.apid a) pre _ E) as Eid. rewrite Li in Eid. rewrite Eid. bsimp.
  assert (0 <= zlen cs < 65536) as Hl.
  { split; [lia|]. apply (f_equal length) in E. rewrite !length_app in E. pose proof (length_enc_ctxs o cs Hcs) as Lc. unfold sizecont in Lc.
    assert (0 <= (if o =? 7 then ctx_descs cs else 0)) by (destruct (o =? 7); unfold ctx_descs; lia). destruct (with_level o), (with_trace o); lia. }
  rewrite (uint16_at d t Hd Ht (pre ++ App.apid a) (zlen cs) _ ltac:(rewrite <-!app_assoc; exact E) Hl). bsimp.
  destruct (malloc A _) eqn:Em; [|by apply HA in Em]. rewrite Nat2Z.id.
  set (x2 := le_bytes 2 (zlen cs)) in *. set (x1 := App.apid a) in *. set (x3 := concat (enc_ctx o <$> cs)) in *. set (x4 := if o =? 7 then enc_desc (App.application_description a) else []) in *.
  rewrite (contexts_at cs ((pre ++ x1) ++ x2) _ Hcs ltac:(rewrite <-!app_assoc; exact E)). fold x3. bsimp.
  rewrite (desc_at (App.application_description a) (((pre ++ x1) ++ x2) ++ x3) _ ltac:(rewrite <-!app_assoc; exact E)). fold x4. bsimp.
  destruct (description o (App.application_description a)) as [len ds] eqn:Eds.
  rewrite (IH ((((pre ++ x1) ++ x2) ++ x3) ++ x4) post Hc ltac:(rewrite <-!app_assoc; exact E)). bsimp. change (app_view o <$> (a, cs) :: l) with (app_view o (a, cs) :: (app_view o <$> l)).
  set (rest := app_view o <$> l). unfold app_view. cbn [fst snd]. rewrite Eds. cbn [fst snd]. set (rb := concat (enc_app o <$> l)). unfold enc_app. cbn [fst snd]. fold x1 x2 x3 x4.
  by rewrite <-!app_assoc.
Qed.
End parsing.

(** ** The text of an answer *)

Lemma append_at T r tl s : 0 ∉ T -> zlen T + zlen s + 1 <= tl < 65536 -> zlen s <= zlen r ->
  ∃ r', append (T ++ 0 :: r) tl s = Some ((T ++ s) ++ 0 :: r') ∧ zlen s + zlen r' = zlen r.
Proof.
  intros HT Hl Hr. unfold append. rewrite cstring_at_0 by done. bsimp. rewrite u64_small by lia. apply snprintf_append; lia.
Qed.

(** A message from the daemon that answers a request. *)
Record answer (m : Message.DltMessage) (p : bytes) : Prop := {
  an_htyp : Message.std_htyp m = Some control_htyp;
  an_msin : Message.ext_msin m = Some DLT_MSIN_CONTROL_RESPONSE;
  an_size : Message.datasize m = zlen p;
  an_data : ∃ b, Message.databuffer m = Some (p ++ b)
}.

Lemma holds_answer m M : holds m M -> m_htyp M = control_htyp -> head (m_ext M) = Some DLT_MSIN_CONTROL_RESPONSE -> answer m (m_payload M).
Proof.
  intros H Hh Hx. assert (Message.std_htyp m = Some control_htyp) as Hs by (by rewrite (DaemonClientSpec.holds_htyp _ _ H), Hh).
  destruct (h_payload _ _ H) as (b & Hb & Hp). apply DaemonClientSpec.payload_front in Hp as (c & -> & Hd). split; [done| |done|by exists c].
  destruct (DaemonClientSpec.holds_ext_bytes _ _ H) as (sh & rest & Hhb & He); [by rewrite Hh|].
  unfold Message.ext_msin. rewrite He, Hhb. bsimp. rewrite Nat2Z.id, lookup_app_r, Nat.sub_diag by lia. destruct (m_ext M); [done|]. by injection Hx as ->.
Qed.

Lemma answer_tests m p : answer m p -> DLT_MSG_IS_VERBOSE m = Some false ∧ DLT_MSG_IS_CONTROL m = Some true ∧ DLT_MSG_IS_CONTROL_RESPONSE m = Some true.
Proof.
  intros [Hs Hx _ _]. unfold DLT_MSG_IS_VERBOSE, DLT_MSG_IS_CONTROL, DLT_MSG_IS_CONTROL_RESPONSE, msin_test. rewrite Hs. bsimp.
  change (negb (DLT_IS_HTYP_UEH control_htyp)) with false. cbn match. rewrite Hx. done.
Qed.

Lemma no_zero (l : bytes) : forallb (λ c, negb (c =? 0)) l = true -> 0 ∉ l.
Proof. rewrite forallb_forall. intros H H0. apply list_elem_of_In in H0. by apply H in H0. Qed.

(** The text in front of the data. *)
Definition info_prefix (word : bytes) : bytes := get_log_info_tag ++ comma ++ word ++ comma.
(** How a status is printed. *)
Definition status_word (o : Z) : bytes := if (o <? DLT_SERVICE_RESPONSE_LAST) || (o =? 8) then default [] (return_type !! Z.to_nat o) else hex 2 o.

Lemma status_word_ok o : 0 <= o < 9 -> (0 ∉ status_word o) ∧ zlen (status_word o) <= 22.
Proof.
  intros H. assert (o = 0 ∨ o = 1 ∨ o = 2 ∨ o = 3 ∨ o = 4 ∨ o = 5 ∨ o = 6 ∨ o = 7 ∨ o = 8) as Ho by lia.
  destruct Ho as [-> | [-> | [-> | [-> | [-> | [-> | [-> | [-> | ->]]]]]]]]; (split; [|by vm_compute]); by apply no_zero.
Qed.

Lemma info_text show_g attrs m o body t : 0 <= o < 8 -> is_bytes body -> body <> [] ->
  answer m (le_bytes 4 3 ++ o :: body) -> zlen t = DLT_RECEIVE_BUFSIZE -> 3 * zlen body + 41 <= DLT_RECEIVE_BUFSIZE ->
  ∃ r, message_payload_ascii show_g attrs false m t DLT_RECEIVE_BUFSIZE =
         Some (DLT_RETURN_OK, info_prefix (status_word o) ++ hex_text 32 body ++ 0 :: r) ∧
       zlen (info_prefix (status_word o)) + zlen (hex_text 32 body) + 1 + zlen r = DLT_RECEIVE_BUFSIZE.
Proof.
  intros Ho Bb Hb An Lt Hl. destruct (answer_tests m _ An) as (Hv & Hc & Hr). destruct An as [Hs Hx Hz (b & Hd)]. unfold DLT_RECEIVE_BUFSIZE in *.
  assert (0 < zlen body) as Lb by (destruct body; [done|simpl; lia]).
  unfold message_payload_ascii. rewrite Hd, Hv. bsimp. rewrite leb_false by lia. destruct t as [|t0 t]; [done|].
  rewrite mwrite_Some by (cbn [length] in *; lia). bsimp. change (take _ (t0 :: t) ++ [0] ++ drop _ (t0 :: t)) with (0 :: t).
  cbn [length] in Lt. unfold payload_nonverbose. rewrite Hs, Hz. bsimp. rewrite length_app. cbn [length]. change (length (le_bytes 4 3)) with 4%nat.
  rewrite ltb_false by lia. rewrite <-app_assoc. pose proof (mread_mid [] (le_bytes 4 3) ((o :: body) ++ b) 0 4 eq_refl eq_refl) as Er. rewrite app_nil_l in Er.
  rewrite Er. bsimp. change (DLT_ENDIAN_GET_32 control_htyp (le_Z (le_bytes 4 3))) with 3. rewrite ltb_false by lia.
  set (dl := Z.of_nat (4 + S (length body)) - 4). assert (dl = zlen body + 1) as Edl by lia. rewrite Edl. clear dl Edl.
  destruct (status_word_ok o ltac:(lia)) as [Hw Lw]. unfold print_service. rewrite Hc. bsimp. change ((0 <? 3) && (3 <? DLT_SERVICE_ID_LAST_ENTRY)) with true. cbn match. change (service_id_name !! Z.to_nat 3) with (Some get_log_info_tag). bsimp.
  destruct (append_at [] t 65535 get_log_info_tag (not_elem_of_nil _)) as (r1 & E1 & L1); [simpl; lia|simpl; lia|]. rewrite !app_nil_l in E1. rewrite E1. bsimp.
  rewrite ltb_true by lia. change (zlen get_log_info_tag) with 12 in L1.
  destruct (append_at get_log_info_tag r1 65535 comma) as (r2 & E2 & L2); [by apply no_zero|simpl; lia|simpl; lia|]. rewrite E2. bsimp. change (zlen comma) with 2 in L2.
  assert (0 ∉ get_log_info_tag ++ comma) as N2 by (by apply no_zero).
  unfold print_status. rewrite Hr. bsimp. rewrite ltb_true by lia. cbn [andb]. change ((le_bytes 4 3 ++ (o :: body) ++ b) !! 4%nat) with (Some o). bsimp.
  destruct (append_at (get_log_info_tag ++ comma) r2 65535 (status_word o) N2) as (r3 & E3 & L3); [simpl; lia|lia|].
  assert ((if (o <? DLT_SERVICE_RESPONSE_LAST) || (o =? 8) then n ← return_type !! Z.to_nat o; append ((get_log_info_tag ++ comma) ++ 0 :: r2) 65535 n
           else append ((get_log_info_tag ++ comma) ++ 0 :: r2) 65535 (hex 2 o)) = Some (((get_log_info_tag ++ comma) ++ status_word o) ++ 0 :: r3)) as ->.
  { rewrite <-E3. unfold status_word. destruct ((o <? DLT_SERVICE_RESPONSE_LAST) || (o =? 8)) eqn:Et; [|done].
    destruct (return_type !! Z.to_nat o) eqn:En; [done|]. apply lookup_ge_None in En. cbn [length] in En. change (length return_type) with 9%nat in En. lia. }
  bsimp. rewrite leb_true by lia.
  destruct (append_at ((get_log_info_tag ++ comma) ++ status_word o) r3 65535 comma) as (r4 & E4 & L4);
    [rewrite not_elem_of_app; done|rewrite length_app; simpl; lia|simpl; lia|]. rewrite E4. bsimp. change (zlen comma) with 2 in L4.
  set (P := ((get_log_info_tag ++ comma) ++ status_word o) ++ comma) in *.
  assert (P = info_prefix (status_word o)) as HP by (unfold P, info_prefix; by rewrite <-!app_assoc).
  assert (0 ∉ P) as NP by (unfold P; rewrite !not_elem_of_app in *; split_and!; try tauto; by apply no_zero).
  assert (zlen P = 16 + zlen (status_word o)) as LP by (unfold P; rewrite !length_app; simpl; lia).
  rewrite cstring_at_0 by done. bsimp. unfold Payload.dlt_print_hex_string, Payload.dlt_print_hex_string_delim.
  rewrite !i32_small by lia. rewrite leb_false, (ltb_false _ 0), ltb_false by lia. cbn [orb Z.eqb].
  pose proof (mread_mid (le_bytes 4 3 ++ [o]) body b 5 (zlen body + 1 - 1)) as Eb. rewrite <-app_assoc in Eb. cbn [app] in Eb. cbn [app]. rewrite Eb by (done || lia). bsimp.
  destruct (hex_loop_text 32 body P r4 Bb) as (r & E5 & L5); [rewrite zlen_hex_text; lia|]. rewrite E5. bsimp. exists r. rewrite <-HP, <-app_assoc. split; [done|lia].
Qed.

(** ** The answer of the daemon at the client *)

Lemma selection_not_empty (l : list (App.DltDaemonApplication * list Ctx.DltDaemonContext)) o : concat l.*2 <> [] ->
  log_info o l = le_bytes 4 3 ++ o :: (le_bytes 2 (zlen l) ++ concat (enc_app o <$> l) ++ remo).
Proof.
  intros H. destruct l as [|x l]; [done|]. unfold log_info. rewrite (eqb_false (zlen (x :: l)) 0) by (cbn [length]; lia).
  rewrite (eqb_false (zlen (concat (x :: l).*2)) 0); [done|]. destruct (concat (x :: l).*2); [done|]. cbn [length]. lia.
Qed.

Lemma apps_size o l : wf_selection l -> 6 * zlen l <= zlen (concat (enc_app o <$> l)).
Proof.
  intros H. rewrite length_enc_apps by done. unfold sizecont, ctx_descs, app_descs.
  assert (0 <= zlen (concat l.*2) * (4 + (if with_level o then 1 else 0) + (if with_trace o then 1 else 0))) by (destruct (with_level o), (with_trace o); lia).
  destruct (o =? 7); lia.
Qed.

(** What the service and the options are read from. *)
Lemma service_read o r : o = 5 ∨ o = 6 ∨ o = 7 ->
  dlt_set_loginfo_parse_service_id (info_prefix (status_word o) ++ r) 0 0 = Some (0, DLT_SERVICE_ID_GET_LOG_INFO, o) ∧
  drop (Z.to_nat DLT_GET_LOG_INFO_HEADER) (info_prefix (status_word o) ++ r) = r.
Proof.
  intros Ho. assert (∃ w, info_prefix (status_word o) = get_log_info_tag ++ w) as [w Ew] by (eexists; unfold info_prefix; reflexivity).
  assert (mread (info_prefix (status_word o) ++ r) 0 12 = Some get_log_info_tag) as Em.
  { rewrite Ew, <-app_assoc. by apply (mread_mid [] get_log_info_tag). }
  split.
  - unfold dlt_set_loginfo_parse_service_id. rewrite Em. bsimp. rewrite bool_decide_eq_true_2 by done.
    destruct Ho as [-> | [-> | ->]]; reflexivity.
  - apply drop_app_length'. by destruct Ho as [-> | [-> | ->]].
Qed.

Lemma log_info_text_read A M o l show_g attrs m t :
  let p := log_info o l in
  heap_ok A -> o = 5 ∨ o = 6 ∨ o = 7 -> wf_selection l -> concat l.*2 <> [] -> is_bytes p -> zlen p <= 21836 ->
  holds m M -> m_htyp M = control_htyp -> head (m_ext M) = Some DLT_MSIN_CONTROL_RESPONSE -> m_payload M = p -> zlen t = DLT_RECEIVE_BUFSIZE ->
  ∃ t', message_payload_ascii show_g attrs false m t DLT_RECEIVE_BUFSIZE = Some (DLT_RETURN_OK, t') ∧
    dlt_set_loginfo_parse_service_id t' 0 0 = Some (0, DLT_SERVICE_ID_GET_LOG_INFO, o) ∧
    dlt_client_parse_get_log_info_resp_text A {| service_id := 3; status := o; count_app_ids := 0; app_ids := None |} t' =
      Some (DLT_RETURN_OK, {| service_id := 3; status := o; count_app_ids := zlen l; app_ids := Some (app_view o <$> l) |}).
Proof.
  intros p HA Ho Wl Hc Bp Lp Hm Hh Hx Hpl Lt. pose proof (selection_not_empty l o Hc) as Ep. fold p in Ep. set (body := le_bytes 2 (zlen l) ++ concat (enc_app o <$> l) ++ remo) in *.
  apply holds_answer in Hm; [|done|done]. rewrite Hpl, Ep in Hm.
  assert (is_bytes body) as Bb. { rewrite Ep, is_bytes_app in Bp. destruct Bp as [_ Bp]. by apply Forall_cons_iff in Bp as [_ Bp]. }
  assert (zlen p = 5 + zlen body) as Lb. { rewrite Ep, length_app. cbn [length]. change (length (le_bytes 4 3)) with 4%nat. lia. }
  destruct (info_text show_g attrs m o body t) as (r & Et & Lr); try done; [lia|unfold DLT_RECEIVE_BUFSIZE; lia|].
  exists (info_prefix (status_word o) ++ hex_text 32 body ++ 0 :: r). split; [done|]. destruct (service_read o (hex_text 32 body ++ 0 :: r) Ho) as [Es Ed]. split; [done|].
  unfold dlt_client_parse_get_log_info_resp_text. rewrite Ed. cbn [status service_id]. unfold GET_LOG_INFO_STATUS_MIN, GET_LOG_INFO_STATUS_MAX.
  rewrite !ltb_false by lia. cbn [orb]. assert (text_of body (hex_text 32 body ++ 0 :: r)) as HT by (by exists r).
  pose proof (apps_size o l Wl) as Hs. assert (zlen l < 65536) as Hl by (unfold body in Lb; rewrite !length_app in Lb; lia).
  pose proof (uint16_at body _ Bb HT [] (zlen l) (concat (enc_app o <$> l) ++ remo) eq_refl ltac:(lia)) as Eu. change (3 * Z.of_nat (length (A:=Z) [])) with 0 in Eu. rewrite Eu. bsimp.
  destruct (malloc A _) eqn:Em; [|by apply HA in Em]. rewrite Nat2Z.id.
  rewrite app_nil_l, (apps_at A o body _ HA Bb HT ltac:(lia) l (le_bytes 2 (zlen l)) remo Wl eq_refl). by bsimp.
Qed.

(** The list of applications and contexts arrives at a client.  The answer of the daemon
    to "get log info" (with levels, trace status and, for option 7, descriptions) is
    printed as text by the client library, and from the text it reads back exactly the
    applications with their contexts, levels and descriptions that the daemon listed. *)
Theorem log_info_read_back A E ecu o l show_g attrs m t :
  let p := log_info o l in
  heap_ok A -> o = 5 ∨ o = 6 ∨ o = 7 -> wf_selection l -> concat l.*2 <> [] -> is_bytes p -> zlen p <= 21836 ->
  holds m (DaemonMessagesSpec.control_of E ecu DLT_MSIN_CONTROL_RESPONSE 1 DLT_DAEMON_CTRL_APID DLT_DAEMON_CTRL_CTID p) -> zlen t = DLT_RECEIVE_BUFSIZE ->
  ∃ t', message_payload_ascii show_g attrs false m t DLT_RECEIVE_BUFSIZE = Some (DLT_RETURN_OK, t') ∧
    dlt_set_loginfo_parse_service_id t' 0 0 = Some (0, DLT_SERVICE_ID_GET_LOG_INFO, o) ∧
    dlt_client_parse_get_log_info_resp_text A {| service_id := 3; status := o; count_app_ids := 0; app_ids := None |} t' =
      Some (DLT_RETURN_OK, {| service_id := 3; status := o; count_app_ids := zlen l; app_ids := Some (app_view o <$> l) |}).
Proof.
  intros p HA Ho Wl Hc Bp Lp Hm Lt. by apply (log_info_text_read A _ o l show_g attrs m t HA Ho Wl Hc Bp Lp Hm).
Qed.

(** ** What a client cannot read *)

(** With options 3 and 4 the status of the answer is printed by name ("perm_denied" and
    "warning") instead of by number: the client takes it for status 0 and fails. *)
Theorem low_options_unreadable A o m body show_g attrs t :
  o = 3 ∨ o = 4 -> is_bytes body -> body <> [] -> answer m (le_bytes 4 3 ++ o :: body) -> zlen t = DLT_RECEIVE_BUFSIZE -> 3 * zlen body + 41 <= DLT_RECEIVE_BUFSIZE ->
  ∃ t' st, message_payload_ascii show_g attrs false m t DLT_RECEIVE_BUFSIZE = Some (DLT_RETURN_OK, t') ∧
    dlt_set_loginfo_parse_service_id t' 0 0 = Some (0, DLT_SERVICE_ID_GET_LOG_INFO, st) ∧
    (let resp := {| service_id := 3; status := st; count_app_ids := 0; app_ids := None |} in
     dlt_client_parse_get_log_info_resp_text A resp t' = Some (DLT_RETURN_ERROR, resp)).
Proof.
  intros Ho Bb Hb An Lt Hl. destruct (info_text show_g attrs m o body t) as (r & Et & Lr); try done; [lia|].
  exists (info_prefix (status_word o) ++ hex_text 32 body ++ 0 :: r), 0. split; [done|]. split; [|done].
  unfold dlt_set_loginfo_parse_service_id. unfold info_prefix. rewrite <-!app_assoc.
  pose proof (mread_mid [] get_log_info_tag (comma ++ status_word o ++ comma ++ hex_text 32 body ++ 0 :: r) 0 12 eq_refl eq_refl) as Em. rewrite app_nil_l in Em.
  rewrite Em. bsimp. rewrite bool_decide_eq_true_2 by done. by destruct Ho as [-> | ->].
Qed.

(** Reads inside of the text. *)
Lemma char_inside t i c : char t i = Some c -> 0 <= i < zlen t.
Proof.
  unfold char. destruct (Z.ltb_spec i 0); [done|]. intros H1. apply lookup_lt_Some in H1. lia.
Qed.
Lemma uint16_inside t n v n' : dlt_getloginfo_conv_ascii_to_uint16_t t n = Some (v, n') -> n' = n + 6 ∧ n + 4 < zlen t.
Proof.
  unfold dlt_getloginfo_conv_ascii_to_uint16_t. intros H. unbind H as a Ea. unbind H as b Eb. unbind H as c Ec. unbind H as d Ed.
  injection H as _ <-. apply char_inside in Eb. lia.
Qed.
Lemma id_moves t len : ∀ n x n', dlt_getloginfo_conv_ascii_to_id t n len = Some (x, n') -> n' = n + 3 * Z.of_nat len.
Proof.
  induction len as [|len IH]; intros n x n' H; cbn [dlt_getloginfo_conv_ascii_to_id] in H; [injection H as _ <-; lia|].
  unbind H as a Ea. unbind H as b Eb. unbind H as y Ey. destruct y as [y n1]. injection H as _ <-. apply IH in Ey. lia.
Qed.
Lemma num_moves b t n v n' : num_when b t n = Some (v, n') -> n <= n'.
Proof.
  unfold num_when. destruct b; [|intros [= _ <-]; lia]. unfold dlt_getloginfo_conv_ascii_to_int16_t. intros H. unbind H as x Ex. unbind H as y Ey. injection H as _ <-. lia.
Qed.

Section behind.
Context (A : allocator) (st : Z) (t : bytes).
Hypothesis HA : heap_ok A.

Lemma desc_moves b n r : desc_when A b t n = Some r -> ∃ x n', r = Some (x, n') ∧ n <= n'.
Proof.
  unfold desc_when. destruct b; [|intros [= <-]; by exists (0, None), n]. intros H. unbind H as v Ev. destruct v as [len n1]. destruct (malloc A _) as [mem|] eqn:Em; [|by apply HA in Em].
  unbind H as w Ew. destruct w as [d n2]. injection H as <-. unfold dlt_getloginfo_conv_ascii_to_string in Ew. unbind Ew as z Ez. destruct z as [z n3]. injection Ew as _ <-.
  apply id_moves in Ez. apply uint16_inside in Ev as [-> _]. exists (len, Some d), n3. split; [done|lia].
Qed.
Lemma contexts_move count : ∀ n r, parse_contexts A st t n count = Some r -> ∃ l n', r = Some (l, n') ∧ n <= n'.
Proof.
  induction count as [|count IH]; intros n r H; cbn [parse_contexts] in H; [injection H as <-; by exists [], n|].
  unbind H as i Ei. destruct i as [i n1]. apply id_moves in Ei. unbind H as x Ex. destruct x as [x n2]. apply num_moves in Ex. unbind H as y Ey. destruct y as [y n3]. apply num_moves in Ey.
  unbind H as w Ew. apply desc_moves in Ew as ([a b] & n4 & -> & Hn). cbn [mbind option_bind] in H. unbind H as q Eq. apply IH in Eq as (l & n5 & -> & Hn5). injection H as <-.
  eexists _, n5. split; [done|lia].
Qed.
(** Every application takes at least 18 characters, which are inside of the text. *)
Lemma apps_move count : ∀ n r, parse_apps A st t n count = Some r -> 0 <= n -> 18 * Z.of_nat count <= zlen t + 6.
Proof.
  assert (∀ n r, parse_apps A st t n count = Some r -> 0 <= n -> ∃ l n', r = Some (l, n') ∧ (count = 0%nat ∨ n + 18 * Z.of_nat count <= zlen t + 6)) as H.
  2: { intros n r E Hn. destruct (H n r E Hn) as (_ & _ & _ & [-> | Hc]); lia. }
  induction count as [|count IH]; intros n r H Hn; cbn [parse_apps] in H; [injection H as <-; exists [], n; auto|].
  unbind H as i Ei. destruct i as [i n1]. apply id_moves in Ei. unbind H as x Ex. destruct x as [num n2]. apply uint16_inside in Ex as [-> Hx].
  destruct (malloc A _) as [mem|] eqn:Em; [|by apply HA in Em]. unbind H as cr Ecr. apply contexts_move in Ecr as (cs & n3 & -> & Hn3).
  unbind H as w Ew. apply desc_moves in Ew as ([a b] & n4 & -> & Hn4). cbn [mbind option_bind] in H. unbind H as q Eq.
  apply IH in Eq as (l & n5 & -> & Hn5); [|lia]. injection H as <-. eexists _, n5. split; [done|]. right. destruct Hn5 as [-> | Hn5]; lia.
Qed.
End behind.

(** The number of applications in the answer is not checked: a larger one than the text can
    hold makes the client read behind the text. *)
Theorem wrong_count_reads_behind A resp t count n :
  heap_ok A -> GET_LOG_INFO_STATUS_MIN <= status resp <= GET_LOG_INFO_STATUS_MAX ->
  dlt_getloginfo_conv_ascii_to_uint16_t (drop (Z.to_nat DLT_GET_LOG_INFO_HEADER) t) 0 = Some (count, n) -> zlen t < 18 * count ->
  dlt_client_parse_get_log_info_resp_text A resp t = None.
Proof.
  intros HA Hst Ec Hc. unfold dlt_client_parse_get_log_info_resp_text. rewrite !ltb_false by lia. cbn [orb]. rewrite Ec. bsimp.
  destruct (malloc A _) as [mem|] eqn:Em; [|by apply HA in Em]. destruct (parse_apps _ _ _ _ _) as [r|] eqn:Er; [|done]. exfalso.
  apply uint16_inside in Ec as [-> _]. apply apps_move in Er; [|done|lia]. rewrite length_drop in Er. change (Z.to_nat DLT_GET_LOG_INFO_HEADER) with 18%nat in Er. lia.
Qed.

(** ** Examples *)

Definition sample_selection : list (App.DltDaemonApplication * list Ctx.DltDaemonContext) :=
  selected control_list {| options := 7; req_apid := no_id; req_ctid := no_id |}.
Definition sample_answer (o : Z) : message :=
  DaemonMessagesSpec.control_of env0 id_ECU1 DLT_MSIN_CONTROL_RESPONSE 1 DLT_DAEMON_CTRL_APID DLT_DAEMON_CTRL_CTID (log_info o sample_selection).
Lemma sample_answer_wf o : 0 <= o < 8 -> wf_message (sample_answer o).
Proof.
  intros Ho. assert (o = 0 ∨ o = 1 ∨ o = 2 ∨ o = 3 ∨ o = 4 ∨ o = 5 ∨ o = 6 ∨ o = 7) as H by lia.
  destruct H as [-> | [-> | [-> | [-> | [-> | [-> | [-> | ->]]]]]]]; (split; try done; by apply is_bytes_forallb).
Qed.
Lemma sample_holds o : 0 <= o < 8 -> ∃ m, holds m (sample_answer o).
Proof. intros Ho. destruct (DaemonChecksSpec.loaded (sample_answer o)) as (m & Hm & _); [by apply sample_answer_wf|done|]. by exists m. Qed.

Lemma log_info_read_back_witness :
  ∃ m, holds m (sample_answer 7) ∧
  ∃ t', message_payload_ascii (λ _ _, []) false false m (replicate (Z.to_nat 65535) 0) DLT_RECEIVE_BUFSIZE = Some (DLT_RETURN_OK, t') ∧
    dlt_set_loginfo_parse_service_id t' 0 0 = Some (0, DLT_SERVICE_ID_GET_LOG_INFO, 7) ∧
    dlt_client_parse_get_log_info_resp_text (heap_filled 0) {| service_id := 3; status := 7; count_app_ids := 0; app_ids := None |} t' =
      Some (DLT_RETURN_OK, {| service_id := 3; status := 7; count_app_ids := zlen sample_selection; app_ids := Some (app_view 7 <$> sample_selection) |}).
Proof.
  destruct (sample_holds 7) as (m & Hm); [lia|]. exists m. split; [exact Hm|].
  apply (log_info_read_back (heap_filled 0) env0 id_ECU1 7 sample_selection (λ _ _, []) false m); try done.
  - auto.
  - by repeat constructor.
  - by apply is_bytes_forallb.
Defined.

Lemma wrong_count_reads_behind_witness :
  dlt_client_parse_get_log_info_resp_text (heap_filled 0) {| service_id := 3; status := 7; count_app_ids := 0; app_ids := None |}
    (info_prefix (status_word 7) ++ hex_text 32 [255; 255] ++ replicate (Z.to_nat 65512) 0) = None.
Proof. by apply (wrong_count_reads_behind _ _ _ 65535 6). Defined.

End LogInfoTextSpec.
