(* ===== verification/Client.v ===== *)
(** * The client library ([src/lib/dlt_client.c])

    A client connects to a daemon, sends control requests to it and hands the
    messages that arrive to a callback function.  This is protocol version 1.
    The system calls of [dlt_client_connect] and the addresses that [getaddrinfo]
    gives are scripts; what the client writes is recorded as for the daemon
    ([DaemonSend.os]). *)

From stdpp Require Import base list numbers option.
From Stdlib Require Import ZArith Lia Bool.
From S2P Require Import Prelude Protocol Ids Message Filter Receiver UserShared DaemonSend DaemonControl LogInfoText.
Import Protocol Ids DaemonSend DaemonControl.

Local Open Scope Z_scope.

Module Client.

Inductive DltClientMode :=
| DLT_CLIENT_MODE_UNDEFINED
| DLT_CLIENT_MODE_TCP
| DLT_CLIENT_MODE_SERIAL
| DLT_CLIENT_MODE_UNIX
| DLT_CLIENT_MODE_UDP_MULTICAST.

(** Strings are memory with the terminator, [None] for a null pointer. *)
Record DltClient := {
  receiver : Receiver.DltReceiver;
  sock : Z;
  servIP : option bytes;
  hostip : option bytes;
  port : Z;
  serialDevice : option bytes;
  socketPath : option bytes;
  ecuid : bytes;
  ecuid2 : option bytes;
  baudrate : Z;
  mode : DltClientMode;
  send_serial_header : bool;
  resync_serial_header : bool
}.

Definition DLT_DAEMON_TCP_PORT : Z := 3490.
Definition IPPORT_RESERVED : Z := 1024.
Definition USHRT_MAX : Z := 65535.
(** [B115200] of Linux. *)
Definition DLT_CLIENT_INITIAL_BAUDRATE : Z := 4098.
(** "CA1", "CC1", "APP", "CON". *)
Definition DLT_CLIENT_DUMMY_APP_ID : bytes := [67; 65; 49; 0].
Definition DLT_CLIENT_DUMMY_CON_ID : bytes := [67; 67; 49; 0].
Definition text_APP : bytes := [65; 80; 80; 0].
Definition text_CON : bytes := [67; 79; 78; 0].
Definition DLT_MSIN_CONTROL_REQUEST : Z := 22.

(** ** The client structure *)

Definition set_endpoint (c : DltClient) (r : Receiver.DltReceiver) (s : Z) (ip : option bytes) : DltClient :=
  {| receiver := r; sock := s; servIP := ip; hostip := hostip c; port := port c; serialDevice := serialDevice c;
     socketPath := socketPath c; ecuid := ecuid c; ecuid2 := ecuid2 c; baudrate := baudrate c; mode := mode c;
     send_serial_header := send_serial_header c; resync_serial_header := resync_serial_header c |}.
Definition set_names (c : DltClient) (ip host dev path e2 : option bytes) (m : DltClientMode) : DltClient :=
  {| receiver := receiver c; sock := sock c; servIP := ip; hostip := host; port := port c; serialDevice := dev;
     socketPath := path; ecuid := ecuid c; ecuid2 := e2; baudrate := baudrate c; mode := m;
     send_serial_header := send_serial_header c; resync_serial_header := resync_serial_header c |}.

(** The pointers of the receiver. *)
Definition no_buffers (r : Receiver.DltReceiver) : Receiver.DltReceiver := (Receiver.dlt_receiver_free r).2.

(** The flags and the ECU id are not initialised. *)
Definition dlt_client_init_port (client : option DltClient) (p : Z) : Z * option DltClient :=
  match client with
  | None => (DLT_RETURN_ERROR, None)
  | Some c =>
      (DLT_RETURN_OK,
       Some {| receiver := no_buffers (receiver c); sock := -1; servIP := None; hostip := None; port := u16 p;
               serialDevice := None; socketPath := None; ecuid := ecuid c; ecuid2 := ecuid2 c;
               baudrate := DLT_CLIENT_INITIAL_BAUDRATE; mode := DLT_CLIENT_MODE_TCP;
               send_serial_header := send_serial_header c; resync_serial_header := resync_serial_header c |})
  end.

(** [env_daemon_port] is the value of the environment variable.  The client is
    used before it is checked. *)
Definition dlt_client_init (client : option DltClient) (env_daemon_port : option bytes) : option (Z * option DltClient) :=
  c ← client;
  let c := set_names c (servIP c) (hostip c) (serialDevice c) (socketPath c) None (mode c) in
  match env_daemon_port with
  | None => Some (dlt_client_init_port (Some c) DLT_DAEMON_TCP_PORT)
  | Some t =>
      let tmp_port := i32 (LogInfoText.atoi t) in
      if (tmp_port <? IPPORT_RESERVED) || (USHRT_MAX <? u32 tmp_port) then Some (DLT_RETURN_ERROR, Some c)
      else Some (dlt_client_init_port (Some c) tmp_port)
  end.

Definition dlt_client_set_mode (client : option DltClient) (m : DltClientMode) : Z * option DltClient :=
  match client with
  | None => (DLT_RETURN_ERROR, None)
  | Some c => (DLT_RETURN_OK, Some (set_names c (servIP c) (hostip c) (serialDevice c) (socketPath c) (ecuid2 c) m))
  end.

(** [strdup]. *)
Definition strdup (A : allocator) (t : bytes) : option bytes :=
  let s := cstr (length t) t ++ [0] in match malloc A (zlen s) with Some _ => Some s | None => None end.
Definition dup_code (s : option bytes) : Z := if s is Some _ then DLT_RETURN_OK else DLT_RETURN_ERROR.
Definition dlt_client_set_server_ip (A : allocator) (c : DltClient) (ipaddr : bytes) : Z * DltClient :=
  let s := strdup A ipaddr in (dup_code s, set_names c s (hostip c) (serialDevice c) (socketPath c) (ecuid2 c) (mode c)).
Definition dlt_client_set_host_if_address (A : allocator) (c : DltClient) (host : bytes) : Z * DltClient :=
  let s := strdup A host in (dup_code s, set_names c (servIP c) s (serialDevice c) (socketPath c) (ecuid2 c) (mode c)).
Definition dlt_client_set_serial_device (A : allocator) (c : DltClient) (serial_device : bytes) : Z * DltClient :=
  let s := strdup A serial_device in (dup_code s, set_names c (servIP c) (hostip c) s (socketPath c) (ecuid2 c) (mode c)).
Definition dlt_client_set_socket_path (A : allocator) (c : DltClient) (socket_path : bytes) : Z * DltClient :=
  let s := strdup A socket_path in (dup_code s, set_names c (servIP c) (hostip c) (serialDevice c) s (ecuid2 c) (mode c)).

(** With the descriptors that were closed. *)
Definition dlt_client_cleanup (client : option DltClient) : Z * option DltClient * list Z :=
  match client with
  | None => (DLT_RETURN_WRONG_PARAMETER, None, [])
  | Some c =>
      let closed := if negb (sock c =? -1) then [sock c] else [] in
      let '(rc, r) := Receiver.dlt_receiver_free (receiver c) in
      (if negb (rc =? DLT_RETURN_OK) then DLT_RETURN_ERROR else DLT_RETURN_OK,
       Some (set_endpoint (set_names c None None None None None (mode c)) r (sock c) None), closed)
  end.

(** ** Connecting *)

Inductive connect_result := Connected | InProgress | Refused.

(** What happens for an address: [socket], the [fcntl] to the non-blocking mode,
    [connect], [poll] with [POLLOUT] in the answer, [getsockopt] and the error it
    tells, and the [fcntl] back to the blocking mode. *)
Record attempt := {
  a_socket : Z;
  a_nonblock : bool;
  a_connect : connect_result;
  a_poll : Z;
  a_pollout : bool;
  a_getsockopt : bool;
  a_error : Z;
  a_block : bool
}.

(** How an attempt ends: connected, with whether the socket blocks, or the next
    address, with whether the socket is closed. *)
Inductive attempt_end := Done (blocking : bool) | Next (close : bool).
Definition attempt_result (a : attempt) : attempt_end :=
  if a_socket a <? 0 then Next false
  else if negb (a_nonblock a) then Next true
  else match a_connect a with
  | Connected => Done false
  | Refused => Next true
  | InProgress =>
      if a_poll a <? 0 then Next true
      else if a_pollout a && a_getsockopt a then
        if a_error a =? 0 then (if negb (a_block a) then Next true else Done true) else Next true
      else Next true
  end.

(** The loop over the addresses: whether one is connected and blocks,
    [client->sock], and what was closed. *)
Fixpoint connect_tcp (l : list attempt) (s : Z) : option bool * Z * list Z :=
  match l with
  | [] => (None, s, [])
  | a :: l =>
      match attempt_result a with
      | Done b => (Some b, a_socket a, [])
      | Next c => let '(b, s, closed) := connect_tcp l (a_socket a) in (b, s, (if c then [a_socket a] else []) ++ closed)
      end
  end.

(** [strtok] with the delimiter ",": the token that begins at or behind [from], and
    the memory in which its end is marked; [None] inside: there is no token. *)
Definition COMMA : Z := 44.
Fixpoint span (p : Z -> bool) (l : bytes) : bytes * bytes :=
  match l with
  | x :: r => if p x then let '(a, b) := span p r in (x :: a, b) else ([], l)
  | [] => ([], [])
  end.
Definition strtok (mem : bytes) (from : nat) : option (option (bytes * bytes * nat)) :=
  let '(skipped, r) := span (Z.eqb COMMA) (drop from mem) in
  let '(token, r) := span (λ c, negb (c =? 0) && negb (c =? COMMA)) r in
  let at_end := (from + length skipped + length token)%nat in
  match r with
  | [] => None
  | c :: _ =>
      match token with
      | [] => Some None
      | _ => if c =? 0 then Some (Some (token, mem, at_end))
             else Some (Some (token, <[at_end := 0]> mem, S at_end))
      end
  end.

(** The loop over the multicast groups: [valid] is whether [inet_addr] takes an
    address, [join] whether the group can be joined.  The result is whether all
    groups were joined, the groups that were, and the memory of [servIP]. *)
Fixpoint join_groups (fuel : nat) (valid join : bytes -> bool) (mem : bytes) (from : nat) : option (bool * list bytes * bytes) :=
  match fuel with
  | O => None
  | S fuel =>
      t ← strtok mem from;
      match t with
      | None => Some (true, [], mem)
      | Some (token, mem, from) =>
          if negb (valid token) then Some (false, [], mem)
          else if negb (join token) then Some (false, [], mem)
          else '(ok, l, mem) ← join_groups fuel valid join mem from; Some (ok, token :: l, mem)
      end
  end.

(** What the system calls of a connection give. *)
Record network := {
  addresses : option (list attempt);     (** [getaddrinfo] *)
  open_serial : Z;
  is_serial : bool;
  setup_serial : Z;
  unix_socket : Z;
  unix_connect : bool;
  udp_socket : Z;
  udp_reuse : bool;
  udp_bind : bool;
  inet_addr : bytes -> bool;
  add_membership : bytes -> bool
}.

(** What a connection made besides the client: the closed descriptors, the joined
    groups, and whether the socket blocks. *)
Record effects := { closed : list Z; joined : list bytes; blocking : bool }.
Definition no_effects : effects := {| closed := []; joined := []; blocking := true |}.

(** [inr] with the type of the receiver: the connection is there. *)
Definition open_connection (N : network) (c : DltClient) : option (DltClient * effects * option Receiver.DltReceiverType) :=
  let failed c := Some (c, no_effects, None) in
  let opened c t := Some (c, no_effects, Some t) in
  let with_sock s := set_endpoint c (receiver c) s (servIP c) in
  match mode c with
  | DLT_CLIENT_MODE_TCP =>
      match addresses N with
      | None => failed c
      | Some l =>
          let '(b, s, cl) := connect_tcp l (sock c) in
          Some (with_sock s, {| closed := cl; joined := []; blocking := default true b |},
                match b with Some _ => Some Receiver.DLT_RECEIVE_SOCKET | None => None end)
      end
  | DLT_CLIENT_MODE_SERIAL =>
      let c := with_sock (open_serial N) in
      if open_serial N <? 0 then failed c
      else if negb (is_serial N) then failed c
      else if setup_serial N <? DLT_RETURN_OK then failed c
      else opened c Receiver.DLT_RECEIVE_FD
  | DLT_CLIENT_MODE_UNIX =>
      let c := with_sock (unix_socket N) in
      if unix_socket N =? -1 then failed c
      else
        _ ← socketPath c;
        if negb (unix_connect N) then failed c
        else if unix_socket N <? 0 then failed c
        else opened c Receiver.DLT_RECEIVE_SOCKET
  | DLT_CLIENT_MODE_UDP_MULTICAST =>
      let c := with_sock (udp_socket N) in
      if udp_socket N <? 0 then failed c
      else if negb (udp_reuse N) then failed c
      else if negb (udp_bind N) then failed c
      else match servIP c with
      | None => failed c
      | Some mem =>
          '(ok, l, mem) ← join_groups (S (length mem)) (inet_addr N) (add_membership N) mem 0;
          Some (set_endpoint c (receiver c) (sock c) (Some mem), {| closed := []; joined := l; blocking := true |},
                if (ok : bool) then Some Receiver.DLT_RECEIVE_UDP_SOCKET else None)
      end
  | DLT_CLIENT_MODE_UNDEFINED => failed c
  end.

(** [mem] is the buffer of the receiver. *)
Definition dlt_client_connect (A : allocator) (N : network) (client : option DltClient) (mem : bytes)
  : option (Z * option DltClient * effects * bytes) :=
  match client with
  | None => Some (DLT_RETURN_ERROR, None, no_effects, mem)
  | Some c =>
      '(c, e, t) ← open_connection N c;
      match t with
      | None => Some (DLT_RETURN_ERROR, Some c, e, mem)
      | Some t =>
          let '(rc, r, mem) := Receiver.dlt_receiver_init A (receiver c) mem (sock c) t Receiver.DLT_RECEIVE_BUFSIZE in
          let c := set_endpoint c r (sock c) (servIP c) in
          Some (if negb (rc =? DLT_RETURN_OK) then DLT_RETURN_ERROR else DLT_RETURN_OK, Some c, e, mem)
      end
  end.

(** ** Requests *)

(** The clock, the memory, and the uninitialised message on the stack. *)
Record env := {
  now_sec : Z;
  now_usec : Z;
  uptime : Z;
  heap : allocator;
  stack : Message.DltMessage
}.

(** Writes of several parts; a part that is written only in part counts as
    written. *)
Fixpoint send_parts (s : Z) (parts : list bytes) (o : os) : Z * os :=
  match parts with
  | [] => (DLT_RETURN_OK, o)
  | d :: parts =>
      let '(ret, o) := sys_write o s d in
      if ret <? 0 then (DLT_RETURN_ERROR, o) else send_parts s parts o
  end.

(** The parts of a message: the serial header, the headers and the payload. *)
Definition message_parts (c : DltClient) (m : Message.DltMessage) (db : bytes) : option (list bytes) :=
  hdr ← mread (Message.headerbuffer m) sizeof_DltStorageHeader (Message.headersize m - sizeof_DltStorageHeader);
  data ← mread db 0 (Message.datasize m);
  Some ((if send_serial_header c then [Message.dltSerialHeader] else []) ++ [hdr; data]).

Definition dlt_client_send_message_to_socket (client : option DltClient) (msg : option Message.DltMessage) (o : os)
  : option (Z * os) :=
  match client, msg with
  | Some c, Some m =>
      match Message.databuffer m with
      | None => Some (DLT_RETURN_ERROR, o)
      | Some db =>
          if sock c <? 0 then Some (DLT_RETURN_ERROR, o) else
          parts ← message_parts c m db;
          Some (send_parts (sock c) parts o)
      end
  | _, _ => Some (DLT_RETURN_ERROR, o)
  end.

(** [payload] holds at least [size] bytes.  The service is read again for a
    message on the console. *)
Definition dlt_client_send_ctrl_msg (E : env) (client : option DltClient) (apid ctid : option bytes) (payload : bytes) (size : Z)
  (o : os) : option (Z * os) :=
  match client, apid, ctid with
  | Some c, Some apid, Some ctid =>
      if sock c <? 0 then Some (DLT_RETURN_ERROR, o) else
      let '(rc, m) := Message.dlt_message_init (stack E) in
      if rc =? DLT_RETURN_ERROR then Some (DLT_RETURN_ERROR, o) else
      let datasize := i32 size in
      match malloc (heap E) (wrapu 64 datasize) with
      | None => Some (DLT_RETURN_ERROR, o)
      | Some db =>
          d ← mread payload 0 size;
          db ← mwrite db 0 d;
          let m := Message.set_databuffer (Message.set_sizes m (Message.headersize m) datasize) (Some db) datasize in
          ea ← is_empty apid;
          ec ← is_empty ctid;
          r ← control_headers_at (now_sec E) (now_usec E) (uptime E) [0] (ecuid c) DLT_MSIN_CONTROL_REQUEST 1
                (if (ea : bool) then DLT_CLIENT_DUMMY_APP_ID else apid) (if (ec : bool) then DLT_CLIENT_DUMMY_CON_ID else ctid) m;
          match r with
          | None => Some (DLT_RETURN_ERROR, o)
          | Some m =>
              match mode c with
              | DLT_CLIENT_MODE_TCP | DLT_CLIENT_MODE_SERIAL =>
                  parts ← message_parts c m db;
                  let '(rc, o) := send_parts (sock c) parts o in
                  if rc =? DLT_RETURN_ERROR then Some (DLT_RETURN_ERROR, o) else
                  _ ← mread db 0 4;
                  Some (DLT_RETURN_OK, o)
              | _ => dlt_client_send_message_to_socket (Some c) (Some m) o
              end
          end
      end
  | _, _, _ => Some (DLT_RETURN_ERROR, o)
  end.

(** A request that is built in allocated memory: [fill] assigns the fields. *)
Definition send_request (E : env) (client : option DltClient) (apid ctid : bytes) (req : option bytes)
  (fill : bytes -> option bytes) (o : os) : option (Z * os) :=
  match req with
  | None => Some (DLT_RETURN_ERROR, o)
  | Some mem =>
      mem ← fill mem;
      dlt_client_send_ctrl_msg E client (Some apid) (Some ctid) mem (zlen mem) o
  end.

(** [req->field = v] and [dlt_set_id(req->field, text)]. *)
Definition assign (off : Z) (v : bytes) (mem : bytes) : option bytes := mwrite mem off v.
Definition assign_id (off : Z) (text : option bytes) (mem : bytes) : option bytes :=
  old ← mread mem off 4;
  i ← dlt_set_id (Some old) text;
  v ← i;
  mwrite mem off v.

(** [if (client == NULL) return DLT_RETURN_ERROR;] *)
Definition checked (client : option DltClient) (o : os) (f : option (Z * os)) : option (Z * os) :=
  match client with None => Some (DLT_RETURN_ERROR, o) | Some _ => f end.

(** The memory of the payload is allocated with [8 + size] bytes, its length is
    given as a [uint32_t]. *)
Definition dlt_client_send_inject_msg (E : env) (client : option DltClient) (apid ctid : option bytes) (serviceID : Z)
  (buffer : bytes) (size : Z) (o : os) : option (Z * os) :=
  match malloc (heap E) (4 + 4 + size) with
  | None => Some (DLT_RETURN_ERROR, o)
  | Some payload =>
      payload ← mwrite payload 0 (le_bytes 4 serviceID);
      payload ← mwrite payload 4 (le_bytes 4 size);
      d ← mread buffer 0 size;
      payload ← mwrite payload 8 d;
      dlt_client_send_ctrl_msg E client apid ctid payload (u32 (4 + 4 + size)) o
  end.

(** Service, ids, level and "remo" of [DltServiceSetLogLevel]. *)
Definition fill_level (service : Z) (apid ctid : option bytes) (level : Z) (mem : bytes) : option bytes :=
  mem ← assign 0 (le_bytes 4 service) mem;
  mem ← assign_id 4 apid mem;
  mem ← assign_id 8 ctid mem;
  mem ← assign 12 [u8 level] mem;
  assign_id 13 (Some DLT_DAEMON_REMO_STRING) mem.
Definition dlt_client_send_log_level (E : env) (client : option DltClient) (apid ctid : option bytes) (logLevel : Z) (o : os)
  : option (Z * os) :=
  checked client o (send_request E client text_APP text_CON (Receiver.calloc (heap E) sizeof_DltServiceSetLogLevel)
    (fill_level DLT_SERVICE_ID_SET_LOG_LEVEL apid ctid logLevel) o).
Definition dlt_client_send_trace_status (E : env) (client : option DltClient) (apid ctid : option bytes) (traceStatus : Z) (o : os)
  : option (Z * os) :=
  send_request E client text_APP text_CON (Receiver.calloc (heap E) sizeof_DltServiceSetLogLevel)
    (fill_level DLT_SERVICE_ID_SET_TRACE_STATUS apid ctid traceStatus) o.

(** Service, options, empty ids and "remo". *)
Definition fill_log_info (mem : bytes) : option bytes :=
  mem ← assign 0 (le_bytes 4 DLT_SERVICE_ID_GET_LOG_INFO) mem;
  mem ← assign 4 [7] mem;
  mem ← assign_id 5 (Some [0]) mem;
  mem ← assign_id 9 (Some [0]) mem;
  assign_id 13 (Some DLT_DAEMON_REMO_STRING) mem.
Definition dlt_client_get_log_info (E : env) (client : option DltClient) (o : os) : option (Z * os) :=
  checked client o (send_request E client [0] [0] (malloc (heap E) sizeof_DltServiceGetLogInfoRequest) fill_log_info o).

Definition dlt_client_get_default_log_level (E : env) (client : option DltClient) (o : os) : option (Z * os) :=
  checked client o (send_request E client [0] [0] (malloc (heap E) 4)
    (assign 0 (le_bytes 4 DLT_SERVICE_ID_GET_DEFAULT_LOG_LEVEL)) o).

(** The result of [malloc] is not checked. *)
Definition dlt_client_get_software_version (E : env) (client : option DltClient) (o : os) : option (Z * os) :=
  checked client o
    (req ← malloc (heap E) 4;
     send_request E client [0] [0] (Some req) (assign 0 (le_bytes 4 DLT_SERVICE_ID_GET_SOFTWARE_VERSION)) o).

(** Service, level and "remo" of [DltServiceSetDefaultLogLevel]. *)
Definition fill_default (service level : Z) (mem : bytes) : option bytes :=
  mem ← assign 0 (le_bytes 4 service) mem;
  mem ← assign 4 [u8 level] mem;
  assign_id 5 (Some DLT_DAEMON_REMO_STRING) mem.
Definition send_default (E : env) (client : option DltClient) (service level : Z) (o : os) : option (Z * os) :=
  send_request E client text_APP text_CON (Receiver.calloc (heap E) sizeof_DltServiceSetDefaultLogLevel) (fill_default service level) o.
Definition dlt_client_send_default_log_level (E : env) (client : option DltClient) (defaultLogLevel : Z) : os -> option (Z * os) :=
  send_default E client DLT_SERVICE_ID_SET_DEFAULT_LOG_LEVEL defaultLogLevel.
Definition dlt_client_send_all_log_level (E : env) (client : option DltClient) (LogLevel : Z) : os -> option (Z * os) :=
  send_default E client DLT_SERVICE_ID_SET_ALL_LOG_LEVEL LogLevel.
Definition dlt_client_send_default_trace_status (E : env) (client : option DltClient) (defaultTraceStatus : Z) : os -> option (Z * os) :=
  send_default E client DLT_SERVICE_ID_SET_DEFAULT_TRACE_STATUS defaultTraceStatus.
Definition dlt_client_send_all_trace_status (E : env) (client : option DltClient) (traceStatus : Z) (o : os) : option (Z * os) :=
  checked client o (send_default E client DLT_SERVICE_ID_SET_ALL_TRACE_STATUS traceStatus o).

Definition dlt_client_send_timing_pakets (E : env) (client : option DltClient) (timingPakets : Z) (o : os) : option (Z * os) :=
  send_request E client text_APP text_CON (Receiver.calloc (heap E) sizeof_DltServiceSetVerboseMode)
    (λ mem, mem ← assign 0 (le_bytes 4 DLT_SERVICE_ID_SET_TIMING_PACKETS) mem; assign 4 [u8 timingPakets] mem) o.

Definition dlt_client_send_store_config (E : env) (client : option DltClient) (o : os) : option (Z * os) :=
  dlt_client_send_ctrl_msg E client (Some text_APP) (Some text_CON) (le_bytes 4 DLT_SERVICE_ID_STORE_CONFIG) 4 o.
Definition dlt_client_send_reset_to_factory_default (E : env) (client : option DltClient) (o : os) : option (Z * os) :=
  dlt_client_send_ctrl_msg E client (Some text_APP) (Some text_CON) (le_bytes 4 DLT_SERVICE_ID_RESET_TO_FACTORY_DEFAULT) 4 o.

(** ** The main loop *)

(** The loop over received messages: the messages handed to the callback are
    collected in [msgs].  The bytes that the parser skipped to find a message
    are not removed.  [false]: the bytes could not be removed. *)
Definition client_extent (m : Message.DltMessage) : Z :=
  let n := i32 (Message.headersize m + Message.datasize m - sizeof_DltStorageHeader) in
  if negb (Message.found_serialheader m =? 0) then i32 (n + 4) else n.
Fixpoint client_messages (fuel : nat) (A : allocator) (resync : bool) (mem : bytes) (m : Message.DltMessage) (r : Receiver.DltReceiver)
  : option (bool * list Message.DltMessage * Message.DltMessage * Receiver.DltReceiver) :=
  match fuel with
  | O => None
  | S fuel =>
      '(rc, m) ← Message.dlt_message_read A m ((λ b, drop (Z.to_nat b) mem) <$> Receiver.buf r) (u32 (Receiver.bytesRcvd r)) resync;
      if negb (rc =? Message.DLT_MESSAGE_ERROR_OK) then Some (true, [], m, r) else
      let '(rc, r) := Receiver.dlt_receiver_remove r (client_extent m) in
      if rc =? DLT_RETURN_ERROR then Some (false, [m], m, r) else
      '(ok, msgs, m', r) ← client_messages fuel A resync mem m r;
      Some (ok, m :: msgs, m', r)
  end.

(** [inputs] is what the successive calls of [recv] or [read] give; when they are
    used up the loop waits, without a result.  [fetch] is the answers of the callback that asks for
    more; [None]: it is not registered.  As many rounds as bytes are enough for
    the messages of one call. *)
Fixpoint receive_inputs (A : allocator) (fetch : option (nat -> bool)) (resync : bool) (inputs : list (option bytes)) (n : nat) (mem : bytes)
  (m : Message.DltMessage) (r : Receiver.DltReceiver)
  : option (option Z * list Message.DltMessage * Receiver.DltReceiver * bytes) :=
  match inputs with
  | [] => Some (None, [], r, mem)
  | input :: inputs =>
      '(ret, r, mem) ← Receiver.dlt_receiver_receive r mem input;
      if ret <=? 0 then Some (Some DLT_RETURN_TRUE, [], r, mem) else
      '(ok, msgs, m, r) ← client_messages (S (Z.to_nat ret)) A resync mem m r;
      if negb ok then Some (Some DLT_RETURN_ERROR, msgs, r, mem) else
      '(rc, r) ← Receiver.dlt_receiver_move_to_begin A r mem;
      if rc =? DLT_RETURN_ERROR then Some (Some DLT_RETURN_ERROR, msgs, r, mem) else
      if match fetch with None => true | Some f => f n end
      then '(rc, msgs', r, mem) ← receive_inputs A fetch resync inputs (S n) mem m r; Some (rc, msgs ++ msgs', r, mem)
      else Some (Some DLT_RETURN_OK, msgs, r, mem)
  end.

Definition dlt_client_main_loop (E : env) (fetch : option (nat -> bool)) (inputs : list (option bytes)) (client : option DltClient) (mem : bytes)
  : option (option Z * list Message.DltMessage * option DltClient * bytes) :=
  match client with
  | None => Some (Some DLT_RETURN_ERROR, [], None, mem)
  | Some c =>
      let '(rc, m) := Message.dlt_message_init (stack E) in
      if rc =? DLT_RETURN_ERROR then Some (Some DLT_RETURN_ERROR, [], Some c, mem) else
      '(rc, msgs, r, mem) ← receive_inputs (heap E) fetch (resync_serial_header c) inputs 0 mem m (receiver c);
      Some (rc, msgs, Some (set_endpoint c r (sock c) (servIP c)), mem)
  end.

End Client.
