(* ===== verification/ClientSpec.v ===== *)
(** * What the client library hands to its callback, and how it connects

    The main loop hands every complete message that arrives to the callback, in
    order and however the bytes are cut into pieces by the connection; with the
    search for the serial header switched on a message behind other bytes is
    handed over twice.  A connection is made with the first address that answers,
    or with all the multicast groups. *)

From stdpp Require Import base sets list list_numbers numbers option.
From Stdlib Require Import ZArith Lia Bool.
From S2P Require Import Prelude Protocol Ids Message MessageSpec Receiver ReceiverSpec.
From S2P Require Import DaemonTables DaemonHandlersSpec DaemonUserSpec DaemonClientSpec Client.
Import Protocol Ids Message MessageSpec.
Import Receiver (DltReceiver, buf, bytesRcvd, buffersize, dlt_receiver_remove).
Import ReceiverSpec (pending, pending_len, carried).
Import DaemonHandlersSpec DaemonClientSpec Client.

Local Open Scope Z_scope.

Module ClientSpec.

(** ** Messages over several receives *)

(** Messages stay where they are when more bytes follow. *)
Lemma parsed_app resync p q Ms rest Ms' rest' :
  parsed resync p Ms rest -> parsed resync (rest ++ q) Ms' rest' -> parsed resync (p ++ q) (Ms ++ Ms') rest'.
Proof.
  induction 1 as [|pre M q' Ms rest Hsp WM Hp IH]; intros H'; [done|]. rewrite <-!app_assoc. cbn [app]. constructor; [|done|by apply IH].
  assert (4 <= message_len M) as H4 by (unfold message_len; lia). pose proof (length_encode M).
  replace (pre ++ encode M ++ q' ++ q) with ((pre ++ encode M ++ q') ++ q) by (by rewrite <-!app_assoc).
  apply sync_point_app; rewrite ?length_app; done || lia.
Qed.
Lemma parsed_suffix resync p Ms rest : parsed resync p Ms rest -> ∃ k, p = k ++ rest.
Proof.
  induction 1 as [|pre M q Ms rest Hsp WM Hp (k & IH)]; [by exists []|]. exists (pre ++ encode M ++ k). by rewrite IH at 1; rewrite <-!app_assoc.
Qed.

(** Bytes are skipped only by the search for the serial header. *)
Lemma read_offset A m b n resync rc m' : 0 <= n <= zlen b -> n < 2147483648 ->
  dlt_message_read A m (Some b) n resync = Some (rc, m') -> rc = DLT_MESSAGE_ERROR_OK ->
  0 <= resync_offset m' ∧ if resync then found_serialheader m' = 1 else resync_offset m' = 0.
Proof.
  unfold dlt_message_read. intros Hn Hn2 H Hrc. destruct (n <=? 0); [by subst|]. destruct (Z.ltb_spec n 4); [by injection H as <- <-|].
  unbind H as q Ep. destruct q as [[m1 pos] n1].
  assert (n1 = 3 ∨ 0 <= resync_offset m1 ∧ if resync then found_serialheader m1 = 1 else resync_offset m1 = 0) as H1.
  { unfold read_sync in Ep. unbind Ep as h Eh. case_bool_decide; [injection Ep as <- _ _; right; cbn; by destruct resync|].
    destruct resync; [|injection Ep as <- _ _; right; cbn; lia]. unbind Ep as x Ex. destruct x as [f o].
    destruct (resync_loop_total (S (Z.to_nat n)) b n 0) as (f' & o' & E' & Hfo & _); [lia..|]. rewrite Ex in E'. injection E' as <- <-.
    destruct f, (Z.ltb_spec 0 o); injection Ep as <- _ <-; cbn; [right; lia|right; lia| |lia]. left. cint. lia. }
  unbind H as q Ep2. destruct q as [rc2 m2]. pose proof (read_headers_sync _ _ _ _ _ _ Ep2) as [A1 B1].
  destruct (Z.eqb_spec rc2 DLT_MESSAGE_ERROR_OK) as [->|]; [|by injection H as -> <-].
  apply read_payload_sync in H as [A2 B2]. rewrite A2, B2, A1, B1. destruct H1 as [->|H1]; [by unfold read_headers in Ep2|done].
Qed.

(** The bytes that the client removes. *)
Lemma client_extent_of m M : holds m M -> wf_message M -> client_extent m = sync_extent m - resync_offset m + message_len M.
Proof.
  intros H WM. pose proof (holds_sizes _ _ H) as Hsz. rewrite length_encode in Hsz. pose proof (wm_len _ WM).
  assert (4 <= message_len M) by (unfold message_len; lia). unfold client_extent, sizeof_DltStorageHeader, sync_extent. cint.
  destruct (found_serialheader m =? 0); cbn [negb]; cint; lia.
Qed.

(** A round of the loop: nothing is complete, or a message is handed over and as
    many bytes are removed as it has with its serial header. *)
Lemma client_round A resync mem m r p : heap_ok A -> is_bytes mem -> pending r mem p -> wf m ->
  (∃ m', incomplete resync p ∧ wf m' ∧ ∀ fuel, client_messages (S fuel) A resync mem m r = Some (true, [], m', r)) ∨
  (∃ pre M q m' r1 skipped, p = pre ++ encode M ++ q ∧ sync_point p resync (zlen pre) ∧ wf_message M ∧ holds m' M ∧ wf m' ∧
     pending r1 mem (drop (Z.to_nat (zlen pre - skipped + message_len M)) p) ∧ 0 <= skipped ∧
     skipped = (if resync then zlen pre - 4 else 0) ∧
     ∀ fuel, client_messages (S fuel) A resync mem m r =
       ('(ok, msgs, m2, r) ← client_messages fuel A resync mem m' r1; Some (ok, m' :: msgs, m2, r))).
Proof.
  intros HA Bm P W. cbn [client_messages].
  destruct (pending_read A resync mem r m p HA Bm P W) as [(rc & m' & Hi & W' & Hne & ->)|(pre & M & q & m' & Ep & Hsp & WM & Hm & W' & Hx & Hl & Er)].
  { left. exists m'. split_and!; try done. intros. bsimp. by rewrite eqb_false by done. }
  right. destruct (pending_split _ _ _ P) as (a & post & Em & Hb & Hlen & Hs).
  assert (zlen p <= zlen mem) as Hpm by (rewrite Em, !length_app; lia).
  rewrite Er. rewrite Hb in Er. cbn [fmap option_fmap option_map] in Er. rewrite Hlen, u32_small in Er by lia.
  apply read_offset in Er as [H0 Ho]; [|rewrite length_drop, Em, !length_app; lia|lia|done].
  pose proof (length_encode M) as Le. assert (4 <= message_len M) as H4 by (unfold message_len; lia).
  assert (resync_offset m' <= zlen pre) as Hle by (unfold sync_extent in Hx; destruct (_ =? 0); lia).
  set (n := zlen pre - resync_offset m' + message_len M). pose proof (f_equal length Ep) as Lp. rewrite !length_app in Lp.
  pose proof P as P'. rewrite <-(take_drop (Z.to_nat n) p) in P'.
  destruct (remove_pending _ _ _ _ P') as (r1 & Erem & P1 & _); [rewrite length_take; lia|].
  replace (zlen (take (Z.to_nat n) p)) with n in Erem by (rewrite length_take; lia).
  exists pre, M, q, m', r1, (resync_offset m'). split_and!; try done.
  - destruct resync; [|done]. unfold sync_extent in Hx. rewrite Ho in Hx. cbn in Hx. lia.
  - intros fuel. bsimp. cbn [negb Z.eqb DLT_MESSAGE_ERROR_OK]. rewrite (client_extent_of m' M Hm WM), Hx. fold n. rewrite Erem. done.
Qed.

(** Messages that were handed over and what they were received as. *)
Definition delivered (msgs : list DltMessage) (Ms : list message) : Prop := Forall2 holds msgs Ms.

Section loop.
Context (A : allocator).
Hypothesis HA : heap_ok A.

Lemma client_messages_sound mem fuel : is_bytes mem -> ∀ m r p, pending r mem p -> wf m -> (length p < fuel)%nat ->
  ∃ Ms msgs rest m' r', client_messages fuel A false mem m r = Some (true, msgs, m', r') ∧ parsed false p Ms rest ∧
    incomplete false rest ∧ pending r' mem rest ∧ wf m' ∧ delivered msgs Ms.
Proof.
  intros Bm. induction fuel as [|fuel IH]; intros m r p P W Hf; [lia|].
  destruct (client_round A false mem m r p HA Bm P W) as [(m' & Hi & W' & ->)|(pre & M & q & m' & r1 & k & -> & Hsp & WM & Hm & W' & P1 & _ & Hk & ->)].
  { exists [], [], p, m', r. split_and!; try done; constructor. }
  subst k. pose proof (length_encode M) as Le. assert (4 <= message_len M) as H4 by (unfold message_len; lia).
  assert (drop (Z.to_nat (zlen pre - 0 + message_len M)) (pre ++ encode M ++ q) = q) as Eq.
  { rewrite app_assoc. apply drop_app_length'. rewrite length_app. lia. }
  rewrite Eq in P1. destruct (IH m' r1 q P1 W') as (Ms & msgs & rest & m2 & r2 & -> & Hp & Hi & P2 & W2 & D); [rewrite !length_app in Hf; lia|].
  bsimp. exists (M :: Ms), (m' :: msgs), rest, m2, r2. split_and!; try done; by constructor.
Qed.

(** The loop ends in any case, also with the search. *)
Lemma client_messages_total resync mem fuel : is_bytes mem -> ∀ m r p, pending r mem p -> wf m -> (length p < fuel)%nat ->
  ∃ msgs m' r', client_messages fuel A resync mem m r = Some (true, msgs, m', r').
Proof.
  intros Bm. induction fuel as [|fuel IH]; intros m r p P W Hf; [lia|].
  destruct (client_round A resync mem m r p HA Bm P W) as [(m' & Hi & W' & ->)|(pre & M & q & m' & r1 & k & Ep & Hsp & WM & Hm & W' & P1 & H0 & Hk & ->)];
    [by eexists _, _, _|]. assert (4 <= message_len M) as H4 by (unfold message_len; lia). pose proof (length_encode M).
  destruct (IH m' r1 _ P1 W') as (msgs & m2 & r2 & ->); [|bsimp; by eexists _, _, _].
  pose proof (f_equal length Ep) as Lp. rewrite !length_app in Lp. rewrite length_drop. destruct resync; lia.
Qed.

(** What a message in memory says, up to the fields its header does not have. *)
Definition tells (m : DltMessage) (M : message) : Prop :=
  ∃ M', holds m M' ∧ m_htyp M' = m_htyp M ∧ ext M' = ext M ∧ m_payload M' = m_payload M.

(** The round at a serial header behind other bytes. *)
Lemma searched_round mem m r g M q : is_bytes mem -> wf m -> wf_message M ->
  let p := g ++ dltSerialHeader ++ encode M ++ q in
  pending r mem p -> g <> [] -> (∀ k, 0 <= k < zlen g -> ¬ serial_at p k) ->
  ∃ m' r1, tells m' M ∧ wf m' ∧ pending r1 mem (drop (Z.to_nat (4 + message_len M)) p) ∧
    ∀ fuel, client_messages (S fuel) A true mem m r =
      ('(ok, msgs, m2, r) ← client_messages fuel A true mem m' r1; Some (ok, m' :: msgs, m2, r)).
Proof.
  intros Bm W WM p P Hg Hno. assert (p = (g ++ dltSerialHeader) ++ encode M ++ q) as Ep by (unfold p; by rewrite <-!app_assoc).
  assert (sync_point p true (zlen (g ++ dltSerialHeader))) as Hsp.
  { rewrite length_app, Nat2Z.inj_add. apply sp_resync; [apply (mread_mid g); done|destruct g; [done|cbn; lia]|done]. }
  destruct (client_round A true mem m r p HA Bm P W) as [(m' & Hi & _)|(pre & M' & q' & m' & r1 & k & Ep' & Hsp' & WM' & Hm & W' & P1 & _ & -> & Hrun)].
  { exfalso. by apply (Hi _ _ _ Ep WM). }
  pose proof (sync_point_unique _ _ _ _ Hsp Hsp') as El. pose proof Ep' as Eq. rewrite Ep in Eq. apply app_inj_1 in Eq as [<- Eq]; [|lia].
  apply encode_front in Eq as (Hh & He & Hpl & _); [|done..]. exists m', r1. split_and!; try done; [by exists M'|].
  assert (message_len M' = message_len M) as <-.
  { unfold message_len. rewrite He, Hpl. pose proof (length_extra _ WM). pose proof (length_extra _ WM'). rewrite Hh in *. lia. }
  replace (4 + message_len M') with (zlen (g ++ dltSerialHeader) - (zlen (g ++ dltSerialHeader) - 4) + message_len M') by lia. done.
Qed.

(** With the search for the serial header, a message behind enough bytes that are
    no message is handed over twice: the skipped bytes are not removed with it. *)
Theorem skipped_bytes_repeat_message mem m r g M fuel : is_bytes mem -> wf m -> wf_message M ->
  let p := g ++ dltSerialHeader ++ encode M in
  pending r mem p -> 4 + message_len M < zlen g -> (∀ k, 0 <= k < zlen g -> ¬ serial_at p k) -> (length p < fuel)%nat ->
  ∃ m1 m2 msgs m' r', client_messages fuel A true mem m r = Some (true, m1 :: m2 :: msgs, m', r') ∧ tells m1 M ∧ tells m2 M.
Proof.
  intros Bm W WM p P Hg Hno Hf. pose proof (length_encode M) as Le. assert (4 <= message_len M) as H4 by (unfold message_len; lia).
  assert (p = g ++ dltSerialHeader ++ encode M ++ []) as Ep by (unfold p; by rewrite app_nil_r). pose proof (f_equal length Ep) as Lp. rewrite !length_app in Lp. cbn [length] in Lp.
  destruct fuel as [|[|fuel]]; [lia..|]. rewrite Ep in P, Hno.
  destruct (searched_round mem m r g M [] Bm W WM P) as (m1 & r1 & T1 & W1 & P1 & ->); [intros ->; cbn in Hg; lia|done|].
  rewrite drop_app_le in P1 by lia. set (g2 := drop (Z.to_nat (4 + message_len M)) g) in *.
  assert (∀ k, 0 <= k < zlen g2 -> ¬ serial_at (g2 ++ dltSerialHeader ++ encode M ++ []) k) as Hno2.
  { intros k Hk Hs. unfold g2 in Hk. rewrite length_drop in Hk. apply (Hno (k + (4 + message_len M)) ltac:(lia)). unfold serial_at in *.
    replace (g ++ dltSerialHeader ++ encode M ++ []) with (take (Z.to_nat (4 + message_len M)) g ++ (g2 ++ dltSerialHeader ++ encode M ++ []))
      by (by rewrite app_assoc; unfold g2; rewrite take_drop).
    set (t := g2 ++ _) in *. unfold mread in *. destruct (Z.leb_spec 0 k); [|done]. rewrite (leb_true 0 (k + _)) by lia. cbn [andb] in *.
    rewrite length_app, length_take. destruct (Z.leb_spec (k + 4) (zlen t)); [|done]. rewrite leb_true by lia.
    rewrite drop_app_ge by (rewrite length_take; lia). rewrite length_take. injection Hs as <-. rewrite (leb_true (k + _ + 4)) by lia. cbn [andb]. do 3 f_equal. lia. }
  destruct (searched_round mem m1 r1 g2 M [] Bm W1 WM P1) as (m2 & r2 & T2 & W2 & P2 & ->); [|done|].
  { intros E2. apply (f_equal length) in E2. unfold g2 in E2. rewrite length_drop in E2. cbn in E2. lia. }
  destruct (client_messages_total true mem fuel Bm m2 r2 _ P2 W2) as (msgs & m' & r' & ->);
    [unfold g2; rewrite length_drop, !length_app, length_drop; cbn [length]; lia|].
  bsimp. by eexists m1, m2, msgs, m', r'.
Qed.

(** Every piece has room in the buffer behind what is left of the earlier ones. *)
Fixpoint fits (size : Z) (p : bytes) (ds : list bytes) : Prop :=
  match ds with
  | [] => True
  | d :: ds => 0 < zlen d ∧ zlen p + zlen d <= size ∧
      ∀ Ms rest, parsed false (p ++ d) Ms rest -> incomplete false rest -> fits size rest ds
  end.
Lemma fits_small size ds : ∀ p, zlen (p ++ concat ds) <= size -> Forall (λ d, d <> []) ds -> fits size p ds.
Proof.
  induction ds as [|d ds IH]; intros p Hl Hne; [done|]. inversion Hne as [|? ? Hd Hne']; subst. cbn [fits concat] in *. rewrite !length_app in Hl.
  split_and!; [destruct d; [done|cbn; lia]|lia|]. intros Ms rest Hp _. apply IH; [|done]. apply parsed_suffix in Hp as (k & Ek).
  apply (f_equal length) in Ek. rewrite !length_app in *. lia.
Qed.

(** Asked for more after every receive. *)
Definition asks (fetch : option (nat -> bool)) : Prop := match fetch with None => True | Some f => ∀ n, f n = true end.
Lemma asks_next fetch n : asks fetch -> match fetch with None => true | Some f => f n end = true.
Proof. by destruct fetch. Qed.

(** The connection ends with an error or is closed. *)
Definition closing (last : option bytes) : Prop := last = None ∨ last = Some [].

Lemma receive_closed r mem p last : carried r mem p -> closing last ->
  ∃ r' mem', Receiver.dlt_receiver_receive r mem last = Some (0, r', mem').
Proof.
  intros C H. unfold Receiver.dlt_receiver_receive. rewrite (ReceiverSpec.i_buffer _ _ (ReceiverSpec.c_inv _ _ _ C)). cbn [negb].
  destruct C as [[Hb Hm Hs] Hl Hf Hd]. unfold Receiver.restore_backup. cbn [Receiver.backup_buf Receiver.set_counts Receiver.set_buf Receiver.lastBytesRcvd].
  assert (∃ r' mem', (match Receiver.backup_buf r with
    | Some b => if bytesRcvd r =? 0 then Some (Receiver.set_counts (Receiver.set_buf r (Some 0)) (bytesRcvd r) (bytesRcvd r) (Receiver.totalBytesRcvd r), mem)
                else d ← mread b 0 (bytesRcvd r); mem' ← mwrite mem 0 d;
                  Some (Receiver.set_backup (Receiver.set_counts (Receiver.set_buf r (Some 0)) (bytesRcvd r) (bytesRcvd r) (Receiver.totalBytesRcvd r)) None, mem')
    | None => Some (Receiver.set_counts (Receiver.set_buf r (Some 0)) (bytesRcvd r) (bytesRcvd r) (Receiver.totalBytesRcvd r), mem) end) = Some (r', mem')
    ∧ Receiver.lastBytesRcvd r' = zlen p ∧ zlen mem' = zlen mem) as (r' & mem' & -> & Hlast & Lm).
  { destruct (Receiver.backup_buf r) as [b|]; [|by eexists _, _]. destruct (_ =? 0); [by eexists _, _|]. destruct Hd as [Hr _]. rewrite Hl, Hr. bsimp.
    destruct (mwrite_total mem 0 p) as (mem1 & -> & L1); [lia..|]. bsimp. eexists _, _. split_and!; [done|done|lia]. }
  bsimp. destruct H as [->|Hlast']; [by cbn; eexists _, _|]. rewrite Hlast', Hlast. rewrite mwrite_Some by (cbn; lia). bsimp. by cbn; eexists _, _.
Qed.

Lemma receive_inputs_sound fetch last : asks fetch -> closing last -> ∀ ds n mem m r p,
  carried r mem p -> is_bytes mem -> is_bytes p -> incomplete false p -> Forall is_bytes ds -> wf m -> buffersize r < 2147483647 ->
  fits (buffersize r) p ds ->
  ∃ Ms msgs rest r' mem', receive_inputs A fetch false ((Some <$> ds) ++ [last]) n mem m r = Some (Some DLT_RETURN_TRUE, msgs, r', mem') ∧
    parsed false (p ++ concat ds) Ms rest ∧ incomplete false rest ∧ delivered msgs Ms.
Proof.
  intros Ha Hc ds. induction ds as [|d ds IH]; intros n mem m r p C Bm Bp Hi Bds W Hs Hfit.
  { cbn [fmap list_fmap app receive_inputs concat]. rewrite app_nil_r. destruct (receive_closed r mem p last C Hc) as (r' & mem' & ->). bsimp.
    exists [], [], p, r', mem'. split_and!; try done; constructor. }
  apply Forall_cons_iff in Bds as [Bd Bds]. cbn [fits] in Hfit. destruct Hfit as (Hd0 & Hroom & Hnext).
  rewrite fmap_cons. cbn [app receive_inputs concat].
  destruct (ReceiverSpec.receive_pending r mem p d C Hd0 Hroom) as (r1 & mem1 & Er & P & Hb1). rewrite Er. bsimp. rewrite (leb_false _ 0) by lia.
  pose proof (DaemonUserSpec.receive_is_bytes _ _ _ _ _ _ _ C Bp Bm Bd Er) as Bm1.
  destruct (client_messages_sound mem1 (S (Z.to_nat (zlen p + zlen d))) Bm1 m r1 (p ++ d) P W) as (Ms & msgs & rest & m2 & r2 & -> & Hp & Hi2 & P2 & W2 & D);
    [rewrite length_app; lia|]. bsimp. cbn [negb].
  pose proof (ReceiverSpec.i_mem _ _ (ReceiverSpec.p_inv _ _ _ P)) as Hm1. pose proof (ReceiverSpec.i_mem _ _ (ReceiverSpec.p_inv _ _ _ P2)) as Hm2.
  destruct (parsed_suffix _ _ _ _ Hp) as (k & Ek). pose proof (f_equal length Ek) as Lk. rewrite !length_app in Lk.
  destruct (ReceiverSpec.move_carried A r2 mem1 rest HA P2) as (r3 & -> & C3 & Hb3); [lia|]. bsimp. cbn [Z.eqb DLT_RETURN_OK DLT_RETURN_ERROR].
  rewrite asks_next by done.
  assert (is_bytes (k ++ rest)) as Br by (rewrite <-Ek, is_bytes_app; done). rewrite is_bytes_app in Br.
  destruct (IH (S n) mem1 m2 r3 rest) as (Ms' & msgs' & rest' & r' & mem' & -> & Hp' & Hi' & D'); try done; [tauto|lia|rewrite Hb3, <-Hm2, Hm1, Hb1; by apply (Hnext Ms)|].
  bsimp. exists (Ms ++ Ms'), (msgs ++ msgs'), rest', r', mem'. split_and!; try done; [|by apply Forall2_app].
  rewrite app_assoc. by apply (parsed_app _ _ _ _ rest).
Qed.

End loop.

(** The message on the stack is not initialised. *)
Record wf_env (E : env) : Prop := {
  we_hb : zlen (headerbuffer (stack E)) = 42;
  we_hb_bytes : is_bytes (headerbuffer (stack E));
  we_ecu : length (ecu (headerextra (stack E))) = 4%nat;
  we_seid : 0 <= seid (headerextra (stack E)) < 4294967296;
  we_uptime : 0 <= uptime E < 4294967296
}.

Lemma main_loop_sound E c fetch mem ds last :
  heap_ok (heap E) -> wf_env E -> resync_serial_header c = false -> asks fetch -> closing last ->
  carried (receiver c) mem [] -> is_bytes mem -> Forall is_bytes ds -> buffersize (receiver c) < 2147483647 -> fits (buffersize (receiver c)) [] ds ->
  ∃ Ms msgs rest c' mem', dlt_client_main_loop E fetch ((Some <$> ds) ++ [last]) (Some c) mem = Some (Some DLT_RETURN_TRUE, msgs, Some c', mem') ∧
    parsed false (concat ds) Ms rest ∧ incomplete false rest ∧ delivered msgs Ms.
Proof.
  intros HA W Hr Ha Hc C Bm Bds Hs Hfit. unfold dlt_client_main_loop. cbn [dlt_message_init Z.eqb DLT_RETURN_OK DLT_RETURN_ERROR]. rewrite Hr.
  set (m := set_pointers _ _ _ _).
  destruct (receive_inputs_sound (heap E) HA fetch last Ha Hc ds 0 mem m (receiver c) []) as (Ms & msgs & rest & r' & mem' & -> & Hp & Hi & D); try done.
  - constructor.
  - intros pre M q Hnil WM. apply (f_equal length) in Hnil. rewrite !length_app in Hnil. pose proof (length_encode M). cbn in Hnil.
    assert (4 <= message_len M) by (unfold message_len; lia). lia.
  - by destruct W; split.
  - bsimp. by eexists Ms, msgs, rest, _, mem'.
Qed.

(** C21: Whatever a daemon sends and however the connection cuts it into pieces, the
    main loop hands exactly the complete messages in it to the callback, in their
    order, and returns when the connection ends; what is left over is no message.
    The client does not search for serial headers ([resync_serial_header] is off, see
    [skipped_bytes_repeat_message]), and a piece with what was left over before it
    fits its buffer. *)
Theorem main_loop_delivers E c fetch mem ds last :
  heap_ok (heap E) -> wf_env E -> resync_serial_header c = false -> asks fetch -> closing last ->
  carried (receiver c) mem [] -> is_bytes mem -> Forall is_bytes ds -> buffersize (receiver c) < 2147483647 -> fits (buffersize (receiver c)) [] ds ->
  ∃ Ms msgs rest c' mem', dlt_client_main_loop E fetch ((Some <$> ds) ++ [last]) (Some c) mem = Some (Some DLT_RETURN_TRUE, msgs, Some c', mem') ∧
    parsed false (concat ds) Ms rest ∧ incomplete false rest ∧ delivered msgs Ms.
Proof. apply main_loop_sound. Qed.

(** ** Connections *)

(** The address does not answer; its socket is closed if there is one. *)
Definition silent (a : attempt) : Prop := ∃ c, attempt_result a = Next c.
Definition sockets (l : list attempt) : list Z := filter (λ s, 0 <= s) (a_socket <$> l).

Lemma silent_closes a c : attempt_result a = Next c -> c = (0 <=? a_socket a).
Proof.
  unfold attempt_result. destruct (Z.ltb_spec (a_socket a) 0); [intros [= <-]; by rewrite leb_false by lia|]. rewrite leb_true by lia.
  repeat case_match; congruence.
Qed.
Lemma sockets_cons a l : sockets (a :: l) = (if 0 <=? a_socket a then [a_socket a] else []) ++ sockets l.
Proof. unfold sockets. rewrite fmap_cons, filter_cons. case_decide; [by rewrite leb_true by lia|by rewrite leb_false by lia]. Qed.

Lemma silent_skipped l1 l2 s : Forall silent l1 ->
  connect_tcp (l1 ++ l2) s = (let '(b, s', closed) := connect_tcp l2 (default s (list.last (a_socket <$> l1))) in (b, s', sockets l1 ++ closed)).
Proof.
  intros H. revert s. induction H as [|a l1 (c & Hc) H IH]; intros s; [cbn; by destruct (connect_tcp l2 s) as [[b s'] cl]|].
  cbn [app connect_tcp]. rewrite Hc, IH, sockets_cons, (silent_closes _ _ Hc). rewrite fmap_cons, last_cons. destruct (list.last (a_socket <$> l1)); cbn [default from_option id];
    destruct (connect_tcp l2 _) as [[b s'] cl]; by rewrite <-app_assoc.
Qed.

(** The connection is made with the first address that answers; the sockets of
    the addresses before it are closed, and no others. *)
Theorem first_answer_connects l1 a l2 b s : Forall silent l1 -> attempt_result a = Done b ->
  connect_tcp (l1 ++ a :: l2) s = (Some b, a_socket a, sockets l1).
Proof. intros H Ha. rewrite silent_skipped by done. cbn [connect_tcp]. rewrite Ha. by rewrite app_nil_r. Qed.

(** When no address answers the client keeps the closed descriptor, and its cleanup
    closes it again. *)
Theorem failed_connection_closes_twice A N c mem l a :
  mode c = DLT_CLIENT_MODE_TCP -> addresses N = Some (l ++ [a]) -> Forall silent l -> silent a -> 0 <= a_socket a ->
  ∃ c' e, dlt_client_connect A N (Some c) mem = Some (DLT_RETURN_ERROR, Some c', e, mem) ∧ a_socket a ∈ closed e ∧
    (dlt_client_cleanup (Some c')).2 = [a_socket a].
Proof.
  intros Hm Hl Hs Ha H0. unfold dlt_client_connect, open_connection. rewrite Hm, Hl.
  assert (connect_tcp (l ++ [a]) (sock c) = (None, a_socket a, sockets (l ++ [a]))) as ->.
  { assert (Forall silent (l ++ [a])) as Hall by (apply Forall_app; split; [done|by constructor]).
    pose proof (silent_skipped (l ++ [a]) [] (sock c) Hall) as E. rewrite !app_nil_r in E. rewrite E. cbn [connect_tcp].
    by rewrite fmap_app, last_app, app_nil_r. }
  bsimp. do 2 eexists. split; [done|]. split.
  - cbn [closed]. unfold sockets. rewrite fmap_app. apply list_elem_of_filter. split; [done|]. apply elem_of_app. right. by apply list_elem_of_singleton.
  - unfold dlt_client_cleanup. cbn [sock set_endpoint]. rewrite eqb_false by lia. done.
Qed.

(** *** Multicast groups *)

(** Names separated by [s], with the terminator. *)
Fixpoint separated (s : Z) (ts : list bytes) : bytes :=
  match ts with
  | [] => [0]
  | [t] => t ++ [0]
  | t :: ts => t ++ s :: separated s ts
  end.
Definition group_name (t : bytes) : Prop := t <> [] ∧ Forall (λ c, c <> 0 ∧ c <> COMMA) t.

Lemma span_all p (t r : bytes) : Forall (λ c, p c = true) t -> (∀ c r', r = c :: r' -> p c = false) -> span p (t ++ r) = (t, r).
Proof.
  intros H Hr. induction H as [|x t Hx H IH]; cbn [span app]; [|by rewrite Hx, IH].
  destruct r as [|c r]; [done|]. cbn [span]. by rewrite (Hr c r).
Qed.
Lemma strtok_name done t c r : group_name t -> c = 0 ∨ c = COMMA ->
  strtok (done ++ t ++ c :: r) (length done) =
    Some (Some (t, if c =? 0 then done ++ t ++ c :: r else done ++ t ++ 0 :: r, if c =? 0 then length (done ++ t) else length (done ++ t ++ [0]))).
Proof.
  intros [Hne Ht] Hc. unfold strtok. rewrite drop_app_length.
  assert (span (Z.eqb COMMA) (t ++ c :: r) = ([], t ++ c :: r)) as ->.
  { destruct t as [|x t]; [done|]. inversion Ht as [|? ? [_ Hx] _]; subst. cbn [app span]. by rewrite eqb_false by congruence. }
  rewrite (span_all _ t (c :: r)).
  - cbn [length]. rewrite Nat.add_0_r. destruct t as [|x t]; [done|]. destruct Hc as [->| ->]; cbn [Z.eqb COMMA]; [by rewrite length_app|].
    do 3 f_equal; [f_equal|rewrite !length_app; cbn [length]; lia]. rewrite <-length_app, app_assoc, insert_app_r_alt by lia. by rewrite Nat.sub_diag, <-app_assoc.
  - eapply list.Forall_impl; [exact Ht|]. intros x [H1 H2]. cbn beta. by rewrite !eqb_false by done.
  - intros c' r' [= <- _]. by destruct Hc as [->| ->].
Qed.
Lemma strtok_end done r : strtok (done ++ 0 :: r) (length done) = Some None.
Proof. unfold strtok. by rewrite drop_app_length. Qed.

Lemma groups_all_joined valid join ts : Forall group_name ts -> Forall (λ t, valid t = true ∧ join t = true) ts -> ∀ fuel done,
  (length ts < fuel)%nat -> join_groups fuel valid join (done ++ separated COMMA ts) (length done) = Some (true, ts, done ++ separated 0 ts).
Proof.
  intros H Hv. induction H as [|t ts Ht H IH]; intros fuel done Hf; (destruct fuel as [|fuel]; [cbn in Hf; lia|]); cbn [join_groups].
  { cbn [separated]. by rewrite strtok_end. }
  inversion Hv as [|? ? [V J] Hv']; subst. destruct ts as [|t2 ts].
  - cbn [separated]. rewrite (strtok_name done t 0 []) by (done || by left). bsimp. rewrite V, J. cbn [negb Z.eqb]. rewrite app_assoc.
    destruct fuel as [|fuel]; [cbn in Hf; lia|]. cbn [join_groups]. rewrite (strtok_end (done ++ t)). done.
  - change (separated COMMA (t :: t2 :: ts)) with (t ++ COMMA :: separated COMMA (t2 :: ts)).
    change (separated 0 (t :: t2 :: ts)) with (t ++ 0 :: separated 0 (t2 :: ts)).
    rewrite strtok_name by (done || by right). bsimp. rewrite V, J. cbn [negb Z.eqb COMMA].
    replace (done ++ t ++ 0 :: separated COMMA (t2 :: ts)) with ((done ++ t ++ [0]) ++ separated COMMA (t2 :: ts)) by (by rewrite <-!app_assoc).
    rewrite (IH Hv') by (cbn in *; lia). bsimp. by rewrite <-!app_assoc.
Qed.

Definition multicast_ready (N : network) (c : DltClient) (ts : list bytes) : Prop :=
  mode c = DLT_CLIENT_MODE_UDP_MULTICAST ∧ 0 <= udp_socket N ∧ udp_reuse N = true ∧ udp_bind N = true ∧
  Forall group_name ts ∧ Forall (λ t, inet_addr N t = true ∧ add_membership N t = true) ts.

Lemma length_separated s ts : Forall group_name ts -> (length ts < length (separated s ts))%nat.
Proof.
  induction 1 as [|t ts [Ht _] H IH]; cbn [separated]; [cbn; lia|]. destruct ts; rewrite length_app; destruct t; try done; cbn [length] in *; lia.
Qed.

(** A client joins all the groups of its list.  The list is cut at the first comma
    by this: when the client connects again, it joins the first group only. *)
Theorem second_connection_joins_one_group A N c mem t t2 ts :
  multicast_ready N c (t :: t2 :: ts) -> heap_ok A -> servIP c = Some (separated COMMA (t :: t2 :: ts)) ->
  ∃ c1 e1 mem1 c2 e2 mem2,
    dlt_client_connect A N (Some c) mem = Some (DLT_RETURN_OK, Some c1, e1, mem1) ∧ joined e1 = t :: t2 :: ts ∧
    dlt_client_connect A N (Some c1) mem1 = Some (DLT_RETURN_OK, Some c2, e2, mem2) ∧ joined e2 = [t].
Proof.
  intros (Hm & Hs & Hr & Hb & Hg & Hv) HA Hip.
  assert (∀ c' mem' ip l ip', mode c' = DLT_CLIENT_MODE_UDP_MULTICAST -> servIP c' = Some ip ->
    join_groups (S (length ip)) (inet_addr N) (add_membership N) ip 0 = Some (true, l, ip') ->
    ∃ c1 e1 mem1, dlt_client_connect A N (Some c') mem' = Some (DLT_RETURN_OK, Some c1, e1, mem1) ∧ joined e1 = l ∧
      mode c1 = DLT_CLIENT_MODE_UDP_MULTICAST ∧ servIP c1 = Some ip') as Hconn.
  { intros c' mem' ip l ip' Hm' Hip' Hj. unfold dlt_client_connect, open_connection. rewrite Hm'. cbn [servIP set_endpoint].
    rewrite (ltb_false _ 0), Hr, Hb, Hip' by done. cbn [negb]. rewrite Hj. bsimp.
    destruct (Receiver.dlt_receiver_init A _ _ _ _ _) as [[rc r] mem1] eqn:Ei.
    assert (rc = DLT_RETURN_OK) as ->.
    { destruct (Receiver.calloc A Receiver.DLT_RECEIVE_BUFSIZE) as [z|] eqn:Ec.
      - unfold Receiver.dlt_receiver_init in Ei. rewrite Ec in Ei. by destruct (_ && _); injection Ei.
      - unfold Receiver.calloc in Ec. destruct (malloc A _) eqn:Em; [done|]. by destruct (HA Receiver.DLT_RECEIVE_BUFSIZE). }
    by eexists _, _, _. }
  pose proof (length_separated COMMA _ Hg) as L1. destruct (Hconn c mem _ _ _ Hm Hip (groups_all_joined _ _ _ Hg Hv (S (length (separated COMMA (t :: t2 :: ts)))) [] ltac:(lia)))
    as (c1 & e1 & mem1 & E1 & J1 & Hm1 & Hip1). cbn [app] in Hip1.
  inversion Hg as [|? ? Ht _]; subst. inversion Hv as [|? ? [V J] _]; subst.
  destruct (Hconn c1 mem1 _ [t] (separated 0 (t :: t2 :: ts)) Hm1 Hip1) as (c2 & e2 & mem2 & E2 & J2 & _).
  { change (separated 0 (t :: t2 :: ts)) with (t ++ 0 :: separated 0 (t2 :: ts)). destruct (length (t ++ 0 :: _)) as [|k] eqn:El; [rewrite length_app in El; cbn in El; lia|].
    pose proof (strtok_name [] t 0 (separated 0 (t2 :: ts)) Ht ltac:(by left)) as E0. cbn [app length Z.eqb] in E0.
    cbn [join_groups]. rewrite E0. bsimp. rewrite V, J. cbn [negb Z.eqb app].
    by rewrite strtok_end. }
  by exists c1, e1, mem1, c2, e2, mem2.
Qed.

(** ** Examples *)

Definition env0 : env := {| now_sec := 5; now_usec := 6; uptime := 1000; heap := heap_filled 0; stack := fresh |}.
Definition client0 (size : Z) : DltClient :=
  {| receiver := DaemonUserSpec.fifo_receiver size; sock := 4; servIP := None; hostip := None; port := DLT_DAEMON_TCP_PORT; serialDevice := None;
     socketPath := None; ecuid := [69; 67; 85; 49]; ecuid2 := None; baudrate := DLT_CLIENT_INITIAL_BAUDRATE; mode := DLT_CLIENT_MODE_TCP;
     send_serial_header := false; resync_serial_header := false |}.
Lemma wf_client_env0 : wf_env env0.
Proof. split; try done. by apply is_bytes_forallb. Qed.

(** Two messages and the beginning of a third, in three pieces. *)
Lemma main_loop_delivers_witness :
  let b := encode (DaemonClientSpec.client_request [1; 0; 0; 0; 5]) in
  let ds := [take 7 b; drop 7 b ++ dltSerialHeader ++ b ++ take 3 b] in
  ∃ Ms msgs rest c' mem', dlt_client_main_loop env0 None ((Some <$> ds) ++ [None]) (Some (client0 200)) (DaemonUserSpec.fifo_memory 200)
      = Some (Some DLT_RETURN_TRUE, msgs, Some c', mem') ∧
    parsed false (concat ds) Ms rest ∧ incomplete false rest ∧ delivered msgs Ms.
Proof.
  intros b ds. apply (main_loop_delivers env0 (client0 200) None (DaemonUserSpec.fifo_memory 200) ds None).
  - done.
  - exact wf_client_env0.
  - done.
  - done.
  - by left.
  - apply DaemonUserSpec.fifo_carried. lia.
  - apply DaemonUserSpec.fifo_bytes.
  - repeat (apply Forall_cons_2; [by apply is_bytes_forallb|]). apply Forall_nil_2.
  - done.
  - apply fits_small; [by vm_compute|by repeat constructor].
Defined.

(** The messages arrive at the callback. *)
Example pieces_delivered :
  let b := encode (DaemonClientSpec.client_request [1; 0; 0; 0; 5]) in
  match dlt_client_main_loop env0 None [Some (take 7 b); Some (drop 7 b ++ dltSerialHeader ++ b ++ take 3 b); Some []] (Some (client0 200)) (DaemonUserSpec.fifo_memory 200) with
  | Some (rc, msgs, _, _) => Some (rc, map databuffer msgs)
  | None => None
  end = Some (Some DLT_RETURN_TRUE, [Some [1; 0; 0; 0; 5]; Some [1; 0; 0; 0; 5]]).
Proof. vm_compute. reflexivity. Qed.

(** 40 bytes that are no message, then one message: it is delivered twice. *)
Example repeated_after_search :
  let b := encode (DaemonClientSpec.client_request [1; 0; 0; 0; 5]) in
  let r := Receiver.set_counts (DaemonUserSpec.fifo_receiver 100) 0 (zlen (replicate 40 1 ++ dltSerialHeader ++ b)) 0 in
  match client_messages 100 (heap_filled 0) true (replicate 40 1 ++ dltSerialHeader ++ b) fresh r with
  | Some (_, msgs, _, _) => length msgs
  | None => 0%nat
  end = 2%nat.
Proof. vm_compute. reflexivity. Qed.

End ClientSpec.
