(* ===== verification/ClientRequestsSpec.v ===== *)
(** * The requests of a client and what the daemon does with them

    Each request function of the client library writes the encoding of one control
    message.  The daemon that receives these bytes takes the message out of them
    and serves it: a log level set by a client is the level of the named contexts
    in the tables of the daemon afterwards. *)

From stdpp Require Import base sets list list_numbers numbers option.
From Stdlib Require Import ZArith Lia Bool.
From S2P Require Import Prelude Protocol Ids Message MessageSpec Filter Receiver ReceiverSpec UserShared.
From S2P Require Import UserSendSpec SortedTable DaemonTables DaemonTablesSpec DaemonContextsSpec DaemonSend DaemonMessagesSpec DaemonSendSpec DaemonControl DaemonControlSpec DaemonLogInfoSpec DaemonRequestsSpec DaemonLevelsSpec.
From S2P Require Import DaemonKeptSpec DaemonUser DaemonHandlersSpec DaemonUserSpec DaemonClient DaemonClientSpec Client ClientSpec.
Import Protocol Ids Message MessageSpec UserShared DaemonSend DaemonMessagesSpec DaemonControl.
Import DaemonUser DaemonClient Client.

Local Open Scope Z_scope.

Module ClientRequestsSpec.

(** ** The message of a request *)

Definition request_message (E : Client.env) (c : DltClient) (a x payload : bytes) : message :=
  control_at (seid (headerextra (Client.stack E))) (Client.uptime E) (Client.ecuid c) DLT_MSIN_CONTROL_REQUEST 1 a x payload.
Definition parts_of (c : DltClient) (M : message) : list bytes :=
  (if send_serial_header c then [dltSerialHeader] else []) ++ [headers M; m_payload M].

(** The id that is made of a name, or of [dummy] for the empty one. *)
Definition id_for (dummy text a : bytes) : Prop :=
  ∃ e, is_empty text = Some e ∧ id_of (if e : bool then dummy else text) a ∧ is_bytes a.

Lemma send_parts_code s ps : ∀ o, (send_parts s ps o).1 = DLT_RETURN_OK ∨ (send_parts s ps o).1 = DLT_RETURN_ERROR.
Proof. induction ps as [|p ps IH]; intros o; cbn [send_parts]; [by left|]. destruct (sys_write _ _ _) as [ret o']. destruct (_ <? 0); [by right|apply IH]. Qed.

Record wf_client (c : DltClient) : Prop := {
  wc_sock : 0 <= Client.sock c;
  wc_ecu : is_id (Client.ecuid c);
  wc_ecu_bytes : is_bytes (Client.ecuid c)
}.

Section requests.
Context (E : Client.env) (c : DltClient).
Hypothesis (WE : ClientSpec.wf_env E) (HA : heap_ok (Client.heap E)) (WC : wf_client c).

Lemma request_len apid ctid a x payload : id_of apid a -> id_of ctid x -> message_len (request_message E c a x payload) = 22 + zlen payload.
Proof. intros Ha Hx. apply (control_at_len _ _ _ _ _ apid ctid); try done. apply WC. Qed.
Lemma request_wf apid ctid a x payload : id_of apid a -> id_of ctid x -> is_bytes a -> is_bytes x -> is_bytes payload ->
  zlen payload <= 65513 -> wf_message (request_message E c a x payload).
Proof.
  intros Ha Hx Ba Bx Bp Hl. apply (control_at_wf _ _ _ _ _ apid ctid); try done; try apply WE; try apply WC.
  rewrite (control_at_len _ _ _ _ _ apid ctid); try done; [lia|apply WC].
Qed.
Lemma headers_len apid ctid a x payload : id_of apid a -> id_of ctid x -> zlen (headers (request_message E c a x payload)) = 22.
Proof.
  intros Ha Hx. pose proof (length_encode (request_message E c a x payload)) as L. rewrite encode_headers, length_app in L.
  rewrite (request_len apid ctid) in L by done. cbn [m_payload request_message control_at] in L. lia.
Qed.

(** A request is written as the encoding of its message, unless it is too long. *)
Lemma ctrl_msg_sends apid ctid a x payload o :
  id_for DLT_CLIENT_DUMMY_APP_ID apid a -> id_for DLT_CLIENT_DUMMY_CON_ID ctid x -> is_bytes payload -> 4 <= zlen payload <= 65513 ->
  dlt_client_send_ctrl_msg E (Some c) (Some apid) (Some ctid) payload (zlen payload) o =
    Some (send_parts (Client.sock c) (parts_of c (request_message E c a x payload)) o).
Proof.
  intros (ea & Hea & Ha & Ba) (ex & Hex & Hx & Bx) Bp Hl. unfold dlt_client_send_ctrl_msg. rewrite (ltb_false (Client.sock c)) by apply WC.
  cbn [dlt_message_init Z.eqb DLT_RETURN_OK DLT_RETURN_ERROR]. rewrite i32_small, wrapu_small by lia.
  destruct (malloc _ _) as [db|] eqn:Em; [|by destruct (HA (zlen payload))]. pose proof (malloc_length _ _ _ Em) as Ldb.
  assert (mread payload 0 (zlen payload) = Some payload) as Hread by (rewrite <-(app_nil_r payload) at 1; by apply (mread_mid [] payload)).
  rewrite Hread. bsimp. assert (mwrite db 0 payload = Some payload) as ->.
  { rewrite mwrite_Some by lia. cbn [take app Z.to_nat]. by rewrite drop_ge, app_nil_r by lia. }
  bsimp. rewrite Hea, Hex. bsimp. set (m := set_databuffer _ _ _).
  destruct (headers_at_ok (Client.now_sec E) (Client.now_usec E) (seid (headerextra (Client.stack E))) (Client.uptime E) [0] [0; 0; 0; 0] (Client.ecuid c)
    DLT_MSIN_CONTROL_REQUEST 1 (if ea then DLT_CLIENT_DUMMY_APP_ID else apid) (if ex then DLT_CLIENT_DUMMY_CON_ID else ctid) a x) with (payload := payload) (m := m) as (m' & sh & rest & -> & Hhb & Lsh & Hhs & Hdb & Hds);
    try done; try apply WE; try apply WC; [apply id_of_empty|fold (request_message E c a x payload); rewrite (request_len _ _ _ _ _ Ha Hx); lia|].
  fold (request_message E c a x payload) in Hhb. set (M := request_message E c a x payload) in *. bsimp.
  assert (message_parts c m' payload = Some (parts_of c M)) as Hparts.
  { unfold message_parts, sizeof_DltStorageHeader. rewrite Hhb, Hhs, Hds, Hread. pose proof (headers_len _ _ _ _ payload Ha Hx) as Lh. fold M in Lh.
    rewrite (mread_mid sh) by lia. bsimp. done. }
  pose proof (send_parts_code (Client.sock c) (parts_of c M) o) as Hrc. destruct (send_parts _ _ _) as [rc o'] eqn:Es. cbn [fst] in Hrc.
  assert (dlt_client_send_message_to_socket (Some c) (Some m') o = Some (rc, o')) as Hsock.
  { unfold dlt_client_send_message_to_socket. rewrite Hdb. cbn [m databuffer set_databuffer]. rewrite (ltb_false (Client.sock c)) by apply WC. rewrite Hparts. bsimp. by rewrite Es. }
  assert (∃ w, mread payload 0 4 = Some w) as (w & Hw) by (destruct (mread_total payload 0 4) as (w & ? & _); [lia..|by exists w]).
  destruct (mode c); try done; rewrite Hparts; bsimp; rewrite Es; destruct Hrc as [->| ->]; cbn [Z.eqb DLT_RETURN_OK DLT_RETURN_ERROR]; try done; by rewrite Hw.
Qed.

End requests.

(** ** The requests of the library *)

Inductive request :=
| SetLogLevel (apid ctid : bytes) (level : Z)
| SetTraceStatus (apid ctid : bytes) (status : Z)
| GetLogInfo
| GetDefaultLogLevel
| GetSoftwareVersion
| SetDefaultLogLevel (level : Z)
| SetAllLogLevel (level : Z)
| SetDefaultTraceStatus (status : Z)
| SetAllTraceStatus (status : Z)
| SetTimingPackets (on : Z)
| StoreConfig
| ResetToFactoryDefault
| Inject (apid ctid : bytes) (service : Z) (data : bytes).

(** The function that sends it. *)
Definition issue (E : Client.env) (client : option DltClient) (r : request) (o : os) : option (Z * os) :=
  match r with
  | SetLogLevel a x l => dlt_client_send_log_level E client (Some a) (Some x) l o
  | SetTraceStatus a x s => dlt_client_send_trace_status E client (Some a) (Some x) s o
  | GetLogInfo => dlt_client_get_log_info E client o
  | GetDefaultLogLevel => dlt_client_get_default_log_level E client o
  | GetSoftwareVersion => dlt_client_get_software_version E client o
  | SetDefaultLogLevel l => dlt_client_send_default_log_level E client l o
  | SetAllLogLevel l => dlt_client_send_all_log_level E client l o
  | SetDefaultTraceStatus s => dlt_client_send_default_trace_status E client s o
  | SetAllTraceStatus s => dlt_client_send_all_trace_status E client s o
  | SetTimingPackets n => dlt_client_send_timing_pakets E client n o
  | StoreConfig => dlt_client_send_store_config E client o
  | ResetToFactoryDefault => dlt_client_send_reset_to_factory_default E client o
  | Inject a x i d => dlt_client_send_inject_msg E client (Some a) (Some x) i d (zlen d) o
  end.

(** What the daemon finds in it. *)
Definition service_of (r : request) : Z :=
  match r with
  | SetLogLevel _ _ _ => DLT_SERVICE_ID_SET_LOG_LEVEL
  | SetTraceStatus _ _ _ => DLT_SERVICE_ID_SET_TRACE_STATUS
  | GetLogInfo => DLT_SERVICE_ID_GET_LOG_INFO
  | GetDefaultLogLevel => DLT_SERVICE_ID_GET_DEFAULT_LOG_LEVEL
  | GetSoftwareVersion => DLT_SERVICE_ID_GET_SOFTWARE_VERSION
  | SetDefaultLogLevel _ => DLT_SERVICE_ID_SET_DEFAULT_LOG_LEVEL
  | SetAllLogLevel _ => DLT_SERVICE_ID_SET_ALL_LOG_LEVEL
  | SetDefaultTraceStatus _ => DLT_SERVICE_ID_SET_DEFAULT_TRACE_STATUS
  | SetAllTraceStatus _ => DLT_SERVICE_ID_SET_ALL_TRACE_STATUS
  | SetTimingPackets _ => DLT_SERVICE_ID_SET_TIMING_PACKETS
  | StoreConfig => DLT_SERVICE_ID_STORE_CONFIG
  | ResetToFactoryDefault => DLT_SERVICE_ID_RESET_TO_FACTORY_DEFAULT
  | Inject _ _ i _ => i
  end.
Definition norm (t : bytes) : bytes := pad_to 4 0 (cstr 4 t).
Definition remo : bytes := [114; 101; 109; 111].
Definition arguments (r : request) : bytes :=
  match r with
  | SetLogLevel a x l | SetTraceStatus a x l => norm a ++ norm x ++ [u8 l] ++ remo
  | GetLogInfo => [7] ++ norm [0] ++ norm [0] ++ remo
  | SetDefaultLogLevel l | SetAllLogLevel l | SetDefaultTraceStatus l | SetAllTraceStatus l => [u8 l] ++ remo
  | SetTimingPackets n => [u8 n]
  | GetDefaultLogLevel | GetSoftwareVersion | StoreConfig | ResetToFactoryDefault => []
  | Inject _ _ _ d => le_bytes 4 (zlen d) ++ d
  end.
Definition payload_of (r : request) : bytes := le_bytes 4 (service_of r) ++ arguments r.

(** The names in the header of the message. *)
Definition names_of (r : request) : bytes * bytes :=
  match r with
  | GetLogInfo | GetDefaultLogLevel | GetSoftwareVersion => ([0], [0])
  | Inject a x _ _ => (a, x)
  | _ => (text_APP, text_CON)
  end.
Definition id_or (dummy t : bytes) : bytes := if bool_decide (head t = Some 0) then dummy else norm t.
Definition message_for (E : Client.env) (c : DltClient) (r : request) : message :=
  request_message E c (id_or DLT_CLIENT_DUMMY_APP_ID (names_of r).1) (id_or DLT_CLIENT_DUMMY_CON_ID (names_of r).2) (payload_of r).

(** Names are strings, data are bytes that fit into a message. *)
Definition is_text (t : bytes) : Prop := scannable 4 t ∧ is_bytes t ∧ t <> [].
Definition wf_request (r : request) : Prop :=
  match r with
  | SetLogLevel a x _ | SetTraceStatus a x _ => is_text a ∧ is_text x
  | Inject a x i d => is_text a ∧ is_text x ∧ 0 <= i < 4294967296 ∧ is_bytes d ∧ zlen d <= 65505
  | _ => True
  end.

Lemma length_norm t : length (norm t) = 4%nat.
Proof. apply length_pad_to, length_cstr. Qed.
Lemma is_bytes_norm t : is_bytes t -> is_bytes (norm t).
Proof.
  intros H. unfold norm, pad_to. apply is_bytes_app. split; [|apply Forall_replicate; lia].
  revert H. generalize 4%nat. clear. induction t as [|b t IH]; intros [|n] H; try constructor. inversion H as [|? ? Hb Ht]; subst. cbn [cstr].
  destruct (b =? 0); constructor; [done|by apply IH].
Qed.
Lemma id_of_text t : is_text t -> id_of t (norm t).
Proof. intros (Hs & _). split; [apply length_norm|]. intros old Ho. unfold Filter.set_id. by rewrite set_id_spec. Qed.
Lemma id_for_text dummy t : is_text t -> id_of dummy dummy -> is_bytes dummy -> id_for dummy t (id_or dummy t).
Proof.
  intros Ht Hd Bd. pose proof Ht as (_ & Bt & Hne). destruct t as [|b t]; [done|]. exists (b =? 0). split; [done|]. unfold id_or. cbn [head].
  destruct (Z.eqb_spec b 0) as [->|]; [by rewrite bool_decide_true|]. rewrite bool_decide_false by congruence. split; [by apply id_of_text|by apply is_bytes_norm].
Qed.
Lemma is_text_concrete t : forallb (λ b, (0 <=? b) && (b <? 256)) t = true -> existsb (Z.eqb 0) t = true -> is_text t.
Proof.
  intros Hb Hz. split; [|split; [by apply is_bytes_forallb|by intros ->]]. right. apply existsb_exists in Hz as (x & Hx & H0). apply Z.eqb_eq in H0 as <-.
  by apply list_elem_of_In.
Qed.
Lemma names_are_text r : wf_request r -> is_text (names_of r).1 ∧ is_text (names_of r).2.
Proof. destruct r; cbn [names_of fst snd wf_request]; intros H; try tauto; by split; apply is_text_concrete. Qed.

Lemma id_of_dummies : id_of DLT_CLIENT_DUMMY_APP_ID DLT_CLIENT_DUMMY_APP_ID ∧ id_of DLT_CLIENT_DUMMY_CON_ID DLT_CLIENT_DUMMY_CON_ID.
Proof. split; apply id_of_is_id; reflexivity. Qed.
Lemma ids_for r : wf_request r ->
  id_for DLT_CLIENT_DUMMY_APP_ID (names_of r).1 (id_or DLT_CLIENT_DUMMY_APP_ID (names_of r).1) ∧
  id_for DLT_CLIENT_DUMMY_CON_ID (names_of r).2 (id_or DLT_CLIENT_DUMMY_CON_ID (names_of r).2).
Proof.
  intros H. apply names_are_text in H as [? ?]. destruct id_of_dummies. split; apply id_for_text; try done; by apply is_bytes_forallb.
Qed.

Lemma payload_ok r : wf_request r -> is_bytes (payload_of r) ∧ 4 <= zlen (payload_of r) <= 65513.
Proof.
  intros W. assert (is_bytes (arguments r) ∧ zlen (arguments r) <= 65509) as [Ba La].
  { assert (is_bytes remo) as Br by (by apply is_bytes_forallb). assert (∀ l, is_bytes [u8 l]) as Bl by (intros; constructor; [apply UserSendSpec.u8_range|constructor]).
    assert (is_bytes (norm [0]) ∧ is_bytes [7]) as [? ?] by (by split; apply is_bytes_forallb).
    assert (∀ t, is_text t -> is_bytes (norm t)) as Bn by (intros t (_ & ? & _); by apply is_bytes_norm). pose proof length_norm as Ln. pose proof (is_bytes_le 4) as Ble.
    destruct r; cbn [arguments wf_request] in *; rewrite ?is_bytes_app, ?length_app, ?length_norm, ?length_le_bytes; cbn [length remo];
      (split; [repeat split; try done; try (apply Bn; tauto); try tauto; try apply Ble; constructor|lia]). }
  unfold payload_of. rewrite is_bytes_app, length_app, length_le_bytes. split; [split; [apply is_bytes_le|done]|lia].
Qed.

(** *** The fields of the requests *)

Lemma assign_at pre old post off v mem : mem = pre ++ old ++ post -> off = zlen pre -> length old = length v ->
  assign off v mem = Some (pre ++ v ++ post).
Proof. intros -> -> Hl. apply mwrite_mid; [done|by rewrite Hl]. Qed.
Lemma assign_id_at pre old post off t mem : mem = pre ++ old ++ post -> off = zlen pre -> length old = 4%nat -> scannable 4 t ->
  assign_id off (Some t) mem = Some (pre ++ norm t ++ post).
Proof.
  intros -> -> Hl Ht. unfold assign_id. rewrite (mread_mid pre old) by (done || lia). bsimp. rewrite set_id_spec by done. bsimp.
  apply mwrite_mid; [done|]. fold (norm t). rewrite length_norm. lia.
Qed.
Ltac fields := first [done | by rewrite <-?app_assoc | rewrite ?length_app, ?length_norm, ?length_le_bytes; cbn [length]; lia].
Lemma remo_text : norm DLT_DAEMON_REMO_STRING = remo ∧ scannable 4 DLT_DAEMON_REMO_STRING.
Proof. split; [done|left; cbn; lia]. Qed.

Lemma fill_level_spec service a x l mem : zlen mem = 17 -> scannable 4 a -> scannable 4 x ->
  fill_level service (Some a) (Some x) l mem = Some (le_bytes 4 service ++ norm a ++ norm x ++ [u8 l] ++ remo).
Proof.
  intros Lm Ha Hx. destruct (split_region mem 0 4) as (z & f1 & r1 & -> & Lz & L1); [lia..|]. nils. cbn [app] in *. rewrite length_app in Lm.
  destruct (split_region r1 4 4) as (f2 & f3 & r2 & -> & L2 & L3); [lia..|]. rewrite !length_app in Lm.
  destruct (split_region r2 1 4) as (f4 & f5 & r3 & -> & L4 & L5); [lia..|]. rewrite !length_app in Lm.
  assert (r3 = []) as -> by (apply nil_length_inv; lia). destruct remo_text as [Er Hr].
  unfold fill_level. rewrite (assign_at [] f1 (f2 ++ f3 ++ f4 ++ f5)) by (fields || by rewrite app_nil_r). bsimp.
  rewrite (assign_id_at (le_bytes 4 service) f2 (f3 ++ f4 ++ f5)) by fields. bsimp.
  rewrite (assign_id_at (le_bytes 4 service ++ norm a) f3 (f4 ++ f5)) by fields. bsimp.
  rewrite (assign_at (le_bytes 4 service ++ norm a ++ norm x) f4 f5) by fields. bsimp.
  rewrite (assign_id_at (le_bytes 4 service ++ norm a ++ norm x ++ [u8 l]) f5 []) by (fields || by rewrite app_nil_r, <-!app_assoc).
  by rewrite Er, app_nil_r, <-!app_assoc.
Qed.
Lemma fill_default_spec service l mem : zlen mem = 9 -> fill_default service l mem = Some (le_bytes 4 service ++ [u8 l] ++ remo).
Proof.
  intros Lm. destruct (split_region mem 0 4) as (z & f1 & r1 & -> & Lz & L1); [lia..|]. nils. cbn [app] in *. rewrite length_app in Lm.
  destruct (split_region r1 1 4) as (f2 & f3 & r2 & -> & L2 & L3); [lia..|]. rewrite !length_app in Lm.
  assert (r2 = []) as -> by (apply nil_length_inv; lia). destruct remo_text as [Er Hr].
  unfold fill_default. rewrite (assign_at [] f1 (f2 ++ f3)) by (fields || by rewrite app_nil_r). bsimp.
  rewrite (assign_at (le_bytes 4 service) f2 f3) by fields. bsimp.
  rewrite (assign_id_at (le_bytes 4 service ++ [u8 l]) f3 []) by (fields || by rewrite app_nil_r, <-!app_assoc).
  by rewrite Er, app_nil_r, <-!app_assoc.
Qed.
Lemma fill_log_info_spec mem : zlen mem = 17 -> fill_log_info mem = Some (le_bytes 4 DLT_SERVICE_ID_GET_LOG_INFO ++ [7] ++ norm [0] ++ norm [0] ++ remo).
Proof.
  intros Lm. destruct (split_region mem 0 4) as (z & f1 & r1 & -> & Lz & L1); [lia..|]. nils. cbn [app] in *. rewrite length_app in Lm.
  destruct (split_region r1 1 4) as (f2 & f3 & r2 & -> & L2 & L3); [lia..|]. rewrite !length_app in Lm.
  destruct (split_region r2 4 4) as (f4 & f5 & r3 & -> & L4 & L5); [lia..|]. rewrite !length_app in Lm.
  assert (r3 = []) as -> by (apply nil_length_inv; lia). destruct remo_text as [Er Hr]. set (s := le_bytes 4 _).
  assert (scannable 4 [0]) as H0 by (right; by apply list_elem_of_singleton).
  unfold fill_log_info. fold s. assert (length s = 4%nat) as Ls by done. clearbody s.
  rewrite (assign_at [] f1 (f2 ++ f3 ++ f4 ++ f5)) by (fields || by rewrite app_nil_r). bsimp.
  rewrite (assign_at s f2 (f3 ++ f4 ++ f5)) by fields. bsimp.
  rewrite (assign_id_at (s ++ [7]) f3 (f4 ++ f5)) by fields. bsimp.
  rewrite (assign_id_at (s ++ [7] ++ norm [0]) f4 f5) by fields. bsimp.
  rewrite (assign_id_at (s ++ [7] ++ norm [0] ++ norm [0]) f5 []) by (fields || by rewrite app_nil_r, <-!app_assoc).
  by rewrite Er, app_nil_r, <-!app_assoc.
Qed.
Lemma assign_all v mem : length mem = length v -> assign 0 v mem = Some v.
Proof. intros Hl. rewrite (assign_at [] mem []) by (done || by rewrite app_nil_r). by rewrite app_nil_r. Qed.

(** ** What is written *)

Section sending.
Context (E : Client.env) (c : DltClient).
Hypothesis (WE : ClientSpec.wf_env E) (HA : heap_ok (Client.heap E)) (WC : wf_client c).

Lemma allocated n : 0 <= n -> ∃ mem, malloc (Client.heap E) n = Some mem ∧ zlen mem = n.
Proof. intros Hn. destruct (malloc _ n) as [mem|] eqn:Em; [|by destruct (HA n)]. exists mem. apply malloc_length in Em. split; [done|lia]. Qed.
Lemma zeroed n : 0 <= n -> ∃ mem, Receiver.calloc (Client.heap E) n = Some mem ∧ zlen mem = n.
Proof. intros Hn. unfold Receiver.calloc. destruct (allocated n Hn) as (mem & -> & _). eexists. split; [done|]. rewrite length_replicate. lia. Qed.

Lemma request_message_for r : wf_request r ->
  wf_message (message_for E c r) ∧ DaemonClientSpec.is_request (message_for E c r) = true ∧ DaemonClientSpec.service (message_for E c r) = service_of r.
Proof.
  intros W. destruct (ids_for r W) as [(e1 & _ & I1 & B1) (e2 & _ & I2 & B2)]. destruct (payload_ok r W) as [Bp Lp]. split_and!.
  - unfold message_for. apply (request_wf E c WE WC _ _ _ _ _ I1 I2 B1 B2 Bp). lia.
  - done.
  - unfold DaemonClientSpec.service. cbn [m_payload m_htyp message_for request_message control_at]. unfold payload_of. rewrite take_app_length' by (by rewrite length_le_bytes).
    assert (0 <= service_of r < 4294967296) as Hr by (destruct r; cbn [service_of wf_request] in *; try done; tauto).
    rewrite le_Z_le_bytes by done. change (u32 (service_of r) = service_of r). by apply u32_small.
Qed.

(** Every request function writes the message of its request, whatever the system
    calls give. *)
Lemma request_sent r o : wf_request r ->
  issue E (Some c) r o = Some (send_parts (Client.sock c) (parts_of c (message_for E c r)) o).
Proof.
  intros W. destruct (ids_for r W) as [I1 I2]. destruct (payload_ok r W) as [Bp Lp].
  pose proof (ctrl_msg_sends E c WE HA WC _ _ _ _ (payload_of r) o I1 I2 Bp Lp) as Hsend. fold (message_for E c r) in Hsend. rewrite <-Hsend. clear Hsend I1 I2.
  destruct (zeroed 17) as (z17 & Z17 & L17); [lia|]. destruct (zeroed 9) as (z9 & Z9 & L9); [lia|]. destruct (zeroed 5) as (z5 & Z5 & L5); [lia|].
  destruct (allocated 17) as (m17 & M17 & K17); [lia|]. destruct (allocated 4) as (m4 & M4 & K4); [lia|].
  destruct r; cbn [issue names_of fst snd wf_request] in *.
  - destruct W as [(Ha & _) (Hx & _)]. unfold dlt_client_send_log_level, send_request, sizeof_DltServiceSetLogLevel. cbn [checked]. rewrite Z17, fill_level_spec by done. done.
  - destruct W as [(Ha & _) (Hx & _)]. unfold dlt_client_send_trace_status, send_request, sizeof_DltServiceSetLogLevel. rewrite Z17, fill_level_spec by done. done.
  - unfold dlt_client_get_log_info, send_request, sizeof_DltServiceGetLogInfoRequest. cbn [checked]. rewrite M17, fill_log_info_spec by done. done.
  - unfold dlt_client_get_default_log_level, send_request. cbn [checked]. rewrite M4, assign_all by (rewrite length_le_bytes; lia). done.
  - unfold dlt_client_get_software_version, send_request. cbn [checked]. rewrite M4. bsimp. rewrite assign_all by (rewrite length_le_bytes; lia). done.
  - unfold dlt_client_send_default_log_level, send_default, send_request, sizeof_DltServiceSetDefaultLogLevel. rewrite Z9, fill_default_spec by done. done.
  - unfold dlt_client_send_all_log_level, send_default, send_request, sizeof_DltServiceSetDefaultLogLevel. rewrite Z9, fill_default_spec by done. done.
  - unfold dlt_client_send_default_trace_status, send_default, send_request, sizeof_DltServiceSetDefaultLogLevel. rewrite Z9, fill_default_spec by done. done.
  - unfold dlt_client_send_all_trace_status, send_default, send_request, sizeof_DltServiceSetDefaultLogLevel. cbn [checked]. rewrite Z9, fill_default_spec by done. done.
  - unfold dlt_client_send_timing_pakets, send_request, sizeof_DltServiceSetVerboseMode. rewrite Z5. set (s := le_bytes 4 _). assert (length s = 4%nat) as Ls by done.
    destruct (split_region z5 0 4) as (z & f1 & f2 & -> & Lz & L1); [lia..|]. nils. cbn [app] in *. rewrite length_app in L5.
    rewrite (assign_at [] f1 f2) by (done || lia). bsimp. rewrite (assign_at s f2 []) by (done || (cbn [length]; lia) || by rewrite app_nil_r). bsimp.
    by rewrite app_nil_r.
  - done.
  - done.
  - destruct W as (_ & _ & Hi & Bd & Hd). unfold dlt_client_send_inject_msg. destruct (allocated (4 + 4 + zlen data)) as (mem & -> & Lm); [lia|].
    destruct (split_region mem 0 4) as (z & f1 & r1 & -> & Lz & L1); [lia..|]. nils. cbn [app] in *. rewrite length_app in Lm.
    destruct (split_region r1 4 (zlen data)) as (f2 & f3 & r2 & -> & L2 & L3); [lia..|]. rewrite !length_app in Lm. assert (r2 = []) as -> by (apply nil_length_inv; lia).
    rewrite app_nil_r. pose proof (assign_at [] f1 (f2 ++ f3) 0 (le_bytes 4 service) _ eq_refl eq_refl ltac:(rewrite length_le_bytes; lia)) as H1.
    pose proof (assign_at (le_bytes 4 service) f2 f3 4 (le_bytes 4 (zlen data)) _ eq_refl ltac:(by rewrite length_le_bytes) ltac:(rewrite length_le_bytes; lia)) as H2.
    pose proof (assign_at (le_bytes 4 service ++ le_bytes 4 (zlen data)) f3 [] 8 data (le_bytes 4 service ++ le_bytes 4 (zlen data) ++ f3)
      ltac:(by rewrite app_nil_r, <-app_assoc) ltac:(by rewrite length_app, !length_le_bytes) ltac:(lia)) as H3.
    unfold assign in *. cbn [app] in H1. rewrite H1. bsimp. rewrite H2. bsimp.
    assert (mread data 0 (zlen data) = Some data) as -> by (rewrite <-(app_nil_r data) at 1; by apply (mread_mid [] data)). bsimp. rewrite H3. bsimp.
    rewrite app_nil_r, <-app_assoc. unfold payload_of. cbn [service_of arguments]. f_equal. rewrite u32_small by lia. rewrite !length_app, !length_le_bytes. lia.
Qed.

(** Each of the thirteen request functions writes the encoding of one control
    request with the service, names and values it was called with, and reports an
    error exactly when a write fails. *)
Theorem request_encoded r o : wf_request r ->
  let M := message_for E c r in
  wf_message M ∧ DaemonClientSpec.is_request M = true ∧ DaemonClientSpec.service M = service_of r ∧ m_payload M = payload_of r ∧
  ∃ parts, concat parts = (if send_serial_header c then dltSerialHeader else []) ++ encode M ∧
    issue E (Some c) r o = Some (send_parts (Client.sock c) parts o).
Proof.
  intros W M. destruct (request_message_for r W) as (W1 & R & S). split_and!; try done. exists (parts_of c M). split; [|by apply request_sent].
  unfold parts_of. rewrite concat_app. cbn [concat]. rewrite app_nil_r, <-encode_headers. by destruct (send_serial_header c); cbn [concat]; rewrite ?app_nil_r.
Qed.

End sending.

(** ** From the client to the daemon *)

Definition serial_of (c : DltClient) : bytes := if send_serial_header c then dltSerialHeader else [].

Lemma concat_parts c M : concat (parts_of c M) = serial_of c ++ encode M.
Proof.
  unfold parts_of, serial_of. rewrite concat_app. cbn [concat]. rewrite app_nil_r, <-encode_headers. by destruct (send_serial_header c); cbn [concat]; rewrite ?app_nil_r.
Qed.

(** All writes succeed. *)
Lemma send_parts_all sock ps : ∀ o, (∀ n, script o n = WriteAll) ->
  ∃ o', send_parts sock ps o = (DLT_RETURN_OK, o') ∧ out o' = out o ++ ((λ p, (sock, p)) <$> ps).
Proof.
  induction ps as [|p ps IH]; intros o Ho; cbn [send_parts]; [exists o; by rewrite app_nil_r|]. unfold sys_write. rewrite Ho.
  rewrite (ltb_false (zlen p)) by lia. destruct (IH (wrote o (last_errno o) sock p)) as (o' & -> & Hout); [done|]. exists o'. split; [done|].
  rewrite Hout. cbn [out wrote]. by rewrite <-app_assoc.
Qed.

(** Bytes that are one message: this is what is found in them. *)
Lemma single_message resync (pre pre' q : bytes) M M' : wf_message M -> wf_message M' -> sync_point (pre ++ encode M) resync (zlen pre) ->
  pre ++ encode M = pre' ++ encode M' ++ q -> sync_point (pre ++ encode M) resync (zlen pre') ->
  pre' = pre ∧ q = [] ∧ m_htyp M' = m_htyp M ∧ ext M' = ext M ∧ m_payload M' = m_payload M.
Proof.
  intros WM WM' Hsp Eb Hsp'. pose proof (sync_point_unique _ _ _ _ Hsp Hsp') as El. apply app_inj_1 in Eb as [-> Eb]; [|lia].
  rewrite <-(app_nil_r (encode M)) in Eb. apply DaemonClientSpec.encode_front in Eb as (Hh & He & Hpl & <-); done.
Qed.
Lemma nothing_left resync (pre q : bytes) M : [] = pre ++ encode M ++ q -> ¬ sync_point [] resync (zlen pre).
Proof. intros H. apply (f_equal length) in H. rewrite !length_app in H. pose proof (length_encode M). assert (4 <= message_len M) by (unfold message_len; lia). cbn in H. lia. Qed.

Section daemon.
Context (E : Client.env) (c : DltClient) (D : DaemonSend.env) (F : flags) (V : services) (fuel : nat).
Abbreviation send := (dlt_daemon_client_send (S fuel) D).
Hypothesis (WE : ClientSpec.wf_env E) (HA : heap_ok (Client.heap E)) (WC : wf_client c).
Hypothesis (WD : wf_env D) (HD : heap_ok (DaemonSend.heap D)) (Bv : is_bytes (ECUVersionString D)) (Lv : zlen (ECUVersionString D) < 60000).

(** The daemon looks for the serial header only if the client writes it. *)
Lemma request_found r nflag : wf_request r -> (nflag = true -> send_serial_header c = true) ->
  sync_point (serial_of c ++ encode (message_for E c r)) nflag (zlen (serial_of c)).
Proof.
  intros W Hn. unfold serial_of. destruct (send_serial_header c).
  - apply sp_serial. unfold serial_at. by apply (mread_mid [] dltSerialHeader).
  - destruct nflag; [by specialize (Hn eq_refl)|]. apply sp_plain. unfold serial_at. cbn [app]. intros Hs.
    assert (mread (encode (message_for E c r)) 0 4 = Some (std (message_for E c r))) as Hst.
    { unfold encode. apply (mread_mid [] (std _)); [done|by rewrite length_std]. }
    rewrite Hst in Hs. by injection Hs.
Qed.

(** What is asked of the tables for the one request that lists them. *)
Definition listable (d0 : daemon) (r : request) : Prop := service_of r = DLT_SERVICE_ID_GET_LOG_INFO ->
  ∀ m, ClientSpec.tells m (message_for E c r) -> DaemonRequestsSpec.log_info_fits d0 m.

Lemma request_accepted r d0 m M' : wf_request r -> wf_message M' -> holds m M' ->
  m_htyp M' = m_htyp (message_for E c r) -> ext M' = ext (message_for E c r) -> m_payload M' = payload_of r -> listable d0 r ->
  DLT_MSG_IS_CONTROL_REQUEST m = Some true ∧ ∃ b, DaemonRequestsSpec.wf_request d0 m (m_htyp M') b.
Proof.
  intros W WM' Hm Hh He Hp Hinfo. destruct (request_message_for E c WE WC r W) as (W1 & R & Sv). rewrite (DaemonClientSpec.request_flag _ _ Hm WM').
  assert (DaemonClientSpec.service M' = service_of r) as Sv' by (rewrite <-Sv; unfold DaemonClientSpec.service; by rewrite Hh, Hp).
  assert (DaemonClientSpec.is_request M' = true) as Hr.
  { unfold DaemonClientSpec.is_request, ext in *. rewrite Hh in *. change (DLT_IS_HTYP_UEH (m_htyp (message_for E c r))) with true in *. cbn [andb] in *. by rewrite He. }
  rewrite Hr. split; [done|]. destruct (h_payload _ _ Hm) as (b & Hb & Hrd). apply DaemonClientSpec.payload_front in Hrd as (rest & -> & Hd).
  exists (m_payload M' ++ rest). destruct (payload_ok r W) as [_ Lp]. unfold DaemonClientSpec.service in Sv'.
  split; [done|rewrite length_app; lia| | |].
  - split; [by apply DaemonClientSpec.holds_htyp|]. intros Hu. destruct (DaemonClientSpec.holds_ext_bytes _ _ Hm Hu) as (sh & rest' & Hhb & Hx). exists (zlen sh).
    rewrite Hhb, !length_app. pose proof (wm_ext _ WM'). split_and!; [done|lia|lia].
  - intros H8 Hs _. rewrite take_app_le, Sv' in Hs by (rewrite Hp; lia). rewrite length_app, Hh, Hp.
    destruct r; cbn [service_of] in Hs; try (exfalso; by vm_compute in Hs). cbn [wf_request] in W.
    unfold DaemonRequestsSpec.announced, payload_of. cbn [service_of arguments]. rewrite <-!app_assoc, drop_app_length', take_app_length' by (by rewrite length_le_bytes).
    rewrite le_Z_le_bytes by (cbn; lia). change (DLT_ENDIAN_GET_32 (m_htyp _) (zlen data)) with (u32 (zlen data)). rewrite u32_small by lia.
    rewrite !length_app, !length_le_bytes. lia.
  - intros Hs. rewrite take_app_le, Sv' in Hs by (rewrite Hp; lia). apply Hinfo; [done|]. by exists M'.
Qed.

(** What the daemon has to be to take a request of the client. *)
Record ready (s : session) (mem : bytes) (nflag : bool) (r : request) : Prop := {
  rd_services : DaemonRequestsSpec.services_return V;
  rd_sound : DaemonControlSpec.sound (sd s);
  rd_msg : wf (smsg s);
  rd_fd : 0 < Receiver.fd (srec s);
  rd_carried : ReceiverSpec.carried (srec s) mem [];
  rd_mem : is_bytes mem;
  rd_room : zlen (serial_of c ++ encode (message_for E c r)) <= Receiver.buffersize (srec s) < 2147483647;
  rd_serial : nflag = true -> send_serial_header c = true;
  rd_info : listable (sd s) r
}.

Lemma request_handled s mem nflag r : wf_request r -> ready s mem nflag r ->
  let w := serial_of c ++ encode (message_for E c r) in
  ∃ s' mem' m rc, dlt_daemon_process_client_messages D F V send (S (length w)) nflag (Some w) mem s = Some (0, s', mem') ∧
    ReceiverSpec.carried (srec s') mem' [] ∧ ClientSpec.tells m (message_for E c r) ∧
    dlt_daemon_client_process_control D F V send (Receiver.fd (srec s)) m (sd s) = Some (rc, sd s').
Proof.
  intros W [HV Hd Wm Hf C Bm Hroom Hser Hinfo] w. destruct (request_message_for E c WE WC r W) as (WM & _).
  assert (is_bytes w) as Bw.
  { unfold w. rewrite is_bytes_app. split; [unfold serial_of; destruct (send_serial_header c); by apply is_bytes_forallb|apply WM]. }
  pose proof (request_found r nflag W Hser) as Hsp. fold w in Hsp. pose proof (length_encode (message_for E c r)) as Le.
  assert (4 <= message_len (message_for E c r)) as H4 by (unfold message_len; lia).
  assert (0 < zlen w) as Hw by (unfold w; rewrite length_app; lia). unfold dlt_daemon_process_client_messages, receive_messages.
  destruct (DaemonClientSpec.client_frame D HD s mem [] w C Bm ltac:(constructor) Bw Hw Hroom) as (r1 & mem1 & -> & P & B1 & Ef & Hmove). cbn [app] in P.
  bsimp. rewrite (ltb_false _ 0), (eqb_false _ 0) by (cbn; lia). destruct (length w) as [|k] eqn:Lw; [lia|]. cbn [receive_loop].
  destruct (DaemonClientSpec.round_reads D nflag mem1 (with_rec s r1) w HD B1 P Wm) as [(m' & Hinc & _)|(pre & M' & q & m' & Ew & Hsp' & WM' & Hm & W' & Hx & ->)].
  { exfalso. apply (Hinc (serial_of c) (message_for E c r) []); [by rewrite app_nil_r|done|done]. }
  destruct (single_message nflag _ _ _ _ _ WM WM' Hsp Ew Hsp') as (-> & -> & Hh & He & Hpl). rewrite app_nil_r in Ew. fold w in Ew.
  destruct (request_accepted r (sd s) m' M' W WM' Hm Hh He Hpl Hinfo) as [Hreq (b & Hwf)].
  destruct (DaemonRequestsSpec.process_control_returns D F V fuel (Receiver.fd (srec s)) m' (m_htyp M') b (sd s) WD HV Hd Hwf Bv Lv) as (rc & d' & Hctl);
    [unfold DLT_DAEMON_SEND_TO_ALL; lia|unfold DLT_DAEMON_SEND_FORCE; lia|].
  unfold handle_client. cbn [smsg with_msg srec with_rec sd]. rewrite Hreq. bsimp. rewrite Ef, (ltb_true 0) by done. cbn [andb]. rewrite Hctl. bsimp.
  cbn [round_end srec smsg with_daemon with_msg with_rec]. rewrite Hx, <-Ew. rewrite <-(app_nil_r w) in P.
  destruct (DaemonHandlersSpec.remove_pending _ _ w [] P ltac:(lia)) as (r2 & -> & P2 & _). cbn [Z.eqb DLT_RETURN_OK].
  set (s1 := with_rec _ r2). destruct k as [|k]; [unfold w in Lw; rewrite length_app in Lw; lia|]. cbn [receive_loop].
  destruct (DaemonClientSpec.round_reads D nflag mem1 s1 [] HD B1 P2 W') as [(m2 & _ & _ & ->)|(pre & M2 & q & _ & Hnil & Hsp2 & _)];
    [|by destruct (nothing_left _ _ _ _ Hnil Hsp2)].
  bsimp. cbn [negb]. destruct (Hmove r2 [] P2) as (r3 & Hmv & C3). cbn [srec with_msg s1 with_rec]. rewrite Hmv. bsimp. cbn [Z.eqb DLT_RETURN_OK].
  eexists _, mem1, m', rc. split; [reflexivity|]. split_and!; try done. by exists M'.
Qed.

(** C18: A request that a client sends is served by the daemon: all bytes the client
    writes are taken by the daemon as one message, whose service, names and values
    are those of the request, and given to the dispatch of control messages.  The
    services that are parameters only have to return, and tables that are asked for
    have to fit into an answer ([ready]). *)
Theorem client_request_served s mem nflag r o : wf_request r -> ready s mem nflag r -> (∀ n, script o n = WriteAll) ->
  ∃ o' parts s' mem' m rc, issue E (Some c) r o = Some (DLT_RETURN_OK, o') ∧ out o' = out o ++ ((λ p, (Client.sock c, p)) <$> parts) ∧
    dlt_daemon_process_client_messages D F V send (S (length (concat parts))) nflag (Some (concat parts)) mem s = Some (0, s', mem') ∧
    ReceiverSpec.carried (srec s') mem' [] ∧ ClientSpec.tells m (message_for E c r) ∧
    dlt_daemon_client_process_control D F V send (Receiver.fd (srec s)) m (sd s) = Some (rc, sd s').
Proof.
  intros W Hr Ho. destruct (request_handled s mem nflag r W Hr) as (s' & mem' & m & rc & Hrun & C & T & Hc).
  destruct (send_parts_all (Client.sock c) (parts_of c (message_for E c r)) o Ho) as (o' & Es & Hout).
  exists o', (parts_of c (message_for E c r)), s', mem', m, rc. rewrite request_sent, Es, concat_parts by done. done.
Qed.

(** The dispatch of the daemon finds the service and the payload. *)
Lemma dispatched r m : wf_request r -> gatewayMode F <> 1 -> 0 < service_of r < 4095 -> ClientSpec.tells m (message_for E c r) ->
  ∃ rest, databuffer m = Some (payload_of r ++ rest) ∧ datasize m = zlen (payload_of r) ∧
    ∀ f d, dlt_daemon_client_process_control D F V send f m d = (d ← control_service D F V send f (service_of r) m d; Some (0, d)).
Proof.
  intros W Hg Hs (M' & Hm & Hh & He & Hp). change (m_payload (message_for E c r)) with (payload_of r) in Hp. destruct (payload_ok r W) as [Bp Lp].
  destruct (h_payload _ _ Hm) as (b & Hb & Hr). apply DaemonClientSpec.payload_front in Hr as (rest & -> & Hd). rewrite Hp in *. exists rest. split_and!; try done.
  intros f d. unfold dlt_daemon_client_process_control. rewrite Hb, Hd, (ltb_false _ 4), (eqb_false (gatewayMode F)) by (done || lia). cbn [andb]. bsimp.
  rewrite (DaemonClientSpec.holds_htyp _ _ Hm), Hh. unfold payload_of at 1. rewrite <-app_assoc.
  assert (mread (le_bytes 4 (service_of r) ++ arguments r ++ rest) 0 4 = Some (le_bytes 4 (service_of r))) as -> by (apply (mread_mid [] (le_bytes 4 _)); [done|by rewrite length_le_bytes]).
  bsimp. rewrite le_Z_le_bytes by (cbn; lia). change (DLT_ENDIAN_GET_32 (m_htyp _) (service_of r)) with (u32 (service_of r)). rewrite u32_small by lia.
  unfold DLT_SERVICE_ID, DLT_SERVICE_ID_CALLSW_CINJECTION. by rewrite !ltb_true by lia.
Qed.

Lemma norm_norm t : DaemonLevelsSpec.norm (norm t) = norm t.
Proof. unfold DaemonLevelsSpec.norm, norm. by rewrite cstr_pad. Qed.


End daemon.
(** ** What goes unnoticed *)

(** A request of which only a part can be written is reported as sent. *)
Theorem short_write_reported_ok E c r o n e : ClientSpec.wf_env E -> heap_ok (Client.heap E) -> wf_client c -> wf_request r ->
  send_serial_header c = false -> script o (calls o) = WriteAll -> script o (S (calls o)) = WriteSome n e -> (0 < n < length (payload_of r))%nat ->
  ∃ o', issue E (Some c) r o = Some (DLT_RETURN_OK, o') ∧
    out o' = out o ++ [(Client.sock c, headers (message_for E c r)); (Client.sock c, take n (payload_of r))].
Proof.
  intros WE HA WC W Hs H1 H2 Hn. rewrite request_sent by done. unfold parts_of. rewrite Hs. cbn [app send_parts]. unfold sys_write at 1. rewrite H1.
  rewrite (ltb_false (zlen _)) by lia. unfold sys_write. cbn [script calls wrote]. rewrite H2. change (m_payload (message_for E c r)) with (payload_of r).
  replace (Nat.min (Nat.max 1 n) (length (payload_of r))) with n by lia. rewrite (ltb_false (Z.of_nat n)) by lia. eexists. split; [done|]. cbn [out wrote]. by rewrite <-app_assoc.
Qed.

(** Without memory the request for the version is written through a null pointer. *)
Theorem software_version_unchecked E c o : malloc (Client.heap E) 4 = None -> dlt_client_get_software_version E (Some c) o = None.
Proof. intros H. unfold dlt_client_get_software_version. cbn [checked]. by rewrite H. Qed.

(** ** Examples *)

Lemma wf_client0 size : wf_client (ClientSpec.client0 size).
Proof. split; [done|done|by apply is_bytes_forallb]. Qed.

Lemma ready0 o size nflag r : wf_request r -> service_of r <> DLT_SERVICE_ID_GET_LOG_INFO ->
  nflag = false -> 22 + zlen (payload_of r) <= size < 2147483647 ->
  ready ClientSpec.env0 (ClientSpec.client0 200) DaemonRequestsSpec.no_services (DaemonClientSpec.client_session o size) (DaemonUserSpec.fifo_memory size) nflag r.
Proof.
  intros W Hi -> Hs. split.
  - exact DaemonRequestsSpec.no_services_return.
  - apply DaemonControlSpec.control_daemon_sound.
  - exact wf_fresh.
  - done.
  - apply DaemonUserSpec.fifo_carried. lia.
  - apply DaemonUserSpec.fifo_bytes.
  - destruct (ids_for r W) as [(e1 & _ & I1 & B1) (e2 & _ & I2 & B2)]. cbn [serial_of send_serial_header ClientSpec.client0 app]. rewrite length_encode.
    unfold message_for. rewrite (request_len _ _ (wf_client0 200) _ _ _ _ _ I1 I2). done.
  - done.
  - intros Hx. by destruct (Hi Hx).
Qed.

Lemma client_request_served_witness :
  let r := Inject [65; 80; 80; 49] [67; 79; 78; 49] 5000 [104; 105] in
  let o := DaemonSendSpec.os0 (λ _, WriteAll) in
  let s := DaemonClientSpec.client_session o 100 in
  let send := dlt_daemon_client_send 1 DaemonSendSpec.env0 in
  ∃ o' parts s' mem' m rc, issue ClientSpec.env0 (Some (ClientSpec.client0 200)) r o = Some (DLT_RETURN_OK, o') ∧ out o' = out o ++ ((λ p, (4, p)) <$> parts) ∧
    dlt_daemon_process_client_messages DaemonSendSpec.env0 DaemonRequestsSpec.flags0 DaemonRequestsSpec.no_services send (S (length (concat parts))) false (Some (concat parts))
      (DaemonUserSpec.fifo_memory 100) s = Some (0, s', mem') ∧
    ReceiverSpec.carried (srec s') mem' [] ∧ ClientSpec.tells m (message_for ClientSpec.env0 (ClientSpec.client0 200) r) ∧
    dlt_daemon_client_process_control DaemonSendSpec.env0 DaemonRequestsSpec.flags0 DaemonRequestsSpec.no_services send 3 m (sd s) = Some (rc, sd s').
Proof.
  intros r o s send.
  assert (wf_request r) as W.
  { split; [|split; [|split; [done|split; [by apply is_bytes_forallb|done]]]]; (split; [left; cbn; lia|split; [by apply is_bytes_forallb|done]]). }
  apply (client_request_served ClientSpec.env0 (ClientSpec.client0 200) DaemonSendSpec.env0 DaemonRequestsSpec.flags0 DaemonRequestsSpec.no_services 0
    ClientSpec.wf_client_env0 ltac:(done) (wf_client0 200) DaemonSendSpec.wf_daemon_env0 ltac:(done) ltac:(by apply is_bytes_forallb) ltac:(done) s (DaemonUserSpec.fifo_memory 100) false r o).
  - exact W.
  - by apply ready0.
  - done.
Defined.


End ClientRequestsSpec.
