(* ===== verification/ClientTablesSpec.v ===== *)
(** * A client reads the tables of the daemon

    The whole way of a "get log info" request: the client library writes it, the
    daemon takes it from its connection and answers with its tables, the main loop
    of the client hands the answer to the callback, and the text of the answer is
    read back to the list of applications and contexts. *)

From stdpp Require Import base sets list list_numbers numbers option.
From Stdlib Require Import ZArith Lia Bool.
From S2P Require Import Prelude Protocol Ids Message MessageSpec Receiver ReceiverSpec UserShared.
From S2P Require Import SortedTable DaemonTables DaemonTablesSpec DaemonContextsSpec DaemonSend DaemonMessagesSpec DaemonSendSpec DaemonControl DaemonControlSpec DaemonLogInfoSpec DaemonRequestsSpec DaemonLevelsSpec.
From S2P Require Import DaemonUser DaemonUserSpec DaemonClient DaemonClientSpec LogInfoText LogInfoTextSpec Client ClientSpec ClientRequestsSpec.
Import Protocol Ids Message MessageSpec UserShared DaemonSend DaemonMessagesSpec DaemonControl.
Import DaemonTablesSpec DaemonContextsSpec DaemonControlSpec DaemonLogInfoSpec.
Import DaemonUser DaemonClient Client ClientRequestsSpec.

Local Open Scope Z_scope.

Module ClientTablesSpec.

Definition everything : log_info_request := {| options := 7; req_apid := [0; 0; 0; 0]; req_ctid := [0; 0; 0; 0] |}.

(** The bytes of one message, perhaps behind the serial header, hold no other. *)
Lemma parsed_single pre M Ms rest : wf_message M -> sync_point (pre ++ encode M) false (zlen pre) ->
  DaemonClientSpec.parsed false (pre ++ encode M) Ms rest -> DaemonClientSpec.incomplete false rest ->
  ∃ M', Ms = [M'] ∧ m_htyp M' = m_htyp M ∧ ext M' = ext M ∧ m_payload M' = m_payload M.
Proof.
  intros WM Hsp Hp Hi. remember (pre ++ encode M) as b eqn:Eb. destruct Hp as [rest|pre' M' q Ms rest Hsp' WM' Hq].
  { exfalso. apply (Hi pre M []); [by rewrite app_nil_r|done|done]. }
  symmetry in Eb. destruct (single_message false pre pre' q M M' WM WM') as (-> & -> & Hh & He & Hpl); [by rewrite Eb|done|by rewrite Eb|].
  exists M'. remember [] as q eqn:Eq. destruct Hq as [|pre2 M2 q2 Ms rest Hsp2 WM2 Hq2]; [done|]. by destruct (nothing_left false pre2 q2 M2); [|rewrite <-Eq].
Qed.

Section tables.
Context (E : Client.env) (c : DltClient) (D : DaemonSend.env) (F : flags) (V : services) (fuel : nat).
Abbreviation send := (dlt_daemon_client_send (S fuel) D).
Hypothesis (WE : ClientSpec.wf_env E) (HA : heap_ok (Client.heap E)) (WC : wf_client c).
Hypothesis (WD : wf_env D) (HD : heap_ok (DaemonSend.heap D)) (Bv : is_bytes (ECUVersionString D)) (Lv : zlen (ECUVersionString D) < 60000).

(** The tables of the daemon, small enough for the text of the client. *)
Record tabled (d : daemon) (u : DaemonTables.DltDaemonRegisteredUsers) : Prop := {
  tb_sound : sound d;
  tb_own : ∃ i, own_list (tables d) (DaemonTables.ecuid (tables d)) i u;
  tb_linked : linked (live_apps u) (live_ctxs u);
  tb_counts : ∀ a, a ∈ live_apps u -> DaemonTables.App.num_contexts a < 65536;
  tb_apps : zlen (live_apps u) < 65536;
  tb_some : concat (selected u everything).*2 <> [];
  tb_bytes : is_bytes (log_info 7 (selected u everything));
  tb_size : zlen (log_info 7 (selected u everything)) <= 21836
}.
Let r := GetLogInfo.
Let M := message_for E c r.

Lemma info_request m : ClientSpec.tells m M ->
  ∃ b, databuffer m = Some b ∧ 17 <= datasize m ∧ get_log_info_request b = Some everything.
Proof.
  intros (M' & Hm & _ & _ & Hp). destruct (h_payload _ _ Hm) as (b & Hb & Hr). apply DaemonClientSpec.payload_front in Hr as (rest & -> & Hd).
  rewrite Hp in *. exists (m_payload M ++ rest). rewrite Hd. split_and!; [done|done|].
  unfold get_log_info_request. change (m_payload M ++ rest) with ([3; 0; 0; 0; 7] ++ [0; 0; 0; 0] ++ [0; 0; 0; 0] ++ remo ++ rest).
  rewrite (mread_mid2 [3; 0; 0; 0; 7] [0; 0; 0; 0] [0; 0; 0; 0] _ 9 4), (mread_mid [3; 0; 0; 0; 7] [0; 0; 0; 0] _ 5 4) by done. done.
Qed.
Lemma info_asked d u m : tabled d u -> ClientSpec.tells m M -> log_info_asked d u m everything.
Proof. intros [] T. destruct (info_request m T) as (b & Hb & Hd & Hr). split; try done. by exists b. Qed.

(** The answer of the daemon. *)
Definition tables_answer (d : daemon) (u : DaemonTables.DltDaemonRegisteredUsers) : message :=
  control_of D (DaemonTables.ecuid (tables d)) DLT_MSIN_CONTROL_RESPONSE 1 DLT_DAEMON_CTRL_APID DLT_DAEMON_CTRL_CTID (log_info 7 (selected u everything)).
Definition serial_out : bytes := if sendserialheader D then dltSerialHeader else [].

Lemma answer_len d u : tabled d u -> message_len (tables_answer d u) = 22 + zlen (log_info 7 (selected u everything)).
Proof.
  intros T. pose proof (tb_sound _ _ T) as [_ Hi Hb].
  apply (control_len _ _ _ _ DLT_DAEMON_CTRL_APID DLT_DAEMON_CTRL_CTID); [done|apply id_of_ctrl_app|apply id_of_ctrl_ctx].
Qed.
Lemma answer_wf d u : tabled d u -> wf_message (tables_answer d u).
Proof.
  intros T. pose proof (tb_sound _ _ T) as [_ Hi Hb]. eapply (control_wf _ _ _ _ DLT_DAEMON_CTRL_APID DLT_DAEMON_CTRL_CTID); try done;
    try apply id_of_ctrl_app; try apply id_of_ctrl_ctx; try (by apply is_bytes_forallb); [apply T|].
  pose proof (answer_len _ _ T) as La. unfold tables_answer in La. pose proof (tb_size _ _ T). lia.
Qed.

(** The daemon answers on the connection of the client. *)
Lemma tables_sent s mem nflag u : ready E c V s mem nflag r -> gatewayMode F <> 1 -> DaemonLevelsSpec.cooperative (sys (sd s)) -> tabled (sd s) u ->
  let w := serial_of c ++ encode M in
  ∃ s' mem' parts, dlt_daemon_process_client_messages D F V send (S (length w)) nflag (Some w) mem s = Some (0, s', mem') ∧
    out (sys (sd s')) = out (sys (sd s)) ++ ((λ p, (Receiver.fd (srec s), p)) <$> parts) ∧ concat parts = serial_out ++ encode (tables_answer (sd s) u).
Proof.
  intros Hr Hg Hco T w. destruct (request_handled E c D F V fuel WE WC WD HD Bv Lv s mem nflag r I Hr) as (s' & mem' & m & rc & Hrun & _ & Htell & Hctl).
  destruct (dispatched E c D F V fuel r m I Hg ltac:(done) Htell) as (rest & _ & _ & Hd). rewrite Hd in Hctl. unbind Hctl as d' Hd'. injection Hctl as _ ->.
  change (dlt_daemon_control_get_log_info D send (Receiver.fd (srec s)) m (sd s) = Some (sd s')) in Hd'. pose proof (info_asked _ _ _ T Htell) as Hask.
  pose proof (tb_size _ _ T) as Hsize. set (p := log_info 7 (selected u everything)) in *.
  destruct (log_info_answered D send (Receiver.fd (srec s)) m (sd s) u everything WD HD Hask (tb_bytes _ _ T) ltac:(change (zlen p < 65000); lia)) as (sh & _ & Ea).
  change (log_info (options everything) _) with p in Ea. change (control_of D _ _ _ _ _ p) with (tables_answer (sd s) u) in Ea. rewrite Hd' in Ea. pose proof (rd_fd _ _ _ _ _ _ _ Hr) as Hf.
  rewrite DaemonRequestsSpec.client_send_direct in Ea by (unfold DLT_DAEMON_SEND_TO_ALL, DLT_DAEMON_SEND_FORCE; lia).
  destruct (DaemonLevelsSpec.send_takes D (Receiver.fd (srec s)) (headers (tables_answer (sd s) u)) p (sd s) Hco) as (o & Es & [_ Hout]); [done|done|].
  rewrite Es in Ea. injection Ea as Ea. exists s', mem', ((if sendserialheader D then [dltSerialHeader] else []) ++ [headers (tables_answer (sd s) u); p]).
  split; [done|]. rewrite Ea. cbn [sys set_sys set_daemon]. split.
  - rewrite Hout. unfold DaemonLevelsSpec.wire. by destruct (sendserialheader D).
  - rewrite encode_headers. unfold serial_out. destruct (sendserialheader D); cbn [app concat]; by rewrite app_nil_r.
Qed.

(** C16: A client that asks for the log info gets the tables of the daemon, if they
    have a context and their description has at most 21836 bytes: its request is
    written, taken and answered by the daemon; however the connection cuts the answer
    into pieces, the main loop hands one message to the callback, and the text of this
    message is read back to exactly the registered applications with their contexts,
    levels, status and descriptions.  Both sides can write what they send, the daemon
    is no gateway, and the client does not search for serial headers.  (The text of the
    answer needs three characters for each of its bytes and is cut at 65535.) *)
Theorem client_reads_tables s mem nflag u o last mem2 ds fetch t show_g attrs :
  ready E c V s mem nflag r -> gatewayMode F <> 1 -> DaemonLevelsSpec.cooperative (sys (sd s)) -> tabled (sd s) u ->
  (∀ n, script o n = WriteAll) -> resync_serial_header c = false ->
  ReceiverSpec.carried (receiver c) mem2 [] -> is_bytes mem2 -> Receiver.buffersize (receiver c) = Receiver.DLT_RECEIVE_BUFSIZE ->
  ClientSpec.asks fetch -> ClientSpec.closing last -> zlen t = Receiver.DLT_RECEIVE_BUFSIZE ->
  concat ds = serial_out ++ encode (tables_answer (sd s) u) -> Forall (λ d, d <> []) ds ->
  ∃ o' req s' mem' ans, dlt_client_get_log_info E (Some c) o = Some (DLT_RETURN_OK, o') ∧
    out o' = out o ++ ((λ p, (Client.sock c, p)) <$> req) ∧
    dlt_daemon_process_client_messages D F V send (S (length (concat req))) nflag (Some (concat req)) mem s = Some (0, s', mem') ∧
    out (sys (sd s')) = out (sys (sd s)) ++ ((λ p, (Receiver.fd (srec s), p)) <$> ans) ∧
    concat ans = concat ds ∧
    (∃ m c' mem2' t', dlt_client_main_loop E fetch ((Some <$> ds) ++ [last]) (Some c) mem2 = Some (Some DLT_RETURN_TRUE, [m], Some c', mem2') ∧
       LogInfoText.message_payload_ascii show_g attrs false m t Receiver.DLT_RECEIVE_BUFSIZE = Some (DLT_RETURN_OK, t') ∧
       LogInfoText.dlt_client_parse_get_log_info_resp_text (Client.heap E)
         {| LogInfoText.service_id := 3; LogInfoText.status := 7; LogInfoText.count_app_ids := 0; LogInfoText.app_ids := None |} t' =
         Some (DLT_RETURN_OK, {| LogInfoText.service_id := 3; LogInfoText.status := 7; LogInfoText.count_app_ids := zlen (selected u everything);
                                 LogInfoText.app_ids := Some (LogInfoTextSpec.app_view 7 <$> selected u everything) |})).
Proof.
  intros Hr Hg Hco T Ho Hre Hc Bm Hsz Hask Hcl Lt Hds Hne. destruct (tables_sent s mem nflag u Hr Hg Hco T) as (s' & mem' & ans & Hrun & Hout & Hans).
  destruct (send_parts_all (Client.sock c) (parts_of c M) o Ho) as (o' & Es & Hout').
  exists o', (parts_of c M), s', mem', ans. split_and!; [|done|by rewrite concat_parts|done|by rewrite Hans|].
  { change (issue E (Some c) r o = Some (DLT_RETURN_OK, o')). rewrite request_sent by done. fold M. by rewrite Es. }
  pose proof (answer_wf _ _ T) as WA. set (A := tables_answer (sd s) u) in *.
  assert (is_bytes (serial_out ++ encode A)) as Bans.
  { rewrite is_bytes_app. split; [unfold serial_out; destruct (sendserialheader D); by apply is_bytes_forallb|apply WA]. }
  assert (sync_point (serial_out ++ encode A) false (zlen serial_out)) as Hsp.
  { unfold serial_out. destruct (sendserialheader D); [apply sp_serial; unfold serial_at; by apply (mread_mid [] dltSerialHeader)|]. apply sp_plain. unfold serial_at. cbn [app].
    assert (mread (encode A) 0 4 = Some (std A)) as -> by (unfold encode; apply (mread_mid [] (std A)); [done|by rewrite length_std]). intros Hs. by injection Hs. }
  assert (zlen (serial_out ++ encode A) <= 65535) as Hlen.
  { rewrite length_app. assert (zlen serial_out <= 4) by (unfold serial_out; by destruct (sendserialheader D)).
    pose proof (length_encode A) as Le. pose proof (tb_size _ _ T). pose proof (answer_len _ _ T) as La. fold A in La. lia. }
  assert (is_bytes (concat ds)) as Bds by (by rewrite Hds).
  destruct (ClientSpec.main_loop_sound E c fetch mem2 ds last HA WE Hre Hask Hcl Hc Bm) as (Ms & msgs & rest & c' & mem2' & Hloop & Hp & Hi & Hdel).
  - clear -Bds. induction ds as [|d ds IH]; [constructor|]. cbn [concat] in Bds. rewrite is_bytes_app in Bds. constructor; [tauto|]. apply IH; tauto.
  - rewrite Hsz. by unfold Receiver.DLT_RECEIVE_BUFSIZE.
  - rewrite Hsz. apply ClientSpec.fits_small; [|done]. cbn [app]. by rewrite Hds.
  - rewrite Hds in Hp. destruct (parsed_single _ _ _ _ WA Hsp Hp Hi) as (M' & -> & Hh & He & Hpl).
    inversion Hdel as [|m ? ? ? Hm Hnil]; subst. inversion Hnil; subst.
    assert (m_ext M' = m_ext A) as Hx by (unfold ext in He; rewrite Hh in He; exact He).
    destruct (tb_own _ _ T) as (i & Hown).
    destruct (LogInfoTextSpec.log_info_text_read (Client.heap E) M' 7 (selected u everything) show_g attrs m t) as (t' & Et & _ & Er); try done.
    + auto.
    + apply (selected_wf (tables (sd s)) u i everything); [apply (tb_sound _ _ T)|done].
    + apply T.
    + apply T.
    + apply T.
    + by rewrite Hx.
    + by eexists m, c', mem2', t'.
Qed.

End tables.
(** ** Example *)

Lemma sample_tabled o : tabled (control_daemon o) control_list.
Proof.
  destruct (sample_asked None o) as [H1 H2 H3 H4 H5 _ _ _ _ _ _]. split; try done; by apply is_bytes_forallb.
Qed.

(** The request and the answer, which arrives in two pieces. *)
Lemma client_reads_tables_witness :
  let D := DaemonSendSpec.env0 in let E := ClientSpec.env0 in let c := ClientSpec.client0 65535 in
  let o := DaemonSendSpec.os0 (λ _, WriteAll) in let s := DaemonClientSpec.client_session o 100 in
  let b := encode (tables_answer D (sd s) control_list) in let ds := [take 30 b; drop 30 b] in
  let V := DaemonRequestsSpec.no_services in let F := DaemonRequestsSpec.flags0 in
  ∃ o' req s' mem' ans, dlt_client_get_log_info E (Some c) o = Some (DLT_RETURN_OK, o') ∧
    out o' = out o ++ ((λ p, (4, p)) <$> req) ∧
    dlt_daemon_process_client_messages D F V (dlt_daemon_client_send 1 D) (S (length (concat req))) false (Some (concat req)) (DaemonUserSpec.fifo_memory 100) s = Some (0, s', mem') ∧
    out (sys (sd s')) = out (sys (sd s)) ++ ((λ p, (3, p)) <$> ans) ∧ concat ans = concat ds ∧
    (∃ m c' mem2' t', dlt_client_main_loop E None ((Some <$> ds) ++ [None]) (Some c) (DaemonUserSpec.fifo_memory 65535) = Some (Some DLT_RETURN_TRUE, [m], Some c', mem2') ∧
       LogInfoText.message_payload_ascii (λ _ _, []) false false m (DaemonUserSpec.fifo_memory 65535) Receiver.DLT_RECEIVE_BUFSIZE = Some (DLT_RETURN_OK, t') ∧
       LogInfoText.dlt_client_parse_get_log_info_resp_text (Client.heap E)
         {| LogInfoText.service_id := 3; LogInfoText.status := 7; LogInfoText.count_app_ids := 0; LogInfoText.app_ids := None |} t' =
         Some (DLT_RETURN_OK, {| LogInfoText.service_id := 3; LogInfoText.status := 7; LogInfoText.count_app_ids := zlen (selected control_list everything);
                                 LogInfoText.app_ids := Some (LogInfoTextSpec.app_view 7 <$> selected control_list everything) |})).
Proof.
  intros D E c o s b ds V F. pose proof (sample_tabled o) as T.
  apply (client_reads_tables E c D F V 0 ClientSpec.wf_client_env0 ltac:(done) (wf_client0 65535) DaemonSendSpec.wf_daemon_env0 ltac:(done) ltac:(by apply is_bytes_forallb) ltac:(done)
    s (DaemonUserSpec.fifo_memory 100) false control_list o None (DaemonUserSpec.fifo_memory 65535) ds None (DaemonUserSpec.fifo_memory 65535) (λ _ _, []) false).
  - split; try done.
    + apply T.
    + exact wf_fresh.
    + apply DaemonUserSpec.fifo_bytes.
    + intros _ m Hm bb r i u Hb Hd Hr Hown Ho. destruct (info_request E c m Hm) as (b2 & Hb2 & _ & Hr2).
      assert (r = everything) as -> by congruence. destruct (tb_own _ _ T) as (i' & Hown').
      assert (u = control_list) as -> by (change (sd s) with (control_daemon o) in Hown; destruct Hown as [H1 H2], Hown' as [H3 H4]; congruence).
      split_and!; [by apply (info_asked E c)|apply T|by vm_compute].
  - done.
  - done.
  - exact T.
  - done.
  - done.
  - apply DaemonUserSpec.fifo_carried. lia.
  - apply DaemonUserSpec.fifo_bytes.
  - done.
  - done.
  - by left.
  - unfold DaemonUserSpec.fifo_memory. rewrite length_replicate. by rewrite Z2Nat.id.
  - by vm_compute.
  - by repeat constructor.
Defined.

End ClientTablesSpec.
