(* ===== verification/UserContexts.v ===== *)
(** * Applications and contexts in the user library ([src/lib/dlt_user.c])

    An application registers itself and its contexts.  [dlt_user.dlt_ll_ts] is the
    table of the contexts: the position of a context in it is what the daemon
    uses to tell the context its log level.  The level and the trace status of a
    context are also kept in two allocated bytes that the table and the handle of
    the application share: [cells] is the memory of these bytes, an address is
    the number of the allocation, and a cell that was freed is [None].

    The build is that of [UserSend]: a FIFO, without shared memory and trace load
    control.  Contexts and applications are those of protocol version 1; where the
    code goes on with version 2 the model has no result.  Callbacks are numbers
    that stand for functions of the application.  An identifier is the array that
    the caller passes, a description the characters of a string. *)

From stdpp Require Import base list numbers option.
From Stdlib Require Import ZArith Lia Bool.
From S2P Require Import Prelude Protocol Ids RingBuffer Filter EnvLL Receiver UserLog UserShared UserSend.
Import Protocol Ids UserLog UserShared UserSend.

Local Open Scope Z_scope.

Module UserContexts.

Definition DLT_USER_CONTEXT_ALLOC_SIZE : Z := 500.
Definition DLT_USER_INITIAL_LOG_LEVEL : Z := 4.
Definition DLT_USER_INITIAL_TRACE_STATUS : Z := 0.
Definition DLT_USER_LOG_LEVEL_NOT_SET : Z := -2.
Definition DLT_USER_TRACE_STATUS_NOT_SET : Z := -2.
Definition DLT_TRACE_STATUS_MAX : Z := 2.
Definition DLT_USER_MODE_UNDEFINED : Z := -1.
Definition DLT_USER_MODE_MAX : Z := 4.
Definition sizeof_dlt_ll_ts_type : Z := 328.

(** ** Cells *)

Abbreviation memory := (list (option Z)).

(** [malloc(sizeof(int8_t))]. *)
Definition new_cell (A : allocator) (m : memory) : option (nat * memory) :=
  b ← malloc A 1; Some (length m, m ++ [Some (default 0 (head b))]).
(** Access to a freed cell is undefined. *)
Definition load (m : memory) (p : nat) : option Z := mjoin (m !! p).
Definition store (m : memory) (p : nat) (v : Z) : option memory := _ ← load m p; Some (<[p := Some v]> m).
Definition free_cell (m : memory) (p : nat) : option memory := _ ← load m p; Some (<[p := None]> m).
(** [if (ptr) *ptr = v] and [if (ptr != NULL) free(ptr)]. *)
Definition store_if (m : memory) (p : option nat) (v : Z) : option memory :=
  match p with Some p => store m p v | None => Some m end.
Definition free_if (m : memory) (p : option nat) : option memory :=
  match p with Some p => free_cell m p | None => Some m end.

(** ** State *)

(** [data] is an address, 0 for a null pointer. *)
Record DltUserInjectionCallback := {
  service_id : Z;
  injection_callback : option Z;
  injection_callback_with_id : option Z;
  data : Z
}.

Module Entry.
Record dlt_ll_ts_type := {
  contextID : bytes;
  log_level : Z;
  log_level_ptr : option nat;
  trace_status : Z;
  trace_status_ptr : option nat;
  context_description : option bytes;
  injection_table : option (list DltUserInjectionCallback);
  nrcallbacks : Z;
  log_level_changed_callback : option Z
}.
(** An entry as the loops over new memory leave it. *)
Definition initial : dlt_ll_ts_type :=
  {| contextID := [0; 0; 0; 0]; log_level := DLT_USER_INITIAL_LOG_LEVEL; log_level_ptr := None;
     trace_status := DLT_USER_INITIAL_TRACE_STATUS; trace_status_ptr := None; context_description := None;
     injection_table := None; nrcallbacks := 0; log_level_changed_callback := None |}.
Definition put_names (e : dlt_ll_ts_type) (id : bytes) (d : option bytes) : dlt_ll_ts_type :=
  {| contextID := id; log_level := log_level e; log_level_ptr := log_level_ptr e; trace_status := trace_status e;
     trace_status_ptr := trace_status_ptr e; context_description := d; injection_table := injection_table e;
     nrcallbacks := nrcallbacks e; log_level_changed_callback := log_level_changed_callback e |}.
Definition set_ptrs (e : dlt_ll_ts_type) (p q : option nat) : dlt_ll_ts_type :=
  {| contextID := contextID e; log_level := log_level e; log_level_ptr := p; trace_status := trace_status e;
     trace_status_ptr := q; context_description := context_description e; injection_table := injection_table e;
     nrcallbacks := nrcallbacks e; log_level_changed_callback := log_level_changed_callback e |}.
Definition put_levels (e : dlt_ll_ts_type) (l s : Z) : dlt_ll_ts_type :=
  {| contextID := contextID e; log_level := l; log_level_ptr := log_level_ptr e; trace_status := s;
     trace_status_ptr := trace_status_ptr e; context_description := context_description e;
     injection_table := injection_table e; nrcallbacks := nrcallbacks e;
     log_level_changed_callback := log_level_changed_callback e |}.
Definition set_callback (e : dlt_ll_ts_type) (cb : option Z) : dlt_ll_ts_type :=
  {| contextID := contextID e; log_level := log_level e; log_level_ptr := log_level_ptr e;
     trace_status := trace_status e; trace_status_ptr := trace_status_ptr e;
     context_description := context_description e; injection_table := injection_table e;
     nrcallbacks := nrcallbacks e; log_level_changed_callback := cb |}.
Definition set_injections (e : dlt_ll_ts_type) (t : option (list DltUserInjectionCallback)) (n : Z) : dlt_ll_ts_type :=
  {| contextID := contextID e; log_level := log_level e; log_level_ptr := log_level_ptr e;
     trace_status := trace_status e; trace_status_ptr := trace_status_ptr e;
     context_description := context_description e; injection_table := t; nrcallbacks := n;
     log_level_changed_callback := log_level_changed_callback e |}.
End Entry.

(** The handle of the application. *)
Module Handle.
Record DltContext := {
  contextID : bytes;
  log_level_pos : Z;
  log_level_ptr : option nat;
  trace_status_ptr : option nat;
  mcnt : Z
}.
End Handle.

(** [dlt_user] with its contexts. *)
Record app := {
  user : DltUser;
  application_description : option bytes;
  dlt_ll_ts : option (list Entry.dlt_ll_ts_type);
  dlt_ll_ts_max_num_entries : Z;
  dlt_ll_ts_num_entries : Z;
  initial_ll_set : EnvLL.dlt_env_ll_set;
  dlt_user_handle : Z;
  log_state : Z;
  receiver : Receiver.DltReceiver;
  cells : memory
}.

Definition with_user (a : app) (u : DltUser) : app :=
  {| user := u; application_description := application_description a; dlt_ll_ts := dlt_ll_ts a;
     dlt_ll_ts_max_num_entries := dlt_ll_ts_max_num_entries a; dlt_ll_ts_num_entries := dlt_ll_ts_num_entries a;
     initial_ll_set := initial_ll_set a; dlt_user_handle := dlt_user_handle a; log_state := log_state a;
     receiver := receiver a; cells := cells a |}.
Definition with_description (a : app) (d : option bytes) : app :=
  {| user := user a; application_description := d; dlt_ll_ts := dlt_ll_ts a;
     dlt_ll_ts_max_num_entries := dlt_ll_ts_max_num_entries a; dlt_ll_ts_num_entries := dlt_ll_ts_num_entries a;
     initial_ll_set := initial_ll_set a; dlt_user_handle := dlt_user_handle a; log_state := log_state a;
     receiver := receiver a; cells := cells a |}.
Definition with_table (a : app) (t : option (list Entry.dlt_ll_ts_type)) (max num : Z) (m : memory) : app :=
  {| user := user a; application_description := application_description a; dlt_ll_ts := t;
     dlt_ll_ts_max_num_entries := max; dlt_ll_ts_num_entries := num;
     initial_ll_set := initial_ll_set a; dlt_user_handle := dlt_user_handle a; log_state := log_state a;
     receiver := receiver a; cells := m |}.
Definition with_state (a : app) (s : Z) (r : Receiver.DltReceiver) : app :=
  {| user := user a; application_description := application_description a; dlt_ll_ts := dlt_ll_ts a;
     dlt_ll_ts_max_num_entries := dlt_ll_ts_max_num_entries a; dlt_ll_ts_num_entries := dlt_ll_ts_num_entries a;
     initial_ll_set := initial_ll_set a; dlt_user_handle := dlt_user_handle a; log_state := s;
     receiver := r; cells := cells a |}.

(** [dlt_user.dlt_ll_ts[k]]; the index is converted as the access needs it. *)
Definition get_entry (a : app) (k : Z) : option Entry.dlt_ll_ts_type :=
  if k <? 0 then None else t ← dlt_ll_ts a; t !! Z.to_nat k.
(** Entry [k] is there. *)
Definition put_entry (a : app) (k : Z) (e : Entry.dlt_ll_ts_type) : app :=
  with_table a ((λ t, <[Z.to_nat k := e]> t) <$> dlt_ll_ts a) (dlt_ll_ts_max_num_entries a) (dlt_ll_ts_num_entries a) (cells a).
Definition with_cells (a : app) (m : memory) : app :=
  with_table a (dlt_ll_ts a) (dlt_ll_ts_max_num_entries a) (dlt_ll_ts_num_entries a) m.

(** The environment of [UserSend], [dlt_init] with its sockets, threads and
    environment variables, and [open] of the daemon's FIFO. *)
Record library := {
  env_of : env;
  init : app -> Z * app;
  open_daemon_fifo : Z
}.

Definition set_appid (u : DltUser) (id : bytes) : DltUser :=
  {| init_done := init_done u; freeing := freeing u; file_reach_max := file_reach_max u; ecuID := ecuID u;
     ecuID2len := ecuID2len u; appID := id; appID2len := appID2len u; appID2 := appID2 u;
     dlt_log_handle := dlt_log_handle u; dlt_is_file := dlt_is_file u; filesize_max := filesize_max u;
     overflow_counter := overflow_counter u; user_verbose_mode := user_verbose_mode u;
     use_extended_header_for_non_verbose := use_extended_header_for_non_verbose u;
     with_session_id := with_session_id u; with_timestamp := with_timestamp u; with_ecu_id := with_ecu_id u;
     enable_local_print := enable_local_print u; local_print_mode := local_print_mode u;
     startup_buffer := startup_buffer u; resend_buffer := resend_buffer u; log_buf_len := log_buf_len u;
     local_pid := local_pid u |}.

(** [if (!DLT_USER_INITIALIZED) dlt_init()]: the result is negative when it fails. *)
Definition initialised (L : library) (a : app) : Z * app :=
  if negb (init_done (user a)) then init L a else (DLT_RETURN_OK, a).

(** ** Messages to the daemon *)

Section sending.
Context (L : library).
Abbreviation E := (env_of L).

(** "store message in ringbuffer, if an error has occured". *)
Definition kept_if (bad : bool) (d1 d2 d3 : bytes) (a : app) (w : world) : option (Z * app * world) :=
  if bad then '(rc, u) ← dlt_user_log_out_error_handling E (user a) d1 d2 d3; Some (rc, with_user a u, w)
  else Some (DLT_RETURN_OK, a, w).

Definition dlt_user_log_send_register_application (a : app) (w : world) : option (Z * app * world) :=
  none ← no_id (appID (user a));
  if (none : bool) then Some (DLT_RETURN_ERROR, a, w) else
  let '(rc, uh) := dlt_user_set_userheader (replicate 8 0) DLT_USER_MESSAGE_REGISTER_APPLICATION in
  if rc <? DLT_RETURN_OK then Some (DLT_RETURN_ERROR, a, w) else
  apid ← Filter.set_id (replicate 4 0) (appID (user a));
  let text := default [] (application_description a) in
  let body := apid ++ le_bytes 4 (u32 (getpid E)) ++ le_bytes 4 (u32 (zlen text)) in
  if dlt_is_file (user a) then Some (DLT_RETURN_OK, a, w) else
  let '(ret, w) := dlt_user_log_out3 w (dlt_log_handle (user a)) uh body text in
  kept_if (ret <? DLT_RETURN_OK) uh body text a w.

Definition dlt_user_log_send_unregister_application (a : app) (w : world) : option (Z * app * world) :=
  none ← no_id (appID (user a));
  if (none : bool) then Some (DLT_RETURN_ERROR, a, w) else
  let '(rc, uh) := dlt_user_set_userheader (replicate 8 0) DLT_USER_MESSAGE_UNREGISTER_APPLICATION in
  if rc <? DLT_RETURN_OK then Some (DLT_RETURN_ERROR, a, w) else
  apid ← Filter.set_id (replicate 4 0) (appID (user a));
  let body := apid ++ le_bytes 4 (u32 (getpid E)) in
  if dlt_is_file (user a) then Some (DLT_RETURN_OK, a, w) else
  let '(ret, w) := dlt_user_log_out2 w (dlt_log_handle (user a)) uh body in
  kept_if (ret <? DLT_RETURN_OK) uh body [] a w.

(** [log->handle] with its description, level and trace status. *)
Definition dlt_user_log_send_register_context (h : Handle.DltContext) (text : option bytes) (ll ts : Z) (a : app) (w : world)
  : option (Z * app * world) :=
  none ← no_id (Handle.contextID h);
  if (none : bool) then Some (DLT_RETURN_ERROR, a, w) else
  let '(rc, uh) := dlt_user_set_userheader (replicate 8 0) DLT_USER_MESSAGE_REGISTER_CONTEXT in
  if rc <? DLT_RETURN_OK then Some (DLT_RETURN_ERROR, a, w) else
  apid ← Filter.set_id (replicate 4 0) (appID (user a));
  ctid ← Filter.set_id (replicate 4 0) (Handle.contextID h);
  let text := default [] text in
  let body := apid ++ ctid ++ le_bytes 4 (u32 (Handle.log_level_pos h)) ++ [u8 (i8 ll); u8 (i8 ts)]
                ++ le_bytes 4 (u32 (getpid E)) ++ le_bytes 4 (u32 (zlen text)) in
  if dlt_is_file (user a) then Some (DLT_RETURN_OK, a, w) else
  no_app ← no_id (appID (user a));
  let '(ret, w) := if negb no_app then dlt_user_log_out3 w (dlt_log_handle (user a)) uh body text
                   else (DLT_RETURN_ERROR, w) in
  kept_if (negb (ret =? DLT_RETURN_OK) || no_app) uh body text a w.

Definition dlt_user_log_send_unregister_context (h : Handle.DltContext) (a : app) (w : world) : option (Z * app * world) :=
  none ← no_id (Handle.contextID h);
  if (none : bool) then Some (DLT_RETURN_ERROR, a, w) else
  let '(rc, uh) := dlt_user_set_userheader (replicate 8 0) DLT_USER_MESSAGE_UNREGISTER_CONTEXT in
  if rc <? DLT_RETURN_OK then Some (DLT_RETURN_ERROR, a, w) else
  apid ← Filter.set_id (replicate 4 0) (appID (user a));
  ctid ← Filter.set_id (replicate 4 0) (Handle.contextID h);
  let body := apid ++ ctid ++ le_bytes 4 (u32 (getpid E)) in
  if dlt_is_file (user a) then Some (DLT_RETURN_OK, a, w) else
  let '(ret, w) := dlt_user_log_out2 w (dlt_log_handle (user a)) uh body in
  kept_if (ret <? DLT_RETURN_OK) uh body [] a w.

Definition out_of_range (ll ts : Z) : bool :=
  (ll <? DLT_USER_LOG_LEVEL_NOT_SET) || (DLT_LOG_MAX <=? ll)
  || (ts <? DLT_USER_TRACE_STATUS_NOT_SET) || (DLT_TRACE_STATUS_MAX <=? ts).

Definition dlt_send_app_ll_ts_limit (apid : bytes) (ll ts : Z) (a : app) (w : world) : option (Z * app * world) :=
  if out_of_range ll ts then Some (DLT_RETURN_ERROR, a, w) else
  none ← no_id apid;
  if (none : bool) then Some (DLT_RETURN_ERROR, a, w) else
  let '(rc, uh) := dlt_user_set_userheader (replicate 8 0) DLT_USER_MESSAGE_APP_LL_TS in
  if rc <? DLT_RETURN_OK then Some (DLT_RETURN_ERROR, a, w) else
  id ← Filter.set_id (replicate 4 0) apid;
  let body := id ++ [u8 ll; u8 ts] in
  if dlt_is_file (user a) then Some (DLT_RETURN_OK, a, w) else
  let '(ret, w) := dlt_user_log_out2 w (dlt_log_handle (user a)) uh body in
  kept_if (ret <? DLT_RETURN_OK) uh body [] a w.

Definition dlt_user_log_send_log_mode (mode version : Z) (a : app) (w : world) : option (Z * app * world) :=
  if (mode <? DLT_USER_MODE_UNDEFINED) || (DLT_USER_MODE_MAX <=? mode) then Some (DLT_RETURN_WRONG_PARAMETER, a, w) else
  if negb ((version =? 1) || (version =? 2)) then Some (DLT_RETURN_ERROR, a, w) else
  let '(rc, uh) := (if version =? 1 then dlt_user_set_userheader else dlt_user_set_userheader_v2)
                     (replicate 8 0) DLT_USER_MESSAGE_LOG_MODE in
  if rc <? DLT_RETURN_OK then Some (DLT_RETURN_ERROR, a, w) else
  if dlt_is_file (user a) then Some (DLT_RETURN_OK, a, w) else
  let '(ret, w) := dlt_user_log_out2 w (dlt_log_handle (user a)) uh [u8 mode] in
  kept_if (ret <? DLT_RETURN_OK) uh [u8 mode] [] a w.

Definition dlt_user_log_send_marker (a : app) (w : world) : option (Z * app * world) :=
  none ← no_id (appID (user a));
  if (none : bool) && (appID2len (user a) =? 0) then Some (DLT_RETURN_ERROR, a, w) else
  let '(rc, uh) := (if negb none then dlt_user_set_userheader else dlt_user_set_userheader_v2)
                     (replicate 8 0) DLT_USER_MESSAGE_MARKER in
  if rc <? DLT_RETURN_OK then Some (DLT_RETURN_ERROR, a, w) else
  if dlt_is_file (user a) then Some (DLT_RETURN_OK, a, w) else
  let '(ret, w) := dlt_user_log_out2 w (dlt_log_handle (user a)) uh [] in
  kept_if (ret <? DLT_RETURN_OK) uh [] [] a w.

(** ** The application *)

(** The comparison of [apid] with the identifier in use ends with [apid]. *)
Fixpoint starts_with (n : nat) (id apid : bytes) : option bool :=
  match n with
  | O => Some true
  | S n =>
      x ← head apid;
      if x =? 0 then Some true else
      y ← head id;
      if x =? y then starts_with n (tail id) (tail apid) else Some false
  end.

(** [strncpy(malloc(strlen(s) + 1), s, strlen(s) + 1)]; [None] inside: no memory. *)
Definition duplicate (s : option bytes) : option (option bytes) :=
  match s with
  | None => Some None
  | Some s => match malloc (heap E) (zlen s + 1) with Some _ => Some (Some s) | None => None end
  end.

Definition resend (a : app) (w : world) : option (Z * app * world) :=
  '(rc, u, w) ← dlt_user_log_resend_buffer E (user a) w; Some (rc, with_user a u, w).

Definition dlt_register_app (is_child : bool) (apid description : option bytes) (a : app) (w : world)
  : option (Z * app * world) :=
  if is_child then Some (DLT_RETURN_ERROR, a, w) else
  let '(rc, a) := initialised L a in
  if rc <? 0 then Some (DLT_RETURN_ERROR, a, w) else
  match apid with
  | None => Some (DLT_RETURN_WRONG_PARAMETER, a, w)
  | Some apid =>
      none ← no_id apid;
      if (none : bool) then Some (DLT_RETURN_WRONG_PARAMETER, a, w) else
      known ← starts_with 4 (appID (user a)) apid;
      if (known : bool) then Some (DLT_RETURN_OK, a, w) else
      id ← Filter.set_id (appID (user a)) apid;
      let a := with_user a (set_appid (user a) id) in
      match duplicate description with
      | None => Some (DLT_RETURN_ERROR, with_description a None, w)
      | Some d =>
          '(ret, a, w) ← dlt_user_log_send_register_application (with_description a d) w;
          if (ret =? DLT_RETURN_OK) && negb (dlt_log_handle (user a) =? -1) then resend a w else Some (ret, a, w)
      end
  end.

Definition dlt_unregister_app_util (is_child force_sending_messages : bool) (a : app) (w : world) : option (Z * app * world) :=
  if is_child then Some (DLT_RETURN_ERROR, a, w) else
  if negb (init_done (user a)) then Some (DLT_RETURN_ERROR, a, w) else
  '(ret, a, w) ← dlt_user_log_send_unregister_application a w;
  let count := RingBuffer.dlt_buffer_get_message_count (startup_buffer (user a)) in
  if negb force_sending_messages || (count =? 0) then
    id ← Filter.set_id (appID (user a)) [0];
    Some (ret, with_description (with_user a (set_appid (user a) id)) None, w)
  else Some (ret, a, w).

Definition dlt_unregister_app (is_child : bool) : app -> world -> option (Z * app * world) :=
  dlt_unregister_app_util is_child false.

(** [do ... while ((ret != DLT_RETURN_OK) && (dlt_user.dlt_log_handle != -1))]. *)
Fixpoint flush_queue (fuel : nat) (a : app) (w : world) : option (app * world) :=
  match fuel with
  | O => None
  | S fuel =>
      '(ret, a, w) ← resend a w;
      if negb (ret =? DLT_RETURN_OK) && negb (dlt_log_handle (user a) =? -1) then flush_queue fuel a w else Some (a, w)
  end.

Definition dlt_unregister_app_flush_buffered_logs (fuel : nat) (is_child : bool) (a : app) (w : world)
  : option (Z * app * world) :=
  if is_child then Some (DLT_RETURN_ERROR, a, w) else
  if negb (init_done (user a)) then Some (DLT_RETURN_ERROR, a, w) else
  '(a, w) ← (if negb (dlt_log_handle (user a) =? -1) then flush_queue fuel a w else Some (a, w));
  dlt_unregister_app_util is_child true a w.

(** ** Contexts *)

(** Room for a context at position [dlt_ll_ts_num_entries]; [None]: no memory. *)
Definition context_table (a : app) : option app :=
  let n := dlt_ll_ts_num_entries a in
  match dlt_ll_ts a with
  | None =>
      _ ← malloc (heap E) (sizeof_dlt_ll_ts_type * DLT_USER_CONTEXT_ALLOC_SIZE);
      Some (with_table a (Some (replicate (Z.to_nat DLT_USER_CONTEXT_ALLOC_SIZE) Entry.initial))
              DLT_USER_CONTEXT_ALLOC_SIZE n (cells a))
  | Some t =>
      if n mod DLT_USER_CONTEXT_ALLOC_SIZE =? 0 then
        let max := u32 ((n / DLT_USER_CONTEXT_ALLOC_SIZE + 1) * DLT_USER_CONTEXT_ALLOC_SIZE) in
        _ ← malloc (heap E) (sizeof_dlt_ll_ts_type * max);
        Some (with_table a (Some (take (Z.to_nat n) t ++ replicate (Z.to_nat (max - n)) Entry.initial)) max n (cells a))
      else Some a
  end.

(** [if (ptr == 0) ptr = malloc(sizeof(int8_t))]. *)
Definition cell_for (p : option nat) (m : memory) : option (nat * memory) :=
  match p with Some p => Some (p, m) | None => new_cell (heap E) m end.

(** From "New context entry to be initialized" to the memory of the levels: the
    entry and its two cells, [None] inside: no memory. *)
Definition named_entry (contextid : bytes) (description : option bytes) (a : app)
  : option (option (Entry.dlt_ll_ts_type * nat * nat) * app) :=
  let n := dlt_ll_ts_num_entries a in
  e ← get_entry a n;
  id ← Filter.set_id (Entry.contextID e) contextid;
  match duplicate description with
  | None => Some (None, put_entry a n (Entry.put_names e id None))
  | Some d =>
      let e := Entry.put_names e id d in
      match cell_for (Entry.log_level_ptr e) (cells a) with
      | None => Some (None, put_entry a n e)
      | Some (p, m) =>
          let e := Entry.set_ptrs e (Some p) (Entry.trace_status_ptr e) in
          match cell_for (Entry.trace_status_ptr e) m with
          | None => Some (None, put_entry (with_cells a m) n e)
          | Some (q, m) =>
              let e := Entry.set_ptrs e (Some p) (Some q) in
              Some (Some (e, p, q), put_entry (with_cells a m) n e)
          end
      end
  end.

(** The result of [dlt_user_log_init] for a handle. *)
Definition handle_init (a : app) : Z * app := initialised L a.

(** The return code, the state, the handle and the stream. *)
Definition dlt_register_context_ll_ts_llccb (is_child : bool) (h : option Handle.DltContext) (contextid description : option bytes)
  (loglevel tracestatus : Z) (cb : option Z) (a : app) (w : world)
  : option (Z * app * option Handle.DltContext * world) :=
  match h, contextid with
  | Some h, Some contextid =>
      none ← no_id contextid;
      if (none : bool) then Some (DLT_RETURN_WRONG_PARAMETER, a, Some h, w) else
      if is_child then Some (DLT_RETURN_ERROR, a, Some h, w) else
      if out_of_range loglevel tracestatus then Some (DLT_RETURN_WRONG_PARAMETER, a, Some h, w) else
      let '(rc, a) := handle_init a in
      if rc <? DLT_RETURN_OK then Some (DLT_RETURN_ERROR, a, Some h, w) else
      let h := {| Handle.contextID := Handle.contextID h; Handle.log_level_pos := Handle.log_level_pos h;
                  Handle.log_level_ptr := Handle.log_level_ptr h; Handle.trace_status_ptr := Handle.trace_status_ptr h;
                  Handle.mcnt := 0 |} in
      match context_table a with
      | None => Some (DLT_RETURN_ERROR, a, Some h, w)
      | Some a =>
          let n := dlt_ll_ts_num_entries a in
          '(r, a) ← named_entry contextid description a;
          match r with
          | None => Some (DLT_RETURN_ERROR, a, Some h, w)
          | Some (e, p, q) =>
              envLogLevel ← EnvLL.dlt_env_adjust_ll_from_env (initial_ll_set a) (appID (user a)) contextid DLT_USER_LOG_LEVEL_NOT_SET;
              let '(level, loglevel) :=
                if negb (envLogLevel =? DLT_USER_LOG_LEVEL_NOT_SET) then (i8 envLogLevel, envLogLevel)
                else if negb (loglevel =? DLT_USER_LOG_LEVEL_NOT_SET) then (i8 loglevel, loglevel)
                else (Entry.log_level e, loglevel) in
              id ← Filter.set_id (Handle.contextID h) contextid;
              let h := {| Handle.contextID := id; Handle.log_level_pos := i32 n; Handle.log_level_ptr := Some p;
                          Handle.trace_status_ptr := Some q; Handle.mcnt := Handle.mcnt h |} in
              m ← store (cells a) p level;
              m ← store m q (i8 tracestatus);
              let a := put_entry (with_cells a m) n (Entry.set_callback (Entry.put_levels e level (i8 tracestatus)) cb) in
              let a := with_table a (dlt_ll_ts a) (dlt_ll_ts_max_num_entries a) (u32 (n + 1)) (cells a) in
              '(ret, a, w) ← dlt_user_log_send_register_context h (Entry.context_description e) loglevel tracestatus a w;
              Some (ret, a, Some h, w)
          end
      end
  | _, _ => Some (DLT_RETURN_WRONG_PARAMETER, a, h, w)
  end.

Definition dlt_register_context_ll_ts (is_child : bool) (h : option Handle.DltContext) (contextid description : option bytes)
  (loglevel tracestatus : Z) (a : app) (w : world) : option (Z * app * option Handle.DltContext * world) :=
  dlt_register_context_ll_ts_llccb is_child h contextid description loglevel tracestatus None a w.

Definition dlt_register_context (is_child : bool) (h : option Handle.DltContext) (contextid description : option bytes)
  (a : app) (w : world) : option (Z * app * option Handle.DltContext * world) :=
  if (if h is None then true else false) then Some (DLT_RETURN_WRONG_PARAMETER, a, h, w) else
  if is_child then Some (DLT_RETURN_ERROR, a, h, w) else
  let '(rc, a) := initialised L a in
  if rc <? 0 then Some (DLT_RETURN_ERROR, a, h, w) else
  match contextid with
  | None => Some (DLT_RETURN_WRONG_PARAMETER, a, h, w)
  | Some id =>
      none ← no_id id;
      if (none : bool) then Some (DLT_RETURN_WRONG_PARAMETER, a, h, w) else
      dlt_register_context_ll_ts is_child h contextid description DLT_USER_LOG_LEVEL_NOT_SET DLT_USER_TRACE_STATUS_NOT_SET a w
  end.

Definition dlt_register_context_llccb (is_child : bool) (h : option Handle.DltContext) (contextid description : option bytes)
  (cb : option Z) (a : app) (w : world) : option (Z * app * option Handle.DltContext * world) :=
  match h, contextid with
  | Some _, Some id =>
      none ← no_id id;
      if (none : bool) then Some (DLT_RETURN_WRONG_PARAMETER, a, h, w) else
      if is_child then Some (DLT_RETURN_ERROR, a, h, w) else
      let '(rc, a) := initialised L a in
      if rc <? 0 then Some (DLT_RETURN_ERROR, a, h, w) else
      dlt_register_context_ll_ts_llccb is_child h contextid description DLT_USER_LOG_LEVEL_NOT_SET
        DLT_USER_TRACE_STATUS_NOT_SET cb a w
  | _, _ => Some (DLT_RETURN_WRONG_PARAMETER, a, h, w)
  end.

Definition dlt_unregister_context (is_child : bool) (h : option Handle.DltContext) (a : app) (w : world)
  : option (Z * app * option Handle.DltContext * world) :=
  if is_child then Some (DLT_RETURN_ERROR, a, h, w) else
  match h with
  | None => Some (DLT_RETURN_ERROR, a, h, w)
  | Some h =>
      let '(rc, a) := handle_init a in
      if rc <=? DLT_RETURN_ERROR then Some (DLT_RETURN_ERROR, a, Some h, w) else
      let h := {| Handle.contextID := Handle.contextID h; Handle.log_level_pos := Handle.log_level_pos h;
                  Handle.log_level_ptr := None; Handle.trace_status_ptr := None; Handle.mcnt := Handle.mcnt h |} in
      a ← (match dlt_ll_ts a with
           | None => Some a
           | Some _ =>
               e ← get_entry a (Handle.log_level_pos h);
               id ← Filter.set_id (Entry.contextID e) [0];
               m ← free_if (cells a) (Entry.log_level_ptr e);
               m ← free_if m (Entry.trace_status_ptr e);
               let e := Entry.put_levels (Entry.put_names e id None) DLT_USER_INITIAL_LOG_LEVEL DLT_USER_INITIAL_TRACE_STATUS in
               let e := Entry.set_callback (Entry.set_injections (Entry.set_ptrs e None None) None 0) None in
               Some (put_entry (with_cells a m) (Handle.log_level_pos h) e)
           end);
      '(ret, a, w) ← dlt_user_log_send_unregister_context h a w;
      Some (ret, a, Some h, w)
  end.

(** ** Settings of the whole application *)

(** The loop of [dlt_set_application_ll_ts_limit] over the used entries. *)
Fixpoint limit_loop (n : nat) (k : Z) (ll ts : Z) (a : app) : option app :=
  match n with
  | O => Some a
  | S n =>
      e ← get_entry a k;
      m ← store_if (cells a) (Entry.log_level_ptr e) (i8 ll);
      m ← store_if m (Entry.trace_status_ptr e) (i8 ts);
      limit_loop n (k + 1) ll ts (put_entry (with_cells a m) k (Entry.put_levels e (i8 ll) (i8 ts)))
  end.

Definition dlt_set_application_ll_ts_limit (is_child : bool) (loglevel tracestatus : Z) (a : app) (w : world)
  : option (Z * app * world) :=
  if is_child then Some (DLT_RETURN_ERROR, a, w) else
  if out_of_range loglevel tracestatus then Some (DLT_RETURN_WRONG_PARAMETER, a, w) else
  let '(rc, a) := initialised L a in
  if rc <? 0 then Some (DLT_RETURN_ERROR, a, w) else
  match dlt_ll_ts a with
  | None => Some (DLT_RETURN_ERROR, a, w)
  | Some _ =>
      a ← limit_loop (Z.to_nat (dlt_ll_ts_num_entries a)) 0 loglevel tracestatus a;
      none ← no_id (appID (user a));
      if negb none then dlt_send_app_ll_ts_limit (appID (user a)) loglevel tracestatus a w
      else if negb (appID2len (user a) =? 0) then None
      else Some (DLT_RETURN_ERROR, a, w)
  end.

Definition dlt_get_log_state (a : app) : Z := log_state a.

Definition dlt_set_log_mode (is_child : bool) (mode : Z) (a : app) (w : world) : option (Z * app * world) :=
  if is_child then Some (DLT_RETURN_ERROR, a, w) else
  if (mode <? DLT_USER_MODE_UNDEFINED) || (DLT_USER_MODE_MAX <=? mode) then Some (DLT_RETURN_WRONG_PARAMETER, a, w) else
  let '(rc, a) := initialised L a in
  if rc <? 0 then Some (DLT_RETURN_ERROR, a, w) else dlt_user_log_send_log_mode mode 1 a w.

Definition dlt_log_marker (a : app) (w : world) : option (Z * app * world) :=
  let '(rc, a) := initialised L a in
  if rc <? DLT_RETURN_OK then Some (DLT_RETURN_ERROR, a, w) else dlt_user_log_send_marker a w.

(** [strncpy(appid, dlt_user.appID, 4)]. *)
Definition dlt_get_appid (appid : option bytes) (a : app) : option (Z * option bytes) :=
  match appid with
  | None => Some (DLT_RETURN_WRONG_PARAMETER, None)
  | Some b => b ← mwrite b 0 (pad_to 4 0 (cstr 4 (appID (user a)))); Some (DLT_RETURN_OK, Some b)
  end.

End sending.

End UserContexts.
