(* ===== verification/UserControl.v ===== *)
(** * Messages from the daemon to an application ([src/lib/dlt_user.c])

    The housekeeper thread of the library receives messages of the daemon: the
    level and trace status of a context, data for a callback of the application
    ("injection") and whether a client is connected.  When the daemon is gone, it
    tries to open its FIFO again and registers the application and its contexts
    anew.

    The calls of functions of the application are recorded in the order in which
    they happen. *)

From stdpp Require Import base list numbers option.
From Stdlib Require Import ZArith Lia Bool.
From S2P Require Import Prelude Protocol Ids RingBuffer Filter Receiver UserLog UserShared UserSend UserContexts.
Import Protocol Ids UserLog UserShared UserSend UserContexts.

Local Open Scope Z_scope.

Module UserControl.

Definition DLT_USER_INJECTION_MIN : Z := 4095.
Definition sizeof_DltUserInjectionCallback : Z := 32.
Definition sizeof_DltUserControlMsgLogLevel : Z := 6.
Definition sizeof_DltUserControlMsgInjection : Z := 12.
Definition sizeof_DltUserControlMsgLogState : Z := 1.

(** ** Callbacks *)

(** The loops look for the service in the first [n] callbacks from [k] on: its
    position, [None] inside: it is not there. *)
Fixpoint find_service (n : nat) (k : nat) (t : option (list DltUserInjectionCallback)) (service : Z) : option (option nat) :=
  match n with
  | O => Some None
  | S n =>
      match t with
      | None => find_service n (S k) t service
      | Some l =>
          c ← l !! k;
          if service_id c =? service then Some (Some k) else find_service n (S k) t service
      end
  end.

Section library.
Context (L : library).
Abbreviation E := (env_of L).

(** The table with room for one more callback; [None]: no memory. *)
Definition grown_table (e : Entry.dlt_ll_ts_type) (c : DltUserInjectionCallback) : option (list DltUserInjectionCallback) :=
  match Entry.injection_table e with
  | None => _ ← malloc (heap E) sizeof_DltUserInjectionCallback; Some [c]
  | Some l => _ ← malloc (heap E) (sizeof_DltUserInjectionCallback * u32 (Entry.nrcallbacks e + 1));
              Some (take (Z.to_nat (Entry.nrcallbacks e)) l ++ [c])
  end.

Definition dlt_register_injection_callback_with_id (h : option Handle.DltContext) (service cbk priv : Z) (a : app)
  : option (Z * app) :=
  match h with
  | None => Some (DLT_RETURN_ERROR, a)
  | Some h =>
      let '(rc, a) := handle_init L a in
      if rc <? DLT_RETURN_OK then Some (DLT_RETURN_ERROR, a) else
      if service <? DLT_USER_INJECTION_MIN then Some (DLT_RETURN_WRONG_PARAMETER, a) else
      if dlt_is_file (user a) then Some (DLT_RETURN_OK, a) else
      match dlt_ll_ts a with
      | None => Some (DLT_RETURN_OK, a)
      | Some _ =>
          let i := u32 (Handle.log_level_pos h) in
          e ← get_entry a i;
          let c := if priv =? 0
                   then {| service_id := service; injection_callback := Some cbk; injection_callback_with_id := None; data := 0 |}
                   else {| service_id := service; injection_callback := None; injection_callback_with_id := Some cbk; data := priv |} in
          k ← find_service (Z.to_nat (Entry.nrcallbacks e)) 0 (Entry.injection_table e) service;
          match k with
          | Some k =>
              l ← Entry.injection_table e;
              Some (DLT_RETURN_OK, put_entry a i (Entry.set_injections e (Some (<[k := c]> l)) (Entry.nrcallbacks e)))
          | None =>
              match grown_table e c with
              | None => Some (DLT_RETURN_ERROR, a)
              | Some l => Some (DLT_RETURN_OK, put_entry a i (Entry.set_injections e (Some l) (u32 (Entry.nrcallbacks e + 1))))
              end
          end
      end
  end.

Definition dlt_register_injection_callback (h : option Handle.DltContext) (service cbk : Z) : app -> option (Z * app) :=
  dlt_register_injection_callback_with_id h service cbk 0.

Definition dlt_register_log_level_changed_callback (h : option Handle.DltContext) (cbk : option Z) (a : app) : option (Z * app) :=
  match h with
  | None => Some (DLT_RETURN_ERROR, a)
  | Some h =>
      let '(rc, a) := handle_init L a in
      if rc <? DLT_RETURN_OK then Some (DLT_RETURN_ERROR, a) else
      if dlt_is_file (user a) then Some (DLT_RETURN_OK, a) else
      match dlt_ll_ts a with
      | None => Some (DLT_RETURN_OK, a)
      | Some _ =>
          let i := u32 (Handle.log_level_pos h) in
          e ← get_entry a i;
          Some (DLT_RETURN_OK, put_entry a i (Entry.set_callback e cbk))
      end
  end.

(** ** Receiving *)

Inductive call :=
| LevelChanged (cb : Z) (context_id : bytes) (log_level trace_status : Z)
| Injected (cb : Z) (service : Z) (d : bytes)
| InjectedWithId (cb : Z) (service : Z) (d : bytes) (priv_data : Z).

(** [delayed_log_level_changed_callback]: the function, the context and the levels. *)
Record delayed := { d_callback : option Z; d_contextID : bytes; d_level : Z; d_status : Z }.

(** The state of the loop: the library, the prepared callback and the calls. *)
Record listening := { l_app : app; l_delayed : delayed; l_calls : list call }.

Inductive progress := Again | Leave | Return (rc : Z).

(** [dlt_receiver_remove(receiver, n)]: [ok] tells which results go on. *)
Definition consume (n : Z) (ok : Z -> bool) (s : listening) : progress * listening :=
  let a := l_app s in
  let '(rc, r) := Receiver.dlt_receiver_remove (receiver a) n in
  (if ok rc then Again else Return DLT_RETURN_ERROR,
   {| l_app := with_state a (log_state a) r; l_delayed := l_delayed s; l_calls := l_calls s |}).

(** "Update log level and trace status".  A message of version 2 uses fields of
    version 2, which the registration of a context of version 1 does not set. *)
Definition update_levels (version level status pos : Z) (s : listening) : option listening :=
  let a := l_app s in
  if (0 <=? pos) && (pos <? i32 (dlt_ll_ts_num_entries a)) then
    match dlt_ll_ts a with
    | None => Some s
    | Some _ =>
        e ← get_entry a pos;
        m ← store_if (cells a) (Entry.log_level_ptr e) (i8 level);
        m ← store_if m (Entry.trace_status_ptr e) (i8 status);
        let a := put_entry (with_cells a m) pos (Entry.put_levels e (i8 level) (i8 status)) in
        if version =? 1 then
          id ← Filter.set_id (d_contextID (l_delayed s)) (Entry.contextID e);
          Some {| l_app := a; l_calls := l_calls s;
                  l_delayed := {| d_callback := Entry.log_level_changed_callback e; d_contextID := id;
                                  d_level := i8 level; d_status := i8 status |} |}
        else None
    end
  else Some s.

(** "call callback outside of semaphore". *)
Definition call_delayed (version : Z) (s : listening) : listening :=
  match d_callback (l_delayed s) with
  | Some cb =>
      if version =? 1 then
        {| l_app := l_app s; l_delayed := l_delayed s;
           l_calls := l_calls s ++ [LevelChanged cb (d_contextID (l_delayed s)) (u8 (d_level (l_delayed s))) (u8 (d_status (l_delayed s)))] |}
      else s
  | None => s
  end.

Definition log_level_message (mem : bytes) (buf version : Z) (s : listening) : option (progress * listening) :=
  if Receiver.bytesRcvd (receiver (l_app s)) <? sizeof_DltUserHeader + sizeof_DltUserControlMsgLogLevel then Some (Leave, s) else
  p ← mread mem (buf + sizeof_DltUserHeader) sizeof_DltUserControlMsgLogLevel;
  level ← p !! 0%nat;
  status ← p !! 1%nat;
  pos ← mread p 2 4;
  s ← update_levels version level status (i32 (le_Z pos)) s;
  Some (consume (sizeof_DltUserHeader + sizeof_DltUserControlMsgLogLevel) (λ rc, negb (rc =? DLT_RETURN_ERROR))
          (call_delayed version s)).

(** The pointers to the callbacks are null again after every message. *)
Definition injection_call (c : DltUserInjectionCallback) (service : Z) (d : bytes) : list call :=
  match injection_callback c, injection_callback_with_id c with
  | Some cb, _ => [Injected cb service d]
  | None, Some cb => [InjectedWithId cb service d (data c)]
  | None, None => []
  end.

(** "Check if injection callback is registered for this context"; [None] inside:
    no memory for the data. *)
Definition find_injection (mem : bytes) (at_ pos service n : Z) (a : app) : option (option (list call)) :=
  if (0 <? n) && (if dlt_ll_ts a is Some _ then true else false) then
    e ← get_entry a pos;
    k ← find_service (Z.to_nat (Entry.nrcallbacks e)) 0 (Entry.injection_table e) service;
    match k with
    | None => Some (Some [])
    | Some k =>
        l ← Entry.injection_table e;
        c ← l !! k;
        match malloc (heap E) n with
        | None => Some None
        | Some _ => d ← mread mem at_ n; Some (Some (injection_call c service d))
        end
    end
  else Some (Some []).

Definition injection_message (mem : bytes) (buf : Z) (s : listening) : option (progress * listening) :=
  let a := l_app s in
  let size := sizeof_DltUserHeader + sizeof_DltUserControlMsgInjection in
  if Receiver.bytesRcvd (receiver a) <? size then Some (Leave, s) else
  p ← mread mem (buf + sizeof_DltUserHeader) sizeof_DltUserControlMsgInjection;
  pos ← mread p 0 4;
  service ← mread p 4 4;
  n ← mread p 8 4;
  if Receiver.bytesRcvd (receiver a) <? i32 (size + le_Z n) then Some (Leave, s) else
  r ← find_injection mem (buf + size) (i32 (le_Z pos)) (le_Z service) (le_Z n) a;
  match r with
  | None => Some (Return DLT_RETURN_ERROR, s)
  | Some cs =>
      Some (consume (i32 (size + le_Z n)) (λ rc, rc =? DLT_RETURN_OK)
              {| l_app := a; l_delayed := l_delayed s; l_calls := l_calls s ++ cs |})
  end.

Definition log_state_message (mem : bytes) (buf : Z) (s : listening) : option (progress * listening) :=
  let a := l_app s in
  if Receiver.bytesRcvd (receiver a) <? sizeof_DltUserHeader + sizeof_DltUserControlMsgLogState then Some (Leave, s) else
  p ← mread mem (buf + sizeof_DltUserHeader) sizeof_DltUserControlMsgLogState;
  st ← p !! 0%nat;
  Some (consume (sizeof_DltUserHeader + sizeof_DltUserControlMsgLogState) (λ rc, negb (rc =? DLT_RETURN_ERROR))
          {| l_app := with_state a (i8 st) (receiver a); l_delayed := l_delayed s; l_calls := l_calls s |}).

Definition daemon_message (mem : bytes) (buf version message : Z) (s : listening) : option (progress * listening) :=
  if message =? DLT_USER_MESSAGE_LOG_LEVEL then log_level_message mem buf version s
  else if message =? DLT_USER_MESSAGE_INJECTION then injection_message mem buf s
  else if message =? DLT_USER_MESSAGE_LOG_STATE then log_state_message mem buf s
  else Some (Again, (consume sizeof_DltUserHeader (λ _, true) s).2).

(** "resync if necessary": the offset at which the loop ends and whether a user
    header is there. *)
Fixpoint resync (fuel : nat) (mem : bytes) (buf bytesRcvd offset : Z) : option (Z * bool) :=
  match fuel with
  | O => None
  | S fuel =>
      c ← dlt_user_check_userheader (Some (drop (Z.to_nat (buf + offset)) mem));
      if negb (c =? 0) then Some (offset, true)
      else if sizeof_DltUserHeader + (offset + 1) <=? bytesRcvd then resync fuel mem buf bytesRcvd (offset + 1)
      else Some (offset + 1, false)
  end.

(** "look through buffer as long as data is in there": every round that goes on
    removes at least a byte.  [None] inside: the loop was left. *)
Fixpoint listen (fuel : nat) (mem : bytes) (s : listening) : option (option Z * listening) :=
  match fuel with
  | O => None
  | S fuel =>
      let r := receiver (l_app s) in
      if Receiver.bytesRcvd r <? sizeof_DltUserHeader then Some (None, s) else
      buf ← Receiver.buf r;
      '(offset, found) ← resync (Z.to_nat (Receiver.bytesRcvd r)) mem buf (Receiver.bytesRcvd r) 0;
      if negb found then Some (None, s) else
      let r := if 0 <? offset
               then Receiver.set_counts (Receiver.set_buf r (Some (buf + offset))) (Receiver.lastBytesRcvd r)
                      (Receiver.bytesRcvd r - offset) (Receiver.totalBytesRcvd r)
               else r in
      let s := {| l_app := with_state (l_app s) (log_state (l_app s)) r; l_delayed := l_delayed s; l_calls := l_calls s |} in
      let h := drop (Z.to_nat (buf + offset)) mem in
      version ← dlt_get_version_from_userheader (Some h);
      message ← userheader_message h;
      '(p, s) ← daemon_message mem (buf + offset) version message s;
      match p with
      | Again => listen fuel mem s
      | Leave => Some (None, s)
      | Return rc => Some (Some rc, s)
      end
  end.

Definition no_delayed : delayed := {| d_callback := None; d_contextID := [0; 0; 0; 0]; d_level := 0; d_status := 0 |}.

(** [poll] is the result of [poll] and whether it reports an error or the end of
    the connection; [input] is what the system call delivers. *)
Definition dlt_user_log_check_user_message (poll : Z * bool) (input : option bytes) (mem : bytes) (a : app)
  : option (Z * app * bytes * list call) :=
  if dlt_user_handle a <? 0 then Some (DLT_RETURN_OK, a, mem, []) else
  if poll.1 =? 0 then Some (DLT_RETURN_OK, a, mem, []) else
  if poll.2 then Some (DLT_RETURN_ERROR, with_user a (set_handle (user a) (-1)), mem, []) else
  '(n, r, mem) ← Receiver.dlt_receiver_receive (receiver a) mem input;
  let a := with_state a (log_state a) r in
  if n <=? 0 then Some (DLT_RETURN_OK, a, mem, []) else
  '(rc, s) ← listen (S (Z.to_nat (Receiver.bytesRcvd r))) mem {| l_app := a; l_delayed := no_delayed; l_calls := [] |};
  match rc with
  | Some rc => Some (rc, l_app s, mem, l_calls s)
  | None =>
      '(rc, r) ← Receiver.dlt_receiver_move_to_begin (heap E) (receiver (l_app s)) mem;
      Some (if rc =? DLT_RETURN_ERROR then DLT_RETURN_ERROR else DLT_RETURN_OK,
            with_state (l_app s) (log_state (l_app s)) r, mem, l_calls s)
  end.

(** ** The daemon comes back *)

(** The loop over the entries from [k] on; [false]: the function returns. *)
Fixpoint register_again (n : nat) (k : Z) (a : app) (w : world) : option (bool * app * world) :=
  match n with
  | O => Some (true, a, w)
  | S n =>
      no_app ← no_id (appID (user a));
      again ← (if negb no_app then
                 match dlt_ll_ts a with
                 | None => Some None
                 | Some _ => e ← get_entry a k; none ← no_id (Entry.contextID e); Some (if (none : bool) then None else Some e)
                 end
               else Some None);
      match again with
      | Some e =>
          id ← Filter.set_id (replicate 4 0) (Entry.contextID e);
          let h := {| Handle.contextID := id; Handle.log_level_pos := i32 k; Handle.log_level_ptr := None;
                      Handle.trace_status_ptr := None; Handle.mcnt := 0 |} in
          '(rc, a, w) ← dlt_user_log_send_register_context L h (Entry.context_description e) DLT_USER_LOG_LEVEL_NOT_SET
                          DLT_USER_TRACE_STATUS_NOT_SET a w;
          if rc <? DLT_RETURN_ERROR then Some (false, a, w) else register_again n (k + 1) a w
      | None => if negb (appID2len (user a) =? 0) then None else register_again n (k + 1) a w
      end
  end.

Definition dlt_user_log_reattach_to_daemon (a : app) (w : world) : option (app * world) :=
  if negb (not_freeing (user a)) then Some (a, w) else
  if negb (dlt_log_handle (user a) <? 0) then Some (a, w) else
  let a := with_user a (set_handle (user a) (-1)) in
  let fd := open_daemon_fifo L in
  if fd <? 0 then Some (a, w) else
  let a := with_user a (set_handle (user a) fd) in
  let '(rc, a) := handle_init L a in
  if rc <? DLT_RETURN_OK then Some (a, w) else
  none ← no_id (appID (user a));
  '(rc, a, w) ← (if negb none then dlt_user_log_send_register_application L a w
                 else if negb (appID2len (user a) =? 0) then None else Some (DLT_RETURN_OK, a, w));
  if rc <? DLT_RETURN_ERROR then Some (a, w) else
  '(_, a, w) ← register_again (Z.to_nat (dlt_ll_ts_num_entries a)) 0 a w;
  Some (a, w).

(** One round of [dlt_user_housekeeperthread_function]. *)
Definition housekeeping (disable_injection_msg : bool) (poll : Z * bool) (input : option bytes) (mem : bytes) (a : app) (w : world)
  : option (app * world * bytes * list call) :=
  '(_, a, mem, calls) ← (if negb disable_injection_msg then dlt_user_log_check_user_message poll input mem a
                         else Some (DLT_RETURN_OK, a, mem, []));
  '(a, w) ← dlt_user_log_reattach_to_daemon a w;
  '(_, a, w) ← (if negb (dlt_log_handle (user a) =? -1) then resend L a w else Some (DLT_RETURN_OK, a, w));
  Some (a, w, mem, calls).

(** ** The end *)

(** The loop of [dlt_free] over all entries. *)
Fixpoint free_entries (t : list Entry.dlt_ll_ts_type) (m : memory) : option memory :=
  match t with
  | [] => Some m
  | e :: t =>
      m ← free_if m (Entry.log_level_ptr e);
      m ← free_if m (Entry.trace_status_ptr e);
      free_entries t m
  end.

(** [dlt_free] with respect to the contexts. *)
Definition free_contexts (a : app) : option app :=
  match dlt_ll_ts a with
  | None => Some a
  | Some t => m ← free_entries (take (Z.to_nat (dlt_ll_ts_max_num_entries a)) t) (cells a);
              Some (with_table a None 0 0 m)
  end.

End library.

End UserControl.
