(* ===== verification/UserContextsSpec.v ===== *)
(** * Registration in the user library

    What the library writes when an application or a context is registered is the
    encoding of the message that the daemon expects ([DaemonHandlersSpec]); it is
    written, queued or reported as lost.  The table of the contexts and the cells
    that it shares with the handles stay consistent: no cell is lost, freed twice
    or used after it was freed, and a handle always reads the level of its context. *)

From stdpp Require Import base sets list numbers option.
From Stdlib Require Import ZArith Lia Bool.
From S2P Require Import Prelude Protocol Ids RingBuffer RingBufferSpec MessageQueue Filter EnvLL UserLog UserShared UserSend UserSendSpec.
From S2P Require Import DaemonTables DaemonTablesSpec DaemonHandlersSpec UserContexts UserControl.
Import Protocol Ids MessageQueue UserLog UserShared UserSend UserSendSpec UserContexts UserControl.
Import DaemonTablesSpec (good_id, good_id_length).
Import DaemonHandlersSpec (user_message, RegisterApp, UnregisterApp, RegisterCtx, UnregisterCtx, AppLevels, encode_user, body_of, wire_id, wire_text, is_int).

Local Open Scope Z_scope.

Module UserContextsSpec.

(** ** Identifiers *)

Lemma good_no_id i : good_id i -> no_id i = Some false.
Proof. intros [_ He]. unfold no_id. destruct i as [|c i]; [done|]. cbn in *. by rewrite He. Qed.
Lemma good_set_id old i : length old = 4%nat -> good_id i -> Filter.set_id old i = Some i.
Proof. intros Ho [Hi _]. by apply set_id_is_id. Qed.
(** The identifier that a string stands for. *)
Definition id_of (t : bytes) : bytes := pad_to 4 0 (cstr 4 t).
Lemma set_id_of old t : length old = 4%nat -> scannable 4 t -> Filter.set_id old t = Some (id_of t).
Proof. intros Ho Ht. unfold Filter.set_id. by rewrite set_id_spec. Qed.
Lemma id_of_good t c : head t = Some c -> c <> 0 -> good_id (id_of t).
Proof.
  intros Hc Hn. split; [apply is_id_pad|]. unfold id_of. destruct t as [|x t]; [done|]. injection Hc as ->. cbn [cstr].
  rewrite eqb_false by done. cbn. by rewrite eqb_false.
Qed.
Lemma id_of_good_id i : good_id i -> id_of i = i.
Proof. intros [Hi _]. unfold id_of. by rewrite <-Hi. Qed.

(** ** Sending *)

Section sending.
Context {cap : Z} {holds : RingBuffer.DltBuffer -> list bytes -> Prop} `{!MessageQueue cap holds} (L : library).
Abbreviation E := (env_of L).
Hypothesis (Hpad : length (pad E) = 3%nat) (Hcap : cap < 4294967295).

(** The message [d] was written, queued behind [q] or dropped; nothing else of the
    library changed. *)
Inductive posted (a : app) (q : list bytes) (w : world) (d : bytes) : Z -> app -> list bytes -> world -> Prop :=
| posted_written : 0 <= dlt_log_handle (user a) -> posted a q w d DLT_RETURN_OK a q (wrote w d)
| posted_queued rc sb w' n : rc ∈ [DLT_RETURN_OK; DLT_RETURN_ERROR] -> holds sb (q ++ [d]) ->
    pipe w' = pipe w ++ take n d -> (n < length d)%nat ->
    posted a q w d rc (with_user a (set_startup (user a) sb)) (q ++ [d]) w'
| posted_dropped sb w' n : holds sb q -> pipe w' = pipe w ++ take n d -> (n < length d)%nat ->
    posted a q w d DLT_RETURN_BUFFER_FULL (with_user a (set_startup (user a) sb)) q w'.

Lemma posted_holds a q w d rc a' q' w' : holds (startup_buffer (user a)) q -> posted a q w d rc a' q' w' ->
  holds (startup_buffer (user a')) q'.
Proof. by intros H []. Qed.

(** With a connection that takes everything, it is written. *)
Lemma kept_posted a q w w' d1 d2 d3 n : holds (startup_buffer (user a)) q -> zlen (d1 ++ d2 ++ d3) <= cap ->
  pipe w' = pipe w ++ take n (d1 ++ d2 ++ d3) -> (n < length (d1 ++ d2 ++ d3))%nat ->
  ∃ rc a' q', kept_if L true d1 d2 d3 a w' = Some (rc, a', w') ∧ posted a q w (d1 ++ d2 ++ d3) rc a' q' w'.
Proof.
  intros Hq Hl Hp Hn. unfold kept_if. destruct (error_handling_cases E (user a) q d1 d2 d3 Hq Hpad Hl) as (rc & sb & -> & [[Hrc Hh]|[-> Hh]]); bsimp;
    do 3 eexists; (split; [reflexivity|]); [by apply (posted_queued _ _ _ _ _ _ _ n)|by apply (posted_dropped _ _ _ _ _ _ n)].
Qed.

Lemma out3_posted a q w d1 d2 d3 bad : holds (startup_buffer (user a)) q -> d1 <> [] -> zlen (d1 ++ d2 ++ d3) <= cap ->
  (∀ rc, rc <= 0 -> bad rc = negb (rc =? DLT_RETURN_OK)) ->
  ∃ rc a' q' w', (let '(ret, w) := dlt_user_log_out3 w (dlt_log_handle (user a)) d1 d2 d3 in kept_if L (bad ret) d1 d2 d3 a w) = Some (rc, a', w') ∧
    posted a q w (d1 ++ d2 ++ d3) rc a' q' w' ∧ (0 <= dlt_log_handle (user a) -> ready_to_write w -> rc = DLT_RETURN_OK ∧ a' = a ∧ q' = q ∧ w' = wrote w (d1 ++ d2 ++ d3)).
Proof.
  intros Hq Hne Hl Hb.
  assert (0 <= dlt_log_handle (user a) -> ready_to_write w -> dlt_user_log_out3 w (dlt_log_handle (user a)) d1 d2 d3 = (DLT_RETURN_OK, wrote w (d1 ++ d2 ++ d3))) as Hok
    by (intros; apply out3_ok; [done|done|lia]).
  destruct (out3_cases w (dlt_log_handle (user a)) d1 d2 d3 ltac:(lia)) as (rc & w' & E3 & [(-> & Hh & ->)|(Hrc & n & Hp & Hn)]); rewrite E3 in *.
  - rewrite Hb by done. eexists _, _, _, _. split; [reflexivity|]. split; [by constructor|by intros].
  - destruct Hn as [Hn|Hn]; [|by destruct d1].
    assert (rc < 0) as Hneg by (rewrite !elem_of_cons, elem_of_nil in Hrc; by destruct Hrc as [->|[->|[->|[]]]]).
    rewrite Hb, eqb_false by (unfold DLT_RETURN_OK; lia). cbn [negb].
    destruct (kept_posted a q w w' d1 d2 d3 n Hq Hl Hp Hn) as (rc2 & a' & q' & E4 & P). exists rc2, a', q', w'. split_and!; [exact E4|exact P|].
    intros Hh Hw. specialize (Hok Hh Hw). injection Hok as -> _. done.
Qed.

Lemma out2_is_out3 w h d1 d2 : ∃ rc, dlt_user_log_out3 w h d1 d2 [] = (rc, (dlt_user_log_out2 w h d1 d2).2) ∧
  (rc =? DLT_RETURN_OK) = ((dlt_user_log_out2 w h d1 d2).1 =? DLT_RETURN_OK) ∧ rc <= 0 ∧ (dlt_user_log_out2 w h d1 d2).1 <= 0.
Proof.
  unfold dlt_user_log_out2, dlt_user_log_out3. destruct (_ <? 0); [by eexists|]. rewrite app_nil_r. destruct (writev w (d1 ++ d2)) as [[n e] w'].
  change (zlen (@nil Z)) with 0. rewrite Z.add_0_r. destruct (negb _); [|by eexists]. eexists. split; [reflexivity|]. by destruct e.
Qed.

Lemma out2_posted a q w d1 d2 : holds (startup_buffer (user a)) q -> d1 <> [] -> zlen (d1 ++ d2) <= cap ->
  ∃ rc a' q' w', (let '(ret, w) := dlt_user_log_out2 w (dlt_log_handle (user a)) d1 d2 in kept_if L (ret <? DLT_RETURN_OK) d1 d2 [] a w) = Some (rc, a', w') ∧
    posted a q w (d1 ++ d2) rc a' q' w' ∧ (0 <= dlt_log_handle (user a) -> ready_to_write w -> rc = DLT_RETURN_OK ∧ a' = a ∧ q' = q ∧ w' = wrote w (d1 ++ d2)).
Proof.
  intros Hq Hne Hl. destruct (out3_posted a q w d1 d2 [] (λ rc, negb (rc =? DLT_RETURN_OK)) Hq Hne) as (rc & a' & q' & w' & E3 & P & Hok); [by rewrite app_nil_r|done|].
  rewrite app_nil_r in P, Hok. exists rc, a', q', w'. split; [|by split]. destruct (out2_is_out3 w (dlt_log_handle (user a)) d1 d2) as (r & E2 & Er & H1 & H2).
  rewrite E2 in E3. destruct (dlt_user_log_out2 _ _ _ _) as [r2 w2]. cbn [fst snd] in *. rewrite Er in E3. rewrite <-E3. f_equal.
  unfold DLT_RETURN_OK in *. destruct (Z.ltb_spec r2 0), (Z.eqb_spec r2 0); try done; lia.
Qed.

(** *** The messages *)

(** The application has an identifier and is connected to a daemon. *)
Record running (a : app) (q : list bytes) : Prop := {
  ru_init : not_freeing (user a) = true;
  ru_file : dlt_is_file (user a) = false;
  ru_v2 : appID2len (user a) = 0;
  ru_queue : holds (startup_buffer (user a)) q
}.

Lemma posted_same a q w d rc a' q' w' : posted a q w d rc a' q' w' ->
  ∃ sb, a' = with_user a (set_startup (user a) sb).
Proof. intros []; [exists (startup_buffer (user a)); by destruct a as [[] ? ? ? ? ? ? ? ? ?]|by eexists..]. Qed.
Lemma posted_running a q w d rc a' q' w' : posted a q w d rc a' q' w' -> running a q -> running a' q'.
Proof.
  intros P [H1 H2 H3 H4]. pose proof (posted_holds _ _ _ _ _ _ _ _ H4 P) as H5. destruct (posted_same _ _ _ _ _ _ _ _ P) as (sb & ->). by split.
Qed.

(** What a sender does with message [m]. *)
Definition posts (m : user_message) (a : app) (q : list bytes) (w : world) (r : option (Z * app * world)) : Prop :=
  ∃ rc a' q' w', r = Some (rc, a', w') ∧ posted a q w (encode_user m) rc a' q' w' ∧
    (0 <= dlt_log_handle (user a) -> ready_to_write w -> rc = DLT_RETURN_OK ∧ a' = a ∧ q' = q ∧ w' = wrote w (encode_user m)).

Lemma header_ne k : DltUserHeader 1 k <> [].
Proof. done. Qed.
Lemma u8_i8 z : u8 (i8 z) = u8 z.
Proof. unfold wrapu, wraps. rewrite Zminus_mod_idemp_l. f_equal. lia. Qed.

Definition description (a : app) : bytes := default [] (application_description a).

Lemma register_application_posts a q w : running a q -> good_id (appID (user a)) -> 20 + zlen (description a) <= cap ->
  posts (RegisterApp (appID (user a)) (getpid E) (description a)) a q w (dlt_user_log_send_register_application L a w).
Proof.
  intros [_ Hf _ Hq] Hid Hl. unfold dlt_user_log_send_register_application, posts, encode_user. cbn [body_of DaemonHandlersSpec.kind_of].
  rewrite good_no_id by done. bsimp. cbn [dlt_user_set_userheader Z.leb Z.compare DLT_USER_MESSAGE_REGISTER_APPLICATION]. change (DLT_RETURN_OK <? DLT_RETURN_OK) with false. cbn iota.
  rewrite good_set_id by done. bsimp. rewrite Hf. fold (description a). set (text := description a) in *. rewrite (u32_small (zlen text)) by lia.
  pose proof (good_id_length _ Hid) as Li. apply (out3_posted a q w); [done|apply header_ne| |].
  - rewrite !length_app, !length_le_bytes. unfold DltUserHeader. rewrite length_app, length_le_bytes. cbn [length]. lia.
  - intros rc Hrc. unfold DLT_RETURN_OK. destruct (Z.ltb_spec rc 0), (Z.eqb_spec rc 0); try done; lia.
Qed.

Lemma unregister_application_posts a q w : running a q -> good_id (appID (user a)) -> 16 <= cap ->
  posts (UnregisterApp (appID (user a)) (getpid E)) a q w (dlt_user_log_send_unregister_application L a w).
Proof.
  intros [_ Hf _ Hq] Hid Hl. unfold dlt_user_log_send_unregister_application, posts, encode_user. cbn [body_of DaemonHandlersSpec.kind_of].
  rewrite good_no_id by done. bsimp. cbn [dlt_user_set_userheader Z.leb Z.compare DLT_USER_MESSAGE_UNREGISTER_APPLICATION]. change (DLT_RETURN_OK <? DLT_RETURN_OK) with false. cbn iota.
  rewrite good_set_id by done. bsimp. rewrite Hf. pose proof (good_id_length _ Hid) as Li. apply (out2_posted a q w); [done|apply header_ne|].
  rewrite !length_app, length_le_bytes. unfold DltUserHeader. rewrite length_app, length_le_bytes. cbn [length]. lia.
Qed.

Lemma register_context_posts h text ll ts a q w : running a q -> good_id (appID (user a)) -> good_id (Handle.contextID h) ->
  30 + zlen (default [] text) <= cap ->
  posts (RegisterCtx (appID (user a)) (Handle.contextID h) (Handle.log_level_pos h) ll ts (getpid E) (default [] text)) a q w
    (dlt_user_log_send_register_context L h text ll ts a w).
Proof.
  intros [_ Hf _ Hq] Hid Hc Hl. unfold dlt_user_log_send_register_context, posts, encode_user. cbn [body_of DaemonHandlersSpec.kind_of].
  rewrite good_no_id by done. bsimp. cbn [dlt_user_set_userheader Z.leb Z.compare DLT_USER_MESSAGE_REGISTER_CONTEXT]. change (DLT_RETURN_OK <? DLT_RETURN_OK) with false. cbn iota.
  rewrite !good_set_id by done. bsimp. rewrite Hf, good_no_id by done. bsimp. cbn [negb]. set (t := default [] text) in *. rewrite (u32_small (zlen t)), !u8_i8 by lia.
  pose proof (good_id_length _ Hid) as Li. pose proof (good_id_length _ Hc) as Lc. apply (out3_posted a q w); [done|apply header_ne| |].
  - rewrite !length_app, !length_le_bytes. unfold DltUserHeader. rewrite length_app, length_le_bytes. cbn [length]. lia.
  - intros rc Hrc. by rewrite orb_false_r.
Qed.

Lemma unregister_context_posts h a q w : running a q -> good_id (appID (user a)) -> good_id (Handle.contextID h) -> 20 <= cap ->
  posts (UnregisterCtx (appID (user a)) (Handle.contextID h) (getpid E)) a q w (dlt_user_log_send_unregister_context L h a w).
Proof.
  intros [_ Hf _ Hq] Hid Hc Hl. unfold dlt_user_log_send_unregister_context, posts, encode_user. cbn [body_of DaemonHandlersSpec.kind_of].
  rewrite good_no_id by done. bsimp. cbn [dlt_user_set_userheader Z.leb Z.compare DLT_USER_MESSAGE_UNREGISTER_CONTEXT]. change (DLT_RETURN_OK <? DLT_RETURN_OK) with false. cbn iota.
  rewrite !good_set_id by done. bsimp. rewrite Hf.
  pose proof (good_id_length _ Hid) as Li. pose proof (good_id_length _ Hc) as Lc. apply (out2_posted a q w); [done|apply header_ne|].
  rewrite !length_app, length_le_bytes. unfold DltUserHeader. rewrite length_app, length_le_bytes. cbn [length]. lia.
Qed.

Lemma app_limit_posts ll ts a q w : running a q -> good_id (appID (user a)) -> 14 <= cap -> out_of_range ll ts = false ->
  posts (AppLevels (appID (user a)) ll ts) a q w (dlt_send_app_ll_ts_limit L (appID (user a)) ll ts a w).
Proof.
  intros [_ Hf _ Hq] Hid Hl Hr. unfold dlt_send_app_ll_ts_limit, posts, encode_user. cbn [body_of DaemonHandlersSpec.kind_of].
  rewrite Hr, good_no_id by done. bsimp. cbn [dlt_user_set_userheader Z.leb Z.compare DLT_USER_MESSAGE_APP_LL_TS]. change (DLT_RETURN_OK <? DLT_RETURN_OK) with false. cbn iota.
  rewrite good_set_id by done. bsimp. rewrite Hf. pose proof (good_id_length _ Hid) as Li. apply (out2_posted a q w); [done|apply header_ne|].
  rewrite !length_app. unfold DltUserHeader. rewrite length_app, length_le_bytes. cbn [length]. lia.
Qed.
End sending.

(** ** The table of the contexts *)

Definition table (a : app) : list Entry.dlt_ll_ts_type := default [] (dlt_ll_ts a).
Definition ptrs (e : Entry.dlt_ll_ts_type) : list nat := option_list (Entry.log_level_ptr e) ++ option_list (Entry.trace_status_ptr e).
Definition pointers (t : list Entry.dlt_ll_ts_type) : list nat := concat (ptrs <$> t).

(** A position that no context has: it keeps the levels it was told. *)
Definition vacant (e : Entry.dlt_ll_ts_type) : Prop := ∃ l s, e = Entry.put_levels Entry.initial l s.
(** A context: its cells hold the levels of the entry. *)
Record context (m : memory) (e : Entry.dlt_ll_ts_type) : Prop := {
  cx_id : good_id (Entry.contextID e);
  cx_level : ∃ p, Entry.log_level_ptr e = Some p ∧ load m p = Some (Entry.log_level e);
  cx_status : ∃ q, Entry.trace_status_ptr e = Some q ∧ load m q = Some (Entry.trace_status e);
  cx_callbacks : match Entry.injection_table e with
                 | Some l => Entry.nrcallbacks e = zlen l
                 | None => Entry.nrcallbacks e = 0
                 end
}.

(** No cell is lost, shared by two contexts or used after it was freed. *)
Record inv (a : app) : Prop := {
  iv_size : match dlt_ll_ts a with
            | None => dlt_ll_ts_num_entries a = 0
            | Some t => zlen t = dlt_ll_ts_max_num_entries a ∧ zlen t mod DLT_USER_CONTEXT_ALLOC_SIZE = 0
            end;
  iv_num : 0 <= dlt_ll_ts_num_entries a <= zlen (table a);
  iv_slots : Forall (λ e, vacant e ∨ context (cells a) e) (table a);
  iv_tail : ∀ k e, dlt_ll_ts_num_entries a <= Z.of_nat k -> table a !! k = Some e -> e = Entry.initial;
  iv_cells : ∀ p, is_Some (load (cells a) p) <-> p ∈ pointers (table a);
  iv_nodup : NoDup (pointers (table a))
}.

(** The handle of the application belongs to the context at its position. *)
Record denotes (a : app) (h : Handle.DltContext) : Prop := {
  dn_pos : 0 <= Handle.log_level_pos h < dlt_ll_ts_num_entries a;
  dn_entry : ∃ e, table a !! Z.to_nat (Handle.log_level_pos h) = Some e ∧ context (cells a) e ∧ Entry.contextID e = Handle.contextID h ∧
    Entry.log_level_ptr e = Handle.log_level_ptr h ∧ Entry.trace_status_ptr e = Handle.trace_status_ptr h
}.
(** What the application reads through the pointers of a handle. *)
Definition level_of (a : app) (h : Handle.DltContext) : option Z := p ← Handle.log_level_ptr h; load (cells a) p.
Definition status_of (a : app) (h : Handle.DltContext) : option Z := p ← Handle.trace_status_ptr h; load (cells a) p.

Lemma vacant_ptrs e : vacant e -> ptrs e = [].
Proof. by intros (l & s & ->). Qed.
Lemma context_ptrs m e : context m e -> ∃ p q, ptrs e = [p; q] ∧ Entry.log_level_ptr e = Some p ∧ Entry.trace_status_ptr e = Some q ∧
  load m p = Some (Entry.log_level e) ∧ load m q = Some (Entry.trace_status e).
Proof. intros [_ (p & Hp & Hl) (q & Hq & Hs) _]. exists p, q. unfold ptrs. by rewrite Hp, Hq. Qed.

Definition others (t : list Entry.dlt_ll_ts_type) (k : nat) : list Entry.dlt_ll_ts_type := take k t ++ drop (S k) t.
Lemma pointers_at t k e : t !! k = Some e -> pointers t ≡ₚ ptrs e ++ pointers (others t k).
Proof.
  intros Hk. rewrite <-(take_drop_middle t k e Hk) at 1. unfold pointers, others. rewrite !fmap_app, !concat_app. cbn. rewrite !app_assoc.
  by rewrite (Permutation_app_comm (concat (ptrs <$> take k t)) (ptrs e)).
Qed.
Lemma pointers_insert t k e e' : t !! k = Some e -> pointers (<[k := e']> t) ≡ₚ ptrs e' ++ pointers (others t k).
Proof.
  intros Hk. pose proof (lookup_lt_Some _ _ _ Hk). rewrite (pointers_at (<[k := e']> t) k e') by (by apply list_lookup_insert_eq).
  unfold others. by rewrite take_insert_ge, drop_insert_lt by lia.
Qed.
Lemma others_lookup t k j e : t !! j = Some e -> j <> k -> e ∈ others t k.
Proof.
  intros Hj Hn. unfold others. apply elem_of_app. destruct (decide (j < k)%nat).
  - left. apply (list_elem_of_lookup_2 _ j). by rewrite lookup_take_lt.
  - right. apply (list_elem_of_lookup_2 _ (j - S k)). rewrite lookup_drop, <-Hj. f_equal. lia.
Qed.
Lemma elem_pointers t e p : e ∈ t -> p ∈ ptrs e -> p ∈ pointers t.
Proof. intros He Hp. apply list_elem_of_In, in_concat. exists (ptrs e). split; [apply list_elem_of_In; by apply list_elem_of_fmap_2|by apply list_elem_of_In]. Qed.

(** The entry at [k] is replaced and its cells may change: what is needed. *)
Record replaces (m0 m : memory) (e e' : Entry.dlt_ll_ts_type) : Prop := {
  rp_slot : vacant e' ∨ context m e';
  rp_frame : ∀ p, p ∉ ptrs e -> p ∉ ptrs e' -> load m p = load m0 p;
  rp_new : ∀ p, p ∈ ptrs e' -> p ∈ ptrs e ∨ load m0 p = None;
  rp_live : ∀ p, p ∈ ptrs e' -> is_Some (load m p);
  rp_freed : ∀ p, p ∈ ptrs e -> p ∉ ptrs e' -> load m p = None;
  rp_nodup : NoDup (ptrs e')
}.

Definition replaced (a : app) (k : nat) (e' : Entry.dlt_ll_ts_type) (m : memory) (num : Z) : app :=
  with_table a ((λ t, <[k := e']> t) <$> dlt_ll_ts a) (dlt_ll_ts_max_num_entries a) num m.

Lemma table_replaced a k e' m num : table (replaced a k e' m num) = <[k := e']> (table a).
Proof. unfold table, replaced. cbn. by destruct (dlt_ll_ts a). Qed.

(** The cells of other contexts are not touched. *)
Lemma replaced_other a k e e' m j x : inv a -> table a !! k = Some e -> replaces (cells a) m e e' -> table a !! j = Some x -> j <> k ->
  ∀ p, p ∈ ptrs x -> load m p = load (cells a) p.
Proof.
  intros I Hk R Hj Hne p Hp. assert (p ∈ pointers (others (table a) k)) as Ho by (by eapply elem_pointers; [eapply others_lookup|]).
  pose proof (iv_nodup _ I) as Hnd. rewrite (pointers_at _ k e Hk) in Hnd. apply list.NoDup_app in Hnd as (_ & Hd & _).
  assert (p ∉ ptrs e) as Hpe by (intros H; by apply (Hd p H)). apply (rp_frame _ _ _ _ R p Hpe).
  intros H. destruct (rp_new _ _ _ _ R p H) as [?|Hn]; [done|]. assert (is_Some (load (cells a) p)) as [y Hy]; [|congruence].
  apply (iv_cells _ I). eapply elem_pointers; [by eapply list_elem_of_lookup_2|done].
Qed.

Lemma replaced_inv a k e e' m num : inv a -> table a !! k = Some e -> replaces (cells a) m e e' ->
  Z.of_nat k <= dlt_ll_ts_num_entries a -> num = Z.max (dlt_ll_ts_num_entries a) (Z.of_nat k + 1) -> inv (replaced a k e' m num).
Proof.
  intros I Hk R Hle Hnum. pose proof (lookup_lt_Some _ _ _ Hk) as Hlt. pose proof (iv_num _ I) as Hn. split.
  - pose proof (iv_size _ I) as Hs. unfold table in Hlt. unfold replaced. cbn. destruct (dlt_ll_ts a) as [t|]; cbn in *; [|lia]. by rewrite length_insert.
  - rewrite table_replaced, length_insert. cbn. lia.
  - rewrite table_replaced. apply list.Forall_lookup. intros j x. rewrite list_lookup_insert. case_decide as Hj; [intros [= <-]; apply R|].
    intros Hx. pose proof (Forall_lookup_1 _ _ _ _ (iv_slots _ I) Hx) as [Hv|Hc]; [by left|]. right. assert (j <> k) as Hjk by (intros ->; tauto).
    pose proof (replaced_other a k e e' m j x I Hk R Hx Hjk) as Hp. destruct (context_ptrs _ _ Hc) as (p & q & Ep & E1 & E2 & E3 & E4). rewrite Ep in Hp.
    destruct Hc as [H1 _ _ H4]. split; [done|exists p|exists q|done]; (split; [done|]); rewrite Hp by set_solver; done.
  - rewrite table_replaced. intros j x Hj. rewrite list_lookup_insert_ne; [|unfold replaced in Hj; cbn in Hj; lia]. apply (iv_tail _ I). unfold replaced in Hj. cbn in Hj. lia.
  - intros p. rewrite table_replaced, (pointers_insert _ _ e e' Hk), elem_of_app. unfold replaced. cbn.
    pose proof (iv_nodup _ I) as Hnd. rewrite (pointers_at _ k e Hk) in Hnd. apply list.NoDup_app in Hnd as (_ & Hd & _).
    pose proof (iv_cells _ I p) as Hc. rewrite (pointers_at _ k e Hk), elem_of_app in Hc. destruct (decide (p ∈ ptrs e')) as [Hin|Hin].
    + split; [by left|]. intros _. by apply (rp_live _ _ _ _ R).
    + destruct (decide (p ∈ ptrs e)) as [Hie|Hie].
      * rewrite (rp_freed _ _ _ _ R p Hie Hin). split; [intros [? ?]; done|]. intros [?|Ho]; [done|]. by destruct (Hd p Hie).
      * rewrite (rp_frame _ _ _ _ R p Hie Hin). rewrite Hc. tauto.
  - rewrite table_replaced, (pointers_insert _ _ e e' Hk). pose proof (iv_nodup _ I) as Hnd. rewrite (pointers_at _ k e Hk) in Hnd.
    apply list.NoDup_app in Hnd as (_ & Hd & Hnd). apply list.NoDup_app. split; [apply R|]. split; [|done]. intros p Hp Ho.
    destruct (rp_new _ _ _ _ R p Hp) as [He|Hf]; [by apply (Hd p He)|]. assert (is_Some (load (cells a) p)) as [y Hy]; [|congruence].
    apply (iv_cells _ I). rewrite (pointers_at _ k e Hk). apply elem_of_app. by right.
Qed.

Lemma replaced_denotes a k e e' m num h : inv a -> table a !! k = Some e -> replaces (cells a) m e e' -> dlt_ll_ts_num_entries a <= num ->
  denotes a h -> Z.to_nat (Handle.log_level_pos h) <> k ->
  denotes (replaced a k e' m num) h ∧ level_of (replaced a k e' m num) h = level_of a h ∧ status_of (replaced a k e' m num) h = status_of a h.
Proof.
  intros I Hk R Hnum [Hp (x & Hx & Hc & Hid & H1 & H2)] Hne. pose proof (replaced_other a k e e' m _ x I Hk R Hx Hne) as Hf.
  destruct (context_ptrs _ _ Hc) as (p & q & Ep & E1 & E2 & E3 & E4). rewrite Ep in Hf.
  assert (load m p = load (cells a) p ∧ load m q = load (cells a) q) as [F1 F2] by (split; apply Hf; set_solver).
  unfold level_of, status_of. rewrite <-H1, <-H2, E1, E2. unfold replaced. cbn [cells with_table]. bsimp. split; [|done].
  split; [cbn; lia|]. exists x. fold (replaced a k e' m num). rewrite table_replaced, list_lookup_insert_ne by done. split_and!; try done.
  destruct Hc as [C1 _ _ C4]. split; [done|exists p|exists q|done]; (split; [done|]); unfold replaced; cbn; congruence.
Qed.

(** *** Cells *)

Lemma load_store m p q v : load (<[p := Some v]> m) q = if decide (q = p) then (if decide (p < length m)%nat then Some v else None) else load m q.
Proof.
  unfold load. rewrite list_lookup_insert. destruct (decide (q = p)) as [->|Hn].
  - destruct (decide (p < length m)%nat); [by rewrite decide_True|]. rewrite decide_False by tauto. by rewrite (lookup_ge_None_2 m p) by lia.
  - by rewrite decide_False by naive_solver.
Qed.
Lemma load_free m p q : load (<[p := None]> m) q = if decide (q = p) then None else load m q.
Proof.
  unfold load. rewrite list_lookup_insert. destruct (decide (q = p)) as [->|Hn]; [|by rewrite decide_False by naive_solver].
  destruct (decide (p < length m)%nat); [by rewrite decide_True|]. rewrite decide_False by tauto. by rewrite (lookup_ge_None_2 m p) by lia.
Qed.
Lemma load_lt m p : is_Some (load m p) -> (p < length m)%nat.
Proof. intros [v H]. unfold load in H. destruct (m !! p) eqn:E; [by eapply lookup_lt_Some|done]. Qed.
Lemma store_live m p v : is_Some (load m p) -> store m p v = Some (<[p := Some v]> m).
Proof. intros [x Hx]. unfold store. by rewrite Hx. Qed.
Lemma load_stored m p q v : is_Some (load m p) -> load (<[p := Some v]> m) q = if decide (q = p) then Some v else load m q.
Proof. intros H%load_lt. rewrite load_store. by rewrite (decide_True (P := (p < length m)%nat)). Qed.

(** *** Levels *)

Lemma own_cells a k e : inv a -> table a !! k = Some e -> context (cells a) e ->
  ∃ p q, ptrs e = [p; q] ∧ p <> q ∧ Entry.log_level_ptr e = Some p ∧ Entry.trace_status_ptr e = Some q ∧
    load (cells a) p = Some (Entry.log_level e) ∧ load (cells a) q = Some (Entry.trace_status e).
Proof.
  intros I Hk Hc. destruct (context_ptrs _ _ Hc) as (p & q & Ep & H). exists p, q. split; [done|]. split; [|done].
  pose proof (iv_nodup _ I) as Hnd. rewrite (pointers_at _ k e Hk), Ep in Hnd. apply list.NoDup_app in Hnd as (Hnd & _). intros ->.
  apply list.NoDup_cons in Hnd as [Hn _]. apply Hn. by apply list_elem_of_singleton.
Qed.

Lemma levels_replaced a k e l s : inv a -> table a !! k = Some e ->
  ∃ m1 m2, store_if (cells a) (Entry.log_level_ptr e) l = Some m1 ∧ store_if m1 (Entry.trace_status_ptr e) s = Some m2 ∧
    replaces (cells a) m2 e (Entry.put_levels e l s).
Proof.
  intros I Hk. destruct (Forall_lookup_1 _ _ _ _ (iv_slots _ I) Hk) as [(l0 & s0 & ->)|Hc].
  { exists (cells a), (cells a). split; [done|]. split; [done|]. split; try done; [left; by exists l, s|by intros p []%not_elem_of_nil..|constructor]. }
  destruct (own_cells a k e I Hk Hc) as (p & q & Ep & Hne & E1 & E2 & L1 & L2). rewrite E1, E2. cbn [store_if].
  rewrite store_live by done. assert (is_Some (load (<[p := Some l]> (cells a)) q)) as Hq by (rewrite load_stored, decide_False by done; done).
  exists (<[p := Some l]> (cells a)). rewrite store_live by done. eexists. split; [done|]. split; [reflexivity|].
  assert (∀ x, load (<[q := Some s]> (<[p := Some l]> (cells a))) x = if decide (x = q) then Some s else if decide (x = p) then Some l else load (cells a) x) as Hl
    by (intros x; by rewrite !load_stored by done).
  assert (ptrs (Entry.put_levels e l s) = ptrs e) as Eq by done. split; rewrite ?Eq, ?Ep.
  - right. destruct Hc as [C1 _ _ C4]. split; [done|exists p|exists q|done]; (split; [done|]); rewrite Hl; cbn [Entry.log_level Entry.trace_status Entry.put_levels];
      [by rewrite decide_False, decide_True|by rewrite decide_True].
  - intros x Hx _. rewrite Hl. apply not_elem_of_cons in Hx as [? Hx]. apply not_elem_of_cons in Hx as [? _]. by rewrite !decide_False.
  - intros x Hx. by left.
  - intros x Hx. rewrite Hl. apply elem_of_cons in Hx as [->|Hx]; [by rewrite decide_False, decide_True|]. apply list_elem_of_singleton in Hx as ->. by rewrite decide_True.
  - done.
  - apply list.NoDup_cons. split; [|apply list.NoDup_singleton]. by intros ?%list_elem_of_singleton.
Qed.

(** The state with other levels at [k]. *)
Definition leveled (a : app) (k : nat) (e : Entry.dlt_ll_ts_type) (l s : Z) (m : memory) : app :=
  put_entry (with_cells a m) (Z.of_nat k) (Entry.put_levels e l s).

Lemma get_entry_table a k e : table a !! k = Some e -> get_entry a (Z.of_nat k) = Some e.
Proof. intros H. unfold get_entry. rewrite ltb_false by lia. unfold table in H. destruct (dlt_ll_ts a); [|done]. bsimp. by rewrite Nat2Z.id. Qed.
Lemma put_replaced a k e m : put_entry (with_cells a m) (Z.of_nat k) e = replaced a k e m (dlt_ll_ts_num_entries a).
Proof. unfold put_entry, replaced. by rewrite Nat2Z.id. Qed.

(** Everything but the levels is the same. *)
Record alike (e e' : Entry.dlt_ll_ts_type) : Prop := {
  ak_id : Entry.contextID e' = Entry.contextID e;
  ak_callback : Entry.log_level_changed_callback e' = Entry.log_level_changed_callback e;
  ak_table : Entry.injection_table e' = Entry.injection_table e;
  ak_count : Entry.nrcallbacks e' = Entry.nrcallbacks e;
  ak_text : Entry.context_description e' = Entry.context_description e
}.
#[export] Instance alike_preorder : PreOrder alike.
Proof. split; [by split|]. intros x y z [] []. split; congruence. Qed.

(** What telling levels [l] and [s] to position [k] does. *)
Record told (a a' : app) (k : nat) (l s : Z) : Prop := {
  td_inv : inv a';
  td_same : ∃ t m, a' = with_table a t (dlt_ll_ts_max_num_entries a) (dlt_ll_ts_num_entries a) m ∧ (t = None <-> dlt_ll_ts a = None);
  td_handles : ∀ h, denotes a h -> denotes a' h ∧
    level_of a' h = (if decide (Z.to_nat (Handle.log_level_pos h) = k) then Some l else level_of a h) ∧
    status_of a' h = (if decide (Z.to_nat (Handle.log_level_pos h) = k) then Some s else status_of a h);
  td_kept : Forall2 alike (table a) (table a')
}.

Lemma levels_told a k e l s : inv a -> table a !! k = Some e -> Z.of_nat k < dlt_ll_ts_num_entries a ->
  ∃ m1 m2, store_if (cells a) (Entry.log_level_ptr e) l = Some m1 ∧ store_if m1 (Entry.trace_status_ptr e) s = Some m2 ∧
    told a (leveled a k e l s m2) k l s.
Proof.
  intros I Hk Hlt. destruct (levels_replaced a k e l s I Hk) as (m1 & m2 & E1 & E2 & R). exists m1, m2. split; [done|]. split; [done|].
  unfold leveled. rewrite put_replaced. split.
  - apply (replaced_inv a k e); [done..|lia|lia].
  - eexists _, _. split; [reflexivity|]. by destruct (dlt_ll_ts a).
  - intros h Hh. case_decide as Hd; [|by apply (replaced_denotes a k e)]. destruct Hh as [Hp (x & Hx & Hc & Hid & H1 & H2)]. rewrite Hd in Hx. rewrite Hx in Hk. injection Hk as ->.
    assert (vacant (Entry.put_levels e l s) ∨ context m2 (Entry.put_levels e l s)) as [(l0 & s0 & Hv)|Hc'] by apply R.
    { destruct Hc as [_ (p & Hp' & _) _ _]. apply (f_equal Entry.log_level_ptr) in Hv. cbn in Hv. congruence. }
    pose proof Hc' as [_ (p & P1 & P2) (q & Q1 & Q2) _]. cbn in P1, P2, Q1, Q2. unfold level_of, status_of. rewrite <-H1, <-H2, P1, Q1. unfold replaced. cbn [cells with_table]. bsimp.
    split; [|done]. split; [done|]. fold (replaced a k (Entry.put_levels e l s) m2 (dlt_ll_ts_num_entries a)). rewrite table_replaced, Hd.
    exists (Entry.put_levels e l s). split_and!; try done. apply list_lookup_insert_eq. by eapply lookup_lt_Some.
  - rewrite table_replaced, <-(list_insert_id (table a) k e) at 1 by done. apply Forall2_insert; [reflexivity|by split].
Qed.

(** *** Room for a context *)

Lemma pointers_initial t : Forall (eq Entry.initial) t -> pointers t = [].
Proof. induction 1 as [|e t <- _ IH]; [done|]. unfold pointers in *. by rewrite fmap_cons. Qed.
Lemma pointers_app t1 t2 : pointers (t1 ++ t2) = pointers t1 ++ pointers t2.
Proof. unfold pointers. by rewrite fmap_app, concat_app. Qed.
Lemma replicate_initial n : Forall (eq Entry.initial) (replicate n Entry.initial).
Proof. by apply Forall_replicate. Qed.

(** The table with other unused entries behind the used ones. *)
Lemma retabled a t max : inv a -> zlen t = max -> max mod DLT_USER_CONTEXT_ALLOC_SIZE = 0 -> dlt_ll_ts_num_entries a <= max ->
  take (Z.to_nat (dlt_ll_ts_num_entries a)) t = take (Z.to_nat (dlt_ll_ts_num_entries a)) (table a) ->
  Forall (eq Entry.initial) (drop (Z.to_nat (dlt_ll_ts_num_entries a)) t) ->
  inv (with_table a (Some t) max (dlt_ll_ts_num_entries a) (cells a)) ∧
  ∀ h, denotes a h -> denotes (with_table a (Some t) max (dlt_ll_ts_num_entries a) (cells a)) h.
Proof.
  intros I Hl Hm Hn Ht Hd. set (n := Z.to_nat (dlt_ll_ts_num_entries a)) in *. pose proof (iv_num _ I) as Hnum.
  assert (Forall (eq Entry.initial) (drop n (table a))) as Hd0.
  { apply list.Forall_lookup. intros j e Hj. rewrite lookup_drop in Hj. symmetry. apply (iv_tail _ I (n + j)); [lia|done]. }
  assert (pointers t = pointers (table a)) as Hp.
  { rewrite <-(take_drop n t), <-(take_drop n (table a)), !pointers_app, Ht, !(pointers_initial (drop n _)); done. }
  split; [split|].
  - cbn. by rewrite Hl.
  - cbn. lia.
  - cbn [table dlt_ll_ts with_table default from_option cells]. rewrite <-(take_drop n t). apply Forall_app. split.
    + rewrite Ht. apply Forall_take, I.
    + eapply list.Forall_impl; [exact Hd|]. intros e <-. left. by exists DLT_USER_INITIAL_LOG_LEVEL, DLT_USER_INITIAL_TRACE_STATUS.
  - cbn. intros k e Hk He. symmetry. apply (Forall_lookup_1 _ _ (k - n) e Hd). rewrite lookup_drop, <-He. f_equal. lia.
  - intros p. change (is_Some (load (cells a) p) <-> p ∈ pointers t). rewrite Hp. apply I.
  - change (NoDup (pointers t)). rewrite Hp. apply I.
  - intros h [Hpos (e & He & H)]. split; [done|]. exists e. split; [|done]. cbn. rewrite <-(lookup_take_lt t n) by lia. rewrite Ht, lookup_take_lt by lia. done.
Qed.

Section contexts.
Context (L : library).
Hypothesis (HM : heap_ok (heap (env_of L))).

Lemma malloc_any n : ∃ b, malloc (heap (env_of L)) n = Some b.
Proof. specialize (HM n). destruct (malloc _ n); [by eexists|done]. Qed.

Lemma context_table_ok a : inv a -> dlt_ll_ts_num_entries a < 2147483000 ->
  ∃ t max, context_table L a = Some (with_table a (Some t) max (dlt_ll_ts_num_entries a) (cells a)) ∧
    let a' := with_table a (Some t) max (dlt_ll_ts_num_entries a) (cells a) in
    inv a' ∧ dlt_ll_ts_num_entries a < zlen t ∧ (∀ h, denotes a h -> denotes a' h) ∧
    ∀ j e, Z.of_nat j < dlt_ll_ts_num_entries a -> table a !! j = Some e -> t !! j = Some e.
Proof.
  intros I Hb. unfold context_table. set (n := dlt_ll_ts_num_entries a) in *. pose proof (iv_num _ I) as Hn. pose proof (iv_size _ I) as Hs.
  unfold table in Hn. destruct (dlt_ll_ts a) as [t|] eqn:Et; cbn [default from_option id] in Hn, Hs. fold n in Hn, Hs.
  - destruct Hs as [Hs1 Hs2]. destruct (Z.eqb_spec (n mod DLT_USER_CONTEXT_ALLOC_SIZE) 0) as [H0|H0].
    + unfold DLT_USER_CONTEXT_ALLOC_SIZE in *. assert ((n / 500 + 1) * 500 = n + 500) as -> by (pose proof (Z.div_mod n 500); lia).
      rewrite u32_small by lia. destruct (malloc_any (sizeof_dlt_ll_ts_type * (n + 500))) as (b & ->). bsimp. eexists _, _. split; [reflexivity|].
      set (t' := take (Z.to_nat n) t ++ _). assert (zlen t' = n + 500) as Lt by (unfold t'; rewrite length_app, length_take, length_replicate; lia).
      assert (length (take (Z.to_nat n) t) = Z.to_nat n) as Ltk by (rewrite length_take; lia).
      destruct (retabled a t' (n + 500) I) as [I' Hd]; try done.
      * unfold DLT_USER_CONTEXT_ALLOC_SIZE. rewrite Zplus_mod, H0. done.
      * fold n; lia.
      * fold n. unfold table, t'. rewrite Et. cbn. rewrite take_app_length' by done. done.
      * fold n. unfold t'. rewrite drop_app_length' by done. apply replicate_initial.
      * split_and!; [exact I'|lia|exact Hd|]. intros j e Hj He. unfold table in He. rewrite Et in He. unfold t'. rewrite lookup_app_l by lia. by rewrite lookup_take_lt by lia.
    + exists t, (dlt_ll_ts_max_num_entries a). assert (with_table a (Some t) (dlt_ll_ts_max_num_entries a) n (cells a) = a) as -> by (destruct a; cbn in *; by subst).
      split_and!; try done; [destruct (Z.eq_dec n (zlen t)) as [He|]; [by rewrite He in H0|lia]|]. intros j e _ He. unfold table in He. by rewrite Et in He.
  - destruct (malloc_any (sizeof_dlt_ll_ts_type * DLT_USER_CONTEXT_ALLOC_SIZE)) as (b & ->). bsimp. eexists _, _. split; [reflexivity|]. assert (n = 0) as Hn0 by lia.
    set (t' := replicate _ _). assert (zlen t' = DLT_USER_CONTEXT_ALLOC_SIZE) as Lt by (unfold t'; by rewrite length_replicate).
    destruct (retabled a t' DLT_USER_CONTEXT_ALLOC_SIZE I) as [I' Hd]; try done.
    * fold n. rewrite Hn0. done.
    * fold n. rewrite Hn0. done.
    * fold n. rewrite Hn0. apply replicate_initial.
    * split_and!; [exact I'|rewrite Lt, Hn0; done|exact Hd|lia].
Qed.

(** *** A new context *)

Lemma duplicate_ok s : duplicate L s = Some s.
Proof. unfold duplicate. destruct s as [s|]; [|done]. by destruct (malloc_any (zlen s + 1)) as (b & ->). Qed.

Lemma new_cell_ok m : ∃ v, new_cell (heap (env_of L)) m = Some (length m, m ++ [Some v]).
Proof. unfold new_cell. destruct (malloc_any 1) as (b & ->). bsimp. by eexists. Qed.
Lemma load_new m v p : load (m ++ [Some v]) p = if decide (p = length m) then Some v else load m p.
Proof.
  unfold load. case_decide as H; [subst p; by rewrite lookup_app_r, Nat.sub_diag by lia|].
  destruct (decide (p < length m)%nat); [by rewrite lookup_app_l|]. rewrite !lookup_ge_None_2; [done|lia|rewrite length_app; cbn; lia].
Qed.
Lemma load_fresh m p : (length m <= p)%nat -> load m p = None.
Proof. intros H. unfold load. by rewrite lookup_ge_None_2. Qed.

(** The entry of the new context. *)
Definition new_entry (id : bytes) (text : option bytes) (level status : Z) (cb : option Z) (p : nat) : Entry.dlt_ll_ts_type :=
  {| Entry.contextID := id; Entry.log_level := level; Entry.log_level_ptr := Some p; Entry.trace_status := status;
     Entry.trace_status_ptr := Some (S p); Entry.context_description := text; Entry.injection_table := None; Entry.nrcallbacks := 0;
     Entry.log_level_changed_callback := cb |}.

Lemma new_replaces m v1 v2 id text level status cb : good_id id ->
  replaces m (<[S (length m) := Some status]> (<[length m := Some level]> ((m ++ [Some v1]) ++ [Some v2]))) Entry.initial
    (new_entry id text level status cb (length m)).
Proof.
  intros Hid. set (m2 := (m ++ [Some v1]) ++ [Some v2]). assert (length (m ++ [Some v1]) = S (length m)) as Lm by (rewrite length_app; cbn; lia).
  assert (∀ x, load m2 x = if decide (x = S (length m)) then Some v2 else if decide (x = length m) then Some v1 else load m x) as Hm2
    by (intros x; unfold m2; by rewrite !load_new, Lm).
  assert (is_Some (load m2 (length m))) as L1 by (rewrite Hm2, decide_False, decide_True by lia; done).
  assert (is_Some (load (<[length m := Some level]> m2) (S (length m)))) as L2 by (rewrite load_stored, decide_False, Hm2, decide_True by (done || lia); done).
  set (m4 := <[S (length m) := _]> _).
  assert (∀ x, load m4 x = if decide (x = S (length m)) then Some status else if decide (x = length m) then Some level else load m x) as Hl.
  { intros x. unfold m4. rewrite !load_stored by done. rewrite Hm2. repeat case_decide; done. }
  assert (ptrs (new_entry id text level status cb (length m)) = [length m; S (length m)]) as Ep by done. split; rewrite ?Ep.
  - right. split; [done|exists (length m)|exists (S (length m))|done]; (split; [done|]); rewrite Hl; cbn; [by rewrite decide_False, decide_True by lia|by rewrite decide_True].
  - intros x _ Hx. rewrite Hl. apply not_elem_of_cons in Hx as [? Hx]. apply not_elem_of_cons in Hx as [? _]. by rewrite !decide_False.
  - intros x Hx. right. apply load_fresh. apply elem_of_cons in Hx as [->|Hx]; [lia|]. apply list_elem_of_singleton in Hx. lia.
  - intros x Hx. rewrite Hl. apply elem_of_cons in Hx as [->|Hx]; [by rewrite decide_False, decide_True by lia|]. apply list_elem_of_singleton in Hx as ->. by rewrite decide_True.
  - by intros x []%not_elem_of_nil.
  - apply list.NoDup_cons. split; [|apply list.NoDup_singleton]. intros ?%list_elem_of_singleton. lia.
Qed.
End contexts.

(** ** Registration of a context *)

(** The level that the context starts with and the one that the daemon is told:
    [lv] is the level from the environment, [ll] that of the caller. *)
Definition chosen (lv ll : Z) : Z :=
  if negb (lv =? DLT_USER_LOG_LEVEL_NOT_SET) then i8 lv
  else if negb (ll =? DLT_USER_LOG_LEVEL_NOT_SET) then i8 ll else DLT_USER_INITIAL_LOG_LEVEL.
Definition announced (lv ll : Z) : Z := if negb (lv =? DLT_USER_LOG_LEVEL_NOT_SET) then lv else ll.

(** [h] is the handle of a new context behind all others. *)
Record added (a a' : app) (h : Handle.DltContext) (id : bytes) (level status : Z) (cb : option Z) (text : option bytes) : Prop := {
  ad_inv : inv a';
  ad_same : ∃ t max m, a' = with_table a (Some t) max (dlt_ll_ts_num_entries a + 1) m;
  ad_handle : denotes a' h;
  ad_pos : Handle.log_level_pos h = dlt_ll_ts_num_entries a;
  ad_id : Handle.contextID h = id;
  ad_mcnt : Handle.mcnt h = 0;
  ad_level : level_of a' h = Some level;
  ad_status : status_of a' h = Some status;
  ad_entry : ∃ p, table a' !! Z.to_nat (dlt_ll_ts_num_entries a) = Some (new_entry id text level status cb p);
  ad_others : ∀ h0, denotes a h0 -> denotes a' h0 ∧ level_of a' h0 = level_of a h0 ∧ status_of a' h0 = status_of a h0;
  ad_kept : ∀ j e, Z.of_nat j < dlt_ll_ts_num_entries a -> table a !! j = Some e -> table a' !! j = Some e
}.

Lemma inv_user a u : inv a -> inv (with_user a u).
Proof. intros []. by split. Qed.
Lemma denotes_user a u h : denotes a h -> denotes (with_user a u) h.
Proof. intros []. by split. Qed.

(** The state behind a registration in a table with room. *)
Lemma added_ok a t max n v1 v2 id text level status cb h0 :
  let a1 := with_table a (Some t) max (dlt_ll_ts_num_entries a) (cells a) in
  inv a1 -> n = Z.to_nat (dlt_ll_ts_num_entries a) -> dlt_ll_ts_num_entries a < zlen t -> (∀ h, denotes a h -> denotes a1 h) ->
  (∀ j e, Z.of_nat j < dlt_ll_ts_num_entries a -> table a !! j = Some e -> t !! j = Some e) -> good_id id ->
  let p := length (cells a) in
  let m := <[S p := Some status]> (<[p := Some level]> ((cells a ++ [Some v1]) ++ [Some v2])) in
  let h := {| Handle.contextID := id; Handle.log_level_pos := dlt_ll_ts_num_entries a; Handle.log_level_ptr := Some p;
              Handle.trace_status_ptr := Some (S p); Handle.mcnt := h0 |} in
  h0 = 0 -> added a (replaced a1 n (new_entry id text level status cb p) m (dlt_ll_ts_num_entries a + 1)) h id level status cb text.
Proof.
  intros a1 I -> Hlt Hd Hkept Hid p m h ->. set (k := Z.to_nat (dlt_ll_ts_num_entries a)). pose proof (iv_num _ I) as Hn. cbn [dlt_ll_ts_num_entries a1 with_table] in Hn.
  destruct (lookup_lt_is_Some_2 (table a1) k) as [e He]; [unfold table, a1, k; cbn; lia|].
  assert (e = Entry.initial) as -> by (apply (iv_tail _ I k); [unfold k; cbn; lia|done]).
  pose proof (new_replaces (cells a1) v1 v2 id text level status cb Hid) as R. change (cells a1) with (cells a) in R. fold p in R. fold m in R.
  set (e' := new_entry id text level status cb p) in *. pose proof (replaced_inv a1 k Entry.initial e' m (dlt_ll_ts_num_entries a + 1) I He R) as I'.
  cbn [dlt_ll_ts_num_entries a1 with_table] in I'. specialize (I' ltac:(lia) ltac:(lia)).
  assert (∀ x, load m x = if decide (x = S p) then Some status else if decide (x = p) then Some level else load (cells a) x) as Hl.
  { intros x. assert (p <> S p) by lia. assert (length m = S (S p)) as Lm by (unfold m; rewrite !length_insert, !length_app; cbn; unfold p; lia).
    destruct (decide (x = S p)) as [->|H1]; [unfold m; rewrite load_store, decide_True by done; apply decide_True; rewrite length_insert, !length_app; cbn; unfold p; lia|].
    destruct (decide (x = p)) as [->|H2]; [unfold m; rewrite load_store, decide_False, load_store, decide_True by done; apply decide_True; rewrite !length_app; cbn; unfold p; lia|].
    unfold m. rewrite !load_store, !decide_False, !load_new by done. rewrite length_app. cbn. rewrite !decide_False; unfold p in *; [done|lia|lia]. }
  assert (table (replaced a1 k e' m (dlt_ll_ts_num_entries a + 1)) !! k = Some e') as Hk by (rewrite table_replaced; apply list_lookup_insert_eq; by eapply lookup_lt_Some).
  assert (denotes (replaced a1 k e' m (dlt_ll_ts_num_entries a + 1)) h) as Hh.
  { split; [cbn; lia|]. exists e'. split; [exact Hk|]. split; [|done]. assert (vacant e' ∨ context m e') as [(? & ? & Hv)|?] by apply R; [|done]. by apply (f_equal Entry.log_level_ptr) in Hv. }
  split.
  - exact I'.
  - by eexists _, _, _.
  - exact Hh.
  - done.
  - done.
  - done.
  - unfold level_of. cbn. rewrite Hl. by rewrite decide_False, decide_True by lia.
  - unfold status_of. cbn. rewrite Hl. by rewrite decide_True.
  - by exists p.
  - intros x Hx. destruct (replaced_denotes a1 k Entry.initial e' m (dlt_ll_ts_num_entries a + 1) x I He R) as (D1 & D2 & D3);
      [cbn; lia|by apply Hd|destruct Hx as [Hp _]; unfold k; lia|by split_and!].
  - intros j x Hj Hx. rewrite table_replaced, list_lookup_insert_ne by (unfold k; lia). by apply Hkept.
Qed.

Lemma put_twice a n e1 e2 m1 m2 num :
  let b := put_entry (with_cells (put_entry (with_cells a m1) n e1) m2) n e2 in
  with_table b (dlt_ll_ts b) (dlt_ll_ts_max_num_entries b) num (cells b) = replaced a (Z.to_nat n) e2 m2 num.
Proof. unfold put_entry, replaced, with_cells, with_table. cbn. destruct (dlt_ll_ts a); [|done]. cbn. by rewrite list_insert_insert_eq. Qed.

Section registering.
Context {cap : Z} {holds : RingBuffer.DltBuffer -> list bytes -> Prop} `{!MessageQueue cap holds} (L : library).
Abbreviation E := (env_of L).
Hypothesis (Hpad : length (pad E) = 3%nat) (Hcap : cap < 4294967295) (HM : heap_ok (heap E)).
Abbreviation posted := (posted (holds := holds)).
Abbreviation posts := (posts (holds := holds)).
Abbreviation running := (running (holds := holds)).

Lemma running_init a q : running a q -> initialised L a = (DLT_RETURN_OK, a).
Proof. intros [Hi _ _ _]. unfold initialised. unfold not_freeing in Hi. by destruct (init_done (user a)). Qed.

(** A string that names a context or an application. *)
Definition names (t : bytes) : Prop := scannable 4 t ∧ ∃ c, head t = Some c ∧ c <> 0.
Lemma names_good t : names t -> good_id (id_of t).
Proof. intros [_ (c & Hc & Hn)]. by eapply id_of_good. Qed.
Lemma names_no_id t : names t -> no_id t = Some false.
Proof. intros [_ (c & Hc & Hn)]. unfold no_id. destruct t as [|x t]; [done|]. injection Hc as ->. cbn. by rewrite eqb_false. Qed.

Lemma register_context_ok a q h t text ll ts cb lv w :
  inv a -> dlt_ll_ts_num_entries a < 2147483000 -> running a q -> good_id (appID (user a)) -> names t -> length (Handle.contextID h) = 4%nat ->
  out_of_range ll ts = false -> EnvLL.dlt_env_adjust_ll_from_env (initial_ll_set a) (appID (user a)) t DLT_USER_LOG_LEVEL_NOT_SET = Some lv ->
  30 + zlen (default [] text) <= cap ->
  let m := RegisterCtx (appID (user a)) (id_of t) (dlt_ll_ts_num_entries a) (announced lv ll) ts (getpid E) (default [] text) in
  ∃ rc a1 h' a' q' w', dlt_register_context_ll_ts_llccb L false (Some h) (Some t) text ll ts cb a w = Some (rc, a', Some h', w') ∧
    added a a1 h' (id_of t) (chosen lv ll) (i8 ts) cb text ∧ posted a1 q w (encode_user m) rc a' q' w' ∧
    (0 <= dlt_log_handle (user a) -> ready_to_write w -> rc = DLT_RETURN_OK ∧ a' = a1 ∧ q' = q ∧ w' = wrote w (encode_user m)).
Proof.
  intros I Hb Hr Hid Ht Lh Hrange Henv Hl m. unfold dlt_register_context_ll_ts_llccb. rewrite names_no_id by done. bsimp. rewrite Hrange.
  unfold handle_init. rewrite (running_init _ _ Hr). change (DLT_RETURN_OK <? DLT_RETURN_OK) with false. cbn iota.
  destruct (context_table_ok L HM a I Hb) as (tb & max & -> & I1 & Hlt & Hd & Hkept). cbn [dlt_ll_ts_num_entries with_table] in *.
  set (n := dlt_ll_ts_num_entries a) in *. set (a1 := with_table a (Some tb) max n (cells a)) in *. pose proof (iv_num _ I) as Hn. fold n in Hn.
  destruct (lookup_lt_is_Some_2 (table a1) (Z.to_nat n)) as [e He]; [unfold table, a1; cbn; lia|].
  assert (e = Entry.initial) as -> by (apply (iv_tail _ I1 (Z.to_nat n)); [cbn; lia|done]).
  assert (get_entry a1 n = Some Entry.initial) as Hget by (rewrite <-(Z2Nat.id n) by lia; by apply get_entry_table).
  unfold named_entry. cbn [dlt_ll_ts_num_entries a1 with_table]. fold a1. rewrite Hget. bsimp. rewrite (set_id_of (Entry.contextID Entry.initial) t) by (done || apply Ht). bsimp. rewrite duplicate_ok by done.
  destruct (new_cell_ok L HM (cells a1)) as (v1 & E1). destruct (new_cell_ok L HM (cells a1 ++ [Some v1])) as (v2 & E2).
  cbn [cell_for Entry.put_names Entry.log_level_ptr Entry.initial]. rewrite E1. change (cell_for L _ (cells a1 ++ [Some v1])) with (new_cell (heap E) (cells a1 ++ [Some v1])). rewrite E2. bsimp.
  change (initial_ll_set (put_entry _ _ _)) with (initial_ll_set a). change (appID (user (put_entry _ _ _))) with (appID (user a)). rewrite Henv. bsimp.
  change (Entry.log_level _) with DLT_USER_INITIAL_LOG_LEVEL.
  assert ((if negb (lv =? DLT_USER_LOG_LEVEL_NOT_SET) then (i8 lv, lv) else if negb (ll =? DLT_USER_LOG_LEVEL_NOT_SET) then (i8 ll, ll) else (DLT_USER_INITIAL_LOG_LEVEL, ll))
    = (chosen lv ll, announced lv ll)) as -> by (unfold chosen, announced; by repeat case_match).
  rewrite (set_id_of _ t) by (done || apply Ht). bsimp. cbn [Handle.mcnt]. rewrite (i32_small n) by lia.
  set (p := length (cells a1)). assert (length (cells a1 ++ [Some v1]) = S p) as Ep by (rewrite length_app; cbn; unfold p; lia). rewrite Ep.
  set (m2 := (cells a1 ++ [Some v1]) ++ [Some v2]). cbn [cells put_entry with_table with_cells].
  assert (is_Some (load m2 p)) as L1 by (unfold m2; rewrite load_new, decide_False, load_new, decide_True by (rewrite ?Ep; unfold p; lia || done); done).
  assert (is_Some (load (<[p := Some (chosen lv ll)]> m2) (S p))) as L2 by (rewrite load_stored, decide_False by (done || lia); unfold m2; rewrite load_new, decide_True by (by rewrite Ep); done).
  rewrite (store_live m2) by done. bsimp. rewrite store_live by done. bsimp. rewrite (u32_small (n + 1)) by lia.
  rewrite (put_twice a1 n).
  set (h' := {| Handle.contextID := id_of t |}).
  pose proof (added_ok a tb max (Z.to_nat n) v1 v2 (id_of t) text (chosen lv ll) (i8 ts) cb 0 I1 eq_refl Hlt Hd Hkept (names_good t Ht) eq_refl) as Ha.
  set (a2 := replaced _ _ _ _ _) in Ha. change (replaced a1 _ _ _ _) with a2.
  assert (running a2 q) as Hr2 by (by destruct Hr; split).
  destruct (register_context_posts L Hpad Hcap h' text (announced lv ll) ts a2 q w Hr2 Hid (names_good t Ht) Hl) as (rc & a' & q' & w' & Es & P & Hok).
  exists rc, a2, h', a', q', w'. change (Entry.context_description _) with text. rewrite Es. bsimp. split; [done|]. split; [exact Ha|]. by split.
Qed.

(** ** Unregistration of a context *)

Lemma free_live m p : is_Some (load m p) -> free_cell m p = Some (<[p := None]> m).
Proof. intros [x Hx]. unfold free_cell. by rewrite Hx. Qed.

(** The context of [h] is gone, all others are as before. *)
Record removed (a a' : app) (h : Handle.DltContext) : Prop := {
  rm_inv : inv a';
  rm_same : ∃ t m, a' = with_table a t (dlt_ll_ts_max_num_entries a) (dlt_ll_ts_num_entries a) m;
  rm_entry : table a' !! Z.to_nat (Handle.log_level_pos h) = Some Entry.initial;
  rm_kept : ∀ j, j <> Z.to_nat (Handle.log_level_pos h) -> table a' !! j = table a !! j;
  rm_freed : level_of a' h = None ∧ status_of a' h = None;
  rm_others : ∀ h0, denotes a h0 -> Handle.log_level_pos h0 <> Handle.log_level_pos h ->
    denotes a' h0 ∧ level_of a' h0 = level_of a h0 ∧ status_of a' h0 = status_of a h0
}.

Lemma initial_replaces a k e p q : inv a -> table a !! k = Some e -> context (cells a) e -> Entry.log_level_ptr e = Some p -> Entry.trace_status_ptr e = Some q ->
  free_cell (cells a) p = Some (<[p := None]> (cells a)) ∧ free_cell (<[p := None]> (cells a)) q = Some (<[q := None]> (<[p := None]> (cells a))) ∧
  replaces (cells a) (<[q := None]> (<[p := None]> (cells a))) e Entry.initial.
Proof.
  intros I Hk Hc Hp Hq. destruct (own_cells a k e I Hk Hc) as (p' & q' & Ep & Hne & E1 & E2 & L1 & L2). rewrite Hp in E1. rewrite Hq in E2. injection E1 as <-. injection E2 as <-.
  rewrite !free_live by (rewrite ?load_free, ?decide_False by done; done). split; [done|]. split; [done|].
  split; rewrite ?Ep.
  - left. by exists DLT_USER_INITIAL_LOG_LEVEL, DLT_USER_INITIAL_TRACE_STATUS.
  - intros x Hx _. apply not_elem_of_cons in Hx as [? Hx]. apply not_elem_of_cons in Hx as [? _]. by rewrite !load_free, !decide_False.
  - by intros x []%not_elem_of_nil.
  - by intros x []%not_elem_of_nil.
  - intros x Hx _. rewrite !load_free. apply elem_of_cons in Hx as [->|Hx]; [by rewrite decide_False, decide_True|]. apply list_elem_of_singleton in Hx as ->. by rewrite decide_True.
  - constructor.
Qed.

Lemma unregister_context_ok a q h w :
  inv a -> running a q -> good_id (appID (user a)) -> denotes a h -> 20 <= cap ->
  let m := UnregisterCtx (appID (user a)) (Handle.contextID h) (getpid E) in
  ∃ rc a1 h' a' q' w', dlt_unregister_context L false (Some h) a w = Some (rc, a', Some h', w') ∧
    Handle.log_level_ptr h' = None ∧ Handle.trace_status_ptr h' = None ∧
    removed a a1 h ∧ posted a1 q w (encode_user m) rc a' q' w' ∧
    (0 <= dlt_log_handle (user a) -> ready_to_write w -> rc = DLT_RETURN_OK ∧ a' = a1 ∧ q' = q ∧ w' = wrote w (encode_user m)).
Proof.
  intros I Hr Hid Hden Hl m. pose proof Hden as [Hpos (e & He & Hc & Hide & H1 & H2)]. pose proof Hc as [Hgood (p & Hp & Lp) (x & Hx & Lx) _].
  set (k := Z.to_nat (Handle.log_level_pos h)) in *.
  unfold dlt_unregister_context, handle_init. rewrite (running_init _ _ Hr). change (DLT_RETURN_OK <=? DLT_RETURN_ERROR) with false. cbn iota. cbn [Handle.log_level_pos].
  destruct (initial_replaces a k e p x I He Hc Hp Hx) as (F1 & F2 & R).
  assert (∃ tb, dlt_ll_ts a = Some tb) as (tb & Etb) by (unfold table in He; destruct (dlt_ll_ts a); [by eexists|done]). rewrite Etb.
  assert (get_entry a (Handle.log_level_pos h) = Some e) as -> by (rewrite <-(Z2Nat.id (Handle.log_level_pos h)) by lia; by apply get_entry_table). bsimp.
  rewrite (set_id_of _ [0]); [|by apply good_id_length|right; by apply list_elem_of_here]. bsimp. rewrite Hp, Hx. cbn [free_if]. rewrite F1. bsimp. rewrite F2. bsimp.
  set (e' := Entry.set_callback _ _). assert (e' = Entry.initial) as -> by (by destruct e). set (m' := <[x := None]> _) in *.
  rewrite <-(Z2Nat.id (Handle.log_level_pos h)) by lia. fold k. rewrite put_replaced. set (a1 := replaced a k Entry.initial m' _).
  assert (running a1 q) as Hr1 by (by destruct Hr; split). set (h' := {| Handle.contextID := Handle.contextID h |}).
  destruct (unregister_context_posts L Hpad Hcap h' a1 q w Hr1 Hid) as (rc & a' & q' & w' & Es & P & Hok); [cbn; by rewrite <-Hide|done|].
  exists rc, a1, h', a', q', w'. rewrite Es. bsimp. split; [done|]. split; [done|]. split; [done|]. split; [|by split]. split.
  - apply (replaced_inv a k e); [done..|lia|lia].
  - by eexists _, _.
  - fold k. unfold a1. rewrite table_replaced. apply list_lookup_insert_eq. by eapply lookup_lt_Some.
  - intros j Hj. unfold a1. by rewrite table_replaced, list_lookup_insert_ne by done.
  - unfold level_of, status_of. rewrite <-H1, <-H2, Hp, Hx. cbn [cells a1 replaced with_table]. bsimp. unfold m'. rewrite !load_free.
    rewrite (decide_True (P := x = x)) by done. split; [|done]. by repeat case_decide.
  - intros h0 Hh0 Hne. apply (replaced_denotes a k e Entry.initial m' _ h0 I He R); [lia|done|]. destruct Hh0 as [Hp0 _]. unfold k. lia.
Qed.

(** ** The other operations *)

Lemma register_app_ok a q t text w :
  running a q -> length (appID (user a)) = 4%nat -> names t -> starts_with 4 (appID (user a)) t = Some false -> 20 + zlen (default [] text) <= cap ->
  let a1 := with_description (with_user a (set_appid (user a) (id_of t))) text in
  let m := RegisterApp (id_of t) (getpid E) (default [] text) in
  ∃ rc a' q' w', dlt_register_app L false (Some t) text a w = Some (rc, a', w') ∧ posted a1 q w (encode_user m) rc a' q' w' ∧
    (0 <= dlt_log_handle (user a) -> ready_to_write w -> rc = DLT_RETURN_OK ∧ a' = a1 ∧ q' = q ∧ w' = wrote w (encode_user m)).
Proof.
  intros Hr La Ht Hs Hl a1 m. unfold dlt_register_app. rewrite (running_init _ _ Hr). change (DLT_RETURN_OK <? 0) with false. cbn iota. rewrite names_no_id by done. bsimp. rewrite Hs. bsimp.
  rewrite (set_id_of _ t) by (done || apply Ht). bsimp. rewrite duplicate_ok by done. fold a1.
  assert (running a1 q) as Hr1 by (by destruct Hr; split).
  destruct (register_application_posts L Hpad Hcap a1 q w Hr1 (names_good t Ht) Hl) as (rc & a' & q' & w' & Es & P & Hok). rewrite Es. bsimp.
  assert (resend L a' w' = Some (DLT_RETURN_OK, a', w')) as Hres.
  { destruct (posted_same _ _ _ _ _ _ _ _ P) as (sb & Ea). unfold resend. rewrite resend_nothing; [|rewrite Ea; by apply good_no_id, names_good|rewrite Ea; apply Hr].
    bsimp. by destruct a'. }
  exists rc, a', q', w'. split; [|by split]. rewrite Hres. destruct ((rc =? DLT_RETURN_OK) && _) eqn:Eb; [|done]. apply andb_true_iff in Eb as [Eb _]. apply Z.eqb_eq in Eb as ->. done.
Qed.

(** The limit is the level of every context. *)
Lemma limit_loop_ok ll ts : ∀ n k a, inv a -> Z.of_nat k + Z.of_nat n <= dlt_ll_ts_num_entries a ->
  ∃ t m, let a' := with_table a t (dlt_ll_ts_max_num_entries a) (dlt_ll_ts_num_entries a) m in
    limit_loop n (Z.of_nat k) ll ts a = Some a' ∧ inv a' ∧ Forall2 alike (table a) (table a') ∧
    ∀ h, denotes a h -> denotes a' h ∧
      level_of a' h = (if decide (Z.of_nat k <= Handle.log_level_pos h < Z.of_nat k + Z.of_nat n) then Some (i8 ll) else level_of a h) ∧
      status_of a' h = (if decide (Z.of_nat k <= Handle.log_level_pos h < Z.of_nat k + Z.of_nat n) then Some (i8 ts) else status_of a h).
Proof.
  induction n as [|n IH]; intros k a I Hn; cbn [limit_loop].
  { exists (dlt_ll_ts a), (cells a). assert (with_table a (dlt_ll_ts a) (dlt_ll_ts_max_num_entries a) (dlt_ll_ts_num_entries a) (cells a) = a) as -> by (by destruct a).
    split; [done|]. split; [done|]. split; [reflexivity|]. intros h Hh. by rewrite !decide_False by lia. }
  pose proof (iv_num _ I) as Hnum. destruct (lookup_lt_is_Some_2 (table a) k) as [e He]; [lia|]. rewrite (get_entry_table _ _ _ He). bsimp.
  destruct (levels_told a k e (i8 ll) (i8 ts) I He ltac:(lia)) as (m1 & m2 & E1 & E2 & T). rewrite E1. bsimp. rewrite E2. bsimp. fold (leveled a k e (i8 ll) (i8 ts) m2).
  set (a1 := leveled a k e (i8 ll) (i8 ts) m2) in *. replace (Z.of_nat k + 1) with (Z.of_nat (S k)) by lia.
  destruct (IH (S k) a1 (td_inv _ _ _ _ _ T)) as (t & m & Eq & I' & Hk & Hh'); [change (dlt_ll_ts_num_entries a1) with (dlt_ll_ts_num_entries a); lia|].
  exists t, m. split; [exact Eq|]. split; [exact I'|]. split; [etrans; [exact (td_kept _ _ _ _ _ T)|exact Hk]|]. intros h Hh. destruct (td_handles _ _ _ _ _ T h Hh) as (D1 & D2 & D3). destruct (Hh' h D1) as (D4 & D5 & D6). split; [exact D4|].
  pose proof (dn_pos _ _ Hh) as Hp. split.
  - etrans; [exact D5|]. rewrite D2. repeat case_decide; try done; lia.
  - etrans; [exact D6|]. rewrite D3. repeat case_decide; try done; lia.
Qed.

Lemma limit_ok ll ts a q w : inv a -> running a q -> good_id (appID (user a)) -> dlt_ll_ts a <> None -> out_of_range ll ts = false -> 14 <= cap ->
  let m := AppLevels (appID (user a)) ll ts in
  ∃ rc t c a' q' w', let a1 := with_table a t (dlt_ll_ts_max_num_entries a) (dlt_ll_ts_num_entries a) c in
    dlt_set_application_ll_ts_limit L false ll ts a w = Some (rc, a', w') ∧ inv a1 ∧ Forall2 alike (table a) (table a1) ∧
    (∀ h, denotes a h -> denotes a1 h ∧ level_of a1 h = Some (i8 ll) ∧ status_of a1 h = Some (i8 ts)) ∧
    posted a1 q w (encode_user m) rc a' q' w' ∧
    (0 <= dlt_log_handle (user a) -> ready_to_write w -> rc = DLT_RETURN_OK ∧ a' = a1 ∧ q' = q ∧ w' = wrote w (encode_user m)).
Proof.
  intros I Hr Hid Ht Hrange Hl m. unfold dlt_set_application_ll_ts_limit. rewrite Hrange, (running_init _ _ Hr). change (DLT_RETURN_OK <? 0) with false. cbn iota.
  destruct (dlt_ll_ts a) as [tb|] eqn:Et; [|done]. pose proof (iv_num _ I) as Hn.
  destruct (limit_loop_ok ll ts (Z.to_nat (dlt_ll_ts_num_entries a)) 0 a I ltac:(lia)) as (t & c & Eq & I' & Hk & Hh). change (Z.of_nat 0) with 0 in Eq. rewrite Eq. bsimp.
  set (a1 := with_table a t _ _ c) in *. change (appID (user a1)) with (appID (user a)). rewrite good_no_id by done. bsimp. cbn [negb].
  assert (running a1 q) as Hr1 by (by destruct Hr; split). destruct (app_limit_posts L Hpad Hcap ll ts a1 q w Hr1 Hid Hl Hrange) as (rc & a' & q' & w' & Es & P & Hok).
  exists rc, t, c, a', q', w'. fold a1. split; [exact Es|]. split; [done|]. split; [done|]. split; [|by split].
  intros h Hd. destruct (Hh h Hd) as (D1 & D2 & D3). pose proof (dn_pos _ _ Hd). split; [done|]. split; [etrans; [exact D2|]|etrans; [exact D3|]]; by rewrite decide_True by lia.
Qed.
End registering.

End UserContextsSpec.
