(* ===== verification/UserLifeSpec.v ===== *)
(** * The contexts of an application over its life

    Whatever an application does with its contexts and whatever levels the daemon
    tells it: no access leaves the table, no cell is used after it was freed or
    freed twice, the handles the application holds keep to their contexts, and at
    the end every cell is freed. *)

From stdpp Require Import base sets list numbers option.
From Stdlib Require Import ZArith Lia Bool.
From S2P Require Import Prelude Protocol Ids RingBuffer RingBufferSpec MessageQueue Filter EnvLL UserLog UserShared UserSend UserSendSpec.
From S2P Require Import Receiver DaemonTablesSpec DaemonHandlersSpec UserContexts UserControl UserContextsSpec.
Import Protocol Ids MessageQueue UserLog UserShared UserSend UserSendSpec UserContexts UserControl UserContextsSpec.
Import DaemonTablesSpec (good_id, good_id_length).

Local Open Scope Z_scope.

Module UserLifeSpec.

(** ** Callbacks *)

(** The callback of the context for a service. *)
Definition callbacks (e : Entry.dlt_ll_ts_type) : list DltUserInjectionCallback := default [] (Entry.injection_table e).
Definition callback_for (e : Entry.dlt_ll_ts_type) (service : Z) : option DltUserInjectionCallback :=
  snd <$> list_find (λ c, service_id c = service) (callbacks e).

Lemma find_service_spec l s : ∀ n k, (k + n)%nat = length l ->
  match list_find (λ c, service_id c = s) (drop k l) with
  | Some (j, c) => find_service n k (Some l) s = Some (Some (k + j)%nat)
  | None => find_service n k (Some l) s = Some None
  end.
Proof.
  induction n as [|n IH]; intros k Hk; cbn [find_service]; [by rewrite drop_ge by lia|].
  destruct (lookup_lt_is_Some_2 l k) as [c Hc]; [lia|]. rewrite Hc. bsimp. rewrite (drop_S l c k Hc). cbn [list_find].
  destruct (Z.eqb_spec (service_id c) s) as [Hs|Hs]; [rewrite decide_True by done; f_equal; f_equal; lia|]. rewrite decide_False by done.
  specialize (IH (S k) ltac:(lia)). destruct (list_find _ (drop (S k) l)) as [[j c']|]; cbn; rewrite IH; [|done]. do 2 f_equal. lia.
Qed.
Lemma find_service_none n s : ∀ k, find_service n k None s = Some None.
Proof. induction n as [|n IH]; intros k; [done|]. apply IH. Qed.

Lemma callbacks_count m e : context m e -> Entry.nrcallbacks e = zlen (callbacks e).
Proof. intros [_ _ _ H]. unfold callbacks. by destruct (Entry.injection_table e). Qed.
Lemma find_callback m e s : context m e ->
  find_service (Z.to_nat (Entry.nrcallbacks e)) 0 (Entry.injection_table e) s =
    Some (fst <$> list_find (λ c, service_id c = s) (callbacks e)).
Proof.
  intros Hc. rewrite (callbacks_count _ _ Hc), Nat2Z.id. unfold callbacks. destruct (Entry.injection_table e) as [l|]; [|apply find_service_none].
  cbn [default from_option id]. pose proof (find_service_spec l s (length l) 0 ltac:(lia)) as H. rewrite drop_0 in H. by destruct (list_find _ l) as [[j c]|].
Qed.

Lemma find_app_new (l : list DltUserInjectionCallback) c s s' : list_find (λ c, service_id c = s) l = None -> service_id c = s ->
  snd <$> list_find (λ c, service_id c = s') (l ++ [c]) = if decide (s' = s) then Some c else snd <$> list_find (λ c, service_id c = s') l.
Proof.
  intros Hn Hs. destruct (list_find (λ c, service_id c = s') l) as [[j x]|] eqn:E.
  - rewrite (list_find_app_l _ _ _ _ _ E). cbn. rewrite decide_False; [done|]. intros ->. by rewrite E in Hn.
  - rewrite list_find_app_r by done. cbn [list_find]. destruct (decide (service_id c = s')) as [H|H]; cbn.
    + by rewrite decide_True by congruence.
    + by rewrite decide_False by congruence.
Qed.
Lemma find_insert (l : list DltUserInjectionCallback) c s s' j x : list_find (λ c, service_id c = s) l = Some (j, x) -> service_id c = s ->
  snd <$> list_find (λ c, service_id c = s') (<[j := c]> l) = if decide (s' = s) then Some c else snd <$> list_find (λ c, service_id c = s') l.
Proof.
  revert j. induction l as [|y l IH]; intros j H Hs; [done|]. cbn [list_find] in H |- *. destruct (decide (service_id y = s)) as [Hy|Hy].
  - injection H as <- <-. cbn [insert list_insert list_find]. destruct (decide (s' = s)) as [->|Hne].
    + by rewrite !decide_True by done.
    + by rewrite !decide_False by congruence.
  - destruct (list_find _ l) as [[j' x']|] eqn:E; [|done]. cbn in H. injection H as <- <-. cbn [insert list_insert list_find].
    destruct (decide (service_id y = s')) as [Hy'|Hy'].
    + cbn. by rewrite decide_False by congruence.
    + assert (∀ o : option (nat * DltUserInjectionCallback), snd <$> (prod_map S id <$> o) = snd <$> o) as Ho by (by intros [[]|]).
      rewrite !Ho. by apply IH.
Qed.

(** ** Levels from the daemon *)

Lemma slot_id a k e : inv a -> table a !! k = Some e -> is_id (Entry.contextID e).
Proof. intros I Hk. destruct (Forall_lookup_1 _ _ _ _ (iv_slots _ I) Hk) as [(l & s & ->)|Hc]; [done|apply Hc]. Qed.

(** A level for position [pos]: it is stored there, and the callback of the
    context is prepared; a position that was never used is ignored. *)
Lemma update_levels_ok level status pos s : inv (l_app s) -> dlt_ll_ts_num_entries (l_app s) < 2147483648 -> length (d_contextID (l_delayed s)) = 4%nat ->
  ∃ s', update_levels 1 level status pos s = Some s' ∧ l_calls s' = l_calls s ∧ length (d_contextID (l_delayed s')) = 4%nat ∧
    if decide (0 <= pos < dlt_ll_ts_num_entries (l_app s)) then
      told (l_app s) (l_app s') (Z.to_nat pos) (i8 level) (i8 status) ∧
      ∃ e, table (l_app s) !! Z.to_nat pos = Some e ∧
        l_delayed s' = {| d_callback := Entry.log_level_changed_callback e; d_contextID := Entry.contextID e; d_level := i8 level; d_status := i8 status |}
    else s' = s.
Proof.
  intros I Hb Ld. unfold update_levels. set (a := l_app s) in *. pose proof (iv_num _ I) as Hn. rewrite (i32_small (dlt_ll_ts_num_entries a)) by lia.
  case_decide as Hpos.
  - rewrite leb_true, ltb_true by lia. cbn [andb]. destruct (lookup_lt_is_Some_2 (table a) (Z.to_nat pos)) as [e He]; [lia|].
    assert (get_entry a pos = Some e) as Hg by (rewrite <-(Z2Nat.id pos) by lia; by apply get_entry_table).
    destruct (dlt_ll_ts a) as [tb|] eqn:Et; [|unfold table in He; by rewrite Et in He]. rewrite Hg. bsimp.
    destruct (levels_told a (Z.to_nat pos) e (i8 level) (i8 status) I He ltac:(lia)) as (m1 & m2 & E1 & E2 & T). rewrite E1. bsimp. rewrite E2. bsimp.
    pose proof (slot_id a _ e I He) as Hid. rewrite (set_id_is_id _ (Entry.contextID e)) by done. bsimp. eexists. split; [reflexivity|]. split; [done|].
    split; [by apply is_id_length|]. cbn [l_app l_delayed]. split; [|by exists e]. unfold leveled in T. rewrite Z2Nat.id in T by lia. exact T.
  - exists s. split; [|done]. destruct (Z.leb_spec 0 pos); cbn [andb]; [|done]. by rewrite ltb_false by lia.
Qed.

Section life.
Context {cap : Z} {holds : RingBuffer.DltBuffer -> list bytes -> Prop} `{!MessageQueue cap holds} (L : library).
Abbreviation E := (env_of L).
Hypothesis (Hpad : length (pad E) = 3%nat) (Hcap : cap < 4294967295) (HM : heap_ok (heap E)).
Abbreviation running := (running (holds := holds)).

(** An entry that keeps its cells and levels. *)
Lemma same_cells_replaces a k e e' : inv a -> table a !! k = Some e -> context (cells a) e -> context (cells a) e' -> ptrs e' = ptrs e ->
  replaces (cells a) (cells a) e e'.
Proof.
  intros I Hk Hc Hc' Hp. destruct (own_cells a k e I Hk Hc) as (p & q & Ep & Hne & _ & _ & L1 & L2). split; rewrite ?Hp; try done.
  - by right.
  - intros x Hx. by left.
  - intros x Hx. rewrite Ep in Hx. apply elem_of_cons in Hx as [->|Hx]; [by eexists|]. apply list_elem_of_singleton in Hx as ->. by eexists.
  - rewrite Ep. apply list.NoDup_cons. split; [|apply list.NoDup_singleton]. by intros ?%list_elem_of_singleton.
Qed.

(** The context of [h] has another entry with the same levels. *)
Record altered (a a' : app) (h : Handle.DltContext) (e' : Entry.dlt_ll_ts_type) : Prop := {
  al_inv : inv a';
  al_same : ∃ t, a' = with_table a t (dlt_ll_ts_max_num_entries a) (dlt_ll_ts_num_entries a) (cells a);
  al_entry : table a' !! Z.to_nat (Handle.log_level_pos h) = Some e';
  al_kept : ∀ j, j <> Z.to_nat (Handle.log_level_pos h) -> table a' !! j = table a !! j;
  al_handles : ∀ h0, denotes a h0 -> denotes a' h0 ∧ level_of a' h0 = level_of a h0 ∧ status_of a' h0 = status_of a h0
}.

Lemma entry_altered a h e e' : inv a -> denotes a h -> table a !! Z.to_nat (Handle.log_level_pos h) = Some e -> context (cells a) e' ->
  Entry.contextID e' = Entry.contextID e -> Entry.log_level_ptr e' = Entry.log_level_ptr e -> Entry.trace_status_ptr e' = Entry.trace_status_ptr e ->
  altered a (put_entry a (Handle.log_level_pos h) e') h e'.
Proof.
  intros I Hd He Hc' Hid H1 H2. pose proof Hd as [Hpos (e0 & He0 & Hc & Hide & Hl & Hs)]. rewrite He in He0. injection He0 as <-.
  set (k := Z.to_nat (Handle.log_level_pos h)) in *. assert (ptrs e' = ptrs e) as Ep by (unfold ptrs; by rewrite H1, H2).
  pose proof (same_cells_replaces a k e e' I He Hc Hc' Ep) as R.
  assert (put_entry a (Handle.log_level_pos h) e' = replaced a k e' (cells a) (dlt_ll_ts_num_entries a)) as -> by done.
  assert (table (replaced a k e' (cells a) (dlt_ll_ts_num_entries a)) !! k = Some e') as Hk by (rewrite table_replaced; apply list_lookup_insert_eq; by eapply lookup_lt_Some).
  split; [apply (replaced_inv a k e); [done..|lia|lia]|by eexists|exact Hk|intros j Hj; by rewrite table_replaced, list_lookup_insert_ne|].
  intros h0 Hh0. destruct (decide (Z.to_nat (Handle.log_level_pos h0) = k)) as [Hk0|Hk0]; [|by apply (replaced_denotes a k e)].
  split; [|done]. destruct Hh0 as [Hp0 (x & Hx & Hcx & Hidx & Hlx & Hsx)]. rewrite Hk0, He in Hx. injection Hx as <-. split; [done|]. exists e'. rewrite Hk0. split; [exact Hk|]. split_and!; [done|congruence..].
Qed.

Lemma entry_of a h : denotes a h -> ∃ e, table a !! Z.to_nat (Handle.log_level_pos h) = Some e ∧ get_entry a (Handle.log_level_pos h) = Some e ∧ context (cells a) e ∧
  dlt_ll_ts a <> None.
Proof.
  intros [Hpos (e & He & Hc & _)]. exists e. split; [done|]. split; [rewrite <-(Z2Nat.id (Handle.log_level_pos h)) by lia; by apply get_entry_table|]. split; [done|].
  unfold table in He. by destruct (dlt_ll_ts a).
Qed.

Lemma level_callback_ok a q h cb : inv a -> running a q -> denotes a h -> dlt_ll_ts_num_entries a < 2147483648 ->
  ∃ a' e, dlt_register_log_level_changed_callback L (Some h) cb a = Some (DLT_RETURN_OK, a') ∧ table a !! Z.to_nat (Handle.log_level_pos h) = Some e ∧
    altered a a' h (Entry.set_callback e cb).
Proof.
  intros I Hr Hd Hb. destruct (entry_of a h Hd) as (e & He & Hg & Hc & Ht). unfold dlt_register_log_level_changed_callback, handle_init. rewrite (running_init L _ _ Hr).
  change (DLT_RETURN_OK <? DLT_RETURN_OK) with false. cbn iota. rewrite (ru_file _ _ Hr). destruct (dlt_ll_ts a) as [tb|] eqn:Et; [|done]. pose proof (dn_pos _ _ Hd) as Hp. rewrite u32_small by lia.
  rewrite Hg. bsimp. eexists _, e. split; [reflexivity|]. split; [done|]. apply (entry_altered a h e); try done. by destruct Hc; split.
Qed.

(** A callback is found for its service, once, and the others stay. *)
Lemma injection_ok a q h service cbk priv : inv a -> running a q -> denotes a h -> DLT_USER_INJECTION_MIN <= service -> dlt_ll_ts_num_entries a < 2147483648 ->
  let c := if priv =? 0 then {| service_id := service; injection_callback := Some cbk; injection_callback_with_id := None; data := 0 |}
           else {| service_id := service; injection_callback := None; injection_callback_with_id := Some cbk; data := priv |} in
  ∃ e, table a !! Z.to_nat (Handle.log_level_pos h) = Some e ∧ (zlen (callbacks e) < 4294967295 ->
  ∃ a' e', dlt_register_injection_callback_with_id L (Some h) service cbk priv a = Some (DLT_RETURN_OK, a') ∧ altered a a' h e' ∧
    (∀ s, callback_for e' s = if decide (s = service) then Some c else callback_for e s) ∧ zlen (callbacks e') <= zlen (callbacks e) + 1).
Proof.
  intros I Hr Hd Hs Hb c. destruct (entry_of a h Hd) as (e & He & Hg & Hc & Ht). exists e. split; [done|]. intros Hn. pose proof (dn_pos _ _ Hd) as Hp.
  unfold dlt_register_injection_callback_with_id, handle_init. rewrite (running_init L _ _ Hr). change (DLT_RETURN_OK <? DLT_RETURN_OK) with false. cbn iota.
  rewrite (ltb_false service) by lia. rewrite (ru_file _ _ Hr). destruct (dlt_ll_ts a) as [tb|] eqn:Et; [|done]. rewrite u32_small by lia. rewrite Hg. bsimp. fold c.
  rewrite (find_callback _ _ service Hc). bsimp. assert (service_id c = service) as Hcs by (unfold c; by case_match).
  pose proof (callbacks_count _ _ Hc) as Hcount. unfold callback_for.
  destruct (list_find (λ c, service_id c = service) (callbacks e)) as [[j x]|] eqn:Ef; cbn [fmap option_fmap option_map fst].
  - unfold callbacks in Ef, Hcount. destruct (Entry.injection_table e) as [l|] eqn:El; [|done]. cbn [default from_option id] in Ef, Hcount. bsimp. eexists _, _. split; [reflexivity|]. split.
    + apply (entry_altered a h e); try done. destruct Hc. split; try done. cbn. by rewrite length_insert.
    + unfold callbacks. rewrite El. cbn. rewrite length_insert. split; [intros s; by apply (find_insert l c service s j x)|lia].
  - assert (∃ l, grown_table L e c = Some l ∧ l = callbacks e ++ [c]) as (l & -> & ->).
    { unfold grown_table, callbacks in *. destruct (Entry.injection_table e) as [l|]; cbn [default from_option id] in *.
      - destruct (malloc_any L HM (sizeof_DltUserInjectionCallback * u32 (Entry.nrcallbacks e + 1))) as (b & ->). bsimp. eexists. split; [done|]. by rewrite Hcount, Nat2Z.id, firstn_all.
      - destruct (malloc_any L HM sizeof_DltUserInjectionCallback) as (b & ->). by eexists. }
    rewrite Hcount, u32_small by lia. eexists _, _. split; [reflexivity|]. split.
    + apply (entry_altered a h e); try done. destruct Hc. split; try done. cbn. rewrite length_app. cbn. lia.
    + unfold callbacks at 1 4. cbn. rewrite length_app. cbn [length]. split; [intros s; by apply find_app_new|lia].
Qed.

(** ** The end *)

Lemma free_entries_ok t : ∀ m, NoDup (pointers t) -> (∀ p, p ∈ pointers t -> is_Some (load m p)) ->
  ∃ m', free_entries t m = Some m' ∧ ∀ p, load m' p = if decide (p ∈ pointers t) then None else load m p.
Proof.
  assert (∀ m o, NoDup (option_list o) -> (∀ p, p ∈ option_list o -> is_Some (load m p)) ->
    ∃ m', free_if m o = Some m' ∧ ∀ p, load m' p = if decide (p ∈ option_list o) then None else load m p) as Hfree.
  { intros m [p|] _ Hlive; cbn [free_if option_list].
    - rewrite free_live by (apply Hlive; by left). eexists. split; [done|]. intros x. rewrite load_free. repeat case_decide; try done; subst.
      + exfalso. by apply H0, list_elem_of_here.
      + by apply list_elem_of_singleton in H0.
    - eexists. split; [done|]. intros x. by rewrite decide_False by apply not_elem_of_nil. }
  induction t as [|e t IH]; intros m Hnd Hl; cbn [free_entries]; [exists m; split; [done|]; intros p; by rewrite decide_False by apply not_elem_of_nil|].
  change (pointers (e :: t)) with (ptrs e ++ pointers t) in *. apply list.NoDup_app in Hnd as (Hne & Hd & Hnt). unfold ptrs in Hne. apply list.NoDup_app in Hne as (N1 & Hd1 & N2).
  destruct (Hfree m (Entry.log_level_ptr e) N1) as (m1 & -> & H1); [intros p Hp; apply Hl; unfold ptrs; rewrite !elem_of_app; tauto|]. bsimp.
  destruct (Hfree m1 (Entry.trace_status_ptr e) N2) as (m2 & -> & H2).
  { intros p Hp. rewrite H1. rewrite decide_False by (intros H; by apply (Hd1 p H)). apply Hl. unfold ptrs. rewrite !elem_of_app. tauto. }
  bsimp. destruct (IH m2 Hnt) as (m3 & -> & H3).
  { intros p Hp. rewrite H2, H1. rewrite !decide_False; [apply Hl; rewrite elem_of_app; by right|intros H; apply (Hd p); [unfold ptrs; rewrite elem_of_app; tauto|done]..]. }
  eexists. split; [done|]. intros p. rewrite H3, H2, H1. unfold ptrs. repeat case_decide; try done; rewrite !elem_of_app in *; tauto.
Qed.

Lemma free_contexts_ok a : inv a -> ∃ a', free_contexts a = Some a' ∧ inv a' ∧ ∀ p, load (cells a') p = None.
Proof.
  intros I. unfold free_contexts. pose proof (iv_size _ I) as Hs. pose proof (iv_cells _ I) as Hc. pose proof (iv_nodup _ I) as Hn. unfold table in Hc, Hn.
  destruct (dlt_ll_ts a) as [t|] eqn:Et; cbn [default from_option id] in *.
  - destruct Hs as [Hl _]. rewrite <-Hl, Nat2Z.id, firstn_all. destruct (free_entries_ok t (cells a) Hn) as (m & -> & Hm); [intros p; apply Hc|]. bsimp.
    assert (∀ p, load m p = None) as Hnone.
    { intros p. rewrite Hm. case_decide as Hp; [done|]. destruct (load (cells a) p) eqn:E; [|done]. exfalso. apply Hp, Hc. by eexists. }
    eexists. split; [reflexivity|]. split; [|done]. split; [done|done|constructor|done| |constructor].
    + intros p. cbn. rewrite Hnone. split; [by intros []|by intros []%not_elem_of_nil].
  - exists a. split; [done|]. split; [done|]. intros p. destruct (load (cells a) p) eqn:E; [|done]. exfalso. apply (not_elem_of_nil p), Hc. by eexists.
Qed.

(** ** Everything an application does *)

(** [i] is the number of a handle the application holds; [Tell] is a message of the
    daemon. *)
Inductive op :=
| Register (t : bytes) (text : option bytes) (ll ts : Z) (cb : option Z)
| Unregister (i : nat)
| Limit (ll ts : Z)
| WatchLevel (i : nat) (cb : option Z)
| WatchInjection (i : nat) (service cbk priv : Z)
| Tell (level status pos : Z).

Record life := { li_app : app; li_handles : list Handle.DltContext; li_world : world }.

(** The handle is an object of the application with arbitrary content. *)
Definition run (h0 : Handle.DltContext) (o : op) (s : life) : option life :=
  match o with
  | Register t text ll ts cb =>
      '(_, a, h, w) ← dlt_register_context_ll_ts_llccb L false (Some h0) (Some t) text ll ts cb (li_app s) (li_world s);
      h ← h;
      Some {| li_app := a; li_handles := li_handles s ++ [h]; li_world := w |}
  | Unregister i =>
      match li_handles s !! i with
      | None => Some s
      | Some h => '(_, a, _, w) ← dlt_unregister_context L false (Some h) (li_app s) (li_world s);
                  Some {| li_app := a; li_handles := delete i (li_handles s); li_world := w |}
      end
  | Limit ll ts =>
      '(_, a, w) ← dlt_set_application_ll_ts_limit L false ll ts (li_app s) (li_world s);
      Some {| li_app := a; li_handles := li_handles s; li_world := w |}
  | WatchLevel i cb =>
      '(_, a) ← dlt_register_log_level_changed_callback L (li_handles s !! i) cb (li_app s);
      Some {| li_app := a; li_handles := li_handles s; li_world := li_world s |}
  | WatchInjection i service cbk priv =>
      '(_, a) ← dlt_register_injection_callback_with_id L (li_handles s !! i) service cbk priv (li_app s);
      Some {| li_app := a; li_handles := li_handles s; li_world := li_world s |}
  | Tell level status pos =>
      l ← update_levels 1 level status pos {| l_app := li_app s; l_delayed := no_delayed; l_calls := [] |};
      Some {| li_app := l_app l; li_handles := li_handles s; li_world := li_world s |}
  end.
Definition run_all (h0 : Handle.DltContext) (os : list op) (s : life) : option life := foldl (λ s o, s ← s; run h0 o s) (Some s) os.

(** The arguments are those of a careful caller; levels that the environment gives
    can be read ([levels] is [dlt_user.initial_ll_set]). *)
Definition op_ok (id : bytes) (levels : EnvLL.dlt_env_ll_set) (o : op) : Prop :=
  match o with
  | Register t text ll ts cb =>
      names t ∧ out_of_range ll ts = false ∧ 30 + zlen (default [] text) <= cap ∧
      is_Some (EnvLL.dlt_env_adjust_ll_from_env levels id t DLT_USER_LOG_LEVEL_NOT_SET)
  | _ => True
  end.

(** Room for [n] more operations. *)
Record life_ok (id : bytes) (levels : EnvLL.dlt_env_ll_set) (n : Z) (s : life) : Prop := {
  lo_inv : inv (li_app s);
  lo_running : ∃ q, running (li_app s) q;
  lo_id : appID (user (li_app s)) = id;
  lo_levels : initial_ll_set (li_app s) = levels;
  lo_handles : Forall (denotes (li_app s)) (li_handles s);
  lo_nodup : NoDup (Handle.log_level_pos <$> li_handles s);
  lo_num : dlt_ll_ts_num_entries (li_app s) + n < 2147483000;
  lo_callbacks : ∀ j e, table (li_app s) !! j = Some e -> zlen (callbacks e) + n < 2147483000
}.


Section steps.
Context (id : bytes) (levels : EnvLL.dlt_env_ll_set) (h0 : Handle.DltContext).
Hypothesis (Hid : good_id id) (Hh0 : length (Handle.contextID h0) = 4%nat) (H30 : 30 <= cap).

Lemma life_posted n a1 q w d rc a' q' w' hs : posted (holds := holds) a1 q w d rc a' q' w' -> running a1 q ->
  life_ok id levels n {| li_app := a1; li_handles := hs; li_world := w |} -> life_ok id levels n {| li_app := a'; li_handles := hs; li_world := w' |}.
Proof.
  intros P Hr [I _ H1 H2 H3 H4 H5 H6]. pose proof (posted_running _ _ _ _ _ _ _ _ P Hr) as Hr'. destruct (posted_same _ _ _ _ _ _ _ _ P) as (sb & ->). cbn in *.
  split; try done; [by apply inv_user|by exists q'|]. eapply list.Forall_impl; [exact H3|]. intros h. apply denotes_user.
Qed.

(** The same state with less room. *)
Lemma life_less n a hs w w' : 0 <= n -> life_ok id levels (n + 1) {| li_app := a; li_handles := hs; li_world := w |} ->
  life_ok id levels n {| li_app := a; li_handles := hs; li_world := w' |}.
Proof. intros Hn [I H0 H1 H2 H3 H4 H5 H6]. split; try done; cbn in *; [lia|]. intros j e He. specialize (H6 j e He). lia. Qed.

Lemma handles_kept a a' hs : (∀ h, denotes a h -> denotes a' h) -> Forall (denotes a) hs -> Forall (denotes a') hs.
Proof. intros H Hf. eapply list.Forall_impl; [exact Hf|exact H]. Qed.

Lemma register_step n t text ll ts cb s : 0 <= n -> life_ok id levels (n + 1) s -> op_ok id levels (Register t text ll ts cb) ->
  ∃ s', run h0 (Register t text ll ts cb) s = Some s' ∧ life_ok id levels n s'.
Proof.
  intros Hn [I [q Hr] H1 H2 H3 H4 H5 H6] (Ht & Hrange & Hl & lv & Hlv). destruct s as [a hs w]. cbn [li_app li_handles li_world] in *. rewrite <-H1, <-H2 in Hlv.
  destruct (register_context_ok L Hpad Hcap HM a q h0 t text ll ts cb lv w) as (rc & a1 & h' & a' & q' & w' & Er & Ha & P & _); try done; [lia|by rewrite H1|].
  cbn [run li_app li_world]. rewrite Er. bsimp. eexists. split; [reflexivity|]. cbn [li_handles].
  destruct (ad_same _ _ _ _ _ _ _ _ Ha) as (tb & max & m & Ea). apply (life_posted n a1 q w _ _ _ _ _ _ P); [subst a1; by destruct Hr; split|].
  pose proof (ad_inv _ _ _ _ _ _ _ _ Ha) as I1. split; cbn [li_app li_handles li_world].
  - exact I1.
  - exists q. subst a1. by destruct Hr; split.
  - by subst a1.
  - by subst a1.
  - apply Forall_app. split; [eapply handles_kept; [|exact H3]; intros h Hh; by apply (ad_others _ _ _ _ _ _ _ _ Ha)|]. constructor; [apply Ha|constructor].
  - rewrite fmap_app. apply list.NoDup_app. split; [done|]. split; [|apply list.NoDup_singleton]. intros x Hx Hy. apply list_elem_of_singleton in Hy.
    apply list_elem_of_fmap in Hx as (h & -> & Hh). rewrite list.Forall_forall in H3. pose proof (dn_pos _ _ (H3 h Hh)). rewrite (ad_pos _ _ _ _ _ _ _ _ Ha) in Hy. lia.
  - subst a1. cbn. lia.
  - intros j e He. destruct (Z.lt_trichotomy (Z.of_nat j) (dlt_ll_ts_num_entries a)) as [Hj|[Hj|Hj]].
    + destruct (lookup_lt_is_Some_2 (table a) j) as [x Hx]; [pose proof (iv_num _ I); lia|]. rewrite (ad_kept _ _ _ _ _ _ _ _ Ha j x Hj Hx) in He. injection He as <-. specialize (H6 j x Hx). lia.
    + destruct (ad_entry _ _ _ _ _ _ _ _ Ha) as (p & Hp). replace j with (Z.to_nat (dlt_ll_ts_num_entries a)) in He by lia. rewrite Hp in He. injection He as <-. cbn. pose proof (iv_num _ I). lia.
    + assert (e = Entry.initial) as -> by (apply (iv_tail _ I1 j); [subst a1; cbn; lia|done]). cbn. pose proof (iv_num _ I). lia.
Qed.

Lemma unregister_step n i s : 0 <= n -> life_ok id levels (n + 1) s -> ∃ s', run h0 (Unregister i) s = Some s' ∧ life_ok id levels n s'.
Proof.
  intros Hn Hs. destruct s as [a hs w]. cbn [run li_app li_handles li_world]. destruct (hs !! i) as [h|] eqn:Hi; [|eexists; split; [reflexivity|by apply (life_less n a hs w)]].
  pose proof Hs as [I [q Hr] H1 H2 H3 H4 H5 H6]. cbn [li_app li_handles li_world] in *. pose proof (Forall_lookup_1 _ _ _ _ H3 Hi) as Hd.
  destruct (unregister_context_ok L Hpad Hcap a q h w I Hr) as (rc & a1 & h' & a' & q' & w' & Er & _ & _ & Ha & P & _); [by rewrite H1|done|lia|].
  rewrite Er. bsimp. eexists. split; [reflexivity|]. destruct (rm_same _ _ _ Ha) as (tb & m & Ea).
  assert (delete i hs ⊆+ hs) as Hsub by apply sublist_submseteq, sublist_delete.
  apply (life_posted n a1 q w _ _ _ _ _ _ P); [subst a1; by destruct Hr; split|]. split; cbn [li_app li_handles li_world].
  - apply Ha.
  - exists q. subst a1. by destruct Hr; split.
  - by subst a1.
  - by subst a1.
  - apply list.Forall_lookup. intros j x Hx. apply (rm_others _ _ _ Ha).
    + rewrite list.Forall_forall in H3. apply H3. apply (elem_of_submseteq _ _ _ (list_elem_of_lookup_2 _ _ _ Hx) Hsub).
    + intros He. rewrite list_lookup_delete in Hx. assert (∃ j', j' <> i ∧ hs !! j' = Some x) as (j' & Hj' & Hx') by (case_decide; eexists; (split; [|exact Hx]); lia).
      apply Hj'. eapply (NoDup_lookup _ _ _ (Handle.log_level_pos h) H4); rewrite list_lookup_fmap; [rewrite Hx'; cbn; by rewrite He|by rewrite Hi].
  - rewrite (delete_Permutation hs i h Hi) in H4. rewrite fmap_cons in H4. by apply list.NoDup_cons in H4 as [_ H4].
  - subst a1. cbn. lia.
  - intros j e He. destruct (decide (j = Z.to_nat (Handle.log_level_pos h))) as [->|Hj].
    + rewrite (rm_entry _ _ _ Ha) in He. injection He as <-. cbn. pose proof (iv_num _ I). lia.
    + rewrite (rm_kept _ _ _ Ha j Hj) in He. specialize (H6 j e He). lia.
Qed.

Lemma alike_callbacks n a a' : 0 <= n -> (∀ j e, table a !! j = Some e -> zlen (callbacks e) + (n + 1) < 2147483000) ->
  Forall2 alike (table a) (table a') -> ∀ j e, table a' !! j = Some e -> zlen (callbacks e) + n < 2147483000.
Proof.
  intros Hn H Hk j e He. destruct (Forall2_lookup_r _ _ _ _ _ Hk He) as (x & Hx & [_ _ Ht _ _]). specialize (H j x Hx). unfold callbacks in *. rewrite Ht. lia.
Qed.

Lemma limit_step n ll ts s : 0 <= n -> life_ok id levels (n + 1) s -> ∃ s', run h0 (Limit ll ts) s = Some s' ∧ life_ok id levels n s'.
Proof.
  intros Hn Hs. destruct s as [a hs w]. cbn [run li_app li_handles li_world]. pose proof Hs as [I [q Hr] H1 H2 H3 H4 H5 H6]. cbn [li_app li_handles li_world] in *.
  destruct (out_of_range ll ts) eqn:Hrange.
  { unfold dlt_set_application_ll_ts_limit. rewrite Hrange. bsimp. eexists. split; [reflexivity|by apply (life_less n a hs w)]. }
  destruct (dlt_ll_ts a) as [tb|] eqn:Et.
  2: { unfold dlt_set_application_ll_ts_limit. rewrite Hrange, (running_init L _ _ Hr), Et. change (DLT_RETURN_OK <? 0) with false. cbn iota. bsimp. eexists. split; [reflexivity|by apply (life_less n a hs w)]. }
  destruct (limit_ok L Hpad Hcap ll ts a q w I Hr) as (rc & t & c & a' & q' & w' & Er & I1 & Hk & Hh & P & _); [by rewrite H1|by rewrite Et|done|lia|].
  rewrite Er. bsimp. eexists. split; [reflexivity|]. apply (life_posted n _ q w _ _ _ _ _ _ P); [by destruct Hr; split|]. split; cbn [li_app li_handles li_world]; try done.
  - exists q. by destruct Hr; split.
  - eapply handles_kept; [|exact H3]. intros h Hd. by apply Hh.
  - cbn. lia.
  - by apply (alike_callbacks n a).
Qed.

Lemma told_life n a a' hs w k l x : 0 <= n -> life_ok id levels (n + 1) {| li_app := a; li_handles := hs; li_world := w |} -> told a a' k l x ->
  life_ok id levels n {| li_app := a'; li_handles := hs; li_world := w |}.
Proof.
  intros Hn [I [q Hr] H1 H2 H3 H4 H5 H6] T. cbn [li_app li_handles li_world] in *. destruct (td_same _ _ _ _ _ T) as (t & m & Ea & _). split; cbn [li_app li_handles li_world]; try done.
  - apply T.
  - exists q. subst a'. by destruct Hr; split.
  - by subst a'.
  - by subst a'.
  - eapply handles_kept; [|exact H3]. intros h Hd. by apply (td_handles _ _ _ _ _ T).
  - subst a'. cbn. lia.
  - apply (alike_callbacks n a); [done|done|apply T].
Qed.

Lemma altered_life n a a' hs w h e' : 0 <= n -> life_ok id levels (n + 1) {| li_app := a; li_handles := hs; li_world := w |} -> altered a a' h e' ->
  zlen (callbacks e') + n < 2147483000 -> life_ok id levels n {| li_app := a'; li_handles := hs; li_world := w |}.
Proof.
  intros Hn [I [q Hr] H1 H2 H3 H4 H5 H6] T Hc. cbn [li_app li_handles li_world] in *. destruct (al_same _ _ _ _ T) as (t & Ea). split; cbn [li_app li_handles li_world]; try done.
  - apply T.
  - exists q. subst a'. by destruct Hr; split.
  - by subst a'.
  - by subst a'.
  - eapply handles_kept; [|exact H3]. intros h1 Hd. by apply (al_handles _ _ _ _ T).
  - subst a'. cbn. lia.
  - intros j e He. destruct (decide (j = Z.to_nat (Handle.log_level_pos h))) as [->|Hj].
    + rewrite (al_entry _ _ _ _ T) in He. by injection He as <-.
    + rewrite (al_kept _ _ _ _ T j Hj) in He. specialize (H6 j e He). lia.
Qed.

Lemma run_step n o s : 0 <= n -> life_ok id levels (n + 1) s -> op_ok id levels o -> ∃ s', run h0 o s = Some s' ∧ life_ok id levels n s'.
Proof.
  intros Hn Hs Ho. destruct o as [t text ll ts cb|i|ll ts|i cb|i service cbk priv|level status pos].
  - by apply register_step.
  - by apply unregister_step.
  - by apply limit_step.
  - destruct s as [a hs w]. cbn [run li_app li_handles li_world]. destruct (hs !! i) as [h|] eqn:Hi; [|bsimp; eexists; split; [reflexivity|by apply (life_less n a hs w)]].
    pose proof Hs as [I [q Hr] H1 H2 H3 H4 H5 H6]. cbn [li_app li_handles li_world] in *. pose proof (Forall_lookup_1 _ _ _ _ H3 Hi) as Hd.
    destruct (level_callback_ok a q h cb I Hr Hd ltac:(lia)) as (a' & e & -> & He & Ha). bsimp. eexists. split; [reflexivity|]. apply (altered_life n a a' hs w h _ Hn Hs Ha).
    specialize (H6 _ _ He). change (callbacks (Entry.set_callback e cb)) with (callbacks e). lia.
  - destruct s as [a hs w]. cbn [run li_app li_handles li_world]. destruct (hs !! i) as [h|] eqn:Hi; [|bsimp; eexists; split; [reflexivity|by apply (life_less n a hs w)]].
    pose proof Hs as [I [q Hr] H1 H2 H3 H4 H5 H6]. cbn [li_app li_handles li_world] in *. pose proof (Forall_lookup_1 _ _ _ _ H3 Hi) as Hd.
    destruct (Z.ltb_spec service DLT_USER_INJECTION_MIN) as [Hmin|Hmin].
    { unfold dlt_register_injection_callback_with_id, handle_init. rewrite (running_init L _ _ Hr). change (DLT_RETURN_OK <? DLT_RETURN_OK) with false. cbn iota. rewrite (ltb_true service) by done. bsimp. eexists. split; [reflexivity|by apply (life_less n a hs w)]. }
    destruct (injection_ok a q h service cbk priv I Hr Hd Hmin ltac:(lia)) as (e & He & Hinj). pose proof (H6 _ _ He) as Hce. destruct (Hinj ltac:(lia)) as (a' & e' & -> & Ha & _ & Hlen). bsimp.
    eexists. split; [reflexivity|]. apply (altered_life n a a' hs w h _ Hn Hs Ha). lia.
  - destruct s as [a hs w]. cbn [run li_app li_handles li_world]. pose proof Hs as [I [q Hr] H1 H2 H3 H4 H5 H6]. cbn [li_app li_handles li_world] in *.
    destruct (update_levels_ok level status pos {| l_app := a; l_delayed := no_delayed; l_calls := [] |} I ltac:(cbn; lia) eq_refl) as (l & -> & _ & _ & Hl). bsimp.
    eexists. split; [reflexivity|]. cbn [l_app] in Hl. case_decide as Hpos; [|subst l; by apply (life_less n a hs w)]. destruct Hl as [T _]. by apply (told_life n a (l_app l) hs w (Z.to_nat pos) (i8 level) (i8 status)).
Qed.

Lemma run_all_ok os : ∀ s, life_ok id levels (zlen os) s -> Forall (op_ok id levels) os -> ∃ s', run_all h0 os s = Some s' ∧ life_ok id levels 0 s'.
Proof.
  induction os as [|o os IH]; intros s Hs Ho; [by exists s|]. apply Forall_cons_1 in Ho as [Ho Hos]. unfold run_all. cbn [foldl mbind option_bind].
  destruct (run_step (zlen os) o s) as (s1 & -> & Hs1); [lia|by replace (zlen os + 1) with (zlen (o :: os)) by (cbn [length]; lia)|done|]. by apply IH.
Qed.
End steps.
End life.

(** C8: Whatever sequence of operations an application runs on its contexts
    (registering and unregistering them, limiting its levels, setting callbacks),
    interleaved with levels that the daemon tells for any position: every
    operation returns, no cell is accessed after it was freed or freed twice, each
    handle the application holds stays with its own context and reads its level
    through live cells; and freeing the library afterwards frees every cell. *)
Theorem contexts_safe {cap holds} `{!MessageQueue cap holds} L id levels h0 os s :
  length (pad (env_of L)) = 3%nat -> 30 <= cap < 4294967295 -> heap_ok (heap (env_of L)) -> good_id id -> length (Handle.contextID h0) = 4%nat ->
  life_ok (holds := holds) id levels (zlen os) s -> Forall (op_ok (cap := cap) id levels) os ->
  ∃ s' a', run_all L h0 os s = Some s' ∧ life_ok (holds := holds) id levels 0 s' ∧
    Forall (λ h, is_Some (level_of (li_app s') h) ∧ is_Some (status_of (li_app s') h)) (li_handles s') ∧
    free_contexts (li_app s') = Some a' ∧ ∀ p, load (cells a') p = None.
Proof.
  intros Hpad [H30 Hcap] HM Hid Hh0 Hs Ho. destruct (run_all_ok L Hpad Hcap HM id levels h0 Hid Hh0 H30 os s Hs Ho) as (s' & Er & Hs').
  destruct (free_contexts_ok (li_app s') (lo_inv _ _ _ _ Hs')) as (a' & Ef & _ & Hf). exists s', a'. split_and!; try done.
  eapply list.Forall_impl; [exact (lo_handles _ _ _ _ Hs')|]. intros h [_ (e & _ & [_ (p & Hp & Lp) (q & Hq & Lq) _] & _ & H1 & H2)].
  unfold level_of, status_of. rewrite <-H1, <-H2, Hp, Hq. bsimp. split; by eexists.
Qed.

(** ** Examples *)

Definition library0 : library := {| env_of := env0; init := λ a, (DLT_RETURN_OK, a); open_daemon_fifo := 3 |}.
Definition no_levels : EnvLL.dlt_env_ll_set := {| EnvLL.item := None; EnvLL.array_size := 0; EnvLL.num_elem := 0 |}.
Definition receiver0 : Receiver.DltReceiver :=
  {| Receiver.lastBytesRcvd := 0; Receiver.bytesRcvd := 0; Receiver.totalBytesRcvd := 0; Receiver.buffer := true; Receiver.buf := Some 0;
     Receiver.backup_buf := None; Receiver.fd := 4; Receiver.type := Receiver.DLT_RECEIVE_FD; Receiver.buffersize := 200 |}.
(** The application "LOG" without contexts. *)
Definition app0 : app :=
  {| user := user_v1; application_description := None; dlt_ll_ts := None; dlt_ll_ts_max_num_entries := 0; dlt_ll_ts_num_entries := 0;
     initial_ll_set := no_levels; dlt_user_handle := 4; log_state := -1; receiver := receiver0; cells := [] |}.
Definition handle0 : Handle.DltContext :=
  {| Handle.contextID := [9; 9; 9; 9]; Handle.log_level_pos := 77; Handle.log_level_ptr := None; Handle.trace_status_ptr := None; Handle.mcnt := 5 |}.
Definition life0 (o : nat -> outcome) : life := {| li_app := app0; li_handles := []; li_world := world0 o |}.

Lemma inv_app0 : inv app0.
Proof. split; [done|done|constructor|done| |constructor]. intros p. split; [by intros []|by intros []%not_elem_of_nil]. Qed.
Lemma running_app0 : running (holds := ring_queue 88) app0 [waiting].
Proof. split; [done|done|done|exact waiting_queue]. Qed.
Lemma life_ok0 o n : n < 2147483000 -> life_ok (holds := ring_queue 88) [76; 79; 71; 0] no_levels n (life0 o).
Proof. intros Hn. split; [exact inv_app0|by exists [waiting]; apply running_app0|done|done|constructor|constructor|done|done]. Qed.

(** "CTX1" and "CTX2". *)
Definition ctx_name (n : Z) : bytes := [67; 84; 88; 48 + n; 0].
Lemma names_ctx n : names (ctx_name n).
Proof. split; [left; cbn; lia|]. by exists 67. Qed.

(** Two contexts; the first is told a level, gets callbacks and is unregistered. *)
Definition busy_life : list op :=
  [Register (ctx_name 1) (Some [120; 121]) 2 (-2) None; Tell 6 1 0; Register (ctx_name 2) None (-2) 1 (Some 7); WatchLevel 0 (Some 9);
   WatchInjection 0 5000 3 0; WatchInjection 0 5000 4 8; Tell 3 0 1; Unregister 0; Tell 5 0 0; Limit 4 0; Tell 1 1 77].

Lemma contexts_safe_witness :
  let o n := if Nat.even n then WriteAll else WriteSome 5 EAGAIN in
  ∃ s' a', run_all library0 handle0 busy_life (life0 o) = Some s' ∧ life_ok (holds := ring_queue 88) [76; 79; 71; 0] no_levels 0 s' ∧
    Forall (λ h, is_Some (level_of (li_app s') h) ∧ is_Some (status_of (li_app s') h)) (li_handles s') ∧
    free_contexts (li_app s') = Some a' ∧ ∀ p, load (cells a') p = None.
Proof.
  intros o. apply (contexts_safe (cap := 88) (holds := ring_queue 88) library0 [76; 79; 71; 0] no_levels handle0 busy_life (life0 o)).
  - reflexivity.
  - lia.
  - done.
  - done.
  - reflexivity.
  - apply life_ok0. done.
  - repeat constructor; try (apply names_ctx); try done; by eexists.
Defined.

(** The levels that the remaining handle reads. *)
Example busy_levels :
  (s ← run_all library0 handle0 busy_life (life0 (λ _, WriteAll));
   Some ((λ h, (level_of (li_app s) h, status_of (li_app s) h)) <$> li_handles s, cells (li_app s))) =
  Some ([(Some 4, Some 0)], [None; None; Some 4; Some 0]).
Proof. vm_compute. reflexivity. Qed.

(** ** What is not as it seems *)

(** The identifier of a new application is compared only as far as it goes: an
    application whose identifier begins the one in use is not registered, although
    the result is OK. *)
Theorem prefix_not_registered {holds} L a q t text w : running (holds := holds) a q -> names t -> starts_with 4 (appID (user a)) t = Some true ->
  dlt_register_app L false (Some t) text a w = Some (DLT_RETURN_OK, a, w).
Proof.
  intros Hr Ht Hs. unfold dlt_register_app. rewrite (running_init L _ _ Hr). change (DLT_RETURN_OK <? 0) with false. cbn iota. rewrite names_no_id by done. bsimp. rewrite Hs. by bsimp.
Qed.

(** "LO" is not registered by the application "LOG". *)
Lemma prefix_not_registered_witness :
  dlt_register_app library0 false (Some [76; 79; 0]) None app0 (world0 (λ _, WriteAll)) = Some (DLT_RETURN_OK, app0, world0 (λ _, WriteAll)) ∧
  id_of [76; 79; 0] <> appID (user app0).
Proof.
  split; [|done]. apply (prefix_not_registered (holds := ring_queue 88) library0 app0 [waiting] [76; 79; 0] None (world0 (λ _, WriteAll))).
  - exact running_app0.
  - split; [right; by repeat constructor|by exists 76].
  - reflexivity.
Defined.

(** A context without a trace status of its own does not start with the initial
    status (0, tracing off) but with the mark that none was given (-2). *)
Theorem status_not_initial :
  ('(_, a, h, _) ← dlt_register_context library0 false (Some handle0) (Some (ctx_name 1)) None app0 (world0 (λ _, WriteAll));
   h ← h; Some (level_of a h, status_of a h)) = Some (Some DLT_USER_INITIAL_LOG_LEVEL, Some DLT_USER_TRACE_STATUS_NOT_SET) ∧
  DLT_USER_TRACE_STATUS_NOT_SET <> DLT_USER_INITIAL_TRACE_STATUS.
Proof. split; [|done]. vm_compute. reflexivity. Qed.

(** A position is never used again: registering and unregistering a context over
    and over makes the table grow. *)
Theorem positions_not_reused :
  (s ← run_all library0 handle0 (concat (replicate 501 [Register (ctx_name 1) None 4 0 None; Unregister 0])) (life0 (λ _, WriteAll));
   Some (li_handles s, dlt_ll_ts_num_entries (li_app s), dlt_ll_ts_max_num_entries (li_app s))) = Some ([], 501, 1000).
Proof. vm_compute. reflexivity. Qed.

End UserLifeSpec.
