(* ===== verification/UserControlSpec.v ===== *)
(** * An application obeys its daemon

    A stream of messages of the daemon is handled message by message: levels
    arrive at the contexts they are for and nowhere else, callbacks are called in
    the order of the messages, and a message that is not complete waits. *)

From stdpp Require Import base sets list numbers option.
From Stdlib Require Import ZArith Lia Bool.
From S2P Require Import Prelude Protocol Ids RingBuffer MessageQueue Filter Receiver ReceiverSpec UserLog UserShared UserSend UserSendSpec.
From S2P Require Import DaemonTablesSpec DaemonHandlersSpec UserContexts UserControl UserContextsSpec UserLifeSpec.
Import Protocol Ids MessageQueue UserLog UserShared UserSend UserSendSpec UserContexts UserControl UserContextsSpec UserLifeSpec.
Import Receiver (DltReceiver, buf, bytesRcvd).
Import ReceiverSpec (pending, pending_len, carried).
Import DaemonHandlersSpec (pending_split, remove_pending, length_userheader).

Local Open Scope Z_scope.

Module UserControlSpec.

(** ** The messages of the daemon *)

Inductive order :=
| SetLevel (level status pos : Z)
| Inject (pos service : Z) (d : bytes)
| ClientState (st : Z).

Definition order_kind (o : order) : Z :=
  match o with
  | SetLevel _ _ _ => DLT_USER_MESSAGE_LOG_LEVEL
  | Inject _ _ _ => DLT_USER_MESSAGE_INJECTION
  | ClientState _ => DLT_USER_MESSAGE_LOG_STATE
  end.
Definition inject_head (pos service n : Z) : bytes := le_bytes 4 (u32 pos) ++ le_bytes 4 service ++ le_bytes 4 n.
Definition order_body (o : order) : bytes :=
  match o with
  | SetLevel level status pos => [level; status] ++ le_bytes 4 (u32 pos)
  | Inject pos service d => inject_head pos service (zlen d) ++ d
  | ClientState st => [st]
  end.
Definition encode_order (o : order) : bytes := DltUserHeader 1 (order_kind o) ++ order_body o.

(** For one of the first [num] positions. *)
Definition wf_order (num : Z) (o : order) : Prop :=
  match o with
  | SetLevel level status pos => 0 <= level < 256 ∧ 0 <= status < 256 ∧ 0 <= pos < num
  | Inject pos service d => 0 <= pos < num ∧ 0 <= service < 4294967296
  | ClientState st => 0 <= st < 256
  end.

(** What an order does: to the level that a handle reads, to the state of the
    connection, and the functions of the application that it calls. *)
Definition level_after (h : Handle.DltContext) (v : option Z) (o : order) : option Z :=
  if o is SetLevel l _ pos then (if decide (pos = Handle.log_level_pos h) then Some (i8 l) else v) else v.
Definition status_after (h : Handle.DltContext) (v : option Z) (o : order) : option Z :=
  if o is SetLevel _ s pos then (if decide (pos = Handle.log_level_pos h) then Some (i8 s) else v) else v.
Definition state_after (v : Z) (o : order) : Z := if o is ClientState st then i8 st else v.
Definition answer (t : list Entry.dlt_ll_ts_type) (o : order) : list call :=
  match o with
  | SetLevel l s pos =>
      default [] (e ← t !! Z.to_nat pos; cb ← Entry.log_level_changed_callback e;
                  Some [LevelChanged cb (Entry.contextID e) (u8 (i8 l)) (u8 (i8 s))])
  | Inject pos service d =>
      if decide (d = []) then [] else
      default [] (e ← t !! Z.to_nat pos; c ← callback_for e service; Some (injection_call c service d))
  | ClientState _ => []
  end.

Lemma alike_callback_for e e' s : alike e e' -> callback_for e' s = callback_for e s.
Proof. intros [_ _ Ht _ _]. unfold callback_for, callbacks. by rewrite Ht. Qed.
Lemma answer_alike t t' o : Forall2 alike t t' -> answer t' o = answer t o.
Proof.
  intros H. assert (∀ k, option_Forall2 alike (t !! k) (t' !! k)) as Hk by (intros k; by apply Forall2_lookup).
  destruct o as [l s pos|pos service d|st]; cbn [answer]; [| |done]; specialize (Hk (Z.to_nat pos));
    destruct (t !! Z.to_nat pos) as [e|], (t' !! Z.to_nat pos) as [e'|]; inversion Hk as [? ? He|]; subst; try done; bsimp.
  - destruct He as [Hid Hcb _ _ _]. by rewrite Hid, Hcb.
  - by rewrite (alike_callback_for _ _ _ He).
Qed.

(** ** One message *)

Section library.
Context (L : library).
Hypothesis (HM : heap_ok (heap (env_of L))).

Record obeyed (os : list order) (s s' : listening) : Prop := {
  ob_inv : inv (l_app s');
  ob_same : ∃ t m st r, l_app s' = with_state (with_table (l_app s) t (dlt_ll_ts_max_num_entries (l_app s)) (dlt_ll_ts_num_entries (l_app s)) m) st r;
  ob_alike : Forall2 alike (table (l_app s)) (table (l_app s'));
  ob_state : log_state (l_app s') = foldl state_after (log_state (l_app s)) os;
  ob_handles : ∀ h, denotes (l_app s) h -> denotes (l_app s') h ∧
    level_of (l_app s') h = foldl (level_after h) (level_of (l_app s) h) os ∧ status_of (l_app s') h = foldl (status_after h) (status_of (l_app s) h) os;
  ob_calls : l_calls s' = l_calls s ++ concat (answer (table (l_app s)) <$> os);
  ob_delayed : length (d_contextID (l_delayed s')) = 4%nat
}.

Lemma inv_state a st r : inv a -> inv (with_state a st r).
Proof. intros []. by split. Qed.
Lemma denotes_state a st r h : denotes a h -> denotes (with_state a st r) h.
Proof. intros []. by split. Qed.

(** Removing the message leaves the rest. *)
Lemma consumed mem s (p rest : bytes) ok n : pending (receiver (l_app s)) mem (p ++ rest) -> 0 < zlen p -> n = zlen p -> ok DLT_RETURN_OK = true ->
  ∃ r, consume n ok s = (Again, {| l_app := with_state (l_app s) (log_state (l_app s)) r; l_delayed := l_delayed s; l_calls := l_calls s |}) ∧ pending r mem rest.
Proof.
  intros P Hp -> Hok. destruct (remove_pending _ _ _ _ P Hp) as (r & Er & Pr & _). unfold consume. rewrite Er, Hok. by exists r.
Qed.

Lemma length_order o : zlen (encode_order o) = 8 + zlen (order_body o).
Proof. unfold encode_order. rewrite length_app. pose proof (length_userheader (order_kind o)). lia. Qed.
Lemma read_body (mem pre h body rest : bytes) n : mem = pre ++ (h ++ body) ++ rest -> zlen h = 8 -> n = zlen body -> mread mem (zlen pre + sizeof_DltUserHeader) n = Some body.
Proof. intros -> Hh ->. rewrite <-!app_assoc. apply (mread_mid2 pre h body); unfold sizeof_DltUserHeader; lia. Qed.
Lemma mread_end (a d : bytes) off n : off = zlen a -> n = zlen d -> mread (a ++ d) off n = Some d.
Proof. intros -> ->. rewrite <-(app_nil_r d) at 1. by apply mread_mid. Qed.
Lemma le_pos pos : 0 <= pos < 2147483648 -> i32 (le_Z (le_bytes 4 (u32 pos))) = pos.
Proof. intros H. rewrite u32_small, le_Z_le_bytes, i32_small by (cbn; lia). done. Qed.

Lemma inject_head_fields pos service n : zlen (inject_head pos service n) = 12 ∧ mread (inject_head pos service n) 0 4 = Some (le_bytes 4 (u32 pos)) ∧
  mread (inject_head pos service n) 4 4 = Some (le_bytes 4 service) ∧ mread (inject_head pos service n) 8 4 = Some (le_bytes 4 n).
Proof.
  unfold inject_head. split_and!.
  - by rewrite !length_app, !length_le_bytes.
  - apply (mread_mid [] (le_bytes 4 (u32 pos))); by rewrite ?length_le_bytes.
  - apply (mread_mid (le_bytes 4 (u32 pos)) (le_bytes 4 service)); by rewrite ?length_le_bytes.
  - rewrite app_assoc. apply mread_end; by rewrite ?length_app, ?length_le_bytes.
Qed.

Lemma level_obeyed mem s l st pos rest : inv (l_app s) -> dlt_ll_ts_num_entries (l_app s) < 2147483648 -> length (d_contextID (l_delayed s)) = 4%nat ->
  wf_order (dlt_ll_ts_num_entries (l_app s)) (SetLevel l st pos) -> pending (receiver (l_app s)) mem (encode_order (SetLevel l st pos) ++ rest) ->
  ∃ b s', buf (receiver (l_app s)) = Some b ∧ log_level_message mem b 1 s = Some (Again, s') ∧ obeyed [SetLevel l st pos] s s' ∧ pending (receiver (l_app s')) mem rest.
Proof.
  intros I Hb Hd (Hl & Hs & Hpos) P. destruct (pending_split _ _ _ P) as (pre & post & Em & Hbuf & Hlen & Hmem). exists (zlen pre).
  pose proof (length_order (SetLevel l st pos)) as Lo. cbn [order_body] in Lo. rewrite length_app, length_le_bytes in Lo. cbn [length] in Lo.
  unfold log_level_message. rewrite Hlen, length_app. unfold sizeof_DltUserHeader at 1, sizeof_DltUserControlMsgLogLevel at 1. rewrite ltb_false by lia.
  rewrite (read_body mem pre (DltUserHeader 1 DLT_USER_MESSAGE_LOG_LEVEL) (order_body (SetLevel l st pos)) (rest ++ post));
    [|rewrite Em; unfold encode_order; by rewrite <-!app_assoc|by rewrite length_userheader|cbn [order_body]; rewrite length_app, length_le_bytes; done].
  bsimp. cbn [order_body]. change (([l; st] ++ le_bytes 4 (u32 pos)) !! 0%nat) with (Some l). change (([l; st] ++ le_bytes 4 (u32 pos)) !! 1%nat) with (Some st). bsimp.
  rewrite (mread_end [l; st] (le_bytes 4 (u32 pos))) by (rewrite ?length_le_bytes; done). bsimp. rewrite le_pos by lia.
  destruct (update_levels_ok l st pos s I Hb Hd) as (s1 & -> & Hc1 & Hd1 & Hu). rewrite decide_True in Hu by lia. destruct Hu as (T & e & He & Hdel). bsimp.
  set (s2 := call_delayed 1 s1). assert (l_app s2 = l_app s1 ∧ l_delayed s2 = l_delayed s1) as [Ea2 Ed2] by (unfold s2, call_delayed; destruct (d_callback _); done).
  destruct (td_same _ _ _ _ _ T) as (t & m & Et & _). assert (receiver (l_app s2) = receiver (l_app s)) as Er by (by rewrite Ea2, Et).
  destruct (consumed mem s2 (encode_order (SetLevel l st pos)) rest (λ rc, negb (rc =? DLT_RETURN_ERROR)) (sizeof_DltUserHeader + sizeof_DltUserControlMsgLogLevel)) as (r & -> & Pr); [by rewrite Er|lia|by rewrite Lo|done|].
  eexists. split; [done|]. split; [reflexivity|]. split; [|exact Pr]. rewrite Ea2, Ed2. split; cbn [l_app l_delayed l_calls].
  - apply inv_state, T.
  - rewrite Et. by eexists _, _, _, _.
  - exact (td_kept _ _ _ _ _ T).
  - by rewrite Et.
  - intros h Hh. destruct (td_handles _ _ _ _ _ T h Hh) as (D1 & D2 & D3). split; [by apply denotes_state|]. pose proof (dn_pos _ _ Hh).
    cbn [foldl]. unfold level_after, status_after. split; [etrans; [exact D2|]|etrans; [exact D3|]]; repeat case_decide; try done; lia.
  - cbn [fmap list_fmap concat answer]. rewrite app_nil_r, He. bsimp. unfold s2, call_delayed. rewrite Hdel. cbn [d_callback d_contextID d_level d_status].
    destruct (Entry.log_level_changed_callback e); bsimp; cbn [default from_option id l_calls]; rewrite ?app_nil_r, Hc1; done.
  - exact Hd1.
Qed.

Lemma state_obeyed mem s st rest : inv (l_app s) -> length (d_contextID (l_delayed s)) = 4%nat -> wf_order (dlt_ll_ts_num_entries (l_app s)) (ClientState st) ->
  pending (receiver (l_app s)) mem (encode_order (ClientState st) ++ rest) ->
  ∃ b s', buf (receiver (l_app s)) = Some b ∧ log_state_message mem b s = Some (Again, s') ∧ obeyed [ClientState st] s s' ∧ pending (receiver (l_app s')) mem rest.
Proof.
  intros I Hd Hst P. destruct (pending_split _ _ _ P) as (pre & post & Em & Hbuf & Hlen & Hmem). exists (zlen pre).
  pose proof (length_order (ClientState st)) as Lo. cbn [order_body length] in Lo.
  unfold log_state_message. rewrite Hlen, length_app. unfold sizeof_DltUserHeader at 1, sizeof_DltUserControlMsgLogState at 1. rewrite ltb_false by lia.
  rewrite (read_body mem pre (DltUserHeader 1 DLT_USER_MESSAGE_LOG_STATE) [st] (rest ++ post));
    [|rewrite Em; unfold encode_order; by rewrite <-!app_assoc|by rewrite length_userheader|done]. bsimp. change ([st] !! 0%nat) with (Some st). bsimp.
  set (s1 := {| l_app := with_state _ _ _ |}). destruct (consumed mem s1 (encode_order (ClientState st)) rest (λ rc, negb (rc =? DLT_RETURN_ERROR)) (sizeof_DltUserHeader + sizeof_DltUserControlMsgLogState)) as (r & -> & Pr); [done|lia|by rewrite Lo|done|].
  eexists. split; [done|]. split; [reflexivity|]. split; [|exact Pr]. split; cbn [l_app l_delayed l_calls s1 fmap list_fmap concat]; rewrite ?app_nil_r; try done.
  - by do 2 apply inv_state.
  - eexists (dlt_ll_ts (l_app s)), (cells (l_app s)), _, _. reflexivity.
  - intros h Hh. split; [by do 2 apply denotes_state|done].
Qed.

(** The callback that is looked up at a position. *)
Lemma slot_callback a k e s : inv a -> table a !! k = Some e ->
  find_service (Z.to_nat (Entry.nrcallbacks e)) 0 (Entry.injection_table e) s = Some (fst <$> list_find (λ c, service_id c = s) (callbacks e)).
Proof.
  intros I Hk. destruct (Forall_lookup_1 _ _ _ _ (iv_slots _ I) Hk) as [(l & st & ->)|Hc]; [done|]. by apply (find_callback (cells a)).
Qed.

Lemma find_injection_ok mem a pos service pre d rest : inv a -> 0 <= pos < dlt_ll_ts_num_entries a -> mem = pre ++ d ++ rest ->
  find_injection L mem (zlen pre) pos service (zlen d) a = Some (Some (answer (table a) (Inject pos service d))).
Proof.
  intros I Hpos ->. unfold find_injection. cbn [answer]. pose proof (iv_num _ I) as Hn. destruct (lookup_lt_is_Some_2 (table a) (Z.to_nat pos)) as [e He]; [lia|].
  assert (get_entry a pos = Some e) as Hg by (rewrite <-(Z2Nat.id pos) by lia; by apply get_entry_table). rewrite He. bsimp.
  destruct (decide (d = [])) as [->|Hd]; [done|]. rewrite (ltb_true 0) by (destruct d; [done|cbn; lia]). destruct (dlt_ll_ts a) as [tb|] eqn:Et; [|unfold table in He; by rewrite Et in He].
  cbn [andb]. rewrite Hg. bsimp. rewrite (slot_callback a _ e service I He). bsimp. unfold callback_for.
  destruct (list_find (λ c, service_id c = service) (callbacks e)) as [[j c]|] eqn:Ef; cbn [fmap option_fmap option_map fst snd]; bsimp; [|done].
  apply list_find_Some in Ef as (Hj & _ & _). unfold callbacks in Hj. destruct (Entry.injection_table e) as [l|]; [|done]. cbn [default from_option id] in Hj. bsimp. rewrite Hj. bsimp.
  destruct (malloc_any L HM (zlen d)) as (b & ->). by rewrite (mread_mid pre d rest) by done.
Qed.

Lemma injection_obeyed mem s pos service d rest : inv (l_app s) -> dlt_ll_ts_num_entries (l_app s) < 2147483648 -> length (d_contextID (l_delayed s)) = 4%nat ->
  wf_order (dlt_ll_ts_num_entries (l_app s)) (Inject pos service d) -> pending (receiver (l_app s)) mem (encode_order (Inject pos service d) ++ rest) ->
  ∃ b s', buf (receiver (l_app s)) = Some b ∧ injection_message L mem b s = Some (Again, s') ∧ obeyed [Inject pos service d] s s' ∧ pending (receiver (l_app s')) mem rest.
Proof.
  intros I Hb Hd (Hpos & Hsv) P. destruct (pending_split _ _ _ P) as (pre & post & Em & Hbuf & Hlen & Hmem). exists (zlen pre).
  destruct (inject_head_fields pos service (zlen d)) as (Lhd & F1 & F2 & F3). set (hd := inject_head pos service (zlen d)) in *.
  pose proof (length_order (Inject pos service d)) as Lo. cbn [order_body] in Lo. fold hd in Lo. rewrite length_app in Lo. rewrite Em, !length_app in Hmem.
  unfold injection_message, sizeof_DltUserHeader, sizeof_DltUserControlMsgInjection. rewrite Hlen, length_app. rewrite (ltb_false _ (8 + 12)) by lia.
  assert (mem = pre ++ (DltUserHeader 1 DLT_USER_MESSAGE_INJECTION ++ hd) ++ d ++ rest ++ post) as Em' by (rewrite Em; unfold encode_order; cbn [order_body]; fold hd; by rewrite <-!app_assoc).
  change (zlen pre + 8) with (zlen pre + sizeof_DltUserHeader). rewrite (read_body mem pre (DltUserHeader 1 DLT_USER_MESSAGE_INJECTION) hd (d ++ rest ++ post)); [|done|by rewrite length_userheader|done]. bsimp.
  rewrite F1, F2, F3. bsimp.
  rewrite le_pos by lia. rewrite !le_Z_le_bytes by (cbn; lia). rewrite (i32_small (8 + 12 + zlen d)) by lia. rewrite (ltb_false _ (8 + 12 + zlen d)) by lia.
  replace (zlen pre + (8 + 12)) with (zlen (pre ++ DltUserHeader 1 DLT_USER_MESSAGE_INJECTION ++ hd)) by (pose proof (length_userheader DLT_USER_MESSAGE_INJECTION); rewrite !length_app; lia).
  rewrite (find_injection_ok mem (l_app s) pos service (pre ++ DltUserHeader 1 DLT_USER_MESSAGE_INJECTION ++ hd) d (rest ++ post) I Hpos) by (rewrite Em'; by rewrite <-!app_assoc). bsimp.
  set (s1 := {| l_app := l_app s |}). destruct (consumed mem s1 (encode_order (Inject pos service d)) rest (λ rc, rc =? DLT_RETURN_OK) (8 + 12 + zlen d)) as (r & -> & Pr); [done|lia|lia|done|].
  eexists. split; [done|]. split; [reflexivity|]. split; [|exact Pr]. split; cbn [l_app l_delayed l_calls s1 fmap list_fmap concat]; rewrite ?app_nil_r; try done.
  - by apply inv_state.
  - eexists (dlt_ll_ts (l_app s)), (cells (l_app s)), _, _. reflexivity.
  - intros h Hh. split; [by apply denotes_state|done].
Qed.

(** ** A stream of messages *)

Lemma order_obeyed mem s o rest : inv (l_app s) -> dlt_ll_ts_num_entries (l_app s) < 2147483648 -> length (d_contextID (l_delayed s)) = 4%nat ->
  wf_order (dlt_ll_ts_num_entries (l_app s)) o -> pending (receiver (l_app s)) mem (encode_order o ++ rest) ->
  ∃ b s', buf (receiver (l_app s)) = Some b ∧ daemon_message L mem b 1 (order_kind o) s = Some (Again, s') ∧ obeyed [o] s s' ∧ pending (receiver (l_app s')) mem rest.
Proof.
  intros I Hb Hd W P. destruct o as [l st pos|pos service d|st].
  - by apply level_obeyed.
  - by apply injection_obeyed.
  - by apply state_obeyed.
Qed.

Lemma obeyed_nil s : inv (l_app s) -> length (d_contextID (l_delayed s)) = 4%nat -> obeyed [] s s.
Proof.
  intros I Hd. split; try done.
  - exists (dlt_ll_ts (l_app s)), (cells (l_app s)), (log_state (l_app s)), (receiver (l_app s)). by destruct (l_app s).
  - cbn. by rewrite app_nil_r.
Qed.

Lemma obeyed_app os1 os2 s s1 s2 : obeyed os1 s s1 -> obeyed os2 s1 s2 -> obeyed (os1 ++ os2) s s2.
Proof.
  intros [I1 (t1 & m1 & st1 & r1 & E1) A1 S1 H1 C1 D1] [I2 (t2 & m2 & st2 & r2 & E2) A2 S2 H2 C2 D2]. split; try done.
  - exists t2, m2, st2, r2. by rewrite E2, E1.
  - by etrans.
  - by rewrite foldl_app, <-S1.
  - intros h Hh. destruct (H1 h Hh) as (Hh1 & L1 & T1). destruct (H2 h Hh1) as (Hh2 & L2 & T2). by rewrite !foldl_app, <-L1, <-T1.
  - rewrite C2, C1, fmap_app, concat_app, <-app_assoc. do 3 f_equal. apply list_fmap_ext. intros i o _. by apply answer_alike.
Qed.

(** The loop finds a message at the front. *)
Lemma listen_step fuel mem s o p b : pending (receiver (l_app s)) mem (DltUserHeader 1 (order_kind o) ++ p) -> buf (receiver (l_app s)) = Some b ->
  listen L (S fuel) mem s =
    ('(p, s) ← daemon_message L mem b 1 (order_kind o) s;
     match p with Again => listen L fuel mem s | Leave => Some (None, s) | Return rc => Some (Some rc, s) end).
Proof.
  intros P Hb. destruct (pending_split _ _ _ P) as (pre & post & Em & Hbuf & Hl & Hs). rewrite Hbuf in Hb. injection Hb as <-. cbn [listen].
  set (h := DltUserHeader 1 (order_kind o)) in *. assert (zlen h = 8) as Lh by apply length_userheader. rewrite length_app in Hl.
  rewrite ltb_false by (rewrite Hl; unfold sizeof_DltUserHeader; lia). rewrite Hbuf. bsimp.
  destruct (Z.to_nat (bytesRcvd (receiver (l_app s)))) as [|n] eqn:En; [lia|]. cbn [resync].
  assert (drop (Z.to_nat (zlen pre + 0)) mem = h ++ p ++ post) as Hdrop by (rewrite Em, <-!app_assoc; apply drop_app_length'; lia).
  rewrite Hdrop. assert (dlt_user_check_userheader (Some (h ++ p ++ post)) = Some 1) as ->.
  { unfold dlt_user_check_userheader. assert (mread (h ++ p ++ post) 0 4 = Some [68; 85; 72; 1]) as ->; [|done].
    unfold h, DltUserHeader. rewrite <-!app_assoc. by apply (mread_mid [] [68; 85; 72; 1]). }
  bsimp. cbn [Z.eqb negb]. bsimp. cbn [negb Z.ltb Z.compare]. cbv beta iota zeta. rewrite Hdrop.
  assert ({| l_app := with_state (l_app s) (log_state (l_app s)) (receiver (l_app s)); l_delayed := l_delayed s; l_calls := l_calls s |} = s) as -> by (by destruct s as [[] ? ?]).
  assert (dlt_get_version_from_userheader (Some (h ++ p ++ post)) = Some 1) as -> by done. bsimp.
  assert (userheader_message (h ++ p ++ post) = Some (order_kind o)) as ->; [|bsimp; by rewrite Z.add_0_r].
  unfold userheader_message, h, DltUserHeader. rewrite <-!app_assoc.
  rewrite (mread_mid [68; 85; 72; 1] (le_bytes 4 (order_kind o))) by (rewrite ?length_le_bytes; done). bsimp.
  rewrite le_Z_le_bytes; [done|]. by destruct o.
Qed.

(** A message that is not complete stays. *)
Definition unfinished (tail : bytes) : Prop :=
  ∃ o k, (k < length (encode_order o))%nat ∧ tail = take k (encode_order o) ∧ zlen (encode_order o) < 2147483648.

Lemma cut_leaves mem s o k b : pending (receiver (l_app s)) mem (take k (encode_order o)) -> buf (receiver (l_app s)) = Some b ->
  (8 <= k < length (encode_order o))%nat -> zlen (encode_order o) < 2147483648 ->
  daemon_message L mem b 1 (order_kind o) s = Some (Leave, s).
Proof.
  intros P Hb Hk Hmax. destruct (pending_split _ _ _ P) as (pre & post & Em & Hbuf & Hl & Hs). rewrite Hbuf in Hb. injection Hb as <-.
  pose proof (length_order o) as Lo. rewrite length_take in Hl. destruct o as [l st pos|pos service d|st].
  - change (daemon_message L mem (zlen pre) 1 (order_kind (SetLevel l st pos)) s) with (log_level_message mem (zlen pre) 1 s). unfold log_level_message.
    change (sizeof_DltUserHeader + sizeof_DltUserControlMsgLogLevel) with 14. cbn [order_body] in Lo. rewrite length_app, length_le_bytes in Lo. cbn [length] in Lo. rewrite ltb_true; [done|]. lia.
  - change (daemon_message L mem (zlen pre) 1 (order_kind (Inject pos service d)) s) with (injection_message L mem (zlen pre) s). unfold injection_message.
    change (sizeof_DltUserHeader + sizeof_DltUserControlMsgInjection) with 20. cbn iota zeta.
    destruct (inject_head_fields pos service (zlen d)) as (Lhd & F1 & F2 & F3). set (hd := inject_head pos service (zlen d)) in *.
    cbn [order_body] in Lo. fold hd in Lo. rewrite length_app in Lo. destruct (Z.ltb_spec (bytesRcvd (receiver (l_app s))) 20) as [H20|H20]; [done|].
    assert (take k (encode_order (Inject pos service d)) = DltUserHeader 1 DLT_USER_MESSAGE_INJECTION ++ hd ++ take (k - 20) d) as Et.
    { unfold encode_order. cbn [order_body order_kind]. fold hd. rewrite app_assoc, take_app_ge by (pose proof (length_userheader DLT_USER_MESSAGE_INJECTION); rewrite length_app; lia).
      by rewrite <-app_assoc. }
    rewrite Et in Em. unfold sizeof_DltUserControlMsgInjection.
    rewrite (read_body mem pre (DltUserHeader 1 DLT_USER_MESSAGE_INJECTION) hd (take (k - 20) d ++ post)); [|rewrite Em; by rewrite <-!app_assoc|by rewrite length_userheader|done]. bsimp.
    rewrite F1, F2, F3. bsimp.
    rewrite !le_Z_le_bytes by (cbn; lia). rewrite i32_small, ltb_true by lia. done.
  - change (daemon_message L mem (zlen pre) 1 (order_kind (ClientState st)) s) with (log_state_message mem (zlen pre) s). unfold log_state_message.
    change (sizeof_DltUserHeader + sizeof_DltUserControlMsgLogState) with 9. cbn [order_body length] in Lo. rewrite ltb_true; [done|]. lia.
Qed.

Definition encode_orders (os : list order) : bytes := concat (encode_order <$> os).

Lemma listen_waits mem tail fuel s : unfinished tail -> pending (receiver (l_app s)) mem tail -> listen L (S fuel) mem s = Some (None, s).
Proof.
  intros (o & k & Hk & -> & Hmax) P. destruct (pending_split _ _ _ P) as (pre & post & _ & Hb & Hl & _). rewrite length_take in Hl.
  destruct (decide (k < 8)%nat) as [H8|H8].
  - cbn [listen]. rewrite ltb_true; [done|]. rewrite Hl. unfold sizeof_DltUserHeader. lia.
  - assert (take k (encode_order o) = DltUserHeader 1 (order_kind o) ++ take (k - 8) (order_body o)) as Et.
    { unfold encode_order. pose proof (length_userheader (order_kind o)) as Lh. rewrite take_app_ge by lia. done. }
    pose proof P as P'. rewrite Et in P'. rewrite (listen_step fuel mem s o _ _ P' Hb), (cut_leaves mem s o k _ P Hb) by (done || lia). by bsimp.
Qed.

Lemma orders_obeyed mem tail : unfinished tail -> ∀ os fuel s, inv (l_app s) -> dlt_ll_ts_num_entries (l_app s) < 2147483648 -> length (d_contextID (l_delayed s)) = 4%nat ->
  pending (receiver (l_app s)) mem (encode_orders os ++ tail) -> Forall (wf_order (dlt_ll_ts_num_entries (l_app s))) os -> (length os < fuel)%nat ->
  ∃ s', listen L fuel mem s = Some (None, s') ∧ obeyed os s s' ∧ pending (receiver (l_app s')) mem tail.
Proof.
  intros Ht. induction os as [|o os IH]; intros [|fuel] s I Hn Hd P W Hf; cbn [length] in Hf; try lia.
  { exists s. split; [by apply (listen_waits mem tail)|]. split; [by apply obeyed_nil|exact P]. }
  apply Forall_cons_1 in W as [Wo W]. unfold encode_orders in P. rewrite fmap_cons in P. cbn [concat] in P. rewrite <-app_assoc in P.
  destruct (order_obeyed mem s o _ I Hn Hd Wo P) as (b & s1 & Hb & Em & Ho & P1).
  rewrite (listen_step fuel mem s o (order_body o ++ encode_orders os ++ tail) b); [|by rewrite app_assoc|done]. rewrite Em. bsimp.
  assert (dlt_ll_ts_num_entries (l_app s1) = dlt_ll_ts_num_entries (l_app s)) as En by (destruct (ob_same _ _ _ Ho) as (? & ? & ? & ? & ->); done).
  destruct (IH fuel s1 (ob_inv _ _ _ Ho)) as (s2 & -> & Ho2 & P2); rewrite ?En; try done; [apply Ho|lia|].
  exists s2. split; [done|]. split; [|done]. by apply (obeyed_app [o] os s s1).
Qed.

Lemma length_encode_orders os : (length os <= length (encode_orders os))%nat.
Proof.
  unfold encode_orders. induction os as [|o os IH]; [done|]. rewrite fmap_cons. cbn [concat length]. rewrite length_app. pose proof (length_order o). lia.
Qed.
End library.

Lemma orders_handled L a mem p d os tail :
  heap_ok (heap (env_of L)) -> inv a -> dlt_ll_ts_num_entries a < 2147483648 -> 0 <= dlt_user_handle a ->
  carried (receiver a) mem p -> 0 < zlen d -> zlen p + zlen d <= Receiver.buffersize (receiver a) < 2147483647 ->
  p ++ d = encode_orders os ++ tail -> unfinished tail -> Forall (wf_order (dlt_ll_ts_num_entries a)) os ->
  ∃ a' mem', dlt_user_log_check_user_message L (1, false) (Some d) mem a = Some (DLT_RETURN_OK, a', mem', concat (answer (table a) <$> os)) ∧
    carried (receiver a') mem' tail ∧ inv a' ∧ user a' = user a ∧ Forall2 alike (table a) (table a') ∧
    log_state a' = foldl state_after (log_state a) os ∧
    ∀ h, denotes a h -> denotes a' h ∧
      level_of a' h = foldl (level_after h) (level_of a h) os ∧ status_of a' h = foldl (status_after h) (status_of a h) os.
Proof.
  intros HM I Hn Hh C Hd [Hfit Hmax] Epd Ht W. unfold dlt_user_log_check_user_message. rewrite ltb_false by lia. cbn [fst snd Z.eqb].
  destruct (ReceiverSpec.receive_pending (receiver a) mem p d C Hd Hfit) as (r & mem1 & -> & P & Hb). bsimp. rewrite leb_false by lia.
  set (s := {| l_app := with_state a (log_state a) r; l_delayed := no_delayed; l_calls := [] |}).
  rewrite (pending_len _ _ _ P), Nat2Z.id. rewrite Epd in P |- *. pose proof (length_encode_orders os) as Ll.
  destruct (orders_obeyed L HM mem1 tail Ht os (S (length (encode_orders os ++ tail))) s) as (s' & -> & Ho & P'); try done; [by apply inv_state|rewrite length_app; lia|].
  bsimp. destruct (ReceiverSpec.move_carried (heap (env_of L)) (receiver (l_app s')) mem1 _ HM P') as (r2 & -> & C2 & _).
  { pose proof (ReceiverSpec.i_mem _ _ (ReceiverSpec.p_inv _ _ _ P)) as Hm1. rewrite Hb in Hm1.
    destruct (pending_split _ _ _ P') as (pre & post & Em & _). rewrite Em in Hm1. rewrite !length_app in Hm1. lia. }
  bsimp. pose proof (ob_calls _ _ _ Ho) as Hc. cbn [l_calls l_app s] in Hc. rewrite Hc. eexists _, _. split; [reflexivity|]. cbn [receiver with_state].
  split; [done|]. split; [apply inv_state, Ho|]. split; [by destruct (ob_same _ _ _ Ho) as (? & ? & ? & ? & ->)|]. split; [apply Ho|]. split; [apply Ho|].
  intros h Hd0. destruct (ob_handles _ _ _ Ho h (denotes_state _ _ _ _ Hd0)) as (D1 & D2 & D3). split; [by apply denotes_state|done].
Qed.

(** C6: An application obeys its daemon: whatever messages with levels, injections
    and connection states arrive, in whatever pieces, each complete message is
    handled in order and exactly once.  Each handle reads the last level and trace
    status that was set for its context, and no other; the callbacks that the
    application registered are called in the order of the messages, with their
    data; no context is lost; and the beginning of the next message stays in the
    receiver. *)
Theorem daemon_obeyed L a mem p d os tail :
  heap_ok (heap (env_of L)) -> inv a -> dlt_ll_ts_num_entries a < 2147483648 -> 0 <= dlt_user_handle a ->
  carried (receiver a) mem p -> 0 < zlen d -> zlen p + zlen d <= Receiver.buffersize (receiver a) < 2147483647 ->
  p ++ d = encode_orders os ++ tail -> unfinished tail -> Forall (wf_order (dlt_ll_ts_num_entries a)) os ->
  ∃ a' mem', dlt_user_log_check_user_message L (1, false) (Some d) mem a = Some (DLT_RETURN_OK, a', mem', concat (answer (table a) <$> os)) ∧
    carried (receiver a') mem' tail ∧ inv a' ∧ user a' = user a ∧ Forall2 alike (table a) (table a') ∧
    log_state a' = foldl state_after (log_state a) os ∧
    ∀ h, denotes a h -> denotes a' h ∧
      level_of a' h = foldl (level_after h) (level_of a h) os ∧ status_of a' h = foldl (status_after h) (status_of a h) os.
Proof. apply orders_handled. Qed.

(** ** Examples *)

(** The application "LOG" with the contexts "CTX1" and "CTX2" and their callbacks. *)
Definition two_contexts : list op :=
  [Register (ctx_name 1) None 2 0 (Some 7); Register (ctx_name 2) None (-2) 1 None; WatchInjection 1 5000 3 0; WatchInjection 1 5001 4 8].
Definition watching_life : life := default (life0 (λ _, WriteAll)) (run_all library0 handle0 two_contexts (life0 (λ _, WriteAll))).
Definition watching_app : app := li_app watching_life.
Definition empty_memory : bytes := replicate 200 0.

Lemma heap_ok0 : heap_ok (heap (env_of library0)).
Proof. done. Qed.
Lemma watching_ok : life_ok (holds := ring_queue 88) [76; 79; 71; 0] no_levels 0 watching_life.
Proof.
  destruct (run_all_ok (cap := 88) (holds := ring_queue 88) library0 eq_refl ltac:(lia) heap_ok0 [76; 79; 71; 0] no_levels handle0 ltac:(done) eq_refl ltac:(lia)
    two_contexts (life0 (λ _, WriteAll))) as (s' & Er & Hs').
  - by apply life_ok0.
  - repeat constructor; try (apply names_ctx); try done; by eexists.
  - unfold watching_life. by rewrite Er.
Qed.
Lemma receiver0_carried : carried receiver0 empty_memory [].
Proof.
  split; [by split|done|done|].
  cbn [Receiver.backup_buf receiver0]. apply (mread_mid [] []); done.
Qed.

Definition sample_orders : list order := [SetLevel 6 1 0; Inject 1 5001 [104; 105]; ClientState 1; SetLevel 3 0 1; SetLevel 5 0 0; Inject 1 5000 [33]].

Lemma daemon_obeyed_witness :
  let d := encode_orders sample_orders ++ [68; 85; 72] in
  ∃ a' mem', dlt_user_log_check_user_message library0 (1, false) (Some d) empty_memory watching_app = Some (DLT_RETURN_OK, a', mem', concat (answer (table watching_app) <$> sample_orders)) ∧
    carried (receiver a') mem' [68; 85; 72] ∧ inv a' ∧ user a' = user watching_app ∧ Forall2 alike (table watching_app) (table a') ∧
    log_state a' = foldl state_after (log_state watching_app) sample_orders ∧
    ∀ h, denotes watching_app h -> denotes a' h ∧
      level_of a' h = foldl (level_after h) (level_of watching_app h) sample_orders ∧ status_of a' h = foldl (status_after h) (status_of watching_app h) sample_orders.
Proof.
  intros d. apply (daemon_obeyed library0 watching_app empty_memory [] d sample_orders [68; 85; 72]).
  - exact heap_ok0.
  - exact (lo_inv _ _ _ _ watching_ok).
  - by vm_compute.
  - by vm_compute.
  - assert (receiver watching_app = receiver0) as -> by (by vm_compute). exact receiver0_carried.
  - by vm_compute.
  - by vm_compute.
  - done.
  - exists (ClientState 0), 3%nat. split_and!; [vm_compute; lia|done|done].
  - assert (dlt_ll_ts_num_entries watching_app = 2) as -> by (by vm_compute). repeat constructor; cbn; lia.
Defined.

(** The callbacks that are called for them. *)
Example sample_calls : concat (answer (table watching_app) <$> sample_orders) =
  [LevelChanged 7 [67; 84; 88; 49] 6 1; InjectedWithId 4 5001 [104; 105] 8; LevelChanged 7 [67; 84; 88; 49] 5 0; Injected 3 5000 [33]].
Proof. vm_compute. reflexivity. Qed.

(** ** What is not as it seems *)

(** A level for a position that does not exist is ignored, but the callback of the
    last message is called once more, with its old context and levels. *)
Theorem stale_callback :
  ('(_, _, _, calls) ← dlt_user_log_check_user_message library0 (1, false) (Some (encode_orders [SetLevel 6 1 0; SetLevel 2 0 77])) empty_memory watching_app; Some calls) =
  Some [LevelChanged 7 [67; 84; 88; 49] 6 1; LevelChanged 7 [67; 84; 88; 49] 6 1].
Proof. vm_compute. reflexivity. Qed.

(** The position of an injection is not checked: one for a position outside of the
    table is an access outside of it. *)
Theorem injection_out_of_table :
  dlt_user_log_check_user_message library0 (1, false) (Some (encode_order (Inject 500 5000 [33]))) empty_memory watching_app = None.
Proof. vm_compute. reflexivity. Qed.

End UserControlSpec.
