(* ===== verification/UserDaemonSpec.v ===== *)
(** * Applications and the daemon together

    A daemon that was started again learns every context from the applications
    that are attached to it again; a level that a client sets for contexts arrives
    at the handles of these contexts in their application, and at no other. *)

From stdpp Require Import base gmap sets list numbers option.
From Stdlib Require Import ZArith Lia Bool.
From S2P Require Import Prelude Protocol Ids RingBuffer MessageQueue Filter Message MessageSpec Receiver ReceiverSpec UserLog UserShared UserSend UserSendSpec.
From S2P Require Import EventHandler EventHandlerSpec DaemonTables DaemonTablesSpec DaemonSend DaemonMessagesSpec DaemonSendSpec DaemonDeliverySpec.
From S2P Require Import DaemonControl DaemonControlSpec DaemonRequestsSpec DaemonUser DaemonRegistrySpec DaemonHandlersSpec DaemonUserSpec DaemonLevelsSpec DaemonContextsSpec DaemonLogInfoSpec.
From S2P Require Import UserContexts UserControl UserContextsSpec UserLifeSpec UserControlSpec.
Import Protocol Ids MessageQueue UserShared UserContexts UserControl UserContextsSpec UserLifeSpec UserControlSpec.
Import DaemonTablesSpec (good_id, good_id_length).
Import DaemonTables (empty_id).
Import DaemonHandlersSpec DaemonRegistrySpec DaemonUserSpec.
Import UserLog UserSend UserSendSpec.
Import ReceiverSpec (carried).

Local Open Scope Z_scope.

Module UserDaemonSpec.

(** ** The daemon is started again *)

Definition text_of (e : Entry.dlt_ll_ts_type) : bytes := default [] (Entry.context_description e).
Definition is_live (e : Entry.dlt_ll_ts_type) : bool := negb (empty_id (Entry.contextID e)).

(** The registrations of the contexts at [k] and behind it. *)
Fixpoint again (id : bytes) (pid k : Z) (t : list Entry.dlt_ll_ts_type) : list user_message :=
  match t with
  | [] => []
  | e :: t =>
      (if is_live e then [RegisterCtx id (Entry.contextID e) k DLT_USER_LOG_LEVEL_NOT_SET DLT_USER_TRACE_STATUS_NOT_SET pid (text_of e)] else [])
        ++ again id pid (k + 1) t
  end.

Lemma encode_all_cons u us : encode_all (u :: us) = encode_user u ++ encode_all us.
Proof. done. Qed.

(** *** What they mean *)

Lemma again_keeps id pid key t : ∀ k R, (∀ e, e ∈ t -> is_live e = true -> key <> id ++ Entry.contextID e) ->
  r_ctxs (apply_all (again id pid k t) R) !! key = r_ctxs R !! key ∧ r_apps (apply_all (again id pid k t) R) = r_apps R.
Proof.
  induction t as [|e t IH]; intros k R Hk; [done|]. cbn [again]. assert (∀ x, x ∈ t -> is_live x = true -> key <> id ++ Entry.contextID x) as Ht by (intros; apply Hk; [by right|done]).
  destruct (is_live e) eqn:El; [|by apply IH]. unfold apply_all. cbn [Datatypes.app foldl flip apply_user]. fold (apply_all (again id pid (k + 1) t) (register_ctx id (Entry.contextID e) k (text_of e) R)).
  destruct (IH (k + 1) (register_ctx id (Entry.contextID e) k (text_of e) R) Ht) as [-> ->]. unfold register_ctx. destruct (r_apps R !! id); [|done]. split; [|done].
  cbn [r_ctxs]. apply lookup_insert_ne. symmetry. by apply Hk; [left|].
Qed.

Lemma again_registers id pid t : ∀ k R j e, is_Some (r_apps R !! id) -> NoDup (Entry.contextID <$> filter is_live t) -> t !! j = Some e -> is_live e = true ->
  r_ctxs (apply_all (again id pid k t) R) !! (id ++ Entry.contextID e) =
    Some {| ce_apid := id; ce_pos := k + Z.of_nat j; ce_text := Some (text_of e); ce_predefined := false |}.
Proof.
  induction t as [|x t IH]; intros k R j e Ha Hn Hj He; [done|]. cbn [again]. rewrite filter_cons in Hn.
  destruct j as [|j]; cbn [lookup list_lookup] in Hj.
  - injection Hj as ->. rewrite decide_True in Hn by (by rewrite He). cbn [fmap list_fmap] in Hn. apply list.NoDup_cons in Hn as [Hx _]. rewrite He.
    unfold apply_all. cbn [Datatypes.app foldl flip apply_user]. set (R1 := register_ctx _ _ _ _ R). fold (apply_all (again id pid (k + 1) t) R1).
    destruct (again_keeps id pid (id ++ Entry.contextID e) t (k + 1) R1) as [-> _].
    + intros y Hy Hl Heq. apply app_inv_head in Heq. apply Hx. rewrite Heq. apply list_elem_of_fmap_2, list_elem_of_filter. split; [by rewrite Hl|done].
    + unfold R1, register_ctx. destruct Ha as [? ->]. cbn [r_ctxs]. rewrite lookup_insert_eq. do 2 f_equal. lia.
  - replace (k + Z.of_nat (S j)) with (k + 1 + Z.of_nat j) by lia. destruct (is_live x) eqn:El.
    + rewrite decide_True in Hn by done. cbn [fmap list_fmap] in Hn. apply list.NoDup_cons in Hn as [_ Hn]. unfold apply_all. cbn [Datatypes.app foldl flip apply_user].
      apply IH; try done. destruct Ha as [y Hy]. unfold register_ctx. rewrite Hy. cbn [r_apps]. by rewrite Hy.
    + rewrite decide_False in Hn by (by intros []). by apply IH.
Qed.

(** *** Attaching again *)

(** What can be sent: bytes and a description that the daemon does not cut. *)
Definition presentable (e : Entry.dlt_ll_ts_type) : Prop := is_bytes (Entry.contextID e) ∧ wire_text (text_of e).

Lemma bytes_header k : is_bytes (DltUserHeader 1 k).
Proof. unfold DltUserHeader. apply is_bytes_app. split; [by apply is_bytes_forallb|apply is_bytes_le]. Qed.
Lemma again_bytes id pid t : is_bytes id -> Forall presentable t -> ∀ k, is_bytes (encode_all (again id pid k t)).
Proof.
  intros Bi. induction 1 as [|e t [Be (Bt & _)] Ht IH]; intros k; [constructor|]. cbn [again]. destruct (is_live e); [|apply IH].
  cbn [Datatypes.app]. rewrite encode_all_cons. apply is_bytes_app. split; [|apply IH]. unfold encode_user. cbn [body_of kind_of].
  rewrite !is_bytes_app. split_and!; try done; try apply is_bytes_le; [apply bytes_header|by apply is_bytes_forallb].
Qed.
Lemma again_wf capd id pid t : wire_id id -> is_int pid -> Forall presentable t -> Forall (λ e, is_live e = true -> good_id (Entry.contextID e)) t ->
  ∀ k, 0 <= k -> k + zlen t < 2147483648 -> Forall (DaemonHandlersSpec.wf_user capd) (again id pid k t).
Proof.
  intros Wi Hp. induction 1 as [|e t [Be Te] Ht IH]; intros Hg k Hk Hn; [constructor|]. apply Forall_cons_1 in Hg as [He Hg]. cbn [again length] in *. apply Forall_app. split; [|apply IH; [done|lia..]].
  destruct (is_live e) eqn:El; [|constructor]. constructor; [|constructor]. cbn [DaemonHandlersSpec.wf_user]. unfold is_int in *. split_and!; try done; try lia. split; [by apply He|done].
Qed.

Section reattach.
Context {cap : Z} {holds : RingBuffer.DltBuffer -> list bytes -> Prop} `{!MessageQueue cap holds} (L : library).
Hypothesis (Hpad : length (pad (env_of L)) = 3%nat) (Hcap : cap < 4294967295).
(** The queue of the application has room for its registrations. *)
Definition room (a : app) : Prop := 20 + zlen (description a) <= cap ∧ Forall (λ e, 30 + zlen (text_of e) <= cap) (table a).

(** Everything that is said. *)
Definition said_again (a : app) : list user_message :=
  RegisterApp (appID (user a)) (getpid (env_of L)) (description a) ::
  again (appID (user a)) (getpid (env_of L)) 0 (take (Z.to_nat (dlt_ll_ts_num_entries a)) (table a)).

Lemma vacant_not_live e : vacant e -> is_live e = false.
Proof. by intros (l & s & ->). Qed.
Lemma context_live m e : context m e -> is_live e = true.
Proof. intros [[_ He] _ _ _]. unfold is_live. by rewrite He. Qed.

Lemma register_again_writes a q : inv a -> running (holds := holds) a q -> good_id (appID (user a)) -> 0 <= dlt_log_handle (user a) ->
  dlt_ll_ts_num_entries a < 2147483648 -> room a -> ∀ n k w, (∀ i, UserShared.script w i = WriteAll) ->
  Z.of_nat (k + n) = dlt_ll_ts_num_entries a ->
  ∃ w', register_again L n (Z.of_nat k) a w = Some (true, a, w') ∧ (∀ i, UserShared.script w' i = WriteAll) ∧
    pipe w' = pipe w ++ encode_all (again (appID (user a)) (getpid (env_of L)) (Z.of_nat k) (take n (drop k (table a)))).
Proof.
  intros I Hr Hid Hh Hn [_ Hp]. induction n as [|n IH]; intros k w Hw Hk.
  { exists w. split; [done|]. split; [done|]. by rewrite take_0, app_nil_r. }
  pose proof (iv_num _ I) as Hnum. destruct (lookup_lt_is_Some_2 (table a) k) as [e He]; [lia|]. rewrite (drop_S _ e k He). cbn [take firstn register_again again].
  rewrite good_no_id by done. bsimp. cbn [negb]. assert (∃ tb, dlt_ll_ts a = Some tb) as (tb & ->) by (unfold table in He; destruct (dlt_ll_ts a); [by eexists|done]).
  rewrite (get_entry_table a k e He). bsimp. replace (Z.of_nat k + 1) with (Z.of_nat (S k)) by lia.
  destruct (Forall_lookup_1 _ _ _ _ (iv_slots _ I) He) as [Hv|Hc].
  - rewrite (vacant_not_live e Hv). destruct Hv as (l & st & ->). cbn [Entry.put_levels Entry.initial Entry.contextID]. cbn. rewrite (ru_v2 _ _ Hr). cbn [negb Z.eqb]. apply IH; [done|lia].
  - rewrite (context_live _ e Hc). pose proof (cx_id _ _ Hc) as Hci. rewrite good_no_id by done. bsimp. rewrite good_set_id by done. bsimp.
    pose proof (Forall_lookup_1 _ _ _ _ Hp He) as Hlen.
    set (h := {| Handle.contextID := _ |}). destruct (register_context_posts L Hpad Hcap h (Entry.context_description e) DLT_USER_LOG_LEVEL_NOT_SET DLT_USER_TRACE_STATUS_NOT_SET a q w Hr Hid Hci)
      as (rc & a' & q' & w' & -> & _ & Hok); [done|]. destruct (Hok Hh (Hw _)) as (-> & -> & _ & ->). bsimp. cbn [Z.ltb Z.compare DLT_RETURN_OK DLT_RETURN_ERROR].
    destruct (IH (S k) (wrote w (encode_user (RegisterCtx (appID (user a)) (Handle.contextID h) (Handle.log_level_pos h) DLT_USER_LOG_LEVEL_NOT_SET DLT_USER_TRACE_STATUS_NOT_SET
      (getpid (env_of L)) (default [] (Entry.context_description e)))))) as (w'' & -> & Hw'' & Hpipe); [done|lia|]. exists w''. split; [done|]. split; [done|].
    rewrite Hpipe. cbn [Datatypes.app]. rewrite encode_all_cons. unfold h. cbn [Handle.contextID Handle.log_level_pos pipe wrote]. rewrite i32_small by lia. by rewrite <-app_assoc.
Qed.

Lemma reattach_says a q w : inv a -> running (holds := holds) a q -> good_id (appID (user a)) -> dlt_log_handle (user a) < 0 -> 0 <= open_daemon_fifo L ->
  dlt_ll_ts_num_entries a < 2147483648 -> room a -> (∀ i, UserShared.script w i = WriteAll) ->
  ∃ w', dlt_user_log_reattach_to_daemon L a w = Some (with_user a (set_handle (user a) (open_daemon_fifo L)), w') ∧
    pipe w' = pipe w ++ encode_all (said_again a).
Proof.
  intros I Hr Hid Hh Hf Hn Hp Hw. unfold dlt_user_log_reattach_to_daemon. rewrite (ru_init _ _ Hr). cbn [negb]. rewrite ltb_true by lia. cbn [negb].
  rewrite (ltb_false (open_daemon_fifo L)) by lia. set (a1 := with_user _ (set_handle (user (with_user _ _)) _)).
  assert (a1 = with_user a (set_handle (user a) (open_daemon_fifo L))) as Ea by done. assert (running (holds := holds) a1 q) as Hr1 by (by destruct Hr; split).
  assert (inv a1) as I1 by (rewrite Ea; by apply inv_user). unfold handle_init. rewrite (running_init L _ _ Hr1). change (DLT_RETURN_OK <? DLT_RETURN_OK) with false. cbn iota.
  rewrite (good_no_id (appID (user a1))) by done. bsimp. cbn [negb].
  destruct (register_application_posts L Hpad Hcap a1 q w Hr1 Hid) as (rc & a' & q' & w1 & -> & _ & Hok); [apply Hp|].
  destruct (Hok Hf (Hw _)) as (-> & -> & _ & ->). bsimp. cbn [Z.ltb Z.compare DLT_RETURN_OK DLT_RETURN_ERROR]. pose proof (iv_num _ I).
  destruct (register_again_writes a1 q I1 Hr1 Hid Hf Hn Hp (Z.to_nat (dlt_ll_ts_num_entries a1)) 0 (wrote w (encode_user (RegisterApp (appID (user a1)) (getpid (env_of L)) (description a1)))))
    as (w' & Eq & _ & Hpipe); [done|cbn; lia|]. change (Z.of_nat 0) with 0 in Eq. rewrite Eq. bsimp. exists w'. split; [done|]. rewrite Hpipe. unfold said_again. rewrite encode_all_cons. cbn [pipe wrote]. by rewrite <-app_assoc.
Qed.
End reattach.

Lemma said_wf capd L a : inv a -> wire_id (appID (user a)) -> is_int (getpid (env_of L)) -> wire_text (description a) -> Forall presentable (table a) ->
  dlt_ll_ts_num_entries a < 2147483648 -> Forall (DaemonHandlersSpec.wf_user capd) (said_again L a).
Proof.
  intros I Wi Hpid Wt Hp Hn. constructor; [done|]. apply again_wf; try done; [by apply Forall_take| |rewrite length_take; pose proof (iv_num _ I); lia].
  apply Forall_take. eapply list.Forall_impl; [exact (iv_slots _ I)|]. intros e [Hv|Hc] Hl; [|apply Hc]. by rewrite (vacant_not_live e Hv) in Hl.
Qed.
Lemma said_bytes L a : wire_id (appID (user a)) -> wire_text (description a) -> Forall presentable (table a) -> is_bytes (encode_all (said_again L a)).
Proof.
  intros [_ Bi] (Bt & _) Hp. unfold said_again. rewrite encode_all_cons. apply is_bytes_app. split; [|apply again_bytes; [done|by apply Forall_take]].
  unfold encode_user. cbn [body_of kind_of]. rewrite !is_bytes_app. split_and!; try done; try apply is_bytes_le. apply bytes_header.
Qed.

(** The registration of context [h] of application [a]. *)
Definition registers (a : app) (h : Handle.DltContext) (u : user_message) : Prop :=
  ∃ ll ts pid text, u = RegisterCtx (appID (user a)) (Handle.contextID h) (Handle.log_level_pos h) ll ts pid text.
(** The daemon knows it. *)
Definition known (a : app) (h : Handle.DltContext) (R : registry) : Prop :=
  ∃ text, r_ctxs R !! (appID (user a) ++ Handle.contextID h) =
    Some {| ce_apid := appID (user a); ce_pos := Handle.log_level_pos h; ce_text := Some text; ce_predefined := false |}.

(** Served registrations are those of the first contexts. *)
Lemma again_split id pid t : ∀ k dn rest, again id pid k t = dn ++ rest ->
  ∃ n, dn = again id pid k (take n t) ∧ rest = again id pid (k + Z.of_nat n) (drop n t).
Proof.
  induction t as [|e t IH]; intros k dn rest H; cbn [again] in H.
  { symmetry in H. apply app_eq_nil in H as [-> ->]. by exists 0%nat. }
  destruct (is_live e) eqn:El; cbn [Datatypes.app] in H.
  - destruct dn as [|u dn]; cbn [Datatypes.app] in H.
    + exists 0%nat. rewrite Z.add_0_r. cbn [take drop again]. by rewrite El.
    + injection H as <- H. destruct (IH _ _ _ H) as (n & -> & ->). exists (S n). cbn [take drop again]. rewrite El. cbn [Datatypes.app].
      split; [done|]. f_equal. lia.
  - destruct (IH _ _ _ H) as (n & -> & ->). exists (S n). cbn [take drop again]. rewrite El. split; [done|]. f_equal. lia.
Qed.
Lemma again_has id pid t : ∀ k j e, t !! j = Some e -> is_live e = true ->
  RegisterCtx id (Entry.contextID e) (k + Z.of_nat j) DLT_USER_LOG_LEVEL_NOT_SET DLT_USER_TRACE_STATUS_NOT_SET pid (text_of e) ∈ again id pid k t.
Proof.
  induction t as [|x t IH]; intros k j e Hj He; [done|]. cbn [again]. apply elem_of_app. destruct j as [|j]; cbn [lookup list_lookup] in Hj.
  - injection Hj as ->. left. rewrite He, Z.add_0_r. by left.
  - right. replace (k + Z.of_nat (S j)) with (k + 1 + Z.of_nat j) by lia. by apply IH.
Qed.

(** What the daemon knows when it has served the first messages. *)
Lemma restored_meaning L a R dn rest : inv a -> good_id (appID (user a)) -> NoDup (Entry.contextID <$> filter is_live (table a)) ->
  said_again L a = dn ++ rest -> dn <> [] ->
  r_apps (apply_all dn R) !! appID (user a) = Some {| ae_pid := getpid (env_of L); ae_text := Some (description a) |} ∧
  (∀ h, denotes a h -> known a h (apply_all dn R) ∨ ∃ u, u ∈ rest ∧ registers a h u) ∧
  (∀ apid ctid, length apid = 4%nat -> apid <> appID (user a) -> r_ctxs (apply_all dn R) !! (apid ++ ctid) = r_ctxs R !! (apid ++ ctid)).
Proof.
  intros I Hid Hnd Hsaid Hdn. unfold said_again in Hsaid. destruct dn as [|u dn]; [done|]. cbn [Datatypes.app] in Hsaid. injection Hsaid as <- Hsaid.
  set (t := take _ (table a)) in Hsaid. destruct (again_split _ _ _ _ _ _ Hsaid) as (n & -> & ->).
  unfold apply_all. cbn [foldl flip apply_user]. set (R1 := register_app _ _ _ R). fold (apply_all (again (appID (user a)) (getpid (env_of L)) 0 (take n t)) R1).
  assert (NoDup (Entry.contextID <$> filter is_live (take n t))) as Hnd'.
  { rewrite <-(take_drop (Z.to_nat (dlt_ll_ts_num_entries a)) (table a)) in Hnd. fold t in Hnd. rewrite <-(take_drop n t) in Hnd.
    rewrite !list.filter_app, !fmap_app in Hnd. by apply list.NoDup_app in Hnd as [[? _]%list.NoDup_app _]. }
  split_and!.
  - destruct (again_keeps (appID (user a)) (getpid (env_of L)) [] (take n t) 0 R1) as [_ ->]; [|unfold R1; cbn [register_app r_apps]; apply lookup_insert_eq].
    intros e _ _ Heq%(f_equal length). rewrite length_app, (good_id_length _ Hid) in Heq. cbn in Heq. lia.
  - intros h [Hpos (e & He & Hc & Hi & _)]. set (j := Z.to_nat (Handle.log_level_pos h)) in *. pose proof (context_live (cells a) e Hc) as Hl.
    assert (t !! j = Some e) as Ht by (unfold t; rewrite lookup_take_lt by lia; done).
    destruct (decide (j < n)%nat) as [Hj|Hj].
    + left. exists (text_of e). rewrite <-Hi. rewrite (again_registers _ _ _ 0 R1 j e); [|by unfold R1, register_app; cbn [r_apps]; rewrite lookup_insert_eq; eexists|done|by rewrite lookup_take_lt|done].
      unfold j. by rewrite Z2Nat.id by lia.
    + right. exists (RegisterCtx (appID (user a)) (Entry.contextID e) (0 + Z.of_nat n + Z.of_nat (j - n)) DLT_USER_LOG_LEVEL_NOT_SET DLT_USER_TRACE_STATUS_NOT_SET (getpid (env_of L)) (text_of e)).
      split; [apply again_has; [|done]; rewrite lookup_drop; by replace (n + (j - n))%nat with j by lia|].
      eexists _, _, _, _. rewrite Hi. f_equal. unfold j in *. lia.
  - intros apid ctid Hl Hne. destruct (again_keeps (appID (user a)) (getpid (env_of L)) (apid ++ ctid) (take n t) 0 R1) as [-> _]; [|done].
    intros e _ _ Heq. apply app_inj_1 in Heq as [? _]; [done|]. by rewrite Hl, (good_id_length _ Hid).
Qed.


(** ** A client sets levels *)

(** What was written to descriptor [fd]. *)
Definition sent_to (fd : Z) (l : list (Z * bytes)) : bytes := concat (snd <$> filter (λ x, x.1 = fd) l).
Lemma sent_to_app fd l l' : sent_to fd (l ++ l') = sent_to fd l ++ sent_to fd l'.
Proof. unfold sent_to. by rewrite list.filter_app, fmap_app, concat_app. Qed.
Lemma sent_to_cons fd d l : sent_to fd ((fd, d) :: l) = d ++ sent_to fd l.
Proof. unfold sent_to. by rewrite filter_cons, decide_True by done. Qed.
Lemma sent_to_other fd l : Forall (λ x, x.1 <> fd) l -> sent_to fd l = [].
Proof. unfold sent_to. induction 1 as [|x l Hx _ IH]; [done|]. rewrite filter_cons, decide_False by done. exact IH. Qed.

(** The handle as the functions that log see it ([UserSend]). *)
Definition seen (a : app) (h : Handle.DltContext) : DltContext :=
  {| contextID := Handle.contextID h; log_level_pos := Handle.log_level_pos h; log_level_ptr := level_of a h; mcnt := Handle.mcnt h |}.

Section client.
Context (E : DaemonSend.env) (F : DaemonControl.flags) (t : DaemonTables.DltDaemon) (l sock fd : Z).

(** The message to the application of context [c]. *)
Definition order_for (c : DaemonTables.Ctx.DltDaemonContext) : order :=
  let c := DaemonControl.with_log_level l c in
  SetLevel (DaemonControl.effective_log_level F t c) (DaemonControl.effective_trace_status t c) (DaemonTables.Ctx.log_level_pos c).

(** The last message for a handle counts. *)
Lemma orders_skip h cs : (∀ c, c ∈ cs -> DaemonTables.Ctx.log_level_pos c <> Handle.log_level_pos h) -> ∀ v, foldl (level_after h) v (order_for <$> cs) = v.
Proof.
  induction cs as [|c cs IH]; intros Hc v; [done|]. cbn [fmap list_fmap foldl]. rewrite IH by (intros x Hx; apply Hc; by right).
  unfold level_after, order_for. rewrite decide_False; [done|]. by apply (Hc c); left.
Qed.
Lemma orders_set h c cs : c ∈ cs -> DaemonTables.Ctx.log_level_pos c = Handle.log_level_pos h ->
  (∀ x, x ∈ cs -> DaemonTables.Ctx.log_level_pos x = Handle.log_level_pos h -> x = c) ->
  ∀ v, foldl (level_after h) v (order_for <$> cs) = Some (i8 (DaemonControl.effective_log_level F t (DaemonControl.with_log_level l c))).
Proof.
  intros Hin Hp. induction cs as [|x cs IH]; intros Hu v; [by apply not_elem_of_nil in Hin|]. cbn [fmap list_fmap foldl].
  destruct (decide (Exists (λ y, DaemonTables.Ctx.log_level_pos y = Handle.log_level_pos h) cs)) as [Hc|Hc].
  - apply list.Exists_exists in Hc as (y & Hy & Hpy). assert (y = c) as -> by (apply Hu; [by right|done]). apply IH; [done|intros z Hz; apply Hu; by right].
  - rewrite orders_skip by (intros y Hy Hpy; apply Hc, list.Exists_exists; by exists y).
    apply elem_of_cons in Hin as [<-|Hin]; [unfold level_after, order_for; by rewrite decide_True|]. exfalso. apply Hc, list.Exists_exists. by exists c.
Qed.

Hypothesis (Hfd : DaemonTables.DLT_FD_MINIMUM <= fd) (Hsock : sock <> fd).

Lemma answer_elsewhere ecu id status : Forall (λ x, x.1 <> fd) (DaemonLevelsSpec.answer E sock ecu id status).
Proof. unfold DaemonLevelsSpec.answer, DaemonLevelsSpec.wire. destruct (DaemonSend.sendserialheader E); repeat constructor; done. Qed.

Lemma replies_to cs : sent_to fd (concat (DaemonLevelsSpec.replies E F sock t l <$> cs)) = encode_orders (order_for <$> filter (λ c, DaemonTables.Ctx.user_handle c = fd) cs).
Proof.
  induction cs as [|c cs IH]; [done|]. rewrite fmap_cons, filter_cons. cbn [concat]. rewrite sent_to_app, IH. unfold DaemonLevelsSpec.replies at 1.
  case_decide as Hc.
  - rewrite leb_true by lia. by rewrite Hc, sent_to_cons, (sent_to_other fd (DaemonLevelsSpec.answer _ _ _ _ _)), app_nil_r by apply answer_elsewhere.
  - rewrite sent_to_other; [done|]. case_match; [|apply answer_elsewhere]. constructor; [done|apply answer_elsewhere].
Qed.
End client.

Lemma level_enabled a h l k : level_of a h = Some l -> 0 < k < DLT_LOG_MAX ->
  dlt_user_is_logLevel_enabled (Some (seen a h)) k = if k <=? l then DLT_RETURN_TRUE else DLT_RETURN_LOGGING_DISABLED.
Proof.
  intros Hl Hk. unfold DLT_LOG_MAX in Hk. unfold dlt_user_is_logLevel_enabled, DLT_LOG_DEFAULT, DLT_LOG_MAX, DLT_LOG_OFF. rewrite ltb_false, leb_false by lia. cbn [orb seen log_level_ptr].
  rewrite Hl, eqb_false by lia. cbn [negb]. by rewrite andb_true_r.
Qed.
Lemma length_orders_for F t l cs : zlen (encode_orders (order_for F t l <$> cs)) = 14 * zlen cs.
Proof.
  induction cs as [|c cs IH]; [done|]. unfold encode_orders in *. rewrite !fmap_cons. cbn [concat]. rewrite length_app. pose proof (length_order (order_for F t l c)) as Lo.
  unfold order_for in Lo at 2. cbn [order_body] in Lo. rewrite length_app, length_le_bytes in Lo. cbn [length] in *. lia.
Qed.

(** The contexts of the daemon for descriptor [fd] are positions of the
    application, each for itself. *)
Record attached (u : DaemonTables.DltDaemonRegisteredUsers) (fd : Z) (a : app) : Prop := {
  at_range : ∀ c, c ∈ DaemonTablesSpec.live_ctxs u -> DaemonTables.Ctx.user_handle c = fd -> 0 <= DaemonTables.Ctx.log_level_pos c < dlt_ll_ts_num_entries a;
  at_own : ∀ c x, c ∈ DaemonTablesSpec.live_ctxs u -> x ∈ DaemonTablesSpec.live_ctxs u -> DaemonTables.Ctx.user_handle c = fd -> DaemonTables.Ctx.user_handle x = fd ->
    DaemonTables.Ctx.log_level_pos c = DaemonTables.Ctx.log_level_pos x -> c = x
}.


(** ** Examples *)

(** The application with two contexts after the daemon is gone. *)
Definition detached_app : app := with_user watching_app (set_handle (user watching_app) (-1)).

Lemma running_handle {holds} a q h : running (holds := holds) a q -> running (holds := holds) (with_user a (set_handle (user a) h)) q.
Proof. intros []. by split. Qed.
Lemma detached_table : ∃ e0 e1, table detached_app = e0 :: e1 :: replicate 498 Entry.initial ∧
  Entry.contextID e0 = [67; 84; 88; 49] ∧ Entry.contextID e1 = [67; 84; 88; 50] ∧ text_of e0 = [] ∧ text_of e1 = [].
Proof. do 2 eexists. split; [vm_compute; reflexivity|]. by split_and!. Qed.
Lemma detached_presentable : Forall presentable (table detached_app).
Proof.
  destruct detached_table as (e0 & e1 & -> & E0 & E1 & T0 & T1). assert (∀ e, forallb (λ b, (0 <=? b) && (b <? 256)) (Entry.contextID e) = true -> text_of e = [] -> presentable e) as H.
  { intros e He Ht. split; [by apply is_bytes_forallb|]. rewrite Ht. split_and!; [constructor|by apply not_elem_of_nil|done]. }
  apply Forall_cons_2; [apply H; [by rewrite E0|done]|]. apply Forall_cons_2; [apply H; [by rewrite E1|done]|]. apply Forall_replicate, H; done.
Qed.
Lemma detached_room : room (cap := 88) detached_app.
Proof.
  split; [by vm_compute|]. destruct detached_table as (e0 & e1 & -> & _ & _ & T0 & T1). apply Forall_cons_2; [by rewrite T0|]. apply Forall_cons_2; [by rewrite T1|]. by apply Forall_replicate.
Qed.
Lemma detached_distinct : NoDup (Entry.contextID <$> filter is_live (table detached_app)).
Proof.
  assert (Entry.contextID <$> filter is_live (table detached_app) = [[67; 84; 88; 49]; [67; 84; 88; 50]]) as -> by (vm_compute; reflexivity).
  apply list.NoDup_cons. split; [by intros ?%list_elem_of_singleton|apply list.NoDup_singleton].
Qed.


(** "APP1" of the sample daemon has two contexts, for descriptor 7. *)
Lemma sample_attached : attached DaemonControlSpec.control_list 7 watching_app.
Proof.
  assert (DaemonTablesSpec.live_ctxs DaemonControlSpec.control_list = DaemonControlSpec.sample_ctxs) as E by (by vm_compute).
  assert (dlt_ll_ts_num_entries watching_app = 2) as En by (by vm_compute).
  split; rewrite E.
  - intros c Hc Hh. rewrite En. unfold DaemonControlSpec.sample_ctxs in Hc. rewrite !elem_of_cons, elem_of_nil in Hc. destruct Hc as [->|[->|[->|[]]]]; cbn in *; lia.
  - intros c x Hc Hx Hhc Hhx Hp. unfold DaemonControlSpec.sample_ctxs in Hc, Hx. rewrite !elem_of_cons, elem_of_nil in Hc, Hx.
    destruct Hc as [->|[->|[->|[]]]], Hx as [->|[->|[->|[]]]]; cbn in *; done.
Qed.


(** ** What is not as it seems *)

(** When the first registration fits neither into the pipe nor into the queue, no
    context is registered, and as the pipe is open now nobody tries again: the
    daemon never gets to know the application. *)
Theorem registration_given_up :
  let a := with_description detached_app (Some (replicate 100 97)) in
  ('(a, w) ← dlt_user_log_reattach_to_daemon library0 a (world0 (λ _, WriteSome 0 EAGAIN));
   '(a, w2) ← dlt_user_log_reattach_to_daemon library0 a (world0 (λ _, WriteAll));
   Some (dlt_log_handle (user a), pipe w, pipe w2)) = Some (3, [], []).
Proof. vm_compute. reflexivity. Qed.

End UserDaemonSpec.
