(* ===== verification/DaemonRuntime.v ===== *)
(** * The runtime configuration ([src/daemon/dlt_daemon_common.c])

    The daemon saves its applications and contexts, with levels and descriptions,
    in two text files and loads them when it starts; the log mode is a third file.
    A file is the list of its bytes.  [filename] is [None] for a null pointer;
    [None] as a file: it cannot be opened. *)

From stdpp Require Import base list numbers option.
From Stdlib Require Import ZArith Lia Bool.
From S2P Require Import Prelude Ids Filter Payload MultipleFiles ConfigFile DaemonTables.
Import Ids Printf DaemonTables.

Local Open Scope Z_scope.

Module DaemonRuntime.

Definition DLT_DAEMON_COMMON_TEXTBUFSIZE : Z := 255.
Definition colon : Z := 58.
Definition newline : Z := 10.

(** ** Reading *)

(** A file that is read: [failing] if an error is reported behind the bytes. *)
Record stream := { text : bytes; failing : bool }.

(** [fgets] with a buffer of [size] bytes: the line with its newline and the rest
    of the file; an error before the end of a line loses the line. *)
Definition fgets (size : Z) (s : stream) : option (bytes * stream) :=
  match text s with
  | [] => None
  | _ =>
      let '(l, r) := ConfigFile.fgets_loop (Z.to_nat (size - 1)) (text s) in
      let complete := bool_decide (list.last l = Some newline) || (zlen l =? size - 1) in
      if failing s && negb complete then None else Some (l, {| text := r; failing := failing s |})
  end.

(** [strtok] with the delimiters [ds]. *)
Fixpoint skip_delims (ds s : bytes) : bytes :=
  match s with
  | c :: s' => if bool_decide (c ∈ ds) then skip_delims ds s' else s
  | [] => []
  end.
Fixpoint token (ds s : bytes) : bytes * bytes :=
  match s with
  | c :: s => if bool_decide (c ∈ ds) then ([], s) else let '(t, r) := token ds s in (c :: t, r)
  | [] => ([], [])
  end.
Definition strtok (ds s : bytes) : option (bytes * bytes) :=
  match skip_delims ds s with [] => None | s => Some (token ds s) end.

(** [sscanf(s, "%d", &v)]: [None] if there is no number. *)
Definition sscanf_d (s : bytes) : option Z :=
  let s := MultipleFiles.skip_spaces s in
  let digits := match s with c :: r => if (c =? 45) || (c =? 43) then r else s | [] => [] end in
  match digits with
  | c :: _ => if MultipleFiles.is_digit c then Some (i32 (MultipleFiles.strtol s)) else None
  | [] => None
  end.

(** [dlt_set_id(id, pb)] overwrites the identifier. *)
Definition id_from (pb : bytes) : option bytes := Filter.set_id (replicate 4 0) (pb ++ [0]).

(** ** Applications *)

Section daemon.
Context (M : allocator) (junk : App.DltDaemonApplication) (open_fifo : Z -> Z).

(** The part of the loop behind [fgets]; [false]: the application was refused. *)
Definition load_application (line : bytes) (d : DltDaemon) : option (bool * DltDaemon) :=
  match strtok [colon] line with
  | None => Some (true, d)
  | Some (pb, r) =>
      apid ← id_from pb;
      match strtok [colon] r with
      | None => Some (true, d)
      | Some (pb, _) =>
          '(k, d) ← dlt_daemon_application_add M junk open_fifo d apid 0 (Some pb) (ecuid d);
          Some (if k is Some _ then true else false, d)
      end
  end.

(** Each line has a byte. *)
Fixpoint applications_loop (fuel : nat) (fd : stream) (d : DltDaemon) : option (Z * DltDaemon) :=
  match fuel with
  | O => None
  | S fuel =>
      match fgets DLT_DAEMON_COMMON_TEXTBUFSIZE fd with
      | None => Some (if failing fd then -1 else 0, d)
      | Some (l, fd) =>
          '(ok, d) ← load_application (cstr (length l) l) d;
          if (ok : bool) then applications_loop fuel fd d else Some (-1, d)
      end
  end.

Definition no_name (filename : option bytes) : bool :=
  match filename with None | Some [] => true | _ => false end.

Definition dlt_daemon_applications_load (filename : option bytes) (file : option stream) (d : DltDaemon)
  : option (Z * DltDaemon) :=
  if no_name filename then Some (-1, d) else
  match file with
  | None => Some (-1, d)
  | Some fd => applications_loop (S (length (text fd))) fd d
  end.

(** ["%s:%s:\n"]; the description of an application that has none is empty. *)
Definition application_line (a : App.DltDaemonApplication) : bytes :=
  cstr 4 (App.apid a) ++ [colon] ++ default [] (App.application_description a) ++ [colon; newline].

(** The return code and the file if it was written; [can_open] is the result of
    [fopen]. *)
Definition dlt_daemon_applications_save (filename : option bytes) (can_open : bool) (d : DltDaemon)
  : option (Z * option bytes) :=
  if no_name filename then Some (-1, None) else
  match dlt_daemon_find_users_list d (ecuid d) with
  | None => Some (-1, None)
  | Some i =>
      u ← user_list d !! i;
      match applications u with
      | Some apps =>
          if (0 <? num_applications u) && can_open then
            if zlen apps <? num_applications u then None else
            Some (0, Some (concat (application_line <$> take (Z.to_nat (num_applications u)) apps)))
          else Some (0, None)
      | None => Some (0, None)
      end
  end.

(** ** Contexts *)

(** [ll] and [ts] are not initialised before the first number was read, and keep
    their values where a line has none. *)
Record levels := { ll : option Z; ts : option Z }.

Definition scanned (old : option Z) (s : bytes) : option Z := if sscanf_d s is Some v then Some v else old.

Definition load_context (line : bytes) (lv : levels) (d : DltDaemon) : option (bool * levels * DltDaemon) :=
  match strtok [colon] line with
  | None => Some (true, lv, d)
  | Some (pb, r) =>
  apid ← id_from pb;
  match strtok [colon] r with
  | None => Some (true, lv, d)
  | Some (pb, r) =>
  ctid ← id_from pb;
  match strtok [colon] r with
  | None => Some (true, lv, d)
  | Some (pb, r) =>
  let lv := {| ll := scanned (ll lv) pb; ts := ts lv |} in
  match strtok [colon] r with
  | None => Some (true, lv, d)
  | Some (pb, r) =>
  let lv := {| ll := ll lv; ts := scanned (ts lv) pb |} in
  match strtok [colon] r with
  | None => Some (true, lv, d)
  | Some (pb, _) =>
      l ← ll lv;
      t ← ts lv;
      '(k, d) ← dlt_daemon_context_add M d apid ctid (i8 l) (i8 t) 0 0 (Some pb) (ecuid d);
      Some (if k is Some _ then true else false, lv, d)
  end end end end end.

Fixpoint contexts_loop (fuel : nat) (fd : stream) (lv : levels) (d : DltDaemon) : option (Z * DltDaemon) :=
  match fuel with
  | O => None
  | S fuel =>
      match fgets DLT_DAEMON_COMMON_TEXTBUFSIZE fd with
      | None => Some (if failing fd then -1 else 0, d)
      | Some (l, fd) =>
          '(ok, lv, d) ← load_context (cstr (length l) l) lv d;
          if (ok : bool) then contexts_loop fuel fd lv d else Some (-1, d)
      end
  end.

Definition dlt_daemon_contexts_load (filename : option bytes) (file : option stream) (d : DltDaemon)
  : option (Z * DltDaemon) :=
  if no_name filename then Some (-1, d) else
  match file with
  | None => Some (-1, d)
  | Some fd => contexts_loop (S (length (text fd))) fd {| ll := None; ts := None |} d
  end.

(** ["%s:%s:%d:%d:%s:\n"]. *)
Definition context_line (c : Ctx.DltDaemonContext) : bytes :=
  cstr 4 (Ctx.apid c) ++ [colon] ++ cstr 4 (Ctx.ctid c) ++ [colon] ++ dec (Ctx.log_level c) ++ [colon]
    ++ dec (Ctx.trace_status c) ++ [colon] ++ default [] (Ctx.context_description c) ++ [colon; newline].

Definition dlt_daemon_contexts_save (filename : option bytes) (can_open : bool) (d : DltDaemon)
  : option (Z * option bytes) :=
  if no_name filename then Some (-1, None) else
  match dlt_daemon_find_users_list d (ecuid d) with
  | None => Some (-1, None)
  | Some i =>
      u ← user_list d !! i;
      match contexts u with
      | Some ctxs =>
          if (0 <? num_contexts u) && can_open then
            if zlen ctxs <? num_contexts u then None else
            Some (0, Some (concat (context_line <$> take (Z.to_nat (num_contexts u)) ctxs)))
          else Some (0, None)
      | None => Some (0, None)
      end
  end.

(** The start of the daemon, when the tables are empty ([main]). *)
Definition set_cfg_loaded (d : DltDaemon) : DltDaemon :=
  {| user_list := user_list d; ecuid := ecuid d; default_log_level := default_log_level d;
     default_trace_status := default_trace_status d; force_ll_ts := force_ll_ts d; runtime_context_cfg_loaded := true |}.
Definition load_runtime (app_name ctx_name : option bytes) (app_file ctx_file : option stream) (d : DltDaemon) : option DltDaemon :=
  '(rc, d) ← dlt_daemon_applications_load app_name app_file d;
  if rc =? 0 then
    '(rc, d) ← dlt_daemon_contexts_load ctx_name ctx_file d;
    Some (if rc =? 0 then set_cfg_loaded d else d)
  else Some d.

End daemon.

(** ** The log mode *)

(** "# 0 = off, 1 = external, 2 = internal, 3 = both" and "LoggingMode". *)
Definition mode_comment : bytes :=
  [35; 32; 48; 32; 61; 32; 111; 102; 102; 44; 32; 49; 32; 61; 32; 101; 120; 116; 101; 114; 110; 97; 108; 44; 32; 50; 32; 61; 32;
   105; 110; 116; 101; 114; 110; 97; 108; 44; 32; 51; 32; 61; 32; 98; 111; 116; 104].
Definition LoggingMode : bytes := [76; 111; 103; 103; 105; 110; 103; 77; 111; 100; 101].

Definition dlt_daemon_configuration_save (filename : option bytes) (can_open : bool) (mode : Z) : Z * option bytes :=
  if no_name filename then (-1, None) else
  (0, if can_open then Some (mode_comment ++ [newline] ++ LoggingMode ++ [32; 61; 32] ++ dec mode ++ [newline]) else None).

(** The delimiters " =\r\n". *)
Definition option_delims : bytes := [32; 61; 13; 10].

(** The loop over the words of a line: [token] and [value]; each word has a
    character. *)
Fixpoint option_words (fuel : nat) (s : bytes) (tok : bytes) : bytes * bytes :=
  match fuel with
  | O => (tok, [])
  | S fuel =>
      match strtok option_delims s with
      | None => (tok, [])
      | Some (pch, r) =>
          if bool_decide (pch = [35]) then (tok, [])
          else match tok with [] => option_words fuel r pch | _ => (tok, pch) end
      end
  end.

Definition option_line (line : bytes) (mode : Z) : Z :=
  let '(tok, value) := option_words (S (length line)) line [] in
  match tok, value with
  | _ :: _, _ :: _ => if bool_decide (tok = LoggingMode) then i32 (MultipleFiles.strtol value) else mode
  | _, _ => mode
  end.

Fixpoint options_loop (fuel : nat) (fd : stream) (mode : Z) : option Z :=
  match fuel with
  | O => None
  | S fuel =>
      match fgets 1024 fd with
      | None => Some mode
      | Some (l, fd) => options_loop fuel fd (option_line (cstr (length l) l) mode)
      end
  end.

(** The return code and the mode. *)
Definition dlt_daemon_configuration_load (filename : option bytes) (file : option stream) (mode : Z) : option (Z * Z) :=
  match filename with
  | None => Some (-1, mode)
  | Some _ =>
      match file with
      | None => Some (0, mode)
      | Some fd => mode ← options_loop (S (length (text fd))) fd mode; Some (0, mode)
      end
  end.

(** ** Names of the files *)

Definition PATH_MAX : Z := 4096.
Definition DLT_USER_MODE_EXTERNAL : Z := 1.
(** "/tmp", "/dlt-runtime-application.cfg", "/dlt-runtime-context.cfg" and
    "/dlt-runtime.cfg". *)
Definition DLT_RUNTIME_DEFAULT_DIRECTORY : bytes := [47; 116; 109; 112].
Definition DLT_RUNTIME_APPLICATION_CFG : bytes :=
  [47; 100; 108; 116; 45; 114; 117; 110; 116; 105; 109; 101; 45; 97; 112; 112; 108; 105; 99; 97; 116; 105; 111; 110; 46; 99; 102; 103].
Definition DLT_RUNTIME_CONTEXT_CFG : bytes :=
  [47; 100; 108; 116; 45; 114; 117; 110; 116; 105; 109; 101; 45; 99; 111; 110; 116; 101; 120; 116; 46; 99; 102; 103].
Definition DLT_RUNTIME_CONFIGURATION : bytes := [47; 100; 108; 116; 45; 114; 117; 110; 116; 105; 109; 101; 46; 99; 102; 103].

(** [strncpy] of the directory and [strcat]: [sizeof] counts the end of the
    string. *)
Definition runtime_name (runtime_directory suffix : bytes) : bytes :=
  take (Z.to_nat (PATH_MAX - (zlen suffix + 1)))
    (match runtime_directory with [] => DLT_RUNTIME_DEFAULT_DIRECTORY | _ => runtime_directory end) ++ suffix.

Record runtime_names := { runtime_application_cfg : bytes; runtime_context_cfg : bytes; runtime_configuration : bytes }.

(** The return code, the mode, and the names if there is a directory. *)
Definition dlt_daemon_init_runtime_configuration (runtime_directory : option bytes) : Z * Z * option runtime_names :=
  match runtime_directory with
  | None => (DLT_RETURN_ERROR, DLT_USER_MODE_EXTERNAL, None)
  | Some dir => (DLT_RETURN_OK, DLT_USER_MODE_EXTERNAL,
      Some {| runtime_application_cfg := runtime_name dir DLT_RUNTIME_APPLICATION_CFG;
              runtime_context_cfg := runtime_name dir DLT_RUNTIME_CONTEXT_CFG;
              runtime_configuration := runtime_name dir DLT_RUNTIME_CONFIGURATION |})
  end.

End DaemonRuntime.
