(* ===== verification/DaemonRuntimeSpec.v ===== *)
(** * The tables survive a restart

    What the daemon saves of its applications and contexts is what it loads when it
    starts again, as long as the descriptions can be written to a line; a context
    that registers again then keeps the level that was saved. *)

From stdpp Require Import base gmap sets list numbers option.
From Stdlib Require Import ZArith Lia Bool.
From S2P Require Import Prelude Ids Filter Payload MultipleFiles ConfigFile ConfigFileSpec EnvLLSpec SortedTable DaemonTables DaemonTablesSpec DaemonContextsSpec.
From S2P Require Import DaemonRegistrySpec DaemonRuntime.
Import Ids Printf SortedTable DaemonTables DaemonTablesSpec DaemonContextsSpec DaemonRegistrySpec DaemonRuntime.

Local Open Scope Z_scope.

Module DaemonRuntimeSpec.

(** ** Lines and words *)

(** A word of a line. *)
Definition plain (t : bytes) : Prop := t <> [] ∧ (0 ∉ t) ∧ (colon ∉ t) ∧ newline ∉ t.

Lemma fgets_loop_line n l rest : newline ∉ l -> (length l < n)%nat -> ConfigFile.fgets_loop n (l ++ newline :: rest) = (l ++ [newline], rest).
Proof.
  revert n. induction l as [|c l IH]; intros [|n] Hn Hl; cbn [length] in Hl; try lia; [done|]. apply not_elem_of_cons in Hn as [Hc Hn].
  cbn [app ConfigFile.fgets_loop]. rewrite eqb_false by (intros ->; by apply Hc). rewrite IH by (done || lia). done.
Qed.
Lemma fgets_runtime_line size l rest f : newline ∉ l -> zlen l < size - 1 ->
  fgets size {| text := l ++ newline :: rest; failing := f |} = Some (l ++ [newline], {| text := rest; failing := f |}).
Proof.
  intros Hn Hl. unfold fgets. cbn [text failing]. rewrite fgets_loop_line by (done || lia). rewrite last_snoc, bool_decide_true by done. cbn [orb negb].
  rewrite andb_false_r. by destruct l.
Qed.
Lemma strtok_field t r : t <> [] -> colon ∉ t -> strtok [colon] (t ++ colon :: r) = Some (t, r).
Proof.
  intros Hn Hc. assert (∀ t r, colon ∉ t -> token [colon] (t ++ colon :: r) = (t, r)) as Ht.
  { clear. induction t as [|x t IH]; intros r Hc; [done|]. apply not_elem_of_cons in Hc as [Hx Hc]. cbn [app token].
    rewrite bool_decide_false by (intros ->%list_elem_of_singleton; done). by rewrite IH. }
  unfold strtok. assert (skip_delims [colon] (t ++ colon :: r) = t ++ colon :: r) as ->.
  { destruct t as [|x t]; [done|]. apply not_elem_of_cons in Hc as [Hx Hc]. cbn [app skip_delims]. by rewrite bool_decide_false by (intros ->%list_elem_of_singleton; done). }
  destruct (t ++ colon :: r) eqn:E; [by destruct t|]. rewrite <-E. by rewrite Ht.
Qed.

Lemma id_from_cstr i : is_id i -> id_from (cstr 4 i) = Some i.
Proof.
  intros Hi. unfold id_from, Filter.set_id. rewrite set_id_spec; [|done|right; apply elem_of_app; right; by left]. bsimp. f_equal. transitivity (pad_to 4 0 (cstr 4 i)); [f_equal|by symmetry].
  pose proof (length_cstr 4 i). pose proof (cstr_no_zero 4 i) as H0. pose proof (ConfigFileSpec.cstr_zeros 4 _ 1 H0) as Hz. cbn [replicate] in Hz. rewrite Hz. apply take_ge. lia.
Qed.

(** Levels are written and read. *)
Lemma level_word v : -1 <= v <= 6 -> dec v <> [] ∧ (0 ∉ dec v) ∧ (colon ∉ dec v) ∧ (newline ∉ dec v) ∧ sscanf_d (dec v) = Some v ∧ i8 v = v.
Proof.
  intros Hv. assert (v = -1 ∨ v = 0 ∨ v = 1 ∨ v = 2 ∨ v = 3 ∨ v = 4 ∨ v = 5 ∨ v = 6) as H by lia.
  assert (∀ c, c <> 45 -> (c < 48 ∨ 57 < c) -> c ∉ dec v) as Hd.
  { intros c Hc Hc2. destruct H as [->|[->|[->|[->|[->|[->|[->| ->]]]]]]]; vm_compute; set_unfold; lia. }
  split; [by destruct H as [->|[->|[->|[->|[->|[->|[->| ->]]]]]]]|]. split_and!; [apply Hd; lia|apply Hd; unfold colon; lia|apply Hd; unfold newline; lia|..];
    by destruct H as [->|[->|[->|[->|[->|[->|[->| ->]]]]]]].
Qed.

(** ** What can be saved *)

Definition storable_id (i : bytes) : Prop := good_id i ∧ (colon ∉ i) ∧ newline ∉ i.
Record storable_app (a : App.DltDaemonApplication) : Prop := {
  sa_id : storable_id (App.apid a);
  sa_text : ∃ t, App.application_description a = Some t ∧ plain t;
  sa_line : zlen (application_line a) < DLT_DAEMON_COMMON_TEXTBUFSIZE
}.
Record storable_ctx (c : Ctx.DltDaemonContext) : Prop := {
  sc_apid : storable_id (Ctx.apid c);
  sc_ctid : storable_id (Ctx.ctid c);
  sc_level : DLT_LOG_DEFAULT <= Ctx.log_level c <= DLT_LOG_VERBOSE;
  sc_status : DLT_TRACE_STATUS_DEFAULT <= Ctx.trace_status c <= DLT_TRACE_STATUS_ON;
  sc_text : ∃ t, Ctx.context_description c = Some t ∧ plain t;
  sc_line : zlen (context_line c) < DLT_DAEMON_COMMON_TEXTBUFSIZE
}.

Lemma id_plain i : storable_id i -> plain (cstr 4 i).
Proof.
  intros ([Hi He] & Hc & Hn). assert (∀ x, x ∈ cstr 4 i -> x ∈ i) as Hs by (intros x; apply EnvLLSpec.cstr_subset).
  split; [|split; [apply cstr_no_zero|split; intros H; by apply Hs in H]]. destruct i as [|c i]; [discriminate Hi|]. cbn in He |- *. by rewrite He.
Qed.

(** The line without its end. *)
Lemma line_read body rest : Forall (λ t, (0 ∉ t) ∧ newline ∉ t) body -> let l := concat ((λ t, t ++ [colon]) <$> body) in zlen l + 1 < DLT_DAEMON_COMMON_TEXTBUFSIZE ->
  fgets DLT_DAEMON_COMMON_TEXTBUFSIZE {| text := (l ++ [newline]) ++ rest; failing := false |} = Some (l ++ [newline], {| text := rest; failing := false |}) ∧
  cstr (length (l ++ [newline])) (l ++ [newline]) = l ++ [newline].
Proof.
  intros Hb l Hl. assert ((0 ∉ l) ∧ newline ∉ l) as [H0 Hn].
  { unfold l. clear l Hl. induction Hb as [|t body [H0 Hn] _ IH]; [split; by apply not_elem_of_nil|]. rewrite fmap_cons. cbn [concat].
    rewrite !not_elem_of_app, !not_elem_of_cons. unfold colon, newline in *. pose proof (not_elem_of_nil (A := Z)). destruct IH. split_and!; done. }
  split; [rewrite <-app_assoc; by apply fgets_runtime_line; [|lia]|]. apply ConfigFileSpec.cstr_plain_le; [|lia]. rewrite not_elem_of_app. split; [done|]. by intros ?%list_elem_of_singleton.
Qed.

Section loading.
Context (M : allocator) (junk : App.DltDaemonApplication) (open_fifo : Z -> Z).
Hypothesis (HM : heap_ok M).

(** *** Applications *)

(** The entry of an application that was loaded. *)
Definition loaded_app (a : App.DltDaemonApplication) : App.DltDaemonApplication :=
  App.set_description (new_application (App.apid a)) (App.application_description a).

Lemma application_line_read a rest : storable_app a -> ∃ l,
  fgets DLT_DAEMON_COMMON_TEXTBUFSIZE {| text := application_line a ++ rest; failing := false |} = Some (l, {| text := rest; failing := false |}) ∧
  ∀ d, load_application M junk open_fifo (cstr (length l) l) d =
    ('(k, d) ← dlt_daemon_application_add M junk open_fifo d (App.apid a) 0 (App.application_description a) (ecuid d); Some (if k is Some _ then true else false, d)).
Proof.
  intros [Hi (t & Ht & Hp) Hl]. pose proof (id_plain _ Hi) as Hw. unfold application_line in *. rewrite Ht in *. cbn [default from_option id] in *.
  assert (cstr 4 (App.apid a) ++ [colon] ++ t ++ [colon; newline] = concat ((λ t, t ++ [colon]) <$> [cstr 4 (App.apid a); t]) ++ [newline]) as El
    by (cbn [fmap list_fmap concat]; by rewrite !app_nil_r, <-!app_assoc).
  rewrite El in *. destruct (line_read [cstr 4 (App.apid a); t] rest) as [Hf Hz]; [repeat constructor; by apply Hw || apply Hp|rewrite length_app in Hl; cbn [length] in Hl; lia|].
  eexists. split; [exact Hf|]. intros d. rewrite Hz. cbn [fmap list_fmap concat]. rewrite app_nil_r, <-!app_assoc. unfold load_application. cbn [app].
  rewrite strtok_field by apply Hw. rewrite id_from_cstr by apply Hi. bsimp. by rewrite strtok_field by apply Hp.
Qed.

Lemma load_applications apps : Forall storable_app apps -> NoDup (app_key <$> apps) -> ∀ fuel d i u, daemon_inv d -> own_list d (ecuid d) i u ->
  (∀ a, a ∈ apps -> amap u !! app_key a = None) -> cmap u = ∅ -> (length apps < fuel)%nat ->
  ∃ d' u', applications_loop M junk open_fifo fuel {| text := concat (application_line <$> apps); failing := false |} d = Some (0, d') ∧
    daemon_inv d' ∧ own_list d' (ecuid d') i u' ∧ force_ll_ts d' = force_ll_ts d ∧ cmap u' = ∅ ∧ amap u' = (loaded_app <$> table app_key apps) ∪ amap u.
Proof.
  induction 1 as [|a apps Ha _ IH]; intros Hnd fuel d i u Hd Hown Hno Hc Hf; destruct fuel as [|fuel]; cbn [length] in Hf; try lia.
  { exists d, u. cbn. split_and!; try done. rewrite fmap_empty. by rewrite (left_id_L ∅ (∪)). }
  rewrite fmap_cons in Hnd |- *. apply list.NoDup_cons in Hnd as [Hna Hnd]. cbn [concat applications_loop].
  destruct (application_line_read a (concat (application_line <$> apps)) Ha) as (l & -> & ->).
  destruct (application_added M junk open_fifo d (App.apid a) 0 (App.application_description a) (ecuid d) i u HM Hd Hown) as (k & d1 & u1 & Ea & Hown1 & Hd1 & _ & Hm & _); [apply Ha|].
  rewrite Ea. bsimp. pose proof (application_add_ctxs _ _ _ _ _ _ _ _ _ _ Ea) as K. change (amap u !! App.apid a) with (amap u !! app_key a) in Hm. rewrite (Hno a) in Hm by (by left). cbn [default from_option id] in Hm.
  assert (amap u1 = <[app_key a := loaded_app a]> (amap u)) as Hm1.
  { rewrite Hm. unfold others, needs_handle, registered. rewrite !andb_false_r. by rewrite map_fmap_id. }
  assert (cmap u1 = ∅) as Hc1.
  { pose proof (ctxs_kept_own _ _ _ _ _ _ K Hown Hown1) as Hk. apply map_eq. intros key. specialize (Hk key). rewrite Hc in Hk. rewrite lookup_empty in Hk |- *. by inversion Hk. }
  rewrite <-(ck_ecuid _ _ K) in Hown1.
  destruct (IH Hnd fuel d1 i u1 Hd1 Hown1) as (d' & u' & -> & Hd' & Hown' & Hf' & Hc' & Hm'); [|done|lia|].
  { intros x Hx. rewrite Hm1, lookup_insert_ne; [apply Hno; by right|]. intros Heq. apply Hna. rewrite Heq. by apply list_elem_of_fmap_2. }
  exists d', u'. split_and!; try done; [by rewrite Hf', (ck_force _ _ K)|]. rewrite Hm', Hm1, table_cons, fmap_insert, <-insert_union_l, <-insert_union_r; [done|].
  rewrite lookup_fmap. by rewrite (proj2 (table_lookup_None app_key apps (app_key a)) Hna).
Qed.

(** *** Contexts *)

Definition loaded_ctx (c : Ctx.DltDaemonContext) : Ctx.DltDaemonContext :=
  Ctx.set_registration (Ctx.set_levels (Ctx.set_description (new_context (Ctx.apid c) (Ctx.ctid c)) (Ctx.context_description c))
    (Ctx.log_level c) (Ctx.trace_status c)) 0 0.

Lemma context_line_read c rest : storable_ctx c -> ∃ l,
  fgets DLT_DAEMON_COMMON_TEXTBUFSIZE {| text := context_line c ++ rest; failing := false |} = Some (l, {| text := rest; failing := false |}) ∧
  ∀ lv d, load_context M (cstr (length l) l) lv d =
    ('(k, d) ← dlt_daemon_context_add M d (Ctx.apid c) (Ctx.ctid c) (Ctx.log_level c) (Ctx.trace_status c) 0 0 (Ctx.context_description c) (ecuid d);
     Some (if k is Some _ then true else false, {| ll := Some (Ctx.log_level c); ts := Some (Ctx.trace_status c) |}, d)).
Proof.
  intros [Ha Hc Hll Hts (t & Ht & Hp) Hl]. pose proof (id_plain _ Ha) as Wa. pose proof (id_plain _ Hc) as Wc. unfold DLT_LOG_DEFAULT, DLT_LOG_VERBOSE, DLT_TRACE_STATUS_DEFAULT, DLT_TRACE_STATUS_ON in *.
  destruct (level_word (Ctx.log_level c) Hll) as (L1 & L2 & L3 & L4 & L5 & L6). destruct (level_word (Ctx.trace_status c) ltac:(lia)) as (S1 & S2 & S3 & S4 & S5 & S6).
  unfold context_line in *. rewrite Ht in *. cbn [default from_option id] in *. set (body := [cstr 4 (Ctx.apid c); cstr 4 (Ctx.ctid c); dec (Ctx.log_level c); dec (Ctx.trace_status c); t]).
  assert (cstr 4 (Ctx.apid c) ++ [colon] ++ cstr 4 (Ctx.ctid c) ++ [colon] ++ dec (Ctx.log_level c) ++ [colon] ++ dec (Ctx.trace_status c) ++ [colon] ++ t ++ [colon; newline]
    = concat ((λ t, t ++ [colon]) <$> body) ++ [newline]) as El by (unfold body; cbn [fmap list_fmap concat]; by rewrite !app_nil_r, <-!app_assoc).
  rewrite El in *. destruct (line_read body rest) as [Hf Hz]; [unfold body; repeat constructor; done || by apply Wa || apply Wc || apply Hp|rewrite length_app in Hl; cbn [length] in Hl; lia|].
  eexists. split; [exact Hf|]. intros lv d. rewrite Hz. unfold body. cbn [fmap list_fmap concat]. rewrite app_nil_r, <-!app_assoc. unfold load_context. cbn [app].
  rewrite strtok_field by apply Wa. rewrite id_from_cstr by apply Ha. bsimp. rewrite strtok_field by apply Wc. rewrite id_from_cstr by apply Hc. bsimp.
  rewrite strtok_field by done. rewrite strtok_field by done. rewrite strtok_field by apply Hp. unfold scanned. rewrite L5, S5. cbn [ll ts]. bsimp. by rewrite L6, S6.
Qed.

Lemma load_contexts ctxs : Forall storable_ctx ctxs -> NoDup (ctx_key <$> ctxs) -> ∀ fuel lv d i u, daemon_inv d -> own_list d (ecuid d) i u -> force_ll_ts d = false ->
  (∀ c, c ∈ ctxs -> cmap u !! ctx_key c = None) -> (∀ c, c ∈ ctxs -> is_Some (amap u !! Ctx.apid c)) -> (length ctxs < fuel)%nat ->
  ∃ d' u', contexts_loop M fuel {| text := concat (context_line <$> ctxs); failing := false |} lv d = Some (0, d') ∧
    daemon_inv d' ∧ own_list d' (ecuid d') i u' ∧ cmap u' = (loaded_ctx <$> table ctx_key ctxs) ∪ cmap u ∧
    App.application_description <$> amap u' = App.application_description <$> amap u.
Proof.
  induction 1 as [|c ctxs Hc _ IH]; intros Hnd fuel lv d i u Hd Hown Hforce Hno Happ Hf; destruct fuel as [|fuel]; cbn [length] in Hf; try lia.
  { exists d, u. cbn. split_and!; try done. rewrite fmap_empty. by rewrite (left_id_L ∅ (∪)). }
  rewrite fmap_cons in Hnd |- *. apply list.NoDup_cons in Hnd as [Hnc Hnd]. cbn [concat contexts_loop].
  destruct (context_line_read c (concat (context_line <$> ctxs)) Hc) as (l & -> & ->). destruct (Happ c ltac:(by left)) as [a Ha].
  destruct (context_added M d (Ctx.apid c) (Ctx.ctid c) (Ctx.log_level c) (Ctx.trace_status c) 0 0 (Ctx.context_description c) (ecuid d) i u a HM Hd Hown)
    as (k & d1 & u1 & Ec & Hown1 & Hd1 & _ & Hm & Hma & _); [apply Hc..|done|].
  rewrite Ec. bsimp. pose proof (context_add_ecuid _ _ _ _ _ _ _ _ _ _ _ _ Ec) as He. pose proof (context_add_keeps force_ll_ts _ _ _ _ _ _ _ _ _ _ _ _ (λ _ _ _, eq_refl) Ec) as Hf1.
  change (Ctx.apid c ++ Ctx.ctid c) with (ctx_key c) in Hm, Hma. rewrite (Hno c) in Hm, Hma by (by left). cbn [default from_option id] in Hm.
  assert (cmap u1 = <[ctx_key c := loaded_ctx c]> (cmap u)) as Hm1 by (rewrite Hm; unfold stored_context, limited; rewrite Hforce, andb_false_r; done).
  assert (App.application_description <$> amap u1 = App.application_description <$> amap u) as Hm2 by (rewrite Hma; by rewrite (info_insert _ _ _ a)).
  rewrite <-He in Hown1. destruct (IH Hnd fuel {| ll := Some (Ctx.log_level c); ts := Some (Ctx.trace_status c) |} d1 i u1 Hd1 Hown1) as (d' & u' & -> & Hd' & Hown' & Hm' & Happ'); [congruence| | |lia|].
  { intros x Hx. rewrite Hm1, lookup_insert_ne; [apply Hno; by right|]. intros Heq. apply Hnc. rewrite Heq. by apply list_elem_of_fmap_2. }
  { intros x Hx. pose proof (f_equal (.!! Ctx.apid x) Hm2) as E. cbn beta in E. rewrite !lookup_fmap in E. destruct (Happ x ltac:(by right)) as [y Hy]. rewrite Hy in E.
    destruct (amap u1 !! Ctx.apid x); [by eexists|done]. }
  exists d', u'. split_and!; try done; [|congruence]. rewrite Hm', Hm1, table_cons, fmap_insert, <-insert_union_l, <-insert_union_r; [done|].
  rewrite lookup_fmap. by rewrite (proj2 (table_lookup_None ctx_key ctxs (ctx_key c)) Hnc).
Qed.
End loading.

(** ** Saving *)

Lemma save_applications na d i u : no_name na = false -> daemon_inv d -> own_list d (ecuid d) i u -> live_apps u <> [] ->
  dlt_daemon_applications_save na true d = Some (0, Some (concat (application_line <$> live_apps u))).
Proof.
  intros Hn Hd [Hf Hu] Hne. unfold dlt_daemon_applications_save. rewrite Hn, Hf, Hu. bsimp. destruct (Hd i u Hu) as [Ha _]. pose proof (ai_blocks _ Ha) as Hb.
  unfold live_apps in *. destruct (applications u) as [apps|]; cbn [default from_option id] in *; [|by rewrite take_nil in Hne]. cbn in Hb.
  rewrite (ltb_true 0) by (destruct (Z.to_nat (num_applications u)) eqn:E; [done|lia]). cbn [andb]. by rewrite ltb_false by lia.
Qed.
Lemma save_contexts nc d i u : no_name nc = false -> daemon_inv d -> own_list d (ecuid d) i u -> live_ctxs u <> [] ->
  dlt_daemon_contexts_save nc true d = Some (0, Some (concat (context_line <$> live_ctxs u))).
Proof.
  intros Hn Hd [Hf Hu] Hne. unfold dlt_daemon_contexts_save. rewrite Hn, Hf, Hu. bsimp. destruct (Hd i u Hu) as [_ Hc]. pose proof (ci_blocks _ Hc) as Hb.
  unfold live_ctxs in *. destruct (contexts u) as [ctxs|]; cbn [default from_option id] in *; [|by rewrite take_nil in Hne]. cbn in Hb.
  rewrite (ltb_true 0) by (destruct (Z.to_nat (num_contexts u)) eqn:E; [done|lia]). cbn [andb]. by rewrite ltb_false by lia.
Qed.

Lemma length_lines {A} (f : A -> bytes) l : (∀ x, f x <> []) -> (length l <= length (concat (f <$> l)))%nat.
Proof. intros Hf. induction l as [|x l IH]; [done|]. rewrite fmap_cons. cbn [concat length]. rewrite length_app. specialize (Hf x). destruct (f x); [done|]. cbn [length]. lia. Qed.
Lemma application_line_nonempty a : application_line a <> [].
Proof. unfold application_line. by destruct (cstr 4 (App.apid a)). Qed.
Lemma context_line_nonempty c : context_line c <> [].
Proof. unfold context_line. by destruct (cstr 4 (Ctx.apid c)). Qed.

(** What a file keeps of a context. *)
Definition saved (c : Ctx.DltDaemonContext) : bytes * bytes * Z * Z * option bytes :=
  (Ctx.apid c, Ctx.ctid c, Ctx.log_level c, Ctx.trace_status c, Ctx.context_description c).

(** C28: The tables survive a restart of the daemon: when it saves its applications
    and contexts, and starts with empty tables and these files, it has the same
    applications with the same descriptions and the same contexts with the same
    levels, trace status and descriptions, sorted and inside their arrays.  A context
    that is registered again afterwards keeps the level and status that were saved,
    whatever the application asks for.  There are applications and contexts
    ([old_file_stays]); every one has a description, which is not empty and has
    neither colons nor newlines ([no_description_becomes_newline]) and fits on a line
    of 254 characters ([long_description_becomes_application]); the identifiers have
    no colons or newlines either; the new daemon does not enforce levels
    ([force_ll_ts] is off). *)
Theorem tables_survive_restart M junk open_fifo na nc d i u d0 i0 u0 :
  heap_ok M -> no_name na = false -> no_name nc = false ->
  daemon_inv d -> own_list d (ecuid d) i u -> Forall storable_app (live_apps u) -> Forall storable_ctx (live_ctxs u) ->
  live_apps u <> [] -> live_ctxs u <> [] -> (∀ c, c ∈ live_ctxs u -> is_Some (amap u !! Ctx.apid c)) ->
  daemon_inv d0 -> own_list d0 (ecuid d0) i0 u0 -> amap u0 = ∅ -> cmap u0 = ∅ -> force_ll_ts d0 = false ->
  ∃ fa fc d' u', dlt_daemon_applications_save na true d = Some (0, Some fa) ∧ dlt_daemon_contexts_save nc true d = Some (0, Some fc) ∧
    load_runtime M junk open_fifo na nc (Some {| text := fa; failing := false |}) (Some {| text := fc; failing := false |}) d0 = Some d' ∧
    daemon_inv d' ∧ own_list d' (ecuid d') i0 u' ∧
    App.application_description <$> amap u' = App.application_description <$> amap u ∧ saved <$> cmap u' = saved <$> cmap u ∧
    ∀ c ll ts pos h descr, c ∈ live_ctxs u -> DLT_LOG_DEFAULT <= ll <= DLT_LOG_VERBOSE -> DLT_TRACE_STATUS_DEFAULT <= ts <= DLT_TRACE_STATUS_ON ->
      ∃ k d2 u2 c2, dlt_daemon_context_add M d' (Ctx.apid c) (Ctx.ctid c) ll ts pos h descr (ecuid d') = Some (Some k, d2) ∧
        own_list d2 (ecuid d') i0 u2 ∧ live_ctxs u2 !! k = Some c2 ∧ Ctx.log_level_pos c2 = pos ∧
        Ctx.log_level c2 = Ctx.log_level c ∧ Ctx.trace_status c2 = Ctx.trace_status c.
Proof.
  intros HM Hna Hnc Hd Hown Sa Sc Na Nc Hlink Hd0 Hown0 Ha0 Hc0 Hforce. pose proof Hown as [_ Hu]. destruct (Hd i u Hu) as [Ia Ic].
  exists (concat (application_line <$> live_apps u)), (concat (context_line <$> live_ctxs u)).
  pose proof (sorted_NoDup _ _ (ai_sorted _ Ia)) as Nda. pose proof (sorted_NoDup _ _ (ci_sorted _ Ic)) as Ndc.
  destruct (load_applications M junk open_fifo HM (live_apps u) Sa Nda (S (length (concat (application_line <$> live_apps u)))) d0 i0 u0 Hd0 Hown0) as (d1 & u1 & E1 & Hd1 & Hown1 & Hf1 & Hc1 & Hm1);
    [intros a _; by rewrite Ha0|done|pose proof (length_lines application_line (live_apps u) application_line_nonempty); lia|].
  rewrite Ha0, (right_id_L ∅ (∪)) in Hm1. change (table app_key (live_apps u)) with (amap u) in Hm1.
  destruct (load_contexts M HM (live_ctxs u) Sc Ndc (S (length (concat (context_line <$> live_ctxs u)))) {| ll := None; ts := None |} d1 i0 u1 Hd1 Hown1) as (d2 & u2 & E2 & Hd2 & Hown2 & Hm2 & Happ);
    [congruence|intros c _; by rewrite Hc1|intros c Hc; rewrite Hm1, lookup_fmap; destruct (Hlink c Hc) as [a ->]; by eexists|pose proof (length_lines context_line (live_ctxs u) context_line_nonempty); lia|].
  rewrite Hc1, (right_id_L ∅ (∪)) in Hm2. change (table ctx_key (live_ctxs u)) with (cmap u) in Hm2.
  exists (set_cfg_loaded d2), u2. split; [by apply (save_applications na d i u)|]. split; [by apply (save_contexts nc d i u)|]. split.
  { unfold load_runtime, dlt_daemon_applications_load, dlt_daemon_contexts_load. rewrite Hna. cbn [text]. rewrite E1. bsimp. cbn [Z.eqb]. rewrite Hnc, E2. by bsimp. }
  assert (App.application_description <$> amap u2 = App.application_description <$> amap u) as Happ2.
  { rewrite Happ, Hm1, <-map_fmap_compose. by apply map_fmap_ext. }
  split; [exact Hd2|]. split; [exact Hown2|]. split; [exact Happ2|]. split; [rewrite Hm2, <-map_fmap_compose; by apply map_fmap_ext|].
  intros c ll ts pos h descr Hc Hll Hts. destruct (Hlink c Hc) as [a Ha]. pose proof (f_equal (.!! Ctx.apid c) Happ2) as E. cbn beta in E. rewrite !lookup_fmap, Ha in E.
  destruct (amap u2 !! Ctx.apid c) as [a2|] eqn:Ea2; [|done]. rewrite list.Forall_forall in Sc. pose proof (Sc c Hc) as [Wa Wc _ _ _ _].
  assert (cmap u !! ctx_key c = Some c) as Hcu by (by apply table_lookup).
  destruct (context_added M (set_cfg_loaded d2) (Ctx.apid c) (Ctx.ctid c) ll ts pos h descr (ecuid d2) i0 u2 a2 HM Hd2 Hown2 (proj1 Wa) (proj1 Wc) Hll Hts Ea2) as (k & d3 & u3 & Ec & Hown3 & _ & Hk & _).
  change (Ctx.apid c ++ Ctx.ctid c) with (ctx_key c) in Hk. rewrite Hm2, lookup_fmap, Hcu in Hk. cbn [fmap option_fmap option_map default from_option id] in Hk.
  exists k, d3, u3. eexists. split; [exact Ec|]. split; [exact Hown3|]. split; [exact Hk|]. done.
Qed.

(** The log mode survives as well. *)
Lemma mode_survives n mode old : no_name n = false -> 0 <= mode <= 3 ->
  ∃ f, dlt_daemon_configuration_save n true mode = (0, Some f) ∧
    dlt_daemon_configuration_load n (Some {| text := f; failing := false |}) old = Some (0, mode).
Proof.
  intros Hn Hm. unfold dlt_daemon_configuration_save. rewrite Hn. eexists. split; [reflexivity|].
  unfold dlt_daemon_configuration_load. destruct n as [n|]; [|done].
  assert (mode = 0 ∨ mode = 1 ∨ mode = 2 ∨ mode = 3) as [->|[->|[->| ->]]] by lia; vm_compute; reflexivity.
Qed.

(** Every name fits into its array of [PATH_MAX] bytes, with the end of the string. *)
Lemma runtime_names_fit dir rc mode n : dlt_daemon_init_runtime_configuration dir = (rc, mode, Some n) ->
  zlen (runtime_application_cfg n) < PATH_MAX ∧ zlen (runtime_context_cfg n) < PATH_MAX ∧ zlen (runtime_configuration n) < PATH_MAX.
Proof.
  unfold dlt_daemon_init_runtime_configuration. destruct dir as [dir|]; [|done]. intros [= _ _ <-]. cbn [runtime_application_cfg runtime_context_cfg runtime_configuration].
  assert (∀ s, zlen s < 100 -> zlen (runtime_name dir s) < PATH_MAX) as H; [|by split_and!; apply H; vm_compute].
  intros s Hs. unfold runtime_name, PATH_MAX. rewrite length_app, length_take. lia.
Qed.

(** ** Examples *)

Definition name (c : Z) : bytes := [65; 80; 80; c].
Definition runtime_app (id : bytes) (t : option bytes) (n : Z) : App.DltDaemonApplication :=
  {| App.apid := id; App.pid := 100; App.user_handle := 7; App.owns_user_handle := true; App.application_description := t; App.num_contexts := n |}.
Definition runtime_ctx (id : bytes) (ll ts pos : Z) (t : option bytes) : Ctx.DltDaemonContext :=
  {| Ctx.apid := name 49; Ctx.ctid := id; Ctx.log_level := ll; Ctx.trace_status := ts; Ctx.log_level_pos := pos; Ctx.user_handle := 7;
     Ctx.context_description := t; Ctx.storage_log_level := -1; Ctx.predefined := false |}.
Definition runtime_tables (apps : list App.DltDaemonApplication) (ctxs : list Ctx.DltDaemonContext) : DltDaemon :=
  {| user_list := [{| applications := Some (apps ++ replicate (500 - length apps) App.zeroed); num_applications := zlen apps;
                      contexts := Some (ctxs ++ replicate (1000 - length ctxs) Ctx.zeroed); num_contexts := zlen ctxs; ecu := name 69 |}];
     ecuid := name 69; default_log_level := 4; default_trace_status := 0; force_ll_ts := false; runtime_context_cfg_loaded := false |}.
Definition empty_list : DltDaemonRegisteredUsers :=
  {| applications := None; num_applications := 0; contexts := None; num_contexts := 0; ecu := name 69 |}.
Definition empty_tables : DltDaemon :=
  {| user_list := [empty_list]; ecuid := name 69; default_log_level := 4; default_trace_status := 0; force_ll_ts := false; runtime_context_cfg_loaded := false |}.

(** "APP1" with the contexts "A" and "CTX2". *)
Definition two_saved : DltDaemon :=
  runtime_tables [runtime_app (name 49) (Some [111; 110; 101]) 2]
    [runtime_ctx [65; 0; 0; 0] 6 1 0 (Some [120]); runtime_ctx [67; 84; 88; 50] (-1) 0 1 (Some [97; 32; 98])].
Definition two_list : DltDaemonRegisteredUsers := default empty_list (user_list two_saved !! 0%nat).

Lemma empty_tables_inv : daemon_inv empty_tables.
Proof. intros [|j] u Hu; [|done]. injection Hu as <-. split; split; try done; constructor. Qed.
Lemma two_saved_inv : daemon_inv two_saved.
Proof.
  intros [|j] u Hu; [|done]. injection Hu as <-. split; split.
  - by vm_compute.
  - by repeat constructor.
  - by repeat constructor.
  - by vm_compute.
  - by repeat constructor.
  - by repeat constructor.
Qed.

Lemma plain_forallb t : forallb (λ c, negb (c =? 0) && negb (c =? colon) && negb (c =? newline)) t = true -> t <> [] -> plain t.
Proof.
  intros Hf Hn. rewrite forallb_forall in Hf. assert (∀ c, c ∈ t -> c <> 0 ∧ c <> colon ∧ c <> newline) as H.
  { intros c Hc. apply list_elem_of_In, Hf in Hc. zb. tauto. }
  split; [done|]. split_and!; intros Hc; apply H in Hc; tauto.
Qed.
Lemma two_storable : Forall storable_app (live_apps two_list) ∧ Forall storable_ctx (live_ctxs two_list).
Proof.
  assert (∀ i, is_id i -> empty_id i = false -> forallb (λ c, negb (c =? colon) && negb (c =? newline)) i = true -> storable_id i) as Hi.
  { intros i H1 H2 Hf. split; [by split|]. rewrite forallb_forall in Hf. split; intros Hc; apply list_elem_of_In, Hf in Hc; by vm_compute in Hc. }
  assert (live_apps two_list = [runtime_app (name 49) (Some [111; 110; 101]) 2]) as -> by done.
  assert (live_ctxs two_list = [runtime_ctx [65; 0; 0; 0] 6 1 0 (Some [120]); runtime_ctx [67; 84; 88; 50] (-1) 0 1 (Some [97; 32; 98])]) as -> by done.
  split; repeat constructor; try (by apply Hi); try (by vm_compute); eexists; (split; [reflexivity|]); by apply plain_forallb.
Qed.

Lemma tables_survive_restart_witness :
  ∃ fa fc d' u', dlt_daemon_applications_save (Some [97]) true two_saved = Some (0, Some fa) ∧ dlt_daemon_contexts_save (Some [99]) true two_saved = Some (0, Some fc) ∧
    load_runtime (heap_filled 0) App.zeroed (λ _, 9) (Some [97]) (Some [99]) (Some {| text := fa; failing := false |}) (Some {| text := fc; failing := false |}) empty_tables = Some d' ∧
    daemon_inv d' ∧ own_list d' (ecuid d') 0 u' ∧
    App.application_description <$> amap u' = App.application_description <$> amap two_list ∧ saved <$> cmap u' = saved <$> cmap two_list ∧
    ∀ c ll ts pos h descr, c ∈ live_ctxs two_list -> DLT_LOG_DEFAULT <= ll <= DLT_LOG_VERBOSE -> DLT_TRACE_STATUS_DEFAULT <= ts <= DLT_TRACE_STATUS_ON ->
      ∃ k d2 u2 c2, dlt_daemon_context_add (heap_filled 0) d' (Ctx.apid c) (Ctx.ctid c) ll ts pos h descr (ecuid d') = Some (Some k, d2) ∧
        own_list d2 (ecuid d') 0 u2 ∧ live_ctxs u2 !! k = Some c2 ∧ Ctx.log_level_pos c2 = pos ∧
        Ctx.log_level c2 = Ctx.log_level c ∧ Ctx.trace_status c2 = Ctx.trace_status c.
Proof.
  apply (tables_survive_restart (heap_filled 0) App.zeroed (λ _, 9) (Some [97]) (Some [99]) two_saved 0 two_list empty_tables 0 empty_list).
  - done.
  - done.
  - done.
  - exact two_saved_inv.
  - done.
  - apply two_storable.
  - apply two_storable.
  - done.
  - done.
  - assert (live_ctxs two_list = [runtime_ctx [65; 0; 0; 0] 6 1 0 (Some [120]); runtime_ctx [67; 84; 88; 50] (-1) 0 1 (Some [97; 32; 98])]) as -> by done.
    intros c Hc. rewrite !elem_of_cons, elem_of_nil in Hc. destruct Hc as [->|[->|[]]]; by eexists.
  - exact empty_tables_inv.
  - done.
  - done.
  - done.
  - done.
Defined.

(** ** What is not as it seems *)

(** The applications after saving [d] and starting with the file. *)
Definition apps_after_restart (d : DltDaemon) : option (list (bytes * option bytes)) :=
  '(_, f) ← dlt_daemon_applications_save (Some [97]) true d;
  f ← f;
  '(_, d) ← dlt_daemon_applications_load (heap_filled 0) App.zeroed (λ _, 9) (Some [97]) (Some {| text := f; failing := false |}) empty_tables;
  u ← user_list d !! 0%nat;
  Some ((λ a, (App.apid a, App.application_description a)) <$> live_apps u).

(** An application without a description gets the end of the line as one. *)
Theorem no_description_becomes_newline :
  apps_after_restart (runtime_tables [runtime_app (name 49) None 0] []) = Some [(name 49, Some [newline])].
Proof. vm_compute. reflexivity. Qed.

(** A description that the daemon accepts (up to 256 characters) does not fit into
    the buffer for a line: the rest is loaded as another application. *)
Theorem long_description_becomes_application :
  apps_after_restart (runtime_tables [runtime_app (name 49) (Some (replicate 250 98)) 0] []) =
  Some [(name 49, Some (replicate 249 98)); ([98; 0; 0; 0], Some [newline])].
Proof. vm_compute. reflexivity. Qed.

(** Without applications nothing is written, so that the old file stays: the
    applications that are gone come back with the next start. *)
Theorem old_file_stays n d i u : no_name n = false -> own_list d (ecuid d) i u -> num_applications u = 0 ->
  dlt_daemon_applications_save n true d = Some (0, None).
Proof. intros Hn [Hf Hu] H0. unfold dlt_daemon_applications_save. rewrite Hn, Hf, Hu. bsimp. rewrite H0. by destruct (applications u). Qed.

End DaemonRuntimeSpec.
