(* ===== verification/LogStorage.v ===== *)
(** * Offline logstorage ([src/offlinelogstorage/dlt_offline_logstorage.c])

    The daemon can store messages in files on a device.  A configuration file on
    the device has filters, each with application and context identifiers, a log
    level and the name of its files.  From the identifiers keys
    "ecu:application:context" are made, where a part that does not matter is empty; a
    message is looked up with all keys it can have.

    Strings are without their terminator; an identifier in a message is the memory
    from its first byte on, as the code calls [strlen] for it.  [None] as a result is
    undefined behaviour.  What is written to files is behind the functions of the
    strategy of a filter ([storage_ops]): [dlt_logstorage_prepare_on_msg] and so on
    of dlt_offline_logstorage_behavior.c, which change their filter and the state [W]
    of caches and files. *)

From stdpp Require Import base list numbers option strings.
From Stdlib Require Import ZArith Lia Bool.
From S2P Require Import Prelude Ids Protocol MultipleFiles ConfigFile.
Import Ids Protocol ConfigFile.

Local Open Scope Z_scope.

Module LogStorage.

Definition DLT_OFFLINE_LOGSTORAGE_MAXIDS : Z := 100.
Definition DLT_OFFLINE_LOGSTORAGE_MAX_KEY_LEN : Z := 15.
Definition DLT_OFFLINE_LOGSTORAGE_MAX_ERRORS : Z := 5.
Definition DLT_OFFLINE_LOGSTORAGE_DEVICE_CONNECTED : Z := 1.
Definition DLT_OFFLINE_LOGSTORAGE_DEVICE_DISCONNECTED : Z := 0.
Definition DLT_OFFLINE_LOGSTORAGE_CONFIG_DONE : Z := 1.
Definition DLT_MOUNT_PATH_MAX : Z := 1024.
Definition DLT_OFFLINE_LOGSTORAGE_FILTER_ERROR : Z := 1.
Definition DLT_OFFLINE_LOGSTORAGE_STORE_FILTER_ERROR : Z := 2.
Definition DLT_OFFLINE_LOGSTORAGE_FILTER_CONTINUE : Z := 3.
Definition DLT_LOGSTORAGE_SYNC_ON_ERROR : Z := -1.
Definition DLT_LOGSTORAGE_SYNC_UNSET : Z := 0.
Definition DLT_LOGSTORAGE_SYNC_ON_MSG : Z := 1.
Definition DLT_LOGSTORAGE_SYNC_ON_DAEMON_EXIT : Z := 2.
Definition DLT_LOGSTORAGE_SYNC_ON_DEMAND : Z := 4.
Definition DLT_LOGSTORAGE_SYNC_ON_DEVICE_DISCONNECT : Z := 8.
Definition DLT_LOGSTORAGE_SYNC_ON_SPECIFIC_SIZE : Z := 16.
Definition DLT_LOGSTORAGE_SYNC_ON_FILE_SIZE : Z := 32.
Definition DLT_LOGSTORAGE_OVERWRITE_DISCARD_OLD : Z := 1.
Definition DLT_LOGSTORAGE_OVERWRITE_DISCARD_NEW : Z := 2.
Definition DLT_LOGSTORAGE_DISABLE_NW_OFF : Z := 1.
Definition DLT_LOGSTORAGE_DISABLE_NW_ON : Z := 2.
Definition DLT_LOGSTORAGE_GZIP_OFF : Z := 1.
Definition DLT_MAINTAIN_LOGSTORAGE_LOGLEVEL_UNDEF : Z := -1.
Definition DLT_MAINTAIN_LOGSTORAGE_LOGLEVEL_OFF : Z := 0.
Definition DLT_MAINTAIN_LOGSTORAGE_LOGLEVEL_ON : Z := 1.
Definition UINT_MAX : Z := 4294967295.

(** The characters of a string constant. *)
Definition lit (s : String.string) : bytes := (λ a, Z.of_nat (Ascii.nat_of_ascii a)) <$> String.list_ascii_of_string s.
#[local] Arguments lit _%_string.

(** ** Strings *)

(** [strcmp(a, b) == 0]. *)
Definition streq (a b : bytes) : bool := bool_decide (a = b).
Definition tolower (c : Z) : Z := if (65 <=? c) && (c <=? 90) then c + 32 else c.
Definition strcasestr (s t : bytes) : bool := MultipleFiles.strstr (tolower <$> s) (tolower <$> t).
(** [strlen] of the memory behind a pointer. *)
Definition strlen (mem : bytes) : option Z :=
  if bool_decide (0 ∈ mem) then Some (zlen (cstr (length mem) mem)) else None.
Definition comma : Z := 44.
Definition colon : bytes := lit ":".

(** ** Lists of identifiers *)

Definition dlt_logstorage_count_ids (str : option bytes) : Z :=
  match str with None => -1 | Some s => 1 + zlen (List.filter (λ c, c =? comma) s) end.

(** The loop over the names; each has a character.  [i] is the number of the
    name, [y] the place in the memory. *)
Fixpoint names_loop (fuel : nat) (s : bytes) (num i y : Z) (names : bytes) : option bytes :=
  match fuel with
  | O => None
  | S fuel =>
      match MultipleFiles.strtok comma s with
      | None => Some names
      | Some (tok, s) =>
          let w := take 4 tok in
          let written := zlen w in
          names ← mwrite names y (w ++ [0]);
          if (0 <? written) && (written <? 5) then
            names ← (if (1 <? num) && (i <? num) then mwrite names (y + written) [comma; 0] else Some names);
            names_loop fuel s num (i + 1) (y + written + 1) names
          else Some names
      end
  end.

(** The return code and the new value of [*names], which was freed. *)
Definition dlt_logstorage_read_list_of_names (A : allocator) (value : bytes) : option (Z * option bytes) :=
  match value with
  | [] => Some (-1, None)
  | _ =>
      let num := dlt_logstorage_count_ids (Some value) in
      match calloc A (num * 5) with
      | None => Some (-1, None)
      | Some names =>
          tok_buf ← strdup A value;
          names ← names_loop (S (length tok_buf)) tok_buf num 1 0 names;
          names ← cstring names;
          Some (0, Some names)
      end
  end.

(** The return code and the number. *)
Definition dlt_logstorage_set_number (number value : Z) : Z * Z := if value =? 0 then (-1, number) else (0, value).
Definition dlt_logstorage_read_number (value : bytes) : Z * Z :=
  if negb (forallb MultipleFiles.is_digit value) then (-1, 0) else
  let size := MultipleFiles.digits_value 0 value in
  if UINT_MAX <? size then (-1, 0) else dlt_logstorage_set_number 0 size.

(** The strings behind [strtok_r]. *)
Fixpoint tokens (fuel : nat) (s : bytes) : list bytes :=
  match fuel with
  | O => []
  | S fuel => match MultipleFiles.strtok comma s with None => [] | Some (t, s) => t :: tokens fuel s end
  end.
Definition split_ids (s : bytes) : list bytes := tokens (S (length s)) s.

(** [None] as the list: the return code is -1.  A slot of the list has five bytes. *)
Definition dlt_logstorage_get_keys_list (A : allocator) (ids : bytes) : option (list bytes) :=
  ids ← strdup A ids;
  match split_ids ids with
  | [] => None
  | ts =>
      _ ← calloc A (DLT_OFFLINE_LOGSTORAGE_MAXIDS * 5);
      Some (take 4 <$> take (Z.to_nat DLT_OFFLINE_LOGSTORAGE_MAXIDS) ts)
  end.

(** [id]: memory of at least four bytes. *)
Definition dlt_logstorage_check_excluded_ids (A : allocator) (id excluded_ids : bytes) : bool :=
  match strdup A excluded_ids with
  | None => false
  | Some ids => existsb (λ t, strncmp_eq 4 id t) (split_ids ids)
  end.

(** ** Keys *)

(** [snprintf] and [strncat] into an array for [n] characters and the terminator. *)
Definition into (n : Z) (s : bytes) : bytes := take (Z.to_nat n) s.

Definition wildcard : bytes := lit ".*".
Definition is_wildcard (s : bytes) : bool := strncmp_eq 2 s wildcard.

Definition ecu_part (ecu : option bytes) : bytes := take 4 (default [] ecu).
Definition dlt_logstorage_create_keys_only_ctid (ecu : option bytes) (ctid : bytes) : bytes :=
  into DLT_OFFLINE_LOGSTORAGE_MAX_KEY_LEN (ecu_part ecu ++ lit "::" ++ ctid).
Definition dlt_logstorage_create_keys_only_apid (ecu : option bytes) (apid : bytes) : bytes :=
  into DLT_OFFLINE_LOGSTORAGE_MAX_KEY_LEN (ecu_part ecu ++ colon ++ apid ++ colon).
Definition dlt_logstorage_create_keys_multi (ecu : option bytes) (apid ctid : bytes) : bytes :=
  into DLT_OFFLINE_LOGSTORAGE_MAX_KEY_LEN (ecu_part ecu ++ colon ++ apid ++ colon ++ ctid).
Definition dlt_logstorage_create_keys_only_ecu (ecu : bytes) : bytes :=
  into DLT_OFFLINE_LOGSTORAGE_MAX_KEY_LEN (take 4 ecu ++ lit "::").

(** A key in its slot of [MAX_KEY_LEN] bytes. *)
Definition slot (k : bytes) : bytes := into (DLT_OFFLINE_LOGSTORAGE_MAX_KEY_LEN - 1) k.

Definition one_key (ecu : option bytes) (apid ctid : bytes) : bytes :=
  slot (if is_wildcard apid then dlt_logstorage_create_keys_only_ctid ecu ctid
        else if is_wildcard ctid then dlt_logstorage_create_keys_only_apid ecu apid
        else dlt_logstorage_create_keys_multi ecu apid ctid).

(** [None]: the return code is -1. *)
Definition dlt_logstorage_create_keys (A : allocator) (apids ctids ecuid : option bytes) : option (list bytes) :=
  let only_ecu := match apids, ctids with None, None => true | Some a, Some c => is_wildcard a && is_wildcard c | _, _ => false end in
  match only_ecu, ecuid with
  | true, Some ecu =>
      _ ← calloc A DLT_OFFLINE_LOGSTORAGE_MAX_KEY_LEN;
      Some [slot (dlt_logstorage_create_keys_only_ecu ecu)]
  | _, _ =>
      apids ← apids; ctids ← ctids;
      apid_list ← dlt_logstorage_get_keys_list A apids;
      ctid_list ← dlt_logstorage_get_keys_list A ctids;
      _ ← calloc A (zlen apid_list * zlen ctid_list * DLT_OFFLINE_LOGSTORAGE_MAX_KEY_LEN);
      Some (apid ← apid_list; one_key ecuid apid <$> ctid_list)
  end.

(** ** Filters *)

(** The functions for a filter: those for files or those for a cache. *)
Inductive Behavior := OnMsg | MsgCache.

Module Flt.
Record DltLogStorageFilterConfig := {
  apids : option bytes;
  ctids : option bytes;
  excluded_apids : option bytes;
  excluded_ctids : option bytes;
  log_level : Z;
  reset_log_level : Z;
  file_name : option bytes;
  working_file_name : option bytes;
  wrap_id : Z;
  file_size : Z;
  num_files : Z;
  sync : Z;
  overwrite : Z;
  skip : Z;
  ecuid : option bytes;
  gzip_compression : Z;
  behavior : Behavior;
  specific_size : Z;
  disable_network_routing : Z
}.
Definition set_apids (c : DltLogStorageFilterConfig) (x : option bytes) : DltLogStorageFilterConfig :=
  {| apids := x; ctids := ctids c; excluded_apids := excluded_apids c; excluded_ctids := excluded_ctids c;
     log_level := log_level c; reset_log_level := reset_log_level c; file_name := file_name c;
     working_file_name := working_file_name c; wrap_id := wrap_id c; file_size := file_size c; num_files := num_files c;
     sync := sync c; overwrite := overwrite c; skip := skip c; ecuid := ecuid c; gzip_compression := gzip_compression c;
     behavior := behavior c; specific_size := specific_size c; disable_network_routing := disable_network_routing c |}.
Definition set_ctids (c : DltLogStorageFilterConfig) (x : option bytes) : DltLogStorageFilterConfig :=
  {| apids := apids c; ctids := x; excluded_apids := excluded_apids c; excluded_ctids := excluded_ctids c;
     log_level := log_level c; reset_log_level := reset_log_level c; file_name := file_name c;
     working_file_name := working_file_name c; wrap_id := wrap_id c; file_size := file_size c; num_files := num_files c;
     sync := sync c; overwrite := overwrite c; skip := skip c; ecuid := ecuid c; gzip_compression := gzip_compression c;
     behavior := behavior c; specific_size := specific_size c; disable_network_routing := disable_network_routing c |}.
Definition set_excluded_apids (c : DltLogStorageFilterConfig) (x : option bytes) : DltLogStorageFilterConfig :=
  {| apids := apids c; ctids := ctids c; excluded_apids := x; excluded_ctids := excluded_ctids c; log_level := log_level c;
     reset_log_level := reset_log_level c; file_name := file_name c; working_file_name := working_file_name c;
     wrap_id := wrap_id c; file_size := file_size c; num_files := num_files c; sync := sync c; overwrite := overwrite c;
     skip := skip c; ecuid := ecuid c; gzip_compression := gzip_compression c; behavior := behavior c;
     specific_size := specific_size c; disable_network_routing := disable_network_routing c |}.
Definition set_excluded_ctids (c : DltLogStorageFilterConfig) (x : option bytes) : DltLogStorageFilterConfig :=
  {| apids := apids c; ctids := ctids c; excluded_apids := excluded_apids c; excluded_ctids := x; log_level := log_level c;
     reset_log_level := reset_log_level c; file_name := file_name c; working_file_name := working_file_name c;
     wrap_id := wrap_id c; file_size := file_size c; num_files := num_files c; sync := sync c; overwrite := overwrite c;
     skip := skip c; ecuid := ecuid c; gzip_compression := gzip_compression c; behavior := behavior c;
     specific_size := specific_size c; disable_network_routing := disable_network_routing c |}.
Definition set_log_level (c : DltLogStorageFilterConfig) (x : Z) : DltLogStorageFilterConfig :=
  {| apids := apids c; ctids := ctids c; excluded_apids := excluded_apids c; excluded_ctids := excluded_ctids c;
     log_level := x; reset_log_level := reset_log_level c; file_name := file_name c;
     working_file_name := working_file_name c; wrap_id := wrap_id c; file_size := file_size c; num_files := num_files c;
     sync := sync c; overwrite := overwrite c; skip := skip c; ecuid := ecuid c; gzip_compression := gzip_compression c;
     behavior := behavior c; specific_size := specific_size c; disable_network_routing := disable_network_routing c |}.
Definition set_reset_log_level (c : DltLogStorageFilterConfig) (x : Z) : DltLogStorageFilterConfig :=
  {| apids := apids c; ctids := ctids c; excluded_apids := excluded_apids c; excluded_ctids := excluded_ctids c;
     log_level := log_level c; reset_log_level := x; file_name := file_name c; working_file_name := working_file_name c;
     wrap_id := wrap_id c; file_size := file_size c; num_files := num_files c; sync := sync c; overwrite := overwrite c;
     skip := skip c; ecuid := ecuid c; gzip_compression := gzip_compression c; behavior := behavior c;
     specific_size := specific_size c; disable_network_routing := disable_network_routing c |}.
Definition set_file_name (c : DltLogStorageFilterConfig) (x : option bytes) : DltLogStorageFilterConfig :=
  {| apids := apids c; ctids := ctids c; excluded_apids := excluded_apids c; excluded_ctids := excluded_ctids c;
     log_level := log_level c; reset_log_level := reset_log_level c; file_name := x;
     working_file_name := working_file_name c; wrap_id := wrap_id c; file_size := file_size c; num_files := num_files c;
     sync := sync c; overwrite := overwrite c; skip := skip c; ecuid := ecuid c; gzip_compression := gzip_compression c;
     behavior := behavior c; specific_size := specific_size c; disable_network_routing := disable_network_routing c |}.
Definition set_file_size (c : DltLogStorageFilterConfig) (x : Z) : DltLogStorageFilterConfig :=
  {| apids := apids c; ctids := ctids c; excluded_apids := excluded_apids c; excluded_ctids := excluded_ctids c;
     log_level := log_level c; reset_log_level := reset_log_level c; file_name := file_name c;
     working_file_name := working_file_name c; wrap_id := wrap_id c; file_size := x; num_files := num_files c;
     sync := sync c; overwrite := overwrite c; skip := skip c; ecuid := ecuid c; gzip_compression := gzip_compression c;
     behavior := behavior c; specific_size := specific_size c; disable_network_routing := disable_network_routing c |}.
Definition set_num_files (c : DltLogStorageFilterConfig) (x : Z) : DltLogStorageFilterConfig :=
  {| apids := apids c; ctids := ctids c; excluded_apids := excluded_apids c; excluded_ctids := excluded_ctids c;
     log_level := log_level c; reset_log_level := reset_log_level c; file_name := file_name c;
     working_file_name := working_file_name c; wrap_id := wrap_id c; file_size := file_size c; num_files := x;
     sync := sync c; overwrite := overwrite c; skip := skip c; ecuid := ecuid c; gzip_compression := gzip_compression c;
     behavior := behavior c; specific_size := specific_size c; disable_network_routing := disable_network_routing c |}.
Definition set_sync (c : DltLogStorageFilterConfig) (x : Z) : DltLogStorageFilterConfig :=
  {| apids := apids c; ctids := ctids c; excluded_apids := excluded_apids c; excluded_ctids := excluded_ctids c;
     log_level := log_level c; reset_log_level := reset_log_level c; file_name := file_name c;
     working_file_name := working_file_name c; wrap_id := wrap_id c; file_size := file_size c; num_files := num_files c;
     sync := x; overwrite := overwrite c; skip := skip c; ecuid := ecuid c; gzip_compression := gzip_compression c;
     behavior := behavior c; specific_size := specific_size c; disable_network_routing := disable_network_routing c |}.
Definition set_overwrite (c : DltLogStorageFilterConfig) (x : Z) : DltLogStorageFilterConfig :=
  {| apids := apids c; ctids := ctids c; excluded_apids := excluded_apids c; excluded_ctids := excluded_ctids c;
     log_level := log_level c; reset_log_level := reset_log_level c; file_name := file_name c;
     working_file_name := working_file_name c; wrap_id := wrap_id c; file_size := file_size c; num_files := num_files c;
     sync := sync c; overwrite := x; skip := skip c; ecuid := ecuid c; gzip_compression := gzip_compression c;
     behavior := behavior c; specific_size := specific_size c; disable_network_routing := disable_network_routing c |}.
Definition set_skip (c : DltLogStorageFilterConfig) (x : Z) : DltLogStorageFilterConfig :=
  {| apids := apids c; ctids := ctids c; excluded_apids := excluded_apids c; excluded_ctids := excluded_ctids c;
     log_level := log_level c; reset_log_level := reset_log_level c; file_name := file_name c;
     working_file_name := working_file_name c; wrap_id := wrap_id c; file_size := file_size c; num_files := num_files c;
     sync := sync c; overwrite := overwrite c; skip := x; ecuid := ecuid c; gzip_compression := gzip_compression c;
     behavior := behavior c; specific_size := specific_size c; disable_network_routing := disable_network_routing c |}.
Definition set_ecuid (c : DltLogStorageFilterConfig) (x : option bytes) : DltLogStorageFilterConfig :=
  {| apids := apids c; ctids := ctids c; excluded_apids := excluded_apids c; excluded_ctids := excluded_ctids c;
     log_level := log_level c; reset_log_level := reset_log_level c; file_name := file_name c;
     working_file_name := working_file_name c; wrap_id := wrap_id c; file_size := file_size c; num_files := num_files c;
     sync := sync c; overwrite := overwrite c; skip := skip c; ecuid := x; gzip_compression := gzip_compression c;
     behavior := behavior c; specific_size := specific_size c; disable_network_routing := disable_network_routing c |}.
Definition set_gzip_compression (c : DltLogStorageFilterConfig) (x : Z) : DltLogStorageFilterConfig :=
  {| apids := apids c; ctids := ctids c; excluded_apids := excluded_apids c; excluded_ctids := excluded_ctids c;
     log_level := log_level c; reset_log_level := reset_log_level c; file_name := file_name c;
     working_file_name := working_file_name c; wrap_id := wrap_id c; file_size := file_size c; num_files := num_files c;
     sync := sync c; overwrite := overwrite c; skip := skip c; ecuid := ecuid c; gzip_compression := x;
     behavior := behavior c; specific_size := specific_size c; disable_network_routing := disable_network_routing c |}.
Definition set_behavior (c : DltLogStorageFilterConfig) (x : Behavior) : DltLogStorageFilterConfig :=
  {| apids := apids c; ctids := ctids c; excluded_apids := excluded_apids c; excluded_ctids := excluded_ctids c;
     log_level := log_level c; reset_log_level := reset_log_level c; file_name := file_name c;
     working_file_name := working_file_name c; wrap_id := wrap_id c; file_size := file_size c; num_files := num_files c;
     sync := sync c; overwrite := overwrite c; skip := skip c; ecuid := ecuid c; gzip_compression := gzip_compression c;
     behavior := x; specific_size := specific_size c; disable_network_routing := disable_network_routing c |}.
Definition set_specific_size (c : DltLogStorageFilterConfig) (x : Z) : DltLogStorageFilterConfig :=
  {| apids := apids c; ctids := ctids c; excluded_apids := excluded_apids c; excluded_ctids := excluded_ctids c;
     log_level := log_level c; reset_log_level := reset_log_level c; file_name := file_name c;
     working_file_name := working_file_name c; wrap_id := wrap_id c; file_size := file_size c; num_files := num_files c;
     sync := sync c; overwrite := overwrite c; skip := skip c; ecuid := ecuid c; gzip_compression := gzip_compression c;
     behavior := behavior c; specific_size := x; disable_network_routing := disable_network_routing c |}.
Definition set_disable_network_routing (c : DltLogStorageFilterConfig) (x : Z) : DltLogStorageFilterConfig :=
  {| apids := apids c; ctids := ctids c; excluded_apids := excluded_apids c; excluded_ctids := excluded_ctids c;
     log_level := log_level c; reset_log_level := reset_log_level c; file_name := file_name c;
     working_file_name := working_file_name c; wrap_id := wrap_id c; file_size := file_size c; num_files := num_files c;
     sync := sync c; overwrite := overwrite c; skip := skip c; ecuid := ecuid c; gzip_compression := gzip_compression c;
     behavior := behavior c; specific_size := specific_size c; disable_network_routing := x |}.
(** [memset] with the values behind it. *)
Definition fresh : DltLogStorageFilterConfig :=
  {| apids := None; ctids := None; excluded_apids := None; excluded_ctids := None; log_level := 6; reset_log_level := 0;
     file_name := None; working_file_name := None; wrap_id := 0; file_size := 0; num_files := 0; sync := 0; overwrite := 0;
     skip := 0; ecuid := None; gzip_compression := 0; behavior := OnMsg; specific_size := 0;
     disable_network_routing := DLT_LOGSTORAGE_DISABLE_NW_OFF |}.
End Flt.
Import Flt.

(** ** Values of the configuration file

    Each gives the return code and the filter. *)

Definition stored_names (A : allocator) (set : option bytes -> DltLogStorageFilterConfig) (value : bytes) : option (Z * DltLogStorageFilterConfig) :=
  '(rc, names) ← dlt_logstorage_read_list_of_names A value; Some (rc, set names).
Definition dlt_logstorage_check_apids (A : allocator) (c : DltLogStorageFilterConfig) (value : bytes) := stored_names A (set_apids c) value.
Definition dlt_logstorage_check_ctids (A : allocator) (c : DltLogStorageFilterConfig) (value : bytes) := stored_names A (set_ctids c) value.
Definition dlt_logstorage_store_config_excluded_apids (A : allocator) (c : DltLogStorageFilterConfig) (value : bytes) := stored_names A (set_excluded_apids c) value.
Definition dlt_logstorage_store_config_excluded_ctids (A : allocator) (c : DltLogStorageFilterConfig) (value : bytes) := stored_names A (set_excluded_ctids c) value.

Definition dlt_logstorage_set_loglevel (value : Z) : Z * Z := if (value <=? -1) || (7 <=? value) then (-1, -1) else (0, value).
Definition dlt_logstorage_check_loglevel (c : DltLogStorageFilterConfig) (value : bytes) : Z * DltLogStorageFilterConfig :=
  let ll :=
    if streq value (lit "DLT_LOG_FATAL") then 1 else if streq value (lit "DLT_LOG_ERROR") then 2
    else if streq value (lit "DLT_LOG_WARN") then 3 else if streq value (lit "DLT_LOG_INFO") then 4
    else if streq value (lit "DLT_LOG_DEBUG") then 5 else if streq value (lit "DLT_LOG_VERBOSE") then 6 else -1 in
  let '(rc, ll) := dlt_logstorage_set_loglevel ll in (rc, set_log_level c ll).
Definition dlt_logstorage_check_reset_loglevel (c : DltLogStorageFilterConfig) (value : bytes) : Z * DltLogStorageFilterConfig :=
  if streq value (lit "DLT_LOG_OFF") then (0, set_reset_log_level c 0) else if streq value (lit "DLT_LOG_FATAL") then (0, set_reset_log_level c 1)
  else if streq value (lit "DLT_LOG_ERROR") then (0, set_reset_log_level c 2) else if streq value (lit "DLT_LOG_WARN") then (0, set_reset_log_level c 3)
  else if streq value (lit "DLT_LOG_INFO") then (0, set_reset_log_level c 4) else if streq value (lit "DLT_LOG_DEBUG") then (0, set_reset_log_level c 5)
  else if streq value (lit "DLT_LOG_VERBOSE") then (0, set_reset_log_level c 6) else (-1, set_reset_log_level c (-1)).

(** A file name that was freed is not used again. *)
Definition dlt_logstorage_check_filename (A : allocator) (c : DltLogStorageFilterConfig) (value : bytes) : Z * DltLogStorageFilterConfig :=
  match value with
  | [] => (-1, c)
  | _ =>
      if MultipleFiles.strstr value (lit "..") then (-1, set_file_name c None) else
      match calloc A (zlen value + 1) with
      | None => (-1, set_file_name c None)
      | Some _ => (0, set_file_name c (Some value))
      end
  end.
Definition dlt_logstorage_check_filesize (c : DltLogStorageFilterConfig) (value : bytes) : Z * DltLogStorageFilterConfig :=
  let '(rc, n) := dlt_logstorage_read_number value in (rc, set_file_size c n).
Definition dlt_logstorage_check_nofiles (c : DltLogStorageFilterConfig) (value : bytes) : Z * DltLogStorageFilterConfig :=
  let '(rc, n) := dlt_logstorage_read_number value in (rc, set_num_files c n).
Definition dlt_logstorage_check_specificsize (c : DltLogStorageFilterConfig) (value : bytes) : Z * DltLogStorageFilterConfig :=
  let '(rc, n) := dlt_logstorage_read_number value in (rc, set_specific_size c n).

Definition strategy_bit (value : bytes) (n : String.string) (bit sync : Z) : Z := if strcasestr value (lit n) then Z.lor sync bit else sync.
#[local] Arguments strategy_bit _ _%_string _ _.
Definition dlt_logstorage_check_sync_strategy (c : DltLogStorageFilterConfig) (value : bytes) : Z * DltLogStorageFilterConfig :=
  if strcasestr value (lit "ON_MSG") then (0, set_sync c DLT_LOGSTORAGE_SYNC_ON_MSG) else
  let s := strategy_bit value "ON_DAEMON_EXIT" DLT_LOGSTORAGE_SYNC_ON_DAEMON_EXIT (sync c) in
  let s := strategy_bit value "ON_DEMAND" DLT_LOGSTORAGE_SYNC_ON_DEMAND s in
  let s := strategy_bit value "ON_DEVICE_DISCONNECT" DLT_LOGSTORAGE_SYNC_ON_DEVICE_DISCONNECT s in
  let s := strategy_bit value "ON_SPECIFIC_SIZE" DLT_LOGSTORAGE_SYNC_ON_SPECIFIC_SIZE s in
  let s := strategy_bit value "ON_FILE_SIZE" DLT_LOGSTORAGE_SYNC_ON_FILE_SIZE s in
  if s =? 0 then (1, set_sync c DLT_LOGSTORAGE_SYNC_ON_MSG) else (0, set_sync c s).
Definition dlt_logstorage_check_overwrite_strategy (c : DltLogStorageFilterConfig) (value : bytes) : Z * DltLogStorageFilterConfig :=
  if strcasestr value (lit "DISCARD_OLD") then (0, set_overwrite c DLT_LOGSTORAGE_OVERWRITE_DISCARD_OLD)
  else if strcasestr value (lit "DISCARD_NEW") then (0, set_overwrite c DLT_LOGSTORAGE_OVERWRITE_DISCARD_NEW)
  else (1, set_overwrite c DLT_LOGSTORAGE_OVERWRITE_DISCARD_OLD).
Definition dlt_logstorage_check_disable_network (c : DltLogStorageFilterConfig) (value : bytes) : Z * DltLogStorageFilterConfig :=
  if strcasestr value (lit "ON") then (0, set_disable_network_routing c DLT_LOGSTORAGE_DISABLE_NW_ON)
  else if strcasestr value (lit "OFF") then (0, set_disable_network_routing c DLT_LOGSTORAGE_DISABLE_NW_OFF)
  else (1, set_disable_network_routing c DLT_LOGSTORAGE_DISABLE_NW_OFF).
(** Without support for gzip. *)
Definition dlt_logstorage_check_gzip_compression (c : DltLogStorageFilterConfig) : Z * DltLogStorageFilterConfig :=
  (0, set_gzip_compression c DLT_LOGSTORAGE_GZIP_OFF).
Definition dlt_logstorage_check_ecuid (A : allocator) (c : DltLogStorageFilterConfig) (value : bytes) : Z * DltLogStorageFilterConfig :=
  match value with
  | [] => (-1, c)
  | _ =>
      match calloc A (zlen value + 1) with
      | None => (-1, set_ecuid c None)
      | Some _ => (0, set_ecuid c (Some value))
      end
  end.

Inductive DltLogstorageFilterConfType :=
  LOGAPPNAME | CONTEXTNAME | EXCLUDED_LOGAPPNAME | EXCLUDED_CONTEXTNAME | LOGLEVEL | RESET_LOGLEVEL | FILE | FILESIZE
  | NOFILES | SYNCBEHAVIOR | OVERWRITEBEHAVIOR | ECUID | SPECIFIC_SIZE | GZIP_COMPRESSION | DISABLE_NETWORK.
Definition conf_types : list DltLogstorageFilterConfType :=
  [LOGAPPNAME; CONTEXTNAME; EXCLUDED_LOGAPPNAME; EXCLUDED_CONTEXTNAME; LOGLEVEL; RESET_LOGLEVEL; FILE; FILESIZE;
   NOFILES; SYNCBEHAVIOR; OVERWRITEBEHAVIOR; ECUID; SPECIFIC_SIZE; GZIP_COMPRESSION; DISABLE_NETWORK].

(** The key, [None] for a null pointer, and whether it is optional. *)
Definition named (s : String.string) (is_opt : bool) : option bytes * bool := (Some (lit s), is_opt).
#[local] Arguments named _%_string _.
Definition filter_cfg_entries (t : DltLogstorageFilterConfType) : option bytes * bool :=
  match t with
  | LOGAPPNAME => named "LogAppName" true
  | CONTEXTNAME => named "ContextName" true
  | EXCLUDED_LOGAPPNAME => named "ExcludedLogAppName" true
  | EXCLUDED_CONTEXTNAME => named "ExcludedContextName" true
  | LOGLEVEL => named "LogLevel" false
  | RESET_LOGLEVEL => (None, false)
  | FILE => named "File" false
  | FILESIZE => named "FileSize" false
  | NOFILES => named "NOFiles" false
  | SYNCBEHAVIOR => named "SyncBehavior" true
  | OVERWRITEBEHAVIOR => named "OverwriteBehavior" true
  | ECUID => named "EcuID" true
  | SPECIFIC_SIZE => named "SpecificSize" true
  | GZIP_COMPRESSION => named "GzipCompression" true
  | DISABLE_NETWORK => named "DisableNetwork" true
  end.
Definition filter_nonverbose_storage_entries (t : DltLogstorageFilterConfType) : option bytes * bool :=
  match t with
  | FILE => named "File" false
  | FILESIZE => named "FileSize" false
  | NOFILES => named "NOFiles" false
  | ECUID => named "EcuID" false
  | GZIP_COMPRESSION => named "GzipCompression" true
  | LOGAPPNAME | CONTEXTNAME | LOGLEVEL | RESET_LOGLEVEL => (None, false)
  | EXCLUDED_LOGAPPNAME | EXCLUDED_CONTEXTNAME | SYNCBEHAVIOR | OVERWRITEBEHAVIOR | SPECIFIC_SIZE | DISABLE_NETWORK => (None, true)
  end.
Definition filter_nonverbose_control_entries (t : DltLogstorageFilterConfType) : option bytes * bool :=
  match t with
  | LOGAPPNAME => named "LogAppName" false
  | CONTEXTNAME => named "ContextName" false
  | LOGLEVEL => named "LogLevel" false
  | RESET_LOGLEVEL => named "ResetLogLevel" true
  | ECUID => named "EcuID" false
  | GZIP_COMPRESSION => named "GzipCompression" true
  | FILE | FILESIZE | NOFILES => (None, false)
  | EXCLUDED_LOGAPPNAME | EXCLUDED_CONTEXTNAME | SYNCBEHAVIOR | OVERWRITEBEHAVIOR | SPECIFIC_SIZE | DISABLE_NETWORK => (None, true)
  end.

(** The functions of [filter_cfg_entries]. *)
Definition dlt_logstorage_check_param (A : allocator) (c : DltLogStorageFilterConfig) (t : DltLogstorageFilterConfType) (value : bytes)
  : option (Z * DltLogStorageFilterConfig) :=
  match t with
  | LOGAPPNAME => dlt_logstorage_check_apids A c value
  | CONTEXTNAME => dlt_logstorage_check_ctids A c value
  | EXCLUDED_LOGAPPNAME => dlt_logstorage_store_config_excluded_apids A c value
  | EXCLUDED_CONTEXTNAME => dlt_logstorage_store_config_excluded_ctids A c value
  | LOGLEVEL => Some (dlt_logstorage_check_loglevel c value)
  | RESET_LOGLEVEL => Some (dlt_logstorage_check_reset_loglevel c value)
  | FILE => Some (dlt_logstorage_check_filename A c value)
  | FILESIZE => Some (dlt_logstorage_check_filesize c value)
  | NOFILES => Some (dlt_logstorage_check_nofiles c value)
  | SYNCBEHAVIOR => Some (dlt_logstorage_check_sync_strategy c value)
  | OVERWRITEBEHAVIOR => Some (dlt_logstorage_check_overwrite_strategy c value)
  | ECUID => Some (dlt_logstorage_check_ecuid A c value)
  | SPECIFIC_SIZE => Some (dlt_logstorage_check_specificsize c value)
  | GZIP_COMPRESSION => Some (dlt_logstorage_check_gzip_compression c)
  | DISABLE_NETWORK => Some (dlt_logstorage_check_disable_network c value)
  end.

(** The return code and the memory for the value. *)
Definition dlt_logstorage_get_filter_section_value (f : DltConfigFile) (sec_name : bytes) (e : option bytes * bool) (value : bytes) : option (Z * bytes) :=
  match e with
  | (Some k, is_opt) =>
      '(ret, value) ← dlt_config_file_get_value f sec_name k value;
      Some (if ret =? 0 then 0 else if is_opt then DLT_OFFLINE_LOGSTORAGE_FILTER_CONTINUE else DLT_OFFLINE_LOGSTORAGE_FILTER_ERROR, value)
  | (None, _) => Some (DLT_OFFLINE_LOGSTORAGE_FILTER_CONTINUE, value)
  end.

Definition has_prefix (s p : bytes) : bool := strncmp_eq (length p) s p.
Definition CONFIG_SECTION : bytes := lit "FILTER".
Definition NONVERBOSE_STORAGE_SECTION : bytes := lit "NON-VERBOSE-STORAGE-FILTER".
Definition NONVERBOSE_CONTROL_SECTION : bytes := lit "NON-VERBOSE-LOGLEVEL-CTRL".

Definition dlt_logstorage_get_filter_value (f : DltConfigFile) (sec_name : bytes) (t : DltLogstorageFilterConfType) (value : bytes) : option (Z * bytes) :=
  if has_prefix sec_name CONFIG_SECTION then dlt_logstorage_get_filter_section_value f sec_name (filter_cfg_entries t) value
  else if has_prefix sec_name NONVERBOSE_STORAGE_SECTION then dlt_logstorage_get_filter_section_value f sec_name (filter_nonverbose_storage_entries t) value
  else if has_prefix sec_name NONVERBOSE_CONTROL_SECTION then dlt_logstorage_get_filter_section_value f sec_name (filter_nonverbose_control_entries t) value
  else Some (DLT_OFFLINE_LOGSTORAGE_FILTER_ERROR, value).

(** The characters behind the prefix but the last one must be digits ([len - 1] is
    not negative, as the name is not empty). *)
Definition digits_behind (p name : bytes) : Z :=
  if forallb MultipleFiles.is_digit (removelast (drop (length p) name)) then 0 else -1.
Definition dlt_logstorage_validate_filter_name (name : bytes) : Z :=
  if has_prefix name CONFIG_SECTION then digits_behind CONFIG_SECTION name
  else if has_prefix name NONVERBOSE_STORAGE_SECTION then digits_behind NONVERBOSE_STORAGE_SECTION name
  else if has_prefix name NONVERBOSE_CONTROL_SECTION then digits_behind NONVERBOSE_CONTROL_SECTION name
  else -1.

Definition dlt_logstorage_filter_set_strategy (c : DltLogStorageFilterConfig) (strategy : Z) : DltLogStorageFilterConfig :=
  set_behavior c (if (strategy =? DLT_LOGSTORAGE_SYNC_ON_MSG) || (strategy =? DLT_LOGSTORAGE_SYNC_UNSET) then OnMsg else MsgCache).

(** ** The handle *)

Record DltLogStorageFilterList := { key_list : list bytes; data : DltLogStorageFilterConfig }.
Record DltNewestFileName := { nf_file_name : bytes; newest_file : option bytes; nf_wrap_id : Z }.

(** [uconfig] is an argument of the functions of a strategy and has no other use;
    there is one configuration mode. *)
Record DltLogStorage := {
  config_list : list DltLogStorageFilterList;
  num_configs : Z;
  device_mount_point : bytes;
  connection_type : Z;
  config_status : Z;
  prepare_errors : Z;
  write_errors : Z;
  newest_file_list : list DltNewestFileName;
  maintain_logstorage_loglevel : Z
}.
Definition set_config_list (h : DltLogStorage) (x : list DltLogStorageFilterList) : DltLogStorage :=
  {| config_list := x; num_configs := num_configs h; device_mount_point := device_mount_point h;
     connection_type := connection_type h; config_status := config_status h; prepare_errors := prepare_errors h;
     write_errors := write_errors h; newest_file_list := newest_file_list h;
     maintain_logstorage_loglevel := maintain_logstorage_loglevel h |}.
Definition set_num_configs (h : DltLogStorage) (x : Z) : DltLogStorage :=
  {| config_list := config_list h; num_configs := x; device_mount_point := device_mount_point h;
     connection_type := connection_type h; config_status := config_status h; prepare_errors := prepare_errors h;
     write_errors := write_errors h; newest_file_list := newest_file_list h;
     maintain_logstorage_loglevel := maintain_logstorage_loglevel h |}.
Definition set_config_status (h : DltLogStorage) (x : Z) : DltLogStorage :=
  {| config_list := config_list h; num_configs := num_configs h; device_mount_point := device_mount_point h;
     connection_type := connection_type h; config_status := x; prepare_errors := prepare_errors h;
     write_errors := write_errors h; newest_file_list := newest_file_list h;
     maintain_logstorage_loglevel := maintain_logstorage_loglevel h |}.
Definition set_prepare_errors (h : DltLogStorage) (x : Z) : DltLogStorage :=
  {| config_list := config_list h; num_configs := num_configs h; device_mount_point := device_mount_point h;
     connection_type := connection_type h; config_status := config_status h; prepare_errors := x;
     write_errors := write_errors h; newest_file_list := newest_file_list h;
     maintain_logstorage_loglevel := maintain_logstorage_loglevel h |}.
Definition set_write_errors (h : DltLogStorage) (x : Z) : DltLogStorage :=
  {| config_list := config_list h; num_configs := num_configs h; device_mount_point := device_mount_point h;
     connection_type := connection_type h; config_status := config_status h; prepare_errors := prepare_errors h;
     write_errors := x; newest_file_list := newest_file_list h;
     maintain_logstorage_loglevel := maintain_logstorage_loglevel h |}.
Definition set_newest_file_list (h : DltLogStorage) (x : list DltNewestFileName) : DltLogStorage :=
  {| config_list := config_list h; num_configs := num_configs h; device_mount_point := device_mount_point h;
     connection_type := connection_type h; config_status := config_status h; prepare_errors := prepare_errors h;
     write_errors := write_errors h; newest_file_list := x;
     maintain_logstorage_loglevel := maintain_logstorage_loglevel h |}.
Definition set_maintain_logstorage_loglevel (h : DltLogStorage) (x : Z) : DltLogStorage :=
  {| config_list := config_list h; num_configs := num_configs h; device_mount_point := device_mount_point h;
     connection_type := connection_type h; config_status := config_status h; prepare_errors := prepare_errors h;
     write_errors := write_errors h; newest_file_list := newest_file_list h; maintain_logstorage_loglevel := x |}.

(** The copy of a filter: strings are duplicated, without a check. *)
Definition dlt_logstorage_list_add_config (A : allocator) (c : DltLogStorageFilterConfig) : DltLogStorageFilterConfig :=
  let c := set_apids c (apids c ≫= strdup A) in
  let c := set_ctids c (ctids c ≫= strdup A) in
  let c := set_excluded_apids c (excluded_apids c ≫= strdup A) in
  let c := set_excluded_ctids c (excluded_ctids c ≫= strdup A) in
  let c := set_file_name c (file_name c ≫= strdup A) in
  set_ecuid c (ecuid c ≫= strdup A).

Definition sizeof_DltLogStorageFilterList : Z := 32.
Definition sizeof_DltLogStorageFilterConfig : Z := 176.
Definition sizeof_DltNewestFileName : Z := 32.

(** [None]: the return code is -1. *)
Definition dlt_logstorage_list_add (A : allocator) (keys : list bytes) (c : DltLogStorageFilterConfig) (l : list DltLogStorageFilterList)
  : option (list DltLogStorageFilterList) :=
  _ ← calloc A sizeof_DltLogStorageFilterList;
  _ ← calloc A (zlen keys * DLT_OFFLINE_LOGSTORAGE_MAX_KEY_LEN);
  _ ← calloc A sizeof_DltLogStorageFilterConfig;
  Some (l ++ [{| key_list := keys; data := dlt_logstorage_list_add_config A c |}]).

(** The filters found are written to [config] from [num] on; a filter is its
    number in the list. *)
Fixpoint find_loop (key : bytes) (l : list DltLogStorageFilterList) (k : nat) (config : list (option nat)) (num : Z)
  : option (Z * list (option nat)) :=
  match l with
  | [] => Some (num, config)
  | e :: l =>
      if existsb (λ x, strncmp_eq (Z.to_nat DLT_OFFLINE_LOGSTORAGE_MAX_KEY_LEN) x key) (key_list e) then
        config ← mwrite config num [Some k];
        find_loop key l (S k) config (num + 1)
      else find_loop key l (S k) config num
  end.
Definition dlt_logstorage_list_find (key : bytes) (l : list DltLogStorageFilterList) (config : list (option nat)) (at_ : Z)
  : option (Z * list (option nat)) :=
  '(num, config) ← find_loop key l 0 config at_; Some (num - at_, config).

(** ** The strategies *)

(** The operations that are called for a filter: the filter by its number and its
    contents, the mount point, and
    - the size of the message and the newest file of the name,
    - the three parts of the message,
    - the reason. *)
Record storage_ops (W : Type) := {
  dlt_logstorage_prepare : W -> nat -> DltLogStorageFilterConfig -> bytes -> Z -> DltNewestFileName -> option (Z * DltLogStorageFilterConfig * W);
  dlt_logstorage_write_op : W -> nat -> DltLogStorageFilterConfig -> bytes -> bytes * bytes * bytes -> option (Z * DltLogStorageFilterConfig * W);
  dlt_logstorage_sync : W -> nat -> DltLogStorageFilterConfig -> bytes -> Z -> option (Z * DltLogStorageFilterConfig * W)
}.
#[global] Arguments dlt_logstorage_prepare {W}.
#[global] Arguments dlt_logstorage_write_op {W}.
#[global] Arguments dlt_logstorage_sync {W}.

Section device.
Context {W : Type} (ops : Behavior -> storage_ops W) (A : allocator).

(** Every filter is written and freed. *)
Fixpoint destroy_loop (l : list DltLogStorageFilterList) (k : nat) (dev_path : bytes) (reason : Z) (w : W) : option W :=
  match l with
  | [] => Some w
  | e :: l =>
      '(_, _, w) ← dlt_logstorage_sync (ops (behavior (data e))) w k (data e) dev_path reason;
      destroy_loop l (S k) dev_path reason w
  end.
Definition dlt_logstorage_free (h : DltLogStorage) (reason : Z) (w : W) : option (DltLogStorage * W) :=
  w ← destroy_loop (config_list h) 0 (device_mount_point h) reason w;
  Some (set_config_list h [], w).

(** The newest file of a name. *)
Definition find_newest (n : bytes) (l : list DltNewestFileName) : option nat :=
  fst <$> list_find (λ f, nf_file_name f = n) l.

(** A name of files is added to the list if it is new; [None]: the return code is
    -1.  (That the name can be duplicated is not checked, and taken for granted here.) *)
Definition add_newest (n : option bytes) (l : list DltNewestFileName) : option (list DltNewestFileName) :=
  match n with
  | None => Some l
  | Some n =>
      match find_newest n l with
      | Some _ => Some l
      | None =>
          _ ← calloc A sizeof_DltNewestFileName;
          Some (l ++ [{| nf_file_name := n; newest_file := None; nf_wrap_id := 0 |}])
      end
  end.

Definition dlt_logstorage_prepare_table (h : DltLogStorage) (c : DltLogStorageFilterConfig) (w : W) : option (Z * DltLogStorage * W) :=
  match dlt_logstorage_create_keys A (apids c) (ctids c) (ecuid c) with
  | None => Some (-1, h, w)
  | Some keys =>
      match dlt_logstorage_list_add A keys c (config_list h) with
      | None =>
          '(h, w) ← dlt_logstorage_free h DLT_LOGSTORAGE_SYNC_ON_ERROR w;
          Some (-1, h, w)
      | Some l =>
          let h := set_config_list h l in
          match add_newest (file_name c) (newest_file_list h) with
          | None => Some (-1, h, w)
          | Some fs => Some (0, set_newest_file_list h fs, w)
          end
      end
  end.

Definition dlt_logstorage_setup_table (h : DltLogStorage) (c : DltLogStorageFilterConfig) (w : W) : option (Z * DltLogStorage * W) :=
  let c := dlt_logstorage_filter_set_strategy c (sync c) in
  '(ret, h, w) ← dlt_logstorage_prepare_table h c w;
  Some (if ret =? 0 then 0 else DLT_OFFLINE_LOGSTORAGE_STORE_FILTER_ERROR, h, w).

(** ** The configuration file *)

(** The loop over the values: the return code, or the filter. *)
Fixpoint values_loop (f : DltConfigFile) (sec_name : bytes) (ts : list DltLogstorageFilterConfType) (value : bytes) (c : DltLogStorageFilterConfig)
  : option (Z * DltLogStorageFilterConfig) :=
  match ts with
  | [] => Some (0, c)
  | t :: ts =>
      '(ret, value) ← dlt_logstorage_get_filter_value f sec_name t value;
      if ret =? DLT_OFFLINE_LOGSTORAGE_FILTER_ERROR then Some (ret, c)
      else if ret =? DLT_OFFLINE_LOGSTORAGE_FILTER_CONTINUE then values_loop f sec_name ts value c
      else
        s ← cstring value;
        '(ret, c) ← dlt_logstorage_check_param A c t s;
        if ret =? 0 then values_loop f sec_name ts value c else Some (DLT_OFFLINE_LOGSTORAGE_FILTER_ERROR, c)
  end.

Definition dlt_daemon_offline_setup_filter_properties (h : DltLogStorage) (f : DltConfigFile) (sec_name : bytes) (w : W) : option (Z * DltLogStorage * W) :=
  '(ret, c) ← values_loop f sec_name conf_types (replicate 101 0) Flt.fresh;
  if negb (ret =? 0) then Some (ret, h, w)
  else if (1 <? dlt_logstorage_count_ids (excluded_apids c)) && (1 <? dlt_logstorage_count_ids (excluded_ctids c))
  then Some (DLT_OFFLINE_LOGSTORAGE_FILTER_ERROR, h, w)
  else
    '(ret, h, w) ← dlt_logstorage_setup_table h c w;
    if ret =? 0 then Some (ret, set_num_configs h (i32 (num_configs h + 1)), w)
    else Some (DLT_OFFLINE_LOGSTORAGE_STORE_FILTER_ERROR, h, w).

Definition dlt_logstorage_check_maintain_logstorage_loglevel (h : DltLogStorage) (value : bytes) : Z * DltLogStorage :=
  if has_prefix value (lit "OFF") || has_prefix value (lit "0") then (0, set_maintain_logstorage_loglevel h DLT_MAINTAIN_LOGSTORAGE_LOGLEVEL_OFF)
  else if has_prefix value (lit "ON") || has_prefix value (lit "1") then (0, set_maintain_logstorage_loglevel h DLT_MAINTAIN_LOGSTORAGE_LOGLEVEL_ON)
  else (-1, set_maintain_logstorage_loglevel h DLT_MAINTAIN_LOGSTORAGE_LOGLEVEL_ON).

(** The one property is optional: the function returns 0. *)
Definition dlt_daemon_setup_general_properties (h : DltLogStorage) (f : DltConfigFile) (sec_name : bytes) : option DltLogStorage :=
  '(ret, value) ← dlt_config_file_get_value f sec_name (lit "MaintainLogstorageLogLevel") (replicate 100 0);
  if ret =? 0 then s ← cstring value; Some (dlt_logstorage_check_maintain_logstorage_loglevel h s).2 else Some h.

(** The sections from [sec] on; [n] are left.  [sec_name] is not initialised, the
    parser writes its first 100 bytes. *)
Fixpoint sections_loop (n : nat) (sec : Z) (f : DltConfigFile) (valid : Z) (h : DltLogStorage) (w : W) : option (Z * DltLogStorage * W) :=
  match n with
  | O => Some (valid, h, w)
  | S n =>
      '(rc, mem) ← dlt_config_file_get_section_name f sec (replicate 101 0);
      if rc =? -1 then Some (-1, h, w) else
      sec_name ← cstring mem;
      if MultipleFiles.strstr sec_name (lit "General") then
        h ← dlt_daemon_setup_general_properties h f sec_name;
        sections_loop n (sec + 1) f valid h w
      else if dlt_logstorage_validate_filter_name sec_name =? 0 then
        '(ret, h, w) ← dlt_daemon_offline_setup_filter_properties h f sec_name w;
        if ret =? DLT_OFFLINE_LOGSTORAGE_STORE_FILTER_ERROR then Some (valid, h, w)
        else if ret =? DLT_OFFLINE_LOGSTORAGE_FILTER_ERROR then sections_loop n (sec + 1) f 1 h w
        else sections_loop n (sec + 1) f (if valid =? 1 then 1 else 0) h w
      else sections_loop n (sec + 1) f valid h w
  end.

(** [content]: the configuration file, [None] if it cannot be opened. *)
Definition dlt_logstorage_store_filters (config_file_name : bytes) (content : option bytes) (h : DltLogStorage) (w : W) : option (Z * DltLogStorage * W) :=
  f ← dlt_config_file_init A (Some config_file_name) content;
  match f with
  | None => Some (-1, h, w)
  | Some f =>
      let h := set_maintain_logstorage_loglevel h DLT_MAINTAIN_LOGSTORAGE_LOGLEVEL_UNDEF in
      let num_sec := (dlt_config_file_get_num_sections f 0).2 in
      sections_loop (Z.to_nat num_sec) 0 f (-1) h w
  end.

(** [files]: the files that can be opened. *)
Definition dlt_logstorage_load_config (files : bytes -> option bytes) (h : DltLogStorage) (w : W) : option (Z * DltLogStorage * W) :=
  if negb (connection_type h =? DLT_OFFLINE_LOGSTORAGE_DEVICE_CONNECTED) then Some (-1, h, w)
  else if config_status h =? DLT_OFFLINE_LOGSTORAGE_CONFIG_DONE then Some (-1, h, w)
  else
    let config_file_name := device_mount_point h ++ lit "/dlt_logstorage.conf" in
    '(ret, h, w) ← dlt_logstorage_store_filters config_file_name (files config_file_name) h w;
    if ret =? 1 then Some (1, set_config_status h DLT_OFFLINE_LOGSTORAGE_CONFIG_DONE, w)
    else if negb (ret =? 0) then Some (-1, h, w)
    else Some (0, set_config_status h DLT_OFFLINE_LOGSTORAGE_CONFIG_DONE, w).

Definition dlt_logstorage_device_disconnected (h : DltLogStorage) (reason : Z) (w : W) : option (DltLogStorage * W) :=
  '(h, w) ← (if config_status h =? DLT_OFFLINE_LOGSTORAGE_CONFIG_DONE then dlt_logstorage_free h reason w else Some (h, w));
  Some ({| config_list := config_list h; num_configs := 0; device_mount_point := [];
           connection_type := DLT_OFFLINE_LOGSTORAGE_DEVICE_DISCONNECTED; config_status := 0; prepare_errors := prepare_errors h;
           write_errors := 0; newest_file_list := []; maintain_logstorage_loglevel := maintain_logstorage_loglevel h |}, w).

Definition dlt_logstorage_device_connected (files : bytes -> option bytes) (h : DltLogStorage) (mount_point : bytes) (w : W)
  : option (Z * DltLogStorage * W) :=
  '(h, w) ← (if connection_type h =? DLT_OFFLINE_LOGSTORAGE_DEVICE_CONNECTED
             then dlt_logstorage_device_disconnected h DLT_LOGSTORAGE_SYNC_ON_DEVICE_DISCONNECT w else Some (h, w));
  dlt_logstorage_load_config files
    {| config_list := config_list h; num_configs := 0; device_mount_point := into DLT_MOUNT_PATH_MAX mount_point;
       connection_type := DLT_OFFLINE_LOGSTORAGE_DEVICE_CONNECTED; config_status := 0; prepare_errors := prepare_errors h;
       write_errors := 0; newest_file_list := []; maintain_logstorage_loglevel := maintain_logstorage_loglevel h |} w.

(** ** Messages *)

Definition ready (h : DltLogStorage) : bool :=
  (connection_type h =? DLT_OFFLINE_LOGSTORAGE_DEVICE_CONNECTED) && (config_status h =? DLT_OFFLINE_LOGSTORAGE_CONFIG_DONE).

(** The highest level of the filters found. *)
Definition level_of (h : DltLogStorage) (k : option nat) : Z :=
  default 0 (k ← k; e ← config_list h !! k; Some (log_level (data e))).
Definition dlt_logstorage_get_loglevel_by_key (h : DltLogStorage) (key : bytes) : option Z :=
  if negb (ready h) then Some (-1) else
  '(num, config) ← dlt_logstorage_list_find key (config_list h) (replicate (Z.to_nat DLT_CONFIG_FILE_SECTIONS_MAX) None) 0;
  if num =? 0 then Some (-1)
  else if num =? 1 then Some (level_of h (default None (config !! 0%nat)))
  else Some (foldl (λ ll k, if ll <? level_of h k then level_of h k else ll) 0 (take (Z.to_nat num) config)).

(** An identifier in a message, at most four characters; [strlen] needs a terminator
    behind it. *)
Definition id_string (mem : option bytes) : option bytes :=
  match mem with
  | None => Some []
  | Some m => _ ← strlen m; Some (cstr 4 m)
  end.

(** The keys in the order in which they are looked up. *)
Definition possible_keys (apid ctid ecu : bytes) : list bytes :=
  [slot (colon ++ apid ++ colon);
   slot (lit "::" ++ ctid);
   slot (colon ++ apid ++ colon ++ ctid);
   slot (ecu ++ colon ++ apid ++ colon ++ ctid);
   slot (ecu ++ colon ++ apid ++ colon);
   slot (ecu ++ lit "::" ++ ctid);
   slot (ecu ++ lit "::")].

Fixpoint keys_loop (keys : list bytes) (h : DltLogStorage) (config : list (option nat)) (n : Z) : option (Z * list (option nat)) :=
  match keys with
  | [] => Some (n, config)
  | key :: keys =>
      '(num, config) ← dlt_logstorage_list_find key (config_list h) config n;
      if n + num =? num_configs h then Some (n + num, config) else keys_loop keys h config (n + num)
  end.

Definition dlt_logstorage_get_config (h : DltLogStorage) (config : list (option nat)) (apid ctid : option bytes) (ecu : bytes)
  : option (Z * list (option nat)) :=
  if negb (ready h) then Some (0, config) else
  e ← id_string (Some ecu);
  match apid, ctid with
  | None, None => dlt_logstorage_list_find (slot (e ++ lit "::")) (config_list h) config 0
  | _, _ =>
      a ← id_string apid;
      c ← id_string ctid;
      keys_loop (possible_keys a c e) h config 0
  end.

Definition excluded (c : DltLogStorageFilterConfig) (apid ctid : option bytes) : bool :=
  let hit id ids := match id, ids with Some id, Some ids => dlt_logstorage_check_excluded_ids A id ids | _, _ => false end in
  match excluded_apids c, excluded_ctids c with
  | Some _, Some _ => hit apid (excluded_apids c) && hit ctid (excluded_ctids c)
  | None, _ => hit ctid (excluded_ctids c)
  | Some _, None => hit apid (excluded_apids c)
  end.

(** A filter that was found stays in the array if this is true. *)
Definition passes (c : DltLogStorageFilterConfig) (apid ctid : option bytes) (ecu : bytes) (ll : Z) : bool :=
  negb (log_level c <? ll) &&
  match ecuid c with None => true | Some e => strncmp_eq 4 ecu e end &&
  negb (excluded c apid ctid).

Fixpoint filter_loop (n : nat) (i : nat) (h : DltLogStorage) (config : list (option nat)) (apid ctid : option bytes) (ecu : bytes) (ll : Z)
  : option (list (option nat)) :=
  match n with
  | O => Some config
  | S n =>
      k ← config !! i;
      config ← match k with
               | None => Some config
               | Some k => e ← config_list h !! k; Some (if passes (data e) apid ctid ecu ll then config else <[i := None]> config)
               end;
      filter_loop n (S i) h config apid ctid ecu ll
  end.

Definition dlt_logstorage_filter (h : DltLogStorage) (config : list (option nat)) (apid ctid : option bytes) (ecu : bytes) (ll : Z)
  : option (Z * list (option nat)) :=
  '(num, config) ← dlt_logstorage_get_config h config apid ctid ecu;
  if num =? 0 then Some (0, config) else
  config ← filter_loop (Z.to_nat num) 0 h config apid ctid ecu ll;
  Some (num, config).

(** The variables of [dlt_logstorage_write] in its loop. *)
Record storing := { st_handle : DltLogStorage; st_found : bool; st_ret : Z; st_err : Z; st_disable_nw : bool; st_world : W }.

Definition put_filter (h : DltLogStorage) (k : nat) (c : DltLogStorageFilterConfig) : DltLogStorage :=
  match config_list h !! k with
  | Some e => set_config_list h (<[k := {| key_list := key_list e; data := c |}]> (config_list h))
  | None => h
  end.
(** The newest file is the working file of the filter. *)
Definition update_newest (h : DltLogStorage) (tmp : option nat) (c : DltLogStorageFilterConfig) : option DltLogStorage :=
  j ← tmp; f ← newest_file_list h !! j;
  Some (set_newest_file_list h (<[j := {| nf_file_name := nf_file_name f; newest_file := working_file_name c ≫= strdup A; nf_wrap_id := wrap_id c |}]> (newest_file_list h))).

Definition on_msg (c : DltLogStorageFilterConfig) : bool := (sync c =? DLT_LOGSTORAGE_SYNC_UNSET) || (sync c =? DLT_LOGSTORAGE_SYNC_ON_MSG).

(** The message is written by a filter that was prepared. *)
Definition write_filter (d : bytes * bytes * bytes) (k : nat) (c : DltLogStorageFilterConfig) (tmp : option nat) (st : storing) : option storing :=
  let h := st_handle st in
  let mp := device_mount_point h in
  '(ret, c, w) ← dlt_logstorage_write_op (ops (behavior c)) (st_world st) k c mp d;
  let h := put_filter h k c in
  if ret =? 0 then
    h ← (if negb (on_msg c) && bool_decide (is_Some (working_file_name c)) then update_newest h tmp c else Some h);
    '(ret, c, w) ← dlt_logstorage_sync (ops (behavior c)) w k c mp DLT_LOGSTORAGE_SYNC_ON_MSG;
    Some {| st_handle := put_filter h k c; st_found := st_found st; st_ret := ret; st_err := st_err st; st_disable_nw := st_disable_nw st; st_world := w |}
  else
    let n := i32 (write_errors h + 1) in
    Some {| st_handle := set_write_errors h n; st_found := st_found st; st_ret := ret;
            st_err := if DLT_OFFLINE_LOGSTORAGE_MAX_ERRORS <=? n then -1 else st_err st; st_disable_nw := st_disable_nw st; st_world := w |}.

(** One round of the loop; [false]: the function returns -1. *)
Definition store_filter (d : bytes * bytes * bytes) (k : nat) (st : storing) : option (bool * storing) :=
  let h := st_handle st in
  e ← config_list h !! k;
  let c := data e in
  match file_name c with
  | None => Some (true, st)
  | Some n =>
      let nw := st_disable_nw st || (0 <? Z.land (disable_network_routing c) DLT_LOGSTORAGE_DISABLE_NW_ON) in
      let with_nw h found ret w := {| st_handle := h; st_found := found; st_ret := ret; st_err := st_err st; st_disable_nw := nw; st_world := w |} in
      if skip c =? 1 then Some (true, with_nw h (st_found st) (st_ret st) (st_world st)) else
      let tmp := find_newest n (newest_file_list h) in
      let found := st_found st || bool_decide (is_Some tmp) in
      if negb found then Some (false, with_nw h found (st_ret st) (st_world st)) else
      '(ret, c, w) ← match tmp with
                     | Some j => f ← newest_file_list h !! j;
                                 dlt_logstorage_prepare (ops (behavior c)) (st_world st) k c (device_mount_point h) (i32 (zlen d.1.1 + zlen d.1.2 + zlen d.2)) f
                     | None => Some (st_ret st, c, st_world st)
                     end;
      let h := put_filter h k c in
      if ret =? 0 then
        if skip c =? 1 then Some (true, with_nw h found ret w)
        else if on_msg c then
          match working_file_name c with
          | None => Some (false, with_nw h found ret w)
          | Some _ => h ← update_newest h tmp c; st ← write_filter d k c tmp (with_nw h found ret w); Some (true, st)
          end
        else st ← write_filter d k c tmp (with_nw h found ret w); Some (true, st)
      else
        let n := i32 (prepare_errors h + 1) in
        let h := set_prepare_errors h n in
        Some (true, with_nw (if DLT_OFFLINE_LOGSTORAGE_MAX_ERRORS <=? n then put_filter h k (set_skip c 1) else h) found ret w)
  end.

Fixpoint store_loop (d : bytes * bytes * bytes) (config : list (option nat)) (st : storing) : option (Z * storing) :=
  match config with
  | [] => Some (st_err st, st)
  | None :: config => store_loop d config st
  | Some k :: config =>
      '(go_on, st) ← store_filter d k st;
      if (go_on : bool) then store_loop d config st else Some (-1, st)
  end.

(** [behind2] is the memory behind [data2]. *)
Definition dlt_logstorage_write (h : DltLogStorage) (data1 data2 data3 behind2 : bytes) (disable_nw : bool) (w : W) : option (Z * DltLogStorage * bool * W) :=
  if negb (ready h) then Some (0, h, disable_nw, w) else
  let mem := data2 ++ behind2 in
  htyp ← mem !! 0%nat;
  let extra_len := sizeof_DltStandardHeaderExtra - (if DLT_IS_HTYP_WEID htyp then 0 else 4)
                   - (if DLT_IS_HTYP_WSID htyp then 0 else DLT_SIZE_WSID) - (if DLT_IS_HTYP_WTMS htyp then 0 else DLT_SIZE_WTMS) in
  let ecu := drop (Z.to_nat sizeof_DltStandardHeader) mem in
  let config := replicate (Z.to_nat DLT_CONFIG_FILE_SECTIONS_MAX) None in
  let store r :=
    '(num, config) ← r;
    if num =? 0 then Some (0, h, disable_nw, w) else
    '(rc, st) ← store_loop (data1, data2, data3) (take (Z.to_nat num) config)
        {| st_handle := h; st_found := false; st_ret := 0; st_err := 0; st_disable_nw := disable_nw; st_world := w |};
    Some (rc, st_handle st, st_disable_nw st, st_world st) in
  if DLT_IS_HTYP_UEH htyp then
    if zlen data2 <? sizeof_DltStandardHeader + sizeof_DltExtendedHeader + extra_len then Some (0, h, disable_nw, w) else
    let ext := drop (Z.to_nat (sizeof_DltStandardHeader + extra_len)) mem in
    msin ← ext !! 0%nat;
    store (dlt_logstorage_filter h config (Some (drop 2 ext)) (Some (drop 6 ext)) ecu (DLT_GET_MSIN_MTIN msin))
  else
    if zlen data2 <? sizeof_DltStandardHeader + extra_len then Some (0, h, disable_nw, w) else
    store (dlt_logstorage_filter h config None None ecu 6).

(** All caches are written. *)
Fixpoint sync_loop (n k : nat) (h : DltLogStorage) (w : W) : option (DltLogStorage * W) :=
  match n with
  | O => Some (h, w)
  | S n =>
      e ← config_list h !! k;
      '(_, c, w) ← dlt_logstorage_sync (ops (behavior (data e))) w k (data e) (device_mount_point h) DLT_LOGSTORAGE_SYNC_ON_DEMAND;
      sync_loop n (S k) (put_filter h k c) w
  end.
Definition dlt_logstorage_sync_caches (h : DltLogStorage) (w : W) : option (Z * DltLogStorage * W) :=
  '(h, w) ← sync_loop (length (config_list h)) 0 h w; Some (0, h, w).

End device.

End LogStorage.
