(* ===== verification/LogStorageSpec.v ===== *)
(** * Properties of the offline logstorage

    The keys of filters and messages as triples, the filters that a message is
    handed to, and the configuration that any file makes. *)

From stdpp Require Import base list numbers option strings sets.
From Stdlib Require Import ZArith Lia Bool.
From S2P Require Import Prelude Ids Protocol MultipleFiles ConfigFile ConfigFileSpec LogStorage.
Import Ids Protocol ConfigFile ConfigFileSpec LogStorage Flt.

Local Open Scope Z_scope.

Module LogStorageSpec.

(** ** Keys *)

Definition triple : Type := bytes * bytes * bytes.
Definition enc (t : triple) : bytes := t.1.1 ++ 58 :: t.1.2 ++ 58 :: t.2.

(** A part of a key. *)
Record part (s : bytes) : Prop := { part_zero : 0 ∉ s; part_colon : 58 ∉ s; part_short : (length s <= 4)%nat }.
Definition parts (t : triple) : Prop := part t.1.1 ∧ part t.1.2 ∧ part t.2.

Lemma part_nil : part [].
Proof. split; [apply not_elem_of_nil..|simpl; lia]. Qed.

Lemma colon_split (x y r s : bytes) : 58 ∉ x -> 58 ∉ y -> x ++ 58 :: r = y ++ 58 :: s -> x = y ∧ r = s.
Proof.
  revert y. induction x as [|b x IH]; intros [|b' y] Hx Hy H; cbn [app] in H; try apply not_elem_of_cons in Hx as [? Hx]; try apply not_elem_of_cons in Hy as [? Hy].
  - by injection H.
  - injection H as <- _. done.
  - injection H as -> _. done.
  - injection H as <- H. destruct (IH y Hx Hy H) as [-> ->]. done.
Qed.
Lemma enc_inj t t' : parts t -> parts t' -> enc t = enc t' -> t = t'.
Proof.
  destruct t as [[e a] c], t' as [[e' a'] c']. intros (He & Ha & _) (He' & Ha' & _) H. unfold enc in H. cbn in *.
  apply colon_split in H as [-> H]; [|apply He|apply He']. apply colon_split in H as [-> ->]; [done|apply Ha|apply Ha'].
Qed.
Lemma enc_plain t : parts t -> (0 ∉ enc t) ∧ (length (enc t) <= 14)%nat.
Proof.
  destruct t as [[e a] c]. intros (He & Ha & Hc). unfold enc. cbn in *. rewrite !not_elem_of_app, !not_elem_of_cons, !not_elem_of_app, !not_elem_of_cons.
  destruct He, Ha, Hc. repeat (rewrite length_app; cbn [length]). split; [split_and!; done|lia].
Qed.
(** Keys are compared as the triples they stand for. *)
Lemma key_compare t t' : parts t -> parts t' -> strncmp_eq (Z.to_nat DLT_OFFLINE_LOGSTORAGE_MAX_KEY_LEN) (enc t) (enc t') = bool_decide (t = t').
Proof.
  intros H H'. destruct (enc_plain t H) as [Hz Hl], (enc_plain t' H') as [Hz' Hl']. unfold strncmp_eq. change (Z.to_nat _) with 15%nat.
  rewrite !cstr_plain_le by (done || lia). apply bool_decide_ext. split; [by apply enc_inj|by intros ->].
Qed.
Lemma slot_enc t : parts t -> slot (enc t) = enc t.
Proof. intros H. destruct (enc_plain t H) as [_ Hl]. unfold slot, into. apply take_ge. change (Z.to_nat _) with 14%nat. lia. Qed.
Lemma slot_into t : parts t -> slot (into DLT_OFFLINE_LOGSTORAGE_MAX_KEY_LEN (enc t)) = enc t.
Proof.
  intros H. destruct (enc_plain t H) as [_ Hl]. unfold into at 1. rewrite take_ge; [by apply slot_enc|]. change (Z.to_nat _) with 15%nat. lia.
Qed.

(** *** Of messages *)

Record message_id (s : bytes) : Prop := { mi_part : part s; mi_nonempty : s <> []; mi_name : is_wildcard s = false }.

Definition message_triples (a c e : bytes) : list triple :=
  [([], a, []); ([], [], c); ([], a, c); (e, a, c); (e, a, []); (e, [], c); (e, [], [])].

(** Each part is the identifier of the message or empty, but not all are empty. *)
Definition pick (b : bool) (s : bytes) : bytes := if b then s else [].
Lemma message_triples_spec a c e t : t ∈ message_triples a c e <->
  ∃ be ba bc, t = (pick be e, pick ba a, pick bc c) ∧ be || ba || bc = true.
Proof.
  unfold message_triples. split.
  - intros H. repeat (apply elem_of_cons in H as [->|H]; [|]); [..|by apply not_elem_of_nil in H].
    + by exists false, true, false.
    + by exists false, false, true.
    + by exists false, true, true.
    + by exists true, true, true.
    + by exists true, true, false.
    + by exists true, false, true.
    + by exists true, false, false.
  - intros ([] & [] & [] & -> & H); cbn; try done; set_solver.
Qed.
Lemma message_parts a c e t : part a -> part c -> part e -> t ∈ message_triples a c e -> parts t.
Proof. pose proof part_nil. intros Ha Hc He ([] & [] & [] & -> & _)%message_triples_spec; done. Qed.
Lemma message_triples_NoDup a c e : a <> [] -> c <> [] -> e <> [] -> NoDup (message_triples a c e).
Proof.
  intros Ha Hc He. unfold message_triples. repeat (apply list.NoDup_cons; split; [rewrite ?not_elem_of_cons; split_and?; (congruence || apply not_elem_of_nil)|]).
  by apply base.NoDup_nil_2.
Qed.
Lemma possible_keys_enc a c e : part a -> part c -> part e -> possible_keys a c e = enc <$> message_triples a c e.
Proof.
  intros Ha Hc He. transitivity ((λ t, slot (enc t)) <$> message_triples a c e).
  - unfold possible_keys, enc. cbn. by rewrite ?app_nil_r.
  - apply list_fmap_ext. intros i t Ht. apply slot_enc, (message_parts a c e); [done..|]. by apply list_elem_of_lookup_2 in Ht.
Qed.

(** *** Of filters *)

(** The identifiers of a list, or all of them. *)
Definition all_ids (s : option bytes) : bool := match s with None => true | Some s => bool_decide (s = wildcard) end.
Record plain_list (s : bytes) : Prop := {
  pl_ids : ∀ t, t ∈ split_ids s -> message_id t;
  pl_some : split_ids s <> [];
  pl_max : (length (split_ids s) <= 100)%nat
}.
Definition plain_ids (s : bytes) : Prop := s = wildcard ∨ plain_list s.
Definition plain_ecu (s : bytes) : Prop := s <> [] ∧ (0 ∉ s) ∧ 58 ∉ take 4 s.
Record plain_filter (f : DltLogStorageFilterConfig) : Prop := {
  pf_apids : ∀ s, apids f = Some s -> plain_ids s;
  pf_ctids : ∀ s, ctids f = Some s -> plain_ids s;
  pf_ecuid : ∀ s, ecuid f = Some s -> plain_ecu s
}.

(** The filter is configured for the identifiers; without any of them it needs the
    identifier of an ECU. *)
Definition named_by (s : option bytes) (i : bytes) : Prop := all_ids s = true ∨ ∃ s', s = Some s' ∧ i ∈ split_ids s'.
Definition ecu_named (f : DltLogStorageFilterConfig) (e : bytes) : Prop :=
  match ecuid f with Some x => take 4 x = e | None => all_ids (apids f) && all_ids (ctids f) = false end.
Definition selects (f : DltLogStorageFilterConfig) (a c e : bytes) : Prop :=
  named_by (apids f) a ∧ named_by (ctids f) c ∧ ecu_named f e.

(** The key that finds the filter. *)
Definition target (f : DltLogStorageFilterConfig) (a c e : bytes) : triple :=
  (pick (bool_decide (is_Some (ecuid f))) e, pick (negb (all_ids (apids f))) a, pick (negb (all_ids (ctids f))) c).

Lemma split_wildcard : split_ids wildcard = [wildcard]. Proof. reflexivity. Qed.
Lemma list_not_wildcard s : plain_list s -> is_wildcard s = false.
Proof.
  intros [Hi _ _]. destruct (is_wildcard s) eqn:E; [|done]. unfold is_wildcard, strncmp_eq in E. apply bool_decide_eq_true in E.
  destruct s as [|x [|y s]]; [done|cbn in E; by destruct (x =? 0)|]. cbn in E. destruct (x =? 0); [done|]. destruct (y =? 0); [done|]. injection E as -> ->.
  destruct (MultipleFiles.token comma s) as [t r] eqn:Et.
  assert (46 :: 42 :: t ∈ split_ids (46 :: 42 :: s)) as Hm.
  { unfold split_ids. cbn [tokens]. unfold MultipleFiles.strtok. cbn. rewrite Et. by left. }
  apply Hi in Hm as [_ _ Hw]. done.
Qed.
Lemma all_ids_wildcard s : plain_ids s -> is_wildcard s = all_ids (Some s).
Proof.
  intros [->|H]; [done|]. rewrite list_not_wildcard by done. symmetry. apply bool_decide_eq_false. intros ->.
  apply list_not_wildcard in H. done.
Qed.

Lemma keys_list_plain A s : heap_ok A -> plain_ids s -> dlt_logstorage_get_keys_list A s = Some (split_ids s).
Proof.
  intros HA Hs. unfold dlt_logstorage_get_keys_list. rewrite heap_strdup by done. bsimp. rewrite heap_calloc by done. bsimp.
  destruct Hs as [->|[Hi Hn Hm]]; [done|]. destruct (split_ids s) as [|t ts] eqn:E; [done|]. rewrite <-E in *. f_equal.
  rewrite (take_ge (split_ids s)) by (change (Z.to_nat _) with 100%nat; lia). transitivity (id <$> split_ids s); [|by rewrite list_fmap_id].
  apply list_fmap_ext. intros i x Hx. apply take_ge. apply list_elem_of_lookup_2 in Hx. apply (part_short _ (mi_part _ (Hi x Hx))).
Qed.

Definition key_triple (ecu a c : bytes) : triple := if is_wildcard a then (ecu, [], c) else if is_wildcard c then (ecu, a, []) else (ecu, a, c).
Lemma one_key_enc ecu a c : part (ecu_part ecu) -> part a -> part c -> one_key ecu a c = enc (key_triple (ecu_part ecu) a c).
Proof.
  pose proof part_nil. intros He Ha Hc. unfold one_key, key_triple, dlt_logstorage_create_keys_only_ctid, dlt_logstorage_create_keys_only_apid, dlt_logstorage_create_keys_multi.
  destruct (is_wildcard a); [|destruct (is_wildcard c)].
  - change (ecu_part ecu ++ lit "::" ++ c) with (enc (ecu_part ecu, [], c)). by apply slot_into.
  - change (ecu_part ecu ++ colon ++ a ++ colon) with (enc (ecu_part ecu, a, [])). by apply slot_into.
  - change (ecu_part ecu ++ colon ++ a ++ colon ++ c) with (enc (ecu_part ecu, a, c)). by apply slot_into.
Qed.

Definition ids_of (s : option bytes) : list bytes := match s with Some s => split_ids s | None => [] end.
Definition filter_triples (f : DltLogStorageFilterConfig) : list triple :=
  match all_ids (apids f) && all_ids (ctids f), ecuid f with
  | true, Some e => [(take 4 e, [], [])]
  | _, e => a ← ids_of (apids f); key_triple (ecu_part e) a <$> ids_of (ctids f)
  end.

Lemma part_wildcard : part wildcard.
Proof. split; [..|simpl; lia]; apply (bool_decide_unpack _); vm_compute; exact I. Qed.
Lemma part_ids s t : plain_ids s -> t ∈ split_ids s -> part t.
Proof.
  intros [->|H] Ht; [|apply (mi_part _ (pl_ids _ H t Ht))]. rewrite split_wildcard in Ht. apply list_elem_of_singleton in Ht as ->. apply part_wildcard.
Qed.
Lemma part_ecu e : plain_ecu e -> part (take 4 e) ∧ take 4 e <> [].
Proof.
  intros (Hn & Hz & Hc). split; [split; [|done|rewrite length_take; lia]|by destruct e].
  intros H. apply Hz. rewrite <-(take_drop 4 e). apply elem_of_app. by left.
Qed.
Lemma ecu_part_plain f : plain_filter f -> part (ecu_part (ecuid f)).
Proof.
  intros Hf. unfold ecu_part. destruct (ecuid f) as [e|] eqn:E; cbn [default from_option id]; [|apply part_nil]. apply part_ecu. by apply (pf_ecuid _ Hf).
Qed.

Lemma key_triple_parts e a c : part e -> part a -> part c -> parts (key_triple e a c).
Proof. pose proof part_nil. intros He Ha Hc. unfold key_triple. by destruct (is_wildcard a), (is_wildcard c). Qed.

Lemma fmap_bind_list {X Y U} (g : Y -> U) (h : X -> list Y) l : g <$> (l ≫= h) = x ← l; g <$> h x.
Proof. induction l as [|x l IH]; [done|]. by rewrite !bind_cons, fmap_app, IH. Qed.

(** The keys that are stored stand for the triples of the filter. *)
Lemma create_keys_plain A f keys : heap_ok A -> plain_filter f ->
  dlt_logstorage_create_keys A (apids f) (ctids f) (ecuid f) = Some keys -> keys = enc <$> filter_triples f ∧ Forall parts (filter_triples f).
Proof.
  intros HA Hf H. pose proof (ecu_part_plain f Hf) as He. unfold dlt_logstorage_create_keys in H. unfold filter_triples.
  assert (∀ a c, apids f = Some a -> ctids f = Some c -> keys = (x ← split_ids a; one_key (ecuid f) x <$> split_ids c) ->
    keys = enc <$> (x ← split_ids a; key_triple (ecu_part (ecuid f)) x <$> split_ids c) ∧ Forall parts (x ← split_ids a; key_triple (ecu_part (ecuid f)) x <$> split_ids c)) as Hkeys.
  { intros a c Ea Ec ->. apply (pf_apids _ Hf) in Ea. apply (pf_ctids _ Hf) in Ec. split.
    - rewrite fmap_bind_list. apply Forall_bind_ext, list.Forall_forall. intros x Hx. rewrite <-list_fmap_compose. apply list_fmap_ext. intros i y Hy. apply list_elem_of_lookup_2 in Hy.
      apply one_key_enc; [done|by apply (part_ids a)|by apply (part_ids c)].
    - apply list.Forall_forall. intros t (x & Ht & Hx)%list_elem_of_bind. apply list_elem_of_fmap in Ht as (y & -> & Hy). apply key_triple_parts; [done|by apply (part_ids a)|by apply (part_ids c)]. }
  assert (∀ e, ecuid f = Some e -> slot (dlt_logstorage_create_keys_only_ecu e) = enc (take 4 e, [], []) ∧ parts (take 4 e, [], [])) as Hecu.
  { intros e Ee. destruct (part_ecu e (pf_ecuid _ Hf e Ee)) as [Hp _]. pose proof part_nil. split; [|done].
    change (dlt_logstorage_create_keys_only_ecu e) with (into DLT_OFFLINE_LOGSTORAGE_MAX_KEY_LEN (enc (take 4 e, [], []))). by apply slot_into. }
  destruct (apids f) as [a|] eqn:Ea, (ctids f) as [c|] eqn:Ec.
  - pose proof (pf_apids _ Hf a Ea) as Pa. pose proof (pf_ctids _ Hf c Ec) as Pc. rewrite (all_ids_wildcard a), (all_ids_wildcard c) in H by done. destruct (all_ids (Some a) && all_ids (Some c)) eqn:Ew; cbn [andb] in *;
      [destruct (ecuid f) as [e|] eqn:Ee|].
    + rewrite heap_calloc in H by done. cbn [mbind option_bind] in H. injection H as <-. destruct (Hecu e eq_refl) as [-> Hp]. split; [done|by constructor].
    + cbn [mbind option_bind] in H. rewrite (keys_list_plain A a), (keys_list_plain A c) in H by done. bsimp. cbn [mbind option_bind] in H. rewrite heap_calloc in H by done. cbn [mbind option_bind] in H. injection H as <-. by apply Hkeys.
    + destruct (ecuid f) as [e|] eqn:Ee; cbn [mbind option_bind] in H; rewrite (keys_list_plain A a), (keys_list_plain A c) in H by done; cbn [mbind option_bind] in H;
        rewrite heap_calloc in H by done; cbn [mbind option_bind] in H; injection H as <-; by apply Hkeys.
  - destruct (ecuid f); done.
  - destruct (ecuid f); done.
  - destruct (ecuid f) as [e|] eqn:Ee; [|done]. rewrite heap_calloc in H by done. cbn [mbind option_bind] in H. injection H as <-. destruct (Hecu e eq_refl) as [-> Hp]. split; [done|by constructor].
Qed.

(** The identifiers of a filter that can be a part of a key. *)
Definition part_of (s : option bytes) (x : bytes) : Prop := if all_ids s then x = [] else ∃ s', s = Some s' ∧ x ∈ split_ids s'.
Lemma named_part s i b : (∀ x, s = Some x -> plain_ids x) -> i <> [] -> part_of s (pick b i) <-> named_by s i ∧ b = negb (all_ids s).
Proof.
  intros Hs Hi. unfold part_of, named_by. destruct (all_ids s) eqn:E; cbn [negb].
  - destruct b; cbn [pick]; [|split; [by split; [left|]|done]]. split; [done|by intros [_ ?]].
  - split.
    + intros (s' & -> & Hx). destruct b; cbn [pick] in *; [split; [right; by exists s'|done]|]. exfalso. destruct (Hs s' eq_refl) as [->|H]; [done|].
      by apply (mi_nonempty _ (pl_ids _ H _ Hx)).
    + intros [[H|H] ->]; [done|]. done.
Qed.

Lemma filter_triples_spec f t : plain_filter f -> (is_Some (apids f) <-> is_Some (ctids f)) -> (apids f = None -> is_Some (ecuid f)) ->
  t ∈ filter_triples f <->
    t.1.1 = ecu_part (ecuid f) ∧
    if all_ids (apids f) && all_ids (ctids f) && bool_decide (ecuid f = None) then t.1.2 = [] ∧ t.2 = wildcard else part_of (apids f) t.1.2 ∧ part_of (ctids f) t.2.
Proof.
  intros Hf Hac Hecu. unfold filter_triples, part_of. destruct t as [[e a] c]. cbn [fst snd].
  destruct (apids f) as [sa|] eqn:Ea, (ctids f) as [sc|] eqn:Ec; try (by destruct Hac as [H1 H2]; destruct (H1 ltac:(done)) || destruct (H2 ltac:(done))).
  2: { destruct (Hecu eq_refl) as [x Ex]. rewrite Ex. cbn. rewrite list_elem_of_singleton. split; [by intros [= -> -> ->]|by intros (-> & -> & ->)]. }
  cbn [ids_of]. destruct (pf_apids _ Hf sa Ea) as [->|Ha], (pf_ctids _ Hf sc Ec) as [->|Hc].
  - change (all_ids (Some wildcard)) with true. cbn [andb]. destruct (ecuid f) as [x|]; [|change (t ← split_ids wildcard; key_triple (ecu_part None) t <$> split_ids wildcard) with [([] : bytes, [] : bytes, wildcard)]];
      rewrite list_elem_of_singleton; cbn; (split; [by intros [= -> -> ->]|by intros (-> & -> & ->)]).
  - change (all_ids (Some wildcard)) with true. rewrite <-(all_ids_wildcard sc), list_not_wildcard by (done || by right). cbn [andb].
    rewrite list_elem_of_bind. split.
    + intros (x & Hx & ->%list_elem_of_singleton). apply list_elem_of_fmap in Hx as (y & [= -> -> ->] & Hy). split; [done|]. split; [done|by exists sc].
    + intros (-> & -> & s' & [= <-] & H). exists wildcard. split; [|by left]. apply list_elem_of_fmap. by exists c.
  - change (all_ids (Some wildcard)) with true. rewrite <-(all_ids_wildcard sa), list_not_wildcard by (done || by right). cbn [andb].
    rewrite list_elem_of_bind. split.
    + intros (x & (y & Ht & ->%list_elem_of_singleton)%list_elem_of_fmap & Hx). unfold key_triple in Ht.
      rewrite (mi_name _ (pl_ids _ Ha x Hx)) in Ht. injection Ht as -> -> ->. split; [done|]. split; [by exists sa|done].
    + intros (-> & (s' & [= <-] & H) & ->). exists a. split; [|done]. apply list_elem_of_fmap. exists wildcard. split; [|by left]. unfold key_triple.
      by rewrite (mi_name _ (pl_ids _ Ha a H)).
  - rewrite <-(all_ids_wildcard sa), <-(all_ids_wildcard sc), !list_not_wildcard by (done || by right). cbn [andb]. rewrite list_elem_of_bind. split.
    + intros (x & (y & Ht & Hy)%list_elem_of_fmap & Hx). unfold key_triple in Ht.
      rewrite (mi_name _ (pl_ids _ Ha x Hx)), (mi_name _ (pl_ids _ Hc y Hy)) in Ht. injection Ht as -> -> ->. split; [done|]. split; [by exists sa|by exists sc].
    + intros (-> & (s' & [= <-] & H) & (s'' & [= <-] & H')). exists a. split; [|done]. apply list_elem_of_fmap. exists c. split; [|done]. unfold key_triple.
      by rewrite (mi_name _ (pl_ids _ Ha a H)), (mi_name _ (pl_ids _ Hc c H')).
Qed.

(** A key of a message finds a filter exactly if it is the target of a filter that
    is configured for the message. *)
Lemma filter_hit f a c e t : plain_filter f -> (is_Some (apids f) <-> is_Some (ctids f)) -> (apids f = None -> is_Some (ecuid f)) ->
  message_id a -> message_id c -> message_id e -> t ∈ message_triples a c e ->
  t ∈ filter_triples f <-> selects f a c e ∧ t = target f a c e.
Proof.
  intros Hf Hac Hecu Ia Ic Ie (be & ba & bc & -> & Hb)%message_triples_spec. rewrite filter_triples_spec by done. cbn [fst snd]. unfold selects, target, ecu_named.
  pose proof (named_part (apids f) a ba (pf_apids _ Hf) (mi_nonempty _ Ia)) as Na. pose proof (named_part (ctids f) c bc (pf_ctids _ Hf) (mi_nonempty _ Ic)) as Nc.
  assert (∀ s b b', s <> [] -> pick b s = pick b' s -> b = b') as Hpick by (by intros s [] [] Hs ?).
  pose proof (mi_nonempty _ Ia) as Za. pose proof (mi_nonempty _ Ic) as Zc. pose proof (mi_nonempty _ Ie) as Ze.
  destruct (ecuid f) as [x|] eqn:Ex.
  - rewrite andb_false_r, Na, Nc. cbn [ecu_part default from_option id]. destruct (part_ecu x (pf_ecuid _ Hf x Ex)) as [_ Hx]. split.
    + intros (He & [Ha ->] & [Hc ->]). destruct be; [|by cbn in He; congruence]. cbn in He. split; [done|]. f_equal.
    + intros [(Ha & Hc & He) [= Eb Ea Ec]]. split_and!; [|done|by apply (Hpick a)|done|by apply (Hpick c)]. rewrite Eb. exact (eq_sym He).
  - rewrite (bool_decide_true (None = None)), andb_true_r by done. rewrite bool_decide_false by (by intros [? ?]). cbn [ecu_part default from_option id take].
    destruct (all_ids (apids f) && all_ids (ctids f)) eqn:Ew.
    + split; [|by intros [(_ & _ & ?) _]]. intros (_ & _ & Hc). exfalso. destruct bc; [|done]. cbn in Hc. subst c. pose proof (mi_name _ Ic) as Hw. vm_compute in Hw. done.
    + rewrite Na, Nc. split.
      * intros (He & [Ha ->] & [Hc ->]). split; [done|]. by rewrite He.
      * intros [(Ha & Hc & He) [= Eb Ea Ec]]. split_and!; [done|done|by apply (Hpick a)|done|by apply (Hpick c)].
Qed.

(** ** The filters that are found *)

Definition found_by (key : bytes) (e : DltLogStorageFilterList) : bool :=
  existsb (λ x, strncmp_eq (Z.to_nat DLT_OFFLINE_LOGSTORAGE_MAX_KEY_LEN) x key) (key_list e).
Fixpoint hits (key : bytes) (l : list DltLogStorageFilterList) (k : nat) : list nat :=
  match l with [] => [] | e :: l => (if found_by key e then [k] else []) ++ hits key l (S k) end.

Lemma elem_of_hits key l k j : j ∈ hits key l k <-> (k <= j)%nat ∧ ∃ e, l !! (j - k)%nat = Some e ∧ found_by key e = true.
Proof.
  revert k. induction l as [|e l IH]; intros k; cbn [hits]; [split; [by intros ?%not_elem_of_nil|by intros (_ & e & ? & _)]|].
  rewrite elem_of_app, IH. split.
  - intros [H|(Hk & e' & Hl & He)].
    + destruct (found_by key e) eqn:E; [|by apply not_elem_of_nil in H]. apply list_elem_of_singleton in H as ->. split; [done|]. exists e. by rewrite Nat.sub_diag.
    + split; [lia|]. exists e'. replace (j - k)%nat with (S (j - S k)) by lia. done.
  - intros (Hk & e' & Hl & He). destruct (decide (j = k)) as [->|Hj].
    + rewrite Nat.sub_diag in Hl. injection Hl as <-. left. rewrite He. by left.
    + right. split; [lia|]. exists e'. replace (j - k)%nat with (S (j - S k)) in Hl by lia. done.
Qed.
Lemma NoDup_hits key l k : NoDup (hits key l k).
Proof.
  revert k. induction l as [|e l IH]; intros k; cbn [hits]; [by apply base.NoDup_nil_2|]. destruct (found_by key e); [|apply IH]. cbn [app].
  apply list.NoDup_cons. split; [|apply IH]. intros (? & _)%elem_of_hits. lia.
Qed.

(** The array with what was found. *)
Definition config_of_found (n : nat) (found : list nat) : list (option nat) := (Some <$> found) ++ replicate (n - length found) None.

Lemma config_write n found k : (length found < n)%nat ->
  mwrite (config_of_found n found) (zlen found) [Some k] = Some (config_of_found n (found ++ [k])).
Proof.
  intros H. unfold config_of_found. destruct (n - length found)%nat as [|m] eqn:E; [lia|]. rewrite length_app, replicate_S. cbn [length].
  replace (n - (length found + 1))%nat with m by lia. change ((None : option nat) :: replicate m None) with ([None : option nat] ++ replicate m None).
  rewrite (mwrite_mid (Some <$> found) [None] [Some k] (replicate m None)) by (rewrite ?length_fmap; done). by rewrite fmap_app, <-app_assoc.
Qed.
Lemma find_loop_spec key l k n found : (length found + length (hits key l k) <= n)%nat ->
  find_loop key l k (config_of_found n found) (zlen found) = Some (zlen (found ++ hits key l k), config_of_found n (found ++ hits key l k)).
Proof.
  revert k found. induction l as [|e l IH]; intros k found Hn; cbn [hits find_loop] in *; [by rewrite app_nil_r|]. fold (found_by key e).
  destruct (found_by key e); cbn [app length] in *; [|by apply IH]. rewrite config_write by lia. bsimp.
  replace (zlen found + 1) with (zlen (found ++ [k])) by (rewrite length_app; cbn [length]; lia).
  rewrite IH by (rewrite length_app; cbn [length]; lia). by rewrite <-app_assoc.
Qed.
Lemma list_find_spec key l n found : (length found + length (hits key l 0) <= n)%nat ->
  dlt_logstorage_list_find key l (config_of_found n found) (zlen found) = Some (zlen (hits key l 0), config_of_found n (found ++ hits key l 0)).
Proof. intros Hn. unfold dlt_logstorage_list_find. rewrite find_loop_spec by done. bsimp. f_equal. f_equal. rewrite length_app. lia. Qed.

Lemma NoDup_bounded (l : list nat) n : NoDup l -> (∀ x, x ∈ l -> (x < n)%nat) -> (length l <= n)%nat.
Proof.
  intros Hd Hl. rewrite <-(length_seq n 0). apply submseteq_length, NoDup_submseteq; [done|]. intros x Hx. apply elem_of_seq. specialize (Hl x Hx). lia.
Qed.

(** Each filter is found by at most one of the keys: the array is large enough, and
    no filter is left out when the loop stops early. *)
Lemma keys_loop_spec h n keys found : num_configs h = zlen (config_list h) -> (length (config_list h) <= n)%nat ->
  let all := found ++ (key ← keys; hits key (config_list h) 0) in
  NoDup all -> (∀ k, k ∈ all -> (k < length (config_list h))%nat) ->
  keys_loop keys h (config_of_found n found) (zlen found) = Some (zlen all, config_of_found n all).
Proof.
  intros Hnum Hn. revert found. induction keys as [|key keys IH]; intros found all Hd Hb; unfold all in *; clear all; [cbn; by rewrite app_nil_r|].
  rewrite bind_cons in *. cbn [keys_loop]. pose proof (NoDup_bounded _ _ Hd Hb) as Hl. rewrite !length_app in Hl. rewrite list_find_spec by lia. bsimp.
  replace (zlen found + zlen (hits key (config_list h) 0)) with (zlen (found ++ hits key (config_list h) 0)) by (rewrite length_app; lia).
  rewrite app_assoc in Hd, Hb |- *. rewrite Hnum. destruct (Z.eqb_spec (zlen (found ++ hits key (config_list h) 0)) (zlen (config_list h))) as [E|E]; [|by apply IH].
  replace (key0 ← keys; hits key0 (config_list h) 0) with ([] : list nat); [by rewrite app_nil_r|]. symmetry. apply length_zero_iff_nil. rewrite length_app in E. lia.
Qed.

Lemma filter_loop_spec A h n apid ctid ecu ll l pre tl : Forall (λ k, is_Some (config_list h !! k)) l -> n = length l ->
  filter_loop A n (length pre) h (pre ++ (Some <$> l) ++ tl) apid ctid ecu ll =
  Some (pre ++ ((λ k, e ← config_list h !! k; if passes A (data e) apid ctid ecu ll then Some k else None) <$> l) ++ tl).
Proof.
  intros HF ->. revert pre. induction HF as [|k l [e He] _ IH]; intros pre; [done|]. rewrite !fmap_cons. cbn [length filter_loop app].
  rewrite lookup_app_r by lia. rewrite Nat.sub_diag. cbn [lookup list_lookup]. bsimp. rewrite He. bsimp.
  set (o := if passes A (data e) apid ctid ecu ll then Some k else None).
  assert ((if passes A (data e) apid ctid ecu ll then pre ++ Some k :: (Some <$> l) ++ tl else <[length pre := None]> (pre ++ Some k :: (Some <$> l) ++ tl)) = (pre ++ [o]) ++ (Some <$> l) ++ tl) as ->.
  { unfold o. rewrite <-app_assoc. cbn [app]. destruct (passes _ _ _ _ _ _); [done|]. rewrite insert_app_r_alt by lia. by rewrite Nat.sub_diag. }
  replace (S (length pre)) with (length (pre ++ [o])) by (rewrite length_app; cbn [length]; lia). rewrite IH. by rewrite <-app_assoc.
Qed.

(** ** The configuration *)

Lemma create_keys_heap A a c e : heap_ok A -> dlt_logstorage_create_keys A a c e = dlt_logstorage_create_keys heap0 a c e.
Proof.
  intros HA. pose proof heap0_ok as H0. assert (∀ s, dlt_logstorage_get_keys_list A s = dlt_logstorage_get_keys_list heap0 s) as Hl.
  { intros s. unfold dlt_logstorage_get_keys_list. rewrite !heap_strdup by done. bsimp. by rewrite !heap_calloc by done. }
  unfold dlt_logstorage_create_keys. rewrite !heap_calloc by done. bsimp. destruct (match a with Some _ => _ | None => _ end), e as [e|]; try done.
  all: destruct a as [a|], c as [c|]; try done; bsimp; rewrite !Hl; destruct (dlt_logstorage_get_keys_list heap0 a); try done; bsimp;
    destruct (dlt_logstorage_get_keys_list heap0 c); try done; bsimp; by rewrite !heap_calloc by done.
Qed.
Lemma create_keys_names A a c e keys : dlt_logstorage_create_keys A a c e = Some keys -> (is_Some a <-> is_Some c) ∧ (a = None -> is_Some e).
Proof. unfold dlt_logstorage_create_keys. by destruct a, c, e. Qed.

(** Filters are stored with their keys, are counted, fit into the array of a search,
    and their files have an entry. *)
Record storage_inv (h : DltLogStorage) : Prop := {
  si_keys : ∀ e, e ∈ config_list h -> dlt_logstorage_create_keys heap0 (apids (data e)) (ctids (data e)) (ecuid (data e)) = Some (key_list e);
  si_num : num_configs h = zlen (config_list h);
  si_max : (length (config_list h) <= 125)%nat;
  si_files : ∀ e n, e ∈ config_list h -> file_name (data e) = Some n -> is_Some (find_newest n (newest_file_list h))
}.

(** ** The filters of a message *)

Definition excluded_spec (f : DltLogStorageFilterConfig) (a c : bytes) : Prop :=
  let listed i s := i ∈ take 4 <$> split_ids s in
  match excluded_apids f, excluded_ctids f with
  | Some x, Some y => listed a x ∧ listed c y
  | Some x, None => listed a x
  | None, Some y => listed c y
  | None, None => False
  end.
(** What a filter wants: its identifiers, at most its level, and nothing excluded. *)
Definition wants (f : DltLogStorageFilterConfig) (a c e : bytes) (ll : Z) : Prop :=
  selects f a c e ∧ ll <= log_level f ∧ ~ excluded_spec f a c.

Record well_configured (f : DltLogStorageFilterConfig) : Prop := {
  wc_plain : plain_filter f;
  wc_excluded : ∀ s, excluded_apids f = Some s ∨ excluded_ctids f = Some s -> 0 ∉ s
}.

(** Tokens are parts of the string. *)
Lemma token_subset d s x : (x ∈ (MultipleFiles.token d s).1 -> x ∈ s) ∧ (x ∈ (MultipleFiles.token d s).2 -> x ∈ s).
Proof.
  induction s as [|y s [IH1 IH2]]; [done|]. cbn [MultipleFiles.token]. destruct (y =? d); [split; [by intros ?%not_elem_of_nil|by right]|].
  destruct (MultipleFiles.token d s) as [t r]. cbn in *. split; [|intros H; right; by apply IH2]. intros [->|H]%elem_of_cons; [by left|right; by apply IH1].
Qed.
Lemma skip_subset d s x : x ∈ MultipleFiles.skip_delims d s -> x ∈ s.
Proof. induction s as [|y s IH]; [done|]. cbn. destruct (y =? d); [|done]. intros H. right. by apply IH. Qed.
Lemma strtok_subset d s t r : MultipleFiles.strtok d s = Some (t, r) -> (∀ x, x ∈ t -> x ∈ s) ∧ (∀ x, x ∈ r -> x ∈ s).
Proof.
  unfold MultipleFiles.strtok. destruct (MultipleFiles.skip_delims d s) as [|y s'] eqn:E; [done|]. rewrite <-E. intros [= H].
  split; intros x Hx; apply (skip_subset d); destruct (token_subset d (MultipleFiles.skip_delims d s) x) as [H1 H2]; rewrite H in H1, H2; auto.
Qed.
Lemma tokens_subset n s t x : t ∈ tokens n s -> x ∈ t -> x ∈ s.
Proof.
  revert s. induction n as [|n IH]; intros s; cbn [tokens]; [by intros ?%not_elem_of_nil|]. destruct (MultipleFiles.strtok comma s) as [[t' r]|] eqn:E; [|by intros ?%not_elem_of_nil].
  destruct (strtok_subset _ _ _ _ E) as [H1 H2]. intros [->|H]%elem_of_cons Hx; [by apply H1|]. by apply H2, IH.
Qed.

Lemma excluded_listed A m s : heap_ok A -> 0 ∉ s -> dlt_logstorage_check_excluded_ids A m s = true <-> cstr 4 m ∈ take 4 <$> split_ids s.
Proof.
  intros HA Hs. unfold dlt_logstorage_check_excluded_ids. rewrite heap_strdup by done. rewrite existsb_exists, list_elem_of_fmap.
  assert (∀ t, t ∈ split_ids s -> strncmp_eq 4 m t = bool_decide (cstr 4 m = take 4 t)) as Ht.
  { intros t Hin. unfold strncmp_eq. rewrite (cstr_plain 4 t); [done|]. intros H0. by apply Hs, (tokens_subset (S (length s)) s t). }
  split; intros (t & H1 & H2).
  - apply list_elem_of_In in H1. rewrite Ht in H2 by done. apply bool_decide_eq_true in H2. by exists t.
  - exists t. split; [by apply list_elem_of_In|]. rewrite Ht by done. by apply bool_decide_eq_true.
Qed.

Lemma passes_spec A f a c e ll : heap_ok A -> well_configured f -> selects f (cstr 4 a) (cstr 4 c) (cstr 4 e) ->
  passes A f (Some a) (Some c) e ll = true <-> ll <= log_level f ∧ ~ excluded_spec f (cstr 4 a) (cstr 4 c).
Proof.
  intros HA [Hp Hx] (_ & _ & He). unfold passes, excluded, excluded_spec, ecu_named in *. rewrite !andb_true_iff, negb_true_iff, Z.ltb_ge, negb_true_iff.
  assert (match ecuid f with Some x => strncmp_eq 4 e x | None => true end = true) as ->.
  { destruct (ecuid f) as [x|] eqn:E; [|done]. unfold strncmp_eq. rewrite (cstr_plain 4 x) by apply (pf_ecuid _ Hp x E). by apply bool_decide_eq_true. }
  assert (∀ b P, (b = true <-> P) -> (b = false <-> ~ P)) as Hb by (intros [] P; intuition congruence).
  destruct (excluded_apids f) as [xa|], (excluded_ctids f) as [xc|]; try pose proof (Hx xa ltac:(by left)); try pose proof (Hx xc ltac:(by right)).
  - rewrite (Hb _ _ (andb_true_iff _ _)). rewrite !excluded_listed by done. tauto.
  - rewrite (Hb _ _ (excluded_listed A a xa HA ltac:(done))). tauto.
  - rewrite (Hb _ _ (excluded_listed A c xc HA ltac:(done))). tauto.
  - tauto.
Qed.

(** An identifier in a message: a terminator is behind it. *)
Record message_mem (m : bytes) : Prop := { mm_end : 0 ∈ m; mm_id : message_id (cstr 4 m) }.

Lemma id_string_mem m : message_mem m -> id_string (Some m) = Some (cstr 4 m).
Proof. intros [H _]. cbn. unfold strlen. by rewrite bool_decide_true. Qed.

Section routing.
Context (A : allocator) (h : DltLogStorage) (a c e : bytes).
Hypothesis (HA : heap_ok A) (Hinv : storage_inv h) (Hwell : ∀ en, en ∈ config_list h -> well_configured (data en)).
Hypothesis (Ia : message_mem a) (Ic : message_mem c) (Ie : message_mem e).

Let triples := message_triples (cstr 4 a) (cstr 4 c) (cstr 4 e).

Lemma found_by_spec en t : en ∈ config_list h -> t ∈ triples ->
  found_by (enc t) en = true <-> selects (data en) (cstr 4 a) (cstr 4 c) (cstr 4 e) ∧ t = target (data en) (cstr 4 a) (cstr 4 c) (cstr 4 e).
Proof.
  intros Hen Ht. pose proof (si_keys _ Hinv en Hen) as Hk. pose proof (wc_plain _ (Hwell en Hen)) as Hp.
  destruct (create_keys_names _ _ _ _ _ Hk) as [Hac Hecu]. destruct (create_keys_plain heap0 _ _ heap0_ok Hp Hk) as [Hkeys Hparts].
  rewrite <-filter_hit by (done || apply Ia || apply Ic || apply Ie). unfold found_by. rewrite Hkeys, existsb_exists. rewrite list.Forall_forall in Hparts.
  assert (parts t) as Hpt by (eapply message_parts; [apply Ia|apply Ic|apply Ie|exact Ht]). split.
  - intros (k & (t' & -> & Ht')%list_elem_of_In%list_elem_of_fmap & Hc). rewrite key_compare in Hc by auto. apply bool_decide_eq_true in Hc as ->. done.
  - intros Hin. exists (enc t). split; [apply list_elem_of_In, list_elem_of_fmap; by exists t|]. rewrite key_compare by auto. by apply bool_decide_eq_true.
Qed.

(** What the keys of the message find, key by key. *)
Definition routed : list nat := key ← enc <$> triples; hits key (config_list h) 0.

Lemma elem_of_routed k : k ∈ routed <-> ∃ en, config_list h !! k = Some en ∧ selects (data en) (cstr 4 a) (cstr 4 c) (cstr 4 e).
Proof.
  unfold routed. rewrite list_elem_of_bind. split.
  - intros (key & (_ & en & Hl & Hf)%elem_of_hits & (t & -> & Ht)%list_elem_of_fmap). rewrite Nat.sub_0_r in Hl. exists en. split; [done|].
    apply (found_by_spec en t) in Hf; [by destruct Hf|by eapply list_elem_of_lookup_2|done].
  - intros (en & Hl & Hs). set (t := target (data en) (cstr 4 a) (cstr 4 c) (cstr 4 e)). pose proof (list_elem_of_lookup_2 _ _ _ Hl) as Hen.
    assert (t ∈ triples) as Ht.
    { unfold t, triples. apply message_triples_spec. unfold target. do 3 eexists. split; [done|]. destruct Hs as (_ & _ & He). unfold ecu_named in He.
      destruct (ecuid (data en)); [done|]. by destruct (all_ids (apids (data en))), (all_ids (ctids (data en))). }
    exists (enc t). split; [|apply list_elem_of_fmap; by exists t]. apply elem_of_hits. split; [lia|]. exists en. rewrite Nat.sub_0_r. split; [done|]. by apply found_by_spec.
Qed.
Lemma NoDup_routed : NoDup routed.
Proof.
  assert (∀ l, NoDup l -> (∀ t, t ∈ l -> t ∈ triples) -> NoDup (key ← enc <$> l; hits key (config_list h) 0)) as H.
  { induction l as [|t l IH]; intros Hd Hl; [by apply base.NoDup_nil_2|]. apply list.NoDup_cons in Hd as [Ht Hd]. rewrite fmap_cons, bind_cons. apply NoDup_app.
    split_and!; [apply NoDup_hits| |apply IH; [done|intros; apply Hl; by right]]. intros k (_ & en & Hk & Hf)%elem_of_hits Hin. rewrite Nat.sub_0_r in Hk.
    apply list_elem_of_bind in Hin as (key & (_ & en' & Hk' & Hf')%elem_of_hits & (t' & -> & Ht')%list_elem_of_fmap). rewrite Nat.sub_0_r in Hk'. rewrite Hk in Hk'. injection Hk' as <-.
    pose proof (list_elem_of_lookup_2 _ _ _ Hk) as Hen. apply found_by_spec in Hf as [_ Hf]; [|done|apply Hl; by left]. apply found_by_spec in Hf' as [_ Hf']; [|done|apply Hl; by right]. congruence. }
  apply H; [|done]. apply message_triples_NoDup; apply mi_nonempty; [apply Ia|apply Ic|apply Ie].
Qed.

(** The filters that take the message. *)
Definition takers (ll : Z) : list (option nat) :=
  (λ k, en ← config_list h !! k; if passes A (data en) (Some a) (Some c) e ll then Some k else None) <$> routed.

Lemma filter_spec ll : ready h = true -> dlt_logstorage_filter A h (config_of_found 125 []) (Some a) (Some c) e ll =
  Some (zlen routed, takers ll ++ replicate (125 - length routed) None).
Proof.
  intros Hr. unfold dlt_logstorage_filter, dlt_logstorage_get_config. rewrite Hr, !id_string_mem by done. bsimp. cbn [negb].
  rewrite possible_keys_enc by (apply mi_part; apply Ia || apply Ic || apply Ie). fold triples. pose proof (si_max _ Hinv) as Hmax.
  assert (∀ k, k ∈ routed -> (k < length (config_list h))%nat) as Hb by (intros k (en & Hl & _)%elem_of_routed; by eapply lookup_lt_Some).
  pose proof (keys_loop_spec h 125 (enc <$> triples) [] (si_num _ Hinv) Hmax NoDup_routed Hb) as Hloop. cbn zeta in Hloop. rewrite app_nil_l in Hloop. change (zlen []) with 0 in Hloop. rewrite Hloop.
  fold routed. bsimp. destruct (Z.eqb_spec (zlen routed) 0) as [E|E].
  { unfold takers, config_of_found. destruct routed; [done|]. cbn [length] in E. lia. }
  rewrite Nat2Z.id. unfold config_of_found. pose proof (filter_loop_spec A h (length routed) (Some a) (Some c) e ll routed [] (replicate (125 - length routed) None)) as Hf.
  cbn [length app] in Hf. rewrite Hf; [done| |done]. apply list.Forall_forall. intros k (en & Hl & _)%elem_of_routed. by exists en.
Qed.

Lemma takers_spec ll : let ks := omap id (takers ll) in NoDup ks ∧
  ∀ k, k ∈ ks <-> ∃ en, config_list h !! k = Some en ∧ wants (data en) (cstr 4 a) (cstr 4 c) (cstr 4 e) ll.
Proof.
  cbn zeta. set (g := λ k, en ← config_list h !! k; if passes A (data en) (Some a) (Some c) e ll then Some k else None).
  assert (∀ k y, g k = Some y -> y = k) as Hg by (intros k y; unfold g; destruct (config_list h !! k) as [en|]; [|done]; bsimp; destruct (passes _ _ _ _ _ _); by intros [= <-]).
  assert (omap id (takers ll) = omap g routed) as -> by (unfold takers; fold g; induction routed as [|k l IH]; [done|]; rewrite fmap_cons; cbn; destruct (g k); cbn; by rewrite IH).
  split.
  - pose proof NoDup_routed as Hd. clear -Hd Hg. induction routed as [|k l IH]; [by apply base.NoDup_nil_2|]. apply list.NoDup_cons in Hd as [Hk Hd]. cbn. destruct (g k) as [y|] eqn:E; [|by apply IH].
    apply Hg in E as ->. apply list.NoDup_cons. split; [|by apply IH]. intros (x & Hx & Ex)%list_elem_of_omap. apply Hg in Ex as ->. done.
  - intros k. rewrite list_elem_of_omap. unfold wants. split.
    + intros (x & Hx & Ex). pose proof (Hg _ _ Ex) as <-. apply elem_of_routed in Hx as (en & Hl & Hs). exists en. split; [done|]. split; [done|].
      unfold g in Ex. rewrite Hl in Ex. cbn [mbind option_bind] in Ex. destruct (passes _ _ _ _ _ _) eqn:Ep; [|done]. apply (passes_spec A) in Ep; [done..|by eapply Hwell, list_elem_of_lookup_2|done].
    + intros (en & Hl & Hs & Hw). exists k. split; [apply elem_of_routed; by exists en|]. unfold g. rewrite Hl. bsimp.
      destruct (passes _ _ _ _ _ _) eqn:Ep; [done|]. apply not_true_iff_false in Ep. destruct Ep. apply passes_spec; [done|by eapply Hwell, list_elem_of_lookup_2|done..].
Qed.

End routing.

Lemma store_loop_omap {W} (ops : Behavior -> storage_ops W) A d l st : store_loop ops A d l st = store_loop ops A d (Some <$> omap id l) st.
Proof.
  revert st. induction l as [|[k|] l IH]; intros st; [done| |apply IH]. cbn [omap list_omap id fmap list_fmap store_loop].
  destruct (store_filter ops A d k st) as [[[] st']|]; [apply IH|done..].
Qed.

(** The length of the optional fields of a standard header. *)
Definition extra_length (htyp : Z) : Z :=
  sizeof_DltStandardHeaderExtra - (if DLT_IS_HTYP_WEID htyp then 0 else 4)
  - (if DLT_IS_HTYP_WSID htyp then 0 else DLT_SIZE_WSID) - (if DLT_IS_HTYP_WTMS htyp then 0 else DLT_SIZE_WTMS).

(** C29: A log message is handed to exactly the filters of the logstorage that are
    configured for it, to each of them once: those whose lists (or wildcards) name its
    application, context and ECU, whose level is not below that of the message, and
    which do not exclude it.  The search stays inside of its array of 125 filters
    and misses none, also where it stops early.  The ECU is what the four bytes behind
    the standard header say, as the code reads them, also if the header has no ECU
    identifier ([session_taken_for_ecu]).  The identifiers in the message are followed
    by a terminator somewhere in memory ([ids_read_behind_header]) and have no colon;
    a list of a filter is a wildcard or has no wildcard in it
    ([overlap_hides_filter], [overlap_overflows]). *)
Theorem message_to_its_filters {W} (ops : Behavior -> storage_ops W) A h data1 data2 data3 behind2 disable_nw (w : W) htyp msin :
  let mem := data2 ++ behind2 in
  let ext := drop (Z.to_nat (sizeof_DltStandardHeader + extra_length htyp)) mem in
  let a := drop 2 ext in let c := drop 6 ext in let e := drop 4 mem in
  heap_ok A -> storage_inv h -> ready h = true -> (∀ en, en ∈ config_list h -> well_configured (data en)) ->
  mem !! 0%nat = Some htyp -> DLT_IS_HTYP_UEH htyp = true -> ext !! 0%nat = Some msin ->
  sizeof_DltStandardHeader + sizeof_DltExtendedHeader + extra_length htyp <= zlen data2 ->
  message_mem a -> message_mem c -> message_mem e ->
  ∃ ks, NoDup ks ∧
    (∀ k, k ∈ ks <-> ∃ en, config_list h !! k = Some en ∧ wants (data en) (cstr 4 a) (cstr 4 c) (cstr 4 e) (DLT_GET_MSIN_MTIN msin)) ∧
    dlt_logstorage_write ops A h data1 data2 data3 behind2 disable_nw w =
      '(rc, st) ← store_loop ops A (data1, data2, data3) (Some <$> ks)
        {| st_handle := h; st_found := false; st_ret := 0; st_err := 0; st_disable_nw := disable_nw; st_world := w |};
      Some (rc, st_handle st, st_disable_nw st, st_world st).
Proof.
  intros mem ext a c e HA Hinv Hr Hwell Htyp Hueh Hmsin Hlen Ia Ic Ie. destruct (takers_spec A h a c e HA Hinv Hwell Ia Ic Ie (DLT_GET_MSIN_MTIN msin)) as [Hd Hk].
  eexists. split; [exact Hd|]. split; [exact Hk|]. unfold dlt_logstorage_write. rewrite Hr. cbn [negb]. fold mem. rewrite Htyp. bsimp. fold (extra_length htyp). rewrite Hueh, ltb_false by done.
  fold ext. rewrite Hmsin. bsimp. fold a c. change (drop (Z.to_nat sizeof_DltStandardHeader) mem) with e. change (replicate (Z.to_nat DLT_CONFIG_FILE_SECTIONS_MAX) None) with (config_of_found 125 []).
  rewrite (filter_spec A h a c e Hinv Hwell Ia Ic Ie) by done. bsimp. rewrite Nat2Z.id.
  assert (length (takers A h a c e (DLT_GET_MSIN_MTIN msin)) = length (routed h a c e)) as Hl by apply length_fmap.
  rewrite take_app_length' by done. rewrite <-store_loop_omap. destruct (Z.eqb_spec (zlen (routed h a c e)) 0) as [E|E]; [|done].
  destruct (takers A h a c e _); [done|cbn [length] in Hl; lia].
Qed.

(** ** Lists of names *)

Definition count (d : Z) (s : bytes) : nat := length (List.filter (λ c, c =? d) s).
Lemma strtok_Some d s t r : MultipleFiles.strtok d s = Some (t, r) -> t <> [] ∧ (d ∉ t) ∧ (length r < length s)%nat ∧
  (r = [] ∨ (S (count d r) <= count d s)%nat).
Proof.
  unfold MultipleFiles.strtok, count. intros H.
  assert ((length (MultipleFiles.skip_delims d s) <= length s)%nat ∧ (count d (MultipleFiles.skip_delims d s) <= count d s)%nat
    ∧ head (MultipleFiles.skip_delims d s) <> Some d) as (Hl & Hc & Hh).
  { clear H. unfold count. induction s as [|x s (I1 & I2 & I3)]; [done|]. cbn [MultipleFiles.skip_delims List.filter]. destruct (Z.eqb_spec x d); cbn [length]; [split_and!; (lia || done)|].
    cbn [List.filter]. rewrite (eqb_false x d) by done. split_and!; [lia|lia|cbn; congruence]. }
  destruct (MultipleFiles.skip_delims d s) as [|x s'] eqn:E; [done|]. injection H as H. cbn [MultipleFiles.token] in H. destruct (Z.eqb_spec x d) as [->|Hx]; [done|].
  assert (∀ u, let '(t, r) := MultipleFiles.token d u in (d ∉ t) ∧ (length r <= length u)%nat ∧ (r = [] ∨ (S (count d r) <= count d u)%nat)) as Ht.
  { clear. unfold count. induction u as [|y u IH]; [split_and!; [apply not_elem_of_nil|done|by left]|]. cbn [MultipleFiles.token List.filter]. destruct (Z.eqb_spec y d).
    - split_and!; [apply not_elem_of_nil|cbn [length]; lia|right; cbn [length]; lia].
    - destruct (MultipleFiles.token d u) as [t' r']. destruct IH as (H1 & H2 & H3). split_and!; [by apply not_elem_of_cons|cbn [length]; lia|done]. }
  unfold count in *. specialize (Ht s'). destruct (MultipleFiles.token d s') as [t' r']. injection H as <- <-. destruct Ht as (H1 & H2 & H3). cbn [length] in Hl.
  cbn [List.filter] in Hc. rewrite (eqb_false x d) in Hc by done. split_and!; [done|by apply not_elem_of_cons|lia|]. destruct H3; [by left|right; lia].
Qed.

Lemma tokens_fuel n m s : (length s < n)%nat -> (length s < m)%nat -> tokens n s = tokens m s.
Proof.
  revert m s. induction n as [|n IH]; intros [|m] s Hn Hm; try lia. cbn [tokens]. destruct (MultipleFiles.strtok comma s) as [[t r]|] eqn:E; [|done].
  destruct (strtok_Some _ _ _ _ E) as (_ & _ & Hl & _). f_equal. apply IH; lia.
Qed.
Lemma split_step s : split_ids s = match MultipleFiles.strtok comma s with None => [] | Some (t, r) => t :: split_ids r end.
Proof.
  unfold split_ids at 1. cbn [tokens]. destruct (MultipleFiles.strtok comma s) as [[t r]|] eqn:E; [|done]. f_equal. destruct (strtok_Some _ _ _ _ E) as (_ & _ & Hl & _). apply (tokens_fuel _ (S (length r))); lia.
Qed.
Lemma split_word w r : w <> [] -> comma ∉ w -> split_ids (w ++ comma :: r) = w :: split_ids r ∧ split_ids w = [w].
Proof.
  intros Hn Hc. assert (∀ u, comma ∉ u -> MultipleFiles.token comma (u ++ comma :: r) = (u, r) ∧ MultipleFiles.token comma u = (u, [])) as Ht.
  { induction u as [|y u IH]; intros Hu; [done|]. apply not_elem_of_cons in Hu as [Hy Hu]. cbn [app MultipleFiles.token]. rewrite eqb_false by done. destruct (IH Hu) as [-> ->]. done. }
  rewrite (split_step (w ++ comma :: r)), (split_step w). unfold MultipleFiles.strtok. destruct w as [|x w]; [done|]. pose proof Hc as [Hx _]%not_elem_of_cons.
  cbn [app MultipleFiles.skip_delims]. rewrite eqb_false by done. destruct (Ht _ Hc) as [E1 E2]. cbn [app] in E1. by rewrite E1, E2.
Qed.
Lemma split_plain s t : t ∈ split_ids s -> t <> [] ∧ comma ∉ t.
Proof.
  unfold split_ids. generalize (S (length s)) as n. intros n. revert s. induction n as [|n IH]; intros s; cbn [tokens]; [by intros ?%not_elem_of_nil|].
  destruct (MultipleFiles.strtok comma s) as [[t' r]|] eqn:E; [|by intros ?%not_elem_of_nil]. destruct (strtok_Some _ _ _ _ E) as (H1 & H2 & _). intros [->|H]%elem_of_cons; [done|by apply (IH r)].
Qed.
(** There are at most as many names as the code counts. *)
Lemma split_count s : zlen (split_ids s) <= dlt_logstorage_count_ids (Some s).
Proof.
  unfold split_ids, dlt_logstorage_count_ids. fold (count comma s). generalize (S (length s)) as n. intros n. revert s. induction n as [|n IH]; intros s; cbn [tokens length]; [lia|].
  destruct (MultipleFiles.strtok comma s) as [[t r]|] eqn:E; cbn [length]; [|lia]. destruct (strtok_Some _ _ _ _ E) as (_ & _ & _ & [->|H]); [destruct n; cbn; lia|]. specialize (IH r). lia.
Qed.

(** What the loop writes for the names from number [i] on, and the string of it. *)
Definition separator (num i : Z) : Z := if (1 <? num) && (i <? num) then comma else 0.
Fixpoint written_names (num i : Z) (ts : list bytes) : bytes :=
  match ts with [] => [] | t :: ts => take 4 t ++ separator num i :: written_names num (i + 1) ts end.
Fixpoint names_string (num i : Z) (ts : list bytes) : bytes :=
  match ts with [] => [] | t :: ts => take 4 t ++ if separator num i =? 0 then [] else comma :: names_string num (i + 1) ts end.

Lemma names_loop_spec fuel s num i pre m : (length s < fuel)%nat -> 1 <= i -> i - 1 + zlen (split_ids s) <= num ->
  zlen pre <= 5 * (i - 1) -> zlen pre + Z.of_nat m = 5 * num ->
  ∃ m', names_loop fuel s num i (zlen pre) (pre ++ replicate m 0) = Some (pre ++ written_names num i (split_ids s) ++ replicate m' 0).
Proof.
  revert s i pre m. induction fuel as [|fuel IH]; intros s i pre m Hs Hi Hnum Hpre Hm; [lia|]. rewrite split_step in *. cbn [names_loop].
  destruct (MultipleFiles.strtok comma s) as [[t r]|] eqn:E; [|exists m; done]. destruct (strtok_Some _ _ _ _ E) as (Ht & _ & Hr & _). cbn [length written_names] in *.
  assert (1 <= zlen (take 4 t) <= 4) as Hw by (rewrite length_take; destruct t; [done|cbn [length]; lia]). set (w := take 4 t) in *.
  assert (∀ k, (k <= m)%nat -> replicate m 0 = replicate k 0 ++ replicate (m - k) 0) as Hz by (intros k Hk; rewrite <-replicate_add; f_equal; lia).
  rewrite (Hz (length (w ++ [0]))), (mwrite_mid pre _ (w ++ [0])) by (rewrite ?length_replicate, ?length_app; cbn [length]; lia). bsimp. rewrite ltb_true, ltb_true by lia. cbn [andb].
  unfold separator at 1. destruct ((1 <? num) && (i <? num)) eqn:Ec.
  - zb. rewrite length_app. cbn [length]. replace (m - (length w + 1))%nat with (S (m - (length w + 2))) by lia. cbn [replicate].
    replace (pre ++ (w ++ [0]) ++ 0 :: replicate (m - (length w + 2)) 0) with ((pre ++ w) ++ [0; 0] ++ replicate (m - (length w + 2)) 0) by (by rewrite <-!app_assoc).
    rewrite (mwrite_mid (pre ++ w) [0; 0] [comma; 0]) by (rewrite ?length_app; done || lia). bsimp.
    replace ((pre ++ w) ++ [comma; 0] ++ replicate (m - (length w + 2)) 0) with ((pre ++ w ++ [comma]) ++ replicate (S (m - (length w + 2))) 0) by (cbn [replicate]; by rewrite <-!app_assoc).
    replace (zlen pre + zlen w + 1) with (zlen (pre ++ w ++ [comma])) by (rewrite !length_app; cbn [length]; lia).
    destruct (IH r (i + 1) (pre ++ w ++ [comma]) (S (m - (length w + 2)))) as [m' ->]; [lia..|rewrite !length_app; cbn [length]; lia|rewrite !length_app; cbn [length]; lia|].
    exists m'. f_equal. by rewrite <-!app_assoc.
  - bsimp. replace (zlen pre + zlen w + 1) with (zlen (pre ++ w ++ [0])) by (rewrite !length_app; cbn [length]; lia). rewrite (app_assoc pre (w ++ [0])).
   
    rewrite (length_app w [0]). cbn [length]. destruct (IH r (i + 1) (pre ++ w ++ [0]) (m - (length w + 1))%nat) as [m' ->]; [lia..|rewrite !length_app; cbn [length]; lia|rewrite !length_app; cbn [length]; lia|].
    exists m'. f_equal. by rewrite <-!app_assoc.
Qed.

Lemma names_loop_length fuel s num i y names names' : names_loop fuel s num i y names = Some names' -> length names' = length names.
Proof.
  revert s i y names. induction fuel as [|fuel IH]; intros s i y names; cbn [names_loop]; [done|]. destruct (MultipleFiles.strtok comma s) as [[t r]|]; [|by intros [= ->]].
  destruct (mwrite names y (take 4 t ++ [0])) as [n1|] eqn:E1; [|done]. bsimp. apply mwrite_length in E1. destruct (_ && _); [|intros [= <-]; lia].
  destruct (_ && _); bsimp.
  - destruct (mwrite n1 _ _) as [n2|] eqn:E2; [|done]. bsimp. apply mwrite_length in E2. intros H%IH. lia.
  - intros H%IH. lia.
Qed.
Lemma cstr_app_plain n (u v : bytes) : 0 ∉ u -> (length u <= n)%nat -> cstr n (u ++ v) = u ++ cstr (n - length u) v.
Proof.
  revert n. induction u as [|x u IH]; intros [|n] Hu Hn; cbn [length] in Hn; try lia; [done|done|]. apply not_elem_of_cons in Hu as [Hx Hu]. cbn [app cstr length].
  rewrite eqb_false by done. rewrite IH by (done || lia). done.
Qed.
Lemma written_string num i ts k n : (∀ t, t ∈ ts -> 0 ∉ t) -> (length (written_names num i ts) + k <= n)%nat ->
  cstr n (written_names num i ts ++ replicate k 0) = names_string num i ts.
Proof.
  revert i n. induction ts as [|t ts IH]; intros i n Ht Hn; cbn [written_names names_string app].
  - destruct k, n; done.
  - rewrite <-app_assoc. cbn [app]. assert (0 ∉ take 4 t) as Hz.
    { intros H. destruct (Ht t ltac:(by left)). rewrite <-(take_drop 4 t). apply elem_of_app. by left. }
    cbn [written_names] in Hn. rewrite length_app in Hn. cbn [length] in Hn. rewrite cstr_app_plain by (done || lia). f_equal.
    destruct (n - length (take 4 t))%nat as [|n'] eqn:En; [lia|]. cbn [cstr]. unfold separator in *. destruct ((1 <? num) && (i <? num)); [|done].
    rewrite eqb_false by done. f_equal. apply IH; [intros; apply Ht; by right|lia].
Qed.
Lemma names_string_length num i ts : 1 <= i <= num -> i - 1 + zlen ts <= num -> zlen (names_string num i ts) <= 5 * (num - i + 1) - 1.
Proof.
  revert i. induction ts as [|t ts IH]; intros i Hi Hn; cbn [names_string length] in *; [lia|]. rewrite length_app, length_take. unfold separator.
  destruct ((1 <? num) && (i <? num)) eqn:E; cbn [Z.eqb]; [|cbn [length]; lia]. zb. change (comma =? 0) with false. cbn [length]. specialize (IH (i + 1) ltac:(lia) ltac:(lia)). lia.
Qed.
Lemma names_string_split num i ts : (∀ t, t ∈ ts -> t <> [] ∧ comma ∉ t) -> i - 1 + zlen ts <= num -> 1 <= i -> split_ids (names_string num i ts) = take 4 <$> ts.
Proof.
  revert i. induction ts as [|t ts IH]; intros i Ht Hn Hi; cbn [names_string length] in *; [done|]. rewrite fmap_cons. destruct (Ht t ltac:(by left)) as [H1 H2].
  assert (take 4 t <> [] ∧ comma ∉ take 4 t) as [W1 W2].
  { split; [by destruct t|]. intros H. apply H2. rewrite <-(take_drop 4 t). apply elem_of_app. by left. }
  unfold separator. destruct ((1 <? num) && (i <? num)) eqn:E; cbn [Z.eqb].
  - zb. change (comma =? 0) with false. cbn iota. destruct (split_word (take 4 t) (names_string num (i + 1) ts) W1 W2) as [-> _]. f_equal. apply IH; [intros; apply Ht; by right|lia..].
  - rewrite app_nil_r. destruct (split_word (take 4 t) [] W1 W2) as [_ ->]. f_equal. destruct ts; [done|]. cbn [length] in Hn. apply andb_false_iff in E as [?|?]; zb; lia.
Qed.

(** The names of a list are stored inside of the memory that was counted out for
    them, each cut to four characters; white space never occurs in a value. *)
Lemma names_read A value : heap_ok A -> value <> [] -> 0 ∉ value ->
  ∃ names, dlt_logstorage_read_list_of_names A value = Some (0, Some names) ∧ split_ids names = take 4 <$> split_ids value ∧ 0 ∉ names.
Proof.
  intros HA Hv Hz. unfold dlt_logstorage_read_list_of_names. destruct value as [|x v]; [done|]. set (value := x :: v) in *. set (num := dlt_logstorage_count_ids (Some value)).
  assert (1 <= num) as H1 by (unfold num, dlt_logstorage_count_ids; lia). pose proof (split_count value) as Hc. fold num in Hc.
  rewrite heap_calloc, heap_strdup by done. bsimp.
  destruct (names_loop_spec (S (length value)) value num 1 [] (Z.to_nat (num * 5))) as [m' E]; [lia..|cbn [length]; lia|cbn [length]; lia|].
  rewrite app_nil_l in E. change (zlen []) with 0 in E. rewrite E. bsimp. rewrite app_nil_l.
  assert (∀ t, t ∈ split_ids value -> 0 ∉ t) as H0 by (intros t Ht H; by apply Hz, (tokens_subset (S (length value)) value t)).
  set (mem := written_names num 1 (split_ids value) ++ replicate m' 0).
  assert (cstr (length mem) mem = names_string num 1 (split_ids value)) as Es by (apply written_string; [done|unfold mem; rewrite length_app, length_replicate; lia]).
  assert (length mem = Z.to_nat (num * 5)) as Hlen.
  { pose proof (names_loop_length (S (length value)) value num 1 0 (replicate (Z.to_nat (num * 5)) 0) mem E) as Hl. by rewrite length_replicate in Hl. }
  unfold cstring. rewrite Es. pose proof (names_string_length num 1 (split_ids value) ltac:(lia) ltac:(lia)). rewrite ltb_true by lia. bsimp. eexists. split; [done|]. split.
  - apply names_string_split; [|lia|lia]. intros t Ht. by eapply split_plain.
  - rewrite <-Es. apply cstr_no_zero.
Qed.

(** ** Loading a configuration *)

Lemma cstring_answer value x : (100 <= length value)%nat -> entry x -> cstring (answer value x) = Some x.
Proof.
  intros Hv [Hz Hl]. unfold cstring, answer, buf. set (mem := pad_to 100 0 x ++ drop 100 value).
  assert (cstr (length mem) mem = x) as ->.
  { unfold mem, pad_to. rewrite <-app_assoc. assert (length (x ++ replicate (100 - length x) 0 ++ drop 100 value) = length value) as -> by (rewrite !length_app, length_replicate, length_drop; lia).
    rewrite cstr_app_plain by (done || lia). destruct (100 - length x)%nat as [|k] eqn:E; [lia|]. destruct (length value - length x)%nat as [|j] eqn:E2; [lia|]. cbn. by rewrite app_nil_r. }
  rewrite ltb_true; [done|]. unfold mem. rewrite length_app, length_pad_to by lia. lia.
Qed.
Lemma length_answer value x : (100 <= length value)%nat -> entry x -> length (answer value x) = length value.
Proof. intros Hv He. unfold answer. rewrite length_app, length_buf, length_drop by done. lia. Qed.

Lemma check_param_total A c t s : heap_ok A -> 0 ∉ s -> ∃ rc c', dlt_logstorage_check_param A c t s = Some (rc, c').
Proof.
  intros HA Hs. assert (∀ set, ∃ rc c', stored_names A set s = Some (rc, c')) as Hn.
  { intros set. unfold stored_names. destruct s as [|x s]; [by do 2 eexists|]. destruct (names_read A (x :: s) HA ltac:(done) Hs) as (names & -> & _). bsimp. by do 2 eexists. }
  destruct t; cbn [dlt_logstorage_check_param]; try apply Hn.
  all: match goal with |- ∃ rc c', Some ?p = _ => destruct p as [rc c']; by exists rc, c' end.
Qed.

Section loads.
Context {W : Type} (ops : Behavior -> storage_ops W) (A : allocator) (f : DltConfigFile).
Hypothesis (HA : heap_ok A) (Hf : sane f).

Lemma section_value_total sec e value : length value = 101%nat ->
  ∃ ret x, dlt_logstorage_get_filter_section_value f sec e value = Some (ret, x) ∧ length x = 101%nat ∧ (ret = 0 -> ∃ s, cstring x = Some s ∧ 0 ∉ s).
Proof.
  intros Hv. destruct e as [[k|] opt]; cbn [dlt_logstorage_get_filter_section_value]; [|by exists DLT_OFFLINE_LOGSTORAGE_FILTER_CONTINUE, value].
  destruct (sane_values _ Hf sec k value ltac:(lia)) as (rc & x & -> & He & _). bsimp. do 2 eexists. split; [done|]. rewrite length_answer by (done || lia). split; [done|].
  intros _. exists x. split; [apply cstring_answer; [lia|done]|apply He].
Qed.
Lemma filter_value_total sec t value : length value = 101%nat ->
  ∃ ret x, dlt_logstorage_get_filter_value f sec t value = Some (ret, x) ∧ length x = 101%nat ∧
    (ret = DLT_OFFLINE_LOGSTORAGE_FILTER_ERROR ∨ ret = DLT_OFFLINE_LOGSTORAGE_FILTER_CONTINUE ∨ ∃ s, cstring x = Some s ∧ 0 ∉ s).
Proof.
  intros Hv. unfold dlt_logstorage_get_filter_value.
  assert (∀ e, ∃ ret x, dlt_logstorage_get_filter_section_value f sec e value = Some (ret, x) ∧ length x = 101%nat ∧
    (ret = DLT_OFFLINE_LOGSTORAGE_FILTER_ERROR ∨ ret = DLT_OFFLINE_LOGSTORAGE_FILTER_CONTINUE ∨ ∃ s, cstring x = Some s ∧ 0 ∉ s)) as H.
  { intros e. destruct (section_value_total sec e value Hv) as (ret & x & E & Hl & H0). exists ret, x. split; [done|]. split; [done|].
    unfold dlt_logstorage_get_filter_section_value in E. destruct e as [[k|] opt]; [|injection E as <- <-; by right; left].
    destruct (dlt_config_file_get_value f sec k value) as [[rc v]|]; [|done]. cbn [mbind option_bind] in E. injection E as E1 E2.
    destruct (rc =? 0); [right; right; by apply H0|]. destruct opt; [by right; left|by left]. }
  repeat case_match; try apply H. exists DLT_OFFLINE_LOGSTORAGE_FILTER_ERROR, value. split; [done|]. split; [done|by left].
Qed.
Lemma values_loop_total sec ts value c : length value = 101%nat ->
  ∃ ret c', values_loop A f sec ts value c = Some (ret, c') ∧ (ret = 0 ∨ ret = DLT_OFFLINE_LOGSTORAGE_FILTER_ERROR).
Proof.
  revert value c. induction ts as [|t ts IH]; intros value c Hv; cbn [values_loop]; [exists 0, c; split; [done|by left]|].
  destruct (filter_value_total sec t value Hv) as (ret & x & -> & Hx & Hr). bsimp. destruct (Z.eqb_spec ret DLT_OFFLINE_LOGSTORAGE_FILTER_ERROR) as [->|N1]; [exists DLT_OFFLINE_LOGSTORAGE_FILTER_ERROR, c; split; [done|by right]|].
  destruct (Z.eqb_spec ret DLT_OFFLINE_LOGSTORAGE_FILTER_CONTINUE) as [->|N2]; [by apply IH|]. destruct Hr as [?|[?|(s & -> & Hs)]]; [done..|]. bsimp.
  destruct (check_param_total A c t s HA Hs) as (rc & c' & ->). bsimp. destruct (rc =? 0); [by apply IH|]. exists DLT_OFFLINE_LOGSTORAGE_FILTER_ERROR, c'. split; [done|by right].
Qed.

Lemma list_add_config_id c : dlt_logstorage_list_add_config A c = c.
Proof.
  assert (∀ o, o ≫= strdup A = o) as H by (intros [s|]; [cbn; by apply heap_strdup|done]). unfold dlt_logstorage_list_add_config. rewrite !H. by destruct c.
Qed.
Lemma find_newest_app n l l' : is_Some (find_newest n l) -> is_Some (find_newest n (l ++ l')).
Proof. unfold find_newest. rewrite !fmap_is_Some. intros [[i x] H]. exists (i, x). by apply list_find_app_Some; left. Qed.
Lemma add_newest_spec n l : ∃ l', add_newest A n l = Some (l ++ l') ∧ ∀ m, n = Some m -> is_Some (find_newest m (l ++ l')).
Proof.
  unfold add_newest. destruct n as [n|]; [|exists []; by rewrite app_nil_r]. destruct (find_newest n l) eqn:E.
  - exists []. rewrite app_nil_r. split; [done|]. intros m [= <-]. by rewrite E.
  - rewrite heap_calloc by done. bsimp. eexists. split; [done|]. intros m [= <-]. unfold find_newest in *. rewrite fmap_is_Some. apply list_find_elem_of with (x := {| nf_file_name := n; newest_file := None; nf_wrap_id := 0 |}); [|done].
    apply elem_of_app. right. by left.
Qed.

(** What loading keeps: the filters and their number, without the end of the
    configuration; [n] sections were read. *)
Record loading (h0 h : DltLogStorage) (n : nat) : Prop := {
  lo_inv : storage_inv h;
  lo_max : (length (config_list h) <= n)%nat;
  lo_type : connection_type h = connection_type h0;
  lo_status : config_status h = config_status h0
}.

Lemma prepare_table_spec h0 h n c (w : W) : loading h0 h n -> (n < 125)%nat ->
  (dlt_logstorage_prepare_table ops A h c w = Some (-1, h, w)) ∨
  ∃ h', dlt_logstorage_prepare_table ops A h c w = Some (0, h', w) ∧ loading h0 (set_num_configs h' (i32 (num_configs h' + 1))) (S n).
Proof.
  intros [Hi Hm Ht Hst] Hn. unfold dlt_logstorage_prepare_table. rewrite create_keys_heap by done. destruct (dlt_logstorage_create_keys heap0 (apids c) (ctids c) (ecuid c)) as [keys|] eqn:Ek; [|by left].
  right. unfold dlt_logstorage_list_add. rewrite !heap_calloc by done. bsimp. rewrite list_add_config_id. cbn [set_config_list newest_file_list].
  destruct (add_newest_spec (file_name c) (newest_file_list h)) as (l' & -> & Hl'). eexists. split; [done|]. split; try done.
  - split; cbn.
    + intros e [He|He%list_elem_of_singleton]%elem_of_app; [by apply (si_keys _ Hi)|]. by subst e.
    + rewrite length_app, (si_num _ Hi). cbn [length]. cint. lia.
    + rewrite length_app. cbn [length]. lia.
    + intros e m [He|He%list_elem_of_singleton]%elem_of_app Hm'; [by eapply find_newest_app, (si_files _ Hi)|]. subst e. by apply Hl'.
  - cbn. rewrite length_app. cbn [length]. lia.
Qed.

Lemma setup_filter_spec h0 h n sec (w : W) : loading h0 h n -> (n < 125)%nat ->
  ∃ ret h', dlt_daemon_offline_setup_filter_properties ops A h f sec w = Some (ret, h', w) ∧
    (ret = 0 ∧ loading h0 h' (S n) ∨ (ret = DLT_OFFLINE_LOGSTORAGE_FILTER_ERROR ∨ ret = DLT_OFFLINE_LOGSTORAGE_STORE_FILTER_ERROR) ∧ h' = h).
Proof.
  intros Hl Hn. unfold dlt_daemon_offline_setup_filter_properties. destruct (values_loop_total sec conf_types (replicate 101 0) fresh ltac:(done)) as (ret & c & -> & [->| ->]); bsimp; cbn [Z.eqb negb].
  - destruct (_ && _); [do 2 eexists; split; [done|]; right; split; [by left|done]|]. unfold dlt_logstorage_setup_table.
    destruct (prepare_table_spec h0 h n (dlt_logstorage_filter_set_strategy c (sync c)) w Hl Hn) as [->|(h' & -> & Hl')]; bsimp; cbn [Z.eqb].
    + do 2 eexists. split; [done|]. right. split; [by right|done].
    + do 2 eexists. split; [done|]. by left.
  - do 2 eexists. split; [done|]. right. split; [by left|done].
Qed.

Lemma general_spec h0 h n sec : loading h0 h n -> ∃ h', dlt_daemon_setup_general_properties h f sec = Some h' ∧ loading h0 h' n ∧ config_list h' = config_list h.
Proof.
  intros Hl. unfold dlt_daemon_setup_general_properties. destruct (sane_values _ Hf sec (lit "MaintainLogstorageLogLevel") (replicate 100 0) ltac:(done)) as (rc & x & -> & He & _). bsimp.
  destruct (rc =? 0); [|by exists h]. rewrite cstring_answer by done. bsimp. eexists. split; [done|].
  assert (∀ z, loading h0 (set_maintain_logstorage_loglevel h z) n) as Hz by (by intros z; destruct Hl as [[]]).
  unfold dlt_logstorage_check_maintain_logstorage_loglevel. destruct (_ || _); [|destruct (_ || _)]; split; done || apply Hz.
Qed.

Lemma sections_loop_spec h0 n sec valid h (w : W) : loading h0 h (Z.to_nat sec) -> 0 <= sec -> sec + Z.of_nat n <= num_sections f ->
  (valid = -1 -> config_list h = []) -> -1 <= valid <= 1 ->
  ∃ rc h' m, sections_loop ops A n sec f valid h w = Some (rc, h', w) ∧ loading h0 h' m ∧ (rc = -1 -> config_list h' = []) ∧ -1 <= rc <= 1.
Proof.
  revert sec valid h. induction n as [|n IH]; intros sec valid h Hl Hs Hn Hv Hr; cbn [sections_loop]; [by exists valid, h, (Z.to_nat sec)|].
  pose proof (sane_sections _ Hf) as Hmax. unfold DLT_CONFIG_FILE_SECTIONS_MAX in Hmax.
  destruct (sane_names _ Hf sec (replicate 101 0) ltac:(lia)) as (nm & He & -> & _); [rewrite length_replicate; lia|]. bsimp. cbn [Z.eqb]. rewrite cstring_answer by (done || rewrite length_replicate; lia). bsimp.
  assert (∀ h, loading h0 h (Z.to_nat sec) -> loading h0 h (Z.to_nat (sec + 1))) as Hstep by (intros h' [H1 H2 H3 H4]; split; try done; lia).
  destruct (MultipleFiles.strstr nm (lit "General")).
  { destruct (general_spec h0 h _ nm Hl) as (h' & -> & Hl' & Hc). bsimp. apply IH; [by apply Hstep|lia|lia|by rewrite Hc|done]. }
  destruct (_ =? 0); [|apply IH; [by apply Hstep|lia|lia|done|done]].
  destruct (setup_filter_spec h0 h (Z.to_nat sec) nm w Hl ltac:(lia)) as (ret & h' & -> & [[-> Hl']|[[-> | ->] ->]]); bsimp; cbn [Z.eqb DLT_OFFLINE_LOGSTORAGE_STORE_FILTER_ERROR DLT_OFFLINE_LOGSTORAGE_FILTER_ERROR].
  - apply IH; [replace (Z.to_nat (sec + 1)) with (S (Z.to_nat sec)) by lia; done|lia|lia|destruct (valid =? 1); lia|destruct (valid =? 1); lia].
  - apply IH; [by apply Hstep|lia|lia|lia|lia].
  - by exists valid, h, (Z.to_nat sec).
Qed.

End loads.

(** C30: Whatever bytes the configuration file of a device has, the filters are loaded
    within bounds (names into the memory counted out for them, keys into their
    slots), and the handle is left in a state in which messages can be filtered: every
    stored filter has exactly the keys of its names, filters are counted and at
    most 125, and each has an entry for its files; when an error is returned, no
    filter is stored. *)
Theorem device_loads {W} (ops : Behavior -> storage_ops W) A files h mount_point (w : W) :
  heap_ok A -> connection_type h <> DLT_OFFLINE_LOGSTORAGE_DEVICE_CONNECTED -> config_list h = [] ->
  ∃ rc h', dlt_logstorage_device_connected ops A files h mount_point w = Some (rc, h', w) ∧ storage_inv h' ∧
    (rc = -1 ∧ config_list h' = [] ∨ (rc = 0 ∨ rc = 1) ∧ ready h' = true).
Proof.
  intros HA Ht Hc. unfold dlt_logstorage_device_connected. rewrite eqb_false by done. bsimp. rewrite Hc. unfold dlt_logstorage_load_config. cbn [connection_type config_status device_mount_point].
  set (h0 := {| config_list := _ |}). cbn [Z.eqb negb DLT_OFFLINE_LOGSTORAGE_DEVICE_CONNECTED DLT_OFFLINE_LOGSTORAGE_CONFIG_DONE Pos.eqb].
  assert (storage_inv h0) as Hi by (split; cbn; [by intros e ?%not_elem_of_nil|done|lia|by intros e n ?%not_elem_of_nil]).
  unfold dlt_logstorage_store_filters. set (fname := _ ++ _).
  assert (∃ o, dlt_config_file_init A (Some fname) (files fname) = Some o ∧ ∀ f, o = Some f -> sane f) as (o & -> & Ho).
  { destruct (decide (zlen fname < DLT_PATH_MAX)) as [Hp|Hp].
    - destruct (files fname) as [content|]; [destruct (any_file_parses A fname content HA Hp) as (f & -> & Hf); exists (Some f); split; [done|by intros ? [= <-]]|].
      exists None. split; [|done]. unfold dlt_config_file_init. rewrite leb_false by lia. by destruct (malloc A sizeof_DltConfigFile).
    - exists None. split; [|done]. unfold dlt_config_file_init. by rewrite leb_true by lia. }
  bsimp. destruct o as [f|]; [|exists (-1), h0; split; [done|]; split; [done|]; by left]. specialize (Ho f eq_refl).
  pose proof (sane_sections _ Ho) as Hs. unfold dlt_config_file_get_num_sections. rewrite ltb_false by lia. cbn [snd].
  assert (loading h0 (set_maintain_logstorage_loglevel h0 DLT_MAINTAIN_LOGSTORAGE_LOGLEVEL_UNDEF) (Z.to_nat 0)) as Hl by (split; [by destruct Hi|cbn; lia|done|done]).
  destruct (sections_loop_spec ops A f HA Ho h0 (Z.to_nat (num_sections f)) 0 (-1) _ w Hl ltac:(lia) ltac:(lia) ltac:(done) ltac:(lia)) as (rc & h' & m & -> & [Hi' _ Ht' Hst'] & He & Hr). bsimp.
  assert (storage_inv (set_config_status h' DLT_OFFLINE_LOGSTORAGE_CONFIG_DONE) ∧ ready (set_config_status h' DLT_OFFLINE_LOGSTORAGE_CONFIG_DONE) = true) as [Hi2 Hr2].
  { split; [by destruct Hi'|]. unfold ready. cbn. by rewrite Ht'. }
  destruct (Z.eqb_spec rc 1) as [->|]; [eexists _, _; split; [done|]; split; [done|]; by right; split; [right|]|].
  destruct (Z.eqb_spec rc 0) as [->|]; cbn [negb]; [eexists _, _; split; [done|]; split; [done|]; by right; split; [left|]|].
  exists (-1), h'. split; [done|]. split; [done|]. left. split; [done|]. apply He. lia.
Qed.

(** ** Examples *)

(** Functions of a strategy that record the filters that are written. *)
Definition recording (_ : Behavior) : storage_ops (list nat) :=
  {| dlt_logstorage_prepare := λ w k c _ _ _, Some (0, c, w);
     dlt_logstorage_write_op := λ w k c _ _, Some (0, c, w ++ [k]);
     dlt_logstorage_sync := λ w k c _ _, Some (0, c, w) |}.

Definition sample_filter (a c e : option String.string) (ll : Z) : DltLogStorageFilterConfig :=
  {| apids := lit <$> a; ctids := lit <$> c; excluded_apids := None; excluded_ctids := None; log_level := ll; reset_log_level := 0;
     file_name := Some (lit "log"); working_file_name := Some (lit "log_001.dlt"); wrap_id := 0; file_size := 1000; num_files := 2; sync := 1;
     overwrite := 1; skip := 0; ecuid := lit <$> e; gzip_compression := 0; behavior := OnMsg; specific_size := 0; disable_network_routing := 1 |}.
Definition sample_handle (fs : list DltLogStorageFilterConfig) : DltLogStorage :=
  {| config_list := (λ f, {| key_list := default [] (dlt_logstorage_create_keys heap0 (apids f) (ctids f) (ecuid f)); data := f |}) <$> fs;
     num_configs := zlen fs; device_mount_point := lit "/media"; connection_type := 1; config_status := 1; prepare_errors := 0; write_errors := 0;
     newest_file_list := [{| nf_file_name := lit "log"; newest_file := None; nf_wrap_id := 0 |}]; maintain_logstorage_loglevel := -1 |}.

(** A message of APP1, CTX1 with the level 2; [fields] are the optional fields. *)
Definition sample_message (htyp : Z) (fields : bytes) : bytes := [htyp; 0; 0; 30] ++ fields ++ [33; 1] ++ lit "APP1" ++ lit "CTX1".
Definition written (fs : list DltLogStorageFilterConfig) (data2 behind2 : bytes) : option (list nat) :=
  '(_, _, _, w) ← dlt_logstorage_write recording heap0 (sample_handle fs) [] data2 [1] behind2 false []; Some w.

Definition two_filters : list DltLogStorageFilterConfig :=
  [sample_filter (Some "APP1,APP2"%string) (Some ".*"%string) None 4; sample_filter (Some "APP1"%string) (Some "CTX1"%string) (Some "ECU1"%string) 2].

Definition message_idb (s : bytes) : bool :=
  forallb (λ c, negb (c =? 0) && negb (c =? 58)) s && (length s <=? 4)%nat && (1 <=? length s)%nat && negb (is_wildcard s).
Lemma message_idb_spec s : message_idb s = true -> message_id s.
Proof.
  unfold message_idb. intros H. zb. rewrite forallb_forall in *. apply Nat.leb_le in H1, H2.
  assert (∀ c, c ∈ s -> c <> 0 ∧ c <> 58) as Hc by (intros c Hc; apply list_elem_of_In, H in Hc; zb; done).
  split; [split; [by intros [? ?]%Hc|by intros [? ?]%Hc|lia]|intros ->; cbn [length] in *; lia|done].
Qed.
Lemma plain_idsb s : is_wildcard s = false -> forallb message_idb (split_ids s) = true -> (1 <= length (split_ids s) <= 100)%nat -> plain_ids s.
Proof.
  intros Hw Hf Hl. right. rewrite forallb_forall in Hf. split; [|destruct (split_ids s); [cbn in Hl; lia|done]|lia]. intros t Ht. by apply message_idb_spec, Hf, list_elem_of_In.
Qed.
Lemma two_well_configured en : en ∈ config_list (sample_handle two_filters) -> well_configured (data en).
Proof.
  intros H. repeat (apply elem_of_cons in H as [->|H]); [..|by apply not_elem_of_nil in H].
  all: split; [split; cbn [data apids ctids ecuid sample_filter two_filters fmap option_fmap option_map]; intros s [= <-]|by intros s [[=]|[=]]].
  all: first [by left | by apply plain_idsb; [vm_compute..|vm_compute; lia] | by (split; [done|split; apply (bool_decide_unpack _); vm_compute])].
Qed.
Lemma two_inv : storage_inv (sample_handle two_filters).
Proof.
  split; [..|vm_compute; lia|]; [|done|].
  - intros e H. repeat (apply elem_of_cons in H as [->|H]); [..|by apply not_elem_of_nil in H]; by vm_compute.
  - intros e n H. repeat (apply elem_of_cons in H as [->|H]); [..|by apply not_elem_of_nil in H]; intros [= <-]; vm_compute; by eexists.
Qed.

Lemma message_memb m : bool_decide (0 ∈ m) = true -> message_idb (cstr 4 m) = true -> message_mem m.
Proof. intros H1 H2. split; [by apply bool_decide_eq_true in H1|by apply message_idb_spec]. Qed.

Lemma message_to_its_filters_witness :
  let m := sample_message 37 (lit "ECU1") in let h := sample_handle two_filters in
  ∃ ks, NoDup ks ∧
    (∀ k, k ∈ ks <-> ∃ en, config_list h !! k = Some en ∧ wants (data en) (lit "APP1") (lit "CTX1") (lit "ECU1") 2) ∧
    dlt_logstorage_write recording heap0 h [] m [1] [0] false [] =
      '(rc, st) ← store_loop recording heap0 ([], m, [1]) (Some <$> ks)
        {| st_handle := h; st_found := false; st_ret := 0; st_err := 0; st_disable_nw := false; st_world := [] |};
      Some (rc, st_handle st, st_disable_nw st, st_world st).
Proof.
  apply (message_to_its_filters recording heap0 (sample_handle two_filters) [] (sample_message 37 (lit "ECU1")) [1] [0] false [] 37 33).
  - exact heap0_ok.
  - exact two_inv.
  - done.
  - exact two_well_configured.
  - done.
  - done.
  - done.
  - by vm_compute.
  - by apply message_memb; vm_compute.
  - by apply message_memb; vm_compute.
  - by apply message_memb; vm_compute.
Defined.

(** Both filters of the example get the message. *)
Example two_written : written two_filters (sample_message 37 (lit "ECU1")) [0] = Some [0; 1]%nat.
Proof. vm_compute. reflexivity. Qed.

(** Lines of a file. *)
Definition conf (ls : list String.string) : bytes := concat ((λ l, lit l ++ [newline]) <$> ls).
Definition disconnected : DltLogStorage :=
  {| config_list := []; num_configs := 0; device_mount_point := []; connection_type := 0; config_status := 0; prepare_errors := 0; write_errors := 0;
     newest_file_list := []; maintain_logstorage_loglevel := -1 |}.
Definition connect (content : bytes) : option (Z * DltLogStorage * list nat) :=
  dlt_logstorage_device_connected recording heap0 (λ _, Some content) disconnected (lit "/media") [].
Definition loaded_filters (content : bytes) : option (Z * list (option bytes * option bytes)) :=
  '(rc, h, _) ← connect content; Some (rc, (λ e, (apids (data e), ctids (data e))) <$> config_list h).

Definition good_section (n a : String.string) : list String.string :=
  [n; String.append "LogAppName=" a; "ContextName=CTX1"; "LogLevel=DLT_LOG_INFO"; "File=log"; "FileSize=1000"; "NOFiles=2"]%string.

Lemma device_loads_witness :
  ∃ rc h', dlt_logstorage_device_connected recording heap0 (λ _, Some (conf (good_section "[FILTER1]" "APP1,LongName"))) disconnected (lit "/media") [] = Some (rc, h', []) ∧
    storage_inv h' ∧ (rc = -1 ∧ config_list h' = [] ∨ (rc = 0 ∨ rc = 1) ∧ ready h' = true).
Proof. apply (device_loads recording heap0 (λ _, Some (conf (good_section "[FILTER1]" "APP1,LongName"))) disconnected (lit "/media") []); [exact heap0_ok|done|done]. Defined.
Example one_loaded : loaded_filters (conf (good_section "[FILTER1]" "APP1,LongName")) = Some (0, [(Some (lit "APP1,Long"), Some (lit "CTX1"))]).
Proof. vm_compute. reflexivity. Qed.

(** ** What the logstorage does not do *)

(** [strlen] is called for identifiers that have no terminator: with four characters
    each and no zero behind them the memory behind the header is read. *)
Theorem ids_read_behind_header : written two_filters (sample_message 37 (lit "ECU1")) [] = None.
Proof. vm_compute. reflexivity. Qed.

(** A message without an ECU identifier is filtered by the bytes that are in its
    place, here the session identifier; where they begin with a zero, a filter without
    an ECU is found by two keys, so that the message is stored twice. *)
Theorem session_taken_for_ecu :
  DLT_IS_HTYP_WEID 41 = false ∧ written two_filters (sample_message 41 (lit "ECU1")) [0] = Some [0; 1]%nat ∧
  written two_filters (sample_message 41 [7; 7; 7; 7]) [0] = Some [0]%nat ∧ written two_filters (sample_message 41 [0; 0; 0; 7]) [0] = Some [0; 0]%nat.
Proof. vm_compute. split_and!; reflexivity. Qed.

(** A wildcard next to another name makes two keys of a filter find the message:
    it is stored twice, and as the search counts two filters it stops before the
    second one, which wants the message too. *)
Definition overlapping : DltLogStorageFilterConfig := sample_filter (Some "APP1,.*"%string) (Some "CTX1"%string) None 4.
Theorem overlap_hides_filter :
  written [overlapping; sample_filter (Some "APP1"%string) (Some "CTX1"%string) (Some "ECU1"%string) 4] (sample_message 37 (lit "ECU1")) [0] = Some [0; 0]%nat ∧
  written [sample_filter (Some "APP1"%string) (Some "CTX1"%string) (Some "ECU1"%string) 4] (sample_message 37 (lit "ECU1")) [0] = Some [0]%nat.
Proof. vm_compute. split; reflexivity. Qed.

(** With 124 such filters and another one the array of the search is written out of
    bounds. *)
Theorem overlap_overflows :
  written (replicate 124 overlapping ++ [sample_filter (Some "APP2"%string) (Some "CTX1"%string) None 4]) (sample_message 37 (lit "ECU1")) [0] = None.
Proof. vm_compute. reflexivity. Qed.

(** An unknown strategy is said to be replaced by the default, but the filter is
    refused. *)
Theorem unknown_strategy_refused :
  loaded_filters (conf (good_section "[FILTER1]" "APP1" ++ ["SyncBehavior=SOMETIMES"%string])) = Some (1, []) ∧
  (dlt_logstorage_check_sync_strategy fresh (lit "SOMETIMES")).1 = 1 ∧ sync (dlt_logstorage_check_sync_strategy fresh (lit "SOMETIMES")).2 = DLT_LOGSTORAGE_SYNC_ON_MSG.
Proof. vm_compute. split_and!; reflexivity. Qed.

(** A filter without the name of an application (which is optional) stops the loading
    of all filters behind it. *)
Theorem nameless_filter_stops_loading :
  loaded_filters (conf (["[FILTER1]"; "ContextName=CTX1"; "LogLevel=DLT_LOG_INFO"; "File=log"; "FileSize=1000"; "NOFiles=2"]%string ++ good_section "[FILTER2]" "APP1")) = Some (-1, []).
Proof. vm_compute. reflexivity. Qed.

(** The last character of the name of a section is not checked. *)
Theorem name_without_number : dlt_logstorage_validate_filter_name (lit "FILTERX") = 0 ∧ dlt_logstorage_validate_filter_name (lit "FILTERX1") = -1.
Proof. vm_compute. split; reflexivity. Qed.

End LogStorageSpec.
